(* ===== verification/_CoqProject ===== *)
-Q . S2P
Prelude.v
CStrings.v
Errors.v
LeaseStore.v
Lease.v
LeaseSystem.v
LeaseRenewal.v
RespClient.v
CProcess.v
E2eClient.v
AbiExamples.v
Manifest.v
CAbi.v
SqliteHeader.v
BindingHeader.v
Retry.v
Prog.v
WriteProtocol.v
Identity.v
Idempotency.v
ExactlyOnce.v
FencedWrites.v
Registry.v
ReadCache.v
SessionLife.v
ReadProtocol.v
Compaction.v
CompactionPass.v
Maintenance.v
ManifestStore.v
Descriptors.v
Observability.v
ReadGauge.v
SqliteExt.v
VendorHeader.v
VendorExt.v
Includes.v
AbiAgreement.v
VfsShim.v
VfsTables.v
VfsRegistry.v
RuntimeVfs.v
CgoHeader.v
Attach.v
RuntimeConfig.v
GoJson.v
NodeAddon.v
Handles.v
Adapter.v
CInterface.v
FileCache.v
RangeCache.v
LeaseQueue.v
LeaseId.v
MemoryReplica.v
Session.v
VfsRouting.v
TempBudget.v
BufferDir.v
