(* ===== verification/Prelude.v ===== *)
(** * walrusd: a verification development

    walrusd serves SQLite databases whose durable state is a chain of LTX files
    in object storage. A write takes a lease in Redis, opens a session over the
    chain, commits one transaction, flushes it as one file, updates the
    manifest that indexes the files, and gives the lease back; a read opens a
    session over the manifest and caches it; a background pass merges files.
    The core is Go ([lease/], [runtime/], [litestream/], [cache/],
    [identity/]); a loadable SQLite extension and the shim under it are C and
    cgo ([bindings/vfs/], [third_party/sqlite3vfs/]); the core is exported as a
    C interface ([bindings/c/]), which a Node addon in C++
    ([bindings/node/native/walrusd.cc]) and two C programs use
    ([e2e/c/e2e.c], [site/scripts/verify-examples/c/main.c]).

    ** How the parts are modelled

    Values: Go and C integers are [Z], with wrap-around written out
    ([wrap64], [wrapu64], [wrap32] below) where the code can reach it; times
    are nanoseconds; strings are byte sequences; a call that returns an error
    has type [res]; maps are finite maps. The [float64] arithmetic of the retry
    policy is the Standard Library's [spec_float]. Three styles are used: pure
    functions with explicit state for data structures; transition systems with
    rule induction where calls of several processes or goroutines interleave;
    and, for the long request handlers, programs over the calls they make
    ([Prog]), checked against protocol automata for every reply of the
    environment.

    - [Prelude] (this file): results, machine integers, shared lemmas and
      tactics. [Errors]: [walrusderr/errors.go] and error chains.
    - [LeaseStore]: the store interface of [lease/store.go] as a class with
      laws; [Memory] ([lease/memory.go]) and [Redis] ([lease/redis.go] with
      its two Lua scripts) are its instances. [Lease]: the lease manager
      ([lease/lease.go]) over any lawful store: one attempt, the retry loop
      and its back-off, renewal, release. [LeaseSystem]: any number of
      managers, clocks and lost replies on one key. [LeaseRenewal]: the
      goroutine of one lease, its ticker, [stopRenewal] and the two channels,
      one shared access at a time. [LeaseQueue]: the callers of one process
      that wait for the same key. [LeaseId]: [NewID].
    - [Manifest]: [litestream/manifest.go] (codec after JSON, deltas, coverage,
      the manifest client) and the trigger and garbage collector of
      [litestream/compact.go]. [Compaction]: merging a manifest through the
      client, with the library's compactor as a parameter under a contract.
      [CompactionPass]: [runCompaction] as a program, and the queue.
      [Maintenance]: [Maintain] and [pruneCovered] of [litestream/bridge.go],
      [Compact] deleting its own sources, [HasLTX]. [ManifestStore]: the three
      stores of the manifest as instances of one class with laws,
      [ReadManifest], [WriteManifest], [TailTXID], [BuildManifest], and where
      replica and manifest of a profile are kept.
    - [Retry]: [runtime/retry.go] and the loop of [WithWrite]. [Prog]: programs
      over an environment, monitors, safety. [WriteProtocol]:
      [withWriteAttempt]. [Idempotency]: [runtime/idempotency.go],
      [runtime/descriptor.go] and [WithWrite] as a whole. [ExactlyOnce]: any
      number of attempts of any number of processes, each the program of
      [WriteProtocol], over one history of uploads. [FencedWrites]: the same
      attempts under the leases of [LeaseSystem]. [ReadProtocol]: [WithRead].
      [ReadCache]: [cache/cache.go]. [Registry]: [database],
      [releaseDatabase], [Close]. [SessionLife]: the threads of a runtime over
      registry, read cache, sessions and VFS names, one critical section at a
      time. [Identity]: [identity/identity.go] and the names built from ids.
      [Observability]: [observability/observability.go]. [ReadGauge]: its gauge
      of cached sessions, fed by the notifications of [ReadCache].
    - [FileCache], [RangeCache]: [litestream/range_cache.go], the byte-bounded
      cache of files and the caching replica client, its methods as programs
      that run alone or interleaved over a store. [MemoryReplica]:
      [litestream/memory.go], a store of that kind.
    - [Session]: [litestream/session.go], opening, flushing and closing as
      programs. [VfsRouting]: many sessions over the tables of one wrapper
      ([litestream/bridge.go]). [TempBudget]: the budget of
      [litestream/file.go]. [BufferDir]: the buffer directory and the
      temporary files of that file and of [litestream/bridge.go].
    - [RuntimeConfig]: [Config], [New] and the defaults of [runtime/runtime.go],
      and [buildRuntimeConfig] of [bindings/c/handle.go].
    - [GoJson]: the strings [encoding/json] writes. [Handles]:
      [bindings/c/api.go] and [handle.go], the table of runtimes behind
      handles, every exported function, the envelopes as bytes. [Adapter]:
      [bindings/c/adapter.go], parameters, rows, statements, the read DSN.
      [Descriptors]: the descriptor of a request, followed to the registry key,
      the lease, the replica and the manifest.
      [NodeAddon]: [walrusd.cc], its heap, worker threads, threadsafe functions
      and promises, over any implementation of the C interface. [CInterface]:
      the envelopes under the scanners of the C programs, and the addon running
      over [Handles].
    - [CAbi]: C declarations as data. [SqliteHeader], [BindingHeader],
      [SqliteExt] and [VendorHeader], [VendorExt]: the copies of the SQLite
      headers beside the extension and under the shim, declaration by
      declaration. [Includes]: what a unit sees of them through the include
      guards. [AbiAgreement]: the copies agree.
      [VfsShim]: [sqlite3vfscgo.go], every callback. [VfsTables]:
      [sqlite3vfs.c], its trampolines and method tables. [VfsRegistry]: the
      names databases register with them ([litestream/litestream.go],
      [unregister.go], [bridge.go]). [RuntimeVfs]: the databases of
      [VfsRegistry] as the entries of [Registry]. [CgoHeader],
      [Attach]: the extension ([vfs.c], [main.go], the cgo header).
    - [CStrings]: the C string functions the programs use. [RespClient],
      [CProcess], [E2eClient]: [e2e.c], its Redis client over sockets that
      deliver any pieces, its two heaps, its scenario. [AbiExamples]:
      [main.c].

    ** What the theorems show

    - Leases: one caller of a process at a time asks the store for a key, and no
      local release is missed; two holders that both believe in their lease are the same one,
      for any interleaving and clocks within twice the allowance; each
      operation does what its documentation says on every branch; the renewal
      goroutine amounts to whole renewals, then releases, one after the
      other; it ends, and once it is stopped the token is stable; the two stores cannot
      be told apart.
    - Writes: for every behaviour of the environment, no fork of the chain, no
      acknowledgement without a confirmed flush and an indexed file, no reuse
      of an idempotency key, no stale plan, no leaked session, lease or
      reference; the retry loop ends and returns what it should. Over all
      processes and retries: an acknowledged write is durable and took effect
      exactly once, and no key takes effect twice, given that the storage
      engine accepts an upload only from the position it was made from. The
      lease alone gives that as long as uploads are made by attempts that still
      hold theirs. (And the run in which an upload made later forks the chain.)
    - Compaction: no transaction leaves the index; each pass keeps to its
      leases; the queue holds one pass per database. (And one defect: a
      cascading pass leaves a replaced file in the manifest and deletes it.)
      Pruning keeps every restore plan; compaction that deletes its sources
      loses no transaction, whichever listing or deletion fails.
    - Reads, registry, caches, names: the function runs at most once; sessions
      and databases are closed exactly once and never in use; the cache evicts
      the least recently used; ids and registry keys cannot collide. Every
      open session is in exactly one place, requests end within a counted
      number of steps, and a closed runtime leaves nothing open. (And the
      races that remove a VFS from under a session, and the read DSN that names
      a missing one.)
    - Manifest: round trip through any of its stores, atomic replacement of
      the file, validation, and the session's client as a set. (And the limit
      on reading that writing does not have.)
    - Metrics: buckets and totals are the sums of what was recorded; a write
      attempt counts what happened in it, once; the gauge of cached sessions
      is exact when calls do not overlap and otherwise never too low. (And the
      interleaving in which it stays too high.)
    - Replica cache: with one client per database and one call at a time it
      cannot be told from the client behind it; under any interleaving it
      serves only bytes once stored under the key it is asked for. (And the
      race in which a rewrite leaves old bytes behind.) The in-process client
      keeps the contract the cache is put in front of.
    - Sessions: whatever fails, pools, connections and registrations are given
      back once and in order, and a skipped flush is reported. (And the captured
      file that a failed open leaves behind.) However sessions interleave, each
      flushes and closes the file its own connection opened. The budget counts
      every byte once; the buffer directory is there while a file is open and
      gone after the last one.
    - Registration: every VFS that SQLite may call has its Go object, names are
      not shared, and the counter is exact, whichever registrations and
      removals fail. The registry keeps the discipline this needs, and bounds
      the names a process has registered.
    - Names of a request: requests meet in the registry exactly when database
      and place are the same; writers of one replica contend for one lease, and
      no background pass takes the lease of a write. (And the spellings of a
      prefix that share a manifest but not a lease.)
    - Configuration: what [New] accepts protects a request by its lease, as
      long as no duration wraps around.
    - C interface: a handle works from [init] to [close] and never again; each
      function answers with an envelope that its clients read correctly;
      integers and blobs pass exactly; a read returns every row or an error.
    - Node addon: every call settles at most once, with the core's answer; the
      memory that calls use is freed once; the only faults are those the
      theorem lists. (And the defects: the release that reads a freed call, the
      failed load that breaks a working addon.)
    - Extension and shim: a handle keeps its file; buffers are defined; the
      tables hold the right functions with the right types; the header copies
      describe the same interface, whichever a unit includes first. (And the
      defects found there.)
    - C programs: what a PASS proves about the run; which buffers fit, and the
      one-byte overflow of the Redis client.

    ** Bounds and fuel

    Loops over lists recurse on the list. Loops that wait
    ([acquireLocked], [withWriteLoop], [Put]) take the list of their rounds,
    and a theorem says which lists are long enough. [read_loop],
    [read_line_loop] and [dec] take fuel computed from their input by their
    callers, and their specifications show it is enough; the two [evict],
    [closeAll] and [emptyLocked] take the length of the list they shorten;
    the [run] of [ExactlyOnce] and [FencedWrites] only serves examples, the
    systems themselves have no fuel; [include] takes four,
    the includes nest two deep.

    ** What is not modelled, and why

    SQLite, the litestream library, Redis beyond its scripts, object storage,
    Node-API and the sockets are the environment: parameters, replies or
    inputs. Parsing of JSON is not modelled (a request, a record, a manifest
    start from the parsed value), nor are panics of the caller's function. In
    [ExactlyOnce] the storage engine contributes the hypothesis
    [conflict_detection], which [FencedWrites] does without. The file system of [BufferDir] and [ManifestStore] is
    the set of directories, or the manifest and its temporary files; what its
    calls answer is an input. The bindings for other languages, the website and
    the drivers in other languages are glue.

    ** Plan

    What could follow: the temporary files that [limitedFile] and
    [localTempFile] serve, as files with contents under the budget; the threads
    of [SessionLife] with the whole programs of [WriteProtocol] and
    [ReadProtocol] in the place of their lists of actions. *)

From stdpp Require Export base tactics list gmap strings fin_maps sorting.
From Stdlib Require Export ZArith Lia.
From Stdlib Require Ascii.
Export Ascii.AsciiSyntax.

Delimit Scope char_scope with char.

#[global] Open Scope Z_scope.

(** ** Results of fallible Go functions: [(value, error)] *)

Inductive res (E A : Type) : Type :=
  | Ok (a : A)
  | Err (e : E).
Arguments Ok {E A} a.
Arguments Err {E A} e.

#[export] Instance res_ret E : MRet (res E) := fun _ a => Ok a.
#[export] Instance res_bind E : MBind (res E) := fun _ _ f r =>
  match r with Ok a => f a | Err e => Err e end.

Definition is_ok {E A} (r : res E A) : bool :=
  match r with Ok _ => true | Err _ => false end.

(** ** Machine integers *)

Definition two63 : Z := 9223372036854775808.
Definition two64 : Z := 18446744073709551616.

(** Two's complement wrap-around of a 64-bit signed integer (Go [int64],
    [time.Duration], C [sqlite3_int64]). *)
Definition wrap64 (z : Z) : Z := (z + two63) `mod` two64 - two63.
(** Wrap-around of a 64-bit unsigned integer (Go [uint64]). *)
Definition wrapu64 (z : Z) : Z := z `mod` two64.
(** Conversion to a C [int]. *)
Definition wrap32 (z : Z) : Z := (z + 2147483648) `mod` 4294967296 - 2147483648.

Definition int64_range (z : Z) : Prop := - two63 <= z < two63.

Lemma wrap64_id z : int64_range z -> wrap64 z = z.
Proof. unfold int64_range, wrap64, two63, two64. intros. rewrite Z.mod_small; lia. Qed.

Lemma wrap64_range z : int64_range (wrap64 z).
Proof.
  unfold int64_range, wrap64, two63, two64.
  pose proof (Z.mod_pos_bound (z + 9223372036854775808) 18446744073709551616); lia.
Qed.

Lemma wrapu64_id z : 0 <= z < two64 -> wrapu64 z = z.
Proof. intros. unfold wrapu64. by rewrite Z.mod_small. Qed.

Lemma wrap32_id z : - 2147483648 <= z < 2147483648 -> wrap32 z = z.
Proof. unfold wrap32. intros. rewrite Z.mod_small; lia. Qed.

(** ** Strings (Go strings and C strings are byte sequences) *)

Lemma string_length_app (a b : string) :
  String.length (a +:+ b) = (String.length a + String.length b)%nat.
Proof.
  induction a as [|c a IH]; [done|].
  change (S (String.length (a +:+ b)) = S (String.length a + String.length b)).
  by rewrite IH.
Qed.

Lemma string_app_assoc (a b c : string) : (a +:+ b) +:+ c = a +:+ (b +:+ c).
Proof.
  induction a as [|x a IH]; [done|].
  change (String x ((a +:+ b) +:+ c) = String x (a +:+ (b +:+ c))). by rewrite IH.
Qed.

Lemma string_app_nil_r (a : string) : a +:+ "" = a.
Proof. induction a as [|x a IH]; [done|]. change (String x (a +:+ "") = String x a). by rewrite IH. Qed.

(** ** Automation *)

Create HintDb walrus.
#[export] Hint Resolve wrap64_id wrap64_range wrapu64_id wrap32_id : walrus.

(** Case analysis on every [if]/[match] of the goal or the context, then the
    equations it leaves. *)
Ltac crush_match := repeat (case_match || simplify_eq/=).

(** Boolean comparisons of the code, turned into propositions for [lia]. *)
Ltac bool_prop :=
  repeat match goal with
  | H : (_ <? _) = true |- _ => apply Z.ltb_lt in H
  | H : (_ <? _) = false |- _ => apply Z.ltb_ge in H
  | H : (_ <=? _) = true |- _ => apply Z.leb_le in H
  | H : (_ <=? _) = false |- _ => apply Z.leb_gt in H
  | H : (_ =? _) = true |- _ => apply Z.eqb_eq in H
  | H : (_ =? _) = false |- _ => apply Z.eqb_neq in H
  | H : (_ && _)%bool = true |- _ => apply andb_true_iff in H; destruct H
  | H : (_ || _)%bool = false |- _ => apply orb_false_iff in H; destruct H
  | H : (_ && _)%bool = false |- _ => apply andb_false_iff in H
  | H : (_ || _)%bool = true |- _ => apply orb_true_iff in H
  | H : negb _ = true |- _ => apply negb_true_iff in H
  | H : negb _ = false |- _ => apply negb_false_iff in H
  | H : bool_decide _ = true |- _ => apply bool_decide_eq_true in H
  | H : bool_decide _ = false |- _ => apply bool_decide_eq_false in H
  end.
