(* ===== verification/CStrings.v ===== *)
(** * CStrings: the C library's strings, as the C programs use them

    C strings are [string]s without the terminating zero byte. Models the
    functions of the C library that [e2e/c/e2e.c] and
    [site/scripts/verify-examples/c/main.c] call: [strstr], [strchr],
    [strrchr], [strcmp], [strtol], [snprintf] with [%s] and integer
    conversions, and the output position of [memcpy] into a fixed buffer. *)

From S2P Require Import Prelude.

(** ** Characters and literals *)

Definition code (c : Ascii.ascii) : Z := Z.of_N (Ascii.N_of_ascii c).
Definition chr (n : Z) : Ascii.ascii := Ascii.ascii_of_N (Z.to_N n).

Definition dquote : Ascii.ascii := chr 34.
Definition newline : Ascii.ascii := chr 10.
Definition carriage : Ascii.ascii := chr 13.
Definition crlf : string := String carriage (String newline "").

(** A string literal whose apostrophes stand for double quotes (the escaped
    quotes of the C sources). *)
Fixpoint lit (s : string) : string :=
  match s with
  | EmptyString => EmptyString
  | String c s => String (if Ascii.eqb c "'"%char then dquote else c) (lit s)
  end.

Definition slen (s : string) : Z := Z.of_nat (String.length s).

Lemma code_range c : 0 <= code c < 256.
Proof. unfold code. pose proof (Ascii.N_ascii_bounded c). lia. Qed.

Lemma code_chr n : 0 <= n < 256 -> code (chr n) = n.
Proof. intros. unfold code, chr. rewrite Ascii.N_ascii_embedding; lia. Qed.

Lemma code_inj a b : code a = code b -> a = b.
Proof.
  unfold code. intros Hc. apply N2Z.inj in Hc.
  rewrite <- (Ascii.ascii_N_embedding a), <- (Ascii.ascii_N_embedding b). by rewrite Hc.
Qed.

Lemma slen_app a b : slen (a +:+ b) = slen a + slen b.
Proof. unfold slen. rewrite string_length_app. lia. Qed.

Lemma slen_nonneg s : 0 <= slen s.
Proof. unfold slen. lia. Qed.

Lemma slen_cons c s : slen (String c s) = 1 + slen s.
Proof. unfold slen. cbn [String.length]. lia. Qed.

Lemma slen_lit s : slen (lit s) = slen s.
Proof. induction s as [|c s IH]; [done|]. cbn [lit]. by rewrite !slen_cons, IH. Qed.

Create Rewrite HintDb slen.
#[export] Hint Rewrite slen_app slen_cons slen_lit : slen.
#[export] Hint Resolve slen_nonneg code_range : walrus.

(** Lengths of concatenations, with those of the literals computed. *)
Ltac slen_calc :=
  rewrite ?slen_app, ?slen_lit in *;
  repeat match goal with
  | |- context [slen crlf] => change (slen crlf) with 2
  | |- context [slen EmptyString] => change (slen EmptyString) with 0
  | |- context [slen (String ?c ?s)] =>
      let v := eval vm_compute in (slen (String c s)) in
      lazymatch v with Zpos _ => change (slen (String c s)) with v end
  end.

(** The first [n] bytes, and the rest. *)
Fixpoint sfirst (n : nat) (s : string) : string :=
  match n, s with
  | S n, String c s => String c (sfirst n s)
  | _, _ => EmptyString
  end.
Fixpoint sskip (n : nat) (s : string) : string :=
  match n, s with
  | S n, String _ s => sskip n s
  | _, s => s
  end.

Lemma sfirst_skip n s : sfirst n s +:+ sskip n s = s.
Proof.
  revert n. induction s as [|c s IH]; intros [|n]; try done. cbn.
  change (String c (sfirst n s +:+ sskip n s) = String c s). by rewrite IH.
Qed.

Lemma sfirst_all n s : (String.length s <= n)%nat -> sfirst n s = s.
Proof.
  revert n. induction s as [|c s IH]; intros [|n] Hn; try done; cbn in *; [lia|].
  rewrite IH; [done|lia].
Qed.

Lemma sfirst_length n s : String.length (sfirst n s) = Nat.min n (String.length s).
Proof. revert n. induction s as [|c s IH]; intros [|n]; cbn; auto. Qed.

Lemma sskip_length n s : String.length (sskip n s) = (String.length s - n)%nat.
Proof. revert n. induction s as [|c s IH]; intros [|n]; cbn; auto. Qed.

Lemma sskip_app a b : sskip (String.length a) (a +:+ b) = b.
Proof. induction a as [|c a IH]; [done|exact IH]. Qed.

Lemma sfirst_app a b : sfirst (String.length a) (a +:+ b) = a.
Proof.
  induction a as [|c a IH]; [by destruct b|].
  change (String c (sfirst (String.length a) (a +:+ b)) = String c a). by rewrite IH.
Qed.

(** ** Searching *)

(** [strstr]: the suffix of [hay] that starts at the first occurrence. *)
Fixpoint strstr (hay needle : string) : option string :=
  if String.prefix needle hay then Some hay
  else match hay with
       | EmptyString => None
       | String _ hay => strstr hay needle
       end.

(** [strchr(s, c)] for [c] other than the zero byte: the prefix before the
    first occurrence and the suffix that starts with it. *)
Fixpoint strchr (s : string) (c : Ascii.ascii) : option (string * string) :=
  match s with
  | EmptyString => None
  | String x s' =>
      if Ascii.eqb x c then Some (EmptyString, s)
      else match strchr s' c with
           | Some (pre, suf) => Some (String x pre, suf)
           | None => None
           end
  end.

(** [strrchr(s, c)]: split at the last occurrence, which is dropped. *)
Fixpoint strrchr (s : string) (c : Ascii.ascii) : option (string * string) :=
  match s with
  | EmptyString => None
  | String x s' =>
      match strrchr s' c with
      | Some (pre, suf) => Some (String x pre, suf)
      | None => if Ascii.eqb x c then Some (EmptyString, s') else None
      end
  end.

Fixpoint strcmp (a b : string) : Z :=
  match a, b with
  | EmptyString, EmptyString => 0
  | EmptyString, String y _ => - code y
  | String x _, EmptyString => code x
  | String x a, String y b => if Ascii.eqb x y then strcmp a b else code x - code y
  end.

Lemma prefix_app needle rest : String.prefix needle (needle +:+ rest) = true.
Proof.
  induction needle as [|c n IH]; [by destruct rest|].
  change (String.prefix (String c n) (String c (n +:+ rest)) = true). cbn.
  by destruct (Ascii.ascii_dec c c).
Qed.

Lemma prefix_inv needle s :
  String.prefix needle s = true -> exists rest, s = needle +:+ rest.
Proof.
  revert s. induction needle as [|c n IH]; intros s Hp; [by exists s|].
  destruct s as [|x s]; [done|]. cbn in Hp. destruct (Ascii.ascii_dec c x) as [->|]; [|done].
  destruct (IH s Hp) as [rest ->]. by exists rest.
Qed.

Lemma strstr_some hay needle suf :
  strstr hay needle = Some suf -> exists pre rest, hay = pre +:+ suf /\ suf = needle +:+ rest.
Proof.
  revert suf. induction hay as [|c hay IH]; intros suf; cbn [strstr].
  - destruct (String.prefix _ _) eqn:Hp; [|done]. intros [= <-].
    destruct (prefix_inv _ _ Hp) as [rest Hr]. by exists "", rest.
  - destruct (String.prefix _ _) eqn:Hp.
    + intros [= <-]. destruct (prefix_inv _ _ Hp) as [rest Hr]. by exists "", rest.
    + intros Hs. destruct (IH _ Hs) as (pre & rest & -> & ->). by exists (String c pre), rest.
Qed.

(** [strstr] finds the needle whenever it occurs. *)
Lemma strstr_none hay needle :
  strstr hay needle = None -> forall pre rest, hay <> pre +:+ needle +:+ rest.
Proof.
  intros Hn pre. revert hay Hn. induction pre as [|c pre IH]; intros hay Hn rest ->.
  - change ("" +:+ needle +:+ rest) with (needle +:+ rest) in Hn.
    destruct (needle +:+ rest) eqn:He; cbn [strstr] in Hn; rewrite <- He, prefix_app in Hn; done.
  - change (String c pre +:+ needle +:+ rest) with (String c (pre +:+ needle +:+ rest)) in Hn.
    cbn [strstr] in Hn. destruct (String.prefix _ _); [done|]. by apply (IH _ Hn rest).
Qed.

Lemma strchr_spec s c pre suf :
  strchr s c = Some (pre, suf) ->
  s = pre +:+ suf /\ (exists t, suf = String c t) /\ strchr pre c = None.
Proof.
  revert pre suf. induction s as [|x s IH]; intros pre suf; cbn; [done|].
  destruct (Ascii.eqb_spec x c) as [->|Hne].
  - intros [= <- <-]. eauto.
  - destruct (strchr s c) as [[p q]|] eqn:Hs; [|done]. intros [= <- <-].
    destruct (IH _ _ eq_refl) as (-> & Hq & Hp). split_and!; [done|done|]. cbn.
    rewrite (proj2 (Ascii.eqb_neq x c) Hne). by rewrite Hp.
Qed.

Lemma strchr_app a c t : strchr a c = None -> strchr (a +:+ String c t) c = Some (a, String c t).
Proof.
  induction a as [|x a IH]; intros Ha.
  - change ("" +:+ String c t) with (String c t). cbn. by rewrite Ascii.eqb_refl.
  - change (String x a +:+ String c t) with (String x (a +:+ String c t)). cbn in *.
    destruct (Ascii.eqb x c); [done|]. destruct (strchr a c) as [[]|]; [done|]. by rewrite IH.
Qed.

(** No zero byte: what a C string can hold. *)
Fixpoint no_nul (s : string) : bool :=
  match s with EmptyString => true | String c s => negb (code c =? 0) && no_nul s end.

Lemma strcmp_zero a b : no_nul a = true -> no_nul b = true -> strcmp a b = 0 <-> a = b.
Proof.
  revert b. induction a as [|x a IH]; intros [|y b] Ha Hb; cbn in *; bool_prop.
  - done.
  - split; [lia|done].
  - split; [lia|done].
  - destruct (Ascii.eqb_spec x y) as [->|Hne].
    + rewrite IH by done. split; congruence.
    + split; [|congruence]. intros Hc. destruct Hne. apply code_inj. lia.
Qed.

(** ** Formatting and parsing integers *)

(** [%d], [%ld] and [%lld]: up to twenty digits, enough for 64 bits. *)
Fixpoint dec (fuel : nat) (n : Z) (acc : string) : string :=
  match fuel with
  | O => acc
  | S f =>
      let acc := String (chr (48 + n `mod` 10)) acc in
      if n / 10 =? 0 then acc else dec f (n / 10) acc
  end.
Definition fmt_d (z : Z) : string :=
  if z <? 0 then String "-"%char (dec 20 (- z) "") else dec 20 z "".

Definition is_digit (c : Ascii.ascii) : bool := (48 <=? code c) && (code c <=? 57).
Definition is_space (c : Ascii.ascii) : bool :=
  (code c =? 32) || ((9 <=? code c) && (code c <=? 13)).

Fixpoint digits (s : string) (acc : Z) : Z :=
  match s with
  | String c s => if is_digit c then digits s (10 * acc + (code c - 48)) else acc
  | EmptyString => acc
  end.

Definition LONG_MAX : Z := two63 - 1.
Definition LONG_MIN : Z := - two63.
Definition clamp (z : Z) : Z := Z.max LONG_MIN (Z.min LONG_MAX z).

(** [strtol(s, NULL, 10)] on a 64-bit [long]. *)
Fixpoint strtol (s : string) : Z :=
  match s with
  | EmptyString => 0
  | String c s' =>
      if is_space c then strtol s'
      else if Ascii.eqb c "-"%char then clamp (- digits s' 0)
      else if Ascii.eqb c "+"%char then clamp (digits s' 0)
      else clamp (digits s 0)
  end.

Lemma digits_dec fuel n s :
  (0 < fuel)%nat -> 0 <= n < 10 ^ Z.of_nat fuel -> digits (dec fuel n s) 0 = digits s n.
Proof.
  revert n s. induction fuel as [|f IH]; intros n s Hf Hn; [lia|].
  rewrite Nat2Z.inj_succ, Z.pow_succ_r in Hn by lia. cbn [dec].
  pose proof (Z.div_mod n 10 ltac:(lia)). pose proof (Z.mod_pos_bound n 10 ltac:(lia)).
  assert (Hd : forall v, digits (String (chr (48 + n `mod` 10)) s) v
                         = digits s (10 * v + n `mod` 10)).
  { intros v. cbn. unfold is_digit. rewrite !code_chr by lia.
    rewrite (proj2 (Z.leb_le _ _)), (proj2 (Z.leb_le _ _)) by lia. cbn. f_equal. lia. }
  destruct (Z.eqb_spec (n / 10) 0) as [Hz|Hz]; [rewrite Hd; f_equal; lia|].
  destruct f as [|f].
  { change (Z.of_nat 0) with 0 in Hn. destruct Hz. apply Z.div_small. lia. }
  rewrite IH; [|lia|].
  - rewrite Hd. f_equal. lia.
  - split; [apply Z.div_pos; lia|]. apply Z.div_lt_upper_bound; lia.
Qed.

Lemma dec_head fuel n s :
  (0 < fuel)%nat -> exists c t, dec fuel n s = String c t /\ is_digit c = true.
Proof.
  revert n s. induction fuel as [|f IH]; intros n s Hf; [lia|]. cbn [dec].
  pose proof (Z.mod_pos_bound n 10 ltac:(lia)).
  assert (Hd : is_digit (chr (48 + n `mod` 10)) = true).
  { unfold is_digit. rewrite code_chr by lia.
    by rewrite (proj2 (Z.leb_le _ _)), (proj2 (Z.leb_le _ _)) by lia. }
  destruct (n / 10 =? 0); [eauto|]. destruct f; [eauto|]. apply IH. lia.
Qed.

(** What follows a printed number does not continue it. *)
Definition ends_number (s : string) : bool :=
  match s with String c _ => negb (is_digit c) | EmptyString => true end.

Lemma digits_stop s n : ends_number s = true -> digits s n = n.
Proof. destruct s as [|c s]; [done|]. cbn. by destruct (is_digit c). Qed.

Lemma dec_app fuel n s t : dec fuel n s +:+ t = dec fuel n (s +:+ t).
Proof.
  revert n s. induction fuel as [|f IH]; intros n s; [done|]. cbn [dec].
  destruct (n / 10 =? 0); [done|]. by rewrite IH.
Qed.

Lemma digit_not c x :
  is_digit c = true -> (code x < 48 \/ 57 < code x) -> Ascii.eqb c x = false.
Proof.
  unfold is_digit. intros Hd Hx. bool_prop. apply Ascii.eqb_neq. intros ->. lia.
Qed.

(** Parsing a printed 64-bit integer gives it back. *)
Lemma strtol_fmt_d z rest :
  int64_range z -> ends_number rest = true -> strtol (fmt_d z +:+ rest) = z.
Proof.
  intros Hz Hr. unfold int64_range, two63 in Hz.
  assert (Hpow : 10 ^ Z.of_nat 20 = 100000000000000000000) by done.
  assert (Hclamp : clamp z = z) by (unfold clamp, LONG_MIN, LONG_MAX, two63; lia).
  unfold fmt_d. destruct (Z.ltb_spec z 0).
  - change (String "-"%char (dec 20 (- z) "") +:+ rest) with (String "-"%char (dec 20 (- z) "" +:+ rest)).
    cbn [strtol]. change (is_space "-"%char) with false. cbn match. rewrite dec_app.
    change ("" +:+ rest) with rest. rewrite digits_dec by lia. rewrite digits_stop by done.
    change (Ascii.eqb "-"%char "-"%char) with true. cbn match. by rewrite Z.opp_involutive.
  - rewrite dec_app. change ("" +:+ rest) with rest.
    destruct (dec_head 20 z rest ltac:(lia)) as (c & t & He & Hd).
    pose proof (digits_dec 20 z rest ltac:(lia) ltac:(lia)) as Hg. rewrite He in *.
    cbn [strtol].
    assert (is_space c = false) as ->
      by (unfold is_space, is_digit in *; bool_prop; apply orb_false_iff; split;
          [apply Z.eqb_neq|apply andb_false_iff; right; apply Z.leb_gt]; lia).
    rewrite (digit_not c "-"%char Hd (or_introl eq_refl)), (digit_not c "+"%char Hd (or_introl eq_refl)).
    by rewrite Hg, digits_stop.
Qed.

(** ** Fixed buffers *)

(** [snprintf(buf, size, ...)] of a formatted text [s]: what the buffer holds
    after it ([size] is never zero here). *)
Definition snprintf (size : Z) (s : string) : string := sfirst (Z.to_nat (size - 1)) s.

Lemma snprintf_fits size s : slen s < size -> snprintf size s = s.
Proof. unfold slen. intros Hs. apply sfirst_all. lia. Qed.

Lemma snprintf_bound size s : 0 < size -> slen (snprintf size s) < size.
Proof. unfold slen, snprintf. intros Hs. rewrite sfirst_length. lia. Qed.

Lemma fmt_d_nonempty z : exists c t, fmt_d z = String c t.
Proof.
  unfold fmt_d. destruct (z <? 0); [eauto|].
  destruct (dec_head 20 z "" ltac:(lia)) as (c & t & -> & _). eauto.
Qed.
