(* ===== verification/Errors.v ===== *)
(** * Errors: the classified error model ([walrusderr/errors.go]) and the
    classification decisions of [runtime/retry.go].

    A Go [error] value is a chain: a [*walrusderr.Error] with an optional
    cause, an [fmt.Errorf] wrapper (verb [%w]), an [sqlite3.Error], a sentinel,
    or an unclassified leaf. [errors.Is] and [errors.As] walk that chain. *)

From S2P Require Import Prelude CStrings.

(** ** Data *)

(** [walrusderr.Class]; the empty class of the code is [None] of an
    [option class]. *)
Inductive class :=
  | ClassBusy | ClassLeaseConflict | ClassFlushFailed | ClassRemoteUnavailable
  | ClassConflict | ClassConfigurationInvalid | ClassInvalidArgument
  | ClassIdempotencyMismatch.

#[export] Instance class_eq_dec : EqDecision class.
Proof. solve_decision. Defined.

Definition class_string (c : class) : string :=
  match c with
  | ClassBusy => "DB_BUSY"
  | ClassLeaseConflict => "DB_LEASE_CONFLICT"
  | ClassFlushFailed => "DB_FLUSH_FAILED"
  | ClassRemoteUnavailable => "DB_REMOTE_UNAVAILABLE"
  | ClassConflict => "DB_CONFLICT"
  | ClassConfigurationInvalid => "DB_CONFIGURATION_INVALID"
  | ClassInvalidArgument => "DB_INVALID_ARGUMENT"
  | ClassIdempotencyMismatch => "DB_IDEMPOTENCY_MISMATCH"
  end.

(** Sentinel errors compared by identity ([errors.Is]). *)
Inductive sentinel :=
  | ErrRetry               (* lease.errRetry *)
  | ErrNotFound            (* lease.ErrNotFound *)
  | ErrConflict            (* lease.ErrConflict *)
  | ErrAlreadyExists       (* lease.ErrAlreadyExists *)
  | ErrManifestNotFound    (* litestream.ErrManifestNotFound *)
  | ErrRegistryBusy        (* litestream.ErrRegistryBusy *)
  | ErrNoCompaction        (* litestream.ErrNoCompaction *)
  | ErrReadSessionClosed   (* runtime.errReadSessionClosed *)
  | ErrCanceled            (* context.Canceled *)
  | ErrDeadlineExceeded.   (* context.DeadlineExceeded *)

#[export] Instance sentinel_eq_dec : EqDecision sentinel.
Proof. solve_decision. Defined.

(** Error chains. [EWalrus cls msg cause retryAfterMs databaseID] is a
    [*walrusderr.Error]; [ESqlite code] an [sqlite3.Error] with that primary
    result code; [EWrapf] an [fmt.Errorf] wrapper. *)
Inductive goerror :=
  | EWalrus (Class : class) (Message : string) (Cause : option goerror)
            (retryAfterMs : Z) (databaseID : string)
  | EWrapf (msg : string) (cause : goerror)
  | ESqlite (Code : Z)
  | ESentinel (s : sentinel)
  | EOther (msg : string).

(** ** Constructors ([walrusderr.New], [Wrap], [Busy]) *)

Definition New (c : class) (msg : string) : goerror := EWalrus c msg None 0 "".
Definition Wrap (c : class) (msg : string) (cause : goerror) : goerror :=
  EWalrus c msg (Some cause) 0 "".
Definition Busy (msg : string) (retryAfterMs : Z) : goerror :=
  EWalrus ClassBusy msg None retryAfterMs "".

(** ** Walking the chain *)

(** [errors.Is(err, s)] *)
Fixpoint errors_Is (s : sentinel) (err : goerror) : bool :=
  match err with
  | EWalrus _ _ cause _ _ =>
      match cause with Some c => errors_Is s c | None => false end
  | EWrapf _ c => errors_Is s c
  | ESentinel s' => bool_decide (s = s')
  | ESqlite _ | EOther _ => false
  end.

(** [errors.As] with a [*walrusderr.Error] target: [ClassOf]. *)
Fixpoint ClassOf (err : goerror) : option class :=
  match err with
  | EWalrus c _ _ _ _ => Some c
  | EWrapf _ c => ClassOf c
  | ESqlite _ | ESentinel _ | EOther _ => None
  end.

(** [errors.As] with an [sqlite3.Error] target. *)
Fixpoint as_sqlite (err : goerror) : option Z :=
  match err with
  | EWalrus _ _ cause _ _ =>
      match cause with Some c => as_sqlite c | None => None end
  | EWrapf _ c => as_sqlite c
  | ESqlite code => Some code
  | ESentinel _ | EOther _ => None
  end.

(** [Error.RetryAfter]: the hint of a busy error. *)
Definition RetryAfter (c : class) (retryAfterMs : Z) : option Z :=
  if (bool_decide (c = ClassBusy) && (0 <? retryAfterMs))%bool
  then Some retryAfterMs else None.

(** [errors.As] with a [RetryAfterHint] target: the first [*Error] of the
    chain implements the interface, with or without a hint to give. *)
Fixpoint as_hint (err : goerror) : option (option Z) :=
  match err with
  | EWalrus c _ _ ms _ => Some (RetryAfter c ms)
  | EWrapf _ c => as_hint c
  | ESqlite _ | ESentinel _ | EOther _ => None
  end.

(** [strconv.Quote] of an ASCII string, which a database id is. *)
Definition hex_digit (n : Z) : Ascii.ascii := chr (if n <? 10 then 48 + n else 87 + n).
Definition quote_char (c : Ascii.ascii) : string :=
  let n := code c in
  let bs := chr 92 in
  if (n =? 34) || (n =? 92) then String bs (String c "")
  else if (32 <=? n) && negb (n =? 127) then String c ""
  else if n =? 7 then String bs "a" else if n =? 8 then String bs "b"
  else if n =? 12 then String bs "f" else if n =? 10 then String bs "n"
  else if n =? 13 then String bs "r" else if n =? 9 then String bs "t"
  else if n =? 11 then String bs "v"
  else String bs (String "x"%char (String (hex_digit (n / 16)) (String (hex_digit (n mod 16)) ""))).
Fixpoint quote_chars (s : string) : string :=
  match s with EmptyString => "" | String c s => quote_char c +:+ quote_chars s end.
Definition Quote (s : string) : string :=
  String dquote (quote_chars s +:+ String dquote "").

(** [WithDatabase]: annotate an error with the database it concerns. *)
Definition WithDatabase (err : option goerror) (databaseID : string) : option goerror :=
  match err with
  | None => None
  | Some e =>
      if String.eqb databaseID "" then Some e else
      match e with
      | EWalrus c m cause ms db =>
          if String.eqb db databaseID then Some e
          else Some (EWalrus c m cause ms databaseID)
      | _ => Some (EWrapf ("database_id " +:+ Quote databaseID) e)
      end
  end.

(** ** Texts *)

Section Texts.
(** The texts of the errors of other libraries. *)
Context (sqlite_text : Z -> string) (no_compaction_text : string).

Definition sentinel_text (s : sentinel) : string :=
  match s with
  | ErrRetry => "lease: retry"
  | ErrNotFound => "lease: not found"
  | ErrConflict => "lease: conditional write conflict"
  | ErrAlreadyExists => "lease: already exists"
  | ErrManifestNotFound => "litestream: manifest not found"
  | ErrRegistryBusy =>
      "litestream: vfs registry busy (callback re-entered the runtime, or an open is stuck)"
  | ErrNoCompaction => no_compaction_text
  | ErrReadSessionClosed => "runtime: cached read session closed"
  | ErrCanceled => "context canceled"
  | ErrDeadlineExceeded => "context deadline exceeded"
  end.

(** [Error()] *)
Fixpoint Error (err : goerror) : string :=
  match err with
  | EWalrus c m cause _ db =>
      let msg := if String.eqb db "" then m else "database_id " +:+ Quote db +:+ ": " +:+ m in
      class_string c +:+ ": " +:+ msg +:+
        match cause with Some e => ": " +:+ Error e | None => "" end
  | EWrapf msg e => msg +:+ ": " +:+ Error e
  | ESqlite code => sqlite_text code
  | ESentinel s => sentinel_text s
  | EOther m => m
  end.
End Texts.

(** Evaluate comparisons of known sentinels in the goal. *)
Ltac sentinels :=
  repeat match goal with
  | |- context [@bool_decide (@eq sentinel ?a ?b) ?d] =>
      let v := eval vm_compute in (@bool_decide (@eq sentinel a b) d) in
      match v with true => idtac | false => idtac end;
      change (@bool_decide (@eq sentinel a b) d) with v
  end; cbn.
