(* ===== verification/LeaseStore.v ===== *)
(** * LeaseStore: the lease store contract and its two backends

    Models [lease/store.go] (the interface), [lease/memory.go] and
    [lease/redis.go] (the Lua scripts run by the server). A backend is a state
    with three operations; [StoreLaws] says that, seen through its abstraction
    to a map from keys to a body and a fencing token, the operations are
    atomic compare-and-swap. Both backends are instances. Tokens are minted by
    [newToken] from the system's randomness: the token a write would mint is
    an argument of the operation. *)

From S2P Require Import Prelude Errors.

(** ** The interface *)

Class Store (S : Type) := {
  Get : S -> string -> res goerror (string * string);
  CreateIfAbsent : S -> string -> string -> string -> S * res goerror string;
    (* minted token, key, body *)
  ReplaceIfToken : S -> string -> string -> string -> string -> S * res goerror string;
    (* minted token, key, expected token, body *)
}.

(** The abstract store: for each key, the last body written and its token. *)
Abbreviation cas_map := (gmap string (string * string)).

(** The contract of [Store]: atomic compare-and-swap on [view]. *)
Class StoreLaws (S : Type) `{Store S} := {
  view : S -> cas_map;
  store_wf : S -> Prop;
  Get_spec s k : store_wf s ->
    Get s k = match view s !! k with
              | Some bt => Ok bt
              | None => Err (ESentinel ErrNotFound)
              end;
  Create_spec s tok k b : store_wf s ->
    store_wf (CreateIfAbsent s tok k b).1 /\
    match view s !! k with
    | Some _ => CreateIfAbsent s tok k b = (s, Err (ESentinel ErrAlreadyExists))
    | None => (CreateIfAbsent s tok k b).2 = Ok tok /\
              view (CreateIfAbsent s tok k b).1 = <[k := (b, tok)]> (view s)
    end;
  Replace_spec s tok k e b : store_wf s ->
    store_wf (ReplaceIfToken s tok k e b).1 /\
    match view s !! k with
    | None => ReplaceIfToken s tok k e b = (s, Err (ESentinel ErrNotFound))
    | Some (_, t) =>
        if String.eqb t e
        then (ReplaceIfToken s tok k e b).2 = Ok tok /\
             view (ReplaceIfToken s tok k e b).1 = <[k := (b, tok)]> (view s)
        else ReplaceIfToken s tok k e b = (s, Err (ESentinel ErrConflict))
    end;
}.

(** ** [MemoryStore] *)

Module Memory.
Record memEntry := mkEntry { body : string; token : string }.
Abbreviation store := (gmap string memEntry).

Definition Get (m : store) (key : string) : res goerror (string * string) :=
  match m !! key with
  | None => Err (ESentinel ErrNotFound)
  | Some e => Ok (body e, token e)
  end.

Definition CreateIfAbsent (m : store) (tok key b : string) : store * res goerror string :=
  match m !! key with
  | Some _ => (m, Err (ESentinel ErrAlreadyExists))
  | None => (<[key := mkEntry b tok]> m, Ok tok)
  end.

Definition ReplaceIfToken (m : store) (tok key expectedToken b : string)
    : store * res goerror string :=
  match m !! key with
  | None => (m, Err (ESentinel ErrNotFound))
  | Some e =>
      if negb (String.eqb (token e) expectedToken)
      then (m, Err (ESentinel ErrConflict))
      else (<[key := mkEntry b tok]> m, Ok tok)
  end.
End Memory.

#[export] Instance memory_store : Store Memory.store := {|
  Get := Memory.Get;
  CreateIfAbsent := Memory.CreateIfAbsent;
  ReplaceIfToken := Memory.ReplaceIfToken;
|}.

#[export, program] Instance memory_laws : StoreLaws Memory.store := {|
  view m := (fun e => (Memory.body e, Memory.token e)) <$> m;
  store_wf _ := True;
|}.
Next Obligation.
  intros s k _. cbn. unfold Memory.Get. rewrite lookup_fmap. by destruct (s !! k).
Qed.
Next Obligation.
  intros s tok k b _. cbn. unfold Memory.CreateIfAbsent. rewrite lookup_fmap.
  split; [done|]. destruct (s !! k); cbn; [done|]. by rewrite fmap_insert.
Qed.
Next Obligation.
  intros s tok k e b _. cbn. unfold Memory.ReplaceIfToken. rewrite lookup_fmap.
  split; [done|]. destruct (s !! k) as [[b0 t]|]; cbn; [|done].
  destruct (String.eqb t e); cbn; [by rewrite fmap_insert|done].
Qed.

(** ** [RedisStore]: one hash per key with fields [data] and [token] *)

Module Redis.
Abbreviation hash := (gmap string string).
Abbreviation server := (gmap string (gmap string string)).

(** Replies of the Lua scripts. *)
Definition luaCreate (r : server) (key data tok : string) : server * Z :=
  match r !! key with
  | Some _ => (r, 0)
  | None => (<[key := <["token" := tok]> {["data" := data]}]> r, 1)
  end.

Definition luaReplace (r : server) (key expected data tok : string) : server * Z :=
  match r !! key with
  | None => (r, 0)
  | Some h =>
      match h !! "token" with
      | None => (r, 0)
      | Some t =>
          if negb (String.eqb t expected) then (r, 2)
          else (<[key := <["token" := tok]> (<["data" := data]> h)]> r, 1)
      end
  end.

(** [HGetAll], then the [data] field decides; a missing [token] field reads
    as the empty string. *)
Definition Get (r : server) (key : string) : res goerror (string * string) :=
  let m := default ∅ (r !! key) in
  match m !! "data" with
  | None => Err (ESentinel ErrNotFound)
  | Some data => Ok (data, default "" (m !! "token"))
  end.

Definition CreateIfAbsent (r : server) (tok key b : string) : server * res goerror string :=
  let '(r, n) := luaCreate r key b tok in
  if n =? 0 then (r, Err (ESentinel ErrAlreadyExists)) else (r, Ok tok).

Definition ReplaceIfToken (r : server) (tok key expectedToken b : string)
    : server * res goerror string :=
  let '(r, n) := luaReplace r key expectedToken b tok in
  if n =? 1 then (r, Ok tok)
  else if n =? 0 then (r, Err (ESentinel ErrNotFound))
  else (r, Err (ESentinel ErrConflict)).

(** A hash the scripts wrote has both fields. *)
Definition entry (h : hash) : option (string * string) :=
  match h !! "data", h !! "token" with
  | Some d, Some t => Some (d, t)
  | _, _ => None
  end.

Definition wf (r : server) : Prop :=
  forall k h, r !! k = Some h -> is_Some (entry h).
End Redis.

#[export] Instance redis_store : Store Redis.server := {|
  Get := Redis.Get;
  CreateIfAbsent := Redis.CreateIfAbsent;
  ReplaceIfToken := Redis.ReplaceIfToken;
|}.

Lemma redis_view_insert (r : Redis.server) k h e :
  Redis.entry h = Some e -> omap Redis.entry (<[k := h]> r) = <[k := e]> (omap Redis.entry r).
Proof. intros He. by apply omap_insert_Some. Qed.

Lemma redis_wf_insert r k h : Redis.wf r -> is_Some (Redis.entry h) -> Redis.wf (<[k := h]> r).
Proof. intros Hr Hh k' h'. rewrite lookup_insert. case_decide; intros; simplify_eq; eauto. Qed.

(** The hash of a well-formed key, and what the view shows of it. *)
Lemma redis_lookup r k :
  Redis.wf r ->
  (r !! k = None /\ omap Redis.entry r !! k = None) \/
  exists h d t, r !! k = Some h /\ h !! "data" = Some d /\ h !! "token" = Some t /\
    omap Redis.entry r !! k = Some (d, t).
Proof.
  intros Hr. rewrite lookup_omap. destruct (r !! k) as [h|] eqn:Hk; [|by left].
  right. destruct (Hr k h Hk) as [[d t] He]. exists h, d, t. cbn.
  unfold Redis.entry in *. destruct (h !! "data"), (h !! "token"); simplify_eq. done.
Qed.

Lemma redis_entry_write h d t :
  Redis.entry (<["token" := t]> (<["data" := d]> h)) = Some (d, t).
Proof.
  unfold Redis.entry. rewrite lookup_insert_ne by done. by rewrite !lookup_insert_eq.
Qed.

#[export, program] Instance redis_laws : StoreLaws Redis.server := {|
  view r := omap Redis.entry r;
  store_wf := Redis.wf;
|}.
Next Obligation.
  intros r k Hr. cbn. unfold Redis.Get.
  destruct (redis_lookup r k Hr) as [[-> ->]|(h & d & t & -> & Hd & Ht & ->)]; cbn; [done|].
  by rewrite Hd, Ht.
Qed.
Next Obligation.
  intros r tok k b Hr. cbn. unfold Redis.CreateIfAbsent, Redis.luaCreate.
  destruct (redis_lookup r k Hr) as [[-> ->]|(h & d & t & -> & Hd & Ht & ->)]; cbn; [|done].
  pose proof (redis_entry_write ∅ b tok) as He. rewrite insert_empty in He.
  split; [apply redis_wf_insert; eauto|]. split; [done|]. by apply redis_view_insert.
Qed.
Next Obligation.
  intros r tok k e b Hr. cbn. unfold Redis.ReplaceIfToken, Redis.luaReplace.
  destruct (redis_lookup r k Hr) as [[-> ->]|(h & d & t & -> & Hd & Ht & ->)]; cbn; [done|].
  rewrite Ht. destruct (String.eqb t e); cbn; [|done].
  pose proof (redis_entry_write h b tok) as He.
  split; [apply redis_wf_insert; eauto|]. split; [done|]. by apply redis_view_insert.
Qed.

(** ** Sequences of operations on any backend *)

Inductive store_op :=
  | OpGet (key : string)
  | OpCreate (tok key body : string)
  | OpReplace (tok key expected body : string).

Inductive store_reply :=
  | ReplyGet (r : res goerror (string * string))
  | ReplyWrite (r : res goerror string).

Section Clients.
Context {S : Type} `{StoreLaws S}.

Definition run_op (s : S) (o : store_op) : S * store_reply :=
  match o with
  | OpGet k => (s, ReplyGet (Get s k))
  | OpCreate tok k b => let '(s, r) := CreateIfAbsent s tok k b in (s, ReplyWrite r)
  | OpReplace tok k e b => let '(s, r) := ReplaceIfToken s tok k e b in (s, ReplyWrite r)
  end.

Fixpoint run_ops (s : S) (os : list store_op) : S * list store_reply :=
  match os with
  | [] => (s, [])
  | o :: os => let '(s, r) := run_op s o in let '(s, rs) := run_ops s os in (s, r :: rs)
  end.

(** The abstract step the contract describes. *)
Definition abs_op (m : cas_map) (o : store_op) : cas_map * store_reply :=
  match o with
  | OpGet k => (m, ReplyGet (match m !! k with
                 | Some bt => Ok bt | None => Err (ESentinel ErrNotFound) end))
  | OpCreate tok k b =>
      match m !! k with
      | Some _ => (m, ReplyWrite (Err (ESentinel ErrAlreadyExists)))
      | None => (<[k := (b, tok)]> m, ReplyWrite (Ok tok))
      end
  | OpReplace tok k e b =>
      match m !! k with
      | None => (m, ReplyWrite (Err (ESentinel ErrNotFound)))
      | Some (_, t) => if String.eqb t e then (<[k := (b, tok)]> m, ReplyWrite (Ok tok))
                       else (m, ReplyWrite (Err (ESentinel ErrConflict)))
      end
  end.

Lemma run_op_abs s o :
  store_wf s -> store_wf (run_op s o).1 /\
  abs_op (view s) o = (view (run_op s o).1, (run_op s o).2).
Proof.
  intros Hs. destruct o as [k|tok k b|tok k e b]; cbn.
  - by rewrite (Get_spec s k Hs).
  - destruct (Create_spec s tok k b Hs) as [Hwf Hc].
    destruct (view s !! k) eqn:Hk.
    + rewrite Hc in *. done.
    + destruct (CreateIfAbsent s tok k b) as [s' r]. cbn in *. destruct Hc as [-> ->]. done.
  - destruct (Replace_spec s tok k e b Hs) as [Hwf Hc].
    destruct (view s !! k) as [[b0 t]|] eqn:Hk; [destruct (String.eqb t e)|].
    + destruct (ReplaceIfToken s tok k e b) as [s' r]. cbn in *. destruct Hc as [-> ->]. done.
    + rewrite Hc in *. done.
    + rewrite Hc in *. done.
Qed.
End Clients.

Fixpoint abs_ops (m : cas_map) (os : list store_op) : cas_map * list store_reply :=
  match os with
  | [] => (m, [])
  | o :: os => let '(m, r) := abs_op m o in let '(m, rs) := abs_ops m os in (m, r :: rs)
  end.

Lemma run_ops_abs {S} `{StoreLaws S} (s : S) os :
  store_wf s -> store_wf (run_ops s os).1 /\
  abs_ops (view s) os = (view (run_ops s os).1, (run_ops s os).2).
Proof.
  revert s. induction os as [|o os IH]; intros s Hs; [done|]. cbn.
  destruct (run_op_abs s o Hs) as [Hs1 Ho]. destruct (run_op s o) as [s1 r]. cbn in *.
  rewrite Ho. destruct (IH s1 Hs1) as [Hs2 Hos]. destruct (run_ops s1 os) as [s2 rs]. cbn in *.
  by rewrite Hos.
Qed.



(** Successful writes among the replies. *)
Definition wins (rs : list store_reply) : nat :=
  length (List.filter (fun r => match r with ReplyWrite (Ok _) => true | _ => false end) rs).

Lemma losers_do_not_write (m : cas_map) k e (ws : list (string * string)) :
  (exists b' t, m !! k = Some (b', t) /\ t <> e) ->
  abs_ops m ((fun w => OpReplace w.1 k e w.2) <$> ws)
    = (m, (fun _ => ReplyWrite (Err (ESentinel ErrConflict))) <$> ws) /\
  wins ((fun _ : string * string => ReplyWrite (Err (ESentinel ErrConflict))) <$> ws) = O.
Proof.
  intros (b' & t & Hk & Ht). split.
  - induction ws as [|w ws IH]; [done|]. cbn.
    rewrite Hk, (proj2 (String.eqb_neq t e) Ht). by rewrite IH.
  - unfold wins. induction ws; [done|]. done.
Qed.

(** Of any number of writers that race to replace the record they all read,
    exactly one succeeds, on either backend: the first to reach the store. The
    others get a conflict and change nothing. (Minted tokens differ from the
    token raced for.) *)
Theorem replace_race_one_winner {S} `{StoreLaws S} (s : S) (k body e : string)
    (w : string * string) (ws : list (string * string))
    (Hs : store_wf s) (Hk : view s !! k = Some (body, e)) (Hw : w.1 <> e) :
  let run := run_ops s ((fun w => OpReplace w.1 k e w.2) <$> (w :: ws)) in
  wins run.2 = 1%nat /\ view run.1 = <[k := (w.2, w.1)]> (view s).
Proof.
  intros run. destruct (run_ops_abs s ((fun w => OpReplace w.1 k e w.2) <$> (w :: ws)) Hs) as [_ Ha].
  fold run in Ha. clearbody run. cbn in Ha. rewrite Hk, String.eqb_refl in Ha.
  destruct (losers_do_not_write (<[k := (w.2, w.1)]> (view s)) k e ws) as (Hl & Hz).
  { exists w.2, w.1. split; [apply lookup_insert_eq|done]. }
  rewrite Hl in Ha. destruct run as [s' rs]. cbn in *. injection Ha as Hv <-.
  split; [|by symmetry]. unfold wins in *. cbn. by rewrite Hz.
Qed.

Lemma replace_race_one_winner_witness :
  let s : Redis.server := (CreateIfAbsent (∅ : Redis.server) "t0" "k" "a").1 in
  wins (run_ops s ((fun w => OpReplace w.1 "k" "t0" w.2) <$> [("t1", "b"); ("t2", "c")])).2 = 1%nat.
Proof.
  refine (proj1 (replace_race_one_winner (S := Redis.server) _ "k" "a" "t0" ("t1", "b")
    [("t2", "c")] _ _ _)).
  - apply (Create_spec (S := Redis.server)). intros k h Hk. discriminate Hk.
  - reflexivity.
  - discriminate.
Defined.
