(* ===== verification/Lease.v ===== *)
(** * Lease: the lease manager ([lease/lease.go])

    One [Definition] per method of [Manager] and [Held], over any store that
    satisfies [StoreLaws]. Times and durations are [int64] nanoseconds. The
    clock readings, the random lease id and the token a write mints are
    arguments, so each definition is the code between two clock readings or
    store calls; [LeaseSystem] interleaves them. *)

From S2P Require Import Prelude Errors LeaseStore.

(** ** Data *)

Definition second : Z := 1000000000.
Definition millisecond : Z := 1000000.

Definition StateHeld : string := "held".
Definition StateReleased : string := "released".

(** [lease.Record] *)
Record record := mkRecord {
  FormatVersion : Z;
  DatabaseID : string;
  State : string;
  Owner : string;
  LeaseID : string;
  Epoch : Z;
  ExpiresAt : Z;
}.

#[export] Instance record_eq_dec : EqDecision record.
Proof. solve_decision. Defined.

(** [lease.Config] (the clock override is the [now] argument of each step). *)
Record config := mkConfig {
  Duration : Z;
  ClockSkewAllowance : Z;
  AcquireRetryBudget : Z;
  RetryBackoffMin : Z;
  RetryBackoffMax : Z;
}.

Definition DefaultConfig : config :=
  mkConfig (30 * second) (2 * second) (3 * second) (25 * millisecond) (500 * millisecond).

(** The fields of [Manager] its methods read. *)
Record manager := mkManager { cfg : config; owner : string }.

Definition NewManager (c : config) (o : string) : manager :=
  mkManager (if Duration c =? 0 then DefaultConfig else c) o.

(** [lease.Held]: an acquired lease. *)
Record held := mkHeld {
  key : string;
  h_record : record;
  version : string;
  lost : bool;
  maxExpiry : Z;
}.

Definition with_expiry (r : record) (t : Z) : record :=
  mkRecord (FormatVersion r) (DatabaseID r) (State r) (Owner r) (LeaseID r) (Epoch r) t.
Definition with_state (r : record) (st : string) : record :=
  mkRecord (FormatVersion r) (DatabaseID r) st (Owner r) (LeaseID r) (Epoch r) (ExpiresAt r).

(** ** Pure parts of the protocol *)

(** [newRecord]: the record of a fresh acquisition. *)
Definition newRecord (m : manager) (db : string) (prevEpoch now : Z) (newID : string) : record :=
  mkRecord 1 db StateHeld (owner m) newID (wrapu64 (prevEpoch + 1)) (now + Duration (cfg m)).

(** [safelyExpired] of [acquireOnce]. *)
Definition safelyExpired (c : config) (rec : record) (now : Z) : bool :=
  ExpiresAt rec <? now - ClockSkewAllowance c.

(** [newHeld]: renewal may extend the lease to three durations in all. *)
Definition newHeld (m : manager) (k : string) (rec : record) (tok : string) : held :=
  mkHeld k rec tok false (ExpiresAt rec + 2 * Duration (cfg m)).

(** The record the next heartbeat writes ([renewLoop] between the tick and the
    store call); [None] when the hold window is exhausted. *)
Definition renewRecord (m : manager) (h : held) (now : Z) : option record :=
  let next := now + Duration (cfg m) in
  if maxExpiry h <? next then None else Some (with_expiry (h_record h) next).

(** The record [Release] writes. *)
Definition releaseRecord (h : held) (now : Z) : record :=
  with_expiry (with_state (h_record h) StateReleased) now.

Definition markLost (h : held) : held :=
  mkHeld (key h) (h_record h) (version h) true (maxExpiry h).
Definition renewed (h : held) (rec : record) (tok : string) : held :=
  mkHeld (key h) (with_expiry (h_record h) (ExpiresAt rec)) tok (lost h) (maxExpiry h).

(** [Runtime.leaseStale] ([runtime/runtime.go]), for a non-nil lease. *)
Definition leaseStale (c : config) (h : held) (now : Z) : bool :=
  lost h || negb (now <? ExpiresAt (h_record h) - ClockSkewAllowance c).

(** ** Operations on the store *)

Section Manager.
Context {S : Type} `{StoreLaws S}.
(** [json.Marshal] and [json.Unmarshal] of a record. *)
Context (marshal : record -> string) (unmarshal : string -> option record).

(** What [acquireOnce] decides after [Get]. *)
Inductive plan :=
  | PlanCreate (rec : record)
  | PlanReplace (expected : string) (rec : record)
  | PlanFail (err : goerror).

(** [acquireOnce] up to its conditional write. [now] is the reading that
    decides expiry, [now'] the one [newRecord] takes. *)
Definition acquirePlan (m : manager) (db : string) (got : res goerror (string * string))
    (now now' : Z) (newID : string) : plan :=
  match got with
  | Err e =>
      if errors_Is ErrNotFound e then
        let rec := newRecord m db 0 now' newID in
        PlanCreate (mkRecord (FormatVersion rec) (DatabaseID rec) (State rec) (Owner rec)
                      (LeaseID rec) 1 (ExpiresAt rec))
      else PlanFail (Wrap ClassRemoteUnavailable "read lease" e)
  | Ok (body, tok) =>
      match unmarshal body with
      | None => PlanFail (Wrap ClassConfigurationInvalid "corrupt lease record" (EOther "json"))
      | Some rec =>
          if negb (String.eqb (DatabaseID rec) db) then
            PlanFail (New ClassConfigurationInvalid "lease record database_id mismatch")
          else if String.eqb (State rec) StateHeld && negb (safelyExpired (cfg m) rec now) then
            PlanFail (EWrapf "held and unexpired" (ESentinel ErrRetry))
          else PlanReplace tok (newRecord m db (Epoch rec) now' newID)
      end
  end.

(** [create] and [replace]: the conditional write and its outcome. *)
Definition acquireWrite (m : manager) (s : S) (k : string) (p : plan) (tok : string)
    : S * res goerror held :=
  match p with
  | PlanFail e => (s, Err e)
  | PlanCreate rec =>
      let '(s, r) := CreateIfAbsent s tok k (marshal rec) in
      (s, match r with
          | Ok v => Ok (newHeld m k rec v)
          | Err e => if errors_Is ErrAlreadyExists e || errors_Is ErrConflict e
                     then Err (EWrapf "lost create race" (ESentinel ErrRetry))
                     else Err (Wrap ClassRemoteUnavailable "create lease" e)
          end)
  | PlanReplace expected rec =>
      let '(s, r) := ReplaceIfToken s tok k expected (marshal rec) in
      (s, match r with
          | Ok v => Ok (newHeld m k rec v)
          | Err e => if errors_Is ErrConflict e || errors_Is ErrNotFound e
                     then Err (EWrapf "CAS conflict on acquire" (ESentinel ErrRetry))
                     else Err (Wrap ClassRemoteUnavailable "replace lease" e)
          end)
  end.

(** [acquireOnce], run without interference. *)
Definition acquireOnce (m : manager) (s : S) (db k : string) (now now' : Z)
    (newID tok : string) : S * res goerror held :=
  acquireWrite m s k (acquirePlan m db (Get s k) now now' newID) tok.

(** One iteration of [renewLoop] after a tick: [None] ends the loop with the
    lease untouched, otherwise the new held lease; the loop also ends when it
    is lost. *)
Definition renewTick (m : manager) (s : S) (h : held) (now : Z) (tok : string)
    : S * option held :=
  match renewRecord m h now with
  | None => (s, None)
  | Some rec =>
      let '(s, r) := ReplaceIfToken s tok (key h) (version h) (marshal rec) in
      (s, Some (match r with Ok v => renewed h rec v | Err _ => markLost h end))
  end.

(** [Release]: [stopRenewal] has made the token stable. *)
Definition Release (s : S) (h : held) (now : Z) (tok : string) : S * option goerror :=
  let '(s, r) := ReplaceIfToken s tok (key h) (version h) (marshal (releaseRecord h now)) in
  (s, match r with
      | Ok _ => None
      | Err e => if errors_Is ErrConflict e || errors_Is ErrNotFound e
                 then Some (New ClassLeaseConflict "stale lease release (successor owns lease)")
                 else Some (Wrap ClassRemoteUnavailable "release lease" e)
      end).
End Manager.

(** ** Behaviour of one operation *)

Section Behaviour.
Context {S : Type} `{StoreLaws S}.
Context (marshal : record -> string) (unmarshal : string -> option record).
Hypothesis unmarshal_marshal : forall r, unmarshal (marshal r) = Some r.

(** The abstract content of a lease key. *)
Inductive content :=
  | Absent
  | Corrupt
  | Holds (rec : record) (tok : string).

Definition content_of (s : S) (k : string) : content :=
  match view s !! k with
  | None => Absent
  | Some (b, t) => match unmarshal b with Some r => Holds r t | None => Corrupt end
  end.

(** Whether a contender for [db] may take the lease over at [now]. *)
Definition takeable (c : config) (db : string) (now : Z) (rec : record) : bool :=
  String.eqb (DatabaseID rec) db &&
  negb (String.eqb (State rec) StateHeld && negb (safelyExpired c rec now)).

Lemma replace_hit (s : S) tok k e b b0 :
  store_wf s -> view s !! k = Some (b0, e) ->
  exists s', ReplaceIfToken s tok k e b = (s', Ok tok) /\ store_wf s' /\
    view s' = <[k := (b, tok)]> (view s).
Proof.
  intros Hs Hk. destruct (Replace_spec s tok k e b Hs) as [Hwf Hr].
  rewrite Hk, String.eqb_refl in Hr. destruct (ReplaceIfToken s tok k e b) as [s' r].
  cbn in *. destruct Hr as [-> Hv]. eauto.
Qed.

Lemma replace_miss (s : S) tok k e b :
  store_wf s -> (forall b0, view s !! k <> Some (b0, e)) ->
  exists err, ReplaceIfToken s tok k e b = (s, Err (ESentinel err)) /\
    (err = ErrConflict \/ err = ErrNotFound).
Proof.
  intros Hs Hk. destruct (Replace_spec s tok k e b Hs) as [_ Hr].
  destruct (view s !! k) as [[b0 t]|] eqn:Hv.
  - destruct (String.eqb_spec t e) as [->|]; [by destruct (Hk b0)|]. eauto.
  - eauto.
Qed.

Lemma create_hit (s : S) tok k b :
  store_wf s -> view s !! k = None ->
  exists s', CreateIfAbsent s tok k b = (s', Ok tok) /\ store_wf s' /\
    view s' = <[k := (b, tok)]> (view s).
Proof.
  intros Hs Hk. destruct (Create_spec s tok k b Hs) as [Hwf Hr]. rewrite Hk in Hr.
  destruct (CreateIfAbsent s tok k b) as [s' r]. cbn in *. destruct Hr as [-> Hv]. eauto.
Qed.

(** The outcome of a winning acquisition. *)
Definition acquired (m : manager) (s : S) (db k newID tok : string) (ep now' : Z)
    (run : S * res goerror held) : Prop :=
  exists h, run.2 = Ok h /\ version h = tok /\ key h = k /\ lost h = false /\
    h_record h = mkRecord 1 db StateHeld (owner m) newID ep (now' + Duration (cfg m)) /\
    view run.1 = <[k := (marshal (h_record h), tok)]> (view s) /\ store_wf run.1.

Lemma acquireOnce_takes (m : manager) (s : S) (db k newID tok b t : string) rec (now now' : Z) :
  store_wf s -> view s !! k = Some (b, t) -> unmarshal b = Some rec ->
  takeable (cfg m) db now rec = true ->
  acquired m s db k newID tok (wrapu64 (Epoch rec + 1)) now'
    (acquireOnce marshal unmarshal m s db k now now' newID tok).
Proof.
  unfold takeable, acquireOnce. intros Hs Hk Hb Ht. rewrite (Get_spec s k Hs), Hk. cbn. rewrite Hb.
  apply andb_prop in Ht as [Hd Hst]. apply negb_true_iff in Hst. rewrite Hd. cbn. rewrite Hst. cbn.
  destruct (replace_hit s tok k t (marshal (newRecord m db (Epoch rec) now' newID)) b Hs Hk)
    as (s' & -> & Hwf & Hv). cbn.
  eexists. repeat split; done.
Qed.

Lemma Release_hit (s : S) (h : held) (now : Z) (tok b : string) :
  store_wf s -> view s !! key h = Some (b, version h) ->
  let run := Release marshal s h now tok in
  run.2 = None /\ store_wf run.1 /\
  view run.1 = <[key h := (marshal (releaseRecord h now), tok)]> (view s).
Proof.
  intros Hs Hb. unfold Release.
  by destruct (replace_hit s tok _ _ (marshal (releaseRecord h now)) b Hs Hb) as (s' & -> & Hwf & Hv).
Qed.

(** C30  An undisturbed acquisition attempt: an absent key is created with epoch 1,
    a released or safely expired record of the same database is replaced with
    the next epoch, and in both cases the caller holds exactly the record and
    token now in the store; a held, unexpired record gives the retry error;
    another database's or an undecodable record is a configuration error.
    Every failure leaves the store untouched. *)
Theorem acquireOnce_spec (m : manager) (s : S) (db k newID tok : string) (now now' : Z)
    (Hs : store_wf s) :
  let run := acquireOnce marshal unmarshal m s db k now now' newID tok in
  match content_of s k with
  | Absent => acquired m s db k newID tok 1 now' run
  | Corrupt => run.1 = s /\ exists e, run.2 = Err e /\ ClassOf e = Some ClassConfigurationInvalid
  | Holds rec _ =>
      if takeable (cfg m) db now rec
      then acquired m s db k newID tok (wrapu64 (Epoch rec + 1)) now' run
      else run.1 = s /\ exists e, run.2 = Err e /\
        if String.eqb (DatabaseID rec) db then errors_Is ErrRetry e = true
        else ClassOf e = Some ClassConfigurationInvalid
  end.
Proof.
  unfold content_of. destruct (view s !! k) as [[b t]|] eqn:Hk; cbn.
  - destruct (unmarshal b) as [rec|] eqn:Hb; cbn.
    + destruct (takeable (cfg m) db now rec) eqn:Ht; [by eapply acquireOnce_takes|].
      unfold takeable, acquireOnce in *. rewrite (Get_spec s k Hs), Hk. cbn. rewrite Hb.
      destruct (String.eqb (DatabaseID rec) db); cbn in *; [|eauto].
      destruct (String.eqb (State rec) StateHeld && _); cbn in *; [eauto|done].
    + unfold acquireOnce. rewrite (Get_spec s k Hs), Hk. cbn. rewrite Hb. cbn. eauto.
  - unfold acquireOnce. rewrite (Get_spec s k Hs), Hk.
    destruct (create_hit s tok k
      (marshal (mkRecord 1 db StateHeld (owner m) newID 1 (now' + Duration (cfg m)))) Hs Hk)
      as (s' & Hc & Hwf & Hv).
    cbn. sentinels. rewrite Hc. cbn. eexists. repeat split; done.
Qed.

(** Releasing with the token still in the store writes the released record and
    succeeds; when the token has moved (a successor took over, or the key is
    gone) the store is untouched and the error is [DB_LEASE_CONFLICT]. *)
Theorem release_spec (s : S) (h : held) (now : Z) (tok : string) (Hs : store_wf s) :
  let run := Release marshal s h now tok in
  (forall b, view s !! key h = Some (b, version h) ->
     run.2 = None /\ store_wf run.1 /\
     view run.1 = <[key h := (marshal (releaseRecord h now), tok)]> (view s)) /\
  ((forall b, view s !! key h <> Some (b, version h)) ->
     run.1 = s /\ exists e, run.2 = Some e /\ ClassOf e = Some ClassLeaseConflict).
Proof.
  split; [intros b; by apply Release_hit|]. intros Hb. unfold Release.
  destruct (replace_miss s tok _ _ (marshal (releaseRecord h now)) Hs Hb) as (e & -> & [->| ->]);
    cbn; sentinels; eauto.
Qed.

(** However often a lease is renewed, and at whatever clock readings, its expiry
    never passes the hold window fixed at acquisition: two durations after
    the first expiry. Past the window the heartbeat leaves the store alone,
    so a wedged holder is eventually taken over. *)
Theorem renewal_bounded (m : manager) (s : S) (h : held) (now : Z) (tok : string)
    (Hh : ExpiresAt (h_record h) <= maxExpiry h) :
  match renewTick marshal m s h now tok with
  | (s', None) => s' = s /\ maxExpiry h < now + Duration (cfg m)
  | (s', Some h') => maxExpiry h' = maxExpiry h /\ ExpiresAt (h_record h') <= maxExpiry h' /\
      LeaseID (h_record h') = LeaseID (h_record h) /\ Epoch (h_record h') = Epoch (h_record h)
  end.
Proof.
  unfold renewTick, renewRecord. destruct (Z.ltb_spec (maxExpiry h) (now + Duration (cfg m))).
  - done.
  - destruct (ReplaceIfToken _ _ _ _ _) as [s' [v|e]]; cbn; auto.
Qed.

(** A released lease passes to the next contender at once: whoever released it,
    any manager of the same database acquires it on its first attempt,
    whatever its clock says, with the next epoch. *)
Theorem release_then_acquire (m : manager) (s : S) (h : held) (now nowa now' : Z)
    (tok tok' newID b : string) (Hs : store_wf s)
    (Hb : view s !! key h = Some (b, version h)) :
  let s1 := (Release marshal s h now tok).1 in
  exists h', (acquireOnce marshal unmarshal m s1 (DatabaseID (h_record h)) (key h)
                nowa now' newID tok').2 = Ok h' /\
    Epoch (h_record h') = wrapu64 (Epoch (h_record h) + 1).
Proof.
  intros s1. destruct (Release_hit s h now tok b Hs Hb) as (_ & Hs1 & Hv1).
  destruct (acquireOnce_takes m s1 (DatabaseID (h_record h)) (key h) newID tok'
              (marshal (releaseRecord h now)) tok (releaseRecord h now) nowa now')
    as (h' & Hok & _ & _ & _ & Hr & _); auto.
  - unfold s1. by rewrite Hv1, lookup_insert_eq.
  - unfold takeable. cbn. by rewrite String.eqb_refl.
  - exists h'. by rewrite Hok, Hr.
Qed.
End Behaviour.

(** ** Retrying an acquisition *)

(** [jitter(min, max)]: [n] is the random draw in [[0, max - min)]; [None]
    when the entropy source fails. *)
Definition jitter (min max : Z) (n : Z -> option Z) : Z :=
  if max <=? min then min
  else match n (wrap64 (max - min)) with
       | None => min
       | Some k => wrap64 (min + k)
       end.

(** The loop of [retryDelay]. *)
Fixpoint grow (attempt : nat) (delay max : Z) : Z :=
  match attempt with
  | O => delay
  | S attempt =>
      if delay <? max then
        if max ÷ 2 <? delay then max else grow attempt (wrap64 (delay * 2)) max
      else delay
  end.

(** The bounds [retryDelay] works with: defaults for unset values, and the
    maximum raised to the minimum. *)
Definition backoffMin (c : config) : Z :=
  if RetryBackoffMin c <=? 0 then 25 * millisecond else RetryBackoffMin c.
Definition backoffMax (c : config) : Z :=
  let max := if RetryBackoffMax c <=? 0 then 500 * millisecond else RetryBackoffMax c in
  if max <? backoffMin c then backoffMin c else max.

Definition retryDelay (c : config) (attempt : nat) (n : Z -> option Z) : Z :=
  let min := backoffMin c in
  let max := backoffMax c in
  let delay := grow attempt min max in
  let delay := if max <? delay then max else delay in
  let low := delay ÷ 2 in
  let low := if low <? min then min else low in
  jitter low delay n.

(** What ended the wait between two attempts. *)
Inductive wake := TimerFired | LocalRelease | CtxDone (err : goerror).

(** One iteration of the loop in [acquireLocked]: the attempt's outcome, the
    monotonic time since the start, whether the context is done by then, and
    what the [select] chose. *)
Record round := mkRound {
  outcome : res goerror held;
  elapsed : Z;
  ctxDone : bool;
  woke : wake;
}.

Definition acquireBusy (c : config) : goerror :=
  Busy "lease held by another owner" (RetryBackoffMax c ÷ millisecond).

(** [acquireLocked] over the rounds its environment deals it; [None] while the
    loop is still waiting for the next one. *)
Fixpoint acquireLocked (c : config) (rounds : list round) : option (res goerror held) :=
  match rounds with
  | [] => None
  | r :: rounds =>
      match outcome r with
      | Ok h => Some (Ok h)
      | Err e =>
          if negb (errors_Is ErrRetry e) then Some (Err e)
          else if (AcquireRetryBudget c <? elapsed r) || ctxDone r then Some (Err (acquireBusy c))
          else match woke r with
               | CtxDone err => Some (Err err)
               | TimerFired | LocalRelease => acquireLocked c rounds
               end
      end
  end.

Lemma grow_spec attempt delay max :
  0 < delay <= max -> int64_range max ->
  grow attempt delay max = Z.min max (delay * 2 ^ Z.of_nat attempt).
Proof.
  revert delay. induction attempt as [|n IH]; intros delay Hd Hm.
  - cbn. lia.
  - cbn [grow]. rewrite Nat2Z.inj_succ, Z.pow_succ_r by lia.
    assert (Hp : 0 < 2 ^ Z.of_nat n) by (apply Z.pow_pos_nonneg; lia).
    rewrite Z.quot_div_nonneg by lia.
    pose proof (Z.div_mod max 2 ltac:(lia)). pose proof (Z.mod_pos_bound max 2 ltac:(lia)).
    destruct (Z.ltb_spec delay max); [destruct (Z.ltb_spec (max / 2) delay)|]; [nia| |nia].
    unfold int64_range in *. rewrite wrap64_id by (unfold int64_range; lia).
    rewrite IH by (unfold int64_range; lia). f_equal. lia.
Qed.

(** The delay before retry number [attempt] is drawn from the upper half of an
    exponential step: at least the configured minimum and half the step, never
    above the step, and the step is the minimum doubled once per attempt up to
    the configured maximum. No intermediate value overflows. *)
Theorem retryDelay_bounds (c : config) (attempt : nat) (n : Z -> option Z)
    (Hmin : int64_range (RetryBackoffMin c)) (Hmax : int64_range (RetryBackoffMax c))
    (Hn : forall span k, n span = Some k -> 0 <= k < span) :
  let step := Z.min (backoffMax c) (backoffMin c * 2 ^ Z.of_nat attempt) in
  backoffMin c <= retryDelay c attempt n <= step /\ step ÷ 2 <= retryDelay c attempt n.
Proof.
  assert (Hb : 0 < backoffMin c <= backoffMax c /\ int64_range (backoffMax c)).
  { unfold backoffMax, backoffMin, millisecond, int64_range, two63 in *. repeat case_match; bool_prop; lia. }
  destruct Hb as [Hb Hr]. intros step. unfold retryDelay. rewrite (grow_spec attempt _ _ Hb Hr).
  fold step. assert (Hs : backoffMin c <= step <= backoffMax c).
  { assert (0 < 2 ^ Z.of_nat attempt) by (apply Z.pow_pos_nonneg; lia). unfold step. nia. }
  clearbody step. destruct (Z.ltb_spec (backoffMax c) step); [lia|].
  rewrite Z.quot_div_nonneg by lia.
  pose proof (Z.div_mod step 2 ltac:(lia)). pose proof (Z.mod_pos_bound step 2 ltac:(lia)).
  set (low := if step / 2 <? backoffMin c then _ else _).
  assert (Hlow : backoffMin c <= low <= step /\ step / 2 <= low)
    by (unfold low; destruct (Z.ltb_spec (step / 2) (backoffMin c)); lia).
  clearbody low. unfold jitter. unfold int64_range in *.
  destruct (Z.leb_spec step low); [lia|].
  rewrite wrap64_id by (unfold int64_range; lia).
  destruct (n _) as [k|] eqn:Hk; [|lia].
  apply Hn in Hk. rewrite wrap64_id by (unfold int64_range; lia). lia.
Qed.

Definition maximalDraw (span : Z) : option Z := if 0 <? span then Some (span - 1) else None.

Lemma retryDelay_bounds_witness :
  retryDelay DefaultConfig 3 maximalDraw = 200 * millisecond - 1 /\
  25 * millisecond <= retryDelay DefaultConfig 3 maximalDraw <= 200 * millisecond.
Proof.
  split; [reflexivity|].
  refine (proj1 (retryDelay_bounds DefaultConfig 3 maximalDraw _ _ _)).
  - split; [discriminate|reflexivity].
  - split; [discriminate|reflexivity].
  - intros span k. unfold maximalDraw. destruct (Z.ltb_spec 0 span); intros; simplify_eq; lia.
Defined.

(** The acquisition loop stops at the first attempt that does not ask for a
    retry, and at the latest with the first one past the budget; the internal
    retry error never reaches the caller: it is answered by [DB_BUSY] carrying
    the maximal backoff, or by the context's error. *)
Theorem acquireLocked_stops (c : config) (rounds : list round) (last : round)
    (Hlast : AcquireRetryBudget c < elapsed last)
    (Hctx : forall r err, r ∈ rounds -> woke r = CtxDone err -> errors_Is ErrRetry err = false) :
  exists r, acquireLocked c (rounds ++ [last]) = Some r /\
    match r with
    | Ok h => exists x, x ∈ rounds ++ [last] /\ outcome x = Ok h
    | Err e => errors_Is ErrRetry e = false /\
        ((exists x, x ∈ rounds ++ [last] /\ (outcome x = Err e \/ woke x = CtxDone e)) \/
         (e = acquireBusy c /\ ClassOf e = Some ClassBusy))
    end.
Proof.
  assert (Hbusy : errors_Is ErrRetry (acquireBusy c) = false) by (cbn; by sentinels).
  induction rounds as [|x rounds IH]; cbn.
  - destruct (outcome last) as [h|e] eqn:Ho; [eexists; split; [done|]; exists last; set_solver|].
    destruct (errors_Is ErrRetry e) eqn:He; cbn.
    + rewrite (proj2 (Z.ltb_lt _ _) Hlast). eexists. split; [done|]. split; [done|by right].
    + eexists. split; [done|]. split; [done|]. left. exists last. set_solver.
  - destruct (outcome x) as [h|e] eqn:Ho; [eexists; split; [done|]; exists x; set_solver|].
    destruct (errors_Is ErrRetry e) eqn:He; cbn;
      [|eexists; split; [done|]; split; [done|]; left; exists x; set_solver].
    destruct (_ || _); [eexists; split; [done|]; split; [done|by right]|].
    destruct (woke x) as [| |err] eqn:Hw;
      [| |eexists; split; [done|]; split; [apply (Hctx x); set_solver|]; left; exists x; set_solver].
    all: destruct IH as (r & -> & Hr); [intros; eapply Hctx; eauto; set_solver|];
      exists r; split; [done|].
    all: destruct r; [destruct Hr as (y & ? & ?); exists y; set_solver|].
    all: destruct Hr as [? [(y & ? & ?)|?]]; split; [done|left; exists y; set_solver|done|by right].
Qed.

Definition expiredRound : round :=
  mkRound (Err (EWrapf "held and unexpired" (ESentinel ErrRetry))) (4 * second) false TimerFired.

Lemma acquireLocked_stops_witness :
  exists r, acquireLocked DefaultConfig [mkRound (outcome expiredRound) 0 false LocalRelease; expiredRound]
    = Some r /\ r = Err (acquireBusy DefaultConfig).
Proof.
  destruct (acquireLocked_stops DefaultConfig [mkRound (outcome expiredRound) 0 false LocalRelease]
              expiredRound) as (r & Hr & _).
  - reflexivity.
  - intros x err Hx Hw. apply list_elem_of_singleton in Hx. subst. discriminate.
  - exists r. split; [exact Hr|]. vm_compute in Hr. by injection Hr as <-.
Defined.

(** ** A codec for records, to run the model with *)

Module Codec.
Fixpoint bits (p : positive) : string :=
  match p with
  | xH => EmptyString
  | xO p => String "0"%char (bits p)
  | xI p => String "1"%char (bits p)
  end.

Fixpoint unbits (s : string) : positive :=
  match s with
  | EmptyString => xH
  | String c s => if Ascii.eqb c "0"%char then xO (unbits s) else xI (unbits s)
  end.

Definition fields (r : record) :=
  (FormatVersion r, DatabaseID r, State r, Owner r, LeaseID r, Epoch r, ExpiresAt r).

#[export] Instance record_countable : Countable record :=
  inj_countable' fields
    (fun '(a, b, c, d, e, f, g) => mkRecord a b c d e f g)
    (fun r => match r with mkRecord _ _ _ _ _ _ _ => eq_refl end).

Definition marshal (r : record) : string := bits (encode r).
Definition unmarshal (s : string) : option record := decode (unbits s).

Lemma unbits_bits p : unbits (bits p) = p.
Proof. induction p; cbn; congruence. Qed.

Lemma roundtrip r : unmarshal (marshal r) = Some r.
Proof. unfold unmarshal, marshal. by rewrite unbits_bits, decode_encode. Qed.
End Codec.

(** A store with one lease, taken by process "a" at time 0. *)
Definition mgrA : manager := mkManager DefaultConfig "a".
Definition mgrB : manager := mkManager DefaultConfig "b".
Definition acquiredA : Memory.store * res goerror held :=
  acquireOnce Codec.marshal Codec.unmarshal mgrA (∅ : Memory.store) "db" "k" 0 0 "id-a" "t1".
Definition heldA : held := newHeld mgrA "k" (mkRecord 1 "db" StateHeld "a" "id-a" 1 (30 * second)) "t1".

Lemma memory_wf (m : Memory.store) : store_wf m.
Proof. exact I. Defined.

Lemma acquireOnce_spec_witness :
  exists e, (acquireOnce Codec.marshal Codec.unmarshal mgrB acquiredA.1 "db" "k" (31 * second)
               (31 * second) "id-b" "t2").2 = Err e /\ errors_Is ErrRetry e = true.
Proof.
  pose proof (acquireOnce_spec Codec.marshal Codec.unmarshal mgrB acquiredA.1 "db" "k" "id-b" "t2"
                (31 * second) (31 * second) (memory_wf _)) as H.
  vm_compute in H. destruct H as (_ & e & He & Hr).
  exists e. split; [vm_compute; exact He|exact Hr].
Defined.

Lemma release_spec_witness :
  (Release Codec.marshal acquiredA.1 heldA (5 * second) "t2").2 = None.
Proof.
  destruct (release_spec Codec.marshal acquiredA.1 heldA (5 * second) "t2" (memory_wf _)) as [H _].
  refine (proj1 (H (Codec.marshal (h_record heldA)) _)). vm_compute. reflexivity.
Defined.

Lemma renewal_bounded_witness :
  match renewTick Codec.marshal mgrA acquiredA.1 heldA (10 * second) "t2" with
  | (_, Some h) => ExpiresAt (h_record h) <= 90 * second
  | (_, None) => False
  end.
Proof.
  pose proof (renewal_bounded Codec.marshal mgrA acquiredA.1 heldA (10 * second) "t2"
                ltac:(vm_compute; discriminate)) as H.
  destruct (renewTick Codec.marshal mgrA acquiredA.1 heldA (10 * second) "t2") as [s' [h|]] eqn:Hr.
  - destruct H as (Hm & He & _). rewrite Hm in He. exact He.
  - destruct H as [_ H]. vm_compute in H. discriminate.
Defined.

Lemma release_then_acquire_witness :
  exists h', (acquireOnce Codec.marshal Codec.unmarshal mgrB
                (Release Codec.marshal acquiredA.1 heldA (5 * second) "t2").1 "db" "k"
                0 (2 * second) "id-b" "t3").2 = Ok h' /\ Epoch (h_record h') = 2.
Proof.
  refine (release_then_acquire Codec.marshal Codec.unmarshal Codec.roundtrip mgrB acquiredA.1 heldA
            (5 * second) 0 (2 * second) "t2" "t3" "id-b" (Codec.marshal (h_record heldA)) (memory_wf _) _).
  vm_compute. reflexivity.
Defined.
