(* ===== verification/LeaseSystem.v ===== *)
(** * LeaseSystem: many managers, one lease key

    The interleaving of any number of processes running the manager of
    [Lease] against one store: a step relation whose atomic steps are the
    clock readings and store calls of [lease/lease.go]. Processes have clocks
    that differ by at most twice the skew allowance; a store call may be
    applied and its reply lost, or not be applied at all. *)

From S2P Require Import Prelude Errors LeaseStore Lease.

(** An acquisition in flight: between [Get] and the clock reading, or between
    the decision and the conditional write. *)
Inductive attempt :=
  | AGot (p : nat) (got : res goerror (string * string))
  | APlan (p : nat) (pl : plan).

(** Where the renewal loop of an acquired lease stands. [Prepared]: the next
    record is computed; [Renewing]: the store has it, the [Held] value not
    yet; [Ended]: released or abandoned. *)
Inductive phase :=
  | Live
  | Prepared (rec : record)
  | Renewing (rec : record) (tok : string)
  | Ended.

Record hold := mkHold { h_proc : nat; h_held : held; h_phase : phase }.

Section System.
Context {S : Type} `{StoreLaws S}.
Context (marshal : record -> string) (unmarshal : string -> option record).
(** The shared configuration, the database and its lease key, the name and
    the clock offset of every process. *)
Context (C : config) (db lkey : string) (oname : nat -> string) (off : nat -> Z).

Definition mgr (p : nat) : manager := mkManager C (oname p).

Record sys := mkSys {
  st : S;
  now : Z;
  used : gset string;
  attempts : gmap nat attempt;
  holds : gmap nat hold;
}.

Definition clock (s : sys) (p : nat) : Z := now s + off p.
Definition cell (s : sys) : option (string * string) := view (st s) !! lkey.

Definition set_hold (s : sys) (st' : S) (used' : gset string) (i : nat) (x : hold) : sys :=
  mkSys st' (now s) used' (attempts s) (<[i := x]> (holds s)).

(** How a conditional write can turn out for its caller: the reply arrives,
    the reply is lost after the write took effect, or the write never
    happens and the call fails. *)
Inductive delivery := Delivered | ReplyLost | NotApplied.

Inductive step (s : sys) : sys -> Prop :=
  | StepTick d : 0 <= d ->
      step s (mkSys (st s) (now s + d) (used s) (attempts s) (holds s))
  | StepGet a p : attempts s !! a = None ->
      step s (mkSys (st s) (now s) (used s)
                (<[a := AGot p (Get (st s) lkey)]> (attempts s)) (holds s))
  | StepPlan a p got newID d : attempts s !! a = Some (AGot p got) -> 0 <= d ->
      step s (mkSys (st s) (now s + d) (used s)
                (<[a := APlan p (acquirePlan unmarshal (mgr p) db got (clock s p) (clock s p + d) newID)]>
                   (attempts s)) (holds s))
  | StepAcquire a p pl tok st' r i d :
      attempts s !! a = Some (APlan p pl) -> tok ∉ used s -> holds s !! i = None ->
      acquireWrite marshal (mgr p) (st s) lkey pl tok = (st', r) ->
      step s (mkSys (match d with NotApplied => st s | _ => st' end) (now s)
                ({[tok]} ∪ used s) (delete a (attempts s))
                (match d, r with
                 | Delivered, Ok h => <[i := mkHold p h Live]> (holds s)
                 | _, _ => holds s
                 end))
  | StepPrepare i p h rec :
      holds s !! i = Some (mkHold p h Live) -> lost h = false ->
      renewRecord (mgr p) h (clock s p) = Some rec ->
      step s (set_hold s (st s) (used s) i (mkHold p h (Prepared rec)))
  | StepRenew i p h rec tok st' r d :
      holds s !! i = Some (mkHold p h (Prepared rec)) -> tok ∉ used s ->
      ReplaceIfToken (st s) tok (key h) (version h) (marshal rec) = (st', r) ->
      step s (set_hold s (match d with NotApplied => st s | _ => st' end) ({[tok]} ∪ used s) i
                (match d, r with
                 | Delivered, Ok v => mkHold p h (Renewing rec v)
                 | _, _ => mkHold p (markLost h) Live
                 end))
  | StepCommit i p h rec tok :
      holds s !! i = Some (mkHold p h (Renewing rec tok)) ->
      step s (set_hold s (st s) (used s) i (mkHold p (renewed h rec tok) Live))
  | StepRelease i p h tok st' r (d : delivery) :
      holds s !! i = Some (mkHold p h Live) -> tok ∉ used s ->
      Release marshal (st s) h (clock s p) tok = (st', r) ->
      step s (set_hold s (match d with NotApplied => st s | _ => st' end) ({[tok]} ∪ used s) i
                (mkHold p h Ended))
  | StepAbandon i p h :
      holds s !! i = Some (mkHold p h Live) ->
      step s (set_hold s (st s) (used s) i (mkHold p h Ended)).

(** A run starts with no acquisition under way; the store may hold a record
    already, under a token no process will mint again. *)
Record initial (s : sys) : Prop := {
  ini_wf : store_wf (st s);
  ini_tok : forall b t, cell s = Some (b, t) -> t ∈ used s;
  ini_att : attempts s = ∅;
  ini_holds : holds s = ∅;
}.

Inductive reachable : sys -> Prop :=
  | ReachInit s : initial s -> reachable s
  | ReachStep s s' : reachable s -> step s s' -> reachable s'.

(** The caller of a held lease may go on: it has not been released and
    [leaseStale] is false on the holder's own clock. *)
Definition believes_held (s : sys) (i : nat) : Prop :=
  exists x, holds s !! i = Some x /\ h_phase x <> Ended /\
    leaseStale C (h_held x) (clock s (h_proc x)) = false.


(** ** The invariant *)

Hypothesis unmarshal_marshal : forall r, unmarshal (marshal r) = Some r.

(** The token the store holds while this lease owns the key, and the expiry
    the store shows for it. *)
Definition otok (x : hold) : string :=
  match h_phase x with Renewing _ tok => tok | _ => version (h_held x) end.
Definition estar (x : hold) : Z :=
  ExpiresAt (match h_phase x with Renewing rec _ => rec | _ => h_record (h_held x) end).

(** Some process's clock has passed [e] by more than the allowance. *)
Definition overdue (t e : Z) : Prop := exists q, e + ClockSkewAllowance C < t + off q.

Definition owns (c : option (string * string)) (x : hold) : Prop :=
  exists b rec, c = Some (b, otok x) /\ unmarshal b = Some rec /\
    State rec = StateHeld /\ estar x <= ExpiresAt rec.
Definition superseded (c : option (string * string)) (t : Z) (x : hold) : Prop :=
  (forall b, c <> Some (b, otok x)) /\ overdue t (estar x).

Definition fresh_record (t : Z) (p : nat) (rec : record) : Prop :=
  State rec = StateHeld /\ ExpiresAt rec <= t + off p + Duration C.

Definition phase_ok (t : Z) (x : hold) : Prop :=
  match h_phase x with
  | Prepared rec | Renewing rec _ =>
      fresh_record t (h_proc x) rec /\ ExpiresAt (h_record (h_held x)) <= ExpiresAt rec
  | _ => True
  end.

Definition hold_ok (c : option (string * string)) (t : Z) (u : gset string) (x : hold) : Prop :=
  h_phase x <> Ended ->
  otok x ∈ u /\ key (h_held x) = lkey /\
    (lost (h_held x) = false ->
   fresh_record t (h_proc x) (h_record (h_held x)) /\ phase_ok t x /\
    (owns c x \/ superseded c t x)).

Definition attempt_ok (c : option (string * string)) (t : Z) (u : gset string) (a : attempt) : Prop :=
  match a with
  | AGot _ (Ok (b, k)) => k ∈ u /\ (forall b', c = Some (b', k) -> b' = b)
  | AGot _ (Err _) | APlan _ (PlanFail _) => True
  | APlan p (PlanCreate r) => fresh_record t p r
  | APlan p (PlanReplace k r) =>
      k ∈ u /\ fresh_record t p r /\
    (forall b rec, c = Some (b, k) -> unmarshal b = Some rec -> State rec = StateHeld ->
         overdue t (ExpiresAt rec))
  end.

Record inv (s : sys) : Prop := {
  i_wf : store_wf (st s);
  i_cell : forall b t, cell s = Some (b, t) -> t ∈ used s;
  i_att : map_Forall (fun _ => attempt_ok (cell s) (now s) (used s)) (attempts s);
  i_holds : map_Forall (fun _ => hold_ok (cell s) (now s) (used s)) (holds s);
  i_distinct : forall i j x y, holds s !! i = Some x -> holds s !! j = Some y ->
    h_phase x <> Ended -> h_phase y <> Ended -> otok x = otok y -> i = j;
}.

(** *** Time passes, tokens are spent *)

Lemma overdue_mono t t' e : t <= t' -> overdue t e -> overdue t' e.
Proof. intros Ht [q Hq]. exists q. lia. Qed.

Lemma fresh_record_mono t t' p r : t <= t' -> fresh_record t p r -> fresh_record t' p r.
Proof. intros Ht []. split; [done|lia]. Qed.

Lemma phase_ok_mono t t' x : t <= t' -> phase_ok t x -> phase_ok t' x.
Proof.
  unfold phase_ok. intros Ht. destruct (h_phase x); intuition eauto using fresh_record_mono.
Qed.

Lemma hold_ok_mono c t t' u u' x :
  t <= t' -> u ⊆ u' -> hold_ok c t u x -> hold_ok c t' u' x.
Proof.
  intros Ht Hu Hx Hp. destruct (Hx Hp) as (Htok & Hkey & Hown). split_and!; [set_solver|done|].
  intros Hl. destruct (Hown Hl) as (Hf & Hph & [Ho|[Hc Ho]]).
  all: split_and!; [exact (fresh_record_mono _ _ _ _ Ht Hf)|exact (phase_ok_mono _ _ _ Ht Hph)|].
  - by left.
  - right. split; [done|]. by eapply overdue_mono.
Qed.

Lemma attempt_ok_mono c t t' u u' a :
  t <= t' -> u ⊆ u' -> attempt_ok c t u a -> attempt_ok c t' u' a.
Proof.
  intros Ht Hu. destruct a as [p [[b k]|e]|p [r|k r|e]]; cbn; try done.
  - intros []. split; [set_solver|done].
  - eauto using fresh_record_mono.
  - intros (? & ? & Ho). split_and!; [set_solver|eauto using fresh_record_mono|].
    intros. eapply overdue_mono; eauto.
Qed.

(** *** A write under a fresh token *)

Lemma attempt_ok_write c t u a b tok :
  tok ∉ u -> attempt_ok c t u a -> attempt_ok (Some (b, tok)) t ({[tok]} ∪ u) a.
Proof.
  intros Hn. destruct a as [p [[b0 k]|e]|p [r|k r|e]]; cbn; try done.
  - intros [Hk _]. split; [set_solver|]. intros ? [= -> ->]. done.
  - intros (Hk & Hf & _). split_and!; [set_solver|done|]. intros ? ? [= -> ->]. done.
Qed.

(** The lease [x] survives a write that did not replace its own record, or
    replaced it when overdue. *)
Lemma hold_ok_write c t u x b tok :
  tok ∉ u -> (owns c x -> overdue t (estar x)) ->
  hold_ok c t u x -> hold_ok (Some (b, tok)) t ({[tok]} ∪ u) x.
Proof.
  intros Hn Ho Hx Hp. destruct (Hx Hp) as (Htok & Hkey & Hown). split_and!; [set_solver|done|].
  intros Hl. destruct (Hown Hl) as (Hf & Hph & Hos). split_and!; [done..|]. right. split.
  - intros b' [= -> ->]. done.
  - destruct Hos as [?|[_ ?]]; auto.
Qed.

Lemma replace_cases (s s' : S) tok e b r :
  store_wf s -> ReplaceIfToken s tok lkey e b = (s', r) ->
  (exists b0, view s !! lkey = Some (b0, e) /\ r = Ok tok /\ store_wf s' /\
     view s' !! lkey = Some (b, tok)) \/
  (s' = s /\ exists err, r = Err err).
Proof.
  intros Hs Hr. destruct (view s !! lkey) as [[b0 t]|] eqn:Hv.
  - destruct (decide (t = e)) as [->|Hne].
    + left. destruct (replace_hit s tok lkey e b b0 Hs Hv) as (s1 & Hr1 & Hwf & Hv1).
      rewrite Hr in Hr1. simplify_eq. exists b0. split_and!; [done..|].
      by rewrite Hv1, lookup_insert_eq.
    + right. destruct (replace_miss s tok lkey e b Hs) as (err & Hr1 & _); [congruence|].
      rewrite Hr in Hr1. simplify_eq. eauto.
  - right. destruct (replace_miss s tok lkey e b Hs) as (err & Hr1 & _); [congruence|].
    rewrite Hr in Hr1. simplify_eq. eauto.
Qed.

Lemma inv_initial s : initial s -> inv s.
Proof.
  intros [Hwf Htok Hatt Hholds]. split; [done|done|rewrite Hatt|rewrite Hholds|rewrite Hholds];
    intros ? **; done.
Qed.

(** What a step does to the store cell and the spent tokens: nothing, or a
    write under a token nobody has seen. *)
Definition cell_step (s : sys) (c' : option (string * string)) (u' : gset string) : Prop :=
  used s ⊆ u' /\
  (c' = cell s \/ exists b tok, c' = Some (b, tok) /\ tok ∉ used s /\ u' = ({[tok]} ∪ used s)).

Lemma cell_step_same s u' : used s ⊆ u' -> cell_step s (cell s) u'.
Proof. split; [done|by left]. Qed.

Lemma cell_step_write s b tok :
  tok ∉ used s -> cell_step s (Some (b, tok)) ({[tok]} ∪ used s).
Proof. split; [set_solver|]. right. eauto. Qed.

Lemma attempts_ok s c' t' u' :
  inv s -> now s <= t' -> cell_step s c' u' ->
  map_Forall (fun _ => attempt_ok c' t' u') (attempts s).
Proof.
  intros Hi Ht [Hu Hc] j a Ha. pose proof (i_att s Hi j a Ha) as Hok.
  destruct Hc as [->|(b & tok & -> & Hn & ->)].
  - exact (attempt_ok_mono _ _ _ _ _ _ Ht Hu Hok).
  - exact (attempt_ok_mono _ _ _ _ _ _ Ht (reflexivity _) (attempt_ok_write _ _ _ _ _ _ Hn Hok)).
Qed.

Lemma hold_ok_step s c' t' u' j y :
  inv s -> now s <= t' -> cell_step s c' u' -> holds s !! j = Some y ->
  (c' <> cell s -> h_phase y <> Ended -> lost (h_held y) = false ->
   owns (cell s) y -> overdue (now s) (estar y)) ->
  hold_ok c' t' u' y.
Proof.
  intros Hi Ht [Hu Hc] Hy Ho. pose proof (i_holds s Hi j y Hy) as Hok.
  destruct Hc as [->|(b & tok & -> & Hn & ->)].
  { exact (hold_ok_mono _ _ _ _ _ _ Ht Hu Hok). }
  intros Hp. destruct (decide (lost (h_held y) = false)) as [Hl|Hl];
    [|destruct (Hok Hp) as (? & ? & _); split_and!; [set_solver|done|done]].
  assert (Hov : owns (cell s) y -> overdue (now s) (estar y)).
  { intros Hown. apply Ho; try done. intros Hcell. destruct Hn. by eapply (i_cell s Hi). }
  revert Hp.
  exact (hold_ok_mono _ _ _ _ _ _ Ht (reflexivity _) (hold_ok_write _ _ _ _ _ _ Hn Hov Hok)).
Qed.

Lemma holds_ok s c' t' u' i x' :
  inv s -> now s <= t' -> cell_step s c' u' ->
  (c' <> cell s -> forall j y, holds s !! j = Some y -> j <> i -> h_phase y <> Ended ->
     lost (h_held y) = false -> owns (cell s) y -> overdue (now s) (estar y)) ->
  hold_ok c' t' u' x' ->
  map_Forall (fun _ => hold_ok c' t' u') (<[i := x']> (holds s)).
Proof.
  intros Hi Ht Hc Ho Hx' j y. rewrite lookup_insert.
  case_decide as Hij; intros Hy; simplify_eq; [done|].
  eapply hold_ok_step; eauto.
Qed.

Lemma distinct_ok s i x' :
  inv s ->
  (h_phase x' <> Ended -> otok x' ∉ used s \/
     exists x, holds s !! i = Some x /\ h_phase x <> Ended /\ otok x' = otok x) ->
  forall j k x y, <[i := x']> (holds s) !! j = Some x -> <[i := x']> (holds s) !! k = Some y ->
    h_phase x <> Ended -> h_phase y <> Ended -> otok x = otok y -> j = k.
Proof.
  intros Hi Hd.
  assert (Hnew : forall j y, holds s !! j = Some y -> h_phase y <> Ended -> h_phase x' <> Ended ->
                   otok y = otok x' -> j = i).
  { intros j y Hy Hp Hp' He. destruct (Hd Hp') as [Hu|(x & Hx & Hpx & Hxe)].
    - destruct Hu. rewrite <- He. by eapply (i_holds s Hi j y Hy).
    - eapply (i_distinct s Hi); eauto. congruence. }
  intros j k x y. rewrite !lookup_insert.
  repeat case_decide; intros; simplify_eq; eauto; try (symmetry; eauto).
  by eapply (i_distinct s Hi).
Qed.

(** A lease that owns the key with the token that is being replaced is the
    replacing lease itself. *)
Lemma owner_unique s i x b0 :
  inv s -> holds s !! i = Some x -> h_phase x <> Ended -> cell s = Some (b0, otok x) ->
  forall j y, holds s !! j = Some y -> j <> i -> h_phase y <> Ended -> owns (cell s) y ->
    overdue (now s) (estar y).
Proof.
  intros Hi Hx Hp Hc j y Hy Hij Hpy (b & rec & Hcy & _). destruct Hij.
  eapply (i_distinct s Hi); eauto. congruence.
Qed.

Lemma overdue_le t e e' : e <= e' -> overdue t e' -> overdue t e.
Proof. intros He [q Hq]. exists q. lia. Qed.

(** The record an acquirer found may be taken: absent, released or overdue. *)
Definition takeover_ok (s : sys) : Prop :=
  forall b k rec, cell s = Some (b, k) -> unmarshal b = Some rec -> State rec = StateHeld ->
    overdue (now s) (ExpiresAt rec).

Lemma acquireWrite_cases s p pl tok st' r :
  inv s -> attempt_ok (cell s) (now s) (used s) (APlan p pl) ->
  acquireWrite marshal (mgr p) (st s) lkey pl tok = (st', r) ->
  (exists rec, r = Ok (newHeld (mgr p) lkey rec tok) /\ fresh_record (now s) p rec /\
     store_wf st' /\ view st' !! lkey = Some (marshal rec, tok) /\ takeover_ok s) \/
  (st' = st s /\ exists e, r = Err e).
Proof.
  intros Hi Ha. pose proof (i_wf s Hi) as Hwf. destruct pl as [rec|k rec|e]; cbn.
  - destruct (cell s) as [bt|] eqn:Hc.
    + pose proof (Create_spec (st s) tok lkey (marshal rec) Hwf) as [_ Hs].
      unfold cell in Hc. rewrite Hc in Hs. rewrite Hs. cbn. sentinels. intros [= <- <-]. eauto.
    + destruct (create_hit (st s) tok lkey (marshal rec) Hwf Hc) as (s1 & -> & Hwf1 & Hv1).
      intros [= <- <-]. left. exists rec. split_and!; try done.
      * by rewrite Hv1, lookup_insert_eq.
      * intros ? ? ?. by rewrite Hc.
  - destruct Ha as (_ & Hf & Ho). destruct (ReplaceIfToken _ _ _ _ _) as [s1 r1] eqn:Hr.
    destruct (replace_cases _ _ _ _ _ _ Hwf Hr) as [(b0 & Hc & -> & Hwf1 & Hv1)|(-> & e & ->)].
    + intros [= <- <-]. left. exists rec. split_and!; try done.
      intros b k' rec0 Hc0. unfold cell in *. rewrite Hc in Hc0. simplify_eq.
      intros Hb. by eapply Ho.
    + intros [= <- <-]. case_match; eauto.
  - intros [= <- <-]. eauto.
Qed.

Lemma owner_overdue s x :
  takeover_ok s -> owns (cell s) x -> overdue (now s) (estar x).
Proof.
  intros Ht (b & rec & Hc & Hu & Hst & He). eapply overdue_le; [exact He|]. by eapply Ht.
Qed.

(** *** Every step preserves the invariant *)

Lemma inv_time s t' att' :
  inv s -> now s <= t' ->
  map_Forall (fun _ => attempt_ok (cell s) t' (used s)) att' ->
  inv (mkSys (st s) t' (used s) att' (holds s)).
Proof.
  intros Hi Ht Hatt. split; cbn; [apply Hi|apply (i_cell s Hi)|exact Hatt| |apply (i_distinct s Hi)].
  intros j y Hy. eapply (hold_ok_step s (cell s)); [done|done|by apply cell_step_same|done|done].
Qed.

Lemma inv_get s a p :
  inv s -> inv (mkSys (st s) (now s) (used s) (<[a := AGot p (Get (st s) lkey)]> (attempts s)) (holds s)).
Proof.
  intros Hi. apply inv_time; [done|lia|].
  apply map_Forall_insert_2; [|apply (i_att s Hi)].
  rewrite (Get_spec (st s) lkey (i_wf s Hi)). fold (cell s).
  destruct (cell s) as [[b k]|] eqn:Hc; cbn; [|done].
  split; [by eapply (i_cell s Hi)|]. by intros b' [= ->].
Qed.

Lemma plan_ok s p got newID d :
  inv s -> attempt_ok (cell s) (now s) (used s) (AGot p got) -> 0 <= d ->
  attempt_ok (cell s) (now s + d) (used s)
    (APlan p (acquirePlan unmarshal (mgr p) db got (clock s p) (clock s p + d) newID)).
Proof.
  intros Hi Ha Hd. unfold acquirePlan, clock. destruct got as [[b k]|e].
  - destruct (unmarshal b) as [rec|] eqn:Hb; [|done].
    destruct (negb _); [done|].
    destruct (String.eqb_spec (State rec) StateHeld) as [Hst|Hst]; cbn.
    + destruct (safelyExpired C rec (now s + off p)) eqn:He; [|done]. cbn.
      destruct Ha as [Hk Hcell]. split_and!; [done|split; cbn; [done|lia]|].
      intros b' rec' Hc' Hb' _. rewrite (Hcell b' Hc'), Hb in Hb'. simplify_eq.
      unfold safelyExpired in He. bool_prop. exists p. lia.
    + destruct Ha as [Hk Hcell]. split_and!; [done|split; cbn; [done|lia]|].
      intros b' rec' Hc' Hb' Hst'. rewrite (Hcell b' Hc'), Hb in Hb'. by simplify_eq.
  - destruct (errors_Is _ _); [|done]. split; cbn; [done|lia].
Qed.

Lemma cell_step_used s c' u' b t :
  inv s -> cell_step s c' u' -> c' = Some (b, t) -> t ∈ u'.
Proof.
  intros Hi [Hu [->|(b' & tok & -> & _ & ->)]].
  - intros Hc. apply Hu. by eapply (i_cell s Hi).
  - intros [= -> ->]. set_solver.
Qed.

Lemma inv_hold s st' u' att' i x' :
  inv s -> store_wf st' -> cell_step s (view st' !! lkey) u' -> att' ⊆ attempts s ->
  (view st' !! lkey <> cell s -> forall j y, holds s !! j = Some y -> j <> i ->
     h_phase y <> Ended -> lost (h_held y) = false -> owns (cell s) y ->
     overdue (now s) (estar y)) ->
  hold_ok (view st' !! lkey) (now s) u' x' ->
  (h_phase x' <> Ended -> otok x' ∉ used s \/
     exists x, holds s !! i = Some x /\ h_phase x <> Ended /\ otok x' = otok x) ->
  inv (mkSys st' (now s) u' att' (<[i := x']> (holds s))).
Proof.
  intros Hi Hwf Hc Ha Ho Hx Hd. split; cbn.
  - done.
  - intros b t. by apply (cell_step_used s).
  - intros a at' Hat. eapply (attempts_ok s); [done|lia|done|].
    by eapply lookup_weaken.
  - eapply (holds_ok s); eauto. lia.
  - by apply distinct_ok.
Qed.

(** The same when no lease is added or changed. *)
Lemma inv_write s st' u' att' :
  inv s -> store_wf st' -> cell_step s (view st' !! lkey) u' -> att' ⊆ attempts s ->
  (view st' !! lkey <> cell s -> takeover_ok s) ->
  inv (mkSys st' (now s) u' att' (holds s)).
Proof.
  intros Hi Hwf Hc Ha Ho. split; cbn.
  - done.
  - intros b t. by apply (cell_step_used s).
  - intros a at' Hat. eapply (attempts_ok s); [done|lia|done|].
    by eapply lookup_weaken.
  - intros j y Hy. eapply (hold_ok_step s); eauto using owner_overdue. lia.
  - apply (i_distinct s Hi).
Qed.

Lemma inv_acquire s a p pl tok st' r i d :
  inv s -> attempts s !! a = Some (APlan p pl) -> tok ∉ used s -> holds s !! i = None ->
  acquireWrite marshal (mgr p) (st s) lkey pl tok = (st', r) ->
  inv (mkSys (match d with NotApplied => st s | _ => st' end) (now s)
        ({[tok]} ∪ used s) (delete a (attempts s))
        (match d, r with
         | Delivered, Ok h => <[i := mkHold p h Live]> (holds s)
         | _, _ => holds s
         end)).
Proof.
  intros Hi Ha Hn Hh Hw.
  assert (Hu : used s ⊆ {[tok]} ∪ used s) by set_solver.
  assert (Hsame : inv (mkSys (st s) (now s) ({[tok]} ∪ used s) (delete a (attempts s)) (holds s))).
  { apply inv_write; [done|apply Hi|by apply cell_step_same|apply delete_subseteq|done]. }
  destruct (acquireWrite_cases s p pl tok st' r Hi (i_att s Hi _ _ Ha) Hw)
    as [(rec & -> & Hf & Hwf & Hv & Ht)|(-> & e & ->)]; [|by destruct d].
  assert (Hc : cell_step s (view st' !! lkey) ({[tok]} ∪ used s))
    by (rewrite Hv; by apply cell_step_write).
  destruct d; [|apply inv_write; auto; apply delete_subseteq|exact Hsame].
  apply inv_hold; [done|done|done|apply delete_subseteq|eauto using owner_overdue| |by left].
  rewrite Hv. intros _. split_and!; [set_solver|done|]. intros _.
  split_and!; [done|done|]. left. exists (marshal rec), rec.
  split_and!; [done|done|apply Hf|apply Z.le_refl].
Qed.

(** A step that leaves the store alone and moves one lease on. *)
Lemma inv_local s u' i x x' :
  inv s -> used s ⊆ u' -> holds s !! i = Some x -> h_phase x <> Ended ->
  hold_ok (cell s) (now s) u' x' -> (h_phase x' <> Ended -> otok x' = otok x) ->
  inv (set_hold s (st s) u' i x').
Proof.
  intros Hi Hu Hx Hp Hok Ho.
  apply inv_hold; [done|apply Hi|by apply cell_step_same|done|done|done|].
  intros Hp'. right. exists x. auto.
Qed.

(** A step that replaces the record of one lease; the lease's new value is
    judged against the new cell. *)
Lemma inv_replace s st' i x x' b0 b tok :
  inv s -> store_wf st' -> holds s !! i = Some x -> h_phase x <> Ended -> tok ∉ used s ->
  cell s = Some (b0, otok x) -> view st' !! lkey = Some (b, tok) ->
  hold_ok (Some (b, tok)) (now s) ({[tok]} ∪ used s) x' ->
  (h_phase x' <> Ended -> otok x' ∉ used s \/ otok x' = otok x) ->
  inv (set_hold s st' ({[tok]} ∪ used s) i x').
Proof.
  intros Hi Hwf Hx Hp Hn Hc Hv Hok Ho.
  apply inv_hold; [done|done|rewrite Hv; by apply cell_step_write|done| |by rewrite Hv|].
  - intros _ j y Hy Hij Hpy _. by apply (owner_unique s i x b0 Hi Hx Hp Hc j y).
  - intros Hp'. destruct (Ho Hp'); [by left|right; exists x; auto].
Qed.

Lemma hold_ok_ended c t u p h : hold_ok c t u (mkHold p h Ended).
Proof. by intros []. Qed.

Lemma hold_ok_lost c t u t' u' p h ph :
  hold_ok c t u (mkHold p h ph) -> ph <> Ended -> otok (mkHold p h ph) = version h -> u ⊆ u' ->
  forall c', hold_ok c' t' u' (mkHold p (markLost h) Live).
Proof.
  intros Hok Hp Ho Hu c' _. destruct (Hok Hp) as (Ht & Hk & _). rewrite Ho in Ht.
  split_and!; [set_solver|done|done].
Qed.

Lemma inv_prepare s i p h rec :
  inv s -> holds s !! i = Some (mkHold p h Live) -> lost h = false ->
  renewRecord (mgr p) h (clock s p) = Some rec ->
  inv (set_hold s (st s) (used s) i (mkHold p h (Prepared rec))).
Proof.
  intros Hi Hx Hl Hr. pose proof (i_holds s Hi _ _ Hx) as Hok.
  eapply (inv_local s); [done|done|exact Hx|done| |done].
  destruct (Hok ltac:(done)) as (Ht & Hk & Hown). intros _. split_and!; [done|done|]. intros _.
  destruct (Hown Hl) as (Hf & _ & Hos). split_and!; [done| |exact Hos].
  unfold renewRecord in Hr. case_match; simplify_eq. destruct Hf as [Hst He].
  cbn in *. unfold clock. split_and!; [split; cbn; [done|lia]|cbn; lia].
Qed.

Lemma inv_commit s i p h rec tok :
  inv s -> holds s !! i = Some (mkHold p h (Renewing rec tok)) ->
  inv (set_hold s (st s) (used s) i (mkHold p (renewed h rec tok) Live)).
Proof.
  intros Hi Hx. pose proof (i_holds s Hi _ _ Hx) as Hok.
  eapply (inv_local s); [done|done|exact Hx|done| |done].
  destruct (Hok ltac:(done)) as (Ht & Hk & Hown). intros _. split_and!; [done|done|].
  cbn. intros Hl. destruct (Hown Hl) as ([Hst He] & [[Hsr Her] Hle] & Hos).
  split_and!; [done|done|exact Hos].
Qed.

Lemma inv_renew s i p h rec tok st' r d :
  inv s -> holds s !! i = Some (mkHold p h (Prepared rec)) -> tok ∉ used s ->
  ReplaceIfToken (st s) tok (key h) (version h) (marshal rec) = (st', r) ->
  inv (set_hold s (match d with NotApplied => st s | _ => st' end) ({[tok]} ∪ used s) i
        (match d, r with
         | Delivered, Ok v => mkHold p h (Renewing rec v)
         | _, _ => mkHold p (markLost h) Live
         end)).
Proof.
  intros Hi Hx Hn Hr. pose proof (i_holds s Hi _ _ Hx) as Hok.
  assert (Hu : used s ⊆ {[tok]} ∪ used s) by set_solver.
  assert (Hlost : forall c', hold_ok c' (now s) ({[tok]} ∪ used s) (mkHold p (markLost h) Live))
    by (exact (hold_ok_lost _ _ _ _ _ _ _ _ Hok ltac:(done) eq_refl Hu)).
  assert (Hsame : inv (set_hold s (st s) ({[tok]} ∪ used s) i (mkHold p (markLost h) Live)))
    by (eapply inv_local; [done|done|exact Hx|done|apply Hlost|done]).
  destruct (Hok ltac:(done)) as (Ht & Hk & Hown). cbn in Hk. rewrite Hk in Hr.
  destruct (replace_cases _ _ _ _ _ _ (i_wf s Hi) Hr) as [(b0 & Hc & -> & Hwf & Hv)|(-> & e & ->)];
    [|by destruct d].
  destruct d; [| |done].
  - eapply (inv_replace s); [done|done|exact Hx|done|done|exact Hc|exact Hv| |by left].
    intros _. split_and!; [cbn; set_solver|done|]. cbn. intros Hl.
    destruct (Hown Hl) as (Hf & [Hfr Hle] & _). split_and!; [exact Hf|exact Hfr|exact Hle|].
    left. exists (marshal rec), rec. split_and!; [done|done|apply Hfr|apply Z.le_refl].
  - eapply (inv_replace s); [done|done|exact Hx|done|done|exact Hc|exact Hv|done|by right].
Qed.

Lemma inv_release s i p h tok st' r d :
  inv s -> holds s !! i = Some (mkHold p h Live) -> tok ∉ used s ->
  Release marshal (st s) h (clock s p) tok = (st', r) ->
  inv (set_hold s (match d with NotApplied => st s | _ => st' end) ({[tok]} ∪ used s) i
        (mkHold p h Ended)).
Proof.
  intros Hi Hx Hn Hr.
  assert (Hu : used s ⊆ {[tok]} ∪ used s) by set_solver.
  assert (Hsame : inv (set_hold s (st s) ({[tok]} ∪ used s) i (mkHold p h Ended))).
  { eapply inv_local; [done|done|exact Hx|done|apply hold_ok_ended|done]. }
  destruct (i_holds s Hi _ _ Hx ltac:(done)) as (_ & Hk & _). cbn in Hk.
  unfold Release in Hr. rewrite Hk in Hr.
  destruct (ReplaceIfToken _ _ _ _ _) as [s1 r1] eqn:Hw. simplify_eq.
  destruct (replace_cases _ _ _ _ _ _ (i_wf s Hi) Hw) as [(b0 & Hc & -> & Hwf & Hv)|(-> & e & ->)];
    [|by destruct d].
  assert (inv (set_hold s st' ({[tok]} ∪ used s) i (mkHold p h Ended))); [|by destruct d].
  eapply inv_replace; [done|done|exact Hx|done|done|exact Hc|exact Hv|apply hold_ok_ended|done].
Qed.

Lemma inv_step s s' : inv s -> step s s' -> inv s'.
Proof.
  intros Hi Hs. destruct Hs as [d Hd|a p Ha|a p got newID d Ha Hd|a p pl tok st' r i d Ha Hn Hh Hw
    |i p h rec Hx Hl Hr|i p h rec tok st' r d Hx Hn Hr|i p h rec tok Hx
    |i p h tok st' r d Hx Hn Hr|i p h Hx].
  - apply inv_time; [done|lia|]. eapply (attempts_ok s); [done|lia|by apply cell_step_same].
  - by apply inv_get.
  - apply inv_time; [done|lia|].
    apply map_Forall_insert_2; [apply plan_ok; [done|by apply (i_att s Hi a)|done]|].
    eapply (attempts_ok s); [done|lia|by apply cell_step_same].
  - by apply (inv_acquire s a p pl tok st' r i d).
  - by apply inv_prepare.
  - by apply (inv_renew s i p h rec tok st' r d).
  - by apply inv_commit.
  - by apply (inv_release s i p h tok st' r d).
  - eapply inv_local; [done|done|exact Hx|done|apply hold_ok_ended|done].
Qed.

Lemma reachable_inv s : reachable s -> inv s.
Proof. induction 1; eauto using inv_initial, inv_step. Qed.

(** Clocks read at the same instant differ by at most twice the allowance. *)
Definition clocks_close : Prop := forall p q, off p - off q <= 2 * ClockSkewAllowance C.

(** Who still believes in its lease owns the key: the store holds the token of
    the lease. *)
Lemma believer_owns s i x :
  clocks_close -> inv s -> holds s !! i = Some x -> h_phase x <> Ended ->
  leaseStale C (h_held x) (clock s (h_proc x)) = false -> owns (cell s) x.
Proof.
  intros Hclocks Hs Hx Hp Hst. unfold leaseStale, clock in Hst. bool_prop.
  destruct (i_holds s Hs _ _ Hx Hp) as (_ & _ & Hown).
  destruct (Hown ltac:(done)) as ([_ He] & Hph & [Ho|[_ [q Hq]]]); [done|].
  assert (ExpiresAt (h_record (h_held x)) <= estar x)
    by (unfold phase_ok, estar in *; destruct (h_phase x); intuition lia).
  pose proof (Hclocks q (h_proc x)). lia.
Qed.

(** C1  At most one holder. Any number of processes acquire, renew, release,
    abandon and time out against one key, in any interleaving, with replies
    lost at will; whenever the clocks agree within twice the configured
    allowance, two acquisitions that both still believe in their lease
    ([leaseStale] is false on each holder's own clock) are the same one. *)
Theorem mutual_exclusion (s : sys) (Hclocks : clocks_close) (Hs : reachable s) (i j : nat)
    (Hi : believes_held s i) (Hj : believes_held s j) : i = j.
Proof.
  apply reachable_inv in Hs. destruct Hi as (x & Hx & Hpx & Hsx), Hj as (y & Hy & Hpy & Hsy).
  destruct (believer_owns s i x Hclocks Hs Hx Hpx Hsx) as (b & ? & Hb & _).
  destruct (believer_owns s j y Hclocks Hs Hy Hpy Hsy) as (b' & ? & Hb' & _).
  eapply (i_distinct s Hs); eauto. congruence.
Qed.

End System.

(** ** A run of the system *)

Definition sys0 : sys (S := Memory.store) :=
  mkSys (∅ : Memory.store) 0 ∅ ∅ ∅.

Lemma mutual_exclusion_witness :
  exists s : sys (S := Memory.store), reachable Codec.marshal Codec.unmarshal DefaultConfig "db" "k" (fun _ => "owner")
              (fun p => if Nat.eqb p 0 then 0 else 4 * second) s /\
    believes_held DefaultConfig (fun p => if Nat.eqb p 0 then 0 else 4 * second) s 7 /\
    forall j, believes_held DefaultConfig (fun p => if Nat.eqb p 0 then 0 else 4 * second) s j -> 7%nat = j.
Proof.
  set (off := fun p => if Nat.eqb p 0 then 0 else 4 * second).
  set (m := mkManager DefaultConfig "owner").
  set (pl := acquirePlan Codec.unmarshal m "db" (Get (∅ : Memory.store) "k") 0 0 "id").
  destruct (acquireWrite Codec.marshal m (∅ : Memory.store) "k" pl "t1") as [st' r] eqn:Hw.
  assert (Hr : r = Ok (newHeld m "k" (mkRecord 1 "db" StateHeld "owner" "id" 1 (30 * second)) "t1"))
    by (vm_compute in Hw; injection Hw as _ <-; reflexivity).
  subst r.
  assert (R : reachable Codec.marshal Codec.unmarshal DefaultConfig "db" "k" (fun _ => "owner") off sys0)
    by (apply ReachInit; split; [exact I|intros ? ? Hc; discriminate Hc|reflexivity|reflexivity]).
  eapply ReachStep in R; [|by eapply (StepGet) with (a := 0%nat) (p := 0%nat)].
  eapply ReachStep in R; [|eapply StepPlan with (a := 0%nat) (newID := "id") (d := 0); [reflexivity|done]].
  eapply ReachStep in R; [|eapply StepAcquire with (a := 0%nat) (i := 7%nat) (d := Delivered);
    [reflexivity|apply not_elem_of_empty|reflexivity|exact Hw]].
  eexists. split; [exact R|].
  match goal with |- believes_held _ _ ?s _ /\ _ => assert (B : believes_held DefaultConfig off s 7) end.
  { eexists. split; [reflexivity|]. split; [discriminate|reflexivity]. }
  split; [exact B|]. intros j Hj.
  refine (mutual_exclusion Codec.marshal Codec.unmarshal DefaultConfig "db" "k" (fun _ => "owner") off
    Codec.roundtrip _ _ R 7 j B Hj).
  intros p q. unfold off. destruct (Nat.eqb p 0), (Nat.eqb q 0); vm_compute; discriminate.
Defined.
