(* ===== verification/LeaseRenewal.v ===== *)
(** * LeaseRenewal: the heartbeat goroutine of a held lease

    [newHeld], [renewLoop], [stopRenewal], [Release] and [Abandon] of
    [lease/lease.go] with the goroutine, its ticker and the channels [stop]
    and [done], one shared access at a time. [LeaseSystem] interleaves whole
    renewals and releases of many processes; here one lease is taken apart,
    to show that those are what a process does. *)

From S2P Require Import Prelude Errors LeaseStore Lease LeaseSystem.

(** [renewLoop], between two accesses: at its [select]; after a tick; with
    the snapshot; with the next record; with the store's answer; with an
    error; returned ([done] closed). *)
Inductive loop :=
  | Selecting
  | Ticked
  | Snapped (rec : record) (tok : string)
  | Prepared (rec : record) (tok : string)
  | Stored (rec : record) (tok : string)
  | Failed
  | Exited.

(** The holder's thread: in [stopRenewal] (at its [select], in its default
    branch, at [<-held.done]) on the way to [Release] or [Abandon], past it,
    or with the record it is about to release (a snapshot and a reading of
    the clock). *)
Inductive call := CRelease | CAbandon.
Inductive caller :=
  | Idle
  | Choosing (c : call)
  | Closing (c : call)
  | Waiting (c : call)
  | Stable (c : call)
  | Signed (h : held) (now : Z)
  | Returned (err : option goerror).

Section Renewal.
Context {S : Type} `{StoreLaws S}.
Context (marshal : record -> string) (m : manager).
Abbreviation D := (Duration (cfg m)).

(** The period of the ticker; Go's division truncates. *)
Definition interval : Z := let i := Z.quot D 3 in if i <=? 0 then millisecond else i.

(** [fired]: the ticks received so far; [grants]: the tokens this lease was
    given, newest first. *)
Record sys := mkSys {
  st : S;
  hd : held;
  stopClosed : bool;
  pc : loop;
  cl : caller;
  clk : Z;
  fired : Z;
  grants : list string;
  panicked : bool;
}.

Definition at_loop (s : sys) (st' : S) (h : held) (p : loop) (g : list string) : sys :=
  mkSys st' h (stopClosed s) p (cl s) (clk s) (fired s) g (panicked s).
Definition at_caller (s : sys) (st' : S) (stopped : bool) (c : caller) : sys :=
  mkSys st' (hd s) stopped (pc s) c (clk s) (fired s) (grants s) (panicked s).

Definition applied (d : delivery) (before after : S) : S :=
  match d with NotApplied => before | _ => after end.

(** The process: time passes, the loop moves, the holder moves. [clk0] is
    when the ticker started; its [n]-th tick is received [n] periods later
    or after that. *)
Inductive step (clk0 : Z) (s : sys) : sys -> Prop :=
  | StepClock d : 0 <= d ->
      step clk0 s (mkSys (st s) (hd s) (stopClosed s) (pc s) (cl s) (clk s + d) (fired s) (grants s) (panicked s))
  | StepStop : pc s = Selecting -> stopClosed s = true ->
      step clk0 s (at_loop s (st s) (hd s) Exited (grants s))
  | StepTick : pc s = Selecting -> clk0 + (fired s + 1) * interval <= clk s ->
      step clk0 s (mkSys (st s) (hd s) (stopClosed s) Ticked (cl s) (clk s) (fired s + 1) (grants s) (panicked s))
  | StepSnapshot : pc s = Ticked ->
      step clk0 s (at_loop s (st s) (hd s) (Snapped (h_record (hd s)) (version (hd s))) (grants s))
  | StepPrepare rec tok : pc s = Snapped rec tok ->
      step clk0 s (at_loop s (st s) (hd s)
        (if maxExpiry (hd s) <? clk s + D then Exited else Prepared (with_expiry rec (clk s + D)) tok) (grants s))
  | StepMarshalFails rec tok : pc s = Prepared rec tok ->
      step clk0 s (at_loop s (st s) (hd s) Failed (grants s))
  | StepReplace rec tok new st' r d : pc s = Prepared rec tok ->
      ReplaceIfToken (st s) new (key (hd s)) tok (marshal rec) = (st', r) ->
      step clk0 s (at_loop s (applied d (st s) st') (hd s)
        (match d, r with Delivered, Ok v => Stored rec v | _, _ => Failed end)
        (match d, r with Delivered, Ok v => v :: grants s | _, _ => grants s end))
  | StepMarkLost : pc s = Failed -> step clk0 s (at_loop s (st s) (markLost (hd s)) Exited (grants s))
  | StepCommit rec tok : pc s = Stored rec tok ->
      step clk0 s (at_loop s (st s) (renewed (hd s) rec tok) Selecting (grants s))
  | StepCall c : (cl s = Idle \/ exists err, cl s = Returned err) ->
      step clk0 s (at_caller s (st s) (stopClosed s) (Choosing c))
  | StepChoose c : cl s = Choosing c ->
      step clk0 s (at_caller s (st s) (stopClosed s) (if stopClosed s then Waiting c else Closing c))
  | StepClose c : cl s = Closing c -> stopClosed s = false ->
      step clk0 s (at_caller s (st s) true (Waiting c))
  | StepCloseClosed c : cl s = Closing c -> stopClosed s = true ->
      step clk0 s (mkSys (st s) (hd s) true (pc s) (cl s) (clk s) (fired s) (grants s) true)
  | StepDone c : cl s = Waiting c -> pc s = Exited ->
      step clk0 s (at_caller s (st s) (stopClosed s) (Stable c))
  | StepAbandon : cl s = Stable CAbandon ->
      step clk0 s (at_caller s (st s) (stopClosed s) (Returned None))
  | StepSign : cl s = Stable CRelease ->
      step clk0 s (at_caller s (st s) (stopClosed s) (Signed (hd s) (clk s)))
  | StepSignFails err : cl s = Stable CRelease ->
      step clk0 s (at_caller s (st s) (stopClosed s) (Returned (Some err)))
  | StepRelease h now new st' r d lostErr : cl s = Signed h now ->
      Release marshal (st s) h now new = (st', r) ->
      step clk0 s (at_caller s (applied d (st s) st') (stopClosed s)
        (Returned (match d with Delivered => r | _ => Some (Wrap ClassRemoteUnavailable "release lease" lostErr) end))).

(** Other processes write the store. *)
Definition others (s s' : sys) : Prop :=
  store_wf (st s') /\ s' = mkSys (st s') (hd s) (stopClosed s) (pc s) (cl s) (clk s) (fired s) (grants s) (panicked s).

(** [newHeld] of a lease acquired at the reading [a]. *)
Definition start (s0 : S) (k : string) (rec : record) (tok : string) (clk0 : Z) : sys :=
  mkSys s0 (newHeld m k rec tok) false Selecting Idle clk0 0 [tok] false.

Inductive reachable (a : Z) : Z -> sys -> Prop :=
  | reach_start s0 k rec tok clk0 : store_wf s0 -> ExpiresAt rec = a + D -> a <= clk0 ->
      reachable a clk0 (start s0 k rec tok clk0)
  | reach_step clk0 s s' : reachable a clk0 s -> step clk0 s s' -> reachable a clk0 s'
  | reach_others clk0 s s' : reachable a clk0 s -> others s s' -> reachable a clk0 s'.

(** ** The specification: renewals and releases as [Lease] has them *)

(** The store, the lease as the store's answers make it, and whether the
    heartbeat runs. *)
Definition abs (s : sys) : S * held * bool :=
  (st s,
   match pc s with Stored rec v => renewed (hd s) rec v | Failed => markLost (hd s) | _ => hd s end,
   match pc s with Failed | Exited => false | _ => true end).

Inductive atomic : S * held * bool -> S * held * bool -> Prop :=
  | AtomicNone x : atomic x x
  | AtomicEnd s h : atomic (s, h, true) (s, h, false)
  | AtomicLose s h : atomic (s, h, true) (s, markLost h, false)
  | AtomicRenew s h now new s' h' d : renewTick marshal m s h now new = (s', Some h') ->
      atomic (s, h, true)
        (applied d s s', match d with Delivered => h' | _ => markLost h end,
         match d with Delivered => negb (lost h') | _ => false end)
  | AtomicRelease s h now new s' r d : Release marshal s h now new = (s', r) ->
      atomic (s, h, false) (applied d s s', h, false).

(** ** Invariant *)

Definition quota (p : loop) : Z :=
  match p with Selecting | Prepared _ _ | Stored _ _ => 10 | _ => 11 end.
Definition pending (p : loop) : Z := match p with Ticked | Snapped _ _ | Prepared _ _ => 0 | _ => 1 end.

Definition loop_ok (a : Z) (s : sys) : Prop :=
  match pc s with
  | Snapped rec tok => rec = h_record (hd s) /\ tok = version (hd s)
  | Prepared rec tok => tok = version (hd s) /\ exists now, renewRecord m (hd s) now = Some rec
  | Stored rec tok => ExpiresAt rec <= a + 3 * D
  | _ => True
  end.

Definition caller_ok (s : sys) : Prop :=
  match cl s with
  | Closing _ => stopClosed s = false
  | Waiting _ => stopClosed s = true
  | Stable _ => pc s = Exited
  | Signed h _ => pc s = Exited /\ h = hd s
  | _ => True
  end.

Record inv (a clk0 : Z) (s : sys) : Prop := {
  i_wf : store_wf (st s);
  i_max : maxExpiry (hd s) = a + 3 * D;
  i_exp : ExpiresAt (h_record (hd s)) <= a + 3 * D;
  i_start : a <= clk0;
  i_time : 0 <= fired s /\ clk0 + fired s * interval <= clk s;
  i_quota : fired s <= quota (pc s);
  i_grants : Z.of_nat (length (grants s)) <= fired s + pending (pc s) /\ Z.of_nat (length (grants s)) <= 11;
  i_loop : loop_ok a s;
  i_head : head (grants s) = Some (match pc s with Stored _ tok => tok | _ => version (hd s) end);
  i_lost : lost (hd s) = true -> pc s = Exited;
  i_caller : caller_ok s;
  i_panic : panicked s = false;
}.

Lemma interval_bound : 0 < D -> forall n, 0 <= n -> n * interval <= 2 * D -> n <= 10.
Proof.
  intros HD n Hn. unfold interval, millisecond. rewrite Z.quot_div_nonneg by lia.
  pose proof (Z.div_mod D 3 ltac:(lia)). pose proof (Z.mod_pos_bound D 3 ltac:(lia)).
  destruct (Z.leb_spec (D / 3) 0); nia.
Qed.

Lemma interval_pos : 0 < interval.
Proof. unfold interval, millisecond. destruct (Z.leb_spec (Z.quot D 3) 0); lia. Qed.

Lemma renewal_start_inv a s0 k rec tok clk0 :
  0 < D -> store_wf s0 -> ExpiresAt rec = a + D -> a <= clk0 -> inv a clk0 (start s0 k rec tok clk0).
Proof. intros HD Hwf He Ha. split; cbn; try done; lia. Qed.

(** A step that leaves the lease and the loop alone. *)
Lemma inv_caller a clk0 s st' stopped c :
  inv a clk0 s -> store_wf st' -> caller_ok (at_caller s st' stopped c) -> inv a clk0 (at_caller s st' stopped c).
Proof. intros [] Hwf Hc. by split. Qed.

Lemma applied_wf d s s' tok k e b r :
  store_wf s -> ReplaceIfToken s tok k e b = (s', r) -> store_wf (applied d s s').
Proof.
  intros Hs Hr. destruct (Replace_spec s tok k e b Hs) as [Hwf _]. rewrite Hr in Hwf. by destruct d.
Qed.

Lemma release_wf d s h now new s' r :
  store_wf s -> Release marshal s h now new = (s', r) -> store_wf (applied d s s').
Proof.
  unfold Release. intros Hs. destruct (ReplaceIfToken _ _ _ _ _) as [s1 r1] eqn:Hr. intros [= <- <-].
  by eapply applied_wf.
Qed.

Lemma caller_kept s s' :
  caller_ok s -> pc s <> Exited -> cl s' = cl s -> stopClosed s' = stopClosed s -> caller_ok s'.
Proof. unfold caller_ok. intros Hc Hp -> ->. destruct (cl s); try done. by destruct Hc. Qed.

(** A move of the loop: what is left to show of it. *)
Lemma inv_loop a clk0 s s' :
  inv a clk0 s -> pc s <> Exited ->
  cl s' = cl s -> stopClosed s' = stopClosed s -> panicked s' = panicked s -> clk s' = clk s ->
  maxExpiry (hd s') = maxExpiry (hd s) -> store_wf (st s') -> ExpiresAt (h_record (hd s')) <= a + 3 * D ->
  (fired s' = fired s \/ fired s' = fired s + 1 /\ clk0 + fired s' * interval <= clk s) ->
  fired s' <= quota (pc s') -> Z.of_nat (length (grants s')) <= fired s' + pending (pc s') ->
  Z.of_nat (length (grants s')) <= 11 ->
  loop_ok a s' -> head (grants s') = Some (match pc s' with Stored _ tok => tok | _ => version (hd s') end) ->
  (lost (hd s') = true -> pc s' = Exited) ->
  inv a clk0 s'.
Proof.
  intros [I1 I2 I3 I4 [I5 I5'] I6 I7 I8 I9 I10 I11 I12] Hp E1 E2 E3 E4 E5 Hwf He Hf Hq Hg Hg' Hl Hh Hlost.
  split; try done.
  - by rewrite E5.
  - rewrite E4. destruct Hf as [->|[-> ?]]; lia.
  - by apply (caller_kept s).
  - by rewrite E3.
Qed.

Lemma renewal_inv_step a clk0 s s' : 0 < D -> inv a clk0 s -> step clk0 s s' -> inv a clk0 s'.
Proof.
  intros HD Hinv Hstep. pose proof Hinv as [I1 I2 I3 I4 [I5 I5'] I6 I7 I8 I9 I10 I11 I12].
  assert (Hlost : pc s <> Exited -> lost (hd s) = false) by (destruct (lost (hd s)); [intros []; auto|done]).
  destruct Hstep as [d Hd|Hp Hc|Hp Ht|Hp|rec tok Hp|rec tok Hp|rec tok new st' r d Hp Hr|Hp|rec tok Hp|
    c Hc|c Hc|c Hc Hs|c Hc Hs|c Hc Hp|Hc|Hc|err Hc|h now new st' r d e Hc Hr].
  2-9: rewrite Hp in *; cbn in *; specialize (Hlost ltac:(done)); unfold loop_ok in I8; rewrite Hp in I8.
  5: destruct (Z.ltb_spec (maxExpiry (hd s)) (clk s + D)) as [Hw|Hw].
  8: pose proof (applied_wf d _ _ _ _ _ _ _ I1 Hr); destruct d; [destruct r as [v|err]|..].
  2-13: apply (inv_loop a clk0 s); try done; cbn; try rewrite Hp; try done; try lia; try auto; try congruence.
  all: try (match goal with |- inv _ _ (at_caller _ _ _ _) => apply (inv_caller a clk0 s); [done| |unfold caller_ok; cbn] end; try done).
  all: unfold caller_ok in I11; try rewrite Hc in I11; try done.
  - by split; unfold loop_ok, caller_ok; cbn; try done; lia.
  - apply interval_bound; lia.
  - destruct I8 as [-> ->]. split; [done|]. exists (clk s). unfold renewRecord. by rewrite (proj2 (Z.ltb_ge _ _) Hw).
  - destruct I8 as [-> [t Ht]]. unfold renewRecord in Ht.
    destruct (Z.ltb_spec (maxExpiry (hd s)) (t + D)); [done|]. injection Ht as <-. cbn. lia.
  - by destruct (stopClosed s).
  - congruence.
  - by eapply release_wf.
Qed.

Lemma reachable_renewal_inv a clk0 s : 0 < D -> reachable a clk0 s -> inv a clk0 s.
Proof.
  intros HD. induction 1 as [s0 k rec tok clk0|clk0 s s' _ IH Hs|clk0 s s' _ IH [Hwf ->]].
  - by apply renewal_start_inv.
  - by eapply renewal_inv_step.
  - destruct IH. by split.
Qed.

(** ** Theorems *)

Lemma atomic_step a clk0 s s' : inv a clk0 s -> step clk0 s s' -> atomic (abs s) (abs s').
Proof.
  intros Hinv Hstep. pose proof (i_loop _ _ _ Hinv) as I8. pose proof (i_caller _ _ _ Hinv) as I11.
  pose proof (i_lost _ _ _ Hinv) as I10. unfold loop_ok, caller_ok in *.
  destruct Hstep as [d Hd|Hp Hc|Hp Ht|Hp|rec tok Hp|rec tok Hp|rec tok new st' r d Hp Hr|Hp|rec tok Hp|
    c Hc|c Hc|c Hc Hs|c Hc Hs|c Hc Hp|Hc|Hc|err Hc|h now new st' r d e Hc Hr].
  all: unfold abs; cbn; try rewrite Hp in *; try apply AtomicNone; try apply AtomicEnd; try apply AtomicLose.
  - destruct (_ <? _); [apply AtomicEnd|apply AtomicNone].
  - destruct I8 as [-> [t Ht]].
    assert (Htick : exists h', renewTick marshal m (st s) (hd s) t new = (st', Some h') /\
      h' = match r with Ok v => renewed (hd s) rec v | Err _ => markLost (hd s) end).
    { unfold renewTick. rewrite Ht, Hr. eauto. }
    destruct Htick as (h' & Htick & ->). pose proof (AtomicRenew _ _ _ _ _ _ d Htick) as Ha.
    assert (Hl : lost (hd s) = false) by (destruct (lost (hd s)); [by specialize (I10 eq_refl)|done]).
    destruct d; [destruct r as [v|err]|..]; cbn in Ha |- *; rewrite ?Hl in Ha; exact Ha.
  - rewrite Hc in I11. destruct I11 as [-> ->]. by eapply AtomicRelease.
Qed.

Lemma exited_stays clk0 s s' :
  pc s = Exited -> (step clk0 s s' \/ others s s') -> pc s' = Exited /\ hd s' = hd s /\ grants s' = grants s.
Proof. intros Hp [Hs|[_ ->]]; [destruct Hs; cbn; split_and!; congruence|done]. Qed.

(** What one iteration still has to do leads to the end of the loop once
    [stop] is closed. *)
Lemma loop_exits clk0 s :
  stopClosed s = true -> exists s', rtc (step clk0) s s' /\ pc s' = Exited /\ cl s' = cl s.
Proof.
  intros Hs.
  assert (Hsel : forall s, stopClosed s = true -> pc s = Selecting ->
    exists s', rtc (step clk0) s s' /\ pc s' = Exited /\ cl s' = cl s).
  { intros x Hx Hp. eexists. split; [apply rtc_once; by apply StepStop|done]. }
  assert (Hfail : forall s, pc s = Failed -> exists s', rtc (step clk0) s s' /\ pc s' = Exited /\ cl s' = cl s).
  { intros x Hp. eexists. split; [apply rtc_once; by apply StepMarkLost|done]. }
  assert (Hlong : forall s s1, step clk0 s s1 -> cl s1 = cl s ->
    (exists s', rtc (step clk0) s1 s' /\ pc s' = Exited /\ cl s' = cl s1) ->
    exists s', rtc (step clk0) s s' /\ pc s' = Exited /\ cl s' = cl s).
  { intros x x1 Hx Hc (x' & H1 & H2 & H3). exists x'. split; [by eapply rtc_l|]. by rewrite H3. }
  assert (Hsto : forall s rec v, stopClosed s = true -> pc s = Stored rec v ->
    exists s', rtc (step clk0) s s' /\ pc s' = Exited /\ cl s' = cl s).
  { intros x rec v Hx Hp. eapply Hlong; [by apply (StepCommit clk0 x rec v)|done|by apply Hsel]. }
  assert (Hpre : forall s rec v, stopClosed s = true -> pc s = Prepared rec v ->
    exists s', rtc (step clk0) s s' /\ pc s' = Exited /\ cl s' = cl s).
  { intros x rec v Hx Hp. destruct (ReplaceIfToken (st x) "" (key (hd x)) v (marshal rec)) as [st' r] eqn:Hr.
    eapply Hlong; [by apply (StepReplace clk0 x rec v "" st' r Delivered)|done|].
    destruct r as [w|e]; [by eapply Hsto|by apply Hfail]. }
  assert (Hsna : forall s rec v, stopClosed s = true -> pc s = Snapped rec v ->
    exists s', rtc (step clk0) s s' /\ pc s' = Exited /\ cl s' = cl s).
  { intros x rec v Hx Hp. eapply Hlong; [by apply (StepPrepare clk0 x rec v)|done|].
    destruct (maxExpiry (hd x) <? clk x + D); [by eexists; split; [apply rtc_refl|]|].
    by eapply Hpre. }
  destruct (pc s) as [| |rec v|rec v|rec v| |] eqn:Hp; eauto.
  - eapply Hlong; [by apply (StepSnapshot clk0 s)|done|by eapply Hsna].
  - exists s. split; [apply rtc_refl|done].
Qed.

(** The goroutine, its ticker, the two channels and the snapshots under the
    mutex amount to the renewals and releases of [Lease], one after the
    other: every step of the process is one renewal with the store's answer
    taken into account at once, one release with the lease as it is, the end
    of the heartbeat, or nothing; and there is no release before the
    heartbeat has ended and no renewal after it. *)
Theorem renewal_refines (a clk0 : Z) (s s' : sys)
    (HD : 0 < D) (Hreach : reachable a clk0 s) (Hstep : step clk0 s s') :
  atomic (abs s) (abs s').
Proof. eapply atomic_step; [by apply (reachable_renewal_inv a)|exact Hstep]. Qed.

(** C10  Once [stopRenewal] has returned the fencing token is stable: the loop
    has exited, the lease never changes again, its token is the last one the
    store gave it, so a release presents exactly that token, and if no other
    process has written since, it succeeds and leaves the released record. *)
Theorem stopped_renewal_stable (a clk0 : Z) (s : sys) (c : call)
    (HD : 0 < D) (Hreach : reachable a clk0 s)
    (Hstopped : cl s = Stable c \/ exists h now, cl s = Signed h now) :
  pc s = Exited /\ head (grants s) = Some (version (hd s)) /\
  (forall s', rtc (fun x y => step clk0 x y \/ others x y) s s' ->
     hd s' = hd s /\ grants s' = grants s /\ forall h now, cl s' = Signed h now -> h = hd s) /\
  (forall b now new, view (st s) !! key (hd s) = Some (b, version (hd s)) ->
     let run := Release marshal (st s) (hd s) now new in
     run.2 = None /\ view run.1 = <[key (hd s) := (marshal (releaseRecord (hd s) now), new)]> (view (st s))).
Proof.
  pose proof (reachable_renewal_inv a clk0 s HD Hreach) as Hinv.
  assert (Hp : pc s = Exited).
  { pose proof (i_caller _ _ _ Hinv) as Hc. unfold caller_ok in Hc.
    destruct Hstopped as [Hs|(h & now & Hs)]; rewrite Hs in Hc; by try destruct Hc. }
  split_and!; [done|pose proof (i_head _ _ _ Hinv) as Hh; by rewrite Hp in Hh| |].
  - intros s' Hs'.
    assert (Hall : pc s' = Exited /\ hd s' = hd s /\ grants s' = grants s /\ inv a clk0 s').
    { clear Hstopped Hreach. induction Hs' as [|x y z Hxy _ IH]; [done|].
      destruct (exited_stays clk0 x y Hp Hxy) as (H1 & H2 & H3).
      assert (Hy : inv a clk0 y).
      { destruct Hxy as [Hxy|[Hwf ->]]; [by eapply renewal_inv_step|]. destruct Hinv. by split. }
      destruct (IH Hy H1) as (E1 & E2 & E3 & E4). by rewrite E2, E3. }
    destruct Hall as (_ & H2 & H3 & H4). split_and!; [done..|]. intros h now Hc.
    pose proof (i_caller _ _ _ H4) as Hok. unfold caller_ok in Hok. rewrite Hc in Hok. by destruct Hok as [_ ->].
  - intros b now new Hv. destruct (Release_hit marshal (st s) (hd s) now new b (i_wf _ _ _ Hinv) Hv) as (H1 & _ & H2).
    done.
Qed.

(** C11  The heartbeat ends: at most eleven ticks are ever taken and ten tokens
    granted after the first, no record it writes expires later than three
    durations after the acquisition, closing [stop] never panics, and a
    holder that waits for the goroutine can always be reached by it. *)
Theorem renewal_ends (a clk0 : Z) (s : sys) (HD : 0 < D) (Hreach : reachable a clk0 s) :
  fired s <= 11 /\ Z.of_nat (length (grants s)) <= 11 /\
  ExpiresAt (h_record (hd s)) <= a + 3 * D /\
  (forall rec tok, pc s = Prepared rec tok -> ExpiresAt rec <= a + 3 * D) /\
  panicked s = false /\
  (forall c, cl s = Waiting c -> exists s', rtc (step clk0) s s' /\ cl s' = Stable c).
Proof.
  pose proof (reachable_renewal_inv a clk0 s HD Hreach) as Hinv.
  pose proof Hinv as [I1 I2 I3 I4 [I5 I5'] I6 I7 I8 I9 I10 I11 I12]. split_and!.
  - destruct (pc s); cbn in I6; lia.
  - apply I7.
  - done.
  - intros rec tok Hp. unfold loop_ok in I8. rewrite Hp in I8. destruct I8 as [_ [t Ht]]. unfold renewRecord in Ht.
    destruct (Z.ltb_spec (maxExpiry (hd s)) (t + D)); [done|]. injection Ht as <-. cbn. lia.
  - done.
  - intros c Hc. unfold caller_ok in I11. rewrite Hc in I11. destruct (loop_exits clk0 s I11) as (s1 & H1 & H2 & H3).
    eexists. split; [eapply rtc_r; [exact H1|]; apply (StepDone clk0 s1 c); [congruence|done]|done].
Qed.

(** ** Running it *)

(** A scheduler's choice; [None] when the thread is not there. *)
Inductive move := MClock (d : Z) | MLoop (stopFirst : bool) (new : string) (d : delivery) | MCaller (c : call) (new : string).

Definition exec (clk0 : Z) (mv : move) (s : sys) : option sys :=
  match mv with
  | MClock d =>
      if d <? 0 then None
      else Some (mkSys (st s) (hd s) (stopClosed s) (pc s) (cl s) (clk s + d) (fired s) (grants s) (panicked s))
  | MLoop stopFirst new d =>
      match pc s with
      | Selecting =>
          if stopFirst && stopClosed s then Some (at_loop s (st s) (hd s) Exited (grants s))
          else if clk0 + (fired s + 1) * interval <=? clk s then
            Some (mkSys (st s) (hd s) (stopClosed s) Ticked (cl s) (clk s) (fired s + 1) (grants s) (panicked s))
          else None
      | Ticked => Some (at_loop s (st s) (hd s) (Snapped (h_record (hd s)) (version (hd s))) (grants s))
      | Snapped rec tok => Some (at_loop s (st s) (hd s)
          (if maxExpiry (hd s) <? clk s + D then Exited else Prepared (with_expiry rec (clk s + D)) tok) (grants s))
      | Prepared rec tok =>
          let '(st', r) := ReplaceIfToken (st s) new (key (hd s)) tok (marshal rec) in
          Some (at_loop s (applied d (st s) st') (hd s)
            (match d, r with Delivered, Ok v => Stored rec v | _, _ => Failed end)
            (match d, r with Delivered, Ok v => v :: grants s | _, _ => grants s end))
      | Stored rec tok => Some (at_loop s (st s) (renewed (hd s) rec tok) Selecting (grants s))
      | Failed => Some (at_loop s (st s) (markLost (hd s)) Exited (grants s))
      | Exited => None
      end
  | MCaller c new =>
      match cl s with
      | Idle | Returned _ => Some (at_caller s (st s) (stopClosed s) (Choosing c))
      | Choosing c => Some (at_caller s (st s) (stopClosed s) (if stopClosed s then Waiting c else Closing c))
      | Closing c => if stopClosed s then None else Some (at_caller s (st s) true (Waiting c))
      | Waiting c => match pc s with Exited => Some (at_caller s (st s) (stopClosed s) (Stable c)) | _ => None end
      | Stable CAbandon => Some (at_caller s (st s) (stopClosed s) (Returned None))
      | Stable CRelease => Some (at_caller s (st s) (stopClosed s) (Signed (hd s) (clk s)))
      | Signed h now =>
          let '(st', r) := Release marshal (st s) h now new in
          Some (at_caller s st' (stopClosed s) (Returned r))
      end
  end.

Lemma exec_step clk0 mv s s' : exec clk0 mv s = Some s' -> step clk0 s s'.
Proof.
  unfold exec. intros He. destruct mv as [d|b new d|c new].
  - destruct (Z.ltb_spec d 0); [done|]. injection He as <-. by apply StepClock.
  - destruct (pc s) as [| |rec tok|rec tok|rec tok| |] eqn:Hp; try done; try (injection He as <-).
    + destruct (b && stopClosed s) eqn:Hb.
      * injection He as <-. apply andb_true_iff in Hb as [_ Hb]. by apply StepStop.
      * destruct (Z.leb_spec (clk0 + (fired s + 1) * interval) (clk s)); [|done]. injection He as <-. by apply StepTick.
    + by apply StepSnapshot.
    + by apply StepPrepare.
    + destruct (ReplaceIfToken _ _ _ _ _) as [st' r] eqn:Hr. injection He as <-. by eapply StepReplace.
    + by apply StepCommit.
    + by apply StepMarkLost.
  - destruct (cl s) as [|c'|c'|c'|[]|h now|e] eqn:Hc; try (injection He as <-).
    + apply StepCall. by left.
    + by apply StepChoose.
    + destruct (stopClosed s) eqn:Hs; [done|]. injection He as <-. by apply StepClose.
    + destruct (pc s) eqn:Hp; try done. injection He as <-. by apply StepDone.
    + by apply StepSign.
    + by apply StepAbandon.
    + destruct (Release _ _ _ _ _) as [st' r] eqn:Hr. injection He as <-.
      by apply (StepRelease clk0 s h now new st' r Delivered (EOther "")).
    + apply StepCall. eauto.
Qed.

Definition play (clk0 : Z) (mvs : list move) (s : sys) : sys :=
  foldl (fun s mv => default s (exec clk0 mv s)) s mvs.

Lemma play_reachable a clk0 mvs s : reachable a clk0 s -> reachable a clk0 (play clk0 mvs s).
Proof.
  revert s. induction mvs as [|mv mvs IH]; intros s Hs; [done|]. cbn. apply IH.
  destruct (exec clk0 mv s) as [s'|] eqn:He; [|done]. eapply reach_step; [exact Hs|]. by apply (exec_step clk0 mv).
Qed.
End Renewal.

(** A lease acquired at 0 is renewed at its first tick, then released while a
    second renewal is in flight. *)
Definition fresh : sys (S := Memory.store) :=
  start mgrA acquiredA.1 "k" (h_record heldA) "t1" 0.
Definition tick : move := MLoop false "" Delivered.
Definition holder : move := MCaller CRelease "t4".
Definition in_flight : list move :=
  [MClock (10 * second); tick; tick; tick; MLoop false "t2" Delivered; tick;
   MClock (10 * second); tick; tick; tick; holder; holder; holder].
Definition to_signed : list move :=
  [MLoop false "t3" Delivered; tick; MLoop true "" Delivered; holder; holder].

Lemma fresh_reachable mvs : reachable Codec.marshal mgrA 0 0 (play Codec.marshal mgrA 0 mvs fresh).
Proof. apply play_reachable, reach_start; [apply memory_wf|vm_compute; reflexivity|done]. Qed.

Lemma renewal_refines_witness :
  exists s', atomic Codec.marshal mgrA (abs (play Codec.marshal mgrA 0 in_flight fresh)) (abs s') /\
    head (grants s') = Some "t3".
Proof.
  exists (play Codec.marshal mgrA 0 [MLoop false "t3" Delivered] (play Codec.marshal mgrA 0 in_flight fresh)).
  split; [|vm_compute; reflexivity].
  apply (renewal_refines Codec.marshal mgrA 0 0).
  - vm_compute. reflexivity.
  - apply fresh_reachable.
  - apply (exec_step Codec.marshal mgrA 0 (MLoop false "t3" Delivered)). vm_compute. reflexivity.
Defined.

Lemma stopped_renewal_stable_witness :
  let s := play Codec.marshal mgrA 0 (in_flight ++ to_signed) fresh in
  head (grants s) = Some "t3" /\ pc s = Exited /\
  (Release Codec.marshal (st s) (hd s) (clk s) "t4").2 = None.
Proof.
  destruct (stopped_renewal_stable Codec.marshal mgrA 0 0
    (play Codec.marshal mgrA 0 (in_flight ++ to_signed) fresh) CRelease) as (H1 & H2 & _ & H4).
  - vm_compute. reflexivity.
  - apply fresh_reachable.
  - right. eexists _, _. vm_compute. reflexivity.
  - split; [vm_compute; reflexivity|]. split; [exact H1|].
    refine (proj1 (H4 _ _ "t4" _)). vm_compute. reflexivity.
Defined.

Lemma renewal_ends_witness :
  exists s', rtc (step Codec.marshal mgrA 0) (play Codec.marshal mgrA 0 in_flight fresh) s' /\ cl s' = Stable CRelease.
Proof.
  destruct (renewal_ends Codec.marshal mgrA 0 0 (play Codec.marshal mgrA 0 in_flight fresh)) as (_ & _ & _ & _ & _ & H).
  - vm_compute. reflexivity.
  - apply fresh_reachable.
  - apply H. vm_compute. reflexivity.
Defined.
