(* ===== verification/RespClient.v ===== *)
(** * RespClient: the RESP client of the end-to-end program ([e2e/c/e2e.c])

    [redis_connect], [write_all], [read_exact], [read_line] and
    [redis_command] over a socket that accepts and delivers bytes in pieces of
    any size. Every heap block the code writes is recorded with its capacity,
    and every socket it opens and closes is counted. *)

From S2P Require Import Prelude CStrings.

(** ** The socket *)

(** What successive [read] calls find: bytes (an empty piece is end of
    file), or an error. *)
Abbreviation chunk := (option string).

(** [read(fd, buffer, n)] for [n > 0]: its result, the bytes stored, and what
    is left on the socket. *)
Definition sys_read (cs : list chunk) (n : Z) : Z * string * list chunk :=
  match cs with
  | [] => (0, "", [])
  | None :: cs => (-1, "", cs)
  | Some s :: cs =>
      if slen s <=? n then (slen s, s, cs)
      else (n, sfirst (Z.to_nat n) s, Some (sskip (Z.to_nat n) s) :: cs)
  end.

(** The bytes that can be read before end of file or an error. *)
Fixpoint flat (cs : list chunk) : string :=
  match cs with
  | Some s :: cs => if String.eqb s "" then "" else s +:+ flat cs
  | _ => ""
  end.

(** A connected socket: what successive [write] calls accept, what the server
    sends once it has the command, and whether memory is available. *)
Record conn := mkConn {
  accepts : list Z;
  respond : string -> list chunk;
  malloc_ok : bool;
}.

(** One entry of the address list: [socket] failed, [connect] failed, or the
    connection. *)
Inductive address := NoSocket | Refused | Connects (c : conn).

(** ** The functions *)

(** The [for] loop of [redis_connect]: the connection, and how many sockets
    were opened and closed. *)
Fixpoint redis_connect_loop (ais : list address) : option conn * Z * Z :=
  match ais with
  | [] => (None, 0, 0)
  | NoSocket :: ais => redis_connect_loop ais
  | Refused :: ais => let '(c, o, cl) := redis_connect_loop ais in (c, o + 1, cl + 1)
  | Connects c :: _ => (Some c, 1, 0)
  end.

(** [redis_connect]; [None] when [getaddrinfo] fails. *)
Definition redis_connect (resolved : option (list address)) : option conn * Z * Z :=
  match resolved with
  | None => (None, 0, 0)
  | Some ais => redis_connect_loop ais
  end.

(** [write_all]: whether it returned 0, and the bytes the peer received. *)
Fixpoint write_all (ws : list Z) (buffer sent : string) : bool * string :=
  if String.eqb buffer "" then (true, sent)
  else match ws with
       | [] => (false, sent)
       | n :: ws =>
           if n <=? 0 then (false, sent)
           else write_all ws (sskip (Z.to_nat n) buffer) (sent +:+ sfirst (Z.to_nat n) buffer)
       end.

(** The loop of [read_exact] with [n] bytes to go: whether it returned 0, the
    bytes stored, the socket after it. Every round stores a byte or returns,
    so [n] is fuel enough. *)
Fixpoint read_loop (fuel : nat) (cs : list chunk) (n : Z) : bool * string * list chunk :=
  if n <=? 0 then (true, "", cs)
  else match fuel with
       | O => (false, "", cs)
       | S fuel =>
           let '(r, s, cs) := sys_read cs n in
           if r <=? 0 then (false, "", cs)
           else let '(ok, t, cs) := read_loop fuel cs (n - r) in (ok, s +:+ t, cs)
       end.
Definition read_exact (cs : list chunk) (n : Z) : bool * string * list chunk :=
  read_loop (Z.to_nat n) cs n.

(** Dropping one carriage return at the end of the line. *)
Fixpoint chop (s : string) : string :=
  match s with
  | EmptyString => EmptyString
  | String c EmptyString => if Ascii.eqb c carriage then EmptyString else s
  | String c s => String c (chop s)
  end.

(** [read_line] into a buffer of [size] bytes, byte by byte. *)
Fixpoint read_line_loop (fuel : nat) (size : Z) (cs : list chunk) (buffer : string)
    : option string * list chunk :=
  match fuel with
  | O => (None, cs)
  | S fuel =>
      match read_exact cs 1 with
      | (true, String c _, cs) =>
          if Ascii.eqb c newline then (Some (chop buffer), cs)
          else read_line_loop fuel size cs
                 (if slen buffer + 1 <? size then buffer +:+ String c "" else buffer)
      | (_, _, cs) => (None, cs)
      end
  end.
Definition read_line (size : Z) (cs : list chunk) : option string * list chunk :=
  read_line_loop (S (String.length (flat cs))) size cs "".

(** The block [redis_command] returns: a C string, or a block [read_exact]
    gave up on, holding the bytes read so far and no terminator. *)
Inductive reply := Str (s : string) | Unterminated (got : string).

(** A write into a heap block: its capacity and the bytes written from its
    start. *)
Record heap_write := mkWrite { capacity : Z; written : Z }.
Definition in_bounds (w : heap_write) : bool := written w <=? capacity w.

Record outcome := mkOutcome {
  value : option reply;
  heap : list heap_write;
  opened : Z;
  closed : Z;
}.

Definition strdup (ok : bool) (s : string) : option reply * list heap_write :=
  if ok then (Some (Str s), [mkWrite (slen s + 1) (slen s + 1)]) else (None, []).

(** [redis_command] from the header line on. *)
Definition read_reply (ok : bool) (header : string) (cs : list chunk)
    : option reply * list heap_write :=
  match header with
  | String c rest =>
      if Ascii.eqb c "-"%char then (None, [])
      else if Ascii.eqb c "$"%char then
        let length := strtol rest in
        if length <? 0 then strdup ok ""
        else if ok then
          let '(r, s, _) := read_exact cs (length + 2) in
          if r then (Some (Str (sfirst (Z.to_nat length) s)),
                     [mkWrite (length + 1) (slen s); mkWrite (length + 1) (length + 1)])
          else (Some (Unterminated s), [mkWrite (length + 1) (slen s)])
        else (None, [])
      else strdup ok header
  | EmptyString => strdup ok ""
  end.

Definition redis_command (resolved : option (list address)) (command : string) : outcome :=
  let '(fd, o, cl) := redis_connect resolved in
  match fd with
  | None => mkOutcome None [] o cl
  | Some c =>
      let line := snprintf 512 (command +:+ crlf) in
      let '(sent_ok, sent) := write_all (accepts c) line "" in
      if negb sent_ok then mkOutcome None [] o (cl + 1)
      else
        match read_line 256 (respond c sent) with
        | (None, _) => mkOutcome None [] o (cl + 1)
        | (Some header, cs) =>
            let '(v, h) := read_reply (malloc_ok c) header cs in
            mkOutcome v h o (cl + 1)
        end
  end.

(** ** Reading in pieces *)

Lemma flat_cons s cs : s <> "" -> flat (Some s :: cs) = s +:+ flat cs.
Proof. intros Hs. cbn. by rewrite (proj2 (String.eqb_neq s "") Hs). Qed.

Lemma slen_pos s : s <> "" -> 0 < slen s.
Proof. destruct s; [done|]. intros _. rewrite slen_cons. pose proof (slen_nonneg s). lia. Qed.

Lemma sfirst_lt n s t : (n < String.length s)%nat -> sfirst n (s +:+ t) = sfirst n s.
Proof.
  revert n. induction s as [|c s IH]; intros n Hn; [cbn in Hn; lia|].
  destruct n as [|n]; [done|]. change (String c s +:+ t) with (String c (s +:+ t)).
  cbn in *. rewrite IH; [done|lia].
Qed.

Lemma sskip_lt n s t : (n < String.length s)%nat -> sskip n (s +:+ t) = sskip n s +:+ t.
Proof.
  revert n. induction s as [|c s IH]; intros n Hn; [cbn in Hn; lia|].
  destruct n as [|n]; [done|]. change (String c s +:+ t) with (String c (s +:+ t)).
  cbn in *. rewrite IH; [done|lia].
Qed.

Lemma sfirst_ge n s t :
  (String.length s <= n)%nat -> sfirst n (s +:+ t) = s +:+ sfirst (n - String.length s) t.
Proof.
  revert n. induction s as [|c s IH]; intros n Hn.
  - cbn. rewrite Nat.sub_0_r. done.
  - destruct n as [|n]; [cbn in Hn; lia|]. change (String c s +:+ t) with (String c (s +:+ t)).
    cbn in *. change (String c s +:+ ?x) with (String c (s +:+ x)). rewrite IH; [done|lia].
Qed.

Lemma sskip_ge n s t :
  (String.length s <= n)%nat -> sskip n (s +:+ t) = sskip (n - String.length s) t.
Proof.
  revert n. induction s as [|c s IH]; intros n Hn.
  - cbn. rewrite Nat.sub_0_r. done.
  - destruct n as [|n]; [cbn in Hn; lia|]. change (String c s +:+ t) with (String c (s +:+ t)).
    cbn in *. rewrite IH; [done|lia].
Qed.

(** One [read]: nothing at end of file or on an error, otherwise a non-empty
    prefix of what is there. *)
Lemma sys_read_spec cs n :
  0 < n ->
  let '(r, s, cs') := sys_read cs n in
  (r <= 0 /\ flat cs = "") \/
  (0 < r <= n /\ r = slen s /\ s +:+ flat cs' = flat cs).
Proof.
  intros Hn. destruct cs as [|[s|] cs]; cbn [sys_read]; [by left| |by left].
  destruct (decide (s = "")) as [->|Hs]; [rewrite (proj2 (Z.leb_le _ _)) by (change (slen "") with 0; lia); by left|].
  pose proof (slen_pos s Hs). rewrite (flat_cons s cs Hs). destruct (Z.leb_spec (slen s) n).
  - right. split_and!; try done; lia.
  - unfold slen in *. right.
    assert (Hk : sskip (Z.to_nat n) s <> "").
    { intros He. pose proof (sskip_length (Z.to_nat n) s) as Hl. rewrite He in Hl. cbn in Hl. lia. }
    rewrite (flat_cons _ cs Hk), <- string_app_assoc, sfirst_skip, sfirst_length.
    split_and!; [lia|lia|lia|done].
Qed.

Lemma read_loop_spec fuel cs n :
  (Z.to_nat n <= fuel)%nat -> 0 <= n ->
  let '(ok, s, cs') := read_loop fuel cs n in
  if n <=? slen (flat cs)
  then ok = true /\ s = sfirst (Z.to_nat n) (flat cs) /\ flat cs' = sskip (Z.to_nat n) (flat cs)
  else ok = false /\ s = flat cs.
Proof.
  revert cs n. induction fuel as [|fuel IH]; intros cs n Hf Hn; cbn [read_loop].
  - assert (n = 0) as -> by lia. cbn. rewrite (proj2 (Z.leb_le _ _)) by apply slen_nonneg.
    split_and!; [done| |]; by destruct (flat cs).
  - destruct (Z.leb_spec n 0).
    + assert (n = 0) as -> by lia. rewrite (proj2 (Z.leb_le _ _)) by apply slen_nonneg.
      split_and!; [done| |]; by destruct (flat cs).
    + pose proof (sys_read_spec cs n ltac:(lia)) as Hr.
      destruct (sys_read cs n) as [[r s] cs1]. destruct Hr as [[Hr Hfl]|(Hr & -> & <-)].
      * rewrite (proj2 (Z.leb_le _ _) Hr), Hfl. rewrite (proj2 (Z.leb_gt _ _)) by (change (slen "") with 0; lia). done.
      * rewrite (proj2 (Z.leb_gt _ _)) by lia.
        specialize (IH cs1 (n - slen s) ltac:(lia) ltac:(lia)).
        destruct (read_loop fuel cs1 (n - slen s)) as [[ok t] cs2].
        rewrite slen_app. unfold slen in *.
        destruct (Z.leb_spec (n - Z.of_nat (String.length s)) (Z.of_nat (String.length (flat cs1)))).
        -- rewrite (proj2 (Z.leb_le _ _)) by lia. destruct IH as (-> & -> & ->).
           rewrite sfirst_ge, sskip_ge by lia.
           replace (Z.to_nat n - String.length s)%nat
             with (Z.to_nat (n - Z.of_nat (String.length s))) by lia. done.
        -- rewrite (proj2 (Z.leb_gt _ _)) by lia. by destruct IH as (-> & ->).
Qed.

Lemma read_exact_spec cs n :
  0 <= n ->
  let '(ok, s, cs') := read_exact cs n in
  if n <=? slen (flat cs)
  then ok = true /\ s = sfirst (Z.to_nat n) (flat cs) /\ flat cs' = sskip (Z.to_nat n) (flat cs)
  else ok = false /\ s = flat cs.
Proof. intros Hn. apply read_loop_spec; [done|exact Hn]. Qed.

Lemma write_all_spec ws buffer sent :
  (write_all ws buffer sent).1 = true -> (write_all ws buffer sent).2 = sent +:+ buffer.
Proof.
  revert buffer sent. induction ws as [|n ws IH]; intros buffer sent; cbn [write_all];
    destruct (String.eqb_spec buffer "") as [->|Hb]; cbn [fst snd]; try done;
    try (by rewrite string_app_nil_r).
  destruct (n <=? 0); [done|]. intros Hw. rewrite (IH _ _ Hw), string_app_assoc.
  by rewrite sfirst_skip.
Qed.

Lemma read_one cs c t :
  flat cs = String c t -> exists cs', read_exact cs 1 = (true, String c "", cs') /\ flat cs' = t.
Proof.
  intros Hf. pose proof (read_exact_spec cs 1 ltac:(lia)) as Hr. rewrite Hf in Hr.
  destruct (read_exact cs 1) as [[ok s] cs']. rewrite slen_cons in Hr.
  rewrite (proj2 (Z.leb_le _ _)) in Hr by (pose proof (slen_nonneg t); lia).
  destruct Hr as (-> & -> & Hr). exists cs'. split; [by destruct t|]. rewrite Hr. by destruct t.
Qed.

Lemma read_line_loop_spec fuel size cs buffer line rest :
  flat cs = line +:+ String newline rest -> strchr line newline = None ->
  (String.length line < fuel)%nat -> slen buffer < size ->
  exists cs', read_line_loop fuel size cs buffer
    = (Some (chop (sfirst (Z.to_nat (size - 1)) (buffer +:+ line))), cs') /\ flat cs' = rest.
Proof.
  revert fuel cs buffer. induction line as [|c line IH]; intros fuel cs buffer Hf Hn Hfuel Hb;
    destruct fuel as [|fuel]; cbn in Hfuel; try lia; cbn [read_line_loop].
  - destruct (read_one cs newline rest Hf) as (cs' & -> & Hcs'). rewrite Ascii.eqb_refl.
    rewrite string_app_nil_r, sfirst_all by (unfold slen in *; lia). eauto.
  - destruct (read_one cs c (line +:+ String newline rest) Hf) as (cs' & -> & Hcs').
    cbn [strchr] in Hn. destruct (Ascii.eqb c newline); [done|].
    destruct (strchr line newline) as [[]|] eqn:Hl; [done|].
    destruct (Z.ltb_spec (slen buffer + 1) size).
    + destruct (IH fuel cs' (buffer +:+ String c "") Hcs' eq_refl ltac:(lia)) as (cs2 & -> & H2).
      { rewrite slen_app. change (slen (String c "")) with 1. lia. }
      rewrite string_app_assoc. eauto.
    + destruct (IH fuel cs' buffer Hcs' eq_refl ltac:(lia) Hb) as (cs2 & -> & H2).
      exists cs2. split; [|done]. unfold slen in *.
      replace (Z.to_nat (size - 1)) with (String.length buffer) by lia. by rewrite !sfirst_app.
Qed.

Lemma chop_carriage h : chop (h +:+ String carriage "") = h.
Proof.
  induction h as [|c h IH]; [done|].
  change (String c h +:+ String carriage "") with (String c (h +:+ String carriage "")).
  cbn [chop]. rewrite IH. by destruct h.
Qed.

(** A header line of at most 253 bytes is read whole, without its line end. *)
Lemma read_line_header cs h rest :
  flat cs = h +:+ crlf +:+ rest -> strchr h newline = None -> slen h <= 253 ->
  exists cs', read_line 256 cs = (Some h, cs') /\ flat cs' = rest.
Proof.
  intros Hf Hn Hl. unfold read_line.
  destruct (read_line_loop_spec (S (String.length (flat cs))) 256 cs ""
              (h +:+ String carriage "") rest) as (cs' & -> & Hcs').
  - rewrite Hf, string_app_assoc. done.
  - destruct (strchr (h +:+ String carriage "") newline) as [[p q]|] eqn:Hs; [|done].
    destruct (strchr_spec _ _ _ _ Hs) as (He & [t ->] & _). exfalso.
    revert p He Hn Hs. clear. induction h as [|c h IH]; intros p He Hn Hs.
    + destruct p as [|x [|]]; discriminate He.
    + cbn [strchr] in Hn. change (String c h +:+ String carriage "") with (String c (h +:+ String carriage "")) in *.
      cbn [strchr] in Hs. destruct (Ascii.eqb c newline); [done|].
      destruct (strchr h newline) as [[]|]; [done|].
      destruct (strchr (h +:+ String carriage "") newline) as [[p' q']|] eqn:Hs'; [|done].
      destruct (strchr_spec _ _ _ _ Hs') as (He' & [t' ->] & _).
      simplify_eq. eapply IH; eauto.
  - rewrite Hf, !string_length_app. unfold crlf. cbn. lia.
  - done.
  - change ("" +:+ ?x) with x. rewrite sfirst_all, chop_carriage; [eauto|].
    rewrite string_length_app. unfold slen in Hl. cbn. lia.
Qed.

(** ** Printed numbers are short and on one line *)

Lemma dec_props fuel n acc :
  strchr acc newline = None ->
  strchr (dec fuel n acc) newline = None /\ slen (dec fuel n acc) <= Z.of_nat fuel + slen acc.
Proof.
  revert n acc. induction fuel as [|f IH]; intros n acc Ha; cbn [dec]; [split; [done|lia]|].
  pose proof (Z.mod_pos_bound n 10 ltac:(lia)).
  assert (Hs : strchr (String (chr (48 + n `mod` 10)) acc) newline = None).
  { cbn [strchr]. rewrite Ha. destruct (Ascii.eqb_spec (chr (48 + n `mod` 10)) newline) as [He|]; [|done].
    apply (f_equal code) in He. rewrite code_chr in He by lia. change (code newline) with 10 in He. lia. }
  destruct (n / 10 =? 0); [split; [done|rewrite slen_cons; lia]|].
  destruct (IH (n / 10) _ Hs) as [? Hl]. rewrite slen_cons in Hl. split; [done|lia].
Qed.

Lemma fmt_d_props z : strchr (fmt_d z) newline = None /\ slen (fmt_d z) <= 21.
Proof.
  unfold fmt_d. destruct (z <? 0).
  - destruct (dec_props 20 (- z) "" eq_refl) as [Hd Hl]. rewrite slen_cons. change (slen "") with 0 in Hl. split; [|lia].
    cbn [strchr]. change (Ascii.eqb "-"%char newline) with false. by rewrite Hd.
  - destruct (dec_props 20 z "" eq_refl) as [Hd Hl]. change (slen "") with 0 in Hl. split; [done|lia].
Qed.

(** ** Replies *)

(** The replies of the RESP protocol the program can meet. *)
Inductive resp :=
  | RSimple (s : string)
  | RError (s : string)
  | RInt (n : Z)
  | RBulk (s : string)
  | RNull.

Definition encode_resp (r : resp) : string :=
  match r with
  | RSimple s => String "+"%char s +:+ crlf
  | RError s => String "-"%char s +:+ crlf
  | RInt n => String ":"%char (fmt_d n) +:+ crlf
  | RBulk s => String "$"%char (fmt_d (slen s)) +:+ crlf +:+ s +:+ crlf
  | RNull => String "$"%char (fmt_d (-1)) +:+ crlf
  end.

(** Status lines fit the header buffer; bulk lengths are [long]s. *)
Definition resp_ok (r : resp) : Prop :=
  match r with
  | RSimple s | RError s => strchr s newline = None /\ slen s <= 252
  | RBulk s => slen s < two63
  | RInt _ | RNull => True
  end.

Definition payload (r : resp) : option reply :=
  match r with
  | RSimple s => Some (Str (String "+"%char s))
  | RError _ => None
  | RInt n => Some (Str (String ":"%char (fmt_d n)))
  | RBulk s => Some (Str s)
  | RNull => Some (Str "")
  end.

Lemma resp_header r rest :
  resp_ok r ->
  exists h body, encode_resp r +:+ rest = h +:+ crlf +:+ body /\ strchr h newline = None /\
    slen h <= 253 /\ h <> "" /\
    match r with
    | RSimple s => h = String "+"%char s
    | RError s => h = String "-"%char s
    | RInt n => h = String ":"%char (fmt_d n)
    | RBulk s => h = String "$"%char (fmt_d (slen s)) /\ body = s +:+ crlf +:+ rest
    | RNull => h = String "$"%char (fmt_d (-1))
    end.
Proof.
  intros Hok.
  assert (Hc : forall c s, Ascii.eqb c newline = false -> strchr s newline = None ->
                 strchr (String c s) newline = None)
    by (intros c s Hc Hs; cbn [strchr]; by rewrite Hc, Hs).
  destruct r as [s|s|n|s|]; cbn in Hok |- *.
  - exists (String "+"%char s), rest. destruct Hok.
    rewrite slen_cons, string_app_assoc. split_and!; auto; lia.
  - exists (String "-"%char s), rest. destruct Hok.
    rewrite slen_cons, string_app_assoc. split_and!; auto; lia.
  - exists (String ":"%char (fmt_d n)), rest. destruct (fmt_d_props n).
    rewrite slen_cons, string_app_assoc. split_and!; auto; lia.
  - exists (String "$"%char (fmt_d (slen s))), (s +:+ crlf +:+ rest).
    destruct (fmt_d_props (slen s)).
    rewrite slen_cons, !string_app_assoc. split_and!; auto; lia.
  - exists (String "$"%char (fmt_d (-1))), rest. destruct (fmt_d_props (-1)).
    rewrite slen_cons, string_app_assoc. split_and!; auto; lia.
Qed.

(** Up to the header line: the command reaches the server whole, and the
    header is read whole, however both are cut into pieces. *)
Lemma redis_command_header resolved command c o cl h body :
  redis_connect resolved = (Some c, o, cl) -> malloc_ok c = true -> slen command <= 509 ->
  (write_all (accepts c) (command +:+ crlf) "").1 = true ->
  flat (respond c (command +:+ crlf)) = h +:+ crlf +:+ body ->
  strchr h newline = None -> slen h <= 253 ->
  exists cs, flat cs = body /\
    value (redis_command resolved command) = (read_reply true h cs).1 /\
    heap (redis_command resolved command) = (read_reply true h cs).2.
Proof.
  intros Hconn Hmem Hlen Hwrite Hreply Hn Hl. unfold redis_command. rewrite Hconn.
  rewrite snprintf_fits by (rewrite slen_app; change (slen crlf) with 2; lia).
  pose proof (write_all_spec _ _ _ Hwrite) as Hsent. change ("" +:+ ?x) with x in Hsent.
  destruct (write_all (accepts c) (command +:+ crlf) "") as [ok sent]. cbn in Hwrite, Hsent.
  subst ok sent. cbn [negb].
  destruct (read_line_header _ h body Hreply Hn Hl) as (cs' & -> & Hcs').
  rewrite Hmem. exists cs'. by destruct (read_reply true h cs').
Qed.

(** A bulk reply after its header line: [n] bytes and a line end if they are
    all there, otherwise what there is. *)
Lemma read_reply_bulk n cs :
  0 <= n < two63 ->
  read_reply true (String "$"%char (fmt_d n)) cs =
    let got := sfirst (Z.to_nat (n + 2)) (flat cs) in
    if n + 2 <=? slen (flat cs)
    then (Some (Str (sfirst (Z.to_nat n) got)),
          [mkWrite (n + 1) (n + 2); mkWrite (n + 1) (n + 1)])
    else (Some (Unterminated (flat cs)), [mkWrite (n + 1) (slen (flat cs))]).
Proof.
  intros Hn. cbn [read_reply].
  pose proof (strtol_fmt_d n "" ltac:(unfold int64_range, two63 in *; lia) eq_refl) as Hd.
  rewrite string_app_nil_r in Hd. change (Ascii.eqb "$"%char "-"%char) with false.
  change (Ascii.eqb "$"%char "$"%char) with true. cbn match. rewrite Hd.
  rewrite (proj2 (Z.ltb_ge _ _)) by lia.
  pose proof (read_exact_spec cs (n + 2) ltac:(lia)) as Hx.
  destruct (read_exact cs (n + 2)) as [[ok got] cs2].
  destruct (Z.leb_spec (n + 2) (slen (flat cs))).
  - destruct Hx as (-> & -> & _). cbn zeta. do 3 f_equal. f_equal.
    unfold slen in *. rewrite sfirst_length. lia.
  - by destruct Hx as (-> & ->).
Qed.

(** However the kernel cuts the traffic into pieces, the client sends the whole
    command and returns the reply's payload: the status or integer line with
    its type character, the bulk string, the empty string for a null, NULL for
    an error. Every byte it stores for a line reply is inside its block; for a
    bulk reply it stores the payload and the line end, two bytes, in a block
    with room for one more byte than the payload. *)
Theorem redis_command_reply (resolved : option (list address)) (command rest : string) (c : conn)
    (o cl : Z) (r : resp)
    (Hconn : redis_connect resolved = (Some c, o, cl))
    (Hmem : malloc_ok c = true)
    (Hlen : slen command <= 509)
    (Hwrite : (write_all (accepts c) (command +:+ crlf) "").1 = true)
    (Hreply : flat (respond c (command +:+ crlf)) = encode_resp r +:+ rest)
    (Hok : resp_ok r) :
  value (redis_command resolved command) = payload r /\
  match r with
  | RBulk s => heap (redis_command resolved command)
      = [mkWrite (slen s + 1) (slen s + 2); mkWrite (slen s + 1) (slen s + 1)]
  | _ => Forall (fun w => in_bounds w = true) (heap (redis_command resolved command))
  end.
Proof.
  destruct (resp_header r rest Hok) as (h & body & He & Hn & Hl & Hh & Hr). rewrite He in Hreply.
  destruct (redis_command_header _ _ _ _ _ _ _ Hconn Hmem Hlen Hwrite Hreply Hn Hl)
    as (cs & Hcs & -> & ->).
  assert (Hdup : forall s, Forall (fun w => in_bounds w = true) (strdup true s).2).
  { intros s. cbn. repeat constructor. apply Z.leb_refl. }
  destruct r as [s|s|n|s|]; [subst h|subst h|subst h| |subst h]; try (split; [done|apply Hdup]).
  - split; [done|constructor].
  - destruct Hr as [-> ->]. pose proof (slen_nonneg s). pose proof (slen_nonneg rest). cbn in Hok.
    rewrite read_reply_bulk by lia. rewrite Hcs, <- string_app_assoc.
    rewrite slen_app, (slen_app s). change (slen crlf) with 2. cbn zeta.
    rewrite (proj2 (Z.leb_le _ _)) by lia.
    replace (Z.to_nat (slen s + 2)) with (String.length (s +:+ crlf))
      by (rewrite string_length_app; unfold slen; cbn; lia).
    rewrite sfirst_app. unfold slen at 1. by rewrite Nat2Z.id, sfirst_app.
Qed.

Definition pong : conn :=
  mkConn [3; 100] (fun _ => [Some "$"; Some "5"; Some (String carriage "");
                             Some (String newline "he"); Some ("llo" +:+ crlf)]) true.

Lemma redis_command_reply_witness :
  value (redis_command (Some [NoSocket; Refused; Connects pong]) "GET k") = Some (Str "hello").
Proof.
  refine (proj1 (redis_command_reply (Some [NoSocket; Refused; Connects pong]) "GET k" "" pong 2 1
                   (RBulk "hello") _ _ _ _ _ _)).
  - reflexivity.
  - reflexivity.
  - discriminate.
  - reflexivity.
  - reflexivity.
  - reflexivity.
Defined.

(** When the server stops in the middle of a bulk reply, the client does not
    report an error: it returns the block as it is, with the bytes that came
    and no terminator. *)
Theorem bulk_reply_cut_short (resolved : option (list address)) (command body : string) (c : conn)
    (o cl n : Z)
    (Hconn : redis_connect resolved = (Some c, o, cl))
    (Hmem : malloc_ok c = true)
    (Hlen : slen command <= 509)
    (Hwrite : (write_all (accepts c) (command +:+ crlf) "").1 = true)
    (Hreply : flat (respond c (command +:+ crlf)) = String "$"%char (fmt_d n) +:+ crlf +:+ body)
    (Hn : 0 <= n < two63) (Hcut : slen body < n + 2) :
  value (redis_command resolved command) = Some (Unterminated body).
Proof.
  destruct (fmt_d_props n) as [Hd Hl].
  destruct (redis_command_header _ _ _ _ _ (String "$"%char (fmt_d n)) body Hconn Hmem Hlen Hwrite Hreply)
    as (cs & Hcs & -> & _).
  - cbn [strchr]. by rewrite Hd.
  - rewrite slen_cons. lia.
  - rewrite read_reply_bulk by done. rewrite Hcs. cbn zeta.
    by rewrite (proj2 (Z.leb_gt _ _)) by lia.
Qed.

Definition cut : conn :=
  mkConn [100] (fun _ => [Some (String "$"%char ("5" +:+ crlf)); Some "he"; None]) true.

Lemma bulk_reply_cut_short_witness :
  value (redis_command (Some [Connects cut]) "GET k") = Some (Unterminated "he").
Proof.
  apply (bulk_reply_cut_short (Some [Connects cut]) "GET k" "he" cut 1 0 5);
    try reflexivity; try discriminate. split; [discriminate|reflexivity].
Defined.

(** Every socket the client opens is closed again, on every path: failed
    connections, short writes, missing headers and complete replies alike. *)
Theorem redis_command_closes_sockets (resolved : option (list address)) (command : string) :
  opened (redis_command resolved command) = closed (redis_command resolved command).
Proof.
  unfold redis_command.
  assert (Hc : let '(fd, o, cl) := redis_connect resolved in
               o = cl + (if fd is Some _ then 1 else 0)).
  { destruct resolved as [ais|]; [|done]. cbn. induction ais as [|[| |c] ais IH]; cbn; [done|done| |done].
    destruct (redis_connect_loop ais) as [[fd o] cl]. destruct fd; lia. }
  destruct (redis_connect resolved) as [[fd o] cl]. destruct fd as [c|]; [|cbn; lia].
  destruct (write_all _ _ _) as [[] sent]; cbn [negb]; [|cbn; lia].
  destruct (read_line _ _) as [[header|] cs]; [|cbn; lia].
  destruct (read_reply _ _ _) as [v h]. cbn. lia.
Qed.
