(* ===== verification/CProcess.v ===== *)
(** * CProcess: a C program that calls the walrusd library

    The state and the monad the two C programs run in: calls of the exported
    C functions and of Redis are answered by an environment, every string the
    library or the C library hands out is a block that has to be freed with
    the matching function, and a program ends by returning, by [exit(1)], or by
    undefined behaviour. The exported functions are those of
    [bindings/c/api.go] and [bindings/c/handle.go]; here they are a class, so that what the programs
    check is proved for every implementation. *)

From S2P Require Import Prelude CStrings RespClient.

(** ** The environment *)

Class Env (W : Type) := {
  abi_version : W -> W * option string;
  abi_init : W -> string -> W * Z;                        (* request; handle *)
  abi_write : W -> Z -> string -> Z -> W * option string; (* handle, request, deadline *)
  abi_read : W -> Z -> string -> Z -> W * option string;
  abi_close : W -> Z -> W * option string;
  getenv : string -> option string;
  clock_ms : W -> Z;
  rand : nat -> Z;
  resolve : W -> string -> string -> option (list address); (* host, port *)
}.

(** What the program does that can be seen from outside. *)
Inductive event :=
  | EVersion (r : option string)
  | EInit (req : string) (h : Z)
  | ERead (h : Z) (req : string) (r : option string)
  | EWrite (h : Z) (req : string) (r : option string)
  | EClose (h : Z) (r : option string)
  | ERedis (command : string) (r : option reply).

Record proc (W : Type) := mkProc {
  world : W;
  drawn : nat;            (* calls of rand so far *)
  next_block : nat;
  abi_blocks : gset nat;  (* strings of the library not yet freed *)
  heap_blocks : gset nat; (* strings of malloc and strdup not yet freed *)
  trace : list event;
}.
Arguments mkProc {W}.
Arguments world {W}.
Arguments drawn {W}.
Arguments next_block {W}.
Arguments abi_blocks {W}.
Arguments heap_blocks {W}.
Arguments trace {W}.

Inductive exit_status :=
  | ExitFail (step detail : string)
  | Fault (why : string).

Definition M (W A : Type) := proc W -> proc W * res exit_status A.

#[export] Instance M_ret W : MRet (M W) := fun _ a p => (p, Ok a).
#[export] Instance M_bind W : MBind (M W) := fun _ _ k m p =>
  match m p with
  | (p, Ok a) => k a p
  | (p, Err e) => (p, Err e)
  end.

(** A [char *] that points to a block of its own. *)
Abbreviation ptr := (nat * string)%type.

Section Process.
Context {W : Type} `{Env W}.

Definition fail {A} (step detail : string) : M W A := fun p => (p, Err (ExitFail step detail)).
Definition fault {A} (why : string) : M W A := fun p => (p, Err (Fault why)).
Definition check (c : bool) (step detail : string) : M W unit :=
  if c then mret tt else fail step detail.

(** A library call that returns a string to be freed with [walrusd_free]. *)
Definition abi_call (f : W -> W * option string) (ev : option string -> event) : M W (option ptr) :=
  fun p =>
    let '(w, r) := f (world p) in
    let tr := trace p ++ [ev r] in
    match r with
    | None => (mkProc w (drawn p) (next_block p) (abi_blocks p) (heap_blocks p) tr, Ok None)
    | Some s => (mkProc w (drawn p) (S (next_block p)) ({[next_block p]} ∪ abi_blocks p)
                   (heap_blocks p) tr, Ok (Some (next_block p, s)))
    end.

Definition runtime_version : M W (option ptr) := abi_call abi_version EVersion.
Definition runtime_init (req : string) : M W Z := fun p =>
  let '(w, h) := abi_init (world p) req in
  (mkProc w (drawn p) (next_block p) (abi_blocks p) (heap_blocks p) (trace p ++ [EInit req h]), Ok h).
Definition runtime_write (h : Z) (req : string) (deadline : Z) : M W (option ptr) :=
  abi_call (fun w => abi_write w h req deadline) (EWrite h req).
Definition runtime_read (h : Z) (req : string) (deadline : Z) : M W (option ptr) :=
  abi_call (fun w => abi_read w h req deadline) (ERead h req).
Definition runtime_close (h : Z) : M W (option ptr) :=
  abi_call (fun w => abi_close w h) (EClose h).

(** [walrusd_free] and [free] of a block that is not live are undefined. *)
Definition walrusd_free (b : ptr) : M W unit := fun p =>
  if bool_decide (b.1 ∈ abi_blocks p)
  then (mkProc (world p) (drawn p) (next_block p) (abi_blocks p ∖ {[b.1]}) (heap_blocks p) (trace p), Ok tt)
  else (p, Err (Fault "walrusd_free")).
Definition c_free {A} (b : nat * A) : M W unit := fun p =>
  if bool_decide (b.1 ∈ heap_blocks p)
  then (mkProc (world p) (drawn p) (next_block p) (abi_blocks p) (heap_blocks p ∖ {[b.1]}) (trace p), Ok tt)
  else (p, Err (Fault "free")).

Definition now_ms : M W Z := fun p => (p, Ok (clock_ms (world p))).
Definition c_rand : M W Z := fun p =>
  (mkProc (world p) (S (drawn p)) (next_block p) (abi_blocks p) (heap_blocks p) (trace p),
   Ok (rand (drawn p))).

(** [redis_command] in the process: the reply is a heap block. *)
Definition redis (host port command : string) : M W (option (nat * reply)) := fun p =>
  let v := value (redis_command (resolve (world p) host port) command) in
  let tr := trace p ++ [ERedis command v] in
  match v with
  | None => (mkProc (world p) (drawn p) (next_block p) (abi_blocks p) (heap_blocks p) tr, Ok None)
  | Some r => (mkProc (world p) (drawn p) (S (next_block p)) (abi_blocks p)
                 ({[next_block p]} ∪ heap_blocks p) tr, Ok (Some (next_block p, r)))
  end.

(** ** Reasoning about runs that go on *)

(** [post] holds of the result whenever [m] neither exits nor faults. *)
Definition wp {A} (m : M W A) (post : A -> proc W -> Prop) (p : proc W) : Prop :=
  match m p with
  | (p', Ok a) => post a p'
  | (_, Err _) => True
  end.

Lemma wp_bind {A B} (m : M W A) (k : A -> M W B) post p :
  wp m (fun a => wp (k a) post) p -> wp (m ≫= k) post p.
Proof. unfold wp, mbind, M_bind. by destruct (m p) as [p' [a|e]]. Qed.

Lemma wp_ret {A} (a : A) (post : A -> proc W -> Prop) p : post a p -> wp (mret a) post p.
Proof. done. Qed.

Lemma wp_mono {A} (m : M W A) (post post' : A -> proc W -> Prop) p :
  wp m post p -> (forall a p', post a p' -> post' a p') -> wp m post' p.
Proof. unfold wp. destruct (m p) as [p' [a|e]]; auto. Qed.

Lemma wp_check c step detail (post : unit -> proc W -> Prop) p :
  (c = true -> post tt p) -> wp (check c step detail) post p.
Proof. unfold wp, check. destruct c; cbn; auto. Qed.

Lemma wp_run {A} (m : M W A) post p p' a : wp m post p -> m p = (p', Ok a) -> post a p'.
Proof. unfold wp. intros Hw Hm. by rewrite Hm in Hw. Qed.

(** The blocks that are live and the trace so far. *)
Record st (p : proc W) (A Hs : gset nat) (t : list event) : Prop := {
  st_abi : abi_blocks p = A;
  st_heap : heap_blocks p = Hs;
  st_trace : trace p = t;
  st_next : forall b, b ∈ A ∪ Hs -> (b < next_block p)%nat;
}.

Lemma wp_abi_call f ev (post : option ptr -> proc W -> Prop) p A Hs t :
  st p A Hs t ->
  (forall p', st p' A Hs (t ++ [ev None]) -> post None p') ->
  (forall p' n s, n ∉ A -> st p' ({[n]} ∪ A) Hs (t ++ [ev (Some s)]) -> post (Some (n, s)) p') ->
  wp (abi_call f ev) post p.
Proof.
  intros [HA HH Ht Hn] Hnone Hsome. unfold wp, abi_call.
  destruct (f (world p)) as [w [s|]].
  - apply Hsome; [intros Hin; specialize (Hn (next_block p)); set_solver by lia|].
    split; cbn; [by rewrite HA|done|by rewrite Ht|].
    intros b Hb. destruct (decide (b = next_block p)); [lia|].
    specialize (Hn b ltac:(set_solver)). lia.
  - apply Hnone. split; cbn; [done|done|by rewrite Ht|done].
Qed.

Lemma wp_redis host port command (post : option (nat * reply) -> proc W -> Prop) p A Hs t :
  st p A Hs t ->
  (forall p', st p' A Hs (t ++ [ERedis command None]) -> post None p') ->
  (forall p' n r, n ∉ Hs -> st p' A ({[n]} ∪ Hs) (t ++ [ERedis command (Some r)]) ->
     post (Some (n, r)) p') ->
  wp (redis host port command) post p.
Proof.
  intros [HA HH Ht Hn] Hnone Hsome. unfold wp, redis.
  destruct (value _) as [r|].
  - apply Hsome; [intros Hin; specialize (Hn (next_block p)); set_solver by lia|].
    split; cbn; [done|by rewrite HH|by rewrite Ht|].
    intros b Hb. destruct (decide (b = next_block p)); [lia|].
    specialize (Hn b ltac:(set_solver)). lia.
  - apply Hnone. split; cbn; [done|done|by rewrite Ht|done].
Qed.

Lemma wp_walrusd_free (b : ptr) (post : unit -> proc W -> Prop) p A Hs t :
  st p A Hs t -> (forall p', st p' (A ∖ {[b.1]}) Hs t -> post tt p') ->
  wp (walrusd_free b) post p.
Proof.
  intros [HA HH Ht Hn] Hpost. unfold wp, walrusd_free. case_bool_decide; [|done].
  apply Hpost. split; cbn; [by rewrite HA|done|done|]. intros; apply Hn; set_solver.
Qed.

Lemma wp_c_free {A'} (b : nat * A') (post : unit -> proc W -> Prop) p A Hs t :
  st p A Hs t -> (forall p', st p' A (Hs ∖ {[b.1]}) t -> post tt p') ->
  wp (c_free b) post p.
Proof.
  intros [HA HH Ht Hn] Hpost. unfold wp, c_free. case_bool_decide; [|done].
  apply Hpost. split; cbn; [done|by rewrite HH|done|]. intros; apply Hn; set_solver.
Qed.

Lemma wp_runtime_init req (post : Z -> proc W -> Prop) p A Hs t :
  st p A Hs t -> (forall h p', st p' A Hs (t ++ [EInit req h]) -> post h p') ->
  wp (runtime_init req) post p.
Proof.
  intros [HA HH Ht Hn] Hpost. unfold wp, runtime_init. destruct (abi_init _ _) as [w h].
  apply Hpost. split; cbn; [done|done|by rewrite Ht|done].
Qed.

Lemma wp_rand (post : Z -> proc W -> Prop) p A Hs t :
  st p A Hs t -> (forall z p', st p' A Hs t -> post z p') -> wp c_rand post p.
Proof. intros [HA HH Ht Hn] Hpost. apply Hpost. by split. Qed.

Lemma wp_now (post : Z -> proc W -> Prop) p : (forall z, post z p) -> wp now_ms post p.
Proof. intros Hpost. apply Hpost. Qed.

Lemma st_free_abi p n A Hs t : n ∉ A -> st p (({[n]} ∪ A) ∖ {[n]}) Hs t -> st p A Hs t.
Proof. intros Hn. by replace (({[n]} ∪ A) ∖ {[n]}) with A by set_solver. Qed.

Lemma st_free_heap p n A Hs t : n ∉ Hs -> st p A (({[n]} ∪ Hs) ∖ {[n]}) t -> st p A Hs t.
Proof. intros Hn. by replace (({[n]} ∪ Hs) ∖ {[n]}) with Hs by set_solver. Qed.
End Process.
