(* ===== verification/E2eClient.v ===== *)
(** * E2eClient: the end-to-end check of the C ABI ([e2e/c/e2e.c])

    The program as it is written: its fixed buffers (with [snprintf]'s
    truncation), the flat-envelope scanner, the lease assertions and [main].
    The theorems say what a PASS means, that the program frees everything it
    is given, when its buffers truncate, and that the scanner finds a field. *)

From S2P Require Import Prelude CStrings RespClient CProcess.

Definition REQUEST_TIMEOUT_MS : Z := 20000.

(** The static buffers, once [main] has filled them. *)
Record globals := mkGlobals {
  endpoint : string;
  region : string;
  bucket : string;
  access_key : string;
  secret_key : string;
  redis_host : string;
  redis_port : string;
  root_prefix : string;
  database_id : string;
  lease_key : string;
  descriptor : string;
}.

(** ** Texts *)

Definition database_text (r1 r2 : Z) : string := "users/c_" +:+ fmt_d r1 +:+ fmt_d r2.
Definition lease_text (root db : string) : string := root +:+ "/" +:+ db +:+ "/lease.json".

Definition descriptor_text (db ep reg buck root ak sk : string) : string :=
  lit "{'database_id':'" +:+ db +:+ lit "','storage':{'provider':'s3','endpoint':'" +:+ ep
  +:+ lit "','region':'" +:+ reg +:+ lit "','bucket':'" +:+ buck
  +:+ lit "','root_prefix':'" +:+ root
  +:+ lit "'},'credentials':{'access_key_id':'" +:+ ak
  +:+ lit "','secret_access_key':'" +:+ sk +:+ lit "'}}".

Definition init_text (host port : string) : string :=
  lit "{'owner':'e2e-c-owner','config':{'request_timeout_ms':" +:+ fmt_d REQUEST_TIMEOUT_MS
  +:+ lit ",'redis_address':'" +:+ host +:+ ":" +:+ port +:+ lit "'}}".

Definition write_text (g : globals) (key statements : string) : string :=
  lit "{'descriptor':" +:+ descriptor g +:+ lit ",'idempotency_key':'" +:+ key
  +:+ lit "','statements':[" +:+ statements +:+ "]}".

Definition read_text (g : globals) (sql params : string) : string :=
  lit "{'descriptor':" +:+ descriptor g +:+ lit ",'sql':'" +:+ sql
  +:+ lit "','params':[" +:+ params +:+ "]}".

Definition write_request (g : globals) (size : Z) (key statements : string) : string :=
  snprintf size (write_text g key statements).
Definition read_request (g : globals) (size : Z) (sql params : string) : string :=
  snprintf size (read_text g sql params).

Definition insert_text (value : string) : string :=
  lit "{'sql':'INSERT INTO kv (k, v) VALUES (?, ?)','params':['greeting','" +:+ value +:+ lit "']}".
Definition schema_statement : string :=
  lit "{'sql':'CREATE TABLE kv (k TEXT PRIMARY KEY, v TEXT)'}".

(** ** The flat-envelope scanner *)

Definition has (s needle : string) : bool :=
  match strstr s needle with Some _ => true | None => false end.

(** The scanning part of [extract_number] and [extract_string]: the value, or
    the detail the program fails with. *)
Definition number_field (json key : string) : res string Z :=
  let needle := snprintf 128 (lit "'" +:+ key +:+ lit "':") in
  match strstr json needle with
  | None => Err "field not found in response"
  | Some start => Ok (strtol (sskip (String.length needle) start))
  end.

Definition string_field (json key : string) (size : Z) : res string string :=
  let needle := snprintf 128 (lit "'" +:+ key +:+ lit "':'") in
  match strstr json needle with
  | None => Err "field not found in response"
  | Some start =>
      match strchr (sskip (String.length needle) start) dquote with
      | None => Err "unterminated field in response"
      | Some (val, _) => if size <=? slen val then Err "field too long for buffer" else Ok val
      end
  end.

Definition ok_true : string := lit "'ok':true".
Definition released_text : string := lit "'state':'released'".

Section Program.
Context {W : Type} `{Env W}.

Definition copy_env (size : Z) (name fallback : string) : string :=
  snprintf size (match getenv name with
                 | Some value => if String.eqb value "" then fallback else value
                 | None => fallback
                 end).

Definition envelope_ok (response : option ptr) (step : string) : M W ptr :=
  match response with
  | None => fail step "null response from the core"
  | Some r => if has r.2 ok_true then mret r else fail step r.2
  end.

Definition extract_number (json key step : string) : M W Z :=
  match number_field json key with
  | Err detail => fail step detail
  | Ok n => mret n
  end.

Definition extract_string (json key : string) (size : Z) (step : string) : M W string :=
  match string_field json key size with
  | Err detail => fail step detail
  | Ok val => mret val
  end.

(** ** Lease assertions *)

Definition lease_data (g : globals) (step : string) : M W ptr :=
  reply ← redis (redis_host g) (redis_port g) (snprintf 512 ("HGET " +:+ lease_key g +:+ " data"));
  match reply with
  | None | Some (_, Str EmptyString) => fail step "lease record not found in redis"
  | Some (_, Unterminated _) => fault "reply read past its end"
  | Some (b, Str s) => mret (b, s)
  end.

Definition require_lease_absent (g : globals) (step : string) : M W unit :=
  reply ← redis (redis_host g) (redis_port g) (snprintf 512 ("EXISTS " +:+ lease_key g));
  match reply with
  | Some (_, Unterminated _) => fault "reply read past its end"
  | Some (b, Str s) =>
      check (strcmp s ":0" =? 0) step
        "lease key exists; the operation took a lease it should not have";;
      c_free (b, s)
  | None => fail step "lease key exists; the operation took a lease it should not have"
  end.

Definition require_lease_released (g : globals) (step : string) : M W unit :=
  data ← lease_data g step;
  check (has data.2 released_text) step "lease state is not released";;
  c_free data.

Definition require_lease_unchanged (g : globals) (step before : string) : M W unit :=
  after ← lease_data g step;
  check (strcmp after.2 before =? 0) step "lease record changed; reads must not touch leases";;
  c_free after.

(** ** ABI calls *)

Definition call (is_write : bool) (handle : Z) (request step : string) : M W ptr :=
  now ← now_ms;
  response ← (if is_write
              then runtime_write handle request (now + REQUEST_TIMEOUT_MS)
              else runtime_read handle request (now + REQUEST_TIMEOUT_MS));
  envelope_ok response step.

(** ** [main], step by step *)

Definition configure : M W globals :=
  let endpoint := copy_env 256 "WALRUSD_E2E_ENDPOINT" "http://127.0.0.1:9000" in
  let region := copy_env 64 "WALRUSD_E2E_REGION" "us-east-1" in
  let bucket := copy_env 128 "WALRUSD_E2E_BUCKET" "walrusd-e2e" in
  let access_key := copy_env 128 "WALRUSD_E2E_ACCESS_KEY" "walrusd" in
  let secret_key := copy_env 128 "WALRUSD_E2E_SECRET_KEY" "walrusdsecret" in
  let root_prefix := copy_env 128 "WALRUSD_E2E_ROOT_PREFIX" "walrusd-e2e" in
  let redis_addr := copy_env 160 "WALRUSD_E2E_REDIS" "127.0.0.1:6379" in
  match strrchr redis_addr ":"%char with
  | None => fail "config" "WALRUSD_E2E_REDIS must be host:port"
  | Some (host, port) =>
      r1 ← c_rand;
      r2 ← c_rand;
      let db := snprintf 192 (database_text r1 r2) in
      mret (mkGlobals endpoint region bucket access_key secret_key
              (snprintf 128 host) (snprintf 16 port) root_prefix db
              (snprintf 384 (lease_text root_prefix db))
              (snprintf 1024 (descriptor_text db endpoint region bucket root_prefix
                                access_key secret_key)))
  end.

Definition start (g : globals) : M W Z :=
  version ← runtime_version;
  version ← envelope_ok version "version";
  walrusd_free version;;
  handle ← runtime_init (snprintf 512 (init_text (redis_host g) (redis_port g)));
  check (negb (handle =? 0)) "init" "walrusd_runtime_init returned 0";;
  mret handle.

Definition read_before_write (g : globals) (handle : Z) : M W unit :=
  response ← call false handle
    (read_request g 2048 "SELECT count(*) AS n FROM sqlite_master" "") "read before write";
  check (has response.2 (lit "'n':0")) "read before write" "expected an empty database";;
  walrusd_free response;;
  require_lease_absent g "read before write".

Definition schema_write (g : globals) (handle : Z) : M W string :=
  response ← call true handle (write_request g 2048 "e2e-schema" schema_statement) "schema write";
  schema_txid ← extract_string response.2 "txid" 64 "schema write";
  walrusd_free response;;
  require_lease_released g "schema write";;
  mret schema_txid.

Definition insert_write (g : globals) (handle : Z) (insert_key statements schema_txid : string)
    : M W string :=
  response ← call true handle (write_request g 2048 insert_key statements) "insert write";
  insert_txid ← extract_string response.2 "txid" 64 "insert write";
  walrusd_free response;;
  check (0 <? strcmp insert_txid schema_txid) "insert write"
    "txid did not advance past the schema write";;
  released ← lease_data g "insert write";
  check (has released.2 released_text) "insert write" "lease state is not released";;
  epoch ← extract_number released.2 "epoch" "insert write";
  check (negb (epoch <? 2)) "insert write" "epoch did not advance past the schema write";;
  extract_number released.2 "epoch" "insert write";;
  c_free released;;
  mret insert_txid.

Definition idempotent_retry (g : globals) (handle : Z) (insert_key statements insert_txid : string)
    : M W unit :=
  response ← call true handle (write_request g 2048 insert_key statements) "idempotent retry";
  retry_txid ← extract_string response.2 "txid" 64 "idempotent retry";
  walrusd_free response;;
  check (strcmp retry_txid insert_txid =? 0) "idempotent retry"
    "txid differs from the original write";;
  require_lease_released g "idempotent retry".

Definition reads_after_write (g : globals) (handle : Z) (value : string) : M W unit :=
  before ← lease_data g "read after write";
  response ← call false handle
    (read_request g 2048 "SELECT v FROM kv WHERE k = ?" (lit "'greeting'")) "read after write";
  read_value ← extract_string response.2 "v" 64 "read after write";
  walrusd_free response;;
  check (strcmp read_value value =? 0) "read after write"
    "read value differs from the written value";;
  require_lease_unchanged g "read after write" before.2;;
  response ← call false handle
    (read_request g 2048 "SELECT count(*) AS n FROM kv" "") "second read";
  check (has response.2 (lit "'n':1")) "second read" "expected exactly one row";;
  walrusd_free response;;
  require_lease_unchanged g "second read" before.2;;
  c_free before.

Definition finish (handle : Z) : M W Z :=
  response ← runtime_close handle;
  match response with
  | Some r => walrusd_free r;; mret 0
  | None => mret 0
  end.

Definition main : M W Z :=
  g ← configure;
  handle ← start g;
  read_before_write g handle;;
  schema_txid ← schema_write g handle;
  r3 ← c_rand;
  r4 ← c_rand;
  r5 ← c_rand;
  let value := snprintf 64 ("value-" +:+ fmt_d r3 +:+ "-" +:+ fmt_d r4) in
  let insert_key := snprintf 64 ("e2e-insert-" +:+ fmt_d r5) in
  let statements := snprintf 512 (insert_text value) in
  insert_txid ← insert_write g handle insert_key statements schema_txid;
  idempotent_retry g handle insert_key statements insert_txid;;
  reads_after_write g handle value;;
  finish handle.

(** ** Rules for the program's own functions *)

Definition hget (g : globals) : string := snprintf 512 ("HGET " +:+ lease_key g +:+ " data").
Definition exists_cmd (g : globals) : string := snprintf 512 ("EXISTS " +:+ lease_key g).

Lemma wp_call (is_write : bool) h req step (post : ptr -> proc W -> Prop) p A Hs t :
  st p A Hs t ->
  (forall p' n s, n ∉ A -> has s ok_true = true ->
     st p' ({[n]} ∪ A) Hs (t ++ [if is_write then EWrite h req (Some s) else ERead h req (Some s)]) ->
     post (n, s) p') ->
  wp (call is_write h req step) post p.
Proof.
  intros Hp Hpost. apply wp_bind, wp_now. intros z. apply wp_bind.
  destruct is_write; (eapply wp_abi_call; [exact Hp|intros p' _; exact I|]); intros p' n s Hn Hp';
    unfold envelope_ok; cbn [snd]; destruct (has s ok_true) eqn:Hok; try exact I; exact (Hpost p' n s Hn Hok Hp').
Qed.

Lemma wp_lease_data g step (post : ptr -> proc W -> Prop) p A Hs t :
  st p A Hs t ->
  (forall p' n s, n ∉ Hs -> st p' A ({[n]} ∪ Hs) (t ++ [ERedis (hget g) (Some (Str s))]) ->
     post (n, s) p') ->
  wp (lease_data g step) post p.
Proof.
  intros Hp Hpost. apply wp_bind. eapply wp_redis; [exact Hp|intros p' _; exact I|].
  intros p' n [s|s] Hn Hp'; [|exact I]. destruct s as [|c s]; [exact I|]. exact (Hpost p' n _ Hn Hp').
Qed.

Lemma wp_require_lease_absent g step (post : unit -> proc W -> Prop) p A Hs t :
  st p A Hs t ->
  (forall p' s, strcmp s ":0" = 0 -> st p' A Hs (t ++ [ERedis (exists_cmd g) (Some (Str s))]) ->
     post tt p') ->
  wp (require_lease_absent g step) post p.
Proof.
  intros Hp Hpost. apply wp_bind. eapply wp_redis; [exact Hp|intros p' _; exact I|].
  intros p' n [s|s] Hn Hp'; [|exact I]. apply wp_bind, wp_check. intros Hs0. bool_prop.
  eapply wp_c_free; [exact Hp'|]. intros p2 Hp2. apply (Hpost p2 s); [done|].
  by eapply st_free_heap.
Qed.

Lemma wp_require_lease_released g step (post : unit -> proc W -> Prop) p A Hs t :
  st p A Hs t ->
  (forall p' s, has s released_text = true ->
     st p' A Hs (t ++ [ERedis (hget g) (Some (Str s))]) -> post tt p') ->
  wp (require_lease_released g step) post p.
Proof.
  intros Hp Hpost. apply wp_bind. eapply wp_lease_data; [exact Hp|]. intros p' n s Hn Hp'.
  apply wp_bind, wp_check. intros Hs0. eapply wp_c_free; [exact Hp'|]. intros p2 Hp2.
  apply (Hpost p2 s); [done|]. by eapply st_free_heap.
Qed.

Lemma wp_require_lease_unchanged g step before (post : unit -> proc W -> Prop) p A Hs t :
  st p A Hs t ->
  (forall p' s, strcmp s before = 0 ->
     st p' A Hs (t ++ [ERedis (hget g) (Some (Str s))]) -> post tt p') ->
  wp (require_lease_unchanged g step before) post p.
Proof.
  intros Hp Hpost. apply wp_bind. eapply wp_lease_data; [exact Hp|]. intros p' n s Hn Hp'.
  apply wp_bind, wp_check. intros Hs0. bool_prop. eapply wp_c_free; [exact Hp'|]. intros p2 Hp2.
  apply (Hpost p2 s); [done|]. by eapply st_free_heap.
Qed.

Lemma wp_extract_string json key size step (post : string -> proc W -> Prop) p :
  (forall v, string_field json key size = Ok v -> post v p) ->
  wp (extract_string json key size step) post p.
Proof. intros Hpost. unfold extract_string. destruct (string_field _ _ _); [|exact I]. by apply Hpost. Qed.

Lemma wp_extract_number json key step (post : Z -> proc W -> Prop) p :
  (forall v, number_field json key = Ok v -> post v p) ->
  wp (extract_number json key step) post p.
Proof. intros Hpost. unfold extract_number. destruct (number_field _ _); [|exact I]. by apply Hpost. Qed.

(** ** The steps *)

Lemma wp_start g p t :
  st p ∅ ∅ t ->
  wp (start g) (fun h p' => h <> 0 /\ exists v, has v ok_true = true /\
    st p' ∅ ∅ (t ++ [EVersion (Some v);
                     EInit (snprintf 512 (init_text (redis_host g) (redis_port g))) h])) p.
Proof.
  intros Hp. apply wp_bind. eapply wp_abi_call; [exact Hp|intros p' _; exact I|].
  intros p1 n v Hn Hp1. apply wp_bind. unfold envelope_ok. cbn [snd].
  destruct (has v ok_true) eqn:Hv; [|exact I].
  apply wp_ret, wp_bind. eapply wp_walrusd_free; [exact Hp1|]. intros p2 Hp2.
  apply wp_bind. eapply wp_runtime_init; [exact Hp2|]. intros h p3 Hp3.
  apply wp_bind, wp_check. intros Hh. bool_prop. split; [done|]. exists v. split; [done|].
  rewrite <- app_assoc in Hp3. by eapply st_free_abi.
Qed.

Definition first_read (g : globals) : string :=
  read_request g 2048 "SELECT count(*) AS n FROM sqlite_master" "".

Lemma wp_read_before_write g h p t :
  st p ∅ ∅ t ->
  wp (read_before_write g h) (fun _ p' => exists s l,
    has s ok_true = true /\ has s (lit "'n':0") = true /\ strcmp l ":0" = 0 /\
    st p' ∅ ∅ (t ++ [ERead h (first_read g) (Some s); ERedis (exists_cmd g) (Some (Str l))])) p.
Proof.
  intros Hp. apply wp_bind. eapply wp_call; [exact Hp|]. intros p1 n s Hn Hok Hp1.
  apply wp_bind, wp_check. intros Hz. apply wp_bind.
  eapply wp_walrusd_free; [exact Hp1|]. intros p2 Hp2.
  eapply wp_require_lease_absent; [by eapply st_free_abi|]. intros p3 l Hl Hp3.
  rewrite <- app_assoc in Hp3. by exists s, l.
Qed.

Definition schema_req (g : globals) : string := write_request g 2048 "e2e-schema" schema_statement.

Lemma wp_schema_write g h p t :
  st p ∅ ∅ t ->
  wp (schema_write g h) (fun txid p' => exists s l,
    has s ok_true = true /\ string_field s "txid" 64 = Ok txid /\ has l released_text = true /\
    st p' ∅ ∅ (t ++ [EWrite h (schema_req g) (Some s); ERedis (hget g) (Some (Str l))])) p.
Proof.
  intros Hp. apply wp_bind. eapply wp_call; [exact Hp|]. intros p1 n s Hn Hok Hp1.
  apply wp_bind, wp_extract_string. intros txid Ht. apply wp_bind.
  eapply wp_walrusd_free; [exact Hp1|]. intros p2 Hp2. apply wp_bind.
  eapply wp_require_lease_released; [by eapply st_free_abi|]. intros p3 l Hl Hp3.
  rewrite <- app_assoc in Hp3. by exists s, l.
Qed.

Lemma wp_insert_write g h key stmts t1 p t :
  st p ∅ ∅ t ->
  wp (insert_write g h key stmts t1) (fun txid p' => exists s l epoch,
    has s ok_true = true /\ string_field s "txid" 64 = Ok txid /\ 0 < strcmp txid t1 /\
    has l released_text = true /\ number_field l "epoch" = Ok epoch /\ 2 <= epoch /\
    st p' ∅ ∅ (t ++ [EWrite h (write_request g 2048 key stmts) (Some s);
                     ERedis (hget g) (Some (Str l))])) p.
Proof.
  intros Hp. apply wp_bind. eapply wp_call; [exact Hp|]. intros p1 n s Hn Hok Hp1.
  apply wp_bind, wp_extract_string. intros txid Ht. apply wp_bind.
  eapply wp_walrusd_free; [exact Hp1|]. intros p2 Hp2.
  apply wp_bind, wp_check. intros Hc. apply wp_bind.
  eapply wp_lease_data; [by eapply st_free_abi|]. intros p3 m l Hm Hp3.
  apply wp_bind, wp_check. intros Hl. apply wp_bind, wp_extract_number. intros epoch He.
  apply wp_bind, wp_check. intros He2. apply wp_bind, wp_extract_number. intros _ _.
  apply wp_bind. eapply wp_c_free; [exact Hp3|]. intros p4 Hp4. apply wp_ret.
  rewrite <- app_assoc in Hp4. bool_prop. exists s, l, epoch.
  split_and!; try done. apply (st_free_heap _ m); [exact Hm|exact Hp4].
Qed.

Lemma wp_idempotent_retry g h key stmts t2 p t :
  st p ∅ ∅ t ->
  wp (idempotent_retry g h key stmts t2) (fun _ p' => exists s l t3,
    has s ok_true = true /\ string_field s "txid" 64 = Ok t3 /\ strcmp t3 t2 = 0 /\
    has l released_text = true /\
    st p' ∅ ∅ (t ++ [EWrite h (write_request g 2048 key stmts) (Some s);
                     ERedis (hget g) (Some (Str l))])) p.
Proof.
  intros Hp. apply wp_bind. eapply wp_call; [exact Hp|]. intros p1 n s Hn Hok Hp1.
  apply wp_bind, wp_extract_string. intros t3 Ht. apply wp_bind.
  eapply wp_walrusd_free; [exact Hp1|]. intros p2 Hp2.
  apply wp_bind, wp_check. intros Hc. bool_prop.
  eapply wp_require_lease_released; [by eapply st_free_abi|]. intros p3 l Hl Hp3.
  rewrite <- app_assoc in Hp3. by exists s, l, t3.
Qed.

Definition value_read (g : globals) : string :=
  read_request g 2048 "SELECT v FROM kv WHERE k = ?" (lit "'greeting'").
Definition count_read (g : globals) : string :=
  read_request g 2048 "SELECT count(*) AS n FROM kv" "".

Lemma wp_reads_after_write g h value p t :
  st p ∅ ∅ t ->
  wp (reads_after_write g h value) (fun _ p' => exists b s1 v l1 s2 l2,
    has s1 ok_true = true /\ string_field s1 "v" 64 = Ok v /\ strcmp v value = 0 /\
    has s2 ok_true = true /\ has s2 (lit "'n':1") = true /\
    strcmp l1 b = 0 /\ strcmp l2 b = 0 /\
    st p' ∅ ∅ (t ++ [ERedis (hget g) (Some (Str b)); ERead h (value_read g) (Some s1);
                     ERedis (hget g) (Some (Str l1)); ERead h (count_read g) (Some s2);
                     ERedis (hget g) (Some (Str l2))])) p.
Proof.
  intros Hp. apply wp_bind. eapply wp_lease_data; [exact Hp|]. intros p1 m b Hm Hp1.
  apply wp_bind. eapply wp_call; [exact Hp1|]. intros p2 n s1 Hn Hok1 Hp2.
  apply wp_bind, wp_extract_string. intros v Hv. apply wp_bind.
  eapply wp_walrusd_free; [exact Hp2|]. intros p3 Hp3.
  apply wp_bind, wp_check. intros Hc. apply wp_bind.
  eapply wp_require_lease_unchanged; [by eapply st_free_abi|]. intros p4 l1 Hl1 Hp4.
  apply wp_bind. eapply wp_call; [exact Hp4|]. intros p5 n2 s2 Hn2 Hok2 Hp5.
  apply wp_bind, wp_check. intros Hone. apply wp_bind.
  eapply wp_walrusd_free; [exact Hp5|]. intros p6 Hp6. apply wp_bind.
  eapply wp_require_lease_unchanged; [by eapply st_free_abi|]. intros p7 l2 Hl2 Hp7.
  eapply wp_c_free; [exact Hp7|]. intros p8 Hp8. rewrite <- !app_assoc in Hp8. bool_prop.
  exists b, s1, v, l1, s2, l2. split_and!; try done.
  apply (st_free_heap _ m); [exact Hm|exact Hp8].
Qed.

Lemma wp_finish h p t :
  st p ∅ ∅ t ->
  wp (finish h) (fun r p' => r = 0 /\ exists c, st p' ∅ ∅ (t ++ [EClose h c])) p.
Proof.
  intros Hp. apply wp_bind. eapply wp_abi_call; [exact Hp| |].
  - intros p' Hp'. apply wp_ret. eauto.
  - intros p' n s Hn Hp'. apply wp_bind. eapply wp_walrusd_free; [exact Hp'|]. intros p2 Hp2.
    apply wp_ret. split; [done|]. exists (Some s). by eapply st_free_abi.
Qed.

(** What a run that passes has seen, in order. *)
Inductive passed (g : globals) : list event -> Prop :=
  | Passed v h s0 l0 s1 l1 t1 s2 l2 t2 epoch key stmts s3 l3 t3 b s4 v4 value l4 s5 l5 c
      (Hversion : has v ok_true = true) (Hhandle : h <> 0)
      (Hempty : has s0 ok_true = true /\ has s0 (lit "'n':0") = true)
      (Hno_lease : strcmp l0 ":0" = 0)
      (Hschema : has s1 ok_true = true /\ string_field s1 "txid" 64 = Ok t1)
      (Hinsert : has s2 ok_true = true /\ string_field s2 "txid" 64 = Ok t2)
      (Hadvance : 0 < strcmp t2 t1)
      (Hepoch : number_field l2 "epoch" = Ok epoch /\ 2 <= epoch)
      (Hretry : has s3 ok_true = true /\ string_field s3 "txid" 64 = Ok t3 /\ strcmp t3 t2 = 0)
      (Hreleased : has l1 released_text = true /\ has l2 released_text = true /\
                   has l3 released_text = true)
      (Hvalue : has s4 ok_true = true /\ string_field s4 "v" 64 = Ok v4 /\ strcmp v4 value = 0 /\
                stmts = snprintf 512 (insert_text value))
      (Hcount : has s5 ok_true = true /\ has s5 (lit "'n':1") = true)
      (Huntouched : strcmp l4 b = 0 /\ strcmp l5 b = 0) :
      passed g
        [EVersion (Some v); EInit (snprintf 512 (init_text (redis_host g) (redis_port g))) h;
         ERead h (first_read g) (Some s0); ERedis (exists_cmd g) (Some (Str l0));
         EWrite h (schema_req g) (Some s1); ERedis (hget g) (Some (Str l1));
         EWrite h (write_request g 2048 key stmts) (Some s2); ERedis (hget g) (Some (Str l2));
         EWrite h (write_request g 2048 key stmts) (Some s3); ERedis (hget g) (Some (Str l3));
         ERedis (hget g) (Some (Str b)); ERead h (value_read g) (Some s4);
         ERedis (hget g) (Some (Str l4)); ERead h (count_read g) (Some s5);
         ERedis (hget g) (Some (Str l5)); EClose h c].

Lemma wp_configure p t :
  st p ∅ ∅ t -> wp configure (fun _ p' => st p' ∅ ∅ t) p.
Proof.
  intros Hp. unfold configure. destruct (strrchr _ _) as [[host port]|]; [|exact I].
  apply wp_bind. eapply wp_rand; [exact Hp|]. intros r1 p1 Hp1.
  apply wp_bind. eapply wp_rand; [exact Hp1|]. intros r2 p2 Hp2. by apply wp_ret.
Qed.

Lemma wp_main p :
  st p ∅ ∅ [] ->
  wp main (fun r p' => r = 0 /\ exists g t, passed g t /\ st p' ∅ ∅ t) p.
Proof.
  intros Hp. apply wp_bind. eapply wp_mono; [eapply wp_configure; exact Hp|]. intros g p1 Hp1.
  apply wp_bind. eapply wp_mono; [eapply wp_start; exact Hp1|].
  intros h p2 (Hh & v & Hv & Hp2). cbn [app] in Hp2.
  apply wp_bind. eapply wp_mono; [eapply wp_read_before_write; exact Hp2|].
  intros _ p3 (s0 & l0 & Hs0 & Hz & Hl0 & Hp3). cbn [app] in Hp3.
  apply wp_bind. eapply wp_mono; [eapply wp_schema_write; exact Hp3|].
  intros t1 p4 (s1 & l1 & Hs1 & Ht1 & Hl1 & Hp4). cbn [app] in Hp4.
  apply wp_bind. eapply wp_rand; [exact Hp4|]. intros r3 p5 Hp5.
  apply wp_bind. eapply wp_rand; [exact Hp5|]. intros r4 p6 Hp6.
  apply wp_bind. eapply wp_rand; [exact Hp6|]. intros r5 p7 Hp7. cbn zeta.
  set (value := snprintf 64 ("value-" +:+ _)). set (key := snprintf 64 ("e2e-insert-" +:+ _)).
  apply wp_bind. eapply wp_mono; [eapply wp_insert_write; exact Hp7|].
  intros t2 p8 (s2 & l2 & epoch & Hs2 & Ht2 & Hadv & Hl2 & He & He2 & Hp8). cbn [app] in Hp8.
  apply wp_bind. eapply wp_mono; [eapply wp_idempotent_retry; exact Hp8|].
  intros _ p9 (s3 & l3 & t3 & Hs3 & Ht3 & Heq & Hl3 & Hp9). cbn [app] in Hp9.
  apply wp_bind. eapply wp_mono; [eapply wp_reads_after_write; exact Hp9|].
  intros _ p10 (b & s4 & v4 & l4 & s5 & l5 & Hs4 & Hv4 & Hveq & Hs5 & Hone & Hl4 & Hl5 & Hp10).
  cbn [app] in Hp10. eapply wp_mono; [eapply wp_finish; exact Hp10|].
  intros r p11 (-> & c & Hp11). split; [done|]. cbn [app] in Hp11. cbn [app] in Hp11.
  exists g. eexists. split; [|exact Hp11].
  by eapply (Passed g v h s0 l0 s1 l1 t1 s2 l2 t2 epoch key _ s3 l3 t3 b s4 v4 value).
Qed.

(** What a PASS of the end-to-end program means: starting with no
    outstanding block, if [main] returns, it returns 0; the library and Redis
    were asked exactly for the version, a runtime, an empty read with no
    lease in Redis after it, the schema write, the insert write, the same
    insert again, and two reads, in this order; every envelope was ok; each
    write left the lease released; the insert's transaction id is beyond the
    schema's and the retry's is the same; the epoch has reached 2; the reads
    saw the value and the row count and left the lease record as it was; and
    every string received has been freed exactly once, with the right
    function. *)
Theorem main_pass (p p' : proc W) (r : Z)
    (Hblocks : abi_blocks p = ∅ /\ heap_blocks p = ∅ /\ trace p = [])
    (Hrun : main p = (p', Ok r)) :
  r = 0 /\ abi_blocks p' = ∅ /\ heap_blocks p' = ∅ /\ exists g, passed g (trace p').
Proof.
  destruct Hblocks as (HA & HH & Ht).
  assert (Hp : st p ∅ ∅ []) by (split; [done..|set_solver]).
  destruct (wp_run _ _ _ _ _ (wp_main p Hp) Hrun) as (Hr & g & t & Hpass & [? ? Ht' _]).
  split_and!; [done..|]. exists g. by rewrite Ht'.
Qed.

(** ** Buffers *)

Lemma copy_env_bound size name fallback : 0 < size -> slen (copy_env size name fallback) < size.
Proof. intros Hs. by apply snprintf_bound. Qed.

(** Values [main] computes are short enough for every buffer but one. *)
Record sized (g : globals) : Prop := {
  sz_host : slen (redis_host g) <= 127;
  sz_port : slen (redis_port g) <= 15;
  sz_root : slen (root_prefix g) <= 127;
  sz_db : slen (database_id g) <= 50;
  sz_desc : slen (descriptor g) <= 1023;
  sz_lease : lease_key g = lease_text (root_prefix g) (database_id g);
}.

Lemma configure_sized p p' g : configure p = (p', Ok g) -> sized g.
Proof.
  unfold configure. destruct (strrchr _ _) as [[host port]|]; [|discriminate].
  unfold mbind, M_bind, c_rand. cbn -[copy_env database_text lease_text descriptor_text snprintf].
  intros [= _ <-].
  set (db := database_text (rand (drawn p)) (rand (S (drawn p)))).
  assert (Hdb : slen db <= 50).
  { unfold db, database_text. destruct (fmt_d_props (rand (drawn p))), (fmt_d_props (rand (S (drawn p)))).
    slen_calc. lia. }
  pose proof (copy_env_bound 128 "WALRUSD_E2E_ROOT_PREFIX" "walrusd-e2e" ltac:(lia)).
  assert (Hdb' : snprintf 192 db = db) by (apply snprintf_fits; lia).
  rewrite Hdb'. pose proof (snprintf_bound 128 host ltac:(lia)).
  pose proof (snprintf_bound 16 port ltac:(lia)).
  split; cbn -[copy_env lease_text descriptor_text snprintf]; try lia.
  - match goal with |- slen (snprintf 1024 ?d) <= _ => pose proof (snprintf_bound 1024 d ltac:(lia)) end. lia.
  - apply snprintf_fits. unfold lease_text. slen_calc. lia.
Qed.

(** None of the program's fixed buffers truncates what is written into it,
    whatever the environment variables and the random numbers: not the lease
    key, the Redis commands and their line buffer, the runtime
    configuration, the insert statement, and not the requests. (The exception
    is the descriptor.) *)
Theorem buffers_fit (p p' : proc W) (g : globals) (Hg : configure p = (p', Ok g)) :
  lease_key g = lease_text (root_prefix g) (database_id g) /\
  hget g = "HGET " +:+ lease_key g +:+ " data" /\ slen (hget g +:+ crlf) < 512 /\
  exists_cmd g = "EXISTS " +:+ lease_key g /\ slen (exists_cmd g +:+ crlf) < 512 /\
  snprintf 512 (init_text (redis_host g) (redis_port g)) = init_text (redis_host g) (redis_port g) /\
  first_read g = read_text g "SELECT count(*) AS n FROM sqlite_master" "" /\
  value_read g = read_text g "SELECT v FROM kv WHERE k = ?" (lit "'greeting'") /\
  count_read g = read_text g "SELECT count(*) AS n FROM kv" "" /\
  schema_req g = write_text g "e2e-schema" schema_statement /\
  forall value key, slen value < 64 -> slen key < 64 ->
    snprintf 512 (insert_text value) = insert_text value /\
    write_request g 2048 key (insert_text value) = write_text g key (insert_text value).
Proof.
  destruct (configure_sized _ _ _ Hg).
  assert (Hlease : slen (lease_key g) <= 190) by (rewrite sz_lease0; unfold lease_text; slen_calc; lia).
  assert (Hget : hget g = "HGET " +:+ lease_key g +:+ " data")
    by (apply snprintf_fits; slen_calc; lia).
  assert (Hex : exists_cmd g = "EXISTS " +:+ lease_key g) by (apply snprintf_fits; slen_calc; lia).
  rewrite Hget, Hex. split_and!; try done; try (slen_calc; lia).
  - apply snprintf_fits. unfold init_text. destruct (fmt_d_props REQUEST_TIMEOUT_MS). slen_calc. lia.
  - apply snprintf_fits. unfold read_text. slen_calc. lia.
  - apply snprintf_fits. unfold read_text. slen_calc. lia.
  - apply snprintf_fits. unfold read_text. slen_calc. lia.
  - apply snprintf_fits. unfold write_text, schema_statement. slen_calc. lia.
  - intros value key Hv Hk. split; apply snprintf_fits; unfold write_text, insert_text; slen_calc; lia.
Qed.
End Program.

(** ** The scanner *)

(** The flat-envelope scanner: applied to a document in which the first occurrence of
    the quoted key is a member with a printed integer, or with a string that
    holds no quote and fits the buffer, it returns that value. *)
Theorem scanner_finds_field (json key pre rest : string) (n : Z) (v : string) (size : Z)
    (Hkey : slen key < 120) (Hn : int64_range n) (Hend : ends_number rest = true)
    (Hv : strchr v dquote = None) (Hsize : slen v < size) :
  (strstr json (lit "'" +:+ key +:+ lit "':") = Some (lit "'" +:+ key +:+ lit "':" +:+ fmt_d n +:+ rest) ->
   number_field json key = Ok n) /\
  (strstr json (lit "'" +:+ key +:+ lit "':'")
     = Some (lit "'" +:+ key +:+ lit "':'" +:+ v +:+ String dquote rest) ->
   string_field json key size = Ok v).
Proof.
  assert (cut : forall a b c d, a +:+ b +:+ c +:+ d = (a +:+ b +:+ c) +:+ d)
    by (intros; by rewrite !string_app_assoc).
  unfold number_field, string_field. rewrite !snprintf_fits by (slen_calc; lia). split; intros ->.
  - rewrite (cut (lit "'") key (lit "':") (fmt_d n +:+ rest)). by rewrite sskip_app, strtol_fmt_d.
  - rewrite (cut (lit "'") key (lit "':'") (v +:+ String dquote rest)).
    rewrite sskip_app, (strchr_app v dquote rest Hv). by rewrite (proj2 (Z.leb_gt _ _)).
Qed.

Definition sample_lease : string := lit "{'state':'released','epoch':12,'owner':'a'}".

Lemma scanner_finds_field_witness :
  number_field sample_lease "epoch" = Ok 12 /\ string_field sample_lease "state" 64 = Ok "released".
Proof.
  split.
  - refine (proj1 (scanner_finds_field sample_lease "epoch" "" (lit ",'owner':'a'}") 12 "" 64 _ _ _ _ _) _);
      try reflexivity. split; [discriminate|reflexivity].
  - refine (proj2 (scanner_finds_field sample_lease "state" "" (lit ",'epoch':12,'owner':'a'}") 12
                     "released" 64 _ _ _ _ _) _);
      try reflexivity. split; [discriminate|reflexivity].
Defined.

(** ** An environment the program passes in *)

(** A library that keeps one table: the number of writes so far and the lease
    record they left, and a Redis that serves it. *)
Module Stub.
Definition ok (body : string) : option string := Some (lit "{'ok':true," +:+ body +:+ "}").

Definition serve (epoch : Z) (command : string) : list chunk :=
  if has command "EXISTS"
  then [Some (":" +:+ (if epoch =? 0 then "0" else "1")); Some crlf]
  else
    let data := lit "{'state':'released','epoch':" +:+ fmt_d epoch +:+ "}" in
    [Some ("$" +:+ fmt_d (slen data) +:+ crlf); Some (sfirst 5 data); Some (sskip 5 data); Some crlf].

(** State: writes done, the value written, the last transaction id. *)
Record lib := mkLib { writes : Z; stored : string; txid : Z }.

Definition write (w : lib) (req : string) : lib * option string :=
  let schema := has req "CREATE TABLE" in
  let t := if schema then 1 else 2 in
  (mkLib (writes w + 1) (if schema then "" else "value-7-7") t,
   ok (lit "'txid':'000" +:+ fmt_d t +:+ lit "'")).

Definition read (w : lib) (req : string) : option string :=
  if has req "sqlite_master" then ok (lit "'n':0")
  else if has req "SELECT v" then ok (lit "'v':'" +:+ stored w +:+ lit "'")
  else ok (lit "'n':1").
End Stub.

#[export] Instance stub_env : Env Stub.lib := {|
  abi_version w := (w, Stub.ok (lit "'api_version':1"));
  abi_init w _ := (w, 1);
  abi_write w _ req _ := Stub.write w req;
  abi_read w _ req _ := (w, Stub.read w req);
  abi_close w _ := (w, None);
  getenv _ := None;
  clock_ms _ := 0;
  rand _ := 7;
  resolve w _ _ := Some [Refused; Connects (mkConn [4; 600] (Stub.serve (Stub.writes w)) true)];
|}.

Definition stub_start : proc Stub.lib := mkProc (Stub.mkLib 0 "" 0) 0 0 ∅ ∅ [].

Lemma main_pass_witness :
  let run := main stub_start in
  run.2 = Ok 0 /\ abi_blocks run.1 = ∅ /\ heap_blocks run.1 = ∅ /\ length (trace run.1) = 16%nat.
Proof.
  destruct (main stub_start) as [p' r] eqn:Hrun. cbn zeta beta.
  assert (Hr : r = Ok 0 /\ length (trace p') = 16%nat).
  { split; [change r with (p', r).2|change p' with (p', r).1]; rewrite <- Hrun; vm_compute; reflexivity. }
  destruct Hr as [-> Hl].
  destruct (main_pass stub_start p' 0 (conj eq_refl (conj eq_refl eq_refl)) Hrun) as (_ & HA & HH & _).
  split; [reflexivity|]. split; [exact HA|]. split; [exact HH|exact Hl].
Defined.

Lemma buffers_fit_witness :
  match (configure stub_start).2 with
  | Ok g => lease_key g = "walrusd-e2e/users/c_77/lease.json"
  | Err _ => False
  end.
Proof.
  destruct (configure stub_start) as [p' [g|e]] eqn:Hrun.
  - pose proof (proj1 (buffers_fit stub_start p' g Hrun)) as Hl. cbn [snd]. rewrite Hl.
    vm_compute in Hrun. injection Hrun as _ <-. vm_compute. reflexivity.
  - vm_compute in Hrun. discriminate Hrun.
Defined.
