(* ===== verification/AbiExamples.v ===== *)
(** * AbiExamples: the documentation's C program
      ([site/scripts/verify-examples/c/main.c])

    The example functions of the C ABI documentation and the [main] that runs
    them. They take the library's answers apart with [strstr] and [strchr]
    without testing the result, which is undefined behaviour when the text is
    not there; the model says so where the code does it. *)

From S2P Require Import Prelude CStrings RespClient CProcess E2eClient.

Definition EXIT_FAILURE : Z := 1.
Definition EXIT_SUCCESS : Z := 0.

Definition example_init_request : string :=
  lit "{'owner':'api-pod-7','config':{'request_timeout_ms':20000,'write_buffer_root_path':'/tmp/walrusd-example/buffers'}}".

Definition describe_database_example : string :=
  lit "{'database_id':'users/user_1a4b','storage':{'provider':'file','file_root':'/tmp/walrusd-example'},'credentials':{}}".

Definition example_read_request (descriptor : string) : string :=
  snprintf 2048 (lit "{'descriptor':" +:+ descriptor
    +:+ lit ",'sql':'SELECT body FROM events WHERE id = 1'}").

Definition example_write_request (descriptor : string) : string :=
  snprintf 4096 (lit "{'descriptor':" +:+ descriptor
    +:+ lit ",'idempotency_key':'create-event-42','statements':[{'sql':'CREATE TABLE IF NOT EXISTS events (id INTEGER PRIMARY KEY, body TEXT)'},{'sql':'INSERT INTO events (id, body) VALUES (?, ?)','params':[1,'hello from walrusd']}]}").

Definition ok_false : string := lit "'ok':false".

(** The text between the end of [field] and the next double quote, as the
    examples compute it: [strstr(s, field) + strlen(field)], then [strchr]. *)
Definition quoted_after (s field : string) : option string :=
  match strstr s field with
  | None => None
  | Some start =>
      match strchr (sskip (String.length field) start) dquote with
      | None => None
      | Some (val, _) => Some val
      end
  end.

Section Examples.
Context {W : Type} `{Env W}.

(** A use of a [char *] as a string. *)
Definition deref (r : option ptr) : M W ptr :=
  match r with Some b => mret b | None => fault "strstr of a null pointer" end.

Definition scan (s field : string) : M W string :=
  match quoted_after s field with
  | Some val => mret val
  | None => fault "arithmetic on a null pointer"
  end.

Definition create_runtime_example : M W Z :=
  version ← runtime_version;
  version ← deref version;
  check (has version.2 ok_true) "walrusd version failed" version.2;;
  walrusd_free version;;
  handle ← runtime_init example_init_request;
  check (negb (handle =? 0)) "" "";;
  mret handle.

(** The texts printed to standard output are returned. *)
Definition read_example (handle : Z) (descriptor : string) (deadline_ms : Z) : M W string :=
  response ← runtime_read handle (example_read_request descriptor) deadline_ms;
  response ← deref response;
  body ← scan response.2 (lit "'body':'");
  walrusd_free response;;
  mret body.

Definition write_example (handle : Z) (descriptor : string) (deadline_ms : Z)
    : M W (string * option (string * Z)) :=
  let write_request := example_write_request descriptor in
  response ← runtime_write handle write_request deadline_ms;
  response ← deref response;
  txid ← scan response.2 (lit "'txid':'");
  walrusd_free response;;
  error_response ← runtime_write handle write_request deadline_ms;
  error_response ← deref error_response;
  if has error_response.2 ok_false then
    class ← scan error_response.2 (lit "'class':'");
    let retry_after :=
      match strstr error_response.2 (lit "'retry_after_ms':") with
      | None => 0
      | Some s => strtol (sskip (String.length (lit "'retry_after_ms':")) s)
      end in
    walrusd_free error_response;;
    mret (txid, Some (class, retry_after))
  else
    walrusd_free error_response;;
    mret (txid, None).

(** [time(NULL)] counts seconds. *)
Definition example_deadline (ms : Z) : Z := ms / 1000 * 1000 + 20000.

Definition examples_main : M W Z :=
  handle ← create_runtime_example;
  now ← now_ms;
  let deadline_ms := example_deadline now in
  write_example handle describe_database_example deadline_ms;;
  read_example handle describe_database_example deadline_ms;;
  close_response ← runtime_close handle;
  close_response ← deref close_response;
  if has close_response.2 ok_true
  then walrusd_free close_response;; mret EXIT_SUCCESS
  else mret EXIT_FAILURE.

(** ** Runs *)

Lemma wp_deref r (post : ptr -> proc W -> Prop) p :
  (forall b, r = Some b -> post b p) -> wp (deref r) post p.
Proof. intros Hp. destruct r; [|exact I]. by apply wp_ret, Hp. Qed.

Lemma wp_scan s field (post : string -> proc W -> Prop) p :
  (forall v, quoted_after s field = Some v -> post v p) -> wp (scan s field) post p.
Proof. intros Hp. unfold scan. destruct (quoted_after s field); [|exact I]. by apply wp_ret, Hp. Qed.

Lemma wp_create_runtime p :
  st p ∅ ∅ [] ->
  wp create_runtime_example (fun h p' => h <> 0 /\ exists v, has v ok_true = true /\
    st p' ∅ ∅ [EVersion (Some v); EInit example_init_request h]) p.
Proof.
  intros Hp. apply wp_bind. eapply wp_abi_call; [exact Hp|intros p' _; exact I|].
  intros p1 n v Hn Hp1. apply wp_bind, wp_deref. intros ? [= <-].
  apply wp_bind, wp_check. intros Hv. apply wp_bind.
  eapply wp_walrusd_free; [exact Hp1|]. intros p2 Hp2.
  apply wp_bind. eapply wp_runtime_init; [exact Hp2|]. intros h p3 Hp3.
  apply wp_bind, wp_check. intros Hh. bool_prop. split; [done|]. exists v. split; [done|].
  by eapply st_free_abi.
Qed.

Lemma wp_write_example h d dl p t :
  st p ∅ ∅ t ->
  wp (write_example h d dl) (fun r p' => exists s1 s2,
    quoted_after s1 (lit "'txid':'") = Some r.1 /\
    (has s2 ok_false = true -> exists c, quoted_after s2 (lit "'class':'") = Some c) /\
    st p' ∅ ∅ (t ++ [EWrite h (example_write_request d) (Some s1);
                     EWrite h (example_write_request d) (Some s2)])) p.
Proof.
  intros Hp. apply wp_bind. eapply wp_abi_call; [exact Hp|intros p' _; exact I|].
  intros p1 n s1 Hn Hp1. apply wp_bind, wp_deref. intros ? [= <-].
  apply wp_bind, wp_scan. intros txid Htx. apply wp_bind.
  eapply wp_walrusd_free; [exact Hp1|]. intros p2 Hp2. apply wp_bind.
  eapply wp_abi_call; [by eapply st_free_abi|intros p' _; exact I|].
  intros p3 m s2 Hm Hp3. apply wp_bind, wp_deref. intros ? [= <-]. cbn [snd].
  rewrite <- app_assoc in Hp3. destruct (has s2 ok_false) eqn:Hf.
  - apply wp_bind, wp_scan. intros c Hc. cbn zeta. apply wp_bind.
    eapply wp_walrusd_free; [exact Hp3|]. intros p4 Hp4. apply wp_ret.
    exists s1, s2. split_and!; [done|eauto|]. apply (st_free_abi _ m); [exact Hm|exact Hp4].
  - apply wp_bind. eapply wp_walrusd_free; [exact Hp3|]. intros p4 Hp4. apply wp_ret.
    exists s1, s2. split_and!; [done|congruence|]. apply (st_free_abi _ m); [exact Hm|exact Hp4].
Qed.

Lemma wp_read_example h d dl p t :
  st p ∅ ∅ t ->
  wp (read_example h d dl) (fun body p' => exists s,
    quoted_after s (lit "'body':'") = Some body /\
    st p' ∅ ∅ (t ++ [ERead h (example_read_request d) (Some s)])) p.
Proof.
  intros Hp. apply wp_bind. eapply wp_abi_call; [exact Hp|intros p' _; exact I|].
  intros p1 n s1 Hn Hp1. apply wp_bind, wp_deref. intros ? [= <-].
  apply wp_bind, wp_scan. intros body Hb. apply wp_bind.
  eapply wp_walrusd_free; [exact Hp1|]. intros p2 Hp2. apply wp_ret. exists s1.
  split; [done|]. by eapply st_free_abi.
Qed.

Lemma wp_examples_main p :
  st p ∅ ∅ [] ->
  wp examples_main (fun r p' => r = EXIT_SUCCESS -> abi_blocks p' = ∅ /\
    exists v h w1 w2 rd cl, h <> 0 /\ has v ok_true = true /\ has cl ok_true = true /\
      quoted_after w1 (lit "'txid':'") <> None /\ quoted_after rd (lit "'body':'") <> None /\
      trace p' = [EVersion (Some v); EInit example_init_request h;
                  EWrite h (example_write_request describe_database_example) (Some w1);
                  EWrite h (example_write_request describe_database_example) (Some w2);
                  ERead h (example_read_request describe_database_example) (Some rd);
                  EClose h (Some cl)]) p.
Proof.
  intros Hp. apply wp_bind. eapply wp_mono; [by apply wp_create_runtime|].
  intros h p1 (Hh & v & Hv & Hp1). apply wp_bind, wp_now. intros z. cbn zeta.
  apply wp_bind. eapply wp_mono; [eapply wp_write_example; exact Hp1|].
  intros r p2 (w1 & w2 & Hw1 & _ & Hp2). cbn [app] in Hp2.
  apply wp_bind. eapply wp_mono; [eapply wp_read_example; exact Hp2|].
  intros body p3 (rd & Hrd & Hp3). cbn [app] in Hp3.
  apply wp_bind. eapply wp_abi_call; [exact Hp3|intros p' _; exact I|].
  intros p4 n cl Hn Hp4. apply wp_bind, wp_deref. intros ? [= <-]. cbn [snd].
  destruct (has cl ok_true) eqn:Hcl; [|by apply wp_ret].
  apply wp_bind. eapply wp_walrusd_free; [exact Hp4|]. intros p5 Hp5. apply wp_ret. intros _.
  apply (st_free_abi _ n) in Hp5; [|exact Hn]. destruct Hp5 as [? _ Ht _]. split; [done|].
  exists v, h, w1, w2, rd, cl. cbn [app] in Ht. split_and!; [done..|congruence|congruence|done].
Qed.

(** When the documentation's program succeeds, it made the calls its text
    describes (version, runtime, the write and its repetition, the read,
    close), found the transaction id and the row in the answers, and freed
    every string the library returned exactly once. *)
Theorem examples_succeed (p p' : proc W)
    (Hblocks : abi_blocks p = ∅ /\ heap_blocks p = ∅ /\ trace p = [])
    (Hrun : examples_main p = (p', Ok EXIT_SUCCESS)) :
  abi_blocks p' = ∅ /\
  exists v h w1 w2 rd cl, h <> 0 /\ has v ok_true = true /\ has cl ok_true = true /\
    quoted_after w1 (lit "'txid':'") <> None /\ quoted_after rd (lit "'body':'") <> None /\
    trace p' = [EVersion (Some v); EInit example_init_request h;
                EWrite h (example_write_request describe_database_example) (Some w1);
                EWrite h (example_write_request describe_database_example) (Some w2);
                ERead h (example_read_request describe_database_example) (Some rd);
                EClose h (Some cl)].
Proof.
  destruct Hblocks as (HA & HH & Ht).
  assert (Hp : st p ∅ ∅ []) by (split; [done..|set_solver]).
  exact (wp_run _ _ _ _ _ (wp_examples_main p Hp) Hrun eq_refl).
Qed.

(** The write example does not survive the error it goes on to demonstrate: if
    the first write is answered by an envelope without a transaction id (any
    error envelope), the function computes with a null pointer, and never
    reaches the code that reports the error class. *)
Theorem write_example_faults_on_error (p : proc W) (h dl : Z) (d r : string) (w' : W)
    (Hwrite : abi_write (world p) h (example_write_request d) dl = (w', Some r))
    (Hno_txid : has r (lit "'txid':'") = false) :
  exists p', write_example h d dl p = (p', Err (Fault "arithmetic on a null pointer")) /\
    trace p' = trace p ++ [EWrite h (example_write_request d) (Some r)].
Proof.
  unfold write_example, runtime_write, abi_call, mbind, M_bind. rewrite Hwrite. cbn [deref].
  unfold mret, M_ret, scan, quoted_after. cbn [snd]. unfold has in Hno_txid.
  destruct (strstr r (lit "'txid':'")); [done|]. unfold fault. eauto.
Qed.
End Examples.

(** ** Environments: a library that serves, and one whose state [false] refuses *)

#[export] Instance example_env : Env bool := {|
  abi_version w := (w, Some (lit "{'ok':true}"));
  abi_init w _ := (w, 3);
  abi_write (w : bool) _ _ _ :=
    (w, Some (if w then lit "{'ok':true,'txid':'0001'}"
              else lit "{'ok':false,'class':'DB_BUSY','retry_after_ms':500}"));
  abi_read w _ _ _ := (w, Some (lit "{'ok':true,'rows':[{'body':'hello from walrusd'}]}"));
  abi_close w _ := (w, Some (lit "{'ok':true}"));
  getenv _ := None;
  clock_ms _ := 1500;
  rand _ := 0;
  resolve _ _ _ := None;
|}.

Definition example_start (w : bool) : proc bool := mkProc w 0 0 ∅ ∅ [].

Lemma examples_succeed_witness :
  let run := examples_main (example_start true) in
  run.2 = Ok EXIT_SUCCESS /\ abi_blocks run.1 = ∅.
Proof.
  destruct (examples_main (example_start true)) as [p' r] eqn:Hrun. cbn zeta beta.
  assert (Hr : r = Ok EXIT_SUCCESS)
    by (change r with (p', r).2; rewrite <- Hrun; vm_compute; reflexivity).
  subst r. split; [reflexivity|].
  exact (proj1 (examples_succeed (example_start true) p' (conj eq_refl (conj eq_refl eq_refl)) Hrun)).
Defined.

Lemma write_example_faults_on_error_witness :
  exists p', write_example 3 describe_database_example 0 (example_start false)
    = (p', Err (Fault "arithmetic on a null pointer")).
Proof.
  destruct (write_example_faults_on_error (example_start false) 3 0 describe_database_example
    (lit "{'ok':false,'class':'DB_BUSY','retry_after_ms':500}") false) as (p' & Hp & _).
  - vm_compute. reflexivity.
  - vm_compute. reflexivity.
  - exists p'. exact Hp.
Defined.
