(* ===== verification/Manifest.v ===== *)
(** * Manifest: the durable index of LTX files
      ([litestream/manifest.go], [litestream/compact.go])

    The file list of a database, its encoding and validation, the delta a
    compaction applies to it, the session-scoped client that records writes
    and deletions, the trigger of compaction and the garbage collector. Lists
    of [*ltx.FileInfo] are [list file]; where the code tests for nil pointers,
    the list holds options. [sort.Slice] is a sort by the code's comparison;
    nothing below depends on the order of elements it leaves equal. *)

From S2P Require Import Prelude Errors.

(** ** Data *)

(** The fields of [ltx.FileInfo] the code uses. *)
Record file := mkFile {
  Level : Z;
  MinTXID : Z;
  MaxTXID : Z;
  Size : Z;
  CreatedAt : Z;
}.

#[export] Instance file_eq_dec : EqDecision file.
Proof. solve_decision. Defined.

(** [ls.SnapshotLevel] and [compactionTopLevel]. *)
Definition SnapshotLevel : Z := 9.
Definition compactionTopLevel : Z := 8.
Definition manifestVersion : Z := 1.

Record manifestDocument := mkDoc { Version : Z; Files : list file }.

(** What identifies a file. *)
Definition fkey (f : file) : Z * Z * Z := (Level f, MinTXID f, MaxTXID f).

(** ** Sorting *)

Definition le2 (f g : file) : Prop :=
  Level f < Level g \/ (Level f = Level g /\ MinTXID f <= MinTXID g).
Definition le3 (f g : file) : Prop :=
  Level f < Level g \/ (Level f = Level g /\
    (MinTXID f < MinTXID g \/ (MinTXID f = MinTXID g /\ MaxTXID f <= MaxTXID g))).

#[export] Instance le2_dec f g : Decision (le2 f g).
Proof. unfold le2. apply _. Defined.
#[export] Instance le3_dec f g : Decision (le3 f g).
Proof. unfold le3. apply _. Defined.
#[export] Instance le2_total : Total le2.
Proof. intros f g. unfold le2. lia. Qed.
#[export] Instance le2_trans : Transitive le2.
Proof. intros f g h. unfold le2. lia. Qed.

Definition sort2 (fs : list file) : list file := merge_sort le2 fs.
Definition sort3 (fs : list file) : list file := merge_sort le3 fs.

Lemma elem_of_sort2 f fs : f ∈ sort2 fs <-> f ∈ fs.
Proof. unfold sort2. by rewrite merge_sort_Permutation. Qed.

Lemma elem_of_sort3 f fs : f ∈ sort3 fs <-> f ∈ fs.
Proof. unfold sort3. by rewrite merge_sort_Permutation. Qed.

Lemma sort2_sorted fs : StronglySorted le2 (sort2 fs).
Proof. apply StronglySorted_merge_sort; apply _. Qed.

(** ** Encoding *)

(** [EncodeManifest] up to [json.Marshal]. *)
Definition EncodeManifest (files : list (option file)) : manifestDocument :=
  mkDoc manifestVersion (sort3 (omap id files)).

Inductive decode_error :=
  | BadVersion (v : Z)
  | BadLevel (l : Z)
  | BadRange (lo hi : Z).

(** The loop of [DecodeManifest]: validate, drop repeated keys. *)
Fixpoint decode_files (seen : list (Z * Z * Z)) (fs : list file) : res decode_error (list file) :=
  match fs with
  | [] => Ok []
  | f :: fs =>
      if (Level f <? 0) || (SnapshotLevel <? Level f) then Err (BadLevel (Level f))
      else if (MinTXID f =? 0) || (MaxTXID f <? MinTXID f) then Err (BadRange (MinTXID f) (MaxTXID f))
      else if bool_decide (fkey f ∈ seen) then decode_files seen fs
      else match decode_files (fkey f :: seen) fs with
           | Ok out => Ok (f :: out)
           | Err e => Err e
           end
  end.

(** [DecodeManifest] from the parsed document on. *)
Definition DecodeManifest (doc : manifestDocument) : res decode_error (list file) :=
  if negb (Version doc =? manifestVersion) then Err (BadVersion (Version doc))
  else match decode_files [] (Files doc) with
       | Ok out => Ok (sort2 out)
       | Err e => Err e
       end.

(** ** Queries and the delta *)

Definition manifestMaxTXID (files : list file) : Z :=
  foldl (fun max f => if max <? MaxTXID f then MaxTXID f else max) 0 files.

Definition manifestHasTXID (files : list file) (txid : Z) : bool :=
  existsb (fun f => (MinTXID f <=? txid) && (txid <=? MaxTXID f)) files.

Definition manifestContains (files : list file) (want : file) : bool :=
  existsb (fun f => (Level f =? Level want) && (MinTXID f =? MinTXID want)
                    && (MaxTXID f =? MaxTXID want)) files.

Definition applyManifestDelta (base written deleted : list file) : list file :=
  let out := List.filter (fun f => negb (manifestContains deleted f)) base in
  let out := foldl (fun out f => if manifestContains out f then out else out ++ [f]) out written in
  sort2 out.

(** The loop of [ManifestNeedsCompaction] over the counts so far. *)
Fixpoint overThreshold (threshold : Z) (fs : list (option file)) (counts : gmap Z Z) : bool :=
  match fs with
  | [] => false
  | None :: fs => overThreshold threshold fs counts
  | Some f :: fs =>
      if (Level f <? 0) || (compactionTopLevel <=? Level f) then overThreshold threshold fs counts
      else
        let n := default 0 (counts !! Level f) + 1 in
        if threshold <? n then true else overThreshold threshold fs (<[Level f := n]> counts)
  end.

Definition ManifestNeedsCompaction (files : list (option file)) (threshold : Z) : bool :=
  overThreshold (if threshold <=? 0 then 1 else threshold) files ∅.

(** ** [manifestClient] *)

Record manifestClient := mkClient {
  c_files : list file;
  c_written : list file;
  c_deleted : list file;
}.

Definition newManifestClient (files : list file) : manifestClient := mkClient files [] [].

(** [LTXFiles] of the client. *)
Definition c_LTXFiles (c : manifestClient) (level seek : Z) : list file :=
  List.filter (fun f => (Level f =? level) && (seek <=? MinTXID f)) (c_files c).

(** The result of the inner client comes first; a failure changes nothing. *)
Definition WriteLTXFile (c : manifestClient) (inner : res goerror file)
    : manifestClient * res goerror file :=
  match inner with
  | Err e => (c, Err e)
  | Ok info => (mkClient (applyManifestDelta (c_files c) [info] []) (c_written c ++ [info]) (c_deleted c),
                Ok info)
  end.
Definition DeleteLTXFiles (c : manifestClient) (files : list file) (inner : option goerror)
    : manifestClient * option goerror :=
  match inner with
  | Some e => (c, Some e)
  | None => (mkClient (applyManifestDelta (c_files c) [] files) (c_written c) (c_deleted c ++ files), None)
  end.
Definition DeleteAll (c : manifestClient) (inner : option goerror) : manifestClient * option goerror :=
  match inner with
  | Some e => (c, Some e)
  | None => (mkClient [] (c_written c) (c_deleted c), None)
  end.

(** ** Deleting files ([DeleteFiles], [GC]) *)

Definition cutoff (now retention : Z) : Z := now - (if retention <? 0 then 0 else retention).

(** The files [DeleteFiles] passes to the replica client. *)
Definition DeleteFiles (files : list file) (now retention : Z) : list file :=
  List.filter (fun f => negb (cutoff now retention <? CreatedAt f)) files.

(** The files [GC] passes to it: [active] is the manifest, [all] the listing. *)
Definition GC (active all : list file) (now retention : Z) : list file :=
  List.filter (fun f => negb (manifestContains active f) && negb (cutoff now retention <? CreatedAt f)) all.

(** ** Lemmas *)

Lemma manifestContains_spec files f : manifestContains files f = true <-> exists g, g ∈ files /\ fkey g = fkey f.
Proof.
  unfold manifestContains. rewrite existsb_exists. split.
  - intros (g & Hg & He). bool_prop. exists g. split; [by apply list_elem_of_In|].
    unfold fkey. congruence.
  - intros (g & Hg & [= H1 H2 H3]). exists g. split; [by apply list_elem_of_In|].
    by rewrite H1, H2, H3, !Z.eqb_refl.
Qed.

Lemma manifestHasTXID_spec files t :
  manifestHasTXID files t = true <-> exists f, f ∈ files /\ MinTXID f <= t <= MaxTXID f.
Proof.
  unfold manifestHasTXID. rewrite existsb_exists. split.
  - intros (g & Hg & He). bool_prop. exists g. split; [by apply list_elem_of_In|lia].
  - intros (g & Hg & He). exists g. split; [by apply list_elem_of_In|].
    apply andb_true_iff. split; apply Z.leb_le; lia.
Qed.

Lemma elem_of_filter_b {A} (p : A -> bool) x l : x ∈ List.filter p l <-> x ∈ l /\ p x = true.
Proof. by rewrite !list_elem_of_In, List.filter_In. Qed.

Lemma decode_files_spec seen fs out :
  decode_files seen fs = Ok out ->
  Forall (fun f => 0 <= Level f <= SnapshotLevel /\ MinTXID f <> 0 /\ MinTXID f <= MaxTXID f) fs /\
  NoDup (fkey <$> out) /\ (forall k, k ∈ fkey <$> out -> k ∉ seen) /\
  (forall f, f ∈ out -> f ∈ fs) /\
  (forall f, f ∈ fs -> fkey f ∈ seen \/ fkey f ∈ fkey <$> out).
Proof.
  revert seen out. induction fs as [|f fs IH]; intros seen out; cbn [decode_files].
  - intros [= <-]. split_and!; [constructor|constructor|set_solver..].
  - destruct ((Level f <? 0) || _) eqn:Hl; [done|]. destruct ((MinTXID f =? 0) || _) eqn:Hr; [done|].
    bool_prop. case_bool_decide as Hs.
    + intros Ho. destruct (IH _ _ Ho) as (H1' & H2' & H3' & H4' & H5').
      split_and!; [constructor; [lia|done]|done|done| |].
      * intros g Hg. apply elem_of_cons. auto.
      * intros g [->|Hg]%elem_of_cons; [by left|auto].
    + destruct (decode_files (fkey f :: seen) fs) as [o|e] eqn:Ho; [|done]. intros [= <-].
      destruct (IH _ _ Ho) as (H1' & H2' & H3' & H4' & H5'). cbn.
      split_and!; [constructor; [lia|done]| | | |].
      * constructor; [|done]. intros Hin. destruct (H3' _ Hin). apply elem_of_cons. by left.
      * intros k [->|Hk]%elem_of_cons; [done|]. specialize (H3' _ Hk).
        intros Hin. apply H3', elem_of_cons. by right.
      * intros g [->|Hg]%elem_of_cons; apply elem_of_cons; auto.
      * intros g [->|Hg]%elem_of_cons; [right; apply elem_of_cons; by left|].
        destruct (H5' _ Hg) as [[->|?]%elem_of_cons|?]; rewrite ?elem_of_cons; auto.
Qed.

(** A document the decoder must accept. *)
Definition valid_file (f : file) : Prop :=
  0 <= Level f <= SnapshotLevel /\ 0 < MinTXID f <= MaxTXID f.

Lemma decode_files_total seen fs :
  Forall valid_file fs -> exists out, decode_files seen fs = Ok out.
Proof.
  intros Hv. revert seen. induction Hv as [|f fs [Hl Hr] _ IH]; intros seen; [by eexists|].
  cbn [decode_files].
  rewrite (proj2 (Z.ltb_ge (Level f) 0)), (proj2 (Z.ltb_ge SnapshotLevel _)) by lia.
  rewrite (proj2 (Z.eqb_neq (MinTXID f) 0)), (proj2 (Z.ltb_ge (MaxTXID f) _)) by lia. cbn [orb].
  case_bool_decide; [apply IH|]. destruct (IH (fkey f :: seen)) as [out ->]. by eexists.
Qed.

Lemma foldl_add_spec out ws :
  let r := foldl (fun out f => if manifestContains out f then out else out ++ [f]) out ws in
  (forall f, f ∈ out -> f ∈ r) /\ (forall f, f ∈ r -> f ∈ out \/ f ∈ ws) /\
  (forall f, f ∈ ws -> exists g, g ∈ r /\ fkey g = fkey f).
Proof.
  revert out. induction ws as [|w ws IH]; intros out; cbn.
  { split_and!; [done|by left|]. intros f Hf. by apply not_elem_of_nil in Hf. }
  set (out1 := if manifestContains out w then out else out ++ [w]).
  assert (Hout : forall f, f ∈ out -> f ∈ out1)
    by (intros f Hf; unfold out1; destruct (manifestContains out w); [done|apply elem_of_app; auto]).
  assert (Hout1 : forall f, f ∈ out1 -> f ∈ out \/ f = w)
    by (intros f; unfold out1; destruct (manifestContains out w); [auto|];
        rewrite elem_of_app, list_elem_of_singleton; done).
  assert (Hw : exists g, g ∈ out1 /\ fkey g = fkey w).
  { unfold out1. destruct (manifestContains out w) eqn:Hc; [by apply manifestContains_spec|].
    exists w. by rewrite elem_of_app, list_elem_of_singleton; auto. }
  destruct (IH out1) as (H1 & H2 & H3). split_and!.
  - auto.
  - intros f Hf. rewrite elem_of_cons. destruct (H2 f Hf) as [[|]%Hout1|]; auto.
  - intros f [->|Hf]%elem_of_cons; [|auto]. destruct Hw as (g & Hg & He). eauto.
Qed.

Lemma elem_of_fkeys k (fs : list file) : k ∈ fkey <$> fs <-> exists f, f ∈ fs /\ fkey f = k.
Proof. rewrite list_elem_of_fmap. split; intros (f & H1 & H2); exists f; auto. Qed.

Lemma manifestMaxTXID_acc fs m :
  let r := foldl (fun max f => if max <? MaxTXID f then MaxTXID f else max) m fs in
  m <= r /\ (forall f, f ∈ fs -> MaxTXID f <= r) /\ (r = m \/ exists f, f ∈ fs /\ r = MaxTXID f).
Proof.
  revert m. induction fs as [|f fs IH]; intros m; cbn.
  { split_and!; [lia| |by left]. intros f Hf. by apply not_elem_of_nil in Hf. }
  destruct (IH (if m <? MaxTXID f then MaxTXID f else m)) as (H1 & H2 & H3).
  destruct (Z.ltb_spec m (MaxTXID f)); split_and!; try lia.
  - intros g [->|Hg]%elem_of_cons; [lia|auto].
  - right. destruct H3 as [->|(g & Hg & ->)]; eexists; rewrite elem_of_cons; eauto.
  - intros g [->|Hg]%elem_of_cons; [lia|auto].
  - destruct H3 as [->|(g & Hg & ->)]; [by left|right; eexists; rewrite elem_of_cons; eauto].
Qed.

(** Files with the same keys give the same answers. *)
Lemma manifestHasTXID_keys (fs gs : list file) t :
  (forall k, k ∈ fkey <$> fs <-> k ∈ fkey <$> gs) -> manifestHasTXID fs t = manifestHasTXID gs t.
Proof.
  intros Hk. apply eq_true_iff_eq. rewrite !manifestHasTXID_spec.
  assert (Hh : forall fs gs : list file, (forall k, k ∈ fkey <$> fs -> k ∈ fkey <$> gs) ->
    (exists f, f ∈ fs /\ MinTXID f <= t <= MaxTXID f) ->
    exists f, f ∈ gs /\ MinTXID f <= t <= MaxTXID f).
  { intros fs' gs' Hs (f & Hf & Ht).
    destruct (proj1 (elem_of_fkeys (fkey f) gs')) as (g & Hg & [= H1 H2 H3]);
      [apply Hs, elem_of_fkeys; eauto|].
    exists g. split; [done|]. by rewrite H2, H3. }
  split; apply Hh; intros k; by apply Hk.
Qed.

Lemma manifestMaxTXID_keys (fs gs : list file) :
  (forall k, k ∈ fkey <$> fs <-> k ∈ fkey <$> gs) -> manifestMaxTXID fs = manifestMaxTXID gs.
Proof.
  assert (Hh : forall fs gs : list file, (forall k, k ∈ fkey <$> fs -> k ∈ fkey <$> gs) ->
    manifestMaxTXID fs <= manifestMaxTXID gs).
  { intros fs' gs' Hs. unfold manifestMaxTXID.
    destruct (manifestMaxTXID_acc fs' 0) as (_ & _ & [->|(f & Hf & ->)]);
      destruct (manifestMaxTXID_acc gs' 0) as (H0 & Hmax & _); [done|].
    destruct (proj1 (elem_of_fkeys (fkey f) gs')) as (g & Hg & [= H1 H2 H3]);
      [apply Hs, elem_of_fkeys; eauto|].
    rewrite <- H3. auto. }
  intros Hk. apply Z.le_antisymm; apply Hh; intros k; by apply Hk.
Qed.

Lemma roundtrip_spec (files : list file) (Hvalid : Forall valid_file files) :
  exists out, DecodeManifest (EncodeManifest (Some <$> files)) = Ok out /\
    StronglySorted le2 out /\ NoDup (fkey <$> out) /\
    (forall f, f ∈ out -> f ∈ files) /\
    (forall k, k ∈ fkey <$> out <-> k ∈ fkey <$> files) /\
    (forall t, manifestHasTXID out t = manifestHasTXID files t) /\
    manifestMaxTXID out = manifestMaxTXID files.
Proof.
  assert (Hid : omap id (Some <$> files) = files)
    by (clear; induction files as [|f fs IH]; [done|]; cbn; by rewrite IH).
  assert (Hs : Forall valid_file (sort3 files)).
  { unfold sort3. by rewrite merge_sort_Permutation. }
  destruct (decode_files_total [] _ Hs) as [out Ho].
  unfold DecodeManifest, EncodeManifest. cbn [Version Files]. rewrite Hid, Ho. cbn.
  destruct (decode_files_spec _ _ _ Ho) as (_ & Hnd & _ & Hin & Hk).
  assert (Hkeys : forall k, k ∈ fkey <$> sort2 out <-> k ∈ fkey <$> files).
  { intros k. rewrite !elem_of_fkeys. split.
    - intros (f & Hf & He). exists f. split; [|done].
      apply elem_of_sort3, Hin, elem_of_sort2, Hf.
    - intros (f & Hf & <-). apply (elem_of_sort3 f) in Hf.
      destruct (Hk f Hf) as [Hn|(g & Hg & He)%elem_of_fkeys]; [by apply not_elem_of_nil in Hn|].
      exists g. by rewrite elem_of_sort2. }
  eexists. split; [done|]. split_and!.
  - apply sort2_sorted.
  - unfold sort2. by rewrite merge_sort_Permutation.
  - intros f Hf. apply elem_of_sort3, Hin, elem_of_sort2, Hf.
  - done.
  - intros t. by apply manifestHasTXID_keys.
  - by apply manifestMaxTXID_keys.
Qed.

(** Writing a manifest and reading it back: the file list of valid files
      decodes, sorted and without repetitions, to exactly the same files (as
      level and TXID ranges), so it covers the same transactions and has the
      same tail. *)
Theorem manifest_roundtrip (files : list file) (Hvalid : Forall valid_file files) :
  exists out, DecodeManifest (EncodeManifest (Some <$> files)) = Ok out /\
    StronglySorted le2 out /\ NoDup (fkey <$> out) /\
    (forall f, f ∈ out -> f ∈ files) /\
    (forall k, k ∈ fkey <$> out <-> k ∈ fkey <$> files) /\
    (forall t, manifestHasTXID out t = manifestHasTXID files t) /\
    manifestMaxTXID out = manifestMaxTXID files.
Proof. by apply roundtrip_spec. Qed.

Definition sample_files : list file :=
  [mkFile 0 7 7 10 5; mkFile 1 1 6 40 3; mkFile 0 7 7 11 6].

Lemma manifest_roundtrip_witness :
  exists out, DecodeManifest (EncodeManifest (Some <$> sample_files)) = Ok out /\
    manifestMaxTXID out = 7.
Proof.
  destruct (manifest_roundtrip sample_files) as (out & Ho & _ & _ & _ & _ & _ & Hm).
  - apply Forall_forall. intros f Hf. unfold valid_file, SnapshotLevel.
    unfold sample_files in Hf. rewrite !elem_of_cons in Hf. destruct Hf as [->|[->|[->|Hf]]]; cbn; try lia.
    by apply not_elem_of_nil in Hf.
  - exists out. split; [exact Ho|exact Hm].
Defined.

(** Whatever document is found in storage, what the decoder lets through is a
      well-formed file list: version 1, every level between 0 and the snapshot
      level, every range non-empty and above zero, sorted, no file twice. *)
Theorem decode_sound (doc : manifestDocument) (out : list file)
    (Hdoc : DecodeManifest doc = Ok out) :
  Version doc = manifestVersion /\
  Forall (fun f => 0 <= Level f <= SnapshotLevel /\ MinTXID f <> 0 /\ MinTXID f <= MaxTXID f) out /\
  StronglySorted le2 out /\ NoDup (fkey <$> out).
Proof.
  unfold DecodeManifest in Hdoc. destruct (Z.eqb_spec (Version doc) manifestVersion) as [Hv|]; [|done].
  cbn in Hdoc. destruct (decode_files [] (Files doc)) as [o|e] eqn:Ho; [|done]. injection Hdoc as <-.
  destruct (decode_files_spec _ _ _ Ho) as (Hall & Hnd & _ & Hin & _). split_and!.
  - done.
  - apply Forall_forall. intros f Hf. rewrite Forall_forall in Hall.
    apply Hall, Hin, elem_of_sort2, Hf.
  - apply sort2_sorted.
  - unfold sort2. by rewrite merge_sort_Permutation.
Qed.

Lemma decode_sound_witness :
  NoDup (fkey <$> [mkFile 0 3 3 1 1; mkFile 2 1 2 9 1]).
Proof.
  destruct (decode_sound (mkDoc 1 [mkFile 2 1 2 9 1; mkFile 0 3 3 1 1; mkFile 2 1 2 8 1])
              [mkFile 0 3 3 1 1; mkFile 2 1 2 9 1]) as (_ & _ & _ & Hn).
  - vm_compute. reflexivity.
  - exact Hn.
Defined.

Lemma delta_keys (base written deleted : list file) k :
  k ∈ fkey <$> applyManifestDelta base written deleted <->
  (k ∈ fkey <$> base /\ k ∉ fkey <$> deleted) \/ k ∈ fkey <$> written.
Proof.
  unfold applyManifestDelta.
  set (kept := List.filter _ base).
  destruct (foldl_add_spec kept written) as (H1 & H2 & H3).
  assert (Hkept : forall f, f ∈ kept <-> f ∈ base /\ fkey f ∉ fkey <$> deleted).
  { intros f. unfold kept. rewrite elem_of_filter_b, negb_true_iff, <- not_true_iff_false.
    by rewrite manifestContains_spec, elem_of_fkeys. }
  rewrite !elem_of_fkeys. split.
  - intros (f & Hf & <-). rewrite elem_of_sort2 in Hf. destruct (H2 f Hf) as [Hk|Hw]; [|right; eauto].
    apply Hkept in Hk as [Hb Hd]. left. split; [eauto|]. intros (g & Hg & He).
    apply Hd, elem_of_fkeys. eauto.
  - intros [[(f & Hf & <-) Hd]|(f & Hf & <-)].
    + exists f. rewrite elem_of_sort2. split; [|done]. apply H1, Hkept. split; [done|].
      intros (g & Hg & He)%elem_of_fkeys. apply Hd. eauto.
    + destruct (H3 f Hf) as (g & Hg & He). exists g. by rewrite elem_of_sort2.
Qed.

(** Operations of the session's client, with the inner client's outcome. *)
Inductive client_op :=
  | CWrite (inner : res goerror file)
  | CDelete (files : list file) (inner : option goerror)
  | CDeleteAll (inner : option goerror).

Definition client_step (c : manifestClient) (o : client_op) : manifestClient :=
  match o with
  | CWrite inner => (WriteLTXFile c inner).1
  | CDelete fs inner => (DeleteLTXFiles c fs inner).1
  | CDeleteAll inner => (DeleteAll c inner).1
  end.

(** The set of file keys an operation leaves. *)
Definition keyset (fs : list file) : gset (Z * Z * Z) := list_to_set (fkey <$> fs).

Definition set_step (s : gset (Z * Z * Z)) (o : client_op) : gset (Z * Z * Z) :=
  match o with
  | CWrite (Ok f) => {[fkey f]} ∪ s
  | CDelete fs None => s ∖ keyset fs
  | CDeleteAll None => ∅
  | _ => s
  end.

Lemma elem_of_keyset k (fs : list file) : k ∈ keyset fs <-> k ∈ fkey <$> fs.
Proof. unfold keyset. apply elem_of_list_to_set. Qed.

#[export] Instance le_files_app : Proper ((≡ₚ) ==> eq) keyset.
Proof. intros fs gs Hp. unfold keyset. apply leibniz_equiv. by rewrite Hp. Qed.

(** The session's client keeps the manifest in step with storage: after any
      sequence of uploads and deletions, successful or not, the files it
      answers with are, as a set, those of the manifest it started from,
      changed by exactly the operations that succeeded, in order. *)
Theorem manifestClient_refines_set (files : list file) (os : list client_op) :
  keyset (c_files (foldl client_step (newManifestClient files) os))
    = foldl set_step (keyset files) os /\
  c_written (foldl client_step (newManifestClient files) os)
    = omap (fun o => match o with CWrite (Ok f) => Some f | _ => None end) os.
Proof.
  assert (Hstep : forall c o, keyset (c_files (client_step c o)) = set_step (keyset (c_files c)) o).
  { intros c o. apply set_eq. intros k. destruct o as [[f|e]|fs [e|]|[e|]];
      cbn [client_step set_step WriteLTXFile DeleteLTXFiles DeleteAll fst c_files]; try done.
    - rewrite elem_of_union, elem_of_singleton, !elem_of_keyset, delta_keys. cbn.
      rewrite list_elem_of_singleton. split; [intros [[? _]|]; auto|].
      intros [|Hk]; [by right|left]. split; [done|]. apply not_elem_of_nil.
    - rewrite elem_of_difference, !elem_of_keyset, delta_keys. cbn. split; [|by left].
      intros [?|Hk]; [done|]. by apply not_elem_of_nil in Hk. }
  enough (Hgen : forall os c, keyset (c_files (foldl client_step c os)) = foldl set_step (keyset (c_files c)) os /\
    c_written (foldl client_step c os)
      = c_written c ++ omap (fun o => match o with CWrite (Ok f) => Some f | _ => None end) os)
    by exact (Hgen os (newManifestClient files)).
  clear os. induction os as [|o os IH]; intros c; cbn [foldl]; [by rewrite app_nil_r|].
  destruct (IH (client_step c o)) as [H1 H2]. rewrite H1, H2, Hstep. split; [done|].
  destruct o as [[f|e]|fs [e|]|[e|]]; cbn; try done. by rewrite <- app_assoc.
Qed.

(** The compaction trigger: it fires exactly when some level below the top holds
      more files than the threshold (at least one), counting every file the
      list has, in whatever order. *)
Theorem needs_compaction_iff (files : list (option file)) (threshold : Z) :
  ManifestNeedsCompaction files threshold = true <->
  exists l, 0 <= l < compactionTopLevel /\
    Z.max 1 threshold < Z.of_nat (length (List.filter (fun f => Level f =? l) (omap id files))).
Proof.
  unfold ManifestNeedsCompaction.
  assert (Ht : (if threshold <=? 0 then 1 else threshold) = Z.max 1 threshold)
    by (destruct (Z.leb_spec threshold 0); lia).
  rewrite Ht. generalize (Z.max 1 threshold), (Z.le_max_l 1 threshold). clear Ht. intros th Hth.
  assert (Hgo : forall fs (counts : gmap Z Z), (forall l, default 0 (counts !! l) <= th) ->
    overThreshold th fs counts = true <-> exists l, 0 <= l < compactionTopLevel /\
      th < default 0 (counts !! l) + Z.of_nat (length (List.filter (fun f => Level f =? l) (omap id fs))));
    [|rewrite Hgo by (intros l; rewrite lookup_empty; cbn; lia);
      split; intros (l & Hl & Hc); exists l; (split; [done|]); rewrite lookup_empty in *; exact Hc].
  induction fs as [|[f|] fs IH]; intros counts Hc; cbn [overThreshold].
  - split; [done|]. intros (l & _ & Hl). specialize (Hc l). cbn in Hl. lia.
  - change (omap id (Some f :: fs)) with (f :: omap id fs).
    assert (Hcount : forall l, Z.of_nat (length (List.filter (fun f => Level f =? l) (f :: omap id fs)))
      = (if Level f =? l then 1 else 0) + Z.of_nat (length (List.filter (fun f => Level f =? l) (omap id fs)))).
    { intros l. cbn [List.filter]. destruct (Level f =? l); cbn [length]; lia. }
    destruct ((Level f <? 0) || _) eqn:Hr.
    + rewrite (IH counts Hc). split; intros (l & Hl & Hgt); exists l; (split; [done|]);
        rewrite Hcount in *; destruct (Z.eqb_spec (Level f) l); try lia;
        exfalso; subst l; apply orb_true_iff in Hr as [Hr|Hr]; bool_prop; lia.
    + apply orb_false_iff in Hr as [Hr1 Hr2]. bool_prop. cbn zeta.
      destruct (Z.ltb_spec th (default 0 (counts !! Level f) + 1)).
      * split; [|done]. intros _. exists (Level f). rewrite Hcount, Z.eqb_refl. lia.
      * rewrite IH by (intros l; rewrite lookup_insert; case_decide; [cbn; lia|done]).
        split; intros (l & Hl & Hgt); exists l; (split; [done|]); rewrite Hcount in *;
          rewrite lookup_insert in *; destruct (Z.eqb_spec (Level f) l); case_decide; subst;
          cbn in *; try done; lia.
  - apply (IH counts Hc).
Qed.

(** What the garbage collector and the source deletion remove: only files older
      than the retention window; and the collector never a file the manifest it
      read refers to, but every unreferenced file that is old enough. *)
Theorem gc_removes_exactly_garbage (active all sources : list file) (now retention : Z) (f : file) :
  (f ∈ GC active all now retention <->
     f ∈ all /\ fkey f ∉ fkey <$> active /\ CreatedAt f <= now - Z.max 0 retention) /\
  (f ∈ DeleteFiles sources now retention <-> f ∈ sources /\ CreatedAt f <= now - Z.max 0 retention).
Proof.
  assert (Hcut : cutoff now retention = now - Z.max 0 retention)
    by (unfold cutoff; destruct (Z.ltb_spec retention 0); lia).
  unfold GC, DeleteFiles. rewrite !elem_of_filter_b, andb_true_iff, !negb_true_iff, Hcut, Z.ltb_ge.
  rewrite <- not_true_iff_false, manifestContains_spec, elem_of_fkeys. tauto.
Qed.
