(* ===== verification/CAbi.v ===== *)
(** * CAbi: C declarations as data

    The extension and the VFS shim are compiled against two copies of SQLite's
    headers. This file gives the type in which their declarations are
    transcribed (C types without parameter names, which C ignores) and the
    comparisons the agreement theorems use. *)

From S2P Require Import Prelude.

Inductive ctype :=
  | TName (name : string)                   (* int, sqlite3_file, struct Mem *)
  | TConst (t : ctype)
  | TVolatile (t : ctype)
  | TPtr (t : ctype)
  | TArr (t : ctype)
  | TFun (ret : ctype) (params : list ctype)
  | TDots.                                  (* trailing variadic parameter *)

(** The type without its [const] qualifiers: calls through either type use
    the same registers and stack slots. *)
Fixpoint strip_const (t : ctype) : ctype :=
  match t with
  | TName n => TName n
  | TConst t => strip_const t
  | TVolatile t => TVolatile (strip_const t)
  | TPtr t => TPtr (strip_const t)
  | TArr t => TArr (strip_const t)
  | TFun r ps => TFun (strip_const r) (map strip_const ps)
  | TDots => TDots
  end.

Fixpoint ctype_eqb (a b : ctype) {struct a} : bool :=
  match a, b with
  | TName n, TName m => String.eqb n m
  | TConst a, TConst b | TVolatile a, TVolatile b
  | TPtr a, TPtr b | TArr a, TArr b => ctype_eqb a b
  | TFun r ps, TFun s qs =>
      ctype_eqb r s &&
      (fix go (ps qs : list ctype) : bool :=
         match ps, qs with
         | [], [] => true
         | p :: ps, q :: qs => ctype_eqb p q && go ps qs
         | _, _ => false
         end) ps qs
  | TDots, TDots => true
  | _, _ => false
  end%bool.

(** Induction with the hypothesis for every parameter. *)
Fixpoint ctype_ind' (P : ctype -> Prop)
  (Hn : forall n, P (TName n)) (Hc : forall t, P t -> P (TConst t))
  (Hv : forall t, P t -> P (TVolatile t)) (Hp : forall t, P t -> P (TPtr t))
  (Ha : forall t, P t -> P (TArr t))
  (Hf : forall r ps, P r -> Forall P ps -> P (TFun r ps)) (Hd : P TDots)
  (t : ctype) : P t :=
  let rec := ctype_ind' P Hn Hc Hv Hp Ha Hf Hd in
  match t with
  | TName n => Hn n
  | TConst t => Hc t (rec t)
  | TVolatile t => Hv t (rec t)
  | TPtr t => Hp t (rec t)
  | TArr t => Ha t (rec t)
  | TFun r ps => Hf r ps (rec r)
      ((fix go (ps : list ctype) : Forall P ps :=
          match ps with
          | [] => List.Forall_nil P
          | p :: ps => List.Forall_cons P p ps (rec p) (go ps)
          end) ps)
  | TDots => Hd
  end.

Lemma ctype_eqb_eq a b : ctype_eqb a b = true <-> a = b.
Proof.
  revert b. induction a as [n|a IH|a IH|a IH|a IH|r ps IHr IHps|] using ctype_ind';
    intros []; simpl; try (split; [done | congruence]);
    try (rewrite IH; split; congruence).
  - rewrite String.eqb_eq. split; congruence.
  - rewrite andb_true_iff, IHr.
    match goal with |- context [_ /\ ?g = true] => assert (g = true <-> ps = params) as -> end;
      [| split; [intros [-> ->]; done | intros [= -> ->]; done]].
    clear IHr. revert params. induction IHps as [|p ps Hp _ IH]; intros [|q qs]; try done.
    rewrite andb_true_iff, Hp, IH. split; [intros [-> ->] | intros [= -> ->]]; done.
Qed.

#[export] Instance ctype_eq_dec : EqDecision ctype.
Proof.
  intros a b. destruct (ctype_eqb a b) eqn:H.
  - left. by apply ctype_eqb_eq.
  - right. rewrite <- ctype_eqb_eq, H. done.
Defined.

(** Same type up to [const]. *)
Definition compatible (a b : ctype) : bool := ctype_eqb (strip_const a) (strip_const b).

Lemma compatible_spec a b : compatible a b = true <-> strip_const a = strip_const b.
Proof. apply ctype_eqb_eq. Qed.

(** ** Tables *)

Fixpoint assoc {A} (k : string) (l : list (string * A)) : option A :=
  match l with
  | [] => None
  | (k', a) :: l => if String.eqb k k' then Some a else assoc k l
  end.

(** Offset of a member in a structure of pointers. *)
Fixpoint offset {A} (k : string) (l : list (string * A)) : option nat :=
  match l with
  | [] => None
  | (k', _) :: l => if String.eqb k k' then Some O else S <$> offset k l
  end.

Lemma offset_lookup {A} k (l : list (string * A)) i :
  offset k l = Some i -> exists a, l !! i = Some (k, a) /\ assoc k l = Some a.
Proof.
  revert i. induction l as [|[k' a] l IH]; intros i; simpl; [done|].
  destruct (String.eqb_spec k k') as [->|].
  - intros [= <-]. by exists a.
  - intros (j & Hj & ->)%fmap_Some. destruct (IH j Hj) as (b & Hb & Ha). by exists b.
Qed.

Lemma forallb_lookup {A} (f : A -> bool) (l : list A) i x :
  forallb f l = true -> l !! i = Some x -> f x = true.
Proof.
  intros Hf Hx. rewrite List.forallb_forall in Hf. apply Hf.
  by apply list_elem_of_In, (list_elem_of_lookup_2 _ i).
Qed.
