(* ===== verification/SqliteHeader.v ===== *)
(** * SqliteHeader: the public SQLite interface the extension compiles against

    Transcribed from [bindings/vfs/binding/sqlite3.h] (SQLite 3.50): integer
    constants, function prototypes and method structures, in source order. *)

From S2P Require Import Prelude CAbi.

(** ** Integer constants, one definition per [#define] and one table per block *)

Definition SQLITE_VERSION_NUMBER : Z := 3050004.
Definition h_consts_SQLITE_VERSION_NUMBER : list (string * Z) :=
  [("SQLITE_VERSION_NUMBER", SQLITE_VERSION_NUMBER)].

Definition SQLITE_OK : Z := 0.
Definition SQLITE_ERROR : Z := 1.
Definition SQLITE_INTERNAL : Z := 2.
Definition SQLITE_PERM : Z := 3.
Definition SQLITE_ABORT : Z := 4.
Definition SQLITE_BUSY : Z := 5.
Definition SQLITE_LOCKED : Z := 6.
Definition SQLITE_NOMEM : Z := 7.
Definition SQLITE_READONLY : Z := 8.
Definition SQLITE_INTERRUPT : Z := 9.
Definition SQLITE_IOERR : Z := 10.
Definition SQLITE_CORRUPT : Z := 11.
Definition SQLITE_NOTFOUND : Z := 12.
Definition SQLITE_FULL : Z := 13.
Definition SQLITE_CANTOPEN : Z := 14.
Definition SQLITE_PROTOCOL : Z := 15.
Definition SQLITE_EMPTY : Z := 16.
Definition SQLITE_SCHEMA : Z := 17.
Definition SQLITE_TOOBIG : Z := 18.
Definition SQLITE_CONSTRAINT : Z := 19.
Definition SQLITE_MISMATCH : Z := 20.
Definition SQLITE_MISUSE : Z := 21.
Definition SQLITE_NOLFS : Z := 22.
Definition SQLITE_AUTH : Z := 23.
Definition SQLITE_FORMAT : Z := 24.
Definition SQLITE_RANGE : Z := 25.
Definition SQLITE_NOTADB : Z := 26.
Definition SQLITE_NOTICE : Z := 27.
Definition SQLITE_WARNING : Z := 28.
Definition SQLITE_ROW : Z := 100.
Definition SQLITE_DONE : Z := 101.
Definition h_consts_SQLITE_OK : list (string * Z) :=
  [("SQLITE_OK", SQLITE_OK);
   ("SQLITE_ERROR", SQLITE_ERROR);
   ("SQLITE_INTERNAL", SQLITE_INTERNAL);
   ("SQLITE_PERM", SQLITE_PERM);
   ("SQLITE_ABORT", SQLITE_ABORT);
   ("SQLITE_BUSY", SQLITE_BUSY);
   ("SQLITE_LOCKED", SQLITE_LOCKED);
   ("SQLITE_NOMEM", SQLITE_NOMEM);
   ("SQLITE_READONLY", SQLITE_READONLY);
   ("SQLITE_INTERRUPT", SQLITE_INTERRUPT);
   ("SQLITE_IOERR", SQLITE_IOERR);
   ("SQLITE_CORRUPT", SQLITE_CORRUPT);
   ("SQLITE_NOTFOUND", SQLITE_NOTFOUND);
   ("SQLITE_FULL", SQLITE_FULL);
   ("SQLITE_CANTOPEN", SQLITE_CANTOPEN);
   ("SQLITE_PROTOCOL", SQLITE_PROTOCOL);
   ("SQLITE_EMPTY", SQLITE_EMPTY);
   ("SQLITE_SCHEMA", SQLITE_SCHEMA);
   ("SQLITE_TOOBIG", SQLITE_TOOBIG);
   ("SQLITE_CONSTRAINT", SQLITE_CONSTRAINT);
   ("SQLITE_MISMATCH", SQLITE_MISMATCH);
   ("SQLITE_MISUSE", SQLITE_MISUSE);
   ("SQLITE_NOLFS", SQLITE_NOLFS);
   ("SQLITE_AUTH", SQLITE_AUTH);
   ("SQLITE_FORMAT", SQLITE_FORMAT);
   ("SQLITE_RANGE", SQLITE_RANGE);
   ("SQLITE_NOTADB", SQLITE_NOTADB);
   ("SQLITE_NOTICE", SQLITE_NOTICE);
   ("SQLITE_WARNING", SQLITE_WARNING);
   ("SQLITE_ROW", SQLITE_ROW);
   ("SQLITE_DONE", SQLITE_DONE)].

Definition SQLITE_ERROR_MISSING_COLLSEQ : Z := (Z.lor SQLITE_ERROR (Z.shiftl 1 8)).
Definition SQLITE_ERROR_RETRY : Z := (Z.lor SQLITE_ERROR (Z.shiftl 2 8)).
Definition SQLITE_ERROR_SNAPSHOT : Z := (Z.lor SQLITE_ERROR (Z.shiftl 3 8)).
Definition SQLITE_IOERR_READ : Z := (Z.lor SQLITE_IOERR (Z.shiftl 1 8)).
Definition SQLITE_IOERR_SHORT_READ : Z := (Z.lor SQLITE_IOERR (Z.shiftl 2 8)).
Definition SQLITE_IOERR_WRITE : Z := (Z.lor SQLITE_IOERR (Z.shiftl 3 8)).
Definition SQLITE_IOERR_FSYNC : Z := (Z.lor SQLITE_IOERR (Z.shiftl 4 8)).
Definition SQLITE_IOERR_DIR_FSYNC : Z := (Z.lor SQLITE_IOERR (Z.shiftl 5 8)).
Definition SQLITE_IOERR_TRUNCATE : Z := (Z.lor SQLITE_IOERR (Z.shiftl 6 8)).
Definition SQLITE_IOERR_FSTAT : Z := (Z.lor SQLITE_IOERR (Z.shiftl 7 8)).
Definition SQLITE_IOERR_UNLOCK : Z := (Z.lor SQLITE_IOERR (Z.shiftl 8 8)).
Definition SQLITE_IOERR_RDLOCK : Z := (Z.lor SQLITE_IOERR (Z.shiftl 9 8)).
Definition SQLITE_IOERR_DELETE : Z := (Z.lor SQLITE_IOERR (Z.shiftl 10 8)).
Definition SQLITE_IOERR_BLOCKED : Z := (Z.lor SQLITE_IOERR (Z.shiftl 11 8)).
Definition SQLITE_IOERR_NOMEM : Z := (Z.lor SQLITE_IOERR (Z.shiftl 12 8)).
Definition SQLITE_IOERR_ACCESS : Z := (Z.lor SQLITE_IOERR (Z.shiftl 13 8)).
Definition SQLITE_IOERR_CHECKRESERVEDLOCK : Z := (Z.lor SQLITE_IOERR (Z.shiftl 14 8)).
Definition SQLITE_IOERR_LOCK : Z := (Z.lor SQLITE_IOERR (Z.shiftl 15 8)).
Definition SQLITE_IOERR_CLOSE : Z := (Z.lor SQLITE_IOERR (Z.shiftl 16 8)).
Definition SQLITE_IOERR_DIR_CLOSE : Z := (Z.lor SQLITE_IOERR (Z.shiftl 17 8)).
Definition SQLITE_IOERR_SHMOPEN : Z := (Z.lor SQLITE_IOERR (Z.shiftl 18 8)).
Definition SQLITE_IOERR_SHMSIZE : Z := (Z.lor SQLITE_IOERR (Z.shiftl 19 8)).
Definition SQLITE_IOERR_SHMLOCK : Z := (Z.lor SQLITE_IOERR (Z.shiftl 20 8)).
Definition SQLITE_IOERR_SHMMAP : Z := (Z.lor SQLITE_IOERR (Z.shiftl 21 8)).
Definition SQLITE_IOERR_SEEK : Z := (Z.lor SQLITE_IOERR (Z.shiftl 22 8)).
Definition SQLITE_IOERR_DELETE_NOENT : Z := (Z.lor SQLITE_IOERR (Z.shiftl 23 8)).
Definition SQLITE_IOERR_MMAP : Z := (Z.lor SQLITE_IOERR (Z.shiftl 24 8)).
Definition SQLITE_IOERR_GETTEMPPATH : Z := (Z.lor SQLITE_IOERR (Z.shiftl 25 8)).
Definition SQLITE_IOERR_CONVPATH : Z := (Z.lor SQLITE_IOERR (Z.shiftl 26 8)).
Definition SQLITE_IOERR_VNODE : Z := (Z.lor SQLITE_IOERR (Z.shiftl 27 8)).
Definition SQLITE_IOERR_AUTH : Z := (Z.lor SQLITE_IOERR (Z.shiftl 28 8)).
Definition SQLITE_IOERR_BEGIN_ATOMIC : Z := (Z.lor SQLITE_IOERR (Z.shiftl 29 8)).
Definition SQLITE_IOERR_COMMIT_ATOMIC : Z := (Z.lor SQLITE_IOERR (Z.shiftl 30 8)).
Definition SQLITE_IOERR_ROLLBACK_ATOMIC : Z := (Z.lor SQLITE_IOERR (Z.shiftl 31 8)).
Definition SQLITE_IOERR_DATA : Z := (Z.lor SQLITE_IOERR (Z.shiftl 32 8)).
Definition SQLITE_IOERR_CORRUPTFS : Z := (Z.lor SQLITE_IOERR (Z.shiftl 33 8)).
Definition SQLITE_IOERR_IN_PAGE : Z := (Z.lor SQLITE_IOERR (Z.shiftl 34 8)).
Definition SQLITE_LOCKED_SHAREDCACHE : Z := (Z.lor SQLITE_LOCKED (Z.shiftl 1 8)).
Definition SQLITE_LOCKED_VTAB : Z := (Z.lor SQLITE_LOCKED (Z.shiftl 2 8)).
Definition SQLITE_BUSY_RECOVERY : Z := (Z.lor SQLITE_BUSY (Z.shiftl 1 8)).
Definition SQLITE_BUSY_SNAPSHOT : Z := (Z.lor SQLITE_BUSY (Z.shiftl 2 8)).
Definition SQLITE_BUSY_TIMEOUT : Z := (Z.lor SQLITE_BUSY (Z.shiftl 3 8)).
Definition SQLITE_CANTOPEN_NOTEMPDIR : Z := (Z.lor SQLITE_CANTOPEN (Z.shiftl 1 8)).
Definition SQLITE_CANTOPEN_ISDIR : Z := (Z.lor SQLITE_CANTOPEN (Z.shiftl 2 8)).
Definition SQLITE_CANTOPEN_FULLPATH : Z := (Z.lor SQLITE_CANTOPEN (Z.shiftl 3 8)).
Definition SQLITE_CANTOPEN_CONVPATH : Z := (Z.lor SQLITE_CANTOPEN (Z.shiftl 4 8)).
Definition SQLITE_CANTOPEN_DIRTYWAL : Z := (Z.lor SQLITE_CANTOPEN (Z.shiftl 5 8)).
Definition SQLITE_CANTOPEN_SYMLINK : Z := (Z.lor SQLITE_CANTOPEN (Z.shiftl 6 8)).
Definition SQLITE_CORRUPT_VTAB : Z := (Z.lor SQLITE_CORRUPT (Z.shiftl 1 8)).
Definition SQLITE_CORRUPT_SEQUENCE : Z := (Z.lor SQLITE_CORRUPT (Z.shiftl 2 8)).
Definition SQLITE_CORRUPT_INDEX : Z := (Z.lor SQLITE_CORRUPT (Z.shiftl 3 8)).
Definition SQLITE_READONLY_RECOVERY : Z := (Z.lor SQLITE_READONLY (Z.shiftl 1 8)).
Definition SQLITE_READONLY_CANTLOCK : Z := (Z.lor SQLITE_READONLY (Z.shiftl 2 8)).
Definition SQLITE_READONLY_ROLLBACK : Z := (Z.lor SQLITE_READONLY (Z.shiftl 3 8)).
Definition SQLITE_READONLY_DBMOVED : Z := (Z.lor SQLITE_READONLY (Z.shiftl 4 8)).
Definition SQLITE_READONLY_CANTINIT : Z := (Z.lor SQLITE_READONLY (Z.shiftl 5 8)).
Definition SQLITE_READONLY_DIRECTORY : Z := (Z.lor SQLITE_READONLY (Z.shiftl 6 8)).
Definition SQLITE_ABORT_ROLLBACK : Z := (Z.lor SQLITE_ABORT (Z.shiftl 2 8)).
Definition SQLITE_CONSTRAINT_CHECK : Z := (Z.lor SQLITE_CONSTRAINT (Z.shiftl 1 8)).
Definition SQLITE_CONSTRAINT_COMMITHOOK : Z := (Z.lor SQLITE_CONSTRAINT (Z.shiftl 2 8)).
Definition SQLITE_CONSTRAINT_FOREIGNKEY : Z := (Z.lor SQLITE_CONSTRAINT (Z.shiftl 3 8)).
Definition SQLITE_CONSTRAINT_FUNCTION : Z := (Z.lor SQLITE_CONSTRAINT (Z.shiftl 4 8)).
Definition SQLITE_CONSTRAINT_NOTNULL : Z := (Z.lor SQLITE_CONSTRAINT (Z.shiftl 5 8)).
Definition SQLITE_CONSTRAINT_PRIMARYKEY : Z := (Z.lor SQLITE_CONSTRAINT (Z.shiftl 6 8)).
Definition SQLITE_CONSTRAINT_TRIGGER : Z := (Z.lor SQLITE_CONSTRAINT (Z.shiftl 7 8)).
Definition SQLITE_CONSTRAINT_UNIQUE : Z := (Z.lor SQLITE_CONSTRAINT (Z.shiftl 8 8)).
Definition SQLITE_CONSTRAINT_VTAB : Z := (Z.lor SQLITE_CONSTRAINT (Z.shiftl 9 8)).
Definition SQLITE_CONSTRAINT_ROWID : Z := (Z.lor SQLITE_CONSTRAINT (Z.shiftl 10 8)).
Definition SQLITE_CONSTRAINT_PINNED : Z := (Z.lor SQLITE_CONSTRAINT (Z.shiftl 11 8)).
Definition SQLITE_CONSTRAINT_DATATYPE : Z := (Z.lor SQLITE_CONSTRAINT (Z.shiftl 12 8)).
Definition SQLITE_NOTICE_RECOVER_WAL : Z := (Z.lor SQLITE_NOTICE (Z.shiftl 1 8)).
Definition SQLITE_NOTICE_RECOVER_ROLLBACK : Z := (Z.lor SQLITE_NOTICE (Z.shiftl 2 8)).
Definition SQLITE_NOTICE_RBU : Z := (Z.lor SQLITE_NOTICE (Z.shiftl 3 8)).
Definition SQLITE_WARNING_AUTOINDEX : Z := (Z.lor SQLITE_WARNING (Z.shiftl 1 8)).
Definition SQLITE_AUTH_USER : Z := (Z.lor SQLITE_AUTH (Z.shiftl 1 8)).
Definition SQLITE_OK_LOAD_PERMANENTLY : Z := (Z.lor SQLITE_OK (Z.shiftl 1 8)).
Definition SQLITE_OK_SYMLINK : Z := (Z.lor SQLITE_OK (Z.shiftl 2 8)).
Definition h_consts_SQLITE_ERROR_MISSING_COLLSEQ : list (string * Z) :=
  [("SQLITE_ERROR_MISSING_COLLSEQ", SQLITE_ERROR_MISSING_COLLSEQ);
   ("SQLITE_ERROR_RETRY", SQLITE_ERROR_RETRY);
   ("SQLITE_ERROR_SNAPSHOT", SQLITE_ERROR_SNAPSHOT);
   ("SQLITE_IOERR_READ", SQLITE_IOERR_READ);
   ("SQLITE_IOERR_SHORT_READ", SQLITE_IOERR_SHORT_READ);
   ("SQLITE_IOERR_WRITE", SQLITE_IOERR_WRITE);
   ("SQLITE_IOERR_FSYNC", SQLITE_IOERR_FSYNC);
   ("SQLITE_IOERR_DIR_FSYNC", SQLITE_IOERR_DIR_FSYNC);
   ("SQLITE_IOERR_TRUNCATE", SQLITE_IOERR_TRUNCATE);
   ("SQLITE_IOERR_FSTAT", SQLITE_IOERR_FSTAT);
   ("SQLITE_IOERR_UNLOCK", SQLITE_IOERR_UNLOCK);
   ("SQLITE_IOERR_RDLOCK", SQLITE_IOERR_RDLOCK);
   ("SQLITE_IOERR_DELETE", SQLITE_IOERR_DELETE);
   ("SQLITE_IOERR_BLOCKED", SQLITE_IOERR_BLOCKED);
   ("SQLITE_IOERR_NOMEM", SQLITE_IOERR_NOMEM);
   ("SQLITE_IOERR_ACCESS", SQLITE_IOERR_ACCESS);
   ("SQLITE_IOERR_CHECKRESERVEDLOCK", SQLITE_IOERR_CHECKRESERVEDLOCK);
   ("SQLITE_IOERR_LOCK", SQLITE_IOERR_LOCK);
   ("SQLITE_IOERR_CLOSE", SQLITE_IOERR_CLOSE);
   ("SQLITE_IOERR_DIR_CLOSE", SQLITE_IOERR_DIR_CLOSE);
   ("SQLITE_IOERR_SHMOPEN", SQLITE_IOERR_SHMOPEN);
   ("SQLITE_IOERR_SHMSIZE", SQLITE_IOERR_SHMSIZE);
   ("SQLITE_IOERR_SHMLOCK", SQLITE_IOERR_SHMLOCK);
   ("SQLITE_IOERR_SHMMAP", SQLITE_IOERR_SHMMAP);
   ("SQLITE_IOERR_SEEK", SQLITE_IOERR_SEEK);
   ("SQLITE_IOERR_DELETE_NOENT", SQLITE_IOERR_DELETE_NOENT);
   ("SQLITE_IOERR_MMAP", SQLITE_IOERR_MMAP);
   ("SQLITE_IOERR_GETTEMPPATH", SQLITE_IOERR_GETTEMPPATH);
   ("SQLITE_IOERR_CONVPATH", SQLITE_IOERR_CONVPATH);
   ("SQLITE_IOERR_VNODE", SQLITE_IOERR_VNODE);
   ("SQLITE_IOERR_AUTH", SQLITE_IOERR_AUTH);
   ("SQLITE_IOERR_BEGIN_ATOMIC", SQLITE_IOERR_BEGIN_ATOMIC);
   ("SQLITE_IOERR_COMMIT_ATOMIC", SQLITE_IOERR_COMMIT_ATOMIC);
   ("SQLITE_IOERR_ROLLBACK_ATOMIC", SQLITE_IOERR_ROLLBACK_ATOMIC);
   ("SQLITE_IOERR_DATA", SQLITE_IOERR_DATA);
   ("SQLITE_IOERR_CORRUPTFS", SQLITE_IOERR_CORRUPTFS);
   ("SQLITE_IOERR_IN_PAGE", SQLITE_IOERR_IN_PAGE);
   ("SQLITE_LOCKED_SHAREDCACHE", SQLITE_LOCKED_SHAREDCACHE);
   ("SQLITE_LOCKED_VTAB", SQLITE_LOCKED_VTAB);
   ("SQLITE_BUSY_RECOVERY", SQLITE_BUSY_RECOVERY);
   ("SQLITE_BUSY_SNAPSHOT", SQLITE_BUSY_SNAPSHOT);
   ("SQLITE_BUSY_TIMEOUT", SQLITE_BUSY_TIMEOUT);
   ("SQLITE_CANTOPEN_NOTEMPDIR", SQLITE_CANTOPEN_NOTEMPDIR);
   ("SQLITE_CANTOPEN_ISDIR", SQLITE_CANTOPEN_ISDIR);
   ("SQLITE_CANTOPEN_FULLPATH", SQLITE_CANTOPEN_FULLPATH);
   ("SQLITE_CANTOPEN_CONVPATH", SQLITE_CANTOPEN_CONVPATH);
   ("SQLITE_CANTOPEN_DIRTYWAL", SQLITE_CANTOPEN_DIRTYWAL);
   ("SQLITE_CANTOPEN_SYMLINK", SQLITE_CANTOPEN_SYMLINK);
   ("SQLITE_CORRUPT_VTAB", SQLITE_CORRUPT_VTAB);
   ("SQLITE_CORRUPT_SEQUENCE", SQLITE_CORRUPT_SEQUENCE);
   ("SQLITE_CORRUPT_INDEX", SQLITE_CORRUPT_INDEX);
   ("SQLITE_READONLY_RECOVERY", SQLITE_READONLY_RECOVERY);
   ("SQLITE_READONLY_CANTLOCK", SQLITE_READONLY_CANTLOCK);
   ("SQLITE_READONLY_ROLLBACK", SQLITE_READONLY_ROLLBACK);
   ("SQLITE_READONLY_DBMOVED", SQLITE_READONLY_DBMOVED);
   ("SQLITE_READONLY_CANTINIT", SQLITE_READONLY_CANTINIT);
   ("SQLITE_READONLY_DIRECTORY", SQLITE_READONLY_DIRECTORY);
   ("SQLITE_ABORT_ROLLBACK", SQLITE_ABORT_ROLLBACK);
   ("SQLITE_CONSTRAINT_CHECK", SQLITE_CONSTRAINT_CHECK);
   ("SQLITE_CONSTRAINT_COMMITHOOK", SQLITE_CONSTRAINT_COMMITHOOK);
   ("SQLITE_CONSTRAINT_FOREIGNKEY", SQLITE_CONSTRAINT_FOREIGNKEY);
   ("SQLITE_CONSTRAINT_FUNCTION", SQLITE_CONSTRAINT_FUNCTION);
   ("SQLITE_CONSTRAINT_NOTNULL", SQLITE_CONSTRAINT_NOTNULL);
   ("SQLITE_CONSTRAINT_PRIMARYKEY", SQLITE_CONSTRAINT_PRIMARYKEY);
   ("SQLITE_CONSTRAINT_TRIGGER", SQLITE_CONSTRAINT_TRIGGER);
   ("SQLITE_CONSTRAINT_UNIQUE", SQLITE_CONSTRAINT_UNIQUE);
   ("SQLITE_CONSTRAINT_VTAB", SQLITE_CONSTRAINT_VTAB);
   ("SQLITE_CONSTRAINT_ROWID", SQLITE_CONSTRAINT_ROWID);
   ("SQLITE_CONSTRAINT_PINNED", SQLITE_CONSTRAINT_PINNED);
   ("SQLITE_CONSTRAINT_DATATYPE", SQLITE_CONSTRAINT_DATATYPE);
   ("SQLITE_NOTICE_RECOVER_WAL", SQLITE_NOTICE_RECOVER_WAL);
   ("SQLITE_NOTICE_RECOVER_ROLLBACK", SQLITE_NOTICE_RECOVER_ROLLBACK);
   ("SQLITE_NOTICE_RBU", SQLITE_NOTICE_RBU);
   ("SQLITE_WARNING_AUTOINDEX", SQLITE_WARNING_AUTOINDEX);
   ("SQLITE_AUTH_USER", SQLITE_AUTH_USER);
   ("SQLITE_OK_LOAD_PERMANENTLY", SQLITE_OK_LOAD_PERMANENTLY);
   ("SQLITE_OK_SYMLINK", SQLITE_OK_SYMLINK)].

Definition SQLITE_OPEN_READONLY : Z := 1.
Definition SQLITE_OPEN_READWRITE : Z := 2.
Definition SQLITE_OPEN_CREATE : Z := 4.
Definition SQLITE_OPEN_DELETEONCLOSE : Z := 8.
Definition SQLITE_OPEN_EXCLUSIVE : Z := 16.
Definition SQLITE_OPEN_AUTOPROXY : Z := 32.
Definition SQLITE_OPEN_URI : Z := 64.
Definition SQLITE_OPEN_MEMORY : Z := 128.
Definition SQLITE_OPEN_MAIN_DB : Z := 256.
Definition SQLITE_OPEN_TEMP_DB : Z := 512.
Definition SQLITE_OPEN_TRANSIENT_DB : Z := 1024.
Definition SQLITE_OPEN_MAIN_JOURNAL : Z := 2048.
Definition SQLITE_OPEN_TEMP_JOURNAL : Z := 4096.
Definition SQLITE_OPEN_SUBJOURNAL : Z := 8192.
Definition SQLITE_OPEN_SUPER_JOURNAL : Z := 16384.
Definition SQLITE_OPEN_NOMUTEX : Z := 32768.
Definition SQLITE_OPEN_FULLMUTEX : Z := 65536.
Definition SQLITE_OPEN_SHAREDCACHE : Z := 131072.
Definition SQLITE_OPEN_PRIVATECACHE : Z := 262144.
Definition SQLITE_OPEN_WAL : Z := 524288.
Definition SQLITE_OPEN_NOFOLLOW : Z := 16777216.
Definition SQLITE_OPEN_EXRESCODE : Z := 33554432.
Definition h_consts_SQLITE_OPEN_READONLY : list (string * Z) :=
  [("SQLITE_OPEN_READONLY", SQLITE_OPEN_READONLY);
   ("SQLITE_OPEN_READWRITE", SQLITE_OPEN_READWRITE);
   ("SQLITE_OPEN_CREATE", SQLITE_OPEN_CREATE);
   ("SQLITE_OPEN_DELETEONCLOSE", SQLITE_OPEN_DELETEONCLOSE);
   ("SQLITE_OPEN_EXCLUSIVE", SQLITE_OPEN_EXCLUSIVE);
   ("SQLITE_OPEN_AUTOPROXY", SQLITE_OPEN_AUTOPROXY);
   ("SQLITE_OPEN_URI", SQLITE_OPEN_URI);
   ("SQLITE_OPEN_MEMORY", SQLITE_OPEN_MEMORY);
   ("SQLITE_OPEN_MAIN_DB", SQLITE_OPEN_MAIN_DB);
   ("SQLITE_OPEN_TEMP_DB", SQLITE_OPEN_TEMP_DB);
   ("SQLITE_OPEN_TRANSIENT_DB", SQLITE_OPEN_TRANSIENT_DB);
   ("SQLITE_OPEN_MAIN_JOURNAL", SQLITE_OPEN_MAIN_JOURNAL);
   ("SQLITE_OPEN_TEMP_JOURNAL", SQLITE_OPEN_TEMP_JOURNAL);
   ("SQLITE_OPEN_SUBJOURNAL", SQLITE_OPEN_SUBJOURNAL);
   ("SQLITE_OPEN_SUPER_JOURNAL", SQLITE_OPEN_SUPER_JOURNAL);
   ("SQLITE_OPEN_NOMUTEX", SQLITE_OPEN_NOMUTEX);
   ("SQLITE_OPEN_FULLMUTEX", SQLITE_OPEN_FULLMUTEX);
   ("SQLITE_OPEN_SHAREDCACHE", SQLITE_OPEN_SHAREDCACHE);
   ("SQLITE_OPEN_PRIVATECACHE", SQLITE_OPEN_PRIVATECACHE);
   ("SQLITE_OPEN_WAL", SQLITE_OPEN_WAL);
   ("SQLITE_OPEN_NOFOLLOW", SQLITE_OPEN_NOFOLLOW);
   ("SQLITE_OPEN_EXRESCODE", SQLITE_OPEN_EXRESCODE)].

Definition SQLITE_OPEN_MASTER_JOURNAL : Z := 16384.
Definition h_consts_SQLITE_OPEN_MASTER_JOURNAL : list (string * Z) :=
  [("SQLITE_OPEN_MASTER_JOURNAL", SQLITE_OPEN_MASTER_JOURNAL)].

Definition SQLITE_IOCAP_ATOMIC : Z := 1.
Definition SQLITE_IOCAP_ATOMIC512 : Z := 2.
Definition SQLITE_IOCAP_ATOMIC1K : Z := 4.
Definition SQLITE_IOCAP_ATOMIC2K : Z := 8.
Definition SQLITE_IOCAP_ATOMIC4K : Z := 16.
Definition SQLITE_IOCAP_ATOMIC8K : Z := 32.
Definition SQLITE_IOCAP_ATOMIC16K : Z := 64.
Definition SQLITE_IOCAP_ATOMIC32K : Z := 128.
Definition SQLITE_IOCAP_ATOMIC64K : Z := 256.
Definition SQLITE_IOCAP_SAFE_APPEND : Z := 512.
Definition SQLITE_IOCAP_SEQUENTIAL : Z := 1024.
Definition SQLITE_IOCAP_UNDELETABLE_WHEN_OPEN : Z := 2048.
Definition SQLITE_IOCAP_POWERSAFE_OVERWRITE : Z := 4096.
Definition SQLITE_IOCAP_IMMUTABLE : Z := 8192.
Definition SQLITE_IOCAP_BATCH_ATOMIC : Z := 16384.
Definition SQLITE_IOCAP_SUBPAGE_READ : Z := 32768.
Definition h_consts_SQLITE_IOCAP_ATOMIC : list (string * Z) :=
  [("SQLITE_IOCAP_ATOMIC", SQLITE_IOCAP_ATOMIC);
   ("SQLITE_IOCAP_ATOMIC512", SQLITE_IOCAP_ATOMIC512);
   ("SQLITE_IOCAP_ATOMIC1K", SQLITE_IOCAP_ATOMIC1K);
   ("SQLITE_IOCAP_ATOMIC2K", SQLITE_IOCAP_ATOMIC2K);
   ("SQLITE_IOCAP_ATOMIC4K", SQLITE_IOCAP_ATOMIC4K);
   ("SQLITE_IOCAP_ATOMIC8K", SQLITE_IOCAP_ATOMIC8K);
   ("SQLITE_IOCAP_ATOMIC16K", SQLITE_IOCAP_ATOMIC16K);
   ("SQLITE_IOCAP_ATOMIC32K", SQLITE_IOCAP_ATOMIC32K);
   ("SQLITE_IOCAP_ATOMIC64K", SQLITE_IOCAP_ATOMIC64K);
   ("SQLITE_IOCAP_SAFE_APPEND", SQLITE_IOCAP_SAFE_APPEND);
   ("SQLITE_IOCAP_SEQUENTIAL", SQLITE_IOCAP_SEQUENTIAL);
   ("SQLITE_IOCAP_UNDELETABLE_WHEN_OPEN", SQLITE_IOCAP_UNDELETABLE_WHEN_OPEN);
   ("SQLITE_IOCAP_POWERSAFE_OVERWRITE", SQLITE_IOCAP_POWERSAFE_OVERWRITE);
   ("SQLITE_IOCAP_IMMUTABLE", SQLITE_IOCAP_IMMUTABLE);
   ("SQLITE_IOCAP_BATCH_ATOMIC", SQLITE_IOCAP_BATCH_ATOMIC);
   ("SQLITE_IOCAP_SUBPAGE_READ", SQLITE_IOCAP_SUBPAGE_READ)].

Definition SQLITE_LOCK_NONE : Z := 0.
Definition SQLITE_LOCK_SHARED : Z := 1.
Definition SQLITE_LOCK_RESERVED : Z := 2.
Definition SQLITE_LOCK_PENDING : Z := 3.
Definition SQLITE_LOCK_EXCLUSIVE : Z := 4.
Definition h_consts_SQLITE_LOCK_NONE : list (string * Z) :=
  [("SQLITE_LOCK_NONE", SQLITE_LOCK_NONE);
   ("SQLITE_LOCK_SHARED", SQLITE_LOCK_SHARED);
   ("SQLITE_LOCK_RESERVED", SQLITE_LOCK_RESERVED);
   ("SQLITE_LOCK_PENDING", SQLITE_LOCK_PENDING);
   ("SQLITE_LOCK_EXCLUSIVE", SQLITE_LOCK_EXCLUSIVE)].

Definition SQLITE_SYNC_NORMAL : Z := 2.
Definition SQLITE_SYNC_FULL : Z := 3.
Definition SQLITE_SYNC_DATAONLY : Z := 16.
Definition h_consts_SQLITE_SYNC_NORMAL : list (string * Z) :=
  [("SQLITE_SYNC_NORMAL", SQLITE_SYNC_NORMAL);
   ("SQLITE_SYNC_FULL", SQLITE_SYNC_FULL);
   ("SQLITE_SYNC_DATAONLY", SQLITE_SYNC_DATAONLY)].

Definition SQLITE_FCNTL_LOCKSTATE : Z := 1.
Definition SQLITE_FCNTL_GET_LOCKPROXYFILE : Z := 2.
Definition SQLITE_FCNTL_SET_LOCKPROXYFILE : Z := 3.
Definition SQLITE_FCNTL_LAST_ERRNO : Z := 4.
Definition SQLITE_FCNTL_SIZE_HINT : Z := 5.
Definition SQLITE_FCNTL_CHUNK_SIZE : Z := 6.
Definition SQLITE_FCNTL_FILE_POINTER : Z := 7.
Definition SQLITE_FCNTL_SYNC_OMITTED : Z := 8.
Definition SQLITE_FCNTL_WIN32_AV_RETRY : Z := 9.
Definition SQLITE_FCNTL_PERSIST_WAL : Z := 10.
Definition SQLITE_FCNTL_OVERWRITE : Z := 11.
Definition SQLITE_FCNTL_VFSNAME : Z := 12.
Definition SQLITE_FCNTL_POWERSAFE_OVERWRITE : Z := 13.
Definition SQLITE_FCNTL_PRAGMA : Z := 14.
Definition SQLITE_FCNTL_BUSYHANDLER : Z := 15.
Definition SQLITE_FCNTL_TEMPFILENAME : Z := 16.
Definition SQLITE_FCNTL_MMAP_SIZE : Z := 18.
Definition SQLITE_FCNTL_TRACE : Z := 19.
Definition SQLITE_FCNTL_HAS_MOVED : Z := 20.
Definition SQLITE_FCNTL_SYNC : Z := 21.
Definition SQLITE_FCNTL_COMMIT_PHASETWO : Z := 22.
Definition SQLITE_FCNTL_WIN32_SET_HANDLE : Z := 23.
Definition SQLITE_FCNTL_WAL_BLOCK : Z := 24.
Definition SQLITE_FCNTL_ZIPVFS : Z := 25.
Definition SQLITE_FCNTL_RBU : Z := 26.
Definition SQLITE_FCNTL_VFS_POINTER : Z := 27.
Definition SQLITE_FCNTL_JOURNAL_POINTER : Z := 28.
Definition SQLITE_FCNTL_WIN32_GET_HANDLE : Z := 29.
Definition SQLITE_FCNTL_PDB : Z := 30.
Definition SQLITE_FCNTL_BEGIN_ATOMIC_WRITE : Z := 31.
Definition SQLITE_FCNTL_COMMIT_ATOMIC_WRITE : Z := 32.
Definition SQLITE_FCNTL_ROLLBACK_ATOMIC_WRITE : Z := 33.
Definition SQLITE_FCNTL_LOCK_TIMEOUT : Z := 34.
Definition SQLITE_FCNTL_DATA_VERSION : Z := 35.
Definition SQLITE_FCNTL_SIZE_LIMIT : Z := 36.
Definition SQLITE_FCNTL_CKPT_DONE : Z := 37.
Definition SQLITE_FCNTL_RESERVE_BYTES : Z := 38.
Definition SQLITE_FCNTL_CKPT_START : Z := 39.
Definition SQLITE_FCNTL_EXTERNAL_READER : Z := 40.
Definition SQLITE_FCNTL_CKSM_FILE : Z := 41.
Definition SQLITE_FCNTL_RESET_CACHE : Z := 42.
Definition SQLITE_FCNTL_NULL_IO : Z := 43.
Definition SQLITE_FCNTL_BLOCK_ON_CONNECT : Z := 44.
Definition SQLITE_GET_LOCKPROXYFILE : Z := SQLITE_FCNTL_GET_LOCKPROXYFILE.
Definition SQLITE_SET_LOCKPROXYFILE : Z := SQLITE_FCNTL_SET_LOCKPROXYFILE.
Definition SQLITE_LAST_ERRNO : Z := SQLITE_FCNTL_LAST_ERRNO.
Definition h_consts_SQLITE_FCNTL_LOCKSTATE : list (string * Z) :=
  [("SQLITE_FCNTL_LOCKSTATE", SQLITE_FCNTL_LOCKSTATE);
   ("SQLITE_FCNTL_GET_LOCKPROXYFILE", SQLITE_FCNTL_GET_LOCKPROXYFILE);
   ("SQLITE_FCNTL_SET_LOCKPROXYFILE", SQLITE_FCNTL_SET_LOCKPROXYFILE);
   ("SQLITE_FCNTL_LAST_ERRNO", SQLITE_FCNTL_LAST_ERRNO);
   ("SQLITE_FCNTL_SIZE_HINT", SQLITE_FCNTL_SIZE_HINT);
   ("SQLITE_FCNTL_CHUNK_SIZE", SQLITE_FCNTL_CHUNK_SIZE);
   ("SQLITE_FCNTL_FILE_POINTER", SQLITE_FCNTL_FILE_POINTER);
   ("SQLITE_FCNTL_SYNC_OMITTED", SQLITE_FCNTL_SYNC_OMITTED);
   ("SQLITE_FCNTL_WIN32_AV_RETRY", SQLITE_FCNTL_WIN32_AV_RETRY);
   ("SQLITE_FCNTL_PERSIST_WAL", SQLITE_FCNTL_PERSIST_WAL);
   ("SQLITE_FCNTL_OVERWRITE", SQLITE_FCNTL_OVERWRITE);
   ("SQLITE_FCNTL_VFSNAME", SQLITE_FCNTL_VFSNAME);
   ("SQLITE_FCNTL_POWERSAFE_OVERWRITE", SQLITE_FCNTL_POWERSAFE_OVERWRITE);
   ("SQLITE_FCNTL_PRAGMA", SQLITE_FCNTL_PRAGMA);
   ("SQLITE_FCNTL_BUSYHANDLER", SQLITE_FCNTL_BUSYHANDLER);
   ("SQLITE_FCNTL_TEMPFILENAME", SQLITE_FCNTL_TEMPFILENAME);
   ("SQLITE_FCNTL_MMAP_SIZE", SQLITE_FCNTL_MMAP_SIZE);
   ("SQLITE_FCNTL_TRACE", SQLITE_FCNTL_TRACE);
   ("SQLITE_FCNTL_HAS_MOVED", SQLITE_FCNTL_HAS_MOVED);
   ("SQLITE_FCNTL_SYNC", SQLITE_FCNTL_SYNC);
   ("SQLITE_FCNTL_COMMIT_PHASETWO", SQLITE_FCNTL_COMMIT_PHASETWO);
   ("SQLITE_FCNTL_WIN32_SET_HANDLE", SQLITE_FCNTL_WIN32_SET_HANDLE);
   ("SQLITE_FCNTL_WAL_BLOCK", SQLITE_FCNTL_WAL_BLOCK);
   ("SQLITE_FCNTL_ZIPVFS", SQLITE_FCNTL_ZIPVFS);
   ("SQLITE_FCNTL_RBU", SQLITE_FCNTL_RBU);
   ("SQLITE_FCNTL_VFS_POINTER", SQLITE_FCNTL_VFS_POINTER);
   ("SQLITE_FCNTL_JOURNAL_POINTER", SQLITE_FCNTL_JOURNAL_POINTER);
   ("SQLITE_FCNTL_WIN32_GET_HANDLE", SQLITE_FCNTL_WIN32_GET_HANDLE);
   ("SQLITE_FCNTL_PDB", SQLITE_FCNTL_PDB);
   ("SQLITE_FCNTL_BEGIN_ATOMIC_WRITE", SQLITE_FCNTL_BEGIN_ATOMIC_WRITE);
   ("SQLITE_FCNTL_COMMIT_ATOMIC_WRITE", SQLITE_FCNTL_COMMIT_ATOMIC_WRITE);
   ("SQLITE_FCNTL_ROLLBACK_ATOMIC_WRITE", SQLITE_FCNTL_ROLLBACK_ATOMIC_WRITE);
   ("SQLITE_FCNTL_LOCK_TIMEOUT", SQLITE_FCNTL_LOCK_TIMEOUT);
   ("SQLITE_FCNTL_DATA_VERSION", SQLITE_FCNTL_DATA_VERSION);
   ("SQLITE_FCNTL_SIZE_LIMIT", SQLITE_FCNTL_SIZE_LIMIT);
   ("SQLITE_FCNTL_CKPT_DONE", SQLITE_FCNTL_CKPT_DONE);
   ("SQLITE_FCNTL_RESERVE_BYTES", SQLITE_FCNTL_RESERVE_BYTES);
   ("SQLITE_FCNTL_CKPT_START", SQLITE_FCNTL_CKPT_START);
   ("SQLITE_FCNTL_EXTERNAL_READER", SQLITE_FCNTL_EXTERNAL_READER);
   ("SQLITE_FCNTL_CKSM_FILE", SQLITE_FCNTL_CKSM_FILE);
   ("SQLITE_FCNTL_RESET_CACHE", SQLITE_FCNTL_RESET_CACHE);
   ("SQLITE_FCNTL_NULL_IO", SQLITE_FCNTL_NULL_IO);
   ("SQLITE_FCNTL_BLOCK_ON_CONNECT", SQLITE_FCNTL_BLOCK_ON_CONNECT);
   ("SQLITE_GET_LOCKPROXYFILE", SQLITE_GET_LOCKPROXYFILE);
   ("SQLITE_SET_LOCKPROXYFILE", SQLITE_SET_LOCKPROXYFILE);
   ("SQLITE_LAST_ERRNO", SQLITE_LAST_ERRNO)].

Definition SQLITE_ACCESS_EXISTS : Z := 0.
Definition SQLITE_ACCESS_READWRITE : Z := 1.
Definition SQLITE_ACCESS_READ : Z := 2.
Definition h_consts_SQLITE_ACCESS_EXISTS : list (string * Z) :=
  [("SQLITE_ACCESS_EXISTS", SQLITE_ACCESS_EXISTS);
   ("SQLITE_ACCESS_READWRITE", SQLITE_ACCESS_READWRITE);
   ("SQLITE_ACCESS_READ", SQLITE_ACCESS_READ)].

Definition SQLITE_SHM_UNLOCK : Z := 1.
Definition SQLITE_SHM_LOCK : Z := 2.
Definition SQLITE_SHM_SHARED : Z := 4.
Definition SQLITE_SHM_EXCLUSIVE : Z := 8.
Definition h_consts_SQLITE_SHM_UNLOCK : list (string * Z) :=
  [("SQLITE_SHM_UNLOCK", SQLITE_SHM_UNLOCK);
   ("SQLITE_SHM_LOCK", SQLITE_SHM_LOCK);
   ("SQLITE_SHM_SHARED", SQLITE_SHM_SHARED);
   ("SQLITE_SHM_EXCLUSIVE", SQLITE_SHM_EXCLUSIVE)].

Definition SQLITE_SHM_NLOCK : Z := 8.
Definition h_consts_SQLITE_SHM_NLOCK : list (string * Z) :=
  [("SQLITE_SHM_NLOCK", SQLITE_SHM_NLOCK)].

Definition SQLITE_CONFIG_SINGLETHREAD : Z := 1.
Definition SQLITE_CONFIG_MULTITHREAD : Z := 2.
Definition SQLITE_CONFIG_SERIALIZED : Z := 3.
Definition SQLITE_CONFIG_MALLOC : Z := 4.
Definition SQLITE_CONFIG_GETMALLOC : Z := 5.
Definition SQLITE_CONFIG_SCRATCH : Z := 6.
Definition SQLITE_CONFIG_PAGECACHE : Z := 7.
Definition SQLITE_CONFIG_HEAP : Z := 8.
Definition SQLITE_CONFIG_MEMSTATUS : Z := 9.
Definition SQLITE_CONFIG_MUTEX : Z := 10.
Definition SQLITE_CONFIG_GETMUTEX : Z := 11.
Definition SQLITE_CONFIG_LOOKASIDE : Z := 13.
Definition SQLITE_CONFIG_PCACHE : Z := 14.
Definition SQLITE_CONFIG_GETPCACHE : Z := 15.
Definition SQLITE_CONFIG_LOG : Z := 16.
Definition SQLITE_CONFIG_URI : Z := 17.
Definition SQLITE_CONFIG_PCACHE2 : Z := 18.
Definition SQLITE_CONFIG_GETPCACHE2 : Z := 19.
Definition SQLITE_CONFIG_COVERING_INDEX_SCAN : Z := 20.
Definition SQLITE_CONFIG_SQLLOG : Z := 21.
Definition SQLITE_CONFIG_MMAP_SIZE : Z := 22.
Definition SQLITE_CONFIG_WIN32_HEAPSIZE : Z := 23.
Definition SQLITE_CONFIG_PCACHE_HDRSZ : Z := 24.
Definition SQLITE_CONFIG_PMASZ : Z := 25.
Definition SQLITE_CONFIG_STMTJRNL_SPILL : Z := 26.
Definition SQLITE_CONFIG_SMALL_MALLOC : Z := 27.
Definition SQLITE_CONFIG_SORTERREF_SIZE : Z := 28.
Definition SQLITE_CONFIG_MEMDB_MAXSIZE : Z := 29.
Definition SQLITE_CONFIG_ROWID_IN_VIEW : Z := 30.
Definition h_consts_SQLITE_CONFIG_SINGLETHREAD : list (string * Z) :=
  [("SQLITE_CONFIG_SINGLETHREAD", SQLITE_CONFIG_SINGLETHREAD);
   ("SQLITE_CONFIG_MULTITHREAD", SQLITE_CONFIG_MULTITHREAD);
   ("SQLITE_CONFIG_SERIALIZED", SQLITE_CONFIG_SERIALIZED);
   ("SQLITE_CONFIG_MALLOC", SQLITE_CONFIG_MALLOC);
   ("SQLITE_CONFIG_GETMALLOC", SQLITE_CONFIG_GETMALLOC);
   ("SQLITE_CONFIG_SCRATCH", SQLITE_CONFIG_SCRATCH);
   ("SQLITE_CONFIG_PAGECACHE", SQLITE_CONFIG_PAGECACHE);
   ("SQLITE_CONFIG_HEAP", SQLITE_CONFIG_HEAP);
   ("SQLITE_CONFIG_MEMSTATUS", SQLITE_CONFIG_MEMSTATUS);
   ("SQLITE_CONFIG_MUTEX", SQLITE_CONFIG_MUTEX);
   ("SQLITE_CONFIG_GETMUTEX", SQLITE_CONFIG_GETMUTEX);
   ("SQLITE_CONFIG_LOOKASIDE", SQLITE_CONFIG_LOOKASIDE);
   ("SQLITE_CONFIG_PCACHE", SQLITE_CONFIG_PCACHE);
   ("SQLITE_CONFIG_GETPCACHE", SQLITE_CONFIG_GETPCACHE);
   ("SQLITE_CONFIG_LOG", SQLITE_CONFIG_LOG);
   ("SQLITE_CONFIG_URI", SQLITE_CONFIG_URI);
   ("SQLITE_CONFIG_PCACHE2", SQLITE_CONFIG_PCACHE2);
   ("SQLITE_CONFIG_GETPCACHE2", SQLITE_CONFIG_GETPCACHE2);
   ("SQLITE_CONFIG_COVERING_INDEX_SCAN", SQLITE_CONFIG_COVERING_INDEX_SCAN);
   ("SQLITE_CONFIG_SQLLOG", SQLITE_CONFIG_SQLLOG);
   ("SQLITE_CONFIG_MMAP_SIZE", SQLITE_CONFIG_MMAP_SIZE);
   ("SQLITE_CONFIG_WIN32_HEAPSIZE", SQLITE_CONFIG_WIN32_HEAPSIZE);
   ("SQLITE_CONFIG_PCACHE_HDRSZ", SQLITE_CONFIG_PCACHE_HDRSZ);
   ("SQLITE_CONFIG_PMASZ", SQLITE_CONFIG_PMASZ);
   ("SQLITE_CONFIG_STMTJRNL_SPILL", SQLITE_CONFIG_STMTJRNL_SPILL);
   ("SQLITE_CONFIG_SMALL_MALLOC", SQLITE_CONFIG_SMALL_MALLOC);
   ("SQLITE_CONFIG_SORTERREF_SIZE", SQLITE_CONFIG_SORTERREF_SIZE);
   ("SQLITE_CONFIG_MEMDB_MAXSIZE", SQLITE_CONFIG_MEMDB_MAXSIZE);
   ("SQLITE_CONFIG_ROWID_IN_VIEW", SQLITE_CONFIG_ROWID_IN_VIEW)].

Definition SQLITE_DBCONFIG_MAINDBNAME : Z := 1000.
Definition SQLITE_DBCONFIG_LOOKASIDE : Z := 1001.
Definition SQLITE_DBCONFIG_ENABLE_FKEY : Z := 1002.
Definition SQLITE_DBCONFIG_ENABLE_TRIGGER : Z := 1003.
Definition SQLITE_DBCONFIG_ENABLE_FTS3_TOKENIZER : Z := 1004.
Definition SQLITE_DBCONFIG_ENABLE_LOAD_EXTENSION : Z := 1005.
Definition SQLITE_DBCONFIG_NO_CKPT_ON_CLOSE : Z := 1006.
Definition SQLITE_DBCONFIG_ENABLE_QPSG : Z := 1007.
Definition SQLITE_DBCONFIG_TRIGGER_EQP : Z := 1008.
Definition SQLITE_DBCONFIG_RESET_DATABASE : Z := 1009.
Definition SQLITE_DBCONFIG_DEFENSIVE : Z := 1010.
Definition SQLITE_DBCONFIG_WRITABLE_SCHEMA : Z := 1011.
Definition SQLITE_DBCONFIG_LEGACY_ALTER_TABLE : Z := 1012.
Definition SQLITE_DBCONFIG_DQS_DML : Z := 1013.
Definition SQLITE_DBCONFIG_DQS_DDL : Z := 1014.
Definition SQLITE_DBCONFIG_ENABLE_VIEW : Z := 1015.
Definition SQLITE_DBCONFIG_LEGACY_FILE_FORMAT : Z := 1016.
Definition SQLITE_DBCONFIG_TRUSTED_SCHEMA : Z := 1017.
Definition SQLITE_DBCONFIG_STMT_SCANSTATUS : Z := 1018.
Definition SQLITE_DBCONFIG_REVERSE_SCANORDER : Z := 1019.
Definition SQLITE_DBCONFIG_ENABLE_ATTACH_CREATE : Z := 1020.
Definition SQLITE_DBCONFIG_ENABLE_ATTACH_WRITE : Z := 1021.
Definition SQLITE_DBCONFIG_ENABLE_COMMENTS : Z := 1022.
Definition SQLITE_DBCONFIG_MAX : Z := 1022.
Definition h_consts_SQLITE_DBCONFIG_MAINDBNAME : list (string * Z) :=
  [("SQLITE_DBCONFIG_MAINDBNAME", SQLITE_DBCONFIG_MAINDBNAME);
   ("SQLITE_DBCONFIG_LOOKASIDE", SQLITE_DBCONFIG_LOOKASIDE);
   ("SQLITE_DBCONFIG_ENABLE_FKEY", SQLITE_DBCONFIG_ENABLE_FKEY);
   ("SQLITE_DBCONFIG_ENABLE_TRIGGER", SQLITE_DBCONFIG_ENABLE_TRIGGER);
   ("SQLITE_DBCONFIG_ENABLE_FTS3_TOKENIZER", SQLITE_DBCONFIG_ENABLE_FTS3_TOKENIZER);
   ("SQLITE_DBCONFIG_ENABLE_LOAD_EXTENSION", SQLITE_DBCONFIG_ENABLE_LOAD_EXTENSION);
   ("SQLITE_DBCONFIG_NO_CKPT_ON_CLOSE", SQLITE_DBCONFIG_NO_CKPT_ON_CLOSE);
   ("SQLITE_DBCONFIG_ENABLE_QPSG", SQLITE_DBCONFIG_ENABLE_QPSG);
   ("SQLITE_DBCONFIG_TRIGGER_EQP", SQLITE_DBCONFIG_TRIGGER_EQP);
   ("SQLITE_DBCONFIG_RESET_DATABASE", SQLITE_DBCONFIG_RESET_DATABASE);
   ("SQLITE_DBCONFIG_DEFENSIVE", SQLITE_DBCONFIG_DEFENSIVE);
   ("SQLITE_DBCONFIG_WRITABLE_SCHEMA", SQLITE_DBCONFIG_WRITABLE_SCHEMA);
   ("SQLITE_DBCONFIG_LEGACY_ALTER_TABLE", SQLITE_DBCONFIG_LEGACY_ALTER_TABLE);
   ("SQLITE_DBCONFIG_DQS_DML", SQLITE_DBCONFIG_DQS_DML);
   ("SQLITE_DBCONFIG_DQS_DDL", SQLITE_DBCONFIG_DQS_DDL);
   ("SQLITE_DBCONFIG_ENABLE_VIEW", SQLITE_DBCONFIG_ENABLE_VIEW);
   ("SQLITE_DBCONFIG_LEGACY_FILE_FORMAT", SQLITE_DBCONFIG_LEGACY_FILE_FORMAT);
   ("SQLITE_DBCONFIG_TRUSTED_SCHEMA", SQLITE_DBCONFIG_TRUSTED_SCHEMA);
   ("SQLITE_DBCONFIG_STMT_SCANSTATUS", SQLITE_DBCONFIG_STMT_SCANSTATUS);
   ("SQLITE_DBCONFIG_REVERSE_SCANORDER", SQLITE_DBCONFIG_REVERSE_SCANORDER);
   ("SQLITE_DBCONFIG_ENABLE_ATTACH_CREATE", SQLITE_DBCONFIG_ENABLE_ATTACH_CREATE);
   ("SQLITE_DBCONFIG_ENABLE_ATTACH_WRITE", SQLITE_DBCONFIG_ENABLE_ATTACH_WRITE);
   ("SQLITE_DBCONFIG_ENABLE_COMMENTS", SQLITE_DBCONFIG_ENABLE_COMMENTS);
   ("SQLITE_DBCONFIG_MAX", SQLITE_DBCONFIG_MAX)].

Definition SQLITE_SETLK_BLOCK_ON_CONNECT : Z := 1.
Definition h_consts_SQLITE_SETLK_BLOCK_ON_CONNECT : list (string * Z) :=
  [("SQLITE_SETLK_BLOCK_ON_CONNECT", SQLITE_SETLK_BLOCK_ON_CONNECT)].

Definition SQLITE_DENY : Z := 1.
Definition SQLITE_IGNORE : Z := 2.
Definition h_consts_SQLITE_DENY : list (string * Z) :=
  [("SQLITE_DENY", SQLITE_DENY);
   ("SQLITE_IGNORE", SQLITE_IGNORE)].

Definition SQLITE_CREATE_INDEX : Z := 1.
Definition SQLITE_CREATE_TABLE : Z := 2.
Definition SQLITE_CREATE_TEMP_INDEX : Z := 3.
Definition SQLITE_CREATE_TEMP_TABLE : Z := 4.
Definition SQLITE_CREATE_TEMP_TRIGGER : Z := 5.
Definition SQLITE_CREATE_TEMP_VIEW : Z := 6.
Definition SQLITE_CREATE_TRIGGER : Z := 7.
Definition SQLITE_CREATE_VIEW : Z := 8.
Definition SQLITE_DELETE : Z := 9.
Definition SQLITE_DROP_INDEX : Z := 10.
Definition SQLITE_DROP_TABLE : Z := 11.
Definition SQLITE_DROP_TEMP_INDEX : Z := 12.
Definition SQLITE_DROP_TEMP_TABLE : Z := 13.
Definition SQLITE_DROP_TEMP_TRIGGER : Z := 14.
Definition SQLITE_DROP_TEMP_VIEW : Z := 15.
Definition SQLITE_DROP_TRIGGER : Z := 16.
Definition SQLITE_DROP_VIEW : Z := 17.
Definition SQLITE_INSERT : Z := 18.
Definition SQLITE_PRAGMA : Z := 19.
Definition SQLITE_READ : Z := 20.
Definition SQLITE_SELECT : Z := 21.
Definition SQLITE_TRANSACTION : Z := 22.
Definition SQLITE_UPDATE : Z := 23.
Definition SQLITE_ATTACH : Z := 24.
Definition SQLITE_DETACH : Z := 25.
Definition SQLITE_ALTER_TABLE : Z := 26.
Definition SQLITE_REINDEX : Z := 27.
Definition SQLITE_ANALYZE : Z := 28.
Definition SQLITE_CREATE_VTABLE : Z := 29.
Definition SQLITE_DROP_VTABLE : Z := 30.
Definition SQLITE_FUNCTION : Z := 31.
Definition SQLITE_SAVEPOINT : Z := 32.
Definition SQLITE_COPY : Z := 0.
Definition SQLITE_RECURSIVE : Z := 33.
Definition h_consts_SQLITE_CREATE_INDEX : list (string * Z) :=
  [("SQLITE_CREATE_INDEX", SQLITE_CREATE_INDEX);
   ("SQLITE_CREATE_TABLE", SQLITE_CREATE_TABLE);
   ("SQLITE_CREATE_TEMP_INDEX", SQLITE_CREATE_TEMP_INDEX);
   ("SQLITE_CREATE_TEMP_TABLE", SQLITE_CREATE_TEMP_TABLE);
   ("SQLITE_CREATE_TEMP_TRIGGER", SQLITE_CREATE_TEMP_TRIGGER);
   ("SQLITE_CREATE_TEMP_VIEW", SQLITE_CREATE_TEMP_VIEW);
   ("SQLITE_CREATE_TRIGGER", SQLITE_CREATE_TRIGGER);
   ("SQLITE_CREATE_VIEW", SQLITE_CREATE_VIEW);
   ("SQLITE_DELETE", SQLITE_DELETE);
   ("SQLITE_DROP_INDEX", SQLITE_DROP_INDEX);
   ("SQLITE_DROP_TABLE", SQLITE_DROP_TABLE);
   ("SQLITE_DROP_TEMP_INDEX", SQLITE_DROP_TEMP_INDEX);
   ("SQLITE_DROP_TEMP_TABLE", SQLITE_DROP_TEMP_TABLE);
   ("SQLITE_DROP_TEMP_TRIGGER", SQLITE_DROP_TEMP_TRIGGER);
   ("SQLITE_DROP_TEMP_VIEW", SQLITE_DROP_TEMP_VIEW);
   ("SQLITE_DROP_TRIGGER", SQLITE_DROP_TRIGGER);
   ("SQLITE_DROP_VIEW", SQLITE_DROP_VIEW);
   ("SQLITE_INSERT", SQLITE_INSERT);
   ("SQLITE_PRAGMA", SQLITE_PRAGMA);
   ("SQLITE_READ", SQLITE_READ);
   ("SQLITE_SELECT", SQLITE_SELECT);
   ("SQLITE_TRANSACTION", SQLITE_TRANSACTION);
   ("SQLITE_UPDATE", SQLITE_UPDATE);
   ("SQLITE_ATTACH", SQLITE_ATTACH);
   ("SQLITE_DETACH", SQLITE_DETACH);
   ("SQLITE_ALTER_TABLE", SQLITE_ALTER_TABLE);
   ("SQLITE_REINDEX", SQLITE_REINDEX);
   ("SQLITE_ANALYZE", SQLITE_ANALYZE);
   ("SQLITE_CREATE_VTABLE", SQLITE_CREATE_VTABLE);
   ("SQLITE_DROP_VTABLE", SQLITE_DROP_VTABLE);
   ("SQLITE_FUNCTION", SQLITE_FUNCTION);
   ("SQLITE_SAVEPOINT", SQLITE_SAVEPOINT);
   ("SQLITE_COPY", SQLITE_COPY);
   ("SQLITE_RECURSIVE", SQLITE_RECURSIVE)].

Definition SQLITE_TRACE_STMT : Z := 1.
Definition SQLITE_TRACE_PROFILE : Z := 2.
Definition SQLITE_TRACE_ROW : Z := 4.
Definition SQLITE_TRACE_CLOSE : Z := 8.
Definition h_consts_SQLITE_TRACE_STMT : list (string * Z) :=
  [("SQLITE_TRACE_STMT", SQLITE_TRACE_STMT);
   ("SQLITE_TRACE_PROFILE", SQLITE_TRACE_PROFILE);
   ("SQLITE_TRACE_ROW", SQLITE_TRACE_ROW);
   ("SQLITE_TRACE_CLOSE", SQLITE_TRACE_CLOSE)].

Definition SQLITE_LIMIT_LENGTH : Z := 0.
Definition SQLITE_LIMIT_SQL_LENGTH : Z := 1.
Definition SQLITE_LIMIT_COLUMN : Z := 2.
Definition SQLITE_LIMIT_EXPR_DEPTH : Z := 3.
Definition SQLITE_LIMIT_COMPOUND_SELECT : Z := 4.
Definition SQLITE_LIMIT_VDBE_OP : Z := 5.
Definition SQLITE_LIMIT_FUNCTION_ARG : Z := 6.
Definition SQLITE_LIMIT_ATTACHED : Z := 7.
Definition SQLITE_LIMIT_LIKE_PATTERN_LENGTH : Z := 8.
Definition SQLITE_LIMIT_VARIABLE_NUMBER : Z := 9.
Definition SQLITE_LIMIT_TRIGGER_DEPTH : Z := 10.
Definition SQLITE_LIMIT_WORKER_THREADS : Z := 11.
Definition h_consts_SQLITE_LIMIT_LENGTH : list (string * Z) :=
  [("SQLITE_LIMIT_LENGTH", SQLITE_LIMIT_LENGTH);
   ("SQLITE_LIMIT_SQL_LENGTH", SQLITE_LIMIT_SQL_LENGTH);
   ("SQLITE_LIMIT_COLUMN", SQLITE_LIMIT_COLUMN);
   ("SQLITE_LIMIT_EXPR_DEPTH", SQLITE_LIMIT_EXPR_DEPTH);
   ("SQLITE_LIMIT_COMPOUND_SELECT", SQLITE_LIMIT_COMPOUND_SELECT);
   ("SQLITE_LIMIT_VDBE_OP", SQLITE_LIMIT_VDBE_OP);
   ("SQLITE_LIMIT_FUNCTION_ARG", SQLITE_LIMIT_FUNCTION_ARG);
   ("SQLITE_LIMIT_ATTACHED", SQLITE_LIMIT_ATTACHED);
   ("SQLITE_LIMIT_LIKE_PATTERN_LENGTH", SQLITE_LIMIT_LIKE_PATTERN_LENGTH);
   ("SQLITE_LIMIT_VARIABLE_NUMBER", SQLITE_LIMIT_VARIABLE_NUMBER);
   ("SQLITE_LIMIT_TRIGGER_DEPTH", SQLITE_LIMIT_TRIGGER_DEPTH);
   ("SQLITE_LIMIT_WORKER_THREADS", SQLITE_LIMIT_WORKER_THREADS)].

Definition SQLITE_PREPARE_PERSISTENT : Z := 1.
Definition SQLITE_PREPARE_NORMALIZE : Z := 2.
Definition SQLITE_PREPARE_NO_VTAB : Z := 4.
Definition SQLITE_PREPARE_DONT_LOG : Z := 16.
Definition h_consts_SQLITE_PREPARE_PERSISTENT : list (string * Z) :=
  [("SQLITE_PREPARE_PERSISTENT", SQLITE_PREPARE_PERSISTENT);
   ("SQLITE_PREPARE_NORMALIZE", SQLITE_PREPARE_NORMALIZE);
   ("SQLITE_PREPARE_NO_VTAB", SQLITE_PREPARE_NO_VTAB);
   ("SQLITE_PREPARE_DONT_LOG", SQLITE_PREPARE_DONT_LOG)].

Definition SQLITE_INTEGER : Z := 1.
Definition SQLITE_FLOAT : Z := 2.
Definition SQLITE_BLOB : Z := 4.
Definition SQLITE_NULL : Z := 5.
Definition h_consts_SQLITE_INTEGER : list (string * Z) :=
  [("SQLITE_INTEGER", SQLITE_INTEGER);
   ("SQLITE_FLOAT", SQLITE_FLOAT);
   ("SQLITE_BLOB", SQLITE_BLOB);
   ("SQLITE_NULL", SQLITE_NULL)].

Definition SQLITE_UTF8 : Z := 1.
Definition SQLITE_UTF16LE : Z := 2.
Definition SQLITE_UTF16BE : Z := 3.
Definition SQLITE_UTF16 : Z := 4.
Definition SQLITE_ANY : Z := 5.
Definition SQLITE_UTF16_ALIGNED : Z := 8.
Definition h_consts_SQLITE_UTF8 : list (string * Z) :=
  [("SQLITE_UTF8", SQLITE_UTF8);
   ("SQLITE_UTF16LE", SQLITE_UTF16LE);
   ("SQLITE_UTF16BE", SQLITE_UTF16BE);
   ("SQLITE_UTF16", SQLITE_UTF16);
   ("SQLITE_ANY", SQLITE_ANY);
   ("SQLITE_UTF16_ALIGNED", SQLITE_UTF16_ALIGNED)].

Definition SQLITE_DETERMINISTIC : Z := 2048.
Definition SQLITE_DIRECTONLY : Z := 524288.
Definition SQLITE_SUBTYPE : Z := 1048576.
Definition SQLITE_INNOCUOUS : Z := 2097152.
Definition SQLITE_RESULT_SUBTYPE : Z := 16777216.
Definition SQLITE_SELFORDER1 : Z := 33554432.
Definition h_consts_SQLITE_DETERMINISTIC : list (string * Z) :=
  [("SQLITE_DETERMINISTIC", SQLITE_DETERMINISTIC);
   ("SQLITE_DIRECTONLY", SQLITE_DIRECTONLY);
   ("SQLITE_SUBTYPE", SQLITE_SUBTYPE);
   ("SQLITE_INNOCUOUS", SQLITE_INNOCUOUS);
   ("SQLITE_RESULT_SUBTYPE", SQLITE_RESULT_SUBTYPE);
   ("SQLITE_SELFORDER1", SQLITE_SELFORDER1)].

Definition SQLITE_WIN32_DATA_DIRECTORY_TYPE : Z := 1.
Definition SQLITE_WIN32_TEMP_DIRECTORY_TYPE : Z := 2.
Definition h_consts_SQLITE_WIN32_DATA_DIRECTORY_TYPE : list (string * Z) :=
  [("SQLITE_WIN32_DATA_DIRECTORY_TYPE", SQLITE_WIN32_DATA_DIRECTORY_TYPE);
   ("SQLITE_WIN32_TEMP_DIRECTORY_TYPE", SQLITE_WIN32_TEMP_DIRECTORY_TYPE)].

Definition SQLITE_TXN_NONE : Z := 0.
Definition SQLITE_TXN_READ : Z := 1.
Definition SQLITE_TXN_WRITE : Z := 2.
Definition h_consts_SQLITE_TXN_NONE : list (string * Z) :=
  [("SQLITE_TXN_NONE", SQLITE_TXN_NONE);
   ("SQLITE_TXN_READ", SQLITE_TXN_READ);
   ("SQLITE_TXN_WRITE", SQLITE_TXN_WRITE)].

Definition SQLITE_INDEX_SCAN_UNIQUE : Z := 1.
Definition SQLITE_INDEX_SCAN_HEX : Z := 2.
Definition h_consts_SQLITE_INDEX_SCAN_UNIQUE : list (string * Z) :=
  [("SQLITE_INDEX_SCAN_UNIQUE", SQLITE_INDEX_SCAN_UNIQUE);
   ("SQLITE_INDEX_SCAN_HEX", SQLITE_INDEX_SCAN_HEX)].

Definition SQLITE_INDEX_CONSTRAINT_EQ : Z := 2.
Definition SQLITE_INDEX_CONSTRAINT_GT : Z := 4.
Definition SQLITE_INDEX_CONSTRAINT_LE : Z := 8.
Definition SQLITE_INDEX_CONSTRAINT_LT : Z := 16.
Definition SQLITE_INDEX_CONSTRAINT_GE : Z := 32.
Definition SQLITE_INDEX_CONSTRAINT_MATCH : Z := 64.
Definition SQLITE_INDEX_CONSTRAINT_LIKE : Z := 65.
Definition SQLITE_INDEX_CONSTRAINT_GLOB : Z := 66.
Definition SQLITE_INDEX_CONSTRAINT_REGEXP : Z := 67.
Definition SQLITE_INDEX_CONSTRAINT_NE : Z := 68.
Definition SQLITE_INDEX_CONSTRAINT_ISNOT : Z := 69.
Definition SQLITE_INDEX_CONSTRAINT_ISNOTNULL : Z := 70.
Definition SQLITE_INDEX_CONSTRAINT_ISNULL : Z := 71.
Definition SQLITE_INDEX_CONSTRAINT_IS : Z := 72.
Definition SQLITE_INDEX_CONSTRAINT_LIMIT : Z := 73.
Definition SQLITE_INDEX_CONSTRAINT_OFFSET : Z := 74.
Definition SQLITE_INDEX_CONSTRAINT_FUNCTION : Z := 150.
Definition h_consts_SQLITE_INDEX_CONSTRAINT_EQ : list (string * Z) :=
  [("SQLITE_INDEX_CONSTRAINT_EQ", SQLITE_INDEX_CONSTRAINT_EQ);
   ("SQLITE_INDEX_CONSTRAINT_GT", SQLITE_INDEX_CONSTRAINT_GT);
   ("SQLITE_INDEX_CONSTRAINT_LE", SQLITE_INDEX_CONSTRAINT_LE);
   ("SQLITE_INDEX_CONSTRAINT_LT", SQLITE_INDEX_CONSTRAINT_LT);
   ("SQLITE_INDEX_CONSTRAINT_GE", SQLITE_INDEX_CONSTRAINT_GE);
   ("SQLITE_INDEX_CONSTRAINT_MATCH", SQLITE_INDEX_CONSTRAINT_MATCH);
   ("SQLITE_INDEX_CONSTRAINT_LIKE", SQLITE_INDEX_CONSTRAINT_LIKE);
   ("SQLITE_INDEX_CONSTRAINT_GLOB", SQLITE_INDEX_CONSTRAINT_GLOB);
   ("SQLITE_INDEX_CONSTRAINT_REGEXP", SQLITE_INDEX_CONSTRAINT_REGEXP);
   ("SQLITE_INDEX_CONSTRAINT_NE", SQLITE_INDEX_CONSTRAINT_NE);
   ("SQLITE_INDEX_CONSTRAINT_ISNOT", SQLITE_INDEX_CONSTRAINT_ISNOT);
   ("SQLITE_INDEX_CONSTRAINT_ISNOTNULL", SQLITE_INDEX_CONSTRAINT_ISNOTNULL);
   ("SQLITE_INDEX_CONSTRAINT_ISNULL", SQLITE_INDEX_CONSTRAINT_ISNULL);
   ("SQLITE_INDEX_CONSTRAINT_IS", SQLITE_INDEX_CONSTRAINT_IS);
   ("SQLITE_INDEX_CONSTRAINT_LIMIT", SQLITE_INDEX_CONSTRAINT_LIMIT);
   ("SQLITE_INDEX_CONSTRAINT_OFFSET", SQLITE_INDEX_CONSTRAINT_OFFSET);
   ("SQLITE_INDEX_CONSTRAINT_FUNCTION", SQLITE_INDEX_CONSTRAINT_FUNCTION)].

Definition SQLITE_MUTEX_FAST : Z := 0.
Definition SQLITE_MUTEX_RECURSIVE : Z := 1.
Definition SQLITE_MUTEX_STATIC_MAIN : Z := 2.
Definition SQLITE_MUTEX_STATIC_MEM : Z := 3.
Definition SQLITE_MUTEX_STATIC_MEM2 : Z := 4.
Definition SQLITE_MUTEX_STATIC_OPEN : Z := 4.
Definition SQLITE_MUTEX_STATIC_PRNG : Z := 5.
Definition SQLITE_MUTEX_STATIC_LRU : Z := 6.
Definition SQLITE_MUTEX_STATIC_LRU2 : Z := 7.
Definition SQLITE_MUTEX_STATIC_PMEM : Z := 7.
Definition SQLITE_MUTEX_STATIC_APP1 : Z := 8.
Definition SQLITE_MUTEX_STATIC_APP2 : Z := 9.
Definition SQLITE_MUTEX_STATIC_APP3 : Z := 10.
Definition SQLITE_MUTEX_STATIC_VFS1 : Z := 11.
Definition SQLITE_MUTEX_STATIC_VFS2 : Z := 12.
Definition SQLITE_MUTEX_STATIC_VFS3 : Z := 13.
Definition SQLITE_MUTEX_STATIC_MASTER : Z := 2.
Definition h_consts_SQLITE_MUTEX_FAST : list (string * Z) :=
  [("SQLITE_MUTEX_FAST", SQLITE_MUTEX_FAST);
   ("SQLITE_MUTEX_RECURSIVE", SQLITE_MUTEX_RECURSIVE);
   ("SQLITE_MUTEX_STATIC_MAIN", SQLITE_MUTEX_STATIC_MAIN);
   ("SQLITE_MUTEX_STATIC_MEM", SQLITE_MUTEX_STATIC_MEM);
   ("SQLITE_MUTEX_STATIC_MEM2", SQLITE_MUTEX_STATIC_MEM2);
   ("SQLITE_MUTEX_STATIC_OPEN", SQLITE_MUTEX_STATIC_OPEN);
   ("SQLITE_MUTEX_STATIC_PRNG", SQLITE_MUTEX_STATIC_PRNG);
   ("SQLITE_MUTEX_STATIC_LRU", SQLITE_MUTEX_STATIC_LRU);
   ("SQLITE_MUTEX_STATIC_LRU2", SQLITE_MUTEX_STATIC_LRU2);
   ("SQLITE_MUTEX_STATIC_PMEM", SQLITE_MUTEX_STATIC_PMEM);
   ("SQLITE_MUTEX_STATIC_APP1", SQLITE_MUTEX_STATIC_APP1);
   ("SQLITE_MUTEX_STATIC_APP2", SQLITE_MUTEX_STATIC_APP2);
   ("SQLITE_MUTEX_STATIC_APP3", SQLITE_MUTEX_STATIC_APP3);
   ("SQLITE_MUTEX_STATIC_VFS1", SQLITE_MUTEX_STATIC_VFS1);
   ("SQLITE_MUTEX_STATIC_VFS2", SQLITE_MUTEX_STATIC_VFS2);
   ("SQLITE_MUTEX_STATIC_VFS3", SQLITE_MUTEX_STATIC_VFS3);
   ("SQLITE_MUTEX_STATIC_MASTER", SQLITE_MUTEX_STATIC_MASTER)].

Definition SQLITE_TESTCTRL_FIRST : Z := 5.
Definition SQLITE_TESTCTRL_PRNG_SAVE : Z := 5.
Definition SQLITE_TESTCTRL_PRNG_RESTORE : Z := 6.
Definition SQLITE_TESTCTRL_PRNG_RESET : Z := 7.
Definition SQLITE_TESTCTRL_FK_NO_ACTION : Z := 7.
Definition SQLITE_TESTCTRL_BITVEC_TEST : Z := 8.
Definition SQLITE_TESTCTRL_FAULT_INSTALL : Z := 9.
Definition SQLITE_TESTCTRL_BENIGN_MALLOC_HOOKS : Z := 10.
Definition SQLITE_TESTCTRL_PENDING_BYTE : Z := 11.
Definition SQLITE_TESTCTRL_ASSERT : Z := 12.
Definition SQLITE_TESTCTRL_ALWAYS : Z := 13.
Definition SQLITE_TESTCTRL_RESERVE : Z := 14.
Definition SQLITE_TESTCTRL_JSON_SELFCHECK : Z := 14.
Definition SQLITE_TESTCTRL_OPTIMIZATIONS : Z := 15.
Definition SQLITE_TESTCTRL_ISKEYWORD : Z := 16.
Definition SQLITE_TESTCTRL_GETOPT : Z := 16.
Definition SQLITE_TESTCTRL_SCRATCHMALLOC : Z := 17.
Definition SQLITE_TESTCTRL_INTERNAL_FUNCTIONS : Z := 17.
Definition SQLITE_TESTCTRL_LOCALTIME_FAULT : Z := 18.
Definition SQLITE_TESTCTRL_EXPLAIN_STMT : Z := 19.
Definition SQLITE_TESTCTRL_ONCE_RESET_THRESHOLD : Z := 19.
Definition SQLITE_TESTCTRL_NEVER_CORRUPT : Z := 20.
Definition SQLITE_TESTCTRL_VDBE_COVERAGE : Z := 21.
Definition SQLITE_TESTCTRL_BYTEORDER : Z := 22.
Definition SQLITE_TESTCTRL_ISINIT : Z := 23.
Definition SQLITE_TESTCTRL_SORTER_MMAP : Z := 24.
Definition SQLITE_TESTCTRL_IMPOSTER : Z := 25.
Definition SQLITE_TESTCTRL_PARSER_COVERAGE : Z := 26.
Definition SQLITE_TESTCTRL_RESULT_INTREAL : Z := 27.
Definition SQLITE_TESTCTRL_PRNG_SEED : Z := 28.
Definition SQLITE_TESTCTRL_EXTRA_SCHEMA_CHECKS : Z := 29.
Definition SQLITE_TESTCTRL_SEEK_COUNT : Z := 30.
Definition SQLITE_TESTCTRL_TRACEFLAGS : Z := 31.
Definition SQLITE_TESTCTRL_TUNE : Z := 32.
Definition SQLITE_TESTCTRL_LOGEST : Z := 33.
Definition SQLITE_TESTCTRL_USELONGDOUBLE : Z := 34.
Definition SQLITE_TESTCTRL_LAST : Z := 34.
Definition h_consts_SQLITE_TESTCTRL_FIRST : list (string * Z) :=
  [("SQLITE_TESTCTRL_FIRST", SQLITE_TESTCTRL_FIRST);
   ("SQLITE_TESTCTRL_PRNG_SAVE", SQLITE_TESTCTRL_PRNG_SAVE);
   ("SQLITE_TESTCTRL_PRNG_RESTORE", SQLITE_TESTCTRL_PRNG_RESTORE);
   ("SQLITE_TESTCTRL_PRNG_RESET", SQLITE_TESTCTRL_PRNG_RESET);
   ("SQLITE_TESTCTRL_FK_NO_ACTION", SQLITE_TESTCTRL_FK_NO_ACTION);
   ("SQLITE_TESTCTRL_BITVEC_TEST", SQLITE_TESTCTRL_BITVEC_TEST);
   ("SQLITE_TESTCTRL_FAULT_INSTALL", SQLITE_TESTCTRL_FAULT_INSTALL);
   ("SQLITE_TESTCTRL_BENIGN_MALLOC_HOOKS", SQLITE_TESTCTRL_BENIGN_MALLOC_HOOKS);
   ("SQLITE_TESTCTRL_PENDING_BYTE", SQLITE_TESTCTRL_PENDING_BYTE);
   ("SQLITE_TESTCTRL_ASSERT", SQLITE_TESTCTRL_ASSERT);
   ("SQLITE_TESTCTRL_ALWAYS", SQLITE_TESTCTRL_ALWAYS);
   ("SQLITE_TESTCTRL_RESERVE", SQLITE_TESTCTRL_RESERVE);
   ("SQLITE_TESTCTRL_JSON_SELFCHECK", SQLITE_TESTCTRL_JSON_SELFCHECK);
   ("SQLITE_TESTCTRL_OPTIMIZATIONS", SQLITE_TESTCTRL_OPTIMIZATIONS);
   ("SQLITE_TESTCTRL_ISKEYWORD", SQLITE_TESTCTRL_ISKEYWORD);
   ("SQLITE_TESTCTRL_GETOPT", SQLITE_TESTCTRL_GETOPT);
   ("SQLITE_TESTCTRL_SCRATCHMALLOC", SQLITE_TESTCTRL_SCRATCHMALLOC);
   ("SQLITE_TESTCTRL_INTERNAL_FUNCTIONS", SQLITE_TESTCTRL_INTERNAL_FUNCTIONS);
   ("SQLITE_TESTCTRL_LOCALTIME_FAULT", SQLITE_TESTCTRL_LOCALTIME_FAULT);
   ("SQLITE_TESTCTRL_EXPLAIN_STMT", SQLITE_TESTCTRL_EXPLAIN_STMT);
   ("SQLITE_TESTCTRL_ONCE_RESET_THRESHOLD", SQLITE_TESTCTRL_ONCE_RESET_THRESHOLD);
   ("SQLITE_TESTCTRL_NEVER_CORRUPT", SQLITE_TESTCTRL_NEVER_CORRUPT);
   ("SQLITE_TESTCTRL_VDBE_COVERAGE", SQLITE_TESTCTRL_VDBE_COVERAGE);
   ("SQLITE_TESTCTRL_BYTEORDER", SQLITE_TESTCTRL_BYTEORDER);
   ("SQLITE_TESTCTRL_ISINIT", SQLITE_TESTCTRL_ISINIT);
   ("SQLITE_TESTCTRL_SORTER_MMAP", SQLITE_TESTCTRL_SORTER_MMAP);
   ("SQLITE_TESTCTRL_IMPOSTER", SQLITE_TESTCTRL_IMPOSTER);
   ("SQLITE_TESTCTRL_PARSER_COVERAGE", SQLITE_TESTCTRL_PARSER_COVERAGE);
   ("SQLITE_TESTCTRL_RESULT_INTREAL", SQLITE_TESTCTRL_RESULT_INTREAL);
   ("SQLITE_TESTCTRL_PRNG_SEED", SQLITE_TESTCTRL_PRNG_SEED);
   ("SQLITE_TESTCTRL_EXTRA_SCHEMA_CHECKS", SQLITE_TESTCTRL_EXTRA_SCHEMA_CHECKS);
   ("SQLITE_TESTCTRL_SEEK_COUNT", SQLITE_TESTCTRL_SEEK_COUNT);
   ("SQLITE_TESTCTRL_TRACEFLAGS", SQLITE_TESTCTRL_TRACEFLAGS);
   ("SQLITE_TESTCTRL_TUNE", SQLITE_TESTCTRL_TUNE);
   ("SQLITE_TESTCTRL_LOGEST", SQLITE_TESTCTRL_LOGEST);
   ("SQLITE_TESTCTRL_USELONGDOUBLE", SQLITE_TESTCTRL_USELONGDOUBLE);
   ("SQLITE_TESTCTRL_LAST", SQLITE_TESTCTRL_LAST)].

Definition SQLITE_STATUS_MEMORY_USED : Z := 0.
Definition SQLITE_STATUS_PAGECACHE_USED : Z := 1.
Definition SQLITE_STATUS_PAGECACHE_OVERFLOW : Z := 2.
Definition SQLITE_STATUS_SCRATCH_USED : Z := 3.
Definition SQLITE_STATUS_SCRATCH_OVERFLOW : Z := 4.
Definition SQLITE_STATUS_MALLOC_SIZE : Z := 5.
Definition SQLITE_STATUS_PARSER_STACK : Z := 6.
Definition SQLITE_STATUS_PAGECACHE_SIZE : Z := 7.
Definition SQLITE_STATUS_SCRATCH_SIZE : Z := 8.
Definition SQLITE_STATUS_MALLOC_COUNT : Z := 9.
Definition h_consts_SQLITE_STATUS_MEMORY_USED : list (string * Z) :=
  [("SQLITE_STATUS_MEMORY_USED", SQLITE_STATUS_MEMORY_USED);
   ("SQLITE_STATUS_PAGECACHE_USED", SQLITE_STATUS_PAGECACHE_USED);
   ("SQLITE_STATUS_PAGECACHE_OVERFLOW", SQLITE_STATUS_PAGECACHE_OVERFLOW);
   ("SQLITE_STATUS_SCRATCH_USED", SQLITE_STATUS_SCRATCH_USED);
   ("SQLITE_STATUS_SCRATCH_OVERFLOW", SQLITE_STATUS_SCRATCH_OVERFLOW);
   ("SQLITE_STATUS_MALLOC_SIZE", SQLITE_STATUS_MALLOC_SIZE);
   ("SQLITE_STATUS_PARSER_STACK", SQLITE_STATUS_PARSER_STACK);
   ("SQLITE_STATUS_PAGECACHE_SIZE", SQLITE_STATUS_PAGECACHE_SIZE);
   ("SQLITE_STATUS_SCRATCH_SIZE", SQLITE_STATUS_SCRATCH_SIZE);
   ("SQLITE_STATUS_MALLOC_COUNT", SQLITE_STATUS_MALLOC_COUNT)].

Definition SQLITE_DBSTATUS_LOOKASIDE_USED : Z := 0.
Definition SQLITE_DBSTATUS_CACHE_USED : Z := 1.
Definition SQLITE_DBSTATUS_SCHEMA_USED : Z := 2.
Definition SQLITE_DBSTATUS_STMT_USED : Z := 3.
Definition SQLITE_DBSTATUS_LOOKASIDE_HIT : Z := 4.
Definition SQLITE_DBSTATUS_LOOKASIDE_MISS_SIZE : Z := 5.
Definition SQLITE_DBSTATUS_LOOKASIDE_MISS_FULL : Z := 6.
Definition SQLITE_DBSTATUS_CACHE_HIT : Z := 7.
Definition SQLITE_DBSTATUS_CACHE_MISS : Z := 8.
Definition SQLITE_DBSTATUS_CACHE_WRITE : Z := 9.
Definition SQLITE_DBSTATUS_DEFERRED_FKS : Z := 10.
Definition SQLITE_DBSTATUS_CACHE_USED_SHARED : Z := 11.
Definition SQLITE_DBSTATUS_CACHE_SPILL : Z := 12.
Definition SQLITE_DBSTATUS_MAX : Z := 12.
Definition h_consts_SQLITE_DBSTATUS_LOOKASIDE_USED : list (string * Z) :=
  [("SQLITE_DBSTATUS_LOOKASIDE_USED", SQLITE_DBSTATUS_LOOKASIDE_USED);
   ("SQLITE_DBSTATUS_CACHE_USED", SQLITE_DBSTATUS_CACHE_USED);
   ("SQLITE_DBSTATUS_SCHEMA_USED", SQLITE_DBSTATUS_SCHEMA_USED);
   ("SQLITE_DBSTATUS_STMT_USED", SQLITE_DBSTATUS_STMT_USED);
   ("SQLITE_DBSTATUS_LOOKASIDE_HIT", SQLITE_DBSTATUS_LOOKASIDE_HIT);
   ("SQLITE_DBSTATUS_LOOKASIDE_MISS_SIZE", SQLITE_DBSTATUS_LOOKASIDE_MISS_SIZE);
   ("SQLITE_DBSTATUS_LOOKASIDE_MISS_FULL", SQLITE_DBSTATUS_LOOKASIDE_MISS_FULL);
   ("SQLITE_DBSTATUS_CACHE_HIT", SQLITE_DBSTATUS_CACHE_HIT);
   ("SQLITE_DBSTATUS_CACHE_MISS", SQLITE_DBSTATUS_CACHE_MISS);
   ("SQLITE_DBSTATUS_CACHE_WRITE", SQLITE_DBSTATUS_CACHE_WRITE);
   ("SQLITE_DBSTATUS_DEFERRED_FKS", SQLITE_DBSTATUS_DEFERRED_FKS);
   ("SQLITE_DBSTATUS_CACHE_USED_SHARED", SQLITE_DBSTATUS_CACHE_USED_SHARED);
   ("SQLITE_DBSTATUS_CACHE_SPILL", SQLITE_DBSTATUS_CACHE_SPILL);
   ("SQLITE_DBSTATUS_MAX", SQLITE_DBSTATUS_MAX)].

Definition SQLITE_STMTSTATUS_FULLSCAN_STEP : Z := 1.
Definition SQLITE_STMTSTATUS_SORT : Z := 2.
Definition SQLITE_STMTSTATUS_AUTOINDEX : Z := 3.
Definition SQLITE_STMTSTATUS_VM_STEP : Z := 4.
Definition SQLITE_STMTSTATUS_REPREPARE : Z := 5.
Definition SQLITE_STMTSTATUS_RUN : Z := 6.
Definition SQLITE_STMTSTATUS_FILTER_MISS : Z := 7.
Definition SQLITE_STMTSTATUS_FILTER_HIT : Z := 8.
Definition SQLITE_STMTSTATUS_MEMUSED : Z := 99.
Definition h_consts_SQLITE_STMTSTATUS_FULLSCAN_STEP : list (string * Z) :=
  [("SQLITE_STMTSTATUS_FULLSCAN_STEP", SQLITE_STMTSTATUS_FULLSCAN_STEP);
   ("SQLITE_STMTSTATUS_SORT", SQLITE_STMTSTATUS_SORT);
   ("SQLITE_STMTSTATUS_AUTOINDEX", SQLITE_STMTSTATUS_AUTOINDEX);
   ("SQLITE_STMTSTATUS_VM_STEP", SQLITE_STMTSTATUS_VM_STEP);
   ("SQLITE_STMTSTATUS_REPREPARE", SQLITE_STMTSTATUS_REPREPARE);
   ("SQLITE_STMTSTATUS_RUN", SQLITE_STMTSTATUS_RUN);
   ("SQLITE_STMTSTATUS_FILTER_MISS", SQLITE_STMTSTATUS_FILTER_MISS);
   ("SQLITE_STMTSTATUS_FILTER_HIT", SQLITE_STMTSTATUS_FILTER_HIT);
   ("SQLITE_STMTSTATUS_MEMUSED", SQLITE_STMTSTATUS_MEMUSED)].

Definition SQLITE_CHECKPOINT_PASSIVE : Z := 0.
Definition SQLITE_CHECKPOINT_FULL : Z := 1.
Definition SQLITE_CHECKPOINT_RESTART : Z := 2.
Definition SQLITE_CHECKPOINT_TRUNCATE : Z := 3.
Definition h_consts_SQLITE_CHECKPOINT_PASSIVE : list (string * Z) :=
  [("SQLITE_CHECKPOINT_PASSIVE", SQLITE_CHECKPOINT_PASSIVE);
   ("SQLITE_CHECKPOINT_FULL", SQLITE_CHECKPOINT_FULL);
   ("SQLITE_CHECKPOINT_RESTART", SQLITE_CHECKPOINT_RESTART);
   ("SQLITE_CHECKPOINT_TRUNCATE", SQLITE_CHECKPOINT_TRUNCATE)].

Definition SQLITE_VTAB_CONSTRAINT_SUPPORT : Z := 1.
Definition SQLITE_VTAB_INNOCUOUS : Z := 2.
Definition SQLITE_VTAB_DIRECTONLY : Z := 3.
Definition SQLITE_VTAB_USES_ALL_SCHEMAS : Z := 4.
Definition h_consts_SQLITE_VTAB_CONSTRAINT_SUPPORT : list (string * Z) :=
  [("SQLITE_VTAB_CONSTRAINT_SUPPORT", SQLITE_VTAB_CONSTRAINT_SUPPORT);
   ("SQLITE_VTAB_INNOCUOUS", SQLITE_VTAB_INNOCUOUS);
   ("SQLITE_VTAB_DIRECTONLY", SQLITE_VTAB_DIRECTONLY);
   ("SQLITE_VTAB_USES_ALL_SCHEMAS", SQLITE_VTAB_USES_ALL_SCHEMAS)].

Definition SQLITE_ROLLBACK : Z := 1.
Definition SQLITE_FAIL : Z := 3.
Definition SQLITE_REPLACE : Z := 5.
Definition h_consts_SQLITE_ROLLBACK : list (string * Z) :=
  [("SQLITE_ROLLBACK", SQLITE_ROLLBACK);
   ("SQLITE_FAIL", SQLITE_FAIL);
   ("SQLITE_REPLACE", SQLITE_REPLACE)].

Definition SQLITE_SCANSTAT_NLOOP : Z := 0.
Definition SQLITE_SCANSTAT_NVISIT : Z := 1.
Definition SQLITE_SCANSTAT_EST : Z := 2.
Definition SQLITE_SCANSTAT_NAME : Z := 3.
Definition SQLITE_SCANSTAT_EXPLAIN : Z := 4.
Definition SQLITE_SCANSTAT_SELECTID : Z := 5.
Definition SQLITE_SCANSTAT_PARENTID : Z := 6.
Definition SQLITE_SCANSTAT_NCYCLE : Z := 7.
Definition h_consts_SQLITE_SCANSTAT_NLOOP : list (string * Z) :=
  [("SQLITE_SCANSTAT_NLOOP", SQLITE_SCANSTAT_NLOOP);
   ("SQLITE_SCANSTAT_NVISIT", SQLITE_SCANSTAT_NVISIT);
   ("SQLITE_SCANSTAT_EST", SQLITE_SCANSTAT_EST);
   ("SQLITE_SCANSTAT_NAME", SQLITE_SCANSTAT_NAME);
   ("SQLITE_SCANSTAT_EXPLAIN", SQLITE_SCANSTAT_EXPLAIN);
   ("SQLITE_SCANSTAT_SELECTID", SQLITE_SCANSTAT_SELECTID);
   ("SQLITE_SCANSTAT_PARENTID", SQLITE_SCANSTAT_PARENTID);
   ("SQLITE_SCANSTAT_NCYCLE", SQLITE_SCANSTAT_NCYCLE)].

Definition SQLITE_SCANSTAT_COMPLEX : Z := 1.
Definition h_consts_SQLITE_SCANSTAT_COMPLEX : list (string * Z) :=
  [("SQLITE_SCANSTAT_COMPLEX", SQLITE_SCANSTAT_COMPLEX)].

Definition SQLITE_SERIALIZE_NOCOPY : Z := 1.
Definition h_consts_SQLITE_SERIALIZE_NOCOPY : list (string * Z) :=
  [("SQLITE_SERIALIZE_NOCOPY", SQLITE_SERIALIZE_NOCOPY)].

Definition SQLITE_DESERIALIZE_FREEONCLOSE : Z := 1.
Definition SQLITE_DESERIALIZE_RESIZEABLE : Z := 2.
Definition SQLITE_DESERIALIZE_READONLY : Z := 4.
Definition h_consts_SQLITE_DESERIALIZE_FREEONCLOSE : list (string * Z) :=
  [("SQLITE_DESERIALIZE_FREEONCLOSE", SQLITE_DESERIALIZE_FREEONCLOSE);
   ("SQLITE_DESERIALIZE_RESIZEABLE", SQLITE_DESERIALIZE_RESIZEABLE);
   ("SQLITE_DESERIALIZE_READONLY", SQLITE_DESERIALIZE_READONLY)].

Definition SQLITE_SESSION_OBJCONFIG_SIZE : Z := 1.
Definition SQLITE_SESSION_OBJCONFIG_ROWID : Z := 2.
Definition h_consts_SQLITE_SESSION_OBJCONFIG_SIZE : list (string * Z) :=
  [("SQLITE_SESSION_OBJCONFIG_SIZE", SQLITE_SESSION_OBJCONFIG_SIZE);
   ("SQLITE_SESSION_OBJCONFIG_ROWID", SQLITE_SESSION_OBJCONFIG_ROWID)].

Definition SQLITE_CHANGESETSTART_INVERT : Z := 2.
Definition h_consts_SQLITE_CHANGESETSTART_INVERT : list (string * Z) :=
  [("SQLITE_CHANGESETSTART_INVERT", SQLITE_CHANGESETSTART_INVERT)].

Definition SQLITE_CHANGESETAPPLY_NOSAVEPOINT : Z := 1.
Definition SQLITE_CHANGESETAPPLY_INVERT : Z := 2.
Definition SQLITE_CHANGESETAPPLY_IGNORENOOP : Z := 4.
Definition SQLITE_CHANGESETAPPLY_FKNOACTION : Z := 8.
Definition h_consts_SQLITE_CHANGESETAPPLY_NOSAVEPOINT : list (string * Z) :=
  [("SQLITE_CHANGESETAPPLY_NOSAVEPOINT", SQLITE_CHANGESETAPPLY_NOSAVEPOINT);
   ("SQLITE_CHANGESETAPPLY_INVERT", SQLITE_CHANGESETAPPLY_INVERT);
   ("SQLITE_CHANGESETAPPLY_IGNORENOOP", SQLITE_CHANGESETAPPLY_IGNORENOOP);
   ("SQLITE_CHANGESETAPPLY_FKNOACTION", SQLITE_CHANGESETAPPLY_FKNOACTION)].

Definition SQLITE_CHANGESET_DATA : Z := 1.
Definition SQLITE_CHANGESET_NOTFOUND : Z := 2.
Definition SQLITE_CHANGESET_CONFLICT : Z := 3.
Definition SQLITE_CHANGESET_CONSTRAINT : Z := 4.
Definition SQLITE_CHANGESET_FOREIGN_KEY : Z := 5.
Definition h_consts_SQLITE_CHANGESET_DATA : list (string * Z) :=
  [("SQLITE_CHANGESET_DATA", SQLITE_CHANGESET_DATA);
   ("SQLITE_CHANGESET_NOTFOUND", SQLITE_CHANGESET_NOTFOUND);
   ("SQLITE_CHANGESET_CONFLICT", SQLITE_CHANGESET_CONFLICT);
   ("SQLITE_CHANGESET_CONSTRAINT", SQLITE_CHANGESET_CONSTRAINT);
   ("SQLITE_CHANGESET_FOREIGN_KEY", SQLITE_CHANGESET_FOREIGN_KEY)].

Definition SQLITE_CHANGESET_OMIT : Z := 0.
Definition SQLITE_CHANGESET_REPLACE : Z := 1.
Definition SQLITE_CHANGESET_ABORT : Z := 2.
Definition h_consts_SQLITE_CHANGESET_OMIT : list (string * Z) :=
  [("SQLITE_CHANGESET_OMIT", SQLITE_CHANGESET_OMIT);
   ("SQLITE_CHANGESET_REPLACE", SQLITE_CHANGESET_REPLACE);
   ("SQLITE_CHANGESET_ABORT", SQLITE_CHANGESET_ABORT)].

Definition SQLITE_SESSION_CONFIG_STRMSIZE : Z := 1.
Definition h_consts_SQLITE_SESSION_CONFIG_STRMSIZE : list (string * Z) :=
  [("SQLITE_SESSION_CONFIG_STRMSIZE", SQLITE_SESSION_CONFIG_STRMSIZE)].

Definition h_consts_SQLITE_TEXT : list (string * Z) :=
  [("SQLITE_TEXT", 3);
   ("SQLITE3_TEXT", 3)].

Definition h_consts_NOT_WITHIN : list (string * Z) :=
  [("NOT_WITHIN", 0);
   ("PARTLY_WITHIN", 1);
   ("FULLY_WITHIN", 2)].

Definition h_consts_FTS5_TOKENIZE_QUERY : list (string * Z) :=
  [("FTS5_TOKENIZE_QUERY", 1);
   ("FTS5_TOKENIZE_PREFIX", 2);
   ("FTS5_TOKENIZE_DOCUMENT", 4);
   ("FTS5_TOKENIZE_AUX", 8)].

Definition h_consts_FTS5_TOKEN_COLOCATED : list (string * Z) :=
  [("FTS5_TOKEN_COLOCATED", 1)].

Definition h_constants : list (string * Z) :=
  h_consts_SQLITE_VERSION_NUMBER ++ h_consts_SQLITE_OK ++ h_consts_SQLITE_ERROR_MISSING_COLLSEQ ++ h_consts_SQLITE_OPEN_READONLY ++ h_consts_SQLITE_OPEN_MASTER_JOURNAL ++ h_consts_SQLITE_IOCAP_ATOMIC ++ h_consts_SQLITE_LOCK_NONE ++ h_consts_SQLITE_SYNC_NORMAL ++ h_consts_SQLITE_FCNTL_LOCKSTATE ++ h_consts_SQLITE_ACCESS_EXISTS ++ h_consts_SQLITE_SHM_UNLOCK ++ h_consts_SQLITE_SHM_NLOCK ++ h_consts_SQLITE_CONFIG_SINGLETHREAD ++ h_consts_SQLITE_DBCONFIG_MAINDBNAME ++ h_consts_SQLITE_SETLK_BLOCK_ON_CONNECT ++ h_consts_SQLITE_DENY ++ h_consts_SQLITE_CREATE_INDEX ++ h_consts_SQLITE_TRACE_STMT ++ h_consts_SQLITE_LIMIT_LENGTH ++ h_consts_SQLITE_PREPARE_PERSISTENT ++ h_consts_SQLITE_INTEGER ++ h_consts_SQLITE_UTF8 ++ h_consts_SQLITE_DETERMINISTIC ++ h_consts_SQLITE_WIN32_DATA_DIRECTORY_TYPE ++ h_consts_SQLITE_TXN_NONE ++ h_consts_SQLITE_INDEX_SCAN_UNIQUE ++ h_consts_SQLITE_INDEX_CONSTRAINT_EQ ++ h_consts_SQLITE_MUTEX_FAST ++ h_consts_SQLITE_TESTCTRL_FIRST ++ h_consts_SQLITE_STATUS_MEMORY_USED ++ h_consts_SQLITE_DBSTATUS_LOOKASIDE_USED ++ h_consts_SQLITE_STMTSTATUS_FULLSCAN_STEP ++ h_consts_SQLITE_CHECKPOINT_PASSIVE ++ h_consts_SQLITE_VTAB_CONSTRAINT_SUPPORT ++ h_consts_SQLITE_ROLLBACK ++ h_consts_SQLITE_SCANSTAT_NLOOP ++ h_consts_SQLITE_SCANSTAT_COMPLEX ++ h_consts_SQLITE_SERIALIZE_NOCOPY ++ h_consts_SQLITE_DESERIALIZE_FREEONCLOSE ++ h_consts_SQLITE_SESSION_OBJCONFIG_SIZE ++ h_consts_SQLITE_CHANGESETSTART_INVERT ++ h_consts_SQLITE_CHANGESETAPPLY_NOSAVEPOINT ++ h_consts_SQLITE_CHANGESET_DATA ++ h_consts_SQLITE_CHANGESET_OMIT ++ h_consts_SQLITE_SESSION_CONFIG_STRMSIZE ++ h_consts_SQLITE_TEXT ++ h_consts_NOT_WITHIN ++ h_consts_FTS5_TOKENIZE_QUERY ++ h_consts_FTS5_TOKEN_COLOCATED.

(** ** Function prototypes, one table per group of adjacent declarations *)

Definition h_api_sqlite3_version : list (string * ctype) :=
  [("sqlite3_version", TArr (TConst (TName "char")));
   ("sqlite3_libversion", TFun (TPtr (TConst (TName "char"))) []);
   ("sqlite3_sourceid", TFun (TPtr (TConst (TName "char"))) []);
   ("sqlite3_libversion_number", TFun (TName "int") [])].
Definition h_api_sqlite3_compileoption_used : list (string * ctype) :=
  [("sqlite3_compileoption_used", TFun (TName "int") [TPtr (TConst (TName "char"))]);
   ("sqlite3_compileoption_get", TFun (TPtr (TConst (TName "char"))) [TName "int"])].
Definition h_api_sqlite3_threadsafe : list (string * ctype) :=
  [("sqlite3_threadsafe", TFun (TName "int") [])].
Definition h_api_sqlite3_close : list (string * ctype) :=
  [("sqlite3_close", TFun (TName "int") [TPtr (TName "sqlite3")]);
   ("sqlite3_close_v2", TFun (TName "int") [TPtr (TName "sqlite3")])].
Definition h_api_sqlite3_exec : list (string * ctype) :=
  [("sqlite3_exec", TFun (TName "int") [TPtr (TName "sqlite3"); TPtr (TConst (TName "char")); TPtr (TFun (TName "int") [TPtr (TName "void"); TName "int"; TPtr (TPtr (TName "char")); TPtr (TPtr (TName "char"))]); TPtr (TName "void"); TPtr (TPtr (TName "char"))])].
Definition h_api_sqlite3_initialize : list (string * ctype) :=
  [("sqlite3_initialize", TFun (TName "int") []);
   ("sqlite3_shutdown", TFun (TName "int") []);
   ("sqlite3_os_init", TFun (TName "int") []);
   ("sqlite3_os_end", TFun (TName "int") [])].
Definition h_api_sqlite3_config : list (string * ctype) :=
  [("sqlite3_config", TFun (TName "int") [TName "int"; TDots])].
Definition h_api_sqlite3_db_config : list (string * ctype) :=
  [("sqlite3_db_config", TFun (TName "int") [TPtr (TName "sqlite3"); TName "int"; TDots])].
Definition h_api_sqlite3_extended_result_codes : list (string * ctype) :=
  [("sqlite3_extended_result_codes", TFun (TName "int") [TPtr (TName "sqlite3"); TName "int"])].
Definition h_api_sqlite3_last_insert_rowid : list (string * ctype) :=
  [("sqlite3_last_insert_rowid", TFun (TName "sqlite3_int64") [TPtr (TName "sqlite3")])].
Definition h_api_sqlite3_set_last_insert_rowid : list (string * ctype) :=
  [("sqlite3_set_last_insert_rowid", TFun (TName "void") [TPtr (TName "sqlite3"); TName "sqlite3_int64"])].
Definition h_api_sqlite3_changes : list (string * ctype) :=
  [("sqlite3_changes", TFun (TName "int") [TPtr (TName "sqlite3")]);
   ("sqlite3_changes64", TFun (TName "sqlite3_int64") [TPtr (TName "sqlite3")])].
Definition h_api_sqlite3_total_changes : list (string * ctype) :=
  [("sqlite3_total_changes", TFun (TName "int") [TPtr (TName "sqlite3")]);
   ("sqlite3_total_changes64", TFun (TName "sqlite3_int64") [TPtr (TName "sqlite3")])].
Definition h_api_sqlite3_interrupt : list (string * ctype) :=
  [("sqlite3_interrupt", TFun (TName "void") [TPtr (TName "sqlite3")]);
   ("sqlite3_is_interrupted", TFun (TName "int") [TPtr (TName "sqlite3")])].
Definition h_api_sqlite3_complete : list (string * ctype) :=
  [("sqlite3_complete", TFun (TName "int") [TPtr (TConst (TName "char"))]);
   ("sqlite3_complete16", TFun (TName "int") [TPtr (TConst (TName "void"))])].
Definition h_api_sqlite3_busy_handler : list (string * ctype) :=
  [("sqlite3_busy_handler", TFun (TName "int") [TPtr (TName "sqlite3"); TPtr (TFun (TName "int") [TPtr (TName "void"); TName "int"]); TPtr (TName "void")])].
Definition h_api_sqlite3_busy_timeout : list (string * ctype) :=
  [("sqlite3_busy_timeout", TFun (TName "int") [TPtr (TName "sqlite3"); TName "int"])].
Definition h_api_sqlite3_setlk_timeout : list (string * ctype) :=
  [("sqlite3_setlk_timeout", TFun (TName "int") [TPtr (TName "sqlite3"); TName "int"; TName "int"])].
Definition h_api_sqlite3_get_table : list (string * ctype) :=
  [("sqlite3_get_table", TFun (TName "int") [TPtr (TName "sqlite3"); TPtr (TConst (TName "char")); TPtr (TPtr (TPtr (TName "char"))); TPtr (TName "int"); TPtr (TName "int"); TPtr (TPtr (TName "char"))]);
   ("sqlite3_free_table", TFun (TName "void") [TPtr (TPtr (TName "char"))])].
Definition h_api_sqlite3_mprintf : list (string * ctype) :=
  [("sqlite3_mprintf", TFun (TPtr (TName "char")) [TPtr (TConst (TName "char")); TDots]);
   ("sqlite3_vmprintf", TFun (TPtr (TName "char")) [TPtr (TConst (TName "char")); TName "va_list"]);
   ("sqlite3_snprintf", TFun (TPtr (TName "char")) [TName "int"; TPtr (TName "char"); TPtr (TConst (TName "char")); TDots]);
   ("sqlite3_vsnprintf", TFun (TPtr (TName "char")) [TName "int"; TPtr (TName "char"); TPtr (TConst (TName "char")); TName "va_list"])].
Definition h_api_sqlite3_malloc : list (string * ctype) :=
  [("sqlite3_malloc", TFun (TPtr (TName "void")) [TName "int"]);
   ("sqlite3_malloc64", TFun (TPtr (TName "void")) [TName "sqlite3_uint64"]);
   ("sqlite3_realloc", TFun (TPtr (TName "void")) [TPtr (TName "void"); TName "int"]);
   ("sqlite3_realloc64", TFun (TPtr (TName "void")) [TPtr (TName "void"); TName "sqlite3_uint64"]);
   ("sqlite3_free", TFun (TName "void") [TPtr (TName "void")]);
   ("sqlite3_msize", TFun (TName "sqlite3_uint64") [TPtr (TName "void")])].
Definition h_api_sqlite3_memory_used : list (string * ctype) :=
  [("sqlite3_memory_used", TFun (TName "sqlite3_int64") []);
   ("sqlite3_memory_highwater", TFun (TName "sqlite3_int64") [TName "int"])].
Definition h_api_sqlite3_randomness : list (string * ctype) :=
  [("sqlite3_randomness", TFun (TName "void") [TName "int"; TPtr (TName "void")])].
Definition h_api_sqlite3_set_authorizer : list (string * ctype) :=
  [("sqlite3_set_authorizer", TFun (TName "int") [TPtr (TName "sqlite3"); TPtr (TFun (TName "int") [TPtr (TName "void"); TName "int"; TPtr (TConst (TName "char")); TPtr (TConst (TName "char")); TPtr (TConst (TName "char")); TPtr (TConst (TName "char"))]); TPtr (TName "void")])].
Definition h_api_sqlite3_trace : list (string * ctype) :=
  [("sqlite3_trace", TFun (TPtr (TName "void")) [TPtr (TName "sqlite3"); TPtr (TFun (TName "void") [TPtr (TName "void"); TPtr (TConst (TName "char"))]); TPtr (TName "void")]);
   ("sqlite3_profile", TFun (TPtr (TName "void")) [TPtr (TName "sqlite3"); TPtr (TFun (TName "void") [TPtr (TName "void"); TPtr (TConst (TName "char")); TName "sqlite3_uint64"]); TPtr (TName "void")])].
Definition h_api_sqlite3_trace_v2 : list (string * ctype) :=
  [("sqlite3_trace_v2", TFun (TName "int") [TPtr (TName "sqlite3"); TName "unsigned"; TPtr (TFun (TName "int") [TName "unsigned"; TPtr (TName "void"); TPtr (TName "void"); TPtr (TName "void")]); TPtr (TName "void")])].
Definition h_api_sqlite3_progress_handler : list (string * ctype) :=
  [("sqlite3_progress_handler", TFun (TName "void") [TPtr (TName "sqlite3"); TName "int"; TPtr (TFun (TName "int") [TPtr (TName "void")]); TPtr (TName "void")])].
Definition h_api_sqlite3_open : list (string * ctype) :=
  [("sqlite3_open", TFun (TName "int") [TPtr (TConst (TName "char")); TPtr (TPtr (TName "sqlite3"))]);
   ("sqlite3_open16", TFun (TName "int") [TPtr (TConst (TName "void")); TPtr (TPtr (TName "sqlite3"))]);
   ("sqlite3_open_v2", TFun (TName "int") [TPtr (TConst (TName "char")); TPtr (TPtr (TName "sqlite3")); TName "int"; TPtr (TConst (TName "char"))])].
Definition h_api_sqlite3_uri_parameter : list (string * ctype) :=
  [("sqlite3_uri_parameter", TFun (TPtr (TConst (TName "char"))) [TName "sqlite3_filename"; TPtr (TConst (TName "char"))]);
   ("sqlite3_uri_boolean", TFun (TName "int") [TName "sqlite3_filename"; TPtr (TConst (TName "char")); TName "int"]);
   ("sqlite3_uri_int64", TFun (TName "sqlite3_int64") [TName "sqlite3_filename"; TPtr (TConst (TName "char")); TName "sqlite3_int64"]);
   ("sqlite3_uri_key", TFun (TPtr (TConst (TName "char"))) [TName "sqlite3_filename"; TName "int"])].
Definition h_api_sqlite3_filename_database : list (string * ctype) :=
  [("sqlite3_filename_database", TFun (TPtr (TConst (TName "char"))) [TName "sqlite3_filename"]);
   ("sqlite3_filename_journal", TFun (TPtr (TConst (TName "char"))) [TName "sqlite3_filename"]);
   ("sqlite3_filename_wal", TFun (TPtr (TConst (TName "char"))) [TName "sqlite3_filename"])].
Definition h_api_sqlite3_database_file_object : list (string * ctype) :=
  [("sqlite3_database_file_object", TFun (TPtr (TName "sqlite3_file")) [TPtr (TConst (TName "char"))])].
Definition h_api_sqlite3_create_filename : list (string * ctype) :=
  [("sqlite3_create_filename", TFun (TName "sqlite3_filename") [TPtr (TConst (TName "char")); TPtr (TConst (TName "char")); TPtr (TConst (TName "char")); TName "int"; TPtr (TPtr (TConst (TName "char")))]);
   ("sqlite3_free_filename", TFun (TName "void") [TName "sqlite3_filename"])].
Definition h_api_sqlite3_errcode : list (string * ctype) :=
  [("sqlite3_errcode", TFun (TName "int") [TPtr (TName "sqlite3")]);
   ("sqlite3_extended_errcode", TFun (TName "int") [TPtr (TName "sqlite3")]);
   ("sqlite3_errmsg", TFun (TPtr (TConst (TName "char"))) [TPtr (TName "sqlite3")]);
   ("sqlite3_errmsg16", TFun (TPtr (TConst (TName "void"))) [TPtr (TName "sqlite3")]);
   ("sqlite3_errstr", TFun (TPtr (TConst (TName "char"))) [TName "int"]);
   ("sqlite3_error_offset", TFun (TName "int") [TPtr (TName "sqlite3")])].
Definition h_api_sqlite3_limit : list (string * ctype) :=
  [("sqlite3_limit", TFun (TName "int") [TPtr (TName "sqlite3"); TName "int"; TName "int"])].
Definition h_api_sqlite3_prepare : list (string * ctype) :=
  [("sqlite3_prepare", TFun (TName "int") [TPtr (TName "sqlite3"); TPtr (TConst (TName "char")); TName "int"; TPtr (TPtr (TName "sqlite3_stmt")); TPtr (TPtr (TConst (TName "char")))]);
   ("sqlite3_prepare_v2", TFun (TName "int") [TPtr (TName "sqlite3"); TPtr (TConst (TName "char")); TName "int"; TPtr (TPtr (TName "sqlite3_stmt")); TPtr (TPtr (TConst (TName "char")))]);
   ("sqlite3_prepare_v3", TFun (TName "int") [TPtr (TName "sqlite3"); TPtr (TConst (TName "char")); TName "int"; TName "unsigned int"; TPtr (TPtr (TName "sqlite3_stmt")); TPtr (TPtr (TConst (TName "char")))]);
   ("sqlite3_prepare16", TFun (TName "int") [TPtr (TName "sqlite3"); TPtr (TConst (TName "void")); TName "int"; TPtr (TPtr (TName "sqlite3_stmt")); TPtr (TPtr (TConst (TName "void")))]);
   ("sqlite3_prepare16_v2", TFun (TName "int") [TPtr (TName "sqlite3"); TPtr (TConst (TName "void")); TName "int"; TPtr (TPtr (TName "sqlite3_stmt")); TPtr (TPtr (TConst (TName "void")))]);
   ("sqlite3_prepare16_v3", TFun (TName "int") [TPtr (TName "sqlite3"); TPtr (TConst (TName "void")); TName "int"; TName "unsigned int"; TPtr (TPtr (TName "sqlite3_stmt")); TPtr (TPtr (TConst (TName "void")))])].
Definition h_api_sqlite3_sql : list (string * ctype) :=
  [("sqlite3_sql", TFun (TPtr (TConst (TName "char"))) [TPtr (TName "sqlite3_stmt")]);
   ("sqlite3_expanded_sql", TFun (TPtr (TName "char")) [TPtr (TName "sqlite3_stmt")]);
   ("sqlite3_normalized_sql", TFun (TPtr (TConst (TName "char"))) [TPtr (TName "sqlite3_stmt")])].
Definition h_api_sqlite3_stmt_readonly : list (string * ctype) :=
  [("sqlite3_stmt_readonly", TFun (TName "int") [TPtr (TName "sqlite3_stmt")])].
Definition h_api_sqlite3_stmt_isexplain : list (string * ctype) :=
  [("sqlite3_stmt_isexplain", TFun (TName "int") [TPtr (TName "sqlite3_stmt")])].
Definition h_api_sqlite3_stmt_explain : list (string * ctype) :=
  [("sqlite3_stmt_explain", TFun (TName "int") [TPtr (TName "sqlite3_stmt"); TName "int"])].
Definition h_api_sqlite3_stmt_busy : list (string * ctype) :=
  [("sqlite3_stmt_busy", TFun (TName "int") [TPtr (TName "sqlite3_stmt")])].
Definition h_api_sqlite3_bind_blob : list (string * ctype) :=
  [("sqlite3_bind_blob", TFun (TName "int") [TPtr (TName "sqlite3_stmt"); TName "int"; TPtr (TConst (TName "void")); TName "int"; TPtr (TFun (TName "void") [TPtr (TName "void")])]);
   ("sqlite3_bind_blob64", TFun (TName "int") [TPtr (TName "sqlite3_stmt"); TName "int"; TPtr (TConst (TName "void")); TName "sqlite3_uint64"; TPtr (TFun (TName "void") [TPtr (TName "void")])]);
   ("sqlite3_bind_double", TFun (TName "int") [TPtr (TName "sqlite3_stmt"); TName "int"; TName "double"]);
   ("sqlite3_bind_int", TFun (TName "int") [TPtr (TName "sqlite3_stmt"); TName "int"; TName "int"]);
   ("sqlite3_bind_int64", TFun (TName "int") [TPtr (TName "sqlite3_stmt"); TName "int"; TName "sqlite3_int64"]);
   ("sqlite3_bind_null", TFun (TName "int") [TPtr (TName "sqlite3_stmt"); TName "int"]);
   ("sqlite3_bind_text", TFun (TName "int") [TPtr (TName "sqlite3_stmt"); TName "int"; TPtr (TConst (TName "char")); TName "int"; TPtr (TFun (TName "void") [TPtr (TName "void")])]);
   ("sqlite3_bind_text16", TFun (TName "int") [TPtr (TName "sqlite3_stmt"); TName "int"; TPtr (TConst (TName "void")); TName "int"; TPtr (TFun (TName "void") [TPtr (TName "void")])]);
   ("sqlite3_bind_text64", TFun (TName "int") [TPtr (TName "sqlite3_stmt"); TName "int"; TPtr (TConst (TName "char")); TName "sqlite3_uint64"; TPtr (TFun (TName "void") [TPtr (TName "void")]); TName "unsigned char"]);
   ("sqlite3_bind_value", TFun (TName "int") [TPtr (TName "sqlite3_stmt"); TName "int"; TPtr (TConst (TName "sqlite3_value"))]);
   ("sqlite3_bind_pointer", TFun (TName "int") [TPtr (TName "sqlite3_stmt"); TName "int"; TPtr (TName "void"); TPtr (TConst (TName "char")); TPtr (TFun (TName "void") [TPtr (TName "void")])]);
   ("sqlite3_bind_zeroblob", TFun (TName "int") [TPtr (TName "sqlite3_stmt"); TName "int"; TName "int"]);
   ("sqlite3_bind_zeroblob64", TFun (TName "int") [TPtr (TName "sqlite3_stmt"); TName "int"; TName "sqlite3_uint64"])].
Definition h_api_sqlite3_bind_parameter_count : list (string * ctype) :=
  [("sqlite3_bind_parameter_count", TFun (TName "int") [TPtr (TName "sqlite3_stmt")])].
Definition h_api_sqlite3_bind_parameter_name : list (string * ctype) :=
  [("sqlite3_bind_parameter_name", TFun (TPtr (TConst (TName "char"))) [TPtr (TName "sqlite3_stmt"); TName "int"])].
Definition h_api_sqlite3_bind_parameter_index : list (string * ctype) :=
  [("sqlite3_bind_parameter_index", TFun (TName "int") [TPtr (TName "sqlite3_stmt"); TPtr (TConst (TName "char"))])].
Definition h_api_sqlite3_clear_bindings : list (string * ctype) :=
  [("sqlite3_clear_bindings", TFun (TName "int") [TPtr (TName "sqlite3_stmt")])].
Definition h_api_sqlite3_column_count : list (string * ctype) :=
  [("sqlite3_column_count", TFun (TName "int") [TPtr (TName "sqlite3_stmt")])].
Definition h_api_sqlite3_column_name : list (string * ctype) :=
  [("sqlite3_column_name", TFun (TPtr (TConst (TName "char"))) [TPtr (TName "sqlite3_stmt"); TName "int"]);
   ("sqlite3_column_name16", TFun (TPtr (TConst (TName "void"))) [TPtr (TName "sqlite3_stmt"); TName "int"])].
Definition h_api_sqlite3_column_database_name : list (string * ctype) :=
  [("sqlite3_column_database_name", TFun (TPtr (TConst (TName "char"))) [TPtr (TName "sqlite3_stmt"); TName "int"]);
   ("sqlite3_column_database_name16", TFun (TPtr (TConst (TName "void"))) [TPtr (TName "sqlite3_stmt"); TName "int"]);
   ("sqlite3_column_table_name", TFun (TPtr (TConst (TName "char"))) [TPtr (TName "sqlite3_stmt"); TName "int"]);
   ("sqlite3_column_table_name16", TFun (TPtr (TConst (TName "void"))) [TPtr (TName "sqlite3_stmt"); TName "int"]);
   ("sqlite3_column_origin_name", TFun (TPtr (TConst (TName "char"))) [TPtr (TName "sqlite3_stmt"); TName "int"]);
   ("sqlite3_column_origin_name16", TFun (TPtr (TConst (TName "void"))) [TPtr (TName "sqlite3_stmt"); TName "int"])].
Definition h_api_sqlite3_column_decltype : list (string * ctype) :=
  [("sqlite3_column_decltype", TFun (TPtr (TConst (TName "char"))) [TPtr (TName "sqlite3_stmt"); TName "int"]);
   ("sqlite3_column_decltype16", TFun (TPtr (TConst (TName "void"))) [TPtr (TName "sqlite3_stmt"); TName "int"])].
Definition h_api_sqlite3_step : list (string * ctype) :=
  [("sqlite3_step", TFun (TName "int") [TPtr (TName "sqlite3_stmt")])].
Definition h_api_sqlite3_data_count : list (string * ctype) :=
  [("sqlite3_data_count", TFun (TName "int") [TPtr (TName "sqlite3_stmt")])].
Definition h_api_sqlite3_column_blob : list (string * ctype) :=
  [("sqlite3_column_blob", TFun (TPtr (TConst (TName "void"))) [TPtr (TName "sqlite3_stmt"); TName "int"]);
   ("sqlite3_column_double", TFun (TName "double") [TPtr (TName "sqlite3_stmt"); TName "int"]);
   ("sqlite3_column_int", TFun (TName "int") [TPtr (TName "sqlite3_stmt"); TName "int"]);
   ("sqlite3_column_int64", TFun (TName "sqlite3_int64") [TPtr (TName "sqlite3_stmt"); TName "int"]);
   ("sqlite3_column_text", TFun (TPtr (TConst (TName "unsigned char"))) [TPtr (TName "sqlite3_stmt"); TName "int"]);
   ("sqlite3_column_text16", TFun (TPtr (TConst (TName "void"))) [TPtr (TName "sqlite3_stmt"); TName "int"]);
   ("sqlite3_column_value", TFun (TPtr (TName "sqlite3_value")) [TPtr (TName "sqlite3_stmt"); TName "int"]);
   ("sqlite3_column_bytes", TFun (TName "int") [TPtr (TName "sqlite3_stmt"); TName "int"]);
   ("sqlite3_column_bytes16", TFun (TName "int") [TPtr (TName "sqlite3_stmt"); TName "int"]);
   ("sqlite3_column_type", TFun (TName "int") [TPtr (TName "sqlite3_stmt"); TName "int"])].
Definition h_api_sqlite3_finalize : list (string * ctype) :=
  [("sqlite3_finalize", TFun (TName "int") [TPtr (TName "sqlite3_stmt")])].
Definition h_api_sqlite3_reset : list (string * ctype) :=
  [("sqlite3_reset", TFun (TName "int") [TPtr (TName "sqlite3_stmt")])].
Definition h_api_sqlite3_create_function : list (string * ctype) :=
  [("sqlite3_create_function", TFun (TName "int") [TPtr (TName "sqlite3"); TPtr (TConst (TName "char")); TName "int"; TName "int"; TPtr (TName "void"); TPtr (TFun (TName "void") [TPtr (TName "sqlite3_context"); TName "int"; TPtr (TPtr (TName "sqlite3_value"))]); TPtr (TFun (TName "void") [TPtr (TName "sqlite3_context"); TName "int"; TPtr (TPtr (TName "sqlite3_value"))]); TPtr (TFun (TName "void") [TPtr (TName "sqlite3_context")])]);
   ("sqlite3_create_function16", TFun (TName "int") [TPtr (TName "sqlite3"); TPtr (TConst (TName "void")); TName "int"; TName "int"; TPtr (TName "void"); TPtr (TFun (TName "void") [TPtr (TName "sqlite3_context"); TName "int"; TPtr (TPtr (TName "sqlite3_value"))]); TPtr (TFun (TName "void") [TPtr (TName "sqlite3_context"); TName "int"; TPtr (TPtr (TName "sqlite3_value"))]); TPtr (TFun (TName "void") [TPtr (TName "sqlite3_context")])]);
   ("sqlite3_create_function_v2", TFun (TName "int") [TPtr (TName "sqlite3"); TPtr (TConst (TName "char")); TName "int"; TName "int"; TPtr (TName "void"); TPtr (TFun (TName "void") [TPtr (TName "sqlite3_context"); TName "int"; TPtr (TPtr (TName "sqlite3_value"))]); TPtr (TFun (TName "void") [TPtr (TName "sqlite3_context"); TName "int"; TPtr (TPtr (TName "sqlite3_value"))]); TPtr (TFun (TName "void") [TPtr (TName "sqlite3_context")]); TPtr (TFun (TName "void") [TPtr (TName "void")])]);
   ("sqlite3_create_window_function", TFun (TName "int") [TPtr (TName "sqlite3"); TPtr (TConst (TName "char")); TName "int"; TName "int"; TPtr (TName "void"); TPtr (TFun (TName "void") [TPtr (TName "sqlite3_context"); TName "int"; TPtr (TPtr (TName "sqlite3_value"))]); TPtr (TFun (TName "void") [TPtr (TName "sqlite3_context")]); TPtr (TFun (TName "void") [TPtr (TName "sqlite3_context")]); TPtr (TFun (TName "void") [TPtr (TName "sqlite3_context"); TName "int"; TPtr (TPtr (TName "sqlite3_value"))]); TPtr (TFun (TName "void") [TPtr (TName "void")])])].
Definition h_api_sqlite3_aggregate_count : list (string * ctype) :=
  [("sqlite3_aggregate_count", TFun (TName "int") [TPtr (TName "sqlite3_context")]);
   ("sqlite3_expired", TFun (TName "int") [TPtr (TName "sqlite3_stmt")]);
   ("sqlite3_transfer_bindings", TFun (TName "int") [TPtr (TName "sqlite3_stmt"); TPtr (TName "sqlite3_stmt")]);
   ("sqlite3_global_recover", TFun (TName "int") []);
   ("sqlite3_thread_cleanup", TFun (TName "void") []);
   ("sqlite3_memory_alarm", TFun (TName "int") [TPtr (TFun (TName "void") [TPtr (TName "void"); TName "sqlite3_int64"; TName "int"]); TPtr (TName "void"); TName "sqlite3_int64"])].
Definition h_api_sqlite3_value_blob : list (string * ctype) :=
  [("sqlite3_value_blob", TFun (TPtr (TConst (TName "void"))) [TPtr (TName "sqlite3_value")]);
   ("sqlite3_value_double", TFun (TName "double") [TPtr (TName "sqlite3_value")]);
   ("sqlite3_value_int", TFun (TName "int") [TPtr (TName "sqlite3_value")]);
   ("sqlite3_value_int64", TFun (TName "sqlite3_int64") [TPtr (TName "sqlite3_value")]);
   ("sqlite3_value_pointer", TFun (TPtr (TName "void")) [TPtr (TName "sqlite3_value"); TPtr (TConst (TName "char"))]);
   ("sqlite3_value_text", TFun (TPtr (TConst (TName "unsigned char"))) [TPtr (TName "sqlite3_value")]);
   ("sqlite3_value_text16", TFun (TPtr (TConst (TName "void"))) [TPtr (TName "sqlite3_value")]);
   ("sqlite3_value_text16le", TFun (TPtr (TConst (TName "void"))) [TPtr (TName "sqlite3_value")]);
   ("sqlite3_value_text16be", TFun (TPtr (TConst (TName "void"))) [TPtr (TName "sqlite3_value")]);
   ("sqlite3_value_bytes", TFun (TName "int") [TPtr (TName "sqlite3_value")]);
   ("sqlite3_value_bytes16", TFun (TName "int") [TPtr (TName "sqlite3_value")]);
   ("sqlite3_value_type", TFun (TName "int") [TPtr (TName "sqlite3_value")]);
   ("sqlite3_value_numeric_type", TFun (TName "int") [TPtr (TName "sqlite3_value")]);
   ("sqlite3_value_nochange", TFun (TName "int") [TPtr (TName "sqlite3_value")]);
   ("sqlite3_value_frombind", TFun (TName "int") [TPtr (TName "sqlite3_value")])].
Definition h_api_sqlite3_value_encoding : list (string * ctype) :=
  [("sqlite3_value_encoding", TFun (TName "int") [TPtr (TName "sqlite3_value")])].
Definition h_api_sqlite3_value_subtype : list (string * ctype) :=
  [("sqlite3_value_subtype", TFun (TName "unsigned int") [TPtr (TName "sqlite3_value")])].
Definition h_api_sqlite3_value_dup : list (string * ctype) :=
  [("sqlite3_value_dup", TFun (TPtr (TName "sqlite3_value")) [TPtr (TConst (TName "sqlite3_value"))]);
   ("sqlite3_value_free", TFun (TName "void") [TPtr (TName "sqlite3_value")])].
Definition h_api_sqlite3_aggregate_context : list (string * ctype) :=
  [("sqlite3_aggregate_context", TFun (TPtr (TName "void")) [TPtr (TName "sqlite3_context"); TName "int"])].
Definition h_api_sqlite3_user_data : list (string * ctype) :=
  [("sqlite3_user_data", TFun (TPtr (TName "void")) [TPtr (TName "sqlite3_context")])].
Definition h_api_sqlite3_context_db_handle : list (string * ctype) :=
  [("sqlite3_context_db_handle", TFun (TPtr (TName "sqlite3")) [TPtr (TName "sqlite3_context")])].
Definition h_api_sqlite3_get_auxdata : list (string * ctype) :=
  [("sqlite3_get_auxdata", TFun (TPtr (TName "void")) [TPtr (TName "sqlite3_context"); TName "int"]);
   ("sqlite3_set_auxdata", TFun (TName "void") [TPtr (TName "sqlite3_context"); TName "int"; TPtr (TName "void"); TPtr (TFun (TName "void") [TPtr (TName "void")])])].
Definition h_api_sqlite3_get_clientdata : list (string * ctype) :=
  [("sqlite3_get_clientdata", TFun (TPtr (TName "void")) [TPtr (TName "sqlite3"); TPtr (TConst (TName "char"))]);
   ("sqlite3_set_clientdata", TFun (TName "int") [TPtr (TName "sqlite3"); TPtr (TConst (TName "char")); TPtr (TName "void"); TPtr (TFun (TName "void") [TPtr (TName "void")])])].
Definition h_api_sqlite3_result_blob : list (string * ctype) :=
  [("sqlite3_result_blob", TFun (TName "void") [TPtr (TName "sqlite3_context"); TPtr (TConst (TName "void")); TName "int"; TPtr (TFun (TName "void") [TPtr (TName "void")])]);
   ("sqlite3_result_blob64", TFun (TName "void") [TPtr (TName "sqlite3_context"); TPtr (TConst (TName "void")); TName "sqlite3_uint64"; TPtr (TFun (TName "void") [TPtr (TName "void")])]);
   ("sqlite3_result_double", TFun (TName "void") [TPtr (TName "sqlite3_context"); TName "double"]);
   ("sqlite3_result_error", TFun (TName "void") [TPtr (TName "sqlite3_context"); TPtr (TConst (TName "char")); TName "int"]);
   ("sqlite3_result_error16", TFun (TName "void") [TPtr (TName "sqlite3_context"); TPtr (TConst (TName "void")); TName "int"]);
   ("sqlite3_result_error_toobig", TFun (TName "void") [TPtr (TName "sqlite3_context")]);
   ("sqlite3_result_error_nomem", TFun (TName "void") [TPtr (TName "sqlite3_context")]);
   ("sqlite3_result_error_code", TFun (TName "void") [TPtr (TName "sqlite3_context"); TName "int"]);
   ("sqlite3_result_int", TFun (TName "void") [TPtr (TName "sqlite3_context"); TName "int"]);
   ("sqlite3_result_int64", TFun (TName "void") [TPtr (TName "sqlite3_context"); TName "sqlite3_int64"]);
   ("sqlite3_result_null", TFun (TName "void") [TPtr (TName "sqlite3_context")]);
   ("sqlite3_result_text", TFun (TName "void") [TPtr (TName "sqlite3_context"); TPtr (TConst (TName "char")); TName "int"; TPtr (TFun (TName "void") [TPtr (TName "void")])]);
   ("sqlite3_result_text64", TFun (TName "void") [TPtr (TName "sqlite3_context"); TPtr (TConst (TName "char")); TName "sqlite3_uint64"; TPtr (TFun (TName "void") [TPtr (TName "void")]); TName "unsigned char"]);
   ("sqlite3_result_text16", TFun (TName "void") [TPtr (TName "sqlite3_context"); TPtr (TConst (TName "void")); TName "int"; TPtr (TFun (TName "void") [TPtr (TName "void")])]);
   ("sqlite3_result_text16le", TFun (TName "void") [TPtr (TName "sqlite3_context"); TPtr (TConst (TName "void")); TName "int"; TPtr (TFun (TName "void") [TPtr (TName "void")])]);
   ("sqlite3_result_text16be", TFun (TName "void") [TPtr (TName "sqlite3_context"); TPtr (TConst (TName "void")); TName "int"; TPtr (TFun (TName "void") [TPtr (TName "void")])]);
   ("sqlite3_result_value", TFun (TName "void") [TPtr (TName "sqlite3_context"); TPtr (TName "sqlite3_value")]);
   ("sqlite3_result_pointer", TFun (TName "void") [TPtr (TName "sqlite3_context"); TPtr (TName "void"); TPtr (TConst (TName "char")); TPtr (TFun (TName "void") [TPtr (TName "void")])]);
   ("sqlite3_result_zeroblob", TFun (TName "void") [TPtr (TName "sqlite3_context"); TName "int"]);
   ("sqlite3_result_zeroblob64", TFun (TName "int") [TPtr (TName "sqlite3_context"); TName "sqlite3_uint64"])].
Definition h_api_sqlite3_result_subtype : list (string * ctype) :=
  [("sqlite3_result_subtype", TFun (TName "void") [TPtr (TName "sqlite3_context"); TName "unsigned int"])].
Definition h_api_sqlite3_create_collation : list (string * ctype) :=
  [("sqlite3_create_collation", TFun (TName "int") [TPtr (TName "sqlite3"); TPtr (TConst (TName "char")); TName "int"; TPtr (TName "void"); TPtr (TFun (TName "int") [TPtr (TName "void"); TName "int"; TPtr (TConst (TName "void")); TName "int"; TPtr (TConst (TName "void"))])]);
   ("sqlite3_create_collation_v2", TFun (TName "int") [TPtr (TName "sqlite3"); TPtr (TConst (TName "char")); TName "int"; TPtr (TName "void"); TPtr (TFun (TName "int") [TPtr (TName "void"); TName "int"; TPtr (TConst (TName "void")); TName "int"; TPtr (TConst (TName "void"))]); TPtr (TFun (TName "void") [TPtr (TName "void")])]);
   ("sqlite3_create_collation16", TFun (TName "int") [TPtr (TName "sqlite3"); TPtr (TConst (TName "void")); TName "int"; TPtr (TName "void"); TPtr (TFun (TName "int") [TPtr (TName "void"); TName "int"; TPtr (TConst (TName "void")); TName "int"; TPtr (TConst (TName "void"))])])].
Definition h_api_sqlite3_collation_needed : list (string * ctype) :=
  [("sqlite3_collation_needed", TFun (TName "int") [TPtr (TName "sqlite3"); TPtr (TName "void"); TPtr (TFun (TName "void") [TPtr (TName "void"); TPtr (TName "sqlite3"); TName "int"; TPtr (TConst (TName "char"))])]);
   ("sqlite3_collation_needed16", TFun (TName "int") [TPtr (TName "sqlite3"); TPtr (TName "void"); TPtr (TFun (TName "void") [TPtr (TName "void"); TPtr (TName "sqlite3"); TName "int"; TPtr (TConst (TName "void"))])])].
Definition h_api_sqlite3_activate_cerod : list (string * ctype) :=
  [("sqlite3_activate_cerod", TFun (TName "void") [TPtr (TConst (TName "char"))])].
Definition h_api_sqlite3_sleep : list (string * ctype) :=
  [("sqlite3_sleep", TFun (TName "int") [TName "int"])].
Definition h_api_sqlite3_temp_directory : list (string * ctype) :=
  [("sqlite3_temp_directory", TPtr (TName "char"))].
Definition h_api_sqlite3_data_directory : list (string * ctype) :=
  [("sqlite3_data_directory", TPtr (TName "char"))].
Definition h_api_sqlite3_win32_set_directory : list (string * ctype) :=
  [("sqlite3_win32_set_directory", TFun (TName "int") [TName "unsigned long"; TPtr (TName "void")]);
   ("sqlite3_win32_set_directory8", TFun (TName "int") [TName "unsigned long"; TPtr (TConst (TName "char"))]);
   ("sqlite3_win32_set_directory16", TFun (TName "int") [TName "unsigned long"; TPtr (TConst (TName "void"))])].
Definition h_api_sqlite3_get_autocommit : list (string * ctype) :=
  [("sqlite3_get_autocommit", TFun (TName "int") [TPtr (TName "sqlite3")])].
Definition h_api_sqlite3_db_handle : list (string * ctype) :=
  [("sqlite3_db_handle", TFun (TPtr (TName "sqlite3")) [TPtr (TName "sqlite3_stmt")])].
Definition h_api_sqlite3_db_name : list (string * ctype) :=
  [("sqlite3_db_name", TFun (TPtr (TConst (TName "char"))) [TPtr (TName "sqlite3"); TName "int"])].
Definition h_api_sqlite3_db_filename : list (string * ctype) :=
  [("sqlite3_db_filename", TFun (TName "sqlite3_filename") [TPtr (TName "sqlite3"); TPtr (TConst (TName "char"))])].
Definition h_api_sqlite3_db_readonly : list (string * ctype) :=
  [("sqlite3_db_readonly", TFun (TName "int") [TPtr (TName "sqlite3"); TPtr (TConst (TName "char"))])].
Definition h_api_sqlite3_txn_state : list (string * ctype) :=
  [("sqlite3_txn_state", TFun (TName "int") [TPtr (TName "sqlite3"); TPtr (TConst (TName "char"))])].
Definition h_api_sqlite3_next_stmt : list (string * ctype) :=
  [("sqlite3_next_stmt", TFun (TPtr (TName "sqlite3_stmt")) [TPtr (TName "sqlite3"); TPtr (TName "sqlite3_stmt")])].
Definition h_api_sqlite3_commit_hook : list (string * ctype) :=
  [("sqlite3_commit_hook", TFun (TPtr (TName "void")) [TPtr (TName "sqlite3"); TPtr (TFun (TName "int") [TPtr (TName "void")]); TPtr (TName "void")]);
   ("sqlite3_rollback_hook", TFun (TPtr (TName "void")) [TPtr (TName "sqlite3"); TPtr (TFun (TName "void") [TPtr (TName "void")]); TPtr (TName "void")])].
Definition h_api_sqlite3_autovacuum_pages : list (string * ctype) :=
  [("sqlite3_autovacuum_pages", TFun (TName "int") [TPtr (TName "sqlite3"); TPtr (TFun (TName "unsigned int") [TPtr (TName "void"); TPtr (TConst (TName "char")); TName "unsigned int"; TName "unsigned int"; TName "unsigned int"]); TPtr (TName "void"); TPtr (TFun (TName "void") [TPtr (TName "void")])])].
Definition h_api_sqlite3_update_hook : list (string * ctype) :=
  [("sqlite3_update_hook", TFun (TPtr (TName "void")) [TPtr (TName "sqlite3"); TPtr (TFun (TName "void") [TPtr (TName "void"); TName "int"; TPtr (TConst (TName "char")); TPtr (TConst (TName "char")); TName "sqlite3_int64"]); TPtr (TName "void")])].
Definition h_api_sqlite3_enable_shared_cache : list (string * ctype) :=
  [("sqlite3_enable_shared_cache", TFun (TName "int") [TName "int"])].
Definition h_api_sqlite3_release_memory : list (string * ctype) :=
  [("sqlite3_release_memory", TFun (TName "int") [TName "int"])].
Definition h_api_sqlite3_db_release_memory : list (string * ctype) :=
  [("sqlite3_db_release_memory", TFun (TName "int") [TPtr (TName "sqlite3")])].
Definition h_api_sqlite3_soft_heap_limit64 : list (string * ctype) :=
  [("sqlite3_soft_heap_limit64", TFun (TName "sqlite3_int64") [TName "sqlite3_int64"]);
   ("sqlite3_hard_heap_limit64", TFun (TName "sqlite3_int64") [TName "sqlite3_int64"])].
Definition h_api_sqlite3_soft_heap_limit : list (string * ctype) :=
  [("sqlite3_soft_heap_limit", TFun (TName "void") [TName "int"])].
Definition h_api_sqlite3_table_column_metadata : list (string * ctype) :=
  [("sqlite3_table_column_metadata", TFun (TName "int") [TPtr (TName "sqlite3"); TPtr (TConst (TName "char")); TPtr (TConst (TName "char")); TPtr (TConst (TName "char")); TPtr (TPtr (TConst (TName "char"))); TPtr (TPtr (TConst (TName "char"))); TPtr (TName "int"); TPtr (TName "int"); TPtr (TName "int")])].
Definition h_api_sqlite3_load_extension : list (string * ctype) :=
  [("sqlite3_load_extension", TFun (TName "int") [TPtr (TName "sqlite3"); TPtr (TConst (TName "char")); TPtr (TConst (TName "char")); TPtr (TPtr (TName "char"))])].
Definition h_api_sqlite3_enable_load_extension : list (string * ctype) :=
  [("sqlite3_enable_load_extension", TFun (TName "int") [TPtr (TName "sqlite3"); TName "int"])].
Definition h_api_sqlite3_auto_extension : list (string * ctype) :=
  [("sqlite3_auto_extension", TFun (TName "int") [TPtr (TFun (TName "void") [])])].
Definition h_api_sqlite3_cancel_auto_extension : list (string * ctype) :=
  [("sqlite3_cancel_auto_extension", TFun (TName "int") [TPtr (TFun (TName "void") [])])].
Definition h_api_sqlite3_reset_auto_extension : list (string * ctype) :=
  [("sqlite3_reset_auto_extension", TFun (TName "void") [])].
Definition h_api_sqlite3_create_module : list (string * ctype) :=
  [("sqlite3_create_module", TFun (TName "int") [TPtr (TName "sqlite3"); TPtr (TConst (TName "char")); TPtr (TConst (TName "sqlite3_module")); TPtr (TName "void")]);
   ("sqlite3_create_module_v2", TFun (TName "int") [TPtr (TName "sqlite3"); TPtr (TConst (TName "char")); TPtr (TConst (TName "sqlite3_module")); TPtr (TName "void"); TPtr (TFun (TName "void") [TPtr (TName "void")])])].
Definition h_api_sqlite3_drop_modules : list (string * ctype) :=
  [("sqlite3_drop_modules", TFun (TName "int") [TPtr (TName "sqlite3"); TPtr (TPtr (TConst (TName "char")))])].
Definition h_api_sqlite3_declare_vtab : list (string * ctype) :=
  [("sqlite3_declare_vtab", TFun (TName "int") [TPtr (TName "sqlite3"); TPtr (TConst (TName "char"))])].
Definition h_api_sqlite3_overload_function : list (string * ctype) :=
  [("sqlite3_overload_function", TFun (TName "int") [TPtr (TName "sqlite3"); TPtr (TConst (TName "char")); TName "int"])].
Definition h_api_sqlite3_blob_open : list (string * ctype) :=
  [("sqlite3_blob_open", TFun (TName "int") [TPtr (TName "sqlite3"); TPtr (TConst (TName "char")); TPtr (TConst (TName "char")); TPtr (TConst (TName "char")); TName "sqlite3_int64"; TName "int"; TPtr (TPtr (TName "sqlite3_blob"))])].
Definition h_api_sqlite3_blob_reopen : list (string * ctype) :=
  [("sqlite3_blob_reopen", TFun (TName "int") [TPtr (TName "sqlite3_blob"); TName "sqlite3_int64"])].
Definition h_api_sqlite3_blob_close : list (string * ctype) :=
  [("sqlite3_blob_close", TFun (TName "int") [TPtr (TName "sqlite3_blob")])].
Definition h_api_sqlite3_blob_bytes : list (string * ctype) :=
  [("sqlite3_blob_bytes", TFun (TName "int") [TPtr (TName "sqlite3_blob")])].
Definition h_api_sqlite3_blob_read : list (string * ctype) :=
  [("sqlite3_blob_read", TFun (TName "int") [TPtr (TName "sqlite3_blob"); TPtr (TName "void"); TName "int"; TName "int"])].
Definition h_api_sqlite3_blob_write : list (string * ctype) :=
  [("sqlite3_blob_write", TFun (TName "int") [TPtr (TName "sqlite3_blob"); TPtr (TConst (TName "void")); TName "int"; TName "int"])].
Definition h_api_sqlite3_vfs_find : list (string * ctype) :=
  [("sqlite3_vfs_find", TFun (TPtr (TName "sqlite3_vfs")) [TPtr (TConst (TName "char"))]);
   ("sqlite3_vfs_register", TFun (TName "int") [TPtr (TName "sqlite3_vfs"); TName "int"]);
   ("sqlite3_vfs_unregister", TFun (TName "int") [TPtr (TName "sqlite3_vfs")])].
Definition h_api_sqlite3_mutex_alloc : list (string * ctype) :=
  [("sqlite3_mutex_alloc", TFun (TPtr (TName "sqlite3_mutex")) [TName "int"]);
   ("sqlite3_mutex_free", TFun (TName "void") [TPtr (TName "sqlite3_mutex")]);
   ("sqlite3_mutex_enter", TFun (TName "void") [TPtr (TName "sqlite3_mutex")]);
   ("sqlite3_mutex_try", TFun (TName "int") [TPtr (TName "sqlite3_mutex")]);
   ("sqlite3_mutex_leave", TFun (TName "void") [TPtr (TName "sqlite3_mutex")])].
Definition h_api_sqlite3_mutex_held : list (string * ctype) :=
  [("sqlite3_mutex_held", TFun (TName "int") [TPtr (TName "sqlite3_mutex")]);
   ("sqlite3_mutex_notheld", TFun (TName "int") [TPtr (TName "sqlite3_mutex")])].
Definition h_api_sqlite3_db_mutex : list (string * ctype) :=
  [("sqlite3_db_mutex", TFun (TPtr (TName "sqlite3_mutex")) [TPtr (TName "sqlite3")])].
Definition h_api_sqlite3_file_control : list (string * ctype) :=
  [("sqlite3_file_control", TFun (TName "int") [TPtr (TName "sqlite3"); TPtr (TConst (TName "char")); TName "int"; TPtr (TName "void")])].
Definition h_api_sqlite3_test_control : list (string * ctype) :=
  [("sqlite3_test_control", TFun (TName "int") [TName "int"; TDots])].
Definition h_api_sqlite3_keyword_count : list (string * ctype) :=
  [("sqlite3_keyword_count", TFun (TName "int") []);
   ("sqlite3_keyword_name", TFun (TName "int") [TName "int"; TPtr (TPtr (TConst (TName "char"))); TPtr (TName "int")]);
   ("sqlite3_keyword_check", TFun (TName "int") [TPtr (TConst (TName "char")); TName "int"])].
Definition h_api_sqlite3_str_new : list (string * ctype) :=
  [("sqlite3_str_new", TFun (TPtr (TName "sqlite3_str")) [TPtr (TName "sqlite3")])].
Definition h_api_sqlite3_str_finish : list (string * ctype) :=
  [("sqlite3_str_finish", TFun (TPtr (TName "char")) [TPtr (TName "sqlite3_str")])].
Definition h_api_sqlite3_str_appendf : list (string * ctype) :=
  [("sqlite3_str_appendf", TFun (TName "void") [TPtr (TName "sqlite3_str"); TPtr (TConst (TName "char")); TDots]);
   ("sqlite3_str_vappendf", TFun (TName "void") [TPtr (TName "sqlite3_str"); TPtr (TConst (TName "char")); TName "va_list"]);
   ("sqlite3_str_append", TFun (TName "void") [TPtr (TName "sqlite3_str"); TPtr (TConst (TName "char")); TName "int"]);
   ("sqlite3_str_appendall", TFun (TName "void") [TPtr (TName "sqlite3_str"); TPtr (TConst (TName "char"))]);
   ("sqlite3_str_appendchar", TFun (TName "void") [TPtr (TName "sqlite3_str"); TName "int"; TName "char"]);
   ("sqlite3_str_reset", TFun (TName "void") [TPtr (TName "sqlite3_str")])].
Definition h_api_sqlite3_str_errcode : list (string * ctype) :=
  [("sqlite3_str_errcode", TFun (TName "int") [TPtr (TName "sqlite3_str")]);
   ("sqlite3_str_length", TFun (TName "int") [TPtr (TName "sqlite3_str")]);
   ("sqlite3_str_value", TFun (TPtr (TName "char")) [TPtr (TName "sqlite3_str")])].
Definition h_api_sqlite3_status : list (string * ctype) :=
  [("sqlite3_status", TFun (TName "int") [TName "int"; TPtr (TName "int"); TPtr (TName "int"); TName "int"]);
   ("sqlite3_status64", TFun (TName "int") [TName "int"; TPtr (TName "sqlite3_int64"); TPtr (TName "sqlite3_int64"); TName "int"])].
Definition h_api_sqlite3_db_status : list (string * ctype) :=
  [("sqlite3_db_status", TFun (TName "int") [TPtr (TName "sqlite3"); TName "int"; TPtr (TName "int"); TPtr (TName "int"); TName "int"])].
Definition h_api_sqlite3_stmt_status : list (string * ctype) :=
  [("sqlite3_stmt_status", TFun (TName "int") [TPtr (TName "sqlite3_stmt"); TName "int"; TName "int"])].
Definition h_api_sqlite3_backup_init : list (string * ctype) :=
  [("sqlite3_backup_init", TFun (TPtr (TName "sqlite3_backup")) [TPtr (TName "sqlite3"); TPtr (TConst (TName "char")); TPtr (TName "sqlite3"); TPtr (TConst (TName "char"))]);
   ("sqlite3_backup_step", TFun (TName "int") [TPtr (TName "sqlite3_backup"); TName "int"]);
   ("sqlite3_backup_finish", TFun (TName "int") [TPtr (TName "sqlite3_backup")]);
   ("sqlite3_backup_remaining", TFun (TName "int") [TPtr (TName "sqlite3_backup")]);
   ("sqlite3_backup_pagecount", TFun (TName "int") [TPtr (TName "sqlite3_backup")])].
Definition h_api_sqlite3_unlock_notify : list (string * ctype) :=
  [("sqlite3_unlock_notify", TFun (TName "int") [TPtr (TName "sqlite3"); TPtr (TFun (TName "void") [TPtr (TPtr (TName "void")); TName "int"]); TPtr (TName "void")])].
Definition h_api_sqlite3_stricmp : list (string * ctype) :=
  [("sqlite3_stricmp", TFun (TName "int") [TPtr (TConst (TName "char")); TPtr (TConst (TName "char"))]);
   ("sqlite3_strnicmp", TFun (TName "int") [TPtr (TConst (TName "char")); TPtr (TConst (TName "char")); TName "int"])].
Definition h_api_sqlite3_strglob : list (string * ctype) :=
  [("sqlite3_strglob", TFun (TName "int") [TPtr (TConst (TName "char")); TPtr (TConst (TName "char"))])].
Definition h_api_sqlite3_strlike : list (string * ctype) :=
  [("sqlite3_strlike", TFun (TName "int") [TPtr (TConst (TName "char")); TPtr (TConst (TName "char")); TName "unsigned int"])].
Definition h_api_sqlite3_log : list (string * ctype) :=
  [("sqlite3_log", TFun (TName "void") [TName "int"; TPtr (TConst (TName "char")); TDots])].
Definition h_api_sqlite3_wal_hook : list (string * ctype) :=
  [("sqlite3_wal_hook", TFun (TPtr (TName "void")) [TPtr (TName "sqlite3"); TPtr (TFun (TName "int") [TPtr (TName "void"); TPtr (TName "sqlite3"); TPtr (TConst (TName "char")); TName "int"]); TPtr (TName "void")])].
Definition h_api_sqlite3_wal_autocheckpoint : list (string * ctype) :=
  [("sqlite3_wal_autocheckpoint", TFun (TName "int") [TPtr (TName "sqlite3"); TName "int"])].
Definition h_api_sqlite3_wal_checkpoint : list (string * ctype) :=
  [("sqlite3_wal_checkpoint", TFun (TName "int") [TPtr (TName "sqlite3"); TPtr (TConst (TName "char"))])].
Definition h_api_sqlite3_wal_checkpoint_v2 : list (string * ctype) :=
  [("sqlite3_wal_checkpoint_v2", TFun (TName "int") [TPtr (TName "sqlite3"); TPtr (TConst (TName "char")); TName "int"; TPtr (TName "int"); TPtr (TName "int")])].
Definition h_api_sqlite3_vtab_config : list (string * ctype) :=
  [("sqlite3_vtab_config", TFun (TName "int") [TPtr (TName "sqlite3"); TName "int"; TDots])].
Definition h_api_sqlite3_vtab_on_conflict : list (string * ctype) :=
  [("sqlite3_vtab_on_conflict", TFun (TName "int") [TPtr (TName "sqlite3")])].
Definition h_api_sqlite3_vtab_nochange : list (string * ctype) :=
  [("sqlite3_vtab_nochange", TFun (TName "int") [TPtr (TName "sqlite3_context")])].
Definition h_api_sqlite3_vtab_collation : list (string * ctype) :=
  [("sqlite3_vtab_collation", TFun (TPtr (TConst (TName "char"))) [TPtr (TName "sqlite3_index_info"); TName "int"])].
Definition h_api_sqlite3_vtab_distinct : list (string * ctype) :=
  [("sqlite3_vtab_distinct", TFun (TName "int") [TPtr (TName "sqlite3_index_info")])].
Definition h_api_sqlite3_vtab_in : list (string * ctype) :=
  [("sqlite3_vtab_in", TFun (TName "int") [TPtr (TName "sqlite3_index_info"); TName "int"; TName "int"])].
Definition h_api_sqlite3_vtab_in_first : list (string * ctype) :=
  [("sqlite3_vtab_in_first", TFun (TName "int") [TPtr (TName "sqlite3_value"); TPtr (TPtr (TName "sqlite3_value"))]);
   ("sqlite3_vtab_in_next", TFun (TName "int") [TPtr (TName "sqlite3_value"); TPtr (TPtr (TName "sqlite3_value"))])].
Definition h_api_sqlite3_vtab_rhs_value : list (string * ctype) :=
  [("sqlite3_vtab_rhs_value", TFun (TName "int") [TPtr (TName "sqlite3_index_info"); TName "int"; TPtr (TPtr (TName "sqlite3_value"))])].
Definition h_api_sqlite3_stmt_scanstatus : list (string * ctype) :=
  [("sqlite3_stmt_scanstatus", TFun (TName "int") [TPtr (TName "sqlite3_stmt"); TName "int"; TName "int"; TPtr (TName "void")]);
   ("sqlite3_stmt_scanstatus_v2", TFun (TName "int") [TPtr (TName "sqlite3_stmt"); TName "int"; TName "int"; TName "int"; TPtr (TName "void")])].
Definition h_api_sqlite3_stmt_scanstatus_reset : list (string * ctype) :=
  [("sqlite3_stmt_scanstatus_reset", TFun (TName "void") [TPtr (TName "sqlite3_stmt")])].
Definition h_api_sqlite3_db_cacheflush : list (string * ctype) :=
  [("sqlite3_db_cacheflush", TFun (TName "int") [TPtr (TName "sqlite3")])].
Definition h_api_sqlite3_preupdate_hook : list (string * ctype) :=
  [("sqlite3_preupdate_hook", TFun (TPtr (TName "void")) [TPtr (TName "sqlite3"); TPtr (TFun (TName "void") [TPtr (TName "void"); TPtr (TName "sqlite3"); TName "int"; TPtr (TConst (TName "char")); TPtr (TConst (TName "char")); TName "sqlite3_int64"; TName "sqlite3_int64"]); TPtr (TName "void")]);
   ("sqlite3_preupdate_old", TFun (TName "int") [TPtr (TName "sqlite3"); TName "int"; TPtr (TPtr (TName "sqlite3_value"))]);
   ("sqlite3_preupdate_count", TFun (TName "int") [TPtr (TName "sqlite3")]);
   ("sqlite3_preupdate_depth", TFun (TName "int") [TPtr (TName "sqlite3")]);
   ("sqlite3_preupdate_new", TFun (TName "int") [TPtr (TName "sqlite3"); TName "int"; TPtr (TPtr (TName "sqlite3_value"))]);
   ("sqlite3_preupdate_blobwrite", TFun (TName "int") [TPtr (TName "sqlite3")])].
Definition h_api_sqlite3_system_errno : list (string * ctype) :=
  [("sqlite3_system_errno", TFun (TName "int") [TPtr (TName "sqlite3")])].
Definition h_api_sqlite3_snapshot_get : list (string * ctype) :=
  [("sqlite3_snapshot_get", TFun (TName "int") [TPtr (TName "sqlite3"); TPtr (TConst (TName "char")); TPtr (TPtr (TName "sqlite3_snapshot"))])].
Definition h_api_sqlite3_snapshot_open : list (string * ctype) :=
  [("sqlite3_snapshot_open", TFun (TName "int") [TPtr (TName "sqlite3"); TPtr (TConst (TName "char")); TPtr (TName "sqlite3_snapshot")])].
Definition h_api_sqlite3_snapshot_free : list (string * ctype) :=
  [("sqlite3_snapshot_free", TFun (TName "void") [TPtr (TName "sqlite3_snapshot")])].
Definition h_api_sqlite3_snapshot_cmp : list (string * ctype) :=
  [("sqlite3_snapshot_cmp", TFun (TName "int") [TPtr (TName "sqlite3_snapshot"); TPtr (TName "sqlite3_snapshot")])].
Definition h_api_sqlite3_snapshot_recover : list (string * ctype) :=
  [("sqlite3_snapshot_recover", TFun (TName "int") [TPtr (TName "sqlite3"); TPtr (TConst (TName "char"))])].
Definition h_api_sqlite3_serialize : list (string * ctype) :=
  [("sqlite3_serialize", TFun (TPtr (TName "unsigned char")) [TPtr (TName "sqlite3"); TPtr (TConst (TName "char")); TPtr (TName "sqlite3_int64"); TName "unsigned int"])].
Definition h_api_sqlite3_deserialize : list (string * ctype) :=
  [("sqlite3_deserialize", TFun (TName "int") [TPtr (TName "sqlite3"); TPtr (TConst (TName "char")); TPtr (TName "unsigned char"); TName "sqlite3_int64"; TName "sqlite3_int64"; TName "unsigned"])].
Definition h_api_sqlite3_rtree_geometry_callback : list (string * ctype) :=
  [("sqlite3_rtree_geometry_callback", TFun (TName "int") [TPtr (TName "sqlite3"); TPtr (TConst (TName "char")); TPtr (TFun (TName "int") [TPtr (TName "sqlite3_rtree_geometry"); TName "int"; TPtr (TName "sqlite3_rtree_dbl"); TPtr (TName "int")]); TPtr (TName "void")])].
Definition h_api_sqlite3_rtree_query_callback : list (string * ctype) :=
  [("sqlite3_rtree_query_callback", TFun (TName "int") [TPtr (TName "sqlite3"); TPtr (TConst (TName "char")); TPtr (TFun (TName "int") [TPtr (TName "sqlite3_rtree_query_info")]); TPtr (TName "void"); TPtr (TFun (TName "void") [TPtr (TName "void")])])].
Definition h_api_sqlite3session_create : list (string * ctype) :=
  [("sqlite3session_create", TFun (TName "int") [TPtr (TName "sqlite3"); TPtr (TConst (TName "char")); TPtr (TPtr (TName "sqlite3_session"))])].
Definition h_api_sqlite3session_delete : list (string * ctype) :=
  [("sqlite3session_delete", TFun (TName "void") [TPtr (TName "sqlite3_session")])].
Definition h_api_sqlite3session_object_config : list (string * ctype) :=
  [("sqlite3session_object_config", TFun (TName "int") [TPtr (TName "sqlite3_session"); TName "int"; TPtr (TName "void")])].
Definition h_api_sqlite3session_enable : list (string * ctype) :=
  [("sqlite3session_enable", TFun (TName "int") [TPtr (TName "sqlite3_session"); TName "int"])].
Definition h_api_sqlite3session_indirect : list (string * ctype) :=
  [("sqlite3session_indirect", TFun (TName "int") [TPtr (TName "sqlite3_session"); TName "int"])].
Definition h_api_sqlite3session_attach : list (string * ctype) :=
  [("sqlite3session_attach", TFun (TName "int") [TPtr (TName "sqlite3_session"); TPtr (TConst (TName "char"))])].
Definition h_api_sqlite3session_table_filter : list (string * ctype) :=
  [("sqlite3session_table_filter", TFun (TName "void") [TPtr (TName "sqlite3_session"); TPtr (TFun (TName "int") [TPtr (TName "void"); TPtr (TConst (TName "char"))]); TPtr (TName "void")])].
Definition h_api_sqlite3session_changeset : list (string * ctype) :=
  [("sqlite3session_changeset", TFun (TName "int") [TPtr (TName "sqlite3_session"); TPtr (TName "int"); TPtr (TPtr (TName "void"))])].
Definition h_api_sqlite3session_changeset_size : list (string * ctype) :=
  [("sqlite3session_changeset_size", TFun (TName "sqlite3_int64") [TPtr (TName "sqlite3_session")])].
Definition h_api_sqlite3session_diff : list (string * ctype) :=
  [("sqlite3session_diff", TFun (TName "int") [TPtr (TName "sqlite3_session"); TPtr (TConst (TName "char")); TPtr (TConst (TName "char")); TPtr (TPtr (TName "char"))])].
Definition h_api_sqlite3session_patchset : list (string * ctype) :=
  [("sqlite3session_patchset", TFun (TName "int") [TPtr (TName "sqlite3_session"); TPtr (TName "int"); TPtr (TPtr (TName "void"))])].
Definition h_api_sqlite3session_isempty : list (string * ctype) :=
  [("sqlite3session_isempty", TFun (TName "int") [TPtr (TName "sqlite3_session")])].
Definition h_api_sqlite3session_memory_used : list (string * ctype) :=
  [("sqlite3session_memory_used", TFun (TName "sqlite3_int64") [TPtr (TName "sqlite3_session")])].
Definition h_api_sqlite3changeset_start : list (string * ctype) :=
  [("sqlite3changeset_start", TFun (TName "int") [TPtr (TPtr (TName "sqlite3_changeset_iter")); TName "int"; TPtr (TName "void")]);
   ("sqlite3changeset_start_v2", TFun (TName "int") [TPtr (TPtr (TName "sqlite3_changeset_iter")); TName "int"; TPtr (TName "void"); TName "int"])].
Definition h_api_sqlite3changeset_next : list (string * ctype) :=
  [("sqlite3changeset_next", TFun (TName "int") [TPtr (TName "sqlite3_changeset_iter")])].
Definition h_api_sqlite3changeset_op : list (string * ctype) :=
  [("sqlite3changeset_op", TFun (TName "int") [TPtr (TName "sqlite3_changeset_iter"); TPtr (TPtr (TConst (TName "char"))); TPtr (TName "int"); TPtr (TName "int"); TPtr (TName "int")])].
Definition h_api_sqlite3changeset_pk : list (string * ctype) :=
  [("sqlite3changeset_pk", TFun (TName "int") [TPtr (TName "sqlite3_changeset_iter"); TPtr (TPtr (TName "unsigned char")); TPtr (TName "int")])].
Definition h_api_sqlite3changeset_old : list (string * ctype) :=
  [("sqlite3changeset_old", TFun (TName "int") [TPtr (TName "sqlite3_changeset_iter"); TName "int"; TPtr (TPtr (TName "sqlite3_value"))])].
Definition h_api_sqlite3changeset_new : list (string * ctype) :=
  [("sqlite3changeset_new", TFun (TName "int") [TPtr (TName "sqlite3_changeset_iter"); TName "int"; TPtr (TPtr (TName "sqlite3_value"))])].
Definition h_api_sqlite3changeset_conflict : list (string * ctype) :=
  [("sqlite3changeset_conflict", TFun (TName "int") [TPtr (TName "sqlite3_changeset_iter"); TName "int"; TPtr (TPtr (TName "sqlite3_value"))])].
Definition h_api_sqlite3changeset_fk_conflicts : list (string * ctype) :=
  [("sqlite3changeset_fk_conflicts", TFun (TName "int") [TPtr (TName "sqlite3_changeset_iter"); TPtr (TName "int")])].
Definition h_api_sqlite3changeset_finalize : list (string * ctype) :=
  [("sqlite3changeset_finalize", TFun (TName "int") [TPtr (TName "sqlite3_changeset_iter")])].
Definition h_api_sqlite3changeset_invert : list (string * ctype) :=
  [("sqlite3changeset_invert", TFun (TName "int") [TName "int"; TPtr (TConst (TName "void")); TPtr (TName "int"); TPtr (TPtr (TName "void"))])].
Definition h_api_sqlite3changeset_concat : list (string * ctype) :=
  [("sqlite3changeset_concat", TFun (TName "int") [TName "int"; TPtr (TName "void"); TName "int"; TPtr (TName "void"); TPtr (TName "int"); TPtr (TPtr (TName "void"))])].
Definition h_api_sqlite3changegroup_new : list (string * ctype) :=
  [("sqlite3changegroup_new", TFun (TName "int") [TPtr (TPtr (TName "sqlite3_changegroup"))])].
Definition h_api_sqlite3changegroup_schema : list (string * ctype) :=
  [("sqlite3changegroup_schema", TFun (TName "int") [TPtr (TName "sqlite3_changegroup"); TPtr (TName "sqlite3"); TPtr (TConst (TName "char"))])].
Definition h_api_sqlite3changegroup_add : list (string * ctype) :=
  [("sqlite3changegroup_add", TFun (TName "int") [TPtr (TName "sqlite3_changegroup"); TName "int"; TPtr (TName "void")])].
Definition h_api_sqlite3changegroup_add_change : list (string * ctype) :=
  [("sqlite3changegroup_add_change", TFun (TName "int") [TPtr (TName "sqlite3_changegroup"); TPtr (TName "sqlite3_changeset_iter")])].
Definition h_api_sqlite3changegroup_output : list (string * ctype) :=
  [("sqlite3changegroup_output", TFun (TName "int") [TPtr (TName "sqlite3_changegroup"); TPtr (TName "int"); TPtr (TPtr (TName "void"))])].
Definition h_api_sqlite3changegroup_delete : list (string * ctype) :=
  [("sqlite3changegroup_delete", TFun (TName "void") [TPtr (TName "sqlite3_changegroup")])].
Definition h_api_sqlite3changeset_apply : list (string * ctype) :=
  [("sqlite3changeset_apply", TFun (TName "int") [TPtr (TName "sqlite3"); TName "int"; TPtr (TName "void"); TPtr (TFun (TName "int") [TPtr (TName "void"); TPtr (TConst (TName "char"))]); TPtr (TFun (TName "int") [TPtr (TName "void"); TName "int"; TPtr (TName "sqlite3_changeset_iter")]); TPtr (TName "void")]);
   ("sqlite3changeset_apply_v2", TFun (TName "int") [TPtr (TName "sqlite3"); TName "int"; TPtr (TName "void"); TPtr (TFun (TName "int") [TPtr (TName "void"); TPtr (TConst (TName "char"))]); TPtr (TFun (TName "int") [TPtr (TName "void"); TName "int"; TPtr (TName "sqlite3_changeset_iter")]); TPtr (TName "void"); TPtr (TPtr (TName "void")); TPtr (TName "int"); TName "int"])].
Definition h_api_sqlite3rebaser_create : list (string * ctype) :=
  [("sqlite3rebaser_create", TFun (TName "int") [TPtr (TPtr (TName "sqlite3_rebaser"))])].
Definition h_api_sqlite3rebaser_configure : list (string * ctype) :=
  [("sqlite3rebaser_configure", TFun (TName "int") [TPtr (TName "sqlite3_rebaser"); TName "int"; TPtr (TConst (TName "void"))])].
Definition h_api_sqlite3rebaser_rebase : list (string * ctype) :=
  [("sqlite3rebaser_rebase", TFun (TName "int") [TPtr (TName "sqlite3_rebaser"); TName "int"; TPtr (TConst (TName "void")); TPtr (TName "int"); TPtr (TPtr (TName "void"))])].
Definition h_api_sqlite3rebaser_delete : list (string * ctype) :=
  [("sqlite3rebaser_delete", TFun (TName "void") [TPtr (TName "sqlite3_rebaser")])].
Definition h_api_sqlite3changeset_apply_strm : list (string * ctype) :=
  [("sqlite3changeset_apply_strm", TFun (TName "int") [TPtr (TName "sqlite3"); TPtr (TFun (TName "int") [TPtr (TName "void"); TPtr (TName "void"); TPtr (TName "int")]); TPtr (TName "void"); TPtr (TFun (TName "int") [TPtr (TName "void"); TPtr (TConst (TName "char"))]); TPtr (TFun (TName "int") [TPtr (TName "void"); TName "int"; TPtr (TName "sqlite3_changeset_iter")]); TPtr (TName "void")]);
   ("sqlite3changeset_apply_v2_strm", TFun (TName "int") [TPtr (TName "sqlite3"); TPtr (TFun (TName "int") [TPtr (TName "void"); TPtr (TName "void"); TPtr (TName "int")]); TPtr (TName "void"); TPtr (TFun (TName "int") [TPtr (TName "void"); TPtr (TConst (TName "char"))]); TPtr (TFun (TName "int") [TPtr (TName "void"); TName "int"; TPtr (TName "sqlite3_changeset_iter")]); TPtr (TName "void"); TPtr (TPtr (TName "void")); TPtr (TName "int"); TName "int"]);
   ("sqlite3changeset_concat_strm", TFun (TName "int") [TPtr (TFun (TName "int") [TPtr (TName "void"); TPtr (TName "void"); TPtr (TName "int")]); TPtr (TName "void"); TPtr (TFun (TName "int") [TPtr (TName "void"); TPtr (TName "void"); TPtr (TName "int")]); TPtr (TName "void"); TPtr (TFun (TName "int") [TPtr (TName "void"); TPtr (TConst (TName "void")); TName "int"]); TPtr (TName "void")]);
   ("sqlite3changeset_invert_strm", TFun (TName "int") [TPtr (TFun (TName "int") [TPtr (TName "void"); TPtr (TName "void"); TPtr (TName "int")]); TPtr (TName "void"); TPtr (TFun (TName "int") [TPtr (TName "void"); TPtr (TConst (TName "void")); TName "int"]); TPtr (TName "void")]);
   ("sqlite3changeset_start_strm", TFun (TName "int") [TPtr (TPtr (TName "sqlite3_changeset_iter")); TPtr (TFun (TName "int") [TPtr (TName "void"); TPtr (TName "void"); TPtr (TName "int")]); TPtr (TName "void")]);
   ("sqlite3changeset_start_v2_strm", TFun (TName "int") [TPtr (TPtr (TName "sqlite3_changeset_iter")); TPtr (TFun (TName "int") [TPtr (TName "void"); TPtr (TName "void"); TPtr (TName "int")]); TPtr (TName "void"); TName "int"]);
   ("sqlite3session_changeset_strm", TFun (TName "int") [TPtr (TName "sqlite3_session"); TPtr (TFun (TName "int") [TPtr (TName "void"); TPtr (TConst (TName "void")); TName "int"]); TPtr (TName "void")]);
   ("sqlite3session_patchset_strm", TFun (TName "int") [TPtr (TName "sqlite3_session"); TPtr (TFun (TName "int") [TPtr (TName "void"); TPtr (TConst (TName "void")); TName "int"]); TPtr (TName "void")]);
   ("sqlite3changegroup_add_strm", TFun (TName "int") [TPtr (TName "sqlite3_changegroup"); TPtr (TFun (TName "int") [TPtr (TName "void"); TPtr (TName "void"); TPtr (TName "int")]); TPtr (TName "void")]);
   ("sqlite3changegroup_output_strm", TFun (TName "int") [TPtr (TName "sqlite3_changegroup"); TPtr (TFun (TName "int") [TPtr (TName "void"); TPtr (TConst (TName "void")); TName "int"]); TPtr (TName "void")]);
   ("sqlite3rebaser_rebase_strm", TFun (TName "int") [TPtr (TName "sqlite3_rebaser"); TPtr (TFun (TName "int") [TPtr (TName "void"); TPtr (TName "void"); TPtr (TName "int")]); TPtr (TName "void"); TPtr (TFun (TName "int") [TPtr (TName "void"); TPtr (TConst (TName "void")); TName "int"]); TPtr (TName "void")])].
Definition h_api_sqlite3session_config : list (string * ctype) :=
  [("sqlite3session_config", TFun (TName "int") [TName "int"; TPtr (TName "void")])].

Definition h_prototypes : list (string * ctype) :=
  concat [h_api_sqlite3_version; h_api_sqlite3_compileoption_used; h_api_sqlite3_threadsafe; h_api_sqlite3_close; h_api_sqlite3_exec; h_api_sqlite3_initialize; h_api_sqlite3_config; h_api_sqlite3_db_config; h_api_sqlite3_extended_result_codes; h_api_sqlite3_last_insert_rowid; h_api_sqlite3_set_last_insert_rowid; h_api_sqlite3_changes; h_api_sqlite3_total_changes; h_api_sqlite3_interrupt; h_api_sqlite3_complete; h_api_sqlite3_busy_handler; h_api_sqlite3_busy_timeout; h_api_sqlite3_setlk_timeout; h_api_sqlite3_get_table; h_api_sqlite3_mprintf; h_api_sqlite3_malloc; h_api_sqlite3_memory_used; h_api_sqlite3_randomness; h_api_sqlite3_set_authorizer; h_api_sqlite3_trace; h_api_sqlite3_trace_v2; h_api_sqlite3_progress_handler; h_api_sqlite3_open; h_api_sqlite3_uri_parameter; h_api_sqlite3_filename_database; h_api_sqlite3_database_file_object; h_api_sqlite3_create_filename; h_api_sqlite3_errcode; h_api_sqlite3_limit; h_api_sqlite3_prepare; h_api_sqlite3_sql; h_api_sqlite3_stmt_readonly; h_api_sqlite3_stmt_isexplain; h_api_sqlite3_stmt_explain; h_api_sqlite3_stmt_busy; h_api_sqlite3_bind_blob; h_api_sqlite3_bind_parameter_count; h_api_sqlite3_bind_parameter_name; h_api_sqlite3_bind_parameter_index; h_api_sqlite3_clear_bindings; h_api_sqlite3_column_count; h_api_sqlite3_column_name; h_api_sqlite3_column_database_name; h_api_sqlite3_column_decltype; h_api_sqlite3_step; h_api_sqlite3_data_count; h_api_sqlite3_column_blob; h_api_sqlite3_finalize; h_api_sqlite3_reset; h_api_sqlite3_create_function; h_api_sqlite3_aggregate_count; h_api_sqlite3_value_blob; h_api_sqlite3_value_encoding; h_api_sqlite3_value_subtype; h_api_sqlite3_value_dup; h_api_sqlite3_aggregate_context; h_api_sqlite3_user_data; h_api_sqlite3_context_db_handle; h_api_sqlite3_get_auxdata; h_api_sqlite3_get_clientdata; h_api_sqlite3_result_blob; h_api_sqlite3_result_subtype; h_api_sqlite3_create_collation; h_api_sqlite3_collation_needed; h_api_sqlite3_activate_cerod; h_api_sqlite3_sleep; h_api_sqlite3_temp_directory; h_api_sqlite3_data_directory; h_api_sqlite3_win32_set_directory; h_api_sqlite3_get_autocommit; h_api_sqlite3_db_handle; h_api_sqlite3_db_name; h_api_sqlite3_db_filename; h_api_sqlite3_db_readonly; h_api_sqlite3_txn_state; h_api_sqlite3_next_stmt; h_api_sqlite3_commit_hook; h_api_sqlite3_autovacuum_pages; h_api_sqlite3_update_hook; h_api_sqlite3_enable_shared_cache; h_api_sqlite3_release_memory; h_api_sqlite3_db_release_memory; h_api_sqlite3_soft_heap_limit64; h_api_sqlite3_soft_heap_limit; h_api_sqlite3_table_column_metadata; h_api_sqlite3_load_extension; h_api_sqlite3_enable_load_extension; h_api_sqlite3_auto_extension; h_api_sqlite3_cancel_auto_extension; h_api_sqlite3_reset_auto_extension; h_api_sqlite3_create_module; h_api_sqlite3_drop_modules; h_api_sqlite3_declare_vtab; h_api_sqlite3_overload_function; h_api_sqlite3_blob_open; h_api_sqlite3_blob_reopen; h_api_sqlite3_blob_close; h_api_sqlite3_blob_bytes; h_api_sqlite3_blob_read; h_api_sqlite3_blob_write; h_api_sqlite3_vfs_find; h_api_sqlite3_mutex_alloc; h_api_sqlite3_mutex_held; h_api_sqlite3_db_mutex; h_api_sqlite3_file_control; h_api_sqlite3_test_control; h_api_sqlite3_keyword_count; h_api_sqlite3_str_new; h_api_sqlite3_str_finish; h_api_sqlite3_str_appendf; h_api_sqlite3_str_errcode; h_api_sqlite3_status; h_api_sqlite3_db_status; h_api_sqlite3_stmt_status; h_api_sqlite3_backup_init; h_api_sqlite3_unlock_notify; h_api_sqlite3_stricmp; h_api_sqlite3_strglob; h_api_sqlite3_strlike; h_api_sqlite3_log; h_api_sqlite3_wal_hook; h_api_sqlite3_wal_autocheckpoint; h_api_sqlite3_wal_checkpoint; h_api_sqlite3_wal_checkpoint_v2; h_api_sqlite3_vtab_config; h_api_sqlite3_vtab_on_conflict; h_api_sqlite3_vtab_nochange; h_api_sqlite3_vtab_collation; h_api_sqlite3_vtab_distinct; h_api_sqlite3_vtab_in; h_api_sqlite3_vtab_in_first; h_api_sqlite3_vtab_rhs_value; h_api_sqlite3_stmt_scanstatus; h_api_sqlite3_stmt_scanstatus_reset; h_api_sqlite3_db_cacheflush; h_api_sqlite3_preupdate_hook; h_api_sqlite3_system_errno; h_api_sqlite3_snapshot_get; h_api_sqlite3_snapshot_open; h_api_sqlite3_snapshot_free; h_api_sqlite3_snapshot_cmp; h_api_sqlite3_snapshot_recover; h_api_sqlite3_serialize; h_api_sqlite3_deserialize; h_api_sqlite3_rtree_geometry_callback; h_api_sqlite3_rtree_query_callback; h_api_sqlite3session_create; h_api_sqlite3session_delete; h_api_sqlite3session_object_config; h_api_sqlite3session_enable; h_api_sqlite3session_indirect; h_api_sqlite3session_attach; h_api_sqlite3session_table_filter; h_api_sqlite3session_changeset; h_api_sqlite3session_changeset_size; h_api_sqlite3session_diff; h_api_sqlite3session_patchset; h_api_sqlite3session_isempty; h_api_sqlite3session_memory_used; h_api_sqlite3changeset_start; h_api_sqlite3changeset_next; h_api_sqlite3changeset_op; h_api_sqlite3changeset_pk; h_api_sqlite3changeset_old; h_api_sqlite3changeset_new; h_api_sqlite3changeset_conflict; h_api_sqlite3changeset_fk_conflicts; h_api_sqlite3changeset_finalize; h_api_sqlite3changeset_invert; h_api_sqlite3changeset_concat; h_api_sqlite3changegroup_new; h_api_sqlite3changegroup_schema; h_api_sqlite3changegroup_add; h_api_sqlite3changegroup_add_change; h_api_sqlite3changegroup_output; h_api_sqlite3changegroup_delete; h_api_sqlite3changeset_apply; h_api_sqlite3rebaser_create; h_api_sqlite3rebaser_configure; h_api_sqlite3rebaser_rebase; h_api_sqlite3rebaser_delete; h_api_sqlite3changeset_apply_strm; h_api_sqlite3session_config].

(** ** Structures: the ordered list of members *)

Definition h_struct_sqlite3_file : list (string * ctype) :=
  [("pMethods", TPtr (TConst (TName "struct sqlite3_io_methods")))].

Definition h_struct_sqlite3_io_methods : list (string * ctype) :=
  [("iVersion", TName "int");
   ("xClose", TPtr (TFun (TName "int") [TPtr (TName "sqlite3_file")]));
   ("xRead", TPtr (TFun (TName "int") [TPtr (TName "sqlite3_file"); TPtr (TName "void"); TName "int"; TName "sqlite3_int64"]));
   ("xWrite", TPtr (TFun (TName "int") [TPtr (TName "sqlite3_file"); TPtr (TConst (TName "void")); TName "int"; TName "sqlite3_int64"]));
   ("xTruncate", TPtr (TFun (TName "int") [TPtr (TName "sqlite3_file"); TName "sqlite3_int64"]));
   ("xSync", TPtr (TFun (TName "int") [TPtr (TName "sqlite3_file"); TName "int"]));
   ("xFileSize", TPtr (TFun (TName "int") [TPtr (TName "sqlite3_file"); TPtr (TName "sqlite3_int64")]));
   ("xLock", TPtr (TFun (TName "int") [TPtr (TName "sqlite3_file"); TName "int"]));
   ("xUnlock", TPtr (TFun (TName "int") [TPtr (TName "sqlite3_file"); TName "int"]));
   ("xCheckReservedLock", TPtr (TFun (TName "int") [TPtr (TName "sqlite3_file"); TPtr (TName "int")]));
   ("xFileControl", TPtr (TFun (TName "int") [TPtr (TName "sqlite3_file"); TName "int"; TPtr (TName "void")]));
   ("xSectorSize", TPtr (TFun (TName "int") [TPtr (TName "sqlite3_file")]));
   ("xDeviceCharacteristics", TPtr (TFun (TName "int") [TPtr (TName "sqlite3_file")]));
   ("xShmMap", TPtr (TFun (TName "int") [TPtr (TName "sqlite3_file"); TName "int"; TName "int"; TName "int"; TPtr (TPtr (TVolatile (TName "void")))]));
   ("xShmLock", TPtr (TFun (TName "int") [TPtr (TName "sqlite3_file"); TName "int"; TName "int"; TName "int"]));
   ("xShmBarrier", TPtr (TFun (TName "void") [TPtr (TName "sqlite3_file")]));
   ("xShmUnmap", TPtr (TFun (TName "int") [TPtr (TName "sqlite3_file"); TName "int"]));
   ("xFetch", TPtr (TFun (TName "int") [TPtr (TName "sqlite3_file"); TName "sqlite3_int64"; TName "int"; TPtr (TPtr (TName "void"))]));
   ("xUnfetch", TPtr (TFun (TName "int") [TPtr (TName "sqlite3_file"); TName "sqlite3_int64"; TPtr (TName "void")]))].

Definition h_struct_sqlite3_vfs : list (string * ctype) :=
  [("iVersion", TName "int");
   ("szOsFile", TName "int");
   ("mxPathname", TName "int");
   ("pNext", TPtr (TName "sqlite3_vfs"));
   ("zName", TPtr (TConst (TName "char")));
   ("pAppData", TPtr (TName "void"));
   ("xOpen", TPtr (TFun (TName "int") [TPtr (TName "sqlite3_vfs"); TName "sqlite3_filename"; TPtr (TName "sqlite3_file"); TName "int"; TPtr (TName "int")]));
   ("xDelete", TPtr (TFun (TName "int") [TPtr (TName "sqlite3_vfs"); TPtr (TConst (TName "char")); TName "int"]));
   ("xAccess", TPtr (TFun (TName "int") [TPtr (TName "sqlite3_vfs"); TPtr (TConst (TName "char")); TName "int"; TPtr (TName "int")]));
   ("xFullPathname", TPtr (TFun (TName "int") [TPtr (TName "sqlite3_vfs"); TPtr (TConst (TName "char")); TName "int"; TPtr (TName "char")]));
   ("xDlOpen", TPtr (TFun (TPtr (TName "void")) [TPtr (TName "sqlite3_vfs"); TPtr (TConst (TName "char"))]));
   ("xDlError", TPtr (TFun (TName "void") [TPtr (TName "sqlite3_vfs"); TName "int"; TPtr (TName "char")]));
   ("xDlSym", TPtr (TFun (TPtr (TFun (TName "void") [])) [TPtr (TName "sqlite3_vfs"); TPtr (TName "void"); TPtr (TConst (TName "char"))]));
   ("xDlClose", TPtr (TFun (TName "void") [TPtr (TName "sqlite3_vfs"); TPtr (TName "void")]));
   ("xRandomness", TPtr (TFun (TName "int") [TPtr (TName "sqlite3_vfs"); TName "int"; TPtr (TName "char")]));
   ("xSleep", TPtr (TFun (TName "int") [TPtr (TName "sqlite3_vfs"); TName "int"]));
   ("xCurrentTime", TPtr (TFun (TName "int") [TPtr (TName "sqlite3_vfs"); TPtr (TName "double")]));
   ("xGetLastError", TPtr (TFun (TName "int") [TPtr (TName "sqlite3_vfs"); TName "int"; TPtr (TName "char")]));
   ("xCurrentTimeInt64", TPtr (TFun (TName "int") [TPtr (TName "sqlite3_vfs"); TPtr (TName "sqlite3_int64")]));
   ("xSetSystemCall", TPtr (TFun (TName "int") [TPtr (TName "sqlite3_vfs"); TPtr (TConst (TName "char")); TName "sqlite3_syscall_ptr"]));
   ("xGetSystemCall", TPtr (TFun (TName "sqlite3_syscall_ptr") [TPtr (TName "sqlite3_vfs"); TPtr (TConst (TName "char"))]));
   ("xNextSystemCall", TPtr (TFun (TPtr (TConst (TName "char"))) [TPtr (TName "sqlite3_vfs"); TPtr (TConst (TName "char"))]))].

Definition h_struct_sqlite3_mem_methods : list (string * ctype) :=
  [("xMalloc", TPtr (TFun (TPtr (TName "void")) [TName "int"]));
   ("xFree", TPtr (TFun (TName "void") [TPtr (TName "void")]));
   ("xRealloc", TPtr (TFun (TPtr (TName "void")) [TPtr (TName "void"); TName "int"]));
   ("xSize", TPtr (TFun (TName "int") [TPtr (TName "void")]));
   ("xRoundup", TPtr (TFun (TName "int") [TName "int"]));
   ("xInit", TPtr (TFun (TName "int") [TPtr (TName "void")]));
   ("xShutdown", TPtr (TFun (TName "void") [TPtr (TName "void")]));
   ("pAppData", TPtr (TName "void"))].

Definition h_struct_sqlite3_module : list (string * ctype) :=
  [("iVersion", TName "int");
   ("xCreate", TPtr (TFun (TName "int") [TPtr (TName "sqlite3"); TPtr (TName "void"); TName "int"; TPtr (TConst (TPtr (TConst (TName "char")))); TPtr (TPtr (TName "sqlite3_vtab")); TPtr (TPtr (TName "char"))]));
   ("xConnect", TPtr (TFun (TName "int") [TPtr (TName "sqlite3"); TPtr (TName "void"); TName "int"; TPtr (TConst (TPtr (TConst (TName "char")))); TPtr (TPtr (TName "sqlite3_vtab")); TPtr (TPtr (TName "char"))]));
   ("xBestIndex", TPtr (TFun (TName "int") [TPtr (TName "sqlite3_vtab"); TPtr (TName "sqlite3_index_info")]));
   ("xDisconnect", TPtr (TFun (TName "int") [TPtr (TName "sqlite3_vtab")]));
   ("xDestroy", TPtr (TFun (TName "int") [TPtr (TName "sqlite3_vtab")]));
   ("xOpen", TPtr (TFun (TName "int") [TPtr (TName "sqlite3_vtab"); TPtr (TPtr (TName "sqlite3_vtab_cursor"))]));
   ("xClose", TPtr (TFun (TName "int") [TPtr (TName "sqlite3_vtab_cursor")]));
   ("xFilter", TPtr (TFun (TName "int") [TPtr (TName "sqlite3_vtab_cursor"); TName "int"; TPtr (TConst (TName "char")); TName "int"; TPtr (TPtr (TName "sqlite3_value"))]));
   ("xNext", TPtr (TFun (TName "int") [TPtr (TName "sqlite3_vtab_cursor")]));
   ("xEof", TPtr (TFun (TName "int") [TPtr (TName "sqlite3_vtab_cursor")]));
   ("xColumn", TPtr (TFun (TName "int") [TPtr (TName "sqlite3_vtab_cursor"); TPtr (TName "sqlite3_context"); TName "int"]));
   ("xRowid", TPtr (TFun (TName "int") [TPtr (TName "sqlite3_vtab_cursor"); TPtr (TName "sqlite3_int64")]));
   ("xUpdate", TPtr (TFun (TName "int") [TPtr (TName "sqlite3_vtab"); TName "int"; TPtr (TPtr (TName "sqlite3_value")); TPtr (TName "sqlite3_int64")]));
   ("xBegin", TPtr (TFun (TName "int") [TPtr (TName "sqlite3_vtab")]));
   ("xSync", TPtr (TFun (TName "int") [TPtr (TName "sqlite3_vtab")]));
   ("xCommit", TPtr (TFun (TName "int") [TPtr (TName "sqlite3_vtab")]));
   ("xRollback", TPtr (TFun (TName "int") [TPtr (TName "sqlite3_vtab")]));
   ("xFindFunction", TPtr (TFun (TName "int") [TPtr (TName "sqlite3_vtab"); TName "int"; TPtr (TConst (TName "char")); TPtr (TPtr (TFun (TName "void") [TPtr (TName "sqlite3_context"); TName "int"; TPtr (TPtr (TName "sqlite3_value"))])); TPtr (TPtr (TName "void"))]));
   ("xRename", TPtr (TFun (TName "int") [TPtr (TName "sqlite3_vtab"); TPtr (TConst (TName "char"))]));
   ("xSavepoint", TPtr (TFun (TName "int") [TPtr (TName "sqlite3_vtab"); TName "int"]));
   ("xRelease", TPtr (TFun (TName "int") [TPtr (TName "sqlite3_vtab"); TName "int"]));
   ("xRollbackTo", TPtr (TFun (TName "int") [TPtr (TName "sqlite3_vtab"); TName "int"]));
   ("xShadowName", TPtr (TFun (TName "int") [TPtr (TConst (TName "char"))]));
   ("xIntegrity", TPtr (TFun (TName "int") [TPtr (TName "sqlite3_vtab"); TPtr (TConst (TName "char")); TPtr (TConst (TName "char")); TName "int"; TPtr (TPtr (TName "char"))]))].

Definition h_struct_sqlite3_vtab : list (string * ctype) :=
  [("pModule", TPtr (TConst (TName "sqlite3_module")));
   ("nRef", TName "int");
   ("zErrMsg", TPtr (TName "char"))].

Definition h_struct_sqlite3_vtab_cursor : list (string * ctype) :=
  [("pVtab", TPtr (TName "sqlite3_vtab"))].

Definition h_struct_sqlite3_mutex_methods : list (string * ctype) :=
  [("xMutexInit", TPtr (TFun (TName "int") []));
   ("xMutexEnd", TPtr (TFun (TName "int") []));
   ("xMutexAlloc", TPtr (TFun (TPtr (TName "sqlite3_mutex")) [TName "int"]));
   ("xMutexFree", TPtr (TFun (TName "void") [TPtr (TName "sqlite3_mutex")]));
   ("xMutexEnter", TPtr (TFun (TName "void") [TPtr (TName "sqlite3_mutex")]));
   ("xMutexTry", TPtr (TFun (TName "int") [TPtr (TName "sqlite3_mutex")]));
   ("xMutexLeave", TPtr (TFun (TName "void") [TPtr (TName "sqlite3_mutex")]));
   ("xMutexHeld", TPtr (TFun (TName "int") [TPtr (TName "sqlite3_mutex")]));
   ("xMutexNotheld", TPtr (TFun (TName "int") [TPtr (TName "sqlite3_mutex")]))].

Definition h_struct_sqlite3_pcache_page : list (string * ctype) :=
  [("pBuf", TPtr (TName "void"));
   ("pExtra", TPtr (TName "void"))].

Definition h_struct_sqlite3_pcache_methods2 : list (string * ctype) :=
  [("iVersion", TName "int");
   ("pArg", TPtr (TName "void"));
   ("xInit", TPtr (TFun (TName "int") [TPtr (TName "void")]));
   ("xShutdown", TPtr (TFun (TName "void") [TPtr (TName "void")]));
   ("xCreate", TPtr (TFun (TPtr (TName "sqlite3_pcache")) [TName "int"; TName "int"; TName "int"]));
   ("xCachesize", TPtr (TFun (TName "void") [TPtr (TName "sqlite3_pcache"); TName "int"]));
   ("xPagecount", TPtr (TFun (TName "int") [TPtr (TName "sqlite3_pcache")]));
   ("xFetch", TPtr (TFun (TPtr (TName "sqlite3_pcache_page")) [TPtr (TName "sqlite3_pcache"); TName "unsigned"; TName "int"]));
   ("xUnpin", TPtr (TFun (TName "void") [TPtr (TName "sqlite3_pcache"); TPtr (TName "sqlite3_pcache_page"); TName "int"]));
   ("xRekey", TPtr (TFun (TName "void") [TPtr (TName "sqlite3_pcache"); TPtr (TName "sqlite3_pcache_page"); TName "unsigned"; TName "unsigned"]));
   ("xTruncate", TPtr (TFun (TName "void") [TPtr (TName "sqlite3_pcache"); TName "unsigned"]));
   ("xDestroy", TPtr (TFun (TName "void") [TPtr (TName "sqlite3_pcache")]));
   ("xShrink", TPtr (TFun (TName "void") [TPtr (TName "sqlite3_pcache")]))].

Definition h_struct_sqlite3_pcache_methods : list (string * ctype) :=
  [("pArg", TPtr (TName "void"));
   ("xInit", TPtr (TFun (TName "int") [TPtr (TName "void")]));
   ("xShutdown", TPtr (TFun (TName "void") [TPtr (TName "void")]));
   ("xCreate", TPtr (TFun (TPtr (TName "sqlite3_pcache")) [TName "int"; TName "int"]));
   ("xCachesize", TPtr (TFun (TName "void") [TPtr (TName "sqlite3_pcache"); TName "int"]));
   ("xPagecount", TPtr (TFun (TName "int") [TPtr (TName "sqlite3_pcache")]));
   ("xFetch", TPtr (TFun (TPtr (TName "void")) [TPtr (TName "sqlite3_pcache"); TName "unsigned"; TName "int"]));
   ("xUnpin", TPtr (TFun (TName "void") [TPtr (TName "sqlite3_pcache"); TPtr (TName "void"); TName "int"]));
   ("xRekey", TPtr (TFun (TName "void") [TPtr (TName "sqlite3_pcache"); TPtr (TName "void"); TName "unsigned"; TName "unsigned"]));
   ("xTruncate", TPtr (TFun (TName "void") [TPtr (TName "sqlite3_pcache"); TName "unsigned"]));
   ("xDestroy", TPtr (TFun (TName "void") [TPtr (TName "sqlite3_pcache")]))].

Definition h_struct_sqlite3_snapshot : list (string * ctype) :=
  [("hidden", TArr (TName "unsigned char"))].

Definition h_struct_sqlite3_rtree_geometry : list (string * ctype) :=
  [("pContext", TPtr (TName "void"));
   ("nParam", TName "int");
   ("aParam", TPtr (TName "sqlite3_rtree_dbl"));
   ("pUser", TPtr (TName "void"));
   ("xDelUser", TPtr (TFun (TName "void") [TPtr (TName "void")]))].

Definition h_struct_sqlite3_rtree_query_info : list (string * ctype) :=
  [("pContext", TPtr (TName "void"));
   ("nParam", TName "int");
   ("aParam", TPtr (TName "sqlite3_rtree_dbl"));
   ("pUser", TPtr (TName "void"));
   ("xDelUser", TPtr (TFun (TName "void") [TPtr (TName "void")]));
   ("aCoord", TPtr (TName "sqlite3_rtree_dbl"));
   ("anQueue", TPtr (TName "unsigned int"));
   ("nCoord", TName "int");
   ("iLevel", TName "int");
   ("mxLevel", TName "int");
   ("iRowid", TName "sqlite3_int64");
   ("rParentScore", TName "sqlite3_rtree_dbl");
   ("eParentWithin", TName "int");
   ("eWithin", TName "int");
   ("rScore", TName "sqlite3_rtree_dbl");
   ("apSqlParam", TPtr (TPtr (TName "sqlite3_value")))].

Definition h_struct_Fts5ExtensionApi : list (string * ctype) :=
  [("iVersion", TName "int");
   ("xUserData", TPtr (TFun (TPtr (TName "void")) [TPtr (TName "Fts5Context")]));
   ("xColumnCount", TPtr (TFun (TName "int") [TPtr (TName "Fts5Context")]));
   ("xRowCount", TPtr (TFun (TName "int") [TPtr (TName "Fts5Context"); TPtr (TName "sqlite3_int64")]));
   ("xColumnTotalSize", TPtr (TFun (TName "int") [TPtr (TName "Fts5Context"); TName "int"; TPtr (TName "sqlite3_int64")]));
   ("xTokenize", TPtr (TFun (TName "int") [TPtr (TName "Fts5Context"); TPtr (TConst (TName "char")); TName "int"; TPtr (TName "void"); TPtr (TFun (TName "int") [TPtr (TName "void"); TName "int"; TPtr (TConst (TName "char")); TName "int"; TName "int"; TName "int"])]));
   ("xPhraseCount", TPtr (TFun (TName "int") [TPtr (TName "Fts5Context")]));
   ("xPhraseSize", TPtr (TFun (TName "int") [TPtr (TName "Fts5Context"); TName "int"]));
   ("xInstCount", TPtr (TFun (TName "int") [TPtr (TName "Fts5Context"); TPtr (TName "int")]));
   ("xInst", TPtr (TFun (TName "int") [TPtr (TName "Fts5Context"); TName "int"; TPtr (TName "int"); TPtr (TName "int"); TPtr (TName "int")]));
   ("xRowid", TPtr (TFun (TName "sqlite3_int64") [TPtr (TName "Fts5Context")]));
   ("xColumnText", TPtr (TFun (TName "int") [TPtr (TName "Fts5Context"); TName "int"; TPtr (TPtr (TConst (TName "char"))); TPtr (TName "int")]));
   ("xColumnSize", TPtr (TFun (TName "int") [TPtr (TName "Fts5Context"); TName "int"; TPtr (TName "int")]));
   ("xQueryPhrase", TPtr (TFun (TName "int") [TPtr (TName "Fts5Context"); TName "int"; TPtr (TName "void"); TPtr (TFun (TName "int") [TPtr (TConst (TName "Fts5ExtensionApi")); TPtr (TName "Fts5Context"); TPtr (TName "void")])]));
   ("xSetAuxdata", TPtr (TFun (TName "int") [TPtr (TName "Fts5Context"); TPtr (TName "void"); TPtr (TFun (TName "void") [TPtr (TName "void")])]));
   ("xGetAuxdata", TPtr (TFun (TPtr (TName "void")) [TPtr (TName "Fts5Context"); TName "int"]));
   ("xPhraseFirst", TPtr (TFun (TName "int") [TPtr (TName "Fts5Context"); TName "int"; TPtr (TName "Fts5PhraseIter"); TPtr (TName "int"); TPtr (TName "int")]));
   ("xPhraseNext", TPtr (TFun (TName "void") [TPtr (TName "Fts5Context"); TPtr (TName "Fts5PhraseIter"); TPtr (TName "int"); TPtr (TName "int")]));
   ("xPhraseFirstColumn", TPtr (TFun (TName "int") [TPtr (TName "Fts5Context"); TName "int"; TPtr (TName "Fts5PhraseIter"); TPtr (TName "int")]));
   ("xPhraseNextColumn", TPtr (TFun (TName "void") [TPtr (TName "Fts5Context"); TPtr (TName "Fts5PhraseIter"); TPtr (TName "int")]));
   ("xQueryToken", TPtr (TFun (TName "int") [TPtr (TName "Fts5Context"); TName "int"; TName "int"; TPtr (TPtr (TConst (TName "char"))); TPtr (TName "int")]));
   ("xInstToken", TPtr (TFun (TName "int") [TPtr (TName "Fts5Context"); TName "int"; TName "int"; TPtr (TPtr (TConst (TName "char"))); TPtr (TName "int")]));
   ("xColumnLocale", TPtr (TFun (TName "int") [TPtr (TName "Fts5Context"); TName "int"; TPtr (TPtr (TConst (TName "char"))); TPtr (TName "int")]));
   ("xTokenize_v2", TPtr (TFun (TName "int") [TPtr (TName "Fts5Context"); TPtr (TConst (TName "char")); TName "int"; TPtr (TConst (TName "char")); TName "int"; TPtr (TName "void"); TPtr (TFun (TName "int") [TPtr (TName "void"); TName "int"; TPtr (TConst (TName "char")); TName "int"; TName "int"; TName "int"])]))].

Definition h_struct_fts5_tokenizer : list (string * ctype) :=
  [("xCreate", TPtr (TFun (TName "int") [TPtr (TName "void"); TPtr (TPtr (TConst (TName "char"))); TName "int"; TPtr (TPtr (TName "Fts5Tokenizer"))]));
   ("xDelete", TPtr (TFun (TName "void") [TPtr (TName "Fts5Tokenizer")]));
   ("xTokenize", TPtr (TFun (TName "int") [TPtr (TName "Fts5Tokenizer"); TPtr (TName "void"); TName "int"; TPtr (TConst (TName "char")); TName "int"; TPtr (TFun (TName "int") [TPtr (TName "void"); TName "int"; TPtr (TConst (TName "char")); TName "int"; TName "int"; TName "int"])]))].

Definition h_struct_fts5_api : list (string * ctype) :=
  [("iVersion", TName "int");
   ("xCreateTokenizer", TPtr (TFun (TName "int") [TPtr (TName "fts5_api"); TPtr (TConst (TName "char")); TPtr (TName "void"); TPtr (TName "fts5_tokenizer"); TPtr (TFun (TName "void") [TPtr (TName "void")])]));
   ("xFindTokenizer", TPtr (TFun (TName "int") [TPtr (TName "fts5_api"); TPtr (TConst (TName "char")); TPtr (TPtr (TName "void")); TPtr (TName "fts5_tokenizer")]));
   ("xCreateFunction", TPtr (TFun (TName "int") [TPtr (TName "fts5_api"); TPtr (TConst (TName "char")); TPtr (TName "void"); TName "fts5_extension_function"; TPtr (TFun (TName "void") [TPtr (TName "void")])]));
   ("xCreateTokenizer_v2", TPtr (TFun (TName "int") [TPtr (TName "fts5_api"); TPtr (TConst (TName "char")); TPtr (TName "void"); TPtr (TName "fts5_tokenizer_v2"); TPtr (TFun (TName "void") [TPtr (TName "void")])]));
   ("xFindTokenizer_v2", TPtr (TFun (TName "int") [TPtr (TName "fts5_api"); TPtr (TConst (TName "char")); TPtr (TPtr (TName "void")); TPtr (TPtr (TName "fts5_tokenizer_v2"))]))].

Definition h_struct_Fts5PhraseIter : list (string * ctype) :=
  [("a", TPtr (TConst (TName "unsigned char")));
   ("b", TPtr (TConst (TName "unsigned char")))].

Definition h_struct_fts5_tokenizer_v2 : list (string * ctype) :=
  [("iVersion", TName "int");
   ("xCreate", TPtr (TFun (TName "int") [TPtr (TName "void"); TPtr (TPtr (TConst (TName "char"))); TName "int"; TPtr (TPtr (TName "Fts5Tokenizer"))]));
   ("xDelete", TPtr (TFun (TName "void") [TPtr (TName "Fts5Tokenizer")]));
   ("xTokenize", TPtr (TFun (TName "int") [TPtr (TName "Fts5Tokenizer"); TPtr (TName "void"); TName "int"; TPtr (TConst (TName "char")); TName "int"; TPtr (TConst (TName "char")); TName "int"; TPtr (TFun (TName "int") [TPtr (TName "void"); TName "int"; TPtr (TConst (TName "char")); TName "int"; TName "int"; TName "int"])]))].

Definition h_struct_sqlite3_index_constraint : list (string * ctype) :=
  [("iColumn", TName "int");
   ("op", TName "unsigned char");
   ("usable", TName "unsigned char");
   ("iTermOffset", TName "int")].

Definition h_struct_sqlite3_index_orderby : list (string * ctype) :=
  [("iColumn", TName "int");
   ("desc", TName "unsigned char")].

Definition h_struct_sqlite3_index_constraint_usage : list (string * ctype) :=
  [("argvIndex", TName "int");
   ("omit", TName "unsigned char")].

Definition h_struct_sqlite3_index_info : list (string * ctype) :=
  [("nConstraint", TName "int");
   ("aConstraint", TPtr (TName "struct sqlite3_index_constraint"));
   ("nOrderBy", TName "int");
   ("aOrderBy", TPtr (TName "struct sqlite3_index_orderby"));
   ("aConstraintUsage", TPtr (TName "struct sqlite3_index_constraint_usage"));
   ("idxNum", TName "int");
   ("idxStr", TPtr (TName "char"));
   ("needToFreeIdxStr", TName "int");
   ("orderByConsumed", TName "int");
   ("estimatedCost", TName "double");
   ("estimatedRows", TName "sqlite3_int64");
   ("idxFlags", TName "int");
   ("colUsed", TName "sqlite3_uint64")].

(** ** Type names: the typedefs, for a compiler with [long long] *)

Definition h_type_sqlite3 : list (string * ctype) :=
  [("sqlite3", TName "struct sqlite3")].

Definition h_type_sqlite_int64 : list (string * ctype) :=
  [("sqlite_int64", TName "long long int");
   ("sqlite_uint64", TName "unsigned long long int");
   ("sqlite3_int64", TName "sqlite_int64");
   ("sqlite3_uint64", TName "sqlite_uint64")].

Definition h_type_sqlite3_callback : list (string * ctype) :=
  [("sqlite3_callback", TPtr (TFun (TName "int") [TPtr (TName "void"); TName "int"; TPtr (TPtr (TName "char")); TPtr (TPtr (TName "char"))]))].

Definition h_type_sqlite3_file : list (string * ctype) :=
  [("sqlite3_file", TName "struct sqlite3_file")].

Definition h_type_sqlite3_io_methods : list (string * ctype) :=
  [("sqlite3_io_methods", TName "struct sqlite3_io_methods")].

Definition h_type_sqlite3_mutex : list (string * ctype) :=
  [("sqlite3_mutex", TName "struct sqlite3_mutex")].

Definition h_type_sqlite3_api_routines : list (string * ctype) :=
  [("sqlite3_api_routines", TName "struct sqlite3_api_routines")].

Definition h_type_sqlite3_filename : list (string * ctype) :=
  [("sqlite3_filename", TPtr (TConst (TName "char")))].

Definition h_type_sqlite3_vfs : list (string * ctype) :=
  [("sqlite3_vfs", TName "struct sqlite3_vfs");
   ("sqlite3_syscall_ptr", TPtr (TFun (TName "void") []))].

Definition h_type_sqlite3_mem_methods : list (string * ctype) :=
  [("sqlite3_mem_methods", TName "struct sqlite3_mem_methods")].

Definition h_type_sqlite3_stmt : list (string * ctype) :=
  [("sqlite3_stmt", TName "struct sqlite3_stmt")].

Definition h_type_sqlite3_value : list (string * ctype) :=
  [("sqlite3_value", TName "struct sqlite3_value")].

Definition h_type_sqlite3_context : list (string * ctype) :=
  [("sqlite3_context", TName "struct sqlite3_context")].

Definition h_type_sqlite3_destructor_type : list (string * ctype) :=
  [("sqlite3_destructor_type", TPtr (TFun (TName "void") [TPtr (TName "void")]))].

Definition h_type_sqlite3_vtab : list (string * ctype) :=
  [("sqlite3_vtab", TName "struct sqlite3_vtab");
   ("sqlite3_index_info", TName "struct sqlite3_index_info");
   ("sqlite3_vtab_cursor", TName "struct sqlite3_vtab_cursor");
   ("sqlite3_module", TName "struct sqlite3_module")].

Definition h_type_sqlite3_blob : list (string * ctype) :=
  [("sqlite3_blob", TName "struct sqlite3_blob")].

Definition h_type_sqlite3_mutex_methods : list (string * ctype) :=
  [("sqlite3_mutex_methods", TName "struct sqlite3_mutex_methods")].

Definition h_type_sqlite3_str : list (string * ctype) :=
  [("sqlite3_str", TName "struct sqlite3_str")].

Definition h_type_sqlite3_pcache : list (string * ctype) :=
  [("sqlite3_pcache", TName "struct sqlite3_pcache")].

Definition h_type_sqlite3_pcache_page : list (string * ctype) :=
  [("sqlite3_pcache_page", TName "struct sqlite3_pcache_page")].

Definition h_type_sqlite3_pcache_methods2 : list (string * ctype) :=
  [("sqlite3_pcache_methods2", TName "struct sqlite3_pcache_methods2")].

Definition h_type_sqlite3_pcache_methods : list (string * ctype) :=
  [("sqlite3_pcache_methods", TName "struct sqlite3_pcache_methods")].

Definition h_type_sqlite3_backup : list (string * ctype) :=
  [("sqlite3_backup", TName "struct sqlite3_backup")].

Definition h_type_sqlite3_snapshot : list (string * ctype) :=
  [("sqlite3_snapshot", TName "struct sqlite3_snapshot")].

Definition h_type_sqlite3_rtree_geometry : list (string * ctype) :=
  [("sqlite3_rtree_geometry", TName "struct sqlite3_rtree_geometry");
   ("sqlite3_rtree_query_info", TName "struct sqlite3_rtree_query_info")].

Definition h_type_sqlite3_rtree_dbl : list (string * ctype) :=
  [("sqlite3_rtree_dbl", TName "double")].

Definition h_type_sqlite3_session : list (string * ctype) :=
  [("sqlite3_session", TName "struct sqlite3_session")].

Definition h_type_sqlite3_changeset_iter : list (string * ctype) :=
  [("sqlite3_changeset_iter", TName "struct sqlite3_changeset_iter")].

Definition h_type_sqlite3_changegroup : list (string * ctype) :=
  [("sqlite3_changegroup", TName "struct sqlite3_changegroup")].

Definition h_type_sqlite3_rebaser : list (string * ctype) :=
  [("sqlite3_rebaser", TName "struct sqlite3_rebaser")].

Definition h_type_Fts5ExtensionApi : list (string * ctype) :=
  [("Fts5ExtensionApi", TName "struct Fts5ExtensionApi");
   ("Fts5Context", TName "struct Fts5Context");
   ("Fts5PhraseIter", TName "struct Fts5PhraseIter");
   ("fts5_extension_function", TPtr (TFun (TName "void") [TPtr (TConst (TName "Fts5ExtensionApi")); TPtr (TName "Fts5Context"); TPtr (TName "sqlite3_context"); TName "int"; TPtr (TPtr (TName "sqlite3_value"))]))].

Definition h_type_Fts5Tokenizer : list (string * ctype) :=
  [("Fts5Tokenizer", TName "struct Fts5Tokenizer");
   ("fts5_tokenizer_v2", TName "struct fts5_tokenizer_v2")].

Definition h_type_fts5_tokenizer : list (string * ctype) :=
  [("fts5_tokenizer", TName "struct fts5_tokenizer")].

Definition h_type_fts5_api : list (string * ctype) :=
  [("fts5_api", TName "struct fts5_api")].

Definition h_typedefs : list (string * ctype) :=
  concat [h_type_sqlite3; h_type_sqlite_int64; h_type_sqlite3_callback; h_type_sqlite3_file; h_type_sqlite3_io_methods; h_type_sqlite3_mutex; h_type_sqlite3_api_routines; h_type_sqlite3_filename; h_type_sqlite3_vfs; h_type_sqlite3_mem_methods; h_type_sqlite3_stmt; h_type_sqlite3_value; h_type_sqlite3_context; h_type_sqlite3_destructor_type; h_type_sqlite3_vtab; h_type_sqlite3_blob; h_type_sqlite3_mutex_methods; h_type_sqlite3_str; h_type_sqlite3_pcache; h_type_sqlite3_pcache_page; h_type_sqlite3_pcache_methods2; h_type_sqlite3_pcache_methods; h_type_sqlite3_backup; h_type_sqlite3_snapshot; h_type_sqlite3_rtree_geometry; h_type_sqlite3_rtree_dbl; h_type_sqlite3_session; h_type_sqlite3_changeset_iter; h_type_sqlite3_changegroup; h_type_sqlite3_rebaser; h_type_Fts5ExtensionApi; h_type_Fts5Tokenizer; h_type_fts5_tokenizer; h_type_fts5_api].

(** All structures, by tag. *)
Definition h_structs : list (string * list (string * ctype)) :=
  [("sqlite3_file", h_struct_sqlite3_file);
   ("sqlite3_io_methods", h_struct_sqlite3_io_methods);
   ("sqlite3_vfs", h_struct_sqlite3_vfs);
   ("sqlite3_mem_methods", h_struct_sqlite3_mem_methods);
   ("sqlite3_module", h_struct_sqlite3_module);
   ("sqlite3_vtab", h_struct_sqlite3_vtab);
   ("sqlite3_vtab_cursor", h_struct_sqlite3_vtab_cursor);
   ("sqlite3_mutex_methods", h_struct_sqlite3_mutex_methods);
   ("sqlite3_pcache_page", h_struct_sqlite3_pcache_page);
   ("sqlite3_pcache_methods2", h_struct_sqlite3_pcache_methods2);
   ("sqlite3_pcache_methods", h_struct_sqlite3_pcache_methods);
   ("sqlite3_snapshot", h_struct_sqlite3_snapshot);
   ("sqlite3_rtree_geometry", h_struct_sqlite3_rtree_geometry);
   ("sqlite3_rtree_query_info", h_struct_sqlite3_rtree_query_info);
   ("Fts5ExtensionApi", h_struct_Fts5ExtensionApi);
   ("fts5_tokenizer", h_struct_fts5_tokenizer);
   ("fts5_api", h_struct_fts5_api);
   ("Fts5PhraseIter", h_struct_Fts5PhraseIter);
   ("fts5_tokenizer_v2", h_struct_fts5_tokenizer_v2);
   ("sqlite3_index_constraint", h_struct_sqlite3_index_constraint);
   ("sqlite3_index_orderby", h_struct_sqlite3_index_orderby);
   ("sqlite3_index_constraint_usage", h_struct_sqlite3_index_constraint_usage);
   ("sqlite3_index_info", h_struct_sqlite3_index_info)].
