(* ===== verification/Retry.v ===== *)
(** * Retry: what is retried, when, and for how long ([runtime/retry.go],
      the retry loop of [WithWrite] in [runtime/runtime.go],
      [walrusderr.WithDatabase])

    The classification of SQL errors, the delays between attempts (with the
    code's float64 arithmetic) and the outer loop of [WithWrite] over the
    attempts its environment deals it. The loop budget is monotonic time; each
    round carries the readings the code takes. *)

From Stdlib Require Import SpecFloat.
From S2P Require Import Prelude Errors SqliteHeader Lease.

(** ** Classification *)

(** [isRetryableWrite] *)
Definition isRetryableWrite (err : goerror) : bool :=
  match ClassOf err with
  | Some (ClassBusy | ClassLeaseConflict | ClassFlushFailed | ClassRemoteUnavailable | ClassConflict) =>
      true
  | _ => false
  end.

(** The [switch] of [classifySQLError] on a primary SQLite result code (the
    driver's constants are SQLite's). *)
Definition classifySQLite (code : Z) : option class :=
  if (code =? SQLITE_BUSY) || (code =? SQLITE_LOCKED) then Some ClassBusy
  else if (code =? SQLITE_CONSTRAINT) || (code =? SQLITE_RANGE) || (code =? SQLITE_MISMATCH)
  then Some ClassInvalidArgument
  else if (code =? SQLITE_READONLY) || (code =? SQLITE_PERM) || (code =? SQLITE_FULL)
          || (code =? SQLITE_TOOBIG) || (code =? SQLITE_CORRUPT) || (code =? SQLITE_NOTADB)
  then Some ClassConfigurationInvalid
  else None.

Definition classifySQLError (err : goerror) : class :=
  if errors_Is ErrRegistryBusy err then ClassBusy
  else if errors_Is ErrCanceled err || errors_Is ErrDeadlineExceeded err then ClassBusy
  else match as_sqlite err with
       | Some code => default ClassConflict (classifySQLite code)
       | None => ClassConflict
       end.

Definition wrapSessionOpenError (msg : string) (err : goerror) : goerror :=
  if errors_Is ErrRegistryBusy err then Wrap ClassBusy msg err
  else Wrap ClassRemoteUnavailable msg err.

(** [retryAfter]: the hint in nanoseconds, 0 without one. *)
Definition retryAfter (err : goerror) : Z :=
  match as_hint err with
  | Some (Some ms) => if ms <=? 0 then 0 else wrap64 (ms * millisecond)
  | _ => 0
  end.

(** ** Delays *)

(** float64 arithmetic: [float64(d)], multiplication, and [time.Duration(f)]
    (truncation; out of range and NaN give the smallest integer, as on amd64
    and wasm). *)
Definition f64 (d : Z) : spec_float := binary_normalize 53 1024 d 0 false.
Definition f64_mul (x y : spec_float) : spec_float := SFmul 53 1024 x y.
Definition f64_add (x y : spec_float) : spec_float := SFadd 53 1024 x y.
Definition f64_sub (x y : spec_float) : spec_float := SFsub 53 1024 x y.

Definition duration (f : spec_float) : Z :=
  match f with
  | S754_zero _ => 0
  | S754_finite s m e =>
      let mag := if 0 <=? e then Zpos m * 2 ^ e else Zpos m / 2 ^ (- e) in
      let z := if s then - mag else mag in
      if (- two63 <=? z) && (z <? two63) then z else - two63
  | _ => - two63
  end.

Record RetryPolicy := mkPolicy {
  FixedDelay : Z;
  FixedRetries : Z;
  Multiplier : spec_float;
  MaxDelay : Z;
  MaxTotal : Z;
}.

Definition DefaultRetryPolicy : RetryPolicy :=
  mkPolicy (1 * second) 10 (f64 2) (64 * second) (64 * second).

Definition zeroPolicy : RetryPolicy := mkPolicy 0 0 (S754_zero false) 0 0.

(** [p.Multiplier <= 0] *)
Definition nonpositive (f : spec_float) : bool :=
  match f with
  | S754_zero _ => true
  | S754_infinity s => s
  | S754_nan => false
  | S754_finite s _ _ => s
  end.

Definition withDefaults (p : RetryPolicy) : RetryPolicy :=
  if MaxTotal p <=? 0 then zeroPolicy
  else
    let def := DefaultRetryPolicy in
    mkPolicy (if FixedDelay p <=? 0 then FixedDelay def else FixedDelay p)
             (if FixedRetries p <? 0 then 0 else FixedRetries p)
             (if nonpositive (Multiplier p) then Multiplier def else Multiplier p)
             (if MaxDelay p <=? 0 then MaxDelay def else MaxDelay p)
             (MaxTotal p).

(** The loop of [baseDelay]. *)
Fixpoint scaled (p : RetryPolicy) (steps : nat) (delay : Z) : Z :=
  match steps with
  | O => delay
  | S steps =>
      let delay := duration (f64_mul (f64 delay) (Multiplier p)) in
      if (0 <? MaxDelay p) && (MaxDelay p <=? delay) then MaxDelay p else scaled p steps delay
  end.

Definition capped (p : RetryPolicy) (delay : Z) : Z :=
  if (0 <? MaxDelay p) && (MaxDelay p <? delay) then MaxDelay p else delay.

Definition baseDelay (p : RetryPolicy) (n : Z) : Z :=
  if n <=? 0 then 0
  else capped p (if FixedRetries p <? n
                 then scaled p (Z.to_nat (n - FixedRetries p)) (FixedDelay p)
                 else FixedDelay p).

(** [jitterDelay], [u] being the result of [rand.Float64]. *)
Definition jitter_const : spec_float := S754_finite false 7205759403792794 (-55). (* 0.20 *)
Definition jitterDelay (delay : Z) (u : spec_float) : Z :=
  if delay <=? 0 then delay
  else duration (f64_mul (f64 delay)
         (f64_add (f64 1) (f64_mul (f64_sub (f64_mul u (f64 2)) (f64 1)) jitter_const))).

Definition delay (p : RetryPolicy) (n : Z) (err : goerror) (u : spec_float) : Z :=
  let d := jitterDelay (baseDelay p n) u in
  let hint := retryAfter err in
  capped p (if d <? hint then hint else d).

(** ** The retry loop of [WithWrite] *)

Section WithWrite.
Context {A : Type}. (* WriteResult *)

(** What ended the wait between two attempts. *)
Inductive wait := WaitTimer | WaitBudget | WaitCtx (err : goerror).

(** One round: the attempt's outcome; [ctx.Err()] and [budgetCtx.Err()]
    after it; the random draw; [time.Until(budgetDeadline)]; how the wait
    ended; and whether the budget deadline has passed by then. *)
Record round := mkRound {
  attempt : res goerror A;
  ctxErr : option goerror;
  budgetErr : bool;
  draw : spec_float;
  remaining : Z;
  waited : wait;
  expired : bool;
}.

(** What a round makes the loop do: return, or go on after sleeping. *)
Inductive verdict := Return (r : res goerror A) | Again (slept : Z).

Definition budgetExhausted : goerror := Busy "write retry budget exhausted" 0.

Definition afterAttempt (policy : RetryPolicy) (retry : Z) (r : round) : verdict :=
  match attempt r with
  | Ok res => Return (Ok res)
  | Err err =>
      match ctxErr r with
      | Some e => Return (Err e)
      | None =>
          if budgetErr r && isRetryableWrite err then Return (Err err)
          else if budgetErr r && errors_Is ErrDeadlineExceeded err then Return (Err budgetExhausted)
          else if (MaxTotal policy <=? 0) || negb (isRetryableWrite err) then Return (Err err)
          else
            let d := delay policy (retry + 1) err (draw r) in
            if d <=? 0 then Return (Err err)
            else if remaining r <=? 0 then Return (Err err)
            else match waited r with
                 | WaitCtx e => Return (Err e)
                 | WaitBudget => Return (Err err)
                 | WaitTimer => if expired r then Return (Err err)
                                else Again (Z.min d (remaining r))
                 end
      end
  end.

(** [None] while the loop still waits for its next round; [slept] sums the
    timers that fired. *)
Fixpoint retryLoop (policy : RetryPolicy) (retry : Z) (slept : Z) (rounds : list round)
    : option (res goerror A * Z) :=
  match rounds with
  | [] => None
  | r :: rounds =>
      match afterAttempt policy retry r with
      | Return res => Some (res, slept)
      | Again d => retryLoop policy (retry + 1) (slept + d) rounds
      end
  end.

Definition withWriteLoop (policy : RetryPolicy) (rounds : list round) : option (res goerror A * Z) :=
  retryLoop (withDefaults policy) 0 0 rounds.
End WithWrite.
Arguments round : clear implicits.
Arguments verdict : clear implicits.

(** ** Theorems *)

(** The SQLite failures that repeat themselves. *)
Definition deterministic : list Z :=
  [SQLITE_CONSTRAINT; SQLITE_RANGE; SQLITE_MISMATCH; SQLITE_READONLY; SQLITE_PERM; SQLITE_FULL;
   SQLITE_TOOBIG; SQLITE_CORRUPT; SQLITE_NOTADB].

(** Whether a failed SQL step is retried: always after a busy registry or a cancelled
      or timed-out context, and otherwise unless the chain carries an SQLite
      error that would fail identically again (constraint, range, mismatch,
      read-only, permission, full, too big, corrupt, not a database). *)
Theorem sql_error_retryable (msg : string) (err : goerror) :
  isRetryableWrite (Wrap (classifySQLError err) msg err) =
    errors_Is ErrRegistryBusy err || errors_Is ErrCanceled err || errors_Is ErrDeadlineExceeded err ||
    match as_sqlite err with
    | Some code => negb (bool_decide (code ∈ deterministic))
    | None => true
    end.
Proof.
  unfold classifySQLError, isRetryableWrite. cbn [Wrap ClassOf].
  destruct (errors_Is ErrRegistryBusy err); [done|]. cbn [orb].
  destruct (errors_Is ErrCanceled err || errors_Is ErrDeadlineExceeded err); [done|]. cbn [orb].
  destruct (as_sqlite err) as [code|]; [|done].
  assert (Hd : bool_decide (code ∈ deterministic) =
    (code =? SQLITE_CONSTRAINT) || (code =? SQLITE_RANGE) || (code =? SQLITE_MISMATCH)
    || ((code =? SQLITE_READONLY) || (code =? SQLITE_PERM) || (code =? SQLITE_FULL)
        || (code =? SQLITE_TOOBIG) || (code =? SQLITE_CORRUPT) || (code =? SQLITE_NOTADB))).
  { apply eq_true_iff_eq. rewrite bool_decide_eq_true. unfold deterministic.
    rewrite !elem_of_cons, !orb_true_iff, !Z.eqb_eq. pose proof (not_elem_of_nil code). tauto. }
  rewrite Hd. unfold classifySQLite.
  destruct ((code =? SQLITE_BUSY) || (code =? SQLITE_LOCKED)) eqn:Hb.
  - apply orb_true_iff in Hb as [Hb|Hb]; apply Z.eqb_eq in Hb as ->; reflexivity.
  - destruct ((code =? SQLITE_CONSTRAINT) || _ || _); [done|]. cbn [orb].
    by destruct ((code =? SQLITE_READONLY) || _ || _ || _ || _ || _).
Qed.

(** Annotating an error with its database changes nothing a caller or the retry
      loop decides by: the class, the retry hint, every sentinel in its chain,
      the SQLite code and retryability are preserved, no error appears or
      disappears, and annotating twice is annotating once. *)
Theorem WithDatabase_preserves (err : goerror) (db : string) :
  exists err', WithDatabase (Some err) db = Some err' /\
    ClassOf err' = ClassOf err /\ as_hint err' = as_hint err /\ as_sqlite err' = as_sqlite err /\
    (forall s, errors_Is s err' = errors_Is s err) /\
    isRetryableWrite err' = isRetryableWrite err /\ retryAfter err' = retryAfter err /\
    (forall c m cause ms d, err = EWalrus c m cause ms d ->
       WithDatabase (Some err') db = Some err').
Proof.
  unfold WithDatabase. destruct (String.eqb_spec db "") as [->|Hdb]; [by exists err|].
  destruct err as [c m cause ms d|m e|code|s|m].
  - destruct (String.eqb_spec d db) as [->|Hd].
    + eexists. split; [done|]. cbn. by rewrite String.eqb_refl.
    + eexists. split; [done|]. cbn. by rewrite String.eqb_refl.
  - eexists. split; [done|]. cbn. split_and!; done.
  - eexists. split; [done|]. cbn. split_and!; done.
  - eexists. split; [done|]. cbn. split_and!; done.
  - eexists. split; [done|]. cbn. split_and!; done.
Qed.

(** The default retry schedule, with the code's float64 arithmetic: one second for the
      first ten retries, then doubling with every retry, and 64 seconds from
      the sixteenth on. *)
Theorem default_schedule (n : Z) :
  baseDelay DefaultRetryPolicy n =
    if n <=? 0 then 0
    else if n <=? 10 then second
    else if n <=? 16 then 2 ^ (n - 10) * second
    else 64 * second.
Proof.
  unfold baseDelay. destruct (Z.leb_spec n 0); [done|].
  change (FixedRetries DefaultRetryPolicy) with 10.
  destruct (Z.ltb_spec 10 n); (destruct (Z.leb_spec n 10); [try lia|try lia]); [|reflexivity].
  destruct (Z.leb_spec n 16).
  - assert (n = 11 \/ n = 12 \/ n = 13 \/ n = 14 \/ n = 15 \/ n = 16) as Hn by lia.
    destruct Hn as [->|[->|[->|[->|[->|]]]]]; [..|subst n]; vm_compute; reflexivity.
  - assert (exists k, Z.to_nat (n - 10) = (6 + S k)%nat) as [k ->]
      by (exists (Z.to_nat (n - 17)); lia).
    assert (Hstep : forall d k, scaled DefaultRetryPolicy (S k) d =
      let d' := duration (f64_mul (f64 d) (f64 2)) in
      if 64 * second <=? d' then 64 * second else scaled DefaultRetryPolicy k d') by reflexivity.
    cbn [Nat.add]. rewrite !Hstep. vm_compute. reflexivity.
Qed.

(** The delay before a retry never exceeds the policy's maximum, and honours the
      Retry-After hint of the failed attempt up to that maximum, whatever the
      jitter draws. *)
Theorem delay_bounds (p : RetryPolicy) (n : Z) (err : goerror) (u : spec_float)
    (Hmax : 0 < MaxDelay p) :
  delay p n err u <= MaxDelay p /\ Z.min (retryAfter err) (MaxDelay p) <= delay p n err u.
Proof.
  unfold delay, capped. rewrite (proj2 (Z.ltb_lt _ _) Hmax). cbn [andb].
  repeat match goal with |- context [?a <? ?b] => destruct (Z.ltb_spec a b) end; lia.
Qed.

Lemma delay_bounds_witness :
  delay DefaultRetryPolicy 1 (Busy "held" 500) (f64 0) <= 64 * second /\
  500 * millisecond <= delay DefaultRetryPolicy 1 (Busy "held" 500) (f64 0).
Proof.
  destruct (delay_bounds DefaultRetryPolicy 1 (Busy "held" 500) (f64 0)) as [H1 H2].
  - reflexivity.
  - split; [exact H1|]. refine (Z.le_trans _ _ _ _ H2). vm_compute. discriminate.
Defined.

Section LoopTheorems.
Context {A : Type}.

(** A round after which the loop does not go on. *)
Definition final (r : round A) : Prop :=
  budgetErr r = true \/ expired r = true \/ remaining r <= 0 \/ ctxErr r <> None.

Lemma afterAttempt_spec p retry (r : round A) :
  match afterAttempt p retry r with
  | Return (Ok a) => attempt r = Ok a
  | Return (Err e) =>
      (exists e', attempt r = Err e') /\
      (e = budgetExhausted \/ attempt r = Err e \/ ctxErr r = Some e \/ waited r = WaitCtx e)
  | Again d =>
      0 < MaxTotal p /\ 0 < d <= remaining r /\ ~ final r /\
      exists e, attempt r = Err e /\ isRetryableWrite e = true
  end.
Proof.
  unfold afterAttempt, final. destruct (attempt r) as [a|err] eqn:Ha; [done|].
  destruct (ctxErr r) as [e|] eqn:Hctx; [split; [eauto|auto]|].
  destruct (isRetryableWrite err) eqn:Hr; cbn [negb].
  - destruct (budgetErr r) eqn:Hb; cbn [andb]; [split; eauto|].
    rewrite orb_false_r. destruct (Z.leb_spec (MaxTotal p) 0); [split; eauto|].
    destruct (Z.leb_spec (delay p (retry + 1) err (draw r)) 0); [split; eauto|].
    destruct (Z.leb_spec (remaining r) 0); [split; eauto|].
    destruct (waited r) as [| |e] eqn:Hw; [|split; eauto|split; eauto 6].
    destruct (expired r) eqn:He; [split; eauto|].
    split_and!; [done|lia|lia| |eauto]. intros [|[|[|]]]; try done; lia.
  - rewrite orb_true_r. destruct (budgetErr r && _); [split; eauto|].
    destruct (budgetErr r && errors_Is _ _); split; eauto.
Qed.

Lemma retryLoop_spec p retry slept (rounds : list (round A)) res total :
  retryLoop p retry slept rounds = Some (res, total) ->
  exists k r, rounds !! k = Some r /\
    (forall i ri, (i < k)%nat -> rounds !! i = Some ri ->
       0 < MaxTotal p /\ exists e, attempt ri = Err e /\ isRetryableWrite e = true) /\
    match res with
    | Ok a => attempt r = Ok a
    | Err e => (exists e', attempt r = Err e') /\
        (e = budgetExhausted \/ attempt r = Err e \/ ctxErr r = Some e \/ waited r = WaitCtx e)
    end.
Proof.
  revert retry slept. induction rounds as [|r rounds IH]; intros retry slept; cbn [retryLoop]; [done|].
  pose proof (afterAttempt_spec p retry r) as Hr.
  destruct (afterAttempt p retry r) as [res'|d].
  - intros [= <- <-]. exists 0%nat, r. split_and!; [done|lia|]. by destruct res'.
  - intros Hl. destruct (IH _ _ Hl) as (k & rk & Hk & Hprev & Hres).
    exists (S k), rk. split_and!; [done| |done].
    intros [|i] ri Hi Hri; [|by apply (Hprev i); [lia|]].
    cbn in Hri. simplify_eq. destruct Hr as (? & _ & _ & ?). eauto.
Qed.

(** C38  What [WithWrite] returns: the result of an attempt that succeeded, or an error
    that is the last attempt's, the context's, or the exhausted budget's;
    every attempt before it failed with a retryable error, under the one
    policy; and a policy without a budget makes exactly one attempt. *)
Theorem retry_loop_outcome (policy : RetryPolicy) (rounds : list (round A)) (res : res goerror A)
    (slept : Z) (Hrun : withWriteLoop policy rounds = Some (res, slept)) :
  exists k r, rounds !! k = Some r /\
    (forall i ri, (i < k)%nat -> rounds !! i = Some ri ->
       exists e, attempt ri = Err e /\ isRetryableWrite e = true) /\
    (MaxTotal policy <= 0 -> k = 0%nat) /\
    match res with
    | Ok a => attempt r = Ok a
    | Err e => (exists e', attempt r = Err e') /\
        (e = budgetExhausted \/ attempt r = Err e \/ ctxErr r = Some e \/ waited r = WaitCtx e)
    end.
Proof.
  destruct (retryLoop_spec _ _ _ _ _ _ Hrun) as (k & r & Hk & Hprev & Hres).
  exists k, r. split_and!; [done| | |done].
  - intros i ri Hi Hri. by apply (Hprev i ri).
  - intros Hmax. destruct k as [|k]; [done|]. exfalso.
    destruct (lookup_lt_is_Some_2 rounds 0%nat) as [r0 Hr0].
    { apply lookup_lt_Some in Hk. lia. }
    destruct (Hprev 0%nat r0 ltac:(lia) Hr0) as [Hpos _].
    unfold withDefaults in Hpos. destruct (Z.leb_spec (MaxTotal policy) 0); [|lia].
    cbn in Hpos. lia.
Qed.

End LoopTheorems.

Definition busyRound (waits : bool) : round Z :=
  mkRound (Err (Busy "lease held" 200)) None false (f64 0) (60 * second) WaitTimer (negb waits).

Lemma retry_loop_outcome_witness :
  exists k r, [busyRound true; mkRound (Ok 7) None false (f64 0) 0 WaitTimer false] !! k = Some r /\
    attempt r = Ok 7.
Proof.
  destruct (retry_loop_outcome DefaultRetryPolicy
    [busyRound true; mkRound (Ok 7) None false (f64 0) 0 WaitTimer false] (Ok 7) (800 * millisecond))
    as (k & r & Hk & _ & _ & Hr).
  - vm_compute. reflexivity.
  - exists k, r. split; [exact Hk|exact Hr].
Defined.

