(* ===== verification/Prog.v ===== *)
(** * Prog: programs that call an environment, and protocols they follow

    A program is a tree of calls: each call names an operation, and the reply
    the environment gives selects the rest. A monitor is an automaton that
    reads calls and replies; [safe m p s post] says that whatever the
    environment replies, the monitor, started in [s], never gets stuck, and
    the result satisfies [post] in its final state. *)

From S2P Require Import Prelude.

Section Prog.
Context {op : Set -> Type}.

Inductive prog (A : Type) : Type :=
  | Ret (a : A)
  | Do (R : Set) (o : op R) (k : R -> prog A).
Arguments Ret {A} a.
Arguments Do {A R} o k.

#[export] Instance prog_ret : MRet prog := fun _ a => Ret a.
#[export] Instance prog_bind : MBind prog := fun A B k =>
  fix go (m : prog A) : prog B :=
    match m with
    | Ret a => k a
    | Do o k' => Do o (fun r => go (k' r))
    end.

Definition invoke {R : Set} (o : op R) : prog R := Do o Ret.

(** A monitor: the state after a call and its reply, [None] if the call is
    not allowed. *)
Definition monitor (S : Type) : Type := forall R : Set, op R -> S -> R -> option S.

Fixpoint safe {S A : Type} (m : monitor S) (p : prog A) (s : S) (post : A -> S -> Prop) : Prop :=
  match p with
  | Ret a => post a s
  | Do o k => forall r, match m _ o s r with
                        | Some s' => safe m (k r) s' post
                        | None => False
                        end
  end.

(** Runs against one environment: the replies it gives, by the calls made
    so far. *)
Record call := mkCall { call_type : Set; call_op : op call_type; call_reply : call_type }.

Definition oracle : Type := forall R : Set, list call -> op R -> R.

Fixpoint exec {A} (env : oracle) (p : prog A) (past : list call) : A * list call :=
  match p with
  | Ret a => (a, past)
  | Do o k => let r := env _ past o in exec env (k r) (past ++ [mkCall _ o r])
  end.

(** The monitor's state after a list of calls. *)
Fixpoint watch {S} (m : monitor S) (s : S) (cs : list call) : option S :=
  match cs with
  | [] => Some s
  | c :: cs => match m _ (call_op c) s (call_reply c) with
               | Some s' => watch m s' cs
               | None => None
               end
  end.

Lemma safe_bind {S A B} (m : monitor S) (p : prog A) (k : A -> prog B) s post :
  safe m p s (fun a s' => safe m (k a) s' post) -> safe m (p ≫= k) s post.
Proof.
  revert s. induction p as [a|R o k' IH]; intros s; [done|]. cbn. intros Hs r.
  specialize (Hs r). destruct (m R o s r); [by apply IH|done].
Qed.

Lemma safe_mono {S A} (m : monitor S) (p : prog A) s (post post' : A -> S -> Prop) :
  safe m p s post -> (forall a s', post a s' -> post' a s') -> safe m p s post'.
Proof.
  revert s. induction p as [a|R o k IH]; intros s Hs Hp; cbn in *; [auto|].
  intros r. specialize (Hs r). destruct (m R o s r); [by apply IH|done].
Qed.

Lemma watch_app {S} (m : monitor S) s cs cs' :
  watch m s (cs ++ cs') = match watch m s cs with Some s' => watch m s' cs' | None => None end.
Proof.
  revert s. induction cs as [|c cs IH]; intros s; [done|]. cbn.
  destruct (m _ _ _ _); [apply IH|done].
Qed.

(** Safety, read off runs: in every environment the monitor accepts all the
    calls made and the result satisfies the postcondition. *)
Lemma safe_exec {S A} (m : monitor S) (p : prog A) env past s0 s post :
  safe m p s post -> watch m s0 past = Some s ->
  exists s', watch m s0 (exec env p past).2 = Some s' /\ post (exec env p past).1 s'.
Proof.
  revert past s. induction p as [a|R o k IH]; intros past s Hs Hw; cbn; [eauto|].
  cbn in Hs. specialize (Hs (env R past o)).
  destruct (m R o s (env R past o)) as [s1|] eqn:Hm; [|done].
  eapply IH; [exact Hs|]. rewrite watch_app, Hw. cbn. by rewrite Hm.
Qed.
End Prog.
Arguments prog : clear implicits.
Arguments monitor : clear implicits.
Arguments oracle : clear implicits.
Arguments call : clear implicits.
Arguments Ret {op A} a.
Arguments Do {op A R} o k.
