(* ===== verification/WriteProtocol.v ===== *)
(** * WriteProtocol: one attempt of a write ([withWriteAttempt] in
      [runtime/runtime.go])

    The attempt as a program over the calls it makes: the lease manager, the
    manifest and replica of the database, the write session, the metrics. The
    replies are the environment's, so every theorem holds for every behaviour
    of Redis, object storage, SQLite and the caller's function. *)

From S2P Require Import Prelude Errors CStrings Manifest Retry Prog.

(** [runtime.WriteResult] *)
Record WriteResult := mkResult { TXID : string; Deduplicated : bool }.

(** The calls of the attempt. *)
Inductive op : Set -> Type :=
  | Database : op (option goerror)              (* r.database *)
  | ReleaseDatabase : op unit
  | Acquire : op (option goerror)               (* r.leases.Acquire *)
  | Release : op (option goerror)
  | Abandon : op unit
  | LeaseStale : op bool                        (* r.leaseStale *)
  | ReadManifest : op (res goerror (list file * bool))
  | TailTXID : op (res goerror Z)
  | BuildManifest : op (res goerror (list file))
  | WriteManifest (files : list file) : op (option goerror)
  | OpenWrite (manifest : option (list file)) : op (option goerror)
  | Exec (sql : string) : op (option goerror)   (* session.Exec *)
  | Lookup : op (res goerror string)            (* lookupIdempotent *)
  | Callback : op (option goerror)              (* session.Run(ctx, fn) *)
  | Record_ (txid : string) : op (option goerror) (* recordIdempotent *)
  | NextTXID : op (res goerror string)
  | SessionTXID : op (res goerror string)
  | DisableWrite : op (option goerror)
  | ManifestFiles : op (option (list file))     (* session.ManifestFiles *)
  | CloseSession : op unit
  | CtxErr : op (option goerror)                (* ctx.Err() *)
  | Evict : op unit                             (* r.reads.Evict *)
  | Metric (counters : list string) : op unit    (* r.metrics.Record *)
  | Enqueue (files : list file) : op unit.      (* r.enqueueCompaction *)

(** [strconv.ParseUint(s, 16, 64)] *)
Definition hex_digit (c : Ascii.ascii) : option Z :=
  let n := code c in
  if (48 <=? n) && (n <=? 57) then Some (n - 48)
  else if (97 <=? n) && (n <=? 102) then Some (n - 87)
  else if (65 <=? n) && (n <=? 70) then Some (n - 55)
  else None.
Fixpoint hex_digits (s : string) (acc : Z) : option Z :=
  match s with
  | EmptyString => Some acc
  | String c s => match hex_digit c with
                  | Some d => hex_digits s (16 * acc + d)
                  | None => None
                  end
  end.
Definition ParseUint (s : string) : option Z :=
  match s with
  | EmptyString => None
  | _ => match hex_digits s 0 with
         | Some n => if n <? two64 then Some n else None
         | None => None
         end
  end.

Fixpoint ToLower (s : string) : string :=
  match s with
  | EmptyString => EmptyString
  | String c s => String (if (65 <=? code c) && (code c <=? 90) then chr (code c + 32) else c) (ToLower s)
  end.
Definition Contains (s sub : string) : bool :=
  match strstr s sub with Some _ => true | None => false end.

Section Attempt.
(** [err.Error()]: the driver's part of the text is not modelled. *)
Context (Error : goerror -> string).

Definition isNestedTxError (err : goerror) : bool :=
  let s := ToLower (Error err) in
  Contains s "cannot start a transaction within a transaction" ||
  Contains s "already in a transaction" ||
  Contains s "cannot commit - no transaction is active".

Abbreviation P := (prog op (res goerror WriteResult)).

Definition failWithLease (cause : goerror) : P :=
  invoke Release;; mret (Err cause).

Definition flushFailure (cause : goerror) : P :=
  invoke Abandon;;
  mret (Err (if bool_decide (ClassOf cause = Some ClassConflict)
             then Wrap ClassConflict "litestream writer conflict during flush" cause
             else Wrap ClassFlushFailed "remote LTX flush not confirmed" cause)).

Definition rollback : prog op (option goerror) := invoke (Exec "ROLLBACK").

(** The deduplicated reply: repair the manifest if it does not cover the
    recorded transaction, release, acknowledge. *)
Definition dedupe (hasManifest : bool) (existingTXID : string) : P :=
  let finish : P :=
    err ← invoke Release;
    match err with
    | Some e => mret (Err e)
    | None => mret (Ok (mkResult existingTXID true))
    end in
  rollback;;
  invoke (Metric ["IdempotencyDedupeHits"]);;
  invoke CloseSession;;
  match hasManifest, ParseUint existingTXID with
  | true, Some tx =>
      r ← invoke ReadManifest;
      match r with
      | Err e => failWithLease (Wrap ClassRemoteUnavailable "read manifest" e)
      | Ok (current, ok) =>
          if negb ok || negb (manifestHasTXID current tx) then
            r ← invoke BuildManifest;
            match r with
            | Err e => failWithLease (Wrap ClassRemoteUnavailable "repair manifest" e)
            | Ok files =>
                err ← invoke (WriteManifest files);
                match err with
                | Some e => failWithLease (Wrap ClassRemoteUnavailable "write repaired manifest" e)
                | None => finish
                end
            end
          else finish
      end
  | _, _ => finish
  end.

(** From the confirmed flush on. *)
Definition acknowledge (hasManifest : bool) (manifestFiles : list file) (txid : string) : P :=
  let finish (compactionFiles : list file) : P :=
    invoke Evict;;
    invoke CloseSession;;
    err ← invoke Release;
    match err with
    | Some e =>
        (if bool_decide (ClassOf e = Some ClassLeaseConflict)
         then invoke (Metric ["LeaseReleaseConflicts"]) else mret tt);;
        mret (Err e)
    | None =>
        invoke (Metric ["LeaseReleased"]);;
        invoke (Enqueue compactionFiles);;
        mret (Ok (mkResult txid false))
    end in
  if hasManifest then
    fs ← invoke ManifestFiles;
    let files := default manifestFiles fs in
    err ← invoke (WriteManifest files);
    match err with
    | Some e =>
        invoke CloseSession;;
        flushFailure (Wrap ClassFlushFailed "manifest update not confirmed" e)
    | None => finish files
    end
  else
    r ← invoke BuildManifest;
    match r with
    | Err _ => finish []
    | Ok files =>
        err ← invoke (WriteManifest files);
        match err with
        | Some _ => invoke (Metric ["CompactionFailures"]);; finish []
        | None => finish files
        end
    end.

(** COMMIT and the flush barrier. *)
Definition commit (hasManifest : bool) (manifestFiles : list file) (nextTXID : string) : P :=
  err ← invoke (Exec "COMMIT");
  match err with
  | Some e =>
      rollback;;
      invoke CloseSession;;
      flushFailure (Wrap ClassFlushFailed "commit not confirmed" e)
  | None =>
      err ← invoke DisableWrite;
      match err with
      | Some e =>
          invoke (Metric ((if bool_decide (ClassOf e = Some ClassConflict)
                           then ["FlushConflictErrors"] else []) ++
                          ["FlushFailures"; "IdempotencyAmbiguousOutcomes"]));;
          invoke CloseSession;;
          flushFailure e
      | None =>
          invoke (Metric ["FlushSuccesses"; "FlushDurationMicros"]);;
          stale ← invoke LeaseStale;
          if (stale : bool) then
            invoke CloseSession;;
            invoke Abandon;;
            invoke (Metric ["IdempotencyAmbiguousOutcomes"]);;
            mret (Err (New ClassFlushFailed "lease lost during flush; write not acknowledged, retry with the same idempotency key"))
          else
            r ← invoke SessionTXID;
            match r with
            | Err e =>
                invoke CloseSession;;
                invoke Abandon;;
                mret (Err (Wrap ClassFlushFailed "read txid after flush" e))
            | Ok txid =>
                if negb (String.eqb txid nextTXID) then
                  invoke CloseSession;;
                  invoke Abandon;;
                  mret (Err (New ClassFlushFailed
                    ("flushed txid " ++ txid ++ " does not match recorded txid " ++ nextTXID)%string))
                else acknowledge hasManifest manifestFiles txid
            end
      end
  end.

(** The mutation and its idempotency record, inside the transaction. *)
Definition mutate (hasManifest : bool) (manifestFiles : list file) : P :=
  err ← invoke Callback;
  match err with
  | Some e =>
      rollback;;
      invoke (Metric ["WriteTransactionFailures"]);;
      invoke CloseSession;;
      if isNestedTxError e
      then failWithLease (Wrap ClassInvalidArgument "write callback must not manage transactions (no BEGIN/COMMIT inside fn)" e)
      else failWithLease (Wrap (classifySQLError e) "transaction failed" e)
  | None =>
      invoke (Metric ["WriteTransactions"]);;
      ctx ← invoke CtxErr;
      match ctx with
      | Some e =>
          rollback;;
          invoke CloseSession;;
          failWithLease (Wrap ClassBusy "write attempt exceeded its deadline; transaction rolled back, retry with the same idempotency key" e)
      | None =>
          r ← invoke NextTXID;
          match r with
          | Err e =>
              rollback;;
              invoke CloseSession;;
              failWithLease (Wrap (classifySQLError e) "compute next txid" e)
          | Ok nextTXID =>
              err ← invoke (Record_ nextTXID);
              match err with
              | Some e => rollback;; invoke CloseSession;; failWithLease e
              | None =>
                  stale ← invoke LeaseStale;
                  if (stale : bool) then
                    rollback;;
                    invoke CloseSession;;
                    invoke Abandon;;
                    invoke (Metric ["LeaseReleaseConflicts"]);;
                    mret (Err (New ClassLeaseConflict "lease expired before flush; transaction rolled back, retry with the same idempotency key"))
                  else commit hasManifest manifestFiles nextTXID
              end
          end
      end
  end.

Definition transact (hasManifest : bool) (manifestFiles : list file) : P :=
  err ← invoke (Exec "BEGIN IMMEDIATE");
  match err with
  | Some e =>
      invoke CloseSession;;
      failWithLease (Wrap (classifySQLError e) "begin write transaction" e)
  | None =>
      r ← invoke Lookup;
      match r with
      | Err e => rollback;; invoke CloseSession;; failWithLease e
      | Ok existingTXID =>
          if String.eqb existingTXID "" then mutate hasManifest manifestFiles
          else dedupe hasManifest existingTXID
      end
  end.

Definition openSession (hasManifest : bool) (manifestFiles : list file) : P :=
  err ← invoke (OpenWrite (if hasManifest then Some manifestFiles else None));
  match err with
  | Some e => failWithLease (wrapSessionOpenError "open write session" e)
  | None => transact hasManifest manifestFiles
  end.

(** The plan to open with: the manifest, rebuilt if an unindexed file lies
    beyond it. *)
Definition plan : P :=
  r ← invoke ReadManifest;
  match r with
  | Err e => failWithLease (Wrap ClassRemoteUnavailable "read manifest" e)
  | Ok (manifestFiles, false) => openSession false manifestFiles
  | Ok (manifestFiles, true) =>
      r ← invoke TailTXID;
      match r with
      | Err e => failWithLease (Wrap ClassRemoteUnavailable "probe replica tail" e)
      | Ok tail =>
          if manifestMaxTXID manifestFiles <? tail then
            r ← invoke BuildManifest;
            match r with
            | Err e => failWithLease (Wrap ClassRemoteUnavailable "rebuild manifest" e)
            | Ok rebuilt =>
                err ← invoke (WriteManifest rebuilt);
                match err with
                | Some e => failWithLease (Wrap ClassRemoteUnavailable "write repaired manifest" e)
                | None => openSession true rebuilt
                end
            end
          else openSession true manifestFiles
      end
  end.

Definition withLease : P :=
  err ← invoke Acquire;
  match err with
  | Some e =>
      (match ClassOf e with
       | Some ClassBusy => invoke (Metric ["LeaseBusyRetries"])
       | Some ClassLeaseConflict => invoke (Metric ["LeaseCASConflicts"])
       | _ => mret tt
       end);;
      mret (Err e)
  | None => invoke (Metric ["LeaseAcquireAttempts"; "LeaseAcquireSucceeded"]);; plan
  end.

Definition withWriteAttempt : P :=
  err ← invoke Database;
  match err with
  | Some e => mret (Err e)
  | None => r ← withLease; invoke ReleaseDatabase;; mret r
  end.
End Attempt.

(** ** Protocol 1: resources *)

Inductive lease_state := NotHeld | Held | Resolved.
Inductive session_state := NoSession | SessionOpen | SessionClosed.

Record resources := mkRes { db : bool; lease : lease_state; session : session_state }.

Definition with_lease (s : resources) (l : lease_state) : resources := mkRes (db s) l (session s).
Definition with_session (s : resources) (x : session_state) : resources := mkRes (db s) (lease s) x.

(** The database entry is referenced for the whole attempt; storage and the
    session are touched only under the lease; the session is opened once and
    closed before the lease is given up; the lease is given up exactly once. *)
Definition resource_protocol : monitor op resources := fun R o s =>
  let under_lease : option resources :=
    match db s, lease s with true, Held => Some s | _, _ => None end in
  let in_session : option resources :=
    match lease s, session s with Held, SessionOpen => Some s | _, _ => None end in
  let relinquish : option resources :=
    match db s, lease s, session s with
    | true, Held, SessionOpen => None
    | true, Held, _ => Some (with_lease s Resolved)
    | _, _, _ => None
    end in
  match o in op R return R -> option resources with
  | Database => fun r => if db s then None else
      Some (match r with None => mkRes true (lease s) (session s) | Some _ => s end)
  | ReleaseDatabase => fun _ =>
      match db s, lease s, session s with
      | true, Held, _ | true, _, SessionOpen | false, _, _ => None
      | true, l, x => Some (mkRes false l x)
      end
  | Acquire => fun r =>
      match db s, lease s with
      | true, NotHeld => Some (match r with None => with_lease s Held | Some _ => s end)
      | _, _ => None
      end
  | Release => fun _ => relinquish
  | Abandon => fun _ => relinquish
  | LeaseStale => fun _ => under_lease
  | ReadManifest => fun _ => under_lease
  | TailTXID => fun _ => under_lease
  | BuildManifest => fun _ => under_lease
  | WriteManifest _ => fun _ => under_lease
  | Evict => fun _ => under_lease
  | CtxErr => fun _ => under_lease
  | OpenWrite _ => fun r =>
      match lease s, session s with
      | Held, NoSession => Some (match r with None => with_session s SessionOpen | Some _ => s end)
      | _, _ => None
      end
  | Exec _ => fun _ => in_session
  | Lookup => fun _ => in_session
  | Callback => fun _ => in_session
  | Record_ _ => fun _ => in_session
  | NextTXID => fun _ => in_session
  | SessionTXID => fun _ => in_session
  | DisableWrite => fun _ => in_session
  | ManifestFiles => fun _ => in_session
  | CloseSession => fun _ =>
      match session s with SessionOpen => Some (with_session s SessionClosed) | _ => None end
  | Metric _ => fun _ => Some s
  | Enqueue _ => fun _ => match lease s with Resolved => Some s | _ => None end
  end.

(** ** Protocol 2: no fork of the LTX chain *)

Inductive tx_state := TxNone | TxOpen | TxRolledBack | TxUnknown | TxCommitted | TxFlushed.

Record chain := mkChain { tx : tx_state; recorded : bool; fresh : bool; stale : bool }.

(** A transaction is committed only right after a negative staleness check and
    with its idempotency record inside; a manifest never indexes an
    unconfirmed flush; after a commit that is not confirmed flushed, or a
    positive staleness check, the lease is never released. *)
Definition chain_protocol : monitor op chain := fun R o s =>
  let go : option chain := Some (mkChain (tx s) (recorded s) false (stale s)) in
  let into (t : tx_state) : option chain := Some (mkChain t (recorded s) false (stale s)) in
  match o in op R return R -> option chain with
  | Exec sql => fun r =>
      if String.eqb sql "BEGIN IMMEDIATE" then
        match tx s, r with
        | TxNone, None => into TxOpen
        | TxNone, Some _ => into TxNone
        | _, _ => None
        end
      else if String.eqb sql "ROLLBACK" then
        match tx s with TxOpen => into TxRolledBack | TxUnknown => into TxUnknown | _ => None end
      else if String.eqb sql "COMMIT" then
        match tx s, recorded s, fresh s, r with
        | TxOpen, true, true, None => into TxCommitted
        | TxOpen, true, true, Some _ => into TxUnknown
        | _, _, _, _ => None
        end
      else None
  | Callback => fun _ => match tx s with TxOpen => go | _ => None end
  | Lookup => fun _ => match tx s with TxOpen => go | _ => None end
  | Record_ _ => fun r =>
      match tx s, r with
      | TxOpen, None => Some (mkChain TxOpen true false (stale s))
      | TxOpen, Some _ => go
      | _, _ => None
      end
  | LeaseStale => fun r => Some (mkChain (tx s) (recorded s) (negb r) (stale s || r))
  | DisableWrite => fun r =>
      match tx s, r with
      | TxCommitted, None => into TxFlushed
      | TxCommitted, Some _ => into TxUnknown
      | _, _ => None
      end
  | WriteManifest _ => fun _ =>
      match tx s with TxNone | TxRolledBack | TxFlushed => go | _ => None end
  | Release => fun _ =>
      match tx s, stale s with
      | TxNone, false | TxRolledBack, false | TxFlushed, false => go
      | _, _ => None
      end
  | Metric _ => fun _ => Some s
  | _ => fun _ => go
  end.

(** ** Protocol 3: what an acknowledgement rests on *)

Record evidence := mkEv {
  manifest : bool;              (* a manifest existed when the attempt began *)
  looked : bool;                (* the idempotency record was looked up *)
  found : option string;        (* and found *)
  ran : bool;                   (* the caller's function ran *)
  wrote_key : option string;    (* transaction id stored with the key *)
  flushed : bool;
  observed : option string;     (* transaction id after the flush *)
  indexed : bool;               (* manifest written after the flush *)
  released : bool;              (* the lease was released without conflict *)
}.

Definition evidence_protocol : monitor op evidence := fun R o s =>
  match o in op R return R -> option evidence with
  | ReadManifest => fun r =>
      match looked s, r with
      | false, Ok (_, b) => Some (mkEv b (looked s) (found s) (ran s) (wrote_key s) (flushed s)
                                    (observed s) (indexed s) (released s))
      | _, _ => Some s
      end
  | Lookup => fun r =>
      if ran s then None else
      match r with
      | Ok t => Some (mkEv (manifest s) true (if String.eqb t "" then None else Some t) (ran s)
                        (wrote_key s) (flushed s) (observed s) (indexed s) (released s))
      | Err _ => Some s
      end
  | Callback => fun _ =>
      match looked s, found s, ran s with
      | true, None, false => Some (mkEv (manifest s) true None true (wrote_key s) (flushed s)
                                     (observed s) (indexed s) (released s))
      | _, _, _ => None
      end
  | Record_ t => fun r =>
      Some (mkEv (manifest s) (looked s) (found s) (ran s)
              (match r with None => Some t | Some _ => wrote_key s end) (flushed s)
              (observed s) (indexed s) (released s))
  | DisableWrite => fun r =>
      Some (mkEv (manifest s) (looked s) (found s) (ran s) (wrote_key s)
              (match r with None => true | Some _ => false end) (observed s) (indexed s) (released s))
  | SessionTXID => fun r =>
      Some (mkEv (manifest s) (looked s) (found s) (ran s) (wrote_key s) (flushed s)
              (match r with Ok t => Some t | Err _ => None end) (indexed s) (released s))
  | WriteManifest _ => fun r =>
      Some (mkEv (manifest s) (looked s) (found s) (ran s) (wrote_key s) (flushed s) (observed s)
              (match r with None => flushed s | Some _ => indexed s end) (released s))
  | Release => fun r =>
      Some (mkEv (manifest s) (looked s) (found s) (ran s) (wrote_key s) (flushed s) (observed s)
              (indexed s) (match r with None => true | Some _ => false end))
  | _ => fun _ => Some s
  end.

Definition no_evidence : evidence := mkEv false false None false None false None false false.

(** A new write: the function ran once, its id was stored with the key in the
    same transaction, the flush was confirmed and shows that id, and the
    manifest that existed was updated. A repeated one: the id stored before,
    and the function did not run. Either way the lease was released. *)
Definition acknowledged (w : WriteResult) (s : evidence) : Prop :=
  released s = true /\ looked s = true /\
  if Deduplicated w then
    found s = Some (TXID w) /\ ran s = false /\ flushed s = false
  else
    found s = None /\ ran s = true /\ wrote_key s = Some (TXID w) /\ flushed s = true /\
    observed s = Some (TXID w) /\ (manifest s = true -> indexed s = true).

(** ** Protocol 4: the plan a session opens with *)

Record planning := mkPlan { read : option (list file); tail : option Z; built : option (list file);
                            stored : bool }.

(** A session over a manifest opens with the manifest read under this lease
    if it reaches the tail of level 0, otherwise with a fresh listing that has
    been stored. *)
Definition plan_protocol : monitor op planning := fun R o s =>
  match o in op R return R -> option planning with
  | ReadManifest => fun r =>
      Some (match r with Ok (fs, true) => mkPlan (Some fs) None None false | _ => s end)
  | TailTXID => fun r =>
      Some (match r with Ok t => mkPlan (read s) (Some t) (built s) (stored s) | Err _ => s end)
  | BuildManifest => fun r =>
      Some (match r with Ok fs => mkPlan (read s) (tail s) (Some fs) false | Err _ => s end)
  | WriteManifest fs => fun r =>
      Some (mkPlan (read s) (tail s) (built s)
              (match r with None => bool_decide (built s = Some fs) | Some _ => false end))
  | OpenWrite (Some fs) => fun _ =>
      match read s, tail s with
      | Some fs0, Some t =>
          if (bool_decide (fs = fs0) && (t <=? manifestMaxTXID fs)) ||
             (bool_decide (built s = Some fs) && stored s)
          then Some s else None
      | _, _ => None
      end
  | OpenWrite None => fun _ => match read s with None => Some s | Some _ => None end
  | _ => fun _ => Some s
  end.

(** ** Theorems *)

(** Explore a program: every reply, every test. *)
Ltac explore :=
  repeat (cbn;
    match goal with
    | |- forall _ : unit, _ => intros _
    | |- forall _ : option goerror, _ => intros [?|]
    | |- forall _ : res goerror (list file * bool), _ => intros [[? []]|?]
    | |- forall _ : res goerror _, _ => intros [?|?]
    | |- forall _ : bool, _ => intros []
    | |- forall _ : option (list file), _ => intros [?|]
    | |- context [match ParseUint ?s with _ => _ end] => destruct (ParseUint s) eqn:?
    | |- context [match ClassOf ?s with _ => _ end] => destruct (ClassOf s) as [[]|] eqn:?
    | |- safe _ ((if ?b then _ else _) ≫= _) _ _ => destruct b eqn:?
    | |- context [if ?b then _ else _] => destruct b eqn:?
    | |- match ?x with _ => _ end => destruct x eqn:?
    end).

Section Theorems.
Context (Error : goerror -> string).

(** C7  Whatever fails and whenever, a write attempt takes the lease at most once and
    gives it up exactly once (released, or left to expire), touches storage
    and the session only while it holds it, closes the session it opened
    before giving the lease up, and drops its reference to the database last;
    a success has gone through all of it. *)
Theorem write_resources :
  safe resource_protocol (withWriteAttempt Error) (mkRes false NotHeld NoSession)
    (fun r s => db s = false /\ lease s <> Held /\ session s <> SessionOpen /\
                (is_ok r = true -> lease s = Resolved /\ session s = SessionClosed)).
Proof. unfold withWriteAttempt. explore; try done. all: split_and!; done. Qed.

(** C5  The write attempt never forks the chain: in every run, COMMIT is issued only
    right after a check that found the lease fresh and with the idempotency
    record in the transaction, nothing is indexed before its flush is
    confirmed, and once a commit may have reached storage unconfirmed, or the
    lease was seen stale, the lease is never released. No transaction is left
    open, and a success ends with a confirmed flush or, for a repeated
    request, with the transaction rolled back. *)
Theorem write_never_forks :
  safe chain_protocol (withWriteAttempt Error) (mkChain TxNone false false false)
    (fun r s => tx s <> TxOpen /\ tx s <> TxCommitted /\
                (is_ok r = true -> stale s = false /\ (tx s = TxFlushed \/ tx s = TxRolledBack))).
Proof. unfold withWriteAttempt. explore; try done. all: split_and!; auto; done. Qed.


(** A write session never builds on a stale index: over a database with a
    manifest it opens with the manifest just read if that reaches the highest
    transaction on level 0, and otherwise with a listing rebuilt and stored
    under the same lease; without a manifest it opens without a plan. *)
Theorem write_plan_current :
  safe plan_protocol (withWriteAttempt Error) (mkPlan None None None false) (fun _ _ => True).
Proof.
  unfold withWriteAttempt. explore; try exact I.
  all: repeat match goal with
  | H : (if ?b then Some _ else None) = None |- _ => destruct b eqn:?; [discriminate H|clear H]
  | H : _ = false |- _ => apply orb_false_iff in H as [? ?]
  | H : _ = false |- _ => apply andb_false_iff in H as [?|?]
  end; bool_prop; try done; lia.
Qed.
End Theorems.

(** An environment in which everything works: the write is acknowledged. *)
Definition happy (R : Set) (_ : list (call op)) (o : op R) : R :=
  match o in op R return R with
  | Database | Acquire | Release => None
  | ReleaseDatabase | Abandon | CloseSession | Evict => tt
  | LeaseStale => false
  | ReadManifest => Ok ([mkFile 0 1 1 10 0], true)
  | TailTXID => Ok 1
  | BuildManifest => Ok []
  | WriteManifest _ | OpenWrite _ | Exec _ | Callback | Record_ _ | DisableWrite | CtxErr => None
  | Lookup => Ok ""
  | NextTXID | SessionTXID => Ok "0000000000000002"
  | ManifestFiles => Some [mkFile 0 1 1 10 0; mkFile 0 2 2 10 0]
  | Metric _ => tt
  | Enqueue _ => tt
  end.

Example happy_write :
  (exec happy (withWriteAttempt (fun _ => "")) []).1 = Ok (mkResult "0000000000000002" false).
Proof. reflexivity. Qed.
