(* ===== verification/Identity.v ===== *)
(** * Identity: database ids and the names derived from them
      ([identity/identity.go])

    Validation of an id, with the functions of Go's [strings], [path] and
    [net/url] packages it uses; the storage prefix, lease key and replica
    prefix of a database; the registry key of [runtime.database] and the
    compaction lease key of [runCompaction]. *)

From S2P Require Import Prelude CStrings.

(** ** Strings *)

Definition slash : Ascii.ascii := "/"%char.

(** [strings.Split(s, "/")]: at least one segment. *)
Fixpoint split (sep : Ascii.ascii) (s : string) : list string :=
  match s with
  | EmptyString => [EmptyString]
  | String c s =>
      if Ascii.eqb c sep then EmptyString :: split sep s
      else match split sep s with
           | [] => [String c EmptyString]
           | seg :: segs => String c seg :: segs
           end
  end.

(** [strings.Join] *)
Fixpoint join (sep : string) (segs : list string) : string :=
  match segs with
  | [] => ""
  | [s] => s
  | s :: segs => s +:+ sep +:+ join sep segs
  end.

Fixpoint sall (p : Ascii.ascii -> bool) (s : string) : bool :=
  match s with EmptyString => true | String c s => p c && sall p s end.

Definition HasPrefix (s p : string) : bool := String.prefix p s.
Fixpoint HasSuffix (s x : string) : bool :=
  String.eqb s x || match s with EmptyString => false | String _ s => HasSuffix s x end.
Definition Contains (s sub : string) : bool :=
  match strstr s sub with Some _ => true | None => false end.
Definition ContainsAny (s chars : string) : bool :=
  negb (sall (fun c => match strchr chars c with Some _ => false | None => true end) s).

(** Characters [url.PathEscape] leaves alone. *)
Definition path_safe (c : Ascii.ascii) : bool :=
  let n := code c in
  ((97 <=? n) && (n <=? 122)) || ((65 <=? n) && (n <=? 90)) || ((48 <=? n) && (n <=? 57))
  || match strchr "-_.~$&+:=@" c with Some _ => true | None => false end.

(** [url.PathEscape]: percent-encoding in upper-case hexadecimal. *)
Definition upperhex (n : Z) : Ascii.ascii := chr (if n <? 10 then 48 + n else 55 + n).
Fixpoint PathEscape (s : string) : string :=
  match s with
  | EmptyString => EmptyString
  | String c s =>
      if path_safe c then String c (PathEscape s)
      else String "%"%char (String (upperhex (code c `div` 16)) (String (upperhex (code c `mod` 16)) (PathEscape s)))
  end.

(** [path.Clean] *)
Fixpoint clean_segments (rooted : bool) (segs out : list string) : list string :=
  match segs with
  | [] => out
  | s :: segs =>
      if String.eqb s "" || String.eqb s "." then clean_segments rooted segs out
      else if String.eqb s ".." then
        match last out with
        | Some l => if String.eqb l ".." then clean_segments rooted segs (out ++ [s])
                    else clean_segments rooted segs (removelast out)
        | None => clean_segments rooted segs (if rooted then out else out ++ [s])
        end
      else clean_segments rooted segs (out ++ [s])
  end.
Definition Clean (p : string) : string :=
  let rooted := HasPrefix p "/" in
  let out := join "/" (clean_segments rooted (split slash p) []) in
  if rooted then "/" +:+ out else if String.eqb out "" then "." else out.

(** ** Database ids *)

(** The loop over segments. *)
Fixpoint check_segments (segs : list string) : option string :=
  match segs with
  | [] => None
  | seg :: segs =>
      if String.eqb seg "." || String.eqb seg ".." then Some "must not contain dot segments"
      else if ContainsAny seg "/?#" || negb (String.eqb seg (PathEscape seg)) then Some "not path-safe"
      else check_segments segs
  end.

(** [NewDatabaseID] (the error texts without the quoted id). *)
Definition NewDatabaseID (id : string) : res string string :=
  if String.eqb id "" then Err "database_id is required"
  else if HasPrefix id "/" || HasSuffix id "/" || Contains id "//" then Err "not a clean relative path"
  else match check_segments (split slash id) with
       | Some e => Err e
       | None => if negb (String.eqb (Clean id) id) then Err "not a clean relative path" else Ok id
       end.

(** [strings.TrimSuffix(s, "/")] *)
Fixpoint TrimSlash (s : string) : string :=
  match s with
  | EmptyString => EmptyString
  | String c EmptyString => if Ascii.eqb c slash then EmptyString else s
  | String c s => String c (TrimSlash s)
  end.

Definition StoragePrefix (rootPrefix id : string) : string :=
  let prefix := TrimSlash rootPrefix in
  let prefix := if String.eqb prefix "" then prefix else prefix +:+ "/" in
  prefix +:+ id +:+ "/".
Definition LeaseKey (rootPrefix id : string) : string := StoragePrefix rootPrefix id +:+ "lease.json".
Definition ReplicaPrefix (rootPrefix id : string) : string := StoragePrefix rootPrefix id +:+ "replica".

(** The key of a pass's own lease ([runCompaction]). *)
Definition CompactionKey (rootPrefix id : string) : string := LeaseKey rootPrefix id +:+ ":compact".

(** [litestream.Profile] without credentials, and the registry key. *)
Record Profile := mkProfile {
  Provider : string; Endpoint : string; Region : string; Bucket : string;
  RootPrefix : string; FileRoot : string;
}.
Definition registryKey (id : string) (p : Profile) : string :=
  join "|" [id; Provider p; Endpoint p; Region p; Bucket p; RootPrefix p; FileRoot p].

(** ** Lemmas on strings *)

Lemma split_cons sep s : exists seg segs, split sep s = seg :: segs.
Proof.
  destruct s as [|c s]; cbn; [eauto|]. destruct (Ascii.eqb c sep); [eauto|].
  destruct (split sep s); eauto.
Qed.

Lemma join_split sep s : join (String sep "") (split sep s) = s.
Proof.
  induction s as [|c s IH]; [done|]. cbn [split].
  destruct (Ascii.eqb_spec c sep) as [->|Hc].
  - destruct (split_cons sep s) as (x & xs & Hx). rewrite Hx in IH |- *.
    change (String sep (join (String sep "") (x :: xs)) = String sep s). by rewrite IH.
  - destruct (split_cons sep s) as (x & xs & Hx). rewrite Hx in IH |- *.
    destruct xs as [|y ys].
    + change (String c x = String c s). cbn in IH. by rewrite IH.
    + change (String c (join (String sep "") (x :: y :: ys)) = String c s). by rewrite IH.
Qed.

Definition without (sep : Ascii.ascii) (s : string) : bool := sall (fun c => negb (Ascii.eqb c sep)) s.

Lemma split_without sep s : without sep s = true -> split sep s = [s].
Proof.
  induction s as [|c s IH]; [done|]. cbn. destruct (Ascii.eqb c sep); [done|]. cbn.
  intros H. by rewrite IH.
Qed.

Lemma split_app sep a s : without sep a = true -> split sep (a +:+ String sep s) = a :: split sep s.
Proof.
  induction a as [|c a IH]; intros H.
  - change (split sep (String sep s) = "" :: split sep s). cbn [split]. by rewrite Ascii.eqb_refl.
  - change (split sep (String c (a +:+ String sep s)) = String c a :: split sep s). cbn [split].
    unfold without in H, IH. cbn [sall] in H.
    destruct (Ascii.eqb c sep); [done|]. by rewrite IH.
Qed.

Lemma split_join sep segs :
  segs <> [] -> Forall (fun s => without sep s = true) segs ->
  split sep (join (String sep "") segs) = segs.
Proof.
  intros Hne Hw. induction Hw as [|s segs Hs Hw IH]; [done|].
  destruct segs as [|t segs]; [by apply split_without|].
  change (split sep (s +:+ String sep (join (String sep "") (t :: segs))) = s :: t :: segs).
  rewrite split_app by done. by rewrite IH.
Qed.

Lemma append_cancel_r (a b x : string) : a +:+ x = b +:+ x -> a = b.
Proof.
  revert b. induction a as [|c a IH]; intros [|d b] H; [done| | |].
  - apply (f_equal String.length) in H. rewrite !string_length_app in H. cbn in H. lia.
  - apply (f_equal String.length) in H. symmetry in H. rewrite !string_length_app in H. cbn in H. lia.
  - change (String c (a +:+ x) = String d (b +:+ x)) in H. injection H as -> H. by rewrite (IH b).
Qed.

Lemma append_cancel_l (a b x : string) : x +:+ a = x +:+ b -> a = b.
Proof. apply (inj (String.append x)). Qed.

Fixpoint slast (s : string) : option Ascii.ascii :=
  match s with EmptyString => None | String c EmptyString => Some c | String _ s => slast s end.

Lemma slast_app a b : b <> "" -> slast (a +:+ b) = slast b.
Proof.
  intros Hb. induction a as [|c a IH]; [done|].
  change (slast (String c (a +:+ b)) = slast b). rewrite <- IH.
  cbn. destruct (a +:+ b) eqn:He; [|done]. apply (f_equal String.length) in He.
  rewrite string_length_app in He. destruct b; [done|]. cbn in He. lia.
Qed.

Lemma PathEscape_length s : (String.length s <= String.length (PathEscape s))%nat.
Proof. induction s as [|c s IH]; [done|]. cbn. destruct (path_safe c); cbn; lia. Qed.

Lemma PathEscape_id s : PathEscape s = s <-> sall path_safe s = true.
Proof.
  induction s as [|c s IH]; [done|]. cbn. destruct (path_safe c); cbn.
  - rewrite <- IH. split; [by intros [= ->]|by intros ->].
  - split; [|done]. intros H. apply (f_equal String.length) in H. cbn in H.
    pose proof (PathEscape_length s). lia.
Qed.

Lemma path_safe_plain c : path_safe c = true ->
  strchr "/?#" c = None /\ Ascii.eqb c "|"%char = false.
Proof. destruct c as [[] [] [] [] [] [] [] []]; vm_compute; intros H; (discriminate H || by split). Qed.

Lemma safe_plain s : sall path_safe s = true -> ContainsAny s "/?#" = false /\ without "|"%char s = true.
Proof.
  unfold ContainsAny, without. induction s as [|c s IH]; [done|]. cbn [sall].
  intros [Hc Hs]%andb_true_iff. destruct (path_safe_plain c Hc) as [-> ->].
  destruct (IH Hs) as [H1 ->]. apply negb_false_iff in H1. by rewrite H1.
Qed.

(** ** The segments of an id *)

Lemma slash_prefix s : HasPrefix s "/" = true <-> exists s', s = String slash s'.
Proof.
  unfold HasPrefix. split.
  - intros [rest ->]%prefix_inv. by exists rest.
  - intros [s' ->]. exact (prefix_app "/" s').
Qed.

Lemma slashes_prefix s : String.prefix "//" (String slash s) = HasPrefix s "/".
Proof. reflexivity. Qed.

(** An empty segment after the first comes from a double or trailing slash. *)
Lemma empty_segment s :
  "" ∈ tail (split slash s) <-> HasSuffix s "/" = true \/ Contains s "//" = true.
Proof.
  induction s as [|c s IH].
  { cbn. split; [by intros ?%not_elem_of_nil|]. by intros [?|?]. }
  assert (Hsuf : HasSuffix (String c s) "/" = true <-> (c = slash /\ s = "") \/ HasSuffix s "/" = true).
  { change (HasSuffix (String c s) "/") with (String.eqb (String c s) "/" || HasSuffix s "/").
    rewrite orb_true_iff, String.eqb_eq. split; intros [H|H]; auto.
    - injection H as -> ->. by left.
    - destruct H as [-> ->]. by left. }
  assert (Hcon : Contains (String c s) "//" = true <->
    (c = slash /\ HasPrefix s "/" = true) \/ Contains s "//" = true).
  { unfold Contains.
    change (strstr (String c s) "//") with
      (if String.prefix "//" (String c s) then Some (String c s) else strstr s "//").
    destruct (String.prefix "//" (String c s)) eqn:Hp.
    - split; [|done]. intros _. left. apply prefix_inv in Hp as [rest Heq].
      change (String c s = String slash (String slash rest)) in Heq. injection Heq as -> ->.
      split; [done|]. exact (prefix_app "/" rest).
    - split; [by right|]. intros [[-> H]|H]; [|done]. rewrite slashes_prefix in Hp. congruence. }
  rewrite Hsuf, Hcon. cbn [split]. destruct (Ascii.eqb_spec c slash) as [->|Hc].
  - cbn [tail]. destruct (split_cons slash s) as (x & xs & Hx).
    assert (H0 : x = "" <-> s = "" \/ HasPrefix s "/" = true).
    { rewrite slash_prefix. destruct s as [|d s]; cbn in Hx.
      - injection Hx as <- <-. split; auto.
      - destruct (Ascii.eqb_spec d slash) as [->|Hd].
        + injection Hx as <- <-. split; [|done]. intros _. right. eauto.
        + destruct (split slash s); injection Hx as <- <-; (split; [done|]);
            intros [?|(s' & [= -> ->])]; done. }
    rewrite Hx in IH |- *. cbn [tail] in IH. rewrite elem_of_cons, IH.
    split; [intros [Hs|Hs]; [symmetry in Hs; apply H0 in Hs|]; tauto|].
    intros [[[_ H]|H]|[[_ H]|H]]; try tauto; left; symmetry; apply H0; auto.
  - destruct (split_cons slash s) as (x & xs & Hx). rewrite Hx in IH |- *. cbn [tail] in IH |- *.
    rewrite IH. tauto.
Qed.

(** The three tests on slashes: no segment is empty. *)
Lemma no_empty_segment id :
  id <> "" ->
  HasPrefix id "/" || HasSuffix id "/" || Contains id "//" = false <->
  Forall (fun s => s <> "") (split slash id).
Proof.
  intros Hid. destruct (split_cons slash id) as (x & xs & Hx).
  assert (H0 : x = "" <-> HasPrefix id "/" = true).
  { rewrite slash_prefix. destruct id as [|d s]; [done|]. cbn in Hx.
    destruct (Ascii.eqb_spec d slash) as [->|Hd].
    - injection Hx as <- <-. split; [eauto|done].
    - destruct (split slash s); injection Hx as <- <-; (split; [done|]);
        intros (s' & Heq); injection Heq as -> _; done. }
  pose proof (empty_segment id) as Ht. rewrite Hx in Ht |- *. cbn [tail] in Ht.
  rewrite Forall_cons, H0, <- not_true_iff_false, !orb_true_iff.
  assert (Hxs : Forall (fun s => s <> "") xs <-> "" ∉ xs).
  { rewrite Forall_forall. split; [intros H Hin; by apply (H "")|intros H s Hs ->; done]. }
  rewrite Hxs, Ht. tauto.
Qed.

Definition good_segment (s : string) : Prop :=
  s <> "" /\ s <> "." /\ s <> ".." /\ sall path_safe s = true.

Lemma check_segments_none segs :
  check_segments segs = None <->
  Forall (fun s => s <> "." /\ s <> ".." /\ sall path_safe s = true) segs.
Proof.
  induction segs as [|s segs IH]; cbn; [split; [constructor|done]|].
  rewrite Forall_cons, <- IH.
  destruct (String.eqb_spec s "."); [by split; [|intros [[? _] _]]|].
  destruct (String.eqb_spec s ".."); [by split; [|intros [(_ & ? & _) _]]|]. cbn [orb].
  destruct (decide (sall path_safe s = true)) as [Hs|Hs].
  - destruct (safe_plain s Hs) as [-> _]. apply PathEscape_id in Hs as He.
    rewrite He, String.eqb_refl. cbn. tauto.
  - assert (He : String.eqb s (PathEscape s) = false).
    { apply String.eqb_neq. intros He. by apply Hs, PathEscape_id. }
    rewrite He, orb_true_r. split; [done|]. by intros [(_ & _ & ?) _].
Qed.

Lemma clean_good rooted segs out :
  Forall good_segment segs -> clean_segments rooted segs out = out ++ segs.
Proof.
  intros H. revert out. induction H as [|s segs (H1 & H2 & H3 & _) _ IH]; intros out; cbn.
  { by rewrite app_nil_r. }
  apply String.eqb_neq in H1 as ->. apply String.eqb_neq in H2 as ->. apply String.eqb_neq in H3 as ->.
  cbn. by rewrite IH, <- app_assoc.
Qed.

(** ** Theorems *)

(** What is a database id: [NewDatabaseID] accepts exactly the strings whose
    segments between slashes are all non-empty, neither ["."] nor [".."], and
    made of characters that need no escaping; it returns the string as it is.
    (So the final comparison with [path.Clean] never fails, and no id leads out
    of the root prefix.) *)
Theorem NewDatabaseID_accepts (id : string) :
  (Forall good_segment (split slash id) -> NewDatabaseID id = Ok id) /\
  (forall id', NewDatabaseID id = Ok id' -> id' = id /\ Forall good_segment (split slash id)).
Proof.
  pose proof (no_empty_segment id) as Hempty.
  assert (Hall : Forall good_segment (split slash id) <->
    Forall (fun s => s <> "") (split slash id) /\
    Forall (fun s => s <> "." /\ s <> ".." /\ sall path_safe s = true) (split slash id)).
  { rewrite <- Forall_and. done. }
  unfold NewDatabaseID. split.
  - intros Hg. assert (Hid : id <> "") by (intros ->; apply Forall_inv in Hg as [? _]; done).
    apply String.eqb_neq in Hid as Hid'. rewrite Hid'.
    destruct (proj1 Hall Hg) as [H1 H2]. rewrite (proj2 (Hempty Hid) H1).
    apply check_segments_none in H2 as ->.
    assert (Hp : HasPrefix id "/" = false).
    { apply (Hempty Hid), orb_false_iff in H1 as [H1 _]. by apply orb_false_iff in H1 as [H1 _]. }
    unfold Clean. rewrite Hp, clean_good by done. cbn [app].
    change (join "/" (split slash id)) with (join (String slash "") (split slash id)).
    rewrite join_split, Hid', String.eqb_refl. done.
  - intros id'. destruct (String.eqb_spec id "") as [|Hid]; [done|].
    destruct (HasPrefix id "/" || _ || _) eqn:Hs; [done|].
    destruct (check_segments (split slash id)) as [e|] eqn:Hc; [done|].
    destruct (negb _); [done|]. intros [= <-]. split; [done|]. apply Hall. split.
    + by apply Hempty.
    + by apply check_segments_none.
Qed.

(** Witness: an id with two segments, and one with a parent segment. *)
Lemma NewDatabaseID_accepts_witness :
  NewDatabaseID "users/u_1" = Ok "users/u_1" /\ ~ Forall good_segment (split slash "a/../b") /\
  Forall good_segment (split slash "users/u_1").
Proof.
  split_and!.
  - apply (proj1 (NewDatabaseID_accepts "users/u_1")). repeat constructor; try discriminate.
  - intros H. apply (proj1 (NewDatabaseID_accepts "a/../b")) in H. vm_compute in H. discriminate.
  - apply (proj2 (NewDatabaseID_accepts "users/u_1") "users/u_1"). vm_compute. reflexivity.
Defined.

(** Different databases never share an object: under one root, the lease key,
    the compaction lease key and the replica prefix each determine the database
    id, and none of the three is ever another database's. *)
Theorem object_names_disjoint (root a b : string) :
  (LeaseKey root a = LeaseKey root b -> a = b) /\
  (ReplicaPrefix root a = ReplicaPrefix root b -> a = b) /\
  (CompactionKey root a = CompactionKey root b -> a = b) /\
  LeaseKey root a <> ReplicaPrefix root b /\ LeaseKey root a <> CompactionKey root b /\
  CompactionKey root a <> ReplicaPrefix root b.
Proof.
  assert (Hs : forall a b, StoragePrefix root a = StoragePrefix root b -> a = b).
  { unfold StoragePrefix. intros x y H. apply append_cancel_l in H. by apply append_cancel_r in H. }
  split_and!.
  - intros H. by apply Hs, (append_cancel_r _ _ "lease.json").
  - intros H. by apply Hs, (append_cancel_r _ _ "replica").
  - intros H. apply append_cancel_r in H. by apply Hs, (append_cancel_r _ _ "lease.json").
  - intros H%(f_equal slast). unfold LeaseKey, ReplicaPrefix in H. by rewrite !slast_app in H.
  - intros H%(f_equal slast). unfold CompactionKey, LeaseKey in H. by rewrite !slast_app in H.
  - intros H%(f_equal slast). unfold CompactionKey, ReplicaPrefix in H. by rewrite !slast_app in H.
Qed.

Lemma object_names_disjoint_witness :
  LeaseKey "root/" "u1" = LeaseKey "root/" "u1" /\ LeaseKey "root/" "u1" = "root/u1/lease.json".
Proof.
  split; [|vm_compute; reflexivity].
  exact (f_equal (LeaseKey "root/") (proj1 (object_names_disjoint "root/" "u1" "u1") eq_refl)).
Defined.

(** But prefixes nest: the replica of a database contains, as objects, the
    whole database whose id continues it with [/replica]. *)
Lemma nested_database (root a : string) :
  StoragePrefix root (a +:+ "/replica") = ReplicaPrefix root a +:+ "/".
Proof. unfold ReplicaPrefix, StoragePrefix. by rewrite !string_app_assoc. Qed.

Lemma valid_id_without_bar id : NewDatabaseID id = Ok id -> without "|"%char id = true.
Proof.
  intros Hid. unfold NewDatabaseID in Hid.
  destruct (String.eqb id ""); [done|]. destruct (_ || _); [done|].
  destruct (check_segments (split slash id)) eqn:Hc; [done|]. clear Hid.
  apply check_segments_none in Hc. rewrite <- (join_split slash id).
  induction Hc as [|s segs (_ & _ & Hs) _ IH]; [done|].
  apply safe_plain in Hs as [_ Hs]. destruct segs as [|t segs]; [done|].
  change (without "|"%char (s +:+ String slash (join (String slash "") (t :: segs))) = true).
  revert Hs IH. generalize (join (String slash "") (t :: segs)). clear. intros rest Hs Hr.
  unfold without in *. induction s as [|c s IH]; [exact Hr|].
  cbn [sall] in Hs. apply andb_true_iff in Hs as [Hc Hs].
  change ((negb (Ascii.eqb c "|"%char) && sall (fun c => negb (Ascii.eqb c "|"%char)) (s +:+ String slash rest)) = true).
  by rewrite Hc, IH.
Qed.

(** The runtime never confuses two replicas: for valid ids and profiles whose
    fields hold no bar, equal registry keys mean the same database id and the
    same provider, endpoint, region, bucket, prefix and file root. *)
Theorem registry_key_injective (a b : string) (p q : Profile)
    (Ha : NewDatabaseID a = Ok a) (Hb : NewDatabaseID b = Ok b)
    (Hp : Forall (fun s => without "|"%char s = true)
            [Provider p; Endpoint p; Region p; Bucket p; RootPrefix p; FileRoot p])
    (Hq : Forall (fun s => without "|"%char s = true)
            [Provider q; Endpoint q; Region q; Bucket q; RootPrefix q; FileRoot q])
    (Hkey : registryKey a p = registryKey b q) :
  a = b /\ p = q.
Proof.
  pose proof valid_id_without_bar as Hbar.
  unfold registryKey in Hkey. apply (f_equal (split "|"%char)) in Hkey.
  rewrite !(split_join "|"%char) in Hkey; [|done|constructor; [by apply Hbar|done]|done|constructor; [by apply Hbar|done]].
  destruct p, q. cbn in Hkey. injection Hkey. intros. by subst.
Qed.

Lemma registry_key_injective_witness :
  let p := mkProfile "s3" "http://localhost:9000" "us-east-1" "data" "root" "" in
  registryKey "u1" p = registryKey "u1" p /\ p = p.
Proof.
  set (p := mkProfile "s3" "http://localhost:9000" "us-east-1" "data" "root" "").
  split; [reflexivity|].
  refine (proj2 (registry_key_injective "u1" "u1" p p _ _ _ _ eq_refl)).
  - vm_compute. reflexivity.
  - vm_compute. reflexivity.
  - repeat constructor.
  - repeat constructor.
Defined.
