(* ===== verification/Idempotency.v ===== *)
(** * Idempotency: the table of recorded results, trusted descriptors and
      the call [WithWrite] ([runtime/idempotency.go], [runtime/descriptor.go],
      [WithWrite] of [runtime/runtime.go])

    The two statements-with-errors that read and write the idempotency table
    inside the caller's transaction, the resolution of a descriptor, and
    [WithWrite] as a whole: its argument checks, the annotation of its errors
    and the retry loop. *)

From S2P Require Import Prelude Errors SqliteHeader Retry Identity WriteProtocol.

(** ** The table *)

(** What a transaction sees of the user database: whether the table exists,
    its rows (key to TXID), and, as a record of what the caller's functions
    did, the keys whose mutation this state contains, once per execution. *)
Record content := mkContent {
  schema : bool;
  rows : gmap string string;
  applied : list string;
}.

Definition emptyContent : content := mkContent false ∅ [].

(** [lookupIdempotent]: [create] and [query] are the errors the driver gives
    for the two statements; a missing row ([sql.ErrNoRows]) is the empty
    string. *)
Definition lookupIdempotent (create query : option goerror) (c : content) (key : string)
    : res goerror string * content :=
  match create with
  | Some err => (Err (Wrap (classifySQLError err) "prepare idempotency table" err), c)
  | None =>
      let c := mkContent true (rows c) (applied c) in
      match query with
      | Some err => (Err (Wrap (classifySQLError err) "read idempotency result" err), c)
      | None => (Ok (default "" (rows c !! key)), c)
      end
  end.

(** The driver's answer to the [INSERT]: an injected failure, SQLite's own
    for a missing table (code 1) or a primary key that exists (code 19). *)
Definition insertRow (insert : option goerror) (c : content) (key txid : string)
    : option goerror * content :=
  match insert with
  | Some err => (Some err, c)
  | None =>
      if negb (schema c) then (Some (ESqlite SQLITE_ERROR), c)
      else match rows c !! key with
           | Some _ => (Some (ESqlite SQLITE_CONSTRAINT), c)
           | None => (None, mkContent true (<[key := txid]> (rows c)) (applied c))
           end
  end.

(** [recordIdempotent] *)
Definition recordIdempotent (insert : option goerror) (c : content) (key txid : string)
    : option goerror * content :=
  match insertRow insert c key txid with
  | (Some err, c) => (Some (Wrap (classifySQLError err) "record idempotency result" err), c)
  | (None, c) => (None, c)
  end.

(** ** Descriptors *)

(** [CredentialSource]: a key pair or an error, at call time. *)
Class CredentialSource (C : Type) := AccessKey : C -> res goerror (string * string).

Record StaticCredentials := mkStatic { AccessKeyID : string; SecretAccessKey : string }.
#[export] Instance static_source : CredentialSource StaticCredentials :=
  fun c => Ok (AccessKeyID c, SecretAccessKey c).

Record DatabaseDescriptor (C : Type) := mkDescriptor {
  DatabaseID : string;
  Storage : Profile;
  Credentials : C;
}.
Arguments mkDescriptor {C}.
Arguments DatabaseID {C}.
Arguments Storage {C}.
Arguments Credentials {C}.

(** [DatabaseDescriptor.Identity] *)
Definition Identity {C} (d : DatabaseDescriptor C) : res goerror string :=
  match NewDatabaseID (DatabaseID d) with
  | Ok id => Ok id
  | Err text => Err (EOther text)
  end.

(** What [Runtime.database] does before it takes the mutex: the profile with
    the pair filled in, under the registry key, which leaves the pair out. *)
Definition resolve {C} `{CredentialSource C} (d : DatabaseDescriptor C) (id : string)
    : res goerror (string * Profile * (string * string)) :=
  match AccessKey (Credentials d) with
  | Err err => Err (Wrap ClassConfigurationInvalid "resolve credentials" err)
  | Ok keys => Ok (registryKey id (Storage d), Storage d, keys)
  end.

(** ** The call *)

(** The deferred [walrusderr.WithDatabase]. *)
Definition annotate {A} (r : res goerror A) (dbKey : string) : res goerror A :=
  match r with
  | Ok a => Ok a
  | Err e => Err (default e (WithDatabase (Some e) dbKey))
  end.

(** [WithWrite]: [None] while the loop still waits for a round. *)
Definition WithWrite {C} (policy : RetryPolicy) (d : DatabaseDescriptor C) (idempotencyKey : string)
    (fn_nil : bool) (rounds : list (round WriteResult)) : option (res goerror WriteResult) :=
  if String.eqb idempotencyKey "" then
    Some (Err (New ClassInvalidArgument "idempotency key is required for mutations"))
  else if fn_nil then Some (Err (New ClassInvalidArgument "write callback is required"))
  else match Identity d with
       | Err err => Some (Err (Wrap ClassInvalidArgument "database id" err))
       | Ok dbKey =>
           match withWriteLoop policy rounds with
           | Some (r, _) => Some (annotate r dbKey)
           | None => None
           end
       end.

(** ** Lemmas *)

Lemma lookup_rows create query c key r c' :
  lookupIdempotent create query c key = (r, c') ->
  rows c' = rows c /\ applied c' = applied c /\ (schema c = true -> schema c' = true) /\
  match r with
  | Ok t => create = None /\ query = None /\ schema c' = true /\ t = default "" (rows c !! key)
  | Err _ => is_Some create \/ is_Some query
  end.
Proof.
  unfold lookupIdempotent. intros H. destruct create; [simplify_eq; eauto 6|].
  destruct query; simplify_eq; cbn; eauto 8.
Qed.

Lemma record_rows insert c key txid r c' :
  recordIdempotent insert c key txid = (r, c') ->
  applied c' = applied c /\
  match r with
  | None => rows c !! key = None /\ rows c' = <[key := txid]> (rows c) /\ schema c' = true
  | Some _ => c' = c
  end.
Proof.
  unfold recordIdempotent, insertRow. intros H. destruct insert; [by simplify_eq|].
  destruct (schema c); cbn [negb] in H; [|by simplify_eq].
  destruct (rows c !! key) eqn:Hk; simplify_eq; done.
Qed.

(** A key that is already recorded cannot be recorded again, and the failure
    is not retried: it would repeat itself. *)
Lemma record_twice c key txid t :
  schema c = true -> rows c !! key = Some t ->
  exists err, recordIdempotent None c key txid = (Some err, c) /\ isRetryableWrite err = false.
Proof.
  intros Hs Hk. unfold recordIdempotent, insertRow. rewrite Hs, Hk. cbn [negb]. eexists. split; [done|]. reflexivity.
Qed.

(** A recorded result is the one looked up from then on. *)
Lemma lookup_after_record insert c key txid c' :
  recordIdempotent insert c key txid = (None, c') ->
  (lookupIdempotent None None c' key).1 = Ok txid.
Proof.
  intros H. apply record_rows in H as (_ & _ & Hr & _). cbn. by rewrite Hr, lookup_insert_eq.
Qed.

Lemma annotate_ok {A} (r : res goerror A) k a : annotate r k = Ok a <-> r = Ok a.
Proof. destruct r; cbn; split; congruence. Qed.

(** A successful [WithWrite] had a key, a function and a valid id, and the
    result is that of one of its attempts. *)
Lemma WithWrite_ok {C} policy (d : DatabaseDescriptor C) key fn_nil rounds w :
  WithWrite policy d key fn_nil rounds = Some (Ok w) ->
  key <> "" /\ fn_nil = false /\ is_ok (Identity d) = true /\
  exists k r, rounds !! k = Some r /\ attempt r = Ok w.
Proof.
  unfold WithWrite. destruct (String.eqb_spec key ""); [done|]. destruct fn_nil; [done|].
  destruct (Identity d) as [id|]; [|done].
  destruct (withWriteLoop policy rounds) as [[r slept]|] eqn:Hl; [|done].
  intros [= Ha]. apply annotate_ok in Ha as ->.
  destruct (retryLoop_spec _ _ _ _ _ _ Hl) as (k & r & Hk & _ & Hr). eauto 8.
Qed.
