(* ===== verification/ExactlyOnce.v ===== *)
(** * ExactlyOnce: many writers, one idempotency key

    The composition of [WriteProtocol] and [Idempotency]: any number of write
    attempts, of any number of processes, callers and keys, run the program
    [withWriteAttempt] call by call against one remote chain of database
    states. A process may stop for ever between any two calls; a commit may
    fail after it took effect; an upload may land long after the attempt that
    made it gave up. What the storage engine contributes is one hypothesis:
    an upload is accepted only by the position of the chain it was made
    from. *)

From S2P Require Import Prelude Errors Lease Prog WriteProtocol Retry Idempotency.

(** ** The protocol of one attempt *)

Inductive stage :=
  | Before                    (* no transaction yet *)
  | Begun
  | Absent                    (* the key was looked up, no result *)
  | Mutated                   (* the caller's function ran, once *)
  | Recorded (txid : string)
  | Committed (txid : string)
  | Settled (txid : string)   (* flushed, or found recorded *)
  | Dropped.                  (* nothing may be committed any more *)

(** The function runs only after the key was looked up and not found, the
    record follows a function that succeeded, the commit a record that was
    written, and nothing is committed after anything failed. *)
Definition once_protocol : monitor op stage := fun R o s =>
  match o in op R return R -> option stage with
  | Exec sql => fun r =>
      if String.eqb sql "BEGIN IMMEDIATE" then
        match s, r with
        | Before, None => Some Begun
        | Before, Some _ => Some Before
        | _, _ => None
        end
      else if String.eqb sql "ROLLBACK" then
        match s with
        | Settled t => Some (Settled t)
        | Committed _ | Before => None
        | _ => Some Dropped
        end
      else if String.eqb sql "COMMIT" then
        match s, r with
        | Recorded t, None => Some (Committed t)
        | Recorded _, Some _ => Some Dropped
        | _, _ => None
        end
      else None
  | OpenWrite _ => fun _ => match s with Before => Some Before | _ => None end
  | Lookup => fun r =>
      match s, r with
      | Begun, Ok t => Some (if String.eqb t "" then Absent else Settled t)
      | Begun, Err _ => Some Dropped
      | _, _ => None
      end
  | Callback => fun r =>
      match s, r with
      | Absent, None => Some Mutated
      | Absent, Some _ => Some Dropped
      | _, _ => None
      end
  | Record_ t => fun r =>
      match s, r with
      | Mutated, None => Some (Recorded t)
      | Mutated, Some _ => Some Dropped
      | _, _ => None
      end
  | DisableWrite => fun r =>
      match s, r with
      | Committed t, None => Some (Settled t)
      | Committed _, Some _ => Some Dropped
      | _, _ => None
      end
  | _ => fun _ => Some s
  end.

Definition settled (r : res goerror WriteResult) (s : stage) : Prop :=
  match r with Ok w => s = Settled (TXID w) | Err _ => True end.

Lemma attempt_follows_once (Error : goerror -> string) :
  safe once_protocol (withWriteAttempt Error) Before settled.
Proof.
  unfold withWriteAttempt. explore; try exact I; try done.
  all: repeat match goal with
    | H : negb _ = false |- _ => apply negb_false_iff, String.eqb_eq in H; subst
    end; done.
Qed.

(** ** The system *)

(** A write session: the position of the chain its view is, the content it
    has committed (the view itself, until then), an open transaction, and
    whether a commit waits to be uploaded. *)
Record session := mkSession {
  at_pos : nat;
  view : content;
  work : option content;
  dirty : bool;
}.

(** An attempt: its key and what is left of its program. *)
Record client := mkClient { ckey : string; left : prog op (res goerror WriteResult) }.

Record sys := mkSys {
  chain : list content;             (* the remote history, oldest first *)
  sessions : gmap nat session;      (* of the attempt with that number *)
  clients : gmap nat client;
}.

Section System.
Context (Error : goerror -> string).
(** [lands b tail]: an upload made at position [b] is accepted while the
    chain ends at [tail]. *)
Context (lands : nat -> nat -> bool).

Definition tailpos (s : sys) : nat := pred (length (chain s)).

Definition set_session (s : sys) (i : nat) (x : session) : sys :=
  mkSys (chain s) (<[i := x]> (sessions s)) (clients s).

(** The session of attempt [i] goes on as [x]. *)
Definition with_work (x : session) (w : option content) : session :=
  mkSession (at_pos x) (view x) w (dirty x).
Definition committed (x : session) (w : content) : session :=
  mkSession (at_pos x) w None true.

(** Which replies the environment may give to a call of attempt [i], and the
    state it leaves. The calls that do not touch the database may reply
    anything. *)
Definition answer (key : string) (i : nat) : forall R : Set, op R -> sys -> R -> sys -> Prop :=
  fun R o s =>
  let onSession (f : session -> sys -> Prop) : sys -> Prop := fun s' =>
    exists x, sessions s !! i = Some x /\ f x s' in
  let onWork (f : session -> content -> sys -> Prop) : sys -> Prop := fun s' =>
    exists x w, sessions s !! i = Some x /\ work x = Some w /\ f x w s' in
  match o in op R return R -> sys -> Prop with
  | OpenWrite _ => fun r s' =>
      match r with
      | Some _ => s' = s
      | None => exists p d, sessions s !! i = None /\ chain s !! p = Some d /\
                            s' = set_session s i (mkSession p d None false)
      end
  | Exec sql => fun r =>
      if String.eqb sql "BEGIN IMMEDIATE" then
        match r with
        | Some _ => fun s' => s' = s
        | None => onSession (fun x s' => work x = None /\
                    s' = set_session s i (with_work x (Some (view x))))
        end
      else if String.eqb sql "COMMIT" then
        match r with
        | None => onWork (fun x w s' => s' = set_session s i (committed x w))
        | Some _ => onWork (fun x w s' => s' = s \/ s' = set_session s i (committed x w))
        end
      else (* ROLLBACK *)
        onSession (fun x s' => s' = set_session s i (with_work x None))
  | Lookup => fun r => onWork (fun x w s' => exists create query w',
      lookupIdempotent create query w key = (r, w') /\ s' = set_session s i (with_work x (Some w')))
  | Callback => fun r => onWork (fun x w s' =>
      match r with
      | None => s' = set_session s i (with_work x (Some (mkContent (schema w) (rows w) (applied w ++ [key]))))
      | Some _ => exists w', s' = set_session s i (with_work x w')
      end)
  | Record_ txid => fun r => onWork (fun x w s' => exists insert w',
      recordIdempotent insert w key txid = (r, w') /\ s' = set_session s i (with_work x (Some w')))
  | DisableWrite => fun r => onSession (fun x s' => s' = s /\ (r = None -> dirty x = false))
  | _ => fun _ s' => s' = s
  end.

Definition set_client (s : sys) (i : nat) (c : client) : sys :=
  mkSys (chain s) (sessions s) (<[i := c]> (clients s)).

Inductive step (s : sys) : sys -> Prop :=
  | StepStart i key : clients s !! i = None -> sessions s !! i = None ->
      step s (set_client s i (mkClient key (withWriteAttempt Error)))
  | StepCall i key R (o : op R) k r s' :
      clients s !! i = Some (mkClient key (Do o k)) -> answer key i R o s r s' ->
      step s (set_client s' i (mkClient key (k r)))
  (* a commit reaches the replica: inside the flush, by the periodic sync, or
     after the attempt is over *)
  | StepUpload i x : sessions s !! i = Some x -> dirty x = true ->
      lands (at_pos x) (tailpos s) = true ->
      step s (mkSys (chain s ++ [view x])
                (<[i := mkSession (length (chain s)) (view x) (work x) false]> (sessions s)) (clients s))
  (* a session that has nothing open follows the chain *)
  | StepPoll i x p d : sessions s !! i = Some x -> dirty x = false -> work x = None ->
      (at_pos x <= p)%nat -> chain s !! p = Some d ->
      step s (set_session s i (mkSession p d None false)).

Inductive reachable (d0 : content) : sys -> Prop :=
  | ReachInit : reachable d0 (mkSys [d0] ∅ ∅)
  | ReachStep s s' : reachable d0 s -> step s s' -> reachable d0 s'.

(** An attempt with this key ended with this outcome. *)
Definition returned (s : sys) (key : string) (r : res goerror WriteResult) : Prop :=
  exists i, clients s !! i = Some (mkClient key (Ret r)).

(** The state the chain ends with: what a reader, and the next writer, sees. *)
Definition remote (s : sys) : content := default emptyContent (last (chain s)).

(** How often a state contains the mutation of a key. *)
Definition times (key : string) (d : content) : nat := count_occ String.string_dec (applied d) key.

(** ** Invariant *)

(** A state in which every recorded key has had its mutation executed, once,
    and no other key. *)
Definition once (d : content) : Prop :=
  NoDup (applied d) /\ forall k, k ∈ applied d <-> is_Some (rows d !! k).

Definition extends (d d' : content) : Prop :=
  rows d ⊆ rows d' /\ applied d `prefix_of` applied d'.

Definition durable (s : sys) (key t : string) : Prop :=
  exists d, d ∈ chain s /\ rows d !! key = Some t.

Definition session_ok (s : sys) (x : session) : Prop :=
  once (view x) /\ exists d, chain s !! at_pos x = Some d /\
    if dirty x then extends d (view x) else view x = d.

(** What a stage means for the attempt's session. *)
Definition stage_ok (s : sys) (key : string) (i : nat) (g : stage) : Prop :=
  let inTx (Q : session -> content -> Prop) : Prop :=
    exists x w, sessions s !! i = Some x /\ dirty x = false /\ work x = Some w /\ Q x w in
  match g with
  | Before => forall x, sessions s !! i = Some x -> dirty x = false /\ work x = None
  | Begun => inTx (fun x w => w = view x)
  | Absent => inTx (fun x w => rows w = rows (view x) /\ applied w = applied (view x))
  | Mutated => inTx (fun x w => rows w = rows (view x) /\ applied w = applied (view x) ++ [key])
  | Recorded t => inTx (fun x w => once w /\ extends (view x) w /\ rows w !! key = Some t)
  | Committed t => exists x, sessions s !! i = Some x /\ work x = None /\ rows (view x) !! key = Some t
  | Settled t => is_Some (sessions s !! i) /\ durable s key t
  | Dropped => is_Some (sessions s !! i)
  end.

Record inv (s : sys) : Prop := {
  inv_once : Forall once (chain s);
  inv_mono : forall p q d d', (p <= q)%nat -> chain s !! p = Some d -> chain s !! q = Some d' ->
               extends d d';
  inv_sessions : forall i x, sessions s !! i = Some x -> session_ok s x;
  inv_clients : forall i key p, clients s !! i = Some (mkClient key p) ->
    exists g, safe once_protocol p g settled /\ stage_ok s key i g;
  inv_fresh : forall i, clients s !! i = None -> sessions s !! i = None;
}.

(** *** Contents and histories *)

Lemma extends_refl d : extends d d.
Proof. by split. Qed.

Lemma extends_trans d d' d'' : extends d d' -> extends d' d'' -> extends d d''.
Proof. intros [] []. split; by etrans. Qed.

Lemma extends_lookup d d' k t : extends d d' -> rows d !! k = Some t -> rows d' !! k = Some t.
Proof. intros [Hr _] Hk. by eapply lookup_weaken. Qed.

(** A function that ran and was recorded, on top of a state without its key. *)
Lemma once_record d w key t c r :
  once d -> rows w = rows d -> applied w = applied d ++ [key] ->
  recordIdempotent r w key t = (None, c) -> once c /\ extends d c /\ rows c !! key = Some t.
Proof.
  intros [Hnd Hiff] Hr Ha Hrec. apply record_rows in Hrec as (Hac & Hnone & Hrc & _).
  rewrite Hr in Hnone, Hrc. rewrite Ha in Hac.
  assert (Hnew : key ∉ applied d) by (rewrite Hiff, Hnone; by intros []).
  split_and!.
  - split; rewrite Hac.
    + apply NoDup_app. split_and!; [done| |apply NoDup_singleton].
      intros k Hk. rewrite list_elem_of_singleton. by intros ->.
    + intros k. rewrite elem_of_app, list_elem_of_singleton, Hiff, Hrc, lookup_insert_is_Some.
      destruct (decide (key = k)) as [->|Hk]; [by split; auto|].
      split; [by intros [Hs|Hs]; [right|congruence]|by intros [Hs|[_ Hs]]; [congruence|left]].
  - split; rewrite ?Hrc, ?Hac; [by apply insert_subseteq|by exists [key]].
  - by rewrite Hrc, lookup_insert_eq.
Qed.

Lemma durable_stable s s' key t : chain s `prefix_of` chain s' -> durable s key t -> durable s' key t.
Proof.
  intros [l Hl] (d & Hd & Hk). exists d. rewrite Hl. split; [apply elem_of_app; by left|done].
Qed.

Lemma session_ok_stable s s' x : chain s `prefix_of` chain s' -> session_ok s x -> session_ok s' x.
Proof.
  intros [l Hl] (Ho & d & Hd & Hx). split; [done|]. exists d. rewrite Hl.
  split; [by apply lookup_app_l_Some|done].
Qed.

Lemma stage_ok_stable s s' key i g :
  chain s `prefix_of` chain s' -> sessions s' !! i = sessions s !! i ->
  stage_ok s key i g -> stage_ok s' key i g.
Proof.
  intros Hc Hs. destruct g; cbn; rewrite ?Hs; try done. intros [Hx Hd].
  split; [done|]. by eapply durable_stable.
Qed.

(** *** One call *)

Lemma sessions_set s i x : sessions (set_session s i x) !! i = Some x.
Proof. apply lookup_insert_eq. Qed.

Lemma with_work_ok s x w : session_ok s x -> session_ok s (with_work x w).
Proof. done. Qed.

Lemma committed_ok s x w :
  session_ok s x -> dirty x = false -> once w -> extends (view x) w -> session_ok s (committed x w).
Proof. intros (_ & d & Hd & Hx) Hdirty Ho He. rewrite Hdirty in Hx. subst d. split; [done|]. eauto. Qed.

(** The session of the attempt is replaced by one in order. *)
Definition moved (s : sys) (i : nat) (s' : sys) : Prop :=
  s' = s \/ exists x, s' = set_session s i x /\ session_ok s x.

Lemma moved_work s i x w : inv s -> sessions s !! i = Some x -> moved s i (set_session s i (with_work x w)).
Proof. intros Hinv Hx. right. eexists. split; [done|]. by apply with_work_ok, (inv_sessions _ Hinv i). Qed.

Lemma set_session_is_Some s i x : is_Some (sessions (set_session s i x) !! i).
Proof. rewrite sessions_set. eauto. Qed.

Ltac same_session Hx Hx' := rewrite Hx in Hx'; injection Hx' as <-.

Lemma call_ok s key i sql g r s' g' :
  inv s -> stage_ok s key i g -> answer key i _ (Exec sql) s r s' ->
  once_protocol _ (Exec sql) g r = Some g' -> moved s i s' /\ stage_ok s' key i g'.
Proof.
  intros Hinv Hg. cbn. destruct (String.eqb sql "BEGIN IMMEDIATE").
  { destruct r as [e|]; [intros ->; destruct g; try done; intros [= <-]; by split; [left|]|].
    intros (x & Hx & Hw & ->). destruct g; try done. intros [= <-].
    destruct (Hg x Hx) as [Hd _]. split; [by apply moved_work|].
    eexists _, _. rewrite sessions_set. done. }
  destruct (String.eqb sql "ROLLBACK") eqn:Hrb.
  { apply String.eqb_eq in Hrb as ->. intros (x & Hx & ->).
    destruct g; intros [= <-]; (split; [by apply moved_work|]); try apply set_session_is_Some.
    destruct Hg as [_ Hd]. split; [apply set_session_is_Some|done]. }
  destruct (String.eqb sql "COMMIT"); [|done].
  destruct g as [| | | |t| | |]; try done.
  destruct Hg as (x & w & Hx & Hd & Hw & Ho & He & Hk). pose proof (inv_sessions _ Hinv i x Hx) as Hok.
  assert (Hmoved : moved s i (set_session s i (committed x w))).
  { right. eexists. split; [done|]. by apply committed_ok. }
  destruct r as [e|]; intros (x' & w' & Hx' & Hw' & Hs') [= <-]; same_session Hx Hx'; same_session Hw Hw'.
  - destruct Hs' as [->| ->]; [split; [by left|by exists x]|]. split; [done|]. apply set_session_is_Some.
  - subst s'. split; [done|]. eexists. rewrite sessions_set. split_and!; [done|done|exact Hk].
Qed.

Lemma lookup_ok s key i g r s' g' :
  inv s -> stage_ok s key i g -> answer key i _ Lookup s r s' ->
  once_protocol _ Lookup g r = Some g' -> moved s i s' /\ stage_ok s' key i g'.
Proof.
  intros Hinv Hg (x & w & Hx & Hw & create & query & w' & Hl & ->). cbn.
  apply lookup_rows in Hl as (Hrows & Happ & _ & Hr).
  destruct g; try done. destruct Hg as (x' & ? & Hx' & Hd & Hw' & ->). same_session Hx Hx'. rewrite Hw in Hw'; injection Hw' as ->.
  destruct r as [t|e]; intros [= <-]; (split; [by apply moved_work|]); [|apply set_session_is_Some].
  destruct Hr as (_ & _ & _ & ->).
  destruct (String.eqb_spec (default "" (rows (view x) !! key)) "") as [_|Ht].
  - eexists _, _. rewrite sessions_set. done.
  - destruct (rows (view x) !! key) as [t|] eqn:Hk; [cbn|done]. split; [apply set_session_is_Some|].
    destruct (inv_sessions _ Hinv i x Hx) as (_ & d & Hp & Hv). rewrite Hd in Hv. subst d.
    exists (view x). split; [by apply list_elem_of_lookup; eauto|done].
Qed.

Lemma callback_ok s key i g r s' g' :
  inv s -> stage_ok s key i g -> answer key i _ Callback s r s' ->
  once_protocol _ Callback g r = Some g' -> moved s i s' /\ stage_ok s' key i g'.
Proof.
  intros Hinv Hg (x & w & Hx & Hw & Hs'). cbn. destruct g; try done.
  destruct Hg as (x' & w' & Hx' & Hd & Hw' & Hr & Ha). same_session Hx Hx'; same_session Hw Hw'.
  destruct r as [e|]; intros [= <-].
  - destruct Hs' as [w' ->]. split; [by apply moved_work|apply set_session_is_Some].
  - subst s'. split; [by apply moved_work|]. eexists _, _. rewrite sessions_set.
    split_and!; try done. cbn. by rewrite Ha.
Qed.

Lemma record_ok s key i txid g r s' g' :
  inv s -> stage_ok s key i g -> answer key i _ (Record_ txid) s r s' ->
  once_protocol _ (Record_ txid) g r = Some g' -> moved s i s' /\ stage_ok s' key i g'.
Proof.
  intros Hinv Hg (x & w & Hx & Hw & insert & w' & Hrec & ->). cbn. destruct g; try done.
  destruct Hg as (x' & v & Hx' & Hd & Hw' & Hr & Ha). same_session Hx Hx'; same_session Hw Hw'.
  destruct r as [e|]; intros [= <-]; (split; [by apply moved_work|]); [apply set_session_is_Some|].
  eexists _, _. rewrite sessions_set. split_and!; try done.
  all: edestruct once_record as (? & ? & ?); [|exact Hr|exact Ha|exact Hrec|done].
  all: by apply (inv_sessions _ Hinv i x Hx).
Qed.

Lemma flush_ok s key i g r s' g' :
  inv s -> stage_ok s key i g -> answer key i _ DisableWrite s r s' ->
  once_protocol _ DisableWrite g r = Some g' -> moved s i s' /\ stage_ok s' key i g'.
Proof.
  intros Hinv Hg (x & Hx & -> & Hd). cbn. destruct g as [| | | | |t| |]; try done.
  destruct Hg as (x' & Hx' & _ & Hk). same_session Hx Hx'.
  destruct r as [e|]; intros [= <-]; (split; [by left|]); [by exists x|]. split; [by exists x|].
  destruct (inv_sessions _ Hinv i x Hx) as (_ & d & Hp & Hv). rewrite (Hd eq_refl) in Hv. subst d.
  exists (view x). split; [by apply list_elem_of_lookup; eauto|done].
Qed.

Lemma open_ok s key i m g r s' g' :
  inv s -> stage_ok s key i g -> answer key i _ (OpenWrite m) s r s' ->
  once_protocol _ (OpenWrite m) g r = Some g' -> moved s i s' /\ stage_ok s' key i g'.
Proof.
  intros Hinv Hg Ha. cbn. destruct g; try done. intros [= <-]. destruct r as [e|]; cbn in Ha.
  - subst s'. by split; [left|].
  - destruct Ha as (p & d & Hnone & Hp & ->). split.
    + right. eexists. split; [done|]. split; [|by exists d].
      pose proof (inv_once _ Hinv) as Ho. rewrite Forall_lookup in Ho. by apply (Ho p).
    + intros y Hy. rewrite sessions_set in Hy. by injection Hy as <-.
Qed.

(** A call leaves the chain alone and at most changes its own session, to one
    that is in order; and the attempt stands where the protocol says. *)
Lemma answer_ok s key i R (o : op R) g r s' g' :
  inv s -> stage_ok s key i g -> answer key i R o s r s' -> once_protocol R o g r = Some g' ->
  moved s i s' /\ stage_ok s' key i g'.
Proof.
  intros Hinv Hg. destruct o.
  all: try (intros Ha Hm; cbn in Ha, Hm; subst s'; injection Hm as <-; by split; [left|]).
  - by apply open_ok.
  - by apply call_ok.
  - by apply lookup_ok.
  - by apply callback_ok.
  - by apply record_ok.
  - by apply flush_ok.
Qed.

(** *** Steps *)

Context (conflict_detection : forall b tail, lands b tail = true -> b = tail).

Lemma moved_same s i s' : moved s i s' ->
  chain s' = chain s /\ clients s' = clients s /\ (forall j, j <> i -> sessions s' !! j = sessions s !! j).
Proof.
  intros [->|(x & -> & _)]; [done|]. split_and!; [done..|]. intros j Hj.
  by apply lookup_insert_ne.
Qed.

Lemma inv_call s i key p s' p' g' :
  inv s -> clients s !! i = Some (mkClient key p) -> moved s i s' ->
  safe once_protocol p' g' settled -> stage_ok s' key i g' -> inv (set_client s' i (mkClient key p')).
Proof.
  intros Hinv Hi Hm Hp Hg. destruct (moved_same _ _ _ Hm) as (Hc & Hcl & Hs). split; cbn.
  - rewrite Hc. apply Hinv.
  - rewrite Hc. apply Hinv.
  - intros j x Hx. destruct (decide (j = i)) as [->|Hj].
    + destruct Hm as [->|(y & -> & Hy)]; [by apply (inv_sessions _ Hinv i)|].
      rewrite sessions_set in Hx. by injection Hx as <-.
    + rewrite Hs in Hx by done. unfold session_ok. cbn. rewrite Hc. by apply (inv_sessions _ Hinv j).
  - rewrite Hcl. intros j kj pj. destruct (decide (j = i)) as [->|Hj].
    + rewrite lookup_insert_eq. intros [= <- <-]. by exists g'.
    + rewrite lookup_insert_ne by done. intros Hpj.
      destruct (inv_clients _ Hinv j kj pj Hpj) as (g & Hsafe & Hst). exists g. split; [done|].
      apply (stage_ok_stable s); [cbn; by rewrite Hc|by apply Hs|done].
  - rewrite Hcl. intros j. destruct (decide (j = i)) as [->|Hj]; [by rewrite lookup_insert_eq|].
    rewrite lookup_insert_ne by done. intros Hn. rewrite Hs by done. by apply (inv_fresh _ Hinv).
Qed.

Lemma inv_start s i key :
  inv s -> clients s !! i = None -> sessions s !! i = None ->
  inv (set_client s i (mkClient key (withWriteAttempt Error))).
Proof.
  intros Hinv Hc Hs. split; cbn; try apply Hinv.
  - intros j kj pj. destruct (decide (j = i)) as [->|Hj].
    + rewrite lookup_insert_eq. intros [= <- <-]. exists Before.
      split; [apply attempt_follows_once|]. intros x Hx. cbn in Hx. congruence.
    + rewrite lookup_insert_ne by done. apply (inv_clients _ Hinv).
  - intros j. destruct (decide (j = i)) as [->|Hj]; [by rewrite lookup_insert_eq|].
    rewrite lookup_insert_ne by done. apply (inv_fresh _ Hinv).
Qed.

(** A session's own client, when the session changes but not its work. *)
Lemma inv_session s s' i x x' :
  inv s -> sessions s !! i = Some x -> chain s `prefix_of` chain s' -> clients s' = clients s ->
  sessions s' = <[i := x']> (sessions s) -> Forall once (chain s') ->
  (forall p q d d', (p <= q)%nat -> chain s' !! p = Some d -> chain s' !! q = Some d' -> extends d d') ->
  session_ok s' x' ->
  (forall key g, stage_ok s key i g -> stage_ok s' key i g) -> inv s'.
Proof.
  intros Hinv Hx Hc Hcl Hs Ho Hmono Hx' Hst. split; [done|done| | |].
  - intros j y. rewrite Hs. destruct (decide (j = i)) as [->|Hj].
    + rewrite lookup_insert_eq. by intros [= <-].
    + rewrite lookup_insert_ne by done. intros Hy.
      by apply (session_ok_stable s), (inv_sessions _ Hinv j).
  - rewrite Hcl. intros j key p Hp. destruct (inv_clients _ Hinv j key p Hp) as (g & Hsafe & Hg).
    exists g. split; [done|]. destruct (decide (j = i)) as [->|Hj]; [by apply Hst|].
    apply (stage_ok_stable s); [done| |done]. rewrite Hs. by apply lookup_insert_ne.
  - rewrite Hcl, Hs. intros j Hj. rewrite lookup_insert_ne; [by apply (inv_fresh _ Hinv)|].
    intros ->. apply (inv_fresh _ Hinv) in Hj. congruence.
Qed.

Lemma inv_upload s i x :
  inv s -> sessions s !! i = Some x -> dirty x = true -> lands (at_pos x) (tailpos s) = true ->
  inv (mkSys (chain s ++ [view x])
         (<[i := mkSession (length (chain s)) (view x) (work x) false]> (sessions s)) (clients s)).
Proof.
  intros Hinv Hx Hd Hl. apply conflict_detection in Hl.
  destruct (inv_sessions _ Hinv i x Hx) as (Ho & d & Hp & He). rewrite Hd in He.
  apply (inv_session s _ i x (mkSession (length (chain s)) (view x) (work x) false) Hinv Hx).
  - by eexists.
  - done.
  - done.
  - apply Forall_app. split; [apply Hinv|by constructor].
  - intros p q e e' Hpq. cbn. intros Hpe Hqe. apply lookup_snoc_Some in Hpe, Hqe.
    destruct Hqe as [[Hq Hqe]|[-> <-]], Hpe as [[Hp' Hpe]|[-> <-]]; [by eapply (inv_mono _ Hinv p q)|lia| |].
    + apply extends_trans with d; [|done]. apply (inv_mono _ Hinv p (at_pos x)); [|done..].
      unfold tailpos in Hl. lia.
    + apply extends_refl.
  - split; [done|]. exists (view x). split; [cbn; by rewrite lookup_app_r, Nat.sub_diag by lia|done].
  - intros key g. destruct g as [| | | | |t|t|]; cbn; rewrite ?lookup_insert_eq; try (by eauto).
    1: intros Hg; exfalso; destruct (Hg x Hx); congruence.
    1-4: intros (x' & w & Hx' & Hd' & _); exfalso; congruence.
    + intros (x' & Hx' & Hw & Hk). same_session Hx Hx'. by eexists.
    + intros [_ Hg]. split; [by eauto|]. eapply durable_stable; [|done]. by eexists.
Qed.

Lemma inv_poll s i x p d :
  inv s -> sessions s !! i = Some x -> dirty x = false -> work x = None ->
  (at_pos x <= p)%nat -> chain s !! p = Some d -> inv (set_session s i (mkSession p d None false)).
Proof.
  intros Hinv Hx Hd Hw Hp Hpd.
  destruct (inv_sessions _ Hinv i x Hx) as (Ho & d' & Hp' & He). rewrite Hd in He. subst d'.
  pose proof (inv_once _ Hinv) as Hall. rewrite Forall_lookup in Hall.
  apply (inv_session s _ i x (mkSession p d None false) Hinv Hx); try done; try apply Hinv.
  - split; [by apply (Hall p)|]. by exists d.
  - intros key g. destruct g as [| | | | |t|t|]; cbn; rewrite ?lookup_insert_eq; try (by eauto).
    1: by intros _ y [= <-].
    1-4: intros (x' & w & Hx' & _ & Hw' & _); exfalso; congruence.
    + intros (x' & Hx' & _ & Hk). same_session Hx Hx'. eexists. split_and!; [done..|].
      eapply extends_lookup; [|done]. by apply (inv_mono _ Hinv (at_pos x) p).
    + intros [_ Hg]. by split; [eauto|].
Qed.

Lemma once_inv_step s s' : inv s -> step s s' -> inv s'.
Proof.
  intros Hinv []; [by apply inv_start| |by apply inv_upload|by eapply inv_poll].
  destruct (inv_clients _ Hinv _ _ _ H) as (g & Hsafe & Hg). specialize (Hsafe r).
  destruct (once_protocol R o g r) as [g'|] eqn:Hm; [|done].
  destruct (answer_ok _ _ _ _ _ _ _ _ _ Hinv Hg H0 Hm) as [Hmoved Hg'].
  by eapply inv_call.
Qed.

Lemma once_inv_init d0 : once d0 -> inv (mkSys [d0] ∅ ∅).
Proof.
  intros Ho. split; cbn; try done.
  - by constructor.
  - intros [|p] [|q] d d'; cbn; intros; simplify_eq; apply extends_refl.
Qed.

Lemma inv_reachable d0 s : once d0 -> reachable d0 s -> inv s.
Proof. intros Ho. induction 1; [by apply once_inv_init|by eapply once_inv_step]. Qed.

(** *** What the invariant gives *)

Lemma durable_remote s key t : inv s -> durable s key t -> rows (remote s) !! key = Some t.
Proof.
  intros Hinv (d & Hd & Hk). apply list_elem_of_lookup in Hd as [p Hp]. unfold remote.
  destruct (last (chain s)) as [e|] eqn:He.
  - rewrite last_lookup in He. cbn. eapply extends_lookup; [|done].
    apply (inv_mono _ Hinv p (pred (length (chain s)))); [|done..].
    apply lookup_lt_Some in Hp. lia.
  - apply last_None in He. by rewrite He in Hp.
Qed.

Lemma returned_durable s key w : inv s -> returned s key (Ok w) -> durable s key (TXID w).
Proof.
  intros Hinv [i Hi]. destruct (inv_clients _ Hinv _ _ _ Hi) as (g & Hsafe & Hg).
  cbn in Hsafe. subst g. by destruct Hg.
Qed.

Lemma remote_once s : inv s -> once (remote s).
Proof.
  intros Hinv. unfold remote. destruct (last (chain s)) as [e|] eqn:He; cbn.
  - pose proof (inv_once _ Hinv) as Ho. rewrite Forall_lookup in Ho. rewrite last_lookup in He. by eapply Ho.
  - split; [constructor|]. intros k. split; [|by intros []]. intros Hk. by apply not_elem_of_nil in Hk.
Qed.

Lemma count_once (l : list string) k : NoDup l -> k ∈ l -> count_occ String.string_dec l k = 1%nat.
Proof. rewrite NoDup_ListNoDup, list_elem_of_In. intros Hl. by apply NoDup_count_occ'. Qed.

Lemma count_le_once (l : list string) k : NoDup l -> (count_occ String.string_dec l k <= 1)%nat.
Proof. rewrite NoDup_ListNoDup. intros Hl. by apply (NoDup_count_occ String.string_dec). Qed.

Lemma count_recorded d k :
  once d -> times k d = 1%nat <-> is_Some (rows d !! k).
Proof.
  intros [Hnd Hiff]. unfold times. rewrite <- Hiff. split; [|by apply count_once].
  unfold times. intros Hc. apply list_elem_of_In, (count_occ_In String.string_dec). lia.
Qed.

(** Every call an attempt makes has a reply, in every reachable state: no
    property holds because the environment is at a loss. *)
Lemma replies_exist s key i R (o : op R) k :
  inv s -> clients s !! i = Some (mkClient key (Do o k)) -> exists r s', answer key i R o s r s'.
Proof.
  intros Hinv Hi. destruct (inv_clients _ Hinv _ _ _ Hi) as (g & Hsafe & Hg).
  assert (Hm : forall r, once_protocol R o g r <> None).
  { intros r Hr. specialize (Hsafe r). by rewrite Hr in Hsafe. }
  clear Hsafe Hi k. destruct o; cbn [answer].
  all: try (exists None, s; reflexivity); try (exists tt, s; reflexivity);
       try (exists false, s; reflexivity); try (exists (Err (EOther "")), s; reflexivity).
  - exists (Some (EOther "")), s. done.
  - cbn in Hm. specialize (Hm None) as Hm0. destruct (String.eqb sql "BEGIN IMMEDIATE").
    { by exists (Some (EOther "")), s. }
    destruct (String.eqb sql "ROLLBACK") eqn:Hrb.
    { apply String.eqb_eq in Hrb as ->. cbn.
      assert (is_Some (sessions s !! i)) as [x Hx].
      { destruct g; try done; [destruct Hg as (x & w & Hx & _)..|by destruct Hg]; eauto. }
      exists None, (set_session s i (with_work x None)), x. done. }
    destruct (String.eqb sql "COMMIT"); [|done].
    destruct g; try done. destruct Hg as (x & w & Hx & _ & Hw & _). by eexists None, _, x, w.
  - destruct g; try (by destruct (Hm (Ok ""))). destruct Hg as (x & w & Hx & _ & Hw & _).
    by eexists _, _, x, w; split; [|split; [|exists None, None; eexists; split; [done|]]].
  - destruct g; try (by destruct (Hm None)). destruct Hg as (x & w & Hx & _ & Hw & _).
    by eexists None, _, x, w.
  - destruct g; try (by destruct (Hm None)). destruct Hg as (x & w & Hx & _ & Hw & _).
    destruct (recordIdempotent None w key txid) as [r w'] eqn:Hrec.
    by eexists r, _, x, w; split; [|split; [|eexists _, _; split; [exact Hrec|]]].
  - destruct g; try (by destruct (Hm None)). destruct Hg as (x & Hx & _).
    exists (Some (EOther "")), s, x. done.
Qed.

Lemma answer_clients key i R (o : op R) s r s' : answer key i R o s r s' -> clients s' = clients s.
Proof.
  destruct o; cbn; try (by intros ->); try (by intros (x & w & _ & _ & ? & ? & _ & ->));
    try (by intros (x & w & _ & _ & ? & ? & ? & _ & ->)).
  - destruct r; [by intros ->|]. by intros (p & d & _ & _ & ->).
  - destruct (String.eqb sql "BEGIN IMMEDIATE"); [destruct r; [by intros ->|by intros (x & _ & _ & ->)]|].
    destruct (String.eqb sql "COMMIT"); [|by intros (x & _ & ->)].
    destruct r; [by intros (x & w & _ & _ & [->| ->])|by intros (x & w & _ & _ & ->)].
  - intros (x & w & _ & _ & Hs'). destruct r; [by destruct Hs' as [w' ->]|by subst].
  - by intros (x & _ & -> & _).
Qed.

Lemma returned_stable s s' key r : rtc step s s' -> returned s key r -> returned s' key r.
Proof.
  induction 1 as [|s s1 s' Hstep _ IH]; [done|]. intros [i Hi]. apply IH. exists i. clear IH.
  inversion Hstep; subst; cbn; try done.
  - rewrite lookup_insert_ne; [done|]. by intros ->; simplify_eq.
  - rewrite (answer_clients _ _ _ _ _ _ _ H0), lookup_insert_ne; [done|]. by intros ->; simplify_eq.
Qed.

Lemma reachable_later d0 s s' : reachable d0 s -> rtc step s s' -> reachable d0 s'.
Proof. intros Hs. induction 1; [done|]. eauto using ReachStep. Qed.


End System.

(** ** A run *)

(** One behaviour of the environment: everything works, except that the flush
    of an attempt may be reported failed although its upload landed. *)
Definition reply (lost : bool) (key : string) (i : nat) (R : Set) (o : op R) (s : sys)
    : option (R * sys) :=
  let onSession (f : session -> option (R * sys)) := sessions s !! i ≫= f in
  match o in op R return (((session -> option (R * sys)) -> option (R * sys)) -> option (R * sys)) with
  | OpenWrite _ => fun _ =>
      match sessions s !! i, chain s !! tailpos s with
      | None, Some d => Some (None, set_session s i (mkSession (tailpos s) d None false))
      | _, _ => None
      end
  | Exec sql => fun on => on (fun x =>
      if String.eqb sql "BEGIN IMMEDIATE" then
        match work x with
        | None => Some (None, set_session s i (with_work x (Some (view x))))
        | Some _ => None
        end
      else if String.eqb sql "COMMIT" then
        match work x with
        | Some w => Some (None, set_session s i (committed x w))
        | None => None
        end
      else Some (None, set_session s i (with_work x None)))
  | Lookup => fun on => on (fun x => w ← work x;
      let '(r, w') := lookupIdempotent None None w key in
      Some (r, set_session s i (with_work x (Some w'))))
  | Callback => fun on => on (fun x => w ← work x;
      Some (None, set_session s i (with_work x (Some (mkContent (schema w) (rows w) (applied w ++ [key]))))))
  | Record_ txid => fun on => on (fun x => w ← work x;
      let '(r, w') := recordIdempotent None w key txid in
      Some (r, set_session s i (with_work x (Some w'))))
  | DisableWrite => fun on => on (fun x =>
      if lost then Some (Some (EOther "upload: connection reset"), s)
      else if dirty x then None else Some (None, s))
  | Database | Acquire | Release | WriteManifest _ | CtxErr => fun _ => Some (None, s)
  | LeaseStale => fun _ => Some (false, s)
  | ReadManifest => fun _ => Some (Ok ([], false), s)
  | TailTXID => fun _ => Some (Ok 0, s)
  | BuildManifest => fun _ => Some (Ok [], s)
  | NextTXID | SessionTXID => fun _ => Some (Ok "0000000000000002", s)
  | ManifestFiles => fun _ => Some (None, s)
  | ReleaseDatabase | Abandon | CloseSession | Evict | Metric _ | Enqueue _ => fun _ => Some (tt, s)
  end onSession.

(** Upload what waits, otherwise make the next call. *)
Fixpoint run (lost : bool) (fuel : nat) (i : nat) (s : sys) : sys :=
  match fuel with
  | O => s
  | S fuel =>
      match sessions s !! i with
      | Some (mkSession b v w true) =>
          if Nat.eqb b (tailpos s) then
            run lost fuel i (mkSys (chain s ++ [v]) (<[i := mkSession (length (chain s)) v w false]> (sessions s))
                               (clients s))
          else s
      | _ =>
          match clients s !! i with
          | Some (mkClient key (Do o k)) =>
              match reply lost key i _ o s with
              | Some (r, s') => run lost fuel i (set_client s' i (mkClient key (k r)))
              | None => s
              end
          | _ => s
          end
      end
  end.

Definition no_text (_ : goerror) : string := "".

Definition start (key : string) (i : nat) (s : sys) : sys :=
  set_client s i (mkClient key (withWriteAttempt no_text)).

Lemma reply_answer lost key i R (o : op R) s r s' :
  reply lost key i R o s = Some (r, s') -> answer key i R o s r s'.
Proof.
  destruct o; cbn; intros H; try (injection H as <- <-; done);
    (destruct (sessions s !! i) as [x|] eqn:Hx; cbn in H; [|try done]).
  all: try (destruct (work x) as [w|] eqn:Hw; cbn in H).
  all: repeat case_match; simplify_eq; try done; try (by eexists); try (by eexists _, _).
  all: eexists x, w; split; [done|]; split; [done|]; try done;
    first [by eexists None, None, _|by eexists None, _|by eexists].
Qed.

Lemma execution_reachable d0 lost fuel i s :
  reachable no_text Nat.eqb d0 s -> reachable no_text Nat.eqb d0 (run lost fuel i s).
Proof.
  revert s. induction fuel as [|fuel IH]; intros s Hs; [done|]. cbn [run].
  assert (Hcall : reachable no_text Nat.eqb d0 match clients s !! i with
    | Some (mkClient key (Do o k)) =>
        match reply lost key i _ o s with
        | Some (r, s') => run lost fuel i (set_client s' i (mkClient key (k r)))
        | None => s
        end
    | _ => s
    end).
  { destruct (clients s !! i) as [[key [r|R o k]]|] eqn:Hi; [done| |done].
    destruct (reply lost key i R o s) as [[r s']|] eqn:Hr; [|done].
    apply IH. eapply ReachStep; [done|]. eapply StepCall; [done|]. by eapply reply_answer. }
  destruct (sessions s !! i) as [[b v w []]|] eqn:Hi; [|done..].
  destruct (Nat.eqb b (tailpos s)) eqn:Hb; [|done].
  apply IH. eapply ReachStep; [exact Hs|]. by apply (StepUpload _ _ _ i (mkSession b v w true)).
Qed.

(** The first attempt's upload lands but its flush is reported failed; the
    retry finds the key recorded. *)
Definition aScenario : sys :=
  run false 60 1 (start "k" 1 (run true 60 0 (start "k" 0 (mkSys [emptyContent] ∅ ∅)))).

Definition round_of (r : res goerror WriteResult) : round WriteResult :=
  mkRound r None false (f64 0) (60 * second) WaitTimer false.

Definition outcome (s : sys) (i : nat) : res goerror WriteResult :=
  match clients s !! i with Some (mkClient _ (Ret r)) => r | _ => Err (EOther "running") end.

Lemma empty_once : once emptyContent.
Proof. split; [constructor|]. intros k. split; [|by intros []]. intros Hk. by apply not_elem_of_nil in Hk. Qed.

Lemma start_reachable d0 key i s :
  clients s !! i = None -> sessions s !! i = None ->
  reachable no_text Nat.eqb d0 s -> reachable no_text Nat.eqb d0 (start key i s).
Proof. intros Hc Hs Hr. eapply ReachStep; [done|]. by apply StepStart. Qed.

Lemma scenario_reachable : reachable no_text Nat.eqb emptyContent aScenario.
Proof.
  apply execution_reachable, start_reachable; [vm_compute; done..|].
  apply execution_reachable, start_reachable; [done..|]. constructor.
Qed.

Definition aDescriptor : DatabaseDescriptor StaticCredentials :=
  mkDescriptor "acme/app" (Identity.mkProfile "s3" "" "auto" "b" "" "") (mkStatic "id" "secret").


