(* ===== verification/FencedWrites.v ===== *)
(** * FencedWrites: the lease under the writes

    The composition of [LeaseSystem] and [ExactlyOnce]: attempt [i] of the
    write path holds the lease of hold [i], reads the end of the chain while it
    has it, and commits only after [leaseStale]. Uploads are not checked
    against the chain here at all, but made only while the attempt's own clock
    says that the lease is still held; the theorem is that the system then
    refines [ExactlyOnce] with the storage engine's conflict detection on:
    the lease alone keeps the chain from forking. *)

From S2P Require Import Prelude Errors LeaseStore Lease LeaseSystem.
From S2P Require Import Prog WriteProtocol Idempotency ExactlyOnce.

(** ** What an attempt does under its lease *)

(** It reads the manifest and opens a session only with the lease acquired, and
    opens only after the manifest was read. *)
Record under := mkUnder { u_held : bool; u_looked : bool }.

Definition lease_protocol : monitor op under := fun R o s =>
  match o in op R return R -> option under with
  | Acquire => fun r => Some (match r with None => mkUnder true (u_looked s) | Some _ => s end)
  | ReadManifest => fun r =>
      if u_held s then Some (match r with Ok _ => mkUnder true true | Err _ => s end) else None
  | OpenWrite _ => fun _ => if u_held s && u_looked s then Some s else None
  | _ => fun _ => Some s
  end.

Lemma attempt_looks Error :
  safe lease_protocol (withWriteAttempt Error) (mkUnder false false) (fun _ _ => True).
Proof. unfold withWriteAttempt. explore; try exact I; done. Qed.

Section System.
Context {S : Type} `{StoreLaws S}.
Context (marshal : record -> string) (unmarshal : string -> option record).
Context (C : config) (db lkey : string) (oname : nat -> string) (off : nat -> Z).
Context (Error : goerror -> string).

Abbreviation lease_step := (LeaseSystem.step marshal unmarshal C db lkey oname off).
Abbreviation lease_reachable := (LeaseSystem.reachable marshal unmarshal C db lkey oname off).

(** ** The system *)

(** [looked] is the length of the chain when an attempt last read the manifest. *)
Record sys := mkSys {
  lease : LeaseSystem.sys (S := S);
  writes : ExactlyOnce.sys;
  looked : gmap nat nat;
}.

(** What a call of attempt [i] has to do with the lease: [Acquire] succeeds with
    hold [i]; [leaseStale] is computed on it; a session starts at the end of
    the chain the manifest was read at, or later. *)
Definition linked (s : sys) (i : nat) : forall R : Set, op R -> R -> ExactlyOnce.sys -> Prop :=
  fun R o =>
  match o in op R return R -> ExactlyOnce.sys -> Prop with
  | Acquire => fun r _ => r = None -> is_Some (holds (lease s) !! i)
  | LeaseStale => fun r _ => forall x, holds (lease s) !! i = Some x ->
      r = leaseStale C (h_held x) (clock off (lease s) (h_proc x))
  | OpenWrite _ => fun _ w => forall p x, looked s !! i = Some p -> sessions w !! i = Some x ->
      (p <= at_pos x)%nat
  | _ => fun _ _ => True
  end.

Definition look (s : sys) (i : nat) : forall R : Set, op R -> R -> gmap nat nat :=
  fun R o =>
  match o in op R return R -> gmap nat nat with
  | ReadManifest => fun r =>
      match r with Ok _ => <[i := tailpos (writes s)]> (looked s) | Err _ => looked s end
  | _ => fun _ => looked s
  end.

Inductive step (s : sys) : sys -> Prop :=
  | StepLease l : lease_step (lease s) l -> step s (mkSys l (writes s) (looked s))
  | StepStart i key : clients (writes s) !! i = None -> sessions (writes s) !! i = None ->
      step s (mkSys (lease s) (set_client (writes s) i (mkClient key (withWriteAttempt Error))) (looked s))
  | StepCall i key R (o : op R) k r w :
      clients (writes s) !! i = Some (mkClient key (Do o k)) ->
      answer key i R o (writes s) r w -> linked s i R o r w ->
      step s (mkSys (lease s) (set_client w i (mkClient key (k r))) (look s i R o r))
  | StepUpload i x :
      sessions (writes s) !! i = Some x -> dirty x = true -> believes_held C off (lease s) i ->
      step s (mkSys (lease s)
                (ExactlyOnce.mkSys (chain (writes s) ++ [view x])
                   (<[i := mkSession (length (chain (writes s))) (view x) (work x) false]> (sessions (writes s)))
                   (clients (writes s))) (looked s))
  | StepPoll i x p d : sessions (writes s) !! i = Some x -> dirty x = false -> work x = None ->
      (at_pos x <= p)%nat -> chain (writes s) !! p = Some d ->
      step s (mkSys (lease s) (set_session (writes s) i (mkSession p d None false)) (looked s)).

Inductive reachable (d0 : content) : sys -> Prop :=
  | ReachInit l : LeaseSystem.initial lkey l -> reachable d0 (mkSys l (ExactlyOnce.mkSys [d0] ∅ ∅) ∅)
  | ReachStep s s' : reachable d0 s -> step s s' -> reachable d0 s'.

(** ** The token in the store *)

Hypothesis unmarshal_marshal : forall r, unmarshal (marshal r) = Some r.

Abbreviation lease_inv := (LeaseSystem.inv unmarshal C lkey off).
Abbreviation cell_of := (cell lkey).

(** The store holds the token of hold [i], which has not been given up. *)
Definition fenced (l : LeaseSystem.sys (S := S)) (i : nat) : Prop :=
  exists x b, holds l !! i = Some x /\ h_phase x <> Ended /\ lost (h_held x) = false /\
    cell_of l = Some (b, otok x).

Lemma fenced_unique l i j : lease_inv l -> fenced l i -> fenced l j -> i = j.
Proof.
  intros Hi (x & b & Hx & Hpx & _ & Hcx) (y & b' & Hy & Hpy & _ & Hcy).
  eapply (i_distinct _ _ _ _ l Hi); eauto. congruence.
Qed.

Lemma believer_fenced l i :
  clocks_close C off -> lease_inv l -> believes_held C off l i -> fenced l i.
Proof.
  intros Hc Hi (x & Hx & Hp & Hst).
  destruct (believer_owns unmarshal C lkey oname off l i x Hc Hi Hx Hp Hst) as (b & rec & Hb & _).
  exists x, b. split_and!; [done..| |done].
  unfold leaseStale in Hst. by apply orb_false_iff in Hst as [? _].
Qed.

Lemma holds_stay l l' i : lease_step l l' -> is_Some (holds l !! i) -> is_Some (holds l' !! i).
Proof.
  intros Hs Hi. destruct Hs; cbn; try done.
  all: repeat case_match; try done; apply lookup_insert_is_Some'; auto.
Qed.

(** Hold [i] as it was keeps its token unless the store was written under a
    token nobody had seen. *)
Lemma fenced_kept l l' i x x' :
  lease_inv l -> holds l !! i = Some x -> holds l' !! i = Some x' ->
  (cell_of l' = cell_of l \/ exists b t, cell_of l' = Some (b, t) /\ t ∉ used l) ->
  (h_phase x' <> Ended -> lost (h_held x') = false ->
     h_phase x <> Ended /\ lost (h_held x) = false /\ otok x' = otok x) ->
  fenced l' i -> fenced l i.
Proof.
  intros Hi Hx Hx' Hc Hsame (y & b & Hy & Hp & Hl & Hcell).
  rewrite Hx' in Hy. injection Hy as <-. destruct (Hsame Hp Hl) as (Hpx & Hlx & Ho).
  exists x, b. split_and!; [done..|]. rewrite <- Ho. destruct Hc as [<-|(b' & t & Hc & Hn)]; [done|].
  rewrite Hc in Hcell. injection Hcell as -> ->. destruct Hn. rewrite Ho.
  by apply (i_holds _ _ _ _ l Hi i x Hx).
Qed.

Lemma replaced (s s' : S) tok e b r :
  store_wf s -> ReplaceIfToken s tok lkey e b = (s', r) ->
  (exists b0, LeaseStore.view s !! lkey = Some (b0, e) /\ LeaseStore.view s' !! lkey = Some (b, tok)) \/ (s' = s /\ exists err, r = Err err).
Proof.
  intros Hs Hr. destruct (replace_cases lkey s s' tok e b r Hs Hr) as [(b0 & ? & _ & _ & ?)|?]; [left; eauto|by right].
Qed.

(** The token of a lease is in the store from its acquisition on, without a
    gap: what another process wrote in between cannot be replaced with it. *)
Lemma fenced_back l l' i :
  lease_inv l -> lease_step l l' -> is_Some (holds l !! i) -> fenced l' i -> fenced l i.
Proof.
  intros Hi Hs [x Hx].
  assert (Hother : forall st' u att j x', i <> j ->
    (LeaseStore.view st' !! lkey = cell_of l \/ exists b t, LeaseStore.view st' !! lkey = Some (b, t) /\ t ∉ used l) ->
    fenced (LeaseSystem.mkSys st' (now l) u att (<[j := x']> (holds l))) i -> fenced l i).
  { intros st' u att j x' Hne Hc. apply (fenced_kept l _ i x x Hi Hx); [cbn; by rewrite lookup_insert_ne|exact Hc|done]. }
  assert (Hsame : forall st' t u att,
    (LeaseStore.view st' !! lkey = cell_of l \/ exists b t, LeaseStore.view st' !! lkey = Some (b, t) /\ t ∉ used l) ->
    fenced (LeaseSystem.mkSys st' t u att (holds l)) i -> fenced l i).
  { intros st' t u att Hc. by apply (fenced_kept l _ i x x Hi Hx). }
  assert (Hmine : forall st' u att x',
    (LeaseStore.view st' !! lkey = cell_of l \/ exists b t, LeaseStore.view st' !! lkey = Some (b, t) /\ t ∉ used l) ->
    (h_phase x' <> Ended -> lost (h_held x') = false ->
       h_phase x <> Ended /\ lost (h_held x) = false /\ otok x' = otok x) ->
    fenced (LeaseSystem.mkSys st' (now l) u att (<[i := x']> (holds l))) i -> fenced l i).
  { intros st' u att x' Hc. apply (fenced_kept l _ i x x' Hi Hx); [cbn; by rewrite lookup_insert_eq|exact Hc]. }
  destruct Hs as [d Hd|a p Ha|a p got newID d Ha Hd|a p pl tok st' r j d Ha Hn Hh Hw
    |j p h rec Hj Hl Hr|j p h rec tok st' r d Hj Hn Hr|j p h rec tok Hj
    |j p h tok st' r d Hj Hn Hr|j p h Hj]; try (by apply Hsame; left).
  - assert (Hc : LeaseStore.view st' !! lkey = cell_of l \/ exists b t, LeaseStore.view st' !! lkey = Some (b, t) /\ t ∉ used l).
    { destruct (acquireWrite_cases marshal unmarshal C lkey oname off l p pl tok st' r Hi
        (i_att _ _ _ _ l Hi _ _ Ha) Hw) as [(rec & _ & _ & _ & Hv & _)|(-> & _)]; [right; eauto|by left]. }
    assert (i <> j) by congruence.
    destruct d, r; [eapply Hother|eapply Hsame..]; auto; by left.
  - destruct (decide (i = j)) as [<-|]; [|apply Hother; [done|by left]].
    rewrite Hx in Hj. injection Hj as ->. apply Hmine; [by left|done].
  - pose proof (i_wf _ _ _ _ l Hi) as Hwf.
    assert (Hk : key h = lkey) by (apply (i_holds _ _ _ _ l Hi _ _ Hj); done). rewrite Hk in Hr.
    destruct (decide (i = j)) as [<-|].
    + rewrite Hx in Hj. injection Hj as ->.
      destruct (replaced _ _ _ _ _ _ Hwf Hr) as [(b0 & Hv & Hv')|(-> & e & ->)].
      * destruct d, r; try (apply Hmine; [|done]; (right; by eauto) || by left).
        intros (y & b & Hy & _ & Hl & _). cbn in Hy. rewrite lookup_insert_eq in Hy. injection Hy as <-.
        exists (mkHold p h (Prepared rec)), b0. by split_and!.
      * destruct d; (apply Hmine; [by left|done]).
    + assert (Hc : LeaseStore.view st' !! lkey = cell_of l \/ exists b t, LeaseStore.view st' !! lkey = Some (b, t) /\ t ∉ used l).
      { destruct (replaced _ _ _ _ _ _ Hwf Hr) as [(b0 & Hv & Hv')|(-> & _)]; [right; eauto|by left]. }
      destruct d; apply Hother; auto.
  - destruct (decide (i = j)) as [<-|]; [|apply Hother; [done|by left]].
    rewrite Hx in Hj. injection Hj as ->. apply Hmine; [by left|done].
  - assert (Hk : key h = lkey) by (apply (i_holds _ _ _ _ l Hi _ _ Hj); done).
    unfold Lease.Release in Hr. rewrite Hk in Hr.
    destruct (ReplaceIfToken _ _ _ _ _) as [s1 r1] eqn:Hrep. injection Hr as <- _.
    assert (Hc : LeaseStore.view s1 !! lkey = cell_of l \/ exists b t, LeaseStore.view s1 !! lkey = Some (b, t) /\ t ∉ used l).
    { destruct (replaced _ _ _ _ _ _ (i_wf _ _ _ _ l Hi) Hrep) as [(b0 & Hv & Hv')|(-> & _)]; [right; eauto|by left]. }
    destruct (decide (i = j)) as [<-|]; [destruct d; apply Hmine; auto; done|].
    destruct d; apply Hother; auto.
  - destruct (decide (i = j)) as [<-|]; [|apply Hother; [done|by left]].
    apply Hmine; [by left|done].
Qed.

(** ** Where the sessions are *)

Definition opens {R} (o : op R) : bool := match o with OpenWrite _ => true | _ => false end.

(** A call keeps the chain, and the position of every session there is; only
    opening adds one. *)
Definition goes_on (w w' : ExactlyOnce.sys) (i : nat) (opening : bool) : Prop :=
  chain w' = chain w /\ clients w' = clients w /\
  (forall j, j <> i -> sessions w' !! j = sessions w !! j) /\
  (forall x', sessions w' !! i = Some x' ->
     (exists x, sessions w !! i = Some x /\ at_pos x' = at_pos x) \/
     (opening = true /\ sessions w !! i = None /\ is_Some (chain w !! at_pos x'))) /\
  (is_Some (sessions w !! i) -> is_Some (sessions w' !! i)).

Lemma goes_on_same w i b : goes_on w w i b.
Proof. split_and!; eauto. Qed.

Lemma goes_on_set w i x x' b :
  sessions w !! i = Some x -> at_pos x' = at_pos x -> goes_on w (set_session w i x') i b.
Proof.
  intros Hx Hp. split_and!; try done; cbn.
  - intros j Hj. by rewrite lookup_insert_ne.
  - intros y. rewrite lookup_insert_eq. intros [= <-]. left. eauto.
  - rewrite lookup_insert_eq. eauto.
Qed.

Lemma answer_pos key i R (o : op R) w r w' : answer key i R o w r w' -> goes_on w w' i (opens o).
Proof.
  destruct o; cbn; try (by intros ->; apply goes_on_same);
    try (by intros (x & c & Hx & _ & ? & ? & _ & ->); by eapply goes_on_set);
    try (by intros (x & c & Hx & _ & ? & ? & ? & _ & ->); by eapply goes_on_set).
  - destruct r; [by intros ->; apply goes_on_same|]. intros (p & d & Hn & Hd & ->). split_and!; try done; cbn.
    + intros j Hj. by rewrite lookup_insert_ne.
    + intros y. rewrite lookup_insert_eq. intros [= <-]. right. cbn. eauto.
    + rewrite lookup_insert_eq. eauto.
  - destruct (String.eqb sql "BEGIN IMMEDIATE").
    { destruct r; [by intros ->; apply goes_on_same|]. intros (x & Hx & _ & ->). by eapply goes_on_set. }
    destruct (String.eqb sql "COMMIT"); [|intros (x & Hx & ->); by eapply goes_on_set].
    destruct r; [|intros (x & c & Hx & _ & ->); by eapply goes_on_set].
    intros (x & c & Hx & _ & [->| ->]); [apply goes_on_same|by eapply goes_on_set].
  - intros (x & c & Hx & _ & Hs). destruct r; [destruct Hs as [c' ->]|subst]; by eapply goes_on_set.
  - intros (x & _ & -> & _). apply goes_on_same.
Qed.

(** Where an attempt that is fenced stands: at the end of the chain. *)
Record finv (s : sys) : Prop := {
  f_lease : lease_inv (lease s);
  f_chain : chain (writes s) <> [];
  f_client : forall i key p, clients (writes s) !! i = Some (mkClient key p) ->
    exists g, safe lease_protocol p g (fun _ _ => True) /\
      (u_held g = true -> is_Some (holds (lease s) !! i)) /\
      (u_looked g = true -> is_Some (looked s !! i));
  f_looked : forall i p, looked s !! i = Some p ->
    is_Some (holds (lease s) !! i) /\ (p <= tailpos (writes s))%nat;
  f_session : forall i x, sessions (writes s) !! i = Some x ->
    is_Some (looked s !! i) /\ is_Some (clients (writes s) !! i);
  f_tail : forall i x, fenced (lease s) i -> sessions (writes s) !! i = Some x ->
    at_pos x = tailpos (writes s);
  f_fresh : forall i p, fenced (lease s) i -> sessions (writes s) !! i = None -> looked s !! i = Some p ->
    p = tailpos (writes s);
}.

Lemma in_chain {A} (l : list A) p : is_Some (l !! p) -> (p <= pred (length l))%nat.
Proof. intros Hp%lookup_lt_is_Some. lia. Qed.

Lemma finv_lease s l : finv s -> lease_step (lease s) l -> finv (mkSys l (writes s) (looked s)).
Proof.
  intros Hi Hs.
  assert (Hb : forall i, is_Some (looked s !! i) -> fenced l i -> fenced (lease s) i).
  { intros i [p Hp]. apply fenced_back; [apply Hi|done|]. by apply (f_looked _ Hi i p). }
  split; cbn.
  - eapply LeaseSystem.inv_step; [exact unmarshal_marshal|apply Hi|exact Hs].
  - apply Hi.
  - intros i key p Hc. destruct (f_client _ Hi i key p Hc) as (g & Hg & Hh & Hl).
    exists g. split_and!; [done| |done]. intros Hg'. eapply holds_stay; eauto.
  - intros i p Hp. destruct (f_looked _ Hi i p Hp). split; [by eapply holds_stay|done].
  - apply Hi.
  - intros i x Hf Hx. apply (f_tail _ Hi i); [|done]. apply Hb; [|done]. by apply (f_session _ Hi i x).
  - intros i p Hf Hn Hp. apply (f_fresh _ Hi i); [|done..]. apply Hb; eauto.
Qed.

Lemma finv_start s i key :
  finv s -> clients (writes s) !! i = None -> sessions (writes s) !! i = None ->
  finv (mkSys (lease s) (set_client (writes s) i (mkClient key (withWriteAttempt Error))) (looked s)).
Proof.
  intros Hi Hc Hn. split; cbn; try apply Hi.
  - intros j key' p. rewrite lookup_insert. case_decide as Hij; [|apply Hi]. intros [= <- <-].
    exists (mkUnder false false). split_and!; [apply attempt_looks|done|done].
  - intros j x Hx. destruct (f_session _ Hi j x Hx) as [H1 H2]. split; [done|].
    apply lookup_insert_is_Some'. auto.
Qed.

(** What the monitor knows when a call is made. *)
Lemma protocol_call g R (o : op R) r g' s i w :
  lease_protocol R o g r = Some g' -> linked s i R o r w ->
  (u_held g = true -> is_Some (holds (lease s) !! i)) -> (u_looked g = true -> is_Some (looked s !! i)) ->
  (u_held g' = true -> is_Some (holds (lease s) !! i)) /\
  (u_looked g' = true -> is_Some (look s i R o r !! i)) /\
  (opens o = true -> is_Some (looked s !! i)) /\
  (forall j p, look s i R o r !! j = Some p ->
     looked s !! j = Some p \/ (j = i /\ p = tailpos (writes s) /\ is_Some (holds (lease s) !! i))) /\
  (forall j, is_Some (looked s !! j) -> is_Some (look s i R o r !! j)).
Proof.
  intros Hg Hlink Hh Hl. destruct o; cbn in *; simplify_eq; try (split_and!; by auto).
  - destruct r; simplify_eq; cbn in *; by split_and!; auto.
  - destruct (u_held g) eqn:Hu; [|done]. destruct r; simplify_eq; cbn in *.
    2:{ rewrite Hu. by split_and!; auto. }
    split_and!; auto; try done.
    + intros _. apply lookup_insert_is_Some'. auto.
    + intros j p. rewrite lookup_insert. case_decide as Hij; [subst|auto]. intros [= <-]. auto.
    + intros j Hj. apply lookup_insert_is_Some'. auto.
  - destruct (u_held g) eqn:Hu1, (u_looked g) eqn:Hu2; simplify_eq; split_and!; auto.
Qed.

Lemma finv_call s i key R (o : op R) k r w :
  finv s -> clients (writes s) !! i = Some (mkClient key (Do o k)) ->
  answer key i R o (writes s) r w -> linked s i R o r w ->
  finv (mkSys (lease s) (set_client w i (mkClient key (k r))) (look s i R o r)).
Proof.
  intros Hi Hc Ha Hlink. destruct (f_client _ Hi i key _ Hc) as (g & Hg & Hh & Hl). cbn in Hg.
  specialize (Hg r). destruct (lease_protocol R o g r) as [g'|] eqn:Hp; [|done].
  destruct (protocol_call g R o r g' s i w Hp Hlink Hh Hl) as (Hh' & Hl' & Hop & Hlook & Hlook').
  destruct (answer_pos key i R o _ r w Ha) as (Hch & Hcl & Hoth & Hmine & Hstay).
  assert (Htail : tailpos w = tailpos (writes s)) by (unfold tailpos; by rewrite Hch).
  split; cbn; rewrite ?Hch, ?Hcl; try apply Hi; change (tailpos (set_client w _ _)) with (tailpos w); rewrite ?Htail.
  - intros j key' p. rewrite lookup_insert. case_decide as Hij.
    + intros [= <- <-]. subst j. exists g'. by split_and!.
    + intros Hj. destruct (f_client _ Hi j key' p Hj) as (g0 & Hg0 & Hh0 & Hl0). exists g0. split_and!; auto.
  - intros j p [Hj|(-> & -> & Hho)]%Hlook; [by apply (f_looked _ Hi)|by split].
  - intros j x Hx. destruct (decide (j = i)) as [->|Hne].
    + split; [|apply lookup_insert_is_Some'; by left]. apply Hlook'.
      destruct (Hmine x Hx) as [(x0 & Hx0 & _)|(Ho & _)]; [by apply (f_session _ Hi i x0)|auto].
    + rewrite Hoth in Hx by done. destruct (f_session _ Hi j x Hx) as [H1 H2].
      split; [auto|]. apply lookup_insert_is_Some'. auto.
  - intros j x Hf Hx. destruct (decide (j = i)) as [->|Hne].
    2:{ rewrite Hoth in Hx by done. by apply (f_tail _ Hi j). }
    destruct (Hmine x Hx) as [(x0 & Hx0 & ->)|(Ho & Hn & Hin)]; [by apply (f_tail _ Hi i)|].
    destruct (Hop Ho) as [p Hpl]. pose proof (f_fresh _ Hi i p Hf Hn Hpl) as Heq.
    assert (Hle : (p <= at_pos x)%nat).
    { destruct o; try done. by apply (Hlink p x). }
    apply in_chain in Hin. unfold tailpos in *. lia.
  - intros j p Hf Hn Hj. assert (Hn0 : sessions (writes s) !! j = None).
    { destruct (decide (j = i)) as [->|Hne]; [|by rewrite <- Hoth].
      apply eq_None_not_Some. intros Hs%Hstay. rewrite Hn in Hs. by destruct Hs. }
    apply Hlook in Hj as [Hj|(_ & -> & _)]; [by apply (f_fresh _ Hi j)|done].
Qed.

Lemma finv_upload s i x :
  clocks_close C off -> finv s -> sessions (writes s) !! i = Some x -> believes_held C off (lease s) i ->
  finv (mkSys (lease s) (ExactlyOnce.mkSys (chain (writes s) ++ [view x])
    (<[i := mkSession (length (chain (writes s))) (view x) (work x) false]> (sessions (writes s)))
    (clients (writes s))) (looked s)).
Proof.
  intros Hcl Hi Hx Hb. pose proof (believer_fenced _ i Hcl (f_lease _ Hi) Hb) as Hf.
  assert (Honly : forall j, fenced (lease s) j -> j = i)
    by (intros j Hj; by apply (fenced_unique _ _ _ (f_lease _ Hi))).
  split; cbn; try apply Hi.
  - by destruct (chain (writes s)).
  - intros j p Hp. destruct (f_looked _ Hi j p Hp) as [H1 H2]. split; [done|].
    unfold tailpos in *. cbn. rewrite length_app. cbn. lia.
  - intros j y. rewrite lookup_insert. case_decide as Hij; [subst j; intros _; by apply (f_session _ Hi i x)|].
    apply (f_session _ Hi).
  - intros j y ->%Honly. rewrite lookup_insert_eq. intros [= <-]. unfold tailpos. cbn. rewrite length_app. cbn. lia.
  - intros j p ->%Honly. by rewrite lookup_insert_eq.
Qed.

Lemma finv_poll s i x p d :
  finv s -> sessions (writes s) !! i = Some x -> (at_pos x <= p)%nat -> chain (writes s) !! p = Some d ->
  finv (mkSys (lease s) (set_session (writes s) i (mkSession p d None false)) (looked s)).
Proof.
  intros Hi Hx Hp Hd. split; cbn; try apply Hi.
  - intros j y. rewrite lookup_insert. case_decide as Hij; [subst j; intros _; by apply (f_session _ Hi i x)|].
    apply (f_session _ Hi).
  - intros j y Hf. rewrite lookup_insert. case_decide as Hij; [|by apply (f_tail _ Hi)].
    subst j. intros [= <-]. cbn. pose proof (f_tail _ Hi i x Hf Hx) as Ht.
    assert (Hle : (p <= pred (length (chain (writes s))))%nat) by (apply in_chain; eauto).
    unfold tailpos in *. cbn. lia.
  - intros j q Hf. rewrite lookup_insert. case_decide as Hij; [done|]. by apply (f_fresh _ Hi).
Qed.

Lemma finv_step s s' : clocks_close C off -> finv s -> step s s' -> finv s'.
Proof.
  intros Hcl Hi Hs. destruct Hs as [l Hl|i key Hc Hn|i key R o k r w Hc Ha Hlink|i x Hx Hd Hb|i x p d Hx Hd Hw Hp Hin].
  - by apply finv_lease.
  - by apply finv_start.
  - by apply (finv_call s i key R o k r w).
  - by apply finv_upload.
  - by apply (finv_poll s i x p d).
Qed.

Lemma finv_reachable d0 s : clocks_close C off -> reachable d0 s -> finv s.
Proof.
  intros Hcl. induction 1 as [l Hl|s s' _ Hi Hs]; [|by eapply finv_step].
  split; cbn; try done; try (by intros ?; rewrite lookup_empty).
  by apply LeaseSystem.inv_initial.
Qed.

(** A step of the whole is a step of the writes, with every upload at the end
    of the chain, or leaves the writes alone. *)
Lemma step_writes s s' :
  clocks_close C off -> finv s -> step s s' ->
  writes s' = writes s \/ ExactlyOnce.step Error Nat.eqb (writes s) (writes s').
Proof.
  intros Hcl Hi Hs. destruct Hs as [l Hl|i key Hc Hn|i key R o k r w Hc Ha Hlink|i x Hx Hd Hb|i x p d Hx Hd Hw Hp Hin].
  - by left.
  - right. by apply ExactlyOnce.StepStart.
  - right. by apply (ExactlyOnce.StepCall _ _ _ i key R o k r w).
  - right. apply (ExactlyOnce.StepUpload _ _ _ i x Hx Hd), Nat.eqb_eq.
    apply (f_tail _ Hi i); [|done]. by apply believer_fenced; [|apply Hi|].
  - right. by apply (ExactlyOnce.StepPoll _ _ _ i x p d).
Qed.

Lemma writes_reachable d0 s :
  clocks_close C off -> reachable d0 s -> ExactlyOnce.reachable Error Nat.eqb d0 (writes s).
Proof.
  intros Hcl. induction 1 as [l Hl|s s' Hr IH Hs]; [constructor|].
  destruct (step_writes s s' Hcl (finv_reachable d0 s Hcl Hr) Hs) as [->|Hs']; [done|].
  eapply ExactlyOnce.ReachStep; eauto.
Qed.

(** C4  The lease alone keeps the chain from forking. Processes whose clocks
    agree within twice the allowance acquire, renew, lose and release the
    lease of a database in any interleaving, and run write attempts that read
    the chain under the lease; if every upload is made while its own process
    still believes in its lease, then every upload extends the end of the
    chain although nothing checks it: the system behaves as [ExactlyOnce]
    does with conflict detection, and a write that was acknowledged is in the
    database exactly once. *)
Theorem leased_writes_never_fork (d0 : content) (s : sys)
    (Hclocks : clocks_close C off) (Hinit : once d0) (Hs : reachable d0 s) :
  ExactlyOnce.reachable Error Nat.eqb d0 (writes s) /\
  (forall i x, sessions (writes s) !! i = Some x -> believes_held C off (lease s) i ->
     at_pos x = tailpos (writes s)) /\
  (forall key w, returned (writes s) key (Ok w) ->
     rows (remote (writes s)) !! key = Some (TXID w) /\ times key (remote (writes s)) = 1%nat).
Proof.
  pose proof (writes_reachable d0 s Hclocks Hs) as Hr. pose proof (finv_reachable d0 s Hclocks Hs) as Hi.
  split_and!; [done| |].
  - intros i x Hx Hb. apply (f_tail _ Hi i); [|done]. by apply believer_fenced; [|apply Hi|].
  - intros key w Hw. assert (Hinv : ExactlyOnce.inv (writes s)).
    { eapply inv_reachable; [|exact Hinit|exact Hr]. intros b t. apply Nat.eqb_eq. }
    assert (Hrow : rows (remote (writes s)) !! key = Some (TXID w)).
    { apply durable_remote; [done|]. by apply returned_durable. }
    split; [done|]. apply count_recorded; [by apply remote_once|by rewrite Hrow].
Qed.

(** ** Runs *)

(** Attempt [i] runs to its end under a lease that nothing happens to, its
    session opened at the end of the chain. *)
Fixpoint run (fuel : nat) (i : nat) (s : sys) : sys :=
  match fuel with
  | O => s
  | Datatypes.S fuel =>
      match sessions (writes s) !! i with
      | Some (mkSession b v c true) =>
          run fuel i (mkSys (lease s) (ExactlyOnce.mkSys (chain (writes s) ++ [v])
            (<[i := mkSession (length (chain (writes s))) v c false]> (sessions (writes s)))
            (clients (writes s))) (looked s))
      | _ =>
          match clients (writes s) !! i with
          | Some (mkClient key (Do o k)) =>
              match reply false key i _ o (writes s) with
              | Some (r, w) => run fuel i (mkSys (lease s) (set_client w i (mkClient key (k r))) (look s i _ o r))
              | None => s
              end
          | _ => s
          end
      end
  end.

Lemma reply_linked key i R (o : op R) r w s x :
  finv s -> holds (lease s) !! i = Some x -> leaseStale C (h_held x) (clock off (lease s) (h_proc x)) = false ->
  reply false key i R o (writes s) = Some (r, w) -> linked s i R o r w.
Proof.
  intros Hi Hx Hst. destruct o; cbn; try done.
  - intros [= <- _] y Hy. rewrite Hx in Hy. by injection Hy as <-.
  - destruct (sessions (writes s) !! i); [done|]. destruct (chain (writes s) !! tailpos (writes s)); [|done].
    intros [= _ <-] p y Hp. cbn. rewrite lookup_insert_eq. intros [= <-]. cbn. by apply (f_looked _ Hi i p).
Qed.

Lemma leased_run_reachable d0 fuel i s :
  clocks_close C off -> believes_held C off (lease s) i -> reachable d0 s -> reachable d0 (run fuel i s).
Proof.
  intros Hcl. revert s. induction fuel as [|fuel IH]; intros s Hb Hs; [done|]. cbn [run].
  assert (Hcall : reachable d0 match clients (writes s) !! i with
    | Some (mkClient key (Do o k)) =>
        match reply false key i _ o (writes s) with
        | Some (r, w) => run fuel i (mkSys (lease s) (set_client w i (mkClient key (k r))) (look s i _ o r))
        | None => s
        end
    | _ => s
    end).
  { destruct (clients (writes s) !! i) as [[key [r|R o k]]|] eqn:Hi; [done| |done].
    destruct (reply false key i R o (writes s)) as [[r w]|] eqn:Hr; [|done].
    apply IH; [done|]. eapply ReachStep; [exact Hs|]. eapply StepCall; [exact Hi|by eapply reply_answer|].
    destruct Hb as (x & Hx & _ & Hst). eapply reply_linked; [by eapply finv_reachable|exact Hx|exact Hst|exact Hr]. }
  destruct (sessions (writes s) !! i) as [[b v c []]|] eqn:Hi; [|done..].
  apply IH; [done|]. eapply ReachStep; [exact Hs|]. by apply (StepUpload s i (mkSession b v c true)).
Qed.

Lemma lease_steps_reachable d0 l l' w m :
  rtc lease_step l l' -> reachable d0 (mkSys l w m) -> reachable d0 (mkSys l' w m).
Proof.
  intros Hl. induction Hl as [|l l1 l' Hs Hl IH]; [done|]. intros Hr. apply IH. eapply ReachStep; [exact Hr|]. by apply StepLease.
Qed.

End System.

Arguments mkSys {S} lease writes looked.

(** Two processes, the clock of the second four seconds ahead. The first
    writes under the lease; the second finds it expired, takes it over and
    writes on top. *)
Definition skewed (p : nat) : Z := if Nat.eqb p 0 then 0 else 4 * second.

Lemma skewed_close : clocks_close DefaultConfig skewed.
Proof. intros p q. unfold skewed. destruct (Nat.eqb p 0), (Nat.eqb q 0); vm_compute; discriminate. Qed.

Abbreviation mem_step := (LeaseSystem.step Codec.marshal Codec.unmarshal DefaultConfig "db" "k" (fun _ => "owner") skewed).

(** Process [p] takes the lease, as hold [i] under token [tok]. *)
Definition taken (p i : nat) (tok : string) (l : LeaseSystem.sys (S := Memory.store)) : LeaseSystem.sys (S := Memory.store) :=
  let m := mkManager DefaultConfig "owner" in
  let c := clock skewed l p in
  let pl := acquirePlan Codec.unmarshal m "db" (Get (st l) "k") c (c + 0) "id" in
  let (st', r) := acquireWrite Codec.marshal m (st l) "k" pl tok in
  match r with
  | Ok h => LeaseSystem.mkSys st' (now l + 0) ({[tok]} ∪ used l)
              (delete i (<[i := APlan p pl]> (<[i := AGot p (Get (st l) "k")]> (attempts l))))
              (<[i := mkHold p h Live]> (holds l))
  | Err _ => l
  end.

Lemma taken_steps p i tok l :
  attempts l !! i = None -> holds l !! i = None -> tok ∉ used l -> rtc mem_step l (taken p i tok l).
Proof.
  intros Ha Hh Hn. unfold taken. set (pl := acquirePlan _ _ _ _ _ _ _).
  destruct (acquireWrite _ _ (st l) "k" pl tok) as [st' r] eqn:Hw. destruct r as [h|e]; [|done].
  set (l1 := LeaseSystem.mkSys (st l) (now l) (used l) (<[i := AGot p (Get (st l) "k")]> (attempts l)) (holds l)).
  set (l2 := LeaseSystem.mkSys (st l) (now l + 0) (used l) (<[i := APlan p pl]> (attempts l1)) (holds l)).
  apply (rtc_l _ _ l1); [exact (LeaseSystem.StepGet _ _ _ _ _ _ _ l i p Ha)|].
  apply (rtc_l _ _ l2).
  { exact (LeaseSystem.StepPlan _ _ _ _ _ _ _ l1 i p (Get (st l) "k") "id" 0 (lookup_insert_eq _ _ _) (Z.le_refl 0)). }
  apply rtc_once.
  exact (LeaseSystem.StepAcquire _ _ _ _ _ _ _ l2 i p pl tok st' (Ok h) i Delivered (lookup_insert_eq _ _ _) Hn Hh Hw).
Qed.

Definition ticked (d : Z) (l : LeaseSystem.sys (S := Memory.store)) : LeaseSystem.sys (S := Memory.store) :=
  LeaseSystem.mkSys (st l) (now l + d) (used l) (attempts l) (holds l).

Abbreviation mem_reachable := (reachable Codec.marshal Codec.unmarshal DefaultConfig "db" "k" (fun _ => "owner") skewed no_text).

Definition first_holder : LeaseSystem.sys (S := Memory.store) := taken 0 0 "t1" sys0.
Definition second_holder : LeaseSystem.sys (S := Memory.store) := taken 1 1 "t2" (ticked (60 * second) first_holder).

Definition begun (l : LeaseSystem.sys (S := Memory.store)) (key : string) (i : nat) (s : sys (S := Memory.store)) : sys :=
  mkSys l (start key i (writes s)) (looked s).

Definition first_write : sys :=
  run 60 0 (begun first_holder "k1" 0 (mkSys sys0 (ExactlyOnce.mkSys [emptyContent] ∅ ∅) ∅)).
Definition two_writes : sys := run 60 1 (begun second_holder "k2" 1 first_write).

Lemma begun_reachable d0 l key i s :
  rtc mem_step (lease s) l -> clients (writes s) !! i = None -> sessions (writes s) !! i = None ->
  mem_reachable d0 s -> mem_reachable d0 (begun l key i s).
Proof.
  intros Hl Hc Hn Hs. destruct s as [l0 w m]. cbn in *.
  eapply ReachStep; [|by apply (StepStart _ _ _ _ _ _ _ _ (mkSys l w m) i key)].
  by eapply lease_steps_reachable.
Qed.

Definition believes (l : LeaseSystem.sys (S := Memory.store)) (i : nat) : bool :=
  match holds l !! i with
  | Some x => match h_phase x with Ended => false | _ => negb (leaseStale DefaultConfig (h_held x) (clock skewed l (h_proc x))) end
  | None => false
  end.

Lemma believes_spec l i : believes l i = true <-> believes_held DefaultConfig skewed l i.
Proof.
  unfold believes, believes_held. split.
  - destruct (holds l !! i) as [x|]; [|done]. intros Hb. exists x.
    destruct (h_phase x); try done; apply negb_true_iff in Hb; by split_and!.
  - intros (x & -> & Hp & Hst). rewrite Hst. by destruct (h_phase x).
Qed.

Lemma first_begun :
  mem_reachable emptyContent (begun first_holder "k1" 0 (mkSys sys0 (ExactlyOnce.mkSys [emptyContent] ∅ ∅) ∅)).
Proof.
  apply begun_reachable; [apply taken_steps; [done..|apply not_elem_of_empty]|done..|].
  apply ReachInit. split; [exact I|intros ? ? Hc; discriminate Hc|reflexivity|reflexivity].
Qed.

Lemma takeover_steps : rtc mem_step first_holder second_holder.
Proof.
  eapply rtc_l; [by apply (LeaseSystem.StepTick _ _ _ _ _ _ _ first_holder (60 * second))|].
  apply taken_steps; [vm_compute; reflexivity..|].
  assert (Hu : used (ticked (60 * second) first_holder) = {["t1"]}) by (vm_compute; reflexivity).
  rewrite Hu. apply not_elem_of_singleton. discriminate.
Qed.

Lemma first_write_reachable : mem_reachable emptyContent first_write.
Proof.
  apply (leased_run_reachable _ _ _ _ _ _ _ _ Codec.roundtrip); [exact skewed_close| |exact first_begun].
  apply believes_spec. vm_compute. reflexivity.
Qed.

Lemma two_writes_reachable : mem_reachable emptyContent two_writes.
Proof.
  apply (leased_run_reachable _ _ _ _ _ _ _ _ Codec.roundtrip); [exact skewed_close| |].
  - apply believes_spec. vm_compute. reflexivity.
  - apply begun_reachable; [|vm_compute; reflexivity..|exact first_write_reachable].
    assert (Hl : lease first_write = first_holder) by (vm_compute; reflexivity). rewrite Hl. exact takeover_steps.
Qed.

Lemma leased_writes_never_fork_witness :
  length (chain (writes two_writes)) = 3%nat /\
  times "k1" (remote (writes two_writes)) = 1%nat /\ times "k2" (remote (writes two_writes)) = 1%nat.
Proof.
  destruct (leased_writes_never_fork Codec.marshal Codec.unmarshal DefaultConfig "db" "k" (fun _ => "owner") skewed
    no_text Codec.roundtrip emptyContent two_writes skewed_close empty_once two_writes_reachable) as (_ & _ & H).
  split; [vm_compute; reflexivity|]. split.
  - apply (H "k1" (mkResult "0000000000000002" false)). exists 0%nat. vm_compute. reflexivity.
  - apply (H "k2" (mkResult "0000000000000002" false)). exists 1%nat. vm_compute. reflexivity.
Defined.

(** The upload of a process that no longer has its lease is another matter:
    the first attempt stops between its commit and the upload until the second
    has written. Only the conflict detection of [ExactlyOnce] keeps what it
    still holds off the chain. *)
Definition stalled_write : sys :=
  run 14 0 (begun first_holder "k1" 0 (mkSys sys0 (ExactlyOnce.mkSys [emptyContent] ∅ ∅) ∅)).
Definition overtaken : sys := run 60 1 (begun second_holder "k2" 1 stalled_write).

Lemma overtaken_reachable : mem_reachable emptyContent overtaken.
Proof.
  apply (leased_run_reachable _ _ _ _ _ _ _ _ Codec.roundtrip); [exact skewed_close| |].
  - apply believes_spec. vm_compute. reflexivity.
  - apply begun_reachable; [|vm_compute; reflexivity..|].
    + assert (Hl : lease stalled_write = first_holder) by (vm_compute; reflexivity). rewrite Hl.
      exact takeover_steps.
    + apply (leased_run_reachable _ _ _ _ _ _ _ _ Codec.roundtrip); [exact skewed_close| |exact first_begun].
      apply believes_spec. vm_compute. reflexivity.
Qed.

Theorem late_upload_would_fork :
  exists (s : sys (S := Memory.store)) i x, mem_reachable emptyContent s /\ sessions (writes s) !! i = Some x /\ dirty x = true /\
    at_pos x <> tailpos (writes s) /\ ~ believes_held DefaultConfig skewed (lease s) i.
Proof.
  assert (Hx : (fun x => (dirty x, at_pos x)) <$> sessions (writes overtaken) !! 0%nat = Some (true, 0%nat))
    by (vm_compute; reflexivity).
  apply fmap_Some in Hx as (x & Hx & [= Hd Hp]).
  assert (Ht : tailpos (writes overtaken) = 1%nat) by (vm_compute; reflexivity).
  assert (Hb : believes (lease overtaken) 0 = false) by (vm_compute; reflexivity).
  exists overtaken, 0%nat, x. split; [exact overtaken_reachable|]. split; [exact Hx|].
  split; [by rewrite <- Hd|]. split; [by rewrite Ht, <- Hp|].
  intros Hh%believes_spec. rewrite Hb in Hh. discriminate Hh.
Qed.
