(* ===== verification/Registry.v ===== *)
(** * Registry: the databases a runtime has open

    [database], [releaseDatabase], [teardownDatabase] and [Close] of
    [runtime/runtime.go]: entries with reference counts, shared by pointer
    between the table, the recency list and the requests that use them. Each
    step is what the code does under [r.mu]; tearing an entry down happens
    after the mutex is dropped, and is a step of its own. *)

From S2P Require Import Prelude Errors.

(** [databaseEntry]; its address is its key in the heap. *)
Record databaseEntry := mkEntry { key : string; refs : Z; evicted : bool }.

(** [Runtime]: the entries ever created, the table, the recency list (front
    first), the limit; [doomed] are entries on their way to
    [teardownDatabase], [torn] those that went through it. *)
Record runtime := mkRuntime {
  heap : gmap nat databaseEntry;
  next : nat;
  dbs : gmap string nat;
  dbOrder : list nat;
  dbLimit : Z;
  closed : bool;
  doomed : list nat;
  torn : list nat;
}.

(** The part of [New] that sets up the registry. *)
Definition New (maxReadInstances : Z) : runtime :=
  mkRuntime ∅ 0 ∅ [] (if maxReadInstances <=? 0 then 64 else maxReadInstances) false [] [].

Definition set_entry (r : runtime) (id : nat) (e : databaseEntry) : runtime :=
  mkRuntime (<[id := e]> (heap r)) (next r) (dbs r) (dbOrder r) (dbLimit r) (closed r) (doomed r) (torn r).
Definition doom (r : runtime) (id : nat) : runtime :=
  mkRuntime (heap r) (next r) (dbs r) (dbOrder r) (dbLimit r) (closed r) (doomed r ++ [id]) (torn r).

(** An entry leaves the registry: marked, and torn down if nobody uses it. *)
Definition retire (r : runtime) (id : nat) : runtime :=
  match heap r !! id with
  | None => r
  | Some e =>
      let r := set_entry r id (mkEntry (key e) (refs e) true) in
      if refs e =? 0 then doom r id else r
  end.

(** The loop of [database] that evicts the least recently used entries. *)
Fixpoint evict (fuel : nat) (r : runtime) : runtime :=
  match fuel with
  | O => r
  | S fuel =>
      if Z.of_nat (size (dbs r)) <=? dbLimit r then r
      else match last (dbOrder r) with
           | None => r
           | Some oldest =>
               let k := from_option key ""%string (heap r !! oldest) in
               evict fuel (retire
                 (mkRuntime (heap r) (next r) (delete k (dbs r))
                    (List.remove Nat.eq_dec oldest (dbOrder r)) (dbLimit r) (closed r)
                    (doomed r) (torn r)) oldest)
           end
  end.

(** [database] for a key; [registered] is the outcome of [RegisterDatabase]. *)
Definition database (r : runtime) (k : string) (registered : option goerror)
    : runtime * res goerror nat :=
  if closed r then (r, Err (Errors.New ClassRemoteUnavailable "runtime is closed"))
  else match dbs r !! k with
       | Some id =>
           match heap r !! id with
           | Some e =>
               (mkRuntime (<[id := mkEntry (key e) (refs e + 1) (evicted e)]> (heap r)) (next r) (dbs r)
                  (id :: List.remove Nat.eq_dec id (dbOrder r)) (dbLimit r) (closed r) (doomed r) (torn r),
                Ok id)
           | None => (r, Err (EOther "dangling"))   (* no such pointer: see the invariant *)
           end
       | None =>
           match registered with
           | Some err => (r, Err (Wrap ClassConfigurationInvalid "register vfs" err))
           | None =>
               let id := next r in
               let r := mkRuntime (<[id := mkEntry k 1 false]> (heap r)) (S id) (<[k := id]> (dbs r))
                          (id :: dbOrder r) (dbLimit r) (closed r) (doomed r) (torn r) in
               (evict (length (dbOrder r)) r, Ok id)
           end
       end.

(** [releaseDatabase]; [None] is its panic. *)
Definition releaseDatabase (r : runtime) (id : nat) : option runtime :=
  match heap r !! id with
  | None => None
  | Some e =>
      if refs e <=? 0 then None
      else
        let e := mkEntry (key e) (refs e - 1) (evicted e) in
        let r := set_entry r id e in
        Some (if evicted e && (refs e =? 0) then doom r id else r)
  end.

(** The part of [Close] under the mutex. *)
Definition Close (r : runtime) : runtime :=
  if closed r then r
  else
    let r' := foldl retire r (dbOrder r) in
    mkRuntime (heap r') (next r') ∅ [] (dbLimit r') true (doomed r') (torn r').

(** [teardownDatabase] of an entry that was taken out of the registry. *)
Definition teardown (r : runtime) (id : nat) : runtime :=
  mkRuntime (heap r) (next r) (dbs r) (dbOrder r) (dbLimit r) (closed r)
    (List.remove Nat.eq_dec id (doomed r)) (id :: torn r).

(** ** Requests *)

(** The runtime and the entries requests hold, once per [database] call that
    was not yet answered by its [releaseDatabase]. *)
Record sys := mkSys { rt : runtime; users : list nat }.

Inductive step : sys -> sys -> Prop :=
  | StepDatabase s k registered r id :
      database (rt s) k registered = (r, Ok id) -> step s (mkSys r (id :: users s))
  | StepRefused s k registered r err :
      database (rt s) k registered = (r, Err err) -> step s (mkSys r (users s))
  | StepRelease s id us us' r :
      users s = us ++ id :: us' -> releaseDatabase (rt s) id = Some r ->
      step s (mkSys r (us ++ us'))
  | StepTeardown s id : id ∈ doomed (rt s) -> step s (mkSys (teardown (rt s) id) (users s))
  | StepClose s : step s (mkSys (Close (rt s)) (users s)).

Inductive reachable (limit : Z) : sys -> Prop :=
  | reach_start : reachable limit (mkSys (New limit) [])
  | reach_step s s' : reachable limit s -> step s s' -> reachable limit s'.

(** ** Invariant *)

Definition uses (us : list nat) (id : nat) : Z := Z.of_nat (count_occ Nat.eq_dec us id).

(** [over] is how far the table may exceed the limit; [out] are entries that
    have left the table and are about to be retired. *)
Record inv (r : runtime) (us : list nat) (over : Z) (out : list nat) : Prop := {
  inv_refs : forall id e, heap r !! id = Some e -> refs e = uses us id;
  inv_used : forall id, id ∈ us -> is_Some (heap r !! id);
  inv_next : forall id, is_Some (heap r !! id) -> (id < next r)%nat;
  inv_order : NoDup (dbOrder r ++ out);
  inv_size : Z.of_nat (length (dbOrder r)) <= dbLimit r + over;
  inv_table : forall k id, dbs r !! k = Some id <->
      id ∈ dbOrder r /\ exists e, heap r !! id = Some e /\ key e = k;
  inv_live : forall id, id ∈ dbOrder r ++ out <-> exists e, heap r !! id = Some e /\ evicted e = false;
  inv_once : NoDup (doomed r ++ torn r);
  inv_gone : forall id, id ∈ doomed r ++ torn r <->
      exists e, heap r !! id = Some e /\ evicted e = true /\ refs e = 0;
  inv_limit : 0 < dbLimit r;
  inv_closed : closed r = true -> dbOrder r = [];
}.

Lemma elem_of_remove_id (x y : nat) l : x ∈ List.remove Nat.eq_dec y l <-> x ∈ l /\ x <> y.
Proof. rewrite !list_elem_of_In. split; [apply List.in_remove|intros [? ?]; by apply List.in_in_remove]. Qed.

Lemma remove_id_Permutation (x : nat) l : NoDup l -> x ∈ l -> l ≡ₚ x :: List.remove Nat.eq_dec x l.
Proof.
  induction 1 as [|y l Hy _ IH]; [by intros ?%not_elem_of_nil|]. cbn.
  intros [->|Hx]%elem_of_cons.
  - destruct (Nat.eq_dec y y); [|done]. rewrite List.notin_remove; [done|]. by rewrite <- list_elem_of_In.
  - destruct (Nat.eq_dec x y) as [->|]; [done|]. etrans; [apply perm_skip, IH, Hx|apply perm_swap].
Qed.

Lemma uses_cons id us x : uses (id :: us) x = uses us x + (if decide (id = x) then 1 else 0).
Proof. unfold uses. cbn. destruct (Nat.eq_dec id x), (decide (id = x)); lia. Qed.

Lemma uses_pos id us : id ∈ us <-> 0 < uses us id.
Proof. unfold uses. rewrite list_elem_of_In, (List.count_occ_In Nat.eq_dec). lia. Qed.

(** The table and the list have one entry per open database. *)
Lemma table_size r us over out : inv r us over out -> size (dbs r) = length (dbOrder r).
Proof.
  intros Hi. rewrite <- length_map_to_list, <- (length_fmap snd).
  apply Permutation_length, NoDup_Permutation.
  - apply NoDup_fmap_2_strong; [|apply NoDup_map_to_list].
    intros [k1 i1] [k2 i2] H1%elem_of_map_to_list H2%elem_of_map_to_list Heq. cbn in Heq. subst i2.
    apply (inv_table _ _ _ _ Hi) in H1 as (_ & e1 & He1 & <-).
    apply (inv_table _ _ _ _ Hi) in H2 as (_ & e2 & He2 & <-). congruence.
  - pose proof (inv_order _ _ _ _ Hi) as H. by apply NoDup_app in H as [H _].
  - intros id. rewrite list_elem_of_fmap. split.
    + intros ([k i] & -> & H%elem_of_map_to_list). cbn. by apply (inv_table _ _ _ _ Hi) in H as [? _].
    + intros Hid. destruct (proj1 (inv_live _ _ _ _ Hi id)) as (e & He & _); [apply elem_of_app; by left|].
      exists (key e, id). split; [done|]. apply elem_of_map_to_list, (inv_table _ _ _ _ Hi). eauto.
Qed.

(** The live entry of an id. *)
Lemma live_entry r us over out id :
  inv r us over out -> id ∈ dbOrder r ++ out ->
  exists e, heap r !! id = Some e /\ evicted e = false /\ id ∉ doomed r ++ torn r.
Proof.
  intros Hi Hid. destruct (proj1 (inv_live _ _ _ _ Hi id) Hid) as (e & He & Hev).
  exists e. split_and!; [done..|]. rewrite (inv_gone _ _ _ _ Hi). intros (e' & He' & Hev' & _). congruence.
Qed.

Lemma inv_retire r us over id out :
  inv r us over (id :: out) -> inv (retire r id) us over out.
Proof.
  intros Hi. destruct (live_entry r us over _ id Hi) as (e & He & Hev & Hnd).
  { rewrite elem_of_app, elem_of_cons. auto. }
  unfold retire. rewrite He.
  assert (Hno : id ∉ dbOrder r ++ out).
  { pose proof (inv_order _ _ _ _ Hi) as H. rewrite <- Permutation_middle in H. by apply NoDup_cons in H as [? _]. }
  assert (Hheap : forall x e', <[id := mkEntry (key e) (refs e) true]> (heap r) !! x = Some e' <->
    (x = id /\ e' = mkEntry (key e) (refs e) true) \/ (x <> id /\ heap r !! x = Some e')).
  { intros x e'. rewrite lookup_insert_Some. naive_solver. }
  assert (Hbase : forall r', heap r' = <[id := mkEntry (key e) (refs e) true]> (heap r) ->
    next r' = next r -> dbs r' = dbs r -> dbOrder r' = dbOrder r -> dbLimit r' = dbLimit r ->
    closed r' = closed r -> NoDup (doomed r' ++ torn r') ->
    (forall x, x ∈ doomed r' ++ torn r' <-> x ∈ doomed r ++ torn r \/ (x = id /\ refs e = 0)) ->
    inv r' us over out).
  { intros r' E1 E2 E3 E4 E5 E6 Hnd' Hgone. destruct Hi. split; rewrite ?E1, ?E2, ?E3, ?E4, ?E5, ?E6; try done.
    - intros x e' [[-> ->]|[_ Hx]]%Hheap; [cbn; by apply inv_refs0|by apply inv_refs0].
    - intros x Hx. destruct (decide (x = id)) as [->|]; [rewrite lookup_insert_eq; eauto|].
      rewrite lookup_insert_ne by done. by apply inv_used0.
    - intros x [e' [[-> _]|[_ Hx]]%Hheap]; apply inv_next0; eauto.
    - rewrite <- Permutation_middle in inv_order0. by apply NoDup_cons in inv_order0 as [_ ?].
    - intros k x. rewrite inv_table0. split; intros [Hx (e' & He' & Hk)]; (split; [done|]).
      + assert (x <> id) by (intros ->; apply Hno, elem_of_app; by left).
        exists e'. by rewrite Hheap; auto.
      + apply Hheap in He' as [[-> ->]|[_ He']]; [|eauto]. destruct Hno. apply elem_of_app. by left.
    - intros x. specialize (inv_live0 x). rewrite elem_of_app, elem_of_cons in inv_live0.
      rewrite elem_of_app. split.
      + intros Hx. destruct (proj1 inv_live0) as (e' & He' & Hev'); [tauto|].
        exists e'. split; [|done]. apply Hheap. right. split; [|done]. intros ->. apply Hno, elem_of_app, Hx.
      + intros (e' & [[-> ->]|[Hne He']]%Hheap & Hev'); [done|]. destruct (proj2 inv_live0) as [?|[?|?]]; eauto; done.
    - intros x. rewrite Hgone, inv_gone0. split.
      + intros [(e' & He' & H1 & H2)|[-> H0]].
        * exists e'. rewrite Hheap. split_and!; [right|done..]. split; [|done]. intros ->. congruence.
        * eexists. rewrite Hheap. split; [by left|]. done.
      + intros (e' & [[-> ->]|[Hne He']]%Hheap & H1 & H2); [by right|]. left. eauto. }
  destruct (Z.eqb_spec (refs e) 0) as [H0|H0]; apply Hbase; try done; cbn.
  - rewrite <- app_assoc. cbn [app]. rewrite <- Permutation_middle. constructor; [done|apply Hi].
  - intros x. rewrite !elem_of_app, list_elem_of_singleton. tauto.
  - apply Hi.
  - intros x. tauto.
Qed.

Lemma inv_weaken r us over over' out : inv r us over out ->
  Z.of_nat (length (dbOrder r)) <= dbLimit r + over' -> inv r us over' out.
Proof. intros [] ?. by split. Qed.

(** An entry leaves the table and the list. *)
Lemma inv_unlink r us over id e :
  inv r us over [] -> id ∈ dbOrder r -> heap r !! id = Some e ->
  inv (mkRuntime (heap r) (next r) (delete (key e) (dbs r)) (List.remove Nat.eq_dec id (dbOrder r))
         (dbLimit r) (closed r) (doomed r) (torn r)) us (over - 1) [id].
Proof.
  intros Hi Hid He. pose proof (inv_order _ _ _ _ Hi) as Hnd. rewrite app_nil_r in Hnd.
  pose proof (remove_id_Permutation id _ Hnd Hid) as Hp.
  destruct Hi. split; cbn; try done.
  - rewrite Permutation_app_comm. cbn. by rewrite <- Hp.
  - apply Permutation_length in Hp. cbn in Hp. lia.
  - intros k x. rewrite elem_of_remove_id, lookup_delete_Some, inv_table0. split.
    + intros (Hk & Hx & e' & He' & Hk'). split; [|eauto]. split; [done|]. intros ->.
      rewrite He in He'. injection He' as <-. done.
    + intros ([Hx Hne] & e' & He' & Hk'). split; [|eauto]. intros Hk.
      assert (H1 : dbs r !! key e = Some id) by (apply inv_table0; eauto).
      assert (H2 : dbs r !! key e = Some x) by (apply inv_table0; subst; eauto). congruence.
  - intros x. rewrite <- inv_live0, app_nil_r, elem_of_app, elem_of_remove_id, list_elem_of_singleton.
    destruct (decide (x = id)) as [->|]; tauto.
  - intros Hc. rewrite inv_closed0 in Hid by done. by apply not_elem_of_nil in Hid.
Qed.

Lemma inv_evict fuel r us over :
  inv r us over [] -> over <= Z.of_nat fuel -> inv (evict fuel r) us 0 [].
Proof.
  revert r over. induction fuel as [|n IH]; intros r over Hi Hf; cbn [evict].
  { eapply inv_weaken; [done|]. pose proof (inv_size _ _ _ _ Hi). lia. }
  rewrite (table_size r us over [] Hi).
  destruct (Z.leb_spec (Z.of_nat (length (dbOrder r))) (dbLimit r)) as [Hle|Hgt].
  { eapply inv_weaken; [done|]. lia. }
  destruct (last (dbOrder r)) as [old|] eqn:Hl.
  2:{ apply last_None in Hl. rewrite Hl in Hgt. pose proof (inv_limit _ _ _ _ Hi). cbn in Hgt. lia. }
  apply last_Some_elem_of in Hl.
  destruct (live_entry r us over [] old Hi) as (e & He & _); [by rewrite app_nil_r|].
  rewrite He. cbn [from_option]. apply (IH _ (over - 1)); [|lia].
  by apply inv_retire, (inv_unlink r us over old e).
Qed.

(** The count of an entry changes; an entry that was already out of the table
    is on its way to be torn down when the count reaches zero. *)
Lemma inv_count r us us' id e n order' :
  inv r us 0 [] -> heap r !! id = Some e -> order' ≡ₚ dbOrder r ->
  (evicted e = true -> refs e <> 0) ->
  (forall x, uses us' x = if decide (x = id) then n else uses us x) ->
  inv (mkRuntime (<[id := mkEntry (key e) n (evicted e)]> (heap r)) (next r) (dbs r) order' (dbLimit r)
         (closed r) (doomed r ++ (if evicted e && (n =? 0) then [id] else [])) (torn r)) us' 0 [].
Proof.
  intros Hi He Hp Hng Hu.
  assert (Hheap : forall x y, <[id := mkEntry (key e) n (evicted e)]> (heap r) !! x = Some y <->
    (x = id /\ y = mkEntry (key e) n (evicted e)) \/ (x <> id /\ heap r !! x = Some y))
    by (intros x y; rewrite lookup_insert_Some; naive_solver).
  assert (Hdom : forall x, is_Some (<[id := mkEntry (key e) n (evicted e)]> (heap r) !! x) <-> is_Some (heap r !! x)).
  { intros x. rewrite lookup_insert_is_Some. destruct (decide (id = x)) as [->|]; [rewrite He|]; naive_solver. }
  assert (Hsame : forall (P : string -> bool -> Prop) x,
    (exists y, <[id := mkEntry (key e) n (evicted e)]> (heap r) !! x = Some y /\ P (key y) (evicted y)) <->
    (exists y, heap r !! x = Some y /\ P (key y) (evicted y))).
  { intros P x. split.
    - intros (y & [[-> ->]|[_ Hy]]%Hheap & HP); eauto.
    - intros (y & Hy & HP). destruct (decide (x = id)) as [->|Hne].
      + eexists. rewrite Hheap. split; [by left|]. cbn. congruence.
      + exists y. rewrite Hheap. auto. }
  assert (Hnid : id ∉ doomed r ++ torn r).
  { rewrite (inv_gone _ _ _ _ Hi). intros (y & Hy & H1 & H2). rewrite He in Hy. injection Hy as <-. by apply Hng. }
  destruct Hi. rewrite app_nil_r in inv_order0.
  assert (Hmem : forall x, x ∈ order' <-> x ∈ dbOrder r) by (intros x; by rewrite Hp).
  split; cbn [heap next dbs dbOrder dbLimit closed doomed torn]; try done.
  - intros x y [[-> ->]|[Hne Hy]]%Hheap; rewrite Hu; [by rewrite decide_True by done|].
    rewrite decide_False by done. by apply inv_refs0.
  - intros x Hx%uses_pos. rewrite Hdom. rewrite Hu in Hx.
    destruct (decide (x = id)) as [->|]; [eauto|]. by apply inv_used0, uses_pos.
  - intros x Hx%Hdom. by apply inv_next0.
  - by rewrite app_nil_r, Hp.
  - by rewrite Hp.
  - intros k x. rewrite Hmem, inv_table0. by rewrite (Hsame (fun k' _ => k' = k)).
  - intros x. rewrite (Hsame (fun _ b => b = false)), <- inv_live0, !app_nil_r. apply Hmem.
  - destruct (_ && _); [|by rewrite app_nil_r].
    rewrite <- app_assoc. cbn [app]. rewrite <- Permutation_middle. by constructor.
  - intros x. destruct (decide (x = id)) as [->|Hne].
    + split.
      * destruct (evicted e) eqn:Hev, (Z.eqb_spec n 0); cbn; rewrite ?app_nil_r; try done.
        intros _. eexists. rewrite Hheap. split; [by left|]. done.
      * intros (y & [[_ ->]|[? _]]%Hheap & H1 & H2); [|done]. cbn in H1, H2. rewrite H1, H2. cbn.
        rewrite !elem_of_app, list_elem_of_singleton. auto.
    + assert (Hx : x ∈ (doomed r ++ (if evicted e && (n =? 0) then [id] else [])) ++ torn r <->
                   x ∈ doomed r ++ torn r).
      { rewrite !elem_of_app. destruct (_ && _); rewrite ?list_elem_of_singleton; [tauto|].
        assert (x ∉ @nil nat) by apply not_elem_of_nil. tauto. }
      rewrite Hx, inv_gone0. split; intros (y & Hy & HP); exists y; (split; [|done]).
      * apply Hheap. by right.
      * by apply Hheap in Hy as [[? _]|[_ ?]].
  - intros Hcl. apply Permutation_nil_r. by rewrite Hp, inv_closed0.
Qed.

Lemma inv_database r us k registered r' res :
  inv r us 0 [] -> database r k registered = (r', res) ->
  match res with Ok id => inv r' (id :: us) 0 [] | Err _ => r' = r end.
Proof.
  intros Hi. unfold database. destruct (closed r) eqn:Hc; [by intros [= <- <-]|].
  destruct (dbs r !! k) as [id|] eqn:Hk.
  - destruct (proj1 (inv_table _ _ _ _ Hi k id) Hk) as (Hid & e & He & Hke). rewrite He.
    intros [= <- <-]. destruct (live_entry r us 0 [] id Hi) as (e0 & He0 & Hev & _); [by rewrite app_nil_r|].
    rewrite He in He0. injection He0 as <-.
    pose proof (inv_order _ _ _ _ Hi) as Hnd. rewrite app_nil_r in Hnd.
    pose proof (inv_count r us (id :: us) id e (refs e + 1) (id :: List.remove Nat.eq_dec id (dbOrder r))
      Hi He) as H. rewrite Hev in H |- *. cbn [andb] in H. rewrite app_nil_r, ?Hc in H. rewrite ?Hc.
    apply H.
    + by rewrite <- (remove_id_Permutation id).
    + done.
    + intros x. rewrite uses_cons, (inv_refs _ _ _ _ Hi id e He).
      destruct (decide (x = id)) as [->|]; [by rewrite decide_True|]. rewrite decide_False by done. lia.
  - destruct registered as [err|]; [by intros [= <- <-]|]. intros [<- <-]%pair_equal_spec.
    remember (next r) as id eqn:Hid.
    assert (Hfresh : heap r !! id = None).
    { apply eq_None_not_Some. intros H%(inv_next _ _ _ _ Hi). lia. }
    assert (Hnous : id ∉ us) by (intros H%(inv_used _ _ _ _ Hi); rewrite Hfresh in H; by destruct H).
    apply (inv_evict _ _ _ 1); [|cbn; lia].
    pose proof (inv_order _ _ _ _ Hi) as Hnd. rewrite app_nil_r in Hnd.
    assert (Hno : id ∉ dbOrder r).
    { intros Hin. destruct (live_entry r us 0 [] id Hi) as (e & He & _); [by rewrite app_nil_r|]. congruence. }
    assert (Hheap : forall x y, <[id := mkEntry k 1 false]> (heap r) !! x = Some y <->
      (x = id /\ y = mkEntry k 1 false) \/ (x <> id /\ heap r !! x = Some y))
      by (intros x y; rewrite lookup_insert_Some; naive_solver).
    assert (Hold : forall x y, heap r !! x = Some y -> x <> id) by (intros x y Hy ->; congruence).
    destruct Hi. split; cbn [heap next dbs dbOrder dbLimit closed doomed torn]; try done.
    + intros x y [[-> ->]|[Hne Hy]]%Hheap; rewrite uses_cons.
      * rewrite decide_True by done. rewrite uses_pos in Hnous. unfold uses in *. cbn. lia.
      * rewrite decide_False by done. rewrite (inv_refs0 x y Hy). lia.
    + intros x [->|Hx]%elem_of_cons; apply lookup_insert_is_Some; [by left|].
      destruct (decide (id = x)); auto.
    + intros x [->|[_ Hx]]%lookup_insert_is_Some; [lia|]. apply inv_next0 in Hx. lia.
    + rewrite app_nil_r. by constructor.
    + cbn. lia.
    + intros k' x. rewrite lookup_insert_Some, elem_of_cons, inv_table0. split.
      * intros [[<- <-]|(Hne & Hx & y & Hy & Hyk)].
        -- split; [by left|]. eexists. rewrite Hheap. split; [by left|done].
        -- split; [by right|]. exists y. rewrite Hheap. eauto.
      * intros [Hx (y & [[-> ->]|[Hne Hy]]%Hheap & Hyk)]; [by left|]. right.
        destruct Hx as [->|Hx]; [done|]. split; [|eauto]. intros ->.
        assert (dbs r !! k' = Some x) by (apply inv_table0; eauto). congruence.
    + intros x. rewrite app_nil_r, elem_of_cons. rewrite app_nil_r in inv_live0. split.
      * intros [->|Hx]; [eexists; rewrite Hheap; split; [by left|done]|].
        apply inv_live0 in Hx as (y & Hy & Hev). exists y. rewrite Hheap. eauto.
      * intros (y & [[-> ->]|[Hne Hy]]%Hheap & Hev); [by left|]. right. apply inv_live0. eauto.
    + intros x. rewrite inv_gone0. split; intros (y & Hy & H1 & H2).
      * exists y. rewrite Hheap. split_and!; [right; by eauto|done|done].
      * apply Hheap in Hy as [[-> ->]|[_ Hy]]; [done|eauto].
Qed.

Lemma inv_releaseDatabase r us us' id r' :
  inv r (us ++ id :: us') 0 [] -> releaseDatabase r id = Some r' -> inv r' (us ++ us') 0 [].
Proof.
  intros Hi. unfold releaseDatabase. destruct (heap r !! id) as [e|] eqn:He; [|done].
  destruct (Z.leb_spec (refs e) 0) as [|Hr]; [done|]. intros [= <-].
  pose proof (inv_count r _ (us ++ us') id e (refs e - 1) (dbOrder r) Hi He ltac:(done)
    ltac:(intros _ ?; lia)) as H. cbn [evicted refs].
  destruct (evicted e && (refs e - 1 =? 0)) eqn:Hd; cbn [doom set_entry heap next dbs dbOrder dbLimit closed doomed torn].
  - apply H. intros x. rewrite (inv_refs _ _ _ _ Hi id e He). unfold uses.
    rewrite !List.count_occ_app. cbn. destruct (decide (x = id)) as [->|Hne].
    + destruct (Nat.eq_dec id id); [lia|done].
    + destruct (Nat.eq_dec id x) as [->|]; [done|lia].
  - unfold set_entry. rewrite app_nil_r in H. apply H. intros x.
    rewrite (inv_refs _ _ _ _ Hi id e He). unfold uses.
    rewrite !List.count_occ_app. cbn. destruct (decide (x = id)) as [->|Hne].
    + destruct (Nat.eq_dec id id); [lia|done].
    + destruct (Nat.eq_dec id x) as [->|]; [done|lia].
Qed.

Lemma inv_teardown r us id : inv r us 0 [] -> id ∈ doomed r -> inv (teardown r id) us 0 [].
Proof.
  intros Hi Hid.
  assert (Hp : List.remove Nat.eq_dec id (doomed r) ++ id :: torn r ≡ₚ doomed r ++ torn r).
  { pose proof (inv_once _ _ _ _ Hi) as Hn. apply NoDup_app in Hn as [Hn _].
    rewrite <- Permutation_middle. rewrite (remove_id_Permutation id (doomed r)) at 2 by done. done. }
  destruct Hi. split; cbn [teardown heap next dbs dbOrder dbLimit closed doomed torn]; try done.
  - by rewrite Hp.
  - intros x. rewrite Hp. apply inv_gone0.
Qed.

(** [Close] may as well empty the table first. *)
Definition emptied (r : runtime) : runtime :=
  mkRuntime (heap r) (next r) ∅ [] (dbLimit r) true (doomed r) (torn r).

Lemma emptied_retire r id : emptied (retire r id) = retire (emptied r) id.
Proof. unfold retire, emptied. cbn. destruct (heap r !! id); [|done]. by destruct (refs d =? 0). Qed.

Lemma emptied_foldl ids r : emptied (foldl retire r ids) = foldl retire (emptied r) ids.
Proof. revert r. induction ids as [|i ids IH]; intros r; cbn; [done|]. by rewrite IH, emptied_retire. Qed.

Lemma inv_foldl_retire ids r us : inv r us 0 ids -> inv (foldl retire r ids) us 0 [].
Proof. revert r. induction ids as [|i ids IH]; intros r Hi; cbn; [done|]. by apply IH, inv_retire. Qed.

Lemma inv_Close r us : inv r us 0 [] -> inv (Close r) us 0 [].
Proof.
  intros Hi. unfold Close. destruct (closed r) eqn:Hc; [done|].
  change (inv (emptied (foldl retire r (dbOrder r))) us 0 []).
  rewrite emptied_foldl. apply inv_foldl_retire.
  destruct Hi. rewrite app_nil_r in inv_order0.
  split; cbn [emptied heap next dbs dbOrder dbLimit closed doomed torn]; try done.
  - cbn. lia.
  - intros k id. rewrite lookup_empty. split; [done|]. by intros [?%not_elem_of_nil _].
  - intros id. rewrite app_nil_r in inv_live0. apply inv_live0.
Qed.

Lemma registry_inv limit s : reachable limit s -> inv (rt s) (users s) 0 [].
Proof.
  induction 1 as [|s s' _ Hi Hs].
  - split; cbn; try done.
    + intros id. by intros ?%not_elem_of_nil.
    + intros id [? ?]. done.
    + constructor.
    + destruct (Z.leb_spec limit 0); lia.
    + intros k id. rewrite lookup_empty. split; [done|]. by intros [?%not_elem_of_nil _].
    + intros id. split; [by intros ?%not_elem_of_nil|]. intros (e & He & _). done.
    + constructor.
    + intros id. split; [by intros ?%not_elem_of_nil|]. intros (e & He & _). done.
    + destruct (Z.leb_spec limit 0); lia.
  - inversion Hs as [s0 k reg r id Hd|s0 k reg r err Hd|s0 id us us' r Hu Hr|s0 id Hid|s0]; subst; cbn.
    + exact (inv_database _ _ _ _ _ _ Hi Hd).
    + by rewrite (inv_database _ _ _ _ _ _ Hi Hd).
    + rewrite Hu in Hi. exact (inv_releaseDatabase _ _ _ _ _ Hi Hr).
    + by apply inv_teardown.
    + by apply inv_Close.
Qed.

(** ** What the operations leave as it is *)

Record grows (r r' : runtime) : Prop := {
  g_heap : forall e en, heap r !! e = Some en -> exists en', heap r' !! e = Some en' /\ key en' = key en;
  g_doomed : exists l, doomed r' = doomed r ++ l;
  g_torn : torn r' = torn r;
}.

#[export] Instance grows_preorder : PreOrder grows.
Proof.
  split.
  - intros r. split; eauto. exists []. by rewrite app_nil_r.
  - intros r1 r2 r3 [H1 [l1 D1] T1] [H2 [l2 D2] T2]. split; [|exists (l1 ++ l2)|congruence].
    + intros e en (en' & He' & Hk')%H1. apply H2 in He' as (en2 & ? & ?). exists en2. split; congruence.
    + by rewrite D2, D1, app_assoc.
Qed.

(** The entries that went from [r] to [r'] on their way to be torn down. *)
Definition newly (r r' : runtime) : list nat := drop (length (doomed r)) (doomed r').

Lemma grows_newly r r' : grows r r' -> doomed r' = doomed r ++ newly r r'.
Proof. intros [_ [l Hl] _]. unfold newly. by rewrite Hl, drop_app_length. Qed.

Lemma grows_set r e en n b :
  heap r !! e = Some en ->
  forall x y, heap r !! x = Some y ->
    exists y', <[e := mkEntry (key en) n b]> (heap r) !! x = Some y' /\ key y' = key y.
Proof.
  intros He x y Hx. destruct (decide (e = x)) as [<-|Hne].
  - eexists. rewrite lookup_insert_eq. split; [done|]. cbn. congruence.
  - exists y. by rewrite lookup_insert_ne.
Qed.

Lemma grows_retire r e : grows r (retire r e).
Proof.
  unfold retire. destruct (heap r !! e) as [en|] eqn:He; [|done].
  destruct (refs en =? 0); split; cbn; try done; try by apply grows_set.
  - by exists [e].
  - exists []. by rewrite app_nil_r.
Qed.

Lemma grows_unlinked r t o l r' :
  grows (mkRuntime (heap r) (next r) t o (dbLimit r) l (doomed r) (torn r)) r' -> grows r r'.
Proof. intros []. by split. Qed.

Lemma grows_evict fuel r : grows r (evict fuel r).
Proof.
  revert r. induction fuel as [|n IH]; intros r; cbn; [done|].
  destruct (_ <=? _); [done|]. destruct (last (dbOrder r)) as [o|]; [|done].
  eapply grows_unlinked. etrans; [apply grows_retire|apply IH].
Qed.

Lemma grows_database r us k registered r' e :
  inv r us 0 [] -> database r k registered = (r', Ok e) -> grows r r'.
Proof.
  intros Hi. unfold database. destruct (closed r); [done|].
  destruct (dbs r !! k) as [id|].
  - destruct (heap r !! id) as [en|] eqn:He; [|done]. intros [= <- _]. split; cbn; try done.
    + by apply grows_set.
    + exists []. by rewrite app_nil_r.
  - destruct registered; [done|]. intros [<- _]%pair_equal_spec. etrans; [|apply grows_evict].
    split; cbn; try done.
    + intros x y Hx. exists y. rewrite lookup_insert_ne; [done|]. intros <-.
      assert (next r < next r)%nat; [|lia]. apply (inv_next _ _ _ _ Hi). eauto.
    + exists []. by rewrite app_nil_r.
Qed.

Lemma grows_release r e r' : releaseDatabase r e = Some r' -> grows r r'.
Proof.
  unfold releaseDatabase. destruct (heap r !! e) as [en|] eqn:He; [|done].
  destruct (refs en <=? 0); [done|]. intros [= <-].
  destruct (_ && _); split; cbn; try done; try by apply grows_set.
  - by exists [e].
  - exists []. by rewrite app_nil_r.
Qed.

Lemma grows_foldl l r : grows r (foldl retire r l).
Proof. revert r. induction l as [|x l IH]; intros r; cbn; [done|]. etrans; [apply grows_retire|apply IH]. Qed.

Lemma grows_Close r : grows r (Close r).
Proof.
  unfold Close. destruct (closed r); [done|].
  destruct (grows_foldl (dbOrder r) r) as [H1 H2 H3]. by split.
Qed.

(** The counts only depend on how often each entry is held. *)
Lemma registry_inv_perm r us us' over out :
  us ≡ₚ us' -> inv r us over out -> inv r us' over out.
Proof.
  intros Hp Hi. assert (Hu : forall x, uses us x = uses us' x).
  { intros x. unfold uses. f_equal. by apply (Permutation_count_occ Nat.eq_dec). }
  split; try apply Hi.
  - intros x e He. rewrite <- Hu. by apply (inv_refs _ _ _ _ Hi).
  - intros x Hx. apply (inv_used _ _ _ _ Hi). by rewrite Hp.
Qed.

(** No operation forgets an entry, and only [database] makes one. *)
Lemma retire_dom r e : dom (heap (retire r e)) = dom (heap r).
Proof.
  unfold retire. destruct (heap r !! e) as [en|] eqn:He; [|done].
  destruct (refs en =? 0); cbn; apply dom_insert_lookup_L; eauto.
Qed.

Lemma evict_dom fuel r : dom (heap (evict fuel r)) = dom (heap r).
Proof.
  revert r. induction fuel as [|n IH]; intros r; cbn; [done|]. destruct (_ <=? _); [done|].
  destruct (last (dbOrder r)); [|done]. by rewrite IH, retire_dom.
Qed.

Lemma release_dom r e r' : releaseDatabase r e = Some r' -> dom (heap r') = dom (heap r).
Proof.
  unfold releaseDatabase. destruct (heap r !! e) as [en|] eqn:He; [|done].
  destruct (refs en <=? 0); [done|]. intros [= <-]. destruct (_ && _); cbn; apply dom_insert_lookup_L; eauto.
Qed.

Lemma Close_dom r : dom (heap (Close r)) = dom (heap r).
Proof.
  assert (Hf : forall l r, dom (heap (foldl retire r l)) = dom (heap r)).
  { intros l. induction l as [|e l IH]; intros r0; cbn; [done|]. by rewrite IH, retire_dom. }
  unfold Close. destruct (closed r); [done|]. cbn. apply Hf.
Qed.

(** A key that is in the table finds its entry; any other makes a new one. *)
Lemma database_found r k r' id :
  is_Some (dbs r !! k) -> database r k None = (r', Ok id) -> dom (heap r') = dom (heap r).
Proof.
  intros [e He]. unfold database. destruct (closed r); [done|]. rewrite He.
  destruct (heap r !! e) as [en|] eqn:Hen; [|done]. intros [= <- _]. cbn. apply dom_insert_lookup_L. eauto.
Qed.

Lemma database_opened r k r' id :
  dbs r !! k = None -> database r k None = (r', Ok id) -> id = next r /\ dom (heap r') = {[id]} ∪ dom (heap r).
Proof.
  intros Hk. unfold database. destruct (closed r); [done|]. rewrite Hk. intros [<- [= <-]]%pair_equal_spec.
  split; [done|]. rewrite evict_dom. cbn. apply dom_insert_L.
Qed.

(** C23  An open database is torn down once, and never under a request. However
    requests, evictions, teardowns and [Close] interleave: the entry of every
    request in progress is not being torn down; releasing it does not panic; an
    entry is on its way to be torn down, or was, exactly when it has left the
    table and its last user is gone, and that happens once; the table never
    holds more databases than its limit, and after [Close] none. *)
Theorem registry_teardown_once (limit : Z) (s : sys) (Hs : reachable limit s) :
  NoDup (doomed (rt s) ++ torn (rt s)) /\
  (forall id, id ∈ users s ->
     id ∉ doomed (rt s) ++ torn (rt s) /\ exists r, releaseDatabase (rt s) id = Some r) /\
  (forall id e, heap (rt s) !! id = Some e ->
     (id ∈ doomed (rt s) ++ torn (rt s) <-> evicted e = true /\ id ∉ users s)) /\
  Z.of_nat (size (dbs (rt s))) <= dbLimit (rt s) /\
  (closed (rt s) = true -> dbs (rt s) = ∅).
Proof.
  pose proof (registry_inv limit s Hs) as Hi. split_and!.
  - apply Hi.
  - intros id Hid. destruct (inv_used _ _ _ _ Hi id Hid) as [e He].
    assert (0 < refs e) by (rewrite (inv_refs _ _ _ _ Hi id e He); by apply uses_pos). split.
    + rewrite (inv_gone _ _ _ _ Hi). intros (e' & He' & _ & H0). rewrite He in He'. injection He' as <-. lia.
    + unfold releaseDatabase. rewrite He. destruct (Z.leb_spec (refs e) 0); [lia|]. eauto.
  - intros id e He. rewrite (inv_gone _ _ _ _ Hi), uses_pos, <- (inv_refs _ _ _ _ Hi id e He).
    assert (0 <= refs e) by (rewrite (inv_refs _ _ _ _ Hi id e He); unfold uses; lia). split.
    + intros (e' & He' & H1 & H2). rewrite He in He'. injection He' as <-. split; [done|lia].
    + intros [H1 H2]. exists e. split_and!; [done..|lia].
  - rewrite (table_size _ _ _ _ Hi). pose proof (inv_size _ _ _ _ Hi). lia.
  - intros Hc%(inv_closed _ _ _ _ Hi). apply map_empty. intros k. apply eq_None_not_Some. intros [id Hk].
    apply (inv_table _ _ _ _ Hi) in Hk as [Hk _]. rewrite Hc in Hk. by apply not_elem_of_nil in Hk.
Qed.

(** A registry for one database: "b" is opened while "a" is in use, which
    evicts "a"; the user of "a" then leaves. *)
Definition r1 : runtime := (database (New 1) "a" None).1.
Definition r2 : runtime := (database r1 "b" None).1.
Definition r3 : runtime := default r2 (releaseDatabase r2 0).

Lemma r3_reachable : reachable 1 (mkSys r3 [1%nat]).
Proof.
  pose proof (reach_step 1 _ _ (reach_start 1) (StepDatabase (mkSys (New 1) []) "a" None r1 0 eq_refl)) as H1.
  pose proof (reach_step 1 _ _ H1 (StepDatabase (mkSys r1 [0%nat]) "b" None r2 1 eq_refl)) as H2.
  exact (reach_step 1 _ _ H2 (StepRelease (mkSys r2 [1; 0]%nat) 0 [1%nat] [] r3 eq_refl eq_refl)).
Qed.

Lemma registry_teardown_once_witness :
  doomed r3 = [0%nat] /\ 1%nat ∉ doomed r3 ++ torn r3.
Proof.
  split; [vm_compute; reflexivity|].
  refine (proj1 (proj1 (proj2 (registry_teardown_once 1 _ r3_reachable)) 1%nat _)).
  apply list_elem_of_singleton. reflexivity.
Defined.
