(* ===== verification/ReadCache.v ===== *)
(** * ReadCache: the cache of read sessions ([cache/cache.go])

    The table, the recency list and the calls of the cache. Every step is what
    the code does between taking and dropping the mutex, with the [Close] of
    the instances it removed; [Put] is a loop of such steps, so that other
    calls can run between its rounds. *)

From S2P Require Import Prelude.

(** A read instance: the key it reports, and which instance it is. *)
Record instance := mkInst { ikey : string; iid : nat }.

(** [entry] *)
Record entry := mkEntry { inst : instance; lastUsed : Z }.

(** [Cache]; [order] lists the keys, most recently used first. [closed] logs
    the instances closed so far. *)
Record cache := mkCache {
  max : Z;
  idleTTL : Z;
  entries : gmap string entry;
  order : list string;
  closed : list instance;
}.

Definition New (m ttl : Z) : cache := mkCache m ttl ∅ [] [].

Definition disabled (c : cache) : bool := (max c <=? 0) || (idleTTL c <=? 0).

Definition removeLocked (c : cache) (key : string) : cache :=
  mkCache (max c) (idleTTL c) (delete key (entries c)) (List.remove String.string_dec key (order c)) (closed c).

Definition pushFront (c : cache) (key : string) (e : entry) : cache :=
  mkCache (max c) (idleTTL c) (<[key := e]> (entries c)) (key :: order c) (closed c).

Definition close (c : cache) (i : instance) : cache :=
  mkCache (max c) (idleTTL c) (entries c) (order c) (closed c ++ [i]).

(** [Get], with its two readings of the clock. *)
Definition Get (c : cache) (key : string) (now now' : Z) : cache * option instance :=
  if disabled c then (c, None) else
  match entries c !! key with
  | None => (c, None)
  | Some e =>
      if idleTTL c <? now - lastUsed e then (close (removeLocked c key) (inst e), None)
      else (pushFront (removeLocked c key) key (mkEntry (inst e) now'), Some (inst e))
  end.

(** One round of [Put]; [false] when it evicted and has to go round again. *)
Definition putStep (c : cache) (i : instance) (now : Z) : cache * bool :=
  if disabled c then (close c i, true) else
  let key := ikey i in
  match entries c !! key with
  | Some e => (close (pushFront (removeLocked c key) key (mkEntry i now)) (inst e), true)
  | None =>
      if Z.of_nat (size (entries c)) <? max c then (pushFront c key (mkEntry i now), true)
      else match last (order c) with
           | None => (close c i, true)
           | Some oldest =>
               match entries c !! oldest with
               | None => (removeLocked c oldest, false)
               | Some e => (close (removeLocked c oldest) (inst e), false)
               end
           end
  end.

Definition Evict (c : cache) (key : string) : cache :=
  match entries c !! key with
  | None => c
  | Some e => close (removeLocked c key) (inst e)
  end.

(** The loop of [Close], from the back of the list. *)
Fixpoint closeAll (fuel : nat) (c : cache) : cache :=
  match fuel with
  | O => c
  | S fuel =>
      match last (order c) with
      | None => c
      | Some key => closeAll fuel (Evict c key)
      end
  end.
Definition Close (c : cache) : cache := closeAll (length (order c)) c.

(** ** Lemmas on the recency list *)

Lemma elem_of_remove k k' l : k ∈ List.remove String.string_dec k' l <-> k ∈ l /\ k <> k'.
Proof. rewrite !list_elem_of_In. split; [apply List.in_remove|intros [? ?]; by apply List.in_in_remove]. Qed.

Lemma NoDup_remove k l : NoDup l -> NoDup (List.remove String.string_dec k l).
Proof.
  induction 1 as [|x l Hx _ IH]; [constructor|]. cbn. destruct (String.string_dec k x); [done|].
  constructor; [|done]. by rewrite elem_of_remove; intros [].
Qed.

Lemma remove_absent k l : k ∉ l -> List.remove String.string_dec k l = l.
Proof. intros H. apply List.notin_remove. by rewrite <- list_elem_of_In. Qed.

Lemma remove_Permutation k l : NoDup l -> k ∈ l -> l ≡ₚ k :: List.remove String.string_dec k l.
Proof.
  induction 1 as [|x l Hx _ IH]; [by intros ?%not_elem_of_nil|]. cbn.
  intros [->|Hk]%elem_of_cons.
  - destruct (String.string_dec x x); [|done]. by rewrite remove_absent.
  - destruct (String.string_dec k x) as [->|]; [done|]. etrans; [apply perm_skip, IH, Hk|apply perm_swap].
Qed.

Lemma sublist_remove k l : List.remove String.string_dec k l `sublist_of` l.
Proof.
  induction l as [|x l IH]; [done|]. cbn. destruct (String.string_dec k x); by constructor.
Qed.

(** ** Invariant *)

Definition usedAt (c : cache) (k : string) : Z := default 0 (lastUsed <$> entries c !! k).

Definition more_recent (c : cache) (a b : string) : Prop := usedAt c b <= usedAt c a.

(** The table and the list hold the same keys, once each; an instance is under
    its own key; there is room; the list is in order of last use, none later
    than [now]. *)
Record inv (c : cache) (now : Z) : Prop := {
  inv_nodup : NoDup (order c);
  inv_keys : forall k, k ∈ order c <-> is_Some (entries c !! k);
  inv_own : forall k e, entries c !! k = Some e -> ikey (inst e) = k;
  inv_room : if disabled c then order c = [] else Z.of_nat (length (order c)) <= max c;
  inv_sorted : StronglySorted (more_recent c) (order c);
  inv_now : forall k e, entries c !! k = Some e -> lastUsed e <= now;
}.

Lemma inv_size c now : inv c now -> size (entries c) = length (order c).
Proof.
  intros Hc. rewrite <- size_dom.
  replace (dom (entries c)) with (list_to_set (order c) : gset string).
  - by rewrite size_list_to_set by apply Hc.
  - apply set_eq. intros k. rewrite elem_of_list_to_set, elem_of_dom. apply Hc.
Qed.

Lemma sorted_ext c c' l :
  (forall k, k ∈ l -> usedAt c' k = usedAt c k) ->
  StronglySorted (more_recent c) l -> StronglySorted (more_recent c') l.
Proof.
  intros Hu. induction 1 as [|x l Hl IH Hx]; [constructor|]. constructor.
  - apply IH. intros k Hk. apply Hu. by right.
  - rewrite Forall_forall in Hx |- *. intros y Hy. unfold more_recent.
    rewrite !Hu by (rewrite elem_of_cons; auto). by apply Hx.
Qed.

Lemma inv_remove c k now : inv c now -> inv (removeLocked c k) now.
Proof.
  intros [Hnd Hk Ho Hr Hs Hn]. split; cbn.
  - by apply NoDup_remove.
  - intros k'. rewrite elem_of_remove, Hk. destruct (decide (k' = k)) as [->|].
    + rewrite lookup_delete_eq. split; [by intros []|by intros [? ?]].
    + rewrite lookup_delete_ne by done. tauto.
  - intros k' e [_ He]%lookup_delete_Some. by apply Ho.
  - unfold disabled in *. cbn. destruct (_ || _).
    + by rewrite Hr.
    + pose proof (sublist_length _ _ (sublist_remove k (order c))). lia.
  - apply (sorted_ext c).
    + intros k' [_ Hne]%elem_of_remove. unfold usedAt. cbn. by rewrite lookup_delete_ne.
    + revert Hs. clear. induction (order c) as [|x l IH]; [done|]. intros Hs.
      apply StronglySorted_inv in Hs as [Hl Hx]. cbn. destruct (String.string_dec k x); [by apply IH|].
      constructor; [by apply IH|]. rewrite Forall_forall in Hx |- *.
      intros y [Hy _]%elem_of_remove. by apply Hx.
  - intros k' e [_ He]%lookup_delete_Some. by eapply Hn.
Qed.

Lemma inv_later c now now' : inv c now -> now <= now' -> inv c now'.
Proof. intros [] ?. split; [done..|]. intros k e He. etrans; [by eapply inv_now0|done]. Qed.

Lemma inv_push c k e now :
  inv c now -> disabled c = false -> entries c !! k = None ->
  Z.of_nat (length (order c)) < max c -> ikey (inst e) = k -> now <= lastUsed e ->
  inv (pushFront c k e) (lastUsed e).
Proof.
  intros [Hnd Hk Ho Hr Hs Hn] Hd Hnone Hroom He Hnow.
  assert (Hnin : k ∉ order c) by (rewrite Hk, Hnone; by intros []).
  assert (Hu : forall k', k' ∈ order c -> usedAt (pushFront c k e) k' = usedAt c k').
  { intros k' Hk'. unfold usedAt. cbn. rewrite lookup_insert_ne; [done|]. by intros ->. }
  split; cbn.
  - by constructor.
  - intros k'. rewrite elem_of_cons, Hk. destruct (decide (k' = k)) as [->|].
    + rewrite lookup_insert_eq. split; eauto.
    + rewrite lookup_insert_ne by done. split; [by intros [|]|by right].
  - intros k' e' [[-> ->]|[_ He']]%lookup_insert_Some; [done|by apply Ho].
  - unfold disabled in *. cbn. rewrite Hd. lia.
  - constructor; [by apply (sorted_ext c)|]. apply Forall_forall. intros k' Hk'.
    unfold more_recent. rewrite Hu by done. unfold usedAt at 2. cbn. rewrite lookup_insert_eq. cbn.
    apply Hk in Hk' as [e' He']. unfold usedAt. rewrite He'. cbn. etrans; [by eapply Hn|done].
  - intros k' e' [[-> ->]|[_ He']]%lookup_insert_Some; [done|]. etrans; [by eapply Hn|done].
Qed.

Lemma inv_close c i now : inv c now -> inv (close c i) now.
Proof. intros []. by split. Qed.

(** ** Concurrent use *)

(** The cached instances, most recently used first. *)
Definition cached (c : cache) : list instance := omap (fun k => inst <$> entries c !! k) (order c).

(** The cache, the latest reading of the clock, the instances handed to [Put]
    so far, and those whose [Put] is between two rounds. *)
Record sys := mkSys { sc : cache; clk : Z; given : list instance; busy : list instance }.

Inductive step : sys -> sys -> Prop :=
  | StepGet s key now now' :
      clk s <= now <= now' ->
      step s (mkSys (Get (sc s) key now now').1 now' (given s) (busy s))
  | StepPut s i : step s (mkSys (sc s) (clk s) (i :: given s) (i :: busy s))
  | StepRound s i b1 b2 now :
      clk s <= now -> busy s = b1 ++ i :: b2 ->
      step s (mkSys (putStep (sc s) i now).1 now (given s)
                (if (putStep (sc s) i now).2 then b1 ++ b2 else busy s))
  | StepEvict s key : step s (mkSys (Evict (sc s) key) (clk s) (given s) (busy s))
  | StepClose s : step s (mkSys (Close (sc s)) (clk s) (given s) (busy s)).

Inductive reachable (m ttl : Z) : sys -> Prop :=
  | reach_start now : reachable m ttl (mkSys (New m ttl) now [] [])
  | reach_step s s' : reachable m ttl s -> step s s' -> reachable m ttl s'.

Lemma cached_remove c k e now :
  inv c now -> entries c !! k = Some e -> cached c ≡ₚ inst e :: cached (removeLocked c k).
Proof.
  intros Hc He. unfold cached. cbn.
  assert (Hk : k ∈ order c) by (apply Hc; eauto).
  etrans; [apply omap_Permutation, (remove_Permutation k); [apply Hc|done]|].
  cbn. rewrite He. cbn. apply perm_skip.
  erewrite list_omap_ext; [reflexivity|]. apply Forall_Forall2_diag, Forall_forall.
  intros k' [_ Hne]%elem_of_remove. cbn. by rewrite lookup_delete_ne.
Qed.

Lemma cached_push c k e now :
  inv c now -> entries c !! k = None -> cached (pushFront c k e) = inst e :: cached c.
Proof.
  intros Hc Hnone. unfold cached. cbn. rewrite lookup_insert_eq. cbn. f_equal.
  apply list_omap_ext, Forall_Forall2_diag, Forall_forall. intros k' Hk'.
  rewrite lookup_insert_ne; [done|]. intros <-. apply (inv_keys _ _ Hc) in Hk' as [? ?]. congruence.
Qed.

(** What a step keeps: the invariant, and every instance it was given. *)
Definition keeps (c c' : cache) (now : Z) (extra : list instance) : Prop :=
  inv c' now /\ cached c' ++ closed c' ≡ₚ extra ++ cached c ++ closed c.

Lemma keeps_take c k e now :
  inv c now -> entries c !! k = Some e -> keeps c (close (removeLocked c k) (inst e)) now [].
Proof.
  intros Hc He. split; [by apply inv_close, inv_remove|]. cbn [close closed].
  change (cached (close (removeLocked c k) (inst e))) with (cached (removeLocked c k)). cbn.
  rewrite (cached_remove c k e now Hc He). solve_Permutation.
Qed.

Lemma room_after_remove c k e now :
  inv c now -> disabled c = false -> entries c !! k = Some e ->
  Z.of_nat (length (order (removeLocked c k))) < max c.
Proof.
  intros Hc Hd He. pose proof (inv_room _ _ Hc) as Hr. rewrite Hd in Hr.
  assert (Hk : k ∈ order c) by (apply Hc; eauto).
  pose proof (Permutation_length (remove_Permutation k _ (inv_nodup _ _ Hc) Hk)) as Hl. cbn in *. lia.
Qed.

Lemma keeps_Get c key now0 now now' :
  inv c now0 -> now0 <= now <= now' -> keeps c (Get c key now now').1 now' [].
Proof.
  intros Hc Hn. unfold Get. destruct (disabled c) eqn:Hd; [by split; [eapply inv_later; [done|lia]|]|].
  destruct (entries c !! key) as [e|] eqn:He; [|by split; [eapply inv_later; [done|lia]|]].
  apply (inv_later _ _ now') in Hc as Hc'; [|lia]. destruct (_ <? _); cbn [fst]; [by apply keeps_take|].
  set (c1 := removeLocked c key).
  assert (H1 : inv c1 now') by (by apply inv_remove).
  assert (Hnone : entries c1 !! key = None) by (by apply lookup_delete_eq). split.
  - apply (inv_push c1 key (mkEntry (inst e) now') now'); try done.
    + by apply (room_after_remove c key e now').
    + cbn. by apply (inv_own _ _ Hc').
  - rewrite (cached_push c1 _ _ now') by done. cbn.
    by rewrite (cached_remove c key e now' Hc' He).
Qed.

Lemma keeps_putStep c i now0 now :
  inv c now0 -> now0 <= now ->
  keeps c (putStep c i now).1 now (if (putStep c i now).2 then [i] else []).
Proof.
  intros Hc Hn. apply (inv_later _ _ now) in Hc; [|done]. unfold putStep.
  assert (Hdrop : keeps c (close c i) now [i]).
  { split; [by apply inv_close|]. unfold cached. cbn. solve_Permutation. }
  destruct (disabled c) eqn:Hd; [done|].
  destruct (entries c !! ikey i) as [e|] eqn:He; cbn [fst snd].
  - set (c1 := removeLocked c (ikey i)).
    assert (H1 : inv c1 now) by (by apply inv_remove).
    assert (Hnone : entries c1 !! ikey i = None) by (by apply lookup_delete_eq). split.
    + apply inv_close, (inv_push c1 (ikey i) (mkEntry i now) now); try done.
      by apply (room_after_remove c (ikey i) e now).
    + change (cached (close (pushFront c1 (ikey i) (mkEntry i now)) (inst e)))
        with (cached (pushFront c1 (ikey i) (mkEntry i now))).
      rewrite (cached_push c1 _ _ now) by done. cbn.
      rewrite (cached_remove c (ikey i) e now Hc He). solve_Permutation.
  - destruct (Z.ltb_spec (Z.of_nat (size (entries c))) (max c)) as [Hr|Hr]; cbn [fst snd].
    + split; [|by rewrite (cached_push c _ _ now)].
      apply (inv_push c (ikey i) (mkEntry i now) now); try done. by rewrite <- (inv_size c now).
    + destruct (last (order c)) as [old|] eqn:Hl; [|done].
      assert (Hold : old ∈ order c) by (by apply last_Some_elem_of).
      apply (inv_keys _ _ Hc) in Hold as [e' He']. rewrite He'. cbn. by apply keeps_take.
Qed.

Lemma keeps_Evict c key now : inv c now -> keeps c (Evict c key) now [].
Proof.
  intros Hc. unfold Evict. destruct (entries c !! key) as [e|] eqn:He; [|done]. by apply keeps_take.
Qed.

Lemma keeps_closeAll fuel c now : inv c now -> keeps c (closeAll fuel c) now [].
Proof.
  revert c. induction fuel as [|n IH]; intros c Hc; cbn; [done|].
  destruct (last (order c)) as [k|]; [|done].
  destruct (keeps_Evict c k now Hc) as [H1 H2]. destruct (IH _ H1) as [H3 H4].
  split; [done|]. by rewrite H4, H2.
Qed.

Lemma max_closeAll fuel c : max (closeAll fuel c) = max c.
Proof.
  revert c. induction fuel as [|n IH]; intros c; [done|]. cbn. destruct (last (order c)) as [k|]; [|done].
  rewrite IH. unfold Evict. by case_match.
Qed.

Lemma reachable_max (m ttl : Z) (s : sys) : reachable m ttl s -> max (sc s) = m.
Proof.
  induction 1 as [|s s' _ <- Hs]; [done|].
  inversion Hs as [s0 key now now' Hn|s0 i|s0 i b1 b2 now Hn Hb|s0 key|s0]; subst; cbn; [|done| | |].
  - unfold Get. by repeat case_match.
  - unfold putStep. by repeat case_match.
  - unfold Evict. by case_match.
  - apply max_closeAll.
Qed.

Lemma reachable_owns (m ttl : Z) (s : sys) :
  reachable m ttl s ->
  given s ≡ₚ busy s ++ cached (sc s) ++ closed (sc s) /\ inv (sc s) (clk s).
Proof.
  intros Hs. induction Hs as [now|s s' _ [Hp Hc] Hs].
  { split; [done|]. split; try done; cbn.
    - constructor.
    - intros k. rewrite lookup_empty. split; [by intros ?%not_elem_of_nil|by intros [? ?]].
    - unfold disabled. cbn. destruct (_ || _) eqn:Hd; [done|]. apply orb_false_iff in Hd as [Hd _].
      apply Z.leb_gt in Hd. lia.
    - constructor. }
  inversion Hs as [s0 key now now' Hn|s0 i|s0 i b1 b2 now Hn Hb|s0 key|s0]; subst; cbn.
  - destruct (keeps_Get (sc s) key _ now now' Hc Hn) as [H1 H2]. by rewrite H2.
  - by rewrite Hp.
  - destruct (keeps_putStep (sc s) i _ now Hc Hn) as [H1 H2]. split; [|done]. rewrite H2.
    destruct (putStep (sc s) i now).2; [|done]. rewrite Hp, Hb. solve_Permutation.
  - destruct (keeps_Evict (sc s) key _ Hc) as [H1 H2]. by rewrite H2.
  - destruct (keeps_closeAll (length (order (sc s))) (sc s) _ Hc) as [H1 H2]. by rewrite H2.
Qed.


(** ** One [Put] by itself *)

(** The loop of [Put], with the clock readings of its rounds; [None] if it
    still goes on. *)
Fixpoint Put (nows : list Z) (c : cache) (i : instance) : option cache :=
  match nows with
  | [] => None
  | now :: nows =>
      let r := putStep c i now in
      if r.2 then Some r.1 else Put nows r.1 i
  end.

Lemma sorted_last c l v :
  StronglySorted (more_recent c) l -> last l = Some v -> forall k, k ∈ l -> usedAt c v <= usedAt c k.
Proof.
  induction 1 as [|x l Hl IH Hx]; [done|]. intros Hv k. rewrite Forall_forall in Hx.
  destruct l as [|y l]; cbn in Hv.
  { injection Hv as ->. intros ->%list_elem_of_singleton. lia. }
  intros [->|Hk]%elem_of_cons; [|by apply IH].
  apply Hx. by apply last_Some_elem_of.
Qed.

Lemma putStep_room c i now :
  disabled c = false -> entries c !! ikey i = None -> Z.of_nat (size (entries c)) < max c ->
  putStep c i now = (pushFront c (ikey i) (mkEntry i now), true).
Proof. intros Hon He Hr. unfold putStep. by rewrite Hon, He, (proj2 (Z.ltb_lt _ _) Hr). Qed.

(** [Put] always ends, after at most two rounds, with the new instance in
    front. It closes nothing if there is room; the instance it replaces if the
    key was cached; and otherwise exactly one instance: the one whose last use
    is longest ago. *)
Theorem put_evicts_least_recent (c : cache) (i : instance) (n0 n1 n2 : Z)
    (Hc : inv c n0) (Hn : n0 <= n1 <= n2) (Hon : disabled c = false) :
  exists c' closing, Put [n1; n2] c i = Some c' /\
    head (order c') = Some (ikey i) /\ inst <$> entries c' !! ikey i = Some i /\
    closed c' = closed c ++ closing /\
    match entries c !! ikey i, closing with
    | Some e, [j] => j = inst e
    | None, [] => Z.of_nat (size (entries c)) < max c
    | None, [j] => Z.of_nat (size (entries c)) = max c /\
        exists v e, entries c !! v = Some e /\ j = inst e /\
          forall k e', entries c !! k = Some e' -> lastUsed e <= lastUsed e'
    | _, _ => False
    end.
Proof.
  destruct (entries c !! ikey i) as [e|] eqn:He.
  { assert (H1 : putStep c i n1 = (close (pushFront (removeLocked c (ikey i)) (ikey i) (mkEntry i n1)) (inst e), true))
      by (unfold putStep; by rewrite Hon, He).
    cbn [Put]. rewrite H1. eexists _, [inst e]. split; [done|]. cbn. by rewrite lookup_insert_eq. }
  pose proof (inv_room _ _ Hc) as Hroom. rewrite Hon, <- (inv_size _ _ Hc) in Hroom.
  destruct (Z.ltb_spec (Z.of_nat (size (entries c))) (max c)) as [Hr|Hr].
  { cbn [Put]. rewrite (putStep_room c i n1) by done. eexists _, []. split; [done|].
    cbn. by rewrite lookup_insert_eq, app_nil_r. }
  destruct (last (order c)) as [v|] eqn:Hv.
  2:{ apply last_None in Hv. rewrite (inv_size _ _ Hc), Hv in Hr. cbn in Hr.
      unfold disabled in Hon. apply orb_false_iff in Hon as [Hon _]. bool_prop. lia. }
  assert (Hvo : v ∈ order c) by (by apply last_Some_elem_of).
  destruct (proj1 (inv_keys _ _ Hc v) Hvo) as [e Hve].
  set (c1 := close (removeLocked c v) (inst e)).
  assert (H1 : putStep c i n1 = (c1, false)).
  { unfold putStep. by rewrite Hon, He, (proj2 (Z.ltb_ge _ _) Hr), Hv, Hve. }
  assert (Hsz : Z.of_nat (size (entries c1)) < max c1).
  { cbn. rewrite (map_size_delete_Some v (entries c)) by eauto.
    assert (size (entries c) <> 0%nat) by (intros H0%map_size_empty_inv; rewrite H0 in Hve; done). lia. }
  cbn [Put]. rewrite H1. cbn [fst snd]. rewrite (putStep_room c1 i n2); [|done| |done].
  2:{ cbn. rewrite lookup_delete_ne; [done|]. intros ->. congruence. }
  eexists _, [inst e]. split; [done|]. cbn. rewrite lookup_insert_eq. split_and!; try done; [by apply Z.le_antisymm|].
  exists v, e. split_and!; [done..|]. intros k e' He'.
  pose proof (sorted_last c _ v (inv_sorted _ _ Hc) Hv k (proj2 (inv_keys _ _ Hc k) (ex_intro _ _ He'))) as Hu.
  unfold usedAt in Hu. by rewrite Hve, He' in Hu.
Qed.

(** Three instances in a cache for two: "b" was used after "a", "c" is put. *)
Definition two : cache :=
  default (New 2 60) (Put [1; 1] (New 2 60) (mkInst "b" 2) ≫= fun c => Put [2; 2] c (mkInst "a" 1)).
Definition touched : cache := (Get two "b" 3 3).1.

Lemma touched_reachable : reachable 2 60 (mkSys touched 3 [mkInst "a" 1; mkInst "b" 2] []).
Proof.
  set (a := mkInst "a" 1). set (b := mkInst "b" 2).
  set (c1 := (putStep (New 2 60) b 1).1). set (c2 := (putStep c1 a 2).1).
  pose proof (reach_step _ _ _ _ (reach_start 2 60 0) (StepPut _ b)) as H1.
  pose proof (reach_step _ _ _ _ H1
    (StepRound (mkSys (New 2 60) 0 [b] [b]) b [] [] 1 ltac:(cbn; lia) eq_refl)) as H2.
  pose proof (reach_step _ _ _ _ H2 (StepPut _ a)) as H3.
  pose proof (reach_step _ _ _ _ H3
    (StepRound (mkSys c1 1 [a; b] [a]) a [] [] 2 ltac:(cbn; lia) eq_refl)) as H4.
  exact (reach_step _ _ _ _ H4 (StepGet (mkSys c2 2 [a; b] []) "b" 3 3 ltac:(cbn; lia))).
Qed.


Lemma touched_inv : inv touched 3.
Proof. apply (reachable_owns _ _ _ touched_reachable). Qed.

Lemma put_evicts_least_recent_witness :
  exists c', Put [4; 4] touched (mkInst "c" 3) = Some c' /\ closed c' = [mkInst "a" 1].
Proof.
  destruct (put_evicts_least_recent touched (mkInst "c" 3) 3 4 4 touched_inv ltac:(lia) eq_refl)
    as (c' & cl & H & _ & _ & Hcl & _).
  exists c'. split; [exact H|]. vm_compute in H. injection H as <-. reflexivity.
Defined.
