(* ===== verification/SessionLife.v ===== *)
(** * SessionLife: sessions, the read cache, and the end of their VFS

    The threads of a runtime over the registry ([Registry]) and the read cache
    ([ReadCache]): [WithRead], the sessions of [withWriteAttempt], [ReadDSN],
    [releaseDatabase], [teardownDatabase] and [Close] of [runtime/runtime.go],
    [cachedReadSession] of the same file and the calls of [cache/cache.go],
    taken apart where the code drops a mutex: an instance leaves the table of
    the cache in one step and is closed in a later one, when no run is in
    flight on it. A thread is the list of the calls it still has to make. *)

From stdpp Require Import relations.
From S2P Require Import Prelude Errors.
From S2P Require Import Registry ReadCache.

(** ** The critical sections of the cache *)

(** What [Get] does under the mutex: a hit ([true]), or the expired instance
    it has to close. *)
Definition getLocked (c : cache) (key : string) (now now' : Z) : cache * option (bool * instance) :=
  if disabled c then (c, None) else
  match entries c !! key with
  | None => (c, None)
  | Some e =>
      if idleTTL c <? now - lastUsed e then (removeLocked c key, Some (false, inst e))
      else (pushFront (removeLocked c key) key (ReadCache.mkEntry (inst e) now'), Some (true, inst e))
  end.

(** A round of [Put]: the instance to close, and whether it is the last. *)
Definition putLocked (c : cache) (i : instance) (now : Z) : cache * option instance * bool :=
  if disabled c then (c, Some i, true) else
  let key := ikey i in
  match entries c !! key with
  | Some e => (pushFront (removeLocked c key) key (ReadCache.mkEntry i now), Some (inst e), true)
  | None =>
      if Z.of_nat (size (entries c)) <? max c then (pushFront c key (ReadCache.mkEntry i now), None, true)
      else match last (order c) with
           | None => (c, Some i, true)
           | Some oldest =>
               (removeLocked c oldest, inst <$> entries c !! oldest, false)
           end
  end.

Definition evictLocked (c : cache) (key : string) : cache * option instance :=
  match entries c !! key with
  | None => (c, None)
  | Some e => (removeLocked c key, Some (inst e))
  end.

(** [Close] empties the table from the back. *)
Fixpoint emptyLocked (fuel : nat) (c : cache) : cache * list instance :=
  match fuel with
  | O => (c, [])
  | S fuel =>
      match last (order c) with
      | None => (c, [])
      | Some key =>
          let '(c1, i) := evictLocked c key in
          let '(c2, l) := emptyLocked fuel c1 in
          (c2, option_list i ++ l)
      end
  end.
Definition closeLocked (c : cache) : cache * list instance := emptyLocked (length (order c)) c.

(** ** Threads *)

(** A session: the entry whose VFS its connection is on, whether it was
    closed, and whether a run is in flight on it (which holds its mutex). *)
Record session := mkSession { owner : nat; sclosed : bool; running : bool }.

(** What a thread can be about to do: [AGet] is [reads.Get] of [WithRead], [ARun]
    and [AEndRun] take and drop the mutex in [session.run] on the instance it
    found, [AEvict] is [reads.Evict]; [AOpen] opens a session and takes its mutex
    for the first run, which [AEndFresh] ends; [APut] is a round of [Put];
    [AOpenWrite] and [AEndWrite] are the session of a write; [AClose] is
    [Close] of a session; [ARelease] is [releaseDatabase]; [ATeardown] is the
    [Evict] of [teardownDatabase] and [AUnregister] its [vfs.Close];
    [ACloseCache] is [reads.Close]. *)
Inductive action :=
  | AGet (e : nat)
  | ARun (e : nat) (i : instance)
  | AEndRun (e : nat) (i : instance)
  | AEvict (e : nat)
  | AOpen (e : nat)
  | AEndFresh (e : nat) (i : instance)
  | APut (e : nat) (i : instance)
  | AOpenWrite (e : nat)
  | AEndWrite (e : nat) (i : instance)
  | AClose (i : instance)
  | ARelease (e : nat)
  | ATeardown (e : nat)
  | AUnregister (e : nat)
  | ACloseCache.

(** What the threads share: the registry, the cache, the latest reading of the
    clock, and the sessions opened so far, by number. *)
Record shared := mkShared { reg : runtime; cch : cache; clk : Z; sess : list session }.

Definition with_reg (h : shared) (r : runtime) : shared := mkShared r (cch h) (clk h) (sess h).
Definition with_cache (h : shared) (c : cache) (now : Z) : shared := mkShared (reg h) c now (sess h).
Definition with_sess (h : shared) (l : list session) : shared := mkShared (reg h) (cch h) (clk h) l.

Definition key_of (r : runtime) (e : nat) : string := from_option key ""%string (heap r !! e).

Definition set_running (b : bool) (x : session) : session := mkSession (owner x) (sclosed x) b.
Definition set_closed (x : session) : session := mkSession (owner x) true (running x).

(** A session opened for the entry [e]; its number makes it new. *)
Definition opened (h : shared) (e : nat) : shared * instance :=
  (with_sess h (sess h ++ [mkSession e false true]), mkInst (key_of (reg h) e) (length (sess h))).

(** One step of a thread: what changes, and what it has to do next before it
    goes on; [None] when it has to wait. [ok] is the outcome of the call it
    makes (an open, or the function of the request), [now] and [now'] its
    readings of the clock. *)
Definition exec (a : action) (ok : bool) (now now' : Z) (h : shared) : option (shared * list action) :=
  match a with
  | AGet e =>
      if (clk h <=? now) && (now <=? now') then
        let '(c, r) := getLocked (cch h) (key_of (reg h) e) now now' in
        Some (with_cache h c now',
              match r with
              | None => [AOpen e]
              | Some (true, i) => [ARun e i]
              | Some (false, i) => [AClose i; AOpen e]
              end)
      else None
  | ARun e i =>
      match sess h !! iid i with
      | None => None
      | Some x =>
          if running x then None
          else if sclosed x then Some (h, [AEvict e; AOpen e])
          else Some (with_sess h (alter (set_running true) (iid i) (sess h)), [AEndRun e i])
      end
  | AEndRun e i =>
      Some (with_sess h (alter (set_running false) (iid i) (sess h)), if ok then [] else [AEvict e])
  | AEvict e =>
      let '(c, i) := evictLocked (cch h) (key_of (reg h) e) in
      Some (with_cache h c (clk h), AClose <$> option_list i)
  | AOpen e =>
      if ok then let '(h', i) := opened h e in Some (h', [AEndFresh e i]) else Some (h, [])
  | AEndFresh e i =>
      Some (with_sess h (alter (set_running false) (iid i) (sess h)), if ok then [APut e i] else [AClose i])
  | APut e i =>
      if clk h <=? now then
        let '(c, old, done) := putLocked (cch h) i now in
        Some (with_cache h c now, (AClose <$> option_list old) ++ if done then [] else [APut e i])
      else None
  | AOpenWrite e =>
      if ok then let '(h', i) := opened h e in Some (h', [AEndWrite e i]) else Some (h, [])
  | AEndWrite e i =>
      Some (with_sess h (alter (set_running false) (iid i) (sess h)), [AClose i])
  | AClose i =>
      match sess h !! iid i with
      | None => None
      | Some x =>
          if running x then None else Some (with_sess h (alter set_closed (iid i) (sess h)), [])
      end
  | ARelease e =>
      match releaseDatabase (reg h) e with
      | None => None
      | Some r => Some (with_reg h r, ATeardown <$> newly (reg h) r)
      end
  | ATeardown e =>
      let '(c, i) := evictLocked (cch h) (key_of (reg h) e) in
      Some (with_cache h c (clk h), (AClose <$> option_list i) ++ [AUnregister e])
  | AUnregister e => Some (with_reg h (teardown (reg h) e), [])
  | ACloseCache =>
      let '(c, l) := closeLocked (cch h) in Some (with_cache h c (clk h), AClose <$> l)
  end.

(** The requests: [WithRead]; [withWriteAttempt]; and those that open no session
    ([ReadDSN], [runCompaction]). *)
Inductive request := RRead | RWrite | ROther.

Definition body (q : request) (e : nat) : list action :=
  match q with
  | RRead => [AGet e]
  | RWrite => [AOpenWrite e]
  | ROther => []
  end ++ [ARelease e].

Record sys := mkSys { mem : shared; threads : list (list action) }.

(** A thread goes on. *)
Inductive istep : sys -> sys -> Prop :=
  | StepAction h ts1 a k ts2 ok now now' h' l :
      exec a ok now now' h = Some (h', l) ->
      istep (mkSys h (ts1 ++ (a :: k) :: ts2)) (mkSys h' (ts1 ++ (l ++ k) :: ts2))
  | StepReturn h ts1 ts2 : istep (mkSys h (ts1 ++ [] :: ts2)) (mkSys h (ts1 ++ ts2)).

(** A request comes in: [database] may evict other entries, which its thread
    tears down before it goes on; a refused request changes nothing. [Close]
    tears down the entries nobody uses after it emptied the cache. *)
Inductive estep : sys -> sys -> Prop :=
  | StepRequest h ts q k registered r e :
      database (reg h) k registered = (r, Ok e) ->
      estep (mkSys h ts) (mkSys (with_reg h r) (((ATeardown <$> newly (reg h) r) ++ body q e) :: ts))
  | StepClose h ts :
      Registry.closed (reg h) = false ->
      estep (mkSys h ts)
        (mkSys (with_reg h (Registry.Close (reg h)))
           ((ACloseCache :: (ATeardown <$> newly (reg h) (Registry.Close (reg h)))) :: ts)).

Inductive reachable (limit m ttl : Z) : sys -> Prop :=
  | reach_start now : reachable limit m ttl (mkSys (mkShared (Registry.New limit) (ReadCache.New m ttl) now []) [])
  | reach_internal s s' : reachable limit m ttl s -> istep s s' -> reachable limit m ttl s'
  | reach_external s s' : reachable limit m ttl s -> estep s s' -> reachable limit m ttl s'.

(** ** The sections and the calls of the cache *)

Lemma Get_split c key now now' :
  ReadCache.Get c key now now' =
  match getLocked c key now now' with
  | (c', Some (false, i)) => (close c' i, None)
  | (c', Some (true, i)) => (c', Some i)
  | (c', None) => (c', None)
  end.
Proof. unfold ReadCache.Get, getLocked. by repeat case_match; simplify_eq. Qed.

Lemma putStep_split c i now :
  putStep c i now =
  match putLocked c i now with
  | (c', old, done) => (foldl close c' (option_list old), done)
  end.
Proof. unfold putStep, putLocked. by repeat case_match; simplify_eq/=. Qed.

Lemma Evict_split c key :
  ReadCache.Evict c key = foldl close (evictLocked c key).1 (option_list (evictLocked c key).2).
Proof. unfold ReadCache.Evict, evictLocked. by case_match. Qed.

Lemma evictLocked_close c i key :
  evictLocked (close c i) key = (close (evictLocked c key).1 i, (evictLocked c key).2).
Proof. unfold evictLocked. cbn. by case_match. Qed.

Lemma emptyLocked_close fuel c i :
  emptyLocked fuel (close c i) = (close (emptyLocked fuel c).1 i, (emptyLocked fuel c).2).
Proof.
  revert c. induction fuel as [|n IH]; intros c; [done|]. cbn [emptyLocked].
  change (order (close c i)) with (order c). destruct (last (order c)) as [k|]; [|done].
  rewrite evictLocked_close. destruct (evictLocked c k) as [c1 j]. cbn [fst snd]. rewrite IH.
  by destruct (emptyLocked n c1).
Qed.

Lemma closeAll_split fuel c :
  closeAll fuel c = foldl close (emptyLocked fuel c).1 (emptyLocked fuel c).2.
Proof.
  revert c. induction fuel as [|n IH]; intros c; [done|]. cbn [closeAll emptyLocked].
  destruct (last (order c)) as [k|]; [|done]. rewrite IH, Evict_split.
  destruct (evictLocked c k) as [c1 j]. cbn [fst snd].
  destruct j as [j|]; cbn.
  - rewrite emptyLocked_close. by destruct (emptyLocked n c1).
  - by destruct (emptyLocked n c1).
Qed.

(** The calls of the cache are its critical sections followed by the [Close]s
    of the instances they return: what [ReadCache] does in one step, the
    threads here do in several. *)
Theorem cache_sections (c : cache) (key : string) (i : instance) (now now' : Z) :
  ReadCache.Get c key now now' =
    (match getLocked c key now now' with
     | (c', Some (false, j)) => (close c' j, None)
     | (c', r) => (c', snd <$> r)
     end) /\
  putStep c i now =
    (foldl close (putLocked c i now).1.1 (option_list (putLocked c i now).1.2), (putLocked c i now).2) /\
  ReadCache.Evict c key = foldl close (evictLocked c key).1 (option_list (evictLocked c key).2) /\
  ReadCache.Close c = foldl close (closeLocked c).1 (closeLocked c).2.
Proof.
  split_and!.
  - rewrite Get_split. by destruct (getLocked c key now now') as [c' [[[] j]|]].
  - rewrite putStep_split. by destruct (putLocked c i now) as [[c' old] d].
  - apply Evict_split.
  - apply closeAll_split.
Qed.

Lemma closes_cached l c : cached (foldl close c l) = cached c.
Proof. revert c. induction l as [|i l IH]; intros c; [done|]. cbn. by rewrite IH. Qed.

Lemma closes_closed l c : ReadCache.closed (foldl close c l) = ReadCache.closed c ++ l.
Proof.
  revert c. induction l as [|i l IH]; intros c; cbn; [by rewrite app_nil_r|].
  rewrite IH. cbn. by rewrite <- app_assoc.
Qed.

Lemma closes_inv l c now : ReadCache.inv (foldl close c l) now -> ReadCache.inv c now.
Proof. revert c. induction l as [|i l IH]; intros c; [done|]. intros [? ? ? ? ? ?]%IH. by split. Qed.

Lemma keeps_section c c' l now extra :
  ReadCache.closed c' = ReadCache.closed c -> keeps c (foldl close c' l) now extra ->
  ReadCache.inv c' now /\ cached c' ++ l ≡ₚ extra ++ cached c.
Proof.
  intros Hc [Hi Hp]. split; [by apply closes_inv in Hi|].
  rewrite closes_cached, closes_closed, Hc in Hp.
  apply (Permutation_app_inv_r (ReadCache.closed c)). rewrite <- !app_assoc.
  etrans; [|exact Hp]. solve_Permutation.
Qed.

Lemma get_section c key now0 now now' :
  ReadCache.inv c now0 -> now0 <= now <= now' ->
  ReadCache.inv (getLocked c key now now').1 now' /\
  match (getLocked c key now now').2 with
  | Some (false, i) => cached (getLocked c key now now').1 ++ [i] ≡ₚ cached c
  | Some (true, i) => cached (getLocked c key now now').1 ≡ₚ cached c /\ i ∈ cached c
  | None => cached (getLocked c key now now').1 ≡ₚ cached c
  end.
Proof.
  intros Hc Hn. pose proof (keeps_Get c key now0 now now' Hc Hn) as Hk. rewrite Get_split in Hk.
  assert (Hcl : ReadCache.closed (getLocked c key now now').1 = ReadCache.closed c)
    by (unfold getLocked; by repeat case_match).
  assert (Hin : forall c' i, getLocked c key now now' = (c', Some (true, i)) -> i ∈ cached c).
  { intros c' i. unfold getLocked. destruct (disabled c); [done|].
    destruct (entries c !! key) as [e|] eqn:He; [|done]. destruct (_ <? _); [done|]. intros [= _ <-].
    rewrite (cached_remove c key e now0 Hc He). apply elem_of_cons. by left. }
  destruct (getLocked c key now now') as [c' [[[] i]|]]; cbn [fst snd] in *.
  - destruct (keeps_section c c' [] now' [] Hcl Hk) as [H1 H2]. rewrite app_nil_r in H2. cbn in H2. eauto.
  - by apply (keeps_section c c' [i] now' [] Hcl).
  - destruct (keeps_section c c' [] now' [] Hcl Hk) as [H1 H2]. by rewrite app_nil_r in H2.
Qed.

Lemma put_section c i now0 now :
  ReadCache.inv c now0 -> now0 <= now ->
  ReadCache.inv (putLocked c i now).1.1 now /\
  cached (putLocked c i now).1.1 ++ option_list (putLocked c i now).1.2
    ≡ₚ (if (putLocked c i now).2 then [i] else []) ++ cached c.
Proof.
  intros Hc Hn. pose proof (keeps_putStep c i now0 now Hc Hn) as Hk. rewrite putStep_split in Hk.
  assert (Hcl : ReadCache.closed (putLocked c i now).1.1 = ReadCache.closed c)
    by (unfold putLocked; by repeat case_match).
  destruct (putLocked c i now) as [[c' old] d]. cbn [fst snd] in *. by apply keeps_section.
Qed.

Lemma evict_section c key now :
  ReadCache.inv c now ->
  ReadCache.inv (evictLocked c key).1 now /\
  cached (evictLocked c key).1 ++ option_list (evictLocked c key).2 ≡ₚ cached c /\
  (forall i, i ∈ cached (evictLocked c key).1 -> ikey i <> key).
Proof.
  intros Hc. pose proof (keeps_Evict c key now Hc) as Hk. rewrite Evict_split in Hk.
  assert (Hcl : ReadCache.closed (evictLocked c key).1 = ReadCache.closed c)
    by (unfold evictLocked; by case_match).
  destruct (keeps_section _ _ _ _ _ Hcl Hk) as [H1 H2]. split_and!; [done..|].
  intros i. unfold cached at 1. rewrite list_elem_of_omap. intros (k & Hk' & Hi).
  destruct (entries _ !! k) as [e|] eqn:He; [|done]. cbn in Hi. injection Hi as <-.
  rewrite (inv_own _ _ H1 k e He). intros ->. revert He. unfold evictLocked.
  destruct (entries c !! key) eqn:He'; cbn; [by rewrite lookup_delete_eq|]. by rewrite He'.
Qed.

Lemma close_section c now :
  ReadCache.inv c now ->
  ReadCache.inv (closeLocked c).1 now /\ cached (closeLocked c).1 ++ (closeLocked c).2 ≡ₚ cached c.
Proof.
  intros Hc. pose proof (keeps_closeAll (length (order c)) c now Hc) as Hk. rewrite closeAll_split in Hk.
  assert (Hcl : forall fuel c, ReadCache.closed (emptyLocked fuel c).1 = ReadCache.closed c).
  { intros fuel. induction fuel as [|n IH]; intros c0; [done|]. cbn. destruct (last (order c0)) as [k|]; [|done].
    specialize (IH (evictLocked c0 k).1).
    assert (ReadCache.closed (evictLocked c0 k).1 = ReadCache.closed c0) by (unfold evictLocked; by case_match).
    destruct (evictLocked c0 k) as [c1 j]. cbn [fst] in *. destruct (emptyLocked n c1). cbn [fst] in *. congruence. }
  apply (keeps_section c _ _ now []); [apply Hcl|exact Hk].
Qed.

(** ** Invariant *)

(** What an action says of the thread it is in: the reference it will give
    back, the entry it is tearing down, the session it is responsible for, the
    session it will use, the one opened by the same thread, and the entry it
    needs. *)
Definition holds (a : action) : option nat :=
  match a with ARelease e => Some e | _ => None end.
Definition tears (a : action) : option nat :=
  match a with ATeardown e | AUnregister e => Some e | _ => None end.
Definition owns (a : action) : option instance :=
  match a with AEndFresh _ i | APut _ i | AEndWrite _ i | AClose i => Some i | _ => None end.
Definition mentions (a : action) : option instance :=
  match a with ARun _ i | AEndRun _ i => Some i | _ => owns a end.
Definition fresh (a : action) : option (nat * instance) :=
  match a with AEndFresh e i | APut e i | AEndWrite e i => Some (e, i) | _ => None end.
Definition needs (a : action) : option nat :=
  match a with
  | AGet e | ARun e _ | AEndRun e _ | AEvict e | AOpen e | AEndFresh e _ | APut e _
  | AOpenWrite e | AEndWrite e _ => Some e
  | _ => None
  end.
(** The session whose mutex an action is about to drop. *)
Definition runner (a : action) : option nat :=
  match a with AEndRun _ i | AEndFresh _ i | AEndWrite _ i => Some (iid i) | _ => None end.

(** Where the open sessions are: with a thread that has to close or cache them,
    or in the cache. *)
Definition places (h : shared) (acts : list action) : list instance := omap owns acts ++ cached (cch h).

(** The shared state and everything the threads still have to do. *)
Record minv (h : shared) (acts : list action) : Prop := {
  m_reg : Registry.inv (reg h) (omap holds acts) 0 [];
  m_doom : doomed (reg h) ≡ₚ omap tears acts;
  m_cache : ReadCache.inv (cch h) (clk h);
  m_once : NoDup (iid <$> places h acts);
  m_open : forall n x, sess h !! n = Some x -> sclosed x = false <-> n ∈ iid <$> places h acts;
  m_key : forall i, i ∈ places h acts -> exists x en, sess h !! iid i = Some x /\
    heap (reg h) !! owner x = Some en /\ key en = ikey i;
  m_mentions : forall a i, a ∈ acts -> mentions a = Some i -> is_Some (sess h !! iid i);
  m_fresh : forall a e i x, a ∈ acts -> fresh a = Some (e, i) -> sess h !! iid i = Some x -> owner x = e;
  m_gone : forall i x, i ∈ cached (cch h) -> sess h !! iid i = Some x ->
    owner x ∉ torn (reg h) /\ AUnregister (owner x) ∉ acts;
}.

(** A thread gives back every entry it needs, later. *)
Fixpoint covered (k : list action) : Prop :=
  match k with
  | [] => True
  | a :: k => (forall e, needs a = Some e -> ARelease e ∈ k) /\ covered k
  end.

Record inv (s : sys) : Prop := {
  s_mem : minv (mem s) (concat (threads s));
  s_covered : Forall covered (threads s);
  s_run : forall n x, sess (mem s) !! n = Some x -> running x = true ->
    exists a k, a :: k ∈ threads s /\ runner a = Some n;
}.

Lemma minv_perm h acts acts' : acts ≡ₚ acts' -> minv h acts -> minv h acts'.
Proof.
  intros Hp Hm. assert (Hpl : places h acts ≡ₚ places h acts') by (unfold places; by rewrite Hp).
  assert (Hin : forall a, a ∈ acts' <-> a ∈ acts) by (intros a; by rewrite Hp).
  split.
  - eapply registry_inv_perm; [by apply omap_Permutation|apply Hm].
  - by rewrite (m_doom _ _ Hm), Hp.
  - apply Hm.
  - rewrite <- Hpl. apply Hm.
  - intros n x Hn. rewrite <- Hpl. by apply Hm.
  - intros i. rewrite <- Hpl. apply Hm.
  - intros a i. rewrite Hin. apply Hm.
  - intros a e i x. rewrite Hin. apply Hm.
  - intros i x. rewrite Hin. apply Hm.
Qed.

(** An entry somebody holds is not on its way out. *)
Lemma held_alive h acts e :
  minv h acts -> ARelease e ∈ acts ->
  is_Some (heap (reg h) !! e) /\ e ∉ torn (reg h) /\ AUnregister e ∉ acts /\ ATeardown e ∉ acts.
Proof.
  intros Hm He. assert (Hu : e ∈ omap holds acts) by (rewrite list_elem_of_omap; eauto).
  destruct (inv_used _ _ _ _ (m_reg _ _ Hm) e Hu) as [en Hen]. split; [eauto|].
  assert (Hg : e ∉ doomed (reg h) ++ torn (reg h)).
  { rewrite (inv_gone _ _ _ _ (m_reg _ _ Hm)). intros (en' & He' & _ & H0). rewrite Hen in He'. injection He' as <-.
    rewrite (inv_refs _ _ _ _ (m_reg _ _ Hm) e en Hen) in H0. apply uses_pos in Hu. lia. }
  rewrite elem_of_app, (m_doom _ _ Hm), list_elem_of_omap in Hg.
  split_and!; [naive_solver| |]; intros Ha; apply Hg; left; eexists; (split; [exact Ha|done]).
Qed.

(** The registry moves on; nothing happens to the sessions. *)
Lemma minv_reg h acts acts' r' :
  minv h acts -> (forall e en, heap (reg h) !! e = Some en -> exists en', heap r' !! e = Some en' /\ key en' = key en) ->
  Registry.inv r' (omap holds acts') 0 [] -> doomed r' ≡ₚ omap tears acts' ->
  omap owns acts' = omap owns acts ->
  (forall b, b ∈ acts' -> mentions b = None \/ b ∈ acts) ->
  (forall e, AUnregister e ∈ acts' -> AUnregister e ∈ acts) ->
  (forall e, e ∈ torn r' -> e ∈ torn (reg h) \/ AUnregister e ∈ acts) ->
  minv (with_reg h r') acts'.
Proof.
  intros Hm Hg Hi Hd Ho Hsub Hun Ht.
  assert (Hpl : places (with_reg h r') acts' = places h acts) by (unfold places; by rewrite Ho).
  assert (Hf : forall b e i, fresh b = Some (e, i) -> mentions b <> None) by (by intros []).
  split; rewrite ?Hpl; try apply Hm; try done.
  - intros i Hin. destruct (m_key _ _ Hm i Hin) as (x & en & Hx & Hen & Hk).
    apply Hg in Hen as (en' & Hen' & Hk'). exists x, en'. split_and!; [done..|congruence].
  - intros b i Hb Hbi. destruct (Hsub b Hb); [congruence|]. by apply (m_mentions _ _ Hm b).
  - intros b e i x Hb Hbi. destruct (Hsub b Hb); [by apply Hf in Hbi|]. by apply (m_fresh _ _ Hm b).
  - intros i x Hc Hx. cbn in Hc, Hx |- *. destruct (m_gone _ _ Hm i x Hc Hx) as [H1 H2].
    split; [intros [?|?]%Ht; tauto|]. intros ?%Hun. tauto.
Qed.

(** A critical section of the cache. *)
Lemma minv_cache h a rest l c' now' :
  minv h (a :: rest) -> ReadCache.inv c' now' ->
  omap owns l ++ cached c' ≡ₚ option_list (owns a) ++ cached (cch h) ->
  omap holds l = option_list (holds a) -> omap tears l = option_list (tears a) ->
  (forall b i, b ∈ l -> mentions b = Some i -> owns b = Some i \/ i ∈ places h (a :: rest)) ->
  (forall b e i, b ∈ l -> fresh b = Some (e, i) -> fresh a = Some (e, i)) ->
  (forall i x, i ∈ cached c' -> sess h !! iid i = Some x ->
     owner x ∉ torn (reg h) /\ AUnregister (owner x) ∉ l ++ rest) ->
  minv (with_cache h c' now') (l ++ rest).
Proof.
  intros Hm Hc Hp Hh Ht Hment Hfr Hgone.
  assert (Hcons : forall B (f : action -> option B), omap f (a :: rest) = option_list (f a) ++ omap f rest)
    by (intros B f; cbn; by destruct (f a)).
  assert (Hpl : places (with_cache h c' now') (l ++ rest) ≡ₚ places h (a :: rest)).
  { unfold places. rewrite Hcons, omap_app. cbn [cch with_cache]. rewrite <- !app_assoc.
    rewrite (Permutation_app_comm (omap owns rest)), (Permutation_app_comm (omap owns rest)), !app_assoc.
    by rewrite Hp. }
  split; cbn [with_cache reg sess cch clk]; try done.
  - rewrite omap_app, Hh, <- Hcons. apply Hm.
  - rewrite (m_doom _ _ Hm), omap_app, Ht, <- Hcons. done.
  - rewrite Hpl. apply Hm.
  - intros n x Hn. rewrite Hpl. by apply Hm.
  - intros i. rewrite Hpl. apply Hm.
  - intros b i [Hb|Hb]%elem_of_app Hbi.
    + assert (i ∈ places h (a :: rest)) as Hi.
      { destruct (Hment b i Hb Hbi) as [Ho|?]; [|done]. rewrite <- Hpl. apply elem_of_app. left.
        rewrite list_elem_of_omap. exists b. split; [|done]. apply elem_of_app. by left. }
      destruct (m_key _ _ Hm i Hi) as (x & _ & Hx & _). eauto.
    + apply (m_mentions _ _ Hm b); [|done]. by apply elem_of_cons; right.
  - intros b e i x [Hb|Hb]%elem_of_app Hbi Hx.
    + apply Hfr in Hbi; [|done]. apply (m_fresh _ _ Hm a e i x); [apply elem_of_cons; by left|done..].
    + apply (m_fresh _ _ Hm b e i x); [|done..]. by apply elem_of_cons; right.
Qed.

(** Only the thread goes on. *)
Lemma minv_acts h a rest l :
  minv h (a :: rest) ->
  omap owns l = option_list (owns a) -> omap holds l = option_list (holds a) ->
  omap tears l = option_list (tears a) ->
  (forall b i, b ∈ l -> mentions b = Some i -> owns b = Some i \/ mentions a = Some i \/ i ∈ places h (a :: rest)) ->
  (forall b e i, b ∈ l -> fresh b = Some (e, i) -> fresh a = Some (e, i)) ->
  (forall e, AUnregister e ∉ l) ->
  minv h (l ++ rest).
Proof.
  intros Hm Ho Hh Ht Hment Hfr Hun.
  assert (Hcons : forall B (f : action -> option B), omap f (a :: rest) = option_list (f a) ++ omap f rest)
    by (intros B f; cbn; by destruct (f a)).
  assert (Hpl : places h (l ++ rest) = places h (a :: rest))
    by (unfold places; by rewrite omap_app, Ho, <- Hcons).
  split; rewrite ?Hpl; try apply Hm.
  - rewrite omap_app, Hh, <- Hcons. apply Hm.
  - rewrite (m_doom _ _ Hm), omap_app, Ht, <- Hcons. done.
  - intros b i [Hb|Hb]%elem_of_app Hbi.
    + assert (Hi : mentions a = Some i \/ i ∈ places h (a :: rest)).
      { destruct (Hment b i Hb Hbi) as [Hob|?]; [|done]. right. rewrite <- Hpl. apply elem_of_app. left.
        rewrite list_elem_of_omap. exists b. split; [|done]. apply elem_of_app. by left. }
      destruct Hi as [Hi|Hi].
      * apply (m_mentions _ _ Hm a); [apply elem_of_cons; by left|done].
      * destruct (m_key _ _ Hm i Hi) as (x & _ & Hx & _). eauto.
    + apply (m_mentions _ _ Hm b); [|done]. by apply elem_of_cons; right.
  - intros b e i x [Hb|Hb]%elem_of_app Hbi Hx.
    + apply Hfr in Hbi; [|done]. apply (m_fresh _ _ Hm a e i x); [apply elem_of_cons; by left|done..].
    + apply (m_fresh _ _ Hm b e i x); [|done..]. by apply elem_of_cons; right.
  - intros i x Hc Hx. destruct (m_gone _ _ Hm i x Hc Hx) as [H1 H2]. split; [done|].
    rewrite elem_of_app. intros [?%Hun|Hu]; [done|]. apply H2, elem_of_cons. by right.
Qed.

(** The mutex of a session is taken or dropped. *)
Lemma minv_running h acts b n :
  minv h acts -> minv (with_sess h (alter (set_running b) n (sess h))) acts.
Proof.
  intros Hm.
  assert (Hl : forall m x, alter (set_running b) n (sess h) !! m = Some x ->
    exists x0, sess h !! m = Some x0 /\ owner x = owner x0 /\ sclosed x = sclosed x0).
  { intros m x. destruct (decide (n = m)) as [<-|Hne].
    - rewrite list_lookup_alter_eq. intros (x0 & Hx0 & ->)%fmap_Some. eauto.
    - rewrite list_lookup_alter_ne by done. eauto. }
  assert (Hr : forall m x0, sess h !! m = Some x0 ->
    exists x, alter (set_running b) n (sess h) !! m = Some x /\ owner x = owner x0).
  { intros m x0 Hx0. destruct (decide (n = m)) as [<-|Hne].
    - rewrite list_lookup_alter_eq, Hx0. cbn. eexists. split; [done|]. done.
    - rewrite list_lookup_alter_ne by done. eauto. }
  split; cbn [with_sess reg cch clk sess]; try apply Hm.
  - intros m x (x0 & Hx0 & _ & ->)%Hl. by apply (m_open _ _ Hm).
  - intros i (x0 & en & Hx0 & Hen & Hk)%(m_key _ _ Hm). apply Hr in Hx0 as (x & Hx & Ho).
    exists x, en. by rewrite Ho.
  - intros a i Ha Hi. destruct (m_mentions _ _ Hm a i Ha Hi) as [x0 Hx0].
    apply Hr in Hx0 as (x & Hx & _). eauto.
  - intros a e i x Ha Hf (x0 & Hx0 & -> & _)%Hl. by apply (m_fresh _ _ Hm a e i).
  - intros i x Hc (x0 & Hx0 & -> & _)%Hl. by apply (m_gone _ _ Hm i).
Qed.

(** [Close] of a session. *)
Lemma minv_close h i rest :
  minv h (AClose i :: rest) -> minv (with_sess h (alter set_closed (iid i) (sess h))) rest.
Proof.
  intros Hm. set (n := iid i).
  assert (Hpl : places h (AClose i :: rest) = i :: places h rest) by done.
  pose proof (m_once _ _ Hm) as Hnd. rewrite Hpl in Hnd. cbn in Hnd. apply NoDup_cons in Hnd as [Hni Hnd].
  assert (Hl : forall m x, alter set_closed n (sess h) !! m = Some x ->
    (m <> n /\ sess h !! m = Some x) \/ (m = n /\ exists x0, sess h !! n = Some x0 /\ x = set_closed x0)).
  { intros m x. destruct (decide (n = m)) as [<-|Hne].
    - rewrite list_lookup_alter_eq. intros (x0 & Hx0 & ->)%fmap_Some. eauto.
    - rewrite list_lookup_alter_ne by done. eauto. }
  assert (Hr : forall m x0, sess h !! m = Some x0 ->
    exists x, alter set_closed n (sess h) !! m = Some x /\ owner x = owner x0).
  { intros m x0 Hx0. destruct (decide (n = m)) as [<-|Hne].
    - rewrite list_lookup_alter_eq, Hx0. cbn. eexists. split; [done|]. done.
    - rewrite list_lookup_alter_ne by done. eauto. }
  assert (Hsub : forall a, a ∈ rest -> a ∈ AClose i :: rest) by (intros a Ha; by apply elem_of_cons; right).
  assert (Hown : forall m x, alter set_closed n (sess h) !! m = Some x ->
    exists x0, sess h !! m = Some x0 /\ owner x = owner x0).
  { intros m x [[_ Hx]|(-> & x0 & Hx0 & ->)]%Hl; eauto. }
  split; cbn [with_sess reg cch clk sess]; try apply Hm; try done.
  - intros m x Hx. change (places (with_sess h (alter set_closed n (sess h))) rest) with (places h rest).
    destruct (Hl m x Hx) as [[Hne Hx']|(-> & x0 & Hx0 & ->)].
    + rewrite (m_open _ _ Hm m x Hx'), Hpl. cbn. rewrite elem_of_cons. tauto.
    + cbn. split; [done|]. intros Hin. by destruct Hni.
  - intros j Hj. destruct (m_key _ _ Hm j) as (x0 & en & Hx0 & Hen & Hk); [rewrite Hpl; by apply elem_of_cons; right|].
    apply Hr in Hx0 as (x & Hx & Ho). exists x, en. by rewrite Ho.
  - intros a j Ha Hj. destruct (m_mentions _ _ Hm a j (Hsub a Ha) Hj) as [x0 Hx0].
    apply Hr in Hx0 as (x & Hx & _). eauto.
  - intros a e j x Ha Hf (x0 & Hx0 & ->)%Hown. by apply (m_fresh _ _ Hm a e j x0 (Hsub a Ha)).
  - intros j x Hc (x0 & Hx0 & ->)%Hown. destruct (m_gone _ _ Hm j x0 Hc Hx0) as [H1 H2]. split; [done|].
    intros Hu. by apply H2, Hsub.
Qed.

(** A session is opened by a request that holds the entry. *)
Lemma minv_opened h a rest e b :
  minv h (a :: rest) -> ARelease e ∈ rest ->
  owns a = None -> holds a = None -> tears a = None ->
  b = AEndFresh e (opened h e).2 \/ b = AEndWrite e (opened h e).2 ->
  minv (opened h e).1 (b :: rest).
Proof.
  intros Hm He Ho Hh Ht Hb. set (i := (opened h e).2) in *. set (x1 := mkSession e false true).
  assert (Hm0 : minv h rest).
  { apply (minv_acts h a rest []); cbn; rewrite ?Ho, ?Hh, ?Ht; try done.
    - by intros b0 i0 ?%not_elem_of_nil.
    - by intros b0 e0 i0 ?%not_elem_of_nil.
    - by intros e0 ?%not_elem_of_nil. }
  destruct (held_alive h rest e Hm0 He) as ([en Hen] & _).
  assert (Hpl : places (opened h e).1 (b :: rest) = i :: places h rest) by (by destruct Hb as [-> | ->]).
  assert (Hlen : forall n x, sess h !! n = Some x -> (n < length (sess h))%nat) by (intros n x; apply lookup_lt_Some).
  assert (Hnew : iid i ∉ iid <$> places h rest).
  { intros (j & Hj & Hin)%list_elem_of_fmap. destruct (m_key _ _ Hm0 j Hin) as (x & _ & Hx & _).
    rewrite <- Hj in Hx. apply Hlen in Hx. cbn in Hx. lia. }
  assert (Hl : forall n x, (sess h ++ [x1]) !! n = Some x ->
    sess h !! n = Some x \/ (n = length (sess h) /\ x = x1)).
  { intros n x [Hx|[Hn Hx]]%lookup_app_Some; [by left|]. right.
    apply list_lookup_singleton_Some in Hx as [Hn' <-]. split; [lia|done]. }
  assert (Hold : forall n x, sess h !! n = Some x -> (sess h ++ [x1]) !! n = Some x)
    by (intros n x; apply lookup_app_l_Some).
  assert (Hnx : (sess h ++ [x1]) !! iid i = Some x1) by (apply list_lookup_middle; done).
  split; try apply Hm0.
  - replace (omap holds (b :: rest)) with (omap holds rest) by (by destruct Hb as [-> | ->]). apply Hm0.
  - replace (omap tears (b :: rest)) with (omap tears rest) by (by destruct Hb as [-> | ->]). apply Hm0.
  - rewrite Hpl. cbn. constructor; [done|]. apply Hm0.
  - intros n x Hx. rewrite Hpl. cbn [fmap list_fmap]. rewrite elem_of_cons.
    destruct (Hl n x Hx) as [Hx'|[-> ->]].
    + rewrite (m_open _ _ Hm0 n x Hx'). split; [by right|]. intros [->|?]; [|done].
      apply Hlen in Hx'. cbn in Hx'. lia.
    + split; [by left|done].
  - rewrite Hpl. intros j [->|Hj]%elem_of_cons.
    + exists x1, en. split_and!; [done..|]. unfold i, key_of. cbn. unfold key_of. by rewrite Hen.
    + destruct (m_key _ _ Hm0 j Hj) as (x & en' & Hx & He'). exists x, en'. split; [by apply Hold|done].
  - intros c j [->|Hc]%elem_of_cons Hj.
    + assert (j = i) as -> by (destruct Hb as [-> | ->]; by injection Hj). eauto.
    + destruct (m_mentions _ _ Hm0 c j Hc Hj) as [x Hx]. exists x. by apply Hold.
  - intros c e0 j x [->|Hc]%elem_of_cons Hf Hx.
    + assert (e0 = e /\ j = i) as [-> ->] by (destruct Hb as [-> | ->]; by injection Hf).
      change ((sess h ++ [x1]) !! iid i = Some x) in Hx. rewrite Hnx in Hx. by injection Hx as <-.
    + destruct (m_mentions _ _ Hm0 c j Hc) as [x0 Hx0]; [by destruct c; simplify_eq/=|].
      change ((sess h ++ [x1]) !! iid j = Some x) in Hx.
      rewrite (Hold _ _ Hx0) in Hx. injection Hx as <-. by apply (m_fresh _ _ Hm0 c e0 j).
  - intros j x Hc Hx. change (cached (cch (opened h e).1)) with (cached (cch h)) in Hc.
    change ((sess h ++ [x1]) !! iid j = Some x) in Hx. change (reg (opened h e).1) with (reg h).
    destruct (m_key _ _ Hm0 j) as (x0 & _ & Hx0 & _); [apply elem_of_app; by right|].
    rewrite (Hold _ _ Hx0) in Hx. injection Hx as <-.
    destruct (m_gone _ _ Hm0 j x0 Hc Hx0) as [H1 H2]. split; [done|].
    intros [Hu|Hu]%elem_of_cons; [by destruct Hb as [-> | ->]|done].
Qed.

(** ** Every step keeps it *)

Lemma elem_of_option_list {A} (x : A) o : x ∈ option_list o <-> o = Some x.
Proof. destruct o; cbn; [rewrite list_elem_of_singleton; naive_solver|]. split; [by intros ?%not_elem_of_nil|done]. Qed.

Lemma omap_close {B} (f : action -> option B) (l : list instance) :
  (forall i, f (AClose i) = None) -> omap f (AClose <$> l) = [].
Proof. intros Hf. induction l as [|i l IH]; [done|]. cbn. by rewrite Hf. Qed.

Lemma owns_close (l : list instance) : omap owns (AClose <$> l) = l.
Proof. induction l as [|i l IH]; [done|]. cbn. by f_equal. Qed.

Lemma elem_of_close b (l : list instance) : b ∈ AClose <$> l <-> exists i, b = AClose i /\ i ∈ l.
Proof. by rewrite list_elem_of_fmap. Qed.

(** A section that takes instances out of the cache. *)
Lemma gone_stays h a rest l c' :
  minv h (a :: rest) -> (forall i, i ∈ cached c' -> i ∈ cached (cch h)) -> (forall e, AUnregister e ∉ l) ->
  forall i x, i ∈ cached c' -> sess h !! iid i = Some x ->
    owner x ∉ torn (reg h) /\ AUnregister (owner x) ∉ l ++ rest.
Proof.
  intros Hm Hc Hl i x Hi Hx. destruct (m_gone _ _ Hm i x (Hc i Hi) Hx) as [H1 H2]. split; [done|].
  rewrite elem_of_app. intros [?%Hl|Hu]; [done|]. by apply H2, elem_of_cons; right.
Qed.

Lemma minv_AGet h e rest now now' :
  minv h (AGet e :: rest) -> clk h <= now <= now' ->
  forall h' l, exec (AGet e) true now now' h = Some (h', l) -> minv h' (l ++ rest).
Proof.
  intros Hm Hn h' l. cbn.
  rewrite (proj2 (Z.leb_le _ _) (proj1 Hn)), (proj2 (Z.leb_le _ _) (proj2 Hn)). cbn.
  destruct (get_section (cch h) (key_of (reg h) e) _ now now' (m_cache _ _ Hm) Hn) as [Hc Hp].
  destruct (getLocked (cch h) (key_of (reg h) e) now now') as [c' r]. cbn [fst snd] in *.
  intros [= <- <-]. destruct r as [[[] i]|].
  - destruct Hp as [Hp Hi]. apply (minv_cache _ (AGet e)); try done.
    + intros b j [= ->]%list_elem_of_singleton [= ->]. right. apply elem_of_app. by right.
    + by intros b e0 j [= ->]%list_elem_of_singleton.
    + apply (gone_stays _ (AGet e)); [done| |].
      * intros j. by rewrite Hp.
      * by intros e0 ?%list_elem_of_singleton.
  - apply (minv_cache _ (AGet e)); try done.
    + cbn. rewrite <- Hp. solve_Permutation.
    + intros b j [->|[= ->]%list_elem_of_singleton]%elem_of_cons [= ->]. by left.
    + by intros b e0 j [->|[= ->]%list_elem_of_singleton]%elem_of_cons.
    + apply (gone_stays _ (AGet e)); [done| |].
      * intros j Hj. rewrite <- Hp. apply elem_of_app. by left.
      * by intros e0 [?|?%list_elem_of_singleton]%elem_of_cons.
  - apply (minv_cache _ (AGet e)); try done.
    + by intros b j [= ->]%list_elem_of_singleton.
    + by intros b e0 j [= ->]%list_elem_of_singleton.
    + apply (gone_stays _ (AGet e)); [done| |].
      * intros j. by rewrite Hp.
      * by intros e0 ?%list_elem_of_singleton.
Qed.

(** Instances are taken out of the cache and closed next: [AEvict],
    [ACloseCache]. *)
Lemma minv_taken h a rest c' l :
  minv h (a :: rest) -> owns a = None -> holds a = None -> tears a = None ->
  ReadCache.inv c' (clk h) -> cached c' ++ l ≡ₚ cached (cch h) ->
  minv (with_cache h c' (clk h)) ((AClose <$> l) ++ rest).
Proof.
  intros Hm Ho Hh Ht Hc Hp. apply (minv_cache _ a); rewrite ?Ho, ?Hh, ?Ht; try done.
  - rewrite owns_close. cbn. rewrite <- Hp. solve_Permutation.
  - by apply omap_close.
  - by apply omap_close.
  - intros b i (j & -> & _)%elem_of_close [= ->]. by left.
  - by intros b e i (j & -> & _)%elem_of_close.
  - apply (gone_stays _ a); [done| |].
    + intros i Hi. rewrite <- Hp. apply elem_of_app. by left.
    + by intros e (i & ? & _)%elem_of_close.
Qed.

(** [teardownDatabase] begins: once its [Evict] is over, no session of the
    entry is in the cache, nor will one come back. *)
Lemma minv_ATeardown h e rest :
  minv h (ATeardown e :: rest) ->
  minv (with_cache h (evictLocked (cch h) (key_of (reg h) e)).1 (clk h))
    ((AClose <$> option_list (evictLocked (cch h) (key_of (reg h) e)).2) ++ [AUnregister e] ++ rest).
Proof.
  intros Hm. destruct (evict_section (cch h) (key_of (reg h) e) _ (m_cache _ _ Hm)) as (Hc & Hp & Hk).
  destruct (evictLocked (cch h) (key_of (reg h) e)) as [c' o]. cbn [fst snd] in *. rewrite app_assoc.
  apply (minv_cache _ (ATeardown e)); try done.
  - rewrite omap_app, owns_close. cbn. rewrite app_nil_r, <- Hp. solve_Permutation.
  - by rewrite omap_app, omap_close.
  - by rewrite omap_app, omap_close.
  - intros b i [(j & -> & _)%elem_of_close| ->%list_elem_of_singleton]%elem_of_app [= ->]. by left.
  - by intros b e0 i [(j & -> & _)%elem_of_close| ->%list_elem_of_singleton]%elem_of_app.
  - intros i x Hi Hx. assert (Hic : i ∈ cached (cch h)) by (rewrite <- Hp; apply elem_of_app; by left).
    destruct (m_gone _ _ Hm i x Hic Hx) as [H1 H2]. split; [done|].
    rewrite elem_of_cons in H2. rewrite !elem_of_app.
    intros [[(j & ? & _)%elem_of_close|[= Ho]%list_elem_of_singleton]|Hu]; [done| |tauto].
    destruct (m_key _ _ Hm i) as (x' & en & Hx' & Hen & Hkey); [apply elem_of_app; by right|].
    rewrite Hx in Hx'. injection Hx' as <-. apply (Hk i Hi). rewrite <- Hkey, Ho in *.
    unfold key_of. by rewrite Hen.
Qed.

(** A round of [Put]: the session it inserts is one of an entry its thread
    still holds. *)
Lemma minv_APut h e i rest now :
  minv h (APut e i :: rest) -> ARelease e ∈ rest -> clk h <= now ->
  forall h' l, exec (APut e i) true now now h = Some (h', l) -> minv h' (l ++ rest).
Proof.
  intros Hm He Hn h' l. cbn. rewrite (proj2 (Z.leb_le _ _) Hn).
  destruct (put_section (cch h) i _ now (m_cache _ _ Hm) Hn) as [Hc Hp].
  destruct (putLocked (cch h) i now) as [[c' old] d]. cbn [fst snd] in *. intros [= <- <-].
  apply (minv_cache _ (APut e i)); try done.
  - rewrite omap_app, owns_close. destruct d; cbn in *; [rewrite app_nil_r|rewrite <- Hp; solve_Permutation].
    rewrite <- Hp. solve_Permutation.
  - rewrite omap_app, omap_close by done. by destruct d.
  - rewrite omap_app, omap_close by done. by destruct d.
  - intros b j [(j' & -> & _)%elem_of_close|Hb]%elem_of_app Hj; [by left|].
    destruct d; [by apply not_elem_of_nil in Hb|]. apply list_elem_of_singleton in Hb as ->. by left.
  - intros b e0 j [(j' & -> & _)%elem_of_close|Hb]%elem_of_app Hj; [done|].
    destruct d; [by apply not_elem_of_nil in Hb|]. by apply list_elem_of_singleton in Hb as ->.
  - intros j x Hj Hx.
    assert (Hno : AUnregister (owner x) ∉ (AClose <$> option_list old) ++ (if d then [] else [APut e i])).
    { rewrite elem_of_app. intros [(j' & ? & _)%elem_of_close|Hb]; [done|].
      destruct d; [by apply not_elem_of_nil in Hb|]. by apply list_elem_of_singleton in Hb. }
    assert (Hin : j ∈ (if d then [i] else []) ++ cached (cch h)) by (rewrite <- Hp; apply elem_of_app; by left).
    apply elem_of_app in Hin as [Hin|Hin].
    + destruct d; [|by apply not_elem_of_nil in Hin]. apply list_elem_of_singleton in Hin as ->.
      rewrite (m_fresh _ _ Hm (APut e i) e i x) in * by (try apply elem_of_cons; auto).
      destruct (held_alive h _ e Hm) as (_ & H1 & H2 & _); [by apply elem_of_cons; right|].
      split; [done|]. rewrite elem_of_app. intros [?|?]; [done|]. by apply H2, elem_of_cons; right.
    + destruct (m_gone _ _ Hm j x Hin Hx) as [H1 H2]. split; [done|].
      rewrite elem_of_app. intros [?|?]; [done|]. by apply H2, elem_of_cons; right.
Qed.

Lemma tears_teardowns (l : list nat) : omap tears (ATeardown <$> l) = l.
Proof. induction l as [|e l IH]; [done|]. cbn. by f_equal. Qed.

Lemma omap_teardown {B} (f : action -> option B) (l : list nat) :
  (forall e, f (ATeardown e) = None) -> omap f (ATeardown <$> l) = [].
Proof. intros Hf. induction l as [|i l IH]; [done|]. cbn. by rewrite Hf. Qed.

Lemma elem_of_teardowns b (l : list nat) : b ∈ ATeardown <$> l <-> exists e, b = ATeardown e /\ e ∈ l.
Proof. by rewrite list_elem_of_fmap. Qed.

(** The registry dooms some entries, and the thread goes on to tear them
    down. *)
Lemma minv_dooms h acts new rest r' us' :
  minv h acts -> grows (reg h) r' -> Registry.inv r' us' 0 [] -> omap holds (new ++ rest) = us' ->
  omap tears acts = omap tears rest -> omap tears new = [] ->
  omap owns acts = omap owns rest -> omap owns new = [] ->
  (forall b, b ∈ new -> mentions b = None /\ forall e, b <> AUnregister e) ->
  (forall b, b ∈ rest -> b ∈ acts) ->
  minv (with_reg h r') ((ATeardown <$> newly (reg h) r') ++ new ++ rest).
Proof.
  intros Hm Hg Hi Hh Ht Htn Ho Hon Hnew Hsub. apply (minv_reg h acts); [done|apply Hg|..].
  - by rewrite omap_app, omap_teardown, Hh.
  - rewrite (grows_newly _ _ Hg), (m_doom _ _ Hm), !omap_app, tears_teardowns, Ht, Htn.
    apply Permutation_app_comm.
  - by rewrite !omap_app, omap_teardown, Ho, Hon.
  - intros b [(e & -> & _)%elem_of_teardowns|[Hb|Hb]%elem_of_app]%elem_of_app; [by left| |right; auto].
    left. by apply Hnew.
  - intros e [(e' & ? & _)%elem_of_teardowns|[Hb|Hb]%elem_of_app]%elem_of_app; [done| |auto].
    apply Hnew in Hb as [_ Hb]. by destruct (Hb e).
  - intros e. rewrite (g_torn _ _ Hg). by left.
Qed.

Lemma minv_ARelease h e rest r' :
  minv h (ARelease e :: rest) -> releaseDatabase (reg h) e = Some r' ->
  minv (with_reg h r') ((ATeardown <$> newly (reg h) r') ++ rest).
Proof.
  intros Hm Hr. apply (minv_dooms h (ARelease e :: rest) [] rest r' (omap holds rest)); try done.
  - by eapply grows_release.
  - pose proof (inv_releaseDatabase (reg h) [] (omap holds rest) e r') as Hi. cbn [app] in Hi.
    apply Hi; [apply (m_reg _ _ Hm)|done].
  - by intros b ?%not_elem_of_nil.
  - intros b Hb. by apply elem_of_cons; right.
Qed.

(** [vfs.Close]: the VFS names of the entry are gone. *)
Lemma minv_AUnregister h e rest :
  minv h (AUnregister e :: rest) -> minv (with_reg h (teardown (reg h) e)) rest.
Proof.
  intros Hm. assert (Hd : doomed (reg h) ≡ₚ e :: omap tears rest) by apply (m_doom _ _ Hm).
  assert (Hin : e ∈ doomed (reg h)) by (rewrite Hd; apply elem_of_cons; by left).
  apply (minv_reg h (AUnregister e :: rest)); try done; cbn [teardown heap doomed torn].
  - eauto.
  - apply inv_teardown; [|done]. apply (m_reg _ _ Hm).
  - pose proof (inv_once _ _ _ _ (m_reg _ _ Hm)) as Hn. apply NoDup_app in Hn as [Hn _].
    apply (Permutation_cons_inv (a := e)). rewrite <- Hd. symmetry. by apply remove_id_Permutation.
  - intros b Hb. right. by apply elem_of_cons; right.
  - intros e' He'. by apply elem_of_cons; right.
  - intros e' [->|He']%elem_of_cons; [right; apply elem_of_cons|]; by left.
Qed.

Lemma minv_exec h a rest ok now now' h' l :
  minv h (a :: rest) -> (forall e, needs a = Some e -> ARelease e ∈ rest) ->
  exec a ok now now' h = Some (h', l) -> minv h' (l ++ rest).
Proof.
  intros Hm Hn He.
  assert (Hrun : forall i b l', h' = with_sess h (alter (set_running b) (iid i) (sess h)) -> minv h (l' ++ rest) ->
    minv h' (l' ++ rest)) by (intros i b l' -> Hm'; by apply minv_running).
  destruct a as [e|e i|e i|e|e|e i|e i|e|e i|i|e|e|e|].
  - assert (Hc : clk h <= now <= now').
    { cbn in He. destruct (_ && _) eqn:Hc; [|done]. bool_prop. lia. }
    by apply (minv_AGet h e rest now now').
  - cbn in He. destruct (sess h !! iid i) as [x|]; [|done]. destruct (running x); [done|].
    destruct (sclosed x); injection He as <- <-.
    + apply (minv_acts h (ARun e i)); try done; intros b; set_solver.
    + apply (Hrun i true); [done|]. apply (minv_acts h (ARun e i)); try done; [|set_solver..].
      intros b j ->%list_elem_of_singleton. auto.
  - cbn in He. injection He as <- <-. apply (Hrun i false); [done|].
    apply (minv_acts h (AEndRun e i)); try (by destruct ok); intros b; destruct ok; set_solver.
  - cbn in He. destruct (evictLocked (cch h) (key_of (reg h) e)) as [c' o] eqn:Hev. injection He as <- <-.
    pose proof (evict_section (cch h) (key_of (reg h) e) _ (m_cache _ _ Hm)) as (Hc & Hp & _).
    rewrite Hev in Hc, Hp. by apply (minv_taken h (AEvict e)).
  - cbn in He. destruct ok; injection He as <- <-.
    + change (minv (opened h e).1 (AEndFresh e (opened h e).2 :: rest)). apply (minv_opened h (AOpen e)); auto.
    + apply (minv_acts h (AOpen e)); try done; set_solver.
  - cbn in He. injection He as <- <-. apply (Hrun i false); [done|].
    apply (minv_acts h (AEndFresh e i)); try (by destruct ok); [| |by destruct ok; intros ? ?%list_elem_of_singleton].
    + intros b j. destruct ok; intros ->%list_elem_of_singleton; auto.
    + intros b e0 j. destruct ok; by intros ->%list_elem_of_singleton.
  - assert (Hc : clk h <= now) by (cbn in He; destruct (_ <=? _) eqn:Hc; [bool_prop; lia|done]).
    apply (minv_APut h e i rest now); auto.
  - cbn in He. destruct ok; injection He as <- <-.
    + change (minv (opened h e).1 (AEndWrite e (opened h e).2 :: rest)). apply (minv_opened h (AOpenWrite e)); auto.
    + apply (minv_acts h (AOpenWrite e)); try done; set_solver.
  - cbn in He. injection He as <- <-. apply (Hrun i false); [done|].
    apply (minv_acts h (AEndWrite e i)); try done; [|by intros b e0 j ->%list_elem_of_singleton|
      by intros e0 ?%list_elem_of_singleton].
    intros b j ->%list_elem_of_singleton. auto.
  - cbn in He. destruct (sess h !! iid i) as [x|]; [|done]. destruct (running x); [done|].
    injection He as <- <-. by apply (minv_close h i).
  - cbn in He. destruct (releaseDatabase (reg h) e) as [r'|] eqn:Hr; [|done]. injection He as <- <-.
    by apply (minv_ARelease h e).
  - pose proof (minv_ATeardown h e rest Hm) as H. cbn in He.
    destruct (evictLocked (cch h) (key_of (reg h) e)) as [c' o]. injection He as <- <-.
    by rewrite <- app_assoc.
  - cbn in He. injection He as <- <-. by apply (minv_AUnregister h e).
  - cbn in He. destruct (closeLocked (cch h)) as [c' l'] eqn:Hcl. injection He as <- <-.
    pose proof (close_section (cch h) _ (m_cache _ _ Hm)) as [Hc Hp]. rewrite Hcl in Hc, Hp.
    by apply (minv_taken h ACloseCache).
Qed.

Lemma covered_exec a k ok now now' h h' l :
  covered (a :: k) -> exec a ok now now' h = Some (h', l) -> covered (l ++ k).
Proof.
  intros [Hn Hk] He.
  assert (Hq : forall l' : list action, (forall b e, b ∈ l' -> needs b = Some e -> needs a = Some e) -> covered (l' ++ k)).
  { induction l' as [|b l' IH]; intros Hl'; [done|]. split.
    - intros e Hb. apply elem_of_app. right. apply Hn, (Hl' b); [apply elem_of_cons; by left|done].
    - apply IH. intros c e Hc. apply Hl', elem_of_cons. by right. }
  apply Hq. intros b e0 Hb Hbe.
  destruct a as [e|e i|e i|e|e|e i|e i|e|e i|i|e|e|e|]; cbn in He.
  all: repeat case_match; simplify_eq/=; try done.
  all: try (rewrite ?elem_of_app, ?elem_of_close, ?elem_of_teardowns in Hb; set_solver).
Qed.

(** The flags [running] after a step: as before but for the mutex the action
    drops, and one taken by what the thread does next. *)
Lemma exec_running a ok now now' h h' l n x :
  exec a ok now now' h = Some (h', l) -> sess h' !! n = Some x -> running x = true ->
  (exists x0, sess h !! n = Some x0 /\ running x0 = true /\ runner a <> Some n) \/
  (exists b l', l = b :: l' /\ runner b = Some n).
Proof.
  assert (Halter : forall f m, alter f m (sess h) !! n = Some x ->
    (n <> m /\ sess h !! n = Some x) \/ (n = m /\ exists x0, sess h !! n = Some x0 /\ x = f x0)).
  { intros f m. destruct (decide (m = n)) as [<-|Hne].
    - rewrite list_lookup_alter_eq. intros (x0 & -> & ->)%fmap_Some. eauto.
    - rewrite list_lookup_alter_ne by done. eauto. }
  assert (Hopen : forall y, (sess h ++ [y]) !! n = Some x -> sess h !! n = Some x \/ n = length (sess h)).
  { intros y [Hx|[Hn Hx]]%lookup_app_Some; [by left|]. apply list_lookup_singleton_Some in Hx as [? _]. right. lia. }
  intros He Hx Hr.
  destruct a as [e|e i|e i|e|e|e i|e i|e|e i|i|e|e|e|]; cbn in He.
  all: repeat case_match; simplify_eq/=.
  all: try (left; exists x; by split).
  all: try (apply Halter in Hx as [[Hne Hx]|[-> (x0 & Hx0 & ->)]]; cbn in Hr; [left; exists x; naive_solver|]).
  all: try (apply Hopen in Hx as [Hx| ->]; [left; exists x; naive_solver|right; eauto]).
  all: try done.
  - right. eauto.
  - left. exists x0. naive_solver.
Qed.

Lemma concat_thread (ts1 ts2 : list (list action)) k :
  concat (ts1 ++ k :: ts2) ≡ₚ k ++ concat ts1 ++ concat ts2.
Proof. rewrite List.concat_app. cbn. solve_Permutation. Qed.

Lemma inv_istep s s' : inv s -> istep s s' -> inv s'.
Proof.
  intros [Hm Hc Hr] Hs. inversion Hs as [h ts1 a k ts2 ok now now' h' l He|h ts1 ts2]; subst; cbn in *.
  - rewrite Forall_app, Forall_cons in Hc. destruct Hc as (Hc1 & Hck & Hc2). split; cbn.
    + eapply (minv_perm h' (l ++ k ++ concat ts1 ++ concat ts2)).
      { rewrite concat_thread. solve_Permutation. }
      eapply (minv_exec h a); [|intros e Hae; apply elem_of_app; left; by apply Hck|exact He].
      eapply minv_perm; [|exact Hm]. by rewrite concat_thread.
    + rewrite Forall_app, Forall_cons. split_and!; [done| |done]. by eapply covered_exec.
    + intros n x Hx Hrun. destruct (exec_running a ok now now' h h' l n x He Hx Hrun) as
        [(x0 & Hx0 & Hr0 & Hna)|(b & l' & -> & Hb)].
      * destruct (Hr n x0 Hx0 Hr0) as (b & k' & Hin & Hb). exists b, k'. split; [|done].
        rewrite elem_of_app, elem_of_cons in Hin |- *. destruct Hin as [?|[[= -> ->]|?]]; [by left|done|by right; right].
      * exists b, (l' ++ k). split; [|done]. rewrite elem_of_app, elem_of_cons. right. by left.
  - rewrite Forall_app, Forall_cons in Hc. destruct Hc as (Hc1 & _ & Hc2). split; cbn.
    + eapply minv_perm; [|exact Hm]. by rewrite concat_thread, List.concat_app.
    + by rewrite Forall_app.
    + intros n x Hx Hrun. destruct (Hr n x Hx Hrun) as (b & k' & Hin & Hb). exists b, k'. split; [|done].
      rewrite elem_of_app, elem_of_cons in Hin. rewrite elem_of_app. destruct Hin as [?|[?|?]]; [by left|done|by right].
Qed.

Lemma covered_app_quiet (l k : list action) :
  (forall b, b ∈ l -> needs b = None) -> covered k -> covered (l ++ k).
Proof.
  induction l as [|b l IH]; intros Hl Hk; [done|]. split.
  - intros e. by rewrite (Hl b) by (apply elem_of_cons; by left).
  - apply IH; [|done]. intros c Hc. apply Hl, elem_of_cons. by right.
Qed.

Lemma covered_teardowns (l : list nat) k : covered k -> covered ((ATeardown <$> l) ++ k).
Proof. apply covered_app_quiet. by intros b (e & -> & _)%elem_of_teardowns. Qed.

Lemma covered_body q e : covered (body q e).
Proof. destruct q; cbn; split_and!; try done; intros e' [= <-]; by apply list_elem_of_singleton. Qed.

Lemma inv_estep s s' : inv s -> estep s s' -> inv s'.
Proof.
  intros [Hm Hc Hr] Hs. inversion Hs as [h ts q k registered r e Hd|h ts Hcl]; subst; cbn in *.
  - pose proof (inv_database _ _ _ _ _ _ (m_reg _ _ Hm) Hd) as Hi. cbn in Hi. split; cbn.
    + rewrite <- app_assoc.
      apply (minv_dooms h (concat ts) (body q e) (concat ts) r (e :: omap holds (concat ts))); try done.
      * by eapply grows_database; [apply Hm|].
      * by destruct q.
      * by destruct q.
      * by destruct q.
      * intros b. destruct q; cbn; set_solver.
    + apply Forall_cons. split; [|done]. apply covered_teardowns, covered_body.
    + intros n x Hx Hrun. destruct (Hr n x Hx Hrun) as (b & k' & Hin & Hb). exists b, k'.
      split; [by apply elem_of_cons; right|done].
  - pose proof (inv_Close _ _ (m_reg _ _ Hm)) as Hi. split; cbn.
    + eapply (minv_perm _ (_ ++ [ACloseCache] ++ concat ts)); [|
        apply (minv_dooms h (concat ts) [ACloseCache] (concat ts) _ (omap holds (concat ts)))]; try done.
      * cbn. solve_Permutation.
      * apply grows_Close.
      * intros b ->%list_elem_of_singleton. by split.
    + apply Forall_cons. split; [|done]. split; [done|]. rewrite <- (app_nil_r (_ <$> _)). by apply covered_teardowns.
    + intros n x Hx Hrun. destruct (Hr n x Hx Hrun) as (b & k' & Hin & Hb). exists b, k'.
      split; [by apply elem_of_cons; right|done].
Qed.

Lemma sessions_inv limit m ttl s : reachable limit m ttl s -> inv s.
Proof.
  induction 1 as [now|s s' _ Hi Hs|s s' _ Hi Hs]; [|by eapply inv_istep|by eapply inv_estep].
  split; cbn; [split; cbn|done|done]; try done; try set_solver.
  - apply (registry_inv limit _ (Registry.reach_start limit)).
  - apply (reachable_owns m ttl _ (ReadCache.reach_start m ttl now)).
  - constructor.
Qed.

Lemma covered_needs k a e : covered k -> a ∈ k -> needs a = Some e -> ARelease e ∈ k.
Proof.
  induction k as [|b k IH]; [by intros _ ?%not_elem_of_nil|]. intros [Hb Hk] [->|Ha]%elem_of_cons Hn.
  - apply elem_of_cons. right. by apply Hb.
  - apply elem_of_cons. right. by apply IH.
Qed.

Lemma elem_of_threads (ts : list (list action)) a : a ∈ concat ts <-> exists k, k ∈ ts /\ a ∈ k.
Proof.
  rewrite list_elem_of_In, List.in_concat. setoid_rewrite list_elem_of_In. naive_solver.
Qed.

(** A session in the hands of a request that opened it. *)
Lemma fresh_alive s a e i :
  inv s -> a ∈ concat (threads s) -> fresh a = Some (e, i) -> e ∉ torn (reg (mem s)).
Proof.
  intros [Hm Hc _] Ha Hf. apply elem_of_threads in Ha as Hk. destruct Hk as (k & Hk & Hak).
  rewrite Forall_forall in Hc. apply (held_alive _ _ e Hm), elem_of_threads. exists k. split; [done|].
  apply (covered_needs k a e); [by apply Hc|done|]. by destruct a; simplify_eq/=.
Qed.


(** ** Every request ends *)

Definition weight (a : action) : nat :=
  match a with
  | AGet _ => 9 | ARun _ _ => 8 | AEndRun _ _ => 2 | AEvict _ => 1
  | AOpen _ => 6 | AEndFresh _ _ => 5 | APut _ _ => 4
  | AOpenWrite _ => 3 | AEndWrite _ _ => 2 | AClose _ => 1
  | ARelease _ => 3 | ATeardown _ => 2 | AUnregister _ => 1 | ACloseCache => 1
  end.

Definition work (l : list action) : nat := sum_list (weight <$> l).

(** A bound on what the threads still do if no request comes in. *)
Definition measure (s : sys) : nat :=
  work (concat (threads s)) + 3 * length (cached (cch (mem s))) + length (threads s).

Lemma work_app l k : work (l ++ k) = (work l + work k)%nat.
Proof. unfold work. by rewrite fmap_app, sum_list_with_app. Qed.

Lemma work_closes (l : list instance) : work (AClose <$> l) = length l.
Proof. induction l as [|i l IH]; [done|]. unfold work in *. cbn. lia. Qed.

Lemma work_teardowns (l : list nat) : work (ATeardown <$> l) = (2 * length l)%nat.
Proof. induction l as [|i l IH]; [done|]. unfold work in *. cbn. lia. Qed.

(** A round of [Put] that is not the last takes an instance out. *)
Lemma put_round c i now0 now c' old :
  ReadCache.inv c now0 -> putLocked c i now = (c', old, false) -> is_Some old.
Proof.
  intros Hc. unfold putLocked. destruct (disabled c); [done|].
  destruct (entries c !! ikey i); [done|]. destruct (_ <? _); [done|].
  destruct (last (order c)) as [o|] eqn:Hl; [|done]. intros [= _ <-].
  apply fmap_is_Some, (inv_keys _ _ Hc). by apply last_Some_elem_of.
Qed.

Lemma release_newly r e r' : releaseDatabase r e = Some r' -> (length (newly r r') <= 1)%nat.
Proof.
  unfold releaseDatabase, newly. destruct (heap r !! e) as [en|]; [|done].
  destruct (refs en <=? 0); [done|]. intros [= <-]. destruct (_ && _); cbn.
  - by rewrite drop_app_length.
  - rewrite drop_ge by done. cbn. lia.
Qed.

Lemma exec_work a rest ok now now' h h' l :
  minv h (a :: rest) -> exec a ok now now' h = Some (h', l) ->
  (work l + 3 * length (cached (cch h')) < weight a + 3 * length (cached (cch h)))%nat.
Proof.
  intros Hm He. pose proof (m_cache _ _ Hm) as Hc.
  destruct a as [e|e i|e i|e|e|e i|e i|e|e i|i|e|e|e|]; cbn in He |- *.
  - destruct (_ && _) eqn:Hn; [|done]. bool_prop.
    destruct (get_section (cch h) (key_of (reg h) e) _ now now' Hc ltac:(lia)) as [_ Hp].
    destruct (getLocked (cch h) (key_of (reg h) e) now now') as [c' [[[] i]|]]; injection He as <- <-;
      cbn in *; [destruct Hp as [Hp _]|..]; apply Permutation_length in Hp; rewrite ?length_app in Hp; cbn in Hp; lia.
  - destruct (sess h !! iid i) as [x|]; [|done]. destruct (running x); [done|].
    destruct (sclosed x); injection He as <- <-; cbn; lia.
  - injection He as <- <-. destruct ok; cbn; lia.
  - destruct (evict_section (cch h) (key_of (reg h) e) _ Hc) as (_ & Hp & _).
    destruct (evictLocked (cch h) (key_of (reg h) e)) as [c' o]. injection He as <- <-. cbn in *.
    apply Permutation_length in Hp. rewrite length_app in Hp. rewrite work_closes. lia.
  - destruct ok; injection He as <- <-; cbn; lia.
  - injection He as <- <-. destruct ok; cbn; lia.
  - destruct (Z.leb_spec (clk h) now) as [Hn|]; [|done].
    destruct (put_section (cch h) i _ now Hc Hn) as [_ Hp].
    destruct (putLocked (cch h) i now) as [[c' old] d] eqn:Hput. injection He as <- <-. cbn in *.
    apply Permutation_length in Hp. rewrite !length_app in Hp. rewrite work_app, work_closes.
    destruct d; cbn in *; [lia|]. destruct (put_round _ _ _ _ _ _ Hc Hput) as [j ->]. cbn in *. lia.
  - destruct ok; injection He as <- <-; cbn; lia.
  - injection He as <- <-. cbn. lia.
  - destruct (sess h !! iid i) as [x|]; [|done]. destruct (running x); [done|]. injection He as <- <-. cbn. lia.
  - destruct (releaseDatabase (reg h) e) as [r'|] eqn:Hr; [|done]. injection He as <- <-.
    pose proof (release_newly _ _ _ Hr). rewrite work_teardowns. cbn. lia.
  - destruct (evict_section (cch h) (key_of (reg h) e) _ Hc) as (_ & Hp & _).
    destruct (evictLocked (cch h) (key_of (reg h) e)) as [c' o]. injection He as <- <-. cbn in *.
    apply Permutation_length in Hp. rewrite length_app in Hp. rewrite work_app, work_closes.
    unfold work. cbn. lia.
  - injection He as <- <-. cbn. lia.
  - destruct (close_section (cch h) _ Hc) as [_ Hp]. destruct (closeLocked (cch h)) as [c' l'].
    injection He as <- <-. cbn in *. apply Permutation_length in Hp. rewrite length_app in Hp.
    rewrite work_closes. lia.
Qed.

Lemma istep_measure s s' : inv s -> istep s s' -> (measure s' < measure s)%nat.
Proof.
  intros [Hm _ _] Hs. unfold measure.
  inversion Hs as [h ts1 a k ts2 ok now now' h' l He|h ts1 ts2]; subst; cbn [mem threads] in *.
  - assert (Hw : minv h (a :: k ++ concat ts1 ++ concat ts2)).
    { eapply minv_perm; [|exact Hm]. by rewrite concat_thread. }
    pose proof (exec_work _ _ _ _ _ _ _ _ Hw He) as Hlt.
    assert (Hcat : forall k', work (concat (ts1 ++ k' :: ts2)) = (work k' + work (concat ts1 ++ concat ts2))%nat).
    { intros k'. rewrite List.concat_app. cbn. rewrite !work_app. lia. }
    rewrite !Hcat, work_app, !length_app. change (work (a :: k)) with (weight a + work k)%nat. cbn. lia.
  - rewrite !List.concat_app, !length_app. cbn. lia.
Qed.

(** As long as a thread is there, one can go on: a thread that waits for a
    mutex waits for a run, and a run can always end. *)
Lemma can_go_on s : inv s -> threads s <> [] -> exists s', istep s s'.
Proof.
  intros [Hm _ Hr] Hne. destruct s as [h ts]. cbn in *.
  assert (Hgo : forall a k, a :: k ∈ ts ->
    (exists ok now now' r, exec a ok now now' h = Some r) -> exists s', istep (mkSys h ts) s').
  { intros a k (ts1 & ts2 & ->)%list_elem_of_split (ok & now & now' & [h' l] & He). eexists.
    by eapply StepAction. }
  assert (Hwait : forall n x, sess h !! n = Some x -> running x = true -> exists s', istep (mkSys h ts) s').
  { intros n x Hx Hrun. destruct (Hr n x Hx Hrun) as (b & k & Hin & Hb). apply (Hgo b k Hin).
    exists true, 0, 0. destruct b; try done; cbn; eauto. }
  destruct ts as [|[|a k] ts]; [done|exists (mkSys h ts); exact (StepReturn h [] ts)|].
  assert (Hin : a ∈ concat ((a :: k) :: ts)) by (apply elem_of_cons; by left).
  assert (Hsess : forall i, mentions a = Some i -> is_Some (sess h !! iid i)) by (intros i; by apply (m_mentions _ _ Hm)).
  destruct (match a with ARun _ i | AClose i => Some (iid i) | _ => None end ≫= fun n => sess h !! n) as [x|] eqn:Hx.
  - destruct (running x) eqn:Hrun.
    { destruct a; cbn in Hx; try done; by eapply Hwait. }
    apply (Hgo a k); [apply elem_of_cons; by left|]. exists true, 0, 0.
    destruct a; cbn in Hx; try done; cbn; rewrite Hx, Hrun; [destruct (sclosed x)|]; eauto.
  - apply (Hgo a k); [apply elem_of_cons; by left|]. exists true, (clk h), (clk h).
    destruct a as [e|e i|e i|e|e|e i|e i|e|e i|i|e|e|e|]; cbn in *; rewrite ?Z.leb_refl; cbn; eauto.
    + destruct (getLocked _ _ _ _). eauto.
    + destruct (Hsess i eq_refl) as [y Hy]. congruence.
    + destruct (evictLocked _ _). eauto.
    + destruct (putLocked _ _ _) as [[? ?] ?]. eauto.
    + destruct (Hsess i eq_refl) as [y Hy]. congruence.
    + destruct (releaseDatabase (reg h) e) eqn:Hrel; [eauto|].
      assert (Hu : e ∈ omap holds (ARelease e :: concat ((k :: ts)))) by (cbn; apply elem_of_cons; by left).
      destruct (inv_used _ _ _ _ (m_reg _ _ Hm) e Hu) as [en Hen].
      apply uses_pos in Hu. pose proof (inv_refs _ _ _ _ (m_reg _ _ Hm) e en Hen) as Href.
      change (refs en = uses (omap holds (ARelease e :: concat (k :: ts))) e) in Href.
      unfold releaseDatabase in Hrel. rewrite Hen in Hrel.
      destruct (Z.leb_spec (refs en) 0); [lia|done].
    + destruct (evictLocked _ _). eauto.
    + destruct (closeLocked _). eauto.
Qed.

Lemma exec_closed a ok now now' h h' l :
  exec a ok now now' h = Some (h', l) -> Registry.closed (reg h') = Registry.closed (reg h).
Proof.
  destruct a; cbn; intros He; repeat case_match; simplify_eq/=; try done.
  match goal with H : releaseDatabase _ _ = Some _ |- _ => revert H end.
  unfold releaseDatabase. repeat case_match; try done; by intros [= <-].
Qed.

Lemma rtc_inv s s' : inv s -> rtc istep s s' -> inv s' /\ Registry.closed (reg (mem s')) = Registry.closed (reg (mem s)).
Proof.
  intros Hi Hs. induction Hs as [s|s s1 s' Hs _ IH]; [done|].
  destruct (IH (inv_istep _ _ Hi Hs)) as [H1 ->]. split; [done|].
  inversion Hs; subst; cbn; [by eapply exec_closed|done].
Qed.

(** A runtime that was closed and whose threads are gone has nothing left. *)
Lemma closed_empty s :
  inv s -> threads s = [] -> Registry.closed (reg (mem s)) = true ->
  cached (cch (mem s)) = [] /\ (forall n x, sess (mem s) !! n = Some x -> sclosed x = true) /\
  (forall e, is_Some (heap (reg (mem s)) !! e) -> e ∈ torn (reg (mem s))).
Proof.
  intros [Hm _ _] Ht Hcl. rewrite Ht in Hm. change (concat []) with (@nil action) in Hm.
  pose proof (m_reg _ _ Hm) as Hi. pose proof (m_doom _ _ Hm) as Hd. cbn in Hi, Hd.
  apply Permutation_nil_r in Hd.
  assert (Htorn : forall e, is_Some (heap (reg (mem s)) !! e) -> e ∈ torn (reg (mem s))).
  { intros e [en He]. rewrite <- (app_nil_l (torn _)), <- Hd. apply (inv_gone _ _ _ _ Hi). exists en.
    split_and!; [done| |by rewrite (inv_refs _ _ _ _ Hi e en He)].
    destruct (evicted en) eqn:Hev; [done|].
    assert (Hin : e ∈ dbOrder (reg (mem s)) ++ []) by (apply (inv_live _ _ _ _ Hi); eauto).
    rewrite (inv_closed _ _ _ _ Hi Hcl) in Hin. by apply not_elem_of_nil in Hin. }
  assert (Hc : cached (cch (mem s)) = []).
  { destruct (cached (cch (mem s))) as [|i l] eqn:Hc; [done|].
    assert (Hin : i ∈ cached (cch (mem s))) by (rewrite Hc; apply elem_of_cons; by left).
    destruct (m_key _ _ Hm i) as (x & en & Hx & Hen & _); [by apply elem_of_app; right|].
    destruct (m_gone _ _ Hm i x Hin Hx) as [H1 _]. destruct H1. apply Htorn. eauto. }
  split_and!; [done| |done]. intros n x Hx. destruct (sclosed x) eqn:Ho; [done|].
  apply (m_open _ _ Hm n x Hx) in Ho. unfold places in Ho. rewrite Hc in Ho. by apply not_elem_of_nil in Ho.
Qed.


(** ** A session on a VFS that is gone *)

(** Runs as data: the thread at a place goes on or returns, a request comes
    in, the runtime is closed. *)
Inductive command := Go (t : nat) (ok : bool) (now now' : Z) | Ret (t : nat) | Req (q : request) (k : string) | Shut.

Definition play1 (c : command) (s : sys) : option sys :=
  match c with
  | Go t ok now now' =>
      match threads s !! t with
      | Some (a :: k) =>
          match exec a ok now now' (mem s) with
          | Some (h, l) => Some (mkSys h (take t (threads s) ++ (l ++ k) :: drop (S t) (threads s)))
          | None => None
          end
      | _ => None
      end
  | Ret t =>
      match threads s !! t with
      | Some [] => Some (mkSys (mem s) (take t (threads s) ++ drop (S t) (threads s)))
      | _ => None
      end
  | Req q k =>
      match database (reg (mem s)) k None with
      | (r, Ok e) =>
          Some (mkSys (with_reg (mem s) r) (((ATeardown <$> newly (reg (mem s)) r) ++ body q e) :: threads s))
      | _ => None
      end
  | Shut =>
      if Registry.closed (reg (mem s)) then None
      else
        let r := Registry.Close (reg (mem s)) in
        Some (mkSys (with_reg (mem s) r) ((ACloseCache :: (ATeardown <$> newly (reg (mem s)) r)) :: threads s))
  end.

Fixpoint play (cs : list command) (s : sys) : option sys :=
  match cs with [] => Some s | c :: cs => play1 c s ≫= play cs end.

Definition internal (c : command) : bool := match c with Go _ _ _ _ | Ret _ => true | _ => false end.

Lemma play1_istep c s s' : internal c = true -> play1 c s = Some s' -> istep s s'.
Proof.
  destruct s as [h ts]. destruct c as [t ok now now'|t| |]; try done; intros _; cbn;
    destruct (ts !! t) as [[|a k]|] eqn:Ht; try done.
  - destruct (exec a ok now now' h) as [[h' l]|] eqn:He; [|done]. intros [= <-].
    rewrite <- (take_drop_middle ts t _ Ht) at 1. by eapply StepAction.
  - intros [= <-]. rewrite <- (take_drop_middle ts t _ Ht) at 1. apply StepReturn.
Qed.

Lemma play_rtc cs s s' : forallb internal cs = true -> play cs s = Some s' -> rtc istep s s'.
Proof.
  revert s. induction cs as [|c cs IH]; intros s; cbn; [by intros _ [= <-]|].
  intros [Hc Hcs]%andb_true_iff (s1 & H1 & Hp)%bind_Some.
  eapply rtc_l; [by eapply play1_istep|by apply IH].
Qed.

Lemma play1_reachable limit m ttl c s s' :
  reachable limit m ttl s -> play1 c s = Some s' -> reachable limit m ttl s'.
Proof.
  intros Hs Hp. destruct (internal c) eqn:Hc; [by eapply reach_internal, play1_istep|].
  destruct s as [h ts]. destruct c as [| |q k|]; try done; cbn in Hp; revert Hp.
  - destruct (database (reg h) k None) as [r [e|err]] eqn:Hd; [|done]. intros [= <-].
    eapply reach_external; [exact Hs|]. by eapply StepRequest.
  - destruct (Registry.closed (reg h)) eqn:Hcl; [done|]. intros [= <-].
    eapply reach_external; [exact Hs|]. by apply StepClose.
Qed.

Lemma life_play_reachable limit m ttl cs s s' :
  reachable limit m ttl s -> play cs s = Some s' -> reachable limit m ttl s'.
Proof.
  revert s. induction cs as [|c cs IH]; intros s Hs; cbn; [by intros [= <-]|].
  intros (s1 & H1 & Hp)%bind_Some. eapply IH; [|exact Hp]. by eapply play1_reachable.
Qed.

(** A runtime that keeps [n] databases and [n] read sessions. *)
Definition start (n : Z) : sys := mkSys (mkShared (Registry.New n) (ReadCache.New n 60) 0 []) [].

Definition after (n : Z) (cs : list command) : sys := default (start n) (play cs (start n)).

Lemma life_after_reachable n cs : is_Some (play cs (start n)) -> reachable n n 60 (after n cs).
Proof.
  unfold after. intros [s Hs]. rewrite Hs. exact (life_play_reachable _ _ _ cs _ s (reach_start n n 60 0) Hs).
Qed.

(** A read of a database that is not cached, to its end. *)
Definition cold_read (k : string) (now : Z) : list command :=
  Req RRead k :: replicate 5 (Go 0 true now now) ++ [Ret 0].

(** A read of "a" leaves its session in the cache, for one; another request
    for "a" is under way. A read of "b" takes the place of "a" in the
    registry, for one, and "a" is registered a second time for a third
    request, whose read finds the session of the first in the cache and runs
    on it. The read of "b" takes that session out of the cache and waits for
    the run to close it. The second request gives the first entry back: the
    teardown finds no session, and unregisters the VFS. *)
Definition race : list command :=
  cold_read "a" 1 ++
  [Req ROther "a";
   Req RRead "b"; Go 0 true 2 2; Go 0 true 2 2; Go 0 true 2 2;
   Req RRead "a"; Go 0 true 3 3; Go 0 true 3 3;
   Go 1 true 4 4;
   Go 2 true 5 5; Go 2 true 5 5; Go 2 true 5 5].

Lemma race_reachable : reachable 1 1 60 (after 1 race).
Proof. apply life_after_reachable. eexists. vm_compute. reflexivity. Qed.

Lemma race_torn : owner (mkSession 0 false true) ∈ torn (reg (mem (after 1 race))).
Proof.
  assert (H : torn (reg (mem (after 1 race))) = [0%nat]) by (vm_compute; reflexivity).
  rewrite H. by apply list_elem_of_singleton.
Qed.

(** The comment of [teardownDatabase] says that no connection owns the VFS when
    it is unregistered. A run may be in flight on one. *)
Theorem run_on_unregistered_vfs :
  exists s x, reachable 1 1 60 s /\ sess (mem s) !! 0%nat = Some x /\
    owner x ∈ torn (reg (mem s)) /\ sclosed x = false /\ running x = true /\
    exists k, threads s !! 0%nat = Some (AEndRun 2 (mkInst "a" 0) :: k).
Proof.
  exists (after 1 race), (mkSession 0 false true). split; [exact race_reachable|].
  split; [vm_compute; reflexivity|]. split; [exact race_torn|].
  split; [reflexivity|]. split; [reflexivity|]. eexists. vm_compute. reflexivity.
Qed.

(** The shutdown has the same race: while [Close] waits for a run to close one
    session, the last user of another database gives it back, and its VFS is
    unregistered before its session, which [Close] has already taken out of
    the cache, is closed. *)
Definition shutdown_race : list command :=
  cold_read "a" 1 ++ cold_read "b" 1 ++
  [Req RRead "a"; Go 0 true 2 2; Go 0 true 2 2;
   Req RRead "b"; Go 0 true 3 3; Go 0 true 3 3; Go 0 true 3 3;
   Shut; Go 0 true 3 3;
   Go 1 true 4 4; Go 1 true 4 4; Go 1 true 4 4].

Theorem shutdown_on_unregistered_vfs :
  exists s x, reachable 2 2 60 s /\ sess (mem s) !! 1%nat = Some x /\
    owner x ∈ torn (reg (mem s)) /\ sclosed x = false /\
    threads s !! 0%nat = Some [AClose (mkInst "a" 0); AClose (mkInst "b" 1)] /\
    play1 (Go 0 true 5 5) s = None.
Proof.
  exists (after 2 shutdown_race), (mkSession 1 false false). split.
  { apply life_after_reachable. eexists. vm_compute. reflexivity. }
  split; [vm_compute; reflexivity|]. split.
  { assert (H : torn (reg (mem (after 2 shutdown_race))) = [1%nat]) by (vm_compute; reflexivity).
    rewrite H. by apply list_elem_of_singleton. }
  split; [reflexivity|]. split; vm_compute; reflexivity.
Qed.

(** [ReadDSN] gives back the entry whose VFS it names: a request for another
    database came in meanwhile, and the VFS is gone when [ReadDSN] returns. *)
Definition dsn_race : list command :=
  [Req ROther "a"; Req RRead "b"; Go 1 true 1 1; Go 1 true 1 1; Go 1 true 1 1].

Theorem dsn_names_missing_vfs :
  exists s, reachable 1 1 60 s /\ threads (after 1 (take 2 dsn_race)) !! 1%nat = Some (body ROther 0) /\
    threads s !! 1%nat = Some [] /\ torn (reg (mem s)) = [0%nat].
Proof.
  exists (after 1 dsn_race). split; [apply life_after_reachable; eexists; vm_compute; reflexivity|].
  split_and!; vm_compute; reflexivity.
Qed.


(** A read of "a", and the shutdown while another is under way. *)
Definition closing : list command := cold_read "a" 1 ++ [Req RRead "a"; Go 0 true 2 2; Go 0 true 2 2; Shut].
Definition drain : list command :=
  [Go 0 true 3 3; Go 1 true 3 3; Go 0 true 3 3; Ret 0; Go 0 true 3 3; Go 0 true 3 3; Go 0 true 3 3; Ret 0].

Lemma closing_reachable : reachable 2 2 60 (after 2 closing).
Proof. apply life_after_reachable. eexists. vm_compute. reflexivity. Qed.

Lemma closing_drains : rtc istep (after 2 closing) (after 2 (closing ++ drain)).
Proof. apply (play_rtc drain); vm_compute; reflexivity. Qed.

Lemma no_thread_stuck s s' : threads s = [] -> ~ istep s s'.
Proof. intros Ht Hs. inversion Hs; subst; cbn in Ht; by destruct ts1. Qed.

