(* ===== verification/ReadProtocol.v ===== *)
(** * ReadProtocol: a read ([WithRead] and [withEmptyRead] in
      [runtime/runtime.go])

    The read as a program over the calls it makes: the database registry, the
    cache of read sessions, the manifest and listing of the replica, the
    session it opens, the caller's function. *)

From S2P Require Import Prelude Errors Manifest Retry Prog.

(** [cachedReadSession.run]: closed by an eviction in the meantime, or the
    function ran. *)
Inductive run_reply := SessionClosed | Ran (err : option goerror).

(** [Cache.Get]: nothing, an instance of another type, a read session. *)
Inductive cache_reply := Miss | Foreign | Hit.

Inductive op : Set -> Type :=
  | Database : op (option goerror)              (* r.database *)
  | ReleaseDatabase : op unit
  | Metric (counters : list string) : op unit
  | CacheGet : op cache_reply                   (* r.reads.Get *)
  | CacheEvict : op unit                        (* r.reads.Evict *)
  | RunCached : op run_reply                    (* session.run(ctx, fn) *)
  | ReadManifest : op (res goerror (list file * bool))
  | HasLTX : op (res goerror bool)
  | OpenRead (manifest : option (list file)) : op (option goerror)
  | RunFresh : op (option goerror)              (* cached.run(ctx, fn) *)
  | CloseSession : op unit                      (* cached.Close *)
  | CachePut : op unit                          (* r.reads.Put *)
  | OpenMemory : op (option goerror)            (* sql.Open(":memory:") *)
  | MemoryConn : op (option goerror)            (* mem.Conn *)
  | QueryOnly : op (option goerror)             (* PRAGMA query_only=ON *)
  | RunMemory : op (option goerror)             (* fn(conn) *)
  | CloseConn : op unit
  | CloseMemory : op unit.

Abbreviation P := (prog op (option goerror)).

Definition withEmptyRead : P :=
  let fail e : P := mret (Some (Wrap ClassRemoteUnavailable "open empty read session" e)) in
  err ← invoke OpenMemory;
  match err with
  | Some e => fail e
  | None =>
      err ← invoke MemoryConn;
      r ← (match err with
           | Some e => fail e
           | None =>
               err ← invoke QueryOnly;
               r ← (match err with Some e => fail e | None => invoke RunMemory end);
               invoke CloseConn;; mret r
           end);
      invoke CloseMemory;; mret r
  end.

(** Opening a session, running the function and caching the session. *)
Definition openRead (manifest : option (list file)) : P :=
  err ← invoke (OpenRead manifest);
  match err with
  | Some e => mret (Some (wrapSessionOpenError "open read session" e))
  | None =>
      invoke (Metric ["ReadOpens"]);;
      err ← invoke RunFresh;
      match err with
      | Some e =>
          invoke CloseSession;;
          mret (Some (Wrap (classifySQLError e) "read failed" e))
      | None => invoke CachePut;; mret None
      end
  end.

(** A read that found no cached session. *)
Definition freshRead : P :=
  r ← invoke ReadManifest;
  match r with
  | Err e => mret (Some (Wrap ClassRemoteUnavailable "read manifest" e))
  | Ok ([], true) => withEmptyRead
  | Ok (files, true) => openRead (Some files)
  | Ok (_, false) =>
      r ← invoke HasLTX;
      match r with
      | Err e => mret (Some (Wrap ClassRemoteUnavailable "probe replica" e))
      | Ok false => withEmptyRead
      | Ok true => openRead None
      end
  end.

Definition read : P :=
  c ← invoke CacheGet;
  match c with
  | Miss => freshRead
  | Foreign => invoke (Metric ["ReadCacheHits"]);; invoke CacheEvict;; freshRead
  | Hit =>
      invoke (Metric ["ReadCacheHits"]);;
      r ← invoke RunCached;
      match r with
      | Ran None => mret None
      | Ran (Some e) => invoke CacheEvict;; mret (Some (Wrap (classifySQLError e) "read failed" e))
      | SessionClosed => invoke CacheEvict;; freshRead
      end
  end.

(** From the valid database id on. *)
Definition WithRead (db : string) : P :=
  err ← invoke Database;
  r ← (match err with
       | Some e => mret (Some e)
       | None => r ← read; invoke ReleaseDatabase;; mret r
       end);
  match WithDatabase r db with
  | Some e => invoke (Metric ["ReadFailures"]);; mret (Some e)
  | None => mret None
  end.

(** ** The protocol *)

Inductive session_state := NoSession | SessionOpen | SessionClosed_ | SessionCached.

Record read_state := mkRead {
  entry : bool;                  (* the database entry is referenced *)
  ran : option (option goerror); (* the function ran, and what it returned *)
  cached : bool;                 (* the cached session is in use *)
  session : session_state;       (* the session opened here *)
  memory : bool;                 (* the in-memory database is open *)
  conn : bool;
  index : option (list file * bool);
}.
Definition fresh_read : read_state := mkRead false None false NoSession false false None.

Definition set_entry s b := mkRead b (ran s) (cached s) (session s) (memory s) (conn s) (index s).
Definition set_ran s e := mkRead (entry s) (Some e) (cached s) (session s) (memory s) (conn s) (index s).
Definition set_cached s b := mkRead (entry s) (ran s) b (session s) (memory s) (conn s) (index s).
Definition set_session s x := mkRead (entry s) (ran s) (cached s) x (memory s) (conn s) (index s).
Definition set_memory s b := mkRead (entry s) (ran s) (cached s) (session s) b (conn s) (index s).
Definition set_conn s b := mkRead (entry s) (ran s) (cached s) (session s) (memory s) b (index s).
Definition set_index s x := mkRead (entry s) (ran s) (cached s) (session s) (memory s) (conn s) (Some x).

(** The function runs at most once, on a session that is open; a session over
    a manifest opens with the manifest just read, and none opens for an empty
    replica; a session is cached only after the function succeeded on it and
    closed only after it failed; the cached session that failed is evicted. *)
Definition read_protocol : monitor op read_state := fun R o s =>
  let may_run := entry s && negb (bool_decide (is_Some (ran s))) in
  match o in op R return R -> option read_state with
  | Database => fun r =>
      if entry s then None else Some (match r with None => set_entry s true | Some _ => s end)
  | ReleaseDatabase => fun _ =>
      if entry s && negb (memory s) && negb (cached s) then Some (set_entry s false) else None
  | Metric _ => fun _ => Some s
  | CacheGet => fun r => if may_run then Some (set_cached s (match r with Miss => false | _ => true end)) else None
  | CacheEvict => fun _ => if cached s then Some (set_cached s false) else None
  | RunCached => fun r =>
      if may_run && cached s then
        Some (match r with
              | SessionClosed => s
              | Ran None => set_cached (set_ran s None) false
              | Ran (Some e) => set_ran s (Some e)
              end)
      else None
  | ReadManifest => fun r =>
      if may_run && negb (cached s) then Some (match r with Ok x => set_index s x | Err _ => s end) else None
  | HasLTX => fun r =>
      match index s with
      | Some (_, false) => Some (match r with Ok false => set_index s ([], true) | _ => s end)
      | _ => None
      end
  | OpenRead m => fun r =>
      match session s, m, index s with
      | NoSession, Some (f :: fs), Some (gs, true) =>
          if bool_decide (f :: fs = gs) then
            Some (match r with None => set_session s SessionOpen | Some _ => s end)
          else None
      | NoSession, None, Some (_, false) =>
          Some (match r with None => set_session s SessionOpen | Some _ => s end)
      | _, _, _ => None
      end
  | RunFresh => fun r =>
      match session s with
      | SessionOpen => if may_run then Some (set_ran s r) else None
      | _ => None
      end
  | CloseSession => fun _ =>
      match session s, ran s with
      | SessionOpen, Some (Some _) => Some (set_session s SessionClosed_)
      | _, _ => None
      end
  | CachePut => fun _ =>
      match session s, ran s with
      | SessionOpen, Some None => Some (set_session s SessionCached)
      | _, _ => None
      end
  | OpenMemory => fun r =>
      match index s with
      | Some ([], true) =>
          if may_run then Some (match r with None => set_memory s true | Some _ => s end) else None
      | _ => None
      end
  | MemoryConn => fun r =>
      if memory s then Some (match r with None => set_conn s true | Some _ => s end) else None
  | QueryOnly => fun _ => if conn s then Some s else None
  | RunMemory => fun r => if conn s && may_run then Some (set_ran s r) else None
  | CloseConn => fun _ => if conn s then Some (set_conn s false) else None
  | CloseMemory => fun _ => if memory s && negb (conn s) then Some (set_memory s false) else None
  end.

Ltac explore_read :=
  repeat (cbn -[WithDatabase];
    match goal with
    | |- forall _ : unit, _ => intros _
    | |- forall _ : option goerror, _ => intros [?|]
    | |- forall _ : cache_reply, _ => intros []
    | |- forall _ : run_reply, _ => intros [|[?|]]
    | |- forall _ : res goerror (list file * bool), _ => intros [[[|? ?] []]|?]
    | |- forall _ : res goerror bool, _ => intros [[]|?]
    | |- context [bool_decide (?x = ?x)] => rewrite (bool_decide_true (x = x)) by reflexivity
    | |- context [WithDatabase None ?db] => change (WithDatabase None db) with (@None goerror)
    | |- context [match WithDatabase (Some ?e) ?db with _ => _ end] =>
        destruct (WithDatabase (Some e) db) eqn:?
    end).

(** C26  Whatever a read meets, the caller's function runs at most once; the
    read succeeds exactly when the function ran and succeeded; a session opened
    for the read ends up cached if the function succeeded on it and closed
    otherwise; a cached session that was closed or failed is evicted; an empty
    replica is read without opening a session; and the reference to the
    database is dropped on every path. *)
Theorem read_serves_once (db : string) :
  safe read_protocol (WithRead db) fresh_read
    (fun r s => entry s = false /\ session s <> SessionOpen /\ memory s = false /\ cached s = false /\
                (r = None <-> ran s = Some None)).
Proof.
  assert (Hdb : forall e, WithDatabase (Some e) db <> None).
  { intros e. cbn. repeat case_match; done. }
  unfold WithRead, read, freshRead, openRead, withEmptyRead, mret, prog_ret. explore_read.
  all: try (exfalso; eapply Hdb; eassumption).
  all: split_and!; try done.
Qed.
