(* ===== verification/Compaction.v ===== *)
(** * Compaction: merging the chain in the background

    [litestream/compact.go] ([CompactWithClient] without source deletion,
    [CompactManifest]) as functions over the manifest client, with the
    library's compactor as a parameter; [runCompaction] of
    [runtime/runtime.go] as a program over the calls it makes; and the queue
    of pending passes. *)

From S2P Require Import Prelude Errors Manifest Prog.

(** ** [CompactWithClient] *)

(** What [ls.Compactor.Compact] answers for one destination level. *)
Inductive compacted :=
  | NoCompaction                     (* ls.ErrNoCompaction *)
  | CompactErr (e : goerror)
  | Compacted (info : file).

Section Compact.
(** [ls.Compactor.Compact]: from the destination level and the client's files. *)
Context (compact : Z -> list file -> compacted).

(** [countLTXFiles] of a source level, through the manifest client. *)
Definition countLTXFiles (mc : manifestClient) (level : Z) : Z :=
  Z.of_nat (length (c_LTXFiles mc level 0)).

(** The loop over destination levels ([deleteSources] is false). The compactor
    stores a merged file through the client it was given. *)
Fixpoint compactLevels (threshold : Z) (levels : list Z) (mc : manifestClient) (merged : list file)
    : manifestClient * res goerror (list file) :=
  match levels with
  | [] => (mc, Ok merged)
  | level :: levels =>
      if countLTXFiles mc (level - 1) <=? threshold then compactLevels threshold levels mc merged
      else match compact level (c_files mc) with
           | NoCompaction => compactLevels threshold levels mc merged
           | CompactErr e => (mc, Err (EWrapf "litestream: compact level" e))
           | Compacted info =>
               compactLevels threshold levels (WriteLTXFile mc (Ok info)).1 (merged ++ [info])
           end
  end.

Definition destinationLevels : list Z := [1; 2; 3; 4; 5; 6; 7; 8].

Definition CompactWithClient (mc : manifestClient) (threshold : Z)
    : manifestClient * res goerror (list file) :=
  compactLevels (if threshold <=? 0 then 1 else threshold) destinationLevels mc [].

(** One round of the loop of [CompactManifest]: the files [info] replaces. *)
Definition gone (updated : list file) (info : file) : list file :=
  List.filter (fun f => (Level f =? Level info - 1) && (MaxTXID f <=? MaxTXID info)) updated.

Fixpoint applyMerges (merged updated sources : list file) : list file * list file :=
  match merged with
  | [] => (updated, sources)
  | info :: merged =>
      let g := gone updated info in
      applyMerges merged (applyManifestDelta updated [info] g) (sources ++ g)
  end.

(** The new active set, the merged files and the files no longer referenced. *)
Definition CompactManifest (files : list file) (threshold : Z)
    : res goerror (list file * list file * list file) :=
  match (CompactWithClient (newManifestClient files) threshold).2 with
  | Err e => Err e
  | Ok merged =>
      let '(updated, sources) := applyMerges merged files [] in
      Ok (updated, merged, sources)
  end.
End Compact.

(** The compactor's contract: a file merged for a level belongs to it, and
    with the files already there it covers what the level below holds up to
    its end. *)
Definition compactor_ok (compact : Z -> list file -> compacted) : Prop :=
  forall level files info, compact level files = Compacted info ->
    Level info = level /\
    forall f t, f ∈ files -> Level f = level - 1 -> MaxTXID f <= MaxTXID info ->
      MinTXID f <= t <= MaxTXID f ->
      MinTXID info <= t <= MaxTXID info \/
      exists g, g ∈ files /\ Level g = level /\ MinTXID g <= t <= MaxTXID g.

(** ** Coverage *)

(** [info], merged when the client held [files] and the merges [past]. *)
Definition merge_ok (files past : list file) (info : file) : Prop :=
  1 <= Level info <= compactionTopLevel /\
  forall f t, f ∈ files ++ past -> Level f = Level info - 1 -> MaxTXID f <= MaxTXID info ->
    MinTXID f <= t <= MaxTXID f ->
    MinTXID info <= t <= MaxTXID info \/
    exists g, g ∈ files ++ past /\ Level g = Level info /\ MinTXID g <= t <= MaxTXID g.

Fixpoint merges_ok (files past merged : list file) : Prop :=
  match merged with
  | [] => True
  | info :: merged => merge_ok files past info /\ merges_ok files (past ++ [info]) merged
  end.

(** Files with one key have one range. *)
Lemma same_key (f : file) (fs : list file) :
  fkey f ∈ fkey <$> fs ->
  exists g, g ∈ fs /\ Level g = Level f /\ MinTXID g = MinTXID f /\ MaxTXID g = MaxTXID f.
Proof.
  intros (g & Hg & He)%elem_of_fkeys. unfold fkey in He. injection He as H1 H2 H3. eauto.
Qed.

Lemma compactLevels_ok compact threshold levels files past mc mc' merged :
  compactor_ok compact ->
  (forall k, k ∈ fkey <$> c_files mc <-> k ∈ fkey <$> files ++ past) ->
  Forall (fun l => 1 <= l <= compactionTopLevel) levels ->
  compactLevels compact threshold levels mc past = (mc', Ok merged) ->
  exists new, merged = past ++ new /\ merges_ok files past new.
Proof.
  intros Hc Hk Hl. revert past mc Hk. induction Hl as [|l ls Hb _ IH]; intros past mc Hk; cbn.
  { intros [= <- <-]. exists []. by rewrite app_nil_r. }
  destruct (_ <=? threshold); [by apply IH|].
  destruct (compact l (c_files mc)) as [|e|info] eqn:Hi; [by apply IH|done|].
  intros Hr. destruct (Hc _ _ _ Hi) as [Hlev Hcov].
  eapply IH in Hr as (new & -> & Hnew).
  - exists (info :: new). rewrite <- app_assoc. split; [done|]. split; [|done].
    split; [by rewrite Hlev|]. intros f t Hf Hfl Hm Ht. rewrite Hlev in Hfl.
    destruct (same_key f (c_files mc)) as (f' & Hf' & H1 & H2 & H3).
    { apply Hk, elem_of_fkeys. eauto. }
    rewrite <- H1 in Hfl. rewrite <- H3 in Hm. rewrite <- H2, <- H3 in Ht.
    destruct (Hcov f' t Hf' Hfl Hm Ht) as [?|(g & Hg & Hgl & Hgt)]; [by left|right].
    destruct (same_key g (files ++ past)) as (g' & Hg' & G1 & G2 & G3).
    { apply Hk, elem_of_fkeys. eauto. }
    exists g'. split; [done|]. split; [by rewrite G1, Hgl|]. by rewrite G2, G3.
  - intros k. change (k ∈ fkey <$> applyManifestDelta (c_files mc) [info] [] <->
      k ∈ fkey <$> files ++ past ++ [info]). rewrite delta_keys.
    rewrite fmap_app, elem_of_app, fmap_app, elem_of_app.
    specialize (Hk k). rewrite fmap_app, elem_of_app in Hk. rewrite Hk. cbn.
    assert (k ∉ @nil (Z * Z * Z)) by apply not_elem_of_nil. tauto.
Qed.

(** Where the sources of a pass come from. *)
Definition replaced (files past merged : list file) (f : file) : Prop :=
  exists pre info post, merged = pre ++ info :: post /\
    fkey f ∈ fkey <$> (files ++ past ++ pre) /\
    Level f = Level info - 1 /\ MaxTXID f <= MaxTXID info.

Lemma applyMerges_sources files past merged updated sources u' s' :
  (forall k, k ∈ fkey <$> updated -> k ∈ fkey <$> files ++ past) ->
  applyMerges merged updated sources = (u', s') ->
  forall f, f ∈ s' -> f ∈ sources \/ replaced files past merged f.
Proof.
  revert past updated sources. induction merged as [|info merged IH];
    intros past updated sources Hk Ha f Hf; cbn [applyMerges] in Ha.
  { injection Ha as <- <-. by left. }
  eapply (IH (past ++ [info])) in Ha; [|intros k|exact Hf].
  - destruct Ha as [[Hs|Hg]%elem_of_app|(pre & i & post & -> & Hp & Hl & Hm)]; [by left| |]; right.
    + unfold gone in Hg. apply elem_of_filter_b in Hg as [Hu Hb]. bool_prop.
      exists [], info, merged. rewrite app_nil_r. split_and!; [done| |lia|lia].
      apply Hk, elem_of_fkeys. eauto.
    + exists (info :: pre), i, post. split_and!; [done| |done|done].
      by rewrite <- app_assoc in Hp.
  - rewrite delta_keys. rewrite !fmap_app, !elem_of_app. specialize (Hk k).
    rewrite fmap_app, elem_of_app in Hk. cbn. tauto.
Qed.

Lemma merges_ok_nth files past pre info post :
  merges_ok files past (pre ++ info :: post) -> merge_ok files (past ++ pre) info.
Proof.
  revert past. induction pre as [|i pre IH]; intros past; cbn.
  - rewrite app_nil_r. by intros [? _].
  - intros [_ H]. apply IH in H. by rewrite <- app_assoc in H.
Qed.

(** The index after the pass covers every file that was there before it. *)
Lemma pass_covers files merged sources base f t :
  merges_ok files [] merged ->
  (forall s, s ∈ sources -> replaced files [] merged s) ->
  (forall k, k ∈ fkey <$> files -> k ∈ fkey <$> base) ->
  f ∈ files ++ merged -> MinTXID f <= t <= MaxTXID f ->
  manifestHasTXID (applyManifestDelta base merged sources) t = true.
Proof.
  intros Hok Hsrc Hb.
  assert (Hkey : forall f, fkey f ∈ fkey <$> applyManifestDelta base merged sources ->
    MinTXID f <= t <= MaxTXID f ->
    manifestHasTXID (applyManifestDelta base merged sources) t = true).
  { intros g Hg Ht. apply same_key in Hg as (g' & Hg' & _ & H2 & H3).
    apply manifestHasTXID_spec. exists g'. by rewrite H2, H3. }
  remember (Z.to_nat (compactionTopLevel + 1 - Level f)) as n eqn:Hn.
  revert f Hn. induction (lt_wf n) as [n _ IH]. intros f Hn Hf Ht.
  apply elem_of_app in Hf as [Hf|Hf].
  2:{ apply (Hkey f); [|done]. apply delta_keys. right. apply elem_of_fkeys. eauto. }
  destruct (decide (fkey f ∈ fkey <$> sources)) as [Hs|Hs].
  2:{ apply (Hkey f); [|done]. apply delta_keys. left. split; [|done].
      apply Hb, elem_of_fkeys. eauto. }
  apply same_key in Hs as (s & Hs & S1 & S2 & S3).
  destruct (Hsrc s Hs) as (pre & info & post & -> & _ & Hl & Hm).
  destruct (merges_ok_nth _ _ _ _ _ Hok) as [Htop Hcov]. rewrite app_nil_l in Hcov.
  destruct (Hcov f t) as [Hi|(g & Hg & Hgl & Hgt)]; [by rewrite elem_of_app; left|lia|lia|done| |].
  - apply (Hkey info); [|done]. apply delta_keys. right. apply elem_of_fkeys.
    exists info. split; [|done]. apply elem_of_app. right. by left.
  - apply (IH (Z.to_nat (compactionTopLevel + 1 - Level g))) with g; [lia|done| |done].
    rewrite !elem_of_app in Hg |- *. rewrite elem_of_app. tauto.
Qed.

(** The destination levels are those of the chain. *)
Lemma destinationLevels_ok : Forall (fun l => 1 <= l <= compactionTopLevel) destinationLevels.
Proof. unfold destinationLevels, compactionTopLevel. repeat constructor; lia. Qed.


(** A compactor: one file for everything the level below holds. *)
Definition mergeAll (level : Z) (files : list file) : compacted :=
  match List.filter (fun f => Level f =? level - 1) files with
  | [] => NoCompaction
  | f :: fs => Compacted (mkFile level
      (foldr (fun f m => Z.min (MinTXID f) m) (MinTXID f) fs)
      (foldr (fun f m => Z.max (MaxTXID f) m) (MaxTXID f) fs) 0
      (foldr (fun f m => Z.min (CreatedAt f) m) (CreatedAt f) fs))
  end.

Lemma merge_bounds (f g : file) (fs : list file) :
  g ∈ f :: fs ->
  foldr (fun f m => Z.min (MinTXID f) m) (MinTXID f) fs <= MinTXID g /\
  MaxTXID g <= foldr (fun f m => Z.max (MaxTXID f) m) (MaxTXID f) fs.
Proof.
  induction fs as [|h fs IH]; cbn.
  - intros ->%list_elem_of_singleton. lia.
  - rewrite !elem_of_cons. intros [->|[->|Hg]]; [| lia|].
    + specialize (IH ltac:(apply elem_of_cons; by left)). lia.
    + specialize (IH ltac:(apply elem_of_cons; by right)). lia.
Qed.

Lemma mergeAll_ok : compactor_ok mergeAll.
Proof.
  intros level files info. unfold mergeAll.
  destruct (List.filter _ files) as [|f fs] eqn:Hf; [done|]. intros [= <-].
  split; [done|]. intros g t Hg Hl _ Ht. left. cbn [MinTXID MaxTXID].
  assert (Hin : g ∈ f :: fs) by (rewrite <- Hf; apply elem_of_filter_b; split; [done|by apply Z.eqb_eq]).
  apply merge_bounds in Hin. lia.
Qed.

(** Two files on level 0, one on level 1, threshold 1: the pass cascades to
    level 2; meanwhile a write has added transaction 4. *)
Definition chain0 : list file := [mkFile 0 2 2 10 200; mkFile 0 3 3 10 300; mkFile 1 1 1 10 100].
Definition chain1 : list file := mkFile 0 4 4 10 400 :: chain0.


(** In a pass that cascades, the manifest keeps referring to a file the pass
    itself replaced: the file merged for the lower level is both a merged file
    and a source, [ApplyManifestDelta] adds merged files after it has removed
    sources, and [DeleteFiles] then deletes the file. (The active set
    [CompactManifest] returns, which the runtime ignores, does not list it.) *)
Theorem cascade_deletes_indexed_file :
  exists updated merged sources f,
    CompactManifest mergeAll chain0 1 = Ok (updated, merged, sources) /\
    f ∈ applyManifestDelta chain0 merged sources /\ f ∉ updated /\
    f ∈ DeleteFiles sources 1000 0.
Proof.
  exists [mkFile 2 1 3 0 100], [mkFile 1 2 3 0 200; mkFile 2 1 3 0 100],
    [mkFile 0 2 2 10 200; mkFile 0 3 3 10 300; mkFile 1 1 1 10 100; mkFile 1 2 3 0 200],
    (mkFile 1 2 3 0 200).
  split_and!; [vm_compute; reflexivity|..]; apply (bool_decide_eq_true_1 _); vm_compute; reflexivity.
Qed.
