(* ===== verification/CompactionPass.v ===== *)
(** * CompactionPass: one background pass and the queue it comes from

    [runCompaction] of [runtime/runtime.go] as a program over the calls it
    makes, with every reply the environment's; [enqueueCompaction] and the
    workers as a transition system over the pending set and the channel. *)

From S2P Require Import Prelude Errors Manifest Prog.

(** ** The calls of a pass *)

Inductive op : Set -> Type :=
  | Database : op (option goerror)              (* r.database *)
  | ReleaseDatabase : op unit
  | PendingDelete : op unit                     (* r.compactPending.Delete *)
  | ReadManifest : op (res goerror (list file * bool))
  | AcquireCompaction : op (option goerror)     (* r.compactionLeases.AcquireKey *)
  | ReleaseCompaction : op (option goerror)
  | CompactManifest (files : list file) : op (res goerror (list file * list file))
  | AcquireWrite : op (option goerror)          (* r.leases.Acquire *)
  | ReleaseWrite : op (option goerror)
  | WriteManifest (files : list file) : op (option goerror)
  | DeleteFiles (files : list file) : op (option goerror)
  | Metric (counters : list string) : op unit
  | CountPass : op Z                            (* r.compactPasses.Add(1) *)
  | CollectGarbage : op (option goerror).       (* entry.vfs.GC *)

Abbreviation P := (prog op unit).

Definition skip : P := mret tt.

(** After a successful manifest update. *)
Definition cleanup (sources : list file) : P :=
  invoke (DeleteFiles sources);;
  invoke (Metric ["Compactions"; "CompactedLevels"]);;
  n ← invoke CountPass;
  if Z.rem n 16 =? 0 then invoke CollectGarbage;; skip else skip.

(** The manifest update, under the write lease. *)
Definition updateManifest (files merged sources : list file) : P :=
  err ← invoke AcquireWrite;
  match err with
  | Some _ => skip
  | None =>
      r ← invoke ReadManifest;
      match r with
      | Err _ => invoke ReleaseWrite;; invoke (Metric ["CompactionFailures"])
      | Ok (base, baseOK) =>
          let base := if (baseOK : bool) then base else files in
          err ← invoke (WriteManifest (applyManifestDelta base merged sources));
          invoke ReleaseWrite;;
          match err with
          | Some _ => invoke (Metric ["CompactionFailures"])
          | None => cleanup sources
          end
      end
  end.

(** The merge, under the compaction lease. *)
Definition merge (files : list file) : P :=
  r ← invoke (CompactManifest files);
  match r with
  | Err _ => invoke (Metric ["CompactionFailures"])
  | Ok ([], _) => skip
  | Ok (merged, sources) => updateManifest files merged sources
  end.

Definition pass : P :=
  r ← invoke ReadManifest;
  match r with
  | Err _ | Ok (_, false) | Ok ([], true) => skip
  | Ok (files, true) =>
      err ← invoke AcquireCompaction;
      match err with
      | Some _ => skip
      | None => merge files;; invoke ReleaseCompaction;; skip
      end
  end.

Definition runCompaction : P :=
  err ← invoke Database;
  (match err with
   | Some _ => skip
   | None => pass;; invoke ReleaseDatabase
   end);;
  invoke PendingDelete.

(** ** The protocol of a pass *)

Inductive write_lease := NotTaken | Taken | GivenBack.

Record pass_state := mkPass {
  entry : bool;                              (* the database entry is referenced *)
  lock : bool;                               (* the compaction lease is held *)
  wlease : write_lease;
  snapshot : list file;                      (* the manifest the pass started from *)
  delta : option (list file * list file);    (* merged files, sources *)
  current : option (list file);              (* the manifest read under the write lease *)
  indexed : bool;                            (* the new manifest is stored *)
  cleared : bool;                            (* the pending mark is gone *)
}.

Definition fresh_pass : pass_state := mkPass false false NotTaken [] None None false false.

Definition set_lock s b := mkPass (entry s) b (wlease s) (snapshot s) (delta s) (current s) (indexed s) (cleared s).
Definition set_wlease s l := mkPass (entry s) (lock s) l (snapshot s) (delta s) (current s) (indexed s) (cleared s).
Definition set_entry s b := mkPass b (lock s) (wlease s) (snapshot s) (delta s) (current s) (indexed s) (cleared s).

(** Storage is touched only between taking and dropping the reference; the
    chain is merged only under the compaction lease; the manifest is replaced
    only under the write lease, by the merge's delta applied to the manifest
    read under that lease (or the pass's own, if there is none); files are
    deleted only when the new manifest is stored and the write lease is given
    back, and only the merge's sources; the pending mark goes last. *)
Definition pass_protocol : monitor op pass_state := fun R o s =>
  match o in op R return R -> option pass_state with
  | Database => fun r =>
      if entry s then None else Some (match r with None => set_entry s true | Some _ => s end)
  | ReleaseDatabase => fun _ =>
      if entry s && negb (lock s) then Some (set_entry s false) else None
  | PendingDelete => fun _ =>
      if entry s || cleared s then None
      else Some (mkPass false (lock s) (wlease s) (snapshot s) (delta s) (current s) (indexed s) true)
  | ReadManifest => fun r =>
      if negb (entry s) then None else
      Some (match r, wlease s with
            | Ok (fs, ok), Taken =>
                mkPass (entry s) (lock s) Taken (snapshot s) (delta s)
                  (Some (if (ok : bool) then fs else snapshot s)) (indexed s) (cleared s)
            | Ok (fs, _), _ =>
                mkPass (entry s) (lock s) (wlease s) fs (delta s) (current s) (indexed s) (cleared s)
            | Err _, _ => s
            end)
  | AcquireCompaction => fun r =>
      if entry s && negb (lock s)
      then Some (match r with None => set_lock s true | Some _ => s end) else None
  | ReleaseCompaction => fun _ =>
      match lock s, wlease s with
      | true, NotTaken | true, GivenBack => Some (set_lock s false)
      | _, _ => None
      end
  | CompactManifest fs => fun r =>
      if lock s && bool_decide (fs = snapshot s) then
        Some (match r with
              | Ok d => mkPass (entry s) (lock s) (wlease s) (snapshot s) (Some d) (current s) (indexed s) (cleared s)
              | Err _ => s
              end)
      else None
  | AcquireWrite => fun r =>
      match lock s, wlease s, delta s with
      | true, NotTaken, Some (_ :: _, _) =>
          Some (match r with None => set_wlease s Taken | Some _ => s end)
      | _, _, _ => None
      end
  | ReleaseWrite => fun _ =>
      match wlease s with Taken => Some (set_wlease s GivenBack) | _ => None end
  | WriteManifest fs => fun r =>
      match wlease s, delta s, current s with
      | Taken, Some (merged, sources), Some base =>
          if bool_decide (fs = applyManifestDelta base merged sources) then
            Some (mkPass (entry s) (lock s) Taken (snapshot s) (delta s) (current s)
                    (match r with None => true | Some _ => false end) (cleared s))
          else None
      | _, _, _ => None
      end
  | DeleteFiles fs => fun _ =>
      match lock s, wlease s, indexed s, delta s with
      | true, GivenBack, true, Some (_, sources) =>
          if bool_decide (fs = sources) then Some s else None
      | _, _, _, _ => None
      end
  | CollectGarbage => fun _ =>
      match lock s, wlease s with true, GivenBack => Some s | _, _ => None end
  | Metric _ => fun _ => Some s
  | CountPass => fun _ => Some s
  end.

Ltac explore_pass :=
  repeat (cbn;
    match goal with
    | |- forall _ : unit, _ => intros _
    | |- forall _ : option goerror, _ => intros [?|]
    | |- forall _ : res goerror (list file * bool), _ => intros [[[|? ?] []]|?]
    | |- forall _ : res goerror (list file * list file), _ => intros [[[|? ?] ?]|?]
    | |- forall _ : Z, _ => intros ?
    | |- context [bool_decide (?x = ?x)] => rewrite (bool_decide_true (x = x)) by reflexivity
    | |- safe _ ((if ?b then _ else _) ≫= _) _ _ => destruct b
    | |- context [if ?b then _ else _] => destruct b eqn:?
    end).


(** ** The queue of pending passes *)

Definition queueCapacity : nat := 256.

(** [compactPending], the writers between [LoadOrStore] and the send, the
    channel, and the passes the workers run. *)
Record queue := mkQueue {
  pending : gset string;
  marking : list string;
  channel : list string;
  running : list string;
}.

Inductive queue_step : queue -> queue -> Prop :=
  (* enqueueCompaction up to LoadOrStore: the key was not pending *)
  | StepMark q key (files : list (option file)) threshold :
      ManifestNeedsCompaction files threshold = true -> key ∉ pending q ->
      queue_step q (mkQueue ({[key]} ∪ pending q) (key :: marking q) (channel q) (running q))
  (* the send succeeds, or the channel is full and the mark is dropped *)
  | StepSend q key ms ms' :
      marking q = ms ++ key :: ms' -> (length (channel q) < queueCapacity)%nat ->
      queue_step q (mkQueue (pending q) (ms ++ ms') (channel q ++ [key]) (running q))
  | StepDrop q key ms ms' :
      marking q = ms ++ key :: ms' -> (queueCapacity <= length (channel q))%nat ->
      queue_step q (mkQueue (pending q ∖ {[key]}) (ms ++ ms') (channel q) (running q))
  (* a worker takes a job; runCompaction ends by deleting the mark *)
  | StepTake q key ks :
      channel q = key :: ks ->
      queue_step q (mkQueue (pending q) (marking q) ks (key :: running q))
  | StepDone q key rs rs' :
      running q = rs ++ key :: rs' ->
      queue_step q (mkQueue (pending q ∖ {[key]}) (marking q) (channel q) (rs ++ rs')).

Inductive queue_reachable : queue -> Prop :=
  | queue_start : queue_reachable (mkQueue ∅ [] [] [])
  | queue_next q q' : queue_reachable q -> queue_step q q' -> queue_reachable q'.

Definition jobs (q : queue) : list string := marking q ++ channel q ++ running q.

Lemma NoDup_drop (key : string) (xs ys zs : list string) :
  xs ≡ₚ key :: ys -> NoDup (xs ++ zs) ->
  NoDup (ys ++ zs) /\ key ∉ ys ++ zs.
Proof. intros Hp. rewrite Hp. cbn. rewrite NoDup_cons. tauto. Qed.

(** However writers and workers interleave, a database has at most one pass
    that is being queued, queued or running; it is marked pending exactly while
    it has one, so a finished or dropped pass never blocks the next; and the
    channel never holds more than its capacity. *)
Theorem compaction_queue_invariant (q : queue) (Hq : queue_reachable q) :
  NoDup (jobs q) /\ (forall key, key ∈ pending q <-> key ∈ jobs q) /\
  (length (channel q) <= queueCapacity)%nat.
Proof.
  induction Hq as [|q q' _ (Hnd & Hp & Hc) Hs].
  { split_and!; [constructor|set_solver|cbn; lia]. }
  unfold jobs in *.
  inversion Hs as [q0 key files th Hneed Hk|q0 key ms ms' Hm Hlen|q0 key ms ms' Hm Hlen
    |q0 key ks Hch|q0 key rs rs' Hr]; subst; cbn [pending marking channel running].
  - split_and!; [|set_solver|done]. cbn. apply NoDup_cons. split; [|done]. by rewrite <- Hp.
  - rewrite Hm in Hnd, Hp.
    assert (Hperm : (ms ++ ms') ++ (channel q ++ [key]) ++ running q
                    ≡ₚ (ms ++ key :: ms') ++ channel q ++ running q) by solve_Permutation.
    rewrite Hperm, length_app. cbn. split_and!; [done| |lia].
    intros k. by rewrite Hperm.
  - rewrite Hm in Hnd, Hp.
    assert (Hperm : (ms ++ key :: ms') ++ channel q ++ running q
                    ≡ₚ key :: (ms ++ ms') ++ channel q ++ running q) by solve_Permutation.
    rewrite Hperm in Hnd. apply NoDup_cons in Hnd as [Hk Hnd]. split_and!; [done| |done].
    intros k. rewrite elem_of_difference, Hp, Hperm. set_solver.
  - rewrite Hch in Hnd, Hp, Hc.
    assert (Hperm : marking q ++ ks ++ key :: running q
                    ≡ₚ marking q ++ (key :: ks) ++ running q) by solve_Permutation.
    rewrite Hperm. cbn in Hc. split_and!; [done| |lia]. intros k. by rewrite Hperm.
  - rewrite Hr in Hnd, Hp.
    assert (Hperm : marking q ++ channel q ++ rs ++ key :: rs'
                    ≡ₚ key :: marking q ++ channel q ++ rs ++ rs') by solve_Permutation.
    rewrite Hperm in Hnd. apply NoDup_cons in Hnd as [Hk Hnd]. split_and!; [done| |done].
    intros k. rewrite elem_of_difference, Hp, Hperm. set_solver.
Qed.

(** Database "a" is being compacted while "b" waits. *)
Definition busyQueue : queue := mkQueue ({["b"]} ∪ ({["a"]} ∪ ∅)) [] ["b"] ["a"].

Lemma busyQueue_reachable : queue_reachable busyQueue.
Proof.
  assert (Hneed : ManifestNeedsCompaction [Some (mkFile 0 1 1 1 1); Some (mkFile 0 2 2 1 1)] 1 = true)
    by reflexivity.
  assert (Hroom : (0 < queueCapacity)%nat) by (unfold queueCapacity; lia).
  set (p := {["a"]} ∪ ∅ : gset string).
  assert (Hb : "b" ∉ p) by set_solver.
  pose proof (queue_next _ _ queue_start
    (StepMark (mkQueue ∅ [] [] []) "a" _ _ Hneed (not_elem_of_empty _))) as H1.
  pose proof (queue_next _ _ H1 (StepSend (mkQueue p ["a"] [] []) "a" [] [] eq_refl Hroom)) as H2.
  pose proof (queue_next _ _ H2 (StepTake (mkQueue p [] ["a"] []) "a" [] eq_refl)) as H3.
  pose proof (queue_next _ _ H3 (StepMark (mkQueue p [] [] ["a"]) "b" _ _ Hneed Hb)) as H4.
  exact (queue_next _ _ H4
    (StepSend (mkQueue ({["b"]} ∪ p) ["b"] [] ["a"]) "b" [] [] eq_refl Hroom)).
Qed.

Lemma compaction_queue_invariant_witness : NoDup (jobs busyQueue).
Proof. exact (proj1 (compaction_queue_invariant busyQueue busyQueue_reachable)). Defined.
