(* ===== verification/Maintenance.v ===== *)
(** * Maintenance: work on a replica outside the manifest

    [Maintain] and [pruneCovered] of [litestream/bridge.go], the compaction
    that deletes its own sources ([Compact], [deleteCovered] of
    [litestream/compact.go]) and the probe for an empty replica ([HasLTX] of
    [litestream/session.go]). The replica is the list of the files it holds;
    listings may fail or stop early, deletions may fail after deleting part of
    what they were given. *)

From S2P Require Import Prelude Errors Lease Manifest Compaction.

(** ** The replica *)

(** [listLTXFiles] of a level: how the listing goes wrong. [cut] is how many
    files it sees before an error that only [Close] may report. *)
Record listing := mkListing { openErr : option goerror; cut : option nat; closeErr : option goerror }.

Definition level_files (st : list file) (level : Z) : list file :=
  List.filter (fun f => Level f =? level) st.

Definition listLTXFiles (l : listing) (st : list file) (level : Z) : res goerror (list file) :=
  match openErr l with
  | Some err => Err err
  | None =>
      let infos := match cut l with Some n => take n (level_files st level) | None => level_files st level end in
      match closeErr l with Some err => Err err | None => Ok infos end
  end.

(** [DeleteLTXFiles] of the client: [undeleted] tells the files it did not get
    to, when it fails. *)
Record deletion := mkDeletion { undeleted : file -> bool; deleteErr : option goerror }.

Definition deleteFiles (d : deletion) (st fs : list file) : list file :=
  List.filter (fun f => negb (manifestContains fs f)
                        || match deleteErr d with Some _ => undeleted d f | None => false end) st.

(** ** [pruneCovered] *)

Definition maxMaintainLevel : Z := 8.
Definition pruneAge : Z := 2 * 60 * second.

(** [time.Since(s.CreatedAt)]: the reading of the clock when the loop gets to
    the file. *)
Section Prune.
Context (clock : file -> Z).

Definition within (s n : file) : bool := (MinTXID n <=? MinTXID s) && (MaxTXID s <=? MaxTXID n).

Definition stale (covered sources : list file) : list file :=
  List.filter (fun s => negb (clock s - CreatedAt s <? pruneAge) && existsb (within s) covered) sources.

(** What one round hands to [DeleteLTXFiles]: all but the last. *)
Definition pruned (covered sources : list file) : list file :=
  let st := stale covered sources in
  if (1 <? length st)%nat then removelast st else [].

(** How the calls of one round turn out. *)
Record round := mkRound { coveredList : listing; sourceList : listing; del : deletion }.

Definition pruneLevel (r : round) (level : Z) (st : list file) : list file * list goerror :=
  match listLTXFiles (coveredList r) st (level + 1) with
  | Err e => (st, [e])
  | Ok covered =>
      match listLTXFiles (sourceList r) st level with
      | Err e => (st, [e])
      | Ok sources =>
          match pruned covered sources with
          | [] => (st, [])
          | fs => (deleteFiles (del r) st fs, option_list (deleteErr (del r)))
          end
      end
  end.

Fixpoint pruneLevels (rounds : Z -> round) (levels : list Z) (st : list file) : list file * list goerror :=
  match levels with
  | [] => (st, [])
  | level :: levels =>
      let '(st, errs) := pruneLevel (rounds level) level st in
      let '(st, errs') := pruneLevels rounds levels st in
      (st, errs ++ errs')
  end.
End Prune.

Definition sourceLevels : list Z := [0; 1; 2; 3; 4; 5; 6; 7].

Definition pruneCovered (clock : file -> Z) (rounds : Z -> round) (st : list file)
    : list file * list goerror :=
  pruneLevels clock rounds sourceLevels st.

(** ** [Maintain] *)

Definition minute : Z := 60 * second.
Definition hour : Z := 60 * minute.

Definition maintainIntervals : list Z :=
  [30 * second; 5 * minute; 1 * hour; 6 * hour; 24 * hour; 72 * hour; 240 * hour; 720 * hour].

(** [time.Since] of a time that may be the zero value, whose distance is the
    largest duration. *)
Definition since (now : Z) (t : option Z) : Z := match t with Some t => now - t | None => two63 - 1 end.

(** The levels that are due, and the new [lastMaintain]. *)
Definition due (now : Z) (last : list (option Z)) : list nat * list (option Z) :=
  let d := List.map (fun '(t, interval) => interval <=? since now t) (combine last maintainIntervals) in
  (List.filter (fun i => nth i d false) (seq 0 (length d)),
   List.map (fun '(t, b) => if (b : bool) then Some now else t) (combine last d)).

(** What the compaction of one level answers: nothing to report, nothing to
    compact, or an error; and whether the budget is over after it. *)
Record compaction := mkCompaction { outcome : option goerror; overBudget : bool }.

Definition reported (err : goerror) : bool :=
  negb (errors_Is ErrNoCompaction err) && negb (errors_Is ErrCanceled err)
  && negb (errors_Is ErrDeadlineExceeded err).

(** The loop over due levels: the levels compacted, the errors, and whether
    it ran to the end. *)
Fixpoint compactDue (compact : nat -> compaction) (levels : list nat)
    : list nat * list goerror * bool :=
  match levels with
  | [] => ([], [], true)
  | i :: levels =>
      let errs := match outcome (compact i) with
                  | Some e => if reported e then [e] else []
                  | None => []
                  end in
      if overBudget (compact i) then ([S i], errs, false)
      else let '(done, errs', over) := compactDue compact levels in (S i :: done, errs ++ errs', over)
  end.

(** [Maintain]: the levels it compacted, the replica after pruning, its
    errors. [merge] is the effect of the compactions on the replica. *)
Definition Maintain (now : Z) (last : list (option Z)) (compact : nat -> compaction)
    (merge : list nat -> list file -> list file) (clock : file -> Z) (rounds : Z -> round) (st : list file)
    : list (option Z) * list nat * list file * list goerror :=
  let '(levels, last') := due now last in
  match levels with
  | [] => (last', [], st, [])
  | _ =>
      let '(done, errs, finished) := compactDue compact levels in
      let st := merge done st in
      if (finished : bool) then
        let '(st, errs') := pruneCovered clock rounds st in (last', done, st, errs ++ errs')
      else (last', done, st, errs)
  end.

(** ** [Compact], deleting its sources *)

Section Delete.
Context (compact : Z -> list file -> compacted) (threshold retention : Z).

(** [deleteCovered] at a reading of the clock. *)
Definition deleteCovered (l : listing) (d : deletion) (now level maxTXID : Z) (st : list file)
    : list file * option goerror :=
  match listLTXFiles l st level with
  | Err e => (st, Some e)
  | Ok infos =>
      match List.filter (fun f => (MaxTXID f <=? maxTXID) && negb (cutoff now retention <? CreatedAt f)) infos with
      | [] => (st, None)
      | fs => (deleteFiles d st fs, deleteErr d)
      end
  end.

(** What the environment does in the round of one destination level. *)
Record pass := mkPass { countErr : option goerror; counted : nat; listed : listing; dele : deletion; readAt : Z }.

(** The loop of [CompactWithClient] on the replica itself: the replica, the
    files merged, and the error that ended it. *)
Fixpoint compactDeleting (env : Z -> pass) (levels : list Z) (st : list file) (merged : list file)
    : list file * list file * option goerror :=
  match levels with
  | [] => (st, merged, None)
  | level :: levels =>
      match countErr (env level) with
      | Some e => (st, merged, Some (EWrapf "litestream: count level" e))
      | None =>
          if Z.of_nat (counted (env level)) <=? threshold then compactDeleting env levels st merged
          else match compact level st with
               | NoCompaction => compactDeleting env levels st merged
               | CompactErr e => (st, merged, Some (EWrapf "litestream: compact level" e))
               | Compacted info =>
                   let '(st, err) := deleteCovered (listed (env level)) (dele (env level)) (readAt (env level))
                                       (level - 1) (MaxTXID info) (info :: st) in
                   match err with
                   | Some e => (st, merged ++ [info], Some (EWrapf "litestream: delete compacted level" e))
                   | None => compactDeleting env levels st (merged ++ [info])
                   end
               end
      end
  end.
End Delete.

(** [Database.Compact]: the number of levels merged, and the error. *)
Definition Compact (compact : Z -> list file -> compacted) (threshold retention : Z) (env : Z -> pass)
    (st : list file) : list file * Z * option goerror :=
  let '(st, merged, err) := compactDeleting compact (if threshold <=? 0 then 1 else threshold) retention env
                              destinationLevels st [] in
  (st, Z.of_nat (length merged), err).

(** ** [HasLTX] *)

Definition probeLevels : list Z := [0; SnapshotLevel; 1; 2; 3; 4; 5; 6; 7; 8].

(** One probe: the listing opens or fails; it sees a first file or not; its
    [Err] at the end. *)
Record probe := mkProbe { listErr : option goerror; first : bool; iterErr : option goerror }.

Fixpoint probeAll (probes : Z -> probe) (levels : list Z) : res goerror bool :=
  match levels with
  | [] => Ok false
  | level :: levels =>
      match listErr (probes level), iterErr (probes level) with
      | Some e, _ => Err (EWrapf "litestream: list LTX files" e)
      | None, Some e => Err (EWrapf "litestream: list LTX files" e)
      | None, None => if first (probes level) then Ok true else probeAll probes levels
      end
  end.

Definition HasLTX (init : option goerror) (probes : Z -> probe) : res goerror bool :=
  match init with
  | Some e => Err (EWrapf "litestream: init replica client" e)
  | None => probeAll probes probeLevels
  end.

(** ** Lemmas *)

Lemma elem_of_level_files st level f : f ∈ level_files st level <-> f ∈ st /\ Level f = level.
Proof. unfold level_files. rewrite elem_of_filter_b, Z.eqb_eq. done. Qed.

Lemma sublist_filter_b {A} (p : A -> bool) l : List.filter p l `sublist_of` l.
Proof. induction l as [|x l IH]; [done|]. cbn. destruct (p x); by constructor. Qed.

Lemma listed_sub l st level infos :
  listLTXFiles l st level = Ok infos -> infos `sublist_of` level_files st level.
Proof.
  unfold listLTXFiles. destruct (openErr l); [done|]. destruct (closeErr l); [done|].
  intros [= <-]. destruct (cut l); [apply sublist_take|done].
Qed.

Lemma sublist_in {A} (x : A) l k : l `sublist_of` k -> x ∈ l -> x ∈ k.
Proof.
  induction 1 as [|y l k Hl IH|y l k Hl IH]; [done| |].
  - rewrite !elem_of_cons. intros [->|Hx]; auto.
  - rewrite elem_of_cons. auto.
Qed.

Lemma NoDup_sublist {A} (l k : list A) : l `sublist_of` k -> NoDup k -> NoDup l.
Proof.
  induction 1 as [|y l k Hl IH|y l k Hl IH]; [done| |]; intros [Hy Hk]%NoDup_cons; [|auto].
  constructor; [|auto]. intros Hin. by apply Hy, (sublist_in y l).
Qed.

Lemma listed_in l st level infos f :
  listLTXFiles l st level = Ok infos -> f ∈ infos -> f ∈ st /\ Level f = level.
Proof. intros Hl Hf. apply elem_of_level_files. by eapply sublist_in; [eapply listed_sub|]. Qed.

(** A file survives the deletion of files of other levels, or of other keys. *)
Lemma deleteFiles_keeps d st fs f :
  f ∈ st -> (forall g, g ∈ fs -> fkey g <> fkey f) -> f ∈ deleteFiles d st fs.
Proof.
  intros Hf Hk. apply elem_of_filter_b. split; [done|]. apply orb_true_iff. left.
  apply negb_true_iff, not_true_is_false. intros (g & Hg & He)%manifestContains_spec. by eapply Hk.
Qed.

Lemma deleteFiles_gone d st fs f :
  f ∈ st -> f ∉ deleteFiles d st fs -> exists g, g ∈ fs /\ fkey g = fkey f.
Proof.
  intros Hf Hn. apply manifestContains_spec. destruct (manifestContains fs f) eqn:Hc; [done|].
  exfalso. apply Hn. apply elem_of_filter_b. by rewrite Hc.
Qed.

Lemma deleteFiles_sub d st fs : deleteFiles d st fs `sublist_of` st.
Proof. apply sublist_filter_b. Qed.

Lemma fkey_level f g : fkey f = fkey g -> Level f = Level g.
Proof. by intros [= ? _ _]. Qed.

(** A replica holds one file per key. *)
Lemma unique_key (st : list file) f g :
  NoDup (fkey <$> st) -> f ∈ st -> g ∈ st -> fkey f = fkey g -> f = g.
Proof.
  intros Hnd [i Hi]%list_elem_of_lookup [j Hj]%list_elem_of_lookup He.
  assert (i = j) as ->; [|congruence].
  apply (NoDup_lookup _ _ _ (fkey f) Hnd); rewrite list_lookup_fmap; [by rewrite Hi|by rewrite Hj, He].
Qed.

(** *** Pruning *)

(** [g] holds everything [f] does, at its level or above. *)
Definition subsumes (g f : file) : Prop :=
  Level f <= Level g /\ MinTXID g <= MinTXID f /\ MaxTXID f <= MaxTXID g.

Lemma subsumes_refl f : subsumes f f.
Proof. unfold subsumes. lia. Qed.
Lemma subsumes_trans f g h : subsumes g f -> subsumes h g -> subsumes h f.
Proof. unfold subsumes. lia. Qed.

Section PruneLemmas.
Context (clock : file -> Z).

Lemma stale_spec covered sources s :
  s ∈ stale clock covered sources ->
  s ∈ sources /\ pruneAge <= clock s - CreatedAt s /\
  exists n, n ∈ covered /\ MinTXID n <= MinTXID s /\ MaxTXID s <= MaxTXID n.
Proof.
  intros (Hs & Hb)%elem_of_filter_b. apply andb_true_iff in Hb as [Ha He]. bool_prop.
  apply existsb_exists in He as (n & Hn & Hw). unfold within in Hw. bool_prop.
  split_and!; [done|lia|]. exists n. rewrite list_elem_of_In. split_and!; [done|lia|lia].
Qed.

Lemma removelast_prefix {A} (l : list A) : removelast l `prefix_of` l.
Proof.
  induction l as [|x l IH]; [done|]. destruct l as [|y l]; [by exists [x]|].
  change (removelast (x :: y :: l)) with (x :: removelast (y :: l)). by apply prefix_cons.
Qed.

Lemma pruned_stale covered sources s :
  s ∈ pruned clock covered sources -> s ∈ stale clock covered sources.
Proof.
  unfold pruned. destruct (1 <? _)%nat; [|by intros ?%not_elem_of_nil].
  intros Hs. destruct (removelast_prefix (stale clock covered sources)) as [k ->].
  apply elem_of_app. by left.
Qed.

Lemma pruneLevel_cases r level st st' errs :
  pruneLevel clock r level st = (st', errs) ->
  st' = st \/ exists covered sources,
    (forall n, n ∈ covered -> n ∈ st /\ Level n = level + 1) /\
    sources `sublist_of` level_files st level /\
    pruned clock covered sources <> [] /\
    st' = deleteFiles (del r) st (pruned clock covered sources).
Proof.
  unfold pruneLevel. destruct (listLTXFiles (coveredList r) st (level + 1)) as [covered|] eqn:Hc;
    [|intros [= <- _]; by left].
  destruct (listLTXFiles (sourceList r) st level) as [sources|] eqn:Hs; [|intros [= <- _]; by left].
  destruct (pruned clock covered sources) as [|f fs] eqn:Hp; intros [= <- _]; [by left|right].
  exists covered, sources. rewrite Hp. split_and!; [|by eapply listed_sub|done|done].
  intros n Hn. by eapply listed_in.
Qed.

Lemma pruneLevel_subsumed r level st st' errs f :
  pruneLevel clock r level st = (st', errs) -> f ∈ st -> exists g, g ∈ st' /\ subsumes g f.
Proof.
  intros H Hf. destruct (pruneLevel_cases _ _ _ _ _ H) as [->|(covered & sources & Hc & Hs & _ & ->)].
  { exists f. split; [done|apply subsumes_refl]. }
  destruct (decide (f ∈ deleteFiles (del r) st (pruned clock covered sources))) as [|Hn].
  { exists f. split; [done|apply subsumes_refl]. }
  destruct (deleteFiles_gone _ _ _ _ Hf Hn) as (s & Hps & Hk).
  assert (Hlev : forall g, g ∈ pruned clock covered sources -> Level g = level).
  { intros g (Hg & _)%pruned_stale%stale_spec. apply (sublist_in g) in Hs; [|done].
    by apply elem_of_level_files in Hs as [_ ?]. }
  pose proof (Hlev s Hps) as Hl.
  apply pruned_stale, stale_spec in Hps as (_ & _ & n & Hn' & H1 & H2).
  destruct (Hc n Hn') as [Hst Hln]. injection Hk as K1 K2 K3.
  exists n. split; [|unfold subsumes; lia]. apply deleteFiles_keeps; [done|].
  intros g Hg He. apply fkey_level in He. rewrite Hlev in He by done. lia.
Qed.

Lemma pruneLevel_sub r level st st' errs :
  pruneLevel clock r level st = (st', errs) -> st' `sublist_of` st.
Proof.
  intros H. destruct (pruneLevel_cases _ _ _ _ _ H) as [->|(? & ? & _ & _ & _ & ->)]; [done|].
  apply deleteFiles_sub.
Qed.

(** Whatever is deleted has been superseded for [pruneAge]. *)
Lemma pruneLevel_aged r level st st' errs f :
  NoDup (fkey <$> st) -> pruneLevel clock r level st = (st', errs) -> f ∈ st -> f ∉ st' ->
  pruneAge <= clock f - CreatedAt f.
Proof.
  intros Hnd H Hf Hn. destruct (pruneLevel_cases _ _ _ _ _ H) as [->|(? & ? & _ & Hs & _ & ->)]; [done|].
  destruct (deleteFiles_gone _ _ _ _ Hf Hn) as (s & Hps & Hk).
  apply pruned_stale, stale_spec in Hps as (Hsrc & Ha & _).
  apply (sublist_in s) in Hs; [|done]. apply elem_of_level_files in Hs as [Hs _].
  by rewrite <- (unique_key st s f Hnd Hs Hf Hk).
Qed.

Lemma filter_keys_NoDup (l k : list file) : l `sublist_of` k -> NoDup (fkey <$> k) -> NoDup (fkey <$> l).
Proof. intros Hl. apply NoDup_sublist. induction Hl; cbn; by constructor. Qed.

Lemma removelast_snoc {A} (l : list A) : l <> [] -> exists x, l = removelast l ++ [x].
Proof. intros Hl. destruct (exists_last Hl) as (k & x & ->). exists x. by rewrite removelast_last. Qed.

(** No level is emptied. *)
Lemma pruneLevel_nonempty r level st st' errs f :
  NoDup (fkey <$> st) -> pruneLevel clock r level st = (st', errs) -> f ∈ st ->
  exists g, g ∈ st' /\ Level g = Level f.
Proof.
  intros Hnd H Hf. destruct (pruneLevel_cases _ _ _ _ _ H) as [->|(covered & sources & _ & Hs & Hne & ->)]; [eauto|].
  destruct (decide (f ∈ deleteFiles (del r) st (pruned clock covered sources))) as [|Hn]; [eauto|].
  destruct (deleteFiles_gone _ _ _ _ Hf Hn) as (s & Hps & Hk%fkey_level).
  unfold pruned in *. destruct (1 <? length (stale clock covered sources))%nat; [|done].
  destruct (removelast_snoc (stale clock covered sources)) as [x Hx]; [intros He; rewrite He in Hps; by apply not_elem_of_nil in Hps|].
  assert (Hsub : stale clock covered sources `sublist_of` level_files st level)
    by (etrans; [apply sublist_filter_b|done]).
  assert (Hkeys : NoDup (fkey <$> stale clock covered sources)).
  { apply (filter_keys_NoDup _ st); [|done]. etrans; [done|apply sublist_filter_b]. }
  assert (Hall : forall g, g ∈ stale clock covered sources -> g ∈ st /\ Level g = level).
  { intros g Hg. apply elem_of_level_files. by eapply sublist_in. }
  rewrite Hx in Hall. destruct (Hall x) as [Hxs Hxl]; [apply elem_of_app; right; by apply list_elem_of_singleton|].
  exists x. split.
  - apply deleteFiles_keeps; [done|]. intros g Hg He. rewrite Hx, fmap_app in Hkeys.
    apply NoDup_app in Hkeys as (_ & Hd & _). apply (Hd (fkey g)).
    + by apply list_elem_of_fmap_2.
    + rewrite He. by left.
  - rewrite Hxl, <- Hk. symmetry. apply Hall, elem_of_app. by left.
Qed.

(** What a run of rounds guarantees about the replica before and after. *)
Record keeps_replica (st st' : list file) : Prop := {
  kr_sub : st' `sublist_of` st;
  kr_subsumed : forall f, f ∈ st -> exists g, g ∈ st' /\ subsumes g f;
  kr_aged : forall f, f ∈ st -> f ∉ st' -> pruneAge <= clock f - CreatedAt f;
  kr_levels : forall f, f ∈ st -> exists g, g ∈ st' /\ Level g = Level f;
}.

Lemma keeps_replica_refl st : keeps_replica st st.
Proof. split; [done| |done|eauto]. intros f Hf. exists f. split; [done|apply subsumes_refl]. Qed.

Lemma keeps_replica_trans st st' st'' :
  keeps_replica st st' -> keeps_replica st' st'' -> keeps_replica st st''.
Proof.
  intros H H'. split.
  - etrans; [apply H'|apply H].
  - intros f (g & Hg & Hgf)%(kr_subsumed _ _ H). destruct (kr_subsumed _ _ H' g Hg) as (h & Hh & Hhg).
    exists h. split; [done|]. by eapply subsumes_trans.
  - intros f Hf Hn. destruct (decide (f ∈ st')); [by apply (kr_aged _ _ H')|by apply (kr_aged _ _ H)].
  - intros f (g & Hg & <-)%(kr_levels _ _ H). by apply (kr_levels _ _ H').
Qed.

Lemma pruneLevels_keeps rounds levels st st' errs :
  NoDup (fkey <$> st) -> pruneLevels clock rounds levels st = (st', errs) -> keeps_replica st st'.
Proof.
  revert st st' errs. induction levels as [|l ls IH]; intros st st' errs Hnd; cbn [pruneLevels].
  { intros [= <- _]. apply keeps_replica_refl. }
  destruct (pruneLevel clock (rounds l) l st) as [st1 e1] eqn:H1.
  destruct (pruneLevels clock rounds ls st1) as [st2 e2] eqn:H2. intros [= <- _].
  assert (Hk : keeps_replica st st1).
  { split.
    - by eapply pruneLevel_sub.
    - intros f. by eapply pruneLevel_subsumed.
    - intros f. by eapply pruneLevel_aged.
    - intros f. by eapply pruneLevel_nonempty. }
  eapply keeps_replica_trans; [done|]. eapply IH; [|done].
  eapply filter_keys_NoDup; [apply Hk|done].
Qed.
End PruneLemmas.

(** *** Compaction that deletes its sources *)

Definition covers (st : list file) (t : Z) : Prop := exists f, f ∈ st /\ MinTXID f <= t <= MaxTXID f.

Lemma deleteCovered_keeps retention l d now level info st st' err compact t :
  compactor_ok compact -> compact (level + 1) st = Compacted info ->
  deleteCovered retention l d now level (MaxTXID info) (info :: st) = (st', err) ->
  covers st t -> covers st' t.
Proof.
  intros Hok Hcomp H (f & Hf & Ht). destruct (Hok _ _ _ Hcomp) as [Hlev Hcov].
  unfold deleteCovered in H.
  destruct (listLTXFiles l (info :: st) level) as [infos|] eqn:Hl.
  2:{ injection H as <- _. exists f. split; [by right|done]. }
  set (fs := List.filter _ infos) in H.
  assert (Hfs : forall g, g ∈ fs -> Level g = level /\ MaxTXID g <= MaxTXID info).
  { intros g (Hg & Hb)%elem_of_filter_b. bool_prop. split; [by eapply listed_in|lia]. }
  assert (Hdel : st' = info :: st \/ st' = deleteFiles d (info :: st) fs).
  { destruct fs; injection H as <- _; auto. }
  assert (Hkept : forall g, g ∈ info :: st -> (Level g <> level \/ MaxTXID info < MaxTXID g) -> g ∈ st').
  { intros g Hg Hneq. destruct Hdel as [->| ->]; [done|]. apply deleteFiles_keeps; [done|].
    intros x [Hx1 Hx2]%Hfs [= ? _ ?]. lia. }
  destruct (decide (Level f = level /\ MaxTXID f <= MaxTXID info)) as [[Hfl Hfm]|Hn].
  - destruct (Hcov f t) as [Hi|(g & Hg & Hgl & Hgt)]; [done|lia|done|done| |].
    + exists info. split; [apply Hkept; [by left|lia]|done].
    + exists g. split; [apply Hkept; [by right|lia]|done].
  - exists f. split; [apply Hkept; [by right|lia]|done].
Qed.

Lemma compactDeleting_keeps compact threshold retention env levels st merged st' m err t :
  compactor_ok compact ->
  compactDeleting compact threshold retention env levels st merged = (st', m, err) ->
  covers st t -> covers st' t.
Proof.
  intros Hok. revert st merged. induction levels as [|l ls IH]; intros st merged; cbn [compactDeleting].
  { by intros [= <- _ _]. }
  destruct (countErr (env l)); [by intros [= <- _ _]|].
  destruct (_ <=? threshold); [apply IH|].
  destruct (compact l st) as [|e|info] eqn:Hc; [apply IH|by intros [= <- _ _]|].
  destruct (deleteCovered _ _ _ _ _ _ _) as [st1 e1] eqn:Hd. intros H Ht.
  assert (H1 : covers st1 t).
  { eapply deleteCovered_keeps; [done| |done|done]. by replace (l - 1 + 1) with l by lia. }
  destruct e1; [by injection H as <- _ _|]. by eapply IH.
Qed.

(** *** The probe *)

Lemma probeAll_spec probes levels :
  match probeAll probes levels with
  | Ok true => exists l, l ∈ levels /\ first (probes l) = true /\ iterErr (probes l) = None
  | Ok false => forall l, l ∈ levels -> first (probes l) = false /\ iterErr (probes l) = None
  | Err _ => exists l, l ∈ levels /\ (is_Some (listErr (probes l)) \/ is_Some (iterErr (probes l)))
  end.
Proof.
  induction levels as [|l ls IH]; cbn [probeAll]; [by intros l ?%not_elem_of_nil|].
  destruct (listErr (probes l)) as [e|] eqn:Hl; [exists l; rewrite Hl; split; [by left|eauto]|].
  destruct (iterErr (probes l)) as [e|] eqn:Hi; [exists l; rewrite Hi; split; [by left|eauto]|].
  destruct (first (probes l)) eqn:Hf; [exists l; split; [by left|done]|].
  destruct (probeAll probes ls) as [[]|e].
  - destruct IH as (k & Hk & ?). exists k. split; [by right|done].
  - intros k [->|Hk]%elem_of_cons; [done|by apply IH].
  - destruct IH as (k & Hk & ?). exists k. split; [by right|done].
Qed.

(** An iterator that shows no first file and reports no error has seen an
    empty level; one that shows a file has found it there. *)
Definition iterators_true (probes : Z -> probe) (st : list file) : Prop := forall l,
  (first (probes l) = true -> level_files st l <> []) /\
  (first (probes l) = false -> iterErr (probes l) = None -> level_files st l = []).

(** ** Theorems *)

(** C13  Pruning never removes state a restore plan needs: whichever listings
    fail or stop early and whichever deletions fail half way, every file of
    the replica is afterwards still held, by itself or by a file of a higher
    level that contains its whole range; nothing younger than [pruneAge] is
    deleted, nothing is added, and no level that had files is left empty. *)
Theorem prune_keeps_plan (clock : file -> Z) (rounds : Z -> round) (st st' : list file)
    (errs : list goerror)
    (Hkeys : NoDup (fkey <$> st)) (Hrun : pruneCovered clock rounds st = (st', errs)) :
  st' `sublist_of` st /\
  (forall f, f ∈ st -> exists g, g ∈ st' /\
     Level f <= Level g /\ MinTXID g <= MinTXID f /\ MaxTXID f <= MaxTXID g) /\
  (forall f, f ∈ st -> f ∉ st' -> pruneAge <= clock f - CreatedAt f) /\
  (forall f, f ∈ st -> exists g, g ∈ st' /\ Level g = Level f).
Proof.
  destruct (pruneLevels_keeps clock _ _ _ _ _ Hkeys Hrun) as [H1 H2 H3 H4]. split_and!; done.
Qed.


(** A replica is reported empty only if it is: without an error, the probe
    answers whether any of the levels holds a file, the snapshot level and
    the levels only compaction writes included; an error means that some
    listing failed. *)
Theorem probe_exact (probes : Z -> probe) (st : list file)
    (Hlevels : forall f, f ∈ st -> 0 <= Level f <= SnapshotLevel)
    (Htrue : iterators_true probes st) :
  match HasLTX None probes with
  | Ok b => b = true <-> st <> []
  | Err _ => exists l, 0 <= l <= SnapshotLevel /\ (is_Some (listErr (probes l)) \/ is_Some (iterErr (probes l)))
  end.
Proof.
  unfold HasLTX. pose proof (probeAll_spec probes probeLevels) as H.
  assert (Hin : forall l, 0 <= l <= SnapshotLevel <-> l ∈ probeLevels).
  { intros l. unfold probeLevels, SnapshotLevel. rewrite !elem_of_cons.
    split; intros Hl.
    - assert (l = 0 \/ l = 9 \/ l = 1 \/ l = 2 \/ l = 3 \/ l = 4 \/ l = 5 \/ l = 6 \/ l = 7 \/ l = 8) by lia. tauto.
    - repeat destruct Hl as [->|Hl]; try lia. by apply not_elem_of_nil in Hl. }
  destruct (probeAll probes probeLevels) as [[]|e].
  - destruct H as (l & _ & Hf & _). split; [|done]. intros _ ->. by apply (proj1 (Htrue l)).
  - split; [done|]. intros Hne. exfalso. destruct st as [|f st]; [done|].
    assert (Hf : f ∈ f :: st) by (by left). specialize (Hlevels f Hf).
    destruct (H (Level f)) as [H1 H2]; [by apply Hin|].
    pose proof (proj2 (Htrue (Level f)) H1 H2) as H3.
    apply (not_elem_of_nil f). rewrite <- H3. by apply elem_of_level_files.
  - destruct H as (l & Hl & ?). exists l. split; [by apply Hin|done].
Qed.

(** The cadence: a level is compacted when its interval has passed since the
    last time it was due, and only then; being due is what is remembered,
    whatever the compaction answered. *)
Lemma due_spec (now : Z) (last : list (option Z)) (i : nat) (t : option Z) (interval : Z) :
  last !! i = Some t -> maintainIntervals !! i = Some interval ->
  (i ∈ (due now last).1 <-> interval <= since now t) /\
  (due now last).2 !! i = Some (if interval <=? since now t then Some now else t).
Proof.
  intros Hl Hi. unfold due. cbn [fst snd].
  set (d := List.map _ (combine last maintainIntervals)).
  assert (Hd : d !! i = Some (interval <=? since now t)).
  { unfold d. change (List.map ?f ?l) with (f <$> l). rewrite list_lookup_fmap.
    assert (Hz : combine last maintainIntervals !! i = Some (t, interval)).
    { change (combine last maintainIntervals) with (zip last maintainIntervals).
      apply lookup_zip_with_Some. eauto. }
    by rewrite Hz. }
  split.
  - rewrite elem_of_filter_b. erewrite nth_lookup_Some by done. rewrite Z.leb_le. 
    split; [by intros [_ ?]|]. intros H. split; [|done]. apply elem_of_seq.
    apply lookup_lt_Some in Hd. clearbody d. split; [apply Nat.le_0_l|exact Hd].
  - change (List.map ?f ?l) with (f <$> l). rewrite list_lookup_fmap.
    assert (Hz : combine last d !! i = Some (t, interval <=? since now t)).
    { change (combine last d) with (zip last d). apply lookup_zip_with_Some. eauto. }
    by rewrite Hz.
Qed.

(** ** Runs *)

(** Three old files of level 0, all inside one file of level 1. *)
Definition aReplica : list file :=
  [mkFile 0 1 1 10 0; mkFile 0 2 2 10 0; mkFile 0 3 3 10 0; mkFile 1 1 3 25 0].
Definition fine : listing := mkListing None None None.
Definition all_deleted : deletion := mkDeletion (fun _ => false) None.
Definition fine_rounds (_ : Z) : round := mkRound fine fine all_deleted.

Lemma aReplica_keys : NoDup (fkey <$> aReplica).
Proof. apply (bool_decide_unpack _). vm_compute. exact I. Qed.

Lemma prune_keeps_plan_witness :
  pruneCovered (fun _ => hour) fine_rounds aReplica = ([mkFile 0 3 3 10 0; mkFile 1 1 3 25 0], []) /\
  exists g, g ∈ [mkFile 0 3 3 10 0; mkFile 1 1 3 25 0] /\
    0 <= Level g /\ MinTXID g <= 2 /\ 2 <= MaxTXID g.
Proof.
  split; [vm_compute; reflexivity|].
  destruct (prune_keeps_plan (fun _ => hour) fine_rounds aReplica [mkFile 0 3 3 10 0; mkFile 1 1 3 25 0] [])
    as (_ & H & _).
  - exact aReplica_keys.
  - vm_compute. reflexivity.
  - destruct (H (mkFile 0 2 2 10 0)) as (g & Hg & H1 & H2 & H3).
    + right. left.
    + exists g. split; [exact Hg|]. split; [exact H1|]. split; [exact H2|exact H3].
Defined.

(** A compactor that merges a whole level into one file. *)
Definition merge_level (level : Z) (files : list file) : compacted :=
  match level_files files (level - 1) with
  | [] => NoCompaction
  | f :: fs =>
      Compacted (mkFile level (foldr (fun g m => Z.min (MinTXID g) m) (MinTXID f) fs)
                   (foldr (fun g m => Z.max (MaxTXID g) m) (MaxTXID f) fs) 0 0)
  end.

Lemma fold_min fs m f : f ∈ fs -> foldr (fun g m => Z.min (MinTXID g) m) m fs <= MinTXID f.
Proof.
  induction fs as [|g fs IH]; [by intros ?%not_elem_of_nil|]. cbn. intros [->|Hf]%elem_of_cons; [lia|].
  specialize (IH Hf). lia.
Qed.
Lemma fold_min_base fs m : foldr (fun g m => Z.min (MinTXID g) m) m fs <= m.
Proof. induction fs as [|g fs IH]; cbn; lia. Qed.

Lemma merge_level_ok : compactor_ok merge_level.
Proof.
  intros level files info. unfold merge_level.
  destruct (level_files files (level - 1)) as [|x fs] eqn:Hl; [done|]. intros [= <-]. split; [done|].
  cbn [MinTXID MaxTXID]. intros f t Hf Hlev Hmax Ht. left. split; [|lia].
  assert (Hin : f ∈ x :: fs) by (rewrite <- Hl; by apply elem_of_level_files).
  apply elem_of_cons in Hin as [->|Hin].
  - pose proof (fold_min_base fs (MinTXID x)). lia.
  - pose proof (fold_min fs (MinTXID x) f Hin). lia.
Qed.

Definition fine_pass (level : Z) : pass :=
  mkPass None (if level =? 1 then 3 else 1) fine all_deleted hour.

Definition compacted_replica : list file :=
  Eval vm_compute in (Compact merge_level 2 0 fine_pass aReplica).1.1.


(** An iterator over each level of the replica. *)
Definition probe_of (st : list file) (level : Z) : probe :=
  mkProbe None (match level_files st level with [] => false | _ => true end) None.

Lemma probe_exact_witness : HasLTX None (probe_of aReplica) = Ok true /\ (true = true <-> aReplica <> []).
Proof.
  split; [vm_compute; reflexivity|].
  refine (probe_exact (probe_of aReplica) aReplica _ _).
  - intros f Hf. unfold SnapshotLevel. repeat (apply elem_of_cons in Hf as [->|Hf]; [cbn; lia|]).
    by apply not_elem_of_nil in Hf.
  - intros l. unfold probe_of. cbn [first iterErr]. destruct (level_files aReplica l); split; done.
Defined.
