(* ===== verification/ManifestStore.v ===== *)
(** * ManifestStore: where the manifest is kept ([litestream/manifest.go])

    The three stores behind [ManifestStore] (a process-wide map, a file that
    is replaced by rename, an S3 object), the laws they share, [ReadManifest]
    and [WriteManifest] over any store that obeys them, and the listings that
    probe and rebuild an index ([TailTXID], [BuildManifest]). JSON is a
    parameter, with the law that decoding what was encoded gives it back. *)

From S2P Require Import Prelude Errors Identity Manifest Maintenance.

Notation bytes := (list Z).

(** ** The interface *)

(** A store of one document: [F] is how the environment treats one call. *)
Class Store (S F : Type) := {
  get : F -> S -> res goerror bytes;
  put : F -> bytes -> S -> S * option goerror;
  content : S -> option bytes;
  readable : bytes -> Prop;
  honest : F -> S -> Prop;   (* a document is reported missing only if it is *)
}.

(** What the callers rely on. A failed [put] may have taken effect. *)
Class StoreLaws (S F : Type) `{Store S F} := {
  get_ok f s b c : get f s = Ok b -> content s = Some c -> readable c -> b = c;
  get_found f s b : get f s = Ok b -> content s <> None;
  get_missing f s e : honest f s -> get f s = Err e -> errors_Is ErrManifestNotFound e = true -> content s = None;
  put_ok f b s s' : put f b s = (s', None) -> content s' = Some b;
  put_failed f b s s' e : put f b s = (s', Some e) -> content s' = content s \/ content s' = Some b;
}.

(** ** [memoryManifestStore] *)

(** The map shared by the process, seen by the store of one key. *)
Record memory := mkMemory { key : string; memoryManifests : gmap string bytes }.

#[export] Instance memory_store : Store memory unit := {
  get _ s := match memoryManifests s !! key s with
             | None => Err (ESentinel ErrManifestNotFound)
             | Some data => Ok data
             end;
  put _ data s := (mkMemory (key s) (<[key s := data]> (memoryManifests s)), None);
  content s := memoryManifests s !! key s;
  readable _ := True;
  honest _ _ := True;
}.

#[export] Instance memory_laws : StoreLaws memory unit.
Proof.
  split; cbn.
  - intros _ s b c H Hc _. rewrite Hc in H. by injection H as <-.
  - intros _ s b H. by destruct (memoryManifests s !! key s).
  - intros _ s e _ H _. by destruct (memoryManifests s !! key s).
  - intros _ b s s' [= <-]. apply lookup_insert_eq.
  - done.
Qed.

(** ** [fileManifestStore] *)

(** The manifest file, and the temporary files beside it. *)
Record directory := mkDirectory { manifest : option bytes; temps : gmap string bytes }.

(** How far a [Put] gets: the call that fails, or none. [Write] may write a
    part. *)
Inductive put_fault :=
  | MkdirFails (e : goerror)
  | CreateFails (e : goerror)
  | WriteFails (n : nat) (e : goerror)
  | SyncFails (e : goerror)
  | CloseFails (e : goerror)
  | RenameFails (e : goerror)
  | PutFine.

Inductive get_fault := ReadFails (e : goerror) | GetFine.

(** The states of the directory while [Put] runs, in order, and its result.
    The deferred [os.Remove] runs last, its error dropped ([rm]); after the
    rename it finds nothing. *)
Definition put_states (f : put_fault) (rm : bool) (tmp : string) (data : bytes) (s : directory)
    : list directory * option goerror :=
  let created := mkDirectory (manifest s) (<[tmp := []]> (temps s)) in
  let wrote b := mkDirectory (manifest s) (<[tmp := b]> (temps s)) in
  let renamed := mkDirectory (Some data) (delete tmp (temps s)) in
  let left b := mkDirectory (manifest s) (if rm then delete tmp (temps s) else <[tmp := b]> (temps s)) in
  match f with
  | MkdirFails e | CreateFails e => ([s], Some e)
  | WriteFails n e => ([s; created; wrote (take n data); left (take n data)], Some e)
  | SyncFails e | CloseFails e | RenameFails e => ([s; created; wrote data; left data], Some e)
  | PutFine => ([s; created; wrote data; renamed], None)
  end.

Definition file_put (f : put_fault) (rm : bool) (tmp : string) (data : bytes) (s : directory)
    : directory * option goerror :=
  (List.last (put_states f rm tmp data s).1 s, (put_states f rm tmp data s).2).

#[export] Instance file_store : Store directory (get_fault * (put_fault * bool) * string) := {
  get f s := match f.1.1 with
             | ReadFails e => Err e
             | GetFine => match manifest s with
                          | None => Err (ESentinel ErrManifestNotFound)
                          | Some data => Ok data
                          end
             end;
  put f data s := file_put f.1.2.1 f.1.2.2 f.2 data s;
  content := manifest;
  readable _ := True;
  (* other errors of [os] do not carry the sentinel of this package *)
  honest f _ := match f.1.1 with ReadFails e => errors_Is ErrManifestNotFound e = false | GetFine => True end;
}.

Lemma file_put_spec f rm tmp data s s' r :
  file_put f rm tmp data s = (s', r) ->
  match r with None => manifest s' = Some data | Some _ => manifest s' = manifest s end.
Proof. unfold file_put. destruct f; cbn; by intros [= <- <-]. Qed.

#[export] Instance file_laws : StoreLaws directory (get_fault * (put_fault * bool) * string).
Proof.
  split.
  - intros f s b c. cbn. destruct f.1.1; [done|]. intros H Hc _. rewrite Hc in H. by injection H as <-.
  - intros f s b. cbn. destruct f.1.1; [done|]. by destruct (manifest s).
  - intros f s e. cbn. destruct f.1.1 as [e'|]; [intros Hf [= ->]; congruence|].
    intros _ H _. by destruct (manifest s).
  - intros f b s s' H. exact (file_put_spec _ _ _ _ _ _ _ H).
  - intros f b s s' e H. left. exact (file_put_spec _ _ _ _ _ _ _ H).
Qed.

(** ** [s3ManifestStore] *)

Record object := mkObject { stored : option bytes }.

Definition readLimit : nat := Z.to_nat (Z.shiftl 16 20).

Opaque readLimit.

Inductive s3_get := ApiError (code : string) | TransportError (e : goerror) | BodyError (e : goerror) | Served.
Inductive s3_put := PutDone | PutRefused (e : goerror) | ReplyLost (e : goerror).

(** [Get]: the two codes for a missing object, the body cut at the limit. *)
Definition s3_Get (f : s3_get) (s : object) : res goerror bytes :=
  match f with
  | ApiError code =>
      if String.eqb code "NoSuchKey" || String.eqb code "NotFound"
      then Err (ESentinel ErrManifestNotFound) else Err (EOther code)
  | TransportError e | BodyError e => Err e
  | Served => match stored s with
              | Some data => Ok (take readLimit data)
              | None => Err (ESentinel ErrManifestNotFound)
              end
  end.

Definition s3_Put (f : s3_put) (data : bytes) (s : object) : object * option goerror :=
  match f with
  | PutDone => (mkObject (Some data), None)
  | PutRefused e => (s, Some e)
  | ReplyLost e => (mkObject (Some data), Some e)
  end.

#[export] Instance s3_store : Store object (s3_get * s3_put) := {
  get f s := s3_Get f.1 s;
  put f data s := s3_Put f.2 data s;
  content := stored;
  readable data := (length data <= readLimit)%nat;
  (* an object is reported missing only if it is, and the errors of the SDK
     do not carry the sentinel of this package *)
  honest f s := match f.1 with
                | ApiError code => String.eqb code "NoSuchKey" || String.eqb code "NotFound" = true -> stored s = None
                | TransportError e | BodyError e => errors_Is ErrManifestNotFound e = false
                | Served => True
                end;
}.

Lemma Ok_inj {E A} (x y : A) : @Ok E A x = Ok y -> x = y.
Proof. by intros [= ->]. Qed.

#[export] Instance s3_laws : StoreLaws object (s3_get * s3_put).
Proof.
  split.
  - intros f s b c. cbn. destruct f.1; cbn; [by case_match|discriminate|discriminate|].
    intros H Hc Hr. rewrite Hc in H. apply Ok_inj in H. rewrite <- H. apply take_ge. exact Hr.
  - intros f s b. cbn. destruct f.1; cbn; [by case_match|done|done|]. by destruct (stored s).
  - intros f s e. cbn. destruct f.1 as [code|e'|e'|]; cbn.
    + destruct (_ || _); [auto|]. by intros _ [= <-].
    + intros Hh [= ->]. congruence.
    + intros Hh [= ->]. congruence.
    + intros _ H _. by destruct (stored s).
  - intros f b s s'. cbn. destruct f.2; cbn; by intros [= <-].
  - intros f b s s' e. cbn. destruct f.2; cbn; intros [= <- _]; auto.
Qed.

(** [ensureEndpointScheme] *)
Definition ensureEndpointScheme (endpoint : string) : string :=
  if HasPrefix endpoint "http://" || HasPrefix endpoint "https://" then endpoint
  else "https://" +:+ endpoint.

(** [NewManifestStore]: the place chosen for a profile. [config] is the error
    of loading the configuration of the SDK, if it fails. *)
Inductive place := FileAt (path : string) | MemoryAt (key : string) | S3At (bucket key : string).

Definition newS3ManifestStore (config : option goerror) (p : Profile) (replicaPrefix : string) : res goerror place :=
  match config with
  | Some e => Err (EWrapf "litestream: manifest s3 config" e)
  | None => Ok (S3At (Bucket p)
                  (if String.eqb replicaPrefix "" then "manifest.json"
                   else Clean (replicaPrefix +:+ "/manifest.json")))
  end.

Definition NewManifestStore (config : option goerror) (replicaPrefix : string) (p : Profile) : res goerror place :=
  if String.eqb (Provider p) "file" then
    if String.eqb (FileRoot p) "" then Err (EOther "litestream: file provider requires FileRoot")
    else Ok (FileAt (Clean (FileRoot p +:+ "/" +:+ replicaPrefix +:+ "/manifest.json")))
  else if String.eqb (Provider p) "memory" then Ok (MemoryAt (replicaPrefix +:+ "/manifest.json"))
  else if String.eqb (Provider p) "s3" then newS3ManifestStore config p replicaPrefix
  else Err (EOther "litestream: unsupported provider").

(** [normalizeS3Region], with the two variables of the environment. *)
Definition normalizeS3Region (AWS_REGION AWS_DEFAULT_REGION explicit : string) : string :=
  let set r := negb (String.eqb r "") && negb (String.eqb r "auto") in
  if set explicit then explicit
  else if set AWS_REGION then AWS_REGION
  else if set AWS_DEFAULT_REGION then AWS_DEFAULT_REGION
  else "us-east-1".

(** [Bridge.ReplicaClient]: where the files of a replica are. *)
Inductive replica :=
  | FileReplica (root : string)
  | MemoryReplica (prefix : string)
  | S3Replica (bucket path region endpoint : string) (forcePathStyle : bool).

Definition ReplicaClient (AWS_REGION AWS_DEFAULT_REGION replicaPrefix : string) (p : Profile)
    : res goerror replica :=
  if String.eqb (Provider p) "file" then
    if String.eqb (FileRoot p) "" then Err (EOther "litestream: file provider requires FileRoot")
    else Ok (FileReplica (FileRoot p +:+ "/" +:+ replicaPrefix))
  else if String.eqb (Provider p) "memory" then Ok (MemoryReplica replicaPrefix)
  else if String.eqb (Provider p) "s3" then
    Ok (S3Replica (Bucket p) replicaPrefix (normalizeS3Region AWS_REGION AWS_DEFAULT_REGION (Region p))
          (Endpoint p) (negb (String.eqb (Endpoint p) "")))
  else Err (EOther "litestream: unsupported provider").

(** The manifest is kept beside the files it lists, for the same profiles. *)
Lemma manifest_beside_replica r1 r2 replicaPrefix p : replicaPrefix <> "" ->
  match ReplicaClient r1 r2 replicaPrefix p, NewManifestStore None replicaPrefix p with
  | Ok (FileReplica root), Ok (FileAt path) => path = Clean (root +:+ "/manifest.json")
  | Ok (MemoryReplica prefix), Ok (MemoryAt key) => key = prefix +:+ "/manifest.json"
  | Ok (S3Replica b path _ _ _), Ok (S3At b' key) => b' = b /\ key = Clean (path +:+ "/manifest.json")
  | Err e, Err e' => e = e'
  | _, _ => False
  end.
Proof.
  intros Hne. unfold ReplicaClient, NewManifestStore, newS3ManifestStore.
  rewrite (proj2 (String.eqb_neq replicaPrefix "") Hne).
  assert (Happ : forall a b c : string, (a +:+ b) +:+ c = a +:+ b +:+ c).
  { intros a b c. induction a as [|x a IH]; [done|]. exact (f_equal (String x) IH). }
  destruct (String.eqb (Provider p) "file").
  { destruct (String.eqb (FileRoot p) ""); [done|]. by rewrite (Happ (FileRoot p)), (Happ "/"). }
  destruct (String.eqb (Provider p) "memory"); [done|]. by destruct (String.eqb (Provider p) "s3").
Qed.

(** The region is never left to be guessed. *)
Lemma region_decided r1 r2 explicit :
  normalizeS3Region r1 r2 explicit <> "" /\ normalizeS3Region r1 r2 explicit <> "auto".
Proof.
  unfold normalizeS3Region. assert (Hset : forall r, negb (String.eqb r "") && negb (String.eqb r "auto") = true ->
    r <> "" /\ r <> "auto").
  { intros r [H1 H2]%andb_true_iff. apply negb_true_iff, String.eqb_neq in H1, H2. done. }
  repeat case_match; auto.
Qed.

(** ** [ReadManifest], [WriteManifest] *)

Section Database.
Context {S F : Type} `{StoreLaws S F}.
Context (Marshal : manifestDocument -> bytes) (Unmarshal : bytes -> option manifestDocument).

Definition ReadManifest (f : F) (s : S) : res goerror (list file * bool) :=
  match get f s with
  | Err e => if errors_Is ErrManifestNotFound e then Ok ([], false) else Err e
  | Ok data =>
      match Unmarshal data with
      | None => Err (EOther "litestream: decode manifest")
      | Some doc => match DecodeManifest doc with
                    | Err _ => Err (EOther "litestream: invalid manifest")
                    | Ok files => Ok (files, true)
                    end
      end
  end.

Definition WriteManifest (f : F) (files : list (option file)) (s : S) : S * option goerror :=
  put f (Marshal (EncodeManifest files)) s.

(** What is in a store, as a list of files. *)
Definition holds (s : S) (files : list (option file)) : Prop :=
  content s = Some (Marshal (EncodeManifest files)).

Hypothesis roundtrip : forall d, Unmarshal (Marshal d) = Some d.

Lemma read_holds f s files :
  holds s (Some <$> files) -> Forall valid_file files -> readable (Marshal (EncodeManifest (Some <$> files))) ->
  honest f s ->
  match ReadManifest f s with
  | Ok (out, ok) => ok = true /\ StronglySorted le2 out /\ NoDup (fkey <$> out) /\
      (forall k, k ∈ fkey <$> out <-> k ∈ fkey <$> files) /\
      (forall t, manifestHasTXID out t = manifestHasTXID files t) /\ manifestMaxTXID out = manifestMaxTXID files
  | Err e => get f s = Err e
  end.
Proof.
  intros Hs Hv Hr Hh. unfold ReadManifest. destruct (get f s) as [b|e] eqn:Hg.
  - rewrite (get_ok f s b _ Hg Hs Hr), roundtrip.
    destruct (roundtrip_spec files Hv) as (out & -> & H1 & H2 & _ & H3 & H4 & H5). done.
  - destruct (errors_Is ErrManifestNotFound e) eqn:He; [|done].
    pose proof (get_missing f s e Hh Hg He) as Hn. unfold holds in Hs. congruence.
Qed.
End Database.

(** ** Listings *)

(** One pass over a level: the open fails, or files are seen and the iterator
    and its [Close] report. *)
Record iteration := mkIteration { openFails : option goerror; seen : list file;
                                  iterFails : option goerror; closeFails : option goerror }.

Definition items (it : iteration) : res goerror (list file) :=
  match openFails it, iterFails it, closeFails it with
  | Some e, _, _ | None, Some e, _ | None, None, Some e => Err e
  | None, None, None => Ok (seen it)
  end.

Definition TailTXID (it : iteration) : res goerror Z :=
  match items it with
  | Err e => Err e
  | Ok fs => Ok (foldl (fun max f => if max <? MaxTXID f then MaxTXID f else max) 0 fs)
  end.

Fixpoint buildLevels (its : Z -> iteration) (levels : list Z) (files : list file)
    : res goerror (list file) :=
  match levels with
  | [] => Ok files
  | level :: levels =>
      match items (its level) with
      | Err e => Err e
      | Ok fs => buildLevels its levels (files ++ fs)
      end
  end.

Definition allLevels : list Z := [0; 1; 2; 3; 4; 5; 6; 7; 8; 9].

Definition BuildManifest (its : Z -> iteration) : res goerror (list file) := buildLevels its allLevels [].

Lemma buildLevels_spec its levels files out :
  buildLevels its levels files = Ok out ->
  exists fss, Forall2 (fun l fs => items (its l) = Ok fs) levels fss /\ out = files ++ concat fss.
Proof.
  revert files. induction levels as [|l ls IH]; intros files; cbn [buildLevels].
  { intros [= <-]. exists []. by rewrite app_nil_r. }
  destruct (items (its l)) as [fs|e] eqn:Hi; [|done]. intros H.
  destruct (IH _ H) as (fss & Hf & ->). exists (fs :: fss). split; [by constructor|].
  cbn. by rewrite app_assoc.
Qed.

(** An iteration that reports no error has seen the level. *)
Definition complete (st : list file) (its : Z -> iteration) : Prop :=
  forall l fs, items (its l) = Ok fs -> fs = level_files st l.

Lemma allLevels_spec l : l ∈ allLevels <-> 0 <= l <= SnapshotLevel.
Proof.
  unfold allLevels, SnapshotLevel. rewrite !elem_of_cons. split; intros Hl.
  - repeat destruct Hl as [->|Hl]; try lia. by apply not_elem_of_nil in Hl.
  - assert (l = 0 \/ l = 9 \/ l = 1 \/ l = 2 \/ l = 3 \/ l = 4 \/ l = 5 \/ l = 6 \/ l = 7 \/ l = 8) by lia. tauto.
Qed.

Lemma BuildManifest_spec st its out :
  complete st its -> BuildManifest its = Ok out ->
  forall f, f ∈ out <-> f ∈ st /\ 0 <= Level f <= SnapshotLevel.
Proof.
  intros Hc Hb f. apply buildLevels_spec in Hb as (fss & Hfss & ->). cbn [app].
  assert (Hall : forall levels fss, Forall2 (fun l fs => items (its l) = Ok fs) levels fss ->
    f ∈ concat fss <-> f ∈ st /\ Level f ∈ levels).
  { intros levels fss'. induction 1 as [|l fs ls fss'' Hi _ IH]; cbn [concat].
    - pose proof (not_elem_of_nil f). pose proof (not_elem_of_nil (Level f)). tauto.
    - rewrite elem_of_app, IH, (Hc l fs Hi), elem_of_level_files, elem_of_cons. tauto. }
  by rewrite (Hall _ _ Hfss), allLevels_spec.
Qed.

Lemma TailTXID_spec st its t :
  complete st its -> TailTXID (its 0) = Ok t ->
  0 <= t /\ (forall f, f ∈ st -> Level f = 0 -> MaxTXID f <= t) /\
  (t = 0 \/ exists f, f ∈ st /\ Level f = 0 /\ t = MaxTXID f).
Proof.
  intros Hc. unfold TailTXID. destruct (items (its 0)) as [fs|e] eqn:Hi; [|done]. intros [= <-].
  rewrite (Hc 0 fs Hi). destruct (manifestMaxTXID_acc (level_files st 0) 0) as (H1 & H2 & H3).
  split_and!; [done| |].
  - intros f Hf Hl. apply H2. by apply elem_of_level_files.
  - destruct H3 as [->|(f & Hf & ->)]; [by left|right]. apply elem_of_level_files in Hf as [? ?]. eauto.
Qed.

(** ** Theorems *)


(** C16  Replacing the manifest file is atomic: whichever call of [Put] fails,
    and wherever the process stops in the middle of it, a reader finds the
    old document or the new one, whole; a [Put] that reports success has
    stored the new one, one that reports an error has left the old one and,
    if it can be removed, no temporary file of its own. *)
Theorem file_put_atomic (f : put_fault) (rm : bool) (tmp : string) (data : bytes) (s mid : directory)
    (Hmid : mid ∈ (put_states f rm tmp data s).1) :
  (manifest mid = manifest s \/ manifest mid = Some data) /\
  match put_states f rm tmp data s with
  | (_, None) => manifest (file_put f rm tmp data s).1 = Some data
  | (_, Some _) => manifest (file_put f rm tmp data s).1 = manifest s
  end /\
  (rm = true -> temps s !! tmp = None -> temps (file_put f rm tmp data s).1 !! tmp = None).
Proof.
  split_and!.
  - destruct f; cbn in Hmid; rewrite !elem_of_cons in Hmid;
      repeat destruct Hmid as [->|Hmid]; cbn; auto; by apply not_elem_of_nil in Hmid.
  - by destruct f.
  - intros ->. unfold file_put. destruct f; cbn; intros Ht; rewrite ?lookup_delete_eq; done.
Qed.

(** A rebuilt index is complete and up to date: if every listing reports
    its errors, [BuildManifest] returns exactly the files of the replica, so
    the tail that [TailTXID] probes never lies beyond it. *)
Theorem rebuilt_manifest_complete (st : list file) (its its' : Z -> iteration) (out : list file) (tail : Z)
    (Hlevels : Forall (fun f => 0 <= Level f <= SnapshotLevel) st)
    (Hits : complete st its) (Hits' : complete st its')
    (Hbuild : BuildManifest its = Ok out) (Htail : TailTXID (its' 0) = Ok tail) :
  (forall f, f ∈ out <-> f ∈ st) /\ (forall t, manifestHasTXID out t = manifestHasTXID st t) /\
  tail <= manifestMaxTXID out.
Proof.
  assert (Hin : forall f, f ∈ out <-> f ∈ st).
  { intros f. rewrite (BuildManifest_spec st its out Hits Hbuild). rewrite Forall_forall in Hlevels.
    split; [by intros []|]. intros Hf. split; [done|by apply Hlevels]. }
  split_and!; [done| |].
  - intros t. apply eq_true_iff_eq. rewrite !manifestHasTXID_spec. by setoid_rewrite Hin.
  - destruct (TailTXID_spec st its' tail Hits' Htail) as (_ & _ & Ht).
    destruct (manifestMaxTXID_acc out 0) as (H1 & H2 & _). unfold manifestMaxTXID.
    destruct Ht as [->|(f & Hf & _ & ->)]; [done|]. apply H2. by apply Hin.
Qed.

(** A document longer than the read limit is stored and comes back cut off:
    the object store's [Put] has no such limit. *)
Theorem long_manifest_cut (data : bytes) (Hlong : (readLimit < length data)%nat) :
  (s3_Put PutDone data (mkObject None)).2 = None /\
  s3_Get Served (s3_Put PutDone data (mkObject None)).1 = Ok (take readLimit data) /\
  take readLimit data <> data.
Proof.
  split_and!; [done|done|]. intros He. apply (f_equal length) in He. rewrite length_take in He. lia.
Qed.

(** ** Witnesses *)

(** A concrete encoding, for the hypothesis on JSON: the fields in order. *)
Definition flatMarshal (d : manifestDocument) : bytes :=
  Version d :: concat ((fun f => [Level f; MinTXID f; MaxTXID f; Size f; CreatedAt f]) <$> Files d).

Fixpoint flatFiles (b : bytes) : option (list file) :=
  match b with
  | [] => Some []
  | l :: mi :: ma :: sz :: at_ :: b =>
      match flatFiles b with Some fs => Some (mkFile l mi ma sz at_ :: fs) | None => None end
  | _ => None
  end.

Definition flatUnmarshal (b : bytes) : option manifestDocument :=
  match b with
  | [] => None
  | v :: b => match flatFiles b with Some fs => Some (mkDoc v fs) | None => None end
  end.

Lemma flat_roundtrip d : flatUnmarshal (flatMarshal d) = Some d.
Proof.
  destruct d as [v fs]. cbn.
  assert (flatFiles (concat ((fun f => [Level f; MinTXID f; MaxTXID f; Size f; CreatedAt f]) <$> fs)) = Some fs) as ->;
    [|done].
  induction fs as [|[] fs IH]; [done|]. cbn in IH |- *. by rewrite IH.
Qed.

Definition aFile : file := mkFile 0 1 1 100 5.
Definition anotherFile : file := mkFile 0 2 3 100 6.
Definition aDirectory : directory := mkDirectory None ∅.
Definition aPut : get_fault * (put_fault * bool) * string := (GetFine, (PutFine, true), ".manifest-1").


Lemma file_put_atomic_witness :
  mkDirectory None {[".manifest-1" := [123]]} ∈ (put_states (WriteFails 1 (EOther "disk full")) true ".manifest-1" [123; 125] aDirectory).1 /\
  manifest (file_put (WriteFails 1 (EOther "disk full")) true ".manifest-1" [123; 125] aDirectory).1 = None.
Proof.
  assert (H : mkDirectory None {[".manifest-1" := [123]]}
    ∈ (put_states (WriteFails 1 (EOther "disk full")) true ".manifest-1" [123; 125] aDirectory).1).
  { vm_compute. right. right. left. }
  split; [exact H|].
  exact (proj1 (proj2 (file_put_atomic (WriteFails 1 (EOther "disk full")) true ".manifest-1" [123; 125] aDirectory _ H))).
Defined.

Definition aListing (l : Z) : iteration := mkIteration None (level_files [aFile; anotherFile] l) None None.

Lemma rebuilt_manifest_complete_witness :
  BuildManifest aListing = Ok [aFile; anotherFile] /\ 3 <= manifestMaxTXID [aFile; anotherFile].
Proof.
  assert (Hc : complete [aFile; anotherFile] aListing).
  { intros l fs H. cbn in H. by injection H as <-. }
  assert (Hl : Forall (fun f => 0 <= Level f <= SnapshotLevel) [aFile; anotherFile]).
  { repeat constructor; vm_compute; intros; discriminate. }
  assert (Hb : BuildManifest aListing = Ok [aFile; anotherFile]) by (vm_compute; reflexivity).
  split; [exact Hb|].
  exact (proj2 (proj2 (rebuilt_manifest_complete [aFile; anotherFile] aListing aListing [aFile; anotherFile] 3
    Hl Hc Hc Hb eq_refl))).
Defined.
