(* ===== verification/Descriptors.v ===== *)
(** * Descriptors: from the request to the replica, the lease and the registry

    What [bindings/c/adapter.go] makes of the descriptor of a request
    ([descriptorJSON], [ddescriptor], [runtimeProfile], [handledCtx.context]),
    followed to the places that use it: the key and the profile of
    [Runtime.database], the lease key of [identity/identity.go], the replica
    client of [litestream/litestream.go] and the manifest store beside it. *)

From S2P Require Import Prelude Errors Identity Idempotency ManifestStore.

(** ** The request *)

(** [profileJSON], [credsJSON], [descriptorJSON] *)
Record profileJSON := mkProfileJSON {
  p_provider : string; p_endpoint : string; p_region : string; p_bucket : string; p_root_prefix : string;
  p_access_key_id : string; p_secret_access_key : string; p_file_root : string;
}.
Record credsJSON := mkCredsJSON { c_access_key_id : string; c_secret_access_key : string }.
Record descriptorJSON := mkDescriptorJSON {
  d_database_id : string; d_storage : profileJSON; d_credentials : credsJSON;
}.

(** [litestream.Profile] as it is: the location, and the pair of keys. *)
Record lsProfile := mkLsProfile { location : Profile; AccessKeyID : string; SecretAccessKey : string }.

Definition runtimeProfile (p : profileJSON) : lsProfile :=
  mkLsProfile
    (Identity.mkProfile (p_provider p) (p_endpoint p) (p_region p) (p_bucket p) (p_root_prefix p) (p_file_root p))
    (p_access_key_id p) (p_secret_access_key p).

(** A [runtime.DatabaseDescriptor] with its whole profile, and the part of it
    that [Idempotency] knows. *)
Record requestDescriptor := mkRequest { DatabaseID : string; Storage : lsProfile; Creds : StaticCredentials }.

Definition ddescriptor (d : descriptorJSON) : requestDescriptor :=
  mkRequest (d_database_id d) (runtimeProfile (d_storage d))
    (mkStatic (c_access_key_id (d_credentials d)) (c_secret_access_key (d_credentials d))).

Definition forget (d : requestDescriptor) : DatabaseDescriptor StaticCredentials :=
  Idempotency.mkDescriptor (DatabaseID d) (location (Storage d)) (Creds d).

(** [handledCtx.context]: the deadline in milliseconds since 1970, if any. *)
Definition context (DeadlineMs : Z) : option Z := if 0 <? DeadlineMs then Some DeadlineMs else None.

(** ** Where it leads *)

(** The head of [Runtime.database]: the profile that [RegisterDatabase] gets,
    and the registry key. *)
Definition databaseProfile {C} `{CredentialSource C} (creds : C) (storage : lsProfile) (id : string)
    : res goerror (string * lsProfile) :=
  match AccessKey creds with
  | Err err => Err (Wrap ClassConfigurationInvalid "resolve credentials" err)
  | Ok (keyID, secret) =>
      let profile := mkLsProfile (location storage) keyID secret in
      Ok (registryKey id (location profile), profile)
  end.

(** The keys [Manager.Acquire] and [Manager.AcquireKey] give to
    [acquireSingleFlight]; [keys] is the function of the manager, if it has
    one, and [rootPrefix] the optional argument. *)
Definition AcquireKeyOf (keys : option (string -> string)) (db : string) (rootPrefix : list string) : string :=
  match keys with
  | Some keys => keys db
  | None => LeaseKey (match rootPrefix with prefix :: _ => prefix | [] => "" end) db
  end.
Definition ExplicitKey (key : string) : res goerror string :=
  if String.eqb key "" then Err (EOther "lease: key is required") else Ok key.

(** The lease of a write ([withWriteAttempt], [runCompaction]; the manager of a
    runtime has no key function), that of a background pass, and the replica
    client, in an environment with the two region variables [r1] and [r2]. *)
Definition lease_of (d : requestDescriptor) : string :=
  AcquireKeyOf None (DatabaseID d) [RootPrefix (location (Storage d))].
Definition pass_lease_of (d : requestDescriptor) : res goerror string :=
  ExplicitKey (CompactionKey (RootPrefix (location (Storage d))) (DatabaseID d)).
Definition replica_of (r1 r2 : string) (d : requestDescriptor) : res goerror replica :=
  let p := location (Storage d) in
  ReplicaClient r1 r2 (ReplicaPrefix (RootPrefix p) (DatabaseID d)) p.
Definition manifest_of (d : requestDescriptor) : res goerror place :=
  let p := location (Storage d) in
  NewManifestStore None (ReplicaPrefix (RootPrefix p) (DatabaseID d)) p.

(** ** One entry per database and place *)

(** No field of the storage holds a bar. *)
Definition barless (p : Profile) : Prop :=
  Forall (fun s => without "|"%char s = true)
    [Provider p; Endpoint p; Region p; Bucket p; RootPrefix p; FileRoot p].

(** [databaseProfile] is what [Idempotency] says of a descriptor. *)
Lemma databaseProfile_resolve (d : requestDescriptor) id :
  (fun x => (x.1, location x.2, (AccessKeyID x.2, SecretAccessKey x.2))) <$>
    (match databaseProfile (Creds d) (Storage d) id with Ok x => Some x | Err _ => None end) =
  match resolve (forget d) id with Ok x => Some x | Err _ => None end.
Proof. by destruct d as [? ? []]. Qed.

(** Two requests meet in the registry exactly when they name the same database
    in the same place: neither pair of keys matters. *)
Theorem requests_share_entry (d e : descriptorJSON) (ka kb : string) (pa pb : lsProfile)
    (Hd : NewDatabaseID (d_database_id d) = Ok (d_database_id d))
    (He : NewDatabaseID (d_database_id e) = Ok (d_database_id e))
    (Hp : barless (location (runtimeProfile (d_storage d)))) (Hq : barless (location (runtimeProfile (d_storage e))))
    (Ha : databaseProfile (Creds (ddescriptor d)) (Storage (ddescriptor d)) (d_database_id d) = Ok (ka, pa))
    (Hb : databaseProfile (Creds (ddescriptor e)) (Storage (ddescriptor e)) (d_database_id e) = Ok (kb, pb)) :
  ka = kb <-> d_database_id d = d_database_id e /\ location pa = location pb.
Proof.
  injection Ha as <- <-. injection Hb as <- <-. split.
  - by apply registry_key_injective.
  - by intros [-> [= -> -> -> -> -> ->]].
Qed.

Lemma requests_share_entry_witness :
  let d k := mkDescriptorJSON "acme/app" (mkProfileJSON "s3" "" "auto" "b" "" k k "") (mkCredsJSON k k) in
  let p k := mkLsProfile (Identity.mkProfile "s3" "" "auto" "b" "" "") k k in
  "acme/app|s3||auto|b||" = "acme/app|s3||auto|b||" <->
  "acme/app" = "acme/app" /\ location (p "old") = location (p "new").
Proof.
  cbv zeta. refine (requests_share_entry
    (mkDescriptorJSON "acme/app" (mkProfileJSON "s3" "" "auto" "b" "" "old" "old" "") (mkCredsJSON "old" "old"))
    (mkDescriptorJSON "acme/app" (mkProfileJSON "s3" "" "auto" "b" "" "new" "new" "") (mkCredsJSON "new" "new"))
    _ _ _ _ _ _ _ _ eq_refl eq_refl).
  - vm_compute. reflexivity.
  - vm_compute. reflexivity.
  - repeat constructor.
  - repeat constructor.
Defined.

(** The keys in the storage of a request are never used. *)
Lemma storage_keys_unused (d : descriptorJSON) key secret id :
  let p := d_storage d in
  let q := mkProfileJSON (p_provider p) (p_endpoint p) (p_region p) (p_bucket p) (p_root_prefix p) key secret (p_file_root p) in
  databaseProfile (Creds (ddescriptor d)) (runtimeProfile p) id =
  databaseProfile (Creds (ddescriptor d)) (runtimeProfile q) id.
Proof. done. Qed.

(** ** One lease per replica *)

Lemma lease_of_replica r1 i1 r2 i2 :
  ReplicaPrefix r1 i1 = ReplicaPrefix r2 i2 -> LeaseKey r1 i1 = LeaseKey r2 i2.
Proof. unfold ReplicaPrefix, LeaseKey. intros H. by rewrite (append_cancel_r _ _ _ H). Qed.

Lemma explicit_compaction r i :
  ExplicitKey (CompactionKey r i) = Ok (CompactionKey r i).
Proof.
  unfold ExplicitKey, CompactionKey. destruct (LeaseKey r i); reflexivity.
Qed.

(** The lease of a pass is never the lease of a write, of whichever database. *)
Lemma compaction_key_apart r i r' i' : CompactionKey r i <> LeaseKey r' i'.
Proof.
  unfold CompactionKey, LeaseKey. intros H. apply (f_equal slast) in H. by rewrite !slast_app in H.
Qed.

Lemma same_replica (r1 r2 : string) (d e : descriptorJSON) (c : replica) :
  (p_provider (d_storage d) = "file" -> p_file_root (d_storage d) = p_file_root (d_storage e)) ->
  replica_of r1 r2 (ddescriptor d) = Ok c -> replica_of r1 r2 (ddescriptor e) = Ok c ->
  lease_of (ddescriptor d) = lease_of (ddescriptor e) /\ manifest_of (ddescriptor d) = manifest_of (ddescriptor e).
Proof.
  intros Hroot Hd He. destruct d as [i p k], e as [j q l]. unfold replica_of, ReplicaClient in Hd, He. cbn in *.
  unfold lease_of, manifest_of, NewManifestStore, newS3ManifestStore. cbn.
  pose proof (lease_of_replica (p_root_prefix p) i (p_root_prefix q) j) as Hwrap.
  repeat case_match; simplify_eq; try (split; [by apply Hwrap|congruence]).
  all: rewrite ?String.eqb_eq in *; try congruence.
  rewrite Hroot in Hd |- * by done. do 2 apply append_cancel_l in Hd. rewrite Hd. by rewrite (Hwrap Hd).
Qed.

(** Writers of one replica queue for one lease: two requests whose replica
    clients read and write the same files contend for the same lease key and
    update the same manifest, whatever ids, prefixes and regions they give, as
    long as those on the local file system give the same root. Their background
    passes share a lease as well, whose key is the key of no database's writes. *)
Theorem one_lease_per_replica (r1 r2 : string) (d e : descriptorJSON) (c : replica)
    (Hroot : p_provider (d_storage d) = "file" -> p_file_root (d_storage d) = p_file_root (d_storage e))
    (Hd : replica_of r1 r2 (ddescriptor d) = Ok c) (He : replica_of r1 r2 (ddescriptor e) = Ok c) :
  lease_of (ddescriptor d) = lease_of (ddescriptor e) /\ manifest_of (ddescriptor d) = manifest_of (ddescriptor e) /\
  exists key, pass_lease_of (ddescriptor d) = Ok key /\ pass_lease_of (ddescriptor e) = Ok key /\
    forall other, key <> lease_of other.
Proof.
  destruct (same_replica r1 r2 d e c Hroot Hd He) as [Hl Hm]. split; [exact Hl|]. split; [exact Hm|].
  unfold pass_lease_of. rewrite !explicit_compaction. eexists. split; [reflexivity|].
  unfold lease_of, AcquireKeyOf in *. split; [|intros other; apply compaction_key_apart].
  unfold CompactionKey. by rewrite Hl.
Qed.

Lemma one_lease_per_replica_witness :
  let d := mkDescriptorJSON "acme/app" (mkProfileJSON "s3" "" "auto" "b" "root/" "" "" "") (mkCredsJSON "" "") in
  let e := mkDescriptorJSON "app" (mkProfileJSON "s3" "" "" "b" "root/acme" "" "" "") (mkCredsJSON "" "") in
  lease_of (ddescriptor d) = lease_of (ddescriptor e) /\ manifest_of (ddescriptor d) = manifest_of (ddescriptor e) /\
  exists key, pass_lease_of (ddescriptor d) = Ok key /\ pass_lease_of (ddescriptor e) = Ok key /\
    forall other, key <> lease_of other.
Proof.
  cbv zeta. refine (one_lease_per_replica "eu" "" _ _ (S3Replica "b" "root/acme/app/replica" "eu" "" false) _ _ _).
  - vm_compute. discriminate.
  - vm_compute. reflexivity.
  - vm_compute. reflexivity.
Defined.

(** The condition on local roots is needed: the boundary between root and
    prefix can be moved, and then the same files have two leases. *)
Lemma shifted_root_two_leases :
  let d root prefix := ddescriptor
    (mkDescriptorJSON "app" (mkProfileJSON "file" "" "" "" prefix "" "" root) (mkCredsJSON "" "")) in
  replica_of "" "" (d "/data" "acme") = replica_of "" "" (d "/data/acme" "") /\
  lease_of (d "/data" "acme") <> lease_of (d "/data/acme" "").
Proof. split; [vm_compute; reflexivity|vm_compute; discriminate]. Qed.

(** Only one slash is trimmed from a root prefix, while the manifest's name is
    cleaned: two spellings of a prefix share the manifest, not the lease. *)
Lemma doubled_slash_two_leases :
  let d prefix := ddescriptor
    (mkDescriptorJSON "app" (mkProfileJSON "s3" "" "" "b" prefix "" "" "") (mkCredsJSON "" "")) in
  manifest_of (d "acme//") = manifest_of (d "acme") /\ lease_of (d "acme//") <> lease_of (d "acme").
Proof. split; [vm_compute; reflexivity|vm_compute; discriminate]. Qed.
