(* ===== verification/Observability.v ===== *)
(** * Observability: counters per database ([observability/observability.go])

    The hash a database is counted under, the buckets and their total, the
    gauge of cached read sessions ([readInstanceAdded], [readInstanceRemoved]
    of [runtime/runtime.go]) over the notifications of the read cache, and
    what a write attempt counts. *)

From S2P Require Import Prelude CStrings Errors Prog WriteProtocol.

(** ** The hash *)

(** [fnv.New64a] *)
Definition offset64 : Z := 14695981039346656037.
Definition prime64 : Z := 1099511628211.

Definition fnv_step (h : Z) (c : Ascii.ascii) : Z := wrapu64 (Z.lxor h (code c) * prime64).

Fixpoint fnv (h : Z) (s : string) : Z :=
  match s with EmptyString => h | String c s => fnv (fnv_step h c) s end.

Definition Hash (databaseID : string) : Z := fnv offset64 databaseID.

(** ** Buckets *)

Record Metrics := mkMetrics {
  LeaseAcquireAttempts : Z;
  LeaseAcquireSucceeded : Z;
  LeaseCASConflicts : Z;
  LeaseBusyRetries : Z;
  LeaseExpiryTakeovers : Z;
  LeaseReleased : Z;
  LeaseReleaseConflicts : Z;
  WriteRetries : Z;
  WriteTransactions : Z;
  WriteTransactionFailures : Z;
  FlushSuccesses : Z;
  FlushFailures : Z;
  FlushConflictErrors : Z;
  FlushDurationMicros : Z;
  Compactions : Z;
  CompactedLevels : Z;
  CompactionFailures : Z;
  IdempotencyDedupeHits : Z;
  IdempotencyAmbiguousOutcomes : Z;
  ReadOpens : Z;
  ReadCacheHits : Z;
  ReadCacheEvictions : Z;
  ReadFailures : Z;
  ActiveReadInstances : Z;
}.

Definition zeroMetrics : Metrics :=
  mkMetrics 0 0 0 0 0 0 0 0 0 0 0 0 0 0 0 0 0 0 0 0 0 0 0 0.

(** The counters by the names the rest of the development uses for them. *)
Definition counters : list (string * (Metrics -> Z)) :=
  [("LeaseAcquireAttempts", LeaseAcquireAttempts);
   ("LeaseAcquireSucceeded", LeaseAcquireSucceeded);
   ("LeaseCASConflicts", LeaseCASConflicts);
   ("LeaseBusyRetries", LeaseBusyRetries);
   ("LeaseExpiryTakeovers", LeaseExpiryTakeovers);
   ("LeaseReleased", LeaseReleased);
   ("LeaseReleaseConflicts", LeaseReleaseConflicts);
   ("WriteRetries", WriteRetries);
   ("WriteTransactions", WriteTransactions);
   ("WriteTransactionFailures", WriteTransactionFailures);
   ("FlushSuccesses", FlushSuccesses);
   ("FlushFailures", FlushFailures);
   ("FlushConflictErrors", FlushConflictErrors);
   ("FlushDurationMicros", FlushDurationMicros);
   ("Compactions", Compactions);
   ("CompactedLevels", CompactedLevels);
   ("CompactionFailures", CompactionFailures);
   ("IdempotencyDedupeHits", IdempotencyDedupeHits);
   ("IdempotencyAmbiguousOutcomes", IdempotencyAmbiguousOutcomes);
   ("ReadOpens", ReadOpens);
   ("ReadCacheHits", ReadCacheHits);
   ("ReadCacheEvictions", ReadCacheEvictions);
   ("ReadFailures", ReadFailures);
   ("ActiveReadInstances", ActiveReadInstances)].

(** [m.name += n], the other fields kept. *)
Definition add_to (name : string) (n : Z) (m : Metrics) : Metrics :=
  let inc (field : string) (v : Z) : Z := if String.eqb name field then wrapu64 (v + n) else v in
  mkMetrics
    (inc "LeaseAcquireAttempts" (LeaseAcquireAttempts m))
    (inc "LeaseAcquireSucceeded" (LeaseAcquireSucceeded m))
    (inc "LeaseCASConflicts" (LeaseCASConflicts m))
    (inc "LeaseBusyRetries" (LeaseBusyRetries m))
    (inc "LeaseExpiryTakeovers" (LeaseExpiryTakeovers m))
    (inc "LeaseReleased" (LeaseReleased m))
    (inc "LeaseReleaseConflicts" (LeaseReleaseConflicts m))
    (inc "WriteRetries" (WriteRetries m))
    (inc "WriteTransactions" (WriteTransactions m))
    (inc "WriteTransactionFailures" (WriteTransactionFailures m))
    (inc "FlushSuccesses" (FlushSuccesses m))
    (inc "FlushFailures" (FlushFailures m))
    (inc "FlushConflictErrors" (FlushConflictErrors m))
    (inc "FlushDurationMicros" (FlushDurationMicros m))
    (inc "Compactions" (Compactions m))
    (inc "CompactedLevels" (CompactedLevels m))
    (inc "CompactionFailures" (CompactionFailures m))
    (inc "IdempotencyDedupeHits" (IdempotencyDedupeHits m))
    (inc "IdempotencyAmbiguousOutcomes" (IdempotencyAmbiguousOutcomes m))
    (inc "ReadOpens" (ReadOpens m))
    (inc "ReadCacheHits" (ReadCacheHits m))
    (inc "ReadCacheEvictions" (ReadCacheEvictions m))
    (inc "ReadFailures" (ReadFailures m))
    (inc "ActiveReadInstances" (ActiveReadInstances m)).

(** [Registry.metrics] *)
Notation registry := (gmap Z Metrics).

(** [For]: the bucket, created if needed. *)
Definition For (r : registry) (databaseID : string) : registry * Metrics :=
  let key := Hash databaseID in
  match r !! key with
  | Some m => (r, m)
  | None => (<[key := zeroMetrics]> r, zeroMetrics)
  end.

Definition RecordM (r : registry) (databaseID : string) (fn : Metrics -> Metrics) : registry :=
  let (r, m) := For r databaseID in <[Hash databaseID := fn m]> r.

Definition Snapshot (r : registry) : registry := r.

(** The body of the loop of [Total]. *)
Definition accumulate (total m : Metrics) : Metrics :=
  mkMetrics
    (wrapu64 (LeaseAcquireAttempts total + LeaseAcquireAttempts m))
    (wrapu64 (LeaseAcquireSucceeded total + LeaseAcquireSucceeded m))
    (wrapu64 (LeaseCASConflicts total + LeaseCASConflicts m))
    (wrapu64 (LeaseBusyRetries total + LeaseBusyRetries m))
    (wrapu64 (LeaseExpiryTakeovers total + LeaseExpiryTakeovers m))
    (wrapu64 (LeaseReleased total + LeaseReleased m))
    (wrapu64 (LeaseReleaseConflicts total + LeaseReleaseConflicts m))
    (wrapu64 (WriteRetries total + WriteRetries m))
    (wrapu64 (WriteTransactions total + WriteTransactions m))
    (wrapu64 (WriteTransactionFailures total + WriteTransactionFailures m))
    (wrapu64 (FlushSuccesses total + FlushSuccesses m))
    (wrapu64 (FlushFailures total + FlushFailures m))
    (wrapu64 (FlushConflictErrors total + FlushConflictErrors m))
    (wrapu64 (FlushDurationMicros total + FlushDurationMicros m))
    (wrapu64 (Compactions total + Compactions m))
    (wrapu64 (CompactedLevels total + CompactedLevels m))
    (wrapu64 (CompactionFailures total + CompactionFailures m))
    (wrapu64 (IdempotencyDedupeHits total + IdempotencyDedupeHits m))
    (wrapu64 (IdempotencyAmbiguousOutcomes total + IdempotencyAmbiguousOutcomes m))
    (wrapu64 (ReadOpens total + ReadOpens m))
    (wrapu64 (ReadCacheHits total + ReadCacheHits m))
    (wrapu64 (ReadCacheEvictions total + ReadCacheEvictions m))
    (wrapu64 (ReadFailures total + ReadFailures m))
    (wrapu64 (ActiveReadInstances total + ActiveReadInstances m)).

(** [Total], the snapshot's buckets visited in the order [buckets]. *)
Definition total (buckets : list (Z * Metrics)) : Metrics :=
  foldl (fun t b => accumulate t b.2) zeroMetrics buckets.
Definition Total (r : registry) : Metrics := total (map_to_list (Snapshot r)).

(** ** Lemmas on the hash *)

Lemma fnv_step_range h c : 0 <= fnv_step h c < two64.
Proof. apply Z.mod_pos_bound. reflexivity. Qed.

(** The prime is odd, so it has an inverse modulo 2^64. *)
Definition inverse64 : Z := 14886173955864302971.

Lemma unmultiply x : 0 <= x < two64 -> wrapu64 (wrapu64 (x * prime64) * inverse64) = x.
Proof.
  intros Hx. unfold wrapu64. rewrite Z.mul_mod_idemp_l by done. rewrite <- Z.mul_assoc.
  replace (prime64 * inverse64) with (1 + 887285111055 * two64) by (vm_compute; reflexivity).
  rewrite Z.mul_add_distr_l, Z.mul_1_r, Z.mul_assoc, Z_mod_plus_full. by apply Z.mod_small.
Qed.

Lemma lxor_range h c : 0 <= h < two64 -> 0 <= Z.lxor h (code c) < two64.
Proof.
  intros Hh. pose proof (code_range c) as Hc. split; [apply Z.lxor_nonneg; lia|].
  destruct (decide (Z.lxor h (code c) = 0)) as [->|Hne]; [done|].
  assert (0 <= Z.lxor h (code c)) by (apply Z.lxor_nonneg; lia).
  change two64 with (2 ^ 64). apply Z.log2_lt_pow2; [lia|].
  eapply Z.le_lt_trans; [apply Z.log2_lxor; lia|].
  apply Z.max_lub_lt; [|].
  - destruct (decide (h = 0)) as [->|]; [done|]. apply Z.log2_lt_pow2; [lia|]. apply Hh.
  - destruct (decide (code c = 0)) as [->|]; [done|]. apply Z.log2_lt_pow2; [lia|]. change (2 ^ 64) with two64.
    unfold two64. lia.
Qed.

(** A byte never merges two hashes, and two bytes never give one hash. *)
Lemma fnv_step_inj h h' c c' :
  0 <= h < two64 -> 0 <= h' < two64 -> fnv_step h c = fnv_step h' c' ->
  Z.lxor h (code c) = Z.lxor h' (code c').
Proof.
  intros Hh Hh' He. unfold fnv_step in He.
  rewrite <- (unmultiply (Z.lxor h (code c))), <- (unmultiply (Z.lxor h' (code c')))
    by (by apply lxor_range). by rewrite He.
Qed.

Lemma fnv_inj h h' s :
  0 <= h < two64 -> 0 <= h' < two64 -> fnv h s = fnv h' s -> h = h'.
Proof.
  revert h h'. induction s as [|c s IH]; intros h h' Hh Hh' He; [done|]. cbn [fnv] in He.
  apply IH in He; [|apply fnv_step_range..].
  apply fnv_step_inj in He; [|done..].
  rewrite <- (Z.lxor_0_r h), <- (Z.lxor_0_r h'), <- (Z.lxor_nilpotent (code c)), <- !Z.lxor_assoc.
  by rewrite He.
Qed.

Lemma fnv_app h a b : fnv h (a +:+ b) = fnv (fnv h a) b.
Proof. revert h. induction a as [|c a IH]; intros h; [done|]. apply (IH (fnv_step h c)). Qed.

Lemma fnv_range h s : 0 <= h < two64 -> 0 <= fnv h s < two64.
Proof. revert h. induction s as [|c s IH]; intros h Hh; [done|]. apply IH, fnv_step_range. Qed.

(** Ids that differ in one byte are counted apart. *)
Lemma Hash_one_byte a c c' b : Hash (a +:+ String c b) = Hash (a +:+ String c' b) -> c = c'.
Proof.
  unfold Hash. rewrite !fnv_app. cbn [fnv]. intros He.
  apply fnv_inj in He; [|apply fnv_step_range..].
  apply fnv_step_inj in He; [|by apply fnv_range..].
  apply (f_equal (Z.lxor (fnv offset64 a))) in He.
  rewrite <- !Z.lxor_assoc, !Z.lxor_nilpotent, !Z.lxor_0_l in He. by apply code_inj.
Qed.

(** ** Lemmas on the counters *)

Lemma wrapu64_add_l a b : wrapu64 (wrapu64 a + b) = wrapu64 (a + b).
Proof. unfold wrapu64. by rewrite Z.add_mod_idemp_l. Qed.
Lemma wrapu64_add_r a b : wrapu64 (a + wrapu64 b) = wrapu64 (a + b).
Proof. unfold wrapu64. by rewrite Z.add_mod_idemp_r. Qed.

(** A property of one counter, shown for all of them. *)
Lemma each_counter (Q : string -> (Metrics -> Z) -> Prop) :
  Forall (fun c => Q c.1 c.2) counters -> forall name get, (name, get) ∈ counters -> Q name get.
Proof. rewrite Forall_forall. intros H name get Hin. exact (H _ Hin). Qed.

Lemma get_add_to name get n m field :
  (name, get) ∈ counters ->
  get (add_to field n m) = if String.eqb field name then wrapu64 (get m + n) else get m.
Proof.
  revert name get. apply (each_counter (fun name get =>
    get (add_to field n m) = if String.eqb field name then wrapu64 (get m + n) else get m)).
  unfold counters. repeat constructor.
Qed.

Lemma get_accumulate name get t m :
  (name, get) ∈ counters -> get (accumulate t m) = wrapu64 (get t + get m).
Proof.
  revert name get. apply (each_counter (fun _ get => get (accumulate t m) = wrapu64 (get t + get m))).
  unfold counters. repeat constructor.
Qed.

Lemma get_zero name get : (name, get) ∈ counters -> get zeroMetrics = 0.
Proof.
  revert name get. apply (each_counter (fun _ get => get zeroMetrics = 0)).
  unfold counters. repeat constructor.
Qed.

(** Two buckets that agree on every counter are one. *)
Lemma Metrics_ext m m' :
  (forall name get, (name, get) ∈ counters -> get m = get m') -> m = m'.
Proof.
  intros H. assert (Hall : Forall (fun c => c.2 m = c.2 m') counters).
  { apply Forall_forall. intros [name get] Hin. by apply (H name). }
  unfold counters in Hall. rewrite !Forall_cons in Hall. destruct m, m'. cbn in Hall.
  destruct_and! Hall. by subst.
Qed.

Definition sumZ (get : Metrics -> Z) (l : list (Z * Metrics)) : Z :=
  foldr (fun b acc => get b.2 + acc) 0 l.

Lemma get_total name get l : (name, get) ∈ counters -> get (total l) = wrapu64 (sumZ get l).
Proof.
  intros Hin. unfold total.
  enough (H : forall t, get (foldl (fun t b => accumulate t b.2) t l) =
    match l with [] => get t | _ => wrapu64 (get t + sumZ get l) end).
  { rewrite H. destruct l; rewrite (get_zero name get Hin); done. }
  induction l as [|b l IH]; intros t; [done|]. cbn [foldl]. rewrite IH.
  destruct l as [|b' l]; rewrite (get_accumulate name get _ _ Hin); cbn [sumZ foldr].
  - by rewrite Z.add_0_r.
  - rewrite wrapu64_add_l. f_equal. lia.
Qed.

Lemma sumZ_cons get k m l : sumZ get ((k, m) :: l) = get m + sumZ get l.
Proof. done. Qed.

Lemma sumZ_perm get l l' : l ≡ₚ l' -> sumZ get l = sumZ get l'.
Proof. unfold sumZ. induction 1; cbn [foldr]; lia. Qed.

(** The order in which Go ranges over the map does not matter. *)
Lemma total_perm l l' : l ≡ₚ l' -> total l = total l'.
Proof.
  intros Hl. apply Metrics_ext. intros name get Hin.
  by rewrite !(get_total name get _ Hin), (sumZ_perm get l l').
Qed.

Definition bucket (r : registry) (databaseID : string) : Metrics :=
  default zeroMetrics (r !! Hash databaseID).

Lemma RecordM_insert r id fn : RecordM r id fn = <[Hash id := fn (bucket r id)]> r.
Proof.
  unfold RecordM, For, bucket. destruct (r !! Hash id) as [m|] eqn:Hr; [done|]. cbn.
  by rewrite insert_insert_eq.
Qed.

Lemma counter_sum_insert name get (r : registry) k m :
  (name, get) ∈ counters ->
  sumZ get (map_to_list (<[k := m]> r)) =
    sumZ get (map_to_list r) + get m - get (default zeroMetrics (r !! k)).
Proof.
  intros Hin. rewrite <- (insert_delete_eq r k m).
  rewrite (sumZ_perm _ _ _ (map_to_list_insert _ k m (lookup_delete_eq r k))).
  destruct (r !! k) as [m0|] eqn:Hr.
  - rewrite <- (insert_id r k m0 Hr) at 2. rewrite <- (insert_delete_eq r k m0).
    rewrite (sumZ_perm _ _ _ (map_to_list_insert _ k m0 (lookup_delete_eq r k))).
    rewrite !sumZ_cons. change (default zeroMetrics (Some m0)) with m0. lia.
  - rewrite delete_id by done. rewrite sumZ_cons. change (default zeroMetrics None) with zeroMetrics.
    rewrite (get_zero name get Hin). lia.
Qed.

(** ** Counters against the log of what was recorded *)

(** One [Record] call of the runtime: the database, the counter, the amount. *)
Record event := mkEvent { of_db : string; of_counter : string; amount : Z }.

Definition recorded (es : list event) : registry :=
  foldl (fun r e => RecordM r (of_db e) (add_to (of_counter e) (amount e))) ∅ es.

Definition logged (p : event -> bool) (es : list event) : Z :=
  foldr (fun e acc => (if p e then amount e else 0) + acc) 0 es.

Definition about (name : string) (e : event) : bool := String.eqb (of_counter e) name.
Definition about_db (id name : string) (e : event) : bool :=
  (Hash (of_db e) =? Hash id) && about name e.

Lemma logged_snoc p es e : logged p (es ++ [e]) = logged p es + (if p e then amount e else 0).
Proof. unfold logged. induction es as [|x es IH]; cbn [app foldr]; lia. Qed.

Lemma bucket_log name get es id :
  (name, get) ∈ counters -> get (bucket (recorded es) id) = wrapu64 (logged (about_db id name) es).
Proof.
  intros Hin. unfold recorded. induction es as [|e es IH] using rev_ind.
  { change (get zeroMetrics = wrapu64 0). by rewrite (get_zero name get Hin). }
  rewrite foldl_app, logged_snoc. cbn [foldl]. rewrite RecordM_insert. unfold bucket at 1, about_db.
  destruct (Z.eqb_spec (Hash (of_db e)) (Hash id)) as [Hh|Hh]; cbn [andb].
  - rewrite Hh, lookup_insert_eq.
    change (get (add_to (of_counter e) (amount e) (bucket (foldl (fun r e => RecordM r (of_db e)
      (add_to (of_counter e) (amount e))) ∅ es) (of_db e))) = wrapu64 (logged (about_db id name) es +
        (if about name e then amount e else 0))).
    rewrite (get_add_to name) by done. unfold bucket in IH |- *. rewrite Hh, IH. unfold about.
    destruct (String.eqb _ _); [apply wrapu64_add_l|by rewrite Z.add_0_r].
  - rewrite lookup_insert_ne by done. by rewrite Z.add_0_r.
Qed.

Lemma total_log name get es :
  (name, get) ∈ counters -> get (Total (recorded es)) = wrapu64 (logged (about name) es).
Proof.
  intros Hin. unfold Total, Snapshot. rewrite (get_total name) by done.
  unfold recorded. induction es as [|e es IH] using rev_ind; [done|].
  rewrite foldl_app, logged_snoc. cbn [foldl]. rewrite RecordM_insert.
  set (r := foldl _ ∅ es) in *. rewrite (counter_sum_insert name) by done.
  change (default zeroMetrics (r !! Hash (of_db e))) with (bucket r (of_db e)).
  rewrite (get_add_to name) by done. unfold about at 2. destruct (String.eqb _ _).
  - rewrite <- (wrapu64_add_l (logged _ _)), <- IH, wrapu64_add_l.
    replace (sumZ get (map_to_list r) + wrapu64 (get (bucket r (of_db e)) + amount e) - get (bucket r (of_db e)))
      with (sumZ get (map_to_list r) - get (bucket r (of_db e)) + wrapu64 (get (bucket r (of_db e)) + amount e)) by lia.
    rewrite wrapu64_add_r. f_equal. lia.
  - rewrite Z.add_0_r, <- IH. f_equal. lia.
Qed.

(** The counters are the log of what was recorded, summed: after any
    sequence of [Record] calls, each counter of a database's bucket is the sum
    of the amounts recorded for the ids of its hash, each counter of [Total]
    is the sum over all databases (both modulo 2^64), whatever the order in
    which the buckets are visited; and ids that differ in one byte never
    share a bucket. *)
Theorem counters_refine_log (es : list event) (order : list (Z * Metrics)) (name : string)
    (get : Metrics -> Z)
    (Hname : (name, get) ∈ counters) (Horder : order ≡ₚ map_to_list (Snapshot (recorded es))) :
  (forall id, get (bucket (recorded es) id) = wrapu64 (logged (about_db id name) es)) /\
  get (total order) = wrapu64 (logged (about name) es) /\
  (forall a c c' b, Hash (a +:+ String c b) = Hash (a +:+ String c' b) -> c = c').
Proof.
  split_and!; [intros id; by apply bucket_log| |apply Hash_one_byte].
  rewrite (total_perm _ _ Horder). by apply total_log.
Qed.

Definition some_events : list event :=
  [mkEvent "acme/a" "ReadOpens" 1; mkEvent "acme/b" "ReadOpens" 1; mkEvent "acme/a" "CompactedLevels" 3;
   mkEvent "acme/a" "ReadOpens" 1].

Lemma counters_refine_log_witness :
  ReadOpens (bucket (recorded some_events) "acme/a") = 2 /\
  ReadOpens (total (rev (map_to_list (Snapshot (recorded some_events))))) = 3.
Proof.
  destruct (counters_refine_log some_events (rev (map_to_list (Snapshot (recorded some_events))))
    "ReadOpens" ReadOpens) as (H1 & H2 & _).
  - apply list_elem_of_lookup. exists 19%nat. reflexivity.
  - symmetry. apply Permutation_rev.
  - split; [rewrite (H1 "acme/a")|rewrite H2]; vm_compute; reflexivity.
Defined.

(** ** What a write attempt counts *)

(** What happened in an attempt, and the counters it bumped. *)
Record account := mkAcc {
  acquired : bool;
  ran : option bool;       (* the caller's function: did it succeed *)
  flushed : option bool;   (* the flush: was it confirmed *)
  hit : bool;              (* the key was found recorded *)
  bumped : list string;
}.

Definition succeeded {E} (r : option E) : bool := match r with None => true | Some _ => false end.

Definition accounting : monitor op account := fun R o s =>
  match o in op R return R -> option account with
  | Acquire => fun r => Some (mkAcc (succeeded r) (ran s) (flushed s) (hit s) (bumped s))
  | Callback => fun r => Some (mkAcc (acquired s) (Some (succeeded r)) (flushed s) (hit s) (bumped s))
  | DisableWrite => fun r => Some (mkAcc (acquired s) (ran s) (Some (succeeded r)) (hit s) (bumped s))
  | Lookup => fun r => Some (mkAcc (acquired s) (ran s) (flushed s)
      (match r with Ok t => negb (String.eqb t "") | Err _ => false end) (bumped s))
  | Metric cs => fun _ => Some (mkAcc (acquired s) (ran s) (flushed s) (hit s) (bumped s ++ cs))
  | _ => fun _ => Some s
  end.

Definition bumps (s : account) (name : string) : nat := count_occ String.string_dec (bumped s) name.
Definition once_if (b : bool) : nat := if b then 1%nat else 0%nat.

(** The counters of a write attempt tell what happened in it: an acquired
    lease, a function that ran and how it ended, a flush and whether it was
    confirmed, and a recorded key that was found are each counted exactly
    once, and nothing that did not happen is counted. (The attempts counter
    counts acquired leases only: a refused acquisition is counted as busy or
    as a conflict, or not at all.) *)
Theorem attempt_accounting (Error : goerror -> string) :
  safe accounting (withWriteAttempt Error) (mkAcc false None None false [])
    (fun r s =>
       bumps s "LeaseAcquireAttempts" = once_if (acquired s) /\
       bumps s "LeaseAcquireSucceeded" = once_if (acquired s) /\
       bumps s "WriteTransactions" = once_if (bool_decide (ran s = Some true)) /\
       bumps s "WriteTransactionFailures" = once_if (bool_decide (ran s = Some false)) /\
       bumps s "FlushSuccesses" = once_if (bool_decide (flushed s = Some true)) /\
       bumps s "FlushFailures" = once_if (bool_decide (flushed s = Some false)) /\
       bumps s "IdempotencyDedupeHits" = once_if (hit s) /\
       match r with
       | Ok w => Deduplicated w = hit s /\ acquired s = true /\
                 bumps s "LeaseReleased" = once_if (negb (hit s)) /\
                 (hit s = false -> ran s = Some true /\ flushed s = Some true)
       | Err _ => bumps s "LeaseReleased" = 0%nat
       end).
Proof.
  unfold withWriteAttempt. explore; try done.
  all: repeat match goal with H : negb _ = _ |- _ => clear H end; split_and!; try done.
Qed.
