(* ===== verification/ReadGauge.v ===== *)
(** * ReadGauge: the gauge of cached read sessions

    The observers the runtime sets on the read cache ([readInstanceAdded],
    [readInstanceRemoved] of [runtime/runtime.go]; [notifyAdd], [notifyRemove]
    of [cache/cache.go]). The cache calls them after it dropped its mutex, so
    between concurrent calls they arrive in any order. *)

From S2P Require Import Prelude ReadCache Observability.

(** ** Notifications *)

Inductive note := Added (i : instance) | Removed (i : instance).

(** What each step of the cache will notify, in order. *)
Definition Get_notes (c : cache) (key : string) (now : Z) : list note :=
  if disabled c then [] else
  match entries c !! key with
  | Some e => if idleTTL c <? now - lastUsed e then [Removed (inst e)] else []
  | None => []
  end.

Definition putStep_notes (c : cache) (i : instance) : list note :=
  if disabled c then [] else
  match entries c !! ikey i with
  | Some e => [Removed (inst e); Added i]
  | None =>
      if Z.of_nat (size (entries c)) <? max c then [Added i]
      else match last (order c) ≫= (entries c !!.) with
           | Some e => [Removed (inst e)]
           | None => []
           end
  end.

Definition Evict_notes (c : cache) (key : string) : list note :=
  match entries c !! key with Some e => [Removed (inst e)] | None => [] end.

Fixpoint closeAll_notes (fuel : nat) (c : cache) : list note :=
  match fuel with
  | O => []
  | S fuel =>
      match last (order c) with
      | None => []
      | Some key => Evict_notes c key ++ closeAll_notes fuel (Evict c key)
      end
  end.
Definition Close_notes (c : cache) : list note := closeAll_notes (length (order c)) c.

Section Gauge.
(** The database id of a [*cachedReadSession]; other instances have none. *)
Context (metricsID : instance -> option string).

Definition readInstanceAdded (r : registry) (i : instance) : registry :=
  match metricsID i with
  | None => r
  | Some id => RecordM r id (add_to "ActiveReadInstances" 1)
  end.

Definition readInstanceRemoved (r : registry) (i : instance) : registry :=
  match metricsID i with
  | None => r
  | Some id => RecordM r id (fun m =>
      add_to "ReadCacheEvictions" 1
        (if 0 <? ActiveReadInstances m then add_to "ActiveReadInstances" (-1) m else m))
  end.

Definition deliver (r : registry) (n : note) : registry :=
  match n with Added i => readInstanceAdded r i | Removed i => readInstanceRemoved r i end.

Definition gauge (r : registry) (h : Z) : Z := ActiveReadInstances (default zeroMetrics (r !! h)).

(** ** Concurrent calls *)

(** The cache, the latest reading of the clock, the notifications not
    delivered yet, the registry, and how many notifications were sent. *)
Record sys := mkSys { sc : cache; clk : Z; pend : list note; reg : registry; sent : Z }.

Definition sends (s : sys) (c : cache) (now : Z) (ns : list note) : sys :=
  mkSys c now (pend s ++ ns) (reg s) (sent s + Z.of_nat (length ns)).

Inductive step : sys -> sys -> Prop :=
  | StepGet s key now now' : clk s <= now <= now' ->
      step s (sends s (Get (sc s) key now now').1 now' (Get_notes (sc s) key now))
  | StepRound s i now : clk s <= now ->
      step s (sends s (putStep (sc s) i now).1 now (putStep_notes (sc s) i))
  | StepEvict s key : step s (sends s (Evict (sc s) key) (clk s) (Evict_notes (sc s) key))
  | StepClose s : step s (sends s (Close (sc s)) (clk s) (Close_notes (sc s)))
  | StepDeliver s p1 n p2 : pend s = p1 ++ n :: p2 ->
      step s (mkSys (sc s) (clk s) (p1 ++ p2) (deliver (reg s) n) (sent s)).

Inductive reachable (m ttl : Z) : sys -> Prop :=
  | reach_start now : reachable m ttl (mkSys (New m ttl) now [] ∅ 0)
  | reach_step s s' : reachable m ttl s -> step s s' -> reachable m ttl s'.

(** Calls one after the other: each delivers its notifications, in order,
    before the next begins. *)
Definition settle (s : sys) : sys := mkSys (sc s) (clk s) [] (foldl deliver (reg s) (pend s)) (sent s).

Inductive sequential (m ttl : Z) : sys -> Prop :=
  | seq_start now : sequential m ttl (mkSys (New m ttl) now [] ∅ 0)
  | seq_call s s' : sequential m ttl s -> step s s' -> sequential m ttl (settle s').

(** ** Counting *)

Definition in_bucket (h : Z) (i : instance) : bool :=
  match metricsID i with Some id => Hash id =? h | None => false end.
Definition many (h : Z) (l : list instance) : Z := Z.of_nat (length (List.filter (in_bucket h) l)).

Definition adds (ns : list note) : list instance :=
  omap (fun n => match n with Added i => Some i | Removed _ => None end) ns.
Definition removes (ns : list note) : list instance :=
  omap (fun n => match n with Removed i => Some i | Added _ => None end) ns.

Lemma many_app h l l' : many h (l ++ l') = many h l + many h l'.
Proof. unfold many. rewrite List.filter_app, length_app. lia. Qed.

Lemma many_cons h i l : many h (i :: l) = (if in_bucket h i then 1 else 0) + many h l.
Proof. unfold many. cbn [List.filter]. destruct (in_bucket h i); cbn [length]; lia. Qed.

Lemma many_perm h l l' : l ≡ₚ l' -> many h l = many h l'.
Proof. induction 1; rewrite ?many_cons; lia. Qed.

Lemma many_nonneg h l : 0 <= many h l.
Proof. unfold many. lia. Qed.

Lemma many_adds_cons h n ns :
  many h (adds (n :: ns)) = match n with Added i => if in_bucket h i then 1 else 0 | _ => 0 end + many h (adds ns).
Proof. destruct n as [i|i]; [apply (many_cons h i (adds ns))|done]. Qed.
Lemma many_removes_cons h n ns :
  many h (removes (n :: ns)) =
    match n with Removed i => if in_bucket h i then 1 else 0 | _ => 0 end + many h (removes ns).
Proof. destruct n as [i|i]; [done|apply (many_cons h i (removes ns))]. Qed.

Lemma adds_app ns ns' : adds (ns ++ ns') = adds ns ++ adds ns'.
Proof. apply omap_app. Qed.
Lemma removes_app ns ns' : removes (ns ++ ns') = removes ns ++ removes ns'.
Proof. apply omap_app. Qed.

(** What a step of the cache does to the cached instances is what it notifies:
    it keeps the table well formed, and [cached] changes by [adds - removes]. *)
Definition notified (c c' : cache) (ns : list note) : Prop :=
  forall h, many h (cached c') + many h (removes ns) = many h (cached c) + many h (adds ns).

Lemma notified_keeps c c' ns extra dropped now :
  keeps c c' now extra -> closed c' = closed c ++ removes ns ++ dropped -> extra = adds ns ++ dropped ->
  notified c c' ns.
Proof.
  intros [_ Hp] Hc -> h. apply (many_perm h) in Hp. rewrite Hc in Hp. rewrite !many_app in Hp. lia.
Qed.

Lemma notified_Get c key now0 now now' :
  inv c now0 -> now0 <= now <= now' -> notified c (Get c key now now').1 (Get_notes c key now).
Proof.
  intros Hc Hn. apply (notified_keeps _ _ _ [] [] now'); [by eapply keeps_Get| |].
  all: unfold Get, Get_notes; repeat case_match; cbn; by rewrite ?app_nil_r.
Qed.

Lemma notified_putStep c i now0 now :
  inv c now0 -> now0 <= now -> notified c (putStep c i now).1 (putStep_notes c i).
Proof.
  intros Hc Hn. pose proof (keeps_putStep c i now0 now Hc Hn) as Hk.
  set (dropped := if disabled c then [i] else
    match entries c !! ikey i with
    | Some _ => []
    | None => if Z.of_nat (size (entries c)) <? max c then []
              else match last (order c) with None => [i] | Some _ => [] end
    end).
  apply (notified_keeps _ _ _ _ dropped now Hk); unfold dropped, putStep, putStep_notes; clear;
    destruct (disabled c); try done; destruct (entries c !! ikey i) as [e|]; try done;
    destruct (_ <? _); cbn; rewrite ?app_nil_r; try done;
    destruct (last (order c)) as [old|]; cbn; try done;
    destruct (entries c !! old) as [e|]; cbn; by rewrite ?app_nil_r.
Qed.

Lemma notified_Evict c key now : inv c now -> notified c (Evict c key) (Evict_notes c key).
Proof.
  intros Hc. apply (notified_keeps _ _ _ [] [] now); [by eapply keeps_Evict| |].
  all: unfold Evict, Evict_notes; destruct (entries c !! key); cbn; by rewrite ?app_nil_r.
Qed.

Lemma notified_closeAll fuel c now : inv c now -> notified c (closeAll fuel c) (closeAll_notes fuel c).
Proof.
  revert c. induction fuel as [|n IH]; intros c Hc; [done|]. cbn [closeAll closeAll_notes].
  destruct (last (order c)) as [k|]; [|done]. intros h.
  pose proof (notified_Evict c k now Hc h) as H1.
  pose proof (IH (Evict c k) (proj1 (keeps_Evict c k now Hc)) h) as H2.
  rewrite removes_app, adds_app, !many_app. lia.
Qed.

(** ** Delivery *)

Lemma gauge_RecordM r id fn h :
  gauge (RecordM r id fn) h = if Hash id =? h then ActiveReadInstances (fn (bucket r id)) else gauge r h.
Proof.
  rewrite RecordM_insert. unfold gauge. destruct (Z.eqb_spec (Hash id) h) as [<-|Hh].
  - by rewrite lookup_insert_eq.
  - by rewrite lookup_insert_ne.
Qed.

Lemma gauge_added r i h :
  0 <= gauge r h < two64 - 1 ->
  gauge (deliver r (Added i)) h = gauge r h + (if in_bucket h i then 1 else 0).
Proof.
  cbn. unfold readInstanceAdded, in_bucket. destruct (metricsID i) as [id|]; [|lia].
  rewrite gauge_RecordM. destruct (Z.eqb_spec (Hash id) h) as [<-|]; [|lia].
  intros Hb. unfold gauge in *. cbn. rewrite wrapu64_id; unfold bucket in *; lia.
Qed.

Lemma gauge_removed r i h :
  0 <= gauge r h < two64 ->
  gauge (deliver r (Removed i)) h = Z.max 0 (gauge r h - (if in_bucket h i then 1 else 0)).
Proof.
  cbn. unfold readInstanceRemoved, in_bucket. destruct (metricsID i) as [id|]; [|lia].
  rewrite gauge_RecordM. destruct (Z.eqb_spec (Hash id) h) as [<-|]; [|lia].
  intros Hb. change (gauge r (Hash id)) with (ActiveReadInstances (bucket r id)) in *.
  destruct (Z.ltb_spec 0 (ActiveReadInstances (bucket r id))); cbn; [|lia].
  rewrite wrapu64_id; lia.
Qed.

Lemma length_notes ns h : many h (adds ns) + many h (removes ns) <= Z.of_nat (length ns).
Proof.
  induction ns as [|n ns IH]; [done|]. rewrite many_adds_cons, many_removes_cons. cbn [length].
  destruct n as [i|i]; destruct (in_bucket h i); lia.
Qed.

(** ** Invariant *)

Record ginv (s : sys) : Prop := {
  g_cache : inv (sc s) (clk s);
  g_count : forall h, many h (cached (sc s)) + many h (removes (pend s)) <=
                      gauge (reg s) h + many h (adds (pend s));
  g_bound : forall h, 0 <= gauge (reg s) h /\ gauge (reg s) h + Z.of_nat (length (pend s)) <= sent s;
}.

Lemma ginv_sends s c now ns :
  ginv s -> inv c now -> notified (sc s) c ns -> ginv (sends s c now ns).
Proof.
  intros [Hc Hg Hb] Hc' Hn. split; cbn; [done| |]; intros h.
  - rewrite removes_app, adds_app, !many_app. specialize (Hg h). specialize (Hn h). lia.
  - rewrite length_app. specialize (Hb h). lia.
Qed.

Lemma ginv_deliver s p1 n p2 :
  ginv s -> sent s < two64 -> pend s = p1 ++ n :: p2 ->
  ginv (mkSys (sc s) (clk s) (p1 ++ p2) (deliver (reg s) n) (sent s)).
Proof.
  intros [Hc Hg Hb] Hs Hp. split; cbn [sc clk pend reg sent]; [done| |]; intros h; specialize (Hg h); specialize (Hb h).
  all: rewrite Hp in Hg, Hb; rewrite ?removes_app, ?adds_app, ?many_app in *; rewrite length_app in *.
  all: rewrite many_adds_cons, many_removes_cons in Hg; cbn [length] in Hb; destruct n as [i|i].
  all: rewrite ?gauge_added, ?gauge_removed by lia.
  all: pose proof (length_notes p1 h); pose proof (length_notes p2 h); pose proof (many_nonneg h (removes p1));
    destruct (in_bucket h i); lia.
Qed.

Lemma step_sent s s' : step s s' -> sent s <= sent s'.
Proof. destruct 1; cbn; lia. Qed.

Lemma ginv_step s s' : ginv s -> sent s' < two64 -> step s s' -> ginv s'.
Proof.
  intros Hg Hs Hstep. pose proof (step_sent _ _ Hstep). pose proof (g_cache _ Hg) as Hc.
  destruct Hstep as [s key now now' Hn|s i now Hn|s key|s|s p1 n p2 Hp].
  - apply ginv_sends; [done| |by eapply notified_Get]. by eapply keeps_Get.
  - apply ginv_sends; [done| |by eapply notified_putStep]. by eapply keeps_putStep.
  - apply ginv_sends; [done| |by eapply notified_Evict]. by apply keeps_Evict.
  - apply ginv_sends; [done| |by eapply notified_closeAll]. by apply keeps_closeAll.
  - by apply ginv_deliver.
Qed.

Lemma New_inv m ttl now : inv (New m ttl) now.
Proof. exact (proj2 (reachable_owns m ttl _ (ReadCache.reach_start m ttl now))). Qed.

Lemma gauge_empty h : gauge ∅ h = 0.
Proof. done. Qed.

Lemma reachable_ginv m ttl s : reachable m ttl s -> sent s < two64 -> ginv s.
Proof.
  induction 1 as [now|s s' _ IH Hstep]; intros Hs.
  - split; [apply New_inv|done|]. intros h. rewrite gauge_empty. by split.
  - apply (ginv_step s); [|done..]. apply IH. pose proof (step_sent _ _ Hstep). lia.
Qed.

(** Notifications delivered in order, none for a session that is not counted. *)
Lemma gauge_deliver ns r h :
  0 <= gauge r h -> gauge r h + Z.of_nat (length ns) < two64 -> many h (removes ns) <= gauge r h ->
  gauge (foldl deliver r ns) h = gauge r h + many h (adds ns) - many h (removes ns).
Proof.
  revert r. induction ns as [|n ns IH]; intros r H0 Hb Hr; cbn [foldl]; [cbn; lia|].
  rewrite many_removes_cons in Hr. rewrite many_adds_cons, many_removes_cons. cbn [length] in Hb.
  pose proof (many_nonneg h (removes ns)).
  destruct n as [i|i]; (rewrite IH; [rewrite ?gauge_added, ?gauge_removed by lia..]);
    rewrite ?gauge_added, ?gauge_removed by lia; destruct (in_bucket h i); lia.
Qed.

Lemma taken_cached c k e now h :
  inv c now -> entries c !! k = Some e -> many h [inst e] <= many h (cached c).
Proof.
  intros Hc He. rewrite (many_perm h _ _ (cached_remove c k e now Hc He)), !many_cons.
  pose proof (many_nonneg h (cached (removeLocked c k))). change (many h []) with 0. lia.
Qed.

(** A call notifies the removal of cached sessions only. *)
Lemma removes_cached c i now h :
  inv c now -> many h (removes (putStep_notes c i)) <= many h (cached c).
Proof.
  intros Hc. pose proof (many_nonneg h (cached c)) as H0. unfold putStep_notes.
  destruct (disabled c); [done|]. destruct (entries c !! ikey i) as [e|] eqn:He.
  { by apply (taken_cached c (ikey i) e now). }
  destruct (_ <? _); [done|]. destruct (last (order c)) as [old|]; cbn; [|done].
  destruct (entries c !! old) as [e|] eqn:Ho; [|done]. by apply (taken_cached c old e now).
Qed.

Record sinv (s : sys) : Prop := {
  s_cache : inv (sc s) (clk s);
  s_pend : pend s = [];
  s_gauge : forall h, gauge (reg s) h = many h (cached (sc s)) /\ gauge (reg s) h <= sent s;
}.

Lemma settle_sends s c now ns :
  sinv s -> sent s + Z.of_nat (length ns) < two64 -> inv c now -> notified (sc s) c ns ->
  (forall h, many h (removes ns) <= many h (cached (sc s))) -> sinv (settle (sends s c now ns)).
Proof.
  intros [Hc Hp Hg] Hs Hc' Hn Hr. unfold settle. cbn. rewrite Hp. split; cbn; [done|done|].
  intros h. destruct (Hg h) as [He Hle]. specialize (Hn h). specialize (Hr h).
  pose proof (many_nonneg h (cached (sc s))). pose proof (length_notes ns h).
  pose proof (many_nonneg h (removes ns)). rewrite gauge_deliver; lia.
Qed.

Lemma notified_removes c c' ns h : notified c c' ns -> adds ns = [] -> many h (removes ns) <= many h (cached c).
Proof.
  intros Hn Ha. specialize (Hn h). rewrite Ha in Hn. change (many h []) with 0 in Hn.
  pose proof (many_nonneg h (cached c')). lia.
Qed.

Lemma closeAll_adds fuel c : adds (closeAll_notes fuel c) = [].
Proof.
  revert c. induction fuel as [|n IH]; intros c; [done|]. cbn [closeAll_notes].
  destruct (last (order c)); [|done]. rewrite adds_app, IH, app_nil_r. unfold Evict_notes. by case_match.
Qed.

Lemma sinv_call s s' : sinv s -> sent s' < two64 -> step s s' -> sinv (settle s').
Proof.
  intros Hg Hs Hstep. pose proof (s_cache _ Hg) as Hc.
  destruct Hstep as [s key now now' Hn|s i now Hn|s key|s|s p1 n p2 Hp]; cbn in Hs.
  - pose proof (notified_Get _ key _ now now' Hc Hn) as Hnot.
    apply settle_sends; [done|done|by eapply keeps_Get|done|]. intros h.
    apply (notified_removes _ _ _ _ Hnot). unfold Get_notes. by repeat case_match.
  - apply settle_sends; [done|done|by eapply keeps_putStep|by eapply notified_putStep|].
    intros h. by apply (removes_cached _ _ (clk s)).
  - pose proof (notified_Evict _ key _ Hc) as Hnot.
    apply settle_sends; [done|done|by apply keeps_Evict|done|]. intros h.
    apply (notified_removes _ _ _ _ Hnot). unfold Evict_notes. by case_match.
  - pose proof (notified_closeAll (length (order (sc s))) _ _ Hc) as Hnot.
    apply settle_sends; [done|done|by apply keeps_closeAll|done|]. intros h.
    apply (notified_removes _ _ _ _ Hnot). apply closeAll_adds.
  - rewrite (s_pend _ Hg) in Hp. by destruct p1.
Qed.

Lemma sequential_sinv m ttl s : sequential m ttl s -> sent s < two64 -> sinv s.
Proof.
  induction 1 as [now|s s' _ IH Hstep]; intros Hs.
  - split; [apply New_inv|done|]. intros h. rewrite gauge_empty. done.
  - apply (sinv_call s); [|done..]. apply IH. pose proof (step_sent _ _ Hstep). cbn in Hs. lia.
Qed.

(** C34  The gauge of cached read sessions never reports too few: however calls
    interleave and in whatever order their notifications arrive, once all
    have arrived each bucket's gauge is at least the number of sessions the
    cache holds for its databases; and when calls do not overlap it is
    exactly that number after each of them. *)
Theorem read_gauge (m ttl : Z) (s : sys) (h : Z) (Hsent : sent s < two64) :
  (reachable m ttl s -> pend s = [] -> many h (cached (sc s)) <= gauge (reg s) h) /\
  (sequential m ttl s -> gauge (reg s) h = many h (cached (sc s))).
Proof.
  split.
  - intros Hr Hp. pose proof (g_count _ (reachable_ginv m ttl s Hr Hsent) h) as Hg.
    rewrite Hp in Hg. cbn in Hg. lia.
  - intros Hq. by apply (s_gauge _ (sequential_sinv m ttl s Hq Hsent)).
Qed.
End Gauge.

(** ** Runs *)

Definition aSession : instance := mkInst "acme/a|s3" 1.
Definition its_db (i : instance) : option string := Some "acme/a".

Definition opened : sys :=
  mkSys (putStep (New 2 60) aSession 5).1 5 [Added aSession] ∅ 1.

Lemma opened_reachable : reachable its_db 2 60 opened.
Proof.
  exact (reach_step _ _ _ _ _ (reach_start _ 2 60 0)
    (StepRound _ (mkSys (New 2 60) 0 [] ∅ 0) aSession 5 ltac:(cbn; lia))).
Qed.

Definition evicted : sys :=
  mkSys (Evict (sc opened) "acme/a|s3") 5 [Added aSession; Removed aSession] ∅ 2.

(** A session evicted before the notification that it was added has arrived
    is counted for ever: the decrement finds the gauge at zero and is
    skipped. *)
Theorem gauge_drifts : exists s,
  reachable its_db 2 60 s /\ pend s = [] /\ cached (sc s) = [] /\ gauge (reg s) (Hash "acme/a") = 1.
Proof.
  exists (mkSys (sc evicted) 5 [] (deliver its_db (deliver its_db ∅ (Removed aSession)) (Added aSession)) 2).
  split; [|split_and!; vm_compute; reflexivity].
  apply (reach_step _ _ _ (mkSys (sc evicted) 5 [Added aSession] (deliver its_db ∅ (Removed aSession)) 2)).
  - apply (reach_step _ _ _ evicted).
    + exact (reach_step _ _ _ _ _ opened_reachable (StepEvict _ opened "acme/a|s3")).
    + by apply (StepDeliver _ evicted [Added aSession] (Removed aSession) []).
  - by apply (StepDeliver _ (mkSys (sc evicted) 5 [Added aSession] _ 2) [] (Added aSession) []).
Qed.

Lemma read_gauge_witness :
  gauge (reg (settle its_db opened)) (Hash "acme/a") = many its_db (Hash "acme/a") [aSession].
Proof.
  destruct (read_gauge its_db 2 60 (settle its_db opened) (Hash "acme/a") ltac:(vm_compute; reflexivity)) as [_ H].
  etrans; [apply H|vm_compute; reflexivity].
  apply (seq_call _ _ _ (mkSys (New 2 60) 0 [] ∅ 0)); [apply seq_start|].
  exact (StepRound _ (mkSys (New 2 60) 0 [] ∅ 0) aSession 5 ltac:(cbn; lia)).
Defined.
