(* ===== verification/VendorHeader.v ===== *)
(** * VendorHeader: the SQLite interface the VFS shim was written against

    Transcribed from [third_party/sqlite3vfs/sqlite3-binding.h]: the older copy
    of the interface that [sqlite3vfs.c] includes. *)

From S2P Require Import Prelude CAbi.

(** ** Integer constants, one table per block *)

Definition tp_consts_SQLITE_VERSION_NUMBER : list (string * Z) :=
  [("SQLITE_VERSION_NUMBER", 3036000)].

Definition tp_consts_SQLITE_OK : list (string * Z) :=
  [("SQLITE_OK", 0);
   ("SQLITE_ERROR", 1);
   ("SQLITE_INTERNAL", 2);
   ("SQLITE_PERM", 3);
   ("SQLITE_ABORT", 4);
   ("SQLITE_BUSY", 5);
   ("SQLITE_LOCKED", 6);
   ("SQLITE_NOMEM", 7);
   ("SQLITE_READONLY", 8);
   ("SQLITE_INTERRUPT", 9);
   ("SQLITE_IOERR", 10);
   ("SQLITE_CORRUPT", 11);
   ("SQLITE_NOTFOUND", 12);
   ("SQLITE_FULL", 13);
   ("SQLITE_CANTOPEN", 14);
   ("SQLITE_PROTOCOL", 15);
   ("SQLITE_EMPTY", 16);
   ("SQLITE_SCHEMA", 17);
   ("SQLITE_TOOBIG", 18);
   ("SQLITE_CONSTRAINT", 19);
   ("SQLITE_MISMATCH", 20);
   ("SQLITE_MISUSE", 21);
   ("SQLITE_NOLFS", 22);
   ("SQLITE_AUTH", 23);
   ("SQLITE_FORMAT", 24);
   ("SQLITE_RANGE", 25);
   ("SQLITE_NOTADB", 26);
   ("SQLITE_NOTICE", 27);
   ("SQLITE_WARNING", 28);
   ("SQLITE_ROW", 100);
   ("SQLITE_DONE", 101)].

Definition tp_consts_SQLITE_ERROR_MISSING_COLLSEQ : list (string * Z) :=
  [("SQLITE_ERROR_MISSING_COLLSEQ", (Z.lor 1 (Z.shiftl 1 8)));
   ("SQLITE_ERROR_RETRY", (Z.lor 1 (Z.shiftl 2 8)));
   ("SQLITE_ERROR_SNAPSHOT", (Z.lor 1 (Z.shiftl 3 8)));
   ("SQLITE_IOERR_READ", (Z.lor 10 (Z.shiftl 1 8)));
   ("SQLITE_IOERR_SHORT_READ", (Z.lor 10 (Z.shiftl 2 8)));
   ("SQLITE_IOERR_WRITE", (Z.lor 10 (Z.shiftl 3 8)));
   ("SQLITE_IOERR_FSYNC", (Z.lor 10 (Z.shiftl 4 8)));
   ("SQLITE_IOERR_DIR_FSYNC", (Z.lor 10 (Z.shiftl 5 8)));
   ("SQLITE_IOERR_TRUNCATE", (Z.lor 10 (Z.shiftl 6 8)));
   ("SQLITE_IOERR_FSTAT", (Z.lor 10 (Z.shiftl 7 8)));
   ("SQLITE_IOERR_UNLOCK", (Z.lor 10 (Z.shiftl 8 8)));
   ("SQLITE_IOERR_RDLOCK", (Z.lor 10 (Z.shiftl 9 8)));
   ("SQLITE_IOERR_DELETE", (Z.lor 10 (Z.shiftl 10 8)));
   ("SQLITE_IOERR_BLOCKED", (Z.lor 10 (Z.shiftl 11 8)));
   ("SQLITE_IOERR_NOMEM", (Z.lor 10 (Z.shiftl 12 8)));
   ("SQLITE_IOERR_ACCESS", (Z.lor 10 (Z.shiftl 13 8)));
   ("SQLITE_IOERR_CHECKRESERVEDLOCK", (Z.lor 10 (Z.shiftl 14 8)));
   ("SQLITE_IOERR_LOCK", (Z.lor 10 (Z.shiftl 15 8)));
   ("SQLITE_IOERR_CLOSE", (Z.lor 10 (Z.shiftl 16 8)));
   ("SQLITE_IOERR_DIR_CLOSE", (Z.lor 10 (Z.shiftl 17 8)));
   ("SQLITE_IOERR_SHMOPEN", (Z.lor 10 (Z.shiftl 18 8)));
   ("SQLITE_IOERR_SHMSIZE", (Z.lor 10 (Z.shiftl 19 8)));
   ("SQLITE_IOERR_SHMLOCK", (Z.lor 10 (Z.shiftl 20 8)));
   ("SQLITE_IOERR_SHMMAP", (Z.lor 10 (Z.shiftl 21 8)));
   ("SQLITE_IOERR_SEEK", (Z.lor 10 (Z.shiftl 22 8)));
   ("SQLITE_IOERR_DELETE_NOENT", (Z.lor 10 (Z.shiftl 23 8)));
   ("SQLITE_IOERR_MMAP", (Z.lor 10 (Z.shiftl 24 8)));
   ("SQLITE_IOERR_GETTEMPPATH", (Z.lor 10 (Z.shiftl 25 8)));
   ("SQLITE_IOERR_CONVPATH", (Z.lor 10 (Z.shiftl 26 8)));
   ("SQLITE_IOERR_VNODE", (Z.lor 10 (Z.shiftl 27 8)));
   ("SQLITE_IOERR_AUTH", (Z.lor 10 (Z.shiftl 28 8)));
   ("SQLITE_IOERR_BEGIN_ATOMIC", (Z.lor 10 (Z.shiftl 29 8)));
   ("SQLITE_IOERR_COMMIT_ATOMIC", (Z.lor 10 (Z.shiftl 30 8)));
   ("SQLITE_IOERR_ROLLBACK_ATOMIC", (Z.lor 10 (Z.shiftl 31 8)));
   ("SQLITE_IOERR_DATA", (Z.lor 10 (Z.shiftl 32 8)));
   ("SQLITE_IOERR_CORRUPTFS", (Z.lor 10 (Z.shiftl 33 8)));
   ("SQLITE_LOCKED_SHAREDCACHE", (Z.lor 6 (Z.shiftl 1 8)));
   ("SQLITE_LOCKED_VTAB", (Z.lor 6 (Z.shiftl 2 8)));
   ("SQLITE_BUSY_RECOVERY", (Z.lor 5 (Z.shiftl 1 8)));
   ("SQLITE_BUSY_SNAPSHOT", (Z.lor 5 (Z.shiftl 2 8)));
   ("SQLITE_BUSY_TIMEOUT", (Z.lor 5 (Z.shiftl 3 8)));
   ("SQLITE_CANTOPEN_NOTEMPDIR", (Z.lor 14 (Z.shiftl 1 8)));
   ("SQLITE_CANTOPEN_ISDIR", (Z.lor 14 (Z.shiftl 2 8)));
   ("SQLITE_CANTOPEN_FULLPATH", (Z.lor 14 (Z.shiftl 3 8)));
   ("SQLITE_CANTOPEN_CONVPATH", (Z.lor 14 (Z.shiftl 4 8)));
   ("SQLITE_CANTOPEN_DIRTYWAL", (Z.lor 14 (Z.shiftl 5 8)));
   ("SQLITE_CANTOPEN_SYMLINK", (Z.lor 14 (Z.shiftl 6 8)));
   ("SQLITE_CORRUPT_VTAB", (Z.lor 11 (Z.shiftl 1 8)));
   ("SQLITE_CORRUPT_SEQUENCE", (Z.lor 11 (Z.shiftl 2 8)));
   ("SQLITE_CORRUPT_INDEX", (Z.lor 11 (Z.shiftl 3 8)));
   ("SQLITE_READONLY_RECOVERY", (Z.lor 8 (Z.shiftl 1 8)));
   ("SQLITE_READONLY_CANTLOCK", (Z.lor 8 (Z.shiftl 2 8)));
   ("SQLITE_READONLY_ROLLBACK", (Z.lor 8 (Z.shiftl 3 8)));
   ("SQLITE_READONLY_DBMOVED", (Z.lor 8 (Z.shiftl 4 8)));
   ("SQLITE_READONLY_CANTINIT", (Z.lor 8 (Z.shiftl 5 8)));
   ("SQLITE_READONLY_DIRECTORY", (Z.lor 8 (Z.shiftl 6 8)));
   ("SQLITE_ABORT_ROLLBACK", (Z.lor 4 (Z.shiftl 2 8)));
   ("SQLITE_CONSTRAINT_CHECK", (Z.lor 19 (Z.shiftl 1 8)));
   ("SQLITE_CONSTRAINT_COMMITHOOK", (Z.lor 19 (Z.shiftl 2 8)));
   ("SQLITE_CONSTRAINT_FOREIGNKEY", (Z.lor 19 (Z.shiftl 3 8)));
   ("SQLITE_CONSTRAINT_FUNCTION", (Z.lor 19 (Z.shiftl 4 8)));
   ("SQLITE_CONSTRAINT_NOTNULL", (Z.lor 19 (Z.shiftl 5 8)));
   ("SQLITE_CONSTRAINT_PRIMARYKEY", (Z.lor 19 (Z.shiftl 6 8)));
   ("SQLITE_CONSTRAINT_TRIGGER", (Z.lor 19 (Z.shiftl 7 8)));
   ("SQLITE_CONSTRAINT_UNIQUE", (Z.lor 19 (Z.shiftl 8 8)));
   ("SQLITE_CONSTRAINT_VTAB", (Z.lor 19 (Z.shiftl 9 8)));
   ("SQLITE_CONSTRAINT_ROWID", (Z.lor 19 (Z.shiftl 10 8)));
   ("SQLITE_CONSTRAINT_PINNED", (Z.lor 19 (Z.shiftl 11 8)));
   ("SQLITE_NOTICE_RECOVER_WAL", (Z.lor 27 (Z.shiftl 1 8)));
   ("SQLITE_NOTICE_RECOVER_ROLLBACK", (Z.lor 27 (Z.shiftl 2 8)));
   ("SQLITE_WARNING_AUTOINDEX", (Z.lor 28 (Z.shiftl 1 8)));
   ("SQLITE_AUTH_USER", (Z.lor 23 (Z.shiftl 1 8)));
   ("SQLITE_OK_LOAD_PERMANENTLY", (Z.lor 0 (Z.shiftl 1 8)));
   ("SQLITE_OK_SYMLINK", (Z.lor 0 (Z.shiftl 2 8)))].

Definition tp_consts_SQLITE_OPEN_READONLY : list (string * Z) :=
  [("SQLITE_OPEN_READONLY", 1);
   ("SQLITE_OPEN_READWRITE", 2);
   ("SQLITE_OPEN_CREATE", 4);
   ("SQLITE_OPEN_DELETEONCLOSE", 8);
   ("SQLITE_OPEN_EXCLUSIVE", 16);
   ("SQLITE_OPEN_AUTOPROXY", 32);
   ("SQLITE_OPEN_URI", 64);
   ("SQLITE_OPEN_MEMORY", 128);
   ("SQLITE_OPEN_MAIN_DB", 256);
   ("SQLITE_OPEN_TEMP_DB", 512);
   ("SQLITE_OPEN_TRANSIENT_DB", 1024);
   ("SQLITE_OPEN_MAIN_JOURNAL", 2048);
   ("SQLITE_OPEN_TEMP_JOURNAL", 4096);
   ("SQLITE_OPEN_SUBJOURNAL", 8192);
   ("SQLITE_OPEN_SUPER_JOURNAL", 16384);
   ("SQLITE_OPEN_NOMUTEX", 32768);
   ("SQLITE_OPEN_FULLMUTEX", 65536);
   ("SQLITE_OPEN_SHAREDCACHE", 131072);
   ("SQLITE_OPEN_PRIVATECACHE", 262144);
   ("SQLITE_OPEN_WAL", 524288);
   ("SQLITE_OPEN_NOFOLLOW", 16777216)].

Definition tp_consts_SQLITE_OPEN_MASTER_JOURNAL : list (string * Z) :=
  [("SQLITE_OPEN_MASTER_JOURNAL", 16384)].

Definition tp_consts_SQLITE_IOCAP_ATOMIC : list (string * Z) :=
  [("SQLITE_IOCAP_ATOMIC", 1);
   ("SQLITE_IOCAP_ATOMIC512", 2);
   ("SQLITE_IOCAP_ATOMIC1K", 4);
   ("SQLITE_IOCAP_ATOMIC2K", 8);
   ("SQLITE_IOCAP_ATOMIC4K", 16);
   ("SQLITE_IOCAP_ATOMIC8K", 32);
   ("SQLITE_IOCAP_ATOMIC16K", 64);
   ("SQLITE_IOCAP_ATOMIC32K", 128);
   ("SQLITE_IOCAP_ATOMIC64K", 256);
   ("SQLITE_IOCAP_SAFE_APPEND", 512);
   ("SQLITE_IOCAP_SEQUENTIAL", 1024);
   ("SQLITE_IOCAP_UNDELETABLE_WHEN_OPEN", 2048);
   ("SQLITE_IOCAP_POWERSAFE_OVERWRITE", 4096);
   ("SQLITE_IOCAP_IMMUTABLE", 8192);
   ("SQLITE_IOCAP_BATCH_ATOMIC", 16384)].

Definition tp_consts_SQLITE_LOCK_NONE : list (string * Z) :=
  [("SQLITE_LOCK_NONE", 0);
   ("SQLITE_LOCK_SHARED", 1);
   ("SQLITE_LOCK_RESERVED", 2);
   ("SQLITE_LOCK_PENDING", 3);
   ("SQLITE_LOCK_EXCLUSIVE", 4)].

Definition tp_consts_SQLITE_SYNC_NORMAL : list (string * Z) :=
  [("SQLITE_SYNC_NORMAL", 2);
   ("SQLITE_SYNC_FULL", 3);
   ("SQLITE_SYNC_DATAONLY", 16)].

Definition tp_consts_SQLITE_FCNTL_LOCKSTATE : list (string * Z) :=
  [("SQLITE_FCNTL_LOCKSTATE", 1);
   ("SQLITE_FCNTL_GET_LOCKPROXYFILE", 2);
   ("SQLITE_FCNTL_SET_LOCKPROXYFILE", 3);
   ("SQLITE_FCNTL_LAST_ERRNO", 4);
   ("SQLITE_FCNTL_SIZE_HINT", 5);
   ("SQLITE_FCNTL_CHUNK_SIZE", 6);
   ("SQLITE_FCNTL_FILE_POINTER", 7);
   ("SQLITE_FCNTL_SYNC_OMITTED", 8);
   ("SQLITE_FCNTL_WIN32_AV_RETRY", 9);
   ("SQLITE_FCNTL_PERSIST_WAL", 10);
   ("SQLITE_FCNTL_OVERWRITE", 11);
   ("SQLITE_FCNTL_VFSNAME", 12);
   ("SQLITE_FCNTL_POWERSAFE_OVERWRITE", 13);
   ("SQLITE_FCNTL_PRAGMA", 14);
   ("SQLITE_FCNTL_BUSYHANDLER", 15);
   ("SQLITE_FCNTL_TEMPFILENAME", 16);
   ("SQLITE_FCNTL_MMAP_SIZE", 18);
   ("SQLITE_FCNTL_TRACE", 19);
   ("SQLITE_FCNTL_HAS_MOVED", 20);
   ("SQLITE_FCNTL_SYNC", 21);
   ("SQLITE_FCNTL_COMMIT_PHASETWO", 22);
   ("SQLITE_FCNTL_WIN32_SET_HANDLE", 23);
   ("SQLITE_FCNTL_WAL_BLOCK", 24);
   ("SQLITE_FCNTL_ZIPVFS", 25);
   ("SQLITE_FCNTL_RBU", 26);
   ("SQLITE_FCNTL_VFS_POINTER", 27);
   ("SQLITE_FCNTL_JOURNAL_POINTER", 28);
   ("SQLITE_FCNTL_WIN32_GET_HANDLE", 29);
   ("SQLITE_FCNTL_PDB", 30);
   ("SQLITE_FCNTL_BEGIN_ATOMIC_WRITE", 31);
   ("SQLITE_FCNTL_COMMIT_ATOMIC_WRITE", 32);
   ("SQLITE_FCNTL_ROLLBACK_ATOMIC_WRITE", 33);
   ("SQLITE_FCNTL_LOCK_TIMEOUT", 34);
   ("SQLITE_FCNTL_DATA_VERSION", 35);
   ("SQLITE_FCNTL_SIZE_LIMIT", 36);
   ("SQLITE_FCNTL_CKPT_DONE", 37);
   ("SQLITE_FCNTL_RESERVE_BYTES", 38);
   ("SQLITE_FCNTL_CKPT_START", 39);
   ("SQLITE_FCNTL_EXTERNAL_READER", 40);
   ("SQLITE_FCNTL_CKSM_FILE", 41);
   ("SQLITE_GET_LOCKPROXYFILE", 2);
   ("SQLITE_SET_LOCKPROXYFILE", 3);
   ("SQLITE_LAST_ERRNO", 4)].

Definition tp_consts_SQLITE_ACCESS_EXISTS : list (string * Z) :=
  [("SQLITE_ACCESS_EXISTS", 0);
   ("SQLITE_ACCESS_READWRITE", 1);
   ("SQLITE_ACCESS_READ", 2)].

Definition tp_consts_SQLITE_SHM_UNLOCK : list (string * Z) :=
  [("SQLITE_SHM_UNLOCK", 1);
   ("SQLITE_SHM_LOCK", 2);
   ("SQLITE_SHM_SHARED", 4);
   ("SQLITE_SHM_EXCLUSIVE", 8)].

Definition tp_consts_SQLITE_SHM_NLOCK : list (string * Z) :=
  [("SQLITE_SHM_NLOCK", 8)].

Definition tp_consts_SQLITE_CONFIG_SINGLETHREAD : list (string * Z) :=
  [("SQLITE_CONFIG_SINGLETHREAD", 1);
   ("SQLITE_CONFIG_MULTITHREAD", 2);
   ("SQLITE_CONFIG_SERIALIZED", 3);
   ("SQLITE_CONFIG_MALLOC", 4);
   ("SQLITE_CONFIG_GETMALLOC", 5);
   ("SQLITE_CONFIG_SCRATCH", 6);
   ("SQLITE_CONFIG_PAGECACHE", 7);
   ("SQLITE_CONFIG_HEAP", 8);
   ("SQLITE_CONFIG_MEMSTATUS", 9);
   ("SQLITE_CONFIG_MUTEX", 10);
   ("SQLITE_CONFIG_GETMUTEX", 11);
   ("SQLITE_CONFIG_LOOKASIDE", 13);
   ("SQLITE_CONFIG_PCACHE", 14);
   ("SQLITE_CONFIG_GETPCACHE", 15);
   ("SQLITE_CONFIG_LOG", 16);
   ("SQLITE_CONFIG_URI", 17);
   ("SQLITE_CONFIG_PCACHE2", 18);
   ("SQLITE_CONFIG_GETPCACHE2", 19);
   ("SQLITE_CONFIG_COVERING_INDEX_SCAN", 20);
   ("SQLITE_CONFIG_SQLLOG", 21);
   ("SQLITE_CONFIG_MMAP_SIZE", 22);
   ("SQLITE_CONFIG_WIN32_HEAPSIZE", 23);
   ("SQLITE_CONFIG_PCACHE_HDRSZ", 24);
   ("SQLITE_CONFIG_PMASZ", 25);
   ("SQLITE_CONFIG_STMTJRNL_SPILL", 26);
   ("SQLITE_CONFIG_SMALL_MALLOC", 27);
   ("SQLITE_CONFIG_SORTERREF_SIZE", 28);
   ("SQLITE_CONFIG_MEMDB_MAXSIZE", 29)].

Definition tp_consts_SQLITE_DBCONFIG_MAINDBNAME : list (string * Z) :=
  [("SQLITE_DBCONFIG_MAINDBNAME", 1000);
   ("SQLITE_DBCONFIG_LOOKASIDE", 1001);
   ("SQLITE_DBCONFIG_ENABLE_FKEY", 1002);
   ("SQLITE_DBCONFIG_ENABLE_TRIGGER", 1003);
   ("SQLITE_DBCONFIG_ENABLE_FTS3_TOKENIZER", 1004);
   ("SQLITE_DBCONFIG_ENABLE_LOAD_EXTENSION", 1005);
   ("SQLITE_DBCONFIG_NO_CKPT_ON_CLOSE", 1006);
   ("SQLITE_DBCONFIG_ENABLE_QPSG", 1007);
   ("SQLITE_DBCONFIG_TRIGGER_EQP", 1008);
   ("SQLITE_DBCONFIG_RESET_DATABASE", 1009);
   ("SQLITE_DBCONFIG_DEFENSIVE", 1010);
   ("SQLITE_DBCONFIG_WRITABLE_SCHEMA", 1011);
   ("SQLITE_DBCONFIG_LEGACY_ALTER_TABLE", 1012);
   ("SQLITE_DBCONFIG_DQS_DML", 1013);
   ("SQLITE_DBCONFIG_DQS_DDL", 1014);
   ("SQLITE_DBCONFIG_ENABLE_VIEW", 1015);
   ("SQLITE_DBCONFIG_LEGACY_FILE_FORMAT", 1016);
   ("SQLITE_DBCONFIG_TRUSTED_SCHEMA", 1017);
   ("SQLITE_DBCONFIG_MAX", 1017)].

Definition tp_consts_SQLITE_DENY : list (string * Z) :=
  [("SQLITE_DENY", 1);
   ("SQLITE_IGNORE", 2)].

Definition tp_consts_SQLITE_CREATE_INDEX : list (string * Z) :=
  [("SQLITE_CREATE_INDEX", 1);
   ("SQLITE_CREATE_TABLE", 2);
   ("SQLITE_CREATE_TEMP_INDEX", 3);
   ("SQLITE_CREATE_TEMP_TABLE", 4);
   ("SQLITE_CREATE_TEMP_TRIGGER", 5);
   ("SQLITE_CREATE_TEMP_VIEW", 6);
   ("SQLITE_CREATE_TRIGGER", 7);
   ("SQLITE_CREATE_VIEW", 8);
   ("SQLITE_DELETE", 9);
   ("SQLITE_DROP_INDEX", 10);
   ("SQLITE_DROP_TABLE", 11);
   ("SQLITE_DROP_TEMP_INDEX", 12);
   ("SQLITE_DROP_TEMP_TABLE", 13);
   ("SQLITE_DROP_TEMP_TRIGGER", 14);
   ("SQLITE_DROP_TEMP_VIEW", 15);
   ("SQLITE_DROP_TRIGGER", 16);
   ("SQLITE_DROP_VIEW", 17);
   ("SQLITE_INSERT", 18);
   ("SQLITE_PRAGMA", 19);
   ("SQLITE_READ", 20);
   ("SQLITE_SELECT", 21);
   ("SQLITE_TRANSACTION", 22);
   ("SQLITE_UPDATE", 23);
   ("SQLITE_ATTACH", 24);
   ("SQLITE_DETACH", 25);
   ("SQLITE_ALTER_TABLE", 26);
   ("SQLITE_REINDEX", 27);
   ("SQLITE_ANALYZE", 28);
   ("SQLITE_CREATE_VTABLE", 29);
   ("SQLITE_DROP_VTABLE", 30);
   ("SQLITE_FUNCTION", 31);
   ("SQLITE_SAVEPOINT", 32);
   ("SQLITE_COPY", 0);
   ("SQLITE_RECURSIVE", 33)].

Definition tp_consts_SQLITE_TRACE_STMT : list (string * Z) :=
  [("SQLITE_TRACE_STMT", 1);
   ("SQLITE_TRACE_PROFILE", 2);
   ("SQLITE_TRACE_ROW", 4);
   ("SQLITE_TRACE_CLOSE", 8)].

Definition tp_consts_SQLITE_LIMIT_LENGTH : list (string * Z) :=
  [("SQLITE_LIMIT_LENGTH", 0);
   ("SQLITE_LIMIT_SQL_LENGTH", 1);
   ("SQLITE_LIMIT_COLUMN", 2);
   ("SQLITE_LIMIT_EXPR_DEPTH", 3);
   ("SQLITE_LIMIT_COMPOUND_SELECT", 4);
   ("SQLITE_LIMIT_VDBE_OP", 5);
   ("SQLITE_LIMIT_FUNCTION_ARG", 6);
   ("SQLITE_LIMIT_ATTACHED", 7);
   ("SQLITE_LIMIT_LIKE_PATTERN_LENGTH", 8);
   ("SQLITE_LIMIT_VARIABLE_NUMBER", 9);
   ("SQLITE_LIMIT_TRIGGER_DEPTH", 10);
   ("SQLITE_LIMIT_WORKER_THREADS", 11)].

Definition tp_consts_SQLITE_PREPARE_PERSISTENT : list (string * Z) :=
  [("SQLITE_PREPARE_PERSISTENT", 1);
   ("SQLITE_PREPARE_NORMALIZE", 2);
   ("SQLITE_PREPARE_NO_VTAB", 4)].

Definition tp_consts_SQLITE_INTEGER : list (string * Z) :=
  [("SQLITE_INTEGER", 1);
   ("SQLITE_FLOAT", 2);
   ("SQLITE_BLOB", 4);
   ("SQLITE_NULL", 5)].

Definition tp_consts_SQLITE_UTF8 : list (string * Z) :=
  [("SQLITE_UTF8", 1);
   ("SQLITE_UTF16LE", 2);
   ("SQLITE_UTF16BE", 3);
   ("SQLITE_UTF16", 4);
   ("SQLITE_ANY", 5);
   ("SQLITE_UTF16_ALIGNED", 8)].

Definition tp_consts_SQLITE_DETERMINISTIC : list (string * Z) :=
  [("SQLITE_DETERMINISTIC", 2048);
   ("SQLITE_DIRECTONLY", 524288);
   ("SQLITE_SUBTYPE", 1048576);
   ("SQLITE_INNOCUOUS", 2097152)].

Definition tp_consts_SQLITE_WIN32_DATA_DIRECTORY_TYPE : list (string * Z) :=
  [("SQLITE_WIN32_DATA_DIRECTORY_TYPE", 1);
   ("SQLITE_WIN32_TEMP_DIRECTORY_TYPE", 2)].

Definition tp_consts_SQLITE_TXN_NONE : list (string * Z) :=
  [("SQLITE_TXN_NONE", 0);
   ("SQLITE_TXN_READ", 1);
   ("SQLITE_TXN_WRITE", 2)].

Definition tp_consts_SQLITE_INDEX_SCAN_UNIQUE : list (string * Z) :=
  [("SQLITE_INDEX_SCAN_UNIQUE", 1)].

Definition tp_consts_SQLITE_INDEX_CONSTRAINT_EQ : list (string * Z) :=
  [("SQLITE_INDEX_CONSTRAINT_EQ", 2);
   ("SQLITE_INDEX_CONSTRAINT_GT", 4);
   ("SQLITE_INDEX_CONSTRAINT_LE", 8);
   ("SQLITE_INDEX_CONSTRAINT_LT", 16);
   ("SQLITE_INDEX_CONSTRAINT_GE", 32);
   ("SQLITE_INDEX_CONSTRAINT_MATCH", 64);
   ("SQLITE_INDEX_CONSTRAINT_LIKE", 65);
   ("SQLITE_INDEX_CONSTRAINT_GLOB", 66);
   ("SQLITE_INDEX_CONSTRAINT_REGEXP", 67);
   ("SQLITE_INDEX_CONSTRAINT_NE", 68);
   ("SQLITE_INDEX_CONSTRAINT_ISNOT", 69);
   ("SQLITE_INDEX_CONSTRAINT_ISNOTNULL", 70);
   ("SQLITE_INDEX_CONSTRAINT_ISNULL", 71);
   ("SQLITE_INDEX_CONSTRAINT_IS", 72);
   ("SQLITE_INDEX_CONSTRAINT_FUNCTION", 150)].

Definition tp_consts_SQLITE_MUTEX_FAST : list (string * Z) :=
  [("SQLITE_MUTEX_FAST", 0);
   ("SQLITE_MUTEX_RECURSIVE", 1);
   ("SQLITE_MUTEX_STATIC_MAIN", 2);
   ("SQLITE_MUTEX_STATIC_MEM", 3);
   ("SQLITE_MUTEX_STATIC_MEM2", 4);
   ("SQLITE_MUTEX_STATIC_OPEN", 4);
   ("SQLITE_MUTEX_STATIC_PRNG", 5);
   ("SQLITE_MUTEX_STATIC_LRU", 6);
   ("SQLITE_MUTEX_STATIC_LRU2", 7);
   ("SQLITE_MUTEX_STATIC_PMEM", 7);
   ("SQLITE_MUTEX_STATIC_APP1", 8);
   ("SQLITE_MUTEX_STATIC_APP2", 9);
   ("SQLITE_MUTEX_STATIC_APP3", 10);
   ("SQLITE_MUTEX_STATIC_VFS1", 11);
   ("SQLITE_MUTEX_STATIC_VFS2", 12);
   ("SQLITE_MUTEX_STATIC_VFS3", 13);
   ("SQLITE_MUTEX_STATIC_MASTER", 2)].

Definition tp_consts_SQLITE_TESTCTRL_FIRST : list (string * Z) :=
  [("SQLITE_TESTCTRL_FIRST", 5);
   ("SQLITE_TESTCTRL_PRNG_SAVE", 5);
   ("SQLITE_TESTCTRL_PRNG_RESTORE", 6);
   ("SQLITE_TESTCTRL_PRNG_RESET", 7);
   ("SQLITE_TESTCTRL_BITVEC_TEST", 8);
   ("SQLITE_TESTCTRL_FAULT_INSTALL", 9);
   ("SQLITE_TESTCTRL_BENIGN_MALLOC_HOOKS", 10);
   ("SQLITE_TESTCTRL_PENDING_BYTE", 11);
   ("SQLITE_TESTCTRL_ASSERT", 12);
   ("SQLITE_TESTCTRL_ALWAYS", 13);
   ("SQLITE_TESTCTRL_RESERVE", 14);
   ("SQLITE_TESTCTRL_OPTIMIZATIONS", 15);
   ("SQLITE_TESTCTRL_ISKEYWORD", 16);
   ("SQLITE_TESTCTRL_SCRATCHMALLOC", 17);
   ("SQLITE_TESTCTRL_INTERNAL_FUNCTIONS", 17);
   ("SQLITE_TESTCTRL_LOCALTIME_FAULT", 18);
   ("SQLITE_TESTCTRL_EXPLAIN_STMT", 19);
   ("SQLITE_TESTCTRL_ONCE_RESET_THRESHOLD", 19);
   ("SQLITE_TESTCTRL_NEVER_CORRUPT", 20);
   ("SQLITE_TESTCTRL_VDBE_COVERAGE", 21);
   ("SQLITE_TESTCTRL_BYTEORDER", 22);
   ("SQLITE_TESTCTRL_ISINIT", 23);
   ("SQLITE_TESTCTRL_SORTER_MMAP", 24);
   ("SQLITE_TESTCTRL_IMPOSTER", 25);
   ("SQLITE_TESTCTRL_PARSER_COVERAGE", 26);
   ("SQLITE_TESTCTRL_RESULT_INTREAL", 27);
   ("SQLITE_TESTCTRL_PRNG_SEED", 28);
   ("SQLITE_TESTCTRL_EXTRA_SCHEMA_CHECKS", 29);
   ("SQLITE_TESTCTRL_SEEK_COUNT", 30);
   ("SQLITE_TESTCTRL_TRACEFLAGS", 31);
   ("SQLITE_TESTCTRL_TUNE", 32);
   ("SQLITE_TESTCTRL_LAST", 32)].

Definition tp_consts_SQLITE_STATUS_MEMORY_USED : list (string * Z) :=
  [("SQLITE_STATUS_MEMORY_USED", 0);
   ("SQLITE_STATUS_PAGECACHE_USED", 1);
   ("SQLITE_STATUS_PAGECACHE_OVERFLOW", 2);
   ("SQLITE_STATUS_SCRATCH_USED", 3);
   ("SQLITE_STATUS_SCRATCH_OVERFLOW", 4);
   ("SQLITE_STATUS_MALLOC_SIZE", 5);
   ("SQLITE_STATUS_PARSER_STACK", 6);
   ("SQLITE_STATUS_PAGECACHE_SIZE", 7);
   ("SQLITE_STATUS_SCRATCH_SIZE", 8);
   ("SQLITE_STATUS_MALLOC_COUNT", 9)].

Definition tp_consts_SQLITE_DBSTATUS_LOOKASIDE_USED : list (string * Z) :=
  [("SQLITE_DBSTATUS_LOOKASIDE_USED", 0);
   ("SQLITE_DBSTATUS_CACHE_USED", 1);
   ("SQLITE_DBSTATUS_SCHEMA_USED", 2);
   ("SQLITE_DBSTATUS_STMT_USED", 3);
   ("SQLITE_DBSTATUS_LOOKASIDE_HIT", 4);
   ("SQLITE_DBSTATUS_LOOKASIDE_MISS_SIZE", 5);
   ("SQLITE_DBSTATUS_LOOKASIDE_MISS_FULL", 6);
   ("SQLITE_DBSTATUS_CACHE_HIT", 7);
   ("SQLITE_DBSTATUS_CACHE_MISS", 8);
   ("SQLITE_DBSTATUS_CACHE_WRITE", 9);
   ("SQLITE_DBSTATUS_DEFERRED_FKS", 10);
   ("SQLITE_DBSTATUS_CACHE_USED_SHARED", 11);
   ("SQLITE_DBSTATUS_CACHE_SPILL", 12);
   ("SQLITE_DBSTATUS_MAX", 12)].

Definition tp_consts_SQLITE_STMTSTATUS_FULLSCAN_STEP : list (string * Z) :=
  [("SQLITE_STMTSTATUS_FULLSCAN_STEP", 1);
   ("SQLITE_STMTSTATUS_SORT", 2);
   ("SQLITE_STMTSTATUS_AUTOINDEX", 3);
   ("SQLITE_STMTSTATUS_VM_STEP", 4);
   ("SQLITE_STMTSTATUS_REPREPARE", 5);
   ("SQLITE_STMTSTATUS_RUN", 6);
   ("SQLITE_STMTSTATUS_MEMUSED", 99)].

Definition tp_consts_SQLITE_CHECKPOINT_PASSIVE : list (string * Z) :=
  [("SQLITE_CHECKPOINT_PASSIVE", 0);
   ("SQLITE_CHECKPOINT_FULL", 1);
   ("SQLITE_CHECKPOINT_RESTART", 2);
   ("SQLITE_CHECKPOINT_TRUNCATE", 3)].

Definition tp_consts_SQLITE_VTAB_CONSTRAINT_SUPPORT : list (string * Z) :=
  [("SQLITE_VTAB_CONSTRAINT_SUPPORT", 1);
   ("SQLITE_VTAB_INNOCUOUS", 2);
   ("SQLITE_VTAB_DIRECTONLY", 3)].

Definition tp_consts_SQLITE_ROLLBACK : list (string * Z) :=
  [("SQLITE_ROLLBACK", 1);
   ("SQLITE_FAIL", 3);
   ("SQLITE_REPLACE", 5)].

Definition tp_consts_SQLITE_SCANSTAT_NLOOP : list (string * Z) :=
  [("SQLITE_SCANSTAT_NLOOP", 0);
   ("SQLITE_SCANSTAT_NVISIT", 1);
   ("SQLITE_SCANSTAT_EST", 2);
   ("SQLITE_SCANSTAT_NAME", 3);
   ("SQLITE_SCANSTAT_EXPLAIN", 4);
   ("SQLITE_SCANSTAT_SELECTID", 5)].

Definition tp_consts_SQLITE_SERIALIZE_NOCOPY : list (string * Z) :=
  [("SQLITE_SERIALIZE_NOCOPY", 1)].

Definition tp_consts_SQLITE_DESERIALIZE_FREEONCLOSE : list (string * Z) :=
  [("SQLITE_DESERIALIZE_FREEONCLOSE", 1);
   ("SQLITE_DESERIALIZE_RESIZEABLE", 2);
   ("SQLITE_DESERIALIZE_READONLY", 4)].

Definition tp_consts_SQLITE_SESSION_OBJCONFIG_SIZE : list (string * Z) :=
  [("SQLITE_SESSION_OBJCONFIG_SIZE", 1)].

Definition tp_consts_SQLITE_CHANGESETSTART_INVERT : list (string * Z) :=
  [("SQLITE_CHANGESETSTART_INVERT", 2)].

Definition tp_consts_SQLITE_CHANGESETAPPLY_NOSAVEPOINT : list (string * Z) :=
  [("SQLITE_CHANGESETAPPLY_NOSAVEPOINT", 1);
   ("SQLITE_CHANGESETAPPLY_INVERT", 2)].

Definition tp_consts_SQLITE_CHANGESET_DATA : list (string * Z) :=
  [("SQLITE_CHANGESET_DATA", 1);
   ("SQLITE_CHANGESET_NOTFOUND", 2);
   ("SQLITE_CHANGESET_CONFLICT", 3);
   ("SQLITE_CHANGESET_CONSTRAINT", 4);
   ("SQLITE_CHANGESET_FOREIGN_KEY", 5)].

Definition tp_consts_SQLITE_CHANGESET_OMIT : list (string * Z) :=
  [("SQLITE_CHANGESET_OMIT", 0);
   ("SQLITE_CHANGESET_REPLACE", 1);
   ("SQLITE_CHANGESET_ABORT", 2)].

Definition tp_consts_SQLITE_SESSION_CONFIG_STRMSIZE : list (string * Z) :=
  [("SQLITE_SESSION_CONFIG_STRMSIZE", 1)].

Definition tp_consts_SQLITE_TEXT : list (string * Z) :=
  [("SQLITE_TEXT", 3);
   ("SQLITE3_TEXT", 3)].

Definition tp_consts_NOT_WITHIN : list (string * Z) :=
  [("NOT_WITHIN", 0);
   ("PARTLY_WITHIN", 1);
   ("FULLY_WITHIN", 2)].

Definition tp_consts_FTS5_TOKENIZE_QUERY : list (string * Z) :=
  [("FTS5_TOKENIZE_QUERY", 1);
   ("FTS5_TOKENIZE_PREFIX", 2);
   ("FTS5_TOKENIZE_DOCUMENT", 4);
   ("FTS5_TOKENIZE_AUX", 8)].

Definition tp_consts_FTS5_TOKEN_COLOCATED : list (string * Z) :=
  [("FTS5_TOKEN_COLOCATED", 1)].

Definition tp_constants : list (string * Z) :=
  tp_consts_SQLITE_VERSION_NUMBER ++ tp_consts_SQLITE_OK ++ tp_consts_SQLITE_ERROR_MISSING_COLLSEQ ++ tp_consts_SQLITE_OPEN_READONLY ++ tp_consts_SQLITE_OPEN_MASTER_JOURNAL ++ tp_consts_SQLITE_IOCAP_ATOMIC ++ tp_consts_SQLITE_LOCK_NONE ++ tp_consts_SQLITE_SYNC_NORMAL ++ tp_consts_SQLITE_FCNTL_LOCKSTATE ++ tp_consts_SQLITE_ACCESS_EXISTS ++ tp_consts_SQLITE_SHM_UNLOCK ++ tp_consts_SQLITE_SHM_NLOCK ++ tp_consts_SQLITE_CONFIG_SINGLETHREAD ++ tp_consts_SQLITE_DBCONFIG_MAINDBNAME ++ tp_consts_SQLITE_DENY ++ tp_consts_SQLITE_CREATE_INDEX ++ tp_consts_SQLITE_TRACE_STMT ++ tp_consts_SQLITE_LIMIT_LENGTH ++ tp_consts_SQLITE_PREPARE_PERSISTENT ++ tp_consts_SQLITE_INTEGER ++ tp_consts_SQLITE_UTF8 ++ tp_consts_SQLITE_DETERMINISTIC ++ tp_consts_SQLITE_WIN32_DATA_DIRECTORY_TYPE ++ tp_consts_SQLITE_TXN_NONE ++ tp_consts_SQLITE_INDEX_SCAN_UNIQUE ++ tp_consts_SQLITE_INDEX_CONSTRAINT_EQ ++ tp_consts_SQLITE_MUTEX_FAST ++ tp_consts_SQLITE_TESTCTRL_FIRST ++ tp_consts_SQLITE_STATUS_MEMORY_USED ++ tp_consts_SQLITE_DBSTATUS_LOOKASIDE_USED ++ tp_consts_SQLITE_STMTSTATUS_FULLSCAN_STEP ++ tp_consts_SQLITE_CHECKPOINT_PASSIVE ++ tp_consts_SQLITE_VTAB_CONSTRAINT_SUPPORT ++ tp_consts_SQLITE_ROLLBACK ++ tp_consts_SQLITE_SCANSTAT_NLOOP ++ tp_consts_SQLITE_SERIALIZE_NOCOPY ++ tp_consts_SQLITE_DESERIALIZE_FREEONCLOSE ++ tp_consts_SQLITE_SESSION_OBJCONFIG_SIZE ++ tp_consts_SQLITE_CHANGESETSTART_INVERT ++ tp_consts_SQLITE_CHANGESETAPPLY_NOSAVEPOINT ++ tp_consts_SQLITE_CHANGESET_DATA ++ tp_consts_SQLITE_CHANGESET_OMIT ++ tp_consts_SQLITE_SESSION_CONFIG_STRMSIZE ++ tp_consts_SQLITE_TEXT ++ tp_consts_NOT_WITHIN ++ tp_consts_FTS5_TOKENIZE_QUERY ++ tp_consts_FTS5_TOKEN_COLOCATED.

(** ** Function prototypes, one table per group of adjacent declarations *)

Definition tp_api_sqlite3_version : list (string * ctype) :=
  [("sqlite3_version", TArr (TConst (TName "char")));
   ("sqlite3_libversion", TFun (TPtr (TConst (TName "char"))) []);
   ("sqlite3_sourceid", TFun (TPtr (TConst (TName "char"))) []);
   ("sqlite3_libversion_number", TFun (TName "int") [])].
Definition tp_api_sqlite3_compileoption_used : list (string * ctype) :=
  [("sqlite3_compileoption_used", TFun (TName "int") [TPtr (TConst (TName "char"))]);
   ("sqlite3_compileoption_get", TFun (TPtr (TConst (TName "char"))) [TName "int"])].
Definition tp_api_sqlite3_threadsafe : list (string * ctype) :=
  [("sqlite3_threadsafe", TFun (TName "int") [])].
Definition tp_api_sqlite3_close : list (string * ctype) :=
  [("sqlite3_close", TFun (TName "int") [TPtr (TName "sqlite3")]);
   ("sqlite3_close_v2", TFun (TName "int") [TPtr (TName "sqlite3")])].
Definition tp_api_sqlite3_exec : list (string * ctype) :=
  [("sqlite3_exec", TFun (TName "int") [TPtr (TName "sqlite3"); TPtr (TConst (TName "char")); TPtr (TFun (TName "int") [TPtr (TName "void"); TName "int"; TPtr (TPtr (TName "char")); TPtr (TPtr (TName "char"))]); TPtr (TName "void"); TPtr (TPtr (TName "char"))])].
Definition tp_api_sqlite3_initialize : list (string * ctype) :=
  [("sqlite3_initialize", TFun (TName "int") []);
   ("sqlite3_shutdown", TFun (TName "int") []);
   ("sqlite3_os_init", TFun (TName "int") []);
   ("sqlite3_os_end", TFun (TName "int") [])].
Definition tp_api_sqlite3_config : list (string * ctype) :=
  [("sqlite3_config", TFun (TName "int") [TName "int"; TDots])].
Definition tp_api_sqlite3_db_config : list (string * ctype) :=
  [("sqlite3_db_config", TFun (TName "int") [TPtr (TName "sqlite3"); TName "int"; TDots])].
Definition tp_api_sqlite3_extended_result_codes : list (string * ctype) :=
  [("sqlite3_extended_result_codes", TFun (TName "int") [TPtr (TName "sqlite3"); TName "int"])].
Definition tp_api_sqlite3_last_insert_rowid : list (string * ctype) :=
  [("sqlite3_last_insert_rowid", TFun (TName "sqlite3_int64") [TPtr (TName "sqlite3")])].
Definition tp_api_sqlite3_set_last_insert_rowid : list (string * ctype) :=
  [("sqlite3_set_last_insert_rowid", TFun (TName "void") [TPtr (TName "sqlite3"); TName "sqlite3_int64"])].
Definition tp_api_sqlite3_changes : list (string * ctype) :=
  [("sqlite3_changes", TFun (TName "int") [TPtr (TName "sqlite3")])].
Definition tp_api_sqlite3_total_changes : list (string * ctype) :=
  [("sqlite3_total_changes", TFun (TName "int") [TPtr (TName "sqlite3")])].
Definition tp_api_sqlite3_interrupt : list (string * ctype) :=
  [("sqlite3_interrupt", TFun (TName "void") [TPtr (TName "sqlite3")])].
Definition tp_api_sqlite3_complete : list (string * ctype) :=
  [("sqlite3_complete", TFun (TName "int") [TPtr (TConst (TName "char"))]);
   ("sqlite3_complete16", TFun (TName "int") [TPtr (TConst (TName "void"))])].
Definition tp_api_sqlite3_busy_handler : list (string * ctype) :=
  [("sqlite3_busy_handler", TFun (TName "int") [TPtr (TName "sqlite3"); TPtr (TFun (TName "int") [TPtr (TName "void"); TName "int"]); TPtr (TName "void")])].
Definition tp_api_sqlite3_busy_timeout : list (string * ctype) :=
  [("sqlite3_busy_timeout", TFun (TName "int") [TPtr (TName "sqlite3"); TName "int"])].
Definition tp_api_sqlite3_get_table : list (string * ctype) :=
  [("sqlite3_get_table", TFun (TName "int") [TPtr (TName "sqlite3"); TPtr (TConst (TName "char")); TPtr (TPtr (TPtr (TName "char"))); TPtr (TName "int"); TPtr (TName "int"); TPtr (TPtr (TName "char"))]);
   ("sqlite3_free_table", TFun (TName "void") [TPtr (TPtr (TName "char"))])].
Definition tp_api_sqlite3_mprintf : list (string * ctype) :=
  [("sqlite3_mprintf", TFun (TPtr (TName "char")) [TPtr (TConst (TName "char")); TDots]);
   ("sqlite3_vmprintf", TFun (TPtr (TName "char")) [TPtr (TConst (TName "char")); TName "va_list"]);
   ("sqlite3_snprintf", TFun (TPtr (TName "char")) [TName "int"; TPtr (TName "char"); TPtr (TConst (TName "char")); TDots]);
   ("sqlite3_vsnprintf", TFun (TPtr (TName "char")) [TName "int"; TPtr (TName "char"); TPtr (TConst (TName "char")); TName "va_list"])].
Definition tp_api_sqlite3_malloc : list (string * ctype) :=
  [("sqlite3_malloc", TFun (TPtr (TName "void")) [TName "int"]);
   ("sqlite3_malloc64", TFun (TPtr (TName "void")) [TName "sqlite3_uint64"]);
   ("sqlite3_realloc", TFun (TPtr (TName "void")) [TPtr (TName "void"); TName "int"]);
   ("sqlite3_realloc64", TFun (TPtr (TName "void")) [TPtr (TName "void"); TName "sqlite3_uint64"]);
   ("sqlite3_free", TFun (TName "void") [TPtr (TName "void")]);
   ("sqlite3_msize", TFun (TName "sqlite3_uint64") [TPtr (TName "void")])].
Definition tp_api_sqlite3_memory_used : list (string * ctype) :=
  [("sqlite3_memory_used", TFun (TName "sqlite3_int64") []);
   ("sqlite3_memory_highwater", TFun (TName "sqlite3_int64") [TName "int"])].
Definition tp_api_sqlite3_randomness : list (string * ctype) :=
  [("sqlite3_randomness", TFun (TName "void") [TName "int"; TPtr (TName "void")])].
Definition tp_api_sqlite3_set_authorizer : list (string * ctype) :=
  [("sqlite3_set_authorizer", TFun (TName "int") [TPtr (TName "sqlite3"); TPtr (TFun (TName "int") [TPtr (TName "void"); TName "int"; TPtr (TConst (TName "char")); TPtr (TConst (TName "char")); TPtr (TConst (TName "char")); TPtr (TConst (TName "char"))]); TPtr (TName "void")])].
Definition tp_api_sqlite3_trace : list (string * ctype) :=
  [("sqlite3_trace", TFun (TPtr (TName "void")) [TPtr (TName "sqlite3"); TPtr (TFun (TName "void") [TPtr (TName "void"); TPtr (TConst (TName "char"))]); TPtr (TName "void")]);
   ("sqlite3_profile", TFun (TPtr (TName "void")) [TPtr (TName "sqlite3"); TPtr (TFun (TName "void") [TPtr (TName "void"); TPtr (TConst (TName "char")); TName "sqlite3_uint64"]); TPtr (TName "void")])].
Definition tp_api_sqlite3_trace_v2 : list (string * ctype) :=
  [("sqlite3_trace_v2", TFun (TName "int") [TPtr (TName "sqlite3"); TName "unsigned"; TPtr (TFun (TName "int") [TName "unsigned"; TPtr (TName "void"); TPtr (TName "void"); TPtr (TName "void")]); TPtr (TName "void")])].
Definition tp_api_sqlite3_progress_handler : list (string * ctype) :=
  [("sqlite3_progress_handler", TFun (TName "void") [TPtr (TName "sqlite3"); TName "int"; TPtr (TFun (TName "int") [TPtr (TName "void")]); TPtr (TName "void")])].
Definition tp_api_sqlite3_open : list (string * ctype) :=
  [("sqlite3_open", TFun (TName "int") [TPtr (TConst (TName "char")); TPtr (TPtr (TName "sqlite3"))]);
   ("sqlite3_open16", TFun (TName "int") [TPtr (TConst (TName "void")); TPtr (TPtr (TName "sqlite3"))]);
   ("sqlite3_open_v2", TFun (TName "int") [TPtr (TConst (TName "char")); TPtr (TPtr (TName "sqlite3")); TName "int"; TPtr (TConst (TName "char"))])].
Definition tp_api_sqlite3_uri_parameter : list (string * ctype) :=
  [("sqlite3_uri_parameter", TFun (TPtr (TConst (TName "char"))) [TPtr (TConst (TName "char")); TPtr (TConst (TName "char"))]);
   ("sqlite3_uri_boolean", TFun (TName "int") [TPtr (TConst (TName "char")); TPtr (TConst (TName "char")); TName "int"]);
   ("sqlite3_uri_int64", TFun (TName "sqlite3_int64") [TPtr (TConst (TName "char")); TPtr (TConst (TName "char")); TName "sqlite3_int64"]);
   ("sqlite3_uri_key", TFun (TPtr (TConst (TName "char"))) [TPtr (TConst (TName "char")); TName "int"])].
Definition tp_api_sqlite3_filename_database : list (string * ctype) :=
  [("sqlite3_filename_database", TFun (TPtr (TConst (TName "char"))) [TPtr (TConst (TName "char"))]);
   ("sqlite3_filename_journal", TFun (TPtr (TConst (TName "char"))) [TPtr (TConst (TName "char"))]);
   ("sqlite3_filename_wal", TFun (TPtr (TConst (TName "char"))) [TPtr (TConst (TName "char"))])].
Definition tp_api_sqlite3_database_file_object : list (string * ctype) :=
  [("sqlite3_database_file_object", TFun (TPtr (TName "sqlite3_file")) [TPtr (TConst (TName "char"))])].
Definition tp_api_sqlite3_create_filename : list (string * ctype) :=
  [("sqlite3_create_filename", TFun (TPtr (TName "char")) [TPtr (TConst (TName "char")); TPtr (TConst (TName "char")); TPtr (TConst (TName "char")); TName "int"; TPtr (TPtr (TConst (TName "char")))]);
   ("sqlite3_free_filename", TFun (TName "void") [TPtr (TName "char")])].
Definition tp_api_sqlite3_errcode : list (string * ctype) :=
  [("sqlite3_errcode", TFun (TName "int") [TPtr (TName "sqlite3")]);
   ("sqlite3_extended_errcode", TFun (TName "int") [TPtr (TName "sqlite3")]);
   ("sqlite3_errmsg", TFun (TPtr (TConst (TName "char"))) [TPtr (TName "sqlite3")]);
   ("sqlite3_errmsg16", TFun (TPtr (TConst (TName "void"))) [TPtr (TName "sqlite3")]);
   ("sqlite3_errstr", TFun (TPtr (TConst (TName "char"))) [TName "int"])].
Definition tp_api_sqlite3_limit : list (string * ctype) :=
  [("sqlite3_limit", TFun (TName "int") [TPtr (TName "sqlite3"); TName "int"; TName "int"])].
Definition tp_api_sqlite3_prepare : list (string * ctype) :=
  [("sqlite3_prepare", TFun (TName "int") [TPtr (TName "sqlite3"); TPtr (TConst (TName "char")); TName "int"; TPtr (TPtr (TName "sqlite3_stmt")); TPtr (TPtr (TConst (TName "char")))]);
   ("sqlite3_prepare_v2", TFun (TName "int") [TPtr (TName "sqlite3"); TPtr (TConst (TName "char")); TName "int"; TPtr (TPtr (TName "sqlite3_stmt")); TPtr (TPtr (TConst (TName "char")))]);
   ("sqlite3_prepare_v3", TFun (TName "int") [TPtr (TName "sqlite3"); TPtr (TConst (TName "char")); TName "int"; TName "unsigned int"; TPtr (TPtr (TName "sqlite3_stmt")); TPtr (TPtr (TConst (TName "char")))]);
   ("sqlite3_prepare16", TFun (TName "int") [TPtr (TName "sqlite3"); TPtr (TConst (TName "void")); TName "int"; TPtr (TPtr (TName "sqlite3_stmt")); TPtr (TPtr (TConst (TName "void")))]);
   ("sqlite3_prepare16_v2", TFun (TName "int") [TPtr (TName "sqlite3"); TPtr (TConst (TName "void")); TName "int"; TPtr (TPtr (TName "sqlite3_stmt")); TPtr (TPtr (TConst (TName "void")))]);
   ("sqlite3_prepare16_v3", TFun (TName "int") [TPtr (TName "sqlite3"); TPtr (TConst (TName "void")); TName "int"; TName "unsigned int"; TPtr (TPtr (TName "sqlite3_stmt")); TPtr (TPtr (TConst (TName "void")))])].
Definition tp_api_sqlite3_sql : list (string * ctype) :=
  [("sqlite3_sql", TFun (TPtr (TConst (TName "char"))) [TPtr (TName "sqlite3_stmt")]);
   ("sqlite3_expanded_sql", TFun (TPtr (TName "char")) [TPtr (TName "sqlite3_stmt")]);
   ("sqlite3_normalized_sql", TFun (TPtr (TConst (TName "char"))) [TPtr (TName "sqlite3_stmt")])].
Definition tp_api_sqlite3_stmt_readonly : list (string * ctype) :=
  [("sqlite3_stmt_readonly", TFun (TName "int") [TPtr (TName "sqlite3_stmt")])].
Definition tp_api_sqlite3_stmt_isexplain : list (string * ctype) :=
  [("sqlite3_stmt_isexplain", TFun (TName "int") [TPtr (TName "sqlite3_stmt")])].
Definition tp_api_sqlite3_stmt_busy : list (string * ctype) :=
  [("sqlite3_stmt_busy", TFun (TName "int") [TPtr (TName "sqlite3_stmt")])].
Definition tp_api_sqlite3_bind_blob : list (string * ctype) :=
  [("sqlite3_bind_blob", TFun (TName "int") [TPtr (TName "sqlite3_stmt"); TName "int"; TPtr (TConst (TName "void")); TName "int"; TPtr (TFun (TName "void") [TPtr (TName "void")])]);
   ("sqlite3_bind_blob64", TFun (TName "int") [TPtr (TName "sqlite3_stmt"); TName "int"; TPtr (TConst (TName "void")); TName "sqlite3_uint64"; TPtr (TFun (TName "void") [TPtr (TName "void")])]);
   ("sqlite3_bind_double", TFun (TName "int") [TPtr (TName "sqlite3_stmt"); TName "int"; TName "double"]);
   ("sqlite3_bind_int", TFun (TName "int") [TPtr (TName "sqlite3_stmt"); TName "int"; TName "int"]);
   ("sqlite3_bind_int64", TFun (TName "int") [TPtr (TName "sqlite3_stmt"); TName "int"; TName "sqlite3_int64"]);
   ("sqlite3_bind_null", TFun (TName "int") [TPtr (TName "sqlite3_stmt"); TName "int"]);
   ("sqlite3_bind_text", TFun (TName "int") [TPtr (TName "sqlite3_stmt"); TName "int"; TPtr (TConst (TName "char")); TName "int"; TPtr (TFun (TName "void") [TPtr (TName "void")])]);
   ("sqlite3_bind_text16", TFun (TName "int") [TPtr (TName "sqlite3_stmt"); TName "int"; TPtr (TConst (TName "void")); TName "int"; TPtr (TFun (TName "void") [TPtr (TName "void")])]);
   ("sqlite3_bind_text64", TFun (TName "int") [TPtr (TName "sqlite3_stmt"); TName "int"; TPtr (TConst (TName "char")); TName "sqlite3_uint64"; TPtr (TFun (TName "void") [TPtr (TName "void")]); TName "unsigned char"]);
   ("sqlite3_bind_value", TFun (TName "int") [TPtr (TName "sqlite3_stmt"); TName "int"; TPtr (TConst (TName "sqlite3_value"))]);
   ("sqlite3_bind_pointer", TFun (TName "int") [TPtr (TName "sqlite3_stmt"); TName "int"; TPtr (TName "void"); TPtr (TConst (TName "char")); TPtr (TFun (TName "void") [TPtr (TName "void")])]);
   ("sqlite3_bind_zeroblob", TFun (TName "int") [TPtr (TName "sqlite3_stmt"); TName "int"; TName "int"]);
   ("sqlite3_bind_zeroblob64", TFun (TName "int") [TPtr (TName "sqlite3_stmt"); TName "int"; TName "sqlite3_uint64"])].
Definition tp_api_sqlite3_bind_parameter_count : list (string * ctype) :=
  [("sqlite3_bind_parameter_count", TFun (TName "int") [TPtr (TName "sqlite3_stmt")])].
Definition tp_api_sqlite3_bind_parameter_name : list (string * ctype) :=
  [("sqlite3_bind_parameter_name", TFun (TPtr (TConst (TName "char"))) [TPtr (TName "sqlite3_stmt"); TName "int"])].
Definition tp_api_sqlite3_bind_parameter_index : list (string * ctype) :=
  [("sqlite3_bind_parameter_index", TFun (TName "int") [TPtr (TName "sqlite3_stmt"); TPtr (TConst (TName "char"))])].
Definition tp_api_sqlite3_clear_bindings : list (string * ctype) :=
  [("sqlite3_clear_bindings", TFun (TName "int") [TPtr (TName "sqlite3_stmt")])].
Definition tp_api_sqlite3_column_count : list (string * ctype) :=
  [("sqlite3_column_count", TFun (TName "int") [TPtr (TName "sqlite3_stmt")])].
Definition tp_api_sqlite3_column_name : list (string * ctype) :=
  [("sqlite3_column_name", TFun (TPtr (TConst (TName "char"))) [TPtr (TName "sqlite3_stmt"); TName "int"]);
   ("sqlite3_column_name16", TFun (TPtr (TConst (TName "void"))) [TPtr (TName "sqlite3_stmt"); TName "int"])].
Definition tp_api_sqlite3_column_database_name : list (string * ctype) :=
  [("sqlite3_column_database_name", TFun (TPtr (TConst (TName "char"))) [TPtr (TName "sqlite3_stmt"); TName "int"]);
   ("sqlite3_column_database_name16", TFun (TPtr (TConst (TName "void"))) [TPtr (TName "sqlite3_stmt"); TName "int"]);
   ("sqlite3_column_table_name", TFun (TPtr (TConst (TName "char"))) [TPtr (TName "sqlite3_stmt"); TName "int"]);
   ("sqlite3_column_table_name16", TFun (TPtr (TConst (TName "void"))) [TPtr (TName "sqlite3_stmt"); TName "int"]);
   ("sqlite3_column_origin_name", TFun (TPtr (TConst (TName "char"))) [TPtr (TName "sqlite3_stmt"); TName "int"]);
   ("sqlite3_column_origin_name16", TFun (TPtr (TConst (TName "void"))) [TPtr (TName "sqlite3_stmt"); TName "int"])].
Definition tp_api_sqlite3_column_decltype : list (string * ctype) :=
  [("sqlite3_column_decltype", TFun (TPtr (TConst (TName "char"))) [TPtr (TName "sqlite3_stmt"); TName "int"]);
   ("sqlite3_column_decltype16", TFun (TPtr (TConst (TName "void"))) [TPtr (TName "sqlite3_stmt"); TName "int"])].
Definition tp_api_sqlite3_step : list (string * ctype) :=
  [("sqlite3_step", TFun (TName "int") [TPtr (TName "sqlite3_stmt")])].
Definition tp_api_sqlite3_data_count : list (string * ctype) :=
  [("sqlite3_data_count", TFun (TName "int") [TPtr (TName "sqlite3_stmt")])].
Definition tp_api_sqlite3_column_blob : list (string * ctype) :=
  [("sqlite3_column_blob", TFun (TPtr (TConst (TName "void"))) [TPtr (TName "sqlite3_stmt"); TName "int"]);
   ("sqlite3_column_double", TFun (TName "double") [TPtr (TName "sqlite3_stmt"); TName "int"]);
   ("sqlite3_column_int", TFun (TName "int") [TPtr (TName "sqlite3_stmt"); TName "int"]);
   ("sqlite3_column_int64", TFun (TName "sqlite3_int64") [TPtr (TName "sqlite3_stmt"); TName "int"]);
   ("sqlite3_column_text", TFun (TPtr (TConst (TName "unsigned char"))) [TPtr (TName "sqlite3_stmt"); TName "int"]);
   ("sqlite3_column_text16", TFun (TPtr (TConst (TName "void"))) [TPtr (TName "sqlite3_stmt"); TName "int"]);
   ("sqlite3_column_value", TFun (TPtr (TName "sqlite3_value")) [TPtr (TName "sqlite3_stmt"); TName "int"]);
   ("sqlite3_column_bytes", TFun (TName "int") [TPtr (TName "sqlite3_stmt"); TName "int"]);
   ("sqlite3_column_bytes16", TFun (TName "int") [TPtr (TName "sqlite3_stmt"); TName "int"]);
   ("sqlite3_column_type", TFun (TName "int") [TPtr (TName "sqlite3_stmt"); TName "int"])].
Definition tp_api_sqlite3_finalize : list (string * ctype) :=
  [("sqlite3_finalize", TFun (TName "int") [TPtr (TName "sqlite3_stmt")])].
Definition tp_api_sqlite3_reset : list (string * ctype) :=
  [("sqlite3_reset", TFun (TName "int") [TPtr (TName "sqlite3_stmt")])].
Definition tp_api_sqlite3_create_function : list (string * ctype) :=
  [("sqlite3_create_function", TFun (TName "int") [TPtr (TName "sqlite3"); TPtr (TConst (TName "char")); TName "int"; TName "int"; TPtr (TName "void"); TPtr (TFun (TName "void") [TPtr (TName "sqlite3_context"); TName "int"; TPtr (TPtr (TName "sqlite3_value"))]); TPtr (TFun (TName "void") [TPtr (TName "sqlite3_context"); TName "int"; TPtr (TPtr (TName "sqlite3_value"))]); TPtr (TFun (TName "void") [TPtr (TName "sqlite3_context")])]);
   ("sqlite3_create_function16", TFun (TName "int") [TPtr (TName "sqlite3"); TPtr (TConst (TName "void")); TName "int"; TName "int"; TPtr (TName "void"); TPtr (TFun (TName "void") [TPtr (TName "sqlite3_context"); TName "int"; TPtr (TPtr (TName "sqlite3_value"))]); TPtr (TFun (TName "void") [TPtr (TName "sqlite3_context"); TName "int"; TPtr (TPtr (TName "sqlite3_value"))]); TPtr (TFun (TName "void") [TPtr (TName "sqlite3_context")])]);
   ("sqlite3_create_function_v2", TFun (TName "int") [TPtr (TName "sqlite3"); TPtr (TConst (TName "char")); TName "int"; TName "int"; TPtr (TName "void"); TPtr (TFun (TName "void") [TPtr (TName "sqlite3_context"); TName "int"; TPtr (TPtr (TName "sqlite3_value"))]); TPtr (TFun (TName "void") [TPtr (TName "sqlite3_context"); TName "int"; TPtr (TPtr (TName "sqlite3_value"))]); TPtr (TFun (TName "void") [TPtr (TName "sqlite3_context")]); TPtr (TFun (TName "void") [TPtr (TName "void")])]);
   ("sqlite3_create_window_function", TFun (TName "int") [TPtr (TName "sqlite3"); TPtr (TConst (TName "char")); TName "int"; TName "int"; TPtr (TName "void"); TPtr (TFun (TName "void") [TPtr (TName "sqlite3_context"); TName "int"; TPtr (TPtr (TName "sqlite3_value"))]); TPtr (TFun (TName "void") [TPtr (TName "sqlite3_context")]); TPtr (TFun (TName "void") [TPtr (TName "sqlite3_context")]); TPtr (TFun (TName "void") [TPtr (TName "sqlite3_context"); TName "int"; TPtr (TPtr (TName "sqlite3_value"))]); TPtr (TFun (TName "void") [TPtr (TName "void")])])].
Definition tp_api_sqlite3_aggregate_count : list (string * ctype) :=
  [("sqlite3_aggregate_count", TFun (TName "int") [TPtr (TName "sqlite3_context")]);
   ("sqlite3_expired", TFun (TName "int") [TPtr (TName "sqlite3_stmt")]);
   ("sqlite3_transfer_bindings", TFun (TName "int") [TPtr (TName "sqlite3_stmt"); TPtr (TName "sqlite3_stmt")]);
   ("sqlite3_global_recover", TFun (TName "int") []);
   ("sqlite3_thread_cleanup", TFun (TName "void") []);
   ("sqlite3_memory_alarm", TFun (TName "int") [TPtr (TFun (TName "void") [TPtr (TName "void"); TName "sqlite3_int64"; TName "int"]); TPtr (TName "void"); TName "sqlite3_int64"])].
Definition tp_api_sqlite3_value_blob : list (string * ctype) :=
  [("sqlite3_value_blob", TFun (TPtr (TConst (TName "void"))) [TPtr (TName "sqlite3_value")]);
   ("sqlite3_value_double", TFun (TName "double") [TPtr (TName "sqlite3_value")]);
   ("sqlite3_value_int", TFun (TName "int") [TPtr (TName "sqlite3_value")]);
   ("sqlite3_value_int64", TFun (TName "sqlite3_int64") [TPtr (TName "sqlite3_value")]);
   ("sqlite3_value_pointer", TFun (TPtr (TName "void")) [TPtr (TName "sqlite3_value"); TPtr (TConst (TName "char"))]);
   ("sqlite3_value_text", TFun (TPtr (TConst (TName "unsigned char"))) [TPtr (TName "sqlite3_value")]);
   ("sqlite3_value_text16", TFun (TPtr (TConst (TName "void"))) [TPtr (TName "sqlite3_value")]);
   ("sqlite3_value_text16le", TFun (TPtr (TConst (TName "void"))) [TPtr (TName "sqlite3_value")]);
   ("sqlite3_value_text16be", TFun (TPtr (TConst (TName "void"))) [TPtr (TName "sqlite3_value")]);
   ("sqlite3_value_bytes", TFun (TName "int") [TPtr (TName "sqlite3_value")]);
   ("sqlite3_value_bytes16", TFun (TName "int") [TPtr (TName "sqlite3_value")]);
   ("sqlite3_value_type", TFun (TName "int") [TPtr (TName "sqlite3_value")]);
   ("sqlite3_value_numeric_type", TFun (TName "int") [TPtr (TName "sqlite3_value")]);
   ("sqlite3_value_nochange", TFun (TName "int") [TPtr (TName "sqlite3_value")]);
   ("sqlite3_value_frombind", TFun (TName "int") [TPtr (TName "sqlite3_value")])].
Definition tp_api_sqlite3_value_subtype : list (string * ctype) :=
  [("sqlite3_value_subtype", TFun (TName "unsigned int") [TPtr (TName "sqlite3_value")])].
Definition tp_api_sqlite3_value_dup : list (string * ctype) :=
  [("sqlite3_value_dup", TFun (TPtr (TName "sqlite3_value")) [TPtr (TConst (TName "sqlite3_value"))]);
   ("sqlite3_value_free", TFun (TName "void") [TPtr (TName "sqlite3_value")])].
Definition tp_api_sqlite3_aggregate_context : list (string * ctype) :=
  [("sqlite3_aggregate_context", TFun (TPtr (TName "void")) [TPtr (TName "sqlite3_context"); TName "int"])].
Definition tp_api_sqlite3_user_data : list (string * ctype) :=
  [("sqlite3_user_data", TFun (TPtr (TName "void")) [TPtr (TName "sqlite3_context")])].
Definition tp_api_sqlite3_context_db_handle : list (string * ctype) :=
  [("sqlite3_context_db_handle", TFun (TPtr (TName "sqlite3")) [TPtr (TName "sqlite3_context")])].
Definition tp_api_sqlite3_get_auxdata : list (string * ctype) :=
  [("sqlite3_get_auxdata", TFun (TPtr (TName "void")) [TPtr (TName "sqlite3_context"); TName "int"]);
   ("sqlite3_set_auxdata", TFun (TName "void") [TPtr (TName "sqlite3_context"); TName "int"; TPtr (TName "void"); TPtr (TFun (TName "void") [TPtr (TName "void")])])].
Definition tp_api_sqlite3_result_blob : list (string * ctype) :=
  [("sqlite3_result_blob", TFun (TName "void") [TPtr (TName "sqlite3_context"); TPtr (TConst (TName "void")); TName "int"; TPtr (TFun (TName "void") [TPtr (TName "void")])]);
   ("sqlite3_result_blob64", TFun (TName "void") [TPtr (TName "sqlite3_context"); TPtr (TConst (TName "void")); TName "sqlite3_uint64"; TPtr (TFun (TName "void") [TPtr (TName "void")])]);
   ("sqlite3_result_double", TFun (TName "void") [TPtr (TName "sqlite3_context"); TName "double"]);
   ("sqlite3_result_error", TFun (TName "void") [TPtr (TName "sqlite3_context"); TPtr (TConst (TName "char")); TName "int"]);
   ("sqlite3_result_error16", TFun (TName "void") [TPtr (TName "sqlite3_context"); TPtr (TConst (TName "void")); TName "int"]);
   ("sqlite3_result_error_toobig", TFun (TName "void") [TPtr (TName "sqlite3_context")]);
   ("sqlite3_result_error_nomem", TFun (TName "void") [TPtr (TName "sqlite3_context")]);
   ("sqlite3_result_error_code", TFun (TName "void") [TPtr (TName "sqlite3_context"); TName "int"]);
   ("sqlite3_result_int", TFun (TName "void") [TPtr (TName "sqlite3_context"); TName "int"]);
   ("sqlite3_result_int64", TFun (TName "void") [TPtr (TName "sqlite3_context"); TName "sqlite3_int64"]);
   ("sqlite3_result_null", TFun (TName "void") [TPtr (TName "sqlite3_context")]);
   ("sqlite3_result_text", TFun (TName "void") [TPtr (TName "sqlite3_context"); TPtr (TConst (TName "char")); TName "int"; TPtr (TFun (TName "void") [TPtr (TName "void")])]);
   ("sqlite3_result_text64", TFun (TName "void") [TPtr (TName "sqlite3_context"); TPtr (TConst (TName "char")); TName "sqlite3_uint64"; TPtr (TFun (TName "void") [TPtr (TName "void")]); TName "unsigned char"]);
   ("sqlite3_result_text16", TFun (TName "void") [TPtr (TName "sqlite3_context"); TPtr (TConst (TName "void")); TName "int"; TPtr (TFun (TName "void") [TPtr (TName "void")])]);
   ("sqlite3_result_text16le", TFun (TName "void") [TPtr (TName "sqlite3_context"); TPtr (TConst (TName "void")); TName "int"; TPtr (TFun (TName "void") [TPtr (TName "void")])]);
   ("sqlite3_result_text16be", TFun (TName "void") [TPtr (TName "sqlite3_context"); TPtr (TConst (TName "void")); TName "int"; TPtr (TFun (TName "void") [TPtr (TName "void")])]);
   ("sqlite3_result_value", TFun (TName "void") [TPtr (TName "sqlite3_context"); TPtr (TName "sqlite3_value")]);
   ("sqlite3_result_pointer", TFun (TName "void") [TPtr (TName "sqlite3_context"); TPtr (TName "void"); TPtr (TConst (TName "char")); TPtr (TFun (TName "void") [TPtr (TName "void")])]);
   ("sqlite3_result_zeroblob", TFun (TName "void") [TPtr (TName "sqlite3_context"); TName "int"]);
   ("sqlite3_result_zeroblob64", TFun (TName "int") [TPtr (TName "sqlite3_context"); TName "sqlite3_uint64"])].
Definition tp_api_sqlite3_result_subtype : list (string * ctype) :=
  [("sqlite3_result_subtype", TFun (TName "void") [TPtr (TName "sqlite3_context"); TName "unsigned int"])].
Definition tp_api_sqlite3_create_collation : list (string * ctype) :=
  [("sqlite3_create_collation", TFun (TName "int") [TPtr (TName "sqlite3"); TPtr (TConst (TName "char")); TName "int"; TPtr (TName "void"); TPtr (TFun (TName "int") [TPtr (TName "void"); TName "int"; TPtr (TConst (TName "void")); TName "int"; TPtr (TConst (TName "void"))])]);
   ("sqlite3_create_collation_v2", TFun (TName "int") [TPtr (TName "sqlite3"); TPtr (TConst (TName "char")); TName "int"; TPtr (TName "void"); TPtr (TFun (TName "int") [TPtr (TName "void"); TName "int"; TPtr (TConst (TName "void")); TName "int"; TPtr (TConst (TName "void"))]); TPtr (TFun (TName "void") [TPtr (TName "void")])]);
   ("sqlite3_create_collation16", TFun (TName "int") [TPtr (TName "sqlite3"); TPtr (TConst (TName "void")); TName "int"; TPtr (TName "void"); TPtr (TFun (TName "int") [TPtr (TName "void"); TName "int"; TPtr (TConst (TName "void")); TName "int"; TPtr (TConst (TName "void"))])])].
Definition tp_api_sqlite3_collation_needed : list (string * ctype) :=
  [("sqlite3_collation_needed", TFun (TName "int") [TPtr (TName "sqlite3"); TPtr (TName "void"); TPtr (TFun (TName "void") [TPtr (TName "void"); TPtr (TName "sqlite3"); TName "int"; TPtr (TConst (TName "char"))])]);
   ("sqlite3_collation_needed16", TFun (TName "int") [TPtr (TName "sqlite3"); TPtr (TName "void"); TPtr (TFun (TName "void") [TPtr (TName "void"); TPtr (TName "sqlite3"); TName "int"; TPtr (TConst (TName "void"))])])].
Definition tp_api_sqlite3_activate_cerod : list (string * ctype) :=
  [("sqlite3_activate_cerod", TFun (TName "void") [TPtr (TConst (TName "char"))])].
Definition tp_api_sqlite3_sleep : list (string * ctype) :=
  [("sqlite3_sleep", TFun (TName "int") [TName "int"])].
Definition tp_api_sqlite3_temp_directory : list (string * ctype) :=
  [("sqlite3_temp_directory", TPtr (TName "char"))].
Definition tp_api_sqlite3_data_directory : list (string * ctype) :=
  [("sqlite3_data_directory", TPtr (TName "char"))].
Definition tp_api_sqlite3_win32_set_directory : list (string * ctype) :=
  [("sqlite3_win32_set_directory", TFun (TName "int") [TName "unsigned long"; TPtr (TName "void")]);
   ("sqlite3_win32_set_directory8", TFun (TName "int") [TName "unsigned long"; TPtr (TConst (TName "char"))]);
   ("sqlite3_win32_set_directory16", TFun (TName "int") [TName "unsigned long"; TPtr (TConst (TName "void"))])].
Definition tp_api_sqlite3_get_autocommit : list (string * ctype) :=
  [("sqlite3_get_autocommit", TFun (TName "int") [TPtr (TName "sqlite3")])].
Definition tp_api_sqlite3_db_handle : list (string * ctype) :=
  [("sqlite3_db_handle", TFun (TPtr (TName "sqlite3")) [TPtr (TName "sqlite3_stmt")])].
Definition tp_api_sqlite3_db_filename : list (string * ctype) :=
  [("sqlite3_db_filename", TFun (TPtr (TConst (TName "char"))) [TPtr (TName "sqlite3"); TPtr (TConst (TName "char"))])].
Definition tp_api_sqlite3_db_readonly : list (string * ctype) :=
  [("sqlite3_db_readonly", TFun (TName "int") [TPtr (TName "sqlite3"); TPtr (TConst (TName "char"))])].
Definition tp_api_sqlite3_txn_state : list (string * ctype) :=
  [("sqlite3_txn_state", TFun (TName "int") [TPtr (TName "sqlite3"); TPtr (TConst (TName "char"))])].
Definition tp_api_sqlite3_next_stmt : list (string * ctype) :=
  [("sqlite3_next_stmt", TFun (TPtr (TName "sqlite3_stmt")) [TPtr (TName "sqlite3"); TPtr (TName "sqlite3_stmt")])].
Definition tp_api_sqlite3_commit_hook : list (string * ctype) :=
  [("sqlite3_commit_hook", TFun (TPtr (TName "void")) [TPtr (TName "sqlite3"); TPtr (TFun (TName "int") [TPtr (TName "void")]); TPtr (TName "void")]);
   ("sqlite3_rollback_hook", TFun (TPtr (TName "void")) [TPtr (TName "sqlite3"); TPtr (TFun (TName "void") [TPtr (TName "void")]); TPtr (TName "void")])].
Definition tp_api_sqlite3_update_hook : list (string * ctype) :=
  [("sqlite3_update_hook", TFun (TPtr (TName "void")) [TPtr (TName "sqlite3"); TPtr (TFun (TName "void") [TPtr (TName "void"); TName "int"; TPtr (TConst (TName "char")); TPtr (TConst (TName "char")); TName "sqlite3_int64"]); TPtr (TName "void")])].
Definition tp_api_sqlite3_enable_shared_cache : list (string * ctype) :=
  [("sqlite3_enable_shared_cache", TFun (TName "int") [TName "int"])].
Definition tp_api_sqlite3_release_memory : list (string * ctype) :=
  [("sqlite3_release_memory", TFun (TName "int") [TName "int"])].
Definition tp_api_sqlite3_db_release_memory : list (string * ctype) :=
  [("sqlite3_db_release_memory", TFun (TName "int") [TPtr (TName "sqlite3")])].
Definition tp_api_sqlite3_soft_heap_limit64 : list (string * ctype) :=
  [("sqlite3_soft_heap_limit64", TFun (TName "sqlite3_int64") [TName "sqlite3_int64"]);
   ("sqlite3_hard_heap_limit64", TFun (TName "sqlite3_int64") [TName "sqlite3_int64"])].
Definition tp_api_sqlite3_soft_heap_limit : list (string * ctype) :=
  [("sqlite3_soft_heap_limit", TFun (TName "void") [TName "int"])].
Definition tp_api_sqlite3_table_column_metadata : list (string * ctype) :=
  [("sqlite3_table_column_metadata", TFun (TName "int") [TPtr (TName "sqlite3"); TPtr (TConst (TName "char")); TPtr (TConst (TName "char")); TPtr (TConst (TName "char")); TPtr (TPtr (TConst (TName "char"))); TPtr (TPtr (TConst (TName "char"))); TPtr (TName "int"); TPtr (TName "int"); TPtr (TName "int")])].
Definition tp_api_sqlite3_load_extension : list (string * ctype) :=
  [("sqlite3_load_extension", TFun (TName "int") [TPtr (TName "sqlite3"); TPtr (TConst (TName "char")); TPtr (TConst (TName "char")); TPtr (TPtr (TName "char"))])].
Definition tp_api_sqlite3_enable_load_extension : list (string * ctype) :=
  [("sqlite3_enable_load_extension", TFun (TName "int") [TPtr (TName "sqlite3"); TName "int"])].
Definition tp_api_sqlite3_auto_extension : list (string * ctype) :=
  [("sqlite3_auto_extension", TFun (TName "int") [TPtr (TFun (TName "void") [])])].
Definition tp_api_sqlite3_cancel_auto_extension : list (string * ctype) :=
  [("sqlite3_cancel_auto_extension", TFun (TName "int") [TPtr (TFun (TName "void") [])])].
Definition tp_api_sqlite3_reset_auto_extension : list (string * ctype) :=
  [("sqlite3_reset_auto_extension", TFun (TName "void") [])].
Definition tp_api_sqlite3_create_module : list (string * ctype) :=
  [("sqlite3_create_module", TFun (TName "int") [TPtr (TName "sqlite3"); TPtr (TConst (TName "char")); TPtr (TConst (TName "sqlite3_module")); TPtr (TName "void")]);
   ("sqlite3_create_module_v2", TFun (TName "int") [TPtr (TName "sqlite3"); TPtr (TConst (TName "char")); TPtr (TConst (TName "sqlite3_module")); TPtr (TName "void"); TPtr (TFun (TName "void") [TPtr (TName "void")])])].
Definition tp_api_sqlite3_drop_modules : list (string * ctype) :=
  [("sqlite3_drop_modules", TFun (TName "int") [TPtr (TName "sqlite3"); TPtr (TPtr (TConst (TName "char")))])].
Definition tp_api_sqlite3_declare_vtab : list (string * ctype) :=
  [("sqlite3_declare_vtab", TFun (TName "int") [TPtr (TName "sqlite3"); TPtr (TConst (TName "char"))])].
Definition tp_api_sqlite3_overload_function : list (string * ctype) :=
  [("sqlite3_overload_function", TFun (TName "int") [TPtr (TName "sqlite3"); TPtr (TConst (TName "char")); TName "int"])].
Definition tp_api_sqlite3_blob_open : list (string * ctype) :=
  [("sqlite3_blob_open", TFun (TName "int") [TPtr (TName "sqlite3"); TPtr (TConst (TName "char")); TPtr (TConst (TName "char")); TPtr (TConst (TName "char")); TName "sqlite3_int64"; TName "int"; TPtr (TPtr (TName "sqlite3_blob"))])].
Definition tp_api_sqlite3_blob_reopen : list (string * ctype) :=
  [("sqlite3_blob_reopen", TFun (TName "int") [TPtr (TName "sqlite3_blob"); TName "sqlite3_int64"])].
Definition tp_api_sqlite3_blob_close : list (string * ctype) :=
  [("sqlite3_blob_close", TFun (TName "int") [TPtr (TName "sqlite3_blob")])].
Definition tp_api_sqlite3_blob_bytes : list (string * ctype) :=
  [("sqlite3_blob_bytes", TFun (TName "int") [TPtr (TName "sqlite3_blob")])].
Definition tp_api_sqlite3_blob_read : list (string * ctype) :=
  [("sqlite3_blob_read", TFun (TName "int") [TPtr (TName "sqlite3_blob"); TPtr (TName "void"); TName "int"; TName "int"])].
Definition tp_api_sqlite3_blob_write : list (string * ctype) :=
  [("sqlite3_blob_write", TFun (TName "int") [TPtr (TName "sqlite3_blob"); TPtr (TConst (TName "void")); TName "int"; TName "int"])].
Definition tp_api_sqlite3_vfs_find : list (string * ctype) :=
  [("sqlite3_vfs_find", TFun (TPtr (TName "sqlite3_vfs")) [TPtr (TConst (TName "char"))]);
   ("sqlite3_vfs_register", TFun (TName "int") [TPtr (TName "sqlite3_vfs"); TName "int"]);
   ("sqlite3_vfs_unregister", TFun (TName "int") [TPtr (TName "sqlite3_vfs")])].
Definition tp_api_sqlite3_mutex_alloc : list (string * ctype) :=
  [("sqlite3_mutex_alloc", TFun (TPtr (TName "sqlite3_mutex")) [TName "int"]);
   ("sqlite3_mutex_free", TFun (TName "void") [TPtr (TName "sqlite3_mutex")]);
   ("sqlite3_mutex_enter", TFun (TName "void") [TPtr (TName "sqlite3_mutex")]);
   ("sqlite3_mutex_try", TFun (TName "int") [TPtr (TName "sqlite3_mutex")]);
   ("sqlite3_mutex_leave", TFun (TName "void") [TPtr (TName "sqlite3_mutex")])].
Definition tp_api_sqlite3_mutex_held : list (string * ctype) :=
  [("sqlite3_mutex_held", TFun (TName "int") [TPtr (TName "sqlite3_mutex")]);
   ("sqlite3_mutex_notheld", TFun (TName "int") [TPtr (TName "sqlite3_mutex")])].
Definition tp_api_sqlite3_db_mutex : list (string * ctype) :=
  [("sqlite3_db_mutex", TFun (TPtr (TName "sqlite3_mutex")) [TPtr (TName "sqlite3")])].
Definition tp_api_sqlite3_file_control : list (string * ctype) :=
  [("sqlite3_file_control", TFun (TName "int") [TPtr (TName "sqlite3"); TPtr (TConst (TName "char")); TName "int"; TPtr (TName "void")])].
Definition tp_api_sqlite3_test_control : list (string * ctype) :=
  [("sqlite3_test_control", TFun (TName "int") [TName "int"; TDots])].
Definition tp_api_sqlite3_keyword_count : list (string * ctype) :=
  [("sqlite3_keyword_count", TFun (TName "int") []);
   ("sqlite3_keyword_name", TFun (TName "int") [TName "int"; TPtr (TPtr (TConst (TName "char"))); TPtr (TName "int")]);
   ("sqlite3_keyword_check", TFun (TName "int") [TPtr (TConst (TName "char")); TName "int"])].
Definition tp_api_sqlite3_str_new : list (string * ctype) :=
  [("sqlite3_str_new", TFun (TPtr (TName "sqlite3_str")) [TPtr (TName "sqlite3")])].
Definition tp_api_sqlite3_str_finish : list (string * ctype) :=
  [("sqlite3_str_finish", TFun (TPtr (TName "char")) [TPtr (TName "sqlite3_str")])].
Definition tp_api_sqlite3_str_appendf : list (string * ctype) :=
  [("sqlite3_str_appendf", TFun (TName "void") [TPtr (TName "sqlite3_str"); TPtr (TConst (TName "char")); TDots]);
   ("sqlite3_str_vappendf", TFun (TName "void") [TPtr (TName "sqlite3_str"); TPtr (TConst (TName "char")); TName "va_list"]);
   ("sqlite3_str_append", TFun (TName "void") [TPtr (TName "sqlite3_str"); TPtr (TConst (TName "char")); TName "int"]);
   ("sqlite3_str_appendall", TFun (TName "void") [TPtr (TName "sqlite3_str"); TPtr (TConst (TName "char"))]);
   ("sqlite3_str_appendchar", TFun (TName "void") [TPtr (TName "sqlite3_str"); TName "int"; TName "char"]);
   ("sqlite3_str_reset", TFun (TName "void") [TPtr (TName "sqlite3_str")])].
Definition tp_api_sqlite3_str_errcode : list (string * ctype) :=
  [("sqlite3_str_errcode", TFun (TName "int") [TPtr (TName "sqlite3_str")]);
   ("sqlite3_str_length", TFun (TName "int") [TPtr (TName "sqlite3_str")]);
   ("sqlite3_str_value", TFun (TPtr (TName "char")) [TPtr (TName "sqlite3_str")])].
Definition tp_api_sqlite3_status : list (string * ctype) :=
  [("sqlite3_status", TFun (TName "int") [TName "int"; TPtr (TName "int"); TPtr (TName "int"); TName "int"]);
   ("sqlite3_status64", TFun (TName "int") [TName "int"; TPtr (TName "sqlite3_int64"); TPtr (TName "sqlite3_int64"); TName "int"])].
Definition tp_api_sqlite3_db_status : list (string * ctype) :=
  [("sqlite3_db_status", TFun (TName "int") [TPtr (TName "sqlite3"); TName "int"; TPtr (TName "int"); TPtr (TName "int"); TName "int"])].
Definition tp_api_sqlite3_stmt_status : list (string * ctype) :=
  [("sqlite3_stmt_status", TFun (TName "int") [TPtr (TName "sqlite3_stmt"); TName "int"; TName "int"])].
Definition tp_api_sqlite3_backup_init : list (string * ctype) :=
  [("sqlite3_backup_init", TFun (TPtr (TName "sqlite3_backup")) [TPtr (TName "sqlite3"); TPtr (TConst (TName "char")); TPtr (TName "sqlite3"); TPtr (TConst (TName "char"))]);
   ("sqlite3_backup_step", TFun (TName "int") [TPtr (TName "sqlite3_backup"); TName "int"]);
   ("sqlite3_backup_finish", TFun (TName "int") [TPtr (TName "sqlite3_backup")]);
   ("sqlite3_backup_remaining", TFun (TName "int") [TPtr (TName "sqlite3_backup")]);
   ("sqlite3_backup_pagecount", TFun (TName "int") [TPtr (TName "sqlite3_backup")])].
Definition tp_api_sqlite3_unlock_notify : list (string * ctype) :=
  [("sqlite3_unlock_notify", TFun (TName "int") [TPtr (TName "sqlite3"); TPtr (TFun (TName "void") [TPtr (TPtr (TName "void")); TName "int"]); TPtr (TName "void")])].
Definition tp_api_sqlite3_stricmp : list (string * ctype) :=
  [("sqlite3_stricmp", TFun (TName "int") [TPtr (TConst (TName "char")); TPtr (TConst (TName "char"))]);
   ("sqlite3_strnicmp", TFun (TName "int") [TPtr (TConst (TName "char")); TPtr (TConst (TName "char")); TName "int"])].
Definition tp_api_sqlite3_strglob : list (string * ctype) :=
  [("sqlite3_strglob", TFun (TName "int") [TPtr (TConst (TName "char")); TPtr (TConst (TName "char"))])].
Definition tp_api_sqlite3_strlike : list (string * ctype) :=
  [("sqlite3_strlike", TFun (TName "int") [TPtr (TConst (TName "char")); TPtr (TConst (TName "char")); TName "unsigned int"])].
Definition tp_api_sqlite3_log : list (string * ctype) :=
  [("sqlite3_log", TFun (TName "void") [TName "int"; TPtr (TConst (TName "char")); TDots])].
Definition tp_api_sqlite3_wal_hook : list (string * ctype) :=
  [("sqlite3_wal_hook", TFun (TPtr (TName "void")) [TPtr (TName "sqlite3"); TPtr (TFun (TName "int") [TPtr (TName "void"); TPtr (TName "sqlite3"); TPtr (TConst (TName "char")); TName "int"]); TPtr (TName "void")])].
Definition tp_api_sqlite3_wal_autocheckpoint : list (string * ctype) :=
  [("sqlite3_wal_autocheckpoint", TFun (TName "int") [TPtr (TName "sqlite3"); TName "int"])].
Definition tp_api_sqlite3_wal_checkpoint : list (string * ctype) :=
  [("sqlite3_wal_checkpoint", TFun (TName "int") [TPtr (TName "sqlite3"); TPtr (TConst (TName "char"))])].
Definition tp_api_sqlite3_wal_checkpoint_v2 : list (string * ctype) :=
  [("sqlite3_wal_checkpoint_v2", TFun (TName "int") [TPtr (TName "sqlite3"); TPtr (TConst (TName "char")); TName "int"; TPtr (TName "int"); TPtr (TName "int")])].
Definition tp_api_sqlite3_vtab_config : list (string * ctype) :=
  [("sqlite3_vtab_config", TFun (TName "int") [TPtr (TName "sqlite3"); TName "int"; TDots])].
Definition tp_api_sqlite3_vtab_on_conflict : list (string * ctype) :=
  [("sqlite3_vtab_on_conflict", TFun (TName "int") [TPtr (TName "sqlite3")])].
Definition tp_api_sqlite3_vtab_nochange : list (string * ctype) :=
  [("sqlite3_vtab_nochange", TFun (TName "int") [TPtr (TName "sqlite3_context")])].
Definition tp_api_sqlite3_vtab_collation : list (string * ctype) :=
  [("sqlite3_vtab_collation", TFun (TPtr (TConst (TName "char"))) [TPtr (TName "sqlite3_index_info"); TName "int"])].
Definition tp_api_sqlite3_stmt_scanstatus : list (string * ctype) :=
  [("sqlite3_stmt_scanstatus", TFun (TName "int") [TPtr (TName "sqlite3_stmt"); TName "int"; TName "int"; TPtr (TName "void")])].
Definition tp_api_sqlite3_stmt_scanstatus_reset : list (string * ctype) :=
  [("sqlite3_stmt_scanstatus_reset", TFun (TName "void") [TPtr (TName "sqlite3_stmt")])].
Definition tp_api_sqlite3_db_cacheflush : list (string * ctype) :=
  [("sqlite3_db_cacheflush", TFun (TName "int") [TPtr (TName "sqlite3")])].
Definition tp_api_sqlite3_preupdate_hook : list (string * ctype) :=
  [("sqlite3_preupdate_hook", TFun (TPtr (TName "void")) [TPtr (TName "sqlite3"); TPtr (TFun (TName "void") [TPtr (TName "void"); TPtr (TName "sqlite3"); TName "int"; TPtr (TConst (TName "char")); TPtr (TConst (TName "char")); TName "sqlite3_int64"; TName "sqlite3_int64"]); TPtr (TName "void")]);
   ("sqlite3_preupdate_old", TFun (TName "int") [TPtr (TName "sqlite3"); TName "int"; TPtr (TPtr (TName "sqlite3_value"))]);
   ("sqlite3_preupdate_count", TFun (TName "int") [TPtr (TName "sqlite3")]);
   ("sqlite3_preupdate_depth", TFun (TName "int") [TPtr (TName "sqlite3")]);
   ("sqlite3_preupdate_new", TFun (TName "int") [TPtr (TName "sqlite3"); TName "int"; TPtr (TPtr (TName "sqlite3_value"))]);
   ("sqlite3_preupdate_blobwrite", TFun (TName "int") [TPtr (TName "sqlite3")])].
Definition tp_api_sqlite3_system_errno : list (string * ctype) :=
  [("sqlite3_system_errno", TFun (TName "int") [TPtr (TName "sqlite3")])].
Definition tp_api_sqlite3_snapshot_get : list (string * ctype) :=
  [("sqlite3_snapshot_get", TFun (TName "int") [TPtr (TName "sqlite3"); TPtr (TConst (TName "char")); TPtr (TPtr (TName "sqlite3_snapshot"))])].
Definition tp_api_sqlite3_snapshot_open : list (string * ctype) :=
  [("sqlite3_snapshot_open", TFun (TName "int") [TPtr (TName "sqlite3"); TPtr (TConst (TName "char")); TPtr (TName "sqlite3_snapshot")])].
Definition tp_api_sqlite3_snapshot_free : list (string * ctype) :=
  [("sqlite3_snapshot_free", TFun (TName "void") [TPtr (TName "sqlite3_snapshot")])].
Definition tp_api_sqlite3_snapshot_cmp : list (string * ctype) :=
  [("sqlite3_snapshot_cmp", TFun (TName "int") [TPtr (TName "sqlite3_snapshot"); TPtr (TName "sqlite3_snapshot")])].
Definition tp_api_sqlite3_snapshot_recover : list (string * ctype) :=
  [("sqlite3_snapshot_recover", TFun (TName "int") [TPtr (TName "sqlite3"); TPtr (TConst (TName "char"))])].
Definition tp_api_sqlite3_serialize : list (string * ctype) :=
  [("sqlite3_serialize", TFun (TPtr (TName "unsigned char")) [TPtr (TName "sqlite3"); TPtr (TConst (TName "char")); TPtr (TName "sqlite3_int64"); TName "unsigned int"])].
Definition tp_api_sqlite3_deserialize : list (string * ctype) :=
  [("sqlite3_deserialize", TFun (TName "int") [TPtr (TName "sqlite3"); TPtr (TConst (TName "char")); TPtr (TName "unsigned char"); TName "sqlite3_int64"; TName "sqlite3_int64"; TName "unsigned"])].
Definition tp_api_sqlite3_rtree_geometry_callback : list (string * ctype) :=
  [("sqlite3_rtree_geometry_callback", TFun (TName "int") [TPtr (TName "sqlite3"); TPtr (TConst (TName "char")); TPtr (TFun (TName "int") [TPtr (TName "sqlite3_rtree_geometry"); TName "int"; TPtr (TName "sqlite3_rtree_dbl"); TPtr (TName "int")]); TPtr (TName "void")])].
Definition tp_api_sqlite3_rtree_query_callback : list (string * ctype) :=
  [("sqlite3_rtree_query_callback", TFun (TName "int") [TPtr (TName "sqlite3"); TPtr (TConst (TName "char")); TPtr (TFun (TName "int") [TPtr (TName "sqlite3_rtree_query_info")]); TPtr (TName "void"); TPtr (TFun (TName "void") [TPtr (TName "void")])])].
Definition tp_api_sqlite3session_create : list (string * ctype) :=
  [("sqlite3session_create", TFun (TName "int") [TPtr (TName "sqlite3"); TPtr (TConst (TName "char")); TPtr (TPtr (TName "sqlite3_session"))])].
Definition tp_api_sqlite3session_delete : list (string * ctype) :=
  [("sqlite3session_delete", TFun (TName "void") [TPtr (TName "sqlite3_session")])].
Definition tp_api_sqlite3session_object_config : list (string * ctype) :=
  [("sqlite3session_object_config", TFun (TName "int") [TPtr (TName "sqlite3_session"); TName "int"; TPtr (TName "void")])].
Definition tp_api_sqlite3session_enable : list (string * ctype) :=
  [("sqlite3session_enable", TFun (TName "int") [TPtr (TName "sqlite3_session"); TName "int"])].
Definition tp_api_sqlite3session_indirect : list (string * ctype) :=
  [("sqlite3session_indirect", TFun (TName "int") [TPtr (TName "sqlite3_session"); TName "int"])].
Definition tp_api_sqlite3session_attach : list (string * ctype) :=
  [("sqlite3session_attach", TFun (TName "int") [TPtr (TName "sqlite3_session"); TPtr (TConst (TName "char"))])].
Definition tp_api_sqlite3session_table_filter : list (string * ctype) :=
  [("sqlite3session_table_filter", TFun (TName "void") [TPtr (TName "sqlite3_session"); TPtr (TFun (TName "int") [TPtr (TName "void"); TPtr (TConst (TName "char"))]); TPtr (TName "void")])].
Definition tp_api_sqlite3session_changeset : list (string * ctype) :=
  [("sqlite3session_changeset", TFun (TName "int") [TPtr (TName "sqlite3_session"); TPtr (TName "int"); TPtr (TPtr (TName "void"))])].
Definition tp_api_sqlite3session_changeset_size : list (string * ctype) :=
  [("sqlite3session_changeset_size", TFun (TName "sqlite3_int64") [TPtr (TName "sqlite3_session")])].
Definition tp_api_sqlite3session_diff : list (string * ctype) :=
  [("sqlite3session_diff", TFun (TName "int") [TPtr (TName "sqlite3_session"); TPtr (TConst (TName "char")); TPtr (TConst (TName "char")); TPtr (TPtr (TName "char"))])].
Definition tp_api_sqlite3session_patchset : list (string * ctype) :=
  [("sqlite3session_patchset", TFun (TName "int") [TPtr (TName "sqlite3_session"); TPtr (TName "int"); TPtr (TPtr (TName "void"))])].
Definition tp_api_sqlite3session_isempty : list (string * ctype) :=
  [("sqlite3session_isempty", TFun (TName "int") [TPtr (TName "sqlite3_session")])].
Definition tp_api_sqlite3session_memory_used : list (string * ctype) :=
  [("sqlite3session_memory_used", TFun (TName "sqlite3_int64") [TPtr (TName "sqlite3_session")])].
Definition tp_api_sqlite3changeset_start : list (string * ctype) :=
  [("sqlite3changeset_start", TFun (TName "int") [TPtr (TPtr (TName "sqlite3_changeset_iter")); TName "int"; TPtr (TName "void")]);
   ("sqlite3changeset_start_v2", TFun (TName "int") [TPtr (TPtr (TName "sqlite3_changeset_iter")); TName "int"; TPtr (TName "void"); TName "int"])].
Definition tp_api_sqlite3changeset_next : list (string * ctype) :=
  [("sqlite3changeset_next", TFun (TName "int") [TPtr (TName "sqlite3_changeset_iter")])].
Definition tp_api_sqlite3changeset_op : list (string * ctype) :=
  [("sqlite3changeset_op", TFun (TName "int") [TPtr (TName "sqlite3_changeset_iter"); TPtr (TPtr (TConst (TName "char"))); TPtr (TName "int"); TPtr (TName "int"); TPtr (TName "int")])].
Definition tp_api_sqlite3changeset_pk : list (string * ctype) :=
  [("sqlite3changeset_pk", TFun (TName "int") [TPtr (TName "sqlite3_changeset_iter"); TPtr (TPtr (TName "unsigned char")); TPtr (TName "int")])].
Definition tp_api_sqlite3changeset_old : list (string * ctype) :=
  [("sqlite3changeset_old", TFun (TName "int") [TPtr (TName "sqlite3_changeset_iter"); TName "int"; TPtr (TPtr (TName "sqlite3_value"))])].
Definition tp_api_sqlite3changeset_new : list (string * ctype) :=
  [("sqlite3changeset_new", TFun (TName "int") [TPtr (TName "sqlite3_changeset_iter"); TName "int"; TPtr (TPtr (TName "sqlite3_value"))])].
Definition tp_api_sqlite3changeset_conflict : list (string * ctype) :=
  [("sqlite3changeset_conflict", TFun (TName "int") [TPtr (TName "sqlite3_changeset_iter"); TName "int"; TPtr (TPtr (TName "sqlite3_value"))])].
Definition tp_api_sqlite3changeset_fk_conflicts : list (string * ctype) :=
  [("sqlite3changeset_fk_conflicts", TFun (TName "int") [TPtr (TName "sqlite3_changeset_iter"); TPtr (TName "int")])].
Definition tp_api_sqlite3changeset_finalize : list (string * ctype) :=
  [("sqlite3changeset_finalize", TFun (TName "int") [TPtr (TName "sqlite3_changeset_iter")])].
Definition tp_api_sqlite3changeset_invert : list (string * ctype) :=
  [("sqlite3changeset_invert", TFun (TName "int") [TName "int"; TPtr (TConst (TName "void")); TPtr (TName "int"); TPtr (TPtr (TName "void"))])].
Definition tp_api_sqlite3changeset_concat : list (string * ctype) :=
  [("sqlite3changeset_concat", TFun (TName "int") [TName "int"; TPtr (TName "void"); TName "int"; TPtr (TName "void"); TPtr (TName "int"); TPtr (TPtr (TName "void"))])].
Definition tp_api_sqlite3changegroup_new : list (string * ctype) :=
  [("sqlite3changegroup_new", TFun (TName "int") [TPtr (TPtr (TName "sqlite3_changegroup"))])].
Definition tp_api_sqlite3changegroup_add : list (string * ctype) :=
  [("sqlite3changegroup_add", TFun (TName "int") [TPtr (TName "sqlite3_changegroup"); TName "int"; TPtr (TName "void")])].
Definition tp_api_sqlite3changegroup_output : list (string * ctype) :=
  [("sqlite3changegroup_output", TFun (TName "int") [TPtr (TName "sqlite3_changegroup"); TPtr (TName "int"); TPtr (TPtr (TName "void"))])].
Definition tp_api_sqlite3changegroup_delete : list (string * ctype) :=
  [("sqlite3changegroup_delete", TFun (TName "void") [TPtr (TName "sqlite3_changegroup")])].
Definition tp_api_sqlite3changeset_apply : list (string * ctype) :=
  [("sqlite3changeset_apply", TFun (TName "int") [TPtr (TName "sqlite3"); TName "int"; TPtr (TName "void"); TPtr (TFun (TName "int") [TPtr (TName "void"); TPtr (TConst (TName "char"))]); TPtr (TFun (TName "int") [TPtr (TName "void"); TName "int"; TPtr (TName "sqlite3_changeset_iter")]); TPtr (TName "void")]);
   ("sqlite3changeset_apply_v2", TFun (TName "int") [TPtr (TName "sqlite3"); TName "int"; TPtr (TName "void"); TPtr (TFun (TName "int") [TPtr (TName "void"); TPtr (TConst (TName "char"))]); TPtr (TFun (TName "int") [TPtr (TName "void"); TName "int"; TPtr (TName "sqlite3_changeset_iter")]); TPtr (TName "void"); TPtr (TPtr (TName "void")); TPtr (TName "int"); TName "int"])].
Definition tp_api_sqlite3rebaser_create : list (string * ctype) :=
  [("sqlite3rebaser_create", TFun (TName "int") [TPtr (TPtr (TName "sqlite3_rebaser"))])].
Definition tp_api_sqlite3rebaser_configure : list (string * ctype) :=
  [("sqlite3rebaser_configure", TFun (TName "int") [TPtr (TName "sqlite3_rebaser"); TName "int"; TPtr (TConst (TName "void"))])].
Definition tp_api_sqlite3rebaser_rebase : list (string * ctype) :=
  [("sqlite3rebaser_rebase", TFun (TName "int") [TPtr (TName "sqlite3_rebaser"); TName "int"; TPtr (TConst (TName "void")); TPtr (TName "int"); TPtr (TPtr (TName "void"))])].
Definition tp_api_sqlite3rebaser_delete : list (string * ctype) :=
  [("sqlite3rebaser_delete", TFun (TName "void") [TPtr (TName "sqlite3_rebaser")])].
Definition tp_api_sqlite3changeset_apply_strm : list (string * ctype) :=
  [("sqlite3changeset_apply_strm", TFun (TName "int") [TPtr (TName "sqlite3"); TPtr (TFun (TName "int") [TPtr (TName "void"); TPtr (TName "void"); TPtr (TName "int")]); TPtr (TName "void"); TPtr (TFun (TName "int") [TPtr (TName "void"); TPtr (TConst (TName "char"))]); TPtr (TFun (TName "int") [TPtr (TName "void"); TName "int"; TPtr (TName "sqlite3_changeset_iter")]); TPtr (TName "void")]);
   ("sqlite3changeset_apply_v2_strm", TFun (TName "int") [TPtr (TName "sqlite3"); TPtr (TFun (TName "int") [TPtr (TName "void"); TPtr (TName "void"); TPtr (TName "int")]); TPtr (TName "void"); TPtr (TFun (TName "int") [TPtr (TName "void"); TPtr (TConst (TName "char"))]); TPtr (TFun (TName "int") [TPtr (TName "void"); TName "int"; TPtr (TName "sqlite3_changeset_iter")]); TPtr (TName "void"); TPtr (TPtr (TName "void")); TPtr (TName "int"); TName "int"]);
   ("sqlite3changeset_concat_strm", TFun (TName "int") [TPtr (TFun (TName "int") [TPtr (TName "void"); TPtr (TName "void"); TPtr (TName "int")]); TPtr (TName "void"); TPtr (TFun (TName "int") [TPtr (TName "void"); TPtr (TName "void"); TPtr (TName "int")]); TPtr (TName "void"); TPtr (TFun (TName "int") [TPtr (TName "void"); TPtr (TConst (TName "void")); TName "int"]); TPtr (TName "void")]);
   ("sqlite3changeset_invert_strm", TFun (TName "int") [TPtr (TFun (TName "int") [TPtr (TName "void"); TPtr (TName "void"); TPtr (TName "int")]); TPtr (TName "void"); TPtr (TFun (TName "int") [TPtr (TName "void"); TPtr (TConst (TName "void")); TName "int"]); TPtr (TName "void")]);
   ("sqlite3changeset_start_strm", TFun (TName "int") [TPtr (TPtr (TName "sqlite3_changeset_iter")); TPtr (TFun (TName "int") [TPtr (TName "void"); TPtr (TName "void"); TPtr (TName "int")]); TPtr (TName "void")]);
   ("sqlite3changeset_start_v2_strm", TFun (TName "int") [TPtr (TPtr (TName "sqlite3_changeset_iter")); TPtr (TFun (TName "int") [TPtr (TName "void"); TPtr (TName "void"); TPtr (TName "int")]); TPtr (TName "void"); TName "int"]);
   ("sqlite3session_changeset_strm", TFun (TName "int") [TPtr (TName "sqlite3_session"); TPtr (TFun (TName "int") [TPtr (TName "void"); TPtr (TConst (TName "void")); TName "int"]); TPtr (TName "void")]);
   ("sqlite3session_patchset_strm", TFun (TName "int") [TPtr (TName "sqlite3_session"); TPtr (TFun (TName "int") [TPtr (TName "void"); TPtr (TConst (TName "void")); TName "int"]); TPtr (TName "void")]);
   ("sqlite3changegroup_add_strm", TFun (TName "int") [TPtr (TName "sqlite3_changegroup"); TPtr (TFun (TName "int") [TPtr (TName "void"); TPtr (TName "void"); TPtr (TName "int")]); TPtr (TName "void")]);
   ("sqlite3changegroup_output_strm", TFun (TName "int") [TPtr (TName "sqlite3_changegroup"); TPtr (TFun (TName "int") [TPtr (TName "void"); TPtr (TConst (TName "void")); TName "int"]); TPtr (TName "void")]);
   ("sqlite3rebaser_rebase_strm", TFun (TName "int") [TPtr (TName "sqlite3_rebaser"); TPtr (TFun (TName "int") [TPtr (TName "void"); TPtr (TName "void"); TPtr (TName "int")]); TPtr (TName "void"); TPtr (TFun (TName "int") [TPtr (TName "void"); TPtr (TConst (TName "void")); TName "int"]); TPtr (TName "void")])].
Definition tp_api_sqlite3session_config : list (string * ctype) :=
  [("sqlite3session_config", TFun (TName "int") [TName "int"; TPtr (TName "void")])].

Definition tp_prototypes : list (string * ctype) :=
  concat [tp_api_sqlite3_version; tp_api_sqlite3_compileoption_used; tp_api_sqlite3_threadsafe; tp_api_sqlite3_close; tp_api_sqlite3_exec; tp_api_sqlite3_initialize; tp_api_sqlite3_config; tp_api_sqlite3_db_config; tp_api_sqlite3_extended_result_codes; tp_api_sqlite3_last_insert_rowid; tp_api_sqlite3_set_last_insert_rowid; tp_api_sqlite3_changes; tp_api_sqlite3_total_changes; tp_api_sqlite3_interrupt; tp_api_sqlite3_complete; tp_api_sqlite3_busy_handler; tp_api_sqlite3_busy_timeout; tp_api_sqlite3_get_table; tp_api_sqlite3_mprintf; tp_api_sqlite3_malloc; tp_api_sqlite3_memory_used; tp_api_sqlite3_randomness; tp_api_sqlite3_set_authorizer; tp_api_sqlite3_trace; tp_api_sqlite3_trace_v2; tp_api_sqlite3_progress_handler; tp_api_sqlite3_open; tp_api_sqlite3_uri_parameter; tp_api_sqlite3_filename_database; tp_api_sqlite3_database_file_object; tp_api_sqlite3_create_filename; tp_api_sqlite3_errcode; tp_api_sqlite3_limit; tp_api_sqlite3_prepare; tp_api_sqlite3_sql; tp_api_sqlite3_stmt_readonly; tp_api_sqlite3_stmt_isexplain; tp_api_sqlite3_stmt_busy; tp_api_sqlite3_bind_blob; tp_api_sqlite3_bind_parameter_count; tp_api_sqlite3_bind_parameter_name; tp_api_sqlite3_bind_parameter_index; tp_api_sqlite3_clear_bindings; tp_api_sqlite3_column_count; tp_api_sqlite3_column_name; tp_api_sqlite3_column_database_name; tp_api_sqlite3_column_decltype; tp_api_sqlite3_step; tp_api_sqlite3_data_count; tp_api_sqlite3_column_blob; tp_api_sqlite3_finalize; tp_api_sqlite3_reset; tp_api_sqlite3_create_function; tp_api_sqlite3_aggregate_count; tp_api_sqlite3_value_blob; tp_api_sqlite3_value_subtype; tp_api_sqlite3_value_dup; tp_api_sqlite3_aggregate_context; tp_api_sqlite3_user_data; tp_api_sqlite3_context_db_handle; tp_api_sqlite3_get_auxdata; tp_api_sqlite3_result_blob; tp_api_sqlite3_result_subtype; tp_api_sqlite3_create_collation; tp_api_sqlite3_collation_needed; tp_api_sqlite3_activate_cerod; tp_api_sqlite3_sleep; tp_api_sqlite3_temp_directory; tp_api_sqlite3_data_directory; tp_api_sqlite3_win32_set_directory; tp_api_sqlite3_get_autocommit; tp_api_sqlite3_db_handle; tp_api_sqlite3_db_filename; tp_api_sqlite3_db_readonly; tp_api_sqlite3_txn_state; tp_api_sqlite3_next_stmt; tp_api_sqlite3_commit_hook; tp_api_sqlite3_update_hook; tp_api_sqlite3_enable_shared_cache; tp_api_sqlite3_release_memory; tp_api_sqlite3_db_release_memory; tp_api_sqlite3_soft_heap_limit64; tp_api_sqlite3_soft_heap_limit; tp_api_sqlite3_table_column_metadata; tp_api_sqlite3_load_extension; tp_api_sqlite3_enable_load_extension; tp_api_sqlite3_auto_extension; tp_api_sqlite3_cancel_auto_extension; tp_api_sqlite3_reset_auto_extension; tp_api_sqlite3_create_module; tp_api_sqlite3_drop_modules; tp_api_sqlite3_declare_vtab; tp_api_sqlite3_overload_function; tp_api_sqlite3_blob_open; tp_api_sqlite3_blob_reopen; tp_api_sqlite3_blob_close; tp_api_sqlite3_blob_bytes; tp_api_sqlite3_blob_read; tp_api_sqlite3_blob_write; tp_api_sqlite3_vfs_find; tp_api_sqlite3_mutex_alloc; tp_api_sqlite3_mutex_held; tp_api_sqlite3_db_mutex; tp_api_sqlite3_file_control; tp_api_sqlite3_test_control; tp_api_sqlite3_keyword_count; tp_api_sqlite3_str_new; tp_api_sqlite3_str_finish; tp_api_sqlite3_str_appendf; tp_api_sqlite3_str_errcode; tp_api_sqlite3_status; tp_api_sqlite3_db_status; tp_api_sqlite3_stmt_status; tp_api_sqlite3_backup_init; tp_api_sqlite3_unlock_notify; tp_api_sqlite3_stricmp; tp_api_sqlite3_strglob; tp_api_sqlite3_strlike; tp_api_sqlite3_log; tp_api_sqlite3_wal_hook; tp_api_sqlite3_wal_autocheckpoint; tp_api_sqlite3_wal_checkpoint; tp_api_sqlite3_wal_checkpoint_v2; tp_api_sqlite3_vtab_config; tp_api_sqlite3_vtab_on_conflict; tp_api_sqlite3_vtab_nochange; tp_api_sqlite3_vtab_collation; tp_api_sqlite3_stmt_scanstatus; tp_api_sqlite3_stmt_scanstatus_reset; tp_api_sqlite3_db_cacheflush; tp_api_sqlite3_preupdate_hook; tp_api_sqlite3_system_errno; tp_api_sqlite3_snapshot_get; tp_api_sqlite3_snapshot_open; tp_api_sqlite3_snapshot_free; tp_api_sqlite3_snapshot_cmp; tp_api_sqlite3_snapshot_recover; tp_api_sqlite3_serialize; tp_api_sqlite3_deserialize; tp_api_sqlite3_rtree_geometry_callback; tp_api_sqlite3_rtree_query_callback; tp_api_sqlite3session_create; tp_api_sqlite3session_delete; tp_api_sqlite3session_object_config; tp_api_sqlite3session_enable; tp_api_sqlite3session_indirect; tp_api_sqlite3session_attach; tp_api_sqlite3session_table_filter; tp_api_sqlite3session_changeset; tp_api_sqlite3session_changeset_size; tp_api_sqlite3session_diff; tp_api_sqlite3session_patchset; tp_api_sqlite3session_isempty; tp_api_sqlite3session_memory_used; tp_api_sqlite3changeset_start; tp_api_sqlite3changeset_next; tp_api_sqlite3changeset_op; tp_api_sqlite3changeset_pk; tp_api_sqlite3changeset_old; tp_api_sqlite3changeset_new; tp_api_sqlite3changeset_conflict; tp_api_sqlite3changeset_fk_conflicts; tp_api_sqlite3changeset_finalize; tp_api_sqlite3changeset_invert; tp_api_sqlite3changeset_concat; tp_api_sqlite3changegroup_new; tp_api_sqlite3changegroup_add; tp_api_sqlite3changegroup_output; tp_api_sqlite3changegroup_delete; tp_api_sqlite3changeset_apply; tp_api_sqlite3rebaser_create; tp_api_sqlite3rebaser_configure; tp_api_sqlite3rebaser_rebase; tp_api_sqlite3rebaser_delete; tp_api_sqlite3changeset_apply_strm; tp_api_sqlite3session_config].

(** ** Structures: the ordered list of members *)

Definition tp_struct_sqlite3_file : list (string * ctype) :=
  [("pMethods", TPtr (TConst (TName "struct sqlite3_io_methods")))].

Definition tp_struct_sqlite3_io_methods : list (string * ctype) :=
  [("iVersion", TName "int");
   ("xClose", TPtr (TFun (TName "int") [TPtr (TName "sqlite3_file")]));
   ("xRead", TPtr (TFun (TName "int") [TPtr (TName "sqlite3_file"); TPtr (TName "void"); TName "int"; TName "sqlite3_int64"]));
   ("xWrite", TPtr (TFun (TName "int") [TPtr (TName "sqlite3_file"); TPtr (TConst (TName "void")); TName "int"; TName "sqlite3_int64"]));
   ("xTruncate", TPtr (TFun (TName "int") [TPtr (TName "sqlite3_file"); TName "sqlite3_int64"]));
   ("xSync", TPtr (TFun (TName "int") [TPtr (TName "sqlite3_file"); TName "int"]));
   ("xFileSize", TPtr (TFun (TName "int") [TPtr (TName "sqlite3_file"); TPtr (TName "sqlite3_int64")]));
   ("xLock", TPtr (TFun (TName "int") [TPtr (TName "sqlite3_file"); TName "int"]));
   ("xUnlock", TPtr (TFun (TName "int") [TPtr (TName "sqlite3_file"); TName "int"]));
   ("xCheckReservedLock", TPtr (TFun (TName "int") [TPtr (TName "sqlite3_file"); TPtr (TName "int")]));
   ("xFileControl", TPtr (TFun (TName "int") [TPtr (TName "sqlite3_file"); TName "int"; TPtr (TName "void")]));
   ("xSectorSize", TPtr (TFun (TName "int") [TPtr (TName "sqlite3_file")]));
   ("xDeviceCharacteristics", TPtr (TFun (TName "int") [TPtr (TName "sqlite3_file")]));
   ("xShmMap", TPtr (TFun (TName "int") [TPtr (TName "sqlite3_file"); TName "int"; TName "int"; TName "int"; TPtr (TPtr (TVolatile (TName "void")))]));
   ("xShmLock", TPtr (TFun (TName "int") [TPtr (TName "sqlite3_file"); TName "int"; TName "int"; TName "int"]));
   ("xShmBarrier", TPtr (TFun (TName "void") [TPtr (TName "sqlite3_file")]));
   ("xShmUnmap", TPtr (TFun (TName "int") [TPtr (TName "sqlite3_file"); TName "int"]));
   ("xFetch", TPtr (TFun (TName "int") [TPtr (TName "sqlite3_file"); TName "sqlite3_int64"; TName "int"; TPtr (TPtr (TName "void"))]));
   ("xUnfetch", TPtr (TFun (TName "int") [TPtr (TName "sqlite3_file"); TName "sqlite3_int64"; TPtr (TName "void")]))].

Definition tp_struct_sqlite3_vfs : list (string * ctype) :=
  [("iVersion", TName "int");
   ("szOsFile", TName "int");
   ("mxPathname", TName "int");
   ("pNext", TPtr (TName "sqlite3_vfs"));
   ("zName", TPtr (TConst (TName "char")));
   ("pAppData", TPtr (TName "void"));
   ("xOpen", TPtr (TFun (TName "int") [TPtr (TName "sqlite3_vfs"); TPtr (TConst (TName "char")); TPtr (TName "sqlite3_file"); TName "int"; TPtr (TName "int")]));
   ("xDelete", TPtr (TFun (TName "int") [TPtr (TName "sqlite3_vfs"); TPtr (TConst (TName "char")); TName "int"]));
   ("xAccess", TPtr (TFun (TName "int") [TPtr (TName "sqlite3_vfs"); TPtr (TConst (TName "char")); TName "int"; TPtr (TName "int")]));
   ("xFullPathname", TPtr (TFun (TName "int") [TPtr (TName "sqlite3_vfs"); TPtr (TConst (TName "char")); TName "int"; TPtr (TName "char")]));
   ("xDlOpen", TPtr (TFun (TPtr (TName "void")) [TPtr (TName "sqlite3_vfs"); TPtr (TConst (TName "char"))]));
   ("xDlError", TPtr (TFun (TName "void") [TPtr (TName "sqlite3_vfs"); TName "int"; TPtr (TName "char")]));
   ("xDlSym", TPtr (TFun (TPtr (TFun (TName "void") [])) [TPtr (TName "sqlite3_vfs"); TPtr (TName "void"); TPtr (TConst (TName "char"))]));
   ("xDlClose", TPtr (TFun (TName "void") [TPtr (TName "sqlite3_vfs"); TPtr (TName "void")]));
   ("xRandomness", TPtr (TFun (TName "int") [TPtr (TName "sqlite3_vfs"); TName "int"; TPtr (TName "char")]));
   ("xSleep", TPtr (TFun (TName "int") [TPtr (TName "sqlite3_vfs"); TName "int"]));
   ("xCurrentTime", TPtr (TFun (TName "int") [TPtr (TName "sqlite3_vfs"); TPtr (TName "double")]));
   ("xGetLastError", TPtr (TFun (TName "int") [TPtr (TName "sqlite3_vfs"); TName "int"; TPtr (TName "char")]));
   ("xCurrentTimeInt64", TPtr (TFun (TName "int") [TPtr (TName "sqlite3_vfs"); TPtr (TName "sqlite3_int64")]));
   ("xSetSystemCall", TPtr (TFun (TName "int") [TPtr (TName "sqlite3_vfs"); TPtr (TConst (TName "char")); TName "sqlite3_syscall_ptr"]));
   ("xGetSystemCall", TPtr (TFun (TName "sqlite3_syscall_ptr") [TPtr (TName "sqlite3_vfs"); TPtr (TConst (TName "char"))]));
   ("xNextSystemCall", TPtr (TFun (TPtr (TConst (TName "char"))) [TPtr (TName "sqlite3_vfs"); TPtr (TConst (TName "char"))]))].

Definition tp_struct_sqlite3_mem_methods : list (string * ctype) :=
  [("xMalloc", TPtr (TFun (TPtr (TName "void")) [TName "int"]));
   ("xFree", TPtr (TFun (TName "void") [TPtr (TName "void")]));
   ("xRealloc", TPtr (TFun (TPtr (TName "void")) [TPtr (TName "void"); TName "int"]));
   ("xSize", TPtr (TFun (TName "int") [TPtr (TName "void")]));
   ("xRoundup", TPtr (TFun (TName "int") [TName "int"]));
   ("xInit", TPtr (TFun (TName "int") [TPtr (TName "void")]));
   ("xShutdown", TPtr (TFun (TName "void") [TPtr (TName "void")]));
   ("pAppData", TPtr (TName "void"))].

Definition tp_struct_sqlite3_module : list (string * ctype) :=
  [("iVersion", TName "int");
   ("xCreate", TPtr (TFun (TName "int") [TPtr (TName "sqlite3"); TPtr (TName "void"); TName "int"; TPtr (TConst (TPtr (TConst (TName "char")))); TPtr (TPtr (TName "sqlite3_vtab")); TPtr (TPtr (TName "char"))]));
   ("xConnect", TPtr (TFun (TName "int") [TPtr (TName "sqlite3"); TPtr (TName "void"); TName "int"; TPtr (TConst (TPtr (TConst (TName "char")))); TPtr (TPtr (TName "sqlite3_vtab")); TPtr (TPtr (TName "char"))]));
   ("xBestIndex", TPtr (TFun (TName "int") [TPtr (TName "sqlite3_vtab"); TPtr (TName "sqlite3_index_info")]));
   ("xDisconnect", TPtr (TFun (TName "int") [TPtr (TName "sqlite3_vtab")]));
   ("xDestroy", TPtr (TFun (TName "int") [TPtr (TName "sqlite3_vtab")]));
   ("xOpen", TPtr (TFun (TName "int") [TPtr (TName "sqlite3_vtab"); TPtr (TPtr (TName "sqlite3_vtab_cursor"))]));
   ("xClose", TPtr (TFun (TName "int") [TPtr (TName "sqlite3_vtab_cursor")]));
   ("xFilter", TPtr (TFun (TName "int") [TPtr (TName "sqlite3_vtab_cursor"); TName "int"; TPtr (TConst (TName "char")); TName "int"; TPtr (TPtr (TName "sqlite3_value"))]));
   ("xNext", TPtr (TFun (TName "int") [TPtr (TName "sqlite3_vtab_cursor")]));
   ("xEof", TPtr (TFun (TName "int") [TPtr (TName "sqlite3_vtab_cursor")]));
   ("xColumn", TPtr (TFun (TName "int") [TPtr (TName "sqlite3_vtab_cursor"); TPtr (TName "sqlite3_context"); TName "int"]));
   ("xRowid", TPtr (TFun (TName "int") [TPtr (TName "sqlite3_vtab_cursor"); TPtr (TName "sqlite3_int64")]));
   ("xUpdate", TPtr (TFun (TName "int") [TPtr (TName "sqlite3_vtab"); TName "int"; TPtr (TPtr (TName "sqlite3_value")); TPtr (TName "sqlite3_int64")]));
   ("xBegin", TPtr (TFun (TName "int") [TPtr (TName "sqlite3_vtab")]));
   ("xSync", TPtr (TFun (TName "int") [TPtr (TName "sqlite3_vtab")]));
   ("xCommit", TPtr (TFun (TName "int") [TPtr (TName "sqlite3_vtab")]));
   ("xRollback", TPtr (TFun (TName "int") [TPtr (TName "sqlite3_vtab")]));
   ("xFindFunction", TPtr (TFun (TName "int") [TPtr (TName "sqlite3_vtab"); TName "int"; TPtr (TConst (TName "char")); TPtr (TPtr (TFun (TName "void") [TPtr (TName "sqlite3_context"); TName "int"; TPtr (TPtr (TName "sqlite3_value"))])); TPtr (TPtr (TName "void"))]));
   ("xRename", TPtr (TFun (TName "int") [TPtr (TName "sqlite3_vtab"); TPtr (TConst (TName "char"))]));
   ("xSavepoint", TPtr (TFun (TName "int") [TPtr (TName "sqlite3_vtab"); TName "int"]));
   ("xRelease", TPtr (TFun (TName "int") [TPtr (TName "sqlite3_vtab"); TName "int"]));
   ("xRollbackTo", TPtr (TFun (TName "int") [TPtr (TName "sqlite3_vtab"); TName "int"]));
   ("xShadowName", TPtr (TFun (TName "int") [TPtr (TConst (TName "char"))]))].

Definition tp_struct_sqlite3_vtab : list (string * ctype) :=
  [("pModule", TPtr (TConst (TName "sqlite3_module")));
   ("nRef", TName "int");
   ("zErrMsg", TPtr (TName "char"))].

Definition tp_struct_sqlite3_vtab_cursor : list (string * ctype) :=
  [("pVtab", TPtr (TName "sqlite3_vtab"))].

Definition tp_struct_sqlite3_mutex_methods : list (string * ctype) :=
  [("xMutexInit", TPtr (TFun (TName "int") []));
   ("xMutexEnd", TPtr (TFun (TName "int") []));
   ("xMutexAlloc", TPtr (TFun (TPtr (TName "sqlite3_mutex")) [TName "int"]));
   ("xMutexFree", TPtr (TFun (TName "void") [TPtr (TName "sqlite3_mutex")]));
   ("xMutexEnter", TPtr (TFun (TName "void") [TPtr (TName "sqlite3_mutex")]));
   ("xMutexTry", TPtr (TFun (TName "int") [TPtr (TName "sqlite3_mutex")]));
   ("xMutexLeave", TPtr (TFun (TName "void") [TPtr (TName "sqlite3_mutex")]));
   ("xMutexHeld", TPtr (TFun (TName "int") [TPtr (TName "sqlite3_mutex")]));
   ("xMutexNotheld", TPtr (TFun (TName "int") [TPtr (TName "sqlite3_mutex")]))].

Definition tp_struct_sqlite3_pcache_page : list (string * ctype) :=
  [("pBuf", TPtr (TName "void"));
   ("pExtra", TPtr (TName "void"))].

Definition tp_struct_sqlite3_pcache_methods2 : list (string * ctype) :=
  [("iVersion", TName "int");
   ("pArg", TPtr (TName "void"));
   ("xInit", TPtr (TFun (TName "int") [TPtr (TName "void")]));
   ("xShutdown", TPtr (TFun (TName "void") [TPtr (TName "void")]));
   ("xCreate", TPtr (TFun (TPtr (TName "sqlite3_pcache")) [TName "int"; TName "int"; TName "int"]));
   ("xCachesize", TPtr (TFun (TName "void") [TPtr (TName "sqlite3_pcache"); TName "int"]));
   ("xPagecount", TPtr (TFun (TName "int") [TPtr (TName "sqlite3_pcache")]));
   ("xFetch", TPtr (TFun (TPtr (TName "sqlite3_pcache_page")) [TPtr (TName "sqlite3_pcache"); TName "unsigned"; TName "int"]));
   ("xUnpin", TPtr (TFun (TName "void") [TPtr (TName "sqlite3_pcache"); TPtr (TName "sqlite3_pcache_page"); TName "int"]));
   ("xRekey", TPtr (TFun (TName "void") [TPtr (TName "sqlite3_pcache"); TPtr (TName "sqlite3_pcache_page"); TName "unsigned"; TName "unsigned"]));
   ("xTruncate", TPtr (TFun (TName "void") [TPtr (TName "sqlite3_pcache"); TName "unsigned"]));
   ("xDestroy", TPtr (TFun (TName "void") [TPtr (TName "sqlite3_pcache")]));
   ("xShrink", TPtr (TFun (TName "void") [TPtr (TName "sqlite3_pcache")]))].

Definition tp_struct_sqlite3_pcache_methods : list (string * ctype) :=
  [("pArg", TPtr (TName "void"));
   ("xInit", TPtr (TFun (TName "int") [TPtr (TName "void")]));
   ("xShutdown", TPtr (TFun (TName "void") [TPtr (TName "void")]));
   ("xCreate", TPtr (TFun (TPtr (TName "sqlite3_pcache")) [TName "int"; TName "int"]));
   ("xCachesize", TPtr (TFun (TName "void") [TPtr (TName "sqlite3_pcache"); TName "int"]));
   ("xPagecount", TPtr (TFun (TName "int") [TPtr (TName "sqlite3_pcache")]));
   ("xFetch", TPtr (TFun (TPtr (TName "void")) [TPtr (TName "sqlite3_pcache"); TName "unsigned"; TName "int"]));
   ("xUnpin", TPtr (TFun (TName "void") [TPtr (TName "sqlite3_pcache"); TPtr (TName "void"); TName "int"]));
   ("xRekey", TPtr (TFun (TName "void") [TPtr (TName "sqlite3_pcache"); TPtr (TName "void"); TName "unsigned"; TName "unsigned"]));
   ("xTruncate", TPtr (TFun (TName "void") [TPtr (TName "sqlite3_pcache"); TName "unsigned"]));
   ("xDestroy", TPtr (TFun (TName "void") [TPtr (TName "sqlite3_pcache")]))].

Definition tp_struct_sqlite3_snapshot : list (string * ctype) :=
  [("hidden", TArr (TName "unsigned char"))].

Definition tp_struct_sqlite3_rtree_geometry : list (string * ctype) :=
  [("pContext", TPtr (TName "void"));
   ("nParam", TName "int");
   ("aParam", TPtr (TName "sqlite3_rtree_dbl"));
   ("pUser", TPtr (TName "void"));
   ("xDelUser", TPtr (TFun (TName "void") [TPtr (TName "void")]))].

Definition tp_struct_sqlite3_rtree_query_info : list (string * ctype) :=
  [("pContext", TPtr (TName "void"));
   ("nParam", TName "int");
   ("aParam", TPtr (TName "sqlite3_rtree_dbl"));
   ("pUser", TPtr (TName "void"));
   ("xDelUser", TPtr (TFun (TName "void") [TPtr (TName "void")]));
   ("aCoord", TPtr (TName "sqlite3_rtree_dbl"));
   ("anQueue", TPtr (TName "unsigned int"));
   ("nCoord", TName "int");
   ("iLevel", TName "int");
   ("mxLevel", TName "int");
   ("iRowid", TName "sqlite3_int64");
   ("rParentScore", TName "sqlite3_rtree_dbl");
   ("eParentWithin", TName "int");
   ("eWithin", TName "int");
   ("rScore", TName "sqlite3_rtree_dbl");
   ("apSqlParam", TPtr (TPtr (TName "sqlite3_value")))].

Definition tp_struct_Fts5ExtensionApi : list (string * ctype) :=
  [("iVersion", TName "int");
   ("xUserData", TPtr (TFun (TPtr (TName "void")) [TPtr (TName "Fts5Context")]));
   ("xColumnCount", TPtr (TFun (TName "int") [TPtr (TName "Fts5Context")]));
   ("xRowCount", TPtr (TFun (TName "int") [TPtr (TName "Fts5Context"); TPtr (TName "sqlite3_int64")]));
   ("xColumnTotalSize", TPtr (TFun (TName "int") [TPtr (TName "Fts5Context"); TName "int"; TPtr (TName "sqlite3_int64")]));
   ("xTokenize", TPtr (TFun (TName "int") [TPtr (TName "Fts5Context"); TPtr (TConst (TName "char")); TName "int"; TPtr (TName "void"); TPtr (TFun (TName "int") [TPtr (TName "void"); TName "int"; TPtr (TConst (TName "char")); TName "int"; TName "int"; TName "int"])]));
   ("xPhraseCount", TPtr (TFun (TName "int") [TPtr (TName "Fts5Context")]));
   ("xPhraseSize", TPtr (TFun (TName "int") [TPtr (TName "Fts5Context"); TName "int"]));
   ("xInstCount", TPtr (TFun (TName "int") [TPtr (TName "Fts5Context"); TPtr (TName "int")]));
   ("xInst", TPtr (TFun (TName "int") [TPtr (TName "Fts5Context"); TName "int"; TPtr (TName "int"); TPtr (TName "int"); TPtr (TName "int")]));
   ("xRowid", TPtr (TFun (TName "sqlite3_int64") [TPtr (TName "Fts5Context")]));
   ("xColumnText", TPtr (TFun (TName "int") [TPtr (TName "Fts5Context"); TName "int"; TPtr (TPtr (TConst (TName "char"))); TPtr (TName "int")]));
   ("xColumnSize", TPtr (TFun (TName "int") [TPtr (TName "Fts5Context"); TName "int"; TPtr (TName "int")]));
   ("xQueryPhrase", TPtr (TFun (TName "int") [TPtr (TName "Fts5Context"); TName "int"; TPtr (TName "void"); TPtr (TFun (TName "int") [TPtr (TConst (TName "Fts5ExtensionApi")); TPtr (TName "Fts5Context"); TPtr (TName "void")])]));
   ("xSetAuxdata", TPtr (TFun (TName "int") [TPtr (TName "Fts5Context"); TPtr (TName "void"); TPtr (TFun (TName "void") [TPtr (TName "void")])]));
   ("xGetAuxdata", TPtr (TFun (TPtr (TName "void")) [TPtr (TName "Fts5Context"); TName "int"]));
   ("xPhraseFirst", TPtr (TFun (TName "int") [TPtr (TName "Fts5Context"); TName "int"; TPtr (TName "Fts5PhraseIter"); TPtr (TName "int"); TPtr (TName "int")]));
   ("xPhraseNext", TPtr (TFun (TName "void") [TPtr (TName "Fts5Context"); TPtr (TName "Fts5PhraseIter"); TPtr (TName "int"); TPtr (TName "int")]));
   ("xPhraseFirstColumn", TPtr (TFun (TName "int") [TPtr (TName "Fts5Context"); TName "int"; TPtr (TName "Fts5PhraseIter"); TPtr (TName "int")]));
   ("xPhraseNextColumn", TPtr (TFun (TName "void") [TPtr (TName "Fts5Context"); TPtr (TName "Fts5PhraseIter"); TPtr (TName "int")]))].

Definition tp_struct_fts5_tokenizer : list (string * ctype) :=
  [("xCreate", TPtr (TFun (TName "int") [TPtr (TName "void"); TPtr (TPtr (TConst (TName "char"))); TName "int"; TPtr (TPtr (TName "Fts5Tokenizer"))]));
   ("xDelete", TPtr (TFun (TName "void") [TPtr (TName "Fts5Tokenizer")]));
   ("xTokenize", TPtr (TFun (TName "int") [TPtr (TName "Fts5Tokenizer"); TPtr (TName "void"); TName "int"; TPtr (TConst (TName "char")); TName "int"; TPtr (TFun (TName "int") [TPtr (TName "void"); TName "int"; TPtr (TConst (TName "char")); TName "int"; TName "int"; TName "int"])]))].

Definition tp_struct_fts5_api : list (string * ctype) :=
  [("iVersion", TName "int");
   ("xCreateTokenizer", TPtr (TFun (TName "int") [TPtr (TName "fts5_api"); TPtr (TConst (TName "char")); TPtr (TName "void"); TPtr (TName "fts5_tokenizer"); TPtr (TFun (TName "void") [TPtr (TName "void")])]));
   ("xFindTokenizer", TPtr (TFun (TName "int") [TPtr (TName "fts5_api"); TPtr (TConst (TName "char")); TPtr (TPtr (TName "void")); TPtr (TName "fts5_tokenizer")]));
   ("xCreateFunction", TPtr (TFun (TName "int") [TPtr (TName "fts5_api"); TPtr (TConst (TName "char")); TPtr (TName "void"); TName "fts5_extension_function"; TPtr (TFun (TName "void") [TPtr (TName "void")])]))].

Definition tp_struct_Fts5PhraseIter : list (string * ctype) :=
  [("a", TPtr (TConst (TName "unsigned char")));
   ("b", TPtr (TConst (TName "unsigned char")))].

Definition tp_struct_sqlite3_index_constraint : list (string * ctype) :=
  [("iColumn", TName "int");
   ("op", TName "unsigned char");
   ("usable", TName "unsigned char");
   ("iTermOffset", TName "int")].

Definition tp_struct_sqlite3_index_orderby : list (string * ctype) :=
  [("iColumn", TName "int");
   ("desc", TName "unsigned char")].

Definition tp_struct_sqlite3_index_constraint_usage : list (string * ctype) :=
  [("argvIndex", TName "int");
   ("omit", TName "unsigned char")].

Definition tp_struct_sqlite3_index_info : list (string * ctype) :=
  [("nConstraint", TName "int");
   ("aConstraint", TPtr (TName "struct sqlite3_index_constraint"));
   ("nOrderBy", TName "int");
   ("aOrderBy", TPtr (TName "struct sqlite3_index_orderby"));
   ("aConstraintUsage", TPtr (TName "struct sqlite3_index_constraint_usage"));
   ("idxNum", TName "int");
   ("idxStr", TPtr (TName "char"));
   ("needToFreeIdxStr", TName "int");
   ("orderByConsumed", TName "int");
   ("estimatedCost", TName "double");
   ("estimatedRows", TName "sqlite3_int64");
   ("idxFlags", TName "int");
   ("colUsed", TName "sqlite3_uint64")].

(** ** Type names: the typedefs, for a compiler with [long long] *)

Definition tp_type_sqlite3 : list (string * ctype) :=
  [("sqlite3", TName "struct sqlite3")].

Definition tp_type_sqlite_int64 : list (string * ctype) :=
  [("sqlite_int64", TName "long long int");
   ("sqlite_uint64", TName "unsigned long long int");
   ("sqlite3_int64", TName "sqlite_int64");
   ("sqlite3_uint64", TName "sqlite_uint64")].

Definition tp_type_sqlite3_callback : list (string * ctype) :=
  [("sqlite3_callback", TPtr (TFun (TName "int") [TPtr (TName "void"); TName "int"; TPtr (TPtr (TName "char")); TPtr (TPtr (TName "char"))]))].

Definition tp_type_sqlite3_file : list (string * ctype) :=
  [("sqlite3_file", TName "struct sqlite3_file")].

Definition tp_type_sqlite3_io_methods : list (string * ctype) :=
  [("sqlite3_io_methods", TName "struct sqlite3_io_methods")].

Definition tp_type_sqlite3_mutex : list (string * ctype) :=
  [("sqlite3_mutex", TName "struct sqlite3_mutex")].

Definition tp_type_sqlite3_api_routines : list (string * ctype) :=
  [("sqlite3_api_routines", TName "struct sqlite3_api_routines")].

Definition tp_type_sqlite3_vfs : list (string * ctype) :=
  [("sqlite3_vfs", TName "struct sqlite3_vfs");
   ("sqlite3_syscall_ptr", TPtr (TFun (TName "void") []))].

Definition tp_type_sqlite3_mem_methods : list (string * ctype) :=
  [("sqlite3_mem_methods", TName "struct sqlite3_mem_methods")].

Definition tp_type_sqlite3_stmt : list (string * ctype) :=
  [("sqlite3_stmt", TName "struct sqlite3_stmt")].

Definition tp_type_sqlite3_value : list (string * ctype) :=
  [("sqlite3_value", TName "struct sqlite3_value")].

Definition tp_type_sqlite3_context : list (string * ctype) :=
  [("sqlite3_context", TName "struct sqlite3_context")].

Definition tp_type_sqlite3_destructor_type : list (string * ctype) :=
  [("sqlite3_destructor_type", TPtr (TFun (TName "void") [TPtr (TName "void")]))].

Definition tp_type_sqlite3_vtab : list (string * ctype) :=
  [("sqlite3_vtab", TName "struct sqlite3_vtab");
   ("sqlite3_index_info", TName "struct sqlite3_index_info");
   ("sqlite3_vtab_cursor", TName "struct sqlite3_vtab_cursor");
   ("sqlite3_module", TName "struct sqlite3_module")].

Definition tp_type_sqlite3_blob : list (string * ctype) :=
  [("sqlite3_blob", TName "struct sqlite3_blob")].

Definition tp_type_sqlite3_mutex_methods : list (string * ctype) :=
  [("sqlite3_mutex_methods", TName "struct sqlite3_mutex_methods")].

Definition tp_type_sqlite3_str : list (string * ctype) :=
  [("sqlite3_str", TName "struct sqlite3_str")].

Definition tp_type_sqlite3_pcache : list (string * ctype) :=
  [("sqlite3_pcache", TName "struct sqlite3_pcache")].

Definition tp_type_sqlite3_pcache_page : list (string * ctype) :=
  [("sqlite3_pcache_page", TName "struct sqlite3_pcache_page")].

Definition tp_type_sqlite3_pcache_methods2 : list (string * ctype) :=
  [("sqlite3_pcache_methods2", TName "struct sqlite3_pcache_methods2")].

Definition tp_type_sqlite3_pcache_methods : list (string * ctype) :=
  [("sqlite3_pcache_methods", TName "struct sqlite3_pcache_methods")].

Definition tp_type_sqlite3_backup : list (string * ctype) :=
  [("sqlite3_backup", TName "struct sqlite3_backup")].

Definition tp_type_sqlite3_snapshot : list (string * ctype) :=
  [("sqlite3_snapshot", TName "struct sqlite3_snapshot")].

Definition tp_type_sqlite3_rtree_geometry : list (string * ctype) :=
  [("sqlite3_rtree_geometry", TName "struct sqlite3_rtree_geometry");
   ("sqlite3_rtree_query_info", TName "struct sqlite3_rtree_query_info")].

Definition tp_type_sqlite3_rtree_dbl : list (string * ctype) :=
  [("sqlite3_rtree_dbl", TName "double")].

Definition tp_type_sqlite3_session : list (string * ctype) :=
  [("sqlite3_session", TName "struct sqlite3_session")].

Definition tp_type_sqlite3_changeset_iter : list (string * ctype) :=
  [("sqlite3_changeset_iter", TName "struct sqlite3_changeset_iter")].

Definition tp_type_sqlite3_changegroup : list (string * ctype) :=
  [("sqlite3_changegroup", TName "struct sqlite3_changegroup")].

Definition tp_type_sqlite3_rebaser : list (string * ctype) :=
  [("sqlite3_rebaser", TName "struct sqlite3_rebaser")].

Definition tp_type_Fts5ExtensionApi : list (string * ctype) :=
  [("Fts5ExtensionApi", TName "struct Fts5ExtensionApi");
   ("Fts5Context", TName "struct Fts5Context");
   ("Fts5PhraseIter", TName "struct Fts5PhraseIter");
   ("fts5_extension_function", TPtr (TFun (TName "void") [TPtr (TConst (TName "Fts5ExtensionApi")); TPtr (TName "Fts5Context"); TPtr (TName "sqlite3_context"); TName "int"; TPtr (TPtr (TName "sqlite3_value"))]))].

Definition tp_type_Fts5Tokenizer : list (string * ctype) :=
  [("Fts5Tokenizer", TName "struct Fts5Tokenizer");
   ("fts5_tokenizer", TName "struct fts5_tokenizer")].

Definition tp_type_fts5_api : list (string * ctype) :=
  [("fts5_api", TName "struct fts5_api")].

Definition tp_typedefs : list (string * ctype) :=
  concat [tp_type_sqlite3; tp_type_sqlite_int64; tp_type_sqlite3_callback; tp_type_sqlite3_file; tp_type_sqlite3_io_methods; tp_type_sqlite3_mutex; tp_type_sqlite3_api_routines; tp_type_sqlite3_vfs; tp_type_sqlite3_mem_methods; tp_type_sqlite3_stmt; tp_type_sqlite3_value; tp_type_sqlite3_context; tp_type_sqlite3_destructor_type; tp_type_sqlite3_vtab; tp_type_sqlite3_blob; tp_type_sqlite3_mutex_methods; tp_type_sqlite3_str; tp_type_sqlite3_pcache; tp_type_sqlite3_pcache_page; tp_type_sqlite3_pcache_methods2; tp_type_sqlite3_pcache_methods; tp_type_sqlite3_backup; tp_type_sqlite3_snapshot; tp_type_sqlite3_rtree_geometry; tp_type_sqlite3_rtree_dbl; tp_type_sqlite3_session; tp_type_sqlite3_changeset_iter; tp_type_sqlite3_changegroup; tp_type_sqlite3_rebaser; tp_type_Fts5ExtensionApi; tp_type_Fts5Tokenizer; tp_type_fts5_api].

(** All structures, by tag. *)
Definition tp_structs : list (string * list (string * ctype)) :=
  [("sqlite3_file", tp_struct_sqlite3_file);
   ("sqlite3_io_methods", tp_struct_sqlite3_io_methods);
   ("sqlite3_vfs", tp_struct_sqlite3_vfs);
   ("sqlite3_mem_methods", tp_struct_sqlite3_mem_methods);
   ("sqlite3_module", tp_struct_sqlite3_module);
   ("sqlite3_vtab", tp_struct_sqlite3_vtab);
   ("sqlite3_vtab_cursor", tp_struct_sqlite3_vtab_cursor);
   ("sqlite3_mutex_methods", tp_struct_sqlite3_mutex_methods);
   ("sqlite3_pcache_page", tp_struct_sqlite3_pcache_page);
   ("sqlite3_pcache_methods2", tp_struct_sqlite3_pcache_methods2);
   ("sqlite3_pcache_methods", tp_struct_sqlite3_pcache_methods);
   ("sqlite3_snapshot", tp_struct_sqlite3_snapshot);
   ("sqlite3_rtree_geometry", tp_struct_sqlite3_rtree_geometry);
   ("sqlite3_rtree_query_info", tp_struct_sqlite3_rtree_query_info);
   ("Fts5ExtensionApi", tp_struct_Fts5ExtensionApi);
   ("fts5_tokenizer", tp_struct_fts5_tokenizer);
   ("fts5_api", tp_struct_fts5_api);
   ("Fts5PhraseIter", tp_struct_Fts5PhraseIter);
   ("sqlite3_index_constraint", tp_struct_sqlite3_index_constraint);
   ("sqlite3_index_orderby", tp_struct_sqlite3_index_orderby);
   ("sqlite3_index_constraint_usage", tp_struct_sqlite3_index_constraint_usage);
   ("sqlite3_index_info", tp_struct_sqlite3_index_info)].
