(* ===== verification/VendorExt.v ===== *)
(** * VendorExt: the routine table as the VFS shim sees it
    ([third_party/sqlite3vfs/sqlite3ext.h]) *)

From S2P Require Import Prelude CAbi.

(** ** The routine table [struct sqlite3_api_routines], in member order *)

Definition tp_routines_1 : list (string * ctype) :=
  [("aggregate_context", TPtr (TFun (TPtr (TName "void")) [TPtr (TName "sqlite3_context"); TName "int"]));
   ("aggregate_count", TPtr (TFun (TName "int") [TPtr (TName "sqlite3_context")]));
   ("bind_blob", TPtr (TFun (TName "int") [TPtr (TName "sqlite3_stmt"); TName "int"; TPtr (TConst (TName "void")); TName "int"; TPtr (TFun (TName "void") [TPtr (TName "void")])]));
   ("bind_double", TPtr (TFun (TName "int") [TPtr (TName "sqlite3_stmt"); TName "int"; TName "double"]));
   ("bind_int", TPtr (TFun (TName "int") [TPtr (TName "sqlite3_stmt"); TName "int"; TName "int"]));
   ("bind_int64", TPtr (TFun (TName "int") [TPtr (TName "sqlite3_stmt"); TName "int"; TName "sqlite_int64"]));
   ("bind_null", TPtr (TFun (TName "int") [TPtr (TName "sqlite3_stmt"); TName "int"]));
   ("bind_parameter_count", TPtr (TFun (TName "int") [TPtr (TName "sqlite3_stmt")]));
   ("bind_parameter_index", TPtr (TFun (TName "int") [TPtr (TName "sqlite3_stmt"); TPtr (TConst (TName "char"))]));
   ("bind_parameter_name", TPtr (TFun (TPtr (TConst (TName "char"))) [TPtr (TName "sqlite3_stmt"); TName "int"]));
   ("bind_text", TPtr (TFun (TName "int") [TPtr (TName "sqlite3_stmt"); TName "int"; TPtr (TConst (TName "char")); TName "int"; TPtr (TFun (TName "void") [TPtr (TName "void")])]));
   ("bind_text16", TPtr (TFun (TName "int") [TPtr (TName "sqlite3_stmt"); TName "int"; TPtr (TConst (TName "void")); TName "int"; TPtr (TFun (TName "void") [TPtr (TName "void")])]));
   ("bind_value", TPtr (TFun (TName "int") [TPtr (TName "sqlite3_stmt"); TName "int"; TPtr (TConst (TName "sqlite3_value"))]));
   ("busy_handler", TPtr (TFun (TName "int") [TPtr (TName "sqlite3"); TPtr (TFun (TName "int") [TPtr (TName "void"); TName "int"]); TPtr (TName "void")]));
   ("busy_timeout", TPtr (TFun (TName "int") [TPtr (TName "sqlite3"); TName "int"]));
   ("changes", TPtr (TFun (TName "int") [TPtr (TName "sqlite3")]));
   ("close", TPtr (TFun (TName "int") [TPtr (TName "sqlite3")]));
   ("collation_needed", TPtr (TFun (TName "int") [TPtr (TName "sqlite3"); TPtr (TName "void"); TPtr (TFun (TName "void") [TPtr (TName "void"); TPtr (TName "sqlite3"); TName "int"; TPtr (TConst (TName "char"))])]));
   ("collation_needed16", TPtr (TFun (TName "int") [TPtr (TName "sqlite3"); TPtr (TName "void"); TPtr (TFun (TName "void") [TPtr (TName "void"); TPtr (TName "sqlite3"); TName "int"; TPtr (TConst (TName "void"))])]));
   ("column_blob", TPtr (TFun (TPtr (TConst (TName "void"))) [TPtr (TName "sqlite3_stmt"); TName "int"]));
   ("column_bytes", TPtr (TFun (TName "int") [TPtr (TName "sqlite3_stmt"); TName "int"]));
   ("column_bytes16", TPtr (TFun (TName "int") [TPtr (TName "sqlite3_stmt"); TName "int"]));
   ("column_count", TPtr (TFun (TName "int") [TPtr (TName "sqlite3_stmt")]));
   ("column_database_name", TPtr (TFun (TPtr (TConst (TName "char"))) [TPtr (TName "sqlite3_stmt"); TName "int"]));
   ("column_database_name16", TPtr (TFun (TPtr (TConst (TName "void"))) [TPtr (TName "sqlite3_stmt"); TName "int"]));
   ("column_decltype", TPtr (TFun (TPtr (TConst (TName "char"))) [TPtr (TName "sqlite3_stmt"); TName "int"]));
   ("column_decltype16", TPtr (TFun (TPtr (TConst (TName "void"))) [TPtr (TName "sqlite3_stmt"); TName "int"]));
   ("column_double", TPtr (TFun (TName "double") [TPtr (TName "sqlite3_stmt"); TName "int"]));
   ("column_int", TPtr (TFun (TName "int") [TPtr (TName "sqlite3_stmt"); TName "int"]));
   ("column_int64", TPtr (TFun (TName "sqlite_int64") [TPtr (TName "sqlite3_stmt"); TName "int"]));
   ("column_name", TPtr (TFun (TPtr (TConst (TName "char"))) [TPtr (TName "sqlite3_stmt"); TName "int"]));
   ("column_name16", TPtr (TFun (TPtr (TConst (TName "void"))) [TPtr (TName "sqlite3_stmt"); TName "int"]));
   ("column_origin_name", TPtr (TFun (TPtr (TConst (TName "char"))) [TPtr (TName "sqlite3_stmt"); TName "int"]));
   ("column_origin_name16", TPtr (TFun (TPtr (TConst (TName "void"))) [TPtr (TName "sqlite3_stmt"); TName "int"]));
   ("column_table_name", TPtr (TFun (TPtr (TConst (TName "char"))) [TPtr (TName "sqlite3_stmt"); TName "int"]));
   ("column_table_name16", TPtr (TFun (TPtr (TConst (TName "void"))) [TPtr (TName "sqlite3_stmt"); TName "int"]));
   ("column_text", TPtr (TFun (TPtr (TConst (TName "unsigned char"))) [TPtr (TName "sqlite3_stmt"); TName "int"]));
   ("column_text16", TPtr (TFun (TPtr (TConst (TName "void"))) [TPtr (TName "sqlite3_stmt"); TName "int"]));
   ("column_type", TPtr (TFun (TName "int") [TPtr (TName "sqlite3_stmt"); TName "int"]));
   ("column_value", TPtr (TFun (TPtr (TName "sqlite3_value")) [TPtr (TName "sqlite3_stmt"); TName "int"]))].

Definition tp_routines_2 : list (string * ctype) :=
  [("commit_hook", TPtr (TFun (TPtr (TName "void")) [TPtr (TName "sqlite3"); TPtr (TFun (TName "int") [TPtr (TName "void")]); TPtr (TName "void")]));
   ("complete", TPtr (TFun (TName "int") [TPtr (TConst (TName "char"))]));
   ("complete16", TPtr (TFun (TName "int") [TPtr (TConst (TName "void"))]));
   ("create_collation", TPtr (TFun (TName "int") [TPtr (TName "sqlite3"); TPtr (TConst (TName "char")); TName "int"; TPtr (TName "void"); TPtr (TFun (TName "int") [TPtr (TName "void"); TName "int"; TPtr (TConst (TName "void")); TName "int"; TPtr (TConst (TName "void"))])]));
   ("create_collation16", TPtr (TFun (TName "int") [TPtr (TName "sqlite3"); TPtr (TConst (TName "void")); TName "int"; TPtr (TName "void"); TPtr (TFun (TName "int") [TPtr (TName "void"); TName "int"; TPtr (TConst (TName "void")); TName "int"; TPtr (TConst (TName "void"))])]));
   ("create_function", TPtr (TFun (TName "int") [TPtr (TName "sqlite3"); TPtr (TConst (TName "char")); TName "int"; TName "int"; TPtr (TName "void"); TPtr (TFun (TName "void") [TPtr (TName "sqlite3_context"); TName "int"; TPtr (TPtr (TName "sqlite3_value"))]); TPtr (TFun (TName "void") [TPtr (TName "sqlite3_context"); TName "int"; TPtr (TPtr (TName "sqlite3_value"))]); TPtr (TFun (TName "void") [TPtr (TName "sqlite3_context")])]));
   ("create_function16", TPtr (TFun (TName "int") [TPtr (TName "sqlite3"); TPtr (TConst (TName "void")); TName "int"; TName "int"; TPtr (TName "void"); TPtr (TFun (TName "void") [TPtr (TName "sqlite3_context"); TName "int"; TPtr (TPtr (TName "sqlite3_value"))]); TPtr (TFun (TName "void") [TPtr (TName "sqlite3_context"); TName "int"; TPtr (TPtr (TName "sqlite3_value"))]); TPtr (TFun (TName "void") [TPtr (TName "sqlite3_context")])]));
   ("create_module", TPtr (TFun (TName "int") [TPtr (TName "sqlite3"); TPtr (TConst (TName "char")); TPtr (TConst (TName "sqlite3_module")); TPtr (TName "void")]));
   ("data_count", TPtr (TFun (TName "int") [TPtr (TName "sqlite3_stmt")]));
   ("db_handle", TPtr (TFun (TPtr (TName "sqlite3")) [TPtr (TName "sqlite3_stmt")]));
   ("declare_vtab", TPtr (TFun (TName "int") [TPtr (TName "sqlite3"); TPtr (TConst (TName "char"))]));
   ("enable_shared_cache", TPtr (TFun (TName "int") [TName "int"]));
   ("errcode", TPtr (TFun (TName "int") [TPtr (TName "sqlite3")]));
   ("errmsg", TPtr (TFun (TPtr (TConst (TName "char"))) [TPtr (TName "sqlite3")]));
   ("errmsg16", TPtr (TFun (TPtr (TConst (TName "void"))) [TPtr (TName "sqlite3")]));
   ("exec", TPtr (TFun (TName "int") [TPtr (TName "sqlite3"); TPtr (TConst (TName "char")); TName "sqlite3_callback"; TPtr (TName "void"); TPtr (TPtr (TName "char"))]));
   ("expired", TPtr (TFun (TName "int") [TPtr (TName "sqlite3_stmt")]));
   ("finalize", TPtr (TFun (TName "int") [TPtr (TName "sqlite3_stmt")]));
   ("free", TPtr (TFun (TName "void") [TPtr (TName "void")]));
   ("free_table", TPtr (TFun (TName "void") [TPtr (TPtr (TName "char"))]));
   ("get_autocommit", TPtr (TFun (TName "int") [TPtr (TName "sqlite3")]));
   ("get_auxdata", TPtr (TFun (TPtr (TName "void")) [TPtr (TName "sqlite3_context"); TName "int"]));
   ("get_table", TPtr (TFun (TName "int") [TPtr (TName "sqlite3"); TPtr (TConst (TName "char")); TPtr (TPtr (TPtr (TName "char"))); TPtr (TName "int"); TPtr (TName "int"); TPtr (TPtr (TName "char"))]));
   ("global_recover", TPtr (TFun (TName "int") []));
   ("interruptx", TPtr (TFun (TName "void") [TPtr (TName "sqlite3")]));
   ("last_insert_rowid", TPtr (TFun (TName "sqlite_int64") [TPtr (TName "sqlite3")]));
   ("libversion", TPtr (TFun (TPtr (TConst (TName "char"))) []));
   ("libversion_number", TPtr (TFun (TName "int") []));
   ("malloc", TPtr (TFun (TPtr (TName "void")) [TName "int"]));
   ("mprintf", TPtr (TFun (TPtr (TName "char")) [TPtr (TConst (TName "char")); TDots]));
   ("open", TPtr (TFun (TName "int") [TPtr (TConst (TName "char")); TPtr (TPtr (TName "sqlite3"))]));
   ("open16", TPtr (TFun (TName "int") [TPtr (TConst (TName "void")); TPtr (TPtr (TName "sqlite3"))]));
   ("prepare", TPtr (TFun (TName "int") [TPtr (TName "sqlite3"); TPtr (TConst (TName "char")); TName "int"; TPtr (TPtr (TName "sqlite3_stmt")); TPtr (TPtr (TConst (TName "char")))]));
   ("prepare16", TPtr (TFun (TName "int") [TPtr (TName "sqlite3"); TPtr (TConst (TName "void")); TName "int"; TPtr (TPtr (TName "sqlite3_stmt")); TPtr (TPtr (TConst (TName "void")))]));
   ("profile", TPtr (TFun (TPtr (TName "void")) [TPtr (TName "sqlite3"); TPtr (TFun (TName "void") [TPtr (TName "void"); TPtr (TConst (TName "char")); TName "sqlite_uint64"]); TPtr (TName "void")]));
   ("progress_handler", TPtr (TFun (TName "void") [TPtr (TName "sqlite3"); TName "int"; TPtr (TFun (TName "int") [TPtr (TName "void")]); TPtr (TName "void")]));
   ("realloc", TPtr (TFun (TPtr (TName "void")) [TPtr (TName "void"); TName "int"]));
   ("reset", TPtr (TFun (TName "int") [TPtr (TName "sqlite3_stmt")]));
   ("result_blob", TPtr (TFun (TName "void") [TPtr (TName "sqlite3_context"); TPtr (TConst (TName "void")); TName "int"; TPtr (TFun (TName "void") [TPtr (TName "void")])]));
   ("result_double", TPtr (TFun (TName "void") [TPtr (TName "sqlite3_context"); TName "double"]))].

Definition tp_routines_3 : list (string * ctype) :=
  [("result_error", TPtr (TFun (TName "void") [TPtr (TName "sqlite3_context"); TPtr (TConst (TName "char")); TName "int"]));
   ("result_error16", TPtr (TFun (TName "void") [TPtr (TName "sqlite3_context"); TPtr (TConst (TName "void")); TName "int"]));
   ("result_int", TPtr (TFun (TName "void") [TPtr (TName "sqlite3_context"); TName "int"]));
   ("result_int64", TPtr (TFun (TName "void") [TPtr (TName "sqlite3_context"); TName "sqlite_int64"]));
   ("result_null", TPtr (TFun (TName "void") [TPtr (TName "sqlite3_context")]));
   ("result_text", TPtr (TFun (TName "void") [TPtr (TName "sqlite3_context"); TPtr (TConst (TName "char")); TName "int"; TPtr (TFun (TName "void") [TPtr (TName "void")])]));
   ("result_text16", TPtr (TFun (TName "void") [TPtr (TName "sqlite3_context"); TPtr (TConst (TName "void")); TName "int"; TPtr (TFun (TName "void") [TPtr (TName "void")])]));
   ("result_text16be", TPtr (TFun (TName "void") [TPtr (TName "sqlite3_context"); TPtr (TConst (TName "void")); TName "int"; TPtr (TFun (TName "void") [TPtr (TName "void")])]));
   ("result_text16le", TPtr (TFun (TName "void") [TPtr (TName "sqlite3_context"); TPtr (TConst (TName "void")); TName "int"; TPtr (TFun (TName "void") [TPtr (TName "void")])]));
   ("result_value", TPtr (TFun (TName "void") [TPtr (TName "sqlite3_context"); TPtr (TName "sqlite3_value")]));
   ("rollback_hook", TPtr (TFun (TPtr (TName "void")) [TPtr (TName "sqlite3"); TPtr (TFun (TName "void") [TPtr (TName "void")]); TPtr (TName "void")]));
   ("set_authorizer", TPtr (TFun (TName "int") [TPtr (TName "sqlite3"); TPtr (TFun (TName "int") [TPtr (TName "void"); TName "int"; TPtr (TConst (TName "char")); TPtr (TConst (TName "char")); TPtr (TConst (TName "char")); TPtr (TConst (TName "char"))]); TPtr (TName "void")]));
   ("set_auxdata", TPtr (TFun (TName "void") [TPtr (TName "sqlite3_context"); TName "int"; TPtr (TName "void"); TPtr (TFun (TName "void") [TPtr (TName "void")])]));
   ("xsnprintf", TPtr (TFun (TPtr (TName "char")) [TName "int"; TPtr (TName "char"); TPtr (TConst (TName "char")); TDots]));
   ("step", TPtr (TFun (TName "int") [TPtr (TName "sqlite3_stmt")]));
   ("table_column_metadata", TPtr (TFun (TName "int") [TPtr (TName "sqlite3"); TPtr (TConst (TName "char")); TPtr (TConst (TName "char")); TPtr (TConst (TName "char")); TPtr (TPtr (TConst (TName "char"))); TPtr (TPtr (TConst (TName "char"))); TPtr (TName "int"); TPtr (TName "int"); TPtr (TName "int")]));
   ("thread_cleanup", TPtr (TFun (TName "void") []));
   ("total_changes", TPtr (TFun (TName "int") [TPtr (TName "sqlite3")]));
   ("trace", TPtr (TFun (TPtr (TName "void")) [TPtr (TName "sqlite3"); TPtr (TFun (TName "void") [TPtr (TName "void"); TPtr (TConst (TName "char"))]); TPtr (TName "void")]));
   ("transfer_bindings", TPtr (TFun (TName "int") [TPtr (TName "sqlite3_stmt"); TPtr (TName "sqlite3_stmt")]));
   ("update_hook", TPtr (TFun (TPtr (TName "void")) [TPtr (TName "sqlite3"); TPtr (TFun (TName "void") [TPtr (TName "void"); TName "int"; TPtr (TConst (TName "char")); TPtr (TConst (TName "char")); TName "sqlite_int64"]); TPtr (TName "void")]));
   ("user_data", TPtr (TFun (TPtr (TName "void")) [TPtr (TName "sqlite3_context")]));
   ("value_blob", TPtr (TFun (TPtr (TConst (TName "void"))) [TPtr (TName "sqlite3_value")]));
   ("value_bytes", TPtr (TFun (TName "int") [TPtr (TName "sqlite3_value")]));
   ("value_bytes16", TPtr (TFun (TName "int") [TPtr (TName "sqlite3_value")]));
   ("value_double", TPtr (TFun (TName "double") [TPtr (TName "sqlite3_value")]));
   ("value_int", TPtr (TFun (TName "int") [TPtr (TName "sqlite3_value")]));
   ("value_int64", TPtr (TFun (TName "sqlite_int64") [TPtr (TName "sqlite3_value")]));
   ("value_numeric_type", TPtr (TFun (TName "int") [TPtr (TName "sqlite3_value")]));
   ("value_text", TPtr (TFun (TPtr (TConst (TName "unsigned char"))) [TPtr (TName "sqlite3_value")]));
   ("value_text16", TPtr (TFun (TPtr (TConst (TName "void"))) [TPtr (TName "sqlite3_value")]));
   ("value_text16be", TPtr (TFun (TPtr (TConst (TName "void"))) [TPtr (TName "sqlite3_value")]));
   ("value_text16le", TPtr (TFun (TPtr (TConst (TName "void"))) [TPtr (TName "sqlite3_value")]));
   ("value_type", TPtr (TFun (TName "int") [TPtr (TName "sqlite3_value")]));
   ("vmprintf", TPtr (TFun (TPtr (TName "char")) [TPtr (TConst (TName "char")); TName "va_list"]));
   ("overload_function", TPtr (TFun (TName "int") [TPtr (TName "sqlite3"); TPtr (TConst (TName "char")); TName "int"]));
   ("prepare_v2", TPtr (TFun (TName "int") [TPtr (TName "sqlite3"); TPtr (TConst (TName "char")); TName "int"; TPtr (TPtr (TName "sqlite3_stmt")); TPtr (TPtr (TConst (TName "char")))]));
   ("prepare16_v2", TPtr (TFun (TName "int") [TPtr (TName "sqlite3"); TPtr (TConst (TName "void")); TName "int"; TPtr (TPtr (TName "sqlite3_stmt")); TPtr (TPtr (TConst (TName "void")))]));
   ("clear_bindings", TPtr (TFun (TName "int") [TPtr (TName "sqlite3_stmt")]));
   ("create_module_v2", TPtr (TFun (TName "int") [TPtr (TName "sqlite3"); TPtr (TConst (TName "char")); TPtr (TConst (TName "sqlite3_module")); TPtr (TName "void"); TPtr (TFun (TName "void") [TPtr (TName "void")])]))].

Definition tp_routines_4 : list (string * ctype) :=
  [("bind_zeroblob", TPtr (TFun (TName "int") [TPtr (TName "sqlite3_stmt"); TName "int"; TName "int"]));
   ("blob_bytes", TPtr (TFun (TName "int") [TPtr (TName "sqlite3_blob")]));
   ("blob_close", TPtr (TFun (TName "int") [TPtr (TName "sqlite3_blob")]));
   ("blob_open", TPtr (TFun (TName "int") [TPtr (TName "sqlite3"); TPtr (TConst (TName "char")); TPtr (TConst (TName "char")); TPtr (TConst (TName "char")); TName "sqlite3_int64"; TName "int"; TPtr (TPtr (TName "sqlite3_blob"))]));
   ("blob_read", TPtr (TFun (TName "int") [TPtr (TName "sqlite3_blob"); TPtr (TName "void"); TName "int"; TName "int"]));
   ("blob_write", TPtr (TFun (TName "int") [TPtr (TName "sqlite3_blob"); TPtr (TConst (TName "void")); TName "int"; TName "int"]));
   ("create_collation_v2", TPtr (TFun (TName "int") [TPtr (TName "sqlite3"); TPtr (TConst (TName "char")); TName "int"; TPtr (TName "void"); TPtr (TFun (TName "int") [TPtr (TName "void"); TName "int"; TPtr (TConst (TName "void")); TName "int"; TPtr (TConst (TName "void"))]); TPtr (TFun (TName "void") [TPtr (TName "void")])]));
   ("file_control", TPtr (TFun (TName "int") [TPtr (TName "sqlite3"); TPtr (TConst (TName "char")); TName "int"; TPtr (TName "void")]));
   ("memory_highwater", TPtr (TFun (TName "sqlite3_int64") [TName "int"]));
   ("memory_used", TPtr (TFun (TName "sqlite3_int64") []));
   ("mutex_alloc", TPtr (TFun (TPtr (TName "sqlite3_mutex")) [TName "int"]));
   ("mutex_enter", TPtr (TFun (TName "void") [TPtr (TName "sqlite3_mutex")]));
   ("mutex_free", TPtr (TFun (TName "void") [TPtr (TName "sqlite3_mutex")]));
   ("mutex_leave", TPtr (TFun (TName "void") [TPtr (TName "sqlite3_mutex")]));
   ("mutex_try", TPtr (TFun (TName "int") [TPtr (TName "sqlite3_mutex")]));
   ("open_v2", TPtr (TFun (TName "int") [TPtr (TConst (TName "char")); TPtr (TPtr (TName "sqlite3")); TName "int"; TPtr (TConst (TName "char"))]));
   ("release_memory", TPtr (TFun (TName "int") [TName "int"]));
   ("result_error_nomem", TPtr (TFun (TName "void") [TPtr (TName "sqlite3_context")]));
   ("result_error_toobig", TPtr (TFun (TName "void") [TPtr (TName "sqlite3_context")]));
   ("sleep", TPtr (TFun (TName "int") [TName "int"]));
   ("soft_heap_limit", TPtr (TFun (TName "void") [TName "int"]));
   ("vfs_find", TPtr (TFun (TPtr (TName "sqlite3_vfs")) [TPtr (TConst (TName "char"))]));
   ("vfs_register", TPtr (TFun (TName "int") [TPtr (TName "sqlite3_vfs"); TName "int"]));
   ("vfs_unregister", TPtr (TFun (TName "int") [TPtr (TName "sqlite3_vfs")]));
   ("xthreadsafe", TPtr (TFun (TName "int") []));
   ("result_zeroblob", TPtr (TFun (TName "void") [TPtr (TName "sqlite3_context"); TName "int"]));
   ("result_error_code", TPtr (TFun (TName "void") [TPtr (TName "sqlite3_context"); TName "int"]));
   ("test_control", TPtr (TFun (TName "int") [TName "int"; TDots]));
   ("randomness", TPtr (TFun (TName "void") [TName "int"; TPtr (TName "void")]));
   ("context_db_handle", TPtr (TFun (TPtr (TName "sqlite3")) [TPtr (TName "sqlite3_context")]));
   ("extended_result_codes", TPtr (TFun (TName "int") [TPtr (TName "sqlite3"); TName "int"]));
   ("limit", TPtr (TFun (TName "int") [TPtr (TName "sqlite3"); TName "int"; TName "int"]));
   ("next_stmt", TPtr (TFun (TPtr (TName "sqlite3_stmt")) [TPtr (TName "sqlite3"); TPtr (TName "sqlite3_stmt")]));
   ("sql", TPtr (TFun (TPtr (TConst (TName "char"))) [TPtr (TName "sqlite3_stmt")]));
   ("status", TPtr (TFun (TName "int") [TName "int"; TPtr (TName "int"); TPtr (TName "int"); TName "int"]));
   ("backup_finish", TPtr (TFun (TName "int") [TPtr (TName "sqlite3_backup")]));
   ("backup_init", TPtr (TFun (TPtr (TName "sqlite3_backup")) [TPtr (TName "sqlite3"); TPtr (TConst (TName "char")); TPtr (TName "sqlite3"); TPtr (TConst (TName "char"))]));
   ("backup_pagecount", TPtr (TFun (TName "int") [TPtr (TName "sqlite3_backup")]));
   ("backup_remaining", TPtr (TFun (TName "int") [TPtr (TName "sqlite3_backup")]));
   ("backup_step", TPtr (TFun (TName "int") [TPtr (TName "sqlite3_backup"); TName "int"]))].

Definition tp_routines_5 : list (string * ctype) :=
  [("compileoption_get", TPtr (TFun (TPtr (TConst (TName "char"))) [TName "int"]));
   ("compileoption_used", TPtr (TFun (TName "int") [TPtr (TConst (TName "char"))]));
   ("create_function_v2", TPtr (TFun (TName "int") [TPtr (TName "sqlite3"); TPtr (TConst (TName "char")); TName "int"; TName "int"; TPtr (TName "void"); TPtr (TFun (TName "void") [TPtr (TName "sqlite3_context"); TName "int"; TPtr (TPtr (TName "sqlite3_value"))]); TPtr (TFun (TName "void") [TPtr (TName "sqlite3_context"); TName "int"; TPtr (TPtr (TName "sqlite3_value"))]); TPtr (TFun (TName "void") [TPtr (TName "sqlite3_context")]); TPtr (TFun (TName "void") [TPtr (TName "void")])]));
   ("db_config", TPtr (TFun (TName "int") [TPtr (TName "sqlite3"); TName "int"; TDots]));
   ("db_mutex", TPtr (TFun (TPtr (TName "sqlite3_mutex")) [TPtr (TName "sqlite3")]));
   ("db_status", TPtr (TFun (TName "int") [TPtr (TName "sqlite3"); TName "int"; TPtr (TName "int"); TPtr (TName "int"); TName "int"]));
   ("extended_errcode", TPtr (TFun (TName "int") [TPtr (TName "sqlite3")]));
   ("log", TPtr (TFun (TName "void") [TName "int"; TPtr (TConst (TName "char")); TDots]));
   ("soft_heap_limit64", TPtr (TFun (TName "sqlite3_int64") [TName "sqlite3_int64"]));
   ("sourceid", TPtr (TFun (TPtr (TConst (TName "char"))) []));
   ("stmt_status", TPtr (TFun (TName "int") [TPtr (TName "sqlite3_stmt"); TName "int"; TName "int"]));
   ("strnicmp", TPtr (TFun (TName "int") [TPtr (TConst (TName "char")); TPtr (TConst (TName "char")); TName "int"]));
   ("unlock_notify", TPtr (TFun (TName "int") [TPtr (TName "sqlite3"); TPtr (TFun (TName "void") [TPtr (TPtr (TName "void")); TName "int"]); TPtr (TName "void")]));
   ("wal_autocheckpoint", TPtr (TFun (TName "int") [TPtr (TName "sqlite3"); TName "int"]));
   ("wal_checkpoint", TPtr (TFun (TName "int") [TPtr (TName "sqlite3"); TPtr (TConst (TName "char"))]));
   ("wal_hook", TPtr (TFun (TPtr (TName "void")) [TPtr (TName "sqlite3"); TPtr (TFun (TName "int") [TPtr (TName "void"); TPtr (TName "sqlite3"); TPtr (TConst (TName "char")); TName "int"]); TPtr (TName "void")]));
   ("blob_reopen", TPtr (TFun (TName "int") [TPtr (TName "sqlite3_blob"); TName "sqlite3_int64"]));
   ("vtab_config", TPtr (TFun (TName "int") [TPtr (TName "sqlite3"); TName "int"; TDots]));
   ("vtab_on_conflict", TPtr (TFun (TName "int") [TPtr (TName "sqlite3")]));
   ("close_v2", TPtr (TFun (TName "int") [TPtr (TName "sqlite3")]));
   ("db_filename", TPtr (TFun (TPtr (TConst (TName "char"))) [TPtr (TName "sqlite3"); TPtr (TConst (TName "char"))]));
   ("db_readonly", TPtr (TFun (TName "int") [TPtr (TName "sqlite3"); TPtr (TConst (TName "char"))]));
   ("db_release_memory", TPtr (TFun (TName "int") [TPtr (TName "sqlite3")]));
   ("errstr", TPtr (TFun (TPtr (TConst (TName "char"))) [TName "int"]));
   ("stmt_busy", TPtr (TFun (TName "int") [TPtr (TName "sqlite3_stmt")]));
   ("stmt_readonly", TPtr (TFun (TName "int") [TPtr (TName "sqlite3_stmt")]));
   ("stricmp", TPtr (TFun (TName "int") [TPtr (TConst (TName "char")); TPtr (TConst (TName "char"))]));
   ("uri_boolean", TPtr (TFun (TName "int") [TPtr (TConst (TName "char")); TPtr (TConst (TName "char")); TName "int"]));
   ("uri_int64", TPtr (TFun (TName "sqlite3_int64") [TPtr (TConst (TName "char")); TPtr (TConst (TName "char")); TName "sqlite3_int64"]));
   ("uri_parameter", TPtr (TFun (TPtr (TConst (TName "char"))) [TPtr (TConst (TName "char")); TPtr (TConst (TName "char"))]));
   ("xvsnprintf", TPtr (TFun (TPtr (TName "char")) [TName "int"; TPtr (TName "char"); TPtr (TConst (TName "char")); TName "va_list"]));
   ("wal_checkpoint_v2", TPtr (TFun (TName "int") [TPtr (TName "sqlite3"); TPtr (TConst (TName "char")); TName "int"; TPtr (TName "int"); TPtr (TName "int")]));
   ("auto_extension", TPtr (TFun (TName "int") [TPtr (TFun (TName "void") [])]));
   ("bind_blob64", TPtr (TFun (TName "int") [TPtr (TName "sqlite3_stmt"); TName "int"; TPtr (TConst (TName "void")); TName "sqlite3_uint64"; TPtr (TFun (TName "void") [TPtr (TName "void")])]));
   ("bind_text64", TPtr (TFun (TName "int") [TPtr (TName "sqlite3_stmt"); TName "int"; TPtr (TConst (TName "char")); TName "sqlite3_uint64"; TPtr (TFun (TName "void") [TPtr (TName "void")]); TName "unsigned char"]));
   ("cancel_auto_extension", TPtr (TFun (TName "int") [TPtr (TFun (TName "void") [])]));
   ("load_extension", TPtr (TFun (TName "int") [TPtr (TName "sqlite3"); TPtr (TConst (TName "char")); TPtr (TConst (TName "char")); TPtr (TPtr (TName "char"))]));
   ("malloc64", TPtr (TFun (TPtr (TName "void")) [TName "sqlite3_uint64"]));
   ("msize", TPtr (TFun (TName "sqlite3_uint64") [TPtr (TName "void")]));
   ("realloc64", TPtr (TFun (TPtr (TName "void")) [TPtr (TName "void"); TName "sqlite3_uint64"]))].

Definition tp_routines_6 : list (string * ctype) :=
  [("reset_auto_extension", TPtr (TFun (TName "void") []));
   ("result_blob64", TPtr (TFun (TName "void") [TPtr (TName "sqlite3_context"); TPtr (TConst (TName "void")); TName "sqlite3_uint64"; TPtr (TFun (TName "void") [TPtr (TName "void")])]));
   ("result_text64", TPtr (TFun (TName "void") [TPtr (TName "sqlite3_context"); TPtr (TConst (TName "char")); TName "sqlite3_uint64"; TPtr (TFun (TName "void") [TPtr (TName "void")]); TName "unsigned char"]));
   ("strglob", TPtr (TFun (TName "int") [TPtr (TConst (TName "char")); TPtr (TConst (TName "char"))]));
   ("value_dup", TPtr (TFun (TPtr (TName "sqlite3_value")) [TPtr (TConst (TName "sqlite3_value"))]));
   ("value_free", TPtr (TFun (TName "void") [TPtr (TName "sqlite3_value")]));
   ("result_zeroblob64", TPtr (TFun (TName "int") [TPtr (TName "sqlite3_context"); TName "sqlite3_uint64"]));
   ("bind_zeroblob64", TPtr (TFun (TName "int") [TPtr (TName "sqlite3_stmt"); TName "int"; TName "sqlite3_uint64"]));
   ("value_subtype", TPtr (TFun (TName "unsigned int") [TPtr (TName "sqlite3_value")]));
   ("result_subtype", TPtr (TFun (TName "void") [TPtr (TName "sqlite3_context"); TName "unsigned int"]));
   ("status64", TPtr (TFun (TName "int") [TName "int"; TPtr (TName "sqlite3_int64"); TPtr (TName "sqlite3_int64"); TName "int"]));
   ("strlike", TPtr (TFun (TName "int") [TPtr (TConst (TName "char")); TPtr (TConst (TName "char")); TName "unsigned int"]));
   ("db_cacheflush", TPtr (TFun (TName "int") [TPtr (TName "sqlite3")]));
   ("system_errno", TPtr (TFun (TName "int") [TPtr (TName "sqlite3")]));
   ("trace_v2", TPtr (TFun (TName "int") [TPtr (TName "sqlite3"); TName "unsigned"; TPtr (TFun (TName "int") [TName "unsigned"; TPtr (TName "void"); TPtr (TName "void"); TPtr (TName "void")]); TPtr (TName "void")]));
   ("expanded_sql", TPtr (TFun (TPtr (TName "char")) [TPtr (TName "sqlite3_stmt")]));
   ("set_last_insert_rowid", TPtr (TFun (TName "void") [TPtr (TName "sqlite3"); TName "sqlite3_int64"]));
   ("prepare_v3", TPtr (TFun (TName "int") [TPtr (TName "sqlite3"); TPtr (TConst (TName "char")); TName "int"; TName "unsigned int"; TPtr (TPtr (TName "sqlite3_stmt")); TPtr (TPtr (TConst (TName "char")))]));
   ("prepare16_v3", TPtr (TFun (TName "int") [TPtr (TName "sqlite3"); TPtr (TConst (TName "void")); TName "int"; TName "unsigned int"; TPtr (TPtr (TName "sqlite3_stmt")); TPtr (TPtr (TConst (TName "void")))]));
   ("bind_pointer", TPtr (TFun (TName "int") [TPtr (TName "sqlite3_stmt"); TName "int"; TPtr (TName "void"); TPtr (TConst (TName "char")); TPtr (TFun (TName "void") [TPtr (TName "void")])]));
   ("result_pointer", TPtr (TFun (TName "void") [TPtr (TName "sqlite3_context"); TPtr (TName "void"); TPtr (TConst (TName "char")); TPtr (TFun (TName "void") [TPtr (TName "void")])]));
   ("value_pointer", TPtr (TFun (TPtr (TName "void")) [TPtr (TName "sqlite3_value"); TPtr (TConst (TName "char"))]));
   ("vtab_nochange", TPtr (TFun (TName "int") [TPtr (TName "sqlite3_context")]));
   ("value_nochange", TPtr (TFun (TName "int") [TPtr (TName "sqlite3_value")]));
   ("vtab_collation", TPtr (TFun (TPtr (TConst (TName "char"))) [TPtr (TName "sqlite3_index_info"); TName "int"]));
   ("keyword_count", TPtr (TFun (TName "int") []));
   ("keyword_name", TPtr (TFun (TName "int") [TName "int"; TPtr (TPtr (TConst (TName "char"))); TPtr (TName "int")]));
   ("keyword_check", TPtr (TFun (TName "int") [TPtr (TConst (TName "char")); TName "int"]));
   ("str_new", TPtr (TFun (TPtr (TName "sqlite3_str")) [TPtr (TName "sqlite3")]));
   ("str_finish", TPtr (TFun (TPtr (TName "char")) [TPtr (TName "sqlite3_str")]));
   ("str_appendf", TPtr (TFun (TName "void") [TPtr (TName "sqlite3_str"); TPtr (TConst (TName "char")); TDots]));
   ("str_vappendf", TPtr (TFun (TName "void") [TPtr (TName "sqlite3_str"); TPtr (TConst (TName "char")); TName "va_list"]));
   ("str_append", TPtr (TFun (TName "void") [TPtr (TName "sqlite3_str"); TPtr (TConst (TName "char")); TName "int"]));
   ("str_appendall", TPtr (TFun (TName "void") [TPtr (TName "sqlite3_str"); TPtr (TConst (TName "char"))]));
   ("str_appendchar", TPtr (TFun (TName "void") [TPtr (TName "sqlite3_str"); TName "int"; TName "char"]));
   ("str_reset", TPtr (TFun (TName "void") [TPtr (TName "sqlite3_str")]));
   ("str_errcode", TPtr (TFun (TName "int") [TPtr (TName "sqlite3_str")]));
   ("str_length", TPtr (TFun (TName "int") [TPtr (TName "sqlite3_str")]));
   ("str_value", TPtr (TFun (TPtr (TName "char")) [TPtr (TName "sqlite3_str")]));
   ("create_window_function", TPtr (TFun (TName "int") [TPtr (TName "sqlite3"); TPtr (TConst (TName "char")); TName "int"; TName "int"; TPtr (TName "void"); TPtr (TFun (TName "void") [TPtr (TName "sqlite3_context"); TName "int"; TPtr (TPtr (TName "sqlite3_value"))]); TPtr (TFun (TName "void") [TPtr (TName "sqlite3_context")]); TPtr (TFun (TName "void") [TPtr (TName "sqlite3_context")]); TPtr (TFun (TName "void") [TPtr (TName "sqlite3_context"); TName "int"; TPtr (TPtr (TName "sqlite3_value"))]); TPtr (TFun (TName "void") [TPtr (TName "void")])]))].

Definition tp_routines_7 : list (string * ctype) :=
  [("normalized_sql", TPtr (TFun (TPtr (TConst (TName "char"))) [TPtr (TName "sqlite3_stmt")]));
   ("stmt_isexplain", TPtr (TFun (TName "int") [TPtr (TName "sqlite3_stmt")]));
   ("value_frombind", TPtr (TFun (TName "int") [TPtr (TName "sqlite3_value")]));
   ("drop_modules", TPtr (TFun (TName "int") [TPtr (TName "sqlite3"); TPtr (TPtr (TConst (TName "char")))]));
   ("hard_heap_limit64", TPtr (TFun (TName "sqlite3_int64") [TName "sqlite3_int64"]));
   ("uri_key", TPtr (TFun (TPtr (TConst (TName "char"))) [TPtr (TConst (TName "char")); TName "int"]));
   ("filename_database", TPtr (TFun (TPtr (TConst (TName "char"))) [TPtr (TConst (TName "char"))]));
   ("filename_journal", TPtr (TFun (TPtr (TConst (TName "char"))) [TPtr (TConst (TName "char"))]));
   ("filename_wal", TPtr (TFun (TPtr (TConst (TName "char"))) [TPtr (TConst (TName "char"))]));
   ("create_filename", TPtr (TFun (TPtr (TName "char")) [TPtr (TConst (TName "char")); TPtr (TConst (TName "char")); TPtr (TConst (TName "char")); TName "int"; TPtr (TPtr (TConst (TName "char")))]));
   ("free_filename", TPtr (TFun (TName "void") [TPtr (TName "char")]));
   ("database_file_object", TPtr (TFun (TPtr (TName "sqlite3_file")) [TPtr (TConst (TName "char"))]));
   ("txn_state", TPtr (TFun (TName "int") [TPtr (TName "sqlite3"); TPtr (TConst (TName "char"))]))].

Definition tp_routines : list (string * ctype) :=
  tp_routines_1 ++ tp_routines_2 ++ tp_routines_3 ++ tp_routines_4 ++ tp_routines_5 ++ tp_routines_6 ++ tp_routines_7.

(** ** The redirections [#define sqlite3_f sqlite3_api->f] *)

Definition tp_redirects_1 : list (string * string) :=
  [("sqlite3_aggregate_context", "aggregate_context");
   ("sqlite3_aggregate_count", "aggregate_count");
   ("sqlite3_bind_blob", "bind_blob");
   ("sqlite3_bind_double", "bind_double");
   ("sqlite3_bind_int", "bind_int");
   ("sqlite3_bind_int64", "bind_int64");
   ("sqlite3_bind_null", "bind_null");
   ("sqlite3_bind_parameter_count", "bind_parameter_count");
   ("sqlite3_bind_parameter_index", "bind_parameter_index");
   ("sqlite3_bind_parameter_name", "bind_parameter_name");
   ("sqlite3_bind_text", "bind_text");
   ("sqlite3_bind_text16", "bind_text16");
   ("sqlite3_bind_value", "bind_value");
   ("sqlite3_busy_handler", "busy_handler");
   ("sqlite3_busy_timeout", "busy_timeout");
   ("sqlite3_changes", "changes");
   ("sqlite3_close", "close");
   ("sqlite3_collation_needed", "collation_needed");
   ("sqlite3_collation_needed16", "collation_needed16");
   ("sqlite3_column_blob", "column_blob");
   ("sqlite3_column_bytes", "column_bytes");
   ("sqlite3_column_bytes16", "column_bytes16");
   ("sqlite3_column_count", "column_count");
   ("sqlite3_column_database_name", "column_database_name");
   ("sqlite3_column_database_name16", "column_database_name16");
   ("sqlite3_column_decltype", "column_decltype");
   ("sqlite3_column_decltype16", "column_decltype16");
   ("sqlite3_column_double", "column_double");
   ("sqlite3_column_int", "column_int");
   ("sqlite3_column_int64", "column_int64");
   ("sqlite3_column_name", "column_name");
   ("sqlite3_column_name16", "column_name16");
   ("sqlite3_column_origin_name", "column_origin_name");
   ("sqlite3_column_origin_name16", "column_origin_name16");
   ("sqlite3_column_table_name", "column_table_name");
   ("sqlite3_column_table_name16", "column_table_name16");
   ("sqlite3_column_text", "column_text");
   ("sqlite3_column_text16", "column_text16");
   ("sqlite3_column_type", "column_type");
   ("sqlite3_column_value", "column_value");
   ("sqlite3_commit_hook", "commit_hook");
   ("sqlite3_complete", "complete");
   ("sqlite3_complete16", "complete16");
   ("sqlite3_create_collation", "create_collation");
   ("sqlite3_create_collation16", "create_collation16");
   ("sqlite3_create_function", "create_function");
   ("sqlite3_create_function16", "create_function16");
   ("sqlite3_create_module", "create_module");
   ("sqlite3_create_module_v2", "create_module_v2");
   ("sqlite3_data_count", "data_count");
   ("sqlite3_db_handle", "db_handle");
   ("sqlite3_declare_vtab", "declare_vtab");
   ("sqlite3_enable_shared_cache", "enable_shared_cache");
   ("sqlite3_errcode", "errcode");
   ("sqlite3_errmsg", "errmsg");
   ("sqlite3_errmsg16", "errmsg16");
   ("sqlite3_exec", "exec");
   ("sqlite3_expired", "expired");
   ("sqlite3_finalize", "finalize");
   ("sqlite3_free", "free")].

Definition tp_redirects_2 : list (string * string) :=
  [("sqlite3_free_table", "free_table");
   ("sqlite3_get_autocommit", "get_autocommit");
   ("sqlite3_get_auxdata", "get_auxdata");
   ("sqlite3_get_table", "get_table");
   ("sqlite3_global_recover", "global_recover");
   ("sqlite3_interrupt", "interruptx");
   ("sqlite3_last_insert_rowid", "last_insert_rowid");
   ("sqlite3_libversion", "libversion");
   ("sqlite3_libversion_number", "libversion_number");
   ("sqlite3_malloc", "malloc");
   ("sqlite3_mprintf", "mprintf");
   ("sqlite3_open", "open");
   ("sqlite3_open16", "open16");
   ("sqlite3_prepare", "prepare");
   ("sqlite3_prepare16", "prepare16");
   ("sqlite3_prepare_v2", "prepare_v2");
   ("sqlite3_prepare16_v2", "prepare16_v2");
   ("sqlite3_profile", "profile");
   ("sqlite3_progress_handler", "progress_handler");
   ("sqlite3_realloc", "realloc");
   ("sqlite3_reset", "reset");
   ("sqlite3_result_blob", "result_blob");
   ("sqlite3_result_double", "result_double");
   ("sqlite3_result_error", "result_error");
   ("sqlite3_result_error16", "result_error16");
   ("sqlite3_result_int", "result_int");
   ("sqlite3_result_int64", "result_int64");
   ("sqlite3_result_null", "result_null");
   ("sqlite3_result_text", "result_text");
   ("sqlite3_result_text16", "result_text16");
   ("sqlite3_result_text16be", "result_text16be");
   ("sqlite3_result_text16le", "result_text16le");
   ("sqlite3_result_value", "result_value");
   ("sqlite3_rollback_hook", "rollback_hook");
   ("sqlite3_set_authorizer", "set_authorizer");
   ("sqlite3_set_auxdata", "set_auxdata");
   ("sqlite3_snprintf", "xsnprintf");
   ("sqlite3_step", "step");
   ("sqlite3_table_column_metadata", "table_column_metadata");
   ("sqlite3_thread_cleanup", "thread_cleanup");
   ("sqlite3_total_changes", "total_changes");
   ("sqlite3_trace", "trace");
   ("sqlite3_transfer_bindings", "transfer_bindings");
   ("sqlite3_update_hook", "update_hook");
   ("sqlite3_user_data", "user_data");
   ("sqlite3_value_blob", "value_blob");
   ("sqlite3_value_bytes", "value_bytes");
   ("sqlite3_value_bytes16", "value_bytes16");
   ("sqlite3_value_double", "value_double");
   ("sqlite3_value_int", "value_int");
   ("sqlite3_value_int64", "value_int64");
   ("sqlite3_value_numeric_type", "value_numeric_type");
   ("sqlite3_value_text", "value_text");
   ("sqlite3_value_text16", "value_text16");
   ("sqlite3_value_text16be", "value_text16be");
   ("sqlite3_value_text16le", "value_text16le");
   ("sqlite3_value_type", "value_type");
   ("sqlite3_vmprintf", "vmprintf");
   ("sqlite3_vsnprintf", "xvsnprintf");
   ("sqlite3_overload_function", "overload_function")].

Definition tp_redirects_3 : list (string * string) :=
  [("sqlite3_prepare_v2", "prepare_v2");
   ("sqlite3_prepare16_v2", "prepare16_v2");
   ("sqlite3_clear_bindings", "clear_bindings");
   ("sqlite3_bind_zeroblob", "bind_zeroblob");
   ("sqlite3_blob_bytes", "blob_bytes");
   ("sqlite3_blob_close", "blob_close");
   ("sqlite3_blob_open", "blob_open");
   ("sqlite3_blob_read", "blob_read");
   ("sqlite3_blob_write", "blob_write");
   ("sqlite3_create_collation_v2", "create_collation_v2");
   ("sqlite3_file_control", "file_control");
   ("sqlite3_memory_highwater", "memory_highwater");
   ("sqlite3_memory_used", "memory_used");
   ("sqlite3_mutex_alloc", "mutex_alloc");
   ("sqlite3_mutex_enter", "mutex_enter");
   ("sqlite3_mutex_free", "mutex_free");
   ("sqlite3_mutex_leave", "mutex_leave");
   ("sqlite3_mutex_try", "mutex_try");
   ("sqlite3_open_v2", "open_v2");
   ("sqlite3_release_memory", "release_memory");
   ("sqlite3_result_error_nomem", "result_error_nomem");
   ("sqlite3_result_error_toobig", "result_error_toobig");
   ("sqlite3_sleep", "sleep");
   ("sqlite3_soft_heap_limit", "soft_heap_limit");
   ("sqlite3_vfs_find", "vfs_find");
   ("sqlite3_vfs_register", "vfs_register");
   ("sqlite3_vfs_unregister", "vfs_unregister");
   ("sqlite3_threadsafe", "xthreadsafe");
   ("sqlite3_result_zeroblob", "result_zeroblob");
   ("sqlite3_result_error_code", "result_error_code");
   ("sqlite3_test_control", "test_control");
   ("sqlite3_randomness", "randomness");
   ("sqlite3_context_db_handle", "context_db_handle");
   ("sqlite3_extended_result_codes", "extended_result_codes");
   ("sqlite3_limit", "limit");
   ("sqlite3_next_stmt", "next_stmt");
   ("sqlite3_sql", "sql");
   ("sqlite3_status", "status");
   ("sqlite3_backup_finish", "backup_finish");
   ("sqlite3_backup_init", "backup_init");
   ("sqlite3_backup_pagecount", "backup_pagecount");
   ("sqlite3_backup_remaining", "backup_remaining");
   ("sqlite3_backup_step", "backup_step");
   ("sqlite3_compileoption_get", "compileoption_get");
   ("sqlite3_compileoption_used", "compileoption_used");
   ("sqlite3_create_function_v2", "create_function_v2");
   ("sqlite3_db_config", "db_config");
   ("sqlite3_db_mutex", "db_mutex");
   ("sqlite3_db_status", "db_status");
   ("sqlite3_extended_errcode", "extended_errcode");
   ("sqlite3_log", "log");
   ("sqlite3_soft_heap_limit64", "soft_heap_limit64");
   ("sqlite3_sourceid", "sourceid");
   ("sqlite3_stmt_status", "stmt_status");
   ("sqlite3_strnicmp", "strnicmp");
   ("sqlite3_unlock_notify", "unlock_notify");
   ("sqlite3_wal_autocheckpoint", "wal_autocheckpoint");
   ("sqlite3_wal_checkpoint", "wal_checkpoint");
   ("sqlite3_wal_hook", "wal_hook");
   ("sqlite3_blob_reopen", "blob_reopen")].

Definition tp_redirects_4 : list (string * string) :=
  [("sqlite3_vtab_config", "vtab_config");
   ("sqlite3_vtab_on_conflict", "vtab_on_conflict");
   ("sqlite3_close_v2", "close_v2");
   ("sqlite3_db_filename", "db_filename");
   ("sqlite3_db_readonly", "db_readonly");
   ("sqlite3_db_release_memory", "db_release_memory");
   ("sqlite3_errstr", "errstr");
   ("sqlite3_stmt_busy", "stmt_busy");
   ("sqlite3_stmt_readonly", "stmt_readonly");
   ("sqlite3_stricmp", "stricmp");
   ("sqlite3_uri_boolean", "uri_boolean");
   ("sqlite3_uri_int64", "uri_int64");
   ("sqlite3_uri_parameter", "uri_parameter");
   ("sqlite3_uri_vsnprintf", "xvsnprintf");
   ("sqlite3_wal_checkpoint_v2", "wal_checkpoint_v2");
   ("sqlite3_auto_extension", "auto_extension");
   ("sqlite3_bind_blob64", "bind_blob64");
   ("sqlite3_bind_text64", "bind_text64");
   ("sqlite3_cancel_auto_extension", "cancel_auto_extension");
   ("sqlite3_load_extension", "load_extension");
   ("sqlite3_malloc64", "malloc64");
   ("sqlite3_msize", "msize");
   ("sqlite3_realloc64", "realloc64");
   ("sqlite3_reset_auto_extension", "reset_auto_extension");
   ("sqlite3_result_blob64", "result_blob64");
   ("sqlite3_result_text64", "result_text64");
   ("sqlite3_strglob", "strglob");
   ("sqlite3_value_dup", "value_dup");
   ("sqlite3_value_free", "value_free");
   ("sqlite3_result_zeroblob64", "result_zeroblob64");
   ("sqlite3_bind_zeroblob64", "bind_zeroblob64");
   ("sqlite3_value_subtype", "value_subtype");
   ("sqlite3_result_subtype", "result_subtype");
   ("sqlite3_status64", "status64");
   ("sqlite3_strlike", "strlike");
   ("sqlite3_db_cacheflush", "db_cacheflush");
   ("sqlite3_system_errno", "system_errno");
   ("sqlite3_trace_v2", "trace_v2");
   ("sqlite3_expanded_sql", "expanded_sql");
   ("sqlite3_set_last_insert_rowid", "set_last_insert_rowid");
   ("sqlite3_prepare_v3", "prepare_v3");
   ("sqlite3_prepare16_v3", "prepare16_v3");
   ("sqlite3_bind_pointer", "bind_pointer");
   ("sqlite3_result_pointer", "result_pointer");
   ("sqlite3_value_pointer", "value_pointer");
   ("sqlite3_vtab_nochange", "vtab_nochange");
   ("sqlite3_value_nochange", "value_nochange");
   ("sqlite3_vtab_collation", "vtab_collation");
   ("sqlite3_keyword_count", "keyword_count");
   ("sqlite3_keyword_name", "keyword_name");
   ("sqlite3_keyword_check", "keyword_check");
   ("sqlite3_str_new", "str_new");
   ("sqlite3_str_finish", "str_finish");
   ("sqlite3_str_appendf", "str_appendf");
   ("sqlite3_str_vappendf", "str_vappendf");
   ("sqlite3_str_append", "str_append");
   ("sqlite3_str_appendall", "str_appendall");
   ("sqlite3_str_appendchar", "str_appendchar");
   ("sqlite3_str_reset", "str_reset");
   ("sqlite3_str_errcode", "str_errcode")].

Definition tp_redirects_5 : list (string * string) :=
  [("sqlite3_str_length", "str_length");
   ("sqlite3_str_value", "str_value");
   ("sqlite3_create_window_function", "create_window_function");
   ("sqlite3_normalized_sql", "normalized_sql");
   ("sqlite3_stmt_isexplain", "stmt_isexplain");
   ("sqlite3_value_frombind", "value_frombind");
   ("sqlite3_drop_modules", "drop_modules");
   ("sqlite3_hard_heap_limit64", "hard_heap_limit64");
   ("sqlite3_uri_key", "uri_key");
   ("sqlite3_filename_database", "filename_database");
   ("sqlite3_filename_journal", "filename_journal");
   ("sqlite3_filename_wal", "filename_wal");
   ("sqlite3_create_filename", "create_filename");
   ("sqlite3_free_filename", "free_filename");
   ("sqlite3_database_file_object", "database_file_object");
   ("sqlite3_txn_state", "txn_state")].

Definition tp_redirects : list (string * string) :=
  tp_redirects_1 ++ tp_redirects_2 ++ tp_redirects_3 ++ tp_redirects_4 ++ tp_redirects_5.

(** The type of an extension entry point. *)
Definition tp_type_sqlite3_loadext_entry : list (string * ctype) :=
  [("sqlite3_loadext_entry", TPtr (TFun (TName "int") [TPtr (TName "sqlite3"); TPtr (TPtr (TName "char")); TPtr (TConst (TName "sqlite3_api_routines"))]))].
