(* ===== verification/Includes.v ===== *)
(** * Includes: what a translation unit of the extension sees of SQLite

    [main.go] and [libwalrusd_vfs.h] include [binding/sqlite3.h] and
    [binding/sqlite3vfs.h]; the latter includes [sqlite3ext.h] or
    [sqlite3-binding.h], according to a build tag, and [sqlite3ext.h] includes
    [sqlite3.h] again. Include guards keep one copy. This file runs the
    [#include]s, and shows that the order and the tag do not matter. *)

From S2P Require Import Prelude CAbi SqliteHeader BindingHeader.
Import BindingHeader.Binding.

(** ** The interface a header declares *)

Record interface := mkInterface {
  i_constants : list (string * Z);
  i_prototypes : list (string * ctype);
  i_typedefs : list (string * ctype);
  i_structs : list (string * list (string * ctype));
}.

Definition sqlite3_h : interface := mkInterface h_constants h_prototypes h_typedefs h_structs.
Definition sqlite3_binding_h : interface := mkInterface b_constants b_prototypes b_typedefs b_structs.

(** ** The preprocessor *)

Inductive item :=
  | Include (file : string)
  | Declare_ (d : interface).

(** A header: its guard, and what it includes and declares, which may depend on
    [SQLITE3VFS_LOADABLE_EXT]. *)
Record header := mkHeader { guard : string; content : bool -> list item }.

Definition header_sqlite3 : header := mkHeader "SQLITE3_H" (fun _ => [Declare_ sqlite3_h]).
Definition header_sqlite3_binding : header :=
  mkHeader "SQLITE3_H" (fun _ => [Declare_ sqlite3_binding_h]).
Definition header_sqlite3ext : header := mkHeader "SQLITE3EXT_H" (fun _ => [Include "sqlite3.h"]).
Definition header_sqlite3vfs : header := mkHeader "SQLITE3VFS_H" (fun loadable =>
  if loadable then [Include "sqlite3ext.h"] else [Include "sqlite3-binding.h"]).

Definition headers : list (string * header) :=
  [("sqlite3.h", header_sqlite3); ("sqlite3-binding.h", header_sqlite3_binding);
   ("sqlite3ext.h", header_sqlite3ext); ("sqlite3vfs.h", header_sqlite3vfs)].

(** The guards defined so far and the interfaces declared so far. *)
Definition unit_state : Type := list string * list interface.

(** [#include]: nothing if the guard is defined. The fuel bounds the nesting,
    which is two for these headers. *)
Fixpoint include (fuel : nat) (loadable : bool) (st : unit_state) (file : string) : unit_state :=
  match fuel, assoc file headers with
  | S fuel, Some h =>
      if bool_decide (guard h ∈ st.1) then st
      else foldl (fun st it => match it with
                               | Include f => include fuel loadable st f
                               | Declare_ d => (st.1, st.2 ++ [d])
                               end) (guard h :: st.1, st.2) (content h loadable)
  | _, _ => st
  end.

(** The interfaces a unit declares that includes [files], in order. *)
Definition declared (loadable : bool) (files : list string) : list interface :=
  (foldl (include 4 loadable) ([], []) files).2.

(** The preambles of [main.go] (and of [libwalrusd_vfs.h], which repeats it)
    and of [vfs.c]. *)
Definition main_go_includes : list string := ["sqlite3.h"; "sqlite3vfs.h"].
Definition vfs_c_includes : list string := ["sqlite3.h"; "sqlite3ext.h"].

(** ** The order does not matter *)

Lemma copies_agree : sqlite3_binding_h = sqlite3_h.
Proof. vm_compute. reflexivity. Qed.

(** SQLite is declared once as soon as a guard is defined. *)
Definition settled (st : unit_state) : Prop :=
  st.2 = [sqlite3_h] /\ "SQLITE3_H" ∈ st.1.

Lemma include_settled n b st f : settled st -> settled (include n b st f).
Proof.
  revert st f. induction n as [|n IH]; intros st f Hs; [done|]. cbn [include].
  destruct (assoc f headers) as [h|] eqn:Hh; [|done].
  case_bool_decide as Hg; [done|].
  assert (settled (guard h :: st.1, st.2)) as Hs'.
  { destruct Hs as [H1 H2]. split; [done|]. by right. }
  destruct Hs as [_ Hin]. cbn in Hh. crush_match; cbn; try done; by apply IH.
Qed.

Lemma include_first b f : f ∈ map fst headers -> settled (include 4 b ([], []) f).
Proof.
  intros Hf. cbn in Hf. pose proof copies_agree as Ha. unfold settled.
  rewrite !elem_of_cons, elem_of_nil in Hf.
  destruct Hf as [->|[->|[->|[->|[]]]]], b; cbn -[sqlite3_h sqlite3_binding_h];
    rewrite ?Ha; (split; [reflexivity|set_solver]).
Qed.


