(* ===== verification/AbiAgreement.v ===== *)
(** * AbiAgreement: the two copies of SQLite's interface agree

    [vfs.c] is compiled against [bindings/vfs/binding] and [sqlite3vfs.c]
    against [third_party/sqlite3vfs]; both end up in one shared library and
    share the single [sqlite3_api] pointer.  The theorems of this file are
    what makes that sound. *)

From S2P Require Import Prelude CAbi SqliteHeader SqliteExt VendorHeader VendorExt.

(** ** Type names *)

(** One expansion of the type names a header declares. *)
Fixpoint expand (tds : list (string * ctype)) (t : ctype) : ctype :=
  match t with
  | TName n => default (TName n) (assoc n tds)
  | TConst t => TConst (expand tds t)
  | TVolatile t => TVolatile (expand tds t)
  | TPtr t => TPtr (expand tds t)
  | TArr t => TArr (expand tds t)
  | TFun r ps => TFun (expand tds r) (map (expand tds) ps)
  | TDots => TDots
  end.

(** Expansion to base types and structure tags: [sqlite3_int64] takes two
    steps, and no name takes more than three. *)
Definition resolve (t : ctype) : ctype :=
  expand h_typedefs (expand h_typedefs (expand h_typedefs t)).

Definition base_types : list string :=
  ["void"; "char"; "signed char"; "unsigned char"; "int"; "unsigned"; "unsigned int"; "unsigned long";
   "long long int"; "unsigned long long int"; "double"; "va_list"].

Fixpoint names (t : ctype) : list string :=
  match t with
  | TName n => [n]
  | TConst t | TVolatile t | TPtr t | TArr t => names t
  | TFun r ps => names r ++ flat_map names ps
  | TDots => []
  end.

(** A type whose names all resolve: to base types and structure tags. *)
Definition closed (t : ctype) : bool :=
  forallb (fun n => bool_decide (n ∈ base_types) || String.prefix "struct " n) (names (resolve t)).

(** ** The routine tables *)

(** Two members agree: the same name, declarations that differ in [const] only. *)
Definition member_agrees (a b : string * ctype) : bool :=
  String.eqb a.1 b.1 && compatible a.2 b.2.

Lemma vendor_table_checked :
  forallb (fun ab => member_agrees ab.1 ab.2) (zip tp_routines h_routines) = true /\
  (length tp_routines <= length h_routines)%nat.
Proof. split; [vm_compute; reflexivity | vm_compute; lia]. Qed.

Lemma vendor_members i n t :
  tp_routines !! i = Some (n, t) ->
  exists t', h_routines !! i = Some (n, t') /\ compatible t t' = true.
Proof.
  destruct vendor_table_checked as [Hz Hlen]. intros Hi.
  destruct (h_routines !! i) as [[n' t']|] eqn:Hj.
  - assert (zip tp_routines h_routines !! i = Some ((n, t), (n', t'))) as Hzi.
    { apply lookup_zip_with_Some. eauto. }
    apply (forallb_lookup _ _ _ _ Hz) in Hzi. cbn in Hzi.
    apply andb_true_iff in Hzi as [Hn Hc]. apply String.eqb_eq in Hn. cbn in Hn. subst.
    eauto.
  - apply lookup_ge_None in Hj. apply lookup_lt_Some in Hi. lia.
Qed.

Lemma offset_prefix {A B} (k : string) (l : list (string * A)) (m : list (string * B)) i :
  (forall j n a, l !! j = Some (n, a) -> exists b, m !! j = Some (n, b)) ->
  offset k l = Some i -> offset k m = Some i.
Proof.
  revert m i. induction l as [|[k' a] l IH]; intros m i Hp; [done|]. cbn [offset].
  destruct (Hp O k' a eq_refl) as [b Hb]. destruct m as [|[k2 b2] m]; [done|].
  cbn in Hb. injection Hb as -> ->. cbn [offset].
  destruct (String.eqb k k'); [done|].
  intros (j & Hj & ->)%fmap_Some. rewrite (IH m j); [done| |done].
  intros j' n a' Hj'. exact (Hp (S j') n a' Hj').
Qed.

(** The routine table the shim was compiled against is a prefix
    of the table the extension is compiled against: a member has the same
    offset in both, and the two declarations differ at most in [const]. So a
    call through the shared [sqlite3_api] pointer reaches the same routine
    from either translation unit. *)
Theorem vendor_table_is_prefix (k : string) (i : nat)
  (Hoff : offset k tp_routines = Some i) :
  offset k h_routines = Some i /\
  exists t t', assoc k tp_routines = Some t /\ assoc k h_routines = Some t' /\
    member_agrees (k, t) (k, t') = true.
Proof.
  assert (offset k h_routines = Some i) as Hoff'.
  { eapply offset_prefix; [|exact Hoff]. intros j n a Hj.
    destruct (vendor_members _ _ _ Hj) as (t' & Ht' & _). exists t'. exact Ht'. }
  split; [exact Hoff'|].
  destruct (offset_lookup _ _ _ Hoff) as (t & Ht & Ha).
  destruct (offset_lookup _ _ _ Hoff') as (t' & Ht' & Ha').
  destruct (vendor_members _ _ _ Ht) as (t2 & Ht2 & Hc).
  rewrite Ht2 in Ht'. injection Ht' as ->.
  exists t, t'. split; [exact Ha|]. split; [exact Ha'|].
  unfold member_agrees. cbn. rewrite String.eqb_refl. exact Hc.
Qed.

(** Witness: [sqlite3_mprintf], which the shim calls for pragma results. *)
Lemma vendor_table_is_prefix_witness :
  offset "mprintf" tp_routines = Some 69%nat /\ offset "mprintf" h_routines = Some 69%nat.
Proof.
  split; [vm_compute; reflexivity|].
  exact (proj1 (vendor_table_is_prefix "mprintf" 69 ltac:(vm_compute; reflexivity))).
Defined.

(** ** The structures *)

(** A member of the older structure and the one at its place in the newer. *)
Definition field_agrees (a b : string * ctype) : bool :=
  String.eqb a.1 b.1 && compatible (resolve a.2) (resolve b.2) && closed a.2.

Definition struct_agrees (s : string * list (string * ctype)) : bool :=
  match assoc s.1 h_structs with
  | Some hs => (length s.2 <=? length hs)%nat && forallb (fun ab => field_agrees ab.1 ab.2) (zip s.2 hs)
  | None => false
  end.

Lemma structs_checked : forallb struct_agrees tp_structs = true.
Proof. vm_compute. reflexivity. Qed.

Lemma assoc_elem_of {A} (k : string) (l : list (string * A)) (a : A) :
  assoc k l = Some a -> (k, a) ∈ l.
Proof.
  induction l as [|[k' b] l IH]; [done|]. cbn. destruct (String.eqb_spec k k') as [->|Hk].
  - intros [= ->]. by left.
  - intros H. right. by apply IH.
Qed.

(** Every structure of the header the shim was compiled against (the file
    and VFS method tables, modules, mutexes, page caches, ...) is laid out as a
    prefix of the structure of that name in the header the extension was
    compiled against: a member has the same position, its two declarations
    resolve to types that differ at most in [const], and resolve entirely, to
    base types and structure tags. So either translation unit may fill in or
    read what the other one made. *)
Theorem vendor_structs_are_prefixes (n m : string) (ms : list (string * ctype)) (i : nat) (t : ctype)
    (Hs : assoc n tp_structs = Some ms) (Hm : ms !! i = Some (m, t)) :
  exists hs t', assoc n h_structs = Some hs /\ hs !! i = Some (m, t') /\
    compatible (resolve t) (resolve t') = true /\ closed t = true.
Proof.
  pose proof structs_checked as H. rewrite List.forallb_forall in H.
  apply assoc_elem_of, list_elem_of_In, H in Hs as H1. unfold struct_agrees in H1. cbn [fst snd] in H1.
  destruct (assoc n h_structs) as [hs|]; [|done].
  apply andb_true_iff in H1 as [Hlen Hz]. apply Nat.leb_le in Hlen.
  destruct (lookup_lt_is_Some_2 hs i) as [[m' t'] Hi].
  { apply lookup_lt_Some in Hm. lia. }
  exists hs, t'. split; [done|].
  assert (zip ms hs !! i = Some ((m, t), (m', t'))) as Hzi by (apply lookup_zip_with_Some; eauto).
  apply (forallb_lookup _ _ _ _ Hz) in Hzi. unfold field_agrees in Hzi. cbn [fst snd] in Hzi.
  apply andb_true_iff in Hzi as [[He Hc]%andb_true_iff Hcl]. apply String.eqb_eq in He as <-. done.
Qed.

(** Witness: [xOpen] of [sqlite3_vfs], which the headers declare with
    different names for the type of a file name. *)
Lemma vendor_structs_are_prefixes_witness :
  exists hs t', assoc "sqlite3_vfs" h_structs = Some hs /\ hs !! 6%nat = Some ("xOpen", t') /\
    compatible (resolve (default TDots (assoc "xOpen" tp_struct_sqlite3_vfs))) (resolve t') = true.
Proof.
  destruct (vendor_structs_are_prefixes "sqlite3_vfs" "xOpen" tp_struct_sqlite3_vfs 6
    (default TDots (assoc "xOpen" tp_struct_sqlite3_vfs)) eq_refl eq_refl)
    as (hs & t' & H1 & H2 & H3 & _).
  exists hs, t'. split; [exact H1|]. split; [exact H2|exact H3].
Defined.

(** ** The redirections *)

(** A redirection names a member whose type is a pointer to the declared
    function. *)
Definition redirect_typed (routines protos : list (string * ctype)) (r : string * string) : bool :=
  match assoc r.2 routines, assoc r.1 protos with
  | Some t, Some p => compatible (resolve t) (TPtr (resolve p))
  | _, _ => false
  end.

Definition redirect_ok (routines protos : list (string * ctype)) (r : string * string) : bool :=
  String.eqb r.1 "sqlite3_uri_vsnprintf" || redirect_typed routines protos r.

Lemma redirects_checked :
  forallb (redirect_ok h_routines h_prototypes) h_redirects = true /\
  forallb (redirect_ok tp_routines tp_prototypes) tp_redirects = true.
Proof. split; vm_compute; reflexivity. Qed.

Lemma redirect_ok_typed T P R f m :
  forallb (redirect_ok T P) R = true -> (f, m) ∈ R -> f <> "sqlite3_uri_vsnprintf" ->
  redirect_typed T P (f, m) = true.
Proof.
  intros HR Hin Hf. rewrite List.forallb_forall in HR.
  apply list_elem_of_In in Hin. specialize (HR _ Hin).
  unfold redirect_ok in HR. apply orb_true_iff in HR as [H|H]; [|done].
  apply String.eqb_eq in H. by cbn in H.
Qed.

(** Every macro [sqlite3_f -> sqlite3_api->m] of either header,
    but for [sqlite3_uri_vsnprintf] (which names no declared function), stands
    for a member whose type is a pointer to the function [f] declares, so the
    redirected call has the prototype the caller was checked against. *)
Theorem redirects_have_declared_types (f m : string) (Hf : f <> "sqlite3_uri_vsnprintf") :
  ((f, m) ∈ h_redirects -> redirect_typed h_routines h_prototypes (f, m) = true) /\
  ((f, m) ∈ tp_redirects -> redirect_typed tp_routines tp_prototypes (f, m) = true).
Proof.
  destruct redirects_checked as [Hh Ht].
  split; intros Hin; [exact (redirect_ok_typed _ _ _ _ _ Hh Hin Hf)|
    exact (redirect_ok_typed _ _ _ _ _ Ht Hin Hf)].
Qed.

(** Witness: the call by which [vfs.c] registers its SQL function. *)
Lemma redirects_have_declared_types_witness :
  redirect_typed h_routines h_prototypes ("sqlite3_create_function", "create_function") = true.
Proof.
  apply (redirects_have_declared_types "sqlite3_create_function" "create_function");
    [discriminate|].
  apply (bool_decide_eq_true_1 _). vm_compute. reflexivity.
Defined.

(** ** Constants *)

Definition version_constants : list string :=
  ["SQLITE_VERSION_NUMBER"; "SQLITE_DBCONFIG_MAX"; "SQLITE_TESTCTRL_LAST"].

Definition constant_agrees (c : string * Z) : bool :=
  bool_decide (c.1 ∈ version_constants) ||
  match assoc c.1 h_constants with Some w => c.2 =? w | None => false end.

Lemma constants_checked : forallb constant_agrees tp_constants = true.
Proof. vm_compute. reflexivity. Qed.

(** Every integer constant of the older header (result codes,
    open flags, lock levels, control opcodes, ...), but for the three that
    carry the version or the end of an enumeration, has the same value in the
    newer one. *)
Theorem constants_agree (n : string) (v : Z)
  (Hin : (n, v) ∈ tp_constants) (Hn : n ∉ version_constants) :
  assoc n h_constants = Some v.
Proof.
  pose proof constants_checked as H. rewrite List.forallb_forall in H.
  apply list_elem_of_In in Hin. specialize (H _ Hin). unfold constant_agrees in H.
  apply orb_true_iff in H as [H|H]; [by apply bool_decide_eq_true in H|].
  cbn [fst snd] in H.
  destruct (assoc n h_constants) as [w|]; [|done].
  apply Z.eqb_eq in H. congruence.
Qed.

Lemma constants_agree_witness : assoc "SQLITE_IOERR_SHORT_READ" h_constants = Some 522.
Proof.
  apply (constants_agree "SQLITE_IOERR_SHORT_READ" 522).
  - apply (bool_decide_eq_true_1 _). vm_compute. reflexivity.
  - apply (bool_decide_eq_true_1 _). vm_compute. reflexivity.
Defined.
