(* ===== verification/VfsShim.v ===== *)
(** * VfsShim: the C trampolines and the Go dispatch of the SQLite VFS

    Models [third_party/sqlite3vfs/sqlite3vfs.c] and [sqlite3vfscgo.go]: SQLite
    calls a C method, the C method calls an exported Go function, and the Go
    function finds the Go object by VFS name or by file id and calls it.

    - The process-global tables ([vfsMap], [fileMap], [nextFileID]) are the
      record [shim].
    - The Go objects behind the interfaces [ExtendedVFSv1] and [File] are
      supplied by clients of the package: a record of operations over a world
      [W] (the files, the clock, the entropy source).
    - A Go panic (nil interface, out-of-range slice, broken [ReadAt] contract)
      is the outcome [Panic]. *)

From S2P Require Import Prelude.

(** ** Result codes as the Go package writes them ([error.go]) *)

Definition sqliteOK : Z := 0.
Definition GenericError : Z := 1.
Definition IOErrorShortRead : Z := 522.
Definition IOErrorWrite : Z := 778.
Definition TooBigError : Z := 18.

(** Errors a Go VFS or file returns: an [sqliteError], [io.EOF], any other. *)
Inductive verr :=
  | VSqlite (code : Z)
  | VEOF
  | VOther.

#[export] Instance verr_eq_dec : EqDecision verr.
Proof. solve_decision. Defined.

(** [errToC] *)
Definition errToC (err : verr) : Z :=
  match err with VSqlite code => wrap32 code | VEOF | VOther => GenericError end.

Inductive outcome (A : Type) :=
  | Ret (a : A)
  | Panic.
Arguments Ret {A} a.
Arguments Panic {A}.

(** ** The Go interfaces *)

Section Interfaces.
Context (W F : Type).

(** [File] (and the optional [FileController]). [ReadAt] is given the length
    of the buffer and the offset and returns the new contents of the buffer,
    the count and the error. *)
Record File := {
  f_Close : F -> W -> W * option verr;
  f_ReadAt : F -> W -> Z -> Z -> W * (list Z * Z * option verr);
  f_WriteAt : F -> W -> list Z -> Z -> W * option verr;
  f_Truncate : F -> W -> Z -> W * option verr;
  f_Sync : F -> W -> Z -> W * option verr;
  f_FileSize : F -> W -> W * (Z * option verr);
  f_Lock : F -> W -> Z -> W * option verr;
  f_Unlock : F -> W -> Z -> W * option verr;
  f_CheckReservedLock : F -> W -> W * (bool * option verr);
  f_SectorSize : F -> W -> W * Z;
  f_DeviceCharacteristics : F -> W -> W * Z;
  f_isController : F -> bool;
  f_FileControl : F -> W -> Z -> string -> option string ->
                  W * (option string * option verr);
}.

(** [ExtendedVFSv1] (and the optional [URIOpener]). Opening gives a file and
    its flags, or an error. *)
Record VFS := {
  v_isURIOpener : bool;
  v_OpenURI : string -> list (string * string) -> Z -> W -> W * res verr (F * Z);
  v_Open : string -> Z -> W -> W * res verr (F * Z);
  v_Delete : string -> bool -> W -> W * option verr;
  v_Access : string -> Z -> W -> W * (bool * option verr);
  v_FullPathname : string -> W -> string;
  v_Randomness : Z -> W -> W * (list Z * Z);
  v_Sleep : Z -> W -> W;
  v_CurrentTime : W -> Z;          (* UnixNano of the current time *)
}.
End Interfaces.
Arguments f_Close {W F}. Arguments f_ReadAt {W F}. Arguments f_WriteAt {W F}.
Arguments f_Truncate {W F}. Arguments f_Sync {W F}. Arguments f_FileSize {W F}.
Arguments f_Lock {W F}. Arguments f_Unlock {W F}. Arguments f_CheckReservedLock {W F}.
Arguments f_SectorSize {W F}. Arguments f_DeviceCharacteristics {W F}.
Arguments f_isController {W F}. Arguments f_FileControl {W F}.
Arguments v_isURIOpener {W F}. Arguments v_OpenURI {W F}. Arguments v_Open {W F}.
Arguments v_Delete {W F}. Arguments v_Access {W F}. Arguments v_FullPathname {W F}.
Arguments v_Randomness {W F}. Arguments v_Sleep {W F}. Arguments v_CurrentTime {W F}.

(** ** The memory SQLite hands to the shim *)

(** [s3vfsFile]: [base.pMethods] ([true] when it points at
    [s3vfs_io_methods]) and the Go object id. SQLite allocates it zeroed. *)
Record s3vfsFile := mkFile { pMethods : bool; id : Z }.
Definition zeroed_file : s3vfsFile := mkFile false 0.

Section Shim.
Context {W F : Type} (FI : File W F).

(** The package's globals. *)
Record shim := mkShim {
  vfsMap : gmap string (VFS W F);
  nextFileID : Z;
  fileMap : gmap Z F;
  world : W;
}.

Definition set_world (s : shim) (w : W) : shim :=
  mkShim (vfsMap s) (nextFileID s) (fileMap s) w.

(** *** Registration *)

Definition vfsFromC (s : shim) (vfsName : string) : option (VFS W F) := vfsMap s !! vfsName.

Definition UnregisterVFS (s : shim) (name : string) : shim * bool :=
  (mkShim (delete name (vfsMap s)) (nextFileID s) (fileMap s) (world s),
   bool_decide (is_Some (vfsMap s !! name))).

Definition HasVFS (s : shim) (name : string) : bool := bool_decide (is_Some (vfsMap s !! name)).

(** *** URI parameters: the loop over [sqlite3_uri_key]

    [uri_key name i] and [uri_parameter name key] are SQLite's; the loop
    ends at the first NULL key, here within [fuel] parameters. *)
Fixpoint uriParamsFromC (uri_key : nat -> option string)
    (uri_parameter : string -> option string) (fuel i : nat) : list (string * string) :=
  match fuel with
  | O => []
  | S fuel =>
      match uri_key i with
      | None => []
      | Some key =>
          (key, default "" (uri_parameter key))
            :: uriParamsFromC uri_key uri_parameter fuel (S i)
      end
  end.

(** *** Methods of the VFS *)

(** [goVFSOpen]: on success the file memory is zeroed, given the next id, and
    the object is entered in [fileMap]; on an error it is left as it was. *)
Definition goVFSOpen (s : shim) (cvfs : string) (name : string)
    (params : list (string * string)) (file : s3vfsFile) (flags : Z)
    (outFlags : option Z) : outcome (shim * s3vfsFile * option Z * Z) :=
  match vfsFromC s cvfs with
  | None => Panic
  | Some vfs =>
      let '(w, r) :=
        if v_isURIOpener vfs then v_OpenURI vfs name params flags (world s)
        else v_Open vfs name flags (world s) in
      let s := set_world s w in
      match r with
      | Err e => Ret (s, file, outFlags, errToC e)
      | Ok (f, retFlags) =>
          let outFlags :=
            match outFlags with
            | Some o => if retFlags =? 0 then Some o else Some (wrap32 retFlags)
            | None => None
            end in
          let fileID := nextFileID s in
          Ret (mkShim (vfsMap s) (wrapu64 (nextFileID s + 1)) (<[fileID := f]> (fileMap s)) w,
               mkFile false fileID, outFlags, sqliteOK)
      end
  end.

(** [s3vfsOpen] (C): the method table is installed whatever the result. *)
Definition s3vfsOpen (s : shim) (cvfs name : string) (params : list (string * string))
    (file : s3vfsFile) (flags : Z) (outFlags : option Z)
    : outcome (shim * s3vfsFile * option Z * Z) :=
  match goVFSOpen s cvfs name params file flags outFlags with
  | Panic => Panic
  | Ret (s, file, outFlags, ret) => Ret (s, mkFile true (id file), outFlags, ret)
  end.

Definition goVFSDelete (s : shim) (cvfs zName : string) (syncDir : Z) : outcome (shim * Z) :=
  match vfsFromC s cvfs with
  | None => Panic
  | Some vfs =>
      let '(w, err) := v_Delete vfs zName (0 <? syncDir) (world s) in
      Ret (set_world s w, match err with Some e => errToC e | None => sqliteOK end)
  end.

(** [*pResOut] is written before the error is looked at. *)
Definition goVFSAccess (s : shim) (cvfs zName : string) (flags : Z) : outcome (shim * Z * Z) :=
  match vfsFromC s cvfs with
  | None => Panic
  | Some vfs =>
      let '(w, (ok, err)) := v_Access vfs zName flags (world s) in
      let pResOut := if ok : bool then 1 else 0 in
      Ret (set_world s w, pResOut, match err with Some e => errToC e | None => sqliteOK end)
  end.

(** [goVFSFullPathname]: [zOut] has room for [nOut] bytes. The result is the
    bytes copied into it (with the terminating NUL), if any. *)
Definition goVFSFullPathname (s : shim) (cvfs zName : string) (nOut : Z)
    : outcome (option string * Z) :=
  match vfsFromC s cvfs with
  | None => Panic
  | Some vfs =>
      let path := v_FullPathname vfs zName (world s) in
      if nOut <=? Z.of_nat (String.length path) + 1 then Ret (None, TooBigError)
      else Ret (Some (path +:+ String Ascii.zero EmptyString), sqliteOK)
  end.

(** The slice expression over a C buffer: [2^28] bytes at most. *)
Definition slice_ok (n : Z) : bool := (0 <=? n) && (n <=? 268435456).

Definition goVFSRandomness (s : shim) (cvfs : string) (nByte : Z) : outcome (shim * list Z * Z) :=
  match vfsFromC s cvfs with
  | None => Panic
  | Some vfs =>
      if negb (slice_ok nByte) then Panic else
      let '(w, (buf, count)) := v_Randomness vfs nByte (world s) in
      Ret (set_world s w, buf, wrap32 count)
  end.

Definition goVFSSleep (s : shim) (cvfs : string) (microseconds : Z) : outcome (shim * Z) :=
  match vfsFromC s cvfs with
  | None => Panic
  | Some vfs =>
      Ret (set_world s (v_Sleep vfs (microseconds * 1000) (world s)), sqliteOK)
  end.

(** Milliseconds since the Julian epoch; Go division truncates. *)
Definition goVFSCurrentTimeInt64 (s : shim) (cvfs : string) : outcome (Z * Z) :=
  match vfsFromC s cvfs with
  | None => Panic
  | Some vfs =>
      let unixEpoch := 24405875 * 8640000 in
      Ret (wrap64 (unixEpoch + Z.quot (v_CurrentTime vfs (world s)) 1000000), sqliteOK)
  end.

(** *** Methods of a file *)

(** [goVFSClose]: the id is forgotten before the object is closed. *)
Definition goVFSClose (s : shim) (cfile : s3vfsFile) : shim * Z :=
  let file := fileMap s !! id cfile in
  let s := mkShim (vfsMap s) (nextFileID s) (delete (id cfile) (fileMap s)) (world s) in
  match file with
  | None => (s, GenericError)
  | Some f =>
      let '(w, err) := f_Close FI f (world s) in
      (set_world s w, match err with Some e => errToC e | None => sqliteOK end)
  end.

(** The bytes left in SQLite's buffer: the unread part is zeroed. *)
Definition zero_fill (buf : list Z) (n : Z) : list Z :=
  take (Z.to_nat n) buf ++ replicate (length buf - Z.to_nat n) 0.

(** [goVFSRead] of [iAmt] bytes: the new buffer contents and the code. *)
Definition goVFSRead (s : shim) (cfile : s3vfsFile) (iAmt iOfst : Z)
    : outcome (shim * option (list Z) * Z) :=
  match fileMap s !! id cfile with
  | None => Ret (s, None, GenericError)
  | Some f =>
      if negb (slice_ok iAmt) then Panic else
      let '(w, (buf, n, err)) := f_ReadAt FI f (world s) iAmt iOfst in
      let s := set_world s w in
      let short := n <? iAmt in
      if short && bool_decide (err = None) then Panic else
      let buf := if short then zero_fill buf n else buf in
      match err with
      | Some VEOF => Ret (s, Some buf, IOErrorShortRead)
      | Some e => Ret (s, Some buf, errToC e)
      | None => Ret (s, Some buf, sqliteOK)
      end
  end.

(** [goVFSWrite]: any error of the file becomes [IOErrorWrite]. *)
Definition goVFSWrite (s : shim) (cfile : s3vfsFile) (buf : list Z) (iOfst : Z)
    : outcome (shim * Z) :=
  match fileMap s !! id cfile with
  | None => Ret (s, GenericError)
  | Some f =>
      if negb (slice_ok (Z.of_nat (length buf))) then Panic else
      let '(w, err) := f_WriteAt FI f (world s) buf iOfst in
      Ret (set_world s w, match err with Some _ => IOErrorWrite | None => sqliteOK end)
  end.

(** The common shape of Truncate, Sync, Lock and Unlock. *)
Definition file_op (op : F -> W -> W * option verr) (s : shim) (cfile : s3vfsFile) : shim * Z :=
  match fileMap s !! id cfile with
  | None => (s, GenericError)
  | Some f =>
      let '(w, err) := op f (world s) in
      (set_world s w, match err with Some e => errToC e | None => sqliteOK end)
  end.

Definition goVFSTruncate s cfile size := file_op (fun f w => f_Truncate FI f w size) s cfile.
Definition goVFSSync s cfile flags := file_op (fun f w => f_Sync FI f w flags) s cfile.
Definition goVFSLock s cfile eLock := file_op (fun f w => f_Lock FI f w eLock) s cfile.
Definition goVFSUnlock s cfile eLock := file_op (fun f w => f_Unlock FI f w eLock) s cfile.

(** [goVFSFileSize]: [*pSize] is written on success only. *)
Definition goVFSFileSize (s : shim) (cfile : s3vfsFile) : shim * option Z * Z :=
  match fileMap s !! id cfile with
  | None => (s, None, GenericError)
  | Some f =>
      let '(w, (n, err)) := f_FileSize FI f (world s) in
      match err with
      | Some e => (set_world s w, None, errToC e)
      | None => (set_world s w, Some n, sqliteOK)
      end
  end.

(** [goVFSCheckReservedLock]: [*pResOut] is 0 when the file is locked. *)
Definition goVFSCheckReservedLock (s : shim) (cfile : s3vfsFile) : shim * option Z * Z :=
  match fileMap s !! id cfile with
  | None => (s, None, GenericError)
  | Some f =>
      let '(w, (locked, err)) := f_CheckReservedLock FI f (world s) in
      match err with
      | Some e => (set_world s w, None, errToC e)
      | None => (set_world s w, Some (if locked : bool then 0 else 1), sqliteOK)
      end
  end.

Definition goVFSSectorSize (s : shim) (cfile : s3vfsFile) : shim * Z :=
  match fileMap s !! id cfile with
  | None => (s, 1024)
  | Some f => let '(w, n) := f_SectorSize FI f (world s) in (set_world s w, wrap32 n)
  end.

Definition goVFSDeviceCharacteristics (s : shim) (cfile : s3vfsFile) : shim * Z :=
  match fileMap s !! id cfile with
  | None => (s, 0)
  | Some f => let '(w, n) := f_DeviceCharacteristics FI f (world s) in (set_world s w, wrap32 n)
  end.

(** [goVFSFileControl]: only [SQLITE_FCNTL_PRAGMA] (14) is handled. [name]
    and [value] are the second and third pointers of the argument array; the
    result is the string stored in its first slot, if any. *)
Definition SQLITE_NOTFOUND : Z := 12.
Definition SQLITE_FCNTL_PRAGMA : Z := 14.

Definition goVFSFileControl (s : shim) (cfile : s3vfsFile) (op : Z)
    (name value : option string) : shim * option string * Z :=
  match fileMap s !! id cfile with
  | None => (s, None, SQLITE_NOTFOUND)
  | Some f =>
      if negb (op =? SQLITE_FCNTL_PRAGMA) then (s, None, SQLITE_NOTFOUND) else
      if negb (f_isController FI f) then (s, None, SQLITE_NOTFOUND) else
      match name with
      | None => (s, None, SQLITE_NOTFOUND)
      | Some n =>
          let '(w, (result, err)) := f_FileControl FI f (world s) op n value in
          match err with
          | Some e => (set_world s w, None, errToC e)
          | None => (set_world s w, result, sqliteOK)
          end
      end
  end.

(** ** Sequences of calls

    The calls SQLite makes on the shim, as one step function. *)
Inductive call :=
  | CallOpen (cvfs name : string) (params : list (string * string))
             (mem : s3vfsFile) (flags : Z) (outFlags : option Z)
  | CallClose (h : s3vfsFile)
  | CallRead (h : s3vfsFile) (iAmt iOfst : Z)
  | CallWrite (h : s3vfsFile) (buf : list Z) (iOfst : Z)
  | CallTruncate (h : s3vfsFile) (size : Z)
  | CallSync (h : s3vfsFile) (flags : Z)
  | CallFileSize (h : s3vfsFile)
  | CallLock (h : s3vfsFile) (eLock : Z)
  | CallUnlock (h : s3vfsFile) (eLock : Z)
  | CallCheckReservedLock (h : s3vfsFile)
  | CallSectorSize (h : s3vfsFile)
  | CallDeviceCharacteristics (h : s3vfsFile)
  | CallFileControl (h : s3vfsFile) (op : Z) (name value : option string)
  | CallDelete (cvfs name : string) (syncDir : Z)
  | CallAccess (cvfs name : string) (flags : Z)
  | CallRandomness (cvfs : string) (nByte : Z)
  | CallSleep (cvfs : string) (microseconds : Z)
  | CallUnregister (name : string).

Definition out_map {A} (f : A -> shim) (o : outcome A) : outcome shim :=
  match o with Ret a => Ret (f a) | Panic => Panic end.

Definition run_call (s : shim) (c : call) : outcome shim :=
  match c with
  | CallOpen v n ps mem fl out => out_map (fun r => r.1.1.1) (s3vfsOpen s v n ps mem fl out)
  | CallClose h => Ret (goVFSClose s h).1
  | CallRead h n o => out_map (fun r => r.1.1) (goVFSRead s h n o)
  | CallWrite h b o => out_map fst (goVFSWrite s h b o)
  | CallTruncate h n => Ret (goVFSTruncate s h n).1
  | CallSync h fl => Ret (goVFSSync s h fl).1
  | CallFileSize h => Ret (goVFSFileSize s h).1.1
  | CallLock h l => Ret (goVFSLock s h l).1
  | CallUnlock h l => Ret (goVFSUnlock s h l).1
  | CallCheckReservedLock h => Ret (goVFSCheckReservedLock s h).1.1
  | CallSectorSize h => Ret (goVFSSectorSize s h).1
  | CallDeviceCharacteristics h => Ret (goVFSDeviceCharacteristics s h).1
  | CallFileControl h op n v => Ret (goVFSFileControl s h op n v).1.1
  | CallDelete v n d => out_map fst (goVFSDelete s v n d)
  | CallAccess v n fl => out_map (fun r => r.1.1) (goVFSAccess s v n fl)
  | CallRandomness v n => out_map (fun r => r.1.1) (goVFSRandomness s v n)
  | CallSleep v us => out_map fst (goVFSSleep s v us)
  | CallUnregister n => Ret (UnregisterVFS s n).1
  end.

Fixpoint run_calls (s : shim) (cs : list call) : outcome shim :=
  match cs with
  | [] => Ret s
  | c :: cs => match run_call s c with Ret s => run_calls s cs | Panic => Panic end
  end.

Definition closes (h : s3vfsFile) (c : call) : bool :=
  match c with CallClose h' => id h' =? id h | _ => false end.

(** *** Invariant: every id in use was issued by the counter *)

Definition shim_wf (s : shim) : Prop :=
  0 <= nextFileID s /\ forall i, is_Some (fileMap s !! i) -> 0 <= i < nextFileID s.

Definition new_shim (w : W) : shim := mkShim ∅ 0 ∅ w.

(** What one call may do to the file table. *)
Inductive table_step (s s' : shim) (c : call) : Prop :=
  | TSame : fileMap s' = fileMap s -> nextFileID s' = nextFileID s -> table_step s s' c
  | TOpen f : fileMap s' = <[nextFileID s := f]> (fileMap s) ->
      nextFileID s' = wrapu64 (nextFileID s + 1) -> table_step s s' c
  | TClose h : c = CallClose h -> fileMap s' = delete (id h) (fileMap s) ->
      nextFileID s' = nextFileID s -> table_step s s' c.

Lemma run_call_table s c s' : run_call s c = Ret s' -> table_step s s' c.
Proof.
  destruct c; simpl;
    unfold s3vfsOpen, goVFSOpen, goVFSClose, goVFSRead, goVFSWrite, goVFSTruncate,
      goVFSSync, goVFSFileSize, goVFSLock, goVFSUnlock, goVFSCheckReservedLock,
      goVFSSectorSize, goVFSDeviceCharacteristics, goVFSFileControl, goVFSDelete,
      goVFSAccess, goVFSRandomness, goVFSSleep, file_op, out_map;
    intros H; simplify_eq/=; repeat (case_match; simplify_eq/=);
    first [by apply TSame | by eapply TOpen | by eapply TClose].
Qed.

Lemma run_call_wf s c s' :
  shim_wf s -> nextFileID s < two64 - 1 -> run_call s c = Ret s' ->
  shim_wf s' /\ nextFileID s <= nextFileID s' <= nextFileID s + 1.
Proof.
  intros [H0 Hs] Hn Hrun. destruct (run_call_table _ _ _ Hrun) as [Hf Hi|f Hf Hi|h _ Hf Hi];
    unfold shim_wf; rewrite Hf, Hi; rewrite ?wrapu64_id by (unfold two64 in *; lia).
  - split; [split; [lia|exact Hs]|lia].
  - split; [|lia]. split; [lia|]. intros i Hi'.
    destruct (decide (i = nextFileID s)) as [->|Hne]; [lia|].
    rewrite lookup_insert_ne in Hi' by done. apply Hs in Hi'. lia.
  - split; [|lia]. split; [lia|]. intros i [g Hg].
    apply lookup_delete_Some in Hg as [_ Hg]. eauto.
Qed.

(** A handle resolves to the object it was opened on for as long as it is not
    itself closed: whatever sequence of calls runs on other handles and
    names (fewer than [2^64] opens), no other call rebinds or drops its id. *)
Theorem handle_isolated (cs : list call) (s s' : shim) (h : s3vfsFile) (f : F)
    (Hwf : shim_wf s) (Hn : nextFileID s + Z.of_nat (length cs) < two64)
    (Hh : fileMap s !! id h = Some f)
    (Hnc : forallb (fun c => negb (closes h c)) cs = true)
    (Hrun : run_calls s cs = Ret s') :
  fileMap s' !! id h = Some f.
Proof.
  revert s Hwf Hn Hh Hrun. induction cs as [|c cs IH]; intros s Hwf Hn Hh Hrun; simpl in *.
  { by simplify_eq. }
  apply andb_true_iff in Hnc as [Hc Hcs].
  destruct (run_call s c) as [s1|] eqn:Hs1; [|done].
  destruct (run_call_wf _ _ _ Hwf ltac:(lia) Hs1) as [Hwf1 Hle].
  apply (IH Hcs s1 Hwf1); [lia| |done].
  destruct (run_call_table _ _ _ Hs1) as [Hf _|g Hf _|h' -> Hf _]; rewrite Hf.
  - done.
  - rewrite lookup_insert_ne; [done|]. destruct Hwf as [_ Hwf].
    specialize (Hwf (id h) (mk_is_Some _ _ Hh)). lia.
  - rewrite lookup_delete_ne; [done|]. simpl in Hc. bool_prop. done.
Qed.

(** The contract [File.ReadAt] documents: at most [len(p)] bytes are read, and
    a short read carries an error. *)
Definition readat_contract : Prop :=
  forall f w amt ofs w' buf n err,
    0 <= amt -> f_ReadAt FI f w amt ofs = (w', (buf, n, err)) ->
    0 <= n <= amt /\ length buf = Z.to_nat amt /\ (n < amt -> err <> None).

Lemma zero_fill_length buf n : length (zero_fill buf n) = length buf.
Proof. unfold zero_fill. rewrite length_app, length_take, length_replicate. lia. Qed.

Lemma zero_fill_lookup buf n i :
  (i < length buf)%nat ->
  zero_fill buf n !! i = if decide (i < Z.to_nat n)%nat then buf !! i else Some 0.
Proof.
  intros Hi. unfold zero_fill. case_decide.
  - rewrite lookup_app_l by (rewrite length_take; lia). by rewrite lookup_take_lt.
  - rewrite lookup_app_r by (rewrite length_take; lia).
    apply lookup_replicate_2. rewrite length_take. lia.
Qed.

Lemma read_buffer buf n amt :
  0 <= n <= amt -> length buf = Z.to_nat amt ->
  let out := if n <? amt then zero_fill buf n else buf in
  length out = Z.to_nat amt /\
  (forall i, (i < Z.to_nat n)%nat -> out !! i = buf !! i) /\
  (forall i, (Z.to_nat n <= i < Z.to_nat amt)%nat -> out !! i = Some 0).
Proof.
  intros Hn Hlen. simpl. destruct (Z.ltb_spec n amt); [rewrite zero_fill_length|];
    (split; [done|]; split; intros i Hi); try (rewrite zero_fill_lookup by lia; case_decide);
    done || lia.
Qed.

(** A read of a well-behaved file never panics. It leaves the whole
    buffer defined: the bytes the file gave, then zeros; the code is OK only
    when the buffer was filled without an error, [SQLITE_IOERR_SHORT_READ]
    exactly when the file ended, and the file's own code otherwise. *)
Theorem read_contract (s : shim) (h : s3vfsFile) (iAmt iOfst : Z) (f : F) w' buf n err
    (HF : readat_contract) (Hamt : 0 <= iAmt <= 268435456)
    (Hh : fileMap s !! id h = Some f)
    (Hread : f_ReadAt FI f (world s) iAmt iOfst = (w', (buf, n, err))) :
  exists out rc, goVFSRead s h iAmt iOfst = Ret (set_world s w', Some out, rc) /\
    length out = Z.to_nat iAmt /\
    (forall i, (i < Z.to_nat n)%nat -> out !! i = buf !! i) /\
    (forall i, (Z.to_nat n <= i < Z.to_nat iAmt)%nat -> out !! i = Some 0) /\
    rc = match err with
         | None => sqliteOK | Some VEOF => IOErrorShortRead | Some e => errToC e end /\
    (err = None -> n = iAmt).
Proof.
  destruct (HF _ _ _ _ _ _ _ _ (proj1 Hamt) Hread) as (Hn & Hlen & Hshort).
  unfold goVFSRead. rewrite Hh, Hread. unfold slice_ok.
  rewrite (proj2 (Z.leb_le 0 iAmt)), (proj2 (Z.leb_le iAmt 268435456)) by lia. simpl.
  destruct (read_buffer buf n iAmt Hn Hlen) as (Hl & Htake & Hzero).
  exists (if n <? iAmt then zero_fill buf n else buf).
  destruct (n <? iAmt) eqn:Hs; bool_prop;
    destruct err as [[]|]; simpl; try (by destruct (Hshort ltac:(lia)));
    eexists; repeat split; eauto; intros; lia || done.
Qed.

(** [xFullPathname] never writes past the caller's buffer: what it copies,
    with its NUL, is strictly shorter than [nOut]; a path that does not fit
    is refused with [SQLITE_TOOBIG] and nothing is written. *)
Theorem fullpathname_bounds (s : shim) (cvfs zName : string) (nOut : Z) (vfs : VFS W F)
    (Hv : vfsMap s !! cvfs = Some vfs) :
  let len := Z.of_nat (String.length (v_FullPathname vfs zName (world s))) in
  (len + 1 < nOut ->
     exists out, goVFSFullPathname s cvfs zName nOut = Ret (Some out, sqliteOK) /\
       Z.of_nat (String.length out) = len + 1 /\ Z.of_nat (String.length out) < nOut) /\
  (nOut <= len + 1 -> goVFSFullPathname s cvfs zName nOut = Ret (None, TooBigError)).
Proof.
  intros len. unfold goVFSFullPathname, vfsFromC. rewrite Hv. fold len.
  destruct (Z.leb_spec nOut (len + 1)); split; intros Hl; try lia; [done|].
  eexists. split; [done|]. rewrite string_length_app. cbn [String.length]. unfold len in *. lia.
Qed.

(** When the Go open fails, the C wrapper still installs the method table and
    leaves the id the memory held before. SQLite then calls [xClose] (its
    header: only a NULL [pMethods] prevents that), which closes and forgets
    whatever file that stale id names: with zeroed memory, file 0. *)
Theorem failed_open_closes_other_file (s : shim) (vfs : VFS W F) (f : F)
    (cvfs name : string) params (mem : s3vfsFile) flags out w e
    (Hv : vfsMap s !! cvfs = Some vfs)
    (Hopen : (if v_isURIOpener vfs then v_OpenURI vfs name params flags (world s)
              else v_Open vfs name flags (world s)) = (w, Err e))
    (Hother : fileMap s !! id mem = Some f) :
  exists mem' s1, s3vfsOpen s cvfs name params mem flags out = Ret (s1, mem', out, errToC e) /\
    pMethods mem' = true /\
    fileMap s1 !! id mem = Some f /\
    fileMap (goVFSClose s1 mem').1 !! id mem = None.
Proof.
  unfold s3vfsOpen, goVFSOpen, vfsFromC. rewrite Hv, Hopen.
  eexists _, _. split; [reflexivity|]. split; [done|]. split; [done|].
  unfold goVFSClose. simpl. rewrite Hother.
  destruct (f_Close FI f w). apply lookup_delete_eq.
Qed.

(** [xCheckReservedLock] reports the opposite of what the file answers: 0
    for a file some connection holds a RESERVED lock on, 1 for a free one. *)
Theorem check_reserved_lock_inverted (s : shim) (h : s3vfsFile) (f : F) w locked
    (Hh : fileMap s !! id h = Some f)
    (Hc : f_CheckReservedLock FI f (world s) = (w, (locked, None))) :
  goVFSCheckReservedLock s h =
    (set_world s w, Some (if locked then 0 else 1), sqliteOK).
Proof. unfold goVFSCheckReservedLock. by rewrite Hh, Hc. Qed.

(** Closing works once: the object is closed by the first call, and any
    later call on the same handle, before an open reuses it, answers
    [SQLITE_ERROR] and touches nothing. *)
Theorem close_once (s s1 : shim) (h : s3vfsFile) (f : F) rc
    (Hh : fileMap s !! id h = Some f) (Hc : goVFSClose s h = (s1, rc)) :
  world s1 = (f_Close FI f (world s)).1 /\ fileMap s1 = delete (id h) (fileMap s) /\
  goVFSClose s1 h = (s1, GenericError).
Proof.
  unfold goVFSClose in *. rewrite Hh in Hc. simpl in Hc.
  destruct (f_Close FI f (world s)) as [w e]. simplify_eq/=.
  repeat split. rewrite lookup_delete_eq. by rewrite delete_delete_eq.
Qed.
End Shim.

(** ** A concrete instance: files held in memory, on which the theorems run *)

Module MemFS.
Definition World := gmap Z (list Z).

Definition content (w : World) (k : Z) : list Z := default [] (w !! k).

Definition ReadAt (k : Z) (w : World) (amt ofs : Z) : World * (list Z * Z * option verr) :=
  let got := take (Z.to_nat amt) (drop (Z.to_nat ofs) (content w k)) in
  let n := Z.of_nat (length got) in
  (w, (got ++ replicate (Z.to_nat amt - length got) 255, n,
       if n <? amt then Some VEOF else None)).

Definition file_impl : File World Z := {|
  f_Close k w := (delete k w, None);
  f_ReadAt := ReadAt;
  f_WriteAt k w buf ofs := (<[k := take (Z.to_nat ofs) (content w k) ++ buf]> w, None);
  f_Truncate k w size := (<[k := take (Z.to_nat size) (content w k)]> w, None);
  f_Sync _ w _ := (w, None);
  f_FileSize k w := (w, (Z.of_nat (length (content w k)), None));
  f_Lock _ w _ := (w, None);
  f_Unlock _ w _ := (w, None);
  f_CheckReservedLock _ w := (w, (true, None));
  f_SectorSize _ w := (w, 0);
  f_DeviceCharacteristics _ w := (w, 0);
  f_isController _ := false;
  f_FileControl _ w _ _ _ := (w, (None, None));
|}.

(** Opening the name "missing" fails with SQLITE_CANTOPEN. *)
Definition vfs_impl : VFS World Z := {|
  v_isURIOpener := false;
  v_OpenURI _ _ _ w := (w, Err (VSqlite 14));
  v_Open name flags w :=
    if String.eqb name "missing" then (w, Err (VSqlite 14)) else (w, Ok (7, flags));
  v_Delete _ _ w := (w, None);
  v_Access _ _ w := (w, (true, None));
  v_FullPathname name _ := name;
  v_Randomness n w := (w, (replicate (Z.to_nat n) 0, n));
  v_Sleep _ w := w;
  v_CurrentTime _ := 0;
|}.

Lemma readat_ok : readat_contract file_impl.
Proof.
  intros f w amt ofs w' buf n err Hamt H. simpl in H. unfold ReadAt in H. simplify_eq.
  rewrite length_app, length_replicate, length_take.
  split; [lia|]. split; [lia|]. intros Hlt.
  by rewrite (proj2 (Z.ltb_lt _ _) Hlt).
Qed.

(** Files 0 and 1 are open on the objects 7 and 8. *)
Definition state0 : shim (W := World) (F := Z) :=
  mkShim {["mem" := vfs_impl]} 2 {[0 := 7; 1 := 8]} {[7 := [1; 2; 3]; 8 := [9]]}.

Lemma state0_wf : shim_wf state0.
Proof.
  split; [done|]. unfold state0. cbn [fileMap nextFileID]. intros i [f Hf].
  apply lookup_insert_Some in Hf as [[<- _]|[_ Hf]]; [done|].
  apply lookup_singleton_Some in Hf as [<- _]. done.
Qed.
End MemFS.

Lemma handle_isolated_witness :
  exists s', run_calls MemFS.file_impl MemFS.state0
    [CallOpen "mem" "a.db" [] zeroed_file 2 None; CallClose (mkFile true 1);
     CallRead (mkFile true 0) 2 0] = Ret s' /\ fileMap s' !! 0 = Some 7.
Proof.
  eexists. split; [reflexivity|].
  refine (handle_isolated MemFS.file_impl _ MemFS.state0 _ (mkFile true 0) 7 _ _ _ _
    (eq_refl (run_calls MemFS.file_impl MemFS.state0
       [CallOpen "mem" "a.db" [] zeroed_file 2 None; CallClose (mkFile true 1);
        CallRead (mkFile true 0) 2 0]))).
  - exact MemFS.state0_wf.
  - vm_compute. reflexivity.
  - reflexivity.
  - reflexivity.
Defined.

Lemma read_contract_witness :
  exists out rc, goVFSRead MemFS.file_impl MemFS.state0 (mkFile true 0) 5 1 =
    Ret (set_world MemFS.state0 (world MemFS.state0), Some out, rc) /\ rc = IOErrorShortRead.
Proof.
  destruct (read_contract MemFS.file_impl MemFS.state0 (mkFile true 0) 5 1 7
    (world MemFS.state0) [2; 3; 255; 255; 255] 2 (Some VEOF)
    MemFS.readat_ok ltac:(lia) eq_refl eq_refl) as (out & rc & H & _ & _ & _ & Hrc & _).
  exists out, rc. split; [exact H|exact Hrc].
Defined.

Lemma fullpathname_bounds_witness :
  goVFSFullPathname MemFS.state0 "mem" "abc" 4 = Ret (None, TooBigError) /\
  exists out, goVFSFullPathname MemFS.state0 "mem" "abc" 5 = Ret (Some out, sqliteOK).
Proof.
  split.
  - apply (fullpathname_bounds MemFS.state0 "mem" "abc" 4 MemFS.vfs_impl eq_refl). reflexivity.
  - destruct (proj1 (fullpathname_bounds MemFS.state0 "mem" "abc" 5 MemFS.vfs_impl eq_refl)
      ltac:(reflexivity)) as (out & H & _). exists out. exact H.
Defined.

Lemma failed_open_closes_other_file_witness :
  exists mem' s1, s3vfsOpen MemFS.state0 "mem" "missing" [] zeroed_file 2 None
      = Ret (s1, mem', None, 14) /\
    fileMap (goVFSClose MemFS.file_impl s1 mem').1 !! 0 = None.
Proof.
  destruct (failed_open_closes_other_file MemFS.file_impl MemFS.state0
    MemFS.vfs_impl 7 "mem" "missing" [] zeroed_file 2 None (world MemFS.state0) (VSqlite 14)
    eq_refl eq_refl eq_refl) as (mem' & s1 & H & _ & _ & Hc).
  exists mem', s1. split; [exact H|exact Hc].
Defined.

Lemma check_reserved_lock_inverted_witness :
  (goVFSCheckReservedLock MemFS.file_impl MemFS.state0 (mkFile true 0)).1.2 = Some 0.
Proof.
  rewrite (check_reserved_lock_inverted MemFS.file_impl MemFS.state0 (mkFile true 0) 7
    (world MemFS.state0) true eq_refl eq_refl). reflexivity.
Defined.

Lemma close_once_witness :
  let s1 := (goVFSClose MemFS.file_impl MemFS.state0 (mkFile true 0)).1 in
  goVFSClose MemFS.file_impl s1 (mkFile true 0) = (s1, GenericError).
Proof.
  exact (proj2 (proj2 (close_once MemFS.file_impl MemFS.state0
    (goVFSClose MemFS.file_impl MemFS.state0 (mkFile true 0)).1 (mkFile true 0) 7 0
    eq_refl eq_refl))).
Defined.
