(* ===== verification/VfsTables.v ===== *)
(** * VfsTables: the method tables of the VFS shim

    Transcribes the declarations of [sqlite3vfs.h], the [extern] Go exports and
    the trampolines of [sqlite3vfs.c], the positional initialiser
    [s3vfs_io_methods] and [s3vfsNew], and checks that every method SQLite
    finds in a table is the one the slot is for. C checks neither: many slots
    have the same function type. *)

From S2P Require Import Prelude CAbi SqliteHeader VendorHeader AbiAgreement VfsShim.

(** ** Declarations *)

(** The Go functions [sqlite3vfs.c] imports. *)
Definition go_exports : list (string * ctype) :=
  [("goVFSOpen", TFun (TName "int") [TPtr (TName "sqlite3_vfs"); TPtr (TConst (TName "char")); TPtr (TName "sqlite3_file"); TName "int"; TPtr (TName "int")]);
   ("goVFSDelete", TFun (TName "int") [TPtr (TName "sqlite3_vfs"); TPtr (TConst (TName "char")); TName "int"]);
   ("goVFSAccess", TFun (TName "int") [TPtr (TName "sqlite3_vfs"); TPtr (TConst (TName "char")); TName "int"; TPtr (TName "int")]);
   ("goVFSFullPathname", TFun (TName "int") [TPtr (TName "sqlite3_vfs"); TPtr (TConst (TName "char")); TName "int"; TPtr (TName "char")]);
   ("goVFSRandomness", TFun (TName "int") [TPtr (TName "sqlite3_vfs"); TName "int"; TPtr (TName "char")]);
   ("goVFSSleep", TFun (TName "int") [TPtr (TName "sqlite3_vfs"); TName "int"]);
   ("goVFSCurrentTimeInt64", TFun (TName "int") [TPtr (TName "sqlite3_vfs"); TPtr (TName "sqlite3_int64")]);
   ("goVFSClose", TFun (TName "int") [TPtr (TName "sqlite3_file")]);
   ("goVFSRead", TFun (TName "int") [TPtr (TName "sqlite3_file"); TPtr (TName "void"); TName "int"; TName "sqlite3_int64"]);
   ("goVFSWrite", TFun (TName "int") [TPtr (TName "sqlite3_file"); TPtr (TConst (TName "void")); TName "int"; TName "sqlite3_int64"]);
   ("goVFSTruncate", TFun (TName "int") [TPtr (TName "sqlite3_file"); TName "sqlite3_int64"]);
   ("goVFSSync", TFun (TName "int") [TPtr (TName "sqlite3_file"); TName "int"]);
   ("goVFSFileSize", TFun (TName "int") [TPtr (TName "sqlite3_file"); TPtr (TName "sqlite3_int64")]);
   ("goVFSLock", TFun (TName "int") [TPtr (TName "sqlite3_file"); TName "int"]);
   ("goVFSUnlock", TFun (TName "int") [TPtr (TName "sqlite3_file"); TName "int"]);
   ("goVFSCheckReservedLock", TFun (TName "int") [TPtr (TName "sqlite3_file"); TPtr (TName "int")]);
   ("goVFSSectorSize", TFun (TName "int") [TPtr (TName "sqlite3_file")]);
   ("goVFSDeviceCharacteristics", TFun (TName "int") [TPtr (TName "sqlite3_file")]);
   ("goVFSFileControl", TFun (TName "int") [TPtr (TName "sqlite3_file"); TName "int"; TPtr (TName "void")])].

(** The C functions [sqlite3vfs.h] declares. *)
Definition shim_protos : list (string * ctype) :=
  [("s3vfsNew", TFun (TName "int") [TPtr (TName "char"); TName "int"]);
   ("s3vfsClose", TFun (TName "int") [TPtr (TName "sqlite3_file")]);
   ("s3vfsRead", TFun (TName "int") [TPtr (TName "sqlite3_file"); TPtr (TName "void"); TName "int"; TName "sqlite3_int64"]);
   ("s3vfsWrite", TFun (TName "int") [TPtr (TName "sqlite3_file"); TPtr (TConst (TName "void")); TName "int"; TName "sqlite3_int64"]);
   ("s3vfsTruncate", TFun (TName "int") [TPtr (TName "sqlite3_file"); TName "sqlite3_int64"]);
   ("s3vfsSync", TFun (TName "int") [TPtr (TName "sqlite3_file"); TName "int"]);
   ("s3vfsFileSize", TFun (TName "int") [TPtr (TName "sqlite3_file"); TPtr (TName "sqlite3_int64")]);
   ("s3vfsLock", TFun (TName "int") [TPtr (TName "sqlite3_file"); TName "int"]);
   ("s3vfsUnlock", TFun (TName "int") [TPtr (TName "sqlite3_file"); TName "int"]);
   ("s3vfsCheckReservedLock", TFun (TName "int") [TPtr (TName "sqlite3_file"); TPtr (TName "int")]);
   ("s3vfsFileControl", TFun (TName "int") [TPtr (TName "sqlite3_file"); TName "int"; TPtr (TName "void")]);
   ("s3vfsSectorSize", TFun (TName "int") [TPtr (TName "sqlite3_file")]);
   ("s3vfsDeviceCharacteristics", TFun (TName "int") [TPtr (TName "sqlite3_file")]);
   ("s3vfsShmMap", TFun (TName "int") [TPtr (TName "sqlite3_file"); TName "int"; TName "int"; TName "int"; TPtr (TPtr (TVolatile (TName "void")))]);
   ("s3vfsShmLock", TFun (TName "int") [TPtr (TName "sqlite3_file"); TName "int"; TName "int"; TName "int"]);
   ("s3vfsShmBarrier", TFun (TName "void") [TPtr (TName "sqlite3_file")]);
   ("s3vfsShmUnmap", TFun (TName "int") [TPtr (TName "sqlite3_file"); TName "int"]);
   ("s3vfsFetch", TFun (TName "int") [TPtr (TName "sqlite3_file"); TName "sqlite3_int64"; TName "int"; TPtr (TPtr (TName "void"))]);
   ("s3vfsUnfetch", TFun (TName "int") [TPtr (TName "sqlite3_file"); TName "sqlite3_int64"; TPtr (TName "void")]);
   ("s3vfsOpen", TFun (TName "int") [TPtr (TName "sqlite3_vfs"); TPtr (TConst (TName "char")); TPtr (TName "sqlite3_file"); TName "int"; TPtr (TName "int")]);
   ("s3vfsDelete", TFun (TName "int") [TPtr (TName "sqlite3_vfs"); TPtr (TConst (TName "char")); TName "int"]);
   ("s3vfsAccess", TFun (TName "int") [TPtr (TName "sqlite3_vfs"); TPtr (TConst (TName "char")); TName "int"; TPtr (TName "int")]);
   ("s3vfsFullPathname", TFun (TName "int") [TPtr (TName "sqlite3_vfs"); TPtr (TConst (TName "char")); TName "int"; TPtr (TName "char")]);
   ("s3vfsDlOpen", TFun (TPtr (TName "void")) [TPtr (TName "sqlite3_vfs"); TPtr (TConst (TName "char"))]);
   ("s3vfsDlError", TFun (TName "void") [TPtr (TName "sqlite3_vfs"); TName "int"; TPtr (TName "char")]);
   ("s3vfsDlSym", TFun (TPtr (TFun (TName "void") [])) [TPtr (TName "sqlite3_vfs"); TPtr (TName "void"); TPtr (TConst (TName "char"))]);
   ("s3vfsDlClose", TFun (TName "void") [TPtr (TName "sqlite3_vfs"); TPtr (TName "void")]);
   ("s3vfsRandomness", TFun (TName "int") [TPtr (TName "sqlite3_vfs"); TName "int"; TPtr (TName "char")]);
   ("s3vfsSleep", TFun (TName "int") [TPtr (TName "sqlite3_vfs"); TName "int"]);
   ("s3vfsCurrentTime", TFun (TName "int") [TPtr (TName "sqlite3_vfs"); TPtr (TName "double")]);
   ("s3vfsGetLastError", TFun (TName "int") [TPtr (TName "sqlite3_vfs"); TName "int"; TPtr (TName "char")]);
   ("s3vfsCurrentTimeInt64", TFun (TName "int") [TPtr (TName "sqlite3_vfs"); TPtr (TName "sqlite3_int64")]);
   ("s3vfsSqlite3Mprintf", TFun (TPtr (TName "char")) [TPtr (TConst (TName "char"))]);
   ("s3vfsURIKey", TFun (TPtr (TConst (TName "char"))) [TPtr (TConst (TName "char")); TName "int"]);
   ("s3vfsURIParameter", TFun (TPtr (TConst (TName "char"))) [TPtr (TConst (TName "char")); TPtr (TConst (TName "char"))])].

(** Each trampoline: the Go function it calls and which of its own arguments it
    passes, in order. *)
Definition trampolines : list (string * (string * list nat)) :=
  [("s3vfsOpen", ("goVFSOpen", [0; 1; 2; 3; 4]%nat));
   ("s3vfsDelete", ("goVFSDelete", [0; 1; 2]%nat));
   ("s3vfsAccess", ("goVFSAccess", [0; 1; 2; 3]%nat));
   ("s3vfsFullPathname", ("goVFSFullPathname", [0; 1; 2; 3]%nat));
   ("s3vfsRandomness", ("goVFSRandomness", [0; 1; 2]%nat));
   ("s3vfsSleep", ("goVFSSleep", [0; 1]%nat));
   ("s3vfsCurrentTimeInt64", ("goVFSCurrentTimeInt64", [0; 1]%nat));
   ("s3vfsClose", ("goVFSClose", [0]%nat));
   ("s3vfsRead", ("goVFSRead", [0; 1; 2; 3]%nat));
   ("s3vfsWrite", ("goVFSWrite", [0; 1; 2; 3]%nat));
   ("s3vfsTruncate", ("goVFSTruncate", [0; 1]%nat));
   ("s3vfsSync", ("goVFSSync", [0; 1]%nat));
   ("s3vfsFileSize", ("goVFSFileSize", [0; 1]%nat));
   ("s3vfsLock", ("goVFSLock", [0; 1]%nat));
   ("s3vfsUnlock", ("goVFSUnlock", [0; 1]%nat));
   ("s3vfsCheckReservedLock", ("goVFSCheckReservedLock", [0; 1]%nat));
   ("s3vfsSectorSize", ("goVFSSectorSize", [0]%nat));
   ("s3vfsDeviceCharacteristics", ("goVFSDeviceCharacteristics", [0]%nat));
   ("s3vfsFileControl", ("goVFSFileControl", [0; 1; 2]%nat))].

(** The positional initialiser of [s3vfs_io_methods]: version, then methods. *)
Definition s3vfs_io_methods : list string :=
  ["1"; "s3vfsClose"; "s3vfsRead"; "s3vfsWrite"; "s3vfsTruncate"; "s3vfsSync";
   "s3vfsFileSize"; "s3vfsLock"; "s3vfsUnlock"; "s3vfsCheckReservedLock";
   "s3vfsFileControl"; "s3vfsSectorSize"; "s3vfsDeviceCharacteristics"].

(** ** [s3vfsNew] *)

(** What a member of the new [sqlite3_vfs] is set to. [calloc] leaves the
    members the function does not assign null. *)
Inductive slot :=
  | SInt (n : Z)
  | SName (name : string)
  | SShim (f : string)          (* a function of sqlite3vfs.c *)
  | SDelegate (member : string) (* the same-process default VFS's member *).

(** The assignments of [s3vfsNew]; [None] when [calloc] fails. *)
Definition s3vfsNew (calloc_ok : bool) (szOsFile : Z) (name : string) (maxPathName : Z)
    : option (list (string * slot)) :=
  if negb calloc_ok then None else Some
  [("iVersion", SInt 2); ("szOsFile", SInt szOsFile); ("mxPathname", SInt maxPathName);
   ("zName", SName name); ("xOpen", SShim "s3vfsOpen"); ("xDelete", SShim "s3vfsDelete");
   ("xAccess", SShim "s3vfsAccess"); ("xFullPathname", SShim "s3vfsFullPathname");
   ("xDlOpen", SDelegate "xDlOpen"); ("xDlError", SDelegate "xDlError");
   ("xDlSym", SDelegate "xDlSym"); ("xDlClose", SDelegate "xDlClose");
   ("xRandomness", SShim "s3vfsRandomness"); ("xSleep", SShim "s3vfsSleep");
   ("xCurrentTime", SShim "s3vfsCurrentTime"); ("xGetLastError", SDelegate "xGetLastError");
   ("xCurrentTimeInt64", SShim "s3vfsCurrentTimeInt64")].

(** [newVFS] (Go) around it: the Go object is entered in [vfsMap] before the C
    registration is tried, and stays there when that fails. *)
Definition newVFS {W F} (s : shim (W := W) (F := F)) (name : string) (goVFS : VFS W F)
    (calloc_ok : bool) (register_rc : Z) : shim (W := W) (F := F) * option Z :=
  let s := mkShim (<[name := goVFS]> (vfsMap s)) (nextFileID s) (fileMap s) (world s) in
  let rc := if calloc_ok then register_rc else GenericError in
  (s, if rc =? sqliteOK then None else Some rc).

(** [RegisterVFS]: the option of the path length, 1024 by default. *)
Definition maxPathName (opts : list Z) : Z :=
  let n := default 0 (last opts) in if n =? 0 then 1024 else n.

(** ** [s3vfsCurrentTime]: calls the 64-bit method on a null VFS *)

(** [goVFSCurrentTimeInt64] through the C pointer; dereferencing null is a
    Go nil-pointer panic. *)
Definition CurrentTimeInt64_ptr {W F} (s : shim (W := W) (F := F)) (cvfs : option string)
    : outcome (Z * Z) :=
  match cvfs with
  | None => Panic
  | Some name => goVFSCurrentTimeInt64 s name
  end.

Definition s3vfsCurrentTimeInt64 {W F} (s : shim (W := W) (F := F)) (vfs : option string) :=
  CurrentTimeInt64_ptr s vfs.

(** The day number [i/86400000.0] is left as its numerator. *)
Definition s3vfsCurrentTime {W F} (s : shim (W := W) (F := F)) (vfs : option string)
    : outcome (Z * Z) :=
  s3vfsCurrentTimeInt64 s None.

(** [s3vfsURIKey] and [s3vfsURIParameter]: guarded against a null name. *)
Definition s3vfsURIKey (sqlite3_uri_key : string -> Z -> option string)
    (zName : option string) (n : Z) : option string :=
  match zName with None => None | Some z => sqlite3_uri_key z n end.
Definition s3vfsURIParameter (sqlite3_uri_parameter : string -> string -> option string)
    (zName : option string) (zParam : string) : option string :=
  match zName with None => None | Some z => sqlite3_uri_parameter z zParam end.

(** ** Checks *)

(** The method for the member x<Name> is s3vfs<Name>. *)
Definition method_of (member : string) : option string :=
  if String.eqb (String.substring 0 1 member) "x"
  then Some ("s3vfs" +:+ String.substring 1 (String.length member - 1) member)
  else None.

(** The trampoline of a method: declared with the type of the slot, and passing
    all its arguments, in order, to the Go function of the same name. *)
Definition trampoline_ok (member : string) (slot_type : ctype) (f : string) : bool :=
  bool_decide (method_of member = Some f) &&
  match assoc f shim_protos, assoc f trampolines with
  | Some (TFun r ps), Some (g, args) =>
      compatible (resolve slot_type) (TPtr (resolve (TFun r ps))) &&
      String.eqb g ("goVFS" +:+ String.substring 5 (String.length f - 5) f) &&
      bool_decide (args = seq 0 (length ps)) &&
      match assoc g go_exports with
      | Some t => compatible (resolve t) (resolve (TFun r ps))
      | None => false
      end
  | _, _ => false
  end.

Definition io_slot_ok (p : (string * ctype) * string) : bool :=
  if String.eqb p.1.1 "iVersion" then String.eqb p.2 "1"
  else trampoline_ok p.1.1 p.1.2 p.2.

(** The positional table handed to SQLite for an open file has, in the position of
    every version-1 member of [sqlite3_io_methods], the trampoline of that
    very member: its declared type is the member's and it forwards all its
    arguments, in order, to the Go function of the same name. *)
Theorem io_methods_positions (i : nat) (m : string) (t : ctype) (f : string)
    (Hm : tp_struct_sqlite3_io_methods !! i = Some (m, t))
    (Hf : s3vfs_io_methods !! i = Some f) (Hv : m <> "iVersion") :
  trampoline_ok m t f = true.
Proof.
  assert (forallb io_slot_ok (zip tp_struct_sqlite3_io_methods s3vfs_io_methods) = true) as H
    by (vm_compute; reflexivity).
  assert (zip tp_struct_sqlite3_io_methods s3vfs_io_methods !! i = Some ((m, t), f)) as Hz
    by (apply lookup_zip_with_Some; eauto).
  apply (forallb_lookup _ _ _ _ H) in Hz. unfold io_slot_ok in Hz. cbn [fst snd] in Hz.
  by rewrite (proj2 (String.eqb_neq m "iVersion") Hv) in Hz.
Qed.

Lemma io_methods_positions_witness :
  trampoline_ok "xUnlock" (TPtr (TFun (TName "int") [TPtr (TName "sqlite3_file"); TName "int"]))
    "s3vfsUnlock" = true.
Proof. apply (io_methods_positions 8); [reflexivity | reflexivity | discriminate]. Defined.

(** The members of [sqlite3_vfs] that a version-2 object must provide. *)
Definition vfs_required : list (string * ctype) :=
  List.filter (fun m => bool_decide (m.1 ∉ ["iVersion"; "szOsFile"; "mxPathname"; "pNext"; "zName";
     "pAppData"; "xSetSystemCall"; "xGetSystemCall"; "xNextSystemCall"])) tp_struct_sqlite3_vfs.

Definition vfs_slot_ok (assigned : list (string * slot)) (m : string * ctype) : bool :=
  match assoc m.1 assigned with
  | Some (SShim f) =>
      if String.eqb m.1 "xCurrentTime"
      then String.eqb f "s3vfsCurrentTime" &&
           match assoc f shim_protos with
           | Some t => compatible (resolve m.2) (TPtr (resolve t)) | None => false end
      else trampoline_ok m.1 m.2 f
  | Some (SDelegate d) => String.eqb d m.1
  | _ => false
  end.

(** [s3vfsNew] leaves no method of a version-2 VFS null: each is the trampoline of
    that member, with its type, or the default VFS's own member of that name. *)
Theorem s3vfsNew_complete sz name maxPath (m : string) (t : ctype)
    (Hm : (m, t) ∈ vfs_required) :
  exists slots, s3vfsNew true sz name maxPath = Some slots /\
    assoc "iVersion" slots = Some (SInt 2) /\ vfs_slot_ok slots (m, t) = true.
Proof.
  eexists. split; [reflexivity|]. split; [reflexivity|].
  set (slots := [_; _; _; _; _; _; _; _; _; _; _; _; _; _; _; _; _]).
  assert (forallb (vfs_slot_ok slots) vfs_required = true) as H by (vm_compute; reflexivity).
  rewrite List.forallb_forall in H. apply H. by apply list_elem_of_In.
Qed.

Lemma s3vfsNew_complete_witness :
  exists slots, s3vfsNew true 16 "walrusd_1" 1024 = Some slots.
Proof.
  destruct (s3vfsNew_complete 16 "walrusd_1" 1024 "xSleep"
    (TPtr (TFun (TName "int") [TPtr (TName "sqlite3_vfs"); TName "int"]))) as (s & H & _ & _).
  - apply (bool_decide_eq_true_1 _). vm_compute. reflexivity.
  - exists s. exact H.
Defined.

(** The version-1 time method of the shim never returns: it asks the 64-bit
    method for the time of a null VFS, whatever VFS it was called on. *)
Theorem s3vfsCurrentTime_panics {W F} (s : shim (W := W) (F := F)) (vfs : option string) :
  s3vfsCurrentTime s vfs = Panic.
Proof. reflexivity. Qed.
