(* ===== verification/VfsRegistry.v ===== *)
(** * VfsRegistry: the VFS names of a process

    [registerVFS], [lockRegistry] and the counter of
    [litestream/litestream.go], [unregisterVFS] of [litestream/unregister.go],
    and their callers [RegisterDatabase], [ensureWriteVFS] and
    [Database.Close] of [litestream/bridge.go], over the tables of the shim
    ([VfsShim], [VfsTables]) and SQLite's own list. Each registration and
    each removal is one step, as the semaphore makes it; steps of different
    databases interleave freely. *)

From stdpp Require Import pretty.
From S2P Require Import Prelude Errors.
From S2P Require Import VfsShim VfsTables.

Section Registry.
Context {W F : Type}.
Abbreviation shim := (VfsShim.shim (W := W) (F := F)).

(** ** The process *)

(** [globalVFSSeq], the shim's tables, the walrusd VFSes on SQLite's list, and
    [vfsRegistrations]. *)
Record process := mkProcess {
  seqno : N;
  tables : shim;
  sqlite : gset string;
  registrations : Z;
}.

(** [lockRegistry]: it gets the semaphore, or the reason it does not. *)
Inductive locking := Locked | CtxDone (text : string) | TimedOut.

Definition lockRegistry (l : locking) : option goerror :=
  match l with
  | Locked => None
  | CtxDone text => Some (EWrapf text (ESentinel ErrRegistryBusy))
  | TimedOut => Some (ESentinel ErrRegistryBusy)
  end.

(** [registerVFS]; [calloc_ok] and [rc] are what the C side answers. *)
Definition registerVFS (l : locking) (calloc_ok : bool) (rc : Z) (name : string) (v : VFS W F)
    (p : process) : process * option goerror :=
  match lockRegistry l with
  | Some err => (p, Some err)
  | None =>
      match newVFS (tables p) name v calloc_ok rc with
      | (t, Some code) => (mkProcess (seqno p) t (sqlite p) (registrations p), Some (ESqlite code))
      | (t, None) =>
          (mkProcess (seqno p) t ({[name]} ∪ sqlite p) (wrapu64 (registrations p + 1)), None)
      end
  end.

Definition decrementVFSCount (n : Z) : Z := if n =? 0 then 0 else n - 1.

(** [unregisterVFS] *)
Definition unregisterVFS (l : locking) (rc : Z) (name : string) (p : process) : process * option goerror :=
  match lockRegistry l with
  | Some err => (p, Some err)
  | None =>
      if bool_decide (name ∈ sqlite p) && negb (rc =? 0) then
        (p, Some (EOther "litestream: unregister sqlite vfs"))
      else
        let '(t, loaded) := UnregisterVFS (tables p) name in
        (mkProcess (seqno p) t (sqlite p ∖ {[name]})
           (if loaded then decrementVFSCount (registrations p) else registrations p), None)
  end.

(** ** The databases of the process *)

(** [Database]: its names, and, once [Close] has begun, those it still has to
    unregister. *)
Record database := mkDatabase {
  VFSName : string;
  writeVFSName : option string;
  closing : option (list string);
}.

Definition readName (n : N) : string := "walrusd_" +:+ pretty n.
Definition writeName (n : N) : string := "walrusd_w" +:+ pretty n.

Definition bump (p : process) : process :=
  mkProcess (seqno p + 1)%N (tables p) (sqlite p) (registrations p).

(** [RegisterDatabase]; [client] and [manifest] are the errors of building
    those two. *)
Definition RegisterDatabase (client manifest : option goerror) (l : locking) (calloc_ok : bool) (rc : Z)
    (v : VFS W F) (p : process) : process * res goerror database :=
  match client, manifest with
  | Some err, _ | None, Some err => (p, Err err)
  | None, None =>
      let p := bump p in
      let name := readName (seqno p) in
      match registerVFS l calloc_ok rc name v p with
      | (p, Some err) => (p, Err (EWrapf "litestream: register vfs" err))
      | (p, None) => (p, Ok (mkDatabase name None None))
      end
  end.

(** [ensureWriteVFS] *)
Definition ensureWriteVFS (l : locking) (calloc_ok : bool) (rc : Z) (v : VFS W F) (d : database)
    (p : process) : process * database * option goerror :=
  match writeVFSName d with
  | Some _ => (p, d, None)
  | None =>
      let p := bump p in
      let name := writeName (seqno p) in
      match registerVFS l calloc_ok rc name v p with
      | (p, Some err) => (p, d, Some (EWrapf "litestream: register write vfs" err))
      | (p, None) => (p, mkDatabase (VFSName d) (Some name) (closing d), None)
      end
  end.

(** [Database.Close]: what it decides to unregister, and one removal. *)
Definition Close (d : database) : database :=
  mkDatabase (VFSName d) (writeVFSName d) (Some (VFSName d :: option_list (writeVFSName d))).

Definition closeNext (l : locking) (rc : Z) (d : database) (p : process)
    : process * database * option goerror :=
  match closing d with
  | Some (name :: names) =>
      let '(p, err) := unregisterVFS l rc name p in
      (p, mkDatabase (VFSName d) (writeVFSName d) (Some names), err)
  | _ => (p, d, None)
  end.

(** The process, its databases, and the names whose removal failed. *)
Record sys := mkSys { proc : process; dbs : gmap nat database; stuck : gset string }.

(** A database is used and closed through its entry in the runtime's registry:
    nothing opens a session on it once its teardown has begun. *)
Inductive step : sys -> sys -> Prop :=
  | StepRegister s i client manifest l c rc v p r : dbs s !! i = None ->
      RegisterDatabase client manifest l c rc v (proc s) = (p, r) ->
      step s (mkSys p (match r with Ok d => <[i := d]> (dbs s) | Err _ => dbs s end) (stuck s))
  | StepWrite s i d l c rc v p d' err : dbs s !! i = Some d -> closing d = None ->
      ensureWriteVFS l c rc v d (proc s) = (p, d', err) ->
      step s (mkSys p (<[i := d']> (dbs s)) (stuck s))
  | StepClose s i d : dbs s !! i = Some d -> closing d = None ->
      step s (mkSys (proc s) (<[i := Close d]> (dbs s)) (stuck s))
  | StepRemove s i d name names l rc p d' err : dbs s !! i = Some d -> closing d = Some (name :: names) ->
      closeNext l rc d (proc s) = (p, d', err) ->
      step s (mkSys p (<[i := d']> (dbs s))
                (match err with Some _ => {[name]} ∪ stuck s | None => stuck s end)).

Definition start (w : W) : sys := mkSys (mkProcess 0 (mkShim ∅ 0 ∅ w) ∅ 0) ∅ ∅.

Inductive reachable (w : W) : sys -> Prop :=
  | reach_start : reachable w (start w)
  | reach_step s s' : reachable w s -> step s s' -> reachable w s'.

(** The names a database still has registered. *)
Definition names (d : database) : list string :=
  match closing d with
  | Some ns => ns
  | None => VFSName d :: option_list (writeVFSName d)
  end.

(** ** Names *)

Lemma pretty_go_ne (c : Ascii.ascii) x s s' :
  (forall y, pretty_N_char y <> c) -> s <> String c s' -> pretty_N_go x s <> String c s'.
Proof.
  intros Hc. revert s s'. induction (N.lt_wf_0 x) as [x _ IH]; intros s s' Hs.
  destruct (decide (0 < x)%N) as [Hx|Hx].
  - rewrite pretty_N_go_step by done. apply IH; [apply N.div_lt; lia|]. intros [= He _]. by apply (Hc _ He).
  - assert (x = 0%N) as -> by lia. by rewrite pretty_N_go_0.
Qed.

Lemma digit_not_w y : pretty_N_char y <> "w"%char.
Proof. unfold pretty_N_char. by repeat case_match. Qed.

Lemma pretty_not_w (n : N) s : pretty n <> String "w"%char s.
Proof.
  unfold pretty, pretty_N. destruct (decide _); [done|]. apply pretty_go_ne; [apply digit_not_w|done].
Qed.

Lemma readName_inj n m : readName n = readName m -> n = m.
Proof. intros H. apply (inj (String.append _)) in H. by apply (inj pretty). Qed.
Lemma writeName_inj n m : writeName n = writeName m -> n = m.
Proof. intros H. apply (inj (String.append _)) in H. by apply (inj pretty). Qed.
Lemma read_write_ne n m : readName n <> writeName m.
Proof.
  change (writeName m) with ("walrusd_" +:+ String "w"%char (pretty m)). unfold readName. intros H.
  apply (inj (String.append "walrusd_")) in H. by apply pretty_not_w in H.
Qed.

(** A name the process has already handed out. *)
Definition issued (p : process) (name : string) : Prop :=
  exists k, (k <= seqno p)%N /\ (name = readName k \/ name = writeName k).

Lemma fresh_read p : ~ issued p (readName (seqno (bump p))).
Proof.
  intros (k & Hk & [H|H]); [apply readName_inj in H; cbn in H; lia|by apply read_write_ne in H].
Qed.
Lemma fresh_write p : ~ issued p (writeName (seqno (bump p))).
Proof.
  intros (k & Hk & [H|H]); [symmetry in H; by apply read_write_ne in H|apply writeName_inj in H; cbn in H; lia].
Qed.

(** ** Invariant *)

(** SQLite's list and the Go table agree, and the counter counts them. *)
Record pinv (p : process) : Prop := {
  p_object : forall n, n ∈ sqlite p -> is_Some (vfsFromC (tables p) n);
  p_count : registrations p = Z.of_nat (size (sqlite p));
  p_issued : forall n, n ∈ sqlite p -> issued p n;
  p_small : (size (sqlite p) <= N.to_nat (seqno p))%nat;
}.

Lemma issued_bump p n : issued p n -> issued (bump p) n.
Proof. intros (k & Hk & H). exists k. split; [cbn; lia|done]. Qed.

Lemma pinv_bump p : pinv p -> pinv (bump p) .
Proof. intros [H1 H2 H3 H4]. split; cbn; try done; [|lia]. intros n Hn. by apply issued_bump, H3. Qed.

Lemma registerVFS_spec l c rc name v p p' r :
  pinv p -> (N.of_nat (size (sqlite p)) < seqno p)%N -> (seqno p < 18446744073709551616)%N ->
  name ∉ sqlite p -> issued p name -> registerVFS l c rc name v p = (p', r) ->
  pinv p' /\ seqno p' = seqno p /\
  sqlite p' = match r with None => {[name]} ∪ sqlite p | Some _ => sqlite p end.
Proof.
  intros [H1 H2 H3 H4] Hlt Hbig Hn Hi. unfold registerVFS, newVFS.
  destruct (lockRegistry l); [by intros [= <- <-]|]. 
  assert (Hobj : forall n, n ∈ sqlite p -> is_Some (<[name := v]> (vfsMap (tables p)) !! n)).
  { intros n Hx. apply lookup_insert_is_Some. destruct (decide (name = n)); [by left|right; split; [done|]].
    by apply H1. }
  destruct (_ =? sqliteOK); intros [= <- <-]; (split; [|done]); split; cbn; try done.
  - intros n [->%elem_of_singleton|Hx]%elem_of_union; [|by apply Hobj].
    unfold vfsFromC. cbn. rewrite lookup_insert_eq. eauto.
  - rewrite size_union, size_singleton by set_solver.
    rewrite H2, wrapu64_id; [lia|]. unfold two64. lia.
  - intros n [->%elem_of_singleton|Hx]%elem_of_union; [done|by apply H3].
  - rewrite size_union, size_singleton by set_solver. lia.
Qed.

Lemma unregisterVFS_spec l rc name p p' r :
  pinv p -> name ∈ sqlite p -> unregisterVFS l rc name p = (p', r) ->
  pinv p' /\ seqno p' = seqno p /\
  sqlite p' = match r with None => sqlite p ∖ {[name]} | Some _ => sqlite p end.
Proof.
  intros [H1 H2 H3 H4] Hn. unfold unregisterVFS. destruct (lockRegistry l); [by intros [= <- <-]|].
  rewrite bool_decide_eq_true_2 by done. destruct (rc =? 0); cbn [andb negb]; [|by intros [= <- <-]].
  destruct (H1 name Hn) as [v Hv]. unfold UnregisterVFS.
  rewrite bool_decide_eq_true_2 by (exists v; exact Hv). intros [= <- <-]. split; [|done].
  assert (Hsize : size (sqlite p ∖ {[name]}) = pred (size (sqlite p))).
  { rewrite size_difference by set_solver. rewrite size_singleton. lia. }
  assert (Hpos : size (sqlite p) <> 0%nat) by (intros H0%size_empty_inv; set_solver).
  split; cbn.
  - intros n [Hx Hne]%elem_of_difference. unfold vfsFromC. cbn.
    rewrite lookup_delete_ne by set_solver. by apply H1.
  - rewrite Hsize, H2. unfold decrementVFSCount. destruct (Z.eqb_spec (Z.of_nat (size (sqlite p))) 0); lia.
  - intros n [Hx _]%elem_of_difference. by apply H3.
  - rewrite Hsize. lia.
Qed.

(** Every name on SQLite's list belongs to one database, or its removal
    failed. *)
Record inv (s : sys) : Prop := {
  i_proc : pinv (proc s);
  i_owned : forall n, n ∈ sqlite (proc s) <-> n ∈ stuck s \/ exists i d, dbs s !! i = Some d /\ n ∈ names d;
  i_nodup : forall i d, dbs s !! i = Some d -> NoDup (names d);
  i_apart : forall i j d d' n, dbs s !! i = Some d -> dbs s !! j = Some d' -> n ∈ names d -> n ∈ names d' -> i = j;
  i_free : forall i d n, dbs s !! i = Some d -> n ∈ names d -> n ∉ stuck s;
}.

Lemma names_new n : names (mkDatabase n None None) = [n].
Proof. done. Qed.

Lemma inv_register s i p' d n :
  inv s -> dbs s !! i = None -> pinv p' -> n ∉ sqlite (proc s) ->
  sqlite p' = {[n]} ∪ sqlite (proc s) -> names d = [n] ->
  inv (mkSys p' (<[i := d]> (dbs s)) (stuck s)).
Proof.
  intros Hinv Hi Hp Hn Hsq Hd.
  assert (Hown : forall j dj, dbs s !! j = Some dj -> n ∉ names dj).
  { intros j dj Hj Hx. apply Hn, (i_owned _ Hinv). right. eauto. }
  split; cbn; [done|..].
  - intros k. rewrite Hsq, elem_of_union, elem_of_singleton, (i_owned _ Hinv). split.
    + intros [->|[Hk|(j & dj & Hj & Hk)]]; [right; exists i, d|by left|right; exists j, dj].
      * rewrite lookup_insert_eq, Hd. split; [done|]. by left.
      * rewrite lookup_insert_ne; [done|]. intros ->. congruence.
    + intros [Hk|(j & dj & [[-> ->]|[Hne Hj]]%lookup_insert_Some & Hk)]; [by right; left| |right; right; eauto].
      rewrite Hd in Hk. apply list_elem_of_singleton in Hk as ->. by left.
  - intros j dj [[-> ->]|[_ Hj]]%lookup_insert_Some; [rewrite Hd; apply NoDup_singleton|].
    by apply (i_nodup _ Hinv j).
  - intros j k dj dk m [[-> ->]|[_ Hj]]%lookup_insert_Some [[-> ->]|[_ Hk]]%lookup_insert_Some Hx Hy.
    + done.
    + rewrite Hd in Hx. apply list_elem_of_singleton in Hx as ->. by apply Hown in Hk.
    + rewrite Hd in Hy. apply list_elem_of_singleton in Hy as ->. by apply Hown in Hj.
    + by eapply (i_apart _ Hinv).
  - intros j dj m [[-> ->]|[_ Hj]]%lookup_insert_Some Hx; [|by eapply (i_free _ Hinv)].
    rewrite Hd in Hx. apply list_elem_of_singleton in Hx as ->. intros Hs.
    apply Hn, (i_owned _ Hinv). by left.
Qed.

(** A database is replaced by one with the same names, one more, or one less. *)
Lemma registry_inv_replace s i d d' p' st' :
  inv s -> dbs s !! i = Some d -> pinv p' -> NoDup (names d') ->
  (forall n, n ∈ names d' -> n ∈ names d \/ n ∉ sqlite (proc s)) ->
  (forall n, n ∈ st' -> n ∈ stuck s \/ n ∈ names d) -> (forall n, n ∈ names d' -> n ∉ st') ->
  (forall n, n ∈ sqlite p' <-> n ∈ st' \/ n ∈ names d' \/
     exists j dj, j <> i /\ dbs s !! j = Some dj /\ n ∈ names dj) ->
  inv (mkSys p' (<[i := d']> (dbs s)) st').
Proof.
  intros Hinv Hi Hp Hnd Hnew Hst Hfree Hsq.
  assert (Hother : forall n j dj, n ∈ names d' -> j <> i -> dbs s !! j = Some dj -> n ∉ names dj).
  { intros n j dj Hn Hj Hdj Hx. destruct (Hnew n Hn) as [Hd|Hd].
    - by apply Hj, (i_apart _ Hinv j i dj d n).
    - apply Hd, (i_owned _ Hinv). right. eauto. }
  split; cbn; [done|..].
  - intros n. rewrite Hsq. split.
    + intros [Hn|[Hn|(j & dj & Hj & Hdj & Hn)]]; [by left|right; exists i, d'|right; exists j, dj].
      * by rewrite lookup_insert_eq.
      * by rewrite lookup_insert_ne.
    + intros [Hn|(j & dj & [[<- <-]|[Hne Hj]]%lookup_insert_Some & Hn)]; [by left|by right; left|].
      right. right. exists j, dj. done.
  - intros j dj [[<- <-]|[_ Hj]]%lookup_insert_Some; [done|by apply (i_nodup _ Hinv j)].
  - intros j k dj dk n [[<- <-]|[Hne Hj]]%lookup_insert_Some [[<- <-]|[Hne' Hk]]%lookup_insert_Some Hx Hy.
    + done.
    + exfalso. by apply (Hother n k dk Hx).
    + exfalso. by apply (Hother n j dj Hy).
    + by eapply (i_apart _ Hinv).
  - intros j dj n [[<- <-]|[Hne Hj]]%lookup_insert_Some Hx; [by apply Hfree|]. intros Hs.
    destruct (Hst n Hs) as [Hs'|Hd]; [by eapply (i_free _ Hinv)|].
    by apply Hne, (i_apart _ Hinv i j d dj n).
Qed.

Lemma owned_split s i d n :
  inv s -> dbs s !! i = Some d ->
  (n ∈ sqlite (proc s) <-> n ∈ stuck s \/ n ∈ names d \/
     exists j dj, j <> i /\ dbs s !! j = Some dj /\ n ∈ names dj).
Proof.
  intros Hinv Hi. rewrite (i_owned _ Hinv). split.
  - intros [Hn|(j & dj & Hj & Hn)]; [by left|]. destruct (decide (j = i)) as [->|]; [|eauto 8].
    simplify_eq. auto.
  - intros [Hn|[Hn|(j & dj & _ & Hj & Hn)]]; eauto.
Qed.

Lemma names_owned s i d n : inv s -> dbs s !! i = Some d -> n ∈ names d -> n ∈ sqlite (proc s).
Proof. intros Hinv Hi Hn. apply (i_owned _ Hinv). eauto. Qed.

Lemma inv_process s p' : inv s -> pinv p' -> sqlite p' = sqlite (proc s) -> inv (mkSys p' (dbs s) (stuck s)).
Proof. intros [H1 H2 H3 H4 H5] Hp Hsq. split; cbn; rewrite ?Hsq; done. Qed.

Lemma registerVFS_seqno l c rc name v p p' r : registerVFS l c rc name v p = (p', r) -> seqno p' = seqno p.
Proof. unfold registerVFS, newVFS. intros H. repeat case_match; by simplify_eq. Qed.

Lemma pinv_register p l c rc name v p' r :
  pinv p -> (seqno (bump p) < 18446744073709551616)%N -> (name = readName (seqno (bump p)) \/ name = writeName (seqno (bump p))) ->
  registerVFS l c rc name v (bump p) = (p', r) ->
  pinv p' /\ seqno p' = seqno (bump p) /\ name ∉ sqlite p /\
  sqlite p' = match r with None => {[name]} ∪ sqlite p | Some _ => sqlite p end.
Proof.
  intros Hp Hbig Hname H.
  assert (Hfresh : name ∉ sqlite p).
  { intros Hn. apply (p_issued _ Hp) in Hn. destruct Hname as [->| ->]; [by apply fresh_read in Hn|by apply fresh_write in Hn]. }
  destruct (registerVFS_spec l c rc name v (bump p) p' r) as (H1 & H2 & H3); try done.
  - by apply pinv_bump.
  - pose proof (p_small _ Hp). cbn. lia.
  - exists (seqno (bump p)). split; [lia|]. destruct Hname; auto.
Qed.

Lemma inv_do_register s i client manifest l c rc v p r :
  inv s -> dbs s !! i = None -> RegisterDatabase client manifest l c rc v (proc s) = (p, r) ->
  (seqno p < 18446744073709551616)%N ->
  inv (mkSys p (match r with Ok d => <[i := d]> (dbs s) | Err _ => dbs s end) (stuck s)).
Proof.
  intros Hinv Hi H Hbig. pose proof (i_proc _ Hinv) as Hp. unfold RegisterDatabase in H.
  assert (Hfail : forall e, r = Err e -> p = proc s -> inv (mkSys p
    (match r with Ok d => <[i := d]> (dbs s) | Err _ => dbs s end) (stuck s))).
  { intros e -> ->. by apply inv_process. }
  destruct client as [e|]; [injection H as <- <-; by eapply Hfail|].
  destruct manifest as [e|]; [injection H as <- <-; by eapply Hfail|]. clear Hfail.
  cbn zeta in H. destruct (registerVFS l c rc (readName (seqno (bump (proc s)))) v (bump (proc s))) as [p1 r1] eqn:Hr.
  assert (Hseq : seqno p1 = seqno p) by (destruct r1; by injection H as <- <-).
  destruct (pinv_register (proc s) l c rc (readName (seqno (bump (proc s)))) v p1 r1 Hp)
    as (H1 & H2 & Hfresh & H3); [|by left|done|].
  { by rewrite <- (registerVFS_seqno _ _ _ _ _ _ _ _ Hr), Hseq. }
  destruct r1 as [e|]; injection H as <- <-; [by apply inv_process|].
  by apply (inv_register s i p1 _ (readName (seqno (bump (proc s))))).
Qed.

Lemma inv_do_write s i d l c rc v p d' err :
  inv s -> dbs s !! i = Some d -> closing d = None -> ensureWriteVFS l c rc v d (proc s) = (p, d', err) ->
  (seqno p < 18446744073709551616)%N -> inv (mkSys p (<[i := d']> (dbs s)) (stuck s)).
Proof.
  intros Hinv Hi Hcl H Hbig. pose proof (i_proc _ Hinv) as Hp. unfold ensureWriteVFS in H.
  assert (Hsame : forall p', pinv p' -> sqlite p' = sqlite (proc s) ->
    inv (mkSys p' (<[i := d]> (dbs s)) (stuck s))).
  { intros p' Hp' Hsq. rewrite insert_id by done. by apply inv_process. }
  destruct (writeVFSName d) as [w|] eqn:Hw; [injection H as <- <- _; by apply Hsame|].
  cbn zeta in H. set (wn := writeName (seqno (bump (proc s)))) in H.
  destruct (registerVFS l c rc wn v (bump (proc s))) as [p1 r1] eqn:Hr.
  assert (Hseq : seqno p1 = seqno p) by (destruct r1; by injection H as <- <- <-).
  destruct (pinv_register (proc s) l c rc wn v p1 r1 Hp) as (H1 & H2 & Hfresh & H3); [|by right|done|].
  { by rewrite <- (registerVFS_seqno _ _ _ _ _ _ _ _ Hr), Hseq. }
  destruct r1 as [e|]; injection H as <- <- _; [by apply Hsame|].
  assert (Hnames : names d = [VFSName d]) by (unfold names; by rewrite Hcl, Hw).
  assert (Hread : VFSName d ∈ sqlite (proc s)).
  { apply (names_owned s i d); [done..|]. rewrite Hnames. by left. }
  assert (Hnames' : names (mkDatabase (VFSName d) (Some wn) (closing d)) = [VFSName d; wn])
    by (unfold names; cbn; by rewrite Hcl).
  apply (registry_inv_replace s i d); try done; rewrite ?Hnames'.
  - apply NoDup_cons. split; [|apply NoDup_singleton]. intros Hx%list_elem_of_singleton. by rewrite Hx in Hread.
  - intros n [->|Hn]%elem_of_cons; [left; rewrite Hnames; by left|].
    apply list_elem_of_singleton in Hn as ->. by right.
  - auto.
  - intros n [->|Hn]%elem_of_cons Hs; [|apply list_elem_of_singleton in Hn as ->; apply Hfresh, (i_owned _ Hinv); by left].
    apply (i_free _ Hinv i d (VFSName d) Hi); [rewrite Hnames; by left|done].
  - intros n. rewrite H3, elem_of_union, elem_of_singleton, (owned_split s i d n Hinv Hi), Hnames, !elem_of_cons.
    pose proof (not_elem_of_nil n). tauto.
Qed.

Lemma inv_do_close s i d :
  inv s -> dbs s !! i = Some d -> closing d = None ->
  inv (mkSys (proc s) (<[i := Close d]> (dbs s)) (stuck s)).
Proof.
  intros Hinv Hi Hcl.
  assert (Hn : names (Close d) = names d) by (unfold names, Close; cbn; by rewrite Hcl).
  apply (registry_inv_replace s i d); try done; rewrite ?Hn; try apply Hinv; auto.
  - by apply (i_nodup _ Hinv i).
  - intros n. by apply (i_free _ Hinv i d n).
  - intros n. by apply owned_split.
Qed.

Lemma inv_do_remove s i d name ns l rc p d' err :
  inv s -> dbs s !! i = Some d -> closing d = Some (name :: ns) -> closeNext l rc d (proc s) = (p, d', err) ->
  inv (mkSys p (<[i := d']> (dbs s)) (match err with Some _ => {[name]} ∪ stuck s | None => stuck s end)).
Proof.
  intros Hinv Hi Hcl H. unfold closeNext in H. rewrite Hcl in H.
  assert (Hn : names d = name :: ns) by (unfold names; by rewrite Hcl).
  assert (Hown : name ∈ sqlite (proc s)) by (apply (names_owned s i d); [done..|rewrite Hn; by left]).
  destruct (unregisterVFS l rc name (proc s)) as [p1 e] eqn:Hu. injection H as <- <- <-.
  destruct (unregisterVFS_spec _ _ _ _ _ _ (i_proc _ Hinv) Hown Hu) as (Hp & _ & Hsq).
  pose proof (i_nodup _ Hinv i d Hi) as Hnd. rewrite Hn in Hnd. apply NoDup_cons in Hnd as [Hnin Hnd].
  assert (Hfree : forall n, n ∈ name :: ns -> n ∉ stuck s).
  { intros n. rewrite <- Hn. by apply (i_free _ Hinv i d n). }
  apply (registry_inv_replace s i d); cbn [names closing]; try done.
  - intros n Hx. left. rewrite Hn. by right.
  - intros n. rewrite Hn. destruct e; [|by left]. intros [->%elem_of_singleton|Hx]%elem_of_union; [right; by left|by left].
  - intros n Hx. destruct e; [|apply Hfree; by right].
    intros [->%elem_of_singleton|Hs]%elem_of_union; [done|]. by apply (Hfree n); [right|].
  - intros n. rewrite Hsq. pose proof (owned_split s i d n Hinv Hi) as Ho. rewrite Hn, elem_of_cons in Ho.
    destruct e as [e|].
    + rewrite Ho, elem_of_union, elem_of_singleton. tauto.
    + rewrite elem_of_difference, elem_of_singleton, Ho. split; [tauto|].
      intros Hx. split; [tauto|]. intros ->. destruct Hx as [Hx|[Hx|(j & dj & Hj & Hdj & Hx)]]; [|done|].
      * by apply (Hfree name); [left|].
      * apply Hj. apply (i_apart _ Hinv j i dj d name); [done..|]. rewrite Hn. by left.
Qed.

Lemma step_seqno s s' : step s s' -> (seqno (proc s) <= seqno (proc s'))%N.
Proof.
  destruct 1 as [s i client manifest l c rc v p r Hi H|s i d l c rc v p d' err Hi Hc H|s i d Hi Hc|
    s i d n ns l rc p d' err Hi Hc H]; cbn; [| |lia|].
  - unfold RegisterDatabase, registerVFS, newVFS in H. repeat case_match; simplify_eq; cbn; lia.
  - unfold ensureWriteVFS, registerVFS, newVFS in H. repeat case_match; simplify_eq; cbn; lia.
  - unfold closeNext, unregisterVFS in H. repeat case_match; simplify_eq; cbn; lia.
Qed.

Lemma inv_reachable_vfs w s : reachable w s -> (seqno (proc s) < 18446744073709551616)%N -> inv s.
Proof.
  induction 1 as [|s s' _ IH Hstep]; intros Hbig.
  - split; cbn; try done.
    + intros n. split; [set_solver|]. intros [Hn|(i & d & Hd & _)]; [set_solver|]. by rewrite lookup_empty in Hd.
  - assert (Hinv : inv s) by (apply IH; pose proof (step_seqno _ _ Hstep); lia).
    destruct Hstep as [s i client manifest l c rc v p r Hi H|s i d l c rc v p d' err Hi Hc H|s i d Hi Hc|
      s i d n ns l rc p d' err Hi Hc H].
    + by eapply inv_do_register.
    + by eapply inv_do_write.
    + by apply inv_do_close.
    + by eapply inv_do_remove.
Qed.

End Registry.

(** ** A run *)

(** A VFS that refuses everything. *)
Definition aVFS : VFS unit unit := {|
  v_isURIOpener := false;
  v_OpenURI := fun _ _ _ w => (w, Err VOther);
  v_Open := fun _ _ w => (w, Err VOther);
  v_Delete := fun _ _ w => (w, None);
  v_Access := fun _ _ w => (w, (false, None));
  v_FullPathname := fun n _ => n;
  v_Randomness := fun _ w => (w, ([], 0));
  v_Sleep := fun _ w => w;
  v_CurrentTime := fun _ => 0;
|}.

(** The run: registered, given a write VFS, closed; the write VFS stays. *)
Definition after_register : process := (RegisterDatabase None None Locked true 0 aVFS (proc (start tt))).1.
Definition a_db : database := mkDatabase "walrusd_1" None None.
Definition after_write : process := (ensureWriteVFS Locked true 0 aVFS a_db after_register).1.1.
Definition a_written : database := mkDatabase "walrusd_1" (Some "walrusd_w2") None.
Definition after_remove : process := (closeNext Locked 0 (Close a_written) after_write).1.1.
Definition a_removed : database := mkDatabase "walrusd_1" (Some "walrusd_w2") (Some ["walrusd_w2"]).
Definition a_closed : database := mkDatabase "walrusd_1" (Some "walrusd_w2") (Some []).

Definition with_db (s : sys (W := unit) (F := unit)) (p : process (W := unit) (F := unit)) (d : database) (st : gset string) : sys (W := unit) (F := unit) :=
  mkSys p (<[0%nat := d]> (dbs s)) st.
Definition registered_sys := with_db (start tt) after_register a_db ∅.
Definition written_sys := with_db registered_sys after_write a_written ∅.
Definition closing_sys := with_db written_sys after_write (Close a_written) ∅.
Definition removed_sys := with_db closing_sys after_remove a_removed ∅.
Definition closed_sys := with_db removed_sys after_remove a_closed ({["walrusd_w2"]} ∪ ∅).

Lemma closed_reachable : reachable tt closed_sys.
Proof.
  apply (reach_step _ removed_sys); [apply (reach_step _ closing_sys); [apply (reach_step _ written_sys);
    [apply (reach_step _ registered_sys); [apply (reach_step _ (start tt)); [apply reach_start|]|]|]|]|].
  - by apply (StepRegister (start tt) 0 None None Locked true 0 aVFS after_register (Ok a_db)).
  - by apply (StepWrite registered_sys 0 a_db Locked true 0 aVFS after_write a_written None).
  - by apply (StepClose written_sys 0 a_written).
  - by apply (StepRemove closing_sys 0 (Close a_written) "walrusd_1" ["walrusd_w2"] Locked 0 after_remove a_removed None).
  - by apply (StepRemove removed_sys 0 a_removed "walrusd_w2" [] TimedOut 0 after_remove a_closed
      (Some (ESentinel ErrRegistryBusy))).
Qed.

