(* ===== verification/RuntimeVfs.v ===== *)
(** * RuntimeVfs: the VFS names of the databases a runtime has open

    The composition of [Registry] and [VfsRegistry]: every entry of the
    registry has its [Database], registered by [database] under the mutex,
    given a write VFS only by a request that holds the entry, and closed by
    [teardownDatabase]. It shows that what [VfsRegistry] assumes of its
    client, that nothing opens a session once a teardown has begun, is what the
    registry promises, and bounds the names a process has registered. *)

From S2P Require Import Prelude Errors.
From S2P Require Import VfsShim VfsTables Registry VfsRegistry.

Section System.
Context {W F : Type}.
Abbreviation vfs_sys := (VfsRegistry.sys (W := W) (F := F)).

(** ** The system *)

(** Databases are numbered as the entries they belong to. *)
Record sys := mkSys { rg : Registry.sys; vs : vfs_sys }.

Definition with_proc (v : vfs_sys) (p : process (W := W) (F := F)) (m : gmap nat VfsRegistry.database) : vfs_sys :=
  VfsRegistry.mkSys p m (stuck v).

Inductive step : sys -> sys -> Prop :=
  (* [database]: the entry is there, a new one is registered, or the VFS
     cannot be *)
  | StepFound s k r id :
      is_Some (Registry.dbs (rt (rg s)) !! k) -> Registry.database (rt (rg s)) k None = (r, Ok id) ->
      step s (mkSys (Registry.mkSys r (id :: users (rg s))) (vs s))
  | StepOpened s k client manifest l c rc v p d r id :
      Registry.closed (rt (rg s)) = false -> Registry.dbs (rt (rg s)) !! k = None ->
      RegisterDatabase client manifest l c rc v (proc (vs s)) = (p, Ok d) ->
      Registry.database (rt (rg s)) k None = (r, Ok id) ->
      step s (mkSys (Registry.mkSys r (id :: users (rg s))) (with_proc (vs s) p (<[id := d]> (VfsRegistry.dbs (vs s)))))
  | StepRefused s k client manifest l c rc v p e r e' :
      Registry.closed (rt (rg s)) = false -> Registry.dbs (rt (rg s)) !! k = None ->
      RegisterDatabase client manifest l c rc v (proc (vs s)) = (p, Err e) ->
      Registry.database (rt (rg s)) k (Some e) = (r, Err e') ->
      step s (mkSys (Registry.mkSys r (users (rg s))) (with_proc (vs s) p (VfsRegistry.dbs (vs s))))
  (* a request that holds an entry opens a write session on it *)
  | StepWrite s id d l c rc v p d' err :
      id ∈ users (rg s) -> VfsRegistry.dbs (vs s) !! id = Some d ->
      ensureWriteVFS l c rc v d (proc (vs s)) = (p, d', err) ->
      step s (mkSys (rg s) (with_proc (vs s) p (<[id := d']> (VfsRegistry.dbs (vs s)))))
  | StepRelease s id us us' r :
      users (rg s) = us ++ id :: us' -> releaseDatabase (rt (rg s)) id = Some r ->
      step s (mkSys (Registry.mkSys r (us ++ us')) (vs s))
  | StepShut s : step s (mkSys (Registry.mkSys (Registry.Close (rt (rg s))) (users (rg s))) (vs s))
  (* [teardownDatabase]: [vfs.Close] begins, removes a name, is over *)
  | StepTeardown s id d :
      id ∈ doomed (rt (rg s)) -> VfsRegistry.dbs (vs s) !! id = Some d -> closing d = None ->
      step s (mkSys (rg s) (with_proc (vs s) (proc (vs s)) (<[id := VfsRegistry.Close d]> (VfsRegistry.dbs (vs s)))))
  | StepRemove s id d name names l rc p d' err :
      VfsRegistry.dbs (vs s) !! id = Some d -> closing d = Some (name :: names) ->
      closeNext l rc d (proc (vs s)) = (p, d', err) ->
      step s (mkSys (rg s) (VfsRegistry.mkSys p (<[id := d']> (VfsRegistry.dbs (vs s)))
                (match err with Some _ => {[name]} ∪ stuck (vs s) | None => stuck (vs s) end)))
  | StepTorn s id d :
      id ∈ doomed (rt (rg s)) -> VfsRegistry.dbs (vs s) !! id = Some d -> closing d = Some [] ->
      step s (mkSys (Registry.mkSys (teardown (rt (rg s)) id) (users (rg s))) (vs s)).

Definition start (limit : Z) (w : W) : sys :=
  mkSys (Registry.mkSys (Registry.New limit) []) (VfsRegistry.start w).

Inductive reachable (limit : Z) (w : W) : sys -> Prop :=
  | reach_start : reachable limit w (start limit w)
  | reach_step s s' : reachable limit w s -> step s s' -> reachable limit w s'.

(** ** Invariant *)

Record linked (limit : Z) (w : W) (s : sys) : Prop := {
  k_reg : Registry.reachable limit (rg s);
  k_vfs : VfsRegistry.reachable w (vs s);
  k_dom : dom (heap (rt (rg s))) = dom (VfsRegistry.dbs (vs s));
  k_closing : forall id d, VfsRegistry.dbs (vs s) !! id = Some d -> closing d <> None ->
    id ∈ doomed (rt (rg s)) ++ torn (rt (rg s));
  k_torn : forall id d, VfsRegistry.dbs (vs s) !! id = Some d -> id ∈ torn (rt (rg s)) -> closing d = Some [];
  k_two : forall id d, VfsRegistry.dbs (vs s) !! id = Some d -> (length (names d) <= 2)%nat;
}.

(** An entry a request holds is neither closed nor about to be. *)
Lemma held_open limit w s id :
  linked limit w s -> id ∈ users (rg s) ->
  exists d, VfsRegistry.dbs (vs s) !! id = Some d /\ closing d = None.
Proof.
  intros Hk Hu. pose proof (registry_inv limit _ (k_reg _ _ _ Hk)) as Hi.
  destruct (inv_used _ _ _ _ Hi id Hu) as [e He].
  assert (Hd : id ∈ dom (VfsRegistry.dbs (vs s))) by (rewrite <- (k_dom _ _ _ Hk); by apply elem_of_dom).
  apply elem_of_dom in Hd as [d Hd]. exists d. split; [done|].
  destruct (closing d) as [ns|] eqn:Hc; [|done].
  assert (Hg : id ∈ doomed (rt (rg s)) ++ torn (rt (rg s))) by (apply (k_closing _ _ _ Hk id d); congruence).
  apply (inv_gone _ _ _ _ Hi) in Hg as (e' & He' & _ & H0). rewrite He in He'. injection He' as <-.
  rewrite (inv_refs _ _ _ _ Hi id e He) in H0. apply uses_pos in Hu. lia.
Qed.

(** The registry moves on; the databases stay. *)
Lemma linked_registry limit w s r us :
  linked limit w s -> Registry.step (rg s) (Registry.mkSys r us) -> grows (rt (rg s)) r ->
  dom (heap r) = dom (heap (rt (rg s))) -> linked limit w (mkSys (Registry.mkSys r us) (vs s)).
Proof.
  intros Hk Hs Hg Hdom. split; cbn; try apply Hk.
  - eapply Registry.reach_step; [apply Hk|done].
  - rewrite Hdom. apply Hk.
  - intros id d Hd Hc. rewrite (g_torn _ _ Hg), (grows_newly _ _ Hg), <- app_assoc.
    pose proof (k_closing _ _ _ Hk id d Hd Hc) as H. rewrite elem_of_app in H. rewrite !elem_of_app. tauto.
  - intros id d Hd. rewrite (g_torn _ _ Hg). by apply (k_torn _ _ _ Hk).
Qed.

(** One database goes on, and with it the process. *)
Lemma linked_vfs limit w s v id d d' :
  linked limit w s -> VfsRegistry.step (vs s) v -> VfsRegistry.dbs (vs s) !! id = Some d ->
  VfsRegistry.dbs v = <[id := d']> (VfsRegistry.dbs (vs s)) ->
  (closing d' <> None -> id ∈ doomed (rt (rg s)) ++ torn (rt (rg s))) ->
  (id ∈ torn (rt (rg s)) -> closing d' = Some []) -> (length (names d') <= 2)%nat ->
  linked limit w (mkSys (rg s) v).
Proof.
  intros Hk Hs Hd Hv Hc Ht H2. split; cbn; try apply Hk.
  - eapply VfsRegistry.reach_step; [apply Hk|done].
  - rewrite Hv, dom_insert_lookup_L by eauto. apply Hk.
  - intros j e. rewrite Hv, lookup_insert. case_decide as Hj; [intros [= <-]; by subst|apply Hk].
  - intros j e. rewrite Hv, lookup_insert. case_decide as Hj; [intros [= <-]; by subst|apply Hk].
  - intros j e. rewrite Hv, lookup_insert. case_decide as Hj; [intros [= <-]; by subst|apply Hk].
Qed.

Lemma registered_open client manifest l c rc v (p p' : process (W := W) (F := F)) d :
  RegisterDatabase client manifest l c rc v p = (p', Ok d) -> closing d = None /\ (length (names d) <= 2)%nat.
Proof.
  unfold RegisterDatabase. destruct client, manifest; try done.
  destruct (registerVFS _ _ _ _ _ _) as [p1 [e|]]; [done|]. intros [= _ <-]. cbn. split; [done|lia].
Qed.

Lemma linked_opened limit w s k client manifest l c rc v p d r id :
  linked limit w s -> Registry.closed (rt (rg s)) = false -> Registry.dbs (rt (rg s)) !! k = None ->
  RegisterDatabase client manifest l c rc v (proc (vs s)) = (p, Ok d) ->
  Registry.database (rt (rg s)) k None = (r, Ok id) ->
  linked limit w (mkSys (Registry.mkSys r (id :: users (rg s)))
    (with_proc (vs s) p (<[id := d]> (VfsRegistry.dbs (vs s))))).
Proof.
  intros Hk Hcl Hno Hr Hd. pose proof (registry_inv limit _ (k_reg _ _ _ Hk)) as Hi.
  destruct (database_opened _ _ _ _ Hno Hd) as [-> Hdom].
  pose proof (grows_database _ _ _ _ _ _ Hi Hd) as Hg.
  destruct (registered_open _ _ _ _ _ _ _ _ _ Hr) as [Hdc Hdn].
  assert (Hfresh : heap (rt (rg s)) !! next (rt (rg s)) = None).
  { apply eq_None_not_Some. intros Hx%(inv_next _ _ _ _ Hi). lia. }
  assert (Hvn : VfsRegistry.dbs (vs s) !! next (rt (rg s)) = None).
  { apply not_elem_of_dom. rewrite <- (k_dom _ _ _ Hk). by apply not_elem_of_dom. }
  assert (Hnt : next (rt (rg s)) ∉ torn (rt (rg s))).
  { intros Ht. assert (Hx : next (rt (rg s)) ∈ doomed (rt (rg s)) ++ torn (rt (rg s))) by (apply elem_of_app; by right).
    apply (inv_gone _ _ _ _ Hi) in Hx as (e & He & _). congruence. }
  split; cbn.
  - eapply Registry.reach_step; [apply Hk|]. by eapply StepDatabase.
  - eapply VfsRegistry.reach_step; [apply Hk|].
    exact (StepRegister (vs s) (next (rt (rg s))) client manifest l c rc v p (Ok d) Hvn Hr).
  - rewrite Hdom, dom_insert_L. f_equal. apply Hk.
  - intros j e. rewrite lookup_insert. case_decide as Hj; [intros [= <-]; by rewrite Hdc|].
    intros He Hc. rewrite (g_torn _ _ Hg), (grows_newly _ _ Hg), <- app_assoc.
    pose proof (k_closing _ _ _ Hk j e He Hc) as Hx. rewrite elem_of_app in Hx. rewrite !elem_of_app. tauto.
  - intros j e. rewrite (g_torn _ _ Hg), lookup_insert. case_decide as Hj; [by subst|]. by apply (k_torn _ _ _ Hk).
  - intros j e. rewrite lookup_insert. case_decide as Hj; [by intros [= <-]|]. by apply (k_two _ _ _ Hk).
Qed.

(** [vfs.Close] is over. *)
Lemma linked_torn limit w s id d :
  linked limit w s -> id ∈ doomed (rt (rg s)) -> VfsRegistry.dbs (vs s) !! id = Some d -> closing d = Some [] ->
  linked limit w (mkSys (Registry.mkSys (teardown (rt (rg s)) id) (users (rg s))) (vs s)).
Proof.
  intros Hk Hid Hd Hc. split; cbn; try apply Hk.
  - eapply Registry.reach_step; [apply Hk|]. by apply (Registry.StepTeardown (rg s) id).
  - intros j e He Hce. pose proof (k_closing _ _ _ Hk j e He Hce) as Hx.
    rewrite elem_of_app in Hx. rewrite elem_of_app, elem_of_cons, elem_of_remove_id.
    destruct (decide (j = id)) as [->|]; tauto.
  - intros j e He [->|Hj]%elem_of_cons; [congruence|]. by apply (k_torn _ _ _ Hk j).
Qed.

Lemma ensured_open l c rc v d (p p' : process (W := W) (F := F)) d' err :
  ensureWriteVFS l c rc v d p = (p', d', err) -> closing d = None -> (length (names d) <= 2)%nat ->
  closing d' = None /\ (length (names d') <= 2)%nat.
Proof.
  unfold ensureWriteVFS. intros He Hc H2. destruct (writeVFSName d); [by simplify_eq|].
  destruct (registerVFS _ _ _ _ _ _) as [p1 [e|]]; simplify_eq; [done|]. unfold names. cbn. rewrite Hc. split; [done|]. cbn. lia.
Qed.

Lemma linked_step limit w s s' : linked limit w s -> step s s' -> linked limit w s'.
Proof.
  intros Hk Hs. pose proof (registry_inv limit _ (k_reg _ _ _ Hk)) as Hi.
  destruct Hs as [s k r id Hin Hd|s k client manifest l c rc v p d r id Hcl Hno Hr Hd
    |s k client manifest l c rc v p e r e' Hcl Hno Hr Hd|s id d l c rc v p d' err Hu Hd He
    |s id us us' r Hu Hr|s|s id d Hid Hd Hc|s id d name ns l rc p d' err Hd Hc He|s id d Hid Hd Hc].
  - apply (linked_registry limit w s); [done|by eapply (StepDatabase (rg s))| |by eapply database_found].
    by eapply grows_database.
  - by eapply linked_opened.
  - rewrite (inv_database _ _ _ _ _ _ Hi Hd). split; cbn; try apply Hk.
    + destruct Hk as [Hreg _ _ _ _ _]. by destruct (rg s).
    + eapply VfsRegistry.reach_step; [apply Hk|].
      apply (StepRegister (vs s) (next (rt (rg s))) client manifest l c rc v p (Err e)); [|done].
      apply not_elem_of_dom. rewrite <- (k_dom _ _ _ Hk). apply not_elem_of_dom, eq_None_not_Some.
      intros Hx%(inv_next _ _ _ _ Hi). lia.
  - destruct (held_open limit w s id Hk Hu) as (d0 & Hd0 & Hc). rewrite Hd in Hd0. injection Hd0 as <-.
    destruct (ensured_open _ _ _ _ _ _ _ _ _ He Hc (k_two _ _ _ Hk id d Hd)) as [Hc' H2].
    apply (linked_vfs limit w s _ id d d'); try done.
    + by apply (VfsRegistry.StepWrite (vs s) id d l c rc v p d' err).
    + intros Ht. pose proof (k_torn _ _ _ Hk id d Hd Ht). congruence.
  - apply (linked_registry limit w s); [done|by eapply (Registry.StepRelease (rg s))|by eapply grows_release|by eapply release_dom].
  - apply (linked_registry limit w s); [done|apply (Registry.StepClose (rg s))|apply grows_Close|apply Close_dom].
  - apply (linked_vfs limit w s _ id d (VfsRegistry.Close d)); try done.
    + by apply (VfsRegistry.StepClose (vs s) id d).
    + intros _. apply elem_of_app. by left.
    + intros Ht. pose proof (k_torn _ _ _ Hk id d Hd Ht). congruence.
    + pose proof (k_two _ _ _ Hk id d Hd) as H2. unfold names in H2. by rewrite Hc in H2.
  - assert (Hd' : closing d' = Some ns).
    { unfold closeNext in He. rewrite Hc in He. destruct (unregisterVFS _ _ _ _) as [p1 e1]. by injection He as _ <- _. }
    pose proof (k_two _ _ _ Hk id d Hd) as H2. unfold names in H2. rewrite Hc in H2. cbn in H2.
    apply (linked_vfs limit w s _ id d d'); try done.
    + by apply (VfsRegistry.StepRemove (vs s) id d name ns l rc p d' err).
    + intros _. apply (k_closing _ _ _ Hk id d Hd). congruence.
    + intros Ht. pose proof (k_torn _ _ _ Hk id d Hd Ht). congruence.
    + unfold names. rewrite Hd'. lia.
  - by eapply linked_torn.
Qed.

Lemma reachable_linked limit w s : reachable limit w s -> linked limit w s.
Proof.
  induction 1 as [|s s' _ IH Hs]; [|by eapply linked_step].
  split; cbn; try (by intros id d; rewrite lookup_empty).
  - apply Registry.reach_start.
  - apply VfsRegistry.reach_start.
  - by rewrite !dom_empty_L.
Qed.

(** ** What a process has registered *)

(** The entries that may still have names: those in the table, in use, or on
    their way to be torn down. *)
Definition standing (r : Registry.sys) : list nat := dbOrder (rt r) ++ users r ++ doomed (rt r).

Lemma named_standing limit w s id d :
  linked limit w s -> VfsRegistry.dbs (vs s) !! id = Some d -> names d <> [] -> id ∈ standing (rg s).
Proof.
  intros Hk Hd Hn. pose proof (registry_inv limit _ (k_reg _ _ _ Hk)) as Hi.
  assert (Hx : id ∈ dom (heap (rt (rg s)))) by (rewrite (k_dom _ _ _ Hk); apply elem_of_dom; eauto).
  apply elem_of_dom in Hx as [e He]. unfold standing. rewrite !elem_of_app.
  destruct (evicted e) eqn:Hev.
  - right. destruct (decide (id ∈ users (rg s))) as [|Hu]; [by left|]. right.
    assert (Hg : id ∈ doomed (rt (rg s)) ++ torn (rt (rg s))).
    { apply (inv_gone _ _ _ _ Hi). exists e. split_and!; [done..|].
      rewrite (inv_refs _ _ _ _ Hi id e He). rewrite uses_pos in Hu. unfold uses in *. lia. }
    apply elem_of_app in Hg as [|Ht]; [done|]. destruct Hn. unfold names. by rewrite (k_torn _ _ _ Hk id d Hd Ht).
  - left. assert (Hl : id ∈ dbOrder (rt (rg s)) ++ []) by (apply (inv_live _ _ _ _ Hi); eauto).
    by rewrite app_nil_r in Hl.
Qed.

Definition names_of (v : vfs_sys) (ids : list nat) : list string :=
  ids ≫= fun id => from_option names [] (VfsRegistry.dbs v !! id).

Lemma names_of_length limit w s ids :
  linked limit w s -> (length (names_of (vs s) ids) <= 2 * length ids)%nat.
Proof.
  intros Hk. induction ids as [|id ids IH]; [done|]. unfold names_of in *. cbn. rewrite length_app.
  assert (length (from_option names [] (VfsRegistry.dbs (vs s) !! id)) <= 2)%nat; [|lia].
  destruct (VfsRegistry.dbs (vs s) !! id) as [d|] eqn:Hd; [by apply (k_two _ _ _ Hk id)|cbn; lia].
Qed.

Lemma size_with_list (X : gset string) l : (size (X ∪ list_to_set l) <= size X + length l)%nat.
Proof.
  induction l as [|x l IH]; cbn; [rewrite union_empty_r_L; lia|].
  replace (X ∪ ({[x]} ∪ list_to_set l)) with ({[x]} ∪ (X ∪ list_to_set l)) by set_solver.
  rewrite size_union_alt, size_singleton.
  assert (Hs : (X ∪ list_to_set l) ∖ {[x]} ⊆ X ∪ list_to_set l) by set_solver.
  apply subseteq_size in Hs. lia.
Qed.

(** C32  The registry keeps its side of the bargain with the VFS names. Every run of
    the runtime over its databases is a run of [VfsRegistry], which assumes
    that no database is opened on once its teardown has begun; the entry of
    every request in progress has its VFS on SQLite's list, with its Go
    object; the process never has more than two names for each database it
    may keep, each request in progress and each teardown under way, besides
    those whose removal failed; and when the runtime is closed, with no
    request or teardown left, only those remain. *)
Theorem vfs_names_bounded (limit : Z) (w : W) (s : sys) (Hs : reachable limit w s)
    (Hsmall : (seqno (proc (vs s)) < 18446744073709551616)%N) :
  VfsRegistry.reachable w (vs s) /\
  (forall id, id ∈ users (rg s) -> exists d, VfsRegistry.dbs (vs s) !! id = Some d /\ closing d = None /\
     VFSName d ∈ sqlite (proc (vs s)) /\ is_Some (vfsFromC (tables (proc (vs s))) (VFSName d))) /\
  registrations (proc (vs s)) <=
    2 * (dbLimit (rt (rg s)) + Z.of_nat (length (users (rg s))) + Z.of_nat (length (doomed (rt (rg s))))) +
    Z.of_nat (size (stuck (vs s))) /\
  (Registry.closed (rt (rg s)) = true -> users (rg s) = [] -> doomed (rt (rg s)) = [] ->
     sqlite (proc (vs s)) = stuck (vs s)).
Proof.
  apply reachable_linked in Hs as Hk. pose proof (registry_inv limit _ (k_reg _ _ _ Hk)) as Hi.
  pose proof (inv_reachable_vfs w _ (k_vfs _ _ _ Hk) Hsmall) as Hv.
  assert (Hsub : sqlite (proc (vs s)) ⊆ stuck (vs s) ∪ list_to_set (names_of (vs s) (standing (rg s)))).
  { intros n. rewrite (i_owned _ Hv), elem_of_union, elem_of_list_to_set. intros [|(id & d & Hd & Hn)]; [by left|].
    right. apply list_elem_of_bind. exists id. rewrite Hd. split; [done|].
    apply (named_standing limit w s id d); [done..|]. by intros H0; rewrite H0 in Hn; apply not_elem_of_nil in Hn. }
  split_and!; [apply Hk| | |].
  - intros id Hu. destruct (held_open limit w s id Hk Hu) as (d & Hd & Hc).
    assert (Hn : VFSName d ∈ sqlite (proc (vs s))).
    { apply (names_owned (vs s) id d (VFSName d)); [exact Hv|exact Hd|]. unfold names. rewrite Hc. apply elem_of_cons. by left. }
    exists d. split_and!; [done..|]. by apply (p_object _ (i_proc _ Hv)).
  - rewrite (p_count _ (i_proc _ Hv)). apply subseteq_size in Hsub.
    pose proof (size_with_list (stuck (vs s)) (names_of (vs s) (standing (rg s)))) as Hl.
    pose proof (names_of_length limit w s (standing (rg s)) Hk) as Hn.
    unfold standing in *. rewrite !length_app in Hn. pose proof (inv_size _ _ _ _ Hi). lia.
  - intros Hcl Hus Hdo. apply set_eq. intros n. split; [|intros Hn; apply (i_owned _ Hv); by left].
    intros Hn. apply Hsub in Hn. unfold standing in Hn. rewrite (inv_closed _ _ _ _ Hi Hcl), Hus, Hdo in Hn.
    cbn in Hn. set_solver.
Qed.

End System.

(** ** A run *)

(** A database is opened, written to and given back; the runtime is closed; the
    removal of the second of its two names fails. *)
Definition opened : Registry.runtime := (Registry.database (Registry.New 4) "a" None).1.
Definition released : Registry.runtime := default opened (releaseDatabase opened 0).
Definition shut : Registry.runtime := Registry.Close released.

Definition at_ (r : Registry.runtime) (us : list nat) (v : VfsRegistry.sys (W := unit) (F := unit)) : sys :=
  mkSys (Registry.mkSys r us) v.

Lemma run_reachable_vfs : reachable 4 tt (at_ (teardown shut 0) [] closed_sys).
Proof.
  apply (reach_step 4 tt (at_ shut [] closed_sys)); [|by apply (StepTorn (at_ shut [] closed_sys) 0 a_closed);
    [apply list_elem_of_singleton; reflexivity|..]].
  apply (reach_step 4 tt (at_ shut [] removed_sys)).
  2:{ by apply (StepRemove (at_ shut [] removed_sys) 0 a_removed "walrusd_w2" [] TimedOut 0 after_remove a_closed
        (Some (ESentinel ErrRegistryBusy))). }
  apply (reach_step 4 tt (at_ shut [] closing_sys)).
  2:{ by apply (StepRemove (at_ shut [] closing_sys) 0 (VfsRegistry.Close a_written) "walrusd_1" ["walrusd_w2"]
        Locked 0 after_remove a_removed None). }
  apply (reach_step 4 tt (at_ shut [] written_sys)).
  2:{ apply (StepTeardown (at_ shut [] written_sys) 0 a_written); [apply list_elem_of_singleton; reflexivity|done..]. }
  apply (reach_step 4 tt (at_ released [] written_sys)); [|apply (StepShut (at_ released [] written_sys))].
  apply (reach_step 4 tt (at_ opened [0%nat] written_sys)).
  2:{ by apply (StepRelease (at_ opened [0%nat] written_sys) 0 [] []). }
  apply (reach_step 4 tt (at_ opened [0%nat] registered_sys)).
  2:{ apply (StepWrite (at_ opened [0%nat] registered_sys) 0 a_db Locked true 0 aVFS after_write a_written None);
        [by apply list_elem_of_singleton|done..]. }
  apply (reach_step 4 tt (start 4 tt)); [apply reach_start|].
  by apply (StepOpened (start 4 tt) "a" None None Locked true 0 aVFS after_register a_db opened 0).
Qed.

Lemma vfs_names_bounded_witness :
  sqlite (proc closed_sys) = stuck closed_sys /\ registrations (proc closed_sys) <= 9.
Proof.
  destruct (vfs_names_bounded 4 tt _ run_reachable_vfs eq_refl) as (_ & _ & H1 & H2). split.
  - apply H2; reflexivity.
  - exact H1.
Defined.
