(* ===== verification/CgoHeader.v ===== *)
(** * CgoHeader: the headers of the loadable extension

    [bindings/vfs/libwalrusd_vfs.h] (written by cgo for the exported Go
    function) and [bindings/vfs/binding/sqlite3vfs.h] (the shim's header as the
    extension sees it), and their agreement with [vfs.c], with the shim and
    with the widths of Go's types. *)

From S2P Require Import Prelude CAbi SqliteHeader VendorHeader AbiAgreement VfsShim VfsTables.

(** ** [libwalrusd_vfs.h] *)

(** The typedefs of the cgo prologue (the branch of other compilers than
    MSVC), in order; an anonymous struct is named by its fields. *)
Definition cgo_typedefs : list (string * ctype) :=
  [("GoInt8", TName "signed char"); ("GoUint8", TName "unsigned char");
   ("GoInt16", TName "short"); ("GoUint16", TName "unsigned short");
   ("GoInt32", TName "int"); ("GoUint32", TName "unsigned int");
   ("GoInt64", TName "long long"); ("GoUint64", TName "unsigned long long");
   ("GoInt", TName "GoInt64"); ("GoUint", TName "GoUint64");
   ("GoUintptr", TName "size_t"); ("GoFloat32", TName "float"); ("GoFloat64", TName "double");
   ("GoComplex64", TName "float _Complex"); ("GoComplex128", TName "double _Complex")].

Definition cgo_structs : list (string * list (string * ctype)) :=
  [("_GoString_", [("p", TPtr (TConst (TName "char"))); ("n", TName "ptrdiff_t")]);
   ("GoInterface", [("t", TPtr (TName "void")); ("v", TPtr (TName "void"))]);
   ("GoSlice", [("data", TPtr (TName "void")); ("len", TName "GoInt"); ("cap", TName "GoInt")])].

Definition cgo_pointers : list (string * ctype) :=
  [("GoMap", TPtr (TName "void")); ("GoChan", TPtr (TName "void"))].

(** The exported function, as the header and as [vfs.c] declare it. *)
Definition cgo_WalrusdVFSAttach : ctype :=
  TFun (TPtr (TName "char"))
    [TPtr (TName "char"); TPtr (TName "char"); TPtr (TName "char"); TPtr (TName "char")].
Definition vfs_WalrusdVFSAttach : ctype :=
  TFun (TPtr (TName "char"))
    [TPtr (TConst (TName "char")); TPtr (TConst (TName "char"));
     TPtr (TConst (TName "char")); TPtr (TConst (TName "char"))].

(** Sizes in bytes on the 64-bit targets the extension is built for. *)
Definition c_sizes : list (string * Z) :=
  [("signed char", 1); ("unsigned char", 1); ("char", 1); ("short", 2); ("unsigned short", 2);
   ("int", 4); ("unsigned int", 4); ("long long", 8); ("unsigned long long", 8);
   ("size_t", 8); ("ptrdiff_t", 8); ("float", 4); ("double", 8);
   ("float _Complex", 8); ("double _Complex", 16)].

(** Typedefs are at most two deep. *)
Definition cgo_size (t : ctype) : option Z :=
  let named n := match assoc n c_sizes with
                 | Some z => Some z
                 | None => match assoc n cgo_typedefs with
                           | Some (TName m) => assoc m c_sizes
                           | _ => None
                           end
                 end in
  match t with
  | TName n => match named n with
               | Some z => Some z
               | None => match assoc n cgo_typedefs with
                         | Some (TName m) => named m
                         | _ => None
                         end
               end
  | TPtr _ => Some 8
  | _ => None
  end.

Fixpoint struct_size (ms : list (string * ctype)) : option Z :=
  match ms with
  | [] => Some 0
  | (_, t) :: ms => match cgo_size t, struct_size ms with
                    | Some a, Some b => Some (a + b)
                    | _, _ => None
                    end
  end.

(** The sizes Go gives its types on a 64-bit target. *)
Definition go_sizes : list (string * Z) :=
  [("GoInt8", 1); ("GoUint8", 1); ("GoInt16", 2); ("GoUint16", 2); ("GoInt32", 4); ("GoUint32", 4);
   ("GoInt64", 8); ("GoUint64", 8); ("GoInt", 8); ("GoUint", 8); ("GoUintptr", 8);
   ("GoFloat32", 4); ("GoFloat64", 8); ("GoComplex64", 8); ("GoComplex128", 16)].

(** ** [binding/sqlite3vfs.h] *)

Definition h_shim_protos : list (string * ctype) :=
  [("s3vfsNew", TFun (TName "int") [TPtr (TName "char"); TName "int"]);
   ("s3vfsClose", TFun (TName "int") [TPtr (TName "sqlite3_file")]);
   ("s3vfsRead", TFun (TName "int") [TPtr (TName "sqlite3_file"); TPtr (TName "void"); TName "int"; TName "sqlite3_int64"]);
   ("s3vfsWrite", TFun (TName "int") [TPtr (TName "sqlite3_file"); TPtr (TConst (TName "void")); TName "int"; TName "sqlite3_int64"]);
   ("s3vfsTruncate", TFun (TName "int") [TPtr (TName "sqlite3_file"); TName "sqlite3_int64"]);
   ("s3vfsSync", TFun (TName "int") [TPtr (TName "sqlite3_file"); TName "int"]);
   ("s3vfsFileSize", TFun (TName "int") [TPtr (TName "sqlite3_file"); TPtr (TName "sqlite3_int64")]);
   ("s3vfsLock", TFun (TName "int") [TPtr (TName "sqlite3_file"); TName "int"]);
   ("s3vfsUnlock", TFun (TName "int") [TPtr (TName "sqlite3_file"); TName "int"]);
   ("s3vfsCheckReservedLock", TFun (TName "int") [TPtr (TName "sqlite3_file"); TPtr (TName "int")]);
   ("s3vfsFileControl", TFun (TName "int") [TPtr (TName "sqlite3_file"); TName "int"; TPtr (TName "void")]);
   ("s3vfsSectorSize", TFun (TName "int") [TPtr (TName "sqlite3_file")]);
   ("s3vfsDeviceCharacteristics", TFun (TName "int") [TPtr (TName "sqlite3_file")]);
   ("s3vfsShmMap", TFun (TName "int") [TPtr (TName "sqlite3_file"); TName "int"; TName "int"; TName "int"; TPtr (TPtr (TVolatile (TName "void")))]);
   ("s3vfsShmLock", TFun (TName "int") [TPtr (TName "sqlite3_file"); TName "int"; TName "int"; TName "int"]);
   ("s3vfsShmBarrier", TFun (TName "void") [TPtr (TName "sqlite3_file")]);
   ("s3vfsShmUnmap", TFun (TName "int") [TPtr (TName "sqlite3_file"); TName "int"]);
   ("s3vfsFetch", TFun (TName "int") [TPtr (TName "sqlite3_file"); TName "sqlite3_int64"; TName "int"; TPtr (TPtr (TName "void"))]);
   ("s3vfsUnfetch", TFun (TName "int") [TPtr (TName "sqlite3_file"); TName "sqlite3_int64"; TPtr (TName "void")]);
   ("s3vfsOpen", TFun (TName "int") [TPtr (TName "sqlite3_vfs"); TPtr (TConst (TName "char")); TPtr (TName "sqlite3_file"); TName "int"; TPtr (TName "int")]);
   ("s3vfsDelete", TFun (TName "int") [TPtr (TName "sqlite3_vfs"); TPtr (TConst (TName "char")); TName "int"]);
   ("s3vfsAccess", TFun (TName "int") [TPtr (TName "sqlite3_vfs"); TPtr (TConst (TName "char")); TName "int"; TPtr (TName "int")]);
   ("s3vfsFullPathname", TFun (TName "int") [TPtr (TName "sqlite3_vfs"); TPtr (TConst (TName "char")); TName "int"; TPtr (TName "char")]);
   ("s3vfsDlOpen", TFun (TPtr (TName "void")) [TPtr (TName "sqlite3_vfs"); TPtr (TConst (TName "char"))]);
   ("s3vfsDlError", TFun (TName "void") [TPtr (TName "sqlite3_vfs"); TName "int"; TPtr (TName "char")]);
   ("s3vfsDlSym", TFun (TPtr (TFun (TName "void") [])) [TPtr (TName "sqlite3_vfs"); TPtr (TName "void"); TPtr (TConst (TName "char"))]);
   ("s3vfsDlClose", TFun (TName "void") [TPtr (TName "sqlite3_vfs"); TPtr (TName "void")]);
   ("s3vfsRandomness", TFun (TName "int") [TPtr (TName "sqlite3_vfs"); TName "int"; TPtr (TName "char")]);
   ("s3vfsSleep", TFun (TName "int") [TPtr (TName "sqlite3_vfs"); TName "int"]);
   ("s3vfsCurrentTime", TFun (TName "int") [TPtr (TName "sqlite3_vfs"); TPtr (TName "double")]);
   ("s3vfsGetLastError", TFun (TName "int") [TPtr (TName "sqlite3_vfs"); TName "int"; TPtr (TName "char")]);
   ("s3vfsCurrentTimeInt64", TFun (TName "int") [TPtr (TName "sqlite3_vfs"); TPtr (TName "sqlite3_int64")]);
   ("s3vfsSqlite3Mprintf", TFun (TPtr (TName "char")) [TPtr (TConst (TName "char"))]);
   ("s3vfsURIKey", TFun (TPtr (TConst (TName "char"))) [TPtr (TConst (TName "char")); TName "int"]);
   ("s3vfsURIParameter", TFun (TPtr (TConst (TName "char"))) [TPtr (TConst (TName "char")); TPtr (TConst (TName "char"))])].

(** [struct s3vfsFile]: SQLite's header first, so that the pointer SQLite
    passes is a pointer to it. *)
Definition h_struct_s3vfsFile : list (string * ctype) :=
  [("base", TName "sqlite3_file"); ("id", TName "sqlite3_uint64")].

Definition proto_agrees (m : string * ctype) : bool :=
  match assoc m.1 shim_protos with
  | Some t => compatible (resolve m.2) (resolve t)
  | None => false
  end.

(** The extension's headers are sound: the two declarations of the exported
      attach function differ in [const] only; every numeric type of the cgo
      header has the size of the Go type it stands for, and strings,
      interfaces and slices have Go's two and three words; and every function
      the extension's copy of the shim header declares has the type the shim
      declares it with. *)
Theorem cgo_headers_agree :
  compatible cgo_WalrusdVFSAttach vfs_WalrusdVFSAttach = true /\
  (forall n z, assoc n go_sizes = Some z -> cgo_size (TName n) = Some z) /\
  (forall n ms, assoc n cgo_structs = Some ms -> struct_size ms = Some (8 * Z.of_nat (length ms))) /\
  (forall i m, h_shim_protos !! i = Some m -> proto_agrees m = true).
Proof.
  assert (Hall : forall {A} (p : string * A -> bool) (l : list (string * A)) n a,
    forallb p l = true -> assoc n l = Some a -> p (n, a) = true).
  { intros A p l n a. induction l as [|[m b] l IH]; cbn; [done|]. intros [Hp Hl]%andb_prop.
    destruct (String.eqb_spec n m) as [->|]; [intros [= ->]; done|auto]. }
  split_and!; [reflexivity| | |].
  - intros n z Hn.
    apply (Hall _ (fun m => bool_decide (cgo_size (TName m.1) = Some m.2)) go_sizes) in Hn;
      [|vm_compute; reflexivity]. by apply bool_decide_eq_true in Hn.
  - intros n ms Hn.
    apply (Hall _ (fun m => bool_decide (struct_size m.2 = Some (8 * Z.of_nat (length m.2)))) cgo_structs)
      in Hn; [|vm_compute; reflexivity]. by apply bool_decide_eq_true in Hn.
  - intros i m Hm. eapply (forallb_lookup proto_agrees); [|exact Hm]. vm_compute. reflexivity.
Qed.
