(* ===== verification/Attach.v ===== *)
(** * Attach: the loadable extension ([bindings/vfs/vfs.c], [main.go])

    [sqlite3_walrusdvfs_init] registers the SQL function
    [walrusd_vfs_attach(name, url, key, secret)]; its C implementation checks
    the arguments and calls the Go function [WalrusdVFSAttach], which builds a
    replica client and registers a read-only VFS once per name. *)

From S2P Require Import Prelude SqliteHeader.

(** ** The entry point *)

(** What [sqlite3_create_function] is asked to register. *)
Record registration := { fn_name : string; fn_nArg : Z; fn_flags : Z }.

(** [sqlite3_walrusdvfs_init]: [create] is SQLite's [sqlite3_create_function].
    The result is the call made and the code returned to the loader. *)
Definition sqlite3_walrusdvfs_init (create : registration -> Z) : registration * Z :=
  let r := {| fn_name := "walrusd_vfs_attach"; fn_nArg := 4;
              fn_flags := Z.lor SQLITE_UTF8 SQLITE_DIRECTONLY |} in
  let rc := create r in
  (r, if rc =? SQLITE_OK then SQLITE_OK_LOAD_PERMANENTLY else rc).

(** ** The Go side *)

(** A replica client is an S3 client or another kind. *)
Inductive client_kind := S3Client | OtherClient.

(** A registered VFS: its name, replica URL, the credentials set on its client
    and [WriteEnabled]. *)
Record attached_vfs := mkAttached {
  a_name : string; a_url : string; a_creds : option (string * string); a_write : bool
}.

Section Attach.
(** Litestream's URL parser and the VFS registration of [sqlite3vfs]. *)
Context (NewReplicaClientFromURL : string -> res string client_kind)
        (RegisterVFS : list attached_vfs -> string -> option string).

Record vfs_state := mkState {
  attached : gmap string bool;
  registry : list attached_vfs;   (* oldest first *)
}.

Definition init_state : vfs_state := mkState ∅ [].

(** [WalrusdVFSAttach]: the error message, if any. *)
Definition WalrusdVFSAttach (s : vfs_state) (n url key secret : string)
    : vfs_state * option string :=
  if String.eqb n "" then (s, Some "walrusd_vfs_attach: vfs name required") else
  if default false (attached s !! n) then (s, None) else
  match NewReplicaClientFromURL url with
  | Err e => (s, Some ("walrusd_vfs_attach: " +:+ e))
  | Ok client =>
      let creds := negb (String.eqb key "") && negb (String.eqb secret "") in
      match creds, client with
      | true, OtherClient =>
          (s, Some "walrusd_vfs_attach: credentials require an s3 replica URL")
      | _, _ =>
          let v := mkAttached n url (if creds then Some (key, secret) else None) false in
          match RegisterVFS (registry s) n with
          | Some e => (s, Some ("walrusd_vfs_attach: " +:+ e))
          | None => (mkState (<[n := true]> (attached s)) (registry s ++ [v]), None)
          end
      end
  end.

(** ** The C side *)

Inductive sql_result := ResultError (msg : string) | ResultNull.

(** [walrusd_vfs_attach_impl]: [argv] holds [sqlite3_value_text] of each
    argument, [None] for SQL NULL. *)
Definition walrusd_vfs_attach_impl (s : vfs_state) (argv : list (option string))
    : vfs_state * sql_result :=
  match argv with
  | [name; url; key; secret] =>
      match name, url with
      | Some name, Some url =>
          let '(s, err) := WalrusdVFSAttach s name url (default "" key) (default "" secret) in
          (s, match err with Some e => ResultError e | None => ResultNull end)
      | _, _ => (s, ResultError "walrusd_vfs_attach: name and replica_url required")
      end
  | _ => (s, ResultError
      "walrusd_vfs_attach(name, replica_url, access_key_id, secret_access_key) requires 4 arguments")
  end.

Definition run_attach (s : vfs_state) (calls : list (list (option string))) : vfs_state :=
  foldl (fun s argv => (walrusd_vfs_attach_impl s argv).1) s calls.

(** ** Invariant: a name is marked attached exactly when one VFS of that name
    is registered, and every registered VFS is read-only. *)

Record attach_inv (s : vfs_state) : Prop := {
  inv_nodup : NoDup (a_name <$> registry s);
  inv_marked : forall n, default false (attached s !! n) = true <-> n ∈ a_name <$> registry s;
  inv_readonly : Forall (fun v => a_write v = false) (registry s);
}.

Lemma init_inv : attach_inv init_state.
Proof.
  split; cbn; [constructor| |constructor].
  intros n. rewrite lookup_empty. split; [done|]. intros H. by apply elem_of_nil in H.
Qed.

(** What a successful, fresh attach changes. *)
Lemma attach_cases s n url key secret s' err :
  WalrusdVFSAttach s n url key secret = (s', err) ->
  s' = s \/
  (err = None /\ default false (attached s !! n) = false /\
   exists creds, creds = (if negb (String.eqb key "") && negb (String.eqb secret "")
                          then Some (key, secret) else None) /\
   s' = mkState (<[n := true]> (attached s)) (registry s ++ [mkAttached n url creds false])).
Proof.
  unfold WalrusdVFSAttach. intros H.
  destruct (String.eqb n ""); [simplify_eq; auto|].
  destruct (default false (attached s !! n)) eqn:Hn; [simplify_eq; auto|].
  destruct (NewReplicaClientFromURL url) as [c|e]; [|simplify_eq; auto].
  destruct (negb (String.eqb key "") && negb (String.eqb secret "")), c;
    try destruct (RegisterVFS (registry s) n); simplify_eq; auto; right; eauto 10.
Qed.

Lemma attach_preserves s n url key secret s' err :
  attach_inv s -> WalrusdVFSAttach s n url key secret = (s', err) -> attach_inv s'.
Proof.
  intros [Hnd Hm Hro] H.
  apply attach_cases in H as [->|(_ & Hn & creds & _ & ->)]; [by split|].
  split; cbn.
  - rewrite fmap_app. apply NoDup_app. split; [done|]. split; [|apply NoDup_singleton].
    intros m Hin ->%list_elem_of_singleton. apply Hm in Hin. cbn in Hin. congruence.
  - intros m. rewrite fmap_app, elem_of_app. cbn. rewrite list_elem_of_singleton, <- Hm.
    destruct (decide (m = n)) as [->|Hne].
    + rewrite lookup_insert_eq. cbn. tauto.
    + rewrite lookup_insert_ne by done. split; [tauto|]. intros [?|?]; done.
  - apply Forall_app. split; [done|]. by repeat constructor.
Qed.

Lemma impl_preserves s argv : attach_inv s -> attach_inv (walrusd_vfs_attach_impl s argv).1.
Proof.
  intros Hs. unfold walrusd_vfs_attach_impl.
  repeat case_match; simplify_eq/=; try done; eapply attach_preserves; eauto.
Qed.

(** Whatever sequence of attach calls a host makes, no VFS name is registered
    twice, a name is marked attached exactly when its VFS is registered (so a
    failed attach can be tried again), and no VFS is registered for writing. *)
Theorem attach_sequence_invariant (calls : list (list (option string))) :
  attach_inv (run_attach init_state calls).
Proof.
  unfold run_attach. generalize init_inv. generalize init_state.
  induction calls as [|c cs IH]; intros s Hs; cbn; [done|]. apply IH, impl_preserves, Hs.
Qed.

(** The SQL function's answer for four arguments: NULL exactly when the name
    ends up attached; the registered VFS, when this call made it, reads the
    given URL with the given credentials (both, or none); an error leaves the
    process state as it was. *)
Theorem attach_result (s s' : vfs_state) (n url : string) (key secret : option string) r
    (Hcall : walrusd_vfs_attach_impl s [Some n; Some url; key; secret] = (s', r)) :
  match r with
  | ResultError _ => s' = s
  | ResultNull =>
      default false (attached s' !! n) = true /\
      (default false (attached s !! n) = true /\ s' = s \/
       exists v, registry s' = registry s ++ [v] /\ a_name v = n /\ a_url v = url /\
         a_write v = false /\
         a_creds v = match key, secret with
           | Some k, Some sk => if negb (String.eqb k "") && negb (String.eqb sk "")
                                then Some (k, sk) else None
           | _, _ => None end)
  end.
Proof.
  unfold walrusd_vfs_attach_impl in Hcall. cbn in Hcall.
  destruct (WalrusdVFSAttach s n url (default "" key) (default "" secret)) as [s1 err] eqn:H.
  simplify_eq. pose proof H as H'.
  apply attach_cases in H as [->|(-> & Hn & creds & Hc & ->)]; cbn.
  - destruct err; [done|]. enough (default false (attached s !! n) = true) by auto.
    unfold WalrusdVFSAttach in H'.
    repeat (case_match; simplify_eq/=; try done).
    all: destruct s as [att reg]; cbn in *; simplify_eq;
      match goal with H : ?l ++ [_] = ?l |- _ =>
        apply (f_equal length) in H; rewrite length_app in H; cbn in H; lia
      | H : ?l = ?l ++ [_] |- _ =>
        apply (f_equal length) in H; rewrite length_app in H; cbn in H; lia end.
  - split; [by rewrite lookup_insert_eq|]. right. eexists. repeat split. cbn.
    destruct key as [k|], secret as [sk|]; cbn in *; try done.
    + by destruct (negb (String.eqb k "")).
Qed.

(** Attaching a name again with a different replica URL or other credentials
    reports success and changes nothing: the name keeps reading the first
    replica. *)
Theorem reattach_keeps_first_replica (s : vfs_state) (n url2 : string) (key secret : option string)
    (Hn : n <> "") (Ha : attached s !! n = Some true) :
  walrusd_vfs_attach_impl s [Some n; Some url2; key; secret] = (s, ResultNull).
Proof.
  cbn. unfold WalrusdVFSAttach. rewrite (proj2 (String.eqb_neq n "") Hn), Ha. done.
Qed.
End Attach.

(** ** Witnesses: a registry that accepts everything, S3 URLs only *)

Definition sample_client (url : string) : res string client_kind :=
  if String.eqb (String.substring 0 5 url) "s3://" then Ok S3Client else Err "bad url".

Lemma attach_result_witness :
  let s' := (walrusd_vfs_attach_impl sample_client (fun _ _ => None) init_state
              [Some "v"; Some "s3://b/r"; Some "k"; None]).1 in
  default false (attached s' !! "v") = true.
Proof.
  exact (proj1 (attach_result sample_client (fun _ _ => None) init_state _ "v" "s3://b/r"
    (Some "k") None ResultNull eq_refl)).
Defined.

Lemma reattach_keeps_first_replica_witness :
  let s := mkState {["v" := true]} [mkAttached "v" "s3://a/r" None false] in
  walrusd_vfs_attach_impl sample_client (fun _ _ => None) s
    [Some "v"; Some "s3://b/r"; None; None] = (s, ResultNull).
Proof.
  apply (reattach_keeps_first_replica sample_client (fun _ _ => None)); [discriminate|reflexivity].
Defined.
