(* ===== verification/RuntimeConfig.v ===== *)
(** * RuntimeConfig: the configuration of a runtime

    [runtime.Config], its defaults, the checks of [runtime.New]
    ([runtime/runtime.go]) and the reading of a request's knobs by
    [buildRuntimeConfig] ([bindings/c/api.go]). Durations are [int64]
    nanoseconds and wrap around. *)

From Stdlib Require Import SpecFloat.
From S2P Require Import Prelude Errors Lease Retry.

Definition minute : Z := 60 * second.

(** [time.Duration(v) * time.Millisecond] *)
Definition milliseconds (v : Z) : Z := wrap64 (v * millisecond).

(** ** [litestream.Config], [CompactionConfig], [runtime.Config] *)

Record lsConfig := mkLsConfig {
  VFSPageCacheBytes : Z;
  HydrationEnabled : bool;
  WriteBufferRootPath : string;
  ls_MaxTempWriteBuffer : Z;
  ReplicaCacheBytes : Z;
  LevelListingCacheTTL : Z;
}.

Definition defaultFileCacheBytes : Z := Z.shiftl 32 20.
Definition defaultLevelListingTTL : Z := 30 * second.
Definition lsDefaultConfig : lsConfig :=
  mkLsConfig 0 false "" 268435456 defaultFileCacheBytes defaultLevelListingTTL.

Record compactionConfig := mkCompaction {
  Enabled : bool;
  Interval : Z;
  Threshold : Z;
  Retention : Z;
  Timeout : Z;
  Workers : Z;
}.

Record runtimeConfig := mkRuntimeConfig {
  LeaseCfg : config;
  LitestreamCfg : lsConfig;
  RequestTimeout : Z;
  Policy : RetryPolicy;
  ReadInstanceIdleTTL : Z;
  MaxReadInstances : Z;
  MaxTempWriteBuffer : Z;
  CompactionCfg : compactionConfig;
  MaxReadResultBytes : Z;
  RequireFlushBeforeRelease : bool;
}.

Definition runtimeDefaultConfig : runtimeConfig :=
  mkRuntimeConfig DefaultConfig lsDefaultConfig (20 * second) DefaultRetryPolicy (60 * second) 200
    268435456 (mkCompaction true 8 8 (10 * minute) (30 * second) 4) 67108864 true.

Definition ClockSkew (c : runtimeConfig) : Z := ClockSkewAllowance (LeaseCfg c).

(** ** [runtime.New] *)

(** What [New] derives from the configuration and starts. *)
Record runtimeParams := mkParams {
  rt_cfg : runtimeConfig;
  bridge_cfg : lsConfig;
  leases : manager;
  compactionLeases : manager;
  reads_max : Z;
  reads_ttl : Z;
  dbLimit : Z;
  compaction_workers : Z;     (* goroutines started; 0 without compaction *)
}.

Definition with_duration (c : config) (d : Z) : config :=
  mkConfig d (ClockSkewAllowance c) (AcquireRetryBudget c) (RetryBackoffMin c) (RetryBackoffMax c).

Definition with_tempBuffer (c : lsConfig) (n : Z) : lsConfig :=
  mkLsConfig (VFSPageCacheBytes c) (HydrationEnabled c) (WriteBufferRootPath c) n
    (ReplicaCacheBytes c) (LevelListingCacheTTL c).

(** The lease configuration of compaction: at least a pass long. *)
Definition compactionLeaseConfig (c : runtimeConfig) : config :=
  let min := wrap64 (wrap64 (Timeout (CompactionCfg c) + ClockSkew c) + 2 * second) in
  if Duration (LeaseCfg c) <? min then with_duration (LeaseCfg c) min else LeaseCfg c.

Definition New (owner : string) (c : runtimeConfig) : res goerror runtimeParams :=
  if negb (RequireFlushBeforeRelease c)
  then Err (Errors.New ClassConfigurationInvalid "require_flush_before_release must be true")
  else if Duration (LeaseCfg c) <=? wrap64 (ClockSkew c + RequestTimeout c)
  then Err (Errors.New ClassConfigurationInvalid
              "lease duration must exceed request timeout + flush time + skew allowance")
  else
    let workers := Workers (CompactionCfg c) in
    Ok (mkParams c
          (with_tempBuffer (LitestreamCfg c) (MaxTempWriteBuffer c))
          (NewManager (LeaseCfg c) owner)
          (NewManager (compactionLeaseConfig c) owner)
          (MaxReadInstances c) (ReadInstanceIdleTTL c)
          (if MaxReadInstances c <=? 0 then 64 else MaxReadInstances c)
          (if Enabled (CompactionCfg c) then (if workers <=? 0 then 4 else workers) else 0)).

(** ** [buildRuntimeConfig] *)

(** [runtimeConfig] of the C interface: integers that are off when not
    positive, and pointers. *)
Record configRequest := mkConfigRequest {
  RequestTimeoutMs : Z;
  LeaseDurationMs : Z;
  ClockSkewMs : Z;
  AcquireRetryBudgetMs : Z;
  RetryBackoffMinMs : Z;
  RetryBackoffMaxMs : Z;
  RetryFixedDelayMs : option Z;
  RetryFixedCount : option Z;
  RetryMultiplier : option spec_float;
  RetryMaxDelayMs : option Z;
  RetryMaxTotalMs : option Z;
  r_WriteBufferRootPath : string;
  r_MaxReadInstances : option Z;
  ReadInstanceIdleTTLMs : option Z;
  r_VFSPageCacheBytes : option Z;
  r_MaxTempWriteBuffer : option Z;
  r_MaxReadResultBytes : option Z;
  r_ReplicaCacheBytes : option Z;
  LevelListingCacheTTLMs : option Z;
  CompactionEnabled : option bool;
  CompactionInterval : option Z;
  CompactionThreshold : option Z;
  CompactionRetentionMs : option Z;
  CompactionTimeoutMs : option Z;
  CompactionWorkers : option Z;
  RedisAddr : string;
  RedisPassword : string;
  RedisDB : Z;
}.

Definition emptyRequest : configRequest :=
  mkConfigRequest 0 0 0 0 0 0 None None None None None "" None None None None None None None
    None None None None None None "" "" 0.

Definition if_positive (v dflt : Z) : Z := if 0 <? v then milliseconds v else dflt.
Definition if_set_ms (v : option Z) (dflt : Z) : Z :=
  match v with Some v => milliseconds v | None => dflt end.

(** Every assignment of [buildRuntimeConfig] is to a different field. *)
Definition buildRuntimeConfig (r : configRequest) : runtimeConfig :=
  let d := runtimeDefaultConfig in
  let dl := LeaseCfg d in let ds := LitestreamCfg d in let dc := CompactionCfg d in
  let dp := Policy d in
  mkRuntimeConfig
    (mkConfig (if_positive (LeaseDurationMs r) (Duration dl))
              (if_positive (ClockSkewMs r) (ClockSkewAllowance dl))
              (if_positive (AcquireRetryBudgetMs r) (AcquireRetryBudget dl))
              (if_positive (RetryBackoffMinMs r) (RetryBackoffMin dl))
              (if_positive (RetryBackoffMaxMs r) (RetryBackoffMax dl)))
    (mkLsConfig (default (VFSPageCacheBytes ds) (r_VFSPageCacheBytes r))
                (HydrationEnabled ds)
                (if String.eqb (r_WriteBufferRootPath r) "" then WriteBufferRootPath ds
                 else r_WriteBufferRootPath r)
                (ls_MaxTempWriteBuffer ds)
                (default (ReplicaCacheBytes ds) (r_ReplicaCacheBytes r))
                (if_set_ms (LevelListingCacheTTLMs r) (LevelListingCacheTTL ds)))
    (if_positive (RequestTimeoutMs r) (RequestTimeout d))
    (mkPolicy (if_set_ms (RetryFixedDelayMs r) (FixedDelay dp))
              (default (FixedRetries dp) (RetryFixedCount r))
              (default (Multiplier dp) (RetryMultiplier r))
              (if_set_ms (RetryMaxDelayMs r) (MaxDelay dp))
              (if_set_ms (RetryMaxTotalMs r) (MaxTotal dp)))
    (if_set_ms (ReadInstanceIdleTTLMs r) (ReadInstanceIdleTTL d))
    (default (MaxReadInstances d) (r_MaxReadInstances r))
    (default (MaxTempWriteBuffer d) (r_MaxTempWriteBuffer r))
    (mkCompaction (default (Enabled dc) (CompactionEnabled r))
                  (default (Interval dc) (CompactionInterval r))
                  (default (Threshold dc) (CompactionThreshold r))
                  (if_set_ms (CompactionRetentionMs r) (Retention dc))
                  (if_set_ms (CompactionTimeoutMs r) (Timeout dc))
                  (default (Workers dc) (CompactionWorkers r)))
    (default (MaxReadResultBytes d) (r_MaxReadResultBytes r))
    (RequireFlushBeforeRelease d).

Example build_empty : buildRuntimeConfig emptyRequest = runtimeDefaultConfig.
Proof. reflexivity. Qed.

(** ** Facts *)

(** The first wrap above the range. *)
Lemma wrap64_above z : two63 <= z < two63 + two64 -> wrap64 z = z - two64.
Proof.
  intros Hz. unfold wrap64.
  rewrite <- (Z.mod_unique (z + two63) two64 1 (z + two63 - two64)); unfold two63, two64 in *; lia.
Qed.

(** A duration of at most a century or so, positive: what operators mean. *)
Definition sane (d : Z) : Prop := 0 <= d < two63 / 4.

(** A configuration request no conversion of which wraps around. *)
Lemma milliseconds_sane v : 0 <= v < 2305843009213 -> milliseconds v = v * millisecond /\ sane (milliseconds v).
Proof.
  intros Hv. unfold milliseconds. assert (wrap64 (v * millisecond) = v * millisecond) as ->.
  { apply wrap64_id. unfold int64_range, millisecond, two63. lia. }
  split; [done|]. unfold sane, millisecond. change (two63 / 4) with 2305843009213693952. lia.
Qed.

Lemma New_ok owner c p : New owner c = Ok p ->
  RequireFlushBeforeRelease c = true /\ wrap64 (ClockSkew c + RequestTimeout c) < Duration (LeaseCfg c) /\
  rt_cfg p = c /\ leases p = NewManager (LeaseCfg c) owner /\
  compactionLeases p = NewManager (compactionLeaseConfig c) owner.
Proof.
  unfold New. destruct (RequireFlushBeforeRelease c); [|done]. cbn [negb].
  destruct (_ <=? _) eqn:Hd; [done|]. bool_prop. intros [= <-]. cbn. repeat split; lia || done.
Qed.



(** The check of [New] adds two 64-bit durations, and [buildRuntimeConfig]
    multiplies the request's milliseconds without a bound: a request timeout
    of 292 years or more wraps to a negative duration, which every lease
    duration exceeds. [New] accepts it, and every request is then past its
    deadline when it starts. *)
Theorem overlong_timeout_accepted (owner : string) (r : configRequest)
    (Hr : 9223372036855 <= RequestTimeoutMs r < 18446744073709)
    (Hd : LeaseDurationMs r = 0) (Hs : ClockSkewMs r = 0) :
  let c := buildRuntimeConfig r in
  RequestTimeout c < 0 /\ exists p, New owner c = Ok p.
Proof.
  intros c. assert (RequestTimeout c = RequestTimeoutMs r * millisecond - two64) as Hq.
  { unfold c, buildRuntimeConfig, if_positive. cbn.
    rewrite (proj2 (Z.ltb_lt 0 _)) by lia. unfold milliseconds. apply wrap64_above.
    unfold millisecond, two63, two64. lia. }
  assert (- two63 <= RequestTimeout c < 0) as Hneg
    by (rewrite Hq; unfold millisecond, two63, two64; lia).
  split; [lia|]. unfold New.
  assert (RequireFlushBeforeRelease c = true) as -> by done.
  assert (Duration (LeaseCfg c) = 30 * second) as -> by (unfold c, buildRuntimeConfig; cbn; by rewrite Hd).
  assert (ClockSkew c = 2 * second) as ->
    by (unfold c, buildRuntimeConfig, ClockSkew; cbn; by rewrite Hs).
  rewrite wrap64_id by (unfold int64_range, second, two63 in *; lia).
  cbn [negb]. rewrite (proj2 (Z.leb_gt _ _)) by (unfold second; lia). eauto.
Qed.

Lemma overlong_timeout_accepted_witness :
  exists p, New "api-1" (buildRuntimeConfig
    (mkConfigRequest 9300000000000 0 0 0 0 0 None None None None None "" None None None None None None
       None None None None None None None "" "" 0)) = Ok p.
Proof.
  apply (overlong_timeout_accepted "api-1"
    (mkConfigRequest 9300000000000 0 0 0 0 0 None None None None None "" None None None None None None
       None None None None None None None "" "" 0)); [cbn [RequestTimeoutMs]; lia|reflexivity|reflexivity].
Defined.
