(* ===== verification/GoJson.v ===== *)
(** * GoJson: the strings [encoding/json] writes

    [json.Marshal] is the encoder of the C interface's envelopes. This file has
    its string encoder (with HTML escaping, the default), the integers it
    writes, and the facts a C client depends on: what is written has no zero
    byte, and the bytes of a string never look like the end of it. *)

From S2P Require Import Prelude CStrings.

Definition backslash : Ascii.ascii := chr 92.

(** ** UTF-8, as [utf8.DecodeRuneInString] accepts it *)

Definition between (lo hi : Z) (c : Ascii.ascii) : bool := (lo <=? code c) && (code c <=? hi).
Definition cont (c : Ascii.ascii) : bool := between 128 191 c.

(** The range of the second byte after the first of a three- or four-byte
    sequence. *)
Definition second3 (c0 c1 : Ascii.ascii) : bool :=
  if code c0 =? 224 then between 160 191 c1
  else if code c0 =? 237 then between 128 159 c1
  else between 225 239 c0 && cont c1.
Definition second4 (c0 c1 : Ascii.ascii) : bool :=
  if code c0 =? 240 then between 144 191 c1
  else if code c0 =? 244 then between 128 143 c1
  else between 241 243 c0 && cont c1.

(** ** Escapes *)

Definition hex (n : Z) : Ascii.ascii := chr (if n <? 10 then 48 + n else 87 + n).

(** [\u00XX]. *)
Definition unicode_escape (n : Z) : string :=
  String backslash (String "u"%char (String "0"%char (String "0"%char
    (String (hex (n / 16)) (String (hex (n mod 16)) EmptyString))))).
Definition replacement : string := String backslash "ufffd".
(** U+2028 and U+2029, by their last byte. *)
Definition line_separator (c2 : Ascii.ascii) : string :=
  String backslash ("u202" +:+ String (hex (code c2 - 160)) EmptyString).

(** The escape of a byte below 128 ([htmlSafeSet] tells which need none). *)
Definition escape_ascii (c : Ascii.ascii) : string :=
  let n := code c in
  if (n =? 34) || (n =? 92) then String backslash (String c EmptyString)
  else if n =? 8 then String backslash "b"
  else if n =? 12 then String backslash "f"
  else if n =? 10 then String backslash "n"
  else if n =? 13 then String backslash "r"
  else if n =? 9 then String backslash "t"
  else if (n <? 32) || (n =? 60) || (n =? 62) || (n =? 38) then unicode_escape n
  else String c EmptyString.

(** [appendString] between the quotes. *)
Fixpoint escape (s : string) : string :=
  match s with
  | EmptyString => EmptyString
  | String c0 s0 =>
      if code c0 <? 128 then escape_ascii c0 +:+ escape s0 else
      match s0 with
      | String c1 s1 =>
          if between 194 223 c0 && cont c1 then String c0 (String c1 (escape s1)) else
          match s1 with
          | String c2 s2 =>
              if between 224 239 c0 && second3 c0 c1 && cont c2 then
                (if (code c0 =? 226) && (code c1 =? 128) && between 168 169 c2
                 then line_separator c2
                 else String c0 (String c1 (String c2 EmptyString))) +:+ escape s2
              else
              match s2 with
              | String c3 s3 =>
                  if between 240 244 c0 && second4 c0 c1 && cont c2 && cont c3
                  then String c0 (String c1 (String c2 (String c3 (escape s3))))
                  else replacement +:+ escape s0
              | EmptyString => replacement +:+ escape s0
              end
          | EmptyString => replacement +:+ escape s0
          end
      | EmptyString => replacement +:+ escape s0
      end
  end.

Definition quoted (s : string) : string :=
  String dquote (escape s +:+ String dquote EmptyString).

Example escape_1 : escape (lit "a'b<" +:+ String (chr 10) (String (chr 195) (String (chr 169) ""))) =
  "a" +:+ String backslash (String dquote "b") +:+ String backslash "u003c" +:+ String backslash "n"
  +:+ String (chr 195) (String (chr 169) "").
Proof. vm_compute. reflexivity. Qed.
Example escape_2 : escape (String (chr 226) (String (chr 128) (String (chr 169) (String (chr 255) "")))) =
  String backslash "u2029" +:+ String backslash "ufffd".
Proof. vm_compute. reflexivity. Qed.

(** ** Induction over the encoder's pieces *)

(** What one step of [escape] writes: an escape sequence or bytes above 127
    or one plain byte. *)
Inductive piece : string -> Prop :=
  | piece_ascii c : code c < 128 -> piece (escape_ascii c)
  | piece_replacement : piece replacement
  | piece_separator c : between 168 169 c = true -> piece (line_separator c)
  | piece_high s : (forall c, c ∈ String.list_ascii_of_string s -> 128 <= code c) -> piece s.

Lemma between_spec lo hi c : between lo hi c = true <-> lo <= code c <= hi.
Proof. unfold between. rewrite andb_true_iff, !Z.leb_le. done. Qed.

Lemma second3_high c0 c1 : second3 c0 c1 = true -> 128 <= code c1.
Proof. unfold second3, cont. crush_match; rewrite ?andb_true_iff, !between_spec; lia. Qed.
Lemma second4_high c0 c1 : second4 c0 c1 = true -> 128 <= code c1.
Proof. unfold second4, cont. crush_match; rewrite ?andb_true_iff, !between_spec; lia. Qed.

(** A property of strings that holds of the empty one and is kept by writing
    a piece in front holds of everything [escape] writes. *)
Lemma escape_ind (P : string -> Prop) :
  P EmptyString -> (forall p s, piece p -> P s -> P (p +:+ s)) -> forall s, P (escape s).
Proof.
  intros Hn Hp s. remember (String.length s) as n eqn:Hlen.
  revert s Hlen. induction (lt_wf n) as [n _ IH]. intros s ->.
  assert (forall t, (String.length t < String.length s)%nat -> P (escape t)) as IH'
    by (intros t Ht; eapply IH; eauto). clear IH.
  destruct s as [|c0 s0]; [exact Hn|]. cbn [escape].
  destruct (code c0 <? 128) eqn:H0; bool_prop.
  { apply Hp; [by constructor|]. apply IH'. cbn. lia. }
  assert (P (replacement +:+ escape s0)) as Hrep.
  { apply Hp; [constructor|]. apply IH'. cbn. lia. }
  destruct s0 as [|c1 s1]; [done|].
  destruct (between 194 223 c0 && cont c1) eqn:H1.
  { bool_prop. unfold cont in *. rewrite between_spec in *.
    change (P (String c0 (String c1 "") +:+ escape s1)).
    apply Hp; [|apply IH'; cbn; lia]. apply piece_high. intros c. cbn.
    rewrite !elem_of_cons, elem_of_nil. intros [->|[->|[]]]; lia. }
  destruct s1 as [|c2 s2]; [done|].
  destruct (between 224 239 c0 && second3 c0 c1 && cont c2) eqn:H2.
  { apply Hp; [|apply IH'; cbn; lia]. bool_prop. pose proof (second3_high c0 c1 ltac:(done)).
    unfold cont in *. rewrite between_spec in *.
    destruct ((code c0 =? 226) && (code c1 =? 128) && between 168 169 c2) eqn:Hsep; bool_prop.
    - by apply piece_separator.
    - apply piece_high. intros c. cbn. rewrite !elem_of_cons, elem_of_nil. intros [->|[->|[->|[]]]]; lia. }
  destruct s2 as [|c3 s3]; [done|].
  destruct (between 240 244 c0 && second4 c0 c1 && cont c2 && cont c3) eqn:H4; [|done].
  bool_prop. pose proof (second4_high c0 c1 ltac:(done)). unfold cont in *. rewrite between_spec in *.
  change (P (String c0 (String c1 (String c2 (String c3 ""))) +:+ escape s3)).
  apply Hp; [|apply IH'; cbn; lia]. apply piece_high. intros c. cbn.
  rewrite !elem_of_cons, elem_of_nil. intros [->|[->|[->|[->|[]]]]]; lia.
Qed.

(** ** What a reader of the text can rely on *)

Lemma all_bytes (P : Ascii.ascii -> bool) :
  forallb (fun n => P (chr (Z.of_nat n))) (seq 0 256) = true -> forall c, P c = true.
Proof.
  intros H c. pose proof (code_range c) as Hc. rewrite List.forallb_forall in H.
  specialize (H (Z.to_nat (code c))). rewrite Z2Nat.id in H by lia.
  assert (chr (code c) = c) as Hcc.
  { apply code_inj. apply code_chr. lia. }
  rewrite Hcc in H. apply H. rewrite List.in_seq. lia.
Qed.

Lemma separators (P : Ascii.ascii -> bool) :
  forallb (fun n => P (chr n)) [168; 169] = true -> forall c, between 168 169 c = true -> P c = true.
Proof.
  intros H c Hc. rewrite between_spec in Hc. cbn in H. bool_prop.
  assert (c = chr 168 \/ c = chr 169) as [->| ->]; [|done|done].
  assert (code c = 168 \/ code c = 169) as [Hn|Hn] by lia; [left|right]; apply code_inj;
    rewrite Hn; reflexivity.
Qed.

Lemma no_nul_app a b : no_nul (a +:+ b) = no_nul a && no_nul b.
Proof.
  induction a as [|c a IH]; [done|].
  change (negb (code c =? 0) && no_nul (a +:+ b) = negb (code c =? 0) && no_nul a && no_nul b).
  by rewrite IH, andb_assoc.
Qed.

Lemma no_nul_high s : (forall c, c ∈ String.list_ascii_of_string s -> 128 <= code c) -> no_nul s = true.
Proof.
  induction s as [|c s IH]; intros Hs; [done|]. cbn in *.
  rewrite IH by (intros d Hd; apply Hs; by right).
  assert (128 <= code c) by (apply Hs; by left).
  by rewrite (proj2 (Z.eqb_neq (code c) 0)) by lia.
Qed.

Lemma escape_no_nul s : no_nul (escape s) = true.
Proof.
  apply (escape_ind (fun t => no_nul t = true)); [done|]. intros p t Hp Ht.
  rewrite no_nul_app, Ht, andb_true_r. destruct Hp as [c _| |c Hc|p Hp]; [|done| |by apply no_nul_high].
  - apply (all_bytes (fun c => no_nul (escape_ascii c))). vm_compute. reflexivity.
  - revert Hc. apply (separators (fun c => no_nul (line_separator c))). vm_compute. reflexivity.
Qed.

Lemma quoted_no_nul s : no_nul (quoted s) = true.
Proof.
  unfold quoted. change (no_nul (String dquote (escape s +:+ String dquote "")))
    with (negb (code dquote =? 0) && no_nul (escape s +:+ String dquote "")).
  by rewrite no_nul_app, escape_no_nul.
Qed.

(** An automaton that finds a [k], a quote, a colon and a [t]. *)
Definition look (st : nat) (c : Ascii.ascii) : option nat :=
  let restart := if code c =? 107 then 1%nat else 0%nat in
  match st with
  | 1%nat => Some (if code c =? 34 then 2%nat else restart)
  | 2%nat => Some (if code c =? 58 then 3%nat else restart)
  | 3%nat => if code c =? 116 then None else Some restart
  | _ => Some restart
  end.
Fixpoint scan_kt (st : nat) (s : string) : option nat :=
  match s with
  | EmptyString => Some st
  | String c s => match look st c with Some st => scan_kt st s | None => None end
  end.

Lemma scan_app st a b :
  scan_kt st (a +:+ b) = match scan_kt st a with Some st => scan_kt st b | None => None end.
Proof.
  revert st. induction a as [|c a IH]; intros st; [done|].
  change (match look st c with Some st => scan_kt st (a +:+ b) | None => None end =
          match scan_kt st (String c a) with Some st => scan_kt st b | None => None end).
  cbn. destruct (look st c); [apply IH|done].
Qed.

Definition outside (r : option nat) : bool := match r with Some 0%nat | Some 1%nat => true | _ => false end.

Lemma scan_high st s : (st <= 1)%nat ->
  (forall c, c ∈ String.list_ascii_of_string s -> 128 <= code c) -> outside (scan_kt st s) = true.
Proof.
  revert st. induction s as [|c s IH]; intros st Hst Hs; [by destruct st as [|[|]]; [| |lia]|].
  cbn in Hs. assert (128 <= code c) as Hc by (apply Hs; by left).
  assert (look st c = Some 0%nat) as Hl.
  { unfold look. rewrite (proj2 (Z.eqb_neq (code c) 107)), (proj2 (Z.eqb_neq (code c) 34)) by lia.
    by destruct st as [|[|]]; [| |lia]. }
  cbn. rewrite Hl. apply IH; [lia|]. intros d Hd. apply Hs. by right.
Qed.

(** Inside a string literal the automaton never gets past the [k]: the quotes
    are escaped. *)
Lemma scan_escape st s : (st <= 1)%nat -> outside (scan_kt st (escape s)) = true.
Proof.
  intros Hst. revert st Hst.
  apply (escape_ind (fun t => forall st, (st <= 1)%nat -> outside (scan_kt st t) = true)).
  { intros [|[|]] H; [done|done|lia]. }
  intros p t Hp Ht st Hst. rewrite scan_app.
  assert (outside (scan_kt st p) = true) as Ho.
  { assert (st = 0%nat \/ st = 1%nat) as Hor by lia.
    destruct Hp as [c _| |c Hc|p Hp]; [|by destruct Hor as [->| ->]| |by apply scan_high];
      destruct Hor as [->| ->].
    - apply (all_bytes (fun c => outside (scan_kt 0 (escape_ascii c)))). vm_compute. reflexivity.
    - apply (all_bytes (fun c => outside (scan_kt 1 (escape_ascii c)))). vm_compute. reflexivity.
    - revert Hc. apply (separators (fun c => outside (scan_kt 0 (line_separator c)))). vm_compute. reflexivity.
    - revert Hc. apply (separators (fun c => outside (scan_kt 1 (line_separator c)))). vm_compute. reflexivity. }
  destruct (scan_kt st p) as [[|[|]]|]; try done; apply Ht; lia.
Qed.

(** A text the automaton gets through does not contain that. *)
Lemma scan_strstr text needle pre post st :
  needle = pre +:+ (lit "k':t") +:+ post -> is_Some (scan_kt st text) -> strstr text needle = None.
Proof.
  intros -> [st' Hs]. destruct (strstr _ _) as [suf|] eqn:Hf; [exfalso|done].
  destruct (strstr_some _ _ _ Hf) as (a & b & -> & ->).
  rewrite !scan_app in Hs. destruct (scan_kt st a) as [s1|]; [|discriminate].
  rewrite !scan_app in Hs. destruct (scan_kt s1 pre) as [s2|]; [|cbn in Hs; discriminate].
  assert (scan_kt s2 (lit "k':t") = None) as Hn by (destruct s2 as [|[|[|[|]]]]; reflexivity).
  cbv beta iota in Hs. rewrite (scan_app s2), Hn in Hs. discriminate Hs.
Qed.

(** ** Integers *)

Lemma scan_digits fuel n acc st :
  0 <= n -> outside (scan_kt 0 acc) = true -> (st <= 1)%nat -> outside (scan_kt st acc) = true ->
  outside (scan_kt st (dec fuel n acc)) = true.
Proof.
  intros Hn H0. revert n acc st Hn H0. induction fuel as [|f IH]; intros n acc st Hn H0 Hst Hacc; [done|].
  assert (forall st, (st <= 1)%nat -> outside (scan_kt st (String (chr (48 + n `mod` 10)) acc)) = true) as Hd.
  { intros st' Hst'. cbn. pose proof (Z.mod_pos_bound n 10 ltac:(lia)) as Hb.
    assert (look st' (chr (48 + n `mod` 10)) = Some 0%nat) as ->; [|done].
    unfold look. rewrite code_chr by lia.
    rewrite (proj2 (Z.eqb_neq _ 107)), (proj2 (Z.eqb_neq _ 34)) by lia.
    by destruct st' as [|[|]]; [| |lia]. }
  cbn [dec]. destruct (n / 10 =? 0); [by apply Hd|].
  apply IH; [apply Z.div_pos; lia|by apply Hd; lia|done|by apply Hd].
Qed.

Lemma scan_fmt_d st z : (st <= 1)%nat -> 0 <= z -> outside (scan_kt st (fmt_d z)) = true.
Proof.
  intros Hst Hz. unfold fmt_d. rewrite (proj2 (Z.ltb_ge z 0)) by lia.
  apply scan_digits; try done. by destruct st as [|[|]]; [| |lia].
Qed.

Lemma dec_no_nul fuel n acc : 0 <= n -> no_nul acc = true -> no_nul (dec fuel n acc) = true.
Proof.
  revert n acc. induction fuel as [|f IH]; intros n acc Hn Ha; [done|].
  assert (no_nul (String (chr (48 + n `mod` 10)) acc) = true) as Hd.
  { cbn. pose proof (Z.mod_pos_bound n 10 ltac:(lia)). rewrite code_chr by lia.
    by rewrite (proj2 (Z.eqb_neq _ 0)), Ha by lia. }
  cbn [dec]. destruct (n / 10 =? 0); [done|]. apply IH; [apply Z.div_pos; lia|done].
Qed.

Lemma fmt_d_no_nul z : 0 <= z -> no_nul (fmt_d z) = true.
Proof. intros Hz. unfold fmt_d. rewrite (proj2 (Z.ltb_ge z 0)) by lia. by apply dec_no_nul. Qed.
