(* ===== verification/NodeAddon.v ===== *)
(** * NodeAddon: the Node-API addon ([bindings/node/native/walrusd.cc])

    The addon forwards JavaScript calls to the C interface. [write], [read] and
    [readDsn] run on a worker thread each and settle a promise through a
    threadsafe function. The model has the C++ heap of [CallWork] objects, the
    C strings the core returned, the worker threads with their program counters,
    the threadsafe functions with their queues and the promises; a step is one
    callback on the JavaScript thread or one access of a worker to shared
    memory. A use of freed memory, a call through a null pointer and an
    undefined conversion end the run with a fault. *)

From Stdlib Require Import SpecFloat.
From S2P Require Import Prelude CStrings CAbi.

(** ** What the addon is compiled and linked against *)

(** JavaScript values behind Node-API. A conversion of a value of another type
    fails and leaves its result variable as it was. *)
Class Napi := {
  value : Type;
  utf8 : value -> option string;          (* napi_get_value_string_utf8 *)
  get_value_int64 : value -> option Z;
  get_value_double : value -> option spec_float;
  create_string_utf8 : string -> value;
  create_int64 : Z -> value;
  create_error : value -> value;
  undefined : value;
  (** A number holds the integers up to 2^53 exactly. *)
  int64_exact (z : Z) : Z.abs z <= 9007199254740992 -> get_value_int64 (create_int64 z) = Some z;
}.

(** The three calls that take a request. *)
Inductive call_op := OpWrite | OpRead | OpReadDsn.
#[export] Instance call_op_eq_dec : EqDecision call_op.
Proof. solve_decision. Defined.

(** The C interface of the core over a state [C]. A request is passed as its
    bytes and an [int] that says how many of them to read; a string result is
    [None] for a null pointer, and a call is [None] if the core aborts the
    process (an unrecovered Go panic). *)
Class CoreAbi (C : Type) := {
  abi_call : call_op -> Z -> string -> Z -> Z -> C -> option (C * option string);
  abi_version : C -> option string;
  abi_init : string -> Z -> C -> option (C * Z);
  abi_init_error : C -> option string;
  abi_close : Z -> C -> option (C * option string);
}.

(** ** C++ values *)

(** [c_str()] read up to its first zero byte. *)
Fixpoint c_str (s : string) : string :=
  match s with
  | EmptyString => EmptyString
  | String c s => if code c =? 0 then EmptyString else String c (c_str s)
  end.

(** [std::string(len, '\0')]. *)
Fixpoint zeros (len : nat) : string :=
  match len with O => EmptyString | S n => String (chr 0) (zeros n) end.

(** [static_cast<uint64_t>] and [static_cast<int64_t>]. *)
Definition to_uint64 (z : Z) : Z := wrapu64 z.
Definition to_int64 (z : Z) : Z := wrap64 z.

(** [static_cast<long long>] of a [double]: truncation, undefined outside the
    range and for NaN. *)
Definition to_longlong (f : spec_float) : option Z :=
  match f with
  | S754_zero _ => Some 0
  | S754_finite s m e =>
      let a := if 0 <=? e then Z.pos m * 2 ^ e else Z.pos m / 2 ^ (- e) in
      let z := if s then - a else a in
      if (- two63 <=? z) && (z <? two63) then Some z else None
  | _ => None
  end.

Section Napi.
Context {NA : Napi}.

(** The pair of [napi_get_value_string_utf8] calls: one for the length, one into
    a buffer of that length and its terminator. *)
Definition value_length (v : value) : nat :=
  match utf8 v with Some s => String.length s | None => 0 end.
Definition copy_string (v : value) (bufsize : nat) (buf : string) : string :=
  match utf8 v with
  | Some s => sfirst (bufsize - 1) s +:+ sskip (Nat.min (bufsize - 1) (String.length s)) buf
  | None => buf
  end.
Definition get_string (v : value) : string :=
  let len := value_length v in
  copy_string v (len + 1) (zeros len).

Lemma zeros_length n : String.length (zeros n) = n.
Proof. induction n as [|n IH]; [done|]. cbn. by rewrite IH. Qed.

Lemma sskip_all n s : (String.length s <= n)%nat -> sskip n s = EmptyString.
Proof.
  revert n. induction s as [|c s IH]; intros [|n] Hn; cbn in *; try done; [lia|].
  apply IH. lia.
Qed.

(** The buffer is filled exactly: nothing is cut and no zero byte is left. *)
Lemma get_string_spec v : get_string v = default EmptyString (utf8 v).
Proof.
  unfold get_string, copy_string, value_length. destruct (utf8 v) as [s|]; [|done]. cbn [default].
  replace (String.length s + 1 - 1)%nat with (String.length s) by lia.
  rewrite sfirst_all, Nat.min_id, sskip_all by (rewrite ?zeros_length; lia). apply string_app_nil_r.
Qed.

Definition get_int64 (v : value) : Z := default 0 (get_value_int64 v).
Definition get_double (v : value) : spec_float := default (S754_zero false) (get_value_double v).

(** ** State *)

(** [CallWork]; [sym] is [None] when the pointer is null. *)
Record CallWork := mkWork {
  w_tsfn : nat;
  w_deferred : nat;
  w_sym : option call_op;
  w_handle : Z;
  w_req : string;
  w_deadline_ms : Z;
  w_result : string;
  w_error : string;
}.

(** The static function pointers: whether each is set. *)
Record symbols := mkSymbols {
  write_sym : bool; read_sym : bool; read_dsn_sym : bool; version_sym : bool;
  close_sym : bool; free_sym : bool; init_sym : bool; init_error_sym : bool;
}.
Definition no_symbols : symbols := mkSymbols false false false false false false false false.

Definition sym_of (s : symbols) (o : call_op) : option call_op :=
  let set := match o with OpWrite => write_sym s | OpRead => read_sym s | OpReadDsn => read_dsn_sym s end in
  if set then Some o else None.

(** A worker in [call_thread]: before the call, with the core's answer, before
    the delivery, after a refused delivery, before the release. *)
Inductive pc := Calling | Answered (r : option nat) | Delivering | Refused | Releasing.

(** A threadsafe function: its queue, its thread count, and whether the
    environment closed it. *)
Record tsfn := mkTsfn { queue : list nat; thread_count : nat; closing : bool }.

Inductive promise := Pending | Resolved (v : value) | Rejected (v : value).

(** What a native function hands back to JavaScript. *)
Inductive jsres := Returns (v : value) | ReturnsPromise (id : nat) | Throws (message : string).

Context {C : Type} {CA : CoreAbi C}.

(** [requests] and [replies] are history: what each call asked of the core and
    what the core answered. *)
Record state := mkState {
  core : C;
  syms : symbols;
  blocks : gmap nat string;       (* C strings returned by the core, not yet freed *)
  works : gmap nat CallWork;
  threads : gmap nat pc;          (* the worker of the work of that address *)
  tsfns : gmap nat tsfn;
  promises : gmap nat promise;
  next : nat;                     (* the next free address *)
  requests : gmap nat (option call_op * Z * string * Z);
  replies : gmap nat (option string);
}.

Definition init_state (c : C) : state := mkState c no_symbols ∅ ∅ ∅ ∅ ∅ 0 ∅ ∅.

Definition set_core (c : C) (s : state) : state :=
  mkState c (syms s) (blocks s) (works s) (threads s) (tsfns s) (promises s) (next s) (requests s) (replies s).
Definition set_syms (y : symbols) (s : state) : state :=
  mkState (core s) y (blocks s) (works s) (threads s) (tsfns s) (promises s) (next s) (requests s) (replies s).
Definition set_blocks (b : gmap nat string) (s : state) : state :=
  mkState (core s) (syms s) b (works s) (threads s) (tsfns s) (promises s) (next s) (requests s) (replies s).
Definition set_works (w : gmap nat CallWork) (s : state) : state :=
  mkState (core s) (syms s) (blocks s) w (threads s) (tsfns s) (promises s) (next s) (requests s) (replies s).
Definition set_threads (t : gmap nat pc) (s : state) : state :=
  mkState (core s) (syms s) (blocks s) (works s) t (tsfns s) (promises s) (next s) (requests s) (replies s).
Definition set_tsfns (f : gmap nat tsfn) (s : state) : state :=
  mkState (core s) (syms s) (blocks s) (works s) (threads s) f (promises s) (next s) (requests s) (replies s).
Definition set_promises (p : gmap nat promise) (s : state) : state :=
  mkState (core s) (syms s) (blocks s) (works s) (threads s) (tsfns s) p (next s) (requests s) (replies s).
Definition set_next (n : nat) (s : state) : state :=
  mkState (core s) (syms s) (blocks s) (works s) (threads s) (tsfns s) (promises s) n (requests s) (replies s).
Definition log_request (id : nat) r (s : state) : state :=
  mkState (core s) (syms s) (blocks s) (works s) (threads s) (tsfns s) (promises s) (next s) (<[id := r]> (requests s)) (replies s).
Definition log_reply (id : nat) r (s : state) : state :=
  mkState (core s) (syms s) (blocks s) (works s) (threads s) (tsfns s) (promises s) (next s) (requests s) (<[id := r]> (replies s)).

(** ** Memory *)

Inductive fault := CoreAborted | UseAfterFree | DoubleFree | NullCall | SettledTwice | BadConversion | ThreadFailed.

Definition read {A} (o : option A) : res fault A :=
  match o with Some a => Ok a | None => Err UseAfterFree end.

Definition read_work (id : nat) (s : state) : res fault CallWork := read (works s !! id).
Definition write_work (id : nat) (w : CallWork) (s : state) : state :=
  set_works (<[id := w]> (works s)) s.
Definition delete_work (id : nat) (s : state) : res fault state :=
  match works s !! id with
  | Some _ => Ok (set_works (delete id (works s)) s)
  | None => Err DoubleFree
  end.

(** [walrusd_free_sym(p)]; the core's [walrusd_free] ignores a null pointer. *)
Definition walrusd_free (b : option nat) (s : state) : res fault state :=
  if negb (free_sym (syms s)) then Err NullCall else
  match b with
  | None => Ok s
  | Some b => match blocks s !! b with
              | Some _ => Ok (set_blocks (delete b (blocks s)) s)
              | None => Err DoubleFree
              end
  end.

(** A string the core returns becomes a block at the address [a]. *)
Definition place (a : nat) (r : option string) (s : state) : option nat * state :=
  match r with
  | Some t => (Some a, set_blocks (<[a := t]> (blocks s)) s)
  | None => (None, s)
  end.

Definition set_tsfn (a : nat) (f : tsfn) (s : state) : state :=
  let destroyed := (thread_count f =? 0)%nat && bool_decide (queue f = []) in
  set_tsfns (if destroyed then delete a (tsfns s) else <[a := f]> (tsfns s)) s.

(** ** [call_thread], one access of shared memory at a time *)

Definition null_response : string := "walrusd: null response from core".

Definition with_error (w : CallWork) (e : string) : CallWork :=
  mkWork (w_tsfn w) (w_deferred w) (w_sym w) (w_handle w) (w_req w) (w_deadline_ms w) (w_result w) e.
Definition with_result (w : CallWork) (r : string) : CallWork :=
  mkWork (w_tsfn w) (w_deferred w) (w_sym w) (w_handle w) (w_req w) (w_deadline_ms w) r (w_error w).

Definition goto (id : nat) (p : pc) (s : state) : state := set_threads (<[id := p]> (threads s)) s.

(** [id] is the address of the worker's [CallWork]; the string the core returns
    to it is placed at the same number, in the other heap. *)
Definition call_thread (id : nat) (p : pc) (s : state) : res fault state :=
  match p with
  | Calling =>
      w ← read_work id s;
      match w_sym w with
      | None => Err NullCall
      | Some o =>
          match abi_call o (w_handle w) (w_req w) (wrap32 (slen (w_req w))) (w_deadline_ms w) (core s) with
          | None => Err CoreAborted
          | Some (c, r) =>
              let '(b, s) := place id r (log_reply id r (set_core c s)) in
              Ok (goto id (Answered b) s)
          end
      end
  | Answered None =>
      w ← read_work id s;
      Ok (goto id Delivering (write_work id (with_error w null_response) s))
  | Answered (Some b) =>
      w ← read_work id s;
      t ← read (blocks s !! b);
      s ← walrusd_free (Some b) (write_work id (with_result w (c_str t)) s);
      Ok (goto id Delivering s)
  | Delivering =>
      w ← read_work id s;
      f ← read (tsfns s !! w_tsfn w);
      if closing f then Ok (goto id Refused s)
      else Ok (goto id Releasing
                 (set_tsfn (w_tsfn w) (mkTsfn (queue f ++ [id]) (thread_count f) (closing f)) s))
  | Refused =>
      s ← delete_work id s;
      Ok (goto id Releasing s)
  | Releasing =>
      w ← read_work id s;
      f ← read (tsfns s !! w_tsfn w);
      Ok (set_threads (delete id (threads s))
            (set_tsfn (w_tsfn w) (mkTsfn (queue f) (thread_count f - 1) (closing f)) s))
  end.

(** ** Callbacks on the JavaScript thread *)

Definition settlement (w : CallWork) : promise :=
  if bool_decide (w_error w = EmptyString)
  then Resolved (create_string_utf8 (c_str (w_result w)))
  else Rejected (create_error (create_string_utf8 (c_str (w_error w)))).

Definition settle (d : nat) (v : promise) (s : state) : res fault state :=
  match promises s !! d with
  | Some Pending => Ok (set_promises (<[d := v]> (promises s)) s)
  | _ => Err SettledTwice
  end.

Definition call_deliver (env : bool) (id : nat) (s : state) : res fault state :=
  if negb env then delete_work id s else
  w ← read_work id s;
  s ← settle (w_deferred w) (settlement w) s;
  delete_work id s.

(** The event loop takes the head of a queue. *)
Definition deliver (a : nat) (s : state) : res fault state :=
  match tsfns s !! a with
  | Some (mkTsfn (id :: q) n cl) => s ← call_deliver true id s; Ok (set_tsfn a (mkTsfn q n cl) s)
  | _ => Ok s
  end.

(** The environment goes away: what is queued is handed over without an
    environment, and later deliveries are refused. *)
Fixpoint drain (ids : list nat) (s : state) : res fault state :=
  match ids with
  | [] => Ok s
  | id :: ids => s ← call_deliver false id s; drain ids s
  end.
Definition teardown (a : nat) (s : state) : res fault state :=
  match tsfns s !! a with
  | Some f => s ← drain (queue f) s; Ok (set_tsfn a (mkTsfn [] (thread_count f) true) s)
  | None => Ok s
  end.

(** ** The exported functions *)

(** What the system answers during a native call: [new], [napi_create_promise],
    [napi_create_threadsafe_function], [std::thread], and [dlopen] with the
    symbols [dlsym] finds. *)
Record native_env := mkEnv {
  new_ok : bool; promise_ok : bool; tsfn_ok : bool; thread_ok : bool;
  library : string -> option symbols; dlerror : string;
}.

Definition walrusd_call_async (o : call_op) (args : list value) (e : native_env) (s : state)
    : res fault (state * jsres) :=
  match args with
  | a0 :: a1 :: a2 :: _ =>
      let handleSigned := get_int64 a0 in
      let req := get_string a1 in
      let deadline := get_double a2 in
      if negb (new_ok e) then Ok (s, Throws "walrusd: out of memory") else
      match to_longlong deadline with
      | None => Err BadConversion
      | Some deadline_ms =>
          let id := next s in
          let w := mkWork id id (sym_of (syms s) o) (to_uint64 handleSigned) req deadline_ms "" "" in
          let s := write_work id w (set_next (S id) s) in
          if negb (promise_ok e) then
            s ← delete_work id s; Ok (s, Throws "walrusd: cannot create promise")
          else
            let s := set_promises (<[id := Pending]> (promises s)) s in
            if negb (tsfn_ok e) then
              s ← delete_work id s; Ok (s, Throws "walrusd: cannot create threadsafe function")
            else
              let s := set_tsfn id (mkTsfn [] 1 false) s in
              if negb (thread_ok e) then Err ThreadFailed else
              let s := goto id Calling s in
              Ok (log_request id (w_sym w, w_handle w, w_req w, w_deadline_ms w) s, ReturnsPromise id)
      end
  | _ => Ok (s, Throws "walrusd: call requires (handle, request, deadlineMs)")
  end.

Definition to_js_string_and_free (r : option string) (s : state) : res fault (state * jsres) :=
  let '(b, s) := place (next s) r s in
  match b, r with
  | Some b, Some t =>
      let out := create_string_utf8 (c_str t) in
      s ← walrusd_free (Some b) s;
      Ok (s, Returns out)
  | _, _ => Ok (s, Throws "walrusd: null response")
  end.

Definition walrusd_version (s : state) : res fault (state * jsres) :=
  if negb (version_sym (syms s)) then Err NullCall else
  to_js_string_and_free (abi_version (core s)) s.

Definition init_failed (detail : option string) : string :=
  match detail with
  | Some t => if bool_decide (c_str t = EmptyString) then "walrusd: init failed"
              else "walrusd: init failed: " +:+ c_str t
  | None => "walrusd: init failed"
  end.

Definition walrusd_init (args : list value) (s : state) : res fault (state * jsres) :=
  match args with
  | a0 :: _ =>
      let req := get_string a0 in
      if negb (init_sym (syms s)) then Err NullCall else
      match abi_init req (wrap32 (slen req)) (core s) with
      | None => Err CoreAborted
      | Some (c, h) =>
          let s := set_core c s in
          if h =? 0 then
            if init_error_sym (syms s) then
              let detail := abi_init_error (core s) in
              let '(b, s) := place (next s) detail s in
              s ← walrusd_free b s;
              Ok (s, Throws (init_failed detail))
            else Ok (s, Throws (init_failed None))
          else Ok (s, Returns (create_int64 (to_int64 h)))
      end
  | [] => Ok (s, Throws "walrusd: init requires a config string")
  end.

Definition walrusd_write := walrusd_call_async OpWrite.
Definition walrusd_read := walrusd_call_async OpRead.
Definition walrusd_read_dsn := walrusd_call_async OpReadDsn.

Definition walrusd_close (args : list value) (s : state) : res fault (state * jsres) :=
  match args with
  | a0 :: _ =>
      if negb (close_sym (syms s)) then Err NullCall else
      match abi_close (to_uint64 (get_int64 a0)) (core s) with
      | None => Err CoreAborted
      | Some (c, r) => to_js_string_and_free r (set_core c s)
      end
  | [] => Ok (s, Throws "walrusd: close requires a handle")
  end.

(** The pointers the addon cannot do without. *)
Definition required (y : symbols) : bool :=
  write_sym y && read_sym y && read_dsn_sym y && version_sym y && close_sym y && free_sym y && init_sym y.

Definition walrusd_load (args : list value) (e : native_env) (s : state) : res fault (state * jsres) :=
  match args with
  | a0 :: _ =>
      let path := get_string a0 in
      match library e (c_str path) with
      | None => Ok (s, Throws (dlerror e))
      | Some y =>
          let s := set_syms y s in
          if negb (required y) then Ok (s, Throws "walrusd: shared library missing required symbols")
          else Ok (s, Returns undefined)
      end
  | [] => Ok (s, Throws "walrusd: load requires the shared library path")
  end.

(** [Init]: the properties of the module. *)
Definition Init (name : string) : option (list value -> native_env -> state -> res fault (state * jsres)) :=
  assoc name
    [("load", walrusd_load);
     ("version", fun _ _ => walrusd_version);
     ("init", fun args _ => walrusd_init args);
     ("write", walrusd_write);
     ("read", walrusd_read);
     ("readDsn", walrusd_read_dsn);
     ("close", fun args _ => walrusd_close args)].

(** ** Steps *)

Inductive event :=
  | JsCall (name : string) (args : list value) (e : native_env)
  | Worker (id : nat)
  | Deliver (a : nat)
  | Teardown (a : nat).

Definition step (e : event) (s : state) : res fault (state * option jsres) :=
  match e with
  | JsCall name args e =>
      match Init name with
      | Some f => r ← f args e s; Ok (r.1, Some r.2)
      | None => Ok (s, None)
      end
  | Worker id =>
      match threads s !! id with
      | Some p => s ← call_thread id p s; Ok (s, None)
      | None => Ok (s, None)
      end
  | Deliver a => s ← deliver a s; Ok (s, None)
  | Teardown a => s ← teardown a s; Ok (s, None)
  end.

Fixpoint run (es : list event) (s : state) : res fault state :=
  match es with
  | [] => Ok s
  | e :: es => r ← step e s; run es r.1
  end.

Inductive reachable (c : C) : state -> Prop :=
  | reach_init : reachable c (init_state c)
  | reach_step s e s' o : reachable c s -> step e s = Ok (s', o) -> reachable c s'.

(** ** The life of one call *)

Definition request_of (w : CallWork) : option call_op * Z * string * Z :=
  (w_sym w, w_handle w, w_req w, w_deadline_ms w).

(** What a call may settle with, given the core's reply. *)
Definition answer (r : option string) : promise :=
  match r with
  | Some t => Resolved (create_string_utf8 (c_str t))
  | None => Rejected (create_error (create_string_utf8 (c_str null_response)))
  end.

(** [CallWork] before and after the worker has written the reply into it. *)
Definition blank (id : nat) (w : CallWork) : Prop :=
  w_tsfn w = id /\ w_deferred w = id /\ w_result w = "" /\ w_error w = "".
Definition filled (id : nat) (r : option string) (w : CallWork) : Prop :=
  w_tsfn w = id /\ w_deferred w = id /\ settlement w = answer r.

(** Everything the memory holds about the call of one address: its work, its
    worker, its threadsafe function, its promise, the core's string, and the
    history of its request and reply. *)
Inductive call_inv (id : nat) : option CallWork -> option pc -> option tsfn -> option promise ->
    option string -> option (option call_op * Z * string * Z) -> option (option string) -> Prop :=
  | ci_none p : p = None \/ p = Some Pending ->
      call_inv id None None None p None None None
  | ci_calling w cl : blank id w ->
      call_inv id (Some w) (Some Calling) (Some (mkTsfn [] 1 cl)) (Some Pending) None
        (Some (request_of w)) None
  | ci_null w cl : blank id w ->
      call_inv id (Some w) (Some (Answered None)) (Some (mkTsfn [] 1 cl)) (Some Pending) None
        (Some (request_of w)) (Some None)
  | ci_answered w cl t : blank id w ->
      call_inv id (Some w) (Some (Answered (Some id))) (Some (mkTsfn [] 1 cl)) (Some Pending) (Some t)
        (Some (request_of w)) (Some (Some t))
  | ci_delivering w cl r : filled id r w ->
      call_inv id (Some w) (Some Delivering) (Some (mkTsfn [] 1 cl)) (Some Pending) None
        (Some (request_of w)) (Some r)
  | ci_refused w r : filled id r w ->
      call_inv id (Some w) (Some Refused) (Some (mkTsfn [] 1 true)) (Some Pending) None
        (Some (request_of w)) (Some r)
  | ci_queued w r : filled id r w ->
      call_inv id (Some w) (Some Releasing) (Some (mkTsfn [id] 1 false)) (Some Pending) None
        (Some (request_of w)) (Some r)
  | ci_dangling cl p q r : p = answer r \/ p = Pending /\ cl = true ->
      call_inv id None (Some Releasing) (Some (mkTsfn [] 1 cl)) (Some p) None (Some q) (Some r)
  | ci_released w r : filled id r w ->
      call_inv id (Some w) None (Some (mkTsfn [id] 0 false)) (Some Pending) None
        (Some (request_of w)) (Some r)
  | ci_finished p q r : p = answer r \/ p = Pending ->
      call_inv id None None None (Some p) None (Some q) (Some r).

Definition at_address (P : nat -> option CallWork -> option pc -> option tsfn -> option promise ->
    option string -> option (option call_op * Z * string * Z) -> option (option string) -> Prop)
    (s : state) (id : nat) : Prop :=
  P id (works s !! id) (threads s !! id) (tsfns s !! id) (promises s !! id) (blocks s !! id)
    (requests s !! id) (replies s !! id).

Definition unused (_ : nat) (w : option CallWork) (t : option pc) (f : option tsfn)
    (p : option promise) (b : option string) (q : option (option call_op * Z * string * Z))
    (r : option (option string)) : Prop :=
  w = None /\ t = None /\ f = None /\ p = None /\ b = None /\ q = None /\ r = None.

Definition inv (s : state) : Prop :=
  (forall id, at_address call_inv s id) /\
  (forall id, (next s <= id)%nat -> at_address unused s id).

Lemma c_str_idem s : c_str (c_str s) = c_str s.
Proof. induction s as [|c s IH]; [done|]. cbn. destruct (code c =? 0) eqn:Hc; [done|]. cbn. by rewrite Hc, IH. Qed.

Lemma c_str_id s : no_nul s = true -> c_str s = s.
Proof.
  induction s as [|c s IH]; intros Hs; [done|]. cbn in *. apply andb_true_iff in Hs as [->%negb_true_iff Hs].
  by rewrite IH.
Qed.

Lemma blank_filled_null id w : blank id w -> filled id None (with_error w null_response).
Proof. intros (H1 & H2 & H3 & H4). by split_and!. Qed.

Lemma blank_filled_some id w t : blank id w -> filled id (Some t) (with_result w (c_str t)).
Proof.
  intros (H1 & H2 & H3 & H4). split_and!; [done|done|]. unfold settlement. cbn. rewrite H4. cbn.
  by rewrite c_str_idem.
Qed.

(** A step that touches the memory at one address only. *)
Definition same_at (s s' : state) (j : nat) : Prop :=
  works s' !! j = works s !! j /\ threads s' !! j = threads s !! j /\
  tsfns s' !! j = tsfns s !! j /\ promises s' !! j = promises s !! j /\
  blocks s' !! j = blocks s !! j /\ requests s' !! j = requests s !! j /\
  replies s' !! j = replies s !! j.

Lemma at_same P s s' j : same_at s s' j -> at_address P s j -> at_address P s' j.
Proof. unfold at_address. by intros (-> & -> & -> & -> & -> & -> & ->). Qed.

Lemma inv_update id s s' :
  inv s -> (id < next s)%nat -> next s' = next s ->
  (forall j, j <> id -> same_at s s' j) -> at_address call_inv s' id -> inv s'.
Proof.
  intros [Hc Hu] Hid Hn Hsame Hat. split.
  - intros j. destruct (decide (j = id)) as [->|Hj]; [done|]. eapply at_same; eauto.
  - intros j Hj. rewrite Hn in Hj. eapply at_same; [apply Hsame; lia|by apply Hu].
Qed.

(** A call that allocates the next address. *)
Lemma inv_alloc s s' :
  inv s -> next s' = S (next s) ->
  (forall j, j <> next s -> same_at s s' j) -> at_address call_inv s' (next s) -> inv s'.
Proof.
  intros [Hc Hu] Hn Hsame Hat. split.
  - intros j. destruct (decide (j = next s)) as [->|Hj]; [done|]. eapply at_same; eauto.
  - intros j Hj. rewrite Hn in Hj. eapply at_same; [apply Hsame; lia|apply Hu; lia].
Qed.

(** A step that leaves the calls alone. *)
Lemma inv_frame s s' :
  inv s -> next s' = next s -> (forall j, same_at s s' j) -> inv s'.
Proof.
  intros [Hc Hu] Hn Hsame. split; intros j.
  - eapply at_same; eauto.
  - intros Hj. rewrite Hn in Hj. eapply at_same; eauto.
Qed.

Lemma inv_init c : inv (init_state c).
Proof.
  split; intros id; unfold at_address; cbn; rewrite !lookup_empty.
  - constructor. by left.
  - done.
Qed.

Lemma in_use s id : inv s -> ~ at_address unused s id -> (id < next s)%nat.
Proof. intros [_ Hu] Hn. destruct (decide (id < next s)%nat) as [H|H]; [done|]. destruct Hn. apply Hu. lia. Qed.

(** The faults the addon can run into. *)
Definition null_symbol (s : state) : Prop :=
  required (syms s) = false \/ exists id w, works s !! id = Some w /\ w_sym w = None.

Definition dangling (s : state) (id : nat) : Prop :=
  threads s !! id = Some Releasing /\ works s !! id = None.

(** The core aborts in a call of some worker, of [init] or of [close]. *)
Definition core_aborts (s : state) : Prop :=
  (exists o h req n ms, abi_call o h req n ms (core s) = None) \/
  (exists req n, abi_init req n (core s) = None) \/ (exists h, abi_close h (core s) = None).

Lemma required_free s : free_sym (syms s) = false -> null_symbol s.
Proof. intros Hf. left. unfold required. by rewrite Hf, !andb_false_r, ?andb_false_l. Qed.

#[local] Ltac at_unfold H := unfold at_address in H.
#[local] Ltac frame_at :=
  let j := fresh "j" in let Hj := fresh "Hj" in
  intros j Hj; unfold same_at; cbn; repeat first [rewrite lookup_delete_ne by congruence | rewrite lookup_insert_ne by congruence]; done.
#[local] Ltac here :=
  unfold at_address; cbn; rewrite ?lookup_insert_eq, ?lookup_delete_eq.

Lemma call_thread_spec id p s :
  inv s -> threads s !! id = Some p ->
  match call_thread id p s with
  | Ok s' => inv s'
  | Err m => m = UseAfterFree /\ dangling s id \/ m = NullCall /\ null_symbol s \/
             m = CoreAborted /\ core_aborts s
  end.
Proof.
  intros Hinv Ht. pose proof (proj1 Hinv id) as Hat. unfold at_address in Hat. rewrite Ht in Hat.
  assert (id < next s)%nat as Hid.
  { apply (in_use _ _ Hinv). intros (_ & Hn & _). congruence. }
  inversion Hat as [|w cl Hb Hw Hp Hf Hpr Hbl Hq Hr|w cl Hb Hw Hp Hf Hpr Hbl Hq Hr
    |w cl t Hb Hw Hp Hf Hpr Hbl Hq Hr|w cl r Hb Hw Hp Hf Hpr Hbl Hq Hr|w r Hb Hw Hp Hf Hpr Hbl Hq Hr
    |w r Hb Hw Hp Hf Hpr Hbl Hq Hr|cl p0 q r Hb Hw Hp Hf Hpr Hbl Hq Hr| |]; subst p;
    symmetry in Hw, Hf, Hpr, Hbl, Hq, Hr; cbn [call_thread]; unfold read_work; rewrite ?Hw; cbn.
  - (* the call *)
    destruct (w_sym w) as [o|] eqn:Hs; [|right; left; split; [done|right; eauto]].
    destruct (abi_call _ _ _ _ _ _) as [[c [t|]]|] eqn:Hcall; cbn;
      [| |right; right; split; [done|left; eauto 10]];
      (apply (inv_update id s); [done|done|done|frame_at|]); here; rewrite ?Hw, ?Hf, ?Hpr, ?Hbl, ?Hq;
      by constructor.
  - apply (inv_update id s); [done|done|done|frame_at|]. here. rewrite ?Hf, ?Hpr, ?Hbl, ?Hq, ?Hr.
    exact (ci_delivering id _ cl None (blank_filled_null _ _ Hb)).
  - rewrite Hbl. cbn. unfold walrusd_free. cbn.
    destruct (free_sym (syms s)) eqn:Hfree; cbn; [|right; left; split; [done|by apply required_free]].
    rewrite Hbl. cbn. apply (inv_update id s); [done|done|done|frame_at|]. here.
    rewrite ?Hf, ?Hpr, ?Hbl, ?Hq, ?Hr.
    exact (ci_delivering id _ cl (Some t) (blank_filled_some _ _ t Hb)).
  - pose proof Hb as (Hts & _). rewrite Hts, Hf. cbn. destruct cl.
    + apply (inv_update id s); [done|done|done|frame_at|]. here.
      rewrite ?Hw, ?Hf, ?Hpr, ?Hbl, ?Hq, ?Hr. by constructor.
    + apply (inv_update id s); [done|done|done|frame_at|]. here.
      rewrite ?Hw, ?Hf, ?Hpr, ?Hbl, ?Hq, ?Hr. by constructor.
  - unfold delete_work. rewrite Hw. cbn. apply (inv_update id s); [done|done|done|frame_at|]. here.
    rewrite ?Hw, ?Hf, ?Hpr, ?Hbl, ?Hq, ?Hr. constructor. by right.
  - pose proof Hb as (Hts & _). rewrite Hts, Hf. cbn.
    apply (inv_update id s); [done|done|done|frame_at|]. here.
    rewrite ?Hw, ?Hf, ?Hpr, ?Hbl, ?Hq, ?Hr. by constructor.
  - left. split; [done|]. split; [congruence|done].
Qed.

Lemma call_deliver_spec b id q n cl s :
  inv s -> tsfns s !! id = Some (mkTsfn q n cl) ->
  match q with
  | [] => True
  | i :: q' => i = id /\ q' = [] /\ cl = false /\
      match call_deliver b i s with
      | Ok s' => forall cl', cl' = negb b -> inv (set_tsfn id (mkTsfn [] n cl') s') /\
                 tsfns s' = tsfns s
      | Err _ => False
      end
  end.
Proof.
  intros Hinv Ht. pose proof (proj1 Hinv id) as Hat. unfold at_address in Hat. rewrite Ht in Hat.
  assert (id < next s)%nat as Hid.
  { apply (in_use _ _ Hinv). intros (_ & _ & Hn & _). congruence. }
  inversion Hat as [| | | | | |w r Hb Hw Hp Hf Hpr Hbl Hq Hr| |w r Hb Hw Hp Hf Hpr Hbl Hq Hr|];
    subst q; subst; try done;
    symmetry in Hw, Hp, Hpr, Hbl, Hq, Hr; split_and!; try done;
    pose proof Hb as (Hts & Hd & Hset); destruct b; cbn; unfold read_work, delete_work;
    rewrite ?Hw; cbn; unfold settle; rewrite ?Hd, ?Hpr; cbn; rewrite ?Hw; cbn;
    intros cl' ->; (split; [|done]);
    (apply (inv_update id s); [done|done|done|frame_at|]); here;
    rewrite ?Hw, ?Hp, ?Hpr, ?Hbl, ?Hq, ?Hr, ?Hset; constructor; eauto.
Qed.

(** What can end a run: a worker that releases after its work was freed; a null
    function pointer; a deadline no [long long] holds; a thread that cannot be
    started (the exception leaves a C callback). *)
Definition allowed (e : event) (s : state) (m : fault) : Prop :=
  match m with
  | UseAfterFree => exists id, e = Worker id /\ dangling s id
  | NullCall => null_symbol s
  | CoreAborted => core_aborts s
  | BadConversion => exists name a0 a1 a2 args v, e = JsCall name (a0 :: a1 :: a2 :: args) v /\
      to_longlong (get_double a2) = None
  | ThreadFailed => exists name args v, e = JsCall name args v /\ thread_ok v = false
  | DoubleFree | SettledTwice => False
  end.

Lemma deliver_spec a s :
  inv s -> exists s', deliver a s = Ok s' /\ inv s'.
Proof.
  intros Hinv. unfold deliver. destruct (tsfns s !! a) as [[q n cl]|] eqn:Ht; [|eauto].
  pose proof (call_deliver_spec true a q n cl s Hinv Ht) as Hs.
  destruct q as [|i q]; [eauto|]. destruct Hs as (-> & -> & -> & Hs).
  destruct (call_deliver true a s) as [s'|]; [|done]. cbn. eexists. split; [done|].
  by apply Hs.
Qed.

Lemma teardown_spec a s :
  inv s -> exists s', teardown a s = Ok s' /\ inv s'.
Proof.
  intros Hinv. unfold teardown. destruct (tsfns s !! a) as [[q n cl]|] eqn:Ht; [|eauto]. cbn [queue].
  pose proof (call_deliver_spec false a q n cl s Hinv Ht) as Hs.
  destruct q as [|i q].
  - cbn. eexists. split; [done|]. pose proof (proj1 Hinv a) as Hat. unfold at_address in Hat.
    rewrite Ht in Hat.
    assert (a < next s)%nat as Ha.
    { apply (in_use _ _ Hinv). intros (_ & _ & Hn & _). congruence. }
    apply (inv_update a s); [done|done|done| |].
    + intros j Hj. unfold set_tsfn, same_at. cbn. destruct (_ && _)%bool;
        rewrite ?lookup_insert_ne, ?lookup_delete_ne by congruence; done.
    + unfold at_address. inversion Hat; subst; cbn; rewrite ?lookup_insert_eq;
        repeat match goal with H : _ = _ !! _ |- _ => symmetry in H end;
        repeat match goal with H : _ !! a = _ |- _ => rewrite H end;
        constructor; naive_solver.
  - destruct Hs as (-> & -> & -> & Hs). cbn [drain].
    destruct (call_deliver false a s) as [s'|]; [|done]. cbn. eexists. split; [done|].
    by apply Hs.
Qed.

(** A callback that leaves the calls alone and its possible fault. *)
Definition native_ok (s : state) (r : res fault (state * jsres)) : Prop :=
  match r with
  | Ok (s', _) => inv s'
  | Err m => m = NullCall /\ null_symbol s \/ m = CoreAborted /\ core_aborts s
  end.

Lemma next_block s : inv s -> blocks s !! next s = None.
Proof. intros Hinv. destruct (proj2 Hinv (next s) (Nat.le_refl _)) as (_ & _ & _ & _ & H & _). exact H. Qed.

(** A string that is placed, read and freed within one callback. *)
Lemma place_free s r :
  inv s -> match (let '(b, s) := place (next s) r s in walrusd_free b s) with
           | Ok s' => s' = s
           | Err m => m = NullCall /\ free_sym (syms s) = false
           end.
Proof.
  intros Hinv. destruct r as [t|]; cbn; unfold walrusd_free; cbn;
    destruct (free_sym (syms s)) eqn:Hf; cbn; try done.
  rewrite lookup_insert_eq. unfold set_blocks. cbn.
  rewrite delete_insert_id by (by apply next_block). by destruct s.
Qed.

Lemma to_js_spec r s : inv s -> native_ok s (to_js_string_and_free r s).
Proof.
  intros Hinv. pose proof (place_free s r Hinv) as Hp. unfold to_js_string_and_free.
  destruct r as [t|]; [|exact Hinv]. cbn in *.
  destruct (walrusd_free _ _) as [s'|m]; cbn; [by subst s'|].
  destruct Hp as [-> Hf]. left. split; [done|by apply required_free].
Qed.

Lemma inv_core c s : inv s -> inv (set_core c s).
Proof. intros Hinv. by apply (inv_frame s). Qed.

Lemma walrusd_init_spec args s : inv s -> native_ok s (walrusd_init args s).
Proof.
  intros Hinv. destruct args as [|a0 args]; [exact Hinv|]. cbn [walrusd_init].
  destruct (init_sym (syms s)) eqn:Hi; cbn;
    [|left; split; [done|left; unfold required; by rewrite Hi, andb_false_r]].
  destruct (abi_init _ _ _) as [[c h]|] eqn:Hinit; [|right; split; [done|right; left; eauto]].
  destruct (h =? 0); [|by apply inv_core].
  cbn [set_core syms]. destruct (init_error_sym (syms s)); [|by apply inv_core].
  pose proof (place_free (set_core c s) (abi_init_error c) (inv_core c s Hinv)) as Hp.
  cbn [core set_core]. destruct (place _ _ _) as [b s1].
  destruct (walrusd_free b s1) as [s'|m]; cbn; [subst s'; by apply inv_core|].
  destruct Hp as [-> Hf]. left. split; [done|by apply required_free].
Qed.

Lemma walrusd_close_spec args s : inv s -> native_ok s (walrusd_close args s).
Proof.
  intros Hinv. destruct args as [|a0 args]; [exact Hinv|]. cbn [walrusd_close].
  destruct (close_sym (syms s)) eqn:Hi; cbn;
    [|left; split; [done|left; unfold required; by rewrite Hi, ?andb_false_r]].
  destruct (abi_close _ _) as [[c r]|] eqn:Hclose; [|right; split; [done|right; right; eauto]].
  pose proof (to_js_spec r (set_core c s) (inv_core c s Hinv)) as Hj.
  destruct (to_js_string_and_free r (set_core c s)) as [[s' j]|m] eqn:Hjs; [exact Hj|].
  destruct Hj as [[-> Hn]|[-> _]]; [by left|].
  unfold to_js_string_and_free in Hjs. destruct r as [t|]; cbn in Hjs; [|done].
  unfold walrusd_free in Hjs. cbn in Hjs. destruct (free_sym (syms s)); cbn in Hjs; [|done].
  by rewrite lookup_insert_eq in Hjs.
Qed.

Lemma walrusd_version_spec s : inv s -> native_ok s (walrusd_version s).
Proof.
  intros Hinv. unfold walrusd_version.
  destruct (version_sym (syms s)) eqn:Hi; cbn; [by apply to_js_spec|].
  left. split; [done|left; unfold required; by rewrite Hi, ?andb_false_r].
Qed.

Lemma walrusd_load_spec args v s : inv s -> native_ok s (walrusd_load args v s).
Proof.
  intros Hinv. destruct args as [|a0 args]; [exact Hinv|]. cbn [walrusd_load].
  destruct (library v _) as [y|]; [|exact Hinv].
  destruct (required y); cbn; by apply (inv_frame s).
Qed.

Lemma walrusd_call_async_spec o args v s :
  inv s ->
  match walrusd_call_async o args v s with
  | Ok (s', _) => inv s'
  | Err m => (m = BadConversion /\ exists a0 a1 a2 args', args = a0 :: a1 :: a2 :: args' /\
                to_longlong (get_double a2) = None) \/ m = ThreadFailed /\ thread_ok v = false
  end.
Proof.
  intros Hinv. destruct args as [|a0 [|a1 [|a2 args]]]; try exact Hinv. cbn [walrusd_call_async].
  destruct (new_ok v); cbn; [|exact Hinv].
  destruct (to_longlong _) as [ms|] eqn:Hms; [|left; eauto 8].
  destruct (proj2 Hinv (next s) (Nat.le_refl _)) as (Hw & Ht & Hf & Hp & Hb & Hq & Hr).
  assert (forall s1, delete_work (next s) (write_work (next s) s1 (set_next (S (next s)) s))
            = Ok (set_next (S (next s)) s)) as Hdel.
  { intros w. unfold delete_work, write_work, set_works, set_next. cbn.
    rewrite lookup_insert_eq, delete_insert_id by done. done. }
  destruct (promise_ok v); cbn [negb].
  2: { rewrite Hdel. cbn. apply (inv_alloc s); [done|done|frame_at|]. here.
       rewrite Hw, Ht, Hf, Hp, Hb, Hq, Hr. constructor. by left. }
  destruct (tsfn_ok v); cbn [negb].
  2: { unfold delete_work. cbn. rewrite lookup_insert_eq. cbn.
       apply (inv_alloc s); [done|done|frame_at|]. here.
       rewrite Ht, Hf, Hb, Hq, Hr. constructor. by right. }
  destruct (thread_ok v); cbn [negb]; [|by right].
  apply (inv_alloc s); [done|done|frame_at|]. here. rewrite Hb, Hr. by constructor.
Qed.

Lemma step_spec e s :
  inv s -> match step e s with Ok (s', _) => inv s' | Err m => allowed e s m end.
Proof.
  intros Hinv. destruct e as [name args v|id|a|a]; cbn [step].
  - assert (forall r, native_ok s r ->
      match (p ← r; Ok (p.1, Some p.2)) with
      | Ok (s', _) => inv s' | Err m => allowed (JsCall name args v) s m end) as Hn.
    { intros [[s' j]|m] Hr; cbn in *; [done|]. by destruct Hr as [[-> Hr]|[-> Hr]]. }
    assert (forall o, match (p ← walrusd_call_async o args v s; Ok (p.1, Some p.2)) with
      | Ok (s', _) => inv s' | Err m => allowed (JsCall name args v) s m end) as Ha.
    { intros o. pose proof (walrusd_call_async_spec o args v s Hinv) as Hr.
      destruct (walrusd_call_async o args v s) as [[s' j]|m]; cbn in *; [done|].
      destruct Hr as [(-> & a0 & a1 & a2 & rest & -> & Hm)|[-> Hm]]; cbn.
      - by exists name, a0, a1, a2, rest, v.
      - by exists name, args, v. }
    unfold Init. cbn [assoc].
    repeat (destruct (String.eqb name _); [first [apply Ha | apply Hn;
      auto using walrusd_load_spec, walrusd_version_spec, walrusd_init_spec, walrusd_close_spec]|]).
    exact Hinv.
  - destruct (threads s !! id) as [p|] eqn:Ht; [|exact Hinv].
    pose proof (call_thread_spec id p s Hinv Ht) as Hs.
    destruct (call_thread id p s) as [s'|m]; cbn; [done|].
    destruct Hs as [[-> Hd]|[[-> Hn]|[-> Hn]]]; cbn; eauto.
  - destruct (deliver_spec a s Hinv) as (s' & -> & Hi). done.
  - destruct (teardown_spec a s Hinv) as (s' & -> & Hi). done.
Qed.

Lemma reached_inv c s : reachable c s -> inv s.
Proof.
  induction 1 as [|s e s' o _ IH Hs]; [apply inv_init|].
  pose proof (step_spec e s IH) as H. by rewrite Hs in H.
Qed.

(** ** Theorems *)

(** C17  Whatever JavaScript calls, however the workers and the event loop
    interleave and whenever the environment goes away: a settled promise holds
    the core's reply to its own call (a rejection only if the reply was null);
    a [CallWork] in memory belongs to a worker that has not passed it on or to
    the one queue that holds it; and when no worker and no threadsafe function
    is left, neither a [CallWork] nor a string of the core is. *)
Theorem addon_calls (c : C) (s : state) (Hr : reachable c s) :
  (forall id p, promises s !! id = Some p -> p <> Pending ->
     exists r, replies s !! id = Some r /\ p = answer r) /\
  (forall id w, works s !! id = Some w ->
     (exists p, threads s !! id = Some p /\ p <> Releasing /\
        forall f, tsfns s !! id = Some f -> queue f = []) \/
     (exists f, tsfns s !! id = Some f /\ queue f = [id])) /\
  (threads s = ∅ -> tsfns s = ∅ -> works s = ∅ /\ blocks s = ∅).
Proof.
  pose proof (proj1 (reached_inv c s Hr)) as Hc. split_and!.
  - intros id p Hp Hn. specialize (Hc id). unfold at_address in Hc. rewrite Hp in Hc.
    inversion Hc; subst; naive_solver.
  - intros id w Hw. specialize (Hc id). unfold at_address in Hc. rewrite Hw in Hc.
    inversion Hc; subst; naive_solver.
  - intros Ht Hf. split; apply map_eq; intros id; specialize (Hc id); unfold at_address in Hc;
      rewrite Ht, Hf, !lookup_empty in Hc; rewrite lookup_empty; inversion Hc; congruence.
Qed.

(** C18  The ways a run of the addon can end: a worker whose work was
    deleted under it, a null function pointer (the library was not loaded, or
    not when the call was made), a deadline outside [long long], a thread the
    system cannot start, or an abort of the core. In particular no work and no string of the core is
    freed twice, and no promise is settled twice. *)
Theorem addon_faults (c : C) (s : state) (e : event) (m : fault)
    (Hr : reachable c s) (He : step e s = Err m) : allowed e s m.
Proof. pose proof (step_spec e s (reached_inv c s Hr)) as Hs. by rewrite He in Hs. Qed.

(** [call_thread] reads [w->tsfn] after it has passed [w] on. When
    the delivery is refused it has just deleted [w] itself; when the event loop
    runs first, [call_deliver] has. In both cases the very next step of the
    worker reads freed memory. *)
Theorem release_reads_freed (c : C) (s : state) (id : nat) (Hr : reachable c s) :
  (threads s !! id = Some Refused ->
     run [Worker id; Worker id] s = Err UseAfterFree) /\
  (forall f, threads s !! id = Some Releasing -> tsfns s !! id = Some f -> queue f = [id] ->
     run [Deliver id; Worker id] s = Err UseAfterFree).
Proof.
  pose proof (proj1 (reached_inv c s Hr) id) as Hc. unfold at_address in Hc. split.
  - intros Ht. rewrite Ht in Hc. inversion Hc as [| | | | |w r Hf Hw| | | |]; subst.
    cbn [run step]. rewrite Ht. cbn. unfold delete_work. rewrite <- Hw. cbn.
    rewrite lookup_insert_eq. cbn. unfold read_work. cbn. by rewrite lookup_delete_eq.
  - intros f Ht Hf Hq. rewrite Ht, Hf in Hc.
    inversion Hc as [| | | | | |w r Hfi Hw Ht' Hf' Hp Hb Hq' Hr'|cl p q r Hp Hw Ht' Hf' Hpr Hb Hq' Hr'| |];
      subst; [|done].
    pose proof Hfi as (Hts & Hd & _).
    cbn [run step]. unfold deliver. rewrite Hf. cbn. unfold read_work, settle, delete_work.
    rewrite <- Hw. cbn. rewrite Hd, <- Hp. cbn. rewrite <- Hw. cbn. rewrite Ht. cbn.
    unfold read_work. cbn. by rewrite lookup_delete_eq.
Qed.

Lemma handle_back h : 0 < h <= 9007199254740992 ->
  to_uint64 (get_int64 (create_int64 (to_int64 h))) = h.
Proof.
  intros Hh. unfold to_int64, get_int64, to_uint64. rewrite wrap64_id by (unfold int64_range, two63; lia).
  rewrite int64_exact by lia. cbn. apply wrapu64_id. unfold two64. lia.
Qed.

Lemma sym_loaded y o : required y = true -> sym_of y o = Some o.
Proof. intros Hy. unfold required in Hy. bool_prop. by destruct o; unfold sym_of; case_match. Qed.

Definition op_name (o : call_op) : string :=
  match o with OpWrite => "write" | OpRead => "read" | OpReadDsn => "readDsn" end.

Definition all_ok (v : native_env) : Prop :=
  new_ok v = true /\ promise_ok v = true /\ tsfn_ok v = true /\ thread_ok v = true.

(** A state that differs from [s0] at the address [id] only, where it has the
    given objects. *)
Definition put {V} (id : nat) (o : option V) (m : gmap nat V) : gmap nat V :=
  match o with Some a => <[id := a]> m | None => delete id m end.

Lemma put_lookup {V} id (o : option V) m : put id o m !! id = o.
Proof. destruct o; cbn; [apply lookup_insert_eq|apply lookup_delete_eq]. Qed.
Lemma put_insert {V} id (o : option V) m a : <[id := a]> (put id o m) = put id (Some a) m.
Proof. destruct o; cbn; [apply insert_insert_eq|apply insert_delete_eq]. Qed.
Lemma put_delete {V} id (o : option V) m : delete id (put id o m) = put id None m.
Proof. destruct o; cbn; [apply delete_insert_eq|apply delete_delete_eq]. Qed.

Definition around (s0 : state) (id : nat) c w t f p b (s : state) : Prop :=
  core s = c /\ syms s = syms s0 /\ works s = put id w (works s0) /\
  threads s = put id t (threads s0) /\ tsfns s = put id f (tsfns s0) /\
  promises s = put id p (promises s0) /\ blocks s = put id b (blocks s0).

#[local] Ltac known H :=
  let Hc := fresh "Hc" in let Hy := fresh "Hy" in let Hw := fresh "Hw" in let Ht := fresh "Ht" in
  let Hf := fresh "Hf" in let Hp := fresh "Hp" in let Hb := fresh "Hb" in
  destruct H as (Hc & Hy & Hw & Ht & Hf & Hp & Hb); cbn [step];
  rewrite ?Hf, ?Ht, ?put_lookup; cbn [call_thread]; unfold read_work; rewrite ?Hw, ?put_lookup;
  cbn [read mbind res_bind].
(** The state after the step, and its maps. *)
#[local] Ltac stepped :=
  eexists; split; [reflexivity|]; unfold around; cbn -[put];
  repeat match goal with H : _ = put _ _ _ |- _ => rewrite H; clear H end;
  rewrite ?put_insert, ?put_delete; split_and!; done.

Lemma call_made s0 o a0 a1 a2 v h req ms :
  required (syms s0) = true -> all_ok v -> to_uint64 (get_int64 a0) = h ->
  utf8 a1 = Some req -> to_longlong (get_double a2) = Some ms ->
  let w := mkWork (next s0) (next s0) (Some o) h req ms "" "" in
  exists s, around s0 (next s0) (core s0) (Some w) (Some Calling) (Some (mkTsfn [] 1 false))
      (Some Pending) (blocks s0 !! next s0) s /\
    step (JsCall (op_name o) [a0; a1; a2] v) s0 = Ok (s, Some (ReturnsPromise (next s0))).
Proof.
  intros Hy (Hv1 & Hv2 & Hv3 & Hv4) Hh Hreq Hms w. eexists. split; cycle 1.
  - assert (step (JsCall (op_name o) [a0; a1; a2] v) s0 =
      (r ← walrusd_call_async o [a0; a1; a2] v s0; Ok (r.1, Some r.2))) as ->
      by (destruct o; reflexivity).
    unfold walrusd_call_async.
    rewrite Hv1, Hms, Hv2, Hv3, Hv4, get_string_spec, Hreq, Hh, (sym_loaded _ o Hy). reflexivity.
  - unfold around. cbn. split_and!; try done. unfold put. destruct (blocks s0 !! next s0) eqn:Hb.
    + by rewrite insert_id.
    + by rewrite delete_id.
Qed.

Definition block_of (id : nat) (r : option string) : option nat :=
  match r with Some _ => Some id | None => None end.

Lemma worker_calls s0 id c w f s o c' r :
  around s0 id c (Some w) (Some Calling) (Some f) (Some Pending) None s -> w_sym w = Some o ->
  abi_call o (w_handle w) (w_req w) (wrap32 (slen (w_req w))) (w_deadline_ms w) c = Some (c', r) ->
  exists s', step (Worker id) s = Ok (s', None) /\
    around s0 id c' (Some w) (Some (Answered (block_of id r))) (Some f) (Some Pending) r s'.
Proof.
  intros H Hs Hcall. known H. rewrite Hs, Hc, Hcall. destruct r as [t|]; cbn [place]; stepped.
Qed.

Definition fill (w : CallWork) (r : option string) : CallWork :=
  match r with Some t => with_result w (c_str t) | None => with_error w null_response end.

Lemma worker_fills s0 id c w f s r :
  around s0 id c (Some w) (Some (Answered (block_of id r))) (Some f) (Some Pending) r s ->
  free_sym (syms s0) = true ->
  exists s', step (Worker id) s = Ok (s', None) /\
    around s0 id c (Some (fill w r)) (Some Delivering) (Some f) (Some Pending) None s'.
Proof.
  intros H Hfree. destruct r as [t|]; cbn [block_of] in H; known H.
  - rewrite Hb, put_lookup. cbn [read mbind res_bind].
    unfold walrusd_free. cbn [syms write_work set_works blocks]. rewrite Hy, Hfree, Hb, put_lookup.
    cbn [negb mbind res_bind]. stepped.
  - stepped.
Qed.

Lemma worker_delivers s0 id c w n s :
  around s0 id c (Some w) (Some Delivering) (Some (mkTsfn [] (S n) false)) (Some Pending) None s ->
  w_tsfn w = id ->
  exists s', step (Worker id) s = Ok (s', None) /\
    around s0 id c (Some w) (Some Releasing) (Some (mkTsfn [id] (S n) false)) (Some Pending) None s'.
Proof.
  intros H Hid. known H. rewrite Hid, Hf, put_lookup. cbn [read mbind res_bind closing]. stepped.
Qed.

Lemma worker_releases s0 id c w s :
  around s0 id c (Some w) (Some Releasing) (Some (mkTsfn [id] 1 false)) (Some Pending) None s ->
  w_tsfn w = id ->
  exists s', step (Worker id) s = Ok (s', None) /\
    around s0 id c (Some w) None (Some (mkTsfn [id] 0 false)) (Some Pending) None s'.
Proof.
  intros H Hid. known H. rewrite Hid, Hf, put_lookup. cbn [read mbind res_bind closing]. stepped.
Qed.

Lemma loop_delivers s0 id c w s :
  around s0 id c (Some w) None (Some (mkTsfn [id] 0 false)) (Some Pending) None s ->
  w_deferred w = id ->
  exists s', step (Deliver id) s = Ok (s', None) /\
    around s0 id c None None None (Some (settlement w)) None s'.
Proof.
  intros H Hid. known H. unfold deliver. rewrite Hf, put_lookup. unfold call_deliver, read_work.
  cbn [negb]. rewrite Hw, put_lookup. cbn [read mbind res_bind]. unfold settle.
  rewrite Hid, Hp, put_lookup. cbn [mbind res_bind]. unfold delete_work. cbn [set_promises works].
  rewrite Hw, put_lookup. cbn [mbind res_bind]. stepped.
Qed.

Lemma fill_spec id w r : blank id w -> filled id r (fill w r).
Proof. destruct r; [apply blank_filled_some|apply blank_filled_null]. Qed.

(** One call, from JavaScript to its settled promise, when nothing interferes. *)
Lemma call_runs (c : C) (s : state) (o : call_op) (a0 a1 a2 : value) (h ms : Z) (req : string)
    (v : native_env) (core' : C) (r : option string) :
  reachable c s -> required (syms s) = true -> all_ok v ->
  to_uint64 (get_int64 a0) = h -> utf8 a1 = Some req -> to_longlong (get_double a2) = Some ms ->
  abi_call o h req (wrap32 (slen req)) ms (core s) = Some (core', r) ->
  let id := next s in
  exists s',
    run (JsCall (op_name o) [a0; a1; a2] v
           :: [Worker id; Worker id; Worker id; Worker id; Deliver id]) s = Ok s' /\
    core s' = core' /\ promises s' = <[id := answer r]> (promises s) /\
    works s' = works s /\ threads s' = threads s /\ tsfns s' = tsfns s /\ blocks s' = blocks s.
Proof.
  intros Hr Hloaded Hv Hback Hreq Hms Hcall id.
  destruct (proj2 (reached_inv c s Hr) id (Nat.le_refl _)) as (Hw & Ht & Hf & Hp & Hb & _).
  assert (free_sym (syms s) = true) as Hfree by (unfold required in Hloaded; by bool_prop).
  destruct (call_made s o a0 a1 a2 v h req ms Hloaded Hv Hback Hreq Hms) as (s1 & A1 & E1).
  set (w := mkWork id id (Some o) h req ms "" "") in *. fold id in A1, E1. rewrite Hb in A1.
  pose proof (fill_spec id w r ltac:(by split_and!)) as (Hts & Hd & Hset).
  destruct (worker_calls s id _ w _ s1 o core' r A1 eq_refl Hcall) as (s2 & E2 & A2).
  destruct (worker_fills s id _ w _ s2 r A2 Hfree) as (s3 & E3 & A3).
  destruct (worker_delivers s id _ _ _ s3 A3 Hts) as (s4 & E4 & A4).
  destruct (worker_releases s id _ _ s4 A4 Hts) as (s5 & E5 & A5).
  destruct (loop_delivers s id _ _ s5 A5 Hd) as (s6 & E6 & A6).
  exists s6. cbn [run]. rewrite E1. cbn [mbind res_bind fst].
  rewrite E2. cbn [mbind res_bind fst]. rewrite E3. cbn [mbind res_bind fst].
  rewrite E4. cbn [mbind res_bind fst]. rewrite E5. cbn [mbind res_bind fst].
  rewrite E6. cbn [mbind res_bind fst]. split; [reflexivity|].
  destruct A6 as (Hc6 & _ & -> & -> & -> & -> & ->). cbn [put].
  rewrite Hset, !delete_id by done. done.
Qed.

(** A call made with a handle that [init] returned reaches the
    core with that handle, all the bytes of the request and the truncated
    deadline; and once the worker has run and the event loop delivers, the
    promise is settled with the core's reply and the call has left nothing in
    memory. *)
Theorem call_settles (c : C) (s : state) (o : call_op) (h ms : Z) (a1 a2 : value) (req : string)
    (v : native_env)
    (Hr : reachable c s) (Hloaded : required (syms s) = true) (Hv : all_ok v)
    (Hh : 0 < h <= 9007199254740992) (Hreq : utf8 a1 = Some req)
    (Hms : to_longlong (get_double a2) = Some ms)
    (core' : C) (r : option string)
    (Hcall : abi_call o h req (wrap32 (slen req)) ms (core s) = Some (core', r)) :
  let id := next s in
  exists s',
    run (JsCall (op_name o) [create_int64 (to_int64 h); a1; a2] v
           :: [Worker id; Worker id; Worker id; Worker id; Deliver id]) s = Ok s' /\
    core s' = core' /\ promises s' = <[id := answer r]> (promises s) /\
    works s' = works s /\ threads s' = threads s /\ tsfns s' = tsfns s /\ blocks s' = blocks s.
Proof.
  exact (call_runs c s o _ a1 a2 h ms req v core' r Hr Hloaded Hv (handle_back h Hh) Hreq Hms Hcall).
Qed.

(** What [load] does with the function pointers, on every branch. *)
Theorem load_spec (a0 : value) (v : native_env) (s : state) :
  match library v (c_str (get_string a0)) with
  | None => walrusd_load [a0] v s = Ok (s, Throws (dlerror v))
  | Some y =>
      walrusd_load [a0] v s = Ok (set_syms y s,
        if required y then Returns undefined
        else Throws "walrusd: shared library missing required symbols")
  end.
Proof. cbn [walrusd_load]. destruct (library v _) as [y|]; [|done]. by destruct (required y). Qed.

(** [load] assigns the pointers before it checks them: loading a library
    without [walrusd_runtime_version] reports the error to its caller and leaves
    every other user of the module with a null pointer, so a [version] that
    worked before the failed [load] then calls it. *)
Theorem failed_load_breaks (a0 : value) (v : native_env) (s : state) (y : symbols)
    (Hy : library v (c_str (get_string a0)) = Some y) (Hm : version_sym y = false) :
  exists s' message,
    step (JsCall "load" [a0] v) s = Ok (s', Some (Throws message)) /\
    step (JsCall "version" [] v) s' = Err NullCall.
Proof.
  pose proof (load_spec a0 v s) as Hl. rewrite Hy in Hl.
  assert (required y = false) as Hreq by (unfold required; by rewrite Hm, !andb_false_r).
  rewrite Hreq in Hl. cbn [step]. unfold Init. cbn -[walrusd_load walrusd_version].
  rewrite Hl. cbn -[walrusd_version]. eexists _, _. split; [reflexivity|].
  unfold walrusd_version. cbn. by rewrite Hm.
Qed.

(** A failed [init] throws a message that starts with the addon's own text and
    carries the core's; a successful one returns the handle as a number. *)
Theorem init_spec (c : C) (s : state) (a0 : value) (Hr : reachable c s)
    (Hloaded : required (syms s) = true) :
  let req := default EmptyString (utf8 a0) in
  walrusd_init [a0] s =
    match abi_init req (wrap32 (slen req)) (core s) with
    | None => Err CoreAborted
    | Some (core', h) => Ok (set_core core' s,
        if h =? 0
        then Throws (init_failed (if init_error_sym (syms s) then abi_init_error core' else None))
        else Returns (create_int64 (to_int64 h)))
    end.
Proof.
  intros req. cbn [walrusd_init]. rewrite get_string_spec. fold req.
  assert (init_sym (syms s) = true) as -> by (unfold required in Hloaded; by bool_prop). cbn [negb].
  destruct (abi_init req (wrap32 (slen req)) (core s)) as [[core' h]|]; [|done].
  destruct (h =? 0); [|done].
  cbn [syms set_core]. destruct (init_error_sym (syms s)); [|done].
  pose proof (place_free (set_core core' s) (abi_init_error core') (inv_core _ _ (reached_inv _ _ Hr))) as Hp.
  cbn [core set_core]. destruct (place _ _ _) as [b s1].
  destruct (walrusd_free b s1) as [s'|m]; cbn; [by subst s'|].
  destruct Hp as [_ Hf]. cbn in Hf. unfold required in Hloaded. rewrite Hf, !andb_false_r in Hloaded. done.
Qed.

End Napi.

(** ** A concrete JavaScript and a concrete core, for the witnesses *)

Module Concrete.

Inductive js := JStr (s : string) | JInt (z : Z) | JDouble (f : spec_float) | JError (v : js) | JUndefined.

(** An integer as a double, its digits not normalised. *)
Definition double_of (z : Z) : spec_float :=
  match z with
  | Z0 => S754_zero false
  | Zpos p => S754_finite false p 0
  | Zneg p => S754_finite true p 0
  end.

(** Integers are exact up to 2^53; beyond, the low bits are lost. *)
Definition round_int (z : Z) : Z := if Z.abs z <=? 9007199254740992 then z else z - z mod 2048.

Lemma js_exact z : Z.abs z <= 9007199254740992 ->
  match JInt (round_int z) with JInt z => Some z | JDouble f => to_longlong f | _ => None end = Some z.
Proof. intros Hz. unfold round_int. by rewrite (proj2 (Z.leb_le _ _) Hz). Qed.

#[export] Instance node : Napi := {|
  value := js;
  utf8 v := match v with JStr s => Some s | _ => None end;
  get_value_int64 v := match v with JInt z => Some z | JDouble f => to_longlong f | _ => None end;
  get_value_double v := match v with
    | JInt z => Some (double_of z) | JDouble f => Some f | _ => None end;
  create_string_utf8 := JStr;
  create_int64 z := JInt (round_int z);
  create_error := JError;
  undefined := JUndefined;
  int64_exact := js_exact;
|}.

(** The core counts the calls; a request without bytes gets a null answer. *)
#[export] Instance echo : CoreAbi nat := {|
  abi_call o h req n deadline c := Some (S c, if n =? 0 then None else Some ("ok:" +:+ req));
  abi_version _ := Some "1";
  abi_init req n c := Some (c, if n =? 0 then 0 else 7);
  abi_init_error c := Some "invalid init request";
  abi_close h c := Some (c, Some "closed");
|}.

Definition full : symbols := mkSymbols true true true true true true true true.
Definition fine (y : symbols) : native_env :=
  mkEnv true true true true (fun _ => Some y) "".

Definition number (z : Z) : js := JInt z.
Definition a_call (req : string) : event := JsCall "write" [JInt 7; JStr req; JInt 1000] (fine full).
Definition a_load : event := JsCall "load" [JStr "libwalrusd.so"] (fine full).

Definition after (es : list event) : state := match run es (init_state 0%nat) with Ok s => s | Err _ => init_state 0%nat end.

Lemma run_reachable es c s s' : reachable c s -> run es s = Ok s' -> reachable c s'.
Proof.
  revert s. induction es as [|e es IH]; intros s Hs He; cbn in He; [by simplify_eq|].
  destruct (step e s) as [[s1 o]|m] eqn:Hst; [|done]. cbn in He. eapply IH; [|exact He].
  by econstructor.
Qed.

Lemma after_reachable es : is_ok (run es (init_state 0%nat)) = true -> reachable 0%nat (after es).
Proof.
  unfold after. destruct (run es _) as [s|] eqn:Hr; [|done]. intros _.
  eapply run_reachable; [apply reach_init|exact Hr].
Qed.

End Concrete.
Import Concrete.

(** Two calls, the second still waiting for the core; one call queued. *)
Definition two_calls : list event :=
  [a_load; a_call "x"; a_call ""; Worker 0; Worker 0; Worker 0; Worker 1; Worker 0; Deliver 0].
Definition one_queued : list event := [a_load; a_call "x"; Worker 0; Worker 0; Worker 0].

Lemma addon_calls_witness :
  exists r, replies (after two_calls) !! 0%nat = Some r /\ Resolved (JStr "ok:x") = answer r.
Proof.
  assert (reachable 0%nat (after two_calls)) as Hr by (apply after_reachable; vm_compute; reflexivity).
  assert (promises (after two_calls) !! 0%nat = Some (Resolved (JStr "ok:x"))) as Hp.
  { vm_cast_no_check (eq_refl (Some (Resolved (JStr "ok:x")))). }
  exact (proj1 (addon_calls 0%nat (after two_calls) Hr) 0%nat _ Hp ltac:(discriminate)).
Defined.

(** Witness: a call made before any library is loaded. *)
Lemma addon_faults_witness :
  step (Worker 0) (after [a_call "x"]) = Err NullCall /\ null_symbol (after [a_call "x"]).
Proof.
  assert (reachable 0%nat (after [a_call "x"])) as Hr by (apply after_reachable; vm_compute; reflexivity).
  assert (step (Worker 0) (after [a_call "x"]) = Err NullCall) as He.
  { vm_cast_no_check (@eq_refl (res fault (state (C:=nat) * option jsres)) (Err NullCall)). }
  split; [exact He|].
  exact (addon_faults 0%nat (after [a_call "x"]) (Worker 0) NullCall Hr He).
Defined.

(** Witness: the event loop is faster than the worker. *)
Lemma release_reads_freed_witness : run [Deliver 0; Worker 0] (after one_queued) = Err UseAfterFree.
Proof.
  assert (reachable 0%nat (after one_queued)) as Hr by (apply after_reachable; vm_compute; reflexivity).
  assert (threads (after one_queued) !! 0%nat = Some Releasing) as Ht by (vm_compute; reflexivity).
  assert (tsfns (after one_queued) !! 0%nat = Some (mkTsfn [0%nat] 1 false)) as Hf.
  { vm_cast_no_check (eq_refl (Some (mkTsfn [0%nat] 1 false))). }
  exact (proj2 (release_reads_freed 0%nat (after one_queued) 0 Hr) _ Ht Hf eq_refl).
Defined.

Lemma call_settles_witness :
  exists s', run (a_call "x" :: [Worker 0; Worker 0; Worker 0; Worker 0; Deliver 0]) (after [a_load]) = Ok s' /\
    core s' = 1%nat.
Proof.
  assert (reachable 0%nat (after [a_load])) as Hr by (apply after_reachable; vm_compute; reflexivity).
  assert (to_longlong (get_double (JInt 1000)) = Some 1000) as Hms by (vm_compute; reflexivity).
  destruct (call_settles 0%nat (after [a_load]) OpWrite 7 1000 (JStr "x") (JInt 1000) "x" (fine full)
    Hr eq_refl (conj eq_refl (conj eq_refl (conj eq_refl eq_refl))) ltac:(lia) eq_refl Hms
    1%nat (Some "ok:x") eq_refl) as (s' & Hs & Hc & _).
  exists s'. split; [exact Hs|exact Hc].
Defined.

(** A library without [walrusd_runtime_version]. *)
Definition versionless : symbols := mkSymbols true true true false true true true false.
Definition bad_load : event := JsCall "load" [JStr "old.so"] (fine versionless).

Lemma failed_load_breaks_witness :
  exists s' message, step bad_load (after [a_load]) = Ok (s', Some (Throws message)).
Proof.
  destruct (failed_load_breaks (NA := node) (JStr "old.so") (fine versionless) (after [a_load]) versionless
    eq_refl eq_refl) as (s' & m & H & _).
  exists s', m. exact H.
Defined.

Lemma init_spec_witness :
  walrusd_init (NA := node) [JStr ""] (after [a_load]) =
    Ok (after [a_load], Throws "walrusd: init failed: invalid init request").
Proof.
  assert (reachable 0%nat (after [a_load])) as Hr by (apply after_reachable; vm_compute; reflexivity).
  exact (init_spec (NA := node) 0%nat (after [a_load]) (JStr "") Hr eq_refl).
Defined.
