(* ===== verification/Handles.v ===== *)
(** * Handles: the C interface of the core ([bindings/c/handle.go], [api.go])

    The table of runtime handles, the envelopes, [dispatch] and the exported
    functions. The adapter behind a handle is any type that meets the interface
    [RuntimeEntry]; the module is in turn an instance of the interface
    [NodeAddon] is written against. A call that ends in an unrecovered Go panic
    is [None]. *)

From S2P Require Import Prelude CStrings Errors Lease Retry RuntimeConfig GoJson NodeAddon.

Definition ProtocolVersion : Z := 1.
Definition CoreVersion : string := "0.6.1".

(** ** Envelopes *)

Record errPayload := mkErrPayload { Class : string; Message : string; RetryAfterMs : Z }.

(** [mustEnvelopeOK]: a result is JSON, compact as [json.Marshal] left it; an
    empty one is omitted. *)
Definition mustEnvelopeOK (result : string) : string :=
  lit "{'api_version':1,'ok':true" +:+
  (if String.eqb result "" then "" else lit ",'result':" +:+ result) +:+ "}".

Definition errEnvelope (e : errPayload) : string :=
  lit "{'api_version':1,'ok':false,'error':{'class':" +:+ quoted (Class e) +:+
  lit ",'message':" +:+ quoted (Message e) +:+
  (if RetryAfterMs e =? 0 then "" else lit ",'retry_after_ms':" +:+ fmt_d (RetryAfterMs e)) +:+ "}}".

(** [err.(walrusderr.RetryAfterHint)]: a type assertion, which does not look
    behind a wrapper. *)
Definition retry_hint (err : goerror) : Z :=
  match err with
  | EWalrus c _ _ ms _ => default 0 (RetryAfter c ms)
  | _ => 0
  end.

(** [cString]: the copy goes through an array of 2^30 bytes. *)
Definition cString (b : string) : option string :=
  if slen b + 1 <=? 1073741824 then Some b else None.

(** [C.GoBytes] *)
Definition GoBytes (p : string) (n : Z) : option string :=
  if n <? 0 then None else Some (sfirst (Z.to_nat n) p).

(** ** The interface of an adapter *)

(** The three operations and [Close], over the adapter's state; the first
    argument is the deadline. What they return is the output of
    [json.Marshal], which has no zero byte. *)
Class RuntimeEntry (A : Type) := {
  WithWriteBytes : Z -> string -> A -> A * res goerror string;
  WithReadBytes : Z -> string -> A -> A * res goerror string;
  ReadDSNBytes : Z -> string -> A -> A * res goerror string;
  CloseAdapter : A -> A * option goerror;
  write_no_nul d r a b : (WithWriteBytes d r a).2 = Ok b -> no_nul b = true;
  read_no_nul d r a b : (WithReadBytes d r a).2 = Ok b -> no_nul b = true;
  dsn_no_nul d r a b : (ReadDSNBytes d r a).2 = Ok b -> no_nul b = true;
}.

Record InitRequest := mkInitRequest { Owner : string; Config : configRequest }.

Section Handles.
Context {A : Type} {RE : RuntimeEntry A}.

(** ** State *)

(** The variables of the package, the adapters on the heap (a handle holds a
    pointer), and the number of open Redis clients. *)
Record core := mkCore {
  nextHandle : Z;
  runtimes : gmap Z nat;
  adapters : gmap nat A;
  nextPtr : nat;
  initErrMessage : string;
  redisClients : Z;
}.

Definition core0 : core := mkCore 1 ∅ ∅ 0 "" 0.

Definition setInitError (m : string) (c : core) : core :=
  mkCore (nextHandle c) (runtimes c) (adapters c) (nextPtr c) m (redisClients c).
Definition addClients (n : Z) (c : core) : core :=
  mkCore (nextHandle c) (runtimes c) (adapters c) (nextPtr c) (initErrMessage c) (redisClients c + n).

(** Under [handleMu]: enter an adapter, look one up, take one out. *)
Definition insert_runtime (a : A) (c : core) : core * Z :=
  let h := nextHandle c in
  (mkCore (wrapu64 (h + 1)) (<[h := nextPtr c]> (runtimes c)) (<[nextPtr c := a]> (adapters c))
     (S (nextPtr c)) (initErrMessage c) (redisClients c), h).
Definition lookup_runtime (h : Z) (c : core) : option nat := runtimes c !! h.
Definition take_runtime (h : Z) (c : core) : core * option nat :=
  (mkCore (nextHandle c) (delete h (runtimes c)) (adapters c) (nextPtr c) (initErrMessage c) (redisClients c),
   runtimes c !! h).

(** Outside the lock: an operation of the adapter at a pointer. *)
Definition on_adapter {R} (p : nat) (f : A -> A * R) (c : core) : option (core * R) :=
  match adapters c !! p with
  | Some a => let '(a, r) := f a in
      Some (mkCore (nextHandle c) (runtimes c) (<[p := a]> (adapters c)) (nextPtr c)
              (initErrMessage c) (redisClients c), r)
  | None => None
  end.

Definition operation (o : call_op) : Z -> string -> A -> A * res goerror string :=
  match o with OpWrite => WithWriteBytes | OpRead => WithReadBytes | OpReadDsn => ReadDSNBytes end.

(** ** The table of handles *)

(** What a concurrent caller does to the table, one critical section at a
    time; the operations of the adapters between them do not touch it. *)
Inductive table_step : core -> core -> Prop :=
  | ts_insert a c c' h : insert_runtime a c = (c', h) -> table_step c c'
  | ts_take h c c' r : take_runtime h c = (c', r) -> table_step c c'
  | ts_adapter p (f : A -> A * res goerror string) c c' r : on_adapter p f c = Some (c', r) -> table_step c c'
  | ts_close p c c' r : on_adapter p CloseAdapter c = Some (c', r) -> table_step c c'
  | ts_message m c : table_step c (setInitError m c)
  | ts_clients n c : table_step c (addClients n c).

(** Handles start at one and grow: those in use are below the next, and a
    pointer is behind one handle at most. *)
Record table_ok (c : core) : Prop := {
  next_range : 1 <= nextHandle c < two64;
  used_range h p : runtimes c !! h = Some p -> 1 <= h < nextHandle c /\ (p < nextPtr c)%nat;
  one_handle h h' p : runtimes c !! h = Some p -> runtimes c !! h' = Some p -> h = h';
  pointers_valid h p : runtimes c !! h = Some p -> is_Some (adapters c !! p);
}.

(** A handle whose adapter was taken out, or that was never given. *)
Definition dead (h : Z) (c : core) : Prop := runtimes c !! h = None /\ h < nextHandle c.

Lemma table_ok0 : table_ok core0.
Proof. split; cbn; [unfold two64; lia|..]; intros *; by rewrite lookup_empty. Qed.

Lemma insert_ok a c c' h :
  table_ok c -> nextHandle c < two64 - 1 -> insert_runtime a c = (c', h) ->
  table_ok c' /\ h = nextHandle c /\ nextHandle c' = h + 1 /\ runtimes c' = <[h := nextPtr c]> (runtimes c).
Proof.
  intros [Hn Hu Ho Hp] Hb. unfold insert_runtime. intros [<- <-]%pair_equal_spec. cbn.
  rewrite wrapu64_id by lia. split_and!; [|done|done|done]. split; cbn [nextHandle runtimes adapters nextPtr].
  - lia.
  - intros h p. destruct (decide (h = nextHandle c)) as [->|Hne].
    + rewrite lookup_insert_eq. intros [= <-]. lia.
    + rewrite lookup_insert_ne by done. intros H. destruct (Hu h p H). lia.
  - intros h h' p. destruct (decide (h = nextHandle c)) as [->|Hne], (decide (h' = nextHandle c)) as [->|Hne'];
      rewrite ?lookup_insert_eq, ?lookup_insert_ne by done; [done| | |by apply Ho].
    + intros [= <-] H. destruct (Hu h' _ H). lia.
    + intros H [= <-]. destruct (Hu h _ H). lia.
  - intros h p. destruct (decide (p = nextPtr c)) as [->|Hne].
    + intros _. rewrite lookup_insert_eq. eauto.
    + rewrite (lookup_insert_ne (adapters c)) by done.
      destruct (decide (h = nextHandle c)) as [->|Hh]; [rewrite lookup_insert_eq; congruence|].
      rewrite lookup_insert_ne by done. apply Hp.
Qed.

Lemma on_adapter_table {R} p (f : A -> A * R) c c' r :
  on_adapter p f c = Some (c', r) -> nextHandle c' = nextHandle c /\ runtimes c' = runtimes c /\
    nextPtr c' = nextPtr c /\ (forall q, is_Some (adapters c !! q) -> is_Some (adapters c' !! q)).
Proof.
  unfold on_adapter. destruct (adapters c !! p) as [a|]; [|done]. destruct (f a) as [a' x].
  intros [= <- <-]. cbn. split_and!; try done. intros q Hq.
  destruct (decide (q = p)) as [->|Hne]; [rewrite lookup_insert_eq; eauto|by rewrite lookup_insert_ne].
Qed.

Lemma table_step_ok c c' :
  table_step c c' -> nextHandle c < two64 - 1 -> table_ok c ->
  table_ok c' /\ nextHandle c <= nextHandle c' <= nextHandle c + 1 /\
  (forall h, dead h c -> dead h c').
Proof.
  intros Hs Hb Hok.
  assert (forall c2, nextHandle c2 = nextHandle c -> runtimes c2 = runtimes c -> nextPtr c2 = nextPtr c ->
    (forall q, is_Some (adapters c !! q) -> is_Some (adapters c2 !! q)) ->
    table_ok c2 /\ nextHandle c <= nextHandle c2 <= nextHandle c + 1 /\ (forall h, dead h c -> dead h c2)) as Hsame.
  { intros c2 H1 H2 H3 H4. destruct Hok as [Hn Hu Ho Hp]. split_and!; [|lia|lia|].
    - split; rewrite ?H1, ?H2, ?H3; eauto.
    - unfold dead. by rewrite H1, H2. }
  destruct Hs as [a c c' h Hi|h c c' r Ht|p f c c' r Ha|p c c' r Ha|m c|n c].
  - destruct (insert_ok _ _ _ _ Hok Hb Hi) as (Hok' & -> & Hn & Hr). split_and!; [done|lia|lia|].
    intros h [Hd Hlt]. split; [|lia]. rewrite Hr. by rewrite lookup_insert_ne by lia.
  - unfold take_runtime in Ht. apply pair_equal_spec in Ht as [<- <-]. destruct Hok as [Hn Hu Ho Hp].
    split_and!; cbn; [|lia|lia|].
    + split; cbn; [done|..]; intros *; rewrite ?lookup_delete_Some; naive_solver.
    + intros h' [Hd Hlt]. split; [|done]. cbn. apply lookup_delete_None. by right.
  - destruct (on_adapter_table _ _ _ _ _ Ha) as (H1 & H2 & H3 & H4). by apply Hsame.
  - destruct (on_adapter_table _ _ _ _ _ Ha) as (H1 & H2 & H3 & H4). by apply Hsame.
  - by apply Hsame.
  - by apply Hsame.
Qed.

(** Runs of at most [n] steps. *)
Inductive table_run : nat -> core -> core -> Prop :=
  | tr_refl c : table_run 0 c c
  | tr_step n c c' c'' : table_run n c c' -> table_step c' c'' -> table_run (S n) c c''.

Lemma table_run_ok n c c' :
  table_run n c c' -> table_ok c -> nextHandle c + Z.of_nat n < two64 ->
  table_ok c' /\ nextHandle c <= nextHandle c' <= nextHandle c + Z.of_nat n /\
  (forall h, dead h c -> dead h c').
Proof.
  induction 1 as [|n c c' c'' Hr IH Hs]; intros Hok Hb; [split_and!; auto with lia|].
  destruct (IH Hok ltac:(lia)) as (Hok' & Hn & Hd).
  destruct (table_step_ok c' c'' Hs ltac:(lia) Hok') as (Hok'' & Hn' & Hd').
  split_and!; [done|lia|lia|auto].
Qed.


(** ** The exported functions *)

Section Exports.
(** The decoder of the request, the outcome of connecting to Redis, and the
    start of a runtime over the chosen store. *)
Context (unmarshal_init : string -> res string InitRequest)
        (redis_connect : string -> string -> Z -> res string unit)
        (start : bool -> runtimeParams -> A).
Context (sqlite_text : Z -> string) (no_compaction_text : string).

Definition err_text : goerror -> string := Errors.Error sqlite_text no_compaction_text.

Definition errPayload_of (err : goerror) : errPayload :=
  mkErrPayload (class_string (default ClassRemoteUnavailable (ClassOf err))) (err_text err) (retry_hint err).
Definition errEnvelopeFromClassified (err : goerror) : string := errEnvelope (errPayload_of err).


Definition unknown_handle : string :=
  errEnvelope (mkErrPayload "DB_INVALID_ARGUMENT" "unknown runtime handle" 0).

(** A C string for the caller, or a panic. *)
Definition reply (c : core) (text : string) : option (core * option string) :=
  match cString text with Some t => Some (c, Some t) | None => None end.

Definition dispatch (o : call_op) (h : Z) (request : string) (n deadlineMs : Z) (c : core)
    : option (core * option string) :=
  match lookup_runtime h c with
  | None => reply c unknown_handle
  | Some p =>
      match GoBytes request n with
      | None => None
      | Some req =>
          match on_adapter p (operation o deadlineMs req) c with
          | None => None
          | Some (c, Err err) => reply c (errEnvelopeFromClassified err)
          | Some (c, Ok res) => reply c (mustEnvelopeOK res)
          end
      end
  end.

Definition runtime_version : option string :=
  cString (mustEnvelopeOK (lit "{'api_version':1,'core_version':" +:+ quoted CoreVersion +:+ "}")).

Definition runtime_close (h : Z) (c : core) : option (core * option string) :=
  match take_runtime h c with
  | (c, None) => reply c unknown_handle
  | (c, Some p) =>
      match on_adapter p CloseAdapter c with
      | None => None
      | Some (c, Some err) => reply c (errEnvelope (mkErrPayload "DB_REMOTE_UNAVAILABLE" (err_text err) 0))
      | Some (c, None) => reply c (mustEnvelopeOK "")
      end
  end.

(** [lease.NewMemoryStore] or [lease.NewRedisStore]; whether it is a Redis
    client. *)
Definition choose_store (r : configRequest) : res string bool :=
  if String.eqb (RedisAddr r) "" then Ok false
  else match redis_connect (RedisAddr r) (RedisPassword r) (RedisDB r) with
       | Ok _ => Ok true
       | Err e => Err e
       end.

Definition runtime_init (request : string) (n : Z) (c : core) : option (core * Z) :=
  let c := setInitError "invalid init request" c in
  match GoBytes request n with
  | None => None
  | Some req =>
      match unmarshal_init req with
      | Err e => Some (setInitError e c, 0)
      | Ok r =>
          let cfg := buildRuntimeConfig (Config r) in
          match choose_store (Config r) with
          | Err e => Some (setInitError e c, 0)
          | Ok redis =>
              let clients := if redis then 1 else 0 in
              let c := addClients clients c in
              match New (Owner r) cfg with
              | Err e => Some (setInitError (err_text e) (addClients (- clients) c), 0)
              | Ok p =>
                  let '(c, h) := insert_runtime (start redis p) c in
                  Some (setInitError "" c, h)
              end
          end
      end
  end.

(** [C.CString] copies the message with no limit; a reader stops at a zero
    byte. *)
Definition runtime_init_error (c : core) : option string := Some (initErrMessage c).

(** The module behind the interface of the addon. *)
#[export] Instance core_abi : CoreAbi core := {|
  abi_call o h req n ms c := dispatch o h req n ms c;
  abi_version _ := runtime_version;
  abi_init := runtime_init;
  abi_init_error := runtime_init_error;
  abi_close := runtime_close;
|}.

(** ** [walrusd_runtime_init] *)

(** Every way [init] can end. A failure returns zero, says why, leaves
    the table as it was and leaves no Redis client open; a success returns the
    next handle, clears the message, and the handle is the new runtime's. *)
Theorem runtime_init_spec (request : string) (n : Z) (c c' : core) (h : Z)
    (Hok : table_ok c) (Hb : nextHandle c < two64 - 1)
    (H : runtime_init request n c = Some (c', h)) :
  (h = 0 /\ runtimes c' = runtimes c /\ adapters c' = adapters c /\ redisClients c' = redisClients c /\
   exists e, initErrMessage c' = e /\
     (forall r, unmarshal_init (sfirst (Z.to_nat n) request) = Ok r ->
        choose_store (Config r) = Err e \/
        exists err, New (Owner r) (buildRuntimeConfig (Config r)) = Err err /\ e = err_text err)) \/
  (h = nextHandle c /\ h <> 0 /\ initErrMessage c' = "" /\
   exists r redis p, unmarshal_init (sfirst (Z.to_nat n) request) = Ok r /\
     choose_store (Config r) = Ok redis /\ New (Owner r) (buildRuntimeConfig (Config r)) = Ok p /\
     runtimes c' = <[h := nextPtr c]> (runtimes c) /\
     adapters c' = <[nextPtr c := start redis p]> (adapters c) /\
     redisClients c' = redisClients c + (if redis then 1 else 0)).
Proof.
  unfold runtime_init in H. unfold GoBytes in H. destruct (n <? 0); [done|].
  destruct (unmarshal_init _) as [r|e] eqn:Hu.
  2: { injection H as <- <-. left. cbn. split_and!; try done. eexists. split; [done|]. done. }
  destruct (choose_store (Config r)) as [redis|e] eqn:Hs.
  2: { injection H as <- <-. left. cbn. split_and!; try done. eexists. split; [done|].
       intros r' [= <-]. by left. }
  destruct (New _ _) as [p|err] eqn:Hnew.
  2: { injection H as <- <-. left. cbn. split_and!; try done; [lia|]. eexists. split; [done|].
       intros r' [= <-]. right. eauto. }
  cbn in H. injection H as <- <-. right. cbn. pose proof (next_range c Hok).
  split_and!; [done|lia|done|]. eexists r, redis, p. by split_and!.
Qed.

End Exports.
End Handles.

(** ** Concrete adapters, for the witnesses *)

Module ConcreteCore.

(** An adapter that answers every write with the digits of its request count
    and refuses reads. *)
#[export, refine] Instance counter : RuntimeEntry nat := {|
  WithWriteBytes _ _ a := (S a, Ok "1");
  WithReadBytes _ _ a := (a, Err (Errors.Busy "try later" 250));
  ReadDSNBytes _ _ a := (a, Ok (quoted "file:x"));
  CloseAdapter a := (a, None);
|}.
Proof. all: intros d r a b [= <-]; reflexivity. Defined.

Definition unmarshal (s : string) : res string InitRequest :=
  if String.eqb s "" then Err "unexpected end of JSON input"
  else Ok (mkInitRequest "api-1" emptyRequest).
Definition connect (addr pw : string) (db : Z) : res string unit := Err "dial tcp: refused".
Definition start_counter (redis : bool) (p : runtimeParams) : nat := 0.

End ConcreteCore.
Import ConcreteCore.


Lemma runtime_init_spec_witness :
  exists c' h, runtime_init unmarshal connect start_counter (fun _ => "") "" "{}" 2 core0 = Some (c', h) /\
    (h = 0 \/ h = 1).
Proof.
  eexists _, _. split; [reflexivity|].
  destruct (runtime_init_spec unmarshal connect start_counter (fun _ => "") "" "{}" 2 core0 _ 1
    table_ok0 ltac:(unfold two64; cbn; lia) eq_refl) as [(H & _)|(H & _)]; [by left|by right].
Defined.
