(* ===== verification/Adapter.v ===== *)
(** * Adapter: from JSON requests to the runtime ([bindings/c/adapter.go])

    Parameters of statements, result rows and their size limit, the keys of
    duplicate columns, base64, and the DSN a host opens by itself. The decoder
    of requests and the encoder of rows, the SQLite connection and the runtime
    are parameters. *)

From S2P Require Import Prelude CStrings Errors Identity GoJson NodeAddon Handles.
From S2P Require Descriptors ManifestStore.
Import Descriptors(descriptorJSON, requestDescriptor, ddescriptor, context).

(** ** [base64.StdEncoding] *)

Definition b64_char (n : Z) : Ascii.ascii :=
  chr (if n <? 26 then 65 + n else if n <? 52 then 71 + n else if n <? 62 then n - 4
       else if n =? 62 then 43 else 47).
Definition b64_value (c : Ascii.ascii) : option Z :=
  let n := code c in
  if (65 <=? n) && (n <=? 90) then Some (n - 65)
  else if (97 <=? n) && (n <=? 122) then Some (n - 71)
  else if (48 <=? n) && (n <=? 57) then Some (n + 4)
  else if n =? 43 then Some 62 else if n =? 47 then Some 63 else None.
Definition equals : Ascii.ascii := chr 61.

Fixpoint EncodeToString (s : string) : string :=
  match s with
  | EmptyString => EmptyString
  | String a EmptyString =>
      let v := code a * 16 in
      String (b64_char (v / 64)) (String (b64_char (v mod 64)) (String equals (String equals EmptyString)))
  | String a (String b EmptyString) =>
      let v := (code a * 256 + code b) * 4 in
      String (b64_char (v / 4096)) (String (b64_char (v / 64 mod 64))
        (String (b64_char (v mod 64)) (String equals EmptyString)))
  | String a (String b (String c s)) =>
      let v := (code a * 256 + code b) * 256 + code c in
      String (b64_char (v / 262144)) (String (b64_char (v / 4096 mod 64))
        (String (b64_char (v / 64 mod 64)) (String (b64_char (v mod 64)) (EncodeToString s))))
  end.

(** Carriage returns and line feeds are ignored wherever they are. *)
Fixpoint drop_newlines (s : string) : string :=
  match s with
  | EmptyString => EmptyString
  | String c s => if (code c =? 10) || (code c =? 13) then drop_newlines s else String c (drop_newlines s)
  end.

(** The unused low bits of a final quantum are not checked. *)
Fixpoint decode_quanta (s : string) : option string :=
  match s with
  | EmptyString => Some EmptyString
  | String a (String b (String c (String d s))) =>
      match b64_value a, b64_value b, b64_value c, b64_value d with
      | Some w, Some x, Some y, Some z =>
          match decode_quanta s with
          | Some t =>
              let v := ((w * 64 + x) * 64 + y) * 64 + z in
              Some (String (chr (v / 65536)) (String (chr (v / 256 mod 256)) (String (chr (v mod 256)) t)))
          | None => None
          end
      | Some w, Some x, Some y, None =>
          if Ascii.eqb d equals && String.eqb s "" then
            let v := ((w * 64 + x) * 64 + y) / 4 in
            Some (String (chr (v / 256)) (String (chr (v mod 256)) EmptyString))
          else None
      | Some w, Some x, None, None =>
          if Ascii.eqb c equals && Ascii.eqb d equals && String.eqb s "" then
            Some (String (chr ((w * 64 + x) / 16)) EmptyString)
          else None
      | _, _, _, _ => None
      end
  | _ => None
  end.
Definition DecodeString (s : string) : option string := decode_quanta (drop_newlines s).

Example base64_1 : EncodeToString "hello" = "aGVsbG8=".
Proof. vm_compute. reflexivity. Qed.
Example base64_2 : DecodeString "aGVsbG8=" = Some "hello".
Proof. vm_compute. reflexivity. Qed.

(** ** Parameters *)

(** A decoded JSON value; numbers keep their literal ([UseNumber]). *)
Inductive json :=
  | JNull | JBool (b : bool) | JNumber (literal : string) | JString (s : string)
  | JArray (l : list json) | JObject (fields : list (string * json)).

(** The value of a key in a decoded object: of a repeated key, the last. *)
Definition field (k : string) (fields : list (string * json)) : option json :=
  foldl (fun r f => if String.eqb f.1 k then Some f.2 else r) None fields.

Fixpoint all_digits (s : string) : bool :=
  match s with EmptyString => true | String c s => is_digit c && all_digits s end.

(** [Number.Int64]: [strconv.ParseInt(s, 10, 64)]. *)
Definition ParseInt64 (s : string) : option Z :=
  let (neg, d) := match s with
    | String c t => if Ascii.eqb c "-"%char then (true, t)
                    else if Ascii.eqb c "+"%char then (false, t) else (false, s)
    | EmptyString => (false, s)
    end in
  if String.eqb d "" || negb (all_digits d) then None
  else
    let v := if neg then - digits d 0 else digits d 0 in
    if (- two63 <=? v) && (v <? two63) then Some v else None.

Section Bind.
(** [Number.Float64]: [strconv.ParseFloat]. *)
Context {F : Type} (ParseFloat : string -> option F).

Inductive bound := BInt (z : Z) | BFloat (f : F) | BText (s : string) | BBlob (b : string) | BJson (v : json).

Definition bindParam (p : json) : bound :=
  match p with
  | JNumber n =>
      match ParseInt64 n with
      | Some iv => BInt iv
      | None => match ParseFloat n with Some fv => BFloat fv | None => BText n end
      end
  | JObject m =>
      match field "$blob" m with
      | Some (JString b) => match DecodeString b with Some raw => BBlob raw | None => BJson p end
      | _ => BJson p
      end
  | _ => BJson p
  end.
Definition bindParams (params : list json) : list bound := map bindParam params.

(** ** Columns and rows *)

Fixpoint disambiguate (seen : gmap string Z) (cols : list string) : list string :=
  match cols with
  | [] => []
  | c :: cols =>
      let n := default 0 (seen !! c) in
      (if n =? 0 then c else c +:+ "_" +:+ fmt_d (n + 1)) :: disambiguate (<[c := n + 1]> seen) cols
  end.
Definition uniqueColumnKeys (cols : list string) : list string := disambiguate ∅ cols.

(** What the driver scans into a cell; [normalize] of it. *)
Inductive cell := CNull | CInt (z : Z) | CFloat (f : F) | CText (s : string) | CBytes (b : string).
Inductive jcell := NNull | NInt (z : Z) | NFloat (f : F) | NText (s : string).
Definition normalize (v : cell) : jcell :=
  match v with
  | CNull => NNull | CInt z => NInt z | CFloat f => NFloat f | CText s => NText s
  | CBytes b => NText (EncodeToString b)
  end.

(** The row as a map: a later column with the key of an earlier one replaces
    its value. *)
Definition row_map (keys : list string) (vals : list cell) : gmap string jcell :=
  foldl (fun m kv => <[kv.1 := normalize kv.2]> m) ∅ (zip keys vals).

(** What a query yields: the columns, the rows as they are scanned, and the
    error that ended the iteration. *)
Record cursor := mkCursor {
  columns : res goerror (list string);
  scans : list (res goerror (list cell));
  rows_err : option goerror;
}.

Record ReadResult := mkReadResult { Columns : list string; Rows : list string }.

Context (marshal_row : gmap string jcell -> res goerror string).

Definition row_limit_error (cap : Z) : goerror :=
  Errors.New ClassInvalidArgument ("read result exceeds " +:+ fmt_d cap +:+ " bytes").

(** The loop over the rows: the encoded rows so far and their total size. *)
Fixpoint collect (cap : Z) (keys : list string) (rows : list (res goerror (list cell)))
    (total : Z) (out : list string) : res goerror (list string) :=
  match rows with
  | [] => Ok out
  | Err e :: _ => Err e
  | Ok vals :: rows =>
      match marshal_row (row_map keys vals) with
      | Err e => Err e
      | Ok b =>
          let total := total + slen b in
          if (0 <? cap) && (cap <? total) then Err (row_limit_error cap)
          else collect cap keys rows total (out ++ [b])
      end
  end.

(** The function [WithReadBytes] hands to [WithRead]. *)
Definition read_rows (cap : Z) (q : res goerror cursor) : res goerror ReadResult :=
  match q with
  | Err e => Err e
  | Ok cur =>
      match columns cur with
      | Err e => Err e
      | Ok cols =>
          match collect cap (uniqueColumnKeys cols) (scans cur) 0 [] with
          | Err e => Err e
          | Ok rows => match rows_err cur with Some e => Err e | None => Ok (mkReadResult cols rows) end
          end
      end
  end.

(** ** Statements *)

Record statement := mkStatement { SQL : string; Params : list json }.

(** The function [WithWriteBytes] hands to [WithWrite]: the statements in
    order, up to the first that fails. The texts of the first eight bytes of a
    SHA-256 are [digest]. *)
Fixpoint exec_statements {S} (exec : string -> list bound -> S -> S * option goerror) (digest : string -> string)
    (i : Z) (sts : list statement) (s : S) : S * option goerror :=
  match sts with
  | [] => (s, None)
  | st :: sts =>
      match exec (SQL st) (bindParams (Params st)) s with
      | (s, Some err) =>
          (s, Some (EWrapf ("statement " +:+ fmt_d i +:+ " (sql sha256:" +:+ digest (SQL st) +:+ ")") err))
      | (s, None) => exec_statements exec digest (i + 1) sts s
      end
  end.
End Bind.

(** ** Facts: base64 *)

Lemma b64_value_char n : 0 <= n < 64 -> b64_value (b64_char n) = Some n.
Proof.
  intros Hn. assert (forallb (fun n => bool_decide (b64_value (b64_char n) = Some n))
    (map Z.of_nat (seq 0 64)) = true) as H by (vm_compute; reflexivity).
  rewrite List.forallb_forall in H. specialize (H n). rewrite bool_decide_eq_true in H. apply H.
  apply List.in_map_iff. exists (Z.to_nat n). split; [lia|]. apply List.in_seq. lia.
Qed.

Lemma b64_char_plain n : 0 <= n < 64 ->
  code (b64_char n) <> 10 /\ code (b64_char n) <> 13 /\ Ascii.eqb (b64_char n) equals = false.
Proof.
  intros Hn. pose proof (b64_value_char n Hn) as Hv. unfold b64_value in Hv.
  split_and!; [intros He; by rewrite He in Hv..|].
  apply Ascii.eqb_neq. intros He. by rewrite He in Hv.
Qed.

(** What is encoded has no newline to drop. *)
Fixpoint newline_free (s : string) : bool :=
  match s with EmptyString => true | String c s => negb ((code c =? 10) || (code c =? 13)) && newline_free s end.

Lemma drop_newlines_id s : newline_free s = true -> drop_newlines s = s.
Proof.
  induction s as [|c s IH]; intros Hs; [done|]. cbn in *.
  apply andb_true_iff in Hs as [->%negb_true_iff Hs]. by rewrite IH.
Qed.

Lemma newline_free_b64 n s : 0 <= n < 64 -> newline_free (String (b64_char n) s) = newline_free s.
Proof.
  intros Hn. destruct (b64_char_plain n Hn) as (H1 & H2 & _). cbn.
  by rewrite (proj2 (Z.eqb_neq _ _) H1), (proj2 (Z.eqb_neq _ _) H2).
Qed.

(** Induction by three bytes. *)
Lemma three_ind (P : string -> Prop) :
  P "" -> (forall a, P (String a "")) -> (forall a b, P (String a (String b ""))) ->
  (forall a b c s, P s -> P (String a (String b (String c s)))) -> forall s, P s.
Proof.
  intros H0 H1 H2 H3. fix IH 1. intros [|a [|b [|c s]]]; [done|apply H1|apply H2|]. apply H3, IH.
Qed.

Ltac divs := match goal with |- context [Z.div] => idtac | _ => idtac end; Z.div_mod_to_equations; lia.

Lemma decode_encode s : decode_quanta (EncodeToString s) = Some s /\ newline_free (EncodeToString s) = true.
Proof.
  induction s as [|a|a b|a b c s [IH Hf]] using three_ind; [done|..]; cbn [EncodeToString];
    pose proof (code_range a) as Ha; try pose proof (code_range b) as Hb; try pose proof (code_range c) as Hc.
  - split; [|by rewrite !newline_free_b64 by divs]. cbn [decode_quanta].
    rewrite !b64_value_char by divs. change (b64_value equals) with (@None Z). rewrite Ascii.eqb_refl.
    cbn. do 2 f_equal. apply code_inj. rewrite code_chr by divs. divs.
  - split; [|by rewrite !newline_free_b64 by divs]. cbn [decode_quanta].
    rewrite !b64_value_char by divs. change (b64_value equals) with (@None Z). rewrite Ascii.eqb_refl.
    cbn. do 2 f_equal; [|f_equal]; apply code_inj; rewrite code_chr by divs; divs.
  - split; [|by rewrite !newline_free_b64 by divs]. cbn [decode_quanta].
    rewrite !b64_value_char by divs. rewrite IH.
    do 2 f_equal; [|f_equal; [|f_equal]]; apply code_inj; rewrite code_chr by divs; divs.
Qed.

Lemma base64_roundtrip s : DecodeString (EncodeToString s) = Some s.
Proof.
  destruct (decode_encode s) as [Hd Hf]. unfold DecodeString. by rewrite drop_newlines_id.
Qed.

(** ** Facts: integers *)

Lemma all_digits_dec fuel n s : 0 <= n -> all_digits s = true -> all_digits (dec fuel n s) = true.
Proof.
  revert n s. induction fuel as [|f IH]; intros n s Hn Hs; [done|]. cbn [dec].
  assert (all_digits (String (chr (48 + n `mod` 10)) s) = true) as Hd.
  { cbn. rewrite Hs, andb_true_r. pose proof (Z.mod_pos_bound n 10 ltac:(lia)).
    unfold is_digit. rewrite code_chr by lia. apply andb_true_iff. lia. }
  destruct (n / 10 =? 0); [done|]. apply IH; [apply Z.div_pos; lia|done].
Qed.

#[local] Opaque dec.

(** The digits of a number up to 2^63, read back. *)
Lemma dec_digits n : 0 <= n <= 9223372036854775808 ->
  exists c t, dec 20 n "" = String c t /\ is_digit c = true /\
    all_digits (String c t) = true /\ digits (String c t) 0 = n.
Proof.
  intros Hn. assert (10 ^ Z.of_nat 20 = 100000000000000000000) as Hpow by done.
  destruct (dec_head 20 n "" ltac:(lia)) as (c & t & He & Hc). exists c, t. rewrite <- He.
  split_and!; [done|done|by apply all_digits_dec; [lia|]|by rewrite digits_dec by lia].
Qed.

Lemma ParseInt64_fmt_d z : int64_range z -> ParseInt64 (fmt_d z) = Some z.
Proof.
  intros Hz. unfold int64_range, two63 in Hz. unfold fmt_d.
  assert (forall v, int64_range v -> (- two63 <=? v) && (v <? two63) = true) as Hr.
  { intros v Hv. unfold int64_range in Hv. apply andb_true_iff. lia. }
  destruct (Z.ltb_spec z 0) as [Hneg|Hpos].
  - destruct (dec_digits (- z) ltac:(lia)) as (c & t & -> & Hc & Ha & Hd).
    unfold ParseInt64. change (Ascii.eqb "-"%char "-"%char) with true. cbv iota beta.
    rewrite Ha, Hd, Z.opp_involutive, Hr by (unfold int64_range, two63; lia). done.
  - destruct (dec_digits z ltac:(lia)) as (c & t & -> & Hc & Ha & Hd). unfold ParseInt64.
    rewrite (digit_not c "-"%char Hc (or_introl eq_refl)), (digit_not c "+"%char Hc (or_introl eq_refl)).
    rewrite Ha, Hd, Hr by (unfold int64_range, two63; lia). done.
Qed.

(** Values cross the C interface exactly. Every 64-bit integer that is
    printed as a JSON number is bound as that integer (a [float64] would round it
    above 2^53); bytes given as a [$blob] object are bound as those bytes; and
    a BLOB of a result is text that decodes to the same bytes. *)
Theorem values_exact {F} (ParseFloat : string -> option F) (z : Z) (b : string) (Hz : int64_range z) :
  bindParam ParseFloat (JNumber (fmt_d z)) = BInt z /\
  bindParam ParseFloat (JObject [("$blob", JString (EncodeToString b))]) = BBlob b /\
  exists t, normalize (F := F) (CBytes b) = NText t /\ DecodeString t = Some b.
Proof.
  split_and!.
  - unfold bindParam. by rewrite ParseInt64_fmt_d.
  - unfold bindParam. cbn. by rewrite base64_roundtrip.
  - eexists. split; [done|]. apply base64_roundtrip.
Qed.

Lemma values_exact_witness :
  bindParam (fun _ => @None unit) (JNumber "9007199254740993") = BInt 9007199254740993.
Proof.
  exact (proj1 (values_exact (fun _ => @None unit) 9007199254740993 "hello"
    ltac:(unfold int64_range, two63; lia))).
Defined.

(** ** Facts: the keys of columns *)

Definition suffixed (c : string) (k : Z) : string := c +:+ "_" +:+ fmt_d k.
Definition underscore : Ascii.ascii := "_"%char.

(** The last underscore of a suffixed name is the one before the number. *)
Lemma strrchr_none s c : strrchr s c = None -> forall a, strrchr (a +:+ String c s) c = Some (a, s).
Proof.
  intros Hs a. induction a as [|x a IH].
  - change ("" +:+ String c s) with (String c s). cbn. by rewrite Hs, Ascii.eqb_refl.
  - change (String x a +:+ String c s) with (String x (a +:+ String c s)). cbn. by rewrite IH.
Qed.

Lemma digits_no_underscore s : all_digits s = true -> strrchr s underscore = None.
Proof.
  induction s as [|c s IH]; intros Hs; [done|]. cbn in *. apply andb_true_iff in Hs as [Hc Hs].
  rewrite (IH Hs). by rewrite (digit_not c underscore Hc (or_intror eq_refl)).
Qed.

Lemma suffixed_inj c k c' k' :
  0 <= k < two63 -> 0 <= k' < two63 -> suffixed c k = suffixed c' k' -> c = c' /\ k = k'.
Proof.
  intros Hk Hk' He. assert (forall c k, 0 <= k < two63 ->
    strrchr (suffixed c k) underscore = Some (c, fmt_d k)) as Hlast.
  { intros d j Hj. unfold suffixed, fmt_d. rewrite (proj2 (Z.ltb_ge j 0)) by lia.
    apply strrchr_none, digits_no_underscore, all_digits_dec; [lia|done]. }
  pose proof (Hlast c k Hk) as H1. rewrite He, (Hlast c' k' Hk') in H1. injection H1 as -> Hd.
  split; [done|].
  assert (ParseInt64 (fmt_d k) = ParseInt64 (fmt_d k')) as Hp by (by rewrite Hd).
  rewrite !ParseInt64_fmt_d in Hp by (unfold int64_range, two63 in *; lia). congruence.
Qed.

Lemma suffixed_underscore c k : strrchr (suffixed c k) underscore <> None.
Proof.
  unfold suffixed. induction c as [|x c IH].
  - change (strrchr (String underscore (fmt_d k)) underscore <> None). cbn.
    by destruct (strrchr (fmt_d k) underscore) as [[]|].
  - change (strrchr (String x (c +:+ "_" +:+ fmt_d k)) underscore <> None). cbn [strrchr].
    by destruct (strrchr _ underscore) as [[]|].
Qed.

Definition count (seen : gmap string Z) (c : string) : Z := default 0 (seen !! c).

Lemma count_insert seen c d :
  count (<[c := count seen c + 1]> seen) d = if decide (d = c) then count seen c + 1 else count seen d.
Proof.
  unfold count at 1. case_decide as Hd.
  - subst d. by rewrite lookup_insert_eq.
  - by rewrite lookup_insert_ne by done.
Qed.

(** What the keys of a suffix of the columns look like. *)
Lemma disambiguate_shape cols seen key :
  (forall c, 0 <= count seen c) -> key ∈ disambiguate seen cols ->
  (exists c, c ∈ cols /\ count seen c = 0 /\ key = c) \/
  (exists c k, c ∈ cols /\ key = suffixed c k /\ 2 <= k /\
     count seen c < k <= count seen c + Z.of_nat (length cols)).
Proof.
  revert seen. induction cols as [|c cols IH]; intros seen Hn Hk; [by apply elem_of_nil in Hk|].
  cbn [disambiguate] in Hk. fold (count seen c) in Hk. pose proof (Hn c) as Hc.
  pose proof (count_insert seen c) as Hcount.
  apply elem_of_cons in Hk as [->|Hk].
  - destruct (Z.eqb_spec (count seen c) 0) as [Hz|Hz].
    + left. exists c. split_and!; [by left|done|done].
    + right. exists c, (count seen c + 1). split_and!; [by left|done|lia|lia|cbn; lia].
  - apply IH in Hk.
    + destruct Hk as [(d & Hd & Hz & ->)|(d & k & Hd & -> & H2 & Hlt & Hle)]; rewrite Hcount in *;
        case_decide; subst.
      * lia.
      * left. exists d. split_and!; [by right|done|done].
      * right. exists c, k. split_and!; [by left|done|lia|lia|cbn [length]; lia].
      * right. exists d, k. split_and!; [by right|done|lia|lia|cbn [length]; lia].
    + intros d. rewrite Hcount. case_decide; [lia|apply Hn].
Qed.

(** The keys of a row, one per column, in order: they are pairwise
    different (so no value of the row is lost in its map) provided no column is
    itself named like another with a number after an underscore. *)
Theorem column_keys_distinct (cols : list string)
    (Hlen : Z.of_nat (length cols) < two63)
    (Hnames : forall c k, c ∈ cols -> 2 <= k -> suffixed c k ∉ cols) :
  length (uniqueColumnKeys cols) = length cols /\ NoDup (uniqueColumnKeys cols).
Proof.
  unfold uniqueColumnKeys. split.
  { generalize (∅ : gmap string Z). induction cols as [|c cols IH]; intros seen; [done|]. cbn.
    f_equal. apply IH; [cbn in *; lia|]. intros d k Hd Hk Hin. apply (Hnames d k); [by right|done|by right]. }
  assert (forall pre seen, (forall c, 0 <= count seen c) ->
    (forall c, count seen c + Z.of_nat (length pre) < two63) -> pre ⊆ cols -> NoDup (disambiguate seen pre)) as H.
  { induction pre as [|c pre IH]; intros seen Hn Hb Hsub; [constructor|].
    cbn [disambiguate]. fold (count seen c). pose proof (Hn c) as Hc.
    assert (c ∈ cols) as Hcin by (apply Hsub; by left).
    set (seen' := <[c := count seen c + 1]> seen).
    pose proof (count_insert seen c) as Hcount. fold seen' in Hcount.
    assert (forall d, 0 <= count seen' d) as Hn'.
    { intros d. rewrite Hcount. case_decide; [lia|apply Hn]. }
    assert (forall d, count seen' d + Z.of_nat (length pre) < two63) as Hb'.
    { intros d. rewrite Hcount. specialize (Hb d) as Hbd. specialize (Hb c).
      cbn [length] in *. case_decide; lia. }
    constructor; [|apply IH; [done|done|set_solver]].
    intros Hin. apply (disambiguate_shape _ _ _ Hn') in Hin.
    destruct (Z.eqb_spec (count seen c) 0) as [Hz|Hz], Hin as [(d & Hd & Hdz & Heq)|(d & k & Hd & Heq & H2 & Hlt & Hle)].
    - subst d. rewrite Hcount, decide_True in Hdz by done. lia.
    - eapply (Hnames d k); [apply Hsub; by right|done|by rewrite <- Heq].
    - eapply (Hnames c (count seen c + 1)); [done|lia|]. fold (suffixed c (count seen c + 1)) in Heq.
      rewrite Heq. apply Hsub. by right.
    - fold (suffixed c (count seen c + 1)) in Heq. specialize (Hb c) as Hbc. specialize (Hb' d) as Hbd.
      cbn [length] in Hbc. apply suffixed_inj in Heq as [-> Hk]; [|lia|lia].
      rewrite Hcount, decide_True in Hlt by done. lia. }
  apply (H cols ∅); [intros c; unfold count; by rewrite lookup_empty| |done].
  intros c. unfold count. rewrite lookup_empty. cbn. lia.
Qed.

Lemma column_keys_distinct_witness : NoDup (uniqueColumnKeys ["id"; "name"; "id"]).
Proof.
  apply (column_keys_distinct ["id"; "name"; "id"]); [unfold two63; cbn; lia|].
  intros c k Hc Hk. rewrite !elem_of_cons, elem_of_nil in Hc |- *.
  pose proof (suffixed_underscore c k) as Hs.
  intros [He|[He|[He|[]]]]; rewrite He in Hs; by apply Hs.
Defined.

(** Without the proviso a value is lost: two columns [c] and a third named
    [c_2] get only two keys, and the second value is overwritten by the third. *)
Theorem column_keys_collide {F} (c : string) (v1 v2 v3 : cell (F := F)) :
  let keys := uniqueColumnKeys [c; c; suffixed c 2] in
  keys = [c; suffixed c 2; suffixed c 2] /\
  row_map keys [v1; v2; v3] !! suffixed c 2 = Some (normalize v3) /\
  size (row_map keys [v1; v2; v3]) = 2%nat.
Proof.
  assert (suffixed c 2 <> c) as Hne.
  { intros He. assert (String.length (suffixed c 2) = String.length c) as Hl by (by rewrite He).
    unfold suffixed in Hl. rewrite !string_length_app in Hl. cbn in Hl. lia. }
  assert (uniqueColumnKeys [c; c; suffixed c 2] = [c; suffixed c 2; suffixed c 2]) as Hk.
  { unfold uniqueColumnKeys. cbn [disambiguate]. rewrite lookup_empty. cbn [default Z.eqb].
    rewrite lookup_insert_eq. cbn [default]. rewrite lookup_insert_ne by done.
    rewrite lookup_insert_ne by done. by rewrite lookup_empty. }
  cbn zeta. rewrite Hk. unfold row_map. cbn [zip zip_with foldl fst snd].
  split; [done|]. split; [by rewrite lookup_insert_eq|].
  rewrite insert_insert_eq, map_size_insert_None; [|by rewrite lookup_insert_ne].
  by rewrite map_size_insert_None.
Qed.

(** ** Facts: rows *)

Definition total_size (out : list string) : Z := foldr (fun b n => slen b + n) 0 out.

Lemma total_size_cons b out : total_size (b :: out) = slen b + total_size out.
Proof. done. Qed.

Lemma total_size_nonneg out : 0 <= total_size out.
Proof.
  induction out as [|b out IH]; [done|]. rewrite total_size_cons. pose proof (slen_nonneg b). lia.
Qed.

Section Rows.
Context {F : Type} (marshal_row : gmap string (jcell (F := F)) -> res goerror string).

(** A scanned row and its encoding. *)
Definition encodes (keys : list string) (r : res goerror (list cell)) (b : string) : Prop :=
  exists vals, r = Ok vals /\ marshal_row (row_map keys vals) = Ok b.

Lemma collect_spec cap keys rows total out res :
  0 <= total ->
  collect marshal_row cap keys rows total out = Ok res <->
  exists bs, res = out ++ bs /\ Forall2 (encodes keys) rows bs /\
    (0 < cap -> rows <> [] -> total + total_size bs <= cap).
Proof.
  revert total out. induction rows as [|r rows IH]; intros total out Ht; cbn [collect].
  - split.
    + intros [= <-]. exists []. split_and!; [by rewrite app_nil_r|constructor|done].
    + intros (bs & -> & Hf & _). inversion Hf. by rewrite app_nil_r.
  - destruct r as [vals|e].
    2: { split; [done|]. intros (bs & _ & Hf & _). inversion Hf as [|? ? ? ? He]; subst.
         by destruct He as (? & ? & _). }
    destruct (marshal_row _) as [b|e] eqn:Hb.
    2: { split; [done|]. intros (bs & _ & Hf & _). inversion Hf as [|? ? ? ? He]; subst.
         destruct He as (v & [= <-] & Hv). congruence. }
    pose proof (slen_nonneg b) as Hl.
    assert (forall bs, Forall2 (encodes keys) (Ok vals :: rows) bs <->
      exists bs', bs = b :: bs' /\ Forall2 (encodes keys) rows bs') as Hcons.
    { intros bs. split.
      - intros Hf. inversion Hf as [|? ? ? ? He]; subst. destruct He as (v & [= <-] & Hv).
        rewrite Hb in Hv. injection Hv as <-. eauto.
      - intros (bs' & -> & Hf). constructor; [|done]. by exists vals. }
    destruct ((0 <? cap) && (cap <? total + slen b)) eqn:Hover.
    + split; [done|]. intros (bs & _ & Hf & Hc). apply Hcons in Hf as (bs' & -> & _). bool_prop.
      specialize (Hc ltac:(lia) ltac:(done)). rewrite total_size_cons in Hc.
      pose proof (total_size_nonneg bs'). lia.
    + rewrite IH by lia. apply andb_false_iff in Hover. rewrite Z.ltb_ge, Z.ltb_ge in Hover. split.
      * intros (bs & -> & Hf & Hc). exists (b :: bs). split_and!; [by rewrite <- app_assoc|apply Hcons; eauto|].
        intros Hp _. rewrite total_size_cons.
        destruct rows as [|r rows]; [inversion Hf; subst; change (total_size []) with 0; lia|].
        specialize (Hc Hp ltac:(done)). lia.
      * intros (bs & -> & Hf & Hc). apply Hcons in Hf as (bs' & -> & Hf). exists bs'.
        split_and!; [by rewrite <- app_assoc|done|]. intros Hp _. specialize (Hc Hp ltac:(done)).
        rewrite total_size_cons in Hc. lia.
Qed.

(** A read answers exactly when the query ran to its end, every row
    could be scanned and encoded, and (with a limit set) the encodings are not
    longer than the limit together; it then has every row, in order, and the
    columns as SQLite named them. *)
Theorem read_rows_spec (cap : Z) (q : res goerror (cursor (F := F))) (cols out : list string) :
  read_rows marshal_row cap q = Ok (mkReadResult cols out) <->
  exists rows, q = Ok (mkCursor (Ok cols) rows None) /\
    Forall2 (encodes (uniqueColumnKeys cols)) rows out /\
    (0 < cap -> total_size out <= cap).
Proof.
  unfold read_rows. destruct q as [[c rows e]|e]; cbn [columns scans rows_err].
  2: { split; [done|]. by intros (? & ? & _). }
  destruct c as [cs|err].
  2: { split; [done|]. by intros (? & ? & _). }
  pose proof (collect_spec cap (uniqueColumnKeys cs) rows 0 []) as Hc.
  destruct (collect _ _ _ rows 0 []) as [rs|err] eqn:Hcol.
  - destruct (proj1 (Hc rs ltac:(lia)) eq_refl) as (bs & -> & Hf & Hcap). cbn [app].
    destruct e as [e|].
    + split; [done|]. by intros (? & ? & _).
    + split.
      * intros [= <- <-]. exists rows. split_and!; [done|done|]. intros Hp.
        destruct rows as [|r rows]; [inversion Hf; subst; cbn; lia|]. by apply Hcap.
      * intros (rows' & [= <- <-] & Hf' & Hcap').
        assert (Ok (E := goerror) bs = Ok out) as [= <-]; [|done].
        destruct (proj2 (Hc out ltac:(lia))) as [].
        -- exists out. split_and!; [done|done|]. intros Hp _. by apply Hcap'.
        -- done.
  - split; [done|]. intros (rows' & [= <- <- ->] & Hf & Hcap').
    assert (Err (A := list string) err = Ok out) as [=]. apply Hc; [lia|].
    exists out. split_and!; [done|done|]. intros Hp _. by apply Hcap'.
Qed.
End Rows.

(** A query with one row, under a limit of 64 bytes. *)
Definition one_row : res goerror (cursor (F := unit)) :=
  Ok (mkCursor (Ok ["v"]) [Ok [CText "x"]] None).

Lemma read_rows_spec_witness :
  exists rows, one_row = Ok (mkCursor (Ok ["v"]) rows None) /\ (0 < 64 -> total_size ["row"] <= 64).
Proof.
  destruct (proj1 (read_rows_spec (fun _ => Ok "row") 64 one_row ["v"] ["row"]) eq_refl)
    as (rows & H1 & _ & H2).
  exists rows. split; [exact H1|exact H2].
Defined.

(** ** The DSN of a native read *)

(** [sanitize] ([litestream/litestream.go]) of an ASCII string: its last sixty
    characters, others than letters, digits, [-] and [_] replaced. *)
Definition file_char (c : Ascii.ascii) : bool :=
  between 97 122 c || between 65 90 c || is_digit c || (code c =? 45) || (code c =? 95).
Fixpoint sanitize_chars (s : string) : string :=
  match s with
  | EmptyString => EmptyString
  | String c s => String (if file_char c then c else underscore) (sanitize_chars s)
  end.
Definition sanitize (s : string) : string :=
  let out := sanitize_chars s in sskip (String.length out - 60) out.

(** [Database.ReadDSN] ([litestream/session.go]). *)
Definition ReadDSN (dbName VFSName : string) : string :=
  "file:walrusd_" +:+ sanitize dbName +:+ ".db?vfs=" +:+ VFSName +:+ "&mode=ro".

(** What [ReadDSNBytes] finds after [vfs=]. *)
Definition vfs_of (dsn : string) : string :=
  match strstr dsn "vfs=" with
  | Some s =>
      let vfs := sskip 4 s in
      match strchr vfs "&"%char with Some (vfs, _) => vfs | None => vfs end
  | None => ""
  end.

(** [url.QueryEscape]. *)
Definition unreserved (c : Ascii.ascii) : bool :=
  between 97 122 c || between 65 90 c || is_digit c ||
  (code c =? 45) || (code c =? 95) || (code c =? 46) || (code c =? 126).
Fixpoint QueryEscape (s : string) : string :=
  match s with
  | EmptyString => EmptyString
  | String c s =>
      if unreserved c then String c (QueryEscape s)
      else if code c =? 32 then String "+"%char (QueryEscape s)
      else String "%"%char (String (upperhex (code c / 16)) (String (upperhex (code c mod 16)) (QueryEscape s)))
  end.

(** The replica URL of the loadable extension. *)
Definition replica_url (id : string) (p : Profile) : string :=
  if String.eqb (Provider p) "s3" && negb (String.eqb (Bucket p) "") then
    let u := "s3://" +:+ Bucket p +:+ "/" +:+ ReplicaPrefix (RootPrefix p) id in
    let q := (if String.eqb (Endpoint p) "" then [] else ["endpoint=" +:+ QueryEscape (Endpoint p)]) ++
             (if String.eqb (Region p) "" then [] else ["region=" +:+ QueryEscape (Region p)]) in
    match q with [] => u | _ => u +:+ "?" +:+ join "&" q end
  else "".

(** No byte is an equals sign. *)
Definition no_equals (s : string) : bool := sall (fun c => negb (code c =? 61)) s.

Lemma sall_app p a b : sall p (a +:+ b) = sall p a && sall p b.
Proof.
  induction a as [|c a IH]; [done|]. change (p c && sall p (a +:+ b) = p c && sall p a && sall p b).
  by rewrite IH, andb_assoc.
Qed.

Lemma sall_skip p n s : sall p s = true -> sall p (sskip n s) = true.
Proof.
  revert n. induction s as [|c s IH]; intros [|n] H; try done. cbn in *.
  apply andb_true_iff in H as [_ H]. by apply IH.
Qed.

Lemma sanitize_no_equals s : no_equals (sanitize s) = true.
Proof.
  apply sall_skip. induction s as [|c s IH]; [done|]. cbn. rewrite IH, andb_true_r.
  apply negb_true_iff, Z.eqb_neq. destruct (file_char c) eqn:Hc; [|done].
  intros He. unfold file_char, is_digit, between in Hc. by rewrite He in Hc.
Qed.

(** The first [vfs=] cannot begin in a text without an equals sign. *)
Lemma strstr_after pre rest :
  no_equals pre = true -> strstr (pre +:+ "vfs=" +:+ rest) "vfs=" = Some ("vfs=" +:+ rest).
Proof.
  induction pre as [|c pre IH]; intros Hp.
  - change ("" +:+ "vfs=" +:+ rest) with ("vfs=" +:+ rest). cbn [strstr].
    by destruct rest.
  - change (String c pre +:+ "vfs=" +:+ rest) with (String c (pre +:+ "vfs=" +:+ rest)).
    cbn [no_equals sall] in Hp. unfold no_equals in *. apply andb_true_iff in Hp as [Hc Hp].
    cbn [strstr]. destruct (String.prefix "vfs=" _) eqn:Hpre; [exfalso|by apply IH].
    destruct (prefix_inv _ _ Hpre) as [r Hr]. change ("vfs=" +:+ r)
      with (String "v"%char (String "f"%char (String "s"%char (String "="%char r)))) in Hr.
    destruct pre as [|d [|e [|f pre]]]; cbn in Hr; try discriminate Hr.
    injection Hr as -> -> -> -> _. cbn in Hp. discriminate Hp.
Qed.

(** The VFS name the C interface returns is the one in the DSN it
    returns with it, whatever the database is called: the host attaches the
    extension under the name its SQLite will ask for. *)
Theorem dsn_names_vfs (dbName VFSName : string) (Hv : strchr VFSName "&"%char = None) :
  vfs_of (ReadDSN dbName VFSName) = VFSName.
Proof.
  unfold vfs_of, ReadDSN.
  replace ("file:walrusd_" +:+ sanitize dbName +:+ ".db?vfs=" +:+ VFSName +:+ "&mode=ro")
    with (("file:walrusd_" +:+ sanitize dbName +:+ ".db?") +:+ "vfs=" +:+ VFSName +:+ "&mode=ro")
    by (by rewrite !string_app_assoc).
  rewrite strstr_after.
  - change (sskip 4 ("vfs=" +:+ VFSName +:+ "&mode=ro")) with (VFSName +:+ String "&"%char "mode=ro").
    by rewrite strchr_app.
  - unfold no_equals. rewrite !sall_app. fold (no_equals (sanitize dbName)).
    by rewrite sanitize_no_equals.
Qed.

Lemma dsn_names_vfs_witness : vfs_of (ReadDSN "acme/vfs=x" "walrusd_12") = "walrusd_12".
Proof. exact (dsn_names_vfs "acme/vfs=x" "walrusd_12" eq_refl). Defined.

(** ** The adapter as the entry of a handle *)

(** A slice of encoded values; a nil slice is [null], and a slice is nil until
    something is appended to it. *)
Definition array (xs : list string) : string :=
  match xs with [] => "null" | _ => "[" +:+ join "," xs +:+ "]" end.

Definition marshal_read (r : ReadResult) : string :=
  lit "{'columns':" +:+ array (map quoted (Columns r)) +:+ lit ",'rows':" +:+ array (Rows r) +:+ "}".
Definition marshal_write (txid : string) : string :=
  if String.eqb txid "" then "{}" else lit "{'txid':" +:+ quoted txid +:+ "}".
Definition marshal_dsn (dsn vfs url : string) : string :=
  lit "{'dsn':" +:+ quoted dsn +:+ lit ",'vfs':" +:+ quoted vfs +:+
  (if String.eqb url "" then "" else lit ",'replica_url':" +:+ quoted url) +:+ "}".

Record WriteRequest := mkWriteRequest {
  w_descriptor : descriptorJSON; IdempotencyKey : string; Statements : list statement;
}.
Record ReadRequest := mkReadRequest { r_descriptor : descriptorJSON; r_SQL : string; r_Params : list json }.

Section Entry.
Context {F : Type} (ParseFloat : string -> option F)
  (marshal_row : gmap string (jcell (F := F)) -> res goerror string) (digest : string -> string)
  (decode_write : string -> res goerror WriteRequest) (decode_read : string -> res goerror ReadRequest)
  (decode_dsn : string -> res goerror descriptorJSON) (id_error : string -> goerror).
(** A connection, and the runtime: [WithWrite] and [WithRead] take the function
    to run on the connection of their session. *)
Context {S R : Type} (exec : string -> list (bound (F := F)) -> S -> S * option goerror)
  (query : string -> list (bound (F := F)) -> S -> res goerror (cursor (F := F)))
  (rt_WithWrite : option Z -> requestDescriptor -> string -> (S -> S * option goerror) -> R -> R * res goerror string)
  (rt_WithRead : option Z -> requestDescriptor -> (S -> res goerror ReadResult) -> R -> R * res goerror ReadResult)
  (rt_ReadDSN : option Z -> requestDescriptor -> R -> R * res goerror string)
  (rt_Close : R -> R * option goerror).

Record adapter := mkAdapter { a_rt : R; maxReadResultBytes : Z }.

Definition on_rt {X} (f : R -> R * X) (a : adapter) : adapter * X :=
  let '(r, x) := f (a_rt a) in (mkAdapter r (maxReadResultBytes a), x).

Definition AWithWriteBytes (deadline : Z) (req : string) (a : adapter) : adapter * res goerror string :=
  match decode_write req with
  | Err e => (a, Err (Wrap ClassInvalidArgument "decode write request" e))
  | Ok r =>
      match on_rt (rt_WithWrite (context deadline) (ddescriptor (w_descriptor r)) (IdempotencyKey r)
               (exec_statements ParseFloat exec digest 0 (Statements r))) a with
      | (a, Err e) => (a, Err e)
      | (a, Ok txid) => (a, Ok (marshal_write txid))
      end
  end.

Definition AWithReadBytes (deadline : Z) (req : string) (a : adapter) : adapter * res goerror string :=
  match decode_read req with
  | Err e => (a, Err (Wrap ClassInvalidArgument "decode read request" e))
  | Ok r =>
      match on_rt (rt_WithRead (context deadline) (ddescriptor (r_descriptor r))
               (fun s => read_rows marshal_row (maxReadResultBytes a)
                           (query (r_SQL r) (bindParams ParseFloat (r_Params r)) s))) a with
      | (a, Err e) => (a, Err e)
      | (a, Ok res) => (a, Ok (marshal_read res))
      end
  end.

Definition AReadDSNBytes (deadline : Z) (req : string) (a : adapter) : adapter * res goerror string :=
  match decode_dsn req with
  | Err e => (a, Err (Wrap ClassInvalidArgument "decode read_dsn request" e))
  | Ok r =>
      let d := ddescriptor r in
      match NewDatabaseID (Descriptors.DatabaseID d) with
      | Err m => (a, Err (Wrap ClassInvalidArgument "database id" (id_error m)))
      | Ok id =>
          match on_rt (rt_ReadDSN (context deadline) d) a with
          | (a, Err e) => (a, Err e)
          | (a, Ok dsn) => (a, Ok (marshal_dsn dsn (vfs_of dsn) (replica_url id (Descriptors.location (Descriptors.Storage d)))))
          end
      end
  end.

Definition AClose (a : adapter) : adapter * option goerror := on_rt rt_Close a.

(** [json.Marshal] escapes control characters; what [WithRead] returns is what
    its function returned. *)
Hypothesis marshal_row_no_nul : forall m b, marshal_row m = Ok b -> no_nul b = true.
Hypothesis read_returns : forall d desc fn r x, (rt_WithRead d desc fn r).2 = Ok x -> exists s, fn s = Ok x.

Lemma join_no_nul xs : Forall (fun x => no_nul x = true) xs -> no_nul (join "," xs) = true.
Proof.
  induction xs as [|x xs IH]; intros Hx; [done|]. inversion Hx as [|? ? H1 H2]; subst.
  destruct xs as [|y ys]; [done|]. change (join "," (x :: y :: ys)) with (x +:+ "," +:+ join "," (y :: ys)).
  rewrite !no_nul_app, H1, IH by done. done.
Qed.

Lemma array_no_nul xs : Forall (fun x => no_nul x = true) xs -> no_nul (array xs) = true.
Proof.
  intros Hx. unfold array. destruct xs; [done|]. by rewrite !no_nul_app, join_no_nul by done.
Qed.

#[export, refine] Instance adapter_entry : RuntimeEntry adapter := {|
  WithWriteBytes := AWithWriteBytes;
  WithReadBytes := AWithReadBytes;
  ReadDSNBytes := AReadDSNBytes;
  CloseAdapter := AClose;
|}.
Proof.
  - intros d r a b. unfold AWithWriteBytes, on_rt. destruct (decode_write r) as [w|e]; [|done].
    destruct (rt_WithWrite _ _ _ _ _) as [rt [txid|e]]; [|done]. cbn. intros [= <-].
    unfold marshal_write. destruct (String.eqb txid ""); [done|]. by rewrite !no_nul_app, quoted_no_nul.
  - intros d r a b. unfold AWithReadBytes, on_rt. destruct (decode_read r) as [q|e]; [|done].
    destruct (rt_WithRead _ _ _ _) as [rt [x|e]] eqn:Hr; [|done]. cbn. intros [= <-].
    destruct (read_returns _ _ _ (a_rt a) x (f_equal snd Hr)) as [s Hs].
    unfold marshal_read. rewrite !no_nul_app, !array_no_nul; [done| |].
    + unfold read_rows in Hs. destruct (query _ _ s) as [cur|e]; [|done].
      destruct (columns cur) as [cols|e]; [|done].
      destruct (collect _ _ _ _ _ _) as [rows|e] eqn:Hc; [|done].
      destruct (rows_err cur); [done|]. injection Hs as <-. cbn [Rows].
      apply collect_spec in Hc as (bs & -> & Hf & _); [|done]. cbn [app].
      clear -Hf marshal_row_no_nul. induction Hf as [|y z l l' (v & _ & Hv) _ IH]; constructor; [|exact IH].
      exact (marshal_row_no_nul _ _ Hv).
    + apply Forall_map, Forall_true. intros c. apply quoted_no_nul.
  - intros d r a b. unfold AReadDSNBytes, on_rt. destruct (decode_dsn r) as [q|e]; [|done].
    destruct (NewDatabaseID _) as [id|m]; [|done]. destruct (rt_ReadDSN _ _ _) as [rt [dsn|e]]; [|done].
    cbn. intros [= <-]. unfold marshal_dsn. rewrite !no_nul_app, !quoted_no_nul.
    destruct (String.eqb _ ""); [done|]. by rewrite no_nul_app, quoted_no_nul.
Defined.
End Entry.

(** A read without rows answers [null] where the bindings declare an array. *)
Lemma empty_result_is_null cols :
  marshal_read (mkReadResult cols []) = lit "{'columns':" +:+ array (map quoted cols) +:+ lit ",'rows':null}".
Proof. done. Qed.

(** The region of the replica URL is the request's, the region of the replica
    client the normalised one: [auto], which is no region to sign for, stays in
    the URL. *)
Lemma url_keeps_auto (r1 r2 : string) :
  let p := mkProfile "s3" "" "auto" "b" "" "" in
  replica_url "app" p = "s3://b/app/replica?region=auto" /\
  ManifestStore.normalizeS3Region r1 r2 (Region p) <> "auto".
Proof.
  split; [vm_compute; reflexivity|]. exact (proj2 (ManifestStore.region_decided r1 r2 "auto")).
Qed.
