(* ===== verification/CInterface.v ===== *)
(** * CInterface: the C interface as its clients see it

    The envelopes of [Handles] read by the scanners of the two C programs
    ([E2eClient], [AbiExamples]), and the Node addon ([NodeAddon]) running over
    the real table of handles. *)

From S2P Require Import Prelude CStrings Errors E2eClient AbiExamples RuntimeConfig GoJson NodeAddon Handles.

(** ** Envelopes under the C programs' scanners *)

Lemma has_lit pre needle rest : has (pre +:+ needle +:+ rest) needle = true.
Proof.
  unfold has. destruct (strstr _ _) eqn:H; [done|]. by destruct (strstr_none _ _ H pre rest).
Qed.

(** A quoted string, read by the automaton of [GoJson] up to the comma or brace
    that follows it. *)
Lemma scan_quoted s c rest :
  code c = 44 \/ code c = 125 -> scan_kt 0 (quoted s +:+ String c rest) = scan_kt 0 rest.
Proof.
  intros Hc. unfold quoted.
  change (String dquote (escape s +:+ String dquote "") +:+ String c rest)
    with (String dquote ((escape s +:+ String dquote "") +:+ String c rest)).
  rewrite string_app_assoc. cbn [scan_kt look]. change (code dquote =? 107) with false. cbv iota.
  rewrite scan_app. pose proof (scan_escape 0 s ltac:(lia)) as Ho.
  change (String dquote "" +:+ String c rest) with (String dquote (String c rest)).
  destruct (scan_kt 0 (escape s)) as [[|[|]]|]; try done; cbn [scan_kt look];
    change (code dquote =? 107) with false; change (code dquote =? 34) with true; cbn [look];
    destruct Hc as [-> | ->]; done.
Qed.

Lemma is_Some_scan_digits z rest st :
  0 <= z -> (st <= 1)%nat -> (forall st, (st <= 1)%nat -> is_Some (scan_kt st rest)) ->
  is_Some (scan_kt st (fmt_d z +:+ rest)).
Proof.
  intros Hz Hst Hr. rewrite scan_app. pose proof (scan_fmt_d st z Hst Hz) as Ho.
  destruct (scan_kt st (fmt_d z)) as [[|[|]]|]; try done; apply Hr; lia.
Qed.

Lemma errEnvelope_scan e : 0 <= RetryAfterMs e -> is_Some (scan_kt 0 (errEnvelope e)).
Proof.
  intros Hr. unfold errEnvelope. rewrite scan_app.
  change (scan_kt 0 (lit "{'api_version':1,'ok':false,'error':{'class':")) with (Some 0%nat). cbv iota.
  change (lit ",'message':" +:+ ?x) with (String ","%char (lit "'message':" +:+ x)).
  rewrite scan_quoted by (by left). rewrite scan_app.
  change (scan_kt 0 (lit "'message':")) with (Some 0%nat). cbv iota.
  destruct (Z.eqb_spec (RetryAfterMs e) 0) as [_|Hne].
  - change ("" +:+ "}}") with (String "}"%char "}"). rewrite scan_quoted by (by right). done.
  - rewrite string_app_assoc.
    change (lit ",'retry_after_ms':" +:+ ?x) with (String ","%char (lit "'retry_after_ms':" +:+ x)).
    rewrite scan_quoted by (by left). rewrite scan_app.
    change (scan_kt 0 (lit "'retry_after_ms':")) with (Some 0%nat). cbv iota.
    apply is_Some_scan_digits; [done|lia|]. intros [|[|]]; [done|done|lia].
Qed.

(** A class constant needs no escape. *)
Lemma class_quoted c rest :
  strchr (escape (class_string c) +:+ String dquote rest) dquote =
    Some (class_string c, String dquote rest) /\ escape (class_string c) = class_string c.
Proof. destruct c; split; try reflexivity; cbn; by destruct rest. Qed.

Lemma slen_quoted_after pre field v rest :
  strstr (pre +:+ field +:+ v +:+ String dquote rest) field = Some (field +:+ v +:+ String dquote rest) ->
  strchr (v +:+ String dquote rest) dquote = Some (v, String dquote rest) ->
  quoted_after (pre +:+ field +:+ v +:+ String dquote rest) field = Some v.
Proof. intros H1 H2. unfold quoted_after. rewrite H1, sskip_app. by rewrite H2. Qed.

(** What the core answers can be told apart by looking for a piece of
    text, as the C programs do: an error envelope has no success marker,
    whatever its message says (quotes in a message are escaped); it has the
    failure marker, and the text the programs cut out as the class is the
    class. A success envelope has the success marker. Neither has a zero byte
    to cut it short. *)
Theorem envelopes_readable (c : class) (message : string) (retry : Z) (result : string)
    (Hretry : 0 <= retry) (Hres : no_nul result = true) :
  let err := errEnvelope (mkErrPayload (class_string c) message retry) in
  (has err ok_true = false /\ has err ok_false = true /\
   quoted_after err (lit "'class':'") = Some (class_string c) /\ no_nul err = true) /\
  (has (mustEnvelopeOK result) ok_true = true /\ no_nul (mustEnvelopeOK result) = true).
Proof.
  cbn zeta. split; [split_and!|split].
  - unfold has. rewrite (scan_strstr _ ok_true (lit "'o") "rue" 0);
      [done|reflexivity|by apply errEnvelope_scan].
  - exact (has_lit (lit "{'api_version':1,") (lit "'ok':false") _).
  - unfold errEnvelope, quoted. cbn [Class]. destruct (class_quoted c "") as [_ ->].
    set (tail := lit ",'message':" +:+ _).
    replace (lit "{'api_version':1,'ok':false,'error':{'class':" +:+
             String dquote (class_string c +:+ String dquote "") +:+ tail)
      with (lit "{'api_version':1,'ok':false,'error':{" +:+ lit "'class':'" +:+
            class_string c +:+ String dquote tail) by (by destruct c).
    apply slen_quoted_after; destruct c; reflexivity.
  - unfold errEnvelope. cbn [Class Message RetryAfterMs]. rewrite !no_nul_app, !quoted_no_nul.
    destruct (retry =? 0); [done|]. rewrite no_nul_app. rewrite fmt_d_no_nul by done. done.
  - exact (has_lit (lit "{'api_version':1,") (lit "'ok':true") _).
  - unfold mustEnvelopeOK. rewrite !no_nul_app. destruct (String.eqb result ""); [done|].
    by rewrite no_nul_app, Hres.
Qed.

Lemma envelopes_readable_witness :
  has (errEnvelope (mkErrPayload (class_string ClassBusy) (lit "said 'ok':true") 250)) ok_true = false.
Proof.
  exact (proj1 (proj1 (envelopes_readable ClassBusy (lit "said 'ok':true") 250 "1" ltac:(lia) eq_refl))).
Defined.

(** ** The addon over the real core *)

Section Node.
Context {NA : Napi} {A : Type} {RE : RuntimeEntry A}.
Context (unmarshal_init : string -> res string InitRequest)
        (redis_connect : string -> string -> Z -> res string unit)
        (start : bool -> runtimeParams -> A)
        (sqlite_text : Z -> string) (no_compaction_text : string).

#[local] Instance the_core : CoreAbi (core (A := A)) :=
  core_abi unmarshal_init redis_connect start sqlite_text no_compaction_text.

(** What the core has to say to a request, before it is wrapped in an envelope:
    an unknown handle, or what the adapter behind the handle says. *)
Definition core_answer (o : call_op) (h : Z) (req : string) (ms : Z) (c : core (A := A))
    : core (A := A) * res errPayload string :=
  match lookup_runtime h c with
  | None => (c, Err (mkErrPayload (class_string ClassInvalidArgument) "unknown runtime handle" 0))
  | Some p =>
      match on_adapter p (operation o ms req) c with
      | Some (c, Ok b) => (c, Ok b)
      | Some (c, Err e) => (c, Err (errPayload_of sqlite_text no_compaction_text e))
      | None => (c, Ok "")
      end
  end.

Definition envelope (r : res errPayload string) : string :=
  match r with Ok b => mustEnvelopeOK b | Err e => errEnvelope e end.

Lemma retry_hint_nonneg e : 0 <= retry_hint e.
Proof.
  destruct e as [c m cause ms db|w e|z|x|m]; cbn; try lia. unfold RetryAfter.
  destruct (bool_decide _ && (0 <? ms)) eqn:H; cbn; [|lia]. bool_prop. lia.
Qed.

Lemma core_answer_readable o h req ms c c' r :
  core_answer o h req ms c = (c', r) ->
  no_nul (envelope r) = true /\ has (envelope r) ok_true = is_ok r.
Proof.
  assert (forall cl m k b, 0 <= k -> no_nul b = true ->
    (no_nul (errEnvelope (mkErrPayload (class_string cl) m k)) = true /\
     has (errEnvelope (mkErrPayload (class_string cl) m k)) ok_true = false) /\
    no_nul (mustEnvelopeOK b) = true /\ has (mustEnvelopeOK b) ok_true = true) as Hread.
  { intros cl m k b Hk Hb. split; split.
    - unfold errEnvelope. cbn [Class Message RetryAfterMs]. rewrite !no_nul_app, !quoted_no_nul.
      destruct (k =? 0); [done|]. by rewrite no_nul_app, fmt_d_no_nul.
    - unfold has. rewrite (scan_strstr _ ok_true (lit "'o") "rue" 0);
        [done|reflexivity|by apply errEnvelope_scan].
    - unfold mustEnvelopeOK. rewrite !no_nul_app. destruct (String.eqb b ""); [done|].
      by rewrite no_nul_app, Hb.
    - exact (has_lit (lit "{'api_version':1,") (lit "'ok':true") _). }
  unfold core_answer. destruct (lookup_runtime h c) as [p|].
  2: { intros [= <- <-]. by apply (Hread ClassInvalidArgument _ 0 ""). }
  unfold on_adapter. destruct (adapters c !! p) as [a|].
  2: { intros [= <- <-]. by apply (Hread ClassBusy "" 0 ""). }
  destruct (operation o ms req a) as [a' [b|e]] eqn:Hop; intros [= <- <-]; cbn [envelope is_ok].
  - apply (Hread ClassBusy "" 0 b); [done|]. assert ((operation o ms req a).2 = Ok b) as H by (by rewrite Hop).
    destruct o; cbn in H; [eapply write_no_nul|eapply read_no_nul|eapply dsn_no_nul]; exact H.
  - exact (proj1 (Hread _ _ _ "" (retry_hint_nonneg e) eq_refl)).
Qed.

(** [dispatch] says exactly that, if the envelope fits [cString]'s array. *)
Lemma dispatch_answers o h req ms c c' r :
  table_ok c -> slen req < 2147483648 -> core_answer o h req ms c = (c', r) ->
  slen (envelope r) < 1073741824 ->
  dispatch sqlite_text no_compaction_text o h req (wrap32 (slen req)) ms c = Some (c', Some (envelope r)).
Proof.
  intros Hok Hreq Ha Hfit. rewrite wrap32_id by (pose proof (slen_nonneg req); lia).
  assert (forall (c2 : core (A := A)) t, slen t < 1073741824 -> reply c2 t = Some (c2, Some t)) as Hreply.
  { intros c2 t Ht. unfold reply, cString. by rewrite (proj2 (Z.leb_le _ _)) by lia. }
  unfold core_answer, dispatch in *. unfold lookup_runtime in *. destruct (runtimes c !! h) as [p|] eqn:Hp.
  2: { injection Ha as <- <-. by apply Hreply. }
  unfold GoBytes. rewrite (proj2 (Z.ltb_ge _ 0)) by apply slen_nonneg.
  rewrite sfirst_all by (unfold slen; lia).
  destruct (pointers_valid c Hok h p Hp) as [a Hpa].
  unfold on_adapter in *. rewrite Hpa in *. destruct (operation o ms req a) as [a' [b|e]];
    injection Ha as <- <-; by apply Hreply.
Qed.

End Node.

(** Witness: a write through a handle that was never given. *)
Module Demo.
Import ConcreteCore Concrete.
#[export] Instance demo_core : CoreAbi (core (A := nat)) :=
  the_core unmarshal connect start_counter (fun _ => "") "".
Definition load : event := JsCall "load" [JStr "libwalrusd.so"] (fine full).
Definition loaded : state (C := core (A := nat)) := set_syms full (init_state core0).
Definition write_9 : event := JsCall "write" [JInt 9; JStr "{}"; JInt 5] (fine full).
Definition unknown : res errPayload string :=
  Err (mkErrPayload (class_string ClassInvalidArgument) "unknown runtime handle" 0).
End Demo.
Import Demo.

