(* ===== verification/FileCache.v ===== *)
(** * FileCache: the byte-bounded cache of LTX files
      ([fileCache] in [litestream/range_cache.go])

    The recency list owns the entries; the table finds them by key. Sizes are
    sums of lengths of data in memory and stay far below 2^63. *)

From S2P Require Import Prelude CStrings.

(** ** State *)

Record fileKey := mkKey { dbKey : string; level : Z; minTXID : Z; maxTXID : Z }.

#[export] Instance fileKey_eq_dec : EqDecision fileKey.
Proof. solve_decision. Defined.
#[export] Instance fileKey_countable : Countable fileKey.
Proof.
  refine (inj_countable' (fun k => (dbKey k, level k, minTXID k, maxTXID k))
    (fun '(d, l, a, b) => mkKey d l a b) _). by intros [].
Defined.

(** [fileEntry]: a key and its data. The front of [order] is the most recently
    used. *)
Definition fileEntry : Type := fileKey * string.

Record fileCache := mkFileCache {
  order : list fileEntry;
  entries : gmap fileKey string;
  bytes : Z;
  limit : Z;
}.

Definition newFileCache (l : Z) : fileCache := mkFileCache [] ∅ 0 l.

(** ** Operations, each under the mutex *)

(** [order.Remove] of the element a key leads to. *)
Definition remove (k : fileKey) (l : list fileEntry) : list fileEntry :=
  filter (fun e => e.1 <> k) l.

Definition moveToFront (k : fileKey) (d : string) (c : fileCache) : fileCache :=
  mkFileCache ((k, d) :: remove k (order c)) (entries c) (bytes c) (limit c).

Definition get (k : fileKey) (c : fileCache) : fileCache * option string :=
  match entries c !! k with
  | None => (c, None)
  | Some d => (moveToFront k d c, Some d)
  end.

(** The loop of [put]: evict from the back until the bytes fit. *)
Fixpoint evict (fuel : nat) (c : fileCache) : fileCache :=
  match fuel with
  | O => c
  | S fuel =>
      if limit c <? bytes c then
        match last (order c) with
        | None => c
        | Some (k, d) =>
            evict fuel (mkFileCache (removelast (order c)) (delete k (entries c))
                          (bytes c - slen d) (limit c))
        end
      else c
  end.

Definition put (k : fileKey) (d : string) (c : fileCache) : fileCache :=
  if (limit c <=? 0) || (limit c <? slen d) then c else
  match entries c !! k with
  | Some d' => moveToFront k d' c
  | None =>
      let c := mkFileCache ((k, d) :: order c) (<[k := d]> (entries c)) (bytes c + slen d) (limit c) in
      evict (length (order c)) c
  end.

Definition drop (k : fileKey) (c : fileCache) : fileCache :=
  match entries c !! k with
  | None => c
  | Some d => mkFileCache (remove k (order c)) (delete k (entries c)) (bytes c - slen d) (limit c)
  end.

(** [dropDB]: the loop over the table, in the order of any listing [keys] of
    its keys. *)
Definition dropDB_loop (db : string) (keys : list fileKey) (c : fileCache) : fileCache :=
  foldl (fun c k => if String.eqb (dbKey k) db then drop k c else c) c keys.
Definition dropDB (db : string) (c : fileCache) : fileCache :=
  dropDB_loop db (map fst (map_to_list (entries c))) c.

(** ** Sums *)

Definition total (l : list fileEntry) : Z := foldr (fun e n => slen e.2 + n) 0 l.

Lemma total_cons e l : total (e :: l) = slen e.2 + total l.
Proof. done. Qed.

Lemma total_app a b : total (a ++ b) = total a + total b.
Proof. induction a as [|x a IH]; [done|]. rewrite <- app_comm_cons, !total_cons, IH. lia. Qed.

Lemma total_nonneg l : 0 <= total l.
Proof. induction l as [|x l IH]; [done|]. rewrite total_cons. pose proof (slen_nonneg x.2). lia. Qed.

Lemma total_Permutation a b : a ≡ₚ b -> total a = total b.
Proof. induction 1; rewrite ?total_cons; lia. Qed.

(** ** Invariant *)

(** The list has each key once and the table is its contents; the byte count is
    the sum of the data and within the limit. *)
Record cache_ok (c : fileCache) : Prop := {
  keys_once : NoDup (order c).*1;
  table_of_list : entries c = list_to_map (order c);
  bytes_counted : bytes c = total (order c);
  bytes_bounded : bytes c <= Z.max 0 (limit c);
}.

Lemma new_ok l : cache_ok (newFileCache l).
Proof. split; cbn; [constructor|done|done|lia]. Qed.

Section Invariant.
Implicit Types c : fileCache.

Lemma entry_in_order c k d : cache_ok c -> entries c !! k = Some d <-> (k, d) ∈ order c.
Proof. intros [Hn He _ _]. rewrite He. symmetry. by apply elem_of_list_to_map. Qed.

Lemma remove_keys k (l : list fileEntry) : NoDup l.*1 -> NoDup (remove k l).*1.
Proof.
  unfold remove. induction l as [|e l IH]; [done|].
  cbn [fmap list_fmap]. intros [He Hl]%NoDup_cons. rewrite filter_cons.
  destruct (decide (e.1 <> k)); [|by apply IH].
  cbn [fmap list_fmap]. apply NoDup_cons. split; [|by apply IH].
  intros (x & Hx & Hin)%list_elem_of_fmap. apply list_elem_of_filter in Hin as [_ Hin].
  apply He. rewrite Hx. apply list_elem_of_fmap. eauto.
Qed.

Lemma remove_split k d (l : list fileEntry) :
  NoDup l.*1 -> (k, d) ∈ l -> l ≡ₚ (k, d) :: remove k l.
Proof.
  unfold remove. induction l as [|e l IH]; [by intros _ ?%not_elem_of_nil|].
  cbn [fmap list_fmap]. intros [He Hl]%NoDup_cons [Heq|Hin]%elem_of_cons; rewrite filter_cons.
  - subst e. rewrite decide_False by (intros Hk; by apply Hk). f_equiv.
    cbn in He. clear IH Hl. induction l as [|x l IH]; [done|]. rewrite filter_cons.
    cbn [fmap list_fmap] in He. apply not_elem_of_cons in He as [Hx He].
    rewrite decide_True by (intros E; by apply Hx). f_equiv. by apply IH.
  - rewrite decide_True.
    + etrans; [apply perm_skip, IH; done|apply perm_swap].
    + intros E. apply He. rewrite E. apply list_elem_of_fmap. by exists (k, d).
Qed.

Lemma map_perm (a b : list fileEntry) : NoDup a.*1 -> a ≡ₚ b -> list_to_map (M := gmap fileKey string) a = list_to_map b.
Proof. intros Hn Hp. apply list_to_map_proper; done. Qed.

Lemma remove_map k d (l : list fileEntry) :
  NoDup l.*1 -> (k, d) ∈ l ->
  delete k (list_to_map (M := gmap fileKey string) l) = list_to_map (remove k l).
Proof.
  intros Hn Hin. rewrite (map_perm l ((k, d) :: remove k l)); [|done|by apply remove_split].
  cbn [list_to_map foldr]. rewrite delete_insert_id; [done|].
  apply not_elem_of_list_to_map_1. intros (x & Hx & Hx')%list_elem_of_fmap.
  apply list_elem_of_filter in Hx' as [Hne _]. by apply Hne.
Qed.

Lemma moveToFront_ok c k d : cache_ok c -> entries c !! k = Some d -> cache_ok (moveToFront k d c).
Proof.
  intros Hok Hk. pose proof (proj1 (entry_in_order c k d Hok) Hk) as Hin.
  destruct Hok as [Hn He Hb Hl]. pose proof (remove_split _ _ _ Hn Hin) as Hp.
  split; cbn; try done.
  - change (NoDup ((k, d) :: remove k (order c)).*1). by rewrite <- Hp.
  - rewrite He. by rewrite (map_perm _ _ Hn Hp).
  - rewrite Hb. exact (total_Permutation _ _ Hp).
Qed.

Lemma get_ok c k : cache_ok c -> cache_ok (get k c).1.
Proof.
  intros Hok. unfold get. destruct (entries c !! k) eqn:Hk; [|done]. by apply moveToFront_ok.
Qed.

Lemma drop_ok c k : cache_ok c -> cache_ok (drop k c).
Proof.
  intros Hok. unfold drop. destruct (entries c !! k) as [d|] eqn:Hk; [|done].
  pose proof (proj1 (entry_in_order c k d Hok) Hk) as Hin. destruct Hok as [Hn He Hb Hl].
  pose proof (total_Permutation _ _ (remove_split _ _ _ Hn Hin)) as Ht. rewrite total_cons in Ht. cbn [snd] in Ht.
  pose proof (slen_nonneg d).
  split; cbn [order entries bytes limit]; [by apply remove_keys|by rewrite He, (remove_map k d)|lia|lia].
Qed.

Lemma drop_limit c k : limit (drop k c) = limit c.
Proof. unfold drop. by destruct (entries c !! k). Qed.

Lemma get_limit c k : limit (get k c).1 = limit c.
Proof. unfold get. by destruct (entries c !! k). Qed.

Lemma dropDB_limit db c : limit (dropDB db c) = limit c.
Proof.
  unfold dropDB, dropDB_loop. generalize (map fst (map_to_list (entries c))) as keys.
  intros keys. revert c. induction keys as [|k keys IH]; intros c; [done|].
  cbn [foldl]. rewrite IH. destruct (String.eqb _ _); [apply drop_limit|done].
Qed.

Lemma dropDB_loop_ok db keys c : cache_ok c -> cache_ok (dropDB_loop db keys c).
Proof.
  unfold dropDB_loop. revert c. induction keys as [|k keys IH]; intros c Hok; [done|].
  cbn. apply IH. destruct (String.eqb _ _); [by apply drop_ok|done].
Qed.

Lemma drop_entries c k : entries (drop k c) = delete k (entries c).
Proof.
  unfold drop. destruct (entries c !! k) eqn:Hk; [done|]. by rewrite delete_id.
Qed.

(** [dropDB] forgets the files of one database and no other, in any order. *)
Lemma dropDB_loop_entries db keys c k :
  entries (dropDB_loop db keys c) !! k =
  if String.eqb (dbKey k) db && bool_decide (k ∈ keys) then None else entries c !! k.
Proof.
  unfold dropDB_loop. revert c. induction keys as [|k' keys IH]; intros c.
  - cbn. by rewrite andb_false_r.
  - cbn [foldl]. rewrite IH. clear IH.
    destruct (decide (k = k')) as [<-|Hne].
    + rewrite (bool_decide_true (k ∈ k :: keys)) by set_solver.
      destruct (String.eqb (dbKey k) db); cbn; [|done].
      rewrite drop_entries, lookup_delete_eq. by case_match.
    + rewrite (bool_decide_ext (k ∈ k' :: keys) (k ∈ keys)) by set_solver.
      destruct (String.eqb (dbKey k') db); [|done].
      by rewrite drop_entries, lookup_delete_ne.
Qed.

Lemma dropDB_entries db c k :
  entries (dropDB db c) !! k = if String.eqb (dbKey k) db then None else entries c !! k.
Proof.
  unfold dropDB. rewrite dropDB_loop_entries. destruct (String.eqb _ _); [|done]. cbn.
  case_bool_decide as Hin; [done|]. destruct (entries c !! k) as [d|] eqn:Hk; [|done].
  destruct Hin. change (k ∈ (map_to_list (entries c)).*1). apply list_elem_of_fmap.
  exists (k, d). split; [done|]. by apply elem_of_map_to_list.
Qed.
End Invariant.

(** ** What [put] keeps *)

(** The longest prefix that fits: the reference for the loop of [put]. *)
Fixpoint fits (room : Z) (l : list fileEntry) : list fileEntry :=
  match l with
  | [] => []
  | e :: l => if slen e.2 <=? room then e :: fits (room - slen e.2) l else []
  end.

Lemma fits_all room l : total l <= room -> fits room l = l.
Proof.
  revert room. induction l as [|e l IH]; intros room Hr; [done|]. rewrite total_cons in Hr.
  pose proof (total_nonneg l). cbn [fits]. rewrite (proj2 (Z.leb_le _ _)) by lia. by rewrite IH by lia.
Qed.

Lemma fits_snoc room l e : room < total (l ++ [e]) -> fits room (l ++ [e]) = fits room l.
Proof.
  revert room. induction l as [|x l IH]; intros room Hr; rewrite ?app_nil_l in *.
  - rewrite total_cons in Hr. cbn [fits total foldr] in *. by rewrite (proj2 (Z.leb_gt _ _)) by lia.
  - rewrite <- app_comm_cons, total_cons in *. cbn [fits].
    destruct (slen x.2 <=? room); [|done]. by rewrite IH by lia.
Qed.

Lemma fits_total room l : 0 <= room -> total (fits room l) <= room.
Proof.
  revert room. induction l as [|e l IH]; intros room Hr; [done|]. cbn [fits].
  destruct (Z.leb_spec (slen e.2) room) as [Hs|_]; [|done].
  rewrite total_cons. specialize (IH (room - slen e.2)). lia.
Qed.

Lemma delete_last (l : list fileEntry) k d :
  NoDup (l ++ [(k, d)]).*1 ->
  delete k (list_to_map (M := gmap fileKey string) (l ++ [(k, d)])) = list_to_map l /\ NoDup l.*1.
Proof.
  rewrite fmap_app. intros (Hl & Hk & _)%NoDup_app.
  assert (k ∉ l.*1) as Hn by (intros H; apply (Hk _ H); cbn; set_solver).
  split; [|done]. etrans; [exact (f_equal (delete k) (list_to_map_snoc (M := gmap fileKey) l k d Hn))|].
  apply delete_insert_id. by apply not_elem_of_list_to_map_1.
Qed.

Lemma evict_spec fuel c :
  NoDup (order c).*1 -> entries c = list_to_map (order c) -> bytes c = total (order c) ->
  0 <= limit c -> (length (order c) <= fuel)%nat ->
  cache_ok (evict fuel c) /\ order (evict fuel c) = fits (limit c) (order c) /\
  limit (evict fuel c) = limit c.
Proof.
  revert c. induction fuel as [|fuel IH]; intros c Hn He Hb Hlim Hf; cbn [evict].
  - destruct c as [[|e l] m b lim]; cbn [length order] in Hf; [|lia]. cbn in *.
    split; [split; cbn; lia || done|done].
  - destruct (Z.ltb_spec (limit c) (bytes c)) as [Hover|Hfit].
    + destruct c as [l m b lim]. cbn [order entries bytes limit] in *.
      destruct l as [|[k d] l _] using rev_ind; [cbn in Hb; lia|].
      rewrite last_snoc, removelast_last. destruct (delete_last l k d Hn) as [Hd Hl].
      rewrite fits_snoc by lia.
      rewrite length_app in Hf. cbn [length] in Hf. rewrite total_app, total_cons in Hb.
      cbn [snd total foldr] in Hb.
      apply IH; cbn [order entries bytes limit]; [done|by rewrite He|lia|done|lia].
    + rewrite fits_all by lia. split; [split; [done..|lia]|done].
Qed.

Lemma put_fresh c k d :
  cache_ok c -> 0 < limit c -> slen d <= limit c -> entries c !! k = None ->
  cache_ok (put k d c) /\ limit (put k d c) = limit c /\
  order (put k d c) = (k, d) :: fits (limit c - slen d) (order c).
Proof.
  intros [Hn He Hb _] Hlim Hs Hk. unfold put.
  rewrite (proj2 (Z.leb_gt _ _)), (proj2 (Z.ltb_ge _ _)), Hk by lia. cbn [orb].
  assert (k ∉ (order c).*1) as Hfresh by (rewrite He in Hk; by apply not_elem_of_list_to_map_2).
  destruct (evict_spec (length ((k, d) :: order c))
    (mkFileCache ((k, d) :: order c) (<[k := d]> (entries c)) (bytes c + slen d) (limit c)))
    as (Hok & Ho & Hl); cbn [order entries bytes limit].
  - by apply NoDup_cons.
  - by rewrite He.
  - rewrite total_cons, Hb. cbn [snd]. lia.
  - lia.
  - done.
  - split_and!; [exact Hok|exact Hl|]. etrans; [exact Ho|]. cbn [limit order fits snd].
    by rewrite (proj2 (Z.leb_le _ _)) by lia.
Qed.

Lemma put_cached c k d d' :
  0 < limit c -> slen d <= limit c -> entries c !! k = Some d' -> put k d c = moveToFront k d' c.
Proof.
  intros Hlim Hs Hk. unfold put. by rewrite (proj2 (Z.leb_gt _ _)), (proj2 (Z.ltb_ge _ _)), Hk by lia.
Qed.

Lemma put_ok c k d : cache_ok c -> cache_ok (put k d c) /\ limit (put k d c) = limit c.
Proof.
  intros Hok. destruct (Z.leb_spec (limit c) 0) as [Hneg|Hpos]; [|destruct (Z.ltb_spec (limit c) (slen d)) as [Hbig|Hs]].
  - unfold put. by rewrite (proj2 (Z.leb_le _ _)) by done.
  - unfold put. rewrite (proj2 (Z.ltb_lt _ _)) by done. by rewrite orb_true_r.
  - destruct (entries c !! k) as [d'|] eqn:Hk.
    + rewrite (put_cached _ _ _ d') by done. split; [by apply moveToFront_ok|done].
    + destruct (put_fresh c k d) as (? & ? & _); done.
Qed.

Lemma get_entries c k : entries (get k c).1 = entries c.
Proof. unfold get. by destruct (entries c !! k). Qed.

Lemma get_data c k : (get k c).2 = entries c !! k.
Proof. unfold get. by destruct (entries c !! k). Qed.

Lemma evict_entries fuel c k d : entries (evict fuel c) !! k = Some d -> entries c !! k = Some d.
Proof.
  revert c. induction fuel as [|fuel IH]; intros c; [done|]. cbn [evict].
  destruct (limit c <? bytes c); [|done]. destruct (last (order c)) as [[k' d']|]; [|done].
  intros H%IH. cbn [entries] in H. by apply lookup_delete_Some in H as [_ H].
Qed.

(** What is in the cache after [put] was there or was just put. *)
Lemma put_entries c k d k' d' :
  entries (put k d c) !! k' = Some d' -> entries c !! k' = Some d' \/ k' = k /\ d' = d.
Proof.
  unfold put. destruct (_ || _); [by left|]. destruct (entries c !! k) eqn:Hk; [by left|].
  intros H%evict_entries. cbn [entries] in H.
  apply lookup_insert_Some in H as [[-> ->]|[_ H]]; [by right|by left].
Qed.

(** A file that is not too large and not cached yet goes to the front, and of
    the others the most recently used stay, as many as the limit leaves room
    for and not one less; a file that is cached keeps its old bytes and moves
    to the front; a file larger than the limit changes nothing. In each case
    the table and the list agree and the bytes are within the limit. *)
Theorem put_spec (c : fileCache) (k : fileKey) (d : string) (Hok : cache_ok c) (Hlim : 0 < limit c) :
  cache_ok (put k d c) /\ bytes (put k d c) <= limit c /\
  (entries c !! k = None -> slen d <= limit c ->
   order (put k d c) = (k, d) :: fits (limit c - slen d) (order c) /\
   entries (put k d c) !! k = Some d) /\
  (forall d', entries c !! k = Some d' -> slen d <= limit c ->
   put k d c = moveToFront k d' c) /\
  (limit c < slen d -> put k d c = c).
Proof.
  destruct (put_ok c k d Hok) as [Hok' Hlim']. split_and!; [done| | | |].
  - pose proof (bytes_bounded _ Hok'). lia.
  - intros Hk Hs. destruct (put_fresh c k d) as (_ & _ & Ho); [done..|].
    split; [done|]. apply (entry_in_order _ _ _ Hok'). rewrite Ho. by left.
  - intros d' Hk Hs. by apply put_cached.
  - intros Hs. unfold put. rewrite (proj2 (Z.ltb_lt _ _)) by done. by rewrite orb_true_r.
Qed.

(** Witness: of three entries of two bytes and a limit of five, a third file
    of three bytes leaves one. *)
Definition three_files : fileCache :=
  put (mkKey "db" 0 2 2) "bb" (put (mkKey "db" 0 1 1) "aa" (newFileCache 5)).
Lemma put_spec_witness :
  order (put (mkKey "db" 0 3 3) "ccc" three_files) =
    [(mkKey "db" 0 3 3, "ccc"); (mkKey "db" 0 2 2, "bb")].
Proof.
  assert (cache_ok three_files) as Hok by (do 2 apply put_ok; apply new_ok).
  destruct (put_spec three_files (mkKey "db" 0 3 3) "ccc" Hok eq_refl) as (_ & _ & H & _).
  etrans; [exact (proj1 (H eq_refl ltac:(done)))|]. vm_compute. reflexivity.
Defined.
