(* ===== verification/RangeCache.v ===== *)
(** * RangeCache: the caching replica client
      ([cachingClient] in [litestream/range_cache.go])

    The client's methods are programs over the calls they make: the shared
    [FileCache], the client's listings, the clock, and the replica client
    behind it. Calls of any number of clients interleave; each call of the
    inner client and each critical section is one step. *)

From S2P Require Import Prelude CStrings Errors Manifest Prog FileCache.

Definition maxCachedFileBytes : Z := Z.shiftl 8 20.

(** ** [cachingClient] *)

Record listingEntry := mkListing { infos : list file; at_ : Z }.

(** The fixed fields; [files] says whether file bytes are cached. *)
Record cachingClient := mkCaching {
  c_dbKey : string;
  files : bool;
  listingTTL : Z;
}.

Definition keyOf (c : cachingClient) (l a b : Z) : fileKey := mkKey (c_dbKey c) l a b.

Inductive op : Set -> Type :=
  | CacheGet (k : fileKey) : op (option string)
  | CachePut (k : fileKey) (d : string) : op unit
  | CacheDrop (k : fileKey) : op unit
  | CacheDropDB (db : string) : op unit
  | ListingGet (l : Z) : op (option listingEntry)
  | ListingSet (l : Z) (fs : list file) : op unit
  | ListingDrop (l : Z) : op unit
  | ListingsReset : op unit
  | Now : op Z
  | InnerLTXFiles (l seek : Z) (useMetadata : bool) : op (res goerror (list file))
  | InnerOpenLTXFile (l a b offset size : Z) : op (res goerror string)
  | InnerWriteLTXFile (l a b : Z) (r : res goerror string) : op (res goerror file)
  | InnerDeleteLTXFiles (fs : list file) : op (option goerror)
  | InnerDeleteAll : op (option goerror).

Abbreviation P := (prog op).

(** ** Methods *)

Definition filterFrom (fs : list file) (seek : Z) : list file :=
  if seek =? 0 then fs else List.filter (fun info => seek <=? MinTXID info) fs.

Definition fetchListing (c : cachingClient) (l seek : Z) (useMetadata : bool) : P (res goerror (list file)) :=
  r ← invoke (InnerLTXFiles l 0 useMetadata);
  match r with
  | Err e => mret (Err e)
  | Ok fs => invoke (ListingSet l fs);; mret (Ok (filterFrom fs seek))
  end.

Definition LTXFiles (c : cachingClient) (l seek : Z) (useMetadata : bool) : P (res goerror (list file)) :=
  if (l =? 0) || (listingTTL c <=? 0) then invoke (InnerLTXFiles l seek useMetadata) else
  entry ← invoke (ListingGet l);
  match entry with
  | Some e =>
      now ← invoke Now;
      if now - at_ e <? listingTTL c then mret (Ok (filterFrom (infos e) seek))
      else fetchListing c l seek useMetadata
  | None => fetchListing c l seek useMetadata
  end.

(** [sliceReader]: what the reader yields; [None] if slicing panics. *)
Definition sliceReader (data : string) (offset size : Z) : option string :=
  if slen data <=? offset then Some "" else
  if offset <? 0 then None else
  let window := sskip (Z.to_nat offset) data in
  Some (if (0 <? size) && (size <? slen window) then sfirst (Z.to_nat size) window else window).

(** [OpenLTXFile] and the reading of what it returns; [None] is a panic. *)
Definition OpenLTXFile (c : cachingClient) (l a b offset size : Z) : P (option (res goerror string)) :=
  if negb (files c) then r ← invoke (InnerOpenLTXFile l a b offset size); mret (Some r) else
  let key := keyOf c l a b in
  hit ← invoke (CacheGet key);
  match hit with
  | Some data => mret (Ok <$> sliceReader data offset size)
  | None =>
      r ← invoke (InnerOpenLTXFile l a b 0 0);
      match r with
      | Err e => mret (Some (Err e))
      | Ok data =>
          (if slen data <=? maxCachedFileBytes then invoke (CachePut key data) else mret tt);;
          mret (Ok <$> sliceReader data offset size)
      end
  end.

(** [r] is what reading the source yields. *)
Definition WriteLTXFile (c : cachingClient) (l a b : Z) (r : res goerror string) : P (res goerror file) :=
  invoke (ListingDrop l);;
  if negb (files c) then invoke (InnerWriteLTXFile l a b r) else
  match r with
  | Err e => mret (Err e)
  | Ok data =>
      let key := keyOf c l a b in
      invoke (CacheDrop key);;
      info ← invoke (InnerWriteLTXFile l a b (Ok data));
      match info with
      | Err e => mret (Err e)
      | Ok info =>
          (if slen data <=? maxCachedFileBytes then invoke (CachePut key data) else mret tt);;
          mret (Ok info)
      end
  end.

(** The loop of [DeleteLTXFiles]. *)
Fixpoint dropFiles (c : cachingClient) (fs : list file) : P unit :=
  match fs with
  | [] => mret tt
  | f :: fs =>
      (if files c then invoke (CacheDrop (keyOf c (Level f) (MinTXID f) (MaxTXID f))) else mret tt);;
      invoke (ListingDrop (Level f));;
      dropFiles c fs
  end.
Definition DeleteLTXFiles (c : cachingClient) (fs : list file) : P (option goerror) :=
  dropFiles c fs;; invoke (InnerDeleteLTXFiles fs).

Definition DeleteAll (c : cachingClient) : P (option goerror) :=
  (if files c then invoke (CacheDropDB (c_dbKey c)) else mret tt);;
  invoke ListingsReset;;
  invoke InnerDeleteAll.

Definition DropListings (c : cachingClient) : P unit := invoke ListingsReset.

(** ** The methods as one type of calls *)

Inductive method :=
  | MLTXFiles (l seek : Z) (useMetadata : bool)
  | MOpen (l a b offset size : Z)
  | MWrite (l a b : Z) (r : res goerror string)
  | MDelete (fs : list file)
  | MDeleteAll
  | MDropListings.

Inductive answer :=
  | AListing (r : res goerror (list file))
  | AOpen (r : option (res goerror string))
  | AWrite (r : res goerror file)
  | ADelete (r : option goerror)
  | ADone.

Definition program (c : cachingClient) (m : method) : P answer :=
  match m with
  | MLTXFiles l seek meta => r ← LTXFiles c l seek meta; mret (AListing r)
  | MOpen l a b off sz => r ← OpenLTXFile c l a b off sz; mret (AOpen r)
  | MWrite l a b d => r ← WriteLTXFile c l a b d; mret (AWrite r)
  | MDelete fs => r ← DeleteLTXFiles c fs; mret (ADelete r)
  | MDeleteAll => r ← DeleteAll c; mret (ADelete r)
  | MDropListings => DropListings c;; mret ADone
  end.

(** ** The world behind the client *)

(** A stored file: its bytes, when the store says it was modified, and the
    timestamp in its header, which a listing with metadata reports. *)
Record object := mkObject { data : string; modified : Z; timestamp : Z }.

Definition info_of (useMetadata : bool) (k : fileKey) (o : object) : file :=
  mkFile (level k) (minTXID k) (maxTXID k) (slen (data o))
    (if useMetadata then timestamp o else modified o).

(** [written] records every file ever stored. *)
Record world := mkWorld {
  cache : fileCache;
  listings : gmap nat (gmap Z listingEntry);
  stored : gmap fileKey object;
  written : list (fileKey * string);
}.

Definition set_cache (c : fileCache) (w : world) : world := mkWorld c (listings w) (stored w) (written w).
Definition of_client (i : nat) (w : world) : gmap Z listingEntry := default ∅ (listings w !! i).
Definition set_listings (i : nat) (m : gmap Z listingEntry) (w : world) : world :=
  mkWorld (cache w) (<[i := m]> (listings w)) (stored w) (written w).
Definition store_object (k : fileKey) (o : object) (w : world) : world :=
  mkWorld (cache w) (listings w) (<[k := o]> (stored w)) ((k, data o) :: written w).
Definition set_stored (m : gmap fileKey object) (w : world) : world :=
  mkWorld (cache w) (listings w) m (written w).

(** The files of one level of one database from [seek] on. *)
Definition lists (useMetadata : bool) (db : string) (l seek : Z) (m : gmap fileKey object)
    (fs : list file) : Prop :=
  forall f, f ∈ fs <-> exists k o, m !! k = Some o /\ dbKey k = db /\ level k = l /\
    seek <= minTXID k /\ f = info_of useMetadata k o.

(** What is left of [m] when some of the files [gone] describes are deleted,
    and when all are. *)
Definition deletes (all : bool) (gone : fileKey -> Prop) (m m' : gmap fileKey object) : Prop :=
  (forall k o, m' !! k = Some o -> m !! k = Some o) /\
  (forall k, ~ gone k -> m' !! k = m !! k) /\
  (all = true -> forall k, gone k -> m' !! k = None).

Definition listed_in (db : string) (fs : list file) (k : fileKey) : Prop :=
  dbKey k = db /\ (level k, minTXID k, maxTXID k) ∈ map fkey fs.

(** One step of a client of the database [db], number [i]. The inner client is
    the interface of the litestream library: it may fail at any time; a read
    yields the window of the stored file; a failed write may have happened; a
    failed deletion may have deleted some files. The replica prefixes of
    databases are taken not to lie inside each other. *)
Definition effect (db : string) (i : nat) {R : Set} (o : op R) : world -> R -> world -> Prop :=
  match o in op R return world -> R -> world -> Prop with
  | CacheGet k => fun w r w' => (w' , r) = (set_cache (get k (cache w)).1 w, (get k (cache w)).2)
  | CachePut k d => fun w _ w' => w' = set_cache (put k d (cache w)) w
  | CacheDrop k => fun w _ w' => w' = set_cache (drop k (cache w)) w
  | CacheDropDB d => fun w _ w' => w' = set_cache (dropDB d (cache w)) w
  | ListingGet l => fun w r w' => w' = w /\ r = of_client i w !! l
  | ListingSet l fs => fun w _ w' => exists now,
      w' = set_listings i (<[l := mkListing fs now]> (of_client i w)) w
  | ListingDrop l => fun w _ w' => w' = set_listings i (delete l (of_client i w)) w
  | ListingsReset => fun w _ w' => w' = set_listings i ∅ w
  | Now => fun w _ w' => w' = w
  | InnerLTXFiles l seek meta => fun w r w' => w' = w /\
      match r with Ok fs => lists meta db l seek (stored w) fs | Err _ => True end
  | InnerOpenLTXFile l a b off sz => fun w r w' => w' = w /\
      match r with
      | Ok t => exists o, stored w !! mkKey db l a b = Some o /\
                  (0 <= off -> sliceReader (data o) off sz = Some t)
      | Err _ => True
      end
  | InnerWriteLTXFile l a b src => fun w r w' =>
      match src, r with
      | Ok d, Ok info => exists o, data o = d /\ info = info_of true (mkKey db l a b) o /\
          w' = store_object (mkKey db l a b) o w
      | Ok d, Err _ => w' = w \/ exists o, data o = d /\ w' = store_object (mkKey db l a b) o w
      | Err e, Err _ => w' = w
      | Err e, Ok _ => False
      end
  | InnerDeleteLTXFiles fs => fun w r w' =>
      exists m, w' = set_stored m w /\
        deletes (bool_decide (r = None)) (listed_in db fs) (stored w) m
  | InnerDeleteAll => fun w r w' =>
      exists m, w' = set_stored m w /\
        deletes (bool_decide (r = None)) (fun k => dbKey k = db) (stored w) m
  end.

(** ** One client at a time *)

Section Alone.
Context (db : string) (i : nat).

(** [p] runs from [w] to [w'] with nothing in between, and returns [a]. *)
Fixpoint alone {A} (p : P A) (w w' : world) (a : A) : Prop :=
  match p with
  | Ret x => a = x /\ w' = w
  | Do o k => exists r w1, effect db i o w r w1 /\ alone (k r) w1 w' a
  end.

(** Every run of [p] from [w] ends in [post]. *)
Fixpoint ends {A} (p : P A) (w : world) (post : A -> world -> Prop) : Prop :=
  match p with
  | Ret a => post a w
  | Do o k => forall r w1, effect db i o w r w1 -> ends (k r) w1 post
  end.

Lemma ends_bind {A B} (p : P A) (k : A -> P B) w post :
  ends p w (fun a w1 => ends (k a) w1 post) -> ends (p ≫= k) w post.
Proof.
  revert w. induction p as [a|R o k' IH]; intros w; [done|]. cbn. intros H r w1 He. by apply IH, H.
Qed.

Lemma ends_mono {A} (p : P A) w (post post' : A -> world -> Prop) :
  ends p w post -> (forall a w1, post a w1 -> post' a w1) -> ends p w post'.
Proof.
  revert w. induction p as [a|R o k IH]; intros w; cbn; [auto|]. intros H Hp r w1 He. eapply IH; eauto.
Qed.

Lemma ends_alone {A} (p : P A) w post w' a : ends p w post -> alone p w w' a -> post a w'.
Proof.
  revert w. induction p as [x|R o k IH]; intros w; cbn.
  - by intros H [-> ->].
  - intros H (r & w1 & He & Ha). exact (IH r w1 (H r w1 He) Ha).
Qed.
End Alone.

(** ** What a plain client may answer

    The contract of the inner client, method by method: from the stored files
    [st] to [st']. A listing may carry either kind of creation time. *)
Definition answers (db : string) (m : method) (st : gmap fileKey object) (a : answer)
    (st' : gmap fileKey object) : Prop :=
  match m, a with
  | MLTXFiles l seek _, AListing (Ok fs) =>
      st' = st /\ (0 <= seek -> exists meta, lists meta db l seek st fs)
  | MLTXFiles _ _ _, AListing (Err _) => st' = st
  | MOpen l a b off sz, AOpen (Some (Ok t)) =>
      st' = st /\ exists o, st !! mkKey db l a b = Some o /\ (0 <= off -> sliceReader (data o) off sz = Some t)
  | MOpen _ _ _ _ _, AOpen (Some (Err _)) => st' = st
  | MOpen _ _ _ off _, AOpen None => st' = st /\ off < 0
  | MWrite l a b (Ok d), AWrite (Ok info) =>
      exists o, data o = d /\ info = info_of true (mkKey db l a b) o /\ st' = <[mkKey db l a b := o]> st
  | MWrite l a b (Ok d), AWrite (Err _) =>
      st' = st \/ exists o, data o = d /\ st' = <[mkKey db l a b := o]> st
  | MWrite _ _ _ (Err _), AWrite (Err _) => st' = st
  | MDelete fs, ADelete r => deletes (bool_decide (r = None)) (listed_in db fs) st st'
  | MDeleteAll, ADelete r => deletes (bool_decide (r = None)) (fun k => dbKey k = db) st st'
  | MDropListings, ADone => st' = st
  | _, _ => False
  end.

(** ** Coherence *)

Section Clients.
Context (clients : nat -> cachingClient).

(** Every cached file is the stored one, every cached listing the current
    one. *)
Record coherent (w : world) : Prop := {
  files_coherent k d : entries (cache w) !! k = Some d -> data <$> stored w !! k = Some d;
  listings_coherent j l e : of_client j w !! l = Some e ->
    exists meta, lists meta (c_dbKey (clients j)) l 0 (stored w) (infos e);
  cached_by k d : entries (cache w) !! k = Some d ->
    exists j, dbKey k = c_dbKey (clients j) /\ files (clients j) = true;
}.

Lemma of_client_set j i m w :
  of_client j (set_listings i m w) = if decide (j = i) then m else of_client j w.
Proof.
  unfold of_client, set_listings. cbn [listings]. destruct (decide (j = i)) as [->|Hj].
  - by rewrite lookup_insert_eq.
  - by rewrite lookup_insert_ne.
Qed.

(** Forgetting keeps a world coherent. *)
Lemma coherent_cache w c : coherent w ->
  (forall k d, entries c !! k = Some d -> entries (cache w) !! k = Some d) -> coherent (set_cache c w).
Proof. intros [Hf Hl Hb] Hs. split; cbn; [eauto|exact Hl|eauto]. Qed.

Lemma coherent_listings w i m : coherent w ->
  (forall l e, m !! l = Some e -> of_client i w !! l = Some e) -> coherent (set_listings i m w).
Proof.
  intros [Hf Hl Hb] Hs. split; [exact Hf| |exact Hb]. intros j l e. rewrite of_client_set.
  destruct (decide (j = i)) as [->|_]; eauto.
Qed.

Lemma lists_same meta db l seek m m' fs :
  (forall k o, dbKey k = db -> level k = l -> m !! k = Some o <-> m' !! k = Some o) ->
  lists meta db l seek m fs -> lists meta db l seek m' fs.
Proof.
  intros Hm H f. etrans; [apply H|]. split; intros (k & o & Hk & Hd & Hlv & Hr); exists k, o;
    (split; [by apply Hm|done]).
Qed.

Lemma lists_filterFrom meta db l seek m fs : 0 <= seek ->
  lists meta db l 0 m fs -> lists meta db l seek m (filterFrom fs seek).
Proof.
  intros Hs H f. unfold filterFrom. destruct (Z.eqb_spec seek 0) as [->|_]; [apply H|].
  rewrite list_elem_of_In, List.filter_In, <- list_elem_of_In.
  rewrite (H f). split.
  - intros [(k & o & Hk & Hd & Hl & _ & ->) Hle]. exists k, o. split_and!; try done.
    by apply Z.leb_le in Hle.
  - intros (k & o & Hk & Hd & Hl & Hle & ->). split; [|by apply Z.leb_le].
    exists k, o. split_and!; try done. lia.
Qed.

Lemma slice_whole d t : sliceReader d 0 0 = Some t -> t = d.
Proof.
  unfold sliceReader. cbn. destruct (Z.leb_spec (slen d) 0) as [Hd|_]; intros [= <-]; [|done].
  destruct d; [done|]. rewrite slen_cons in Hd. pose proof (slen_nonneg d). lia.
Qed.

Lemma slice_none d off sz : sliceReader d off sz = None -> off < 0.
Proof.
  unfold sliceReader. destruct (slen d <=? off); [done|]. by destruct (Z.ltb_spec off 0).
Qed.

(** A change of the store that no cached file and no cached listing sees. *)
Lemma coherent_stored w m : coherent w ->
  (forall k d, entries (cache w) !! k = Some d -> m !! k = stored w !! k) ->
  (forall j k e, of_client j w !! level k = Some e -> dbKey k = c_dbKey (clients j) -> m !! k = stored w !! k) ->
  coherent (set_stored m w).
Proof.
  intros [Hf Hl Hb] Hc Hs. split; cbn [cache stored set_stored]; [| |exact Hb].
  - intros k d Hk. rewrite (Hc _ _ Hk). by apply Hf.
  - intros j l e He. destruct (Hl j l e He) as [meta Hm]. exists meta.
    apply (lists_same _ _ _ _ (stored w)); [|done].
    intros k o Hd <-. by rewrite (Hs j k e He Hd).
Qed.

Lemma coherent_written w w' : cache w' = cache w -> listings w' = listings w -> stored w' = stored w ->
  coherent w -> coherent w'.
Proof.
  intros Hc Hl Hs [Hf Hi Hb]. split; rewrite ?Hc, ?Hs; [done| |done].
  intros j l e. unfold of_client. rewrite Hl. apply Hi.
Qed.

(** From here on a database has one client in the process. *)
Context (one_client : forall i j, c_dbKey (clients i) = c_dbKey (clients j) -> i = j).

(** What client [i] has to forget before the keys [gone] of its database
    change. *)
Definition forgot (i : nat) (gone : fileKey -> Prop) (w : world) : Prop :=
  forall k, gone k -> entries (cache w) !! k = None /\ of_client i w !! level k = None.

Lemma coherent_change i gone w m : coherent w -> forgot i gone w ->
  (forall k, gone k -> dbKey k = c_dbKey (clients i)) ->
  (forall k, ~ gone k -> m !! k = stored w !! k) -> (forall k, Decision (gone k)) ->
  coherent (set_stored m w).
Proof.
  intros Hw Hg Hdb Hm Hdec. apply coherent_stored; [done| |].
  - intros k d Hk. apply Hm. intros Hgone. destruct (Hg k Hgone) as [H _]. congruence.
  - intros j k e He Hd. apply Hm. intros Hgone. destruct (Hg k Hgone) as [_ H].
    rewrite <- (one_client j i) in H by (rewrite <- Hd; by apply Hdb). congruence.
Qed.

Section Client.
Context (i : nat).
Notation c := (clients i).
Notation db := (c_dbKey (clients i)).
Notation run p w post := (ends db i p w post).

Lemma coherent_get w k : coherent w -> coherent (set_cache (get k (cache w)).1 w).
Proof. intros Hw. apply coherent_cache; [done|]. intros k' d. by rewrite get_entries. Qed.

Lemma coherent_put w k d o : coherent w -> files c = true -> dbKey k = db ->
  stored w !! k = Some o -> data o = d -> coherent (set_cache (put k d (cache w)) w).
Proof.
  intros [Hf Hl Hb] Hc Hk Ho Hd. split; [|exact Hl|]; cbn [cache stored set_cache]; intros k' d' Hk'.
  - apply put_entries in Hk' as [Hk'|[-> ->]]; [by apply Hf|]. rewrite Ho. cbn. by rewrite Hd.
  - apply put_entries in Hk' as [Hk'|[-> ->]]; [by eapply Hb|]. by exists i.
Qed.

Lemma coherent_drop w k : coherent w -> coherent (set_cache (drop k (cache w)) w).
Proof.
  intros Hw. apply coherent_cache; [done|]. intros k' d. rewrite drop_entries.
  by intros [_ H]%lookup_delete_Some.
Qed.

Lemma coherent_dropDB w d : coherent w -> coherent (set_cache (dropDB d (cache w)) w).
Proof.
  intros Hw. apply coherent_cache; [done|]. intros k' d'. rewrite dropDB_entries. by case_match.
Qed.

Lemma coherent_ListingDrop w l : coherent w -> coherent (set_listings i (delete l (of_client i w)) w).
Proof. intros Hw. apply coherent_listings; [done|]. by intros l' e [_ H]%lookup_delete_Some. Qed.

Lemma coherent_ListingsReset w : coherent w -> coherent (set_listings i ∅ w).
Proof. intros Hw. apply coherent_listings; [done|]. by intros l' e H%lookup_empty_Some. Qed.

(** [CachePut] of a file unless it is large. *)
Lemma keep_alone w k d o (post : unit -> world -> Prop) :
  coherent w -> files c = true -> dbKey k = db -> stored w !! k = Some o -> data o = d ->
  (forall w1, coherent w1 -> stored w1 = stored w -> post tt w1) ->
  run (if slen d <=? maxCachedFileBytes then invoke (CachePut k d) else mret tt) w post.
Proof.
  intros Hw Hc Hk Ho Hd Hp. destruct (slen d <=? maxCachedFileBytes); cbn; [|by apply Hp].
  intros [] w1 ->. apply Hp; [|done]. by apply coherent_put with o.
Qed.

Lemma fetchListing_alone w l seek meta : coherent w ->
  run (fetchListing c l seek meta) w (fun r w' => coherent w' /\
    answers db (MLTXFiles l seek meta) (stored w) (AListing r) (stored w')).
Proof.
  intros Hw. cbn. intros r w1 [-> Hr]. destruct r as [fs|e]; [|done]. cbn.
  intros [] w2 [now ->]. split; [|split; [done|]].
  - destruct Hw as [Hf Hl Hb]. split; [exact Hf| |exact Hb]. intros j l' e. rewrite of_client_set.
    destruct (decide (j = i)) as [->|_]; [|apply Hl].
    intros [[<- <-]|[_ H]]%lookup_insert_Some; [by exists meta|by apply Hl].
  - intros Hs. exists meta. by apply lists_filterFrom.
Qed.

Lemma LTXFiles_alone w l seek meta : coherent w ->
  run (LTXFiles c l seek meta) w (fun r w' => coherent w' /\
    answers db (MLTXFiles l seek meta) (stored w) (AListing r) (stored w')).
Proof.
  intros Hw. unfold LTXFiles. destruct (_ || _).
  - cbn. intros r w1 [-> Hr]. split; [done|]. destruct r; [|done]. split; [done|]. by exists meta.
  - cbn. intros e w1 [-> He]. destruct e as [e|]; [|by apply fetchListing_alone].
    cbn. intros now w1 ->. destruct (now - at_ e <? listingTTL c); [|by apply fetchListing_alone].
    split; [done|split; [done|]]. intros Hs. destruct (listings_coherent _ Hw i l e) as [meta' Hm]; [done|].
    exists meta'. by apply lists_filterFrom.
Qed.

Lemma OpenLTXFile_alone w l a b off sz : coherent w ->
  run (OpenLTXFile c l a b off sz) w (fun r w' => coherent w' /\
    answers db (MOpen l a b off sz) (stored w) (AOpen r) (stored w')).
Proof.
  intros Hw. unfold OpenLTXFile. destruct (files c) eqn:Hc; cbn.
  2: { intros r w1 [-> Hr]. split; [done|]. by destruct r. }
  assert (forall o d st, data o = d -> st !! keyOf c l a b = Some o ->
    answers db (MOpen l a b off sz) st (AOpen (Ok <$> sliceReader d off sz)) st) as Hread.
  { intros o d st Hd Ho. destruct (sliceReader d off sz) as [t|] eqn:Ht; cbn.
    - split; [done|]. exists o. by rewrite Hd.
    - split; [done|by eapply slice_none]. }
  intros hit w1 [-> ->]%pair_equal_spec. rewrite get_data.
  destruct (entries (cache w) !! keyOf c l a b) as [d|] eqn:Hk; cbn.
  - split; [by apply coherent_get|].
    pose proof (files_coherent _ Hw _ _ Hk) as (o & Ho & Hd)%fmap_Some. by apply Hread with o.
  - intros r w1 [-> Hr]. destruct r as [d|e]; [|split; [by apply coherent_get|done]].
    destruct Hr as (o & Ho & Hs). apply slice_whole in Hs; [|lia]. apply ends_bind.
    apply keep_alone with o; [by apply coherent_get|done..|].
    intros w1 Hw1 Hst. cbn. split; [done|]. rewrite Hst. by apply Hread with o.
Qed.

(** What this client's methods know to be forgotten, once its listing of the
    level and its cached file are dropped. *)
Lemma nothing_cached w k : coherent w -> files c = false -> dbKey k = db -> entries (cache w) !! k = None.
Proof.
  intros Hw Hc Hk. destruct (entries (cache w) !! k) as [d|] eqn:He; [|done].
  destruct (cached_by _ Hw k d He) as (j & Hj & Hfj). rewrite Hk in Hj.
  rewrite (one_client i j Hj) in Hc. congruence.
Qed.

Lemma coherent_store w k o : coherent w -> dbKey k = db -> entries (cache w) !! k = None ->
  of_client i w !! level k = None -> coherent (store_object k o w).
Proof.
  intros Hw Hdb He Hl. apply (coherent_written (set_stored (<[k := o]> (stored w)) w)); [done..|].
  apply (coherent_change i (fun k' => k' = k)); [done| | | |apply _].
  - by intros k' ->.
  - by intros k' ->.
  - intros k' Hk'. by apply lookup_insert_ne.
Qed.

Lemma InnerWrite_alone w l a b d (post : res goerror file -> world -> Prop) : coherent w ->
  entries (cache w) !! keyOf c l a b = None -> of_client i w !! l = None ->
  (forall r w1, coherent w1 -> answers db (MWrite l a b d) (stored w) (AWrite r) (stored w1) -> post r w1) ->
  run (invoke (InnerWriteLTXFile l a b d)) w post.
Proof.
  intros Hw He Hl Hp. cbn. intros r w1 Hr. apply Hp.
  - destruct d as [d|e], r as [info|e']; try done.
    + destruct Hr as (o & _ & _ & ->). by apply coherent_store.
    + destruct Hr as [->|(o & _ & ->)]; [done|by apply coherent_store].
    + by subst w1.
  - destruct d as [d|e], r as [info|e']; cbn; try done.
    + destruct Hr as (o & Hd & -> & ->). by exists o.
    + destruct Hr as [->|(o & Hd & ->)]; [by left|right; by exists o].
    + by subst w1.
Qed.

Lemma WriteLTXFile_alone w l a b d : coherent w ->
  run (WriteLTXFile c l a b d) w (fun r w' => coherent w' /\
    answers db (MWrite l a b d) (stored w) (AWrite r) (stored w')).
Proof.
  intros Hw. unfold WriteLTXFile. cbn. intros [] w1 ->.
  apply (coherent_ListingDrop w l) in Hw.
  set (w1 := set_listings _ _ _) in *. change (stored w) with (stored w1).
  assert (of_client i w1 !! l = None) as Hl.
  { unfold w1. rewrite of_client_set, decide_True by done. apply lookup_delete_eq. }
  destruct (files c) eqn:Hc; cbn [negb].
  2: { apply InnerWrite_alone; [done|by apply nothing_cached|done|done]. }
  destruct d as [d|e]; [|done]. cbn. intros [] w2 ->.
  pose proof (coherent_drop w1 (keyOf c l a b) Hw) as Hw2.
  set (w2 := set_cache _ _) in *. change (stored w1) with (stored w2).
  assert (entries (cache w2) !! keyOf c l a b = None) as He.
  { cbn [cache w2 set_cache]. rewrite drop_entries. apply lookup_delete_eq. }
  apply (ends_bind _ _ (invoke (InnerWriteLTXFile l a b (Ok d)))).
  apply InnerWrite_alone; [done..|]. intros [info|e] w3 Hw3 Ha; [|done].
  destruct Ha as (o & Hd & Hi & Hs). apply ends_bind.
  apply keep_alone with o; [done..| |done|].
  { rewrite Hs. apply lookup_insert_eq. }
  intros w4 Hw4 Hs4. cbn. split; [done|]. exists o. by rewrite Hs4.
Qed.

Lemma dropFiles_alone fs w : coherent w ->
  run (dropFiles c fs) w (fun _ w' => coherent w' /\ stored w' = stored w /\
    (forall k, entries (cache w) !! k = None -> entries (cache w') !! k = None) /\
    (forall l, of_client i w !! l = None -> of_client i w' !! l = None) /\
    (forall k, listed_in db fs k -> entries (cache w') !! k = None /\ of_client i w' !! level k = None)).
Proof.
  revert w. induction fs as [|f fs IH]; intros w Hw; cbn [dropFiles].
  { split_and!; try done. intros k [_ H]. by apply not_elem_of_nil in H. }
  set (key := keyOf c (Level f) (MinTXID f) (MaxTXID f)).
  apply ends_bind.
  apply (ends_mono _ _ _ _ (fun _ w1 => coherent w1 /\ stored w1 = stored w /\ listings w1 = listings w /\
    (forall k, entries (cache w) !! k = None -> entries (cache w1) !! k = None) /\
    entries (cache w1) !! key = None)).
  { destruct (files c) eqn:Hc; cbn.
    - intros [] w1 ->. cbn [cache set_cache]. split_and!; try done; [by apply coherent_drop| |].
      + intros k Hk. rewrite drop_entries. by apply lookup_delete_None; right.
      + rewrite drop_entries. apply lookup_delete_eq.
    - split_and!; try done. by apply nothing_cached. }
  intros _ w1 (Hw1 & Hs1 & Hl1 & Hc1 & Hkey). cbn. intros [] w2 ->.
  assert (of_client i w1 = of_client i w) as Ho by (unfold of_client; by rewrite Hl1).
  eapply ends_mono; [apply IH, coherent_ListingDrop, Hw1|]. cbn beta.
  intros _ w3 (Hw3 & Hs3 & Hc3 & Hl3 & Hd3).
  assert (forall l, of_client i w1 !! l = None \/ l = Level f -> of_client i w3 !! l = None) as Hl.
  { intros l Hl. apply Hl3. rewrite of_client_set, decide_True by done.
    apply lookup_delete_None. destruct Hl as [Hl| ->]; [by right|by left]. }
  split_and!; [done|by rewrite Hs3|intros k Hk; by apply Hc3, Hc1|intros l Hll; apply Hl; left; by rewrite Ho|].
  intros k [Hdb Hin]. cbn [map] in Hin. apply elem_of_cons in Hin as [Heq|Hin].
  - injection Heq as H1 H2 H3. split; [|apply Hl; by right].
    apply Hc3. cbn [cache set_listings]. rewrite <- Hkey. f_equal. unfold key, keyOf.
    destruct k; cbn in *. by subst.
  - by apply Hd3.
Qed.

Lemma coherent_deleted all gone w m : coherent w -> forgot i gone w ->
  (forall k, gone k -> dbKey k = db) -> (forall k, Decision (gone k)) ->
  deletes all gone (stored w) m -> coherent (set_stored m w).
Proof. intros Hw Hg Hdb Hdec (_ & Hm & _). by apply (coherent_change i gone). Qed.

#[local] Instance listed_in_dec d fs k : Decision (listed_in d fs k).
Proof. unfold listed_in. apply _. Defined.

Lemma DeleteLTXFiles_alone w fs : coherent w ->
  run (DeleteLTXFiles c fs) w (fun r w' => coherent w' /\
    answers db (MDelete fs) (stored w) (ADelete r) (stored w')).
Proof.
  intros Hw. apply ends_bind. eapply ends_mono; [by apply dropFiles_alone|]. cbn beta.
  intros _ w1 (Hw1 & Hs1 & _ & _ & Hf). cbn. intros r w2 (m & -> & Hd). split.
  - eapply coherent_deleted; [done|exact Hf|by intros k [Hk _]|apply _|exact Hd].
  - cbn. by rewrite <- Hs1.
Qed.

Lemma DeleteAll_alone w : coherent w ->
  run (DeleteAll c) w (fun r w' => coherent w' /\
    answers db MDeleteAll (stored w) (ADelete r) (stored w')).
Proof.
  intros Hw. unfold DeleteAll. apply ends_bind.
  apply (ends_mono _ _ _ _ (fun _ w1 => coherent w1 /\ stored w1 = stored w /\
    (forall k, dbKey k = db -> entries (cache w1) !! k = None))).
  { destruct (files c) eqn:Hc; cbn.
    - intros [] w1 ->. split_and!; [by apply coherent_dropDB|done|]. intros k Hk.
      cbn [cache set_cache]. by rewrite dropDB_entries, Hk, String.eqb_refl.
    - split_and!; [done..|]. intros k Hk. by apply nothing_cached. }
  intros _ w1 (Hw1 & Hs1 & He). cbn. intros [] w2 -> r w3 (m & -> & Hd). split; [|cbn; by rewrite <- Hs1].
  apply (coherent_deleted (bool_decide (r = None)) (fun k => dbKey k = db));
    [by apply coherent_ListingsReset| |done|apply _|exact Hd].
  intros k Hk. split; [by apply He|]. rewrite of_client_set, decide_True by done. apply lookup_empty.
Qed.

Lemma program_alone w m : coherent w ->
  run (program c m) w (fun a w' => coherent w' /\ answers db m (stored w) a (stored w')).
Proof.
  intros Hw. destruct m; cbn [program]; apply ends_bind;
    [eapply ends_mono; [by apply LTXFiles_alone|done]
    |eapply ends_mono; [by apply OpenLTXFile_alone|done]
    |eapply ends_mono; [by apply WriteLTXFile_alone|done]
    |eapply ends_mono; [by apply DeleteLTXFiles_alone|done]
    |eapply ends_mono; [by apply DeleteAll_alone|done]|].
  cbn. intros [] w1 ->. split; [by apply coherent_ListingsReset|done].
Qed.
End Client.

(** ** Sequences of calls

    Calls of the clients one after the other, and the closing of a database,
    which drops its cached files. *)
Inductive history : world -> list (nat * method * answer) -> world -> Prop :=
  | history_nil w : history w [] w
  | history_call w w1 w' i m a h :
      alone (c_dbKey (clients i)) i (program (clients i) m) w w1 a -> history w1 h w' ->
      history w ((i, m, a) :: h) w'
  | history_close w w' db h :
      history (set_cache (dropDB db (cache w)) w) h w' -> history w h w'.

(** The same calls, answered by plain clients. *)
Inductive plain : gmap fileKey object -> list (nat * method * answer) -> gmap fileKey object -> Prop :=
  | plain_nil st : plain st [] st
  | plain_call st st1 st' i m a h :
      answers (c_dbKey (clients i)) m st a st1 -> plain st1 h st' -> plain st ((i, m, a) :: h) st'.

Definition start (lim : Z) (st : gmap fileKey object) : world :=
  mkWorld (newFileCache lim) ∅ st ((fun '(k, o) => (k, data o)) <$> map_to_list st).

Lemma start_coherent lim st : coherent (start lim st).
Proof.
  split; cbn [start cache stored newFileCache entries].
  - by intros k d H%lookup_empty_Some.
  - intros j l e. by unfold of_client.
  - by intros k d H%lookup_empty_Some.
Qed.
End Clients.


(** Witness: a write, and a read of it that the inner client never sees. *)
Fixpoint name (i : nat) : string := match i with O => "" | S i => String "d"%char (name i) end.
Definition one_each (i : nat) : cachingClient := mkCaching (name i) true (30 * 1000000000).

Lemma one_each_injective i j : c_dbKey (one_each i) = c_dbKey (one_each j) -> i = j.
Proof. cbn. revert j. induction i as [|i IH]; intros [|j]; cbn; intros H; try done. injection H as H. f_equal. by apply IH. Qed.

Definition written_file : object := mkObject "page" 5 5.
Definition write_then_read : list (nat * method * answer) :=
  [(1%nat, MWrite 0 1 1 (Ok "page"), AWrite (Ok (info_of true (mkKey "d" 0 1 1) written_file)));
   (1%nat, MOpen 0 1 1 1 2, AOpen (Some (Ok "ag")))].

Lemma write_then_read_runs : exists w', history one_each (start 100 ∅) write_then_read w'.
Proof.
  eexists. eapply history_call; [|eapply history_call; [|apply history_nil]].
  - cbn. exists tt. eexists. split; [reflexivity|]. exists tt. eexists. split; [reflexivity|].
    exists (Ok (info_of true (mkKey "d" 0 1 1) written_file)). eexists.
    split; [by exists written_file|]. exists tt. eexists. split; [reflexivity|]. done.
  - cbn. exists (Some "page"). eexists. split; [reflexivity|]. done.
Qed.


(** ** Calls that interleave *)

Record thread := mkThread { t_client : nat; t_method : method; t_prog : P answer }.
Record sys := mkSys { w_of : world; threads : gmap nat thread }.

Section Interleaved.
Context (clients : nat -> cachingClient).

(** A call begins; a call makes its next step; another process stores or
    deletes a file; a database is closed. *)
Inductive step : sys -> sys -> Prop :=
  | step_begin s t i m : threads s !! t = None ->
      step s (mkSys (w_of s) (<[t := mkThread i m (program (clients i) m)]> (threads s)))
  | step_advance s t i m (R : Set) (o : op R) k r w' :
      threads s !! t = Some (mkThread i m (Do o k)) ->
      effect (c_dbKey (clients i)) i o (w_of s) r w' ->
      step s (mkSys w' (<[t := mkThread i m (k r)]> (threads s)))
  | step_store s k o : step s (mkSys (store_object k o (w_of s)) (threads s))
  | step_delete s k : step s (mkSys (set_stored (delete k (stored (w_of s))) (w_of s)) (threads s))
  | step_close s db : step s (mkSys (set_cache (dropDB db (cache (w_of s))) (w_of s)) (threads s)).

Definition reachable (lim : Z) (st : gmap fileKey object) : sys -> Prop :=
  rtc step (mkSys (start lim st) ∅).

(** What a call knows to have been stored: the bytes it got from the cache,
    from the store, or wrote there. It puts only those into the cache. *)
Definition known : Type := list (fileKey * string).

Definition knows (c : cachingClient) : monitor op known := fun R o s =>
  match o in op R return R -> option known with
  | CacheGet k => fun r => Some (match r with Some d => (k, d) :: s | None => s end)
  | CachePut k d => fun _ => if bool_decide ((k, d) ∈ s) then Some s else None
  | InnerOpenLTXFile l a b off sz => fun r =>
      Some (match r with
            | Ok d => if (off =? 0) && (sz =? 0) then (keyOf c l a b, d) :: s else s
            | Err _ => s
            end)
  | InnerWriteLTXFile l a b (Ok d) => fun r =>
      Some (match r with Ok _ => (keyOf c l a b, d) :: s | Err _ => s end)
  | _ => fun _ => Some s
  end.

(** What the answer of a read rests on. *)
Definition rests_on (c : cachingClient) (m : method) (a : answer) (s : known) : Prop :=
  match m, a with
  | MOpen l x y off sz, AOpen (Some (Ok t)) =>
      files c = true -> exists d, (keyOf c l x y, d) ∈ s /\ sliceReader d off sz = Some t
  | MOpen _ _ _ off _, AOpen None => off < 0
  | _, _ => True
  end.

Lemma read_rests_on c l x y off sz d s :
  (keyOf c l x y, d) ∈ s ->
  rests_on c (MOpen l x y off sz) (AOpen (Ok <$> sliceReader d off sz)) s.
Proof.
  intros Hd. destruct (sliceReader d off sz) as [t|] eqn:Ht; cbn; [by eauto|by eapply slice_none].
Qed.

Lemma keep_safe c (k : fileKey) d s (post : unit -> known -> Prop) :
  (k, d) ∈ s -> post tt s ->
  safe (knows c) (if slen d <=? maxCachedFileBytes then invoke (CachePut k d) else mret tt) s post.
Proof.
  intros Hd Hp. destruct (slen d <=? maxCachedFileBytes); cbn; [|done].
  intros []. by rewrite bool_decide_true.
Qed.

Lemma dropFiles_safe c fs s : safe (knows c) (dropFiles c fs) s (fun _ _ => True).
Proof.
  revert s. induction fs as [|f fs IH]; intros s; cbn [dropFiles]; [done|].
  apply safe_bind. destruct (files c); cbn; intros; apply IH.
Qed.

Lemma OpenLTXFile_safe c l x y off sz s :
  safe (knows c) (OpenLTXFile c l x y off sz) s (fun r => rests_on c (MOpen l x y off sz) (AOpen r)).
Proof.
  unfold OpenLTXFile. destruct (files c) eqn:Hc; cbn; [|by intros [t|e]; cbn; rewrite ?Hc].
  intros [d|]; cbn; [apply read_rests_on; by left|].
  intros [d|e]; [|done]. apply safe_bind, keep_safe; [by left|]. apply read_rests_on. by left.
Qed.

Lemma program_safe c m s :
  safe (knows c) (program c m) s (rests_on c m).
Proof.
  destruct m; cbn [program]; apply safe_bind.
  - unfold LTXFiles, fetchListing. destruct (_ || _); cbn; [done|].
    intros [e|]; cbn; [intros now; destruct (_ <? _); cbn; [done|]|]; by intros [].
  - eapply safe_mono; [apply OpenLTXFile_safe|done].
  - unfold WriteLTXFile. cbn. intros []. destruct (files c); cbn [negb].
    + destruct r as [d|e]; [|done]. cbn. intros [] [info|e]; [|done].
      apply safe_bind, keep_safe; [by left|done].
    + cbn. destruct r; by intros [].
  - apply safe_bind. eapply safe_mono; [apply dropFiles_safe|]. by intros.
  - unfold DeleteAll. apply safe_bind. by destruct (files c).
  - done.
Qed.

(** The cache keeps to its limit and holds only files that were stored under
    that very key. *)
Record world_ok (lim : Z) (w : world) : Prop := {
  wk_cache : cache_ok (cache w);
  wk_limit : limit (cache w) = lim;
  wk_entries k d : entries (cache w) !! k = Some d -> (k, d) ∈ written w;
  wk_stored k o : stored w !! k = Some o -> (k, data o) ∈ written w;
}.

Lemma start_ok lim st : world_ok lim (start lim st).
Proof.
  split; cbn [start cache stored written newFileCache entries limit]; [apply new_ok|done| |].
  - by intros k d H%lookup_empty_Some.
  - intros k o Hk. apply list_elem_of_fmap. exists (k, o). split; [done|]. by apply elem_of_map_to_list.
Qed.

Lemma world_ok_cache lim w c : world_ok lim w -> cache_ok c -> limit c = lim ->
  (forall k d, entries c !! k = Some d -> (k, d) ∈ written w) -> world_ok lim (set_cache c w).
Proof. intros [_ _ _ Hs] Hc Hl He. by split. Qed.

Lemma world_ok_put lim w k d : world_ok lim w -> (k, d) ∈ written w ->
  world_ok lim (set_cache (put k d (cache w)) w).
Proof.
  intros Hw Hd. destruct (put_ok (cache w) k d (wk_cache _ _ Hw)) as [Hc Hl].
  apply world_ok_cache; [done..|by rewrite Hl, (wk_limit _ _ Hw)|].
  intros k' d' [H|[-> ->]]%put_entries; [by apply (wk_entries _ _ Hw)|done].
Qed.

Lemma world_ok_dropDB lim w db : world_ok lim w -> world_ok lim (set_cache (dropDB db (cache w)) w).
Proof.
  intros Hw. apply world_ok_cache; [done|by apply dropDB_loop_ok, Hw|by rewrite dropDB_limit, (wk_limit _ _ Hw)|].
  intros k d. rewrite dropDB_entries. case_match; [done|]. apply Hw.
Qed.

Lemma world_ok_store lim w k o : world_ok lim w -> world_ok lim (store_object k o w).
Proof.
  intros Hw. split; cbn [store_object cache stored written]; [apply Hw..| |].
  - intros k' d H. right. by apply (wk_entries _ _ Hw).
  - intros k' o' [[<- <-]|[_ H]]%lookup_insert_Some; [by left|right; by apply (wk_stored _ _ Hw)].
Qed.

Lemma world_ok_stored lim w m : world_ok lim w ->
  (forall k o, m !! k = Some o -> stored w !! k = Some o) -> world_ok lim (set_stored m w).
Proof.
  intros Hw Hm. split; cbn [set_stored cache stored written]; [apply Hw..|].
  intros k o H%Hm. by apply (wk_stored _ _ Hw).
Qed.

(** One step of a call keeps this, and what it learns was stored. *)
Lemma effect_ok lim c i (R : Set) (o : op R) w r w' (s s' : known) :
  effect (c_dbKey c) i o w r w' -> world_ok lim w -> s ⊆ written w ->
  knows c R o s r = Some s' -> world_ok lim w' /\ s' ⊆ written w' /\ written w ⊆ written w'.
Proof.
  intros He Hw Hs Hk. pose proof Hw as [Hc Hl Hent Hst]. destruct o; cbn in He, Hk.
  - apply pair_equal_spec in He as [-> ->]. rewrite get_data in Hk. injection Hk as <-. split_and!; [|set_unfold|done].
    + apply world_ok_cache; [done|by apply get_ok|by rewrite get_limit|by intros k' d; rewrite get_entries; apply Hent].
    + destruct (entries (cache w) !! k) as [d|] eqn:Hd; [|done].
      intros x [->|Hx]%elem_of_cons; [by apply Hent|by apply Hs].
  - case_bool_decide; [|done]. injection Hk as <-. subst w'.
    split_and!; [apply world_ok_put; auto|done..].
  - injection Hk as <-. subst w'. split_and!; [|done..].
    apply world_ok_cache; [done|by apply drop_ok|by rewrite drop_limit|].
    intros k' d. rewrite drop_entries. intros [_ H]%lookup_delete_Some. by apply Hent.
  - injection Hk as <-. subst w'. split_and!; [by apply world_ok_dropDB|done..].
  - injection Hk as <-. destruct He as [-> _]. done.
  - injection Hk as <-. destruct He as [now ->]. split; [by split|done].
  - injection Hk as <-. subst w'. split; [by split|done].
  - injection Hk as <-. subst w'. split; [by split|done].
  - injection Hk as <-. subst w'. done.
  - injection Hk as <-. destruct He as [-> _]. done.
  - destruct He as [-> Hr]. injection Hk as <-. split_and!; [done| |done].
    destruct r as [t|e]; [|done]. destruct Hr as (ob & Ho & Ht).
    destruct (Z.eqb_spec offset 0) as [->|]; [|done]. destruct (Z.eqb_spec size 0) as [->|]; [|done].
    apply slice_whole in Ht as ->; [|lia]. cbn [andb].
    intros x [->|Hx]%elem_of_cons; [by apply Hst|by apply Hs].
  - destruct r0 as [d|e].
    + cbn in Hk. injection Hk as <-. destruct r as [info|e].
      * destruct He as (ob & <- & _ & ->). split_and!; [by apply world_ok_store| |by right].
        cbn [written store_object]. set_solver.
      * destruct He as [->|(ob & _ & ->)]; [done|].
        split_and!; [by apply world_ok_store|cbn [written store_object]; set_solver|by right].
    + cbn in Hk. injection Hk as <-. destruct r; [done|]. by subst w'.
  - injection Hk as <-. destruct He as (m & -> & Hm & _). split; [by apply world_ok_stored|done].
  - injection Hk as <-. destruct He as (m & -> & Hm & _). split; [by apply world_ok_stored|done].
Qed.

Definition thread_ok (w : world) (th : thread) : Prop :=
  exists s : known, s ⊆ written w /\
    safe (knows (clients (t_client th))) (t_prog th) s (rests_on (clients (t_client th)) (t_method th)).

Definition sys_ok (lim : Z) (s : sys) : Prop :=
  world_ok lim (w_of s) /\ map_Forall (fun _ th => thread_ok (w_of s) th) (threads s).

Lemma thread_ok_mono w w' th : written w ⊆ written w' -> thread_ok w th -> thread_ok w' th.
Proof. intros Hw (s & Hs & Hp). exists s. split; [by etrans|done]. Qed.

Lemma threads_ok_world (w w' : world) (ts : gmap nat thread) : written w ⊆ written w' ->
  map_Forall (fun _ th => thread_ok w th) ts -> map_Forall (fun _ th => thread_ok w' th) ts.
Proof. intros Hw Hts t th Ht. by apply (thread_ok_mono w), (Hts t). Qed.

Lemma step_ok lim s s' : step s s' -> sys_ok lim s -> sys_ok lim s'.
Proof.
  intros Hstep [Hw Hts]. destruct Hstep as [s t i m _|s t i m R o k r w' Ht He|s k o|s k|s db];
    split; cbn [w_of threads]; try done.
  - apply map_Forall_insert_2; [|done]. refine (ex_intro _ [] (conj _ _)); [apply list_subseteq_nil|apply program_safe].
  - destruct (Hts t _ Ht) as (kn & Hkn & Hsafe). cbn [t_client t_method t_prog safe] in *.
    specialize (Hsafe r). destruct (knows (clients i) R o kn r) as [kn'|] eqn:Hk; [|done].
    by destruct (effect_ok lim _ _ _ _ _ _ _ _ _ He Hw Hkn Hk).
  - destruct (Hts t _ Ht) as (kn & Hkn & Hsafe). cbn [t_client t_method t_prog safe] in *.
    specialize (Hsafe r). destruct (knows (clients i) R o kn r) as [kn'|] eqn:Hk; [|done].
    destruct (effect_ok lim _ _ _ _ _ _ _ _ _ He Hw Hkn Hk) as (_ & Hkn' & Hwr).
    apply map_Forall_insert_2; [exact (ex_intro _ kn' (conj Hkn' Hsafe))|by apply (threads_ok_world (w_of s))].
  - by apply world_ok_store.
  - apply (threads_ok_world (w_of s)); [|done]. by right.
  - apply world_ok_stored; [done|]. by intros k' o [_ H]%lookup_delete_Some.
  - by apply world_ok_dropDB.
Qed.

Lemma reachable_ok lim st s : reachable lim st s -> sys_ok lim s.
Proof.
  intros Hr. assert (sys_ok lim (mkSys (start lim st) ∅)) as Hinit.
  { split; [apply start_ok|]. apply map_Forall_empty. }
  revert Hinit. induction Hr as [s|s s1 s' Hstep _ IH]; [done|]. intros Hok. by apply IH, (step_ok lim s).
Qed.
End Interleaved.

(** C28  Under any interleaving of calls, other processes and closings: the cache
    stays within its limit; a read through the cache yields the window of bytes
    that were once stored under exactly the key it names, of its own database;
    it panics only for a negative offset. If stored files never change, as LTX
    files are meant to, every read of a file in the store yields its window. *)
Theorem cached_reads (clients : nat -> cachingClient) (lim : Z) (st : gmap fileKey object) (s : sys)
    (Hr : reachable clients lim st s) :
  cache_ok (cache (w_of s)) /\ bytes (cache (w_of s)) <= Z.max 0 lim /\
  (forall t i l a b off sz r,
     threads s !! t = Some (mkThread i (MOpen l a b off sz) (Ret (AOpen r))) ->
     let k := keyOf (clients i) l a b in
     (r = None -> off < 0) /\
     forall bs, r = Some (Ok bs) -> files (clients i) = true ->
       (exists d, (k, d) ∈ written (w_of s) /\ sliceReader d off sz = Some bs) /\
       ((forall d d', (k, d) ∈ written (w_of s) -> (k, d') ∈ written (w_of s) -> d = d') ->
        forall o, stored (w_of s) !! k = Some o -> sliceReader (data o) off sz = Some bs)).
Proof.
  destruct (reachable_ok clients lim st s Hr) as [[Hc Hl Hent Hst] Hts]. split_and!; [done| |].
  - pose proof (bytes_bounded _ Hc). by rewrite <- Hl.
  - intros t i l a b off sz r Ht k. destruct (Hts t _ Ht) as (kn & Hkn & Hp).
    cbn [t_client t_method t_prog safe rests_on] in Hp. split; [by intros ->|].
    intros bs -> Hf. destruct (Hp Hf) as (d & Hd & Hs). apply Hkn in Hd. split; [by exists d|].
    intros Hone o Ho. by rewrite (Hone (data o) d (Hst _ _ Ho) Hd).
Qed.

(** ** A rewrite that loses to a read

    A read fetches the old bytes; a write of the same file drops the entry and
    stores the new ones; the read puts the old bytes; the write's own [put]
    finds an entry and keeps it. *)

Definition old_file : object := mkObject "old" 0 0.
Definition new_file : object := mkObject "new" 1 1.
Definition rewritten : fileKey := mkKey "" 0 1 1.

(** One step of the thread [t], and the state it leaves with its projections
    computed. *)
Ltac project := cbn [keyOf one_each c_dbKey name program w_of threads cache listings stored written
  set_cache set_listings store_object fst snd].
Ltac advance_to t r :=
  eapply rtc_l; [eapply (step_advance _ _ t _ _ _ _ _ r); [reflexivity|]|]; project.
Ltac advance t := eapply rtc_l; [eapply (step_advance _ _ t); [reflexivity|]|]; project.
Ltac begin t m := eapply rtc_l; [apply (step_begin _ _ t 0%nat m); reflexivity|]; project.

(** After that race, a read that starts when the write has returned success
    yields the old bytes: replacing an entry is not atomic with the write, so
    the cache can hold bytes the store no longer has. *)
Theorem rewrite_race_serves_old_bytes :
  exists s, reachable one_each 100 {[rewritten := old_file]} s /\
    threads s !! 1%nat = Some (mkThread 0 (MWrite 0 1 1 (Ok "new")) (Ret (AWrite (Ok (info_of true rewritten new_file))))) /\
    threads s !! 2%nat = Some (mkThread 0 (MOpen 0 1 1 0 0) (Ret (AOpen (Some (Ok "old"))))) /\
    stored (w_of s) !! rewritten = Some new_file.
Proof.
  eexists. split; [unfold reachable|].
  - begin 0%nat (MOpen 0 1 1 0 0). advance 0%nat; [reflexivity|].
    advance_to 0%nat (Ok (E := goerror) "old"); [split; [reflexivity|]; exists old_file; split; [reflexivity|]; by intros _|].
    begin 1%nat (MWrite 0 1 1 (Ok "new")). advance_to 1%nat tt; [reflexivity|]. advance_to 1%nat tt; [reflexivity|].
    advance_to 1%nat (Ok (E := goerror) (info_of true rewritten new_file)); [exists new_file; split_and!; reflexivity|].
    advance_to 0%nat tt; [reflexivity|]. advance_to 1%nat tt; [reflexivity|].
    begin 2%nat (MOpen 0 1 1 0 0). advance 2%nat; [reflexivity|]. apply rtc_refl.
  - split_and!; reflexivity.
Qed.

(** Witness for [cached_reads]: a read that fills the cache and one that is
    served from it. *)
Lemma two_reads :
  exists s, reachable one_each 100 {[rewritten := old_file]} s /\
    threads s !! 1%nat = Some (mkThread 0 (MOpen 0 1 1 1 0) (Ret (AOpen (Some (Ok "ld"))))).
Proof.
  eexists. split; [unfold reachable|].
  - begin 0%nat (MOpen 0 1 1 0 0). advance 0%nat; [reflexivity|].
    advance_to 0%nat (Ok (E := goerror) "old"); [split; [reflexivity|]; exists old_file; split; [reflexivity|]; by intros _|].
    advance_to 0%nat tt; [reflexivity|].
    begin 1%nat (MOpen 0 1 1 1 0). advance 1%nat; [reflexivity|]. apply rtc_refl.
  - reflexivity.
Qed.

Lemma cached_reads_witness :
  exists s d, (rewritten, d) ∈ written (w_of s) /\ sliceReader d 1 0 = Some "ld" /\ bytes (cache (w_of s)) <= 100.
Proof.
  destruct two_reads as (s & Hr & Ht). exists s.
  destruct (cached_reads one_each 100 {[rewritten := old_file]} s Hr) as (_ & Hb & Hreads).
  destruct (Hreads _ _ _ _ _ _ _ _ Ht) as [_ H].
  destruct (H "ld" eq_refl eq_refl) as [(d & Hd & Hs) _].
  exact (ex_intro _ d (conj Hd (conj Hs Hb))).
Defined.

(** ** Listings forget what was asked for *)

Lemma lists_one meta k o l : level k = l -> 0 <= minTXID k ->
  lists meta (dbKey k) l 0 {[k := o]} [info_of meta k o].
Proof.
  intros Hl Hm f. rewrite list_elem_of_singleton. split.
  - intros ->. exists k, o. split_and!; try done. apply lookup_singleton_eq.
  - intros (k' & o' & [<- <-]%lookup_singleton_Some & _ & _ & _ & ->). done.
Qed.

Definition merged : fileKey := mkKey "d" 1 1 4.
Definition merged_file : object := mkObject "pages" 700 100.

(** A listing cached without metadata answers a call that asks for it, with the
    store's time instead of the file's. *)
Theorem listing_ignores_metadata :
  let asked meta := (1%nat, MLTXFiles 1 0 meta, AListing (Ok [info_of false merged merged_file])) in
  (exists w', history one_each (start 100 {[merged := merged_file]}) [asked false; asked true] w') /\
  CreatedAt (info_of false merged merged_file) <> CreatedAt (info_of true merged merged_file).
Proof.
  cbv zeta. split; [|done]. eexists. eapply history_call; [|eapply history_call; [|apply history_nil]].
  - cbn. exists None. eexists. split; [done|]. exists (Ok [info_of false merged merged_file]). eexists.
    split; [split; [done|by apply lists_one]|]. exists tt. eexists. split; [by exists 0|done].
  - cbn. exists (Some (mkListing [info_of false merged merged_file] 0)). eexists.
    split; [split; [done|reflexivity]|]. exists 5. eexists. split; done.
Qed.
