(* ===== verification/LeaseQueue.v ===== *)
(** * LeaseQueue: acquisitions of one process
      ([acquireSingleFlight], [waitChannel] and [notifyWaiters] in
      [lease/lease.go])

    Callers that want the same key share a [flight]: one of them runs
    [acquireLocked] at a time, and a release in the process wakes it by closing
    the flight's channel. The events are the critical sections, in any order;
    channels are numbers, and a number is never used twice. *)

From S2P Require Import Prelude.

(** ** State *)

(** [flight]; [holder] is the caller that holds [mu]. *)
Record flight := mkFlight { ch : nat; refs : Z; holder : option nat }.

(** A caller: its key, its flight, and where it is: before [fl.mu.Lock]; at the
    top of the loop; with a captured channel, before the answer of
    [acquireOnce]; in the [select]; after [fl.mu.Unlock]. *)
Inductive pc := Queued | Looping | Checking (c : nat) | Waiting (c : nat) | Leaving.
Record caller := mkCaller { ckey : string; cflight : nat; cpc : pc }.

Record queue := mkQueue {
  flights : gmap string nat;
  heap : gmap nat flight;
  nextFlight : nat;
  nextCh : nat;
  closed : gset nat;              (* the channels closed so far *)
  callers : gmap nat caller;
}.

Definition queue0 : queue := mkQueue ∅ ∅ 0 0 ∅ ∅.

Definition set_flight (p : nat) (f : flight) (q : queue) : queue :=
  mkQueue (flights q) (<[p := f]> (heap q)) (nextFlight q) (nextCh q) (closed q) (callers q).
Definition set_caller (t : nat) (c : caller) (q : queue) : queue :=
  mkQueue (flights q) (heap q) (nextFlight q) (nextCh q) (closed q) (<[t := c]> (callers q)).
Definition goto (t : nat) (c : caller) (p : pc) (q : queue) : queue :=
  set_caller t (mkCaller (ckey c) (cflight c) p) q.

(** ** Critical sections *)

(** Under [flightMu]: find or make the flight of a key, and count in. *)
Definition enter (t : nat) (k : string) (q : queue) : option queue :=
  match callers q !! t with
  | Some _ => None
  | None =>
      let '(p, q) := match flights q !! k with
        | Some p => (p, q)
        | None =>
            (nextFlight q,
             mkQueue (<[k := nextFlight q]> (flights q)) (<[nextFlight q := mkFlight (nextCh q) 0 None]> (heap q))
               (S (nextFlight q)) (S (nextCh q)) (closed q) (callers q))
        end in
      f ← heap q !! p;
      Some (set_caller t (mkCaller k p Queued) (set_flight p (mkFlight (ch f) (refs f + 1) (holder f)) q))
  end.

(** [fl.mu.Lock]. *)
Definition lock (t : nat) (q : queue) : option queue :=
  c ← callers q !! t;
  f ← heap q !! cflight c;
  match cpc c, holder f with
  | Queued, None => Some (goto t c Looping (set_flight (cflight c) (mkFlight (ch f) (refs f) (Some t)) q))
  | _, _ => None
  end.

(** [waitChannel], under [flightMu]. *)
Definition waitChannel (t : nat) (q : queue) : option queue :=
  c ← callers q !! t;
  f ← heap q !! cflight c;
  match cpc c with Looping => Some (goto t c (Checking (ch f)) q) | _ => None end.

(** [acquireOnce] found the lease taken, and there is time left. *)
Definition retry (t : nat) (q : queue) : option queue :=
  c ← callers q !! t;
  match cpc c with Checking n => Some (goto t c (Waiting n) q) | _ => None end.

(** The [select]: the channel is closed, or the timer fired. *)
Definition woken (timer : bool) (t : nat) (q : queue) : option queue :=
  c ← callers q !! t;
  match cpc c with
  | Waiting n => if timer || bool_decide (n ∈ closed q) then Some (goto t c Looping q) else None
  | _ => None
  end.

(** [acquireLocked] returns (acquired, failed, out of budget, or cancelled in
    the [select]), and [fl.mu.Unlock]. *)
Definition finish (t : nat) (q : queue) : option queue :=
  c ← callers q !! t;
  f ← heap q !! cflight c;
  match cpc c with
  | Checking _ | Waiting _ =>
      Some (goto t c Leaving (set_flight (cflight c) (mkFlight (ch f) (refs f) None) q))
  | _ => None
  end.

(** Under [flightMu]: count out; the last one takes the flight out of the
    table. *)
Definition leave (t : nat) (q : queue) : option queue :=
  c ← callers q !! t;
  f ← heap q !! cflight c;
  match cpc c with
  | Leaving =>
      let n := refs f - 1 in
      let table := if (n <=? 0) && bool_decide (flights q !! ckey c = Some (cflight c))
                   then delete (ckey c) (flights q) else flights q in
      Some (mkQueue table (<[cflight c := mkFlight (ch f) n (holder f)]> (heap q)) (nextFlight q) (nextCh q)
              (closed q) (delete t (callers q)))
  | _ => None
  end.

(** [notifyWaiters]: close the channel and put a new one in its place. Closing
    a closed channel panics. *)
Definition notifyWaiters (k : string) (q : queue) : option queue :=
  match flights q !! k with
  | None => Some q
  | Some p =>
      f ← heap q !! p;
      if bool_decide (ch f ∈ closed q) then None else
      Some (mkQueue (flights q) (<[p := mkFlight (nextCh q) (refs f) (holder f)]> (heap q)) (nextFlight q)
              (S (nextCh q)) ({[ch f]} ∪ closed q) (callers q))
  end.

Inductive event :=
  | Enter (t : nat) (k : string) | Lock (t : nat) | WaitChannel (t : nat) | Retry (t : nat)
  | Woken (timer : bool) (t : nat) | Finish (t : nat) | Leave (t : nat) | Notify (k : string).

Definition exec (e : event) (q : queue) : option queue :=
  match e with
  | Enter t k => enter t k q | Lock t => lock t q | WaitChannel t => waitChannel t q
  | Retry t => retry t q | Woken b t => woken b t q | Finish t => finish t q | Leave t => leave t q
  | Notify k => notifyWaiters k q
  end.

Fixpoint run (es : list event) (q : queue) : option queue :=
  match es with [] => Some q | e :: es => q ← exec e q; run es q end.

(** ** Invariant *)

(** Callers of a flight, and those of them inside [acquireLocked]. *)
Definition inside (p : pc) : bool :=
  match p with Looping | Checking _ | Waiting _ => true | _ => false end.
Definition captured (p : pc) : option nat :=
  match p with Checking n | Waiting n => Some n | _ => None end.
Definition of_flight (p : nat) (m : gmap nat caller) : gmap nat caller :=
  filter (fun tc => cflight tc.2 = p) m.

(** The table has one flight per key with callers; [o] is a flight that may
    still be empty. *)
Record inv_but (o : option nat) (q : queue) : Prop := mkInv {
  inv_flights k p : flights q !! k = Some p -> is_Some (heap q !! p);
  inv_table k k' p : flights q !! k = Some p -> flights q !! k' = Some p -> k = k';
  inv_callers t c : callers q !! t = Some c -> flights q !! ckey c = Some (cflight c);
  inv_refs k p f : flights q !! k = Some p -> heap q !! p = Some f ->
    refs f = Z.of_nat (size (of_flight p (callers q))) /\ (o <> Some p -> 0 < refs f);
  inv_holder p f t : heap q !! p = Some f ->
    holder f = Some t <-> exists c, callers q !! t = Some c /\ cflight c = p /\ inside (cpc c) = true;
  inv_heap p : is_Some (heap q !! p) -> (p < nextFlight q)%nat;
  inv_ch p f : heap q !! p = Some f -> (ch f < nextCh q)%nat /\ ch f ∉ closed q;
  inv_ch_own p p' f f' : heap q !! p = Some f -> heap q !! p' = Some f' -> ch f = ch f' -> p = p';
  inv_closed n : n ∈ closed q -> (n < nextCh q)%nat;
  inv_captured t c n : callers q !! t = Some c -> captured (cpc c) = Some n ->
    n ∈ closed q \/ exists f, heap q !! cflight c = Some f /\ ch f = n;
}.
Abbreviation inv := (inv_but None).

Lemma inv_inv_but o q : inv q -> inv_but o q.
Proof. intros []. split; try done. intros k p f Hk Hf. destruct (inv_refs0 k p f Hk Hf). by split; auto. Qed.

Lemma inv0 : inv queue0.
Proof. split; cbn; try (intros; simplify_map_eq; done); try set_solver. Qed.

(** *** Counting *)

Lemma of_flight_enter p (m : gmap nat caller) t c : m !! t = None ->
  size (of_flight p (<[t := c]> m)) = (size (of_flight p m) + if decide (cflight c = p) then 1 else 0)%nat.
Proof.
  intros Ht. unfold of_flight. destruct (decide (cflight c = p)) as [Hp|Hp].
  - rewrite map_filter_insert_True by done. rewrite map_size_insert_None; [lia|].
    apply map_lookup_filter_None. by left.
  - rewrite map_filter_insert_False by done. by rewrite delete_id, Nat.add_0_r.
Qed.

Lemma of_flight_leave p (m : gmap nat caller) t c : m !! t = Some c ->
  size (of_flight p m) = (size (of_flight p (delete t m)) + if decide (cflight c = p) then 1 else 0)%nat.
Proof.
  intros Ht. rewrite <- (insert_delete_id m t c Ht) at 1. apply of_flight_enter. apply lookup_delete_eq.
Qed.

Lemma of_flight_goto p (m : gmap nat caller) t c c' : m !! t = Some c -> cflight c' = cflight c ->
  size (of_flight p (<[t := c']> m)) = size (of_flight p m).
Proof.
  intros Ht Hc. rewrite <- insert_delete_eq, of_flight_enter by apply lookup_delete_eq.
  by rewrite (of_flight_leave p m t c Ht), Hc.
Qed.

Lemma of_flight_in p (m : gmap nat caller) t c : m !! t = Some c -> cflight c = p -> (0 < size (of_flight p m))%nat.
Proof. intros Ht Hp. rewrite (of_flight_leave p m t c Ht), decide_True by done. lia. Qed.

(** *** Moves of one caller *)

(** What a move from [a] to [b] does to the holder of the mutex. *)
Definition hand_over (t : nat) (a b : pc) (h h' : option nat) : Prop :=
  match inside a, inside b with
  | false, true => h = None /\ h' = Some t
  | true, false => h' = None
  | _, _ => h' = h
  end.

Lemma inv_move q t c f b h :
  inv q -> callers q !! t = Some c -> heap q !! cflight c = Some f ->
  hand_over t (cpc c) b (holder f) h ->
  (forall n, captured b = Some n -> n = ch f \/ captured (cpc c) = Some n) ->
  inv (goto t c b (set_flight (cflight c) (mkFlight (ch f) (refs f) h) q)).
Proof.
  intros Hi Ht Hf Hh Hcap.
  pose proof (inv_holder _ _ Hi _ f t Hf) as Hown.
  assert (forall t' c', callers q !! t' = Some c' -> cflight c' = cflight c -> inside (cpc c') = true ->
    holder f = Some t') as Hhold by (intros; apply (inv_holder _ _ Hi (cflight c)); eauto).
  split; cbn [goto set_caller set_flight flights heap nextFlight nextCh closed callers ckey cflight cpc].
  - intros k p Hk. destruct (decide (p = cflight c)) as [->|]; simplify_map_eq; [eauto|]. by eapply inv_flights.
  - intros k k' p. apply Hi.
  - intros t' c' [[<- <-]|[_ Hc']]%lookup_insert_Some; cbn; by eapply inv_callers.
  - intros k p g Hk Hg. rewrite (of_flight_goto p _ t c) by done.
    apply lookup_insert_Some in Hg as [[<- <-]|[_ Hg]]; cbn [refs]; by eapply inv_refs.
  - intros p g t' Hg. apply lookup_insert_Some in Hg as [[<- <-]|[Hne Hg]]; cbn [holder].
    + unfold hand_over in Hh. split.
      * intros ->. destruct (inside (cpc c)) eqn:Ha, (inside b) eqn:Hb; try done.
        -- subst. destruct (proj1 (inv_holder _ _ Hi _ f t' Hf) (eq_sym Hh)) as (c' & Hc' & Hcf & Hin).
           destruct (decide (t' = t)) as [->|]; [eexists; by rewrite lookup_insert_eq|].
           exists c'. by rewrite lookup_insert_ne.
        -- destruct Hh as [_ [= ->]]. eexists. by rewrite lookup_insert_eq.
        -- destruct (proj1 (inv_holder _ _ Hi _ f t' Hf) (eq_sym Hh)) as (c' & Hc' & Hcf & Hin).
           destruct (decide (t' = t)) as [->|]; [congruence|]. exists c'. by rewrite lookup_insert_ne.
      * intros (c' & [[<- <-]|[Hne Hc']]%lookup_insert_Some & Hcf & Hin); cbn in Hin.
        -- rewrite Hin in Hh. destruct (inside (cpc c)) eqn:Ha; [|by destruct Hh as [_ ->]].
           rewrite Hh. by apply (Hhold t c).
        -- specialize (Hhold _ _ Hc' Hcf Hin). destruct (inside (cpc c)) eqn:Ha, (inside b); try congruence.
           ++ assert (holder f = Some t) by (apply Hown; eauto). congruence.
           ++ destruct Hh. congruence.
    + rewrite (inv_holder _ _ Hi _ g t' Hg). split; intros (c' & Hc' & Hcf & Hin).
      * destruct (decide (t' = t)) as [->|]; [congruence|]. exists c'. by rewrite lookup_insert_ne.
      * apply lookup_insert_Some in Hc' as [[<- <-]|[_ Hc']]; [done|eauto].
  - intros p [g [[<- _]|[_ Hg]]%lookup_insert_Some]; eapply inv_heap; eauto.
  - intros p g [[<- <-]|[_ Hg]]%lookup_insert_Some; cbn [ch]; by eapply inv_ch.
  - intros p p' g g' Hg Hg'. apply lookup_insert_Some in Hg as [[<- <-]|[_ Hg]];
      apply lookup_insert_Some in Hg' as [[<- <-]|[_ Hg']]; cbn [ch]; intros Hch; try done; by eapply inv_ch_own.
  - apply Hi.
  - intros t' c' n Hc' Hn.
    assert (forall x, (exists g, heap q !! x = Some g /\ ch g = n) ->
      exists g, <[cflight c := mkFlight (ch f) (refs f) h]> (heap q) !! x = Some g /\ ch g = n) as Hkeep.
    { intros x (g & Hg & <-). destruct (decide (x = cflight c)) as [->|]; [|exists g; by rewrite lookup_insert_ne].
      eexists. rewrite lookup_insert_eq. split; [done|]. cbn. congruence. }
    apply lookup_insert_Some in Hc' as [[<- <-]|[_ Hc']]; cbn [cpc cflight] in *.
    + destruct (Hcap n Hn) as [->|Hn']; [right; apply Hkeep; eauto|].
      destruct (inv_captured _ _ Hi _ _ _ Ht Hn') as [|]; [by left|right; auto].
    + destruct (inv_captured _ _ Hi _ _ _ Hc' Hn) as [|]; [by left|right; auto].
Qed.

Lemma set_flight_id q p f : heap q !! p = Some f -> set_flight p (mkFlight (ch f) (refs f) (holder f)) q = q.
Proof. intros Hp. destruct q, f. unfold set_flight. cbn in *. by rewrite insert_id. Qed.

Lemma inv_turn q t c f b :
  inv q -> callers q !! t = Some c -> heap q !! cflight c = Some f -> inside b = inside (cpc c) ->
  (forall n, captured b = Some n -> n = ch f \/ captured (cpc c) = Some n) -> inv (goto t c b q).
Proof.
  intros Hi Ht Hf Hb Hcap. rewrite <- (set_flight_id q (cflight c) f Hf). apply inv_move; [done..| |done].
  unfold hand_over. rewrite Hb. by destruct (inside (cpc c)).
Qed.

(** *** Entering, leaving, notifying *)

(** The flight of a key that has none: fresh, empty, with a fresh channel. *)
Definition add_flight (k : string) (q : queue) : queue :=
  mkQueue (<[k := nextFlight q]> (flights q)) (<[nextFlight q := mkFlight (nextCh q) 0 None]> (heap q))
    (S (nextFlight q)) (S (nextCh q)) (closed q) (callers q).

Lemma add_flight_ok k q : inv q -> flights q !! k = None -> inv_but (Some (nextFlight q)) (add_flight k q).
Proof.
  intros Hi Hk.
  assert (heap q !! nextFlight q = None) as Hfresh.
  { destruct (heap q !! nextFlight q) eqn:Hp; [|done]. assert (nextFlight q < nextFlight q)%nat by (apply (inv_heap _ _ Hi); eauto). lia. }
  assert (forall k' p, flights q !! k' = Some p -> p <> nextFlight q) as Hne.
  { intros k' p Hp ->. destruct (inv_flights _ _ Hi _ _ Hp). congruence. }
  assert (forall t c, callers q !! t = Some c -> cflight c <> nextFlight q) as Hnc.
  { intros t c Hc. by eapply Hne, inv_callers. }
  split; cbn [add_flight flights heap nextFlight nextCh closed callers].
  - intros k' p [[<- <-]|[_ H]]%lookup_insert_Some; [rewrite lookup_insert_eq; eauto|].
    rewrite lookup_insert_ne by (symmetry; eauto). by eapply inv_flights.
  - intros k' k'' p [[<- <-]|[_ H]]%lookup_insert_Some [[<- E]|[_ H']]%lookup_insert_Some; try done.
    + by destruct (Hne _ _ H').
    + subst. by destruct (Hne _ _ H).
    + by eapply inv_table.
  - intros t c Hc. rewrite lookup_insert_ne; [by eapply inv_callers|].
    intros ->. rewrite (inv_callers _ _ Hi _ _ Hc) in Hk. done.
  - intros k' p f Hp [[<- <-]|[Hn Hf]]%lookup_insert_Some; cbn [refs].
    + split; [|done]. destruct (decide (size (of_flight (nextFlight q) (callers q)) = 0%nat)) as [->|Hs]; [done|].
      apply map_size_non_empty_iff, map_choose in Hs as (t & c & [Hc Hcf]%map_lookup_filter_Some).
      by destruct (Hnc _ _ Hc).
    + apply lookup_insert_Some in Hp as [[_ ?]|[_ Hp]]; [done|]. destruct (inv_refs _ _ Hi k' p f); [done..|]. split; [done|auto].
  - intros p f t [[<- <-]|[Hn Hf]]%lookup_insert_Some; cbn [holder]; [|by eapply inv_holder].
    split; [done|]. intros (c & Hc & Hcf & _). by destruct (Hnc _ _ Hc).
  - intros p [f [[<- _]|[_ Hf]]%lookup_insert_Some]; [lia|].
    assert (p < nextFlight q)%nat by (apply (inv_heap _ _ Hi); eauto). lia.
  - intros p f [[<- <-]|[_ Hf]]%lookup_insert_Some; cbn [ch].
    + split; [lia|]. intros H%(inv_closed _ _ Hi). lia.
    + destruct (inv_ch _ _ Hi _ _ Hf). split; [lia|done].
  - intros p p' f f' [[<- <-]|[_ Hf]]%lookup_insert_Some [[<- <-]|[_ Hf']]%lookup_insert_Some; cbn [ch]; intros E; try done.
    + destruct (inv_ch _ _ Hi _ _ Hf'). lia.
    + destruct (inv_ch _ _ Hi _ _ Hf). lia.
    + by eapply inv_ch_own.
  - intros n Hn%(inv_closed _ _ Hi). lia.
  - intros t c n Hc Hn. destruct (inv_captured _ _ Hi _ _ _ Hc Hn) as [?|(f & Hf & Hch)]; [by left|right].
    exists f. split; [|done]. rewrite lookup_insert_ne; [done|]. symmetry. by eapply Hnc.
Qed.

(** A caller counts in to a flight of the table. *)
Lemma count_in o q t k p f : inv_but o q -> callers q !! t = None -> flights q !! k = Some p ->
  heap q !! p = Some f -> o = None \/ o = Some p ->
  inv (set_caller t (mkCaller k p Queued) (set_flight p (mkFlight (ch f) (refs f + 1) (holder f)) q)).
Proof.
  intros Hi Ht Hk Hf Ho.
  split; cbn [set_caller set_flight flights heap nextFlight nextCh closed callers].
  - intros k' p' Hp'. destruct (decide (p' = p)) as [->|]; simplify_map_eq; [eauto|]. by eapply inv_flights.
  - apply Hi.
  - intros t' c [[<- <-]|[_ Hc]]%lookup_insert_Some; [done|]. by eapply inv_callers.
  - intros k' p' g Hp' Hg. rewrite of_flight_enter by done. cbn [cflight].
    apply lookup_insert_Some in Hg as [[<- <-]|[Hne Hg]]; cbn [refs].
    + destruct (inv_refs _ _ Hi k' p f) as [-> _]; [done..|]. rewrite decide_True by done. lia.
    + rewrite decide_False, Nat.add_0_r by done. destruct (inv_refs _ _ Hi k' p' g) as [Hr Hpos]; [done..|].
      split; [done|]. intros _. apply Hpos. destruct Ho; congruence.
  - intros p' g t' Hg.
    assert (exists g', heap q !! p' = Some g' /\ holder g' = holder g) as (g' & Hg' & <-).
    { apply lookup_insert_Some in Hg as [[<- <-]|[_ Hg]]; eauto. }
    rewrite (inv_holder _ _ Hi _ _ t' Hg'). split; intros (c & Hc & Hr).
    + exists c. split; [|done]. rewrite lookup_insert_ne; [done|]. intros ->. congruence.
    + apply lookup_insert_Some in Hc as [[<- <-]|[_ Hc]]; [by destruct Hr|eauto].
  - intros p' [g [[<- _]|[_ Hg]]%lookup_insert_Some]; eapply inv_heap; eauto.
  - intros p' g [[<- <-]|[_ Hg]]%lookup_insert_Some; cbn [ch]; by eapply inv_ch.
  - intros p1 p2 g g' Hg Hg'. apply lookup_insert_Some in Hg as [[<- <-]|[_ Hg]];
      apply lookup_insert_Some in Hg' as [[<- <-]|[_ Hg']]; cbn [ch]; intros Hch; try done; by eapply inv_ch_own.
  - apply Hi.
  - intros t' c n Hc Hn. apply lookup_insert_Some in Hc as [[<- <-]|[_ Hc]]; [done|].
    destruct (inv_captured _ _ Hi _ _ _ Hc Hn) as [?|(g & Hg & Hch)]; [by left|right].
    destruct (decide (cflight c = p)) as [E|]; [|exists g; by rewrite lookup_insert_ne].
    rewrite E in *. eexists. rewrite lookup_insert_eq. split; [done|]. cbn. congruence.
Qed.

Lemma enter_ok q q' t k : inv q -> enter t k q = Some q' -> inv q'.
Proof.
  intros Hi. unfold enter. destruct (callers q !! t) eqn:Ht; [done|].
  destruct (flights q !! k) as [p|] eqn:Hk.
  - destruct (heap q !! p) as [f|] eqn:Hf; [|by destruct (inv_flights _ _ Hi _ _ Hk); congruence].
    cbn. intros [= <-]. apply (count_in None); [by apply inv_inv_but|done..|by left].
  - cbn [heap]. rewrite lookup_insert_eq. cbn. intros [= <-].
    refine (count_in _ (add_flight k q) t k (nextFlight q) (mkFlight (nextCh q) 0 None) (add_flight_ok _ _ Hi Hk) Ht _ _ _);
      [apply lookup_insert_eq|apply lookup_insert_eq|by right].
Qed.

Lemma leave_ok q q' t : inv q -> leave t q = Some q' -> inv q'.
Proof.
  intros Hi. unfold leave.
  destruct (callers q !! t) as [c|] eqn:Ht; [|done]. cbn.
  destruct (heap q !! cflight c) as [f|] eqn:Hf; [|done]. cbn.
  destruct (cpc c) eqn:Hpc; try done. intros [= <-].
  pose proof (inv_callers _ _ Hi _ _ Ht) as Hk.
  destruct (inv_refs _ _ Hi _ _ _ Hk Hf) as [Hr _]. rewrite (of_flight_leave _ _ t c Ht), decide_True in Hr by done.
  rewrite bool_decide_true by done. rewrite andb_true_r.
  set (table := if refs f - 1 <=? 0 then _ else _).
  assert (forall k p, table !! k = Some p -> flights q !! k = Some p) as Hsub.
  { intros k p. unfold table. destruct (_ <=? 0); [|done]. by intros [_ H]%lookup_delete_Some. }
  assert (forall t' c', delete t (callers q) !! t' = Some c' -> table !! ckey c' = Some (cflight c')) as Hstay.
  { intros t' c' Hc'. pose proof Hc' as [_ Hin]%lookup_delete_Some. pose proof (inv_callers _ _ Hi _ _ Hin) as Hk'.
    unfold table. destruct (Z.leb_spec (refs f - 1) 0) as [Hz|]; [|done].
    rewrite lookup_delete_ne; [done|]. intros E. rewrite E, Hk' in Hk. injection Hk as Hcf.
    pose proof (of_flight_in _ _ _ _ Hc' Hcf). lia. }
  split; cbn [flights heap nextFlight nextCh closed callers].
  - intros k p Hp%Hsub. destruct (decide (p = cflight c)) as [->|]; simplify_map_eq; [eauto|]. by eapply inv_flights.
  - intros k k' p H%Hsub H'%Hsub. by eapply inv_table.
  - exact Hstay.
  - intros k p g Hp Hg. pose proof (Hsub _ _ Hp) as Hp'.
    apply lookup_insert_Some in Hg as [[<- <-]|[Hne Hg]]; cbn [refs].
    + split; [lia|]. intros _. rewrite (inv_table _ _ Hi _ _ _ Hp' Hk) in Hp.
      unfold table in Hp. destruct (Z.leb_spec (refs f - 1) 0); [|lia]. by rewrite lookup_delete_eq in Hp.
    + destruct (inv_refs _ _ Hi _ _ _ Hp' Hg) as [Hr' Hpos]. split; [|done].
      by rewrite Hr', (of_flight_leave p _ t c Ht), decide_False, Nat.add_0_r.
  - intros p g t' Hg.
    assert (exists g', heap q !! p = Some g' /\ holder g' = holder g) as (g' & Hg' & <-).
    { apply lookup_insert_Some in Hg as [[<- <-]|[_ Hg]]; eauto. }
    rewrite (inv_holder _ _ Hi _ _ t' Hg'). split; intros (c' & Hc & Hcf & Hin).
    + exists c'. split; [|done]. rewrite lookup_delete_ne; [done|]. intros ->.
      rewrite Ht in Hc. injection Hc as <-. by rewrite Hpc in Hin.
    + apply lookup_delete_Some in Hc as [_ Hc]. eauto.
  - intros p [g [[<- _]|[_ Hg]]%lookup_insert_Some]; eapply inv_heap; eauto.
  - intros p g [[<- <-]|[_ Hg]]%lookup_insert_Some; cbn [ch]; by eapply inv_ch.
  - intros p1 p2 g g' Hg Hg'. apply lookup_insert_Some in Hg as [[<- <-]|[_ Hg]];
      apply lookup_insert_Some in Hg' as [[<- <-]|[_ Hg']]; cbn [ch]; intros Hch; try done; by eapply inv_ch_own.
  - apply Hi.
  - intros t' c' n [_ Hc]%lookup_delete_Some Hn.
    destruct (inv_captured _ _ Hi _ _ _ Hc Hn) as [?|(g & Hg & Hch)]; [by left|right].
    destruct (decide (cflight c' = cflight c)) as [E|]; [|exists g; by rewrite lookup_insert_ne].
    rewrite E in *. eexists. rewrite lookup_insert_eq. split; [done|]. cbn. congruence.
Qed.

Lemma notify_ok q k : inv q -> exists q', notifyWaiters k q = Some q' /\ inv q' /\
  callers q' = callers q /\ closed q ⊆ closed q' /\
  (forall p f, flights q !! k = Some p -> heap q !! p = Some f -> ch f ∈ closed q').
Proof.
  intros Hi. unfold notifyWaiters. destruct (flights q !! k) as [p|] eqn:Hk; [|exists q; split_and!; done].
  destruct (inv_flights _ _ Hi _ _ Hk) as [f Hf]. rewrite Hf. cbn.
  destruct (inv_ch _ _ Hi _ _ Hf) as [Hlt Hopen]. rewrite bool_decide_false by done.
  eexists. split; [done|].
  assert (forall p' g, <[p := mkFlight (nextCh q) (refs f) (holder f)]> (heap q) !! p' = Some g ->
    exists g', heap q !! p' = Some g' /\ holder g' = holder g /\ refs g' = refs g /\
      (p' = p /\ ch g = nextCh q \/ p' <> p /\ ch g = ch g')) as Hold.
  { intros p' g [[<- <-]|[Hne Hg]]%lookup_insert_Some; [exists f; split_and!; auto|exists g; split_and!; auto]. }
  split_and!; cbn [callers closed heap flights nextFlight nextCh]; 
    [|done|set_solver|intros p' g [= <-] Hg; rewrite Hf in Hg; injection Hg as <-; set_solver].
  split; cbn [flights heap nextFlight nextCh closed callers].
  - intros k' p' Hp. destruct (decide (p' = p)) as [->|]; simplify_map_eq; [eauto|]. by eapply inv_flights.
  - apply Hi.
  - apply Hi.
  - intros k' p' g Hp (g' & Hg' & _ & <- & _)%Hold. by eapply inv_refs.
  - intros p' g t (g' & Hg' & <- & _)%Hold. by eapply inv_holder.
  - intros p' [g (g' & Hg' & _)%Hold]. eapply inv_heap; eauto.
  - intros p' g (g' & Hg' & _ & _ & [[-> ->]|[Hne ->]])%Hold.
    + split; [lia|]. rewrite elem_of_union, elem_of_singleton. intros [?|Hc%(inv_closed _ _ Hi)]; lia.
    + destruct (inv_ch _ _ Hi _ _ Hg') as [Hl Hc]. split; [lia|].
      rewrite elem_of_union, elem_of_singleton. intros [E|?]; [|done]. by destruct Hne, (inv_ch_own _ _ Hi _ _ _ _ Hg' Hf E).
  - intros p1 p2 g1 g2 (g1' & H1 & _ & _ & C1)%Hold (g2' & H2 & _ & _ & C2)%Hold E.
    pose proof (inv_ch _ _ Hi _ _ H1) as [L1 _]. pose proof (inv_ch _ _ Hi _ _ H2) as [L2 _].
    destruct C1 as [[-> ?]|[? ?]], C2 as [[-> ?]|[? ?]]; try done; try lia.
    eapply inv_ch_own; [done..|congruence].
  - intros n. rewrite elem_of_union, elem_of_singleton. intros [->|Hn%(inv_closed _ _ Hi)]; lia.
  - intros t c n Hc Hn. destruct (inv_captured _ _ Hi _ _ _ Hc Hn) as [?|(g & Hg & <-)]; [left; set_solver|].
    destruct (decide (cflight c = p)) as [E|Hne].
    + left. rewrite E, Hf in Hg. injection Hg as <-. set_solver.
    + right. exists g. by rewrite lookup_insert_ne.
Qed.

Lemma exec_ok e q q' : inv q -> exec e q = Some q' -> inv q'.
Proof.
  intros Hi. destruct e as [t k|t|t|t|b t|t|t|k]; cbn [exec].
  - by apply enter_ok.
  - unfold lock. destruct (callers q !! t) as [c|] eqn:Ht; [|done]. cbn.
    destruct (heap q !! cflight c) as [f|] eqn:Hf; [|done]. cbn.
    destruct (cpc c) eqn:Hp, (holder f) eqn:Hh; try done. intros [= <-].
    apply inv_move; [done..| |done]. by rewrite Hp, Hh.
  - unfold waitChannel. destruct (callers q !! t) as [c|] eqn:Ht; [|done]. cbn.
    destruct (heap q !! cflight c) as [f|] eqn:Hf; [|done]. cbn. destruct (cpc c) eqn:Hp; try done.
    intros [= <-]. apply (inv_turn _ _ _ f); [done..|by rewrite Hp|]. intros n [= <-]. by left.
  - unfold retry. destruct (callers q !! t) as [c|] eqn:Ht; [|done]. cbn. destruct (cpc c) eqn:Hp; try done.
    intros [= <-]. destruct (inv_flights _ _ Hi _ _ (inv_callers _ _ Hi _ _ Ht)) as [f Hf].
    apply (inv_turn _ _ _ f); [done..|by rewrite Hp|]. rewrite Hp. by right.
  - unfold woken. destruct (callers q !! t) as [c|] eqn:Ht; [|done]. cbn. destruct (cpc c) eqn:Hp; try done.
    destruct (_ || _); [|done]. intros [= <-].
    destruct (inv_flights _ _ Hi _ _ (inv_callers _ _ Hi _ _ Ht)) as [f Hf].
    apply (inv_turn _ _ _ f); [done..|by rewrite Hp|done].
  - unfold finish. destruct (callers q !! t) as [c|] eqn:Ht; [|done]. cbn.
    destruct (heap q !! cflight c) as [f|] eqn:Hf; [|done]. cbn.
    destruct (cpc c) eqn:Hp; try done; intros [= <-]; (apply inv_move; [done..| |done]; by rewrite Hp).
  - by apply leave_ok.
  - intros Hn. destruct (notify_ok q k Hi) as (q1 & H1 & H2 & _). congruence.
Qed.

Lemma run_ok es q q' : inv q -> run es q = Some q' -> inv q'.
Proof.
  revert q. induction es as [|e es IH]; intros q Hi; cbn; [by intros [= <-]|].
  destruct (exec e q) as [q1|] eqn:He; [|done]. cbn. apply IH. by eapply exec_ok.
Qed.

(** C35  However the callers of a process interleave: at most one of them is in
    [acquireLocked] for a key; the table holds a flight for exactly the keys
    that have callers, so it does not grow with the databases ever seen; and no
    release is missed: whoever captured a channel before [notifyWaiters] of its
    key, even if it still asks the store or has not reached its [select], finds
    it closed. [notifyWaiters] never closes a closed channel. *)
Theorem local_queue (es : list event) (q : queue) (Hrun : run es queue0 = Some q) :
  (forall t t' c c', callers q !! t = Some c -> callers q !! t' = Some c' -> ckey c = ckey c' ->
     inside (cpc c) = true -> inside (cpc c') = true -> t = t') /\
  (forall k, is_Some (flights q !! k) <-> exists t c, callers q !! t = Some c /\ ckey c = k) /\
  (forall k, exists q', notifyWaiters k q = Some q' /\
     forall t c n, callers q !! t = Some c -> ckey c = k -> captured (cpc c) = Some n -> n ∈ closed q').
Proof.
  pose proof (run_ok es _ _ inv0 Hrun) as Hi. split_and!.
  - intros t t' c c' Hc Hc' Hk Hin Hin'.
    pose proof (inv_callers _ _ Hi _ _ Hc) as Hf. pose proof (inv_callers _ _ Hi _ _ Hc') as Hf'.
    rewrite <- Hk, Hf in Hf'. injection Hf' as Hcf. destruct (inv_flights _ _ Hi _ _ Hf) as [f Hp].
    pose proof (proj2 (inv_holder _ _ Hi _ _ t Hp) (ex_intro _ c (conj Hc (conj eq_refl Hin)))) as H1.
    pose proof (proj2 (inv_holder _ _ Hi _ _ t' Hp) (ex_intro _ c' (conj Hc' (conj (eq_sym Hcf) Hin')))). congruence.
  - intros k. split.
    + intros [p Hp]. destruct (inv_flights _ _ Hi _ _ Hp) as [f Hf].
      destruct (inv_refs _ _ Hi _ _ _ Hp Hf) as [Hr Hpos]. specialize (Hpos ltac:(done)).
      assert (size (of_flight p (callers q)) <> 0%nat) as Hs by lia.
      apply map_size_non_empty_iff, map_choose in Hs as (t & c & [Hc Hcf]%map_lookup_filter_Some). cbn in Hcf.
      exists t, c. split; [done|]. pose proof (inv_callers _ _ Hi _ _ Hc) as Hk. rewrite Hcf in Hk.
      by eapply inv_table.
    + intros (t & c & Hc & <-). rewrite (inv_callers _ _ Hi _ _ Hc). eauto.
  - intros k. destruct (notify_ok q k Hi) as (q' & Hn & _ & _ & Hsub & Hclose). exists q'. split; [done|].
    intros t c n Hc <- Hcap. destruct (inv_captured _ _ Hi _ _ _ Hc Hcap) as [?|(f & Hf & <-)]; [set_solver|].
    eapply Hclose; [by eapply inv_callers|done].
Qed.

(** Witness: three callers of one key; the first has left, the second waits, a
    third is queued behind it. *)
Definition three_callers : list event :=
  [Enter 1 "db"; Lock 1; WaitChannel 1; Enter 2 "db"; Finish 1; Lock 2; WaitChannel 2; Enter 3 "db"; Leave 1; Retry 2].

Lemma local_queue_witness : exists q, run three_callers queue0 = Some q /\
  exists q', notifyWaiters "db" q = Some q' /\ 0%nat ∈ closed q'.
Proof.
  eexists. split; [vm_compute; reflexivity|].
  edestruct (local_queue three_callers) as (_ & _ & H); [vm_compute; reflexivity|].
  destruct (H "db") as (q' & Hn & Hc). exists q'. split; [exact Hn|].
  eapply (Hc 2%nat); [vm_compute; reflexivity|reflexivity|reflexivity].
Defined.
