(* ===== verification/LeaseId.v ===== *)
(** * LeaseId: the random identifier of a lease ([NewID] of [lease/lease.go])

    The sixteen random bytes are an argument. *)

From S2P Require Import Prelude CStrings Errors.

(** [hex.EncodeToString] *)
Fixpoint EncodeToString (b : list Z) : string :=
  match b with
  | [] => ""
  | x :: b => String (hex_digit (x / 16)) (String (hex_digit (x mod 16)) (EncodeToString b))
  end.

(** Version 4 and variant 10. *)
Definition marked (b : list Z) : list Z :=
  let b := <[6%nat := Z.lor (Z.land (b !!! 6%nat) 15) 64]> b in
  <[8%nat := Z.lor (Z.land (b !!! 8%nat) 63) 128]> b.

Definition NewID (b : list Z) : string :=
  let h := EncodeToString (marked b) in
  String.substring 0 8 h +:+ "-" +:+ String.substring 8 4 h +:+ "-" +:+ String.substring 12 4 h +:+ "-"
    +:+ String.substring 16 4 h +:+ "-" +:+ String.substring 20 12 h.

Definition byte (x : Z) : Prop := 0 <= x < 256.

(** A fact about every byte, by trying them all. *)
Lemma byte_forall (P : Z -> bool) (x : Z) :
  forallb P (Z.of_nat <$> seq 0 256) = true -> byte x -> P x = true.
Proof.
  intros Hall [Hx Hx']. rewrite forallb_forall in Hall. apply Hall, in_map_iff.
  exists (Z.to_nat x). split; [lia|]. apply in_seq. lia.
Qed.

(** A digit determines its value. *)
Definition digit_value (c : Ascii.ascii) : Z :=
  let n := code c in if n <? 58 then n - 48 else n - 87.

Lemma hex_digit_value n : 0 <= n < 16 -> digit_value (hex_digit n) = n.
Proof.
  intros Hn. apply Z.eqb_eq.
  pose proof (byte_forall (fun n => implb (n <? 16) (digit_value (hex_digit n) =? n)) n) as Hb. cbv beta in Hb.
  rewrite (proj2 (Z.ltb_lt n 16)) in Hb by lia. apply Hb; [vm_compute; reflexivity|unfold byte; lia].
Qed.

Lemma encode_inj b b' :
  Forall byte b -> Forall byte b' -> EncodeToString b = EncodeToString b' -> b = b'.
Proof.
  intros Hb. revert b'. induction Hb as [|x b Hx Hb IH]; intros [|y b'] Hb' He; try done.
  inversion Hb' as [|? ? Hy Hb'']; subst. cbn in He. injection He as H1 H2 H3. unfold byte in *.
  apply (f_equal digit_value) in H1, H2.
  assert (Hdiv : forall z, 0 <= z < 256 -> 0 <= z / 16 < 16).
  { intros z Hz. split; [apply Z.div_pos; lia|apply Z.div_lt_upper_bound; lia]. }
  rewrite !hex_digit_value in H1 by auto. rewrite !hex_digit_value in H2 by (apply Z.mod_pos_bound; lia).
  f_equal; [|by apply IH]. pose proof (Z.div_mod x 16 ltac:(lia)). pose proof (Z.div_mod y 16 ltac:(lia)). lia.
Qed.

(** The two marked bytes: the fixed bits are set, the others are kept. *)
Lemma version_byte x : byte x ->
  (fun x => let y := Z.lor (Z.land x 15) 64 in
     (0 <=? y) && (y <? 256) && Ascii.eqb (hex_digit (y / 16)) "4" && (y mod 16 =? x mod 16)) x = true.
Proof. apply byte_forall. vm_compute. reflexivity. Qed.
Lemma variant_byte x : byte x ->
  (fun x => let y := Z.lor (Z.land x 63) 128 in
     (0 <=? y) && (y <? 256) && existsb (Ascii.eqb (hex_digit (y / 16))) ["8"; "9"; "a"; "b"]%char
     && (y mod 64 =? x mod 64)) x = true.
Proof. apply byte_forall. vm_compute. reflexivity. Qed.

Lemma marked_bytes b : Forall byte b -> length b = 16%nat -> Forall byte (marked b).
Proof.
  intros Hb Hl. unfold marked.
  assert (Hin : forall i, (i < 16)%nat -> byte (b !!! i)).
  { intros i Hi. rewrite Forall_forall in Hb. apply Hb, list_elem_of_lookup. exists i.
    apply list_lookup_lookup_total_lt. lia. }
  pose proof (version_byte _ (Hin 6%nat ltac:(lia))) as Hv. pose proof (variant_byte _ (Hin 8%nat ltac:(lia))) as Hw.
  cbv beta zeta in Hv, Hw. rewrite !andb_true_iff, Z.leb_le, Z.ltb_lt in Hv, Hw.
  rewrite list_lookup_total_insert_ne by lia. apply Forall_insert; [apply Forall_insert; [done|]|]; unfold byte; lia.
Qed.

(** The characters at the places a version 4 identifier fixes. *)
Definition char_at (s : string) (i : nat) : option Ascii.ascii := String.get i s.

(** An identifier has the form of a random UUID: 36 characters, dashes after
    the 8th, 12th, 16th and 20th digit, version 4, variant 10; and it shows
    its bytes: two identifiers are the same only if all 122 random bits are. *)
Theorem new_id_spec (b b' : list Z)
    (Hb : Forall byte b) (Hb' : Forall byte b') (Hl : length b = 16%nat) (Hl' : length b' = 16%nat) :
  String.length (NewID b) = 36%nat /\
  Forall (fun i => char_at (NewID b) i = Some "-"%char) [8%nat; 13%nat; 18%nat; 23%nat] /\
  char_at (NewID b) 14 = Some "4"%char /\
  (exists v, char_at (NewID b) 19 = Some v /\ v ∈ ["8"; "9"; "a"; "b"]%char) /\
  (NewID b = NewID b' <-> marked b = marked b').
Proof.
  pose proof (marked_bytes b Hb Hl) as Hm. pose proof (marked_bytes b' Hb' Hl') as Hm'.
  assert (H6 : byte (b !!! 6%nat) /\ byte (b !!! 8%nat)).
  { do 16 (destruct b as [|? b]; [done|]). rewrite !Forall_cons in Hb. split; apply Hb. }
  destruct H6 as [H6 H8]. pose proof (version_byte _ H6) as Hv. pose proof (variant_byte _ H8) as Hw.
  cbv beta zeta in Hv, Hw. rewrite !andb_true_iff in Hv, Hw.
  assert (Hshape : exists x0 x1 x2 x3 x4 x5 x7 x9 x10 x11 x12 x13 x14 x15, marked b =
    [x0; x1; x2; x3; x4; x5; Z.lor (Z.land (b !!! 6%nat) 15) 64; x7; Z.lor (Z.land (b !!! 8%nat) 63) 128;
     x9; x10; x11; x12; x13; x14; x15]).
  { do 17 (destruct b as [|? b]; [try done|]); [|done]. repeat eexists. }
  assert (Hshape' : exists l, length l = 16%nat /\ marked b' = l).
  { eexists. split; [|done]. unfold marked. by rewrite !length_insert. }
  destruct Hshape as (x0 & x1 & x2 & x3 & x4 & x5 & x7 & x9 & x10 & x11 & x12 & x13 & x14 & x15 & Hs).
  destruct Hshape' as (l & Hll & Hs'). unfold NewID. rewrite Hs, Hs' in *.
  split_and!.
  - reflexivity.
  - repeat constructor.
  - transitivity (Some (hex_digit (Z.lor (Z.land (b !!! 6%nat) 15) 64 / 16))); [reflexivity|].
    destruct Hv as [[_ Hv] _]. apply Ascii.eqb_eq in Hv. by rewrite Hv.
  - eexists. split; [reflexivity|]. destruct Hw as [[_ Hw] _]. apply existsb_exists in Hw as (v & Hin & Hv').
    apply Ascii.eqb_eq in Hv' as ->. by apply list_elem_of_In.
  - split; [|by intros ->]. intros He. apply encode_inj; [done..|].
    do 17 (destruct l as [|? l]; [try done|]); [|done]. cbn in He. injection He. intros.
    cbn [EncodeToString]. congruence.
Qed.
