(* ===== verification/MemoryReplica.v ===== *)
(** * MemoryReplica: the in-process replica client ([litestream/memory.go])

    The client of the provider [memory] keeps the files of all databases in one
    map from paths to objects. It implements the contract of a plain replica
    client in [RangeCache]: each method answers as [answers] says and touches
    no other database. *)

From S2P Require Import Prelude CStrings Errors Manifest FileCache RangeCache.

(** ** Paths, from the litestream and ltx libraries

    A level directory lies inside its root; a file lies in its level's
    directory under a name that gives its range of transactions and parses
    back to it; the paths of different files differ. *)
Class LtxPaths := {
  LTXLevelDir : string -> Z -> string;
  FormatFilename : Z -> Z -> string;
  ParseFilename : string -> option (Z * Z);
  parse_format a b : 0 <= a < two64 -> 0 <= b < two64 -> ParseFilename (FormatFilename a b) = Some (a, b);
  format_parse s a b : ParseFilename s = Some (a, b) ->
    s = FormatFilename a b /\ 0 <= a < two64 /\ 0 <= b < two64;
  level_inside p l : exists rest, LTXLevelDir p l = p +:+ "/" +:+ rest;
  levels_apart p l l' a b a' b' :
    LTXLevelDir p l +:+ "/" +:+ FormatFilename a b = LTXLevelDir p l' +:+ "/" +:+ FormatFilename a' b' -> l = l';
}.

(** [strings.HasPrefix] with [strings.TrimPrefix]. *)
Fixpoint trim (pre s : string) : option string :=
  match pre, s with
  | EmptyString, _ => Some s
  | String c pre, String d s => if Ascii.eqb c d then trim pre s else None
  | _, EmptyString => None
  end.

Lemma trim_spec pre s rest : trim pre s = Some rest <-> s = pre +:+ rest.
Proof.
  revert s. induction pre as [|c pre IH]; intros s; [split; [by intros [= ->]|by intros ->]|].
  destruct s as [|d s]; cbn; [split; intros H; discriminate H|].
  change (String c pre +:+ rest) with (String c (pre +:+ rest)).
  destruct (Ascii.eqb_spec c d) as [->|Hne]; [rewrite IH|]; split; [by intros ->|by intros [= ->]|done|].
  intros [= -> _]. done.
Qed.

Lemma trim_app a x : trim a (a +:+ x) = Some x.
Proof. by apply trim_spec. Qed.
Lemma app_cancel a x y : a +:+ x = a +:+ y -> x = y.
Proof. intros H. apply (f_equal (trim a)) in H. rewrite !trim_app in H. by injection H. Qed.

Section Memory.
Context {LP : LtxPaths}.
(** [ltx.PeekHeader]: the timestamp in a file's header. *)
Context (PeekHeader : string -> res goerror Z) (not_exist : string -> goerror).

Definition LTXFilePath (p : string) (l a b : Z) : string :=
  LTXLevelDir p l +:+ "/" +:+ FormatFilename a b.

(** ** [memoryObject], [memoryObjects], the methods *)

Record memoryObject := mkMemory { m_data : string; createdAt : Z }.
Notation memoryObjects := (gmap string memoryObject).

Definition file_info (l a b : Z) (o : memoryObject) : file :=
  mkFile l a b (slen (m_data o)) (createdAt o).

Definition MLTX (path : string) (l seek : Z) (objs : memoryObjects) : list file :=
  omap (fun '(key, obj) =>
    name ← trim (LTXLevelDir path l +:+ "/") key;
    range ← ParseFilename name;
    if range.1 <? seek then None else Some (file_info l range.1 range.2 obj)) (map_to_list objs).

(** The window of [OpenLTXFile]. *)
Definition window (d : string) (offset size : Z) : string :=
  let d := if 0 <? offset then
             (if slen d <=? offset then "" else sskip (Z.to_nat offset) d)
           else d in
  if (0 <? size) && (size <? slen d) then sfirst (Z.to_nat size) d else d.

Definition MOpenLTXFile (path : string) (l a b offset size : Z) (objs : memoryObjects) : res goerror string :=
  match objs !! LTXFilePath path l a b with
  | None => Err (not_exist (LTXFilePath path l a b))
  | Some obj => Ok (window (m_data obj) offset size)
  end.

Definition MWriteLTXFile (path : string) (l a b : Z) (r : res goerror string) (objs : memoryObjects)
    : memoryObjects * res goerror file :=
  match r with
  | Err e => (objs, Err e)
  | Ok d =>
      match PeekHeader d with
      | Err e => (objs, Err (EWrapf "extract timestamp from LTX header" e))
      | Ok t => (<[LTXFilePath path l a b := mkMemory d t]> objs, Ok (mkFile l a b (slen d) t))
      end
  end.

Definition MDeleteLTXFiles (path : string) (fs : list file) (objs : memoryObjects) : memoryObjects :=
  foldl (fun objs f => delete (LTXFilePath path (Level f) (MinTXID f) (MaxTXID f)) objs) objs fs.

Definition MDeleteAll_ (path : string) (objs : memoryObjects) : memoryObjects :=
  filter (fun ko => trim (path +:+ "/") ko.1 = None) objs.

(** A method of the client rooted at [path]. *)
Definition mem_call (path : string) (m : method) (objs : memoryObjects) : memoryObjects * answer :=
  match m with
  | MLTXFiles l seek _ => (objs, AListing (Ok (MLTX path l seek objs)))
  | MOpen l a b off sz => (objs, AOpen (Some (MOpenLTXFile path l a b off sz objs)))
  | MWrite l a b r => let '(objs, r) := MWriteLTXFile path l a b r objs in (objs, AWrite r)
  | MDelete fs => (MDeleteLTXFiles path fs objs, ADelete None)
  | MDeleteAll => (MDeleteAll_ path objs, ADelete None)
  | MDropListings => (objs, ADone)
  end.

(** ** The files of one database in the map *)

Definition txid (z : Z) : Prop := 0 <= z < two64.
Definition path_of (root : string) (k : fileKey) : string := LTXFilePath root (level k) (minTXID k) (maxTXID k).
Definition to_object (o : memoryObject) : object := mkObject (m_data o) (createdAt o) (createdAt o).

(** [st] holds the files of the database [db] whose root is [root]. *)
Definition view (root db : string) (objs : memoryObjects) (st : gmap fileKey object) : Prop :=
  forall k o, st !! k = Some o <->
    dbKey k = db /\ txid (minTXID k) /\ txid (maxTXID k) /\
    exists mo, objs !! path_of root k = Some mo /\ o = to_object mo.

(** Transaction ids are [uint64]. *)
Definition method_ok (m : method) : Prop :=
  match m with
  | MOpen _ a b _ _ | MWrite _ a b _ => txid a /\ txid b
  | MDelete fs => Forall (fun f => txid (MinTXID f) /\ txid (MaxTXID f)) fs
  | _ => True
  end.

Lemma path_inj p l a b l' a' b' : txid a -> txid b -> txid a' -> txid b' ->
  LTXFilePath p l a b = LTXFilePath p l' a' b' -> l = l' /\ a = a' /\ b = b'.
Proof.
  unfold LTXFilePath. intros Ha Hb Ha' Hb' H. pose proof (levels_apart _ _ _ _ _ _ _ H) as <-.
  apply app_cancel, (app_cancel "/") in H.
  apply (f_equal ParseFilename) in H. rewrite !parse_format in H by done. by injection H as -> ->.
Qed.

Lemma path_of_inj root k k' : dbKey k = dbKey k' -> txid (minTXID k) -> txid (maxTXID k) ->
  txid (minTXID k') -> txid (maxTXID k') -> path_of root k = path_of root k' -> k = k'.
Proof.
  destruct k as [d l a b], k' as [d' l' a' b']. unfold path_of. cbn. intros -> Ha Hb Ha' Hb' H.
  by apply path_inj in H as (-> & -> & ->).
Qed.

Lemma no_window sz : (0 <? sz) && (sz <? slen "") = false.
Proof. change (slen "") with 0. destruct (Z.ltb_spec 0 sz); [|done]. apply Z.ltb_ge. lia. Qed.

Lemma window_slice d off sz : 0 <= off -> sliceReader d off sz = Some (window d off sz).
Proof.
  intros Hoff. unfold sliceReader, window. rewrite (proj2 (Z.ltb_ge off 0)) by done.
  destruct (Z.leb_spec (slen d) off) as [Hl|Hl].
  - destruct (Z.ltb_spec 0 off) as [_|H0].
    + by rewrite no_window.
    + assert (d = "") as ->; [|by rewrite no_window].
      destruct d as [|c d]; [done|]. rewrite slen_cons in Hl. pose proof (slen_nonneg d). lia.
  - destruct (Z.ltb_spec 0 off) as [_|H0]; [done|]. by replace off with 0 by lia.
Qed.

Lemma under_root root l a b : exists rest, trim (root +:+ "/") (LTXFilePath root l a b) = Some rest.
Proof.
  unfold LTXFilePath. destruct (level_inside root l) as [rest ->].
  exists (rest +:+ "/" +:+ FormatFilename a b). apply trim_spec.
  by rewrite !string_app_assoc.
Qed.

Lemma MDelete_lookup root fs objs s :
  MDeleteLTXFiles root fs objs !! s =
  if bool_decide (s ∈ map (fun f => LTXFilePath root (Level f) (MinTXID f) (MaxTXID f)) fs) then None else objs !! s.
Proof.
  unfold MDeleteLTXFiles. revert objs. induction fs as [|f fs IH]; intros objs; [done|].
  cbn [foldl map]. rewrite IH. clear IH. set (tail := map _ fs).
  destruct (decide (s = LTXFilePath root (Level f) (MinTXID f) (MaxTXID f))) as [->|Hne].
  - rewrite lookup_delete_eq, (bool_decide_true (_ ∈ _ :: _)) by by left. by case_match.
  - rewrite lookup_delete_ne by done. by rewrite (bool_decide_ext (s ∈ _ :: tail) (s ∈ tail)) by set_solver.
Qed.

(** No method touches what is not under its root. *)
Lemma other_paths root m objs s : trim (root +:+ "/") s = None -> (mem_call root m objs).1 !! s = objs !! s.
Proof.
  intros Hs.
  assert (forall l a b, s <> LTXFilePath root l a b) as Hne.
  { intros l a b ->. destruct (under_root root l a b). congruence. }
  destruct m as [| |l a b [d|e]|fs| |]; cbn; try done.
  - destruct (PeekHeader d); [|done]. by apply lookup_insert_ne.
  - rewrite MDelete_lookup, bool_decide_false; [done|]. intros (f & Hf & _)%list_elem_of_fmap. by destruct (Hne _ _ _ Hf).
  - unfold MDeleteAll_. destruct (objs !! s) eqn:Ho.
    + by apply map_lookup_filter_Some.
    + apply map_lookup_filter_None. by left.
Qed.

Lemma MLTX_spec root l seek objs f :
  f ∈ MLTX root l seek objs <-> exists a b mo, objs !! LTXFilePath root l a b = Some mo /\
    txid a /\ txid b /\ seek <= a /\ f = file_info l a b mo.
Proof.
  unfold MLTX. rewrite list_elem_of_omap. split.
  - intros ([key mo] & Hk%elem_of_map_to_list & Hf).
    destruct (trim _ key) as [name|] eqn:Ht; [|done]. cbn in Hf.
    destruct (ParseFilename name) as [[a b]|] eqn:Hp; [|done]. cbn in Hf.
    destruct (Z.ltb_spec a seek); [done|]. injection Hf as <-.
    apply format_parse in Hp as (-> & Ha & Hb). apply trim_spec in Ht as ->.
    rewrite string_app_assoc in Hk. eauto 10.
  - intros (a & b & mo & Hk & Ha & Hb & Hs & ->). exists (LTXFilePath root l a b, mo).
    split; [by apply elem_of_map_to_list|]. unfold LTXFilePath. rewrite <- string_app_assoc, trim_app. cbn.
    rewrite parse_format by done. cbn. by rewrite (proj2 (Z.ltb_ge _ _)).
Qed.

Section View.
Context (root db : string) (objs : memoryObjects) (st : gmap fileKey object).
Hypothesis Hv : view root db objs st.

Lemma view_lookup l a b : txid a -> txid b ->
  st !! mkKey db l a b = to_object <$> objs !! LTXFilePath root l a b.
Proof.
  intros Ha Hb. destruct (objs !! LTXFilePath root l a b) as [mo|] eqn:Ho; cbn.
  - apply Hv. split_and!; try done. by exists mo.
  - destruct (st !! _) eqn:Hs; [|done]. apply Hv in Hs as (_ & _ & _ & mo & Hm & _).
    unfold path_of in Hm. cbn in Hm. congruence.
Qed.

Lemma lists_view l seek : lists false db l seek st (MLTX root l seek objs).
Proof.
  intros f. rewrite MLTX_spec. split.
  - intros (a & b & mo & Hm & Ha & Hb & Hs & ->). exists (mkKey db l a b), (to_object mo).
    rewrite view_lookup, Hm by done. done.
  - intros ([d l' a b] & o & Hk & <- & <- & Hs & ->). cbn in Hs.
    apply Hv in Hk as (_ & Ha & Hb & mo & Hm & ->). by exists a, b, mo.
Qed.

Lemma view_insert l a b mo : txid a -> txid b ->
  view root db (<[LTXFilePath root l a b := mo]> objs) (<[mkKey db l a b := to_object mo]> st).
Proof.
  intros Ha Hb k o. rewrite lookup_insert_Some. split.
  - intros [[<- <-]|[Hne Hk]].
    + split_and!; try done. exists mo. split; [apply lookup_insert_eq|done].
    + apply Hv in Hk as (Hd & Ha' & Hb' & mo' & Hm & ->). split_and!; try done. exists mo'. split; [|done].
      rewrite lookup_insert_ne; [done|]. intros E. apply Hne. subst db. by apply (path_of_inj root).
  - intros (Hd & Ha' & Hb' & mo' & [[E <-]|[Hne Hm]]%lookup_insert_Some & ->).
    + left. split; [|done]. subst db. by apply (path_of_inj root).
    + right. split; [intros <-; by apply Hne|]. apply Hv. eauto 10.
Qed.

#[local] Instance listed_dec fs k : Decision (listed_in db fs k).
Proof. unfold listed_in. apply _. Defined.

Lemma view_delete fs : Forall (fun f => txid (MinTXID f) /\ txid (MaxTXID f)) fs ->
  view root db (MDeleteLTXFiles root fs objs) (filter (fun ko => ~ listed_in db fs ko.1) st).
Proof.
  intros Hfs k o. rewrite map_lookup_filter_Some, MDelete_lookup. cbn [fst].
  assert (dbKey k = db -> txid (minTXID k) -> txid (maxTXID k) ->
    path_of root k ∈ map (fun f => LTXFilePath root (Level f) (MinTXID f) (MaxTXID f)) fs <-> listed_in db fs k) as Hin.
  { intros Hd Ha Hb. unfold listed_in, path_of. rewrite !list_elem_of_fmap. split.
    - intros (f & Hf & Hm). rewrite Forall_forall in Hfs. destruct (Hfs f Hm).
      apply path_inj in Hf as (-> & -> & ->); [|done..]. split; [done|]. by exists f.
    - intros (_ & f & Hf & Hm). injection Hf as -> -> ->. by exists f. }
  split.
  - intros [Hk Hn]. apply Hv in Hk as (Hd & Ha & Hb & mo & Hm & ->). split_and!; try done. exists mo.
    rewrite bool_decide_false; [done|]. by rewrite Hin.
  - intros (Hd & Ha & Hb & mo & Hm & ->). case_bool_decide as Hp; [done|]. rewrite Hin in Hp by done.
    split; [|done]. apply Hv. eauto 10.
Qed.

Lemma view_empty : view root db (MDeleteAll_ root objs) ∅.
Proof.
  intros k o. rewrite lookup_empty. split; [done|]. intros (_ & _ & _ & mo & Hm & _).
  apply map_lookup_filter_Some in Hm as [_ Hm]. cbn in Hm. unfold path_of in Hm.
  destruct (under_root root (level k) (minTXID k) (maxTXID k)). congruence.
Qed.
End View.

(** Roots of which neither holds a file of the other. *)
Definition apart (root root' : string) : Prop :=
  forall l a b, trim (root +:+ "/") (LTXFilePath root' l a b) = None.

End Memory.

(** ** Witness: paths in unary *)

Module Unary.
Definition d : Ascii.ascii := "d"%char.

Fixpoint run_length (s : string) : nat * string :=
  match s with
  | String c s' => if Ascii.eqb c d then let '(n, r) := run_length s' in (S n, r) else (0%nat, s)
  | EmptyString => (0%nat, s)
  end.

Lemma run_length_spec s n r : run_length s = (n, r) -> s = name n +:+ r.
Proof.
  revert n. induction s as [|c s IH]; intros n; cbn; [by intros [= <- <-]|].
  destruct (Ascii.eqb_spec c d) as [->|_]; [|by intros [= <- <-]].
  destruct (run_length s) as [n' r']. intros [= <- <-].
  change (String d s = String d (name n' +:+ r')). f_equal. by apply IH.
Qed.

Lemma run_length_name n c r : c <> d -> run_length (name n +:+ String c r) = (n, String c r).
Proof.
  intros Hc. induction n as [|n IH].
  - change (run_length (String c r) = (0%nat, String c r)). cbn [run_length].
    by rewrite (proj2 (Ascii.eqb_neq c d) Hc).
  - change (run_length (String d (name n +:+ String c r)) = (S n, String c r)). cbn [run_length].
    by rewrite IH.
Qed.

Lemma run_length_end n : run_length (name n) = (n, "").
Proof. induction n as [|n IH]; [done|]. cbn. by rewrite IH. Qed.

Definition dash : Ascii.ascii := "-"%char.
Definition format (a b : Z) : string := name (Z.to_nat a) +:+ String dash (name (Z.to_nat b)).
Definition parse (s : string) : option (Z * Z) :=
  let '(a, r) := run_length s in
  match r with
  | String c r =>
      let '(b, e) := run_length r in
      if Ascii.eqb c dash && String.eqb e "" && (Z.of_nat a <? two64) && (Z.of_nat b <? two64)
      then Some (Z.of_nat a, Z.of_nat b) else None
  | EmptyString => None
  end.

Lemma parse_of_format a b : 0 <= a < two64 -> 0 <= b < two64 -> parse (format a b) = Some (a, b).
Proof.
  intros Ha Hb. unfold parse, format. rewrite run_length_name, run_length_end by done.
  rewrite !Z2Nat.id by lia. rewrite Ascii.eqb_refl, !(proj2 (Z.ltb_lt _ _)) by lia. done.
Qed.

Lemma format_of_parse s a b : parse s = Some (a, b) -> s = format a b /\ 0 <= a < two64 /\ 0 <= b < two64.
Proof.
  unfold parse, format. destruct (run_length s) as [n r] eqn:Hs. apply run_length_spec in Hs as ->.
  destruct r as [|c r]; [done|]. destruct (run_length r) as [k e] eqn:Hr. apply run_length_spec in Hr as ->.
  destruct (Ascii.eqb_spec c dash) as [->|]; [|done]. destruct (String.eqb_spec e "") as [->|]; [|done].
  destruct (Z.ltb_spec (Z.of_nat n) two64); [|done]. destruct (Z.ltb_spec (Z.of_nat k) two64); [|done].
  intros [= <- <-]. rewrite !Nat2Z.id, string_app_nil_r. split; [done|lia].
Qed.

Definition level_name (l : Z) : string := String (if l <? 0 then "m" else "p")%char (name (Z.to_nat (Z.abs l))).
Definition level_dir (p : string) (l : Z) : string := p +:+ "/" +:+ level_name l.

Lemma levels_differ p l l' a b a' b' :
  level_dir p l +:+ "/" +:+ format a b = level_dir p l' +:+ "/" +:+ format a' b' -> l = l'.
Proof.
  unfold level_dir. rewrite !string_app_assoc. intros H%app_cancel.
  apply (app_cancel "/") in H. unfold level_name in H.
  set (x := format a b) in H. set (y := format a' b') in H.
  change (String (if l <? 0 then "m" else "p")%char (name (Z.to_nat (Z.abs l)) +:+ String "/" x) =
    String (if l' <? 0 then "m" else "p")%char (name (Z.to_nat (Z.abs l')) +:+ String "/" y)) in H.
  injection H as Hsign H. apply (f_equal run_length) in H. rewrite !run_length_name in H by done.
  injection H as H _. destruct (Z.ltb_spec l 0), (Z.ltb_spec l' 0); try discriminate Hsign; lia.
Qed.

#[export] Instance paths : LtxPaths := {|
  LTXLevelDir := level_dir;
  FormatFilename := format;
  ParseFilename := parse;
  parse_format := parse_of_format;
  format_parse := format_of_parse;
  level_inside p l := ex_intro _ (level_name l) eq_refl;
  levels_apart := levels_differ;
|}.

Definition header (s : string) : res goerror Z := if String.eqb s "" then Err (EOther "EOF") else Ok 42.
Definition missing (p : string) : goerror := EOther p.
End Unary.

#[local] Existing Instance Unary.paths.

