(* ===== verification/Session.v ===== *)
(** * Session: the life of a session ([litestream/session.go])

    Opening a read or a write session, its flush barrier and its closing, as
    programs over the calls they make: the registration of the session's VFS
    with the wrapper, [database/sql], the captured VFS file, the write
    buffers. *)

From S2P Require Import Prelude Errors Prog.

(** ** Calls *)

Inductive op : Set -> Type :=
  | EnsureWriteVFS : op (option goerror)
  | EnsureBufferRoot : op (option goerror)
  | RegisterSession : op unit
  | UnregisterSession : op unit
  | SqlOpen : op (option goerror)
  | DbConn : op (bool * option goerror)         (* whether the wrapper captured the file *)
  | DbClose : op (option goerror)
  | ConnClose : op (option goerror)
  | WrapperFile : op (option goerror)           (* w.File *)
  | SetWriteEnabled (on : bool) : op (option goerror)
  | ForgetFile : op unit
  | DiscardBuffers : op (option goerror)
  | Callback : op (option goerror).             (* fn(conn) *)

Abbreviation P := (prog op).

(** ** [Session] *)

(** [writeVFS], [sessionVFS], [conn] and [db] are pointers: whether they are
    set. *)
Record session := mkSession {
  writeVFS : bool;
  sessionVFS : bool;
  conn : bool;
  db : bool;
  writeFile : bool;
  writeOn : bool;
  closed : bool;
}.

Definition wrap (msg : string) (e : goerror) : goerror := EWrapf ("litestream: " +:+ msg) e.

Definition unregisterIf (state : bool) : P unit :=
  if state then invoke UnregisterSession else mret tt.

(** [manifest] is [files != nil]. *)
Definition OpenReadWithManifest (manifest : bool) : P (res goerror session) :=
  (if manifest then invoke RegisterSession else mret tt);;
  err ← invoke SqlOpen;
  match err with
  | Some e => unregisterIf manifest;; mret (Err (wrap "open read" e))
  | None =>
      r ← invoke DbConn;
      match snd r with
      | Some e =>
          invoke DbClose;;
          unregisterIf manifest;;
          mret (Err (wrap "conn" e))
      | None => mret (Ok (mkSession false true true true false false false))
      end
  end.

Definition EnableWrite (s : session) : P (session * option goerror) :=
  err ← invoke WrapperFile;
  match err with
  | Some e => mret (s, Some e)
  | None =>
      err ← invoke (SetWriteEnabled true);
      match err with
      | Some e => mret (s, Some (wrap "enable write" e))
      | None => mret (mkSession (writeVFS s) (sessionVFS s) (conn s) (db s) true true (closed s), None)
      end
  end.

Definition OpenWriteWithManifest (manifest : bool) : P (res goerror session) :=
  err ← invoke EnsureWriteVFS;
  match err with
  | Some e => mret (Err e)
  | None =>
      err ← invoke EnsureBufferRoot;
      match err with
      | Some e => mret (Err e)
      | None =>
          (if manifest then invoke EnsureBufferRoot;; invoke RegisterSession else mret tt);;
          err ← invoke SqlOpen;
          match err with
          | Some e =>
              unregisterIf manifest;;
              invoke DiscardBuffers;;
              mret (Err (wrap "open write" e))
          | None =>
              r ← invoke DbConn;
              match snd r with
              | Some e =>
                  invoke DbClose;;
                  unregisterIf manifest;;
                  invoke DiscardBuffers;;
                  mret (Err (wrap "conn" e))
              | None =>
                  r ← EnableWrite (mkSession true true true true false false false);
                  match r with
                  | (s, None) => mret (Ok s)
                  | (_, Some e) =>
                      invoke ConnClose;;
                      invoke DbClose;;
                      unregisterIf manifest;;
                      invoke DiscardBuffers;;
                      mret (Err e)
                  end
              end
          end
      end
  end.

Definition DisableWrite (s : session) : P (session * option goerror) :=
  if negb (writeFile s) then mret (s, Some (EOther "litestream: write mode not enabled on this session")) else
  err ← invoke (SetWriteEnabled false);
  match err with
  | Some e => mret (s, Some (wrap "flush barrier failed" e))
  | None => mret (mkSession (writeVFS s) (sessionVFS s) (conn s) (db s) (writeFile s) false (closed s), None)
  end.

Definition Run (s : session) : P (option goerror) :=
  if closed s || negb (conn s) then mret (Some (EOther "litestream: session is closed"))
  else invoke Callback.

(** The errors [Close] joins. *)
Definition flush_skipped : goerror :=
  EOther "litestream: session closed with write mode still enabled (flush barrier skipped)".
Definition errs (e : option goerror) : list goerror := match e with Some e => [e] | None => [] end.

Definition Close (s : session) : P (session * list goerror) :=
  if closed s then mret (s, []) else
  e0 ← mret (M := P) (if writeOn s then [flush_skipped] else []);
  e1 ← (if conn s then e ← invoke ConnClose; mret (errs e) else mret []);
  e2 ← (if db s then e ← invoke DbClose; mret (errs e) else mret []);
  invoke ForgetFile;;
  e ← invoke DiscardBuffers;
  (if sessionVFS s then invoke UnregisterSession else mret tt);;
  mret (mkSession false false false false false (writeOn s) true, e0 ++ e1 ++ e2 ++ errs e).

(** ** A request's use of a session *)

Inductive use := UseRun | UseEnableWrite | UseDisableWrite.

Fixpoint uses (us : list use) (s : session) : P session :=
  match us with
  | [] => mret s
  | UseRun :: us => Run s;; uses us s
  | UseEnableWrite :: us => r ← EnableWrite s; uses us r.1
  | UseDisableWrite :: us => r ← DisableWrite s; uses us r.1
  end.

Definition open (write manifest : bool) : P (res goerror session) :=
  if write then OpenWriteWithManifest manifest else OpenReadWithManifest manifest.

(** ** Resources *)

(** What is held: the registration with the wrapper, the pool, the connection,
    the wrapper's reference to the captured file; and whether the file is in
    write mode. *)
Record held := mkHeld {
  registered : bool;
  pool : bool;
  connection : bool;
  captured : bool;
  dirty : bool;
}.
Definition nothing : held := mkHeld false false false false false.

(** A pool is closed once and after its connection; a connection is closed
    once; the callback and the write mode need the connection. Closing reports
    errors but releases. *)
Definition resources : monitor op held := fun R o h =>
  match o in op R return R -> option held with
  | RegisterSession => fun _ =>
      if registered h then None else Some (mkHeld true (pool h) (connection h) (captured h) (dirty h))
  | UnregisterSession => fun _ => Some (mkHeld false (pool h) (connection h) (captured h) (dirty h))
  | SqlOpen => fun r =>
      if pool h then None else
      Some (mkHeld (registered h) (bool_decide (r = None)) (connection h) (captured h) (dirty h))
  | DbConn => fun r =>
      if negb (pool h) || connection h then None else
      Some (mkHeld (registered h) (pool h) (bool_decide (r.2 = None)) (captured h || r.1) (dirty h))
  | DbClose => fun _ =>
      if negb (pool h) || connection h then None else
      Some (mkHeld (registered h) false (connection h) (captured h) (dirty h))
  | ConnClose => fun _ =>
      if negb (connection h) then None else
      Some (mkHeld (registered h) (pool h) false (captured h) (dirty h))
  | SetWriteEnabled on => fun r =>
      if negb (connection h) then None else
      Some (mkHeld (registered h) (pool h) (connection h) (captured h)
              (if bool_decide (r = None) then on else dirty h))
  | ForgetFile => fun _ => Some (mkHeld (registered h) (pool h) (connection h) false (dirty h))
  | Callback => fun _ => if negb (connection h) then None else Some h
  | EnsureWriteVFS | EnsureBufferRoot | WrapperFile | DiscardBuffers => fun _ => Some h
  end.

(** A session that is open holds its connection and its pool, and knows whether
    its file is in write mode. *)
Definition open_session (s : session) (h : held) : Prop :=
  closed s = false /\ conn s = true /\ db s = true /\ sessionVFS s = true /\
  pool h = true /\ connection h = true /\ writeOn s = dirty h.

(** ** Proofs *)

(** Run a program of known calls under the monitor: reveal each reply and split
    on it. *)
Ltac replies :=
  repeat first
    [ progress cbn
    | match goal with
      | |- forall _ : option goerror, _ => intros [?|]
      | |- forall _ : bool * option goerror, _ => intros [[|] [?|]]
      | |- forall _ : unit, _ => intros []
      end ].

Lemma open_safe write manifest :
  safe resources (open write manifest) nothing (fun r h =>
    match r with
    | Ok s => open_session s h /\ registered h = manifest /\ writeOn s = write /\ writeFile s = write
    | Err _ => registered h = false /\ pool h = false /\ connection h = false
    end).
Proof.
  destruct write, manifest; unfold open, OpenWriteWithManifest, OpenReadWithManifest, EnableWrite, unregisterIf;
    replies; done.
Qed.

Lemma EnableWrite_safe s h : open_session s h ->
  safe resources (EnableWrite s) h (fun r h' => open_session r.1 h' /\ registered h' = registered h).
Proof.
  intros (Hc & Hn & Hd & Hs & Hp & Hk & Hw). unfold EnableWrite. cbn. intros [e|]; [done|]. cbn. rewrite Hk. cbn.
  by intros [e|].
Qed.

Lemma DisableWrite_safe s h : open_session s h ->
  safe resources (DisableWrite s) h (fun r h' => open_session r.1 h' /\ registered h' = registered h).
Proof.
  intros (Hc & Hn & Hd & Hs & Hp & Hk & Hw). unfold DisableWrite. destruct (writeFile s); [|done]. cbn.
  rewrite Hk. cbn. by intros [e|].
Qed.

Lemma uses_safe us s h : open_session s h ->
  safe resources (uses us s) h (fun s' h' => open_session s' h' /\ registered h' = registered h).
Proof.
  revert s h. induction us as [|[] us IH]; intros s h Ho; cbn [uses]; [done| | |].
  - pose proof Ho as (Hc & Hn & _ & _ & _ & Hk & _). unfold Run. rewrite Hc, Hn. cbn. rewrite Hk. cbn.
    intros _. by apply IH.
  - apply safe_bind. eapply safe_mono; [by apply EnableWrite_safe|]. intros r h' [Ho' <-]. by apply IH.
  - apply safe_bind. eapply safe_mono; [by apply DisableWrite_safe|]. intros r h' [Ho' <-]. by apply IH.
Qed.

Lemma Close_safe s h : open_session s h ->
  safe resources (Close s) h (fun r h' =>
    h' = mkHeld false false false false (dirty h) /\
    closed r.1 = true /\ (dirty h = true -> flush_skipped ∈ r.2)).
Proof.
  intros (Hc & Hn & Hd & Hs & Hp & Hk & Hw). unfold Close. rewrite Hc, Hn, Hd, Hs. cbn. rewrite Hk. cbn.
  intros e1. rewrite Hp. cbn. intros e2 [] e3 []. split_and!; [done..|].
  intros Hdirty. rewrite Hw, Hdirty. by left.
Qed.

(** The whole life of a session. *)
Definition lifetime (write manifest : bool) (us : list use) : P (option (session * list goerror)) :=
  r ← open write manifest;
  match r with
  | Err _ => mret None
  | Ok s => s ← uses us s; r ← Close s; mret (Some r)
  end.

(** C21  Whatever its calls reply: an open that fails leaves no registration, no
    pool and no connection behind; after a session was opened, used in any way
    and closed, nothing of it is left, each resource was given back once, the
    connection before its pool, and nothing ran on a closed connection; if the
    file was still in write mode, the errors of [Close] say that the flush was
    skipped; closing again makes no call, and a callback after it is refused. *)
Theorem session_resources (write manifest : bool) (us : list use) :
  safe resources (lifetime write manifest us) nothing (fun r h =>
    match r with
    | None => registered h = false /\ pool h = false /\ connection h = false
    | Some (s, es) =>
        h = mkHeld false false false false (dirty h) /\
        (dirty h = true -> flush_skipped ∈ es) /\
        Close s = mret (s, []) /\ Run s = mret (Some (EOther "litestream: session is closed"))
    end).
Proof.
  unfold lifetime. apply safe_bind. eapply safe_mono; [apply open_safe|]. cbn beta.
  intros [s|e] h; [|done]. intros (Ho & _). apply safe_bind. eapply safe_mono; [by apply uses_safe|].
  cbn beta. intros s' h' [Ho' _]. apply safe_bind. eapply safe_mono; [by apply Close_safe|]. cbn beta.
  intros [s'' es] h'' (-> & Hc & Hf). cbn in *. split_and!; [done|done| |]; unfold Close, Run; by rewrite Hc.
Qed.

(** ** The file a failed open forgets to forget *)

Definition refuses_write : oracle op := fun R _ o =>
  match o in op R return R with
  | EnsureWriteVFS | EnsureBufferRoot | SqlOpen | DbClose | ConnClose | WrapperFile
  | DiscardBuffers | Callback => None
  | RegisterSession | UnregisterSession | ForgetFile => tt
  | DbConn => (true, None)
  | SetWriteEnabled on => if on then Some (EOther "conflict") else None
  end.

(** If the connection opens the file and write mode is then refused, the open
    fails and the wrapper keeps its reference to the file: only [Close] of a
    session takes it out, and there is no session. *)
Theorem failed_open_keeps_file (manifest : bool) :
  let '(r, calls) := exec refuses_write (OpenWriteWithManifest manifest) [] in
  is_ok r = false /\ captured <$> watch resources nothing calls = Some true.
Proof. by destruct manifest. Qed.
