(* ===== verification/VfsRouting.v ===== *)
(** * VfsRouting: whose file a session flushes

    The tables of a [wrapperVFS] ([files], [sessions], [litestream/bridge.go])
    and the names sessions are opened under ([globalSessionSeq],
    [litestream/session.go]), with any number of sessions of one database,
    each the program of [Session], interleaved call by call, and hosts that
    open the database through its [ReadDSN]. *)

From stdpp Require Import pretty.
From S2P Require Import Prelude CStrings Errors Identity Prog Session.

(** ** The tables *)

(** An open [VFSFile]: whose connection opened it (a host's has no number),
    and whose session's VFS it went through ([None] for the shared one). *)
Record file := mkFile { opener : option nat; through : option nat }.

(** A name at the read wrapper ([false]) or the write wrapper ([true]). *)
Abbreviation place := (bool * string)%type.

Record tables := mkTables { files : gmap place file; sessions : gmap place nat }.

(** [registerSession], [unregisterSession], [session] *)
Definition registerSession (p : place) (i : nat) (t : tables) : tables :=
  mkTables (files t) (<[p := i]> (sessions t)).
Definition unregisterSession (p : place) (t : tables) : tables :=
  mkTables (files t) (delete p (sessions t)).
Definition session_ (p : place) (t : tables) : option nat := sessions t !! p.

(** [Open] of a main database file; [ok] is whether the VFS it picks opens it
    and gives a [VFSFile]. *)
Definition Open (p : place) (who : option nat) (ok : bool) (t : tables) : tables :=
  if ok then mkTables (<[p := mkFile who (session_ p t)]> (files t)) (sessions t) else t.

(** [File], [forgetFile] *)
Definition File (p : place) (t : tables) : option file := files t !! p.
Definition forgetFile (p : place) (t : tables) : tables := mkTables (delete p (files t)) (sessions t).

(** ** Names *)

Section Routing.
(** [sanitize(dbName)]: the sessions of a [Database] are opened with its id. *)
Context (base : string).

Definition fileName (seq : N) : string := ("walrusd_" +:+ base +:+ "_") +:+ pretty seq +:+ ".db".
(** The file of [ReadDSN]. *)
Definition hostName : string := "walrusd_" +:+ base +:+ ".db".

(** ** Many sessions *)

(** A session under way: how it is opened, its name, the file it was last
    given by [File], and what is left of it. *)
Record client := mkClient {
  c_write : bool;
  c_manifest : bool;
  c_name : string;
  got : option file;
  left : P (option (session * list goerror));
}.

Definition c_place (c : client) : place := (c_write c, c_name c).

(** [seq] is [globalSessionSeq]. *)
Record sys := mkSys { seq : N; tabs : tables; clients : gmap nat client }.

(** What a call of session [i] does to the tables, which replies it may get,
    and the file the session holds after it. *)
Definition answer (i : nat) (c : client) : forall R : Set, op R -> tables -> R -> tables -> option file -> Prop :=
  fun R o t =>
  let p := c_place c in
  match o in op R return R -> tables -> option file -> Prop with
  | RegisterSession => fun _ t' g => t' = registerSession p i t /\ g = got c
  | UnregisterSession => fun _ t' g => t' = unregisterSession p t /\ g = got c
  | DbConn => fun r t' g => t' = Open p (Some i) r.1 t /\ g = got c
  | WrapperFile => fun r t' g => t' = t /\
      match File p t with
      | Some f => r = None /\ g = Some f
      | None => (exists e, r = Some e) /\ g = got c
      end
  | ForgetFile => fun _ t' g => t' = forgetFile p t /\ g = got c
  | _ => fun _ t' g => t' = t /\ g = got c
  end.

Inductive step (s : sys) : sys -> Prop :=
  | StepStart i write manifest us : clients s !! i = None ->
      let n := (seq s + 1)%N in
      step s (mkSys n (tabs s)
        (<[i := mkClient write manifest (fileName n) None (lifetime write manifest us)]> (clients s)))
  | StepCall i c R (o : op R) k r t' g :
      clients s !! i = Some c -> left c = Do o k -> answer i c R o (tabs s) r t' g ->
      step s (mkSys (seq s) t'
        (<[i := mkClient (c_write c) (c_manifest c) (c_name c) g (k r)]> (clients s)))
  | StepHost ok : step s (mkSys (seq s) (Open (false, hostName) None ok (tabs s)) (clients s)).

Inductive reachable : sys -> Prop :=
  | reach_start : reachable (mkSys 0 (mkTables ∅ ∅) ∅)
  | reach_step s s' : reachable s -> step s s' -> reachable s'.

(** ** What one session does to its own entries *)

Record entry := mkEntry { e_reg : bool; e_cap : bool; e_got : bool }.

(** A file is opened only while the registration is as the session's kind
    wants it, and write mode is switched only on a file that was given. *)
Definition routing (manifest : bool) : monitor op entry := fun R o e =>
  match o in op R return R -> option entry with
  | RegisterSession => fun _ => if manifest then Some (mkEntry true (e_cap e) (e_got e)) else None
  | UnregisterSession => fun _ => Some (mkEntry false (e_cap e) (e_got e))
  | DbConn => fun r =>
      if Bool.eqb (e_reg e) manifest then Some (mkEntry (e_reg e) (e_cap e || r.1) (e_got e)) else None
  | WrapperFile => fun r => Some (mkEntry (e_reg e) (e_cap e) (e_got e || match r with None => true | Some _ => false end))
  | SetWriteEnabled _ => fun _ => if e_got e then Some e else None
  | ForgetFile => fun _ => Some (mkEntry (e_reg e) false (e_got e))
  | _ => fun _ => Some e
  end.

Definition gone (r : option (session * list goerror)) (e : entry) : Prop :=
  e_reg e = false /\ match r with Some _ => e_cap e = false | None => True end.

Definition open_entry (s : session) (e : entry) : Prop :=
  closed s = false /\ sessionVFS s = true /\ (writeFile s = true -> e_got e = true).

Lemma open_routing write manifest :
  safe (routing manifest) (open write manifest) (mkEntry false false false) (fun r e =>
    match r with Ok s => open_entry s e | Err _ => e_reg e = false end).
Proof.
  destruct write, manifest; unfold open, OpenWriteWithManifest, OpenReadWithManifest, EnableWrite, unregisterIf;
    replies; done.
Qed.

Lemma uses_routing manifest us s e : open_entry s e ->
  safe (routing manifest) (uses us s) e open_entry.
Proof.
  revert s e. induction us as [|[] us IH]; intros s e Ho; cbn [uses]; [done| | |].
  - unfold Run. destruct (closed s || negb (conn s)); cbn; [by apply IH|]. intros _. by apply IH.
  - apply safe_bind. unfold EnableWrite. destruct Ho as (H1 & H2 & H3). cbn. intros [err|]; cbn.
    + apply IH. split_and!; [done..|]. cbn. rewrite orb_false_r. done.
    + rewrite orb_true_r. intros [err|]; cbn; by apply IH.
  - apply safe_bind. unfold DisableWrite. pose proof Ho as (H1 & H2 & H3).
    destruct (writeFile s) eqn:Hw; cbn; [|by apply IH]. rewrite H3 by done. intros [err|]; cbn; apply IH; [done|].
    split_and!; cbn; auto.
Qed.

Lemma lifetime_routing write manifest us :
  safe (routing manifest) (lifetime write manifest us) (mkEntry false false false) gone.
Proof.
  unfold lifetime. apply safe_bind. eapply safe_mono; [apply open_routing|]. cbn beta.
  intros [s|err] e Ho; [|by split]. apply safe_bind. eapply safe_mono; [by apply uses_routing|].
  intros s' e' (H1 & H2 & H3). unfold Close. rewrite H1. cbn.
  destruct (conn s'), (db s'); cbn; rewrite H2; cbn; intros; by split.
Qed.

(** ** Names *)

Lemma fileName_inj n m : fileName n = fileName m -> n = m.
Proof.
  unfold fileName. intros H. apply (inj (String.append _)) in H. apply append_cancel_r in H. by apply (inj pretty).
Qed.

Lemma fileName_host n : fileName n <> hostName.
Proof.
  unfold fileName, hostName. intros H. apply (f_equal slen) in H. rewrite !slen_app in H.
  pose proof (slen_nonneg (pretty n)). change (slen "_") with 1 in H. lia.
Qed.

(** ** Invariant *)

(** The file a session opens: its own, through its own VFS if it has one. *)
Definition own (i : nat) (c : client) : file := mkFile (Some i) (if c_manifest c then Some i else None).

Record entry_ok (s : sys) (i : nat) (c : client) (e : entry) : Prop := {
  o_safe : safe (routing (c_manifest c)) (left c) e gone;
  o_reg : sessions (tabs s) !! c_place c = if e_reg e then Some i else None;
  o_cap : files (tabs s) !! c_place c = if e_cap e then Some (own i c) else None;
  o_got : forall f, got c = Some f -> f = own i c;
  o_has : e_got e = true -> is_Some (got c);
}.

Record inv (s : sys) : Prop := {
  i_client : forall i c, clients s !! i = Some c ->
    (exists k, (0 < k <= seq s)%N /\ c_name c = fileName k) /\ exists e, entry_ok s i c e;
  i_apart : forall i j c c', clients s !! i = Some c -> clients s !! j = Some c' -> c_name c = c_name c' -> i = j;
  i_sessions : forall p j, sessions (tabs s) !! p = Some j -> exists c, clients s !! j = Some c /\ p = c_place c;
  i_files : forall p f, files (tabs s) !! p = Some f ->
    (exists i c, clients s !! i = Some c /\ p = c_place c) \/ p = (false, hostName);
}.

(** Tables that differ from those of before at one place only. *)
Definition changed (p : place) (t t' : tables) : Prop :=
  forall q, q <> p -> files t' !! q = files t !! q /\ sessions t' !! q = sessions t !! q.

Lemma answer_changed i c R o t r t' g : answer i c R o t r t' g -> changed (c_place c) t t'.
Proof.
  intros H q Hq. destruct o; cbn in H; destruct H as [-> _]; try done; cbn.
  - by rewrite lookup_insert_ne.
  - by rewrite lookup_delete_ne.
  - unfold Open. destruct r as [[|] ?]; cbn; [by rewrite lookup_insert_ne|done].
  - by rewrite lookup_delete_ne.
Qed.

(** One call, seen from the session that makes it. *)
Lemma answer_entry s i c R (o : op R) k r t' g e :
  left c = Do o k -> answer i c R o (tabs s) r t' g -> entry_ok s i c e ->
  exists e', entry_ok (mkSys (seq s) t' (<[i := mkClient (c_write c) (c_manifest c) (c_name c) g (k r)]> (clients s)))
    i (mkClient (c_write c) (c_manifest c) (c_name c) g (k r)) e'.
Proof.
  intros Hl Ha [H1 H2 H3 H4 H5]. rewrite Hl in H1. cbn in H1. specialize (H1 r).
  destruct (routing (c_manifest c) R o e r) as [e'|] eqn:Hm; [|done]. exists e'.
  destruct o; cbn in Ha, Hm; destruct Ha as [-> Hg]; try (subst g; injection Hm as <-; split; cbn; done).
  - assert (Hc : c_manifest c = true) by (by destruct (c_manifest c)). rewrite Hc in Hm. subst g.
    injection Hm as <-. split; cbn; try done. apply lookup_insert_eq.
  - subst g. injection Hm as <-. split; cbn; try done. apply lookup_delete_eq.
  - destruct (Bool.eqb_spec (e_reg e) (c_manifest c)) as [Hr|]; [|done]. subst g. injection Hm as <-.
    split; cbn; try done; [by destruct (r.1)|]. unfold Open, session_. destruct (r.1).
    + cbn. rewrite lookup_insert_eq, orb_true_r, H2. unfold own. cbn. by rewrite Hr.
    + by rewrite orb_false_r.
  - injection Hm as <-. unfold File in Hg. change (files (tabs s) !! _) with (files (tabs s) !! c_place c) in Hg. rewrite H3 in Hg. destruct (e_cap e) eqn:Hc.
    + destruct Hg as [-> ->]. split; cbn; rewrite ?Hc; try done. intros f [= <-]. done.
    + destruct Hg as [[err ->] ->]. rewrite orb_false_r in H1. split; cbn; rewrite ?orb_false_r; done.
  - destruct (e_got e) eqn:He; [|done]. subst g. injection Hm as <-. split; cbn; try done. by rewrite He.
  - subst g. injection Hm as <-. split; cbn; try done. apply lookup_delete_eq.
Qed.

Lemma place_apart s i j c c' : inv s -> clients s !! i = Some c -> clients s !! j = Some c' ->
  i <> j -> c_place c' <> c_place c.
Proof.
  intros Hinv Hi Hj Hne Hp. apply (f_equal snd) in Hp. cbn in Hp. apply Hne. by eapply (i_apart _ Hinv).
Qed.

Lemma entry_same s s' j c e :
  entry_ok s j c e -> files (tabs s') !! c_place c = files (tabs s) !! c_place c ->
  sessions (tabs s') !! c_place c = sessions (tabs s) !! c_place c -> entry_ok s' j c e.
Proof. intros [H1 H2 H3 H4 H5] Hf Hs. split; try done; by rewrite ?Hf, ?Hs. Qed.

Lemma client_not_host s i c : inv s -> clients s !! i = Some c -> c_place c <> (false, hostName).
Proof.
  intros Hinv Hi Hn. apply (f_equal snd) in Hn. cbn [c_place snd] in Hn.
  destruct (i_client _ Hinv i c Hi) as [(k & _ & Hk) _]. rewrite Hk in Hn. by apply fileName_host in Hn.
Qed.

Lemma routing_inv_start s i write manifest us : inv s -> clients s !! i = None ->
  let n := (seq s + 1)%N in
  inv (mkSys n (tabs s) (<[i := mkClient write manifest (fileName n) None (lifetime write manifest us)]> (clients s))).
Proof.
  intros Hinv Hi n. set (c := mkClient write manifest (fileName n) None (lifetime write manifest us)).
  assert (Hold : forall j c', clients s !! j = Some c' -> c_name c' <> c_name c).
  { intros j c' Hj Hn. destruct (i_client _ Hinv j c' Hj) as [(k & Hk & Hk') _]. rewrite Hk' in Hn. cbn in Hn.
    apply fileName_inj in Hn. subst n. lia. }
  assert (Hempty : files (tabs s) !! c_place c = None /\ sessions (tabs s) !! c_place c = None).
  { split; apply eq_None_not_Some.
    - intros [f Hf]. destruct (i_files _ Hinv _ _ Hf) as [(j & c' & Hj & Hn)|Hn]; apply (f_equal snd) in Hn.
      + by apply (Hold j c' Hj).
      + by apply fileName_host in Hn.
    - intros [j Hj]. destruct (i_sessions _ Hinv _ _ Hj) as (c' & Hc' & Hn). apply (f_equal snd) in Hn.
      by apply (Hold j c' Hc'). }
  split; cbn [seq tabs clients].
  - intros j c' [[<- <-]|[Hne Hj]]%lookup_insert_Some.
    + split; [exists n; split; [subst n; lia|done]|]. exists (mkEntry false false false).
      destruct Hempty. split; cbn; try done. apply lifetime_routing.
    + destruct (i_client _ Hinv j c' Hj) as [(k & Hk & Hk') [e He]]. split; [exists k; split; [subst n; lia|done]|].
      exists e. by apply (entry_same s).
  - intros j1 j2 c1 c2 [[<- <-]|[H1 H1']]%lookup_insert_Some [[<- <-]|[H2 H2']]%lookup_insert_Some Hn; try done.
    + by destruct (Hold j2 c2 H2').
    + by destruct (Hold j1 c1 H1').
    + by eapply (i_apart _ Hinv).
  - intros p j Hp. destruct (i_sessions _ Hinv p j Hp) as (c' & Hc' & ->). exists c'. split; [|done].
    rewrite lookup_insert_ne; [done|]. congruence.
  - intros p f Hf. destruct (i_files _ Hinv p f Hf) as [(j & c' & Hj & ->)|]; [|by right]. left. exists j, c'.
    split; [|done]. rewrite lookup_insert_ne; [done|]. congruence.
Qed.

Lemma routing_inv_call s i c R (o : op R) k r t' g : inv s ->
  clients s !! i = Some c -> left c = Do o k -> answer i c R o (tabs s) r t' g ->
  inv (mkSys (seq s) t' (<[i := mkClient (c_write c) (c_manifest c) (c_name c) g (k r)]> (clients s))).
Proof.
  intros Hinv Hi Hl Ha. pose proof (answer_changed _ _ _ _ _ _ _ _ Ha) as Hch.
  set (c1 := mkClient (c_write c) (c_manifest c) (c_name c) g (k r)).
  assert (Hfind : forall j c', clients s !! j = Some c' -> exists c2, <[i := c1]> (clients s) !! j = Some c2 /\
    c_place c2 = c_place c').
  { intros j c' Hj. destruct (decide (i = j)) as [<-|Hne].
    - exists c1. rewrite lookup_insert_eq. split; [done|]. by rewrite Hi in Hj; injection Hj as <-.
    - exists c'. by rewrite lookup_insert_ne. }
  split; cbn [seq tabs clients].
  - intros j c' [[<- <-]|[Hne Hj]]%lookup_insert_Some.
    + destruct (i_client _ Hinv i c Hi) as [Hk [e He]]. split; [exact Hk|]. by eapply answer_entry.
    + destruct (i_client _ Hinv j c' Hj) as [Hk [e He]]. split; [done|]. exists e.
      destruct (Hch (c_place c') (place_apart s i j c c' Hinv Hi Hj Hne)) as [Hf Hs]. by apply (entry_same s).
  - assert (Hname : forall j c', <[i := c1]> (clients s) !! j = Some c' ->
      exists c2, clients s !! j = Some c2 /\ c_name c2 = c_name c').
    { intros j c' [[<- <-]|[_ Hj]]%lookup_insert_Some; eauto. }
    intros j1 j2 c2 c3 H2 H3 Hn. destruct (Hname j1 c2 H2) as (d2 & D2 & E2).
    destruct (Hname j2 c3 H3) as (d3 & D3 & E3). apply (i_apart _ Hinv j1 j2 d2 d3 D2 D3). congruence.
  - intros p j Hp. destruct (decide (p = c_place c)) as [->|Hne].
    + assert (Hj : j = i).
      { destruct (i_client _ Hinv i c Hi) as [_ [e He]].
        destruct (answer_entry s i c R o k r t' g e Hl Ha He) as [e' He']. 
        assert (Hr : sessions t' !! c_place c = if e_reg e' then Some i else None) by exact (o_reg _ _ _ _ He').
        rewrite Hp in Hr. destruct (e_reg e'); [by injection Hr as ->|done]. }
      subst j. exists c1. by rewrite lookup_insert_eq.
    + destruct (Hch p Hne) as [_ Hs]. rewrite Hs in Hp.
      destruct (i_sessions _ Hinv p j Hp) as (c' & Hc' & ->). destruct (Hfind j c' Hc') as (c2 & H2 & H2'). eauto.
  - intros p f Hf. destruct (decide (p = c_place c)) as [->|Hne].
    + left. exists i, c1. by rewrite lookup_insert_eq.
    + destruct (Hch p Hne) as [Hs _]. rewrite Hs in Hf.
      destruct (i_files _ Hinv p f Hf) as [(j & c' & Hj & ->)|]; [|by right].
      destruct (Hfind j c' Hj) as (c2 & H2 & H2'). left. exists j, c2. by rewrite H2'.
Qed.

Lemma inv_host s ok : inv s -> inv (mkSys (seq s) (Open (false, hostName) None ok (tabs s)) (clients s)).
Proof.
  intros Hinv. destruct ok; cbn; [|by destruct s]. pose proof Hinv as [I1 I2 I3 I4]. split; cbn; [|done|done|].
  - intros i c Hi. destruct (I1 i c Hi) as [Hk [e He]]. split; [done|]. exists e. apply (entry_same s); [done| |done].
    cbn. rewrite lookup_insert_ne; [done|]. pose proof (client_not_host s i c Hinv Hi). congruence.
  - intros p f [[<- _]|[_ Hp]]%lookup_insert_Some; [by right|by eapply I4].
Qed.

Lemma reachable_routing_inv s : reachable s -> inv s.
Proof.
  induction 1 as [|s s' _ IH Hs]; [split; cbn; try done|].
  destruct Hs as [i write manifest us Hi|i c R o k r t' g Hi Hl Ha|ok].
  - by apply routing_inv_start.
  - by eapply routing_inv_call.
  - by apply inv_host.
Qed.

(** ** Theorem *)

(** C12  A session only ever reads, flushes and closes through its own file:
    however any number of sessions of a database and hosts on its read VFS
    interleave, the file the wrapper keeps under a session's name, and the
    file the session was given, were opened by that session's connection, and
    through the VFS of its own manifest if it has one; write mode is switched
    on or off (the flush barrier) only on such a file; and of a session that
    is over no registration is left, and after its [Close] no file. *)
Theorem session_file_own (s : sys) (i : nat) (c : client) (Hreach : reachable s)
    (Hc : clients s !! i = Some c) :
  (forall f, File (c_place c) (tabs s) = Some f \/ got c = Some f ->
     opener f = Some i /\ through f = if c_manifest c then Some i else None) /\
  (forall on k, left c = Do (SetWriteEnabled on) k -> exists f, got c = Some f /\ opener f = Some i) /\
  (forall r, left c = Ret r -> session_ (c_place c) (tabs s) = None) /\
  (forall r, left c = Ret (Some r) -> File (c_place c) (tabs s) = None) /\
  (forall p j, session_ p (tabs s) = Some j -> exists c', clients s !! j = Some c' /\ p = c_place c').
Proof.
  pose proof (reachable_routing_inv s Hreach) as Hinv.
  destruct (i_client _ Hinv i c Hc) as [_ [e [H1 H2 H3 H4 H5]]]. unfold File, session_. split_and!.
  - intros f [Hf|Hf]; [rewrite H3 in Hf; destruct (e_cap e); [injection Hf as <-|done]|rewrite (H4 f Hf)]; done.
  - intros on k Hl. rewrite Hl in H1. cbn in H1. specialize (H1 None). destruct (e_got e) eqn:He; [|done].
    destruct (H5 eq_refl) as [f Hf]. exists f. split; [done|]. by rewrite (H4 f Hf).
  - intros r Hl. rewrite Hl in H1. destruct H1 as [Hr _]. by rewrite H2, Hr.
  - intros r Hl. rewrite Hl in H1. destruct H1 as [_ Hr]. by rewrite H3, Hr.
  - apply Hinv.
Qed.
End Routing.

(** ** A run *)

(** Replies when everything works. *)
Definition fine (i : nat) (c : client) (R : Set) (o : op R) (t : tables) : R * (tables * option file) :=
  let p := c_place c in
  match o in op R return R * (tables * option file) with
  | RegisterSession => (tt, (registerSession p i t, got c))
  | UnregisterSession => (tt, (unregisterSession p t, got c))
  | DbConn => ((true, None), (Open p (Some i) true t, got c))
  | WrapperFile => match File p t with
                   | Some f => (None, (t, Some f))
                   | None => (Some (EOther "litestream: no file captured"), (t, got c))
                   end
  | ForgetFile => (tt, (forgetFile p t, got c))
  | EnsureWriteVFS | EnsureBufferRoot | SqlOpen | DbClose | ConnClose | SetWriteEnabled _
  | DiscardBuffers | Callback => (None, (t, got c))
  end.

Lemma fine_answer i c R (o : op R) t :
  answer i c R o t (fine i c R o t).1 (fine i c R o t).2.1 (fine i c R o t).2.2.
Proof.
  destruct o; cbn; try done.
  destruct (files t !! (c_write c, c_name c)); cbn; eauto.
Qed.

(** Session [i] makes a number of calls. *)
Fixpoint run (n : nat) (i : nat) (s : sys) : sys :=
  match n with
  | O => s
  | S n =>
      match clients s !! i with
      | Some (mkClient w ma nm g (Do o k)) =>
          let r := fine i (mkClient w ma nm g (Do o k)) _ o (tabs s) in
          run n i (mkSys (seq s) r.2.1 (<[i := mkClient w ma nm r.2.2 (k r.1)]> (clients s)))
      | _ => s
      end
  end.

Definition begin (base : string) (i : nat) (write manifest : bool) (us : list use) (s : sys) : sys :=
  mkSys (seq s + 1)%N (tabs s)
    (<[i := mkClient write manifest (fileName base (seq s + 1)) None (lifetime write manifest us)]> (clients s)).

Lemma calls_reachable base n i s : reachable base s -> reachable base (run n i s).
Proof.
  revert s. induction n as [|n IH]; intros s Hs; cbn [run]; [done|].
  destruct (clients s !! i) as [[w ma nm g [r|R o k]]|] eqn:Hi; [done| |done]. cbv zeta. apply IH.
  eapply reach_step; [exact Hs|].
  exact (StepCall base s i _ R o k _ _ _ Hi eq_refl (fine_answer i _ R o (tabs s))).
Qed.

Lemma begin_reachable base i write manifest us s :
  clients s !! i = None -> reachable base s -> reachable base (begin base i write manifest us s).
Proof. intros Hi Hs. eapply reach_step; [exact Hs|]. by apply StepStart. Qed.

(** A write session in the middle of its life, one that was closed. *)
Definition two_sessions : sys :=
  run 7 0 (run 30 1 (begin "app" 1 true false [UseRun; UseDisableWrite]
    (run 4 0 (begin "app" 0 true true [UseRun; UseDisableWrite] (mkSys 0 (mkTables ∅ ∅) ∅))))).

Lemma two_sessions_reachable : reachable "app" two_sessions.
Proof.
  apply calls_reachable, calls_reachable, begin_reachable; [vm_compute; reflexivity|].
  apply calls_reachable, begin_reachable; [reflexivity|constructor].
Qed.

Lemma session_file_own_witness :
  File (true, fileName "app" 1) (tabs two_sessions) = Some (mkFile (Some 0%nat) (Some 0%nat)) /\
  File (true, fileName "app" 2) (tabs two_sessions) = None.
Proof.
  split; [vm_compute; reflexivity|].
  destruct (clients two_sessions !! 1%nat) as [c|] eqn:Hc; [|vm_compute in Hc; discriminate].
  destruct (session_file_own "app" two_sessions 1 c two_sessions_reachable Hc) as (_ & _ & _ & H & _).
  vm_compute in Hc. injection Hc as <-. eapply H. reflexivity.
Defined.
