(* ===== verification/TempBudget.v ===== *)
(** * TempBudget: the budget of temporary files
      ([tempBudget] and [limitedFile] in [litestream/file.go])

    The VFS instances of a bridge share a budget. Each accounts for the size of
    its directory, measured outside the lock; sizes are an input. Byte counts
    stay far below 2^63. *)

From S2P Require Import Prelude CStrings Errors.

(** ** State: the budget, and [accountedBytes] of each wrapper *)

Record budget := mkBudget {
  limit : Z;
  used : Z;
  accounted : gmap nat Z;
}.

Definition newBudget (l : Z) : budget := mkBudget l 0 ∅.
Definition accountedBytes (w : nat) (b : budget) : Z := default 0 (accounted b !! w).

Definition ErrTempWriteBufferExceeded : string := "litestream: max temp write buffer exceeded".

(** Under the mutex: take over a measured size. *)
Definition account (w : nat) (current : Z) (b : budget) : budget :=
  let u := used b + (current - accountedBytes w b) in
  mkBudget (limit b) (if u <? 0 then 0 else u) (<[w := current]> (accounted b)).

Definition check (w : nat) (current : res goerror Z) (additional : Z) (b : budget) : budget * option goerror :=
  if limit b <=? 0 then (b, None) else
  match current with
  | Err e => (b, Some e)
  | Ok current =>
      let b := account w current b in
      if limit b <? used b + additional
      then (b, Some (EOther (ErrTempWriteBufferExceeded +:+ ": " +:+ fmt_d (used b) +:+ " bytes in use, " +:+
                             fmt_d additional +:+ " byte write requested, limit " +:+ fmt_d (limit b))))
      else (b, None)
  end.

Definition reconcile (w : nat) (current : res goerror Z) (b : budget) : budget * option goerror :=
  if limit b <=? 0 then (b, None) else
  match current with
  | Err e => (b, Some e)
  | Ok current =>
      let b := account w current b in
      if limit b <? used b
      then (b, Some (EOther (ErrTempWriteBufferExceeded +:+ ": " +:+ fmt_d (used b) +:+ " bytes in use, limit " +:+
                             fmt_d (limit b))))
      else (b, None)
  end.

Definition release (w : nat) (b : budget) : budget :=
  let u := used b - accountedBytes w b in
  mkBudget (limit b) (if u <? 0 then 0 else u) (<[w := 0]> (accounted b)).

(** [limitedFile.WriteAt]: the budget, then the file's [WriteAt], then the
    budget again with the directory as it is now. *)
Definition WriteAt (w : nat) (len : Z) (before : res goerror Z) (write : Z * option goerror)
    (after : res goerror Z) (b : budget) : budget * (Z * option goerror) :=
  match check w before len b with
  | (b, Some e) => (b, (0, Some e))
  | (b, None) =>
      let '(b, budgetErr) := reconcile w after b in
      (b, (write.1, match write.2 with None => budgetErr | e => e end))
  end.

Definition Truncate (w : nat) (truncated : option goerror) (after : res goerror Z) (b : budget)
    : budget * option goerror :=
  let '(b, budgetErr) := reconcile w after b in
  (b, match truncated with None => budgetErr | e => e end).

(** ** Invariant: what is used is what the wrappers account for *)

Definition sum (m : gmap nat Z) : Z := map_fold (fun _ n s => n + s) 0 m.

Lemma sum_insert w n m : sum (<[w := n]> m) = n + (sum m - default 0 (m !! w)).
Proof.
  assert (forall w n m, m !! w = None -> sum (<[w := n]> m) = n + sum m) as Hnew.
  { intros w' n' m' Hw. unfold sum. by rewrite map_fold_insert_L by (done || (intros; lia)). }
  destruct (m !! w) as [x|] eqn:Hw; cbn.
  - rewrite <- insert_delete_eq, Hnew by apply lookup_delete_eq.
    rewrite <- (insert_delete_id m w x Hw) at 2. rewrite Hnew by apply lookup_delete_eq. lia.
  - rewrite Hnew by done. lia.
Qed.

Lemma sum_nonneg m : map_Forall (fun _ n => 0 <= n) m -> 0 <= sum m.
Proof.
  induction m as [|w n m Hw IH] using map_ind; [done|].
  intros [Hn Hm]%map_Forall_insert; [|done]. rewrite sum_insert, Hw. cbn. specialize (IH Hm). lia.
Qed.

Definition inv (b : budget) : Prop :=
  used b = sum (accounted b) /\ map_Forall (fun _ n => 0 <= n) (accounted b).

Lemma account_inv w current b : inv b -> 0 <= current ->
  inv (account w current b) /\ used (account w current b) = used b - accountedBytes w b + current.
Proof.
  intros [Hu Hn] Hc. unfold account, inv. cbn.
  assert (map_Forall (fun _ n => 0 <= n) (<[w := current]> (accounted b))) as Hn' by by apply map_Forall_insert_2.
  pose proof (sum_nonneg _ Hn') as Hs. rewrite sum_insert in Hs. unfold accountedBytes.
  rewrite (proj2 (Z.ltb_ge _ _)) by lia. rewrite sum_insert. split; [split; [lia|done]|lia].
Qed.

Lemma release_account w b : inv b -> release w b = account w 0 b.
Proof. intros _. unfold release, account. by replace (used b + (0 - accountedBytes w b)) with (used b - accountedBytes w b) by lia. Qed.

(** The calls of any number of wrappers, in any order. *)
Inductive call :=
  | CCheck (w : nat) (current : res goerror Z) (additional : Z)
  | CReconcile (w : nat) (current : res goerror Z)
  | CRelease (w : nat).
Definition step (c : call) (b : budget) : budget :=
  match c with
  | CCheck w cur n => (check w cur n b).1
  | CReconcile w cur => (reconcile w cur b).1
  | CRelease w => release w b
  end.
Definition measured (c : call) : Prop :=
  match c with
  | CCheck _ (Ok n) _ | CReconcile _ (Ok n) => 0 <= n
  | _ => True
  end.

Lemma check_inv w cur n b : inv b -> (forall c, cur = Ok c -> 0 <= c) -> inv (check w cur n b).1.
Proof.
  intros Hb Hc. unfold check. destruct (_ <=? _); [done|]. destruct cur as [c|e]; [|done].
  destruct (account_inv w c b Hb (Hc c eq_refl)) as [Hi _]. by destruct (_ <? _).
Qed.

Lemma reconcile_inv w cur b : inv b -> (forall c, cur = Ok c -> 0 <= c) -> inv (reconcile w cur b).1.
Proof.
  intros Hb Hc. unfold reconcile. destruct (_ <=? _); [done|]. destruct cur as [c|e]; [|done].
  destruct (account_inv w c b Hb (Hc c eq_refl)) as [Hi _]. by destruct (_ <? _).
Qed.

Lemma step_limit c b : limit (step c b) = limit b.
Proof.
  destruct c as [w cur n|w cur|w]; cbn; [| |done].
  - unfold check. destruct (_ <=? _); [done|]. destruct cur; [|done]. by destruct (_ <? _).
  - unfold reconcile. destruct (_ <=? _); [done|]. destruct cur; [|done]. by destruct (_ <? _).
Qed.

Lemma step_inv c b : inv b -> measured c -> inv (step c b).
Proof.
  intros Hb Hm. destruct c as [w cur n|w cur|w]; cbn in *.
  - apply check_inv; [done|]. intros c ->. done.
  - apply reconcile_inv; [done|]. intros c ->. done.
  - rewrite release_account by done. by apply account_inv.
Qed.

(** Whatever the wrappers do, the bytes in use are exactly what they account
    for, so that nothing leaks and nothing is counted twice; a write that the
    budget admits fits, on top of the measured size of its own directory and
    what the others account for; when the directory then grew by no more than
    the write, the write reports no error of the budget. *)
Theorem budget_sound (l : Z) (calls : list call) (Hm : Forall measured calls) :
  let b := foldl (fun b c => step c b) (newBudget l) calls in
  used b = sum (accounted b) /\ 0 <= used b /\
  (forall w before len n werr after, 0 < l -> 0 <= before -> before <= after <= before + len ->
     (check w (Ok before) len b).2 = None ->
     used b - accountedBytes w b + before + len <= l /\
     (WriteAt w len (Ok before) (n, werr) (Ok after) b).2 = (n, werr)) /\
  (forall w, accountedBytes w (release w b) = 0 /\ used (release w b) = used b - accountedBytes w b).
Proof.
  cbv zeta. set (b := foldl _ _ _).
  assert (inv b /\ limit b = l) as [Hb Hl].
  { unfold b. generalize (conj (conj eq_refl (map_Forall_empty _)) eq_refl :
      inv (newBudget l) /\ limit (newBudget l) = l). generalize (newBudget l) as b0.
    clear b. induction Hm as [|c cs Hc _ IH]; intros b0 [H0 H1]; [done|]. cbn. apply IH.
    split; [by apply step_inv|by rewrite step_limit]. }
  split_and!; [apply Hb|destruct Hb as [-> Hn]; by apply sum_nonneg| |].
  - intros w before len n werr after Hpos Hbef Haft.
    destruct (account_inv w before b Hb Hbef) as [Hi Hu].
    unfold WriteAt, check. rewrite (proj2 (Z.leb_gt _ _)) by lia.
    destruct (Z.ltb_spec (limit (account w before b)) (used (account w before b) + len)) as [|Hfit]; [done|].
    intros _. change (limit (account w before b)) with (limit b) in Hfit. split; [lia|].
    unfold reconcile. change (limit (account w before b)) with (limit b).
    rewrite (proj2 (Z.leb_gt _ _)) by lia.
    destruct (account_inv w after _ Hi ltac:(lia)) as [_ Hu'].
    assert (accountedBytes w (account w before b) = before) as Ha.
    { unfold accountedBytes, account. cbn. by rewrite lookup_insert_eq. }
    change (limit (account w after (account w before b))) with (limit b).
    rewrite (proj2 (Z.ltb_ge _ _)) by lia. cbn. by destruct werr.
  - intros w. rewrite release_account by done. destruct (account_inv w 0 b Hb) as [_ ->]; [done|].
    split; [|lia]. unfold accountedBytes, account. cbn. by rewrite lookup_insert_eq.
Qed.

Lemma budget_sound_witness :
  let b := foldl (fun b c => step c b) (newBudget 100) [CCheck 1 (Ok 0) 40; CReconcile 1 (Ok 40); CCheck 2 (Ok 30) 10] in
  (WriteAt 2 25 (Ok 30) (25, None) (Ok 55) b).2 = (25, None).
Proof.
  set (calls := [CCheck 1 (Ok 0) 40; CReconcile 1 (Ok 40); CCheck 2 (Ok 30) 10]).
  assert (Forall measured calls) as Hm by (repeat constructor; cbn; lia).
  destruct (budget_sound 100 calls Hm) as (_ & _ & H & _).
  exact (proj2 (H 2%nat 30 25 25 None 55 ltac:(lia) ltac:(lia) ltac:(lia) ltac:(vm_compute; reflexivity))).
Defined.
