(* ===== verification/BufferDir.v ===== *)
(** * BufferDir: the buffer directory of a VFS wrapper and the files in it

    [ensureBufferRoot], [openTempFile], [deleteTempFile], [accessTempFile],
    [fileClosed] and [localTempFile] of [litestream/file.go]; [Open] and
    [discardBuffers] of [wrapperVFS] ([litestream/bridge.go]). The file system
    is the set of directories made; what its calls answer is an input. *)

From S2P Require Import Prelude CStrings Errors Identity Observability TempBudget.

(** ** Flags ([sqlite3vfs.OpenFlag]; [os]'s on Linux) *)

Definition OpenReadOnly : Z := 1.
Definition OpenReadWrite : Z := 2.
Definition OpenCreate : Z := 4.
Definition OpenDeleteOnClose : Z := 8.
Definition OpenExclusive : Z := 16.
Definition OpenMainDB : Z := 256.
Definition OpenTempDB : Z := 512.
Definition OpenTransientDB : Z := 1024.
Definition OpenMainJournal : Z := 2048.
Definition OpenTempJournal : Z := 4096.
Definition OpenSubJournal : Z := 8192.
Definition OpenSuperJournal : Z := 16384.

Definition tempMask : Z :=
  Z.lor OpenTempDB (Z.lor OpenTempJournal (Z.lor OpenSubJournal
    (Z.lor OpenSuperJournal (Z.lor OpenTransientDB OpenMainJournal)))).

Definition has (flags mask : Z) : bool := negb (Z.land flags mask =? 0).

Definition isTempFlags (flags : Z) : bool := has flags tempMask || has flags OpenDeleteOnClose.

Definition O_RDONLY : Z := 0.
Definition O_RDWR : Z := 2.
Definition O_CREATE : Z := 64.
Definition O_EXCL : Z := 128.

Definition openFlagToOSFlag (flags : Z) : Z :=
  let out := if has flags OpenReadWrite then O_RDWR
             else if has flags OpenReadOnly then O_RDONLY else 0 in
  let out := if has flags OpenCreate then Z.lor out O_CREATE else out in
  if has flags OpenExclusive then Z.lor out O_EXCL else out.

(** ** The wrapper *)

Record wrapper := mkWrapper {
  writeEnabled : bool;
  bufferBase : string;
  bufferRoot : string;                 (* "" for none *)
  tempFiles : gmap string string;
  activeFiles : Z;
  cleanupPending : bool;
  WriteBufferPath : string;            (* of the inner VFS *)
}.

Definition newWrapper (write : bool) (base : string) : wrapper :=
  mkWrapper write base "" ∅ 0 false "".

(** What the wrapper shares: the directories on disk, those a failed removal
    left behind, and the bridge's budget, where the wrapper has number [0]. *)
Record world := mkWorld { dirs : gset string; leaked : gset string; budget : TempBudget.budget }.

(** [ensureBufferRoot]; [mkdirAll] and [mkdirTemp] are the answers of [os]. *)
Definition ensureBufferRoot (mkdirAll : option goerror) (mkdirTemp : res goerror string)
    (w : wrapper) (o : world) : wrapper * world * res goerror string :=
  if negb (String.eqb (bufferRoot w) "") then (w, o, Ok (bufferRoot w))
  else match (if String.eqb (bufferBase w) "" then None else mkdirAll), mkdirTemp with
       | Some e, _ => (w, o, Err (EWrapf "litestream: create write buffer root" e))
       | None, Err e => (w, o, Err (EWrapf "litestream: create temp dir" e))
       | None, Ok root =>
           (mkWrapper (writeEnabled w) (bufferBase w) root (tempFiles w) (activeFiles w) (cleanupPending w)
              (if writeEnabled w then root +:+ "/write-buffer" else WriteBufferPath w),
            mkWorld ({[root]} ∪ dirs o) (leaked o) (budget o), Ok root)
       end.

(** [os.RemoveAll] of a root. *)
Definition removeAll (err : option goerror) (root : string) (o : world) : world :=
  match err with
  | None => mkWorld (dirs o ∖ {[root]}) (leaked o) (budget o)
  | Some _ => mkWorld (dirs o) ({[root]} ∪ leaked o) (budget o)
  end.

Definition releaseBudget (o : world) : world :=
  mkWorld (dirs o) (leaked o) (TempBudget.release 0 (budget o)).

(** [discardBuffers] *)
Definition discardBuffers (removed : option goerror) (w : wrapper) (o : world)
    : wrapper * world * option goerror :=
  if 0 <? activeFiles w then
    (mkWrapper (writeEnabled w) (bufferBase w) (bufferRoot w) (tempFiles w) (activeFiles w) true
       (WriteBufferPath w), o, None)
  else
    let root := bufferRoot w in
    let w := mkWrapper (writeEnabled w) (bufferBase w) "" ∅ (activeFiles w) (cleanupPending w)
               (WriteBufferPath w) in
    let o := releaseBudget o in
    if String.eqb root "" then (w, o, None)
    else (w, removeAll removed root o, EWrapf "litestream: remove write buffer" <$> removed).

(** [fileClosed] *)
Definition fileClosed (removed : option goerror) (w : wrapper) (o : world) : wrapper * world :=
  let active := if 0 <? activeFiles w then activeFiles w - 1 else activeFiles w in
  if active =? 0 then
    let root := bufferRoot w in
    (mkWrapper (writeEnabled w) (bufferBase w) "" (tempFiles w) active false (WriteBufferPath w),
     if String.eqb root "" then o else removeAll removed root (releaseBudget o))
  else (mkWrapper (writeEnabled w) (bufferBase w) (bufferRoot w) (tempFiles w) active (cleanupPending w)
          (WriteBufferPath w), o).

(** The main-database branch of [Open], when the inner VFS has opened. *)
Definition openedMain (w : wrapper) : wrapper :=
  mkWrapper (writeEnabled w) (bufferBase w) (bufferRoot w) (tempFiles w) (activeFiles w + 1) (cleanupPending w)
    (WriteBufferPath w).

(** ** Named temporary files *)

(** [filepath.Base] of a cleaned name that is not a root. *)
Definition Base (canonical : string) : string := List.last (split slash canonical) "".

(** [%016x] *)
Fixpoint hex_pad (digits : nat) (n : Z) : string :=
  match digits with
  | O => ""
  | S d => hex_pad d (n / 16) +:+ String (hex_digit (n `mod` 16)) ""
  end.

Definition tempPath (root canonical : string) : string :=
  root +:+ "/" +:+ Base canonical +:+ "-" +:+ hex_pad 16 (Hash canonical).

Inductive opened := CantOpen | TempFile (path : option string) (deleteOnClose : bool).

(** [openTempFile]; [create] is whether [os] could create the file. *)
Definition openTempFile (mkdirAll : option goerror) (mkdirTemp : res goerror string) (create : bool)
    (name : string) (flags : Z) (w : wrapper) (o : world) : wrapper * world * res goerror opened :=
  match ensureBufferRoot mkdirAll mkdirTemp w o with
  | (w, o, Err e) => (w, o, Err e)
  | (w, o, Ok root) =>
      let deleteOnClose := has flags OpenDeleteOnClose || String.eqb name "" in
      if String.eqb name "" then (w, o, Ok (if create then TempFile None deleteOnClose else CantOpen))
      else
        let canonical := Clean name in
        if String.eqb canonical "." || String.eqb canonical "/" then (w, o, Ok CantOpen)
        else if create then
          let path := tempPath root canonical in
          (mkWrapper (writeEnabled w) (bufferBase w) (bufferRoot w) (<[canonical := path]> (tempFiles w))
             (activeFiles w) (cleanupPending w) (WriteBufferPath w), o, Ok (TempFile (Some path) deleteOnClose))
        else (w, o, Ok CantOpen)
  end.

Inductive removal := Removed | NotExist | RemoveErr (e : goerror).

(** [deleteTempFile]: [None] is [errTempFileNotFound]. *)
Definition deleteTempFile (r : removal) (name : string) (w : wrapper) : wrapper * option (option goerror) :=
  let canonical := Clean name in
  match tempFiles w !! canonical with
  | None => (w, None)
  | Some _ =>
      (mkWrapper (writeEnabled w) (bufferBase w) (bufferRoot w) (delete canonical (tempFiles w)) (activeFiles w)
         (cleanupPending w) (WriteBufferPath w),
       Some (match r with RemoveErr e => Some e | _ => None end))
  end.

(** [accessTempFile] *)
Definition accessTempFile (r : removal) (name : string) (w : wrapper) : option (bool * option goerror) :=
  match tempFiles w !! Clean name with
  | None => None
  | Some _ => Some (match r with Removed => (true, None) | NotExist => (false, None) | RemoveErr e => (false, Some e) end)
  end.

(** ** [localTempFile]'s lock *)

Definition LockNone : Z := 0.
Definition LockReserved : Z := 2.

Definition Lock (held lock : Z) : Z * option goerror :=
  if lock <? held then (held, Some (EOther "invalid lock downgrade")) else (lock, None).
Definition Unlock (held lock : Z) : Z := lock.
Definition CheckReservedLock (held : Z) : bool := LockReserved <=? held.

(** ** Closing, removing, looking up *)

(** A value computed by the first call of [sync.Once.Do] and kept. *)
Abbreviation once_err := (option (option goerror)).

(** [trackedFile.Close]; [inner] is what closing the file underneath gives. *)
Definition trackedClose (inner removed : option goerror) (f : once_err) (w : wrapper) (o : world)
    : once_err * wrapper * world * option goerror :=
  match f with
  | Some err => (f, w, o, err)
  | None => let '(w, o) := fileClosed removed w o in (Some inner, w, o, inner)
  end.

(** [localTempFile.Close] with [tempFileClosed]; [current] is the size of the
    directory afterwards. *)
Definition localClose (deleteOnClose : bool) (closed : option goerror) (r : removal) (current : res goerror Z)
    (f : once_err) (o : world) : once_err * world * option goerror :=
  match f with
  | Some err => (f, o, err)
  | None =>
      let err := match closed, deleteOnClose, r with
                 | None, true, RemoveErr e => Some e
                 | e, _, _ => e
                 end in
      (Some err, mkWorld (dirs o) (leaked o) (TempBudget.reconcile 0 current (budget o)).1, err)
  end.

(** [wrapperVFS.Delete], [wrapperVFS.Access]: a name that is not tracked is
    the inner VFS's. *)
Definition Delete (r : removal) (inner : option goerror) (name : string) (w : wrapper) : wrapper * option goerror :=
  match deleteTempFile r name w with
  | (w, Some err) => (w, err)
  | (w, None) => (w, inner)
  end.
Definition Access (r : removal) (inner : bool * option goerror) (name : string) (w : wrapper) : bool * option goerror :=
  default inner (accessTempFile r name w).

(** Deleting is final, and reports the inner VFS's answer for names that were
    never opened as temporary files, or no longer. *)
Lemma Delete_Access r r' inner inner' name w :
  Access r' inner' name (Delete r inner name w).1 = inner' /\
  (tempFiles w !! Clean name = None -> Delete r inner name w = (w, inner)).
Proof.
  unfold Delete, Access, deleteTempFile, accessTempFile.
  destruct (tempFiles w !! Clean name) eqn:Ht; cbn; [by rewrite lookup_delete_eq|by rewrite Ht].
Qed.

(** However often a main file is closed, the wrapper counts it once. *)
Lemma trackedClose_once inner inner' removed removed' w o :
  let '(f, w1, o1, err) := trackedClose inner removed None w o in
  trackedClose inner' removed' f w1 o1 = (f, w1, o1, inner) /\ err = inner.
Proof. unfold trackedClose. by destruct (fileClosed removed w o). Qed.

(** ** The size of the directory ([bufferSize]) *)

Inductive fs_err := Missing | FsErr (e : goerror).
Definition unless_missing (e : fs_err) : option goerror := match e with Missing => None | FsErr e => Some e end.

(** What [filepath.WalkDir] meets: a file with the answer of [Info], or a
    directory with the error of reading it, if any, and the entries read. *)
Inductive tree :=
  | TFile (info : fs_err + Z)
  | TDir (readErr : option fs_err) (entries : list tree).

Fixpoint walk (t : tree) (size : Z) : Z * option goerror :=
  match t with
  | TFile (inr n) => (wrap64 (size + n), None)
  | TFile (inl e) => (size, unless_missing e)
  | TDir readErr entries =>
      match readErr ≫= unless_missing with
      | Some e => (size, Some e)
      | None =>
          (fix go (ts : list tree) (size : Z) : Z * option goerror :=
             match ts with
             | [] => (size, None)
             | t :: ts => match walk t size with
                          | (size, Some e) => (size, Some e)
                          | (size, None) => go ts size
                          end
             end) entries size
      end
  end.

(** [root] is the answer of [Lstat] on the buffer root, if there is one. *)
Definition bufferSize (root : option (fs_err + tree)) : res goerror Z :=
  match root with
  | None | Some (inl Missing) => Ok 0
  | Some (inl (FsErr e)) => Err e
  | Some (inr t) => match walk t 0 with (size, None) => Ok size | (_, Some e) => Err e end
  end.

(** The bytes of the files that are there. *)
Fixpoint bytes_of (t : tree) : Z :=
  match t with
  | TFile (inr n) => n
  | TFile (inl _) => 0
  | TDir _ entries => foldr Z.add 0 (List.map bytes_of entries)
  end.

Fixpoint tree_rect' (P : tree -> Prop) (HF : forall i, P (TFile i))
    (HD : forall r ts, Forall P ts -> P (TDir r ts)) (t : tree) : P t :=
  match t with
  | TFile i => HF i
  | TDir r ts => HD r ts ((fix go (ts : list tree) : Forall P ts :=
      match ts with
      | [] => Forall_nil_2 P
      | t :: ts => Forall_cons_2 P t ts (tree_rect' P HF HD t) (go ts)
      end) ts)
  end.

Lemma wrap64_add x n : wrap64 (wrap64 x + n) = wrap64 (x + n).
Proof.
  unfold wrap64. f_equal.
  replace ((x + two63) mod two64 - two63 + n + two63) with ((x + two63) mod two64 + n) by lia.
  rewrite Zplus_mod_idemp_l. f_equal. lia.
Qed.

Lemma walk_exact t x n : walk t (wrap64 x) = (n, None) -> n = wrap64 (x + bytes_of t).
Proof.
  revert x n. induction t as [[e|n0]|r ts IH] using tree_rect'; intros x n; cbn.
  - intros [= <- _]. by rewrite Z.add_0_r.
  - intros [= <-]. apply wrap64_add.
  - destruct (r ≫= unless_missing); [done|]. revert x. induction IH as [|t ts Ht _ IH]; intros x; cbn.
    + intros [= <-]. by rewrite Z.add_0_r.
    + destruct (walk t (wrap64 x)) as [n1 [e|]] eqn:Hw; [done|]. rewrite (Ht x n1 Hw). intros H.
      rewrite (IH _ H). f_equal. lia.
Qed.

(** A size that is reported counts every file that is there, whatever has
    vanished while the directory was walked. *)
Theorem bufferSize_exact t n : bufferSize (Some (inr t)) = Ok n -> n = wrap64 (bytes_of t).
Proof.
  cbn. destruct (walk t 0) as [n1 [e|]] eqn:Hw; [done|]. intros [= <-].
  apply (walk_exact t 0). exact Hw.
Qed.

(** ** Runs *)

(** The wrapper, its world, and how many main database files are open. *)
Record sys := mkSys { wr : wrapper; wo : world; open : nat }.

Inductive step : sys -> sys -> Prop :=
  | StepEnsure s mkdirAll mkdirTemp w o r :
      (forall root, mkdirTemp = Ok root -> root <> "" /\ root ∉ dirs (wo s)) ->
      ensureBufferRoot mkdirAll mkdirTemp (wr s) (wo s) = (w, o, r) -> step s (mkSys w o (open s))
  | StepOpenMain s : step s (mkSys (openedMain (wr s)) (wo s) (S (open s)))
  | StepCloseMain s n removed w o : open s = S n ->
      fileClosed removed (wr s) (wo s) = (w, o) -> step s (mkSys w o n)
  | StepDiscard s removed w o err :
      discardBuffers removed (wr s) (wo s) = (w, o, err) -> step s (mkSys w o (open s))
  | StepOpenTemp s mkdirAll mkdirTemp create name flags w o r :
      (forall root, mkdirTemp = Ok root -> root <> "" /\ root ∉ dirs (wo s)) ->
      openTempFile mkdirAll mkdirTemp create name flags (wr s) (wo s) = (w, o, r) ->
      step s (mkSys w o (open s))
  | StepDeleteTemp s r name w res :
      deleteTempFile r name (wr s) = (w, res) -> step s (mkSys w (wo s) (open s))
  | StepReconcile s current b err :
      TempBudget.reconcile 0 current (budget (wo s)) = (b, err) ->
      step s (mkSys (wr s) (mkWorld (dirs (wo s)) (leaked (wo s)) b) (open s)).

Definition start (write : bool) (base : string) (b : TempBudget.budget) : sys :=
  mkSys (newWrapper write base) (mkWorld ∅ ∅ b) 0.

Inductive reachable (s0 : sys) : sys -> Prop :=
  | reach_start : reachable s0 s0
  | reach_step s s' : reachable s0 s -> step s s' -> reachable s0 s'.

(** ** Invariant *)

(** The wrapper's root is on disk; everything else on disk was left behind by
    a removal that failed; the count is that of the open files; in write mode
    the buffer path lies under the root. *)
Record inv (s : sys) : Prop := {
  i_active : activeFiles (wr s) = Z.of_nat (open s);
  i_dirs : forall d, d ∈ dirs (wo s) -> d <> "" /\ (d = bufferRoot (wr s) \/ d ∈ leaked (wo s));
  i_root : bufferRoot (wr s) <> "" -> bufferRoot (wr s) ∈ dirs (wo s);
  i_path : writeEnabled (wr s) = true -> bufferRoot (wr s) <> "" ->
             WriteBufferPath (wr s) = bufferRoot (wr s) +:+ "/write-buffer";
}.

Lemma inv_ensure mkdirAll mkdirTemp w o n w' o' r :
  inv (mkSys w o n) -> (forall root, mkdirTemp = Ok root -> root <> "" /\ root ∉ dirs o) ->
  ensureBufferRoot mkdirAll mkdirTemp w o = (w', o', r) ->
  inv (mkSys w' o' n) /\ (bufferRoot w <> "" -> w' = w /\ o' = o).
Proof.
  intros Hinv Hfresh. unfold ensureBufferRoot. pose proof Hinv as [H1 H2 H3 H4]. cbn in *.
  destruct (String.eqb_spec (bufferRoot w) "") as [Hr|Hr]; cbn [negb]; [|by intros [= <- <- _]].
  destruct (if String.eqb (bufferBase w) "" then None else mkdirAll); [by intros [= <- <- _]|].
  destruct mkdirTemp as [root|e]; [|by intros [= <- <- _]].
  destruct (Hfresh root eq_refl) as [Hne Hnew]. intros [= <- <- _]. split; [|done]. split; cbn.
  - done.
  - intros d [->%elem_of_singleton|Hd]%elem_of_union; [by split; [|left]|].
    destruct (H2 d Hd) as [Hd' [->|]]; [congruence|]. by split; [|right].
  - set_solver.
  - by intros -> _.
Qed.

Lemma removeAll_dirs err root o d :
  d ∈ dirs (removeAll err root o) ->
  d ∈ dirs o /\ (d = root -> d ∈ leaked (removeAll err root o)) /\
  (d ∈ leaked o -> d ∈ leaked (removeAll err root o)).
Proof. destruct err; cbn; set_solver. Qed.

Lemma inv_removed w w' o n m removed :
  inv (mkSys w o n) -> bufferRoot w' = "" -> activeFiles w' = Z.of_nat m ->
  inv (mkSys w' (if String.eqb (bufferRoot w) "" then o else removeAll removed (bufferRoot w) (releaseBudget o)) m).
Proof.
  intros [H1 H2 H3 H4] Hr Ha. cbn in *. destruct (String.eqb_spec (bufferRoot w) "") as [Hw|Hw].
  - split; cbn; rewrite ?Hr; try done. intros d Hd. destruct (H2 d Hd) as [? [->|]]; [congruence|auto].
  - split; cbn; rewrite ?Hr; try done. intros d Hd. apply removeAll_dirs in Hd as (Hd & Hl & Hl').
    cbn in Hd. destruct (H2 d Hd) as [Hne Hor]. split; [done|]. right.
    destruct Hor; [by apply Hl|by apply Hl'].
Qed.

Lemma inv_budget w o n b : inv (mkSys w o n) -> inv (mkSys w (mkWorld (dirs o) (leaked o) b) n).
Proof. by intros []. Qed.

(** A wrapper that differs only in its temporary files and its pending flag. *)
Lemma inv_same w w' o n :
  inv (mkSys w o n) -> bufferRoot w' = bufferRoot w -> activeFiles w' = activeFiles w ->
  writeEnabled w' = writeEnabled w -> WriteBufferPath w' = WriteBufferPath w -> inv (mkSys w' o n).
Proof. intros [H1 H2 H3 H4] Hr Ha He Hp. split; cbn in *; rewrite ?Hr, ?Ha, ?He, ?Hp; done. Qed.

(** While a main database file is open the root stays where it is. *)
Definition steady (s s' : sys) : Prop :=
  (0 < open s')%nat -> bufferRoot (wr s) <> "" -> bufferRoot (wr s') = bufferRoot (wr s).

Lemma buffer_inv_step s s' : inv s -> step s s' -> inv s' /\ steady s s'.
Proof.
  intros Hinv Hstep.
  destruct Hstep as [s mkdirAll mkdirTemp w o r Hf H|s|s n removed w o Hn H|s removed w o err H|
    s mkdirAll mkdirTemp create name flags w o r Hf H|s r name w res H|s current b err H];
    destruct s as [w0 o0 n0]; unfold steady; cbn in *.
  - destruct (inv_ensure _ _ _ _ _ _ _ _ Hinv Hf H) as [H1 H2]. split; [done|].
    intros _ Hr. by destruct (H2 Hr) as [-> _].
  - split; [|done]. destruct Hinv as [H1 H2 H3 H4]. cbn in *. split; cbn; [lia|done..].
  - subst n0. pose proof (i_active _ Hinv) as Ha. cbn in Ha. unfold fileClosed in H.
    rewrite (proj2 (Z.ltb_lt _ _)) in H by lia.
    destruct (Z.eqb_spec (activeFiles w0 - 1) 0); injection H as <- <-.
    + split; [|lia]. apply (inv_removed w0 _ o0 (S n) n removed Hinv); cbn; [done|lia].
    + split; [|done]. destruct Hinv as [H1 H2 H3 H4]. cbn in *. split; cbn; [lia|done..].
  - pose proof (i_active _ Hinv) as Ha. cbn in Ha. unfold discardBuffers in H.
    destruct (Z.ltb_spec 0 (activeFiles w0)).
    + injection H as <- <- _. split; [|done]. by apply (inv_same w0).
    + pose proof (inv_removed w0 (mkWrapper (writeEnabled w0) (bufferBase w0) "" ∅ (activeFiles w0)
        (cleanupPending w0) (WriteBufferPath w0)) o0 n0 n0 removed Hinv eq_refl Ha) as Hr.
      destruct (String.eqb (bufferRoot w0) ""); injection H as <- <- _; (split; [|lia]); [|done].
      by apply inv_budget.
  - unfold openTempFile in H.
    destruct (ensureBufferRoot mkdirAll mkdirTemp w0 o0) as [[w1 o1] r1] eqn:He.
    destruct (inv_ensure _ _ _ _ _ _ _ _ Hinv Hf He) as [H1 H2].
    assert (Hst : forall w, inv (mkSys w o1 n0) -> bufferRoot w = bufferRoot w1 ->
      inv (mkSys w o1 n0) /\ ((0 < n0)%nat -> bufferRoot w0 <> "" -> bufferRoot w = bufferRoot w0)).
    { intros w' Hw' Hr. split; [done|]. intros _ Hne. rewrite Hr. by destruct (H2 Hne) as [-> _]. }
    repeat case_match; injection H as <- <- _; apply Hst; try done; by apply (inv_same w1).
  - unfold deleteTempFile in H.
    destruct (tempFiles w0 !! Clean name); injection H as <- _; [|done]. split; [by apply (inv_same w0)|done].
  - split; [|done]. by apply inv_budget.
Qed.

Lemma start_inv write base b : inv (start write base b).
Proof. by split; cbn. Qed.

Lemma buffer_reachable_inv s0 s : inv s0 -> reachable s0 s -> inv s.
Proof. intros H0. induction 1; [done|]. by eapply buffer_inv_step. Qed.


(** ** A run *)

Definition a_budget : TempBudget.budget := newBudget 1048576.
Definition s_ensured : sys :=
  mkSys (mkWrapper true "" "/tmp/walrusd-write-1" ∅ 0 false "/tmp/walrusd-write-1/write-buffer")
    (mkWorld {["/tmp/walrusd-write-1"]} ∅ a_budget) 0.
Definition s_opened : sys := mkSys (openedMain (wr s_ensured)) (wo s_ensured) 1.
Definition s_closed : sys :=
  mkSys (fileClosed None (wr s_opened) (wo s_opened)).1 (fileClosed None (wr s_opened) (wo s_opened)).2 0.

Lemma opened_main_reachable : reachable (start true "" a_budget) s_opened.
Proof.
  apply (reach_step _ s_ensured); [apply (reach_step _ (start true "" a_budget)); [apply reach_start|]|].
  - apply (StepEnsure (start true "" a_budget) None (Ok "/tmp/walrusd-write-1") _ _ (Ok "/tmp/walrusd-write-1"));
      [|reflexivity]. intros root [= <-]. split; [done|]. apply not_elem_of_empty.
  - apply (StepOpenMain s_ensured).
Qed.

